(* ===== verification/_CoqProject ===== *)
-Q . S2P
Prelude.v
Queue.v
Mem.v
Mmu.v
Pmap.v
PageTable.v
PageMap.v
Kmalloc.v
Elf.v
Kernel.v
Env.v
Sched.v
Device.v
Kmmap.v
Userspace.v
Fork.v
Plic.v
Syscall.v
CString.v
Print.v
Proc.v
FsBlock.v
FsFile.v
Alloc.v
Endian.v
DeviceTree.v
DtParse.v
DtQuery.v
Discover.v
Pipe.v
FsServ.v
CharQueue.v
Serial.v
SerialSys.v
Uvm.v
Fd.v
PipeFd.v
FsIpc.v
FileClient.v
FileData.v
Virtio.v
VirtioSys.v
VirtioDisk.v
VirtioClient.v
FsImage.v
Fsformat.v
FsBuild.v
FsTree.v
FsBoot.v
FsLookup.v
Console.v
ProcList.v
SerialClient.v
