(* ===== verification/Prelude.v ===== *)
(** * The MOS kernel on RISC-V 64 and its user-level servers

    A library of definitions translated from the C sources under src/ and of
    the theorems that make them correct.

    ** The program

    MOS is a small exokernel-style system.  The kernel (src/kern, src/lib,
    src/include) manages physical pages, Sv39 page tables, a heap for its own
    objects, environments (processes), a round-robin scheduler, system calls
    with synchronous IPC, page faults with copy on write, and interrupts that
    are delivered to user environments.  At start it parses the device tree
    to find its devices.  Everything else is a user environment: the file
    server (src/fs), the drivers (src/driver), and the library client programs
    link with (src/user/lib): descriptors, pipes, fork.

    ** How code becomes definitions

    A C function over global state is a function of the monad [M S] of this
    file: it returns ([Ret]), calls [panic] ([Panic]), or gives the processor
    to an environment for good ([Resume]).  Integers are [Z] and every
    operation that can leave the range of its C type is wrapped ([u8] .. [u64],
    [i32]).  Memory is a function from addresses to bytes (Mem.v).  Objects of
    a fixed array (pages, environments) are named by their index, objects of
    the heap by their address; links of intrusive lists are explicit (Queue.v).
    Definitions keep the names of the code, and an Ltac [runs]/[calm] layer in
    this file carries the postconditions of programs.

    ** Parts

    - Queue.v (include/queue.h): LIST and TAILQ macros, refinement of lists.
    - Mmu.v, Mem.v (include/mmu.h): address layout, entry macros, memory.
    - Pmap.v, PageTable.v, PageMap.v (kern/pmap.c): the page allocator; the
      page-table walk and the operations that map pages; what they do to the
      mapping a table stands for, to reference counts, to the TLB and to other
      address spaces.
    - Kmalloc.v, Alloc.v (kern/kmalloc.c): the heap, and the class [Allocator]
      its clients (the device tree) are verified against.
    - Kernel.v, Env.v, Sched.v (kern/env.c, kern/sched.c): the kernel's state,
      identifiers, creation and destruction of environments, the scheduler.
      Elf.v (lib/elfloader.c): loading a segment, generic in its callback.
    - Device.v, Kmmap.v (kern/device.c, kern/kmmap.c): devices; the window of
      virtual addresses through which the kernel reaches their registers, as a
      first-fit allocator whose mappings are those of its allocations.
    - Userspace.v, Fork.v (kern/userspace.c, kern/tlbex.c, kern/fork.c): access
      to user memory, allocation on first touch, duplication of an address space.
    - Plic.v (kern/plic.c, kern/traps.c, kern/env_interrupt.c): interrupts,
      page faults, copy on write, interrupts delivered to environments.
    - Syscall.v (kern/syscall_all.c): every system call and the dispatcher.
    - CString.v, Print.v (lib/string.c, lib/print.c): library routines.
    - Endian.v, DeviceTree.v, DtParse.v, DtQuery.v (kern/device_tree.c,
      kern/endian.c): the parser against an encoder of reference trees, and
      the searches against breadth-first order.
    - Discover.v (kern/virtio.c, kern/serial.c, kern/plic.c): the devices the
      kernel registers at start, read from the tree.
    - Proc.v, FsBlock.v, FsFile.v, FsServ.v (fs/): the file server over the
      interface [HasProc] of a user process: block cache and bitmap, files and
      directories, the open-file table and the requests.
    - Fsformat.v (tools/fsformat.c): the host program that builds the disk
      image.  FsImage.v says what it is for a disk to hold a tree of files;
      FsBuild.v and FsTree.v show that the builder makes such a disk; FsBoot.v
      and FsLookup.v that the file server starts on it and serves the tree.
    - Pipe.v (user/lib/pipe.c): a reader and a writer, step by step.
    - CharQueue.v, Serial.v, SerialSys.v (driver/serial/): the ring buffers,
      the interrupt handler over the class [Uart] of the hardware, and the main
      thread interleaved with interrupts.  SerialClient.v (user/lib/serial.c): a
      program's reads and writes through the driver, which it finds by name with
      ProcList.v (user/lib/process.c) in the table the kernel writes.
    - Console.v (user/lib/console.c): the console behind a descriptor.
    - Uvm.v, Fd.v (user/lib/fd.c), PipeFd.v (user/lib/pipe.c): a process with
      shared pages, the descriptor table, and pipes through descriptors.
    - FsIpc.v, FileClient.v, FileData.v (user/lib/fsipc.c, user/lib/file.c):
      files as a client sees them, for any answers of the file server.
    - Virtio.v, VirtioSys.v, VirtioDisk.v (driver/virtio/): the disk driver over
      the class [VirtioMmio] of its registers; [BlkDevice] states what a device
      does with the driver's queue, and the system of driver, device and
      interrupts is a step relation.  VirtioClient.v (user/lib/virtio.c): the
      driver's client, and the meaning of the block layer's sector requests.

    Components meet in the code's own calls: [page_insert] calls the walk and
    the page allocator, [env_alloc] those and the id allocators, [sys_mem_map]
    resolves environments and maps pages, [init_devices] searches the parsed
    tree and fills the device table over the heap, [serve_open] runs the file layer,
    which runs the block layer, which runs the process interface.  The requests
    of the file library are shown to be ones the file server answers, and a
    sector request of the block layer to be what the disk's client and driver do.
    The image the builder writes is a disk the file server starts on, and the
    bytes of the host's files are the bytes its clients find.

    ** Theorems

    A property of a component is a theorem with a "C" number; its instance at
    a concrete state ends in [_witness].  The groups: functional behaviour on
    every branch (page mapping, environments, IPC, block allocation, path
    resolution); invariants kept by every operation (free lists, heaps,
    scheduler queue, rings); refinement of an abstract object (lists, heaps as
    tilings, a bounded byte queue for the pipe and the serial rings);
    equivalence with a reference (memory routines, directory lookup,
    breadth-first search); round trips (map and translate, allocate and free,
    print and parse, device-tree encode and parse, write back and read, write to
    a file and read, a file of the host through the image to the server);
    isolation of address spaces; error returns; progress (the scheduler runs
    everyone, a blocked receiver gets its message, each request of the file
    server is answered once).

    ** Bounds and fuel

    A [for] loop of known length is [mfor]; a search in a linked list takes
    [fuel], and its theorem states the bound that is enough (the number of
    blocks, of environments, of free pages); loops over text take the length
    of the text.  Loops that wait for another process or for hardware are steps
    of a relation, or return a flag that says whether the fuel was enough, with
    a theorem that gives the fuel.  The theorems about the disk driver are for
    the first 512 requests after its start, because the driver's ring overflows
    at the next one.  Those about the disk image are for arguments whose
    files, directories and indirect blocks fit the 1021 blocks after the bitmap,
    and take the height of the deepest directory as fuel of the recursion.

    ** Not modelled

    Assembly (trap entry, context restore, boot) beyond the effect the C code
    relies on; the debugging output of the kernel and of the servers (printk,
    debugf, backtrace, the register dumps of panic.c), which changes no state
    that is read again; the constants of include/elf.h and user/include/lib.h;
    the user library's wrappers of system calls and the start of a program;
    test and demonstration programs; the host tools other than the image
    builder.  Hardware (Sv39 translation, PLIC, UART,
    disk) is modelled by the registers and memory the code accesses. *)
From Stdlib Require Export ZArith Lia.
From stdpp Require Export base tactics numbers option functions fin_sets list.

#[global] Open Scope Z_scope.

(** ** Machine words

    A C unsigned integer of [w] bits is a [Z] in [0, 2^w); every operation
    that can leave the range is wrapped explicitly. *)
Definition u8 (x : Z) : Z := x mod 2 ^ 8.
Definition u16 (x : Z) : Z := x mod 2 ^ 16.
Definition u32 (x : Z) : Z := x mod 2 ^ 32.
Definition u64 (x : Z) : Z := x mod 2 ^ 64.

(** The two's complement reading of a 32-bit pattern: C's [int]. *)
Definition i32 (x : Z) : Z :=
  let y := x mod 2 ^ 32 in if y <? 2 ^ 31 then y else y - 2 ^ 32.

Lemma i32_small x : 0 <= x < 2 ^ 31 -> i32 x = x.
Proof.
  intros Hx. unfold i32. rewrite Z.mod_small by lia. by destruct (Z.ltb_spec x (2 ^ 31)); [|lia].
Qed.

(** include/bitops.h: [GENMASK(h, l)], bits [l .. h] set, in 64-bit arithmetic. *)
Definition GENMASK (h l : Z) : Z :=
  Z.land (u64 (Z.shiftl (2 ^ 64 - 1) l)) (Z.shiftr (2 ^ 64 - 1) (64 - 1 - h)).

(** include/types.h: [ROUND] and [ROUNDDOWN], both computed on [u_reg_t]. *)
Definition ROUND (a n : Z) : Z :=
  Z.land (u64 (a + n - 1)) (2 ^ 64 - 1 - u64 (n - 1)).
Definition ROUNDDOWN (a n : Z) : Z := Z.land (u64 a) (2 ^ 64 - 1 - u64 (n - 1)).

(** ** Outcomes and the kernel monad

    A C function that reads and writes kernel state is a function from the
    state to an outcome: it returns a value, it calls [panic], or it never
    returns because control went to the user environment [e] through
    [env_pop_tf]. *)
Inductive outcome (S A : Type) : Type :=
  | Ret (a : A) (s : S)
  | Panic (s : S)
  | Resume (e : Z) (s : S).
Arguments Ret {S A} a s.
Arguments Panic {S A} s.
Arguments Resume {S A} e s.

(** The value and the state of a run that returned. *)
Definition returned {S A} (o : outcome S A) : option (A * S) :=
  match o with Ret a s => Some (a, s) | _ => None end.

Definition M (S A : Type) : Type := S -> outcome S A.

#[global] Instance M_ret S : MRet (M S) := fun A a s => Ret a s.
#[global] Instance M_bind S : MBind (M S) := fun A B f m s =>
  match m s with
  | Ret a s' => f a s'
  | Panic s' => Panic s'
  | Resume e s' => Resume e s'
  end.

Section monad.
Context {S : Type}.

Definition get {A} (f : S -> A) : M S A := fun s => Ret (f s) s.
Definition modify (f : S -> S) : M S unit := fun s => Ret tt (f s).
Definition panic {A} : M S A := fun s => Panic s.
(** Control goes to user environment [e] for good. *)
Definition resume {A} (e : Z) : M S A := fun s => Resume e s.
Definition panic_on (r : Z) : M S unit := if r =? 0 then mret tt else panic.
Definition assert (b : bool) : M S unit := if b then mret tt else panic.

(** [for (i = lo; n more iterations; i++) body(i)] *)
Fixpoint mfor (n : nat) (i : Z) (body : Z -> M S unit) : M S unit :=
  match n with
  | O => mret tt
  | Datatypes.S n' => body i ;; mfor n' (i + 1) body
  end.

(** The same loop when its body may [return] from the enclosing function. *)
Fixpoint mfor_ret {A} (n : nat) (i : Z) (body : Z -> M S (option A)) :
    M S (option A) :=
  match n with
  | O => mret None
  | Datatypes.S n' =>
      r ← body i;
      match r with
      | Some a => mret (Some a)
      | None => mfor_ret n' (i + 1) body
      end
  end.

Lemma bind_ret {A B} (m : M S A) (f : A -> M S B) s a s' :
  m s = Ret a s' -> (m ≫= f) s = f a s'.
Proof. intros H. unfold mbind, M_bind. by rewrite H. Qed.

Lemma bind_panic {A B} (m : M S A) (f : A -> M S B) s s' :
  m s = Panic s' -> (m ≫= f) s = Panic s'.
Proof. intros H. unfold mbind, M_bind. by rewrite H. Qed.

Lemma bind_resume {A B} (m : M S A) (f : A -> M S B) s e s' :
  m s = Resume e s' -> (m ≫= f) s = Resume e s'.
Proof. intros H. unfold mbind, M_bind. by rewrite H. Qed.

Lemma bind_get {A B} (g : S -> A) (f : A -> M S B) s :
  (get g ≫= f) s = f (g s) s.
Proof. done. Qed.

Lemma bind_modify {B} g (f : unit -> M S B) s :
  (modify g ≫= f) s = f tt (g s).
Proof. done. Qed.

Lemma bind_mret {A B} (a : A) (f : A -> M S B) s :
  (mret a ≫= f) s = f a s.
Proof. done. Qed.

Lemma bind_assoc {A B C} (m : M S A) (f : A -> M S B) (g : B -> M S C) s :
  ((m ≫= f) ≫= g) s = (m ≫= (fun a => f a ≫= g)) s.
Proof. unfold mbind, M_bind. by destruct (m s). Qed.

(** A loop whose every iteration returns runs to its end and keeps any
    relation the iterations compose. *)
Lemma mfor_inv (I : Z -> S -> Prop) (body : Z -> M S unit) n : forall i s,
  I i s ->
  (forall j s, i <= j < i + Z.of_nat n -> I j s ->
     exists s', body j s = Ret tt s' /\ I (j + 1) s') ->
  exists s', mfor n i body s = Ret tt s' /\ I (i + Z.of_nat n) s'.
Proof.
  induction n as [|n IH]; intros i s Hi Hstep.
  - exists s. rewrite Z.add_0_r. done.
  - destruct (Hstep i s) as (s1 & Hb & H1); [lia|done|].
    destruct (IH (i + 1) s1 H1) as (s2 & Hf & H2).
    { intros j s' Hj. apply Hstep. lia. }
    exists s2. simpl. rewrite (bind_ret _ _ _ _ _ Hb). split; [done|].
    by replace (i + Z.of_nat (Datatypes.S n)) with (i + 1 + Z.of_nat n) by lia.
Qed.
End monad.

(** Running an operation of a component on its part of a larger state. *)
Definition zoom {S T A} (g : T -> S) (put : S -> T -> T) (m : M S A) : M T A :=
  fun t =>
    match m (g t) with
    | Ret a s => Ret a (put s t)
    | Panic s => Panic (put s t)
    | Resume e s => Resume e (put s t)
    end.

Lemma zoom_ret {S T A} (g : T -> S) put (m : M S A) t a s :
  m (g t) = Ret a s -> zoom g put m t = Ret a (put s t).
Proof. intros H. unfold zoom. by rewrite H. Qed.

Lemma zoom_panic {S T A} (g : T -> S) put (m : M S A) t s :
  m (g t) = Panic s -> zoom g put m t = Panic (put s t).
Proof. intros H. unfold zoom. by rewrite H. Qed.

(** ** Error codes (include/error.h) *)
Definition E_UNSPECIFIED : Z := 1.
Definition E_BAD_ENV : Z := 2.
Definition E_INVAL : Z := 3.
Definition E_NO_MEM : Z := 4.
Definition E_NO_SYS : Z := 5.
Definition E_NO_FREE_ENV : Z := 6.
Definition E_IPC_NOT_RECV : Z := 7.
Definition E_NO_DISK : Z := 8.
Definition E_MAX_OPEN : Z := 9.
Definition E_NOT_FOUND : Z := 10.
Definition E_BAD_PATH : Z := 11.
Definition E_FILE_EXISTS : Z := 12.
Definition E_NOT_EXEC : Z := 13.
Definition E_INTR : Z := 14.
Definition E_NO_DEV : Z := 15.

(** ** Tactics *)

(** Symbolic execution of one monadic step whose first action is known. *)
Ltac mrun H := rewrite (bind_ret _ _ _ _ _ H).
Ltac msimp := repeat (rewrite bind_get || rewrite bind_modify || rewrite bind_mret); simpl.

Lemma land_ones' x k m : 0 <= k -> m = 2 ^ k - 1 -> Z.land x m = x mod 2 ^ k.
Proof. intros Hk ->. rewrite <- Z.land_ones by done. f_equal. rewrite Z.ones_equiv. lia. Qed.

(** [(x << k) | y] with [y] below [2^k] is [x * 2^k + y]. *)
Lemma lor_shiftl x y k :
  0 <= k -> 0 <= y < 2 ^ k -> Z.lor (Z.shiftl x k) y = x * 2 ^ k + y.
Proof.
  intros Hk Hy. rewrite <- Z.shiftl_mul_pow2 by done.
  rewrite <- Z.lxor_lor, Z.add_nocarry_lxor; [done| |].
  all: apply Z.bits_inj'; intros n Hn; rewrite Z.land_spec, Z.bits_0;
    destruct (Z.lt_ge_cases n k);
    [by rewrite Z.shiftl_spec_low by lia|].
  all: rewrite <- (Z.mod_small y (2 ^ k)) by done;
    rewrite Z.mod_pow2_bits_high by lia; apply andb_false_r.
Qed.

(** Clearing the low bits of a word. *)
Lemma land_high y k : 0 <= k <= 64 -> 0 <= y < 2 ^ 64 ->
  Z.land y (Z.ldiff (Z.ones 64) (Z.ones k)) = y / 2 ^ k * 2 ^ k.
Proof.
  intros Hk Hy. apply Z.bits_inj'. intros n Hn.
  rewrite <- Z.shiftr_div_pow2, <- Z.shiftl_mul_pow2 by lia.
  rewrite Z.land_spec, Z.ldiff_spec, !Z.testbit_ones_nonneg by lia.
  destruct (Z.lt_ge_cases n k).
  - rewrite Z.shiftl_spec_low by lia. destruct (Z.ltb_spec n k); [|lia]. simpl. by rewrite !andb_false_r.
  - rewrite Z.shiftl_spec_high, Z.shiftr_spec by lia. replace (n - k + k) with n by lia.
    destruct (Z.ltb_spec n k); [lia|]. simpl. destruct (Z.ltb_spec n 64); simpl; [by rewrite andb_true_r|].
    rewrite andb_false_r. symmetry. rewrite <- (Z.mod_small y (2 ^ 64)) by lia.
    apply Z.mod_pow2_bits_high. lia.
Qed.

Lemma ROUND_pow2 k x : 0 <= k < 64 -> 0 <= x <= 2 ^ 64 - 2 ^ k ->
  ROUND x (2 ^ k) = (x + 2 ^ k - 1) / 2 ^ k * 2 ^ k.
Proof.
  intros Hk Hx. assert (0 < 2 ^ k < 2 ^ 64) by (split; [lia|apply Z.pow_lt_mono_r; lia]).
  unfold ROUND, u64. rewrite !Z.mod_small by lia.
  replace (2 ^ 64 - 1 - (2 ^ k - 1)) with (Z.ldiff (Z.ones 64) (Z.ones k)); [apply land_high; lia|].
  rewrite <- Z.sub_nocarry_ldiff; [rewrite !Z.ones_equiv; lia|].
  apply Z.bits_inj'. intros n Hn. rewrite Z.ldiff_spec, Z.bits_0, !Z.testbit_ones_nonneg by lia.
  destruct (Z.ltb_spec n k), (Z.ltb_spec n 64); (done || lia).
Qed.

(** Decide a [Z] comparison in the goal. *)
Ltac zcase :=
  match goal with
  | |- context [?a =? ?b] => destruct (Z.eqb_spec a b)
  | |- context [?a <? ?b] => destruct (Z.ltb_spec a b)
  | |- context [?a <=? ?b] => destruct (Z.leb_spec a b)
  end.

(** The upper bits of a truncated number. *)
Lemma mod_pow2_div_pow2 x a b :
  0 <= a <= b -> (x mod 2 ^ b) / 2 ^ a = (x / 2 ^ a) mod 2 ^ (b - a).
Proof.
  intros H. replace (2 ^ b) with (2 ^ a * 2 ^ (b - a))
    by (rewrite <- Z.pow_add_r by lia; f_equal; lia).
  assert (0 < 2 ^ a) by lia. assert (0 < 2 ^ (b - a)) by lia.
  rewrite Z.rem_mul_r, Z.add_comm, Z.mul_comm, Z.div_add_l by lia.
  rewrite (Z.div_small (x mod 2 ^ a)) by (apply Z.mod_pos_bound; lia). lia.
Qed.

Lemma mod_mod_pow2 x a b : 0 <= a <= b -> (x mod 2 ^ b) mod 2 ^ a = x mod 2 ^ a.
Proof.
  intros H. replace (2 ^ b) with (2 ^ a * 2 ^ (b - a))
    by (rewrite <- Z.pow_add_r by lia; f_equal; lia).
  assert (0 < 2 ^ a) by lia. assert (0 < 2 ^ (b - a)) by lia.
  rewrite Z.rem_mul_r by lia.
  rewrite (Z.mul_comm (2 ^ a) (_ mod _)), Z.mod_add by lia. apply Z.mod_mod. lia.
Qed.

(** Bits below the shift of a shifted number are zero. *)
Lemma land_shiftl_low x k m : 0 <= k -> 0 <= m < 2 ^ k -> Z.land (Z.shiftl x k) m = 0.
Proof.
  intros Hk Hm. apply Z.bits_inj'. intros n Hn. rewrite Z.land_spec, Z.bits_0.
  destruct (Z.lt_ge_cases n k); [by rewrite Z.shiftl_spec_low by lia|].
  rewrite <- (Z.mod_small m (2 ^ k)), Z.mod_pow2_bits_high by lia. apply andb_false_r.
Qed.

(** A single bit of a word. *)
Lemma land_bit w i : 0 <= i -> (Z.land w (Z.shiftl 1 i) =? 0) = negb (Z.testbit w i).
Proof.
  intros Hi. rewrite Z.shiftl_1_l. destruct (Z.testbit w i) eqn:E; simpl.
  - apply Z.eqb_neq. intros H. pose proof (Z.land_spec w (2 ^ i) i) as Hl.
    rewrite H, Z.bits_0, E, Z.pow2_bits_true in Hl by done. done.
  - apply Z.eqb_eq, Z.bits_inj'. intros n Hn. rewrite Z.land_spec, Z.bits_0, Z.pow2_bits_eqb by done.
    destruct (Z.eqb_spec i n) as [->|]; [by rewrite E|apply andb_false_r].
Qed.

Lemma set_bit_spec w i n : 0 <= i -> 0 <= n ->
  Z.testbit (Z.lor w (Z.shiftl 1 i)) n = (i =? n) || Z.testbit w n.
Proof.
  intros Hi Hn. rewrite Z.lor_spec, Z.shiftl_1_l, Z.pow2_bits_eqb by done. apply orb_comm.
Qed.

(** Clearing a bit with a complemented mask of [k] bits. *)
Lemma mask_not_bit k i n : 0 <= i < k -> 0 <= n ->
  Z.testbit (2 ^ k - 1 - Z.shiftl 1 i) n = (n <? k) && negb (i =? n).
Proof.
  intros Hi Hn. rewrite Z.shiftl_1_l.
  replace (2 ^ k - 1 - 2 ^ i) with (Z.ldiff (Z.ones k) (2 ^ i)).
  - rewrite Z.ldiff_spec, Z.testbit_ones_nonneg, Z.pow2_bits_eqb by lia. done.
  - symmetry. rewrite <- Z.sub_nocarry_ldiff.
    + rewrite Z.ones_equiv. lia.
    + apply Z.bits_inj'. intros m Hm. rewrite Z.ldiff_spec, Z.bits_0, Z.pow2_bits_eqb by lia.
      destruct (Z.eqb_spec i m) as [->|]; [|done].
      rewrite Z.testbit_ones_nonneg by lia. by destruct (Z.ltb_spec m k); [|lia].
Qed.

Lemma clear_bit_spec w k i n : 0 <= w < 2 ^ k -> 0 <= i < k -> 0 <= n ->
  Z.testbit (Z.land w (2 ^ k - 1 - Z.shiftl 1 i)) n = negb (i =? n) && Z.testbit w n.
Proof.
  intros Hw Hi Hn. rewrite Z.land_spec, mask_not_bit by done.
  destruct (Z.ltb_spec n k); simpl; [apply andb_comm|].
  rewrite <- (Z.mod_small w (2 ^ k)), Z.mod_pow2_bits_high by lia. simpl.
  by rewrite andb_false_r.
Qed.

(** Numbers with equal quotients are compared by their remainders. *)
Lemma mod_eqb a b n : n <> 0 -> a / n = b / n -> (a mod n =? b mod n) = (a =? b).
Proof.
  intros Hn H. pose proof (Z.div_mod a n Hn). pose proof (Z.div_mod b n Hn).
  destruct (Z.eqb_spec a b) as [->|Hne]; [apply Z.eqb_refl|]. apply Z.eqb_neq. congruence.
Qed.

Lemma land_bound a b k : 0 <= k -> 0 <= a < 2 ^ k -> 0 <= Z.land a b < 2 ^ k.
Proof.
  intros Hk Ha. rewrite <- (Z.mod_small a (2 ^ k)), <- Z.land_ones by done.
  rewrite <- Z.land_assoc, (Z.land_comm (Z.ones k)), Z.land_assoc, Z.land_ones by done.
  apply Z.mod_pos_bound. lia.
Qed.

(** Reading a function that was updated at a point. *)
Create Rewrite HintDb fn.
#[export] Hint Rewrite @fn_lookup_insert : fn.
#[export] Hint Rewrite @fn_lookup_insert_ne using congruence : fn.
Ltac fnsimpl := simpl; autorewrite with fn; simpl.

(** ** Outcomes that satisfy a postcondition

    [runs o Q P]: the run returned in a state that satisfies [Q], or panicked
    in one that satisfies [P]. *)
Definition runs {S A} (o : outcome S A) (Q : A -> S -> Prop) (P : S -> Prop) : Prop :=
  match o with Ret a s => Q a s | Panic s => P s | Resume _ _ => False end.

Lemma runs_bind {S A B} (m : M S A) (f : A -> M S B) s Q' Q P :
  runs (m s) Q' P -> (forall a s', Q' a s' -> runs (f a s') Q P) -> runs ((m ≫= f) s) Q P.
Proof.
  unfold runs, mbind, M_bind. intros H1 H2. destruct (m s) as [a s1|s1|e s1]; [by apply H2|done..].
Qed.

Lemma runs_mono {S A} (o : outcome S A) (Q Q' : A -> S -> Prop) (P : S -> Prop) :
  runs o Q P -> (forall a s, Q a s -> Q' a s) -> runs o Q' P.
Proof. unfold runs. destruct o; auto. Qed.

Lemma mfor_runs {S} (I : Z -> S -> Prop) (P : S -> Prop) (body : Z -> M S unit) n : forall i s,
  I i s ->
  (forall j s, i <= j < i + Z.of_nat n -> I j s -> runs (body j s) (fun _ => I (j + 1)) P) ->
  runs (mfor n i body s) (fun _ => I (i + Z.of_nat n)) P.
Proof.
  induction n as [|n IH]; intros i s Hi Hb.
  - change (I (i + 0) s). by rewrite Z.add_0_r.
  - simpl. eapply runs_bind; [apply Hb; [lia|done]|]. intros a s' Hs.
    eapply runs_mono; [apply (IH (i + 1)); [done|]|].
    + intros j s2 Hj. apply Hb. lia.
    + intros a2 s2. by replace (i + Z.of_nat (Datatypes.S n)) with (i + 1 + Z.of_nat n) by lia.
Qed.

(** A loop with a [break]: the body says whether to go on. *)
Fixpoint mfor_break {S} (n : nat) (i : Z) (body : Z -> M S bool) : M S unit :=
  match n with
  | O => mret tt
  | Datatypes.S n =>
      go ← body i;
      if (go : bool) then mfor_break n (i + 1) body else mret tt
  end.

Lemma mfor_break_runs {S} (I : Z -> S -> Prop) (Q : S -> Prop) (P : S -> Prop)
    (body : Z -> M S bool) n : forall i s,
  I i s ->
  (forall j s, i <= j < i + Z.of_nat n -> I j s ->
     runs (body j s) (fun go s' => if (go : bool) then I (j + 1) s' else Q s') P) ->
  (forall s, I (i + Z.of_nat n) s -> Q s) ->
  runs (mfor_break n i body s) (fun _ => Q) P.
Proof.
  induction n as [|n IH]; intros i s Hi Hb HQ.
  - apply HQ. by rewrite Z.add_0_r.
  - simpl. eapply runs_bind; [apply Hb; [lia|done]|]. intros [] s' Hs; simpl in Hs; [|done].
    apply IH; [done| |].
    + intros j s2 Hj. apply Hb. lia.
    + intros s2. replace (i + 1 + Z.of_nat n) with (i + Z.of_nat (Datatypes.S n)) by lia. auto.
Qed.

(** ** Searches: loops that leave the state alone until they return *)

Lemma mfor_ret_none {S A} (body : Z -> M S (option A)) n : forall i s,
  (forall j, i <= j < i + Z.of_nat n -> body j s = Ret None s) ->
  mfor_ret n i body s = Ret None s.
Proof.
  induction n as [|n IH]; intros i s Hb; [done|]. simpl.
  rewrite (bind_ret _ _ _ _ _ (Hb i ltac:(lia))). apply IH. intros j Hj. apply Hb. lia.
Qed.

Lemma mfor_ret_some {S A} (body : Z -> M S (option A)) k : forall n i s a s',
  (k < n)%nat ->
  (forall j, i <= j < i + Z.of_nat k -> body j s = Ret None s) ->
  body (i + Z.of_nat k) s = Ret (Some a) s' ->
  mfor_ret n i body s = Ret (Some a) s'.
Proof.
  induction k as [|k IH]; intros [|n] i s a s' Hn Hb Ha; try lia; simpl.
  - rewrite Z.add_0_r in Ha. by rewrite (bind_ret _ _ _ _ _ Ha).
  - rewrite (bind_ret _ _ _ _ _ (Hb i ltac:(lia))). apply IH; [lia| |].
    + intros j Hj. apply Hb. lia.
    + by replace (i + 1 + Z.of_nat k) with (i + Z.of_nat (Datatypes.S k)) by lia.
Qed.

(** The first index of a range that satisfies a test, or that there is none. *)
Lemma first_index (p : Z -> bool) i n :
  (exists k, (k < n)%nat /\ p (i + Z.of_nat k) = true /\
     forall j, i <= j < i + Z.of_nat k -> p j = false) \/
  (forall j, i <= j < i + Z.of_nat n -> p j = false).
Proof.
  induction n as [|n [(k & Hk & H)|IH]].
  - right. intros j Hj. lia.
  - left. exists k. split; [lia|done].
  - destruct (p (i + Z.of_nat n)) eqn:E.
    + left. exists n. split; [lia|done].
    + right. intros j Hj. destruct (Z.eq_dec j (i + Z.of_nat n)) as [->|]; [done|]. apply IH. lia.
Qed.

(** A loop that may return early keeps [I] or ends with [E]. *)
Lemma mfor_ret_inv {S A} (I : Z -> S -> Prop) (E : A -> S -> Prop) (body : Z -> M S (option A)) n : forall i s,
  I i s ->
  (forall j s, i <= j < i + Z.of_nat n -> I j s ->
     exists r s', body j s = Ret r s' /\ match r with None => I (j + 1) s' | Some a => E a s' end) ->
  exists r s', mfor_ret n i body s = Ret r s' /\ match r with None => I (i + Z.of_nat n) s' | Some a => E a s' end.
Proof.
  induction n as [|n IH]; intros i s Hi Hb.
  - exists None, s. rewrite Z.add_0_r. done.
  - simpl. destruct (Hb i s ltac:(lia) Hi) as (r & s1 & E1 & H1). rewrite (bind_ret _ _ _ _ _ E1).
    destruct r as [a|]; [by exists (Some a), s1|].
    destruct (IH (i + 1) s1 H1) as (r & s2 & E2 & H2); [intros j s' Hj; apply Hb; lia|].
    exists r, s2. split; [done|]. destruct r; [done|]. by replace (i + Z.of_nat (Datatypes.S n)) with (i + 1 + Z.of_nat n) by lia.
Qed.

(** ** Operations that give control back

    [calm m]: [m] returns or panics; it never resumes an environment. *)
Definition calm {S A} (m : M S A) : Prop := forall s e s', m s <> Resume e s'.

Lemma calm_ret {S A} (a : A) : calm (S := S) (mret a).
Proof. done. Qed.
Lemma calm_bind {S A B} (m : M S A) (f : A -> M S B) : calm m -> (forall a, calm (f a)) -> calm (m ≫= f).
Proof.
  intros Hm Hf s e s' H. unfold mbind, M_bind in H. destruct (m s) as [a s1|s1|e1 s1] eqn:E; [by eapply Hf|done|by eapply Hm].
Qed.
Lemma calm_get {S A} (f : S -> A) : calm (get f).
Proof. done. Qed.
Lemma calm_modify {S} (f : S -> S) : calm (modify f).
Proof. done. Qed.
Lemma calm_panic {S A} : calm (S := S) (A := A) panic.
Proof. done. Qed.
Lemma calm_mfor {S} (body : Z -> M S unit) n : forall i, (forall j, calm (body j)) -> calm (mfor n i body).
Proof.
  induction n as [|n IH]; intros i Hb; simpl; [apply calm_ret|].
  apply calm_bind; [apply Hb|intros _; by apply IH].
Qed.
Lemma calm_mfor_ret {S A} (body : Z -> M S (option A)) n : forall i, (forall j, calm (body j)) -> calm (mfor_ret n i body).
Proof.
  induction n as [|n IH]; intros i Hb; simpl; [apply calm_ret|]. apply calm_bind; [apply Hb|].
  intros [a|]; [apply calm_ret|by apply IH].
Qed.
Lemma calm_mfor_break {S} (body : Z -> M S bool) n : forall i, (forall j, calm (body j)) -> calm (mfor_break n i body).
Proof.
  induction n as [|n IH]; intros i Hb; simpl; [apply calm_ret|]. apply calm_bind; [apply Hb|].
  intros []; [by apply IH|apply calm_ret].
Qed.
Create HintDb calm.
#[export] Hint Resolve calm_ret calm_get calm_modify calm_panic : calm.
Ltac calm1 :=
  first [ solve [auto with calm]
        | apply calm_bind; [|intros ?]
        | apply calm_mfor; intros ?
        | apply calm_mfor_ret; intros ?
        | apply calm_mfor_break; intros ?
        | match goal with |- calm (match ?x with _ => _ end) => destruct x end
        | match goal with |- calm (let _ := _ in _) => cbv zeta end ].
Ltac calm := intros; repeat calm1.
