(* ===== verification/Queue.v ===== *)
(** include/queue.h: the intrusive LIST and TAILQ macros.

    A node is named by an integer (a page index, an index into [envs], the
    address of a heap block).  The link field of every node of one kind is a
    function from nodes to [lnk]; [le_prev]/[tqe_prev] is the address of a
    pointer cell, which is either the head's first-pointer, the next-pointer
    of a node, or NULL.  Each macro is written as the assignments it expands
    to; one that stores through [le_prev] or [tqh_last] is partial, the store
    through NULL being the failure.

    [list_rep] and [tailq_rep] relate a head and its links to the abstract
    list of nodes, and the lemmas show that the macros refine the operations
    on lists. *)
From S2P Require Import Prelude.

(** The address of a [struct type *] cell. *)
Inductive lptr := PNull | PHead | PNext (x : Z).

#[global] Instance lptr_eq_dec : EqDecision lptr.
Proof. solve_decision. Defined.

(** [LIST_ENTRY] / [TAILQ_ENTRY] *)
Record lnk := Lnk { nxt : option Z; prv : lptr }.

(** A zero-initialised entry (static storage). *)
Definition lnk0 : lnk := Lnk None PNull.

Definition set_nxt (x : Z) (v : option Z) (f : Z -> lnk) : Z -> lnk :=
  <[x := Lnk v (prv (f x))]> f.
Definition set_prv (x : Z) (p : lptr) (f : Z -> lnk) : Z -> lnk :=
  <[x := Lnk (nxt (f x)) p]> f.

(** [LIST_HEAD] together with the links of the nodes of its kind. *)
Record lst := Lst { lh_first : option Z; l_lnk : Z -> lnk }.

(** [TAILQ_HEAD] together with the links of the nodes of its kind. *)
Record tailq := TailQ { tqh_first : option Z; tqh_last : lptr; t_lnk : Z -> lnk }.

(** ** The LIST macros *)

Definition LIST_INIT (q : lst) : lst := Lst None (l_lnk q).
Definition LIST_EMPTY (q : lst) : bool := bool_decide (lh_first q = None).
Definition LIST_FIRST (q : lst) : option Z := lh_first q.
Definition LIST_NEXT (q : lst) (x : Z) : option Z := nxt (l_lnk q x).

(** [if (v != NULL) v->le_prev = p] *)
Definition fix_prv (v : option Z) (p : lptr) (f : Z -> lnk) : Z -> lnk :=
  match v with Some y => set_prv y p f | None => f end.

Definition LIST_INSERT_AFTER (listelm elm : Z) (q : lst) : lst :=
  let f := l_lnk q in
  let f := set_nxt elm (nxt (f listelm)) f in
  let f := set_prv elm (PNext listelm) f in
  let f := fix_prv (nxt (f listelm)) (PNext elm) f in
  let f := set_nxt listelm (Some elm) f in
  Lst (lh_first q) f.

Definition LIST_INSERT_HEAD (elm : Z) (q : lst) : lst :=
  let f := set_nxt elm (lh_first q) (l_lnk q) in
  let f := fix_prv (lh_first q) (PNext elm) f in
  let f := set_prv elm PHead f in
  Lst (Some elm) f.

(** [*p = v] where [p] points into a LIST. *)
Definition lwrite (p : lptr) (v : option Z) (q : lst) : option lst :=
  match p with
  | PNull => None
  | PHead => Some (Lst v (l_lnk q))
  | PNext y => Some (Lst (lh_first q) (set_nxt y v (l_lnk q)))
  end.

Definition LIST_INSERT_BEFORE (listelm elm : Z) (q : lst) : option lst :=
  let q := Lst (lh_first q) (set_nxt elm (Some listelm) (l_lnk q)) in
  let q := Lst (lh_first q) (set_prv elm (prv (l_lnk q listelm)) (l_lnk q)) in
  q ← lwrite (prv (l_lnk q listelm)) (Some elm) q;
  Some (Lst (lh_first q) (set_prv listelm (PNext elm) (l_lnk q))).

Definition LIST_REMOVE (elm : Z) (q : lst) : option lst :=
  let f := fix_prv (nxt (l_lnk q elm)) (prv (l_lnk q elm)) (l_lnk q) in
  lwrite (prv (f elm)) (nxt (f elm)) (Lst (lh_first q) f).

(** ** The TAILQ macros *)

Definition TAILQ_INIT (q : tailq) : tailq := TailQ None PHead (t_lnk q).
Definition TAILQ_EMPTY (q : tailq) : bool := bool_decide (tqh_first q = None).
Definition TAILQ_FIRST (q : tailq) : option Z := tqh_first q.
Definition TAILQ_NEXT (q : tailq) (x : Z) : option Z := nxt (t_lnk q x).

Definition twrite (p : lptr) (v : option Z) (q : tailq) : option tailq :=
  match p with
  | PNull => None
  | PHead => Some (TailQ v (tqh_last q) (t_lnk q))
  | PNext y => Some (TailQ (tqh_first q) (tqh_last q) (set_nxt y v (t_lnk q)))
  end.

Definition TAILQ_INSERT_HEAD (elm : Z) (q : tailq) : tailq :=
  let f := set_nxt elm (tqh_first q) (t_lnk q) in
  let '(f, last) :=
    match nxt (f elm) with
    | Some y => (set_prv y (PNext elm) f, tqh_last q)
    | None => (f, PNext elm)
    end in
  TailQ (Some elm) last (set_prv elm PHead f).

Definition TAILQ_INSERT_TAIL (elm : Z) (q : tailq) : option tailq :=
  let f := set_nxt elm None (t_lnk q) in
  let f := set_prv elm (tqh_last q) f in
  q' ← twrite (tqh_last q) (Some elm) (TailQ (tqh_first q) (tqh_last q) f);
  Some (TailQ (tqh_first q') (PNext elm) (t_lnk q')).

Definition TAILQ_REMOVE (elm : Z) (q : tailq) : option tailq :=
  let q1 :=
    match nxt (t_lnk q elm) with
    | Some y => TailQ (tqh_first q) (tqh_last q) (set_prv y (prv (t_lnk q elm)) (t_lnk q))
    | None => TailQ (tqh_first q) (prv (t_lnk q elm)) (t_lnk q)
    end in
  twrite (prv (t_lnk q1 elm)) (nxt (t_lnk q1 elm)) q1.

(** [LIST_FOREACH]/[TAILQ_FOREACH]: the nodes the traversal visits. *)
Fixpoint foreach (fuel : nat) (f : Z -> lnk) (v : option Z) : list Z :=
  match fuel, v with
  | S n, Some x => x :: foreach n f (nxt (f x))
  | _, _ => []
  end.

(** ** Representation *)

(** [lseg f p v l w]: from the pointer value [v], stored in the cell [p], the
    links lead through the nodes [l] to the pointer value [w]. *)
Fixpoint lseg (f : Z -> lnk) (p : lptr) (v : option Z) (l : list Z) (w : option Z) : Prop :=
  match l with
  | [] => v = w
  | x :: l' => v = Some x /\ prv (f x) = p /\ lseg f (PNext x) (nxt (f x)) l' w
  end.

(** The address of the cell that ends the list. *)
Fixpoint last_ptr (p : lptr) (l : list Z) : lptr :=
  match l with [] => p | x :: l' => last_ptr (PNext x) l' end.

Definition list_rep (q : lst) (l : list Z) : Prop :=
  NoDup l /\ lseg (l_lnk q) PHead (lh_first q) l None.

Definition tailq_rep (q : tailq) (l : list Z) : Prop :=
  NoDup l /\ lseg (t_lnk q) PHead (tqh_first q) l None /\ tqh_last q = last_ptr PHead l.

(** The abstract removal. *)
Definition lremove (x : Z) (l : list Z) : list Z := filter (fun y => y <> x) l.

(** ** Lemmas on the links *)

Lemma lnk_eta (k : lnk) : Lnk (nxt k) (prv k) = k.
Proof. by destruct k. Qed.

Lemma set_nxt_eq x v f : set_nxt x v f x = Lnk v (prv (f x)).
Proof. unfold set_nxt. by rewrite fn_lookup_insert. Qed.
Lemma set_nxt_ne x y v f : x <> y -> set_nxt x v f y = f y.
Proof. intros. unfold set_nxt. by rewrite fn_lookup_insert_ne. Qed.
Lemma set_prv_eq x p f : set_prv x p f x = Lnk (nxt (f x)) p.
Proof. unfold set_prv. by rewrite fn_lookup_insert. Qed.
Lemma set_prv_ne x y p f : x <> y -> set_prv x p f y = f y.
Proof. intros. unfold set_prv. by rewrite fn_lookup_insert_ne. Qed.

Create Rewrite HintDb lnk.
#[export] Hint Rewrite set_nxt_eq set_prv_eq : lnk.
#[export] Hint Rewrite set_nxt_ne set_prv_ne using congruence : lnk.

Lemma fix_prv_ne f v p x : v <> Some x -> fix_prv v p f x = f x.
Proof. intros. destruct v as [y|]; simpl; [|done]. apply set_prv_ne. congruence. Qed.

Lemma fix_prv_nxt f v p x : nxt (fix_prv v p f x) = nxt (f x).
Proof.
  destruct v as [y|]; [|done]. simpl.
  destruct (decide (y = x)) as [->|]; [by rewrite set_prv_eq|by rewrite set_prv_ne].
Qed.

(** A segment depends only on the links of its own nodes. *)
Lemma lseg_frame f g l w : forall p v,
  (forall x, x ∈ l -> f x = g x) -> lseg f p v l w -> lseg g p v l w.
Proof.
  induction l as [|x l IH]; intros p v Hfg; simpl; [done|].
  intros (-> & Hp & Hl). rewrite <- (Hfg x) by set_solver.
  split_and!; [done|done|]. apply IH; [set_solver|done].
Qed.

Lemma lseg_set_nxt f p v l w x u :
  x ∉ l -> lseg f p v l w -> lseg (set_nxt x u f) p v l w.
Proof. intros Hx. apply lseg_frame. intros y Hy. by rewrite set_nxt_ne by set_solver. Qed.

Lemma lseg_set_prv f p v l w x u :
  x ∉ l -> lseg f p v l w -> lseg (set_prv x u f) p v l w.
Proof. intros Hx. apply lseg_frame. intros y Hy. by rewrite set_prv_ne by set_solver. Qed.

Lemma lseg_fix_prv_out f p v l w u p' :
  (forall x, u = Some x -> x ∉ l) -> lseg f p v l w -> lseg (fix_prv u p' f) p v l w.
Proof.
  intros Hu. apply lseg_frame. intros y Hy. rewrite fix_prv_ne; [done|].
  intros ->. by apply (Hu y).
Qed.

(** Moving the cell a segment hangs from. *)
Lemma lseg_fix_prv f p p' v l :
  NoDup l -> lseg f p v l None -> lseg (fix_prv v p' f) p' v l None.
Proof.
  destruct l as [|x l]; simpl; [by intros _ ->|].
  intros [Hx Hnd]%NoDup_cons (-> & Hp & Hl). simpl.
  rewrite set_prv_eq. split_and!; [done..|]. by apply lseg_set_prv.
Qed.

Lemma lseg_hd f p v l : lseg f p v l None -> v = head l.
Proof. destruct l; simpl; [done|by intros [-> _]]. Qed.

Lemma head_elem {A} (l : list A) x : head l = Some x -> x ∈ l.
Proof. destruct l; set_solver. Qed.

Lemma lseg_app f l1 l2 w : forall p v,
  lseg f p v (l1 ++ l2) w <->
  exists u, lseg f p v l1 u /\ lseg f (last_ptr p l1) u l2 w.
Proof.
  induction l1 as [|x l1 IH]; intros p v; simpl; [naive_solver|].
  rewrite IH. naive_solver.
Qed.

Lemma last_ptr_app p l1 l2 : last_ptr p (l1 ++ l2) = last_ptr (last_ptr p l1) l2.
Proof. revert p. induction l1; simpl; auto. Qed.

Lemma last_ptr_snoc p l x : last_ptr p (l ++ [x]) = PNext x.
Proof. by rewrite last_ptr_app. Qed.

(** Overwriting the pointer at the end of a non-empty segment. *)
Lemma lseg_set_end f p v l y u w :
  y ∉ l -> lseg f p v (l ++ [y]) u -> lseg (set_nxt y w f) p v (l ++ [y]) w.
Proof.
  intros Hy. rewrite !lseg_app. intros (u1 & H1 & H2). exists u1.
  split; [by apply lseg_set_nxt|]. simpl in *.
  rewrite set_nxt_eq. naive_solver.
Qed.

(** A store through the cell at the end of a segment that starts at the head. *)
Lemma lwrite_end q l u w :
  NoDup l -> lseg (l_lnk q) PHead (lh_first q) l u ->
  exists q', lwrite (last_ptr PHead l) w q = Some q' /\
    lseg (l_lnk q') PHead (lh_first q') l w /\
    (forall z, z ∉ l -> l_lnk q' z = l_lnk q z).
Proof.
  intros Hnd Hl. destruct l as [|y l _] using rev_ind.
  - eexists. simpl. split_and!; [done..|]. done.
  - rewrite last_ptr_snoc. eexists. simpl. split_and!; [done| |].
    + eapply lseg_set_end; [|done]. apply NoDup_app in Hnd. set_solver.
    + intros z Hz. apply set_nxt_ne. set_solver.
Qed.

(** ** The LIST macros refine the list operations *)

Lemma NoDup_mid {A} (l1 l2 : list A) x :
  NoDup (l1 ++ x :: l2) <-> x ∉ l1 /\ x ∉ l2 /\ NoDup (l1 ++ l2).
Proof.
  rewrite !NoDup_app, NoDup_cons. set_solver.
Qed.

Lemma lremove_notin x l : x ∉ l -> lremove x l = l.
Proof.
  unfold lremove. induction l as [|y l IH]; [done|]. intros Hx.
  rewrite filter_cons, decide_True, IH by set_solver. done.
Qed.

Lemma lremove_mid x l1 l2 : x ∉ l1 -> x ∉ l2 -> lremove x (l1 ++ x :: l2) = l1 ++ l2.
Proof.
  intros H1 H2. transitivity (lremove x l1 ++ lremove x l2); [|by rewrite !lremove_notin].
  unfold lremove. rewrite filter_app, filter_cons.
  by rewrite decide_False by (intros H; by apply H).
Qed.

Lemma elem_of_lremove x y l : y ∈ lremove x l <-> y ∈ l /\ y <> x.
Proof. unfold lremove. rewrite list_elem_of_filter. naive_solver. Qed.

Lemma list_rep_init q : list_rep (LIST_INIT q) [].
Proof. split; [constructor|done]. Qed.

Lemma list_rep_first q l : list_rep q l -> LIST_FIRST q = head l.
Proof. intros [_ H]. by eapply lseg_hd. Qed.

Lemma list_rep_nodup q l : list_rep q l -> NoDup l.
Proof. by intros [? _]. Qed.

Lemma list_rep_insert_head q l x :
  list_rep q l -> x ∉ l -> list_rep (LIST_INSERT_HEAD x q) (x :: l).
Proof.
  intros [Hnd Hl] Hx. split; [by constructor|]. simpl.
  assert (lh_first q <> Some x) as Hne.
  { intros H. apply lseg_hd in Hl. rewrite H in Hl. apply Hx, head_elem. done. }
  rewrite set_prv_eq, fix_prv_nxt, set_nxt_eq. simpl. split_and!; [done..|].
  apply lseg_set_prv; [done|].
  eapply (lseg_fix_prv _ PHead); [done|]. by apply lseg_set_nxt.
Qed.

Lemma list_rep_remove q l1 l2 x :
  list_rep q (l1 ++ x :: l2) ->
  exists q', LIST_REMOVE x q = Some q' /\ list_rep q' (l1 ++ l2).
Proof.
  intros [Hnd (u & H1 & Hu & Hp & H2)%lseg_app].
  apply NoDup_mid in Hnd as (Hx1 & Hx2 & Hnd).
  pose proof (lseg_hd _ _ _ _ H2) as Hh.
  apply NoDup_app in Hnd as Hnd'. destruct Hnd' as (Hnd1 & Hdis & Hnd2).
  assert (nxt (l_lnk q x) <> Some x) as Hne.
  { rewrite Hh. intros ?%head_elem. done. }
  set (f := fix_prv (nxt (l_lnk q x)) (prv (l_lnk q x)) (l_lnk q)).
  assert (f x = l_lnk q x) as Hfx by by apply fix_prv_ne.
  unfold LIST_REMOVE. fold f. rewrite Hfx, Hp.
  edestruct (lwrite_end (Lst (lh_first q) f) l1 u (nxt (l_lnk q x)))
    as (q' & Hw & Hl1 & Hout); [done| |].
  { simpl. apply lseg_fix_prv_out; [|done]. rewrite Hh. intros y ?%head_elem. set_solver. }
  exists q'. split; [done|]. split; [done|]. apply lseg_app. eexists. split; [done|].
  eapply lseg_frame; [|eapply lseg_fix_prv; [done|exact H2]].
  intros z Hz. rewrite Hout by set_solver. simpl. unfold f. by rewrite Hp.
Qed.

Lemma list_rep_insert_after q l1 l2 x y :
  list_rep q (l1 ++ x :: l2) -> y ∉ l1 ++ x :: l2 ->
  list_rep (LIST_INSERT_AFTER x y q) (l1 ++ x :: y :: l2).
Proof.
  intros [Hnd (u & H1 & -> & Hp & H2)%lseg_app] Hy.
  split. { apply NoDup_app in Hnd. rewrite NoDup_cons in Hnd.
    apply NoDup_app. rewrite !NoDup_cons. set_solver. }
  apply NoDup_mid in Hnd as (Hx1 & Hx2 & Hnd).
  apply NoDup_app in Hnd as (Hnd1 & Hdis & Hnd2).
  pose proof (lseg_hd _ _ _ _ H2) as Hh.
  assert (x <> y) by set_solver.
  assert (nxt (l_lnk q x) <> Some x /\ nxt (l_lnk q x) <> Some y) as [? ?].
  { rewrite Hh. split; intros ?%head_elem; set_solver. }
  unfold LIST_INSERT_AFTER. simpl. autorewrite with lnk. simpl. autorewrite with lnk.
  set (g := set_prv y _ _).
  assert (g x = l_lnk q x) as Hgx by (unfold g; by autorewrite with lnk).
  assert (g y = Lnk (nxt (l_lnk q x)) (PNext x)) as Hgy by (unfold g; by autorewrite with lnk).
  apply lseg_app. exists (Some x). split.
  { apply lseg_set_nxt; [set_solver|]. apply lseg_fix_prv_out.
    { rewrite Hh. intros z ?%head_elem. set_solver. }
    unfold g. apply lseg_set_prv; [set_solver|]. apply lseg_set_nxt; [set_solver|done]. }
  simpl. autorewrite with lnk. rewrite !fix_prv_ne by done. rewrite Hgx, Hgy. simpl.
  split_and!; [done..|].
  apply lseg_set_nxt; [set_solver|]. eapply (lseg_fix_prv _ (PNext x)); [done|].
  unfold g. apply lseg_set_prv; [set_solver|]. apply lseg_set_nxt; [set_solver|done].
Qed.

Lemma last_ptr_ne_null l : last_ptr PHead l <> PNull.
Proof. destruct l as [|y l _] using rev_ind; [done|]. by rewrite last_ptr_snoc. Qed.

Lemma list_rep_insert_before q l1 l2 x y :
  list_rep q (l1 ++ x :: l2) -> y ∉ l1 ++ x :: l2 ->
  exists q', LIST_INSERT_BEFORE x y q = Some q' /\ list_rep q' (l1 ++ y :: x :: l2).
Proof.
  intros [Hnd (u & H1 & -> & Hp & H2)%lseg_app] Hy.
  assert (NoDup (l1 ++ y :: x :: l2)) as Hnd'.
  { apply NoDup_app in Hnd. rewrite NoDup_cons in Hnd.
    apply NoDup_app. rewrite !NoDup_cons. set_solver. }
  apply NoDup_mid in Hnd as (Hx1 & Hx2 & Hnd).
  apply NoDup_app in Hnd as (Hnd1 & Hdis & Hnd2).
  assert (x <> y) by set_solver.
  unfold LIST_INSERT_BEFORE. simpl.
  replace (prv (set_nxt y (Some x) (l_lnk q) x)) with (last_ptr PHead l1)
    by by rewrite set_nxt_ne.
  set (g := set_prv y _ _).
  assert (g x = l_lnk q x) as Hgx by (unfold g; by autorewrite with lnk).
  assert (g y = Lnk (Some x) (last_ptr PHead l1)) as Hgy
    by (unfold g; by autorewrite with lnk).
  rewrite Hgx, Hp.
  edestruct (lwrite_end (Lst (lh_first q) g) l1 (Some x) (Some y))
    as (q' & Hw & Hl1 & Hout); [done| |].
  { simpl. unfold g. apply lseg_set_prv; [set_solver|]. apply lseg_set_nxt; [set_solver|done]. }
  rewrite Hw. simpl. eexists. split; [done|]. split; [done|]. simpl.
  apply lseg_app. exists (Some y). split; [by apply lseg_set_prv|]. simpl.
  rewrite set_prv_ne, Hout, set_prv_eq, (Hout x) by set_solver. simpl.
  rewrite Hgy, Hgx. simpl. split_and!; [done..|]. apply lseg_set_prv; [done|].
  eapply lseg_frame; [|exact H2]. intros z Hz. rewrite Hout by set_solver. simpl.
  unfold g. by rewrite set_prv_ne, set_nxt_ne by set_solver.
Qed.

(** Removal stated with the abstract operation. *)
Lemma list_rep_remove_elem q l x :
  list_rep q l -> x ∈ l ->
  exists q', LIST_REMOVE x q = Some q' /\ list_rep q' (lremove x l).
Proof.
  intros Hq Hx. apply list_elem_of_split in Hx as (l1 & l2 & ->).
  destruct (list_rep_remove _ _ _ _ Hq) as (q' & ? & ?).
  destruct Hq as [(? & ? & ?)%NoDup_mid _].
  exists q'. by rewrite lremove_mid.
Qed.

(** Popping the first node. *)
Lemma list_rep_pop q l x :
  list_rep q (x :: l) -> exists q', LIST_REMOVE x q = Some q' /\ list_rep q' l.
Proof. apply (list_rep_remove q []). Qed.

(** ** The TAILQ macros refine the list operations *)

Lemma twrite_end q l u w :
  NoDup l -> lseg (t_lnk q) PHead (tqh_first q) l u ->
  exists q', twrite (last_ptr PHead l) w q = Some q' /\
    lseg (t_lnk q') PHead (tqh_first q') l w /\ tqh_last q' = tqh_last q /\
    (forall z, z ∉ l -> t_lnk q' z = t_lnk q z).
Proof.
  intros Hnd Hl. destruct l as [|y l _] using rev_ind.
  - eexists. simpl. split_and!; done.
  - rewrite last_ptr_snoc. eexists. simpl. split_and!; [done| |done|].
    + eapply lseg_set_end; [|done]. apply NoDup_app in Hnd. set_solver.
    + intros z Hz. apply set_nxt_ne. set_solver.
Qed.

Lemma tailq_rep_init q : tailq_rep (TAILQ_INIT q) [].
Proof. split_and!; [constructor|done..]. Qed.

Lemma tailq_rep_first q l : tailq_rep q l -> TAILQ_FIRST q = head l.
Proof. intros (_ & H & _). by eapply lseg_hd. Qed.

Lemma tailq_rep_nodup q l : tailq_rep q l -> NoDup l.
Proof. by intros [? _]. Qed.

Lemma tailq_rep_insert_tail q l x :
  tailq_rep q l -> x ∉ l ->
  exists q', TAILQ_INSERT_TAIL x q = Some q' /\ tailq_rep q' (l ++ [x]).
Proof.
  intros (Hnd & Hl & Hlast) Hx. unfold TAILQ_INSERT_TAIL. rewrite Hlast.
  edestruct (twrite_end (TailQ (tqh_first q) (last_ptr PHead l)
    (set_prv x (last_ptr PHead l) (set_nxt x None (t_lnk q)))) l None (Some x))
    as (q' & Hw & Hl' & Hlast' & Hout); [done| |].
  { simpl. by apply lseg_set_prv, lseg_set_nxt. }
  rewrite Hw. simpl. eexists. split; [done|]. split_and!; simpl.
  - apply NoDup_app. split_and!; [done|set_solver|apply NoDup_singleton].
  - apply lseg_app. exists (Some x). split; [done|]. simpl.
    rewrite Hout by done. simpl. rewrite set_prv_eq, set_nxt_eq. done.
  - by rewrite last_ptr_snoc.
Qed.

(** In a queue no node is its own successor. *)
Lemma tailq_rep_next_ne q l x : tailq_rep q l -> x ∈ l -> TAILQ_NEXT q x <> Some x.
Proof.
  intros (Hnd & Hl & _) (l1 & l2 & ->)%list_elem_of_split. apply lseg_app in Hl as (u & _ & _ & _ & H2).
  apply lseg_hd in H2. unfold TAILQ_NEXT. rewrite H2. apply NoDup_app in Hnd as (_ & _ & Hnd).
  apply NoDup_cons in Hnd as [Hx _]. intros Heq. by apply head_elem in Heq.
Qed.

(** Inserting the last node again makes it its own successor. *)
Lemma tailq_insert_last_again q l x : tailq_rep q (l ++ [x]) ->
  exists q', TAILQ_INSERT_TAIL x q = Some q' /\ TAILQ_NEXT q' x = Some x.
Proof.
  intros (_ & _ & Hlast). rewrite last_ptr_snoc in Hlast. unfold TAILQ_INSERT_TAIL. rewrite Hlast.
  eexists. split; [done|]. unfold TAILQ_NEXT. simpl. by rewrite set_nxt_eq.
Qed.

Lemma tailq_rep_insert_head q l x :
  tailq_rep q l -> x ∉ l -> tailq_rep (TAILQ_INSERT_HEAD x q) (x :: l).
Proof.
  intros (Hnd & Hl & Hlast) Hx. unfold TAILQ_INSERT_HEAD. rewrite set_nxt_eq. simpl.
  pose proof (lseg_hd _ _ _ _ Hl) as Hh.
  destruct (tqh_first q) as [y|].
  - assert (x <> y) by (intros ->; symmetry in Hh; by apply head_elem in Hh).
    split_and!; [by constructor| |].
    + simpl. rewrite set_prv_eq, set_prv_ne, set_nxt_eq by done. simpl.
      split_and!; [done..|]. apply lseg_set_prv; [done|].
      eapply (lseg_fix_prv _ _ _ (Some y)); [done|]. by apply lseg_set_nxt.
    + destruct l; [done|]. by simpl in *.
  - destruct l; [|done]. split_and!; [apply NoDup_singleton| |done].
    simpl. rewrite set_prv_eq, set_nxt_eq. done.
Qed.

Lemma tailq_rep_remove q l1 l2 x :
  tailq_rep q (l1 ++ x :: l2) ->
  exists q', TAILQ_REMOVE x q = Some q' /\ tailq_rep q' (l1 ++ l2).
Proof.
  intros (Hnd & (u & H1 & Hu & Hp & H2)%lseg_app & Hlast).
  apply NoDup_mid in Hnd as (Hx1 & Hx2 & Hnd).
  pose proof (lseg_hd _ _ _ _ H2) as Hh.
  apply NoDup_app in Hnd as Hnd'. destruct Hnd' as (Hnd1 & Hdis & Hnd2).
  unfold TAILQ_REMOVE. set (q1 := match nxt (t_lnk q x) with Some _ => _ | None => _ end).
  assert (tqh_first q1 = tqh_first q /\ t_lnk q1 = fix_prv (nxt (t_lnk q x)) (prv (t_lnk q x)) (t_lnk q)
    /\ tqh_last q1 = last_ptr (last_ptr PHead l1) l2) as (E1 & E2 & E3).
  { unfold q1. rewrite Hp, last_ptr_app in *. destruct (nxt (t_lnk q x)) as [y|].
    - destruct l2; [done|]. split_and!; done.
    - destruct l2; [|done]. split_and!; done. }
  assert (t_lnk q1 x = t_lnk q x) as Hfx.
  { rewrite E2. apply fix_prv_ne. rewrite Hh. by intros ?%head_elem. }
  rewrite Hfx, Hp.
  edestruct (twrite_end q1 l1 u (nxt (t_lnk q x))) as (q' & Hw & Hl1 & Hlast' & Hout); [done| |].
  { rewrite E1, E2. apply lseg_fix_prv_out; [|done]. rewrite Hh. intros y ?%head_elem. set_solver. }
  exists q'. split; [done|]. split_and!; [done| |by rewrite last_ptr_app, Hlast'].
  apply lseg_app. eexists. split; [done|].
  eapply lseg_frame; [|eapply lseg_fix_prv; [done|exact H2]].
  intros z Hz. rewrite Hout, E2 by set_solver. by rewrite Hp.
Qed.

Lemma tailq_rep_remove_elem q l x :
  tailq_rep q l -> x ∈ l ->
  exists q', TAILQ_REMOVE x q = Some q' /\ tailq_rep q' (lremove x l).
Proof.
  intros Hq Hx. apply list_elem_of_split in Hx as (l1 & l2 & ->).
  destruct (tailq_rep_remove _ _ _ _ Hq) as (q' & ? & ?).
  destruct Hq as [(? & ? & ?)%NoDup_mid _].
  exists q'. by rewrite lremove_mid.
Qed.

(** A traversal visits the nodes in order, given fuel for all of them. *)
Lemma foreach_lseg f l : forall fuel p v,
  lseg f p v l None -> (length l <= fuel)%nat -> foreach fuel f v = l.
Proof.
  induction l as [|x l IH]; intros fuel p v; simpl.
  - intros ->. by destruct fuel.
  - intros (-> & _ & Hl) Hf. destruct fuel; [lia|]. simpl. f_equal.
    eapply IH; [done|lia].
Qed.

(** ** The properties *)

(** Every LIST macro of include/queue.h, on a head that represents the
    list [l], computes the list operation it is named after and never stores
    through a NULL [le_prev]. *)
Theorem LIST_refines_list q l :
  list_rep q l ->
  LIST_FIRST q = head l /\ LIST_EMPTY q = bool_decide (l = []) /\
  list_rep (LIST_INIT q) [] /\
  foreach (length l) (l_lnk q) (LIST_FIRST q) = l /\
  (forall x, x ∉ l -> list_rep (LIST_INSERT_HEAD x q) (x :: l)) /\
  (forall x, x ∈ l -> exists q', LIST_REMOVE x q = Some q' /\ list_rep q' (lremove x l)) /\
  (forall l1 x l2 y, l = l1 ++ x :: l2 -> y ∉ l ->
     list_rep (LIST_INSERT_AFTER x y q) (l1 ++ x :: y :: l2) /\
     exists q', LIST_INSERT_BEFORE x y q = Some q' /\ list_rep q' (l1 ++ y :: x :: l2)).
Proof.
  intros Hq. pose proof (list_rep_first _ _ Hq) as Hf. split_and!.
  - done.
  - unfold LIST_EMPTY. unfold LIST_FIRST in Hf. rewrite Hf. by destruct l; repeat case_bool_decide.
  - apply list_rep_init.
  - destruct Hq as [_ Hl]. by eapply foreach_lseg.
  - intros x. by apply list_rep_insert_head.
  - intros x. by apply list_rep_remove_elem.
  - intros l1 x l2 y -> Hy. split; [by apply list_rep_insert_after|by apply list_rep_insert_before].
Qed.

(** The list 3, 1, 2 built by the macros. *)
Definition lst312 : lst :=
  LIST_INSERT_HEAD 3 (LIST_INSERT_HEAD 1 (LIST_INSERT_HEAD 2 (Lst None (fun _ => lnk0)))).

Lemma lst312_rep : list_rep lst312 [3; 1; 2].
Proof.
  unfold lst312. repeat apply list_rep_insert_head; try set_solver by lia.
  apply (list_rep_init (Lst None (fun _ => lnk0))).
Qed.

Lemma LIST_refines_list_witness :
  exists q', LIST_REMOVE 1 lst312 = Some q' /\ list_rep q' [3; 2].
Proof.
  destruct (LIST_refines_list lst312 [3; 1; 2] lst312_rep) as (_ & _ & _ & _ & _ & Hr & _).
  apply (Hr 1). set_solver.
Defined.

(** C3: the same for the TAILQ macros, whose tail insertion also keeps
    [tqh_last] pointing at the last next-pointer. *)
Theorem TAILQ_refines_list q l :
  tailq_rep q l ->
  TAILQ_FIRST q = head l /\ TAILQ_EMPTY q = bool_decide (l = []) /\
  tailq_rep (TAILQ_INIT q) [] /\
  foreach (length l) (t_lnk q) (TAILQ_FIRST q) = l /\
  (forall x, x ∉ l -> tailq_rep (TAILQ_INSERT_HEAD x q) (x :: l)) /\
  (forall x, x ∉ l -> exists q', TAILQ_INSERT_TAIL x q = Some q' /\ tailq_rep q' (l ++ [x])) /\
  (forall x, x ∈ l -> exists q', TAILQ_REMOVE x q = Some q' /\ tailq_rep q' (lremove x l)).
Proof.
  intros Hq. pose proof (tailq_rep_first _ _ Hq) as Hf. split_and!.
  - done.
  - unfold TAILQ_EMPTY. unfold TAILQ_FIRST in Hf. rewrite Hf. by destruct l; repeat case_bool_decide.
  - apply tailq_rep_init.
  - destruct Hq as (_ & Hl & _). by eapply foreach_lseg.
  - intros x. by apply tailq_rep_insert_head.
  - intros x. by apply tailq_rep_insert_tail.
  - intros x. by apply tailq_rep_remove_elem.
Qed.

Definition tailq0 : tailq := TailQ None PHead (fun _ => lnk0).

Lemma TAILQ_refines_list_witness :
  exists q', TAILQ_INSERT_TAIL 5 (TAILQ_INSERT_HEAD 4 tailq0) = Some q' /\ tailq_rep q' [4; 5].
Proof.
  destruct (TAILQ_refines_list (TAILQ_INSERT_HEAD 4 tailq0) [4]) as (_ & _ & _ & _ & _ & Ht & _).
  - apply tailq_rep_insert_head; [apply (tailq_rep_init tailq0)|set_solver].
  - apply (Ht 5). set_solver by lia.
Defined.

(** The links of a removed node are left as they were, so a second
    TAILQ_REMOVE of the same node is not a no-op: after removing 4 from the
    queue 4, 5 and then 5, removing 4 again puts the removed node 5 back. *)
Theorem TAILQ_REMOVE_twice :
  (q ← TAILQ_INSERT_TAIL 4 tailq0;
   q ← TAILQ_INSERT_TAIL 5 q;
   q ← TAILQ_REMOVE 4 q;
   q ← TAILQ_REMOVE 5 q;
   q' ← TAILQ_REMOVE 4 q;
   Some (TAILQ_EMPTY q, TAILQ_FIRST q')) = Some (true, Some 5).
Proof. reflexivity. Qed.
