(* ===== verification/Mem.v ===== *)
(** Byte-addressed memory.

    A memory maps every address to a byte; a load of [n] bytes is
    little-endian, as on RISC-V, and [load64]/[load32] are its two uses in the
    kernel and in the file server.  [fill] and [copy] are what [memset] and
    [memcpy] of lib/string.c compute (shown in the file CString). *)
From S2P Require Import Prelude.

Definition memory : Type := Z -> Z.

Fixpoint load (n : nat) (m : memory) (a : Z) : Z :=
  match n with
  | O => 0
  | S n => u8 (m a) + 256 * load n m (a + 1)
  end.

Definition store (n : nat) (m : memory) (a v : Z) : memory := fun x =>
  if (a <=? x) && (x <? a + Z.of_nat n) then (v / 256 ^ (x - a)) mod 256 else m x.

Notation load8 := (load 1).
Notation load32 := (load 4).
Notation load64 := (load 8).
Notation store8 := (store 1).
Notation store32 := (store 4).
Notation store64 := (store 8).

(** [memset(a, c, n)] *)
Definition fill (m : memory) (a n c : Z) : memory := fun x =>
  if (a <=? x) && (x <? a + n) then u8 c else m x.

(** [memcpy(dst, src, n)] for areas that do not overlap *)
Definition copy (m : memory) (dst src n : Z) : memory := fun x =>
  if (dst <=? x) && (x <? dst + n) then m (src + (x - dst)) else m x.

(** Extensional equality of memories, and the operations respect it. *)
Definition meq (m m' : memory) : Prop := forall x, m x = m' x.

#[export] Instance meq_equiv : Equivalence meq.
Proof.
  split; unfold meq; [done|by intros m m' H x|intros a b c H1 H2 x; by rewrite H1].
Qed.

(** Addresses are disjoint ranges [a, a+n) and [b, b+k). *)
Definition disjoint_range (a n b k : Z) : Prop := a + n <= b \/ b + k <= a.

Lemma load_ext n : forall m m' a,
  (forall x, a <= x < a + Z.of_nat n -> m x = m' x) -> load n m a = load n m' a.
Proof.
  induction n as [|n IH]; intros m m' a H; [done|].
  simpl. rewrite (H a) by lia. f_equal. f_equal. apply IH. intros. apply H. lia.
Qed.

#[export] Instance load_proper n : Proper (meq ==> eq ==> eq) (load n).
Proof. intros m m' H a _ <-. apply load_ext. auto. Qed.

#[export] Instance store_proper n : Proper (meq ==> eq ==> eq ==> meq) (store n).
Proof. intros m m' H a _ <- v _ <- x. unfold store. by rewrite H. Qed.

#[export] Instance fill_proper : Proper (meq ==> eq ==> eq ==> eq ==> meq) fill.
Proof. intros m m' H a _ <- n _ <- c _ <- x. unfold fill. by rewrite H. Qed.

#[export] Instance copy_proper : Proper (meq ==> eq ==> eq ==> eq ==> meq) copy.
Proof. intros m m' H a _ <- n _ <- c _ <- x. unfold copy. by rewrite !H. Qed.

Lemma u8_bound x : 0 <= u8 x < 256.
Proof. unfold u8. apply Z.mod_pos_bound. lia. Qed.

Lemma load_bound n : forall m a, 0 <= load n m a < 256 ^ Z.of_nat n.
Proof.
  induction n as [|n IH]; intros m a; [simpl; lia|].
  cbn [load]. specialize (IH m (a + 1)). pose proof (u8_bound (m a)).
  rewrite Nat2Z.inj_succ, Z.pow_succ_r by lia. lia.
Qed.

Lemma load64_bound m a : 0 <= load64 m a < 2 ^ 64.
Proof. pose proof (load_bound 8 m a) as H. change (256 ^ Z.of_nat 8) with (2 ^ 64) in H. done. Qed.

Lemma load32_bound m a : 0 <= load32 m a < 2 ^ 32.
Proof. pose proof (load_bound 4 m a) as H. change (256 ^ Z.of_nat 4) with (2 ^ 32) in H. done. Qed.

Lemma load_store_other n k m a v b :
  disjoint_range a (Z.of_nat n) b (Z.of_nat k) ->
  load k (store n m a v) b = load k m b.
Proof.
  intros Hd. apply load_ext. intros x Hx. unfold store, disjoint_range in *.
  destruct (Z.leb_spec a x), (Z.ltb_spec x (a + Z.of_nat n)); simpl; try done. lia.
Qed.

(** The bytes that [store] writes, read back from position [i] on. *)
Lemma load_store_suffix n m a v : forall i k,
  0 <= v -> (i + k <= n)%nat ->
  load k (store n m a v) (a + Z.of_nat i) = (v / 256 ^ Z.of_nat i) mod 256 ^ Z.of_nat k.
Proof.
  intros i k Hv. revert i. induction k as [|k IH]; intros i Hk.
  - simpl. by rewrite Z.mod_1_r.
  - cbn [load].
    replace (a + Z.of_nat i + 1) with (a + Z.of_nat (S i)) by lia.
    rewrite IH by lia.
    assert (u8 (store n m a v (a + Z.of_nat i)) = (v / 256 ^ Z.of_nat i) mod 256) as ->.
    { unfold store. destruct (Z.leb_spec a (a + Z.of_nat i)); [|lia].
      destruct (Z.ltb_spec (a + Z.of_nat i) (a + Z.of_nat n)); [|lia]. simpl.
      replace (a + Z.of_nat i - a) with (Z.of_nat i) by lia.
      unfold u8. by rewrite Z.mod_mod. }
    rewrite !Nat2Z.inj_succ, !Z.pow_succ_r by lia.
    rewrite (Z.mul_comm 256 (256 ^ Z.of_nat i)), <- Z.div_div by lia.
    rewrite Z.rem_mul_r by lia. lia.
Qed.

Lemma load_store_same n m a v :
  0 <= v < 256 ^ Z.of_nat n -> load n (store n m a v) a = v.
Proof.
  intros Hv. pose proof (load_store_suffix n m a v 0 n ltac:(lia) ltac:(lia)) as H.
  rewrite Z.add_0_r in H. rewrite H. change (256 ^ Z.of_nat 0) with 1.
  rewrite Z.div_1_r. by apply Z.mod_small.
Qed.

Lemma load64_store64_same m a v : 0 <= v < 2 ^ 64 -> load64 (store64 m a v) a = v.
Proof. intros. by apply load_store_same. Qed.

Lemma load32_store32_same m a v : 0 <= v < 2 ^ 32 -> load32 (store32 m a v) a = v.
Proof. intros. by apply load_store_same. Qed.

Lemma load_fill_other k m a n c b :
  disjoint_range a n b (Z.of_nat k) -> load k (fill m a n c) b = load k m b.
Proof.
  intros Hd. apply load_ext. intros x Hx. unfold fill, disjoint_range in *.
  destruct (Z.leb_spec a x), (Z.ltb_spec x (a + n)); simpl; try done. lia.
Qed.

Lemma load_fill_zero k : forall m a n b,
  a <= b -> b + Z.of_nat k <= a + n -> load k (fill m a n 0) b = 0.
Proof.
  induction k as [|k IH]; intros m a n b H1 H2; [done|].
  cbn [load]. rewrite IH by lia. unfold fill.
  destruct (Z.leb_spec a b), (Z.ltb_spec b (a + n)); try lia. done.
Qed.

Lemma load_copy_other k m d s n b :
  disjoint_range d n b (Z.of_nat k) -> load k (copy m d s n) b = load k m b.
Proof.
  intros Hd. apply load_ext. intros x Hx. unfold copy, disjoint_range in *.
  destruct (Z.leb_spec d x), (Z.ltb_spec x (d + n)); simpl; try done. lia.
Qed.

Lemma load_copy_in k : forall m d s n b,
  d <= b -> b + Z.of_nat k <= d + n -> load k (copy m d s n) b = load k m (s + (b - d)).
Proof.
  induction k as [|k IH]; intros m d s n b H1 H2; [done|].
  cbn [load]. rewrite IH by lia. unfold copy.
  destruct (Z.leb_spec d b), (Z.ltb_spec b (d + n)); try lia. simpl.
  by replace (s + (b + 1 - d)) with (s + (b - d) + 1) by lia.
Qed.

Lemma load_zero n : forall a, load n (fun _ => 0) a = 0.
Proof. induction n as [|n IH]; intros a; [done|]. cbn [load]. by rewrite IH. Qed.

#[global] Opaque load store.
