(* ===== verification/Mmu.v ===== *)
(** include/mmu.h: the address-space layout, the page-table index and
    page-table entry macros, and the direct map between physical and kernel
    virtual addresses, with the arithmetic reading of each macro. *)
From S2P Require Import Prelude.

Definition HIGH_ADDR_IMM : Z := 0xFFFFFFC000000000.
Definition LOW_ADDR_IMM : Z := 0x80000000.
Definition BASE_ADDR_IMM : Z := 0xFFFFFFC000200000.
Definition KMALLOC_BEGIN_VA : Z := 0xFFFFFFC0A0000000.
Definition KMALLOC_END_VA : Z := 0xFFFFFFC0E0000000.
Definition KMALLOC_HEAP_SIZE : Z := KMALLOC_END_VA - KMALLOC_BEGIN_VA.
Definition HIGH_ADDR_OFFSET : Z := HIGH_ADDR_IMM - LOW_ADDR_IMM.
Definition KMMAP_BEGIN_VA : Z := 0xFFFFFFC0E0000000.
Definition KMMAP_END_VA : Z := 0xFFFFFFC120000000.
Definition KMMAP_SIZE : Z := KMMAP_END_VA - KMMAP_BEGIN_VA.

Definition NASID : Z := 256.
Definition PAGE_SIZE : Z := 4096.
Definition PAGE_SHIFT : Z := 12.
Definition FLAG_SHIFT : Z := 10.
Definition P1MAP : Z := 512 * 512 * 4 * 1024.
Definition P2MAP : Z := 512 * 4 * 1024.
Definition P3MAP : Z := 4 * 1024.
Definition P1SHIFT : Z := 30.
Definition P2SHIFT : Z := 21.
Definition P3SHIFT : Z := 12.

Definition P1X (va : Z) : Z := Z.land (Z.shiftr (Z.land va (GENMASK 38 0)) P1SHIFT) (GENMASK 8 0).
Definition P2X (va : Z) : Z := Z.land (Z.shiftr (Z.land va (GENMASK 38 0)) P2SHIFT) (GENMASK 8 0).
Definition P3X (va : Z) : Z := Z.land (Z.shiftr (Z.land va (GENMASK 38 0)) P3SHIFT) (GENMASK 8 0).
Definition PPN (pa : Z) : Z := Z.shiftr pa PAGE_SHIFT.
Definition VPN (va : Z) : Z := Z.shiftr (Z.land va (GENMASK 38 0)) PAGE_SHIFT.
Definition PTE_ADDR (pte : Z) : Z :=
  Z.shiftl (Z.land (Z.shiftr pte FLAG_SHIFT) (GENMASK 43 0)) PAGE_SHIFT.
Definition PTE_FLAGS (pte : Z) : Z := Z.land pte (GENMASK 9 0).

Definition PTE_V : Z := 0x0001.
Definition PTE_R : Z := 0x0002.
Definition PTE_W : Z := 0x0004.
Definition PTE_X : Z := 0x0008.
Definition PTE_RO : Z := PTE_R.
Definition PTE_RW : Z := Z.lor PTE_R PTE_W.
Definition PTE_IS_NON_LEAF (pte : Z) : bool := Z.land pte (GENMASK 3 1) =? 0.
Definition PTE_USER : Z := 0x0010.
Definition PTE_GLOBAL : Z := 0x0020.
Definition PTE_DIRTY : Z := 0x0080.
Definition PTE_COW : Z := Z.shiftl 1 9.
Definition PTE_LIBRARY : Z := Z.shiftl 1 8.

Definition KSTACKTOP : Z := 0xFFFFFFC001000000.
Definition ULIM : Z := 0x003F00000000.
Definition UVPT : Z := ULIM - P1MAP.
Definition UPAGES : Z := UVPT - P1MAP.
Definition UENVS : Z := UPAGES - P1MAP.
Definition UTOP : Z := UENVS.
Definition UXSTACKTOP : Z := UTOP.
Definition USTACKTOP : Z := UTOP - 2 * P3MAP.
Definition UTEXT : Z := 2 * P2MAP.
Definition UCOW : Z := UTEXT - P3MAP.
Definition UTEMP : Z := UCOW - P3MAP.

(** The direct map.  The sums are 64-bit. *)
Definition DRAMADDR (kva : Z) : Z := u64 (kva - HIGH_ADDR_IMM).
Definition PADDR (kva : Z) : Z := u64 (kva - HIGH_ADDR_OFFSET).
Definition P2KADDR (pa : Z) : Z := u64 (pa + HIGH_ADDR_OFFSET).

(** [pte & PTE_V] as a condition. *)
Definition pte_valid (pte : Z) : bool := negb (Z.land pte PTE_V =? 0).

(** A page-table entry with physical page number [ppn] and flags [fl]. *)
Definition mk_pte (ppn fl : Z) : Z := Z.lor (u64 (Z.shiftl ppn FLAG_SHIFT)) fl.

(** ** Arithmetic readings *)

Lemma PnX_eq va k :
  0 <= k <= 30 ->
  Z.land (Z.shiftr (Z.land va (GENMASK 38 0)) k) (GENMASK 8 0) = (va / 2 ^ k) mod 512.
Proof.
  intros Hk.
  rewrite (land_ones' va 39), (land_ones' _ 9), Z.shiftr_div_pow2 by (lia || done).
  rewrite mod_pow2_div_pow2 by lia. change 512 with (2 ^ 9).
  apply mod_mod_pow2. lia.
Qed.

Lemma P1X_eq va : P1X va = (va / 2 ^ 30) mod 512.
Proof. by apply PnX_eq. Qed.
Lemma P2X_eq va : P2X va = (va / 2 ^ 21) mod 512.
Proof. by apply PnX_eq. Qed.
Lemma P3X_eq va : P3X va = (va / 2 ^ 12) mod 512.
Proof. by apply PnX_eq. Qed.

Lemma PnX_bound va :
  0 <= P1X va < 512 /\ 0 <= P2X va < 512 /\ 0 <= P3X va < 512.
Proof. rewrite P1X_eq, P2X_eq, P3X_eq. split_and!; apply Z.mod_pos_bound; lia. Qed.

Lemma VPN_eq va : VPN va = (va / 2 ^ 12) mod 2 ^ 27.
Proof.
  unfold VPN, PAGE_SHIFT. rewrite (land_ones' va 39), Z.shiftr_div_pow2 by done.
  by rewrite mod_pow2_div_pow2.
Qed.

(** The virtual page number is the three table indices. *)
Lemma VPN_split va : VPN va = (P1X va * 512 + P2X va) * 512 + P3X va.
Proof.
  rewrite VPN_eq, P1X_eq, P2X_eq, P3X_eq.
  set (x := va / 2 ^ 12).
  replace (va / 2 ^ 21) with (x / 512) by (unfold x; rewrite Z.div_div by lia; done).
  replace (va / 2 ^ 30) with (x / 512 / 512)
    by (unfold x; rewrite !Z.div_div by lia; done).
  change (2 ^ 27) with (512 * (512 * 512)).
  rewrite !Z.rem_mul_r by lia. lia.
Qed.

Lemma VPN_indices va va' :
  VPN va = VPN va' <-> P1X va = P1X va' /\ P2X va = P2X va' /\ P3X va = P3X va'.
Proof.
  rewrite !VPN_split. pose proof (PnX_bound va). pose proof (PnX_bound va'). lia.
Qed.

Lemma PTE_ADDR_eq e : PTE_ADDR e = ((e / 1024) mod 2 ^ 44) * 4096.
Proof.
  unfold PTE_ADDR, FLAG_SHIFT, PAGE_SHIFT.
  by rewrite (land_ones' _ 44), Z.shiftr_div_pow2, Z.shiftl_mul_pow2 by done.
Qed.

(** Page numbers whose shifted value fits a word; 44 bits suffice. *)
Lemma mk_pte_nowrap ppn fl :
  0 <= ppn < 2 ^ 44 -> mk_pte ppn fl = Z.lor (Z.shiftl ppn FLAG_SHIFT) fl.
Proof.
  intros. unfold mk_pte, u64, FLAG_SHIFT. rewrite Z.shiftl_mul_pow2 by done.
  by rewrite Z.mod_small by lia.
Qed.

Lemma mk_pte_eq ppn fl :
  0 <= ppn < 2 ^ 44 -> 0 <= fl < 1024 -> mk_pte ppn fl = ppn * 1024 + fl.
Proof. intros. rewrite mk_pte_nowrap by done. by apply lor_shiftl. Qed.

Lemma PTE_ADDR_mk ppn fl :
  0 <= ppn < 2 ^ 44 -> 0 <= fl < 1024 -> PTE_ADDR (mk_pte ppn fl) = ppn * 4096.
Proof.
  intros. rewrite PTE_ADDR_eq, mk_pte_eq by done.
  rewrite Z.div_add_l, (Z.div_small fl), Z.add_0_r, Z.mod_small by lia. done.
Qed.

Lemma PTE_FLAGS_mk ppn fl :
  0 <= ppn < 2 ^ 44 -> 0 <= fl < 1024 -> PTE_FLAGS (mk_pte ppn fl) = fl.
Proof.
  intros. unfold PTE_FLAGS. rewrite (land_ones' _ 10), mk_pte_eq by done.
  rewrite Z.add_comm, Z.mod_add by lia. apply Z.mod_small. lia.
Qed.

Lemma land_mk_pte ppn fl m :
  0 <= ppn < 2 ^ 44 -> 0 <= m < 1024 -> Z.land (mk_pte ppn fl) m = Z.land fl m.
Proof.
  intros. rewrite mk_pte_nowrap, Z.land_lor_distr_l by done.
  by rewrite land_shiftl_low by (unfold FLAG_SHIFT; lia).
Qed.

Lemma pte_valid_mk ppn fl :
  0 <= ppn < 2 ^ 44 -> pte_valid (mk_pte ppn fl) = pte_valid fl.
Proof. intros. unfold pte_valid. by rewrite land_mk_pte by (done || unfold PTE_V; lia). Qed.

Lemma PTE_IS_NON_LEAF_mk ppn fl :
  0 <= ppn < 2 ^ 44 -> PTE_IS_NON_LEAF (mk_pte ppn fl) = PTE_IS_NON_LEAF fl.
Proof. intros. unfold PTE_IS_NON_LEAF. rewrite land_mk_pte; [done|done|by vm_compute]. Qed.

Lemma pte_valid_lor_V fl : pte_valid (Z.lor fl PTE_V) = true.
Proof.
  unfold pte_valid, PTE_V. rewrite Z.land_lor_distr_l.
  destruct (Z.eqb_spec (Z.lor (Z.land fl 1) (Z.land 1 1)) 0) as [H|]; [|done].
  apply Z.lor_eq_0_iff in H as [_ H]. done.
Qed.

Lemma pte_valid_0 : pte_valid 0 = false.
Proof. done. Qed.

Lemma mk_pte_bound ppn fl :
  0 <= ppn < 2 ^ 44 -> 0 <= fl < 1024 -> 0 <= mk_pte ppn fl < 2 ^ 64.
Proof. intros. rewrite mk_pte_eq by done. lia. Qed.

Lemma lor_bound x y k : 0 <= k -> 0 <= x < 2 ^ k -> 0 <= y < 2 ^ k -> 0 <= Z.lor x y < 2 ^ k.
Proof.
  intros Hk Hx Hy. split; [apply Z.lor_nonneg; lia|].
  destruct (Z.eq_dec (Z.lor x y) 0) as [->|Hne]; [lia|].
  assert (0 <= Z.lor x y) by (apply Z.lor_nonneg; lia).
  apply Z.log2_lt_pow2; [lia|]. rewrite Z.log2_lor by lia.
  apply Z.max_lub_lt.
  - destruct (Z.eq_dec x 0) as [->|]; [|apply Z.log2_lt_pow2; lia].
    destruct (Z.eq_dec k 0) as [->|]; [|simpl; lia]. assert (y = 0) as -> by lia. done.
  - destruct (Z.eq_dec y 0) as [->|]; [|apply Z.log2_lt_pow2; lia].
    destruct (Z.eq_dec k 0) as [->|]; [|simpl; lia]. assert (x = 0) as -> by lia. done.
Qed.

(** Flags with [PTE_V] added are still flags. *)
Lemma flags_V_bound fl : 0 <= fl < 1024 -> 0 <= Z.lor fl PTE_V < 1024.
Proof. intros. apply (lor_bound _ _ 10); unfold PTE_V; lia. Qed.
