(* ===== verification/Pmap.v ===== *)
(** kern/pmap.c and include/pmap.h, physical half: the boot-time allocator
    [alloc], the page descriptors, the free list and reference counts.

    A [struct Page *] is the index of the page in [pages]; its [pp_link] is in
    the links of [page_free_list] and its [pp_ref] in the function [pp_ref].
    Main memory is [mem], addressed by kernel virtual address.  The [tlb]
    field is the history of TLB maintenance instructions, latest first, with
    the operands the callee receives. *)
From S2P Require Import Prelude Queue Mem Mmu.

(** The TLB maintenance operations of kern/tlb_asm.S. *)
Inductive tlb_op :=
  | TlbInvalidate (asid va : Z)
  | TlbFlushAsid (asid : Z)
  | TlbFlushAll.

Record pmap := Pmap {
  memsize : Z;
  npage : Z;
  pages : Z;
  freemem : Z;
  page_free_list : lst;
  pp_ref : Z -> Z;
  mem : memory;
  tlb : list tlb_op
}.

Definition set_memsize x s := Pmap x (npage s) (pages s) (freemem s) (page_free_list s) (pp_ref s) (mem s) (tlb s).
Definition set_npage x s := Pmap (memsize s) x (pages s) (freemem s) (page_free_list s) (pp_ref s) (mem s) (tlb s).
Definition set_pages x s := Pmap (memsize s) (npage s) x (freemem s) (page_free_list s) (pp_ref s) (mem s) (tlb s).
Definition set_freemem x s := Pmap (memsize s) (npage s) (pages s) x (page_free_list s) (pp_ref s) (mem s) (tlb s).
Definition set_free x s := Pmap (memsize s) (npage s) (pages s) (freemem s) x (pp_ref s) (mem s) (tlb s).
Definition set_ref x s := Pmap (memsize s) (npage s) (pages s) (freemem s) (page_free_list s) x (mem s) (tlb s).
Definition set_mem x s := Pmap (memsize s) (npage s) (pages s) (freemem s) (page_free_list s) (pp_ref s) x (tlb s).
Definition set_tlb x s := Pmap (memsize s) (npage s) (pages s) (freemem s) (page_free_list s) (pp_ref s) (mem s) x.

(** [pp->pp_ref = v], [pp->pp_ref++] and [--pp->pp_ref] on a [u_short]. *)
Definition pp_ref_set (pp v : Z) (s : pmap) : pmap := set_ref (<[pp := u16 v]> (pp_ref s)) s.
Definition pp_ref_inc (pp : Z) (s : pmap) : pmap := pp_ref_set pp (pp_ref s pp + 1) s.
Definition pp_ref_dec (pp : Z) (s : pmap) : pmap := pp_ref_set pp (pp_ref s pp - 1) s.

Definition mem_store64 (a v : Z) (s : pmap) : pmap := set_mem (store64 (mem s) a v) s.

(** ** Page descriptors and addresses (include/pmap.h) *)

Definition page2ppn (pp : Z) : Z := pp + PPN LOW_ADDR_IMM.
Definition page2pa (pp : Z) : Z := u64 (Z.shiftl (page2ppn pp) PAGE_SHIFT).
Definition page2kva (pp : Z) : Z := P2KADDR (page2pa pp).

Definition pa2page (pa : Z) : M pmap Z :=
  if pa <? LOW_ADDR_IMM then panic
  else
    let pa := pa - LOW_ADDR_IMM in
    n ← get npage;
    if n <=? PPN pa then panic else mret (PPN pa).

(** ** TLB maintenance

    The prototype of [tlb_invalidate] takes its [va] as a [uint16_t]. *)
Definition tlb_invalidate (asid va : Z) : M pmap unit :=
  modify (fun s => set_tlb (TlbInvalidate (u16 asid) (u16 va) :: tlb s) s).
Definition tlb_flush_asid (asid : Z) : M pmap unit :=
  modify (fun s => set_tlb (TlbFlushAsid asid :: tlb s) s).
Definition tlb_flush_all : M pmap unit :=
  modify (fun s => set_tlb (TlbFlushAll :: tlb s) s).

(** ** Boot-time memory *)

(** [sizeof(struct Page)]: two pointers and a [u_short], padded. *)
Definition sizeof_Page : Z := 24.

Definition riscv64_detect_memory : M pmap unit :=
  modify (set_memsize 0x80000000) ;;
  m ← get memsize;
  modify (set_npage (Z.shiftr m PAGE_SHIFT)).

Section boot.
(** The linker's [_kernel_end]. *)
Variable kernel_end : Z.

Definition alloc (n align : Z) (clear : bool) : M pmap Z :=
  let n := u32 n in
  f0 ← get freemem;
  modify (set_freemem (ROUND (if f0 =? 0 then u64 (kernel_end + PAGE_SIZE) else f0) align)) ;;
  alloced_mem ← get freemem;
  modify (set_freemem (u64 (alloced_mem + n))) ;;
  f ← get freemem;
  m ← get memsize;
  if m <=? DRAMADDR f then panic
  else
    (if clear then modify (fun s => set_mem (fill (mem s) alloced_mem n 0) s) else mret tt) ;;
    mret alloced_mem.

Definition riscv64_vm_init : M pmap unit :=
  n ← get npage;
  p ← alloc (n * sizeof_Page) PAGE_SIZE true;
  modify (set_pages p).
End boot.

(** [for (i = start; i >= bound; i--) body(i)] on a [size_t]: the
    decrement wraps, so the loop ends only when [bound > 0]. *)
Fixpoint down_loop {S} (fuel : nat) (i bound : Z) (body : Z -> M S unit) : M S unit :=
  match fuel with
  | O => panic
  | Datatypes.S n =>
      if bound <=? i then body i ;; down_loop n (u64 (i - 1)) bound body
      else mret tt
  end.

Definition page_init : M pmap unit :=
  modify (fun s => set_free (LIST_INIT (page_free_list s)) s) ;;
  modify (fun s => set_freemem (ROUND (freemem s) PAGE_SIZE) s) ;;
  f ← get freemem;
  let used_page_count := DRAMADDR f / PAGE_SIZE in
  mfor (Z.to_nat used_page_count) 0 (fun i => modify (pp_ref_set i 1)) ;;
  n ← get npage;
  down_loop (Z.to_nat (n + 1)) (u64 (n - 1)) used_page_count (fun i =>
    modify (pp_ref_set i 0) ;;
    modify (fun s => set_free (LIST_INSERT_HEAD i (page_free_list s)) s)).

(** ** The page allocator *)

(** [inl r]: the error code [r]; [inr pp]: 0, with [pp] stored in [*new]. *)
Definition page_alloc : M pmap (Z + Z) :=
  q ← get page_free_list;
  match LIST_FIRST q with
  | None => mret (inl (- E_NO_MEM))
  | Some pp =>
      match LIST_REMOVE pp q with
      | None => panic
      | Some q' =>
          modify (set_free q') ;;
          let page_begin_vaddr := page2kva pp in
          modify (fun s => set_mem (fill (mem s) page_begin_vaddr PAGE_SIZE 0) s) ;;
          mret (inr pp)
      end
  end.

Definition page_free (pp : Z) : M pmap unit :=
  r ← get (fun s => pp_ref s pp);
  assert (r =? 0) ;;
  modify (fun s => set_free (LIST_INSERT_HEAD pp (page_free_list s)) s).

Definition page_decref (pp : Z) : M pmap unit :=
  r ← get (fun s => pp_ref s pp);
  assert (0 <? r) ;;
  modify (pp_ref_dec pp) ;;
  r' ← get (fun s => pp_ref s pp);
  if r' =? 0 then page_free pp else mret tt.

(** ** The allocator's invariant

    [l] is the free list: its pages are in range and unreferenced. *)
Record pm_wf (s : pmap) (l : list Z) : Prop := {
  wf_free : list_rep (page_free_list s) l;
  wf_in : forall p, p ∈ l -> 0 <= p < npage s /\ pp_ref s p = 0;
  wf_npage : 0 <= npage s <= 2 ^ 26;
  wf_ref : forall p, 0 <= pp_ref s p < 2 ^ 16
}.

(** The parts of the state that [page_alloc] and [page_free] leave alone. *)
Definition same_boot (s s' : pmap) : Prop :=
  npage s' = npage s /\ memsize s' = memsize s /\ pages s' = pages s /\
  freemem s' = freemem s.

#[export] Instance same_boot_preorder : PreOrder same_boot.
Proof. split; unfold same_boot; [done|]. intros ? ? ?. intuition congruence. Qed.

Lemma page2kva_eq p : 0 <= p < 2 ^ 26 -> page2kva p = HIGH_ADDR_IMM + p * PAGE_SIZE.
Proof.
  intros Hp. unfold page2kva, page2pa, page2ppn, P2KADDR, PAGE_SHIFT, PAGE_SIZE.
  rewrite Z.shiftl_mul_pow2 by done. change (PPN LOW_ADDR_IMM) with 524288.
  unfold u64. rewrite (Z.mod_small (_ * _)) by lia.
  unfold HIGH_ADDR_OFFSET, HIGH_ADDR_IMM, LOW_ADDR_IMM. rewrite Z.mod_small; lia.
Qed.

Lemma page2pa_eq p : 0 <= p < 2 ^ 26 -> page2pa p = LOW_ADDR_IMM + p * PAGE_SIZE.
Proof.
  intros Hp. unfold page2pa, page2ppn, PAGE_SHIFT, PAGE_SIZE.
  rewrite Z.shiftl_mul_pow2 by done. change (PPN LOW_ADDR_IMM) with 524288.
  unfold u64, LOW_ADDR_IMM. rewrite Z.mod_small by lia. lia.
Qed.

Lemma P2KADDR_page p : 0 <= p < 2 ^ 26 -> P2KADDR (page2pa p) = page2kva p.
Proof. done. Qed.

Lemma pa2page_eq s p off :
  0 <= p < npage s -> npage s <= 2 ^ 26 -> 0 <= off < PAGE_SIZE ->
  pa2page (page2pa p + off) s = Ret p s.
Proof.
  intros Hp Hn Hoff. unfold pa2page. rewrite page2pa_eq by lia.
  unfold PAGE_SIZE, LOW_ADDR_IMM in *.
  destruct (Z.ltb_spec (2147483648 + p * 4096 + off) 2147483648); [lia|].
  rewrite bind_get. unfold PPN, PAGE_SHIFT. rewrite Z.shiftr_div_pow2 by done.
  replace ((2147483648 + p * 4096 + off - 2147483648) / 2 ^ 12) with p.
  2: { apply (Z.div_unique _ _ _ off); lia. }
  destruct (Z.leb_spec (npage s) p); [lia|done].
Qed.

Lemma pa2page_page2pa s p :
  0 <= p < npage s -> npage s <= 2 ^ 26 -> pa2page (page2pa p) s = Ret p s.
Proof.
  intros. rewrite <- (Z.add_0_r (page2pa p)). by apply pa2page_eq.
Qed.

(** ** The operations under the invariant *)

Lemma page_alloc_none s : pm_wf s [] -> page_alloc s = Ret (inl (- E_NO_MEM)) s.
Proof.
  intros Hwf. unfold page_alloc. rewrite bind_get.
  by rewrite (list_rep_first _ _ (wf_free _ _ Hwf)).
Qed.

Lemma page_alloc_some s p l :
  pm_wf s (p :: l) ->
  exists s', page_alloc s = Ret (inr p) s' /\ pm_wf s' l /\
    mem s' = fill (mem s) (page2kva p) PAGE_SIZE 0 /\
    pp_ref s' = pp_ref s /\ tlb s' = tlb s /\ same_boot s s'.
Proof.
  intros Hwf. pose proof (wf_free _ _ Hwf) as Hl.
  destruct (list_rep_pop _ _ _ Hl) as (q' & Hrm & Hq').
  unfold page_alloc. rewrite bind_get, (list_rep_first _ _ Hl). simpl. rewrite Hrm.
  eexists. split; [done|]. destruct Hwf as [_ Hin Hn Hr].
  split_and!; try done. split; simpl; auto.
  intros q Hq. apply Hin. set_solver.
Qed.

Lemma page_free_ok s l p :
  pm_wf s l -> 0 <= p < npage s -> p ∉ l -> pp_ref s p = 0 ->
  exists s', page_free p s = Ret tt s' /\ pm_wf s' (p :: l) /\
    mem s' = mem s /\ pp_ref s' = pp_ref s /\ tlb s' = tlb s /\ same_boot s s'.
Proof.
  intros [Hl Hin Hn Hr] Hp Hpl H0. unfold page_free. rewrite bind_get, H0.
  eexists. split; [done|]. split_and!; try done. split; simpl; auto.
  - by apply list_rep_insert_head.
  - intros q [->|Hq]%elem_of_cons; auto.
Qed.

Lemma pm_wf_ref_set s l p v :
  pm_wf s l -> p ∉ l -> pm_wf (pp_ref_set p v s) l.
Proof.
  intros [Hl Hin Hn Hr] Hp. split; simpl; auto.
  - intros q Hq. rewrite fn_lookup_insert_ne by set_solver. auto.
  - intros q. destruct (decide (p = q)) as [->|].
    + rewrite fn_lookup_insert. unfold u16. apply Z.mod_pos_bound. lia.
    + rewrite fn_lookup_insert_ne by done. auto.
Qed.

Lemma ref_pos_not_free s l p : pm_wf s l -> 0 < pp_ref s p -> p ∉ l.
Proof. intros [_ Hin _ _] H0 Hp. apply Hin in Hp. lia. Qed.

Lemma page_decref_ok s l p :
  pm_wf s l -> 0 <= p < npage s -> 0 < pp_ref s p ->
  exists s', page_decref p s = Ret tt s' /\
    pm_wf s' (if decide (pp_ref s p = 1) then p :: l else l) /\
    mem s' = mem s /\ pp_ref s' = <[p := pp_ref s p - 1]> (pp_ref s) /\
    tlb s' = tlb s /\ same_boot s s'.
Proof.
  intros Hwf Hp H0. pose proof (ref_pos_not_free _ _ _ Hwf H0) as Hpl.
  pose proof (wf_ref _ _ Hwf p) as Hb.
  unfold page_decref. rewrite bind_get.
  destruct (Z.ltb_spec 0 (pp_ref s p)); [|lia]. simpl. rewrite bind_mret, bind_modify, bind_get.
  simpl. rewrite fn_lookup_insert.
  assert (u16 (pp_ref s p - 1) = pp_ref s p - 1) as Hu by (apply Z.mod_small; lia).
  assert (pp_ref (pp_ref_dec p s) = <[p := pp_ref s p - 1]> (pp_ref s)) as Hr.
  { simpl. by rewrite Hu. }
  pose proof (pm_wf_ref_set _ _ p (pp_ref s p - 1) Hwf Hpl) as Hwf'.
  rewrite Hu. case_decide; zcase; try lia.
  - destruct (page_free_ok (pp_ref_dec p s) l p) as (s' & E & H'); try done.
    { rewrite Hr, fn_lookup_insert. lia. }
    exists s'. rewrite Hr in H'. destruct H' as (? & ? & ? & ? & ?).
    split_and!; done.
  - eexists. split; [done|]. split_and!; try done.
Qed.

(** ** Boot: [page_init] establishes the invariant *)

Lemma down_loop_inv {S} (I : Z -> S -> Prop) (body : Z -> M S unit) bound fuel : forall i s,
  0 < bound -> bound - 1 <= i < 2 ^ 64 -> i - bound + 1 < Z.of_nat fuel -> I i s ->
  (forall j s, bound <= j <= i -> I j s -> exists s', body j s = Ret tt s' /\ I (j - 1) s') ->
  exists s', down_loop fuel i bound body s = Ret tt s' /\ I (bound - 1) s'.
Proof.
  induction fuel as [|fuel IH]; intros i s Hb Hi Hf H0 Hstep; [lia|]. simpl.
  destruct (Z.leb_spec bound i).
  - destruct (Hstep i s) as (s1 & Hb1 & H1); [lia|done|]. mrun Hb1.
    unfold u64. rewrite Z.mod_small by lia.
    apply IH; [lia|lia|lia|done|]. intros j s' Hj. apply Hstep. lia.
  - exists s. split; [done|]. by replace (bound - 1) with i by lia.
Qed.

Lemma seqZ_cons' a n : 0 < n -> seqZ a n = a :: seqZ (a + 1) (n - 1).
Proof. intros. rewrite seqZ_cons by lia. unfold Z.succ, Z.pred. f_equal. Qed.

(** The pages below the first free address are in use, the others free. *)
Definition used_pages (s : pmap) : Z := DRAMADDR (ROUND (freemem s) PAGE_SIZE) / PAGE_SIZE.

Lemma page_init_ok s :
  0 < used_pages s <= npage s -> npage s <= 2 ^ 26 ->
  (forall p, 0 <= pp_ref s p < 2 ^ 16) ->
  exists s', page_init s = Ret tt s' /\
    pm_wf s' (seqZ (used_pages s) (npage s - used_pages s)) /\
    (forall p, 0 <= p < used_pages s -> pp_ref s' p = 1) /\
    mem s' = mem s /\ npage s' = npage s.
Proof.
  intros Hu Hn Hr. unfold page_init. rewrite !bind_modify, bind_get. simpl freemem.
  fold (used_pages s). set (u := used_pages s) in *.
  set (s1 := set_freemem _ _).
  set (I1 := fun i t => mem t = mem s /\ npage t = npage s /\ page_free_list t = page_free_list s1 /\
    (forall p, 0 <= pp_ref t p < 2 ^ 16) /\ forall p, 0 <= p < i -> pp_ref t p = 1).
  destruct (mfor_inv I1 (fun i => modify (pp_ref_set i 1)) (Z.to_nat u) 0 s1) as (s2 & E2 & H2).
  { split_and!; try done. simpl. lia. }
  { intros j t Hj (Hm & Hnp & Hf & Hb & Hp). eexists. split; [done|]. split_and!; try done.
    - simpl. intros p. destruct (decide (j = p)) as [->|]; [by rewrite fn_lookup_insert|].
      rewrite fn_lookup_insert_ne; auto.
    - simpl. intros p Hpj. destruct (decide (j = p)) as [->|]; [by rewrite fn_lookup_insert|].
      rewrite fn_lookup_insert_ne by done. apply Hp. lia. }
  mrun E2. rewrite bind_get. destruct H2 as (Hm2 & Hn2 & Hf2 & Hb2 & Hp2). rewrite Hn2.
  set (n := npage s) in *.
  set (I2 := fun i t => mem t = mem s /\ npage t = n /\ pm_wf t (seqZ (i + 1) (n - 1 - i)) /\
    forall p, 0 <= p < u -> pp_ref t p = 1).
  assert (u64 (n - 1) = n - 1) as -> by (apply Z.mod_small; lia).
  destruct (down_loop_inv I2 (fun i => modify (pp_ref_set i 0) ;;
      modify (fun s => set_free (LIST_INSERT_HEAD i (page_free_list s)) s)) u (Z.to_nat (n + 1)) (n - 1) s2)
    as (s3 & E3 & H3); try lia.
  { split_and!; try done.
    - replace (n - 1 - (n - 1)) with 0 by lia. split; simpl.
      + rewrite Hf2. apply list_rep_init.
      + intros p Hp%elem_of_nil. done.
      + lia.
      + done.
    - intros p Hp. apply Hp2. lia. }
  { intros j t Hj (Hm & Hnp & [Hl Hin Hnn Hb] & Hp). eexists. split; [done|].
    split_and!; try done; simpl.
    - replace (n - 1 - (j - 1)) with (n - j) by lia. replace (j - 1 + 1) with j by lia.
      rewrite seqZ_cons' by lia. split; simpl.
      + apply list_rep_insert_head; [by replace (n - j - 1) with (n - 1 - j) by lia|].
        rewrite elem_of_seqZ. lia.
      + intros p [->|Hpl]%elem_of_cons.
        * rewrite fn_lookup_insert. split; [lia|done].
        * rewrite fn_lookup_insert_ne by (apply elem_of_seqZ in Hpl; lia).
          apply Hin. by replace (n - 1 - j) with (n - j - 1) by lia.
      + done.
      + intros p. destruct (decide (j = p)) as [->|]; [by rewrite fn_lookup_insert|].
        rewrite fn_lookup_insert_ne; auto.
    - intros p Hpu. rewrite fn_lookup_insert_ne by lia. auto. }
  exists s3. split; [done|]. destruct H3 as (? & ? & Hwf & ?).
  replace (u - 1 + 1) with u in Hwf by lia.
  replace (n - 1 - (u - 1)) with (n - u) in Hwf by lia. done.
Qed.

(** ** The properties *)

(** C4: booting: [page_init] terminates (its countdown wraps only below a
    bound of zero) with every page below the first free address referenced
    once and exactly the other pages on the free list, in address order. *)
Theorem page_init_correct s :
  0 < used_pages s <= npage s -> npage s <= 2 ^ 26 ->
  (forall p, 0 <= pp_ref s p < 2 ^ 16) ->
  exists s', page_init s = Ret tt s' /\
    pm_wf s' (seqZ (used_pages s) (npage s - used_pages s)) /\
    (forall p, 0 <= p < used_pages s -> pp_ref s' p = 1) /\
    mem s' = mem s /\ npage s' = npage s.
Proof. apply page_init_ok. Qed.

Definition boot_state : pmap :=
  Pmap 0x80000000 512 0 (HIGH_ADDR_IMM + 0x40800) (Lst None (fun _ => lnk0)) (fun _ => 0) (fun _ => 0) [].

Lemma page_init_correct_witness :
  exists s', page_init boot_state = Ret tt s' /\
    pm_wf s' (seqZ 65 447) /\ (forall p, 0 <= p < 65 -> pp_ref s' p = 1) /\
    mem s' = mem boot_state /\ npage s' = 512.
Proof.
  apply (page_init_correct boot_state).
  - split; vm_compute; [reflexivity|discriminate].
  - vm_compute. discriminate.
  - intros p. split; [discriminate|reflexivity].
Defined.

(** C5: the page allocator as a whole: allocation hands out the first free
    page, zeroed, and reports [-E_NO_MEM] exactly when none is free; dropping a
    reference of a page in use frees it exactly when it was the last one;
    the invariant is kept throughout. *)
Theorem page_allocator_correct s l :
  pm_wf s l ->
  match l with
  | [] => page_alloc s = Ret (inl (- E_NO_MEM)) s
  | p :: l' => exists s', page_alloc s = Ret (inr p) s' /\ pm_wf s' l' /\
      (forall o, 0 <= o < PAGE_SIZE -> mem s' (page2kva p + o) = 0) /\ pp_ref s' = pp_ref s
  end /\
  (forall p, 0 <= p < npage s -> 0 < pp_ref s p ->
     exists s', page_decref p s = Ret tt s' /\
       pm_wf s' (if decide (pp_ref s p = 1) then p :: l else l) /\
       mem s' = mem s /\ pp_ref s' = <[p := pp_ref s p - 1]> (pp_ref s)) /\
  (forall p, pp_ref s p = 0 -> page_decref p s = Panic s) /\
  (forall p, pp_ref s p <> 0 -> page_free p s = Panic s).
Proof.
  intros Hwf. split_and!.
  - destruct l as [|p l']; [by apply page_alloc_none|].
    destruct (page_alloc_some _ _ _ Hwf) as (s' & E & Hwf' & Em & Er & _).
    exists s'. split_and!; try done. intros o Ho. rewrite Em. unfold fill.
    destruct (Z.leb_spec (page2kva p) (page2kva p + o)); [|lia].
    by destruct (Z.ltb_spec (page2kva p + o) (page2kva p + PAGE_SIZE)); [|lia].
  - intros p Hp Hr. destruct (page_decref_ok _ _ _ Hwf Hp Hr) as (s' & ? & ? & ? & ? & _).
    by exists s'.
  - intros p Hp. unfold page_decref. rewrite bind_get, Hp. done.
  - intros p Hp. unfold page_free. rewrite bind_get. by destruct (Z.eqb_spec (pp_ref s p) 0).
Qed.

Definition three_free : pmap :=
  Pmap 0x80000000 4 0 0 (LIST_INSERT_HEAD 2 (Lst None (fun _ => lnk0)))
    (fun p => if p =? 1 then 1 else 0) (fun _ => 7) [].

Lemma three_free_wf : pm_wf three_free [2].
Proof.
  split.
  - apply list_rep_insert_head; [apply (list_rep_init (Lst None (fun _ => lnk0)))|set_solver].
  - intros p ->%list_elem_of_singleton. split; [simpl; lia|done].
  - simpl. lia.
  - intros p. simpl. zcase; lia.
Qed.

Lemma page_allocator_correct_witness :
  (exists s', page_alloc three_free = Ret (inr 2) s' /\ pm_wf s' [] /\
      (forall o, 0 <= o < PAGE_SIZE -> mem s' (page2kva 2 + o) = 0) /\ pp_ref s' = pp_ref three_free) /\
  exists s', page_decref 1 three_free = Ret tt s' /\ pm_wf s' [1; 2].
Proof.
  destruct (page_allocator_correct three_free [2] three_free_wf) as (Ha & Hd & _).
  split; [exact Ha|]. destruct (Hd 1) as (s' & ? & ? & _); [simpl; lia|simpl; lia|].
  by exists s'.
Defined.
