(* ===== verification/PageTable.v ===== *)
(** kern/pmap.c and include/pmap.h, virtual half: the Sv39 page-table walk
    and the operations that map, look up and unmap pages.

    A [Pte *] is the kernel virtual address of a 64-bit word of [mem]; a page
    table is the page that holds its 512 words.  The definitions follow the
    code; the rest of the file states the shape of a well-formed table ([pt_ok])
    and the abstract mapping it stands for ([leaf_pte]), and shows what each
    operation does to both. *)
From S2P Require Import Prelude Queue Mem Mmu Pmap.

(** [&((Pte * )base)[i]] *)
Definition ent (base i : Z) : Z := base + 8 * i.

Definition read_pte (a : Z) : M pmap Z := get (fun s => load64 (mem s) a).
Definition write_pte (a v : Z) : M pmap unit := modify (mem_store64 a v).

(** The result pair is the returned code and the value left in [*ppte]. *)
Definition pgdir_walk (pgdir va create : Z) : M pmap (Z * option Z) :=
  let p1_entry := ent pgdir (P1X va) in
  e1 ← read_pte p1_entry;
  if negb (pte_valid e1) then
    if create =? 0 then mret (0, None)
    else
      r ← page_alloc;
      match r with
      | inl ret => mret (ret, None)
      | inr p2_page =>
          r ← page_alloc;
          match r with
          | inl ret => page_free p2_page ;; mret (ret, None)
          | inr p3_page =>
              modify (pp_ref_inc p2_page) ;;
              modify (pp_ref_inc p3_page) ;;
              let p2_base_physical_addr := page2pa p2_page in
              let p3_base_physical_addr := page2pa p3_page in
              write_pte p1_entry (mk_pte (page2ppn p2_page) PTE_V) ;;
              let p2_entry := ent (P2KADDR p2_base_physical_addr) (P2X va) in
              write_pte p2_entry (mk_pte (page2ppn p3_page) PTE_V) ;;
              mret (0, Some (ent (P2KADDR p3_base_physical_addr) (P3X va)))
          end
      end
  else if negb (PTE_IS_NON_LEAF e1) then mret (0, Some p1_entry)
  else
    let p2_entry := ent (P2KADDR (PTE_ADDR e1)) (P2X va) in
    e2 ← read_pte p2_entry;
    if negb (pte_valid e2) then
      r ← page_alloc;
      match r with
      | inl ret => mret (ret, None)
      | inr new =>
          modify (pp_ref_inc new) ;;
          let p3_base_physical_addr := page2pa new in
          write_pte p2_entry (mk_pte (page2ppn new) PTE_V) ;;
          mret (0, Some (ent (P2KADDR p3_base_physical_addr) (P3X va)))
      end
    else if negb (PTE_IS_NON_LEAF e2) then mret (0, Some p2_entry)
    else mret (0, Some (ent (P2KADDR (PTE_ADDR e2)) (P3X va))).

(** ** Device mappings, which bypass the reference counts *)

Definition map_mem (pgdir va pa len perm : Z) : M pmap unit :=
  let len := ROUND len PAGE_SIZE in
  if negb (va mod PAGE_SIZE =? 0) then panic
  else if negb (pa mod PAGE_SIZE =? 0) then panic
  else
    mfor (Z.to_nat (len / PAGE_SIZE)) 0 (fun k =>
      let offset := k * PAGE_SIZE in
      let current_va := u64 (va + offset) in
      '(_, pte) ← pgdir_walk pgdir current_va 1;
      match pte with
      | None => panic
      | Some pte => write_pte pte (mk_pte (PPN (u64 (pa + offset))) perm)
      end) ;;
    tlb_flush_all.

Definition unmap_mem (pgdir va len : Z) : M pmap unit :=
  let len := ROUND len PAGE_SIZE in
  if negb (va mod PAGE_SIZE =? 0) then panic
  else
    mfor (Z.to_nat (len / PAGE_SIZE)) 0 (fun k =>
      let current_va := u64 (va + k * PAGE_SIZE) in
      '(_, pte) ← pgdir_walk pgdir current_va 0;
      match pte with
      | None => mret tt
      | Some pte => write_pte pte 0
      end) ;;
    tlb_flush_all.

(** ** Page mappings *)

(** The page and the address of its entry, or NULL. *)
Definition page_lookup (pgdir va : Z) : M pmap (option (Z * Z)) :=
  '(_, pte) ← pgdir_walk pgdir va 0;
  match pte with
  | None => mret None
  | Some pte =>
      e ← read_pte pte;
      if negb (pte_valid e) then mret None
      else pp ← pa2page (PTE_ADDR e); mret (Some (pp, pte))
  end.

Definition page_remove (pgdir asid va : Z) : M pmap unit :=
  r ← page_lookup pgdir va;
  match r with
  | None => mret tt
  | Some (pp, pte) =>
      page_decref pp ;;
      write_pte pte 0 ;;
      tlb_invalidate asid va
  end.

Definition page_insert (pgdir asid pp va perm : Z) : M pmap Z :=
  '(_, pte) ← pgdir_walk pgdir va 0;
  updated ← (
    match pte with
    | None => mret false
    | Some pte =>
        e ← read_pte pte;
        if pte_valid e then
          old ← pa2page (PTE_ADDR e);
          if negb (old =? pp) then page_remove pgdir asid va ;; mret false
          else
            tlb_invalidate asid va ;;
            write_pte pte (mk_pte (page2ppn pp) (Z.lor perm PTE_V)) ;;
            mret true
        else mret false
    end : M pmap bool);
  if (updated : bool) then mret 0
  else
    tlb_invalidate asid va ;;
    '(ret, pte) ← pgdir_walk pgdir va 1;
    if negb (ret =? 0) then mret ret
    else
      match pte with
      | None => panic
      | Some pte =>
          write_pte pte (mk_pte (page2ppn pp) (Z.lor perm PTE_V)) ;;
          modify (pp_ref_inc pp) ;;
          mret 0
      end.

(** [va2pa], with [~0ULL] for an address that is not mapped. *)
Definition va2pa (m : memory) (pgdir va : Z) : Z :=
  let p1Entry := load64 m (ent pgdir (P1X va)) in
  if negb (pte_valid p1Entry) then 2 ^ 64 - 1
  else if negb (PTE_IS_NON_LEAF p1Entry) then
    Z.lor (PTE_ADDR p1Entry) (Z.land va (GENMASK 29 0))
  else
    let p2Entry := load64 m (ent (P2KADDR (PTE_ADDR p1Entry)) (P2X va)) in
    if negb (pte_valid p2Entry) then 2 ^ 64 - 1
    else if negb (PTE_IS_NON_LEAF p2Entry) then
      Z.lor (PTE_ADDR p1Entry) (Z.land va (GENMASK 20 0))
    else
      let p3Entry := load64 m (ent (P2KADDR (PTE_ADDR p2Entry)) (P3X va)) in
      if negb (pte_valid p3Entry) then 2 ^ 64 - 1
      else Z.lor (PTE_ADDR p3Entry) (Z.land va (GENMASK 11 0)).

(** ** Well-formed tables

    [pte m t i] is entry [i] of the table in page [t], [tbl m t i] the table
    it points to. *)
Definition idx (i : Z) : Prop := 0 <= i < 512.
Definition pte (m : memory) (t i : Z) : Z := load64 m (ent (page2kva t) i).
Definition pte_page (e : Z) : Z := PPN (PTE_ADDR e - LOW_ADDR_IMM).
Definition tbl (m : memory) (t i : Z) : option Z :=
  let e := pte m t i in
  if pte_valid e && PTE_IS_NON_LEAF e then Some (pte_page e) else None.

(** The mapping that a table stands for: the valid leaf entry that the
    hardware walk finds at indices [i], [j], [k]. *)
Definition leaf (m : memory) (root i j k : Z) : option Z :=
  let e1 := pte m root i in
  if negb (pte_valid e1) then None
  else if negb (PTE_IS_NON_LEAF e1) then Some e1
  else
    let e2 := pte m (pte_page e1) j in
    if negb (pte_valid e2) then None
    else if negb (PTE_IS_NON_LEAF e2) then Some e2
    else
      let e3 := pte m (pte_page e2) k in
      if negb (pte_valid e3) then None else Some e3.

Definition leaf_pte (m : memory) (root va : Z) : option Z :=
  leaf m root (P1X va) (P2X va) (P3X va).

(** No huge page covers [va]. *)
Definition nohuge (m : memory) (root va : Z) : Prop :=
  (pte_valid (pte m root (P1X va)) = true -> PTE_IS_NON_LEAF (pte m root (P1X va)) = true) /\
  (forall t, tbl m root (P1X va) = Some t -> pte_valid (pte m t (P2X va)) = true ->
     PTE_IS_NON_LEAF (pte m t (P2X va)) = true).

(** The tables below [root] form a tree of pages that satisfy [ok]. *)
Record pt_ok (ok : Z -> Prop) (m : memory) (root : Z) : Prop := {
  ok_root : ok root;
  ok_l2 : forall i t, idx i -> tbl m root i = Some t -> ok t /\ t <> root;
  ok_l3 : forall i t j u, idx i -> idx j ->
    tbl m root i = Some t -> tbl m t j = Some u ->
    ok u /\ u <> root /\ forall i', idx i' -> tbl m root i' <> Some u;
  ok_inj2 : forall i i' t, idx i -> idx i' ->
    tbl m root i = Some t -> tbl m root i' = Some t -> i = i';
  ok_inj3 : forall i t j i' t' j' u, idx i -> idx j -> idx i' -> idx j' ->
    tbl m root i = Some t -> tbl m t j = Some u ->
    tbl m root i' = Some t' -> tbl m t' j' = Some u -> i = i' /\ j = j'
}.

(** [x] is not one of the tables below [root]. *)
Definition not_table (m : memory) (root x : Z) : Prop :=
  x <> root /\ (forall i, idx i -> tbl m root i <> Some x) /\
  (forall i t j, idx i -> idx j -> tbl m root i = Some t -> tbl m t j <> Some x).

(** Allocated pages: in range and not on the free list. *)
Definition allocated (n : Z) (l : list Z) (p : Z) : Prop := 0 <= p < n /\ p ∉ l.

(** The contents of page [x] are the same. *)
Definition page_eq (m m' : memory) (x : Z) : Prop :=
  forall o, 0 <= o < PAGE_SIZE -> m' (page2kva x + o) = m (page2kva x + o).

Definition in_dram (p : Z) : Prop := 0 <= p < 2 ^ 26.

#[global] Opaque P1X P2X P3X page2kva page2pa page2ppn PTE_ADDR mk_pte.

(** ** Memory lemmas *)

Lemma ent_eq t i : in_dram t -> ent (page2kva t) i = HIGH_ADDR_IMM + t * 4096 + 8 * i.
Proof. intros H. unfold ent. by rewrite page2kva_eq by done. Qed.

Lemma pte_store_eq m t i v :
  0 <= v < 2 ^ 64 -> pte (store64 m (ent (page2kva t) i) v) t i = v.
Proof. intros. unfold pte. by apply load64_store64_same. Qed.

Lemma pte_store_ne m t i v t' i' :
  in_dram t -> in_dram t' -> idx i -> idx i' -> (t <> t' \/ i <> i') ->
  pte (store64 m (ent (page2kva t) i) v) t' i' = pte m t' i'.
Proof.
  intros Ht Ht' Hi Hi' Hne. unfold pte. apply load_store_other.
  rewrite !ent_eq by done. unfold disjoint_range, idx in *. lia.
Qed.

Lemma pte_fill_eq m t i : idx i -> pte (fill m (page2kva t) PAGE_SIZE 0) t i = 0.
Proof.
  intros Hi. unfold pte, ent, idx in *. apply load_fill_zero; unfold PAGE_SIZE; lia.
Qed.

Lemma page_eq_pte m m' x i : idx i -> page_eq m m' x -> pte m' x i = pte m x i.
Proof.
  intros Hi Heq. unfold pte, ent, idx, PAGE_SIZE, page_eq in *. apply load_ext. intros y Hy.
  replace y with (page2kva x + (y - page2kva x)) by lia. apply Heq. unfold PAGE_SIZE. lia.
Qed.

Lemma page_eq_refl m x : page_eq m m x.
Proof. done. Qed.

Lemma page_eq_trans m1 m2 m3 x : page_eq m1 m2 x -> page_eq m2 m3 x -> page_eq m1 m3 x.
Proof. intros H1 H2 o Ho. by rewrite H2, H1. Qed.

Lemma fill_page_eq m t x c :
  in_dram t -> in_dram x -> t <> x -> page_eq m (fill m (page2kva t) PAGE_SIZE c) x.
Proof.
  intros Ht Hx Hne o Ho. rewrite !page2kva_eq by done. unfold fill, PAGE_SIZE, in_dram in *.
  repeat zcase; simpl; try done. lia.
Qed.

Lemma store_page_eq m t i v x :
  in_dram t -> in_dram x -> idx i -> t <> x ->
  page_eq m (store64 m (ent (page2kva t) i) v) x.
Proof.
  intros Ht Hx Hi Hne o Ho. rewrite !ent_eq, page2kva_eq by done. unfold PAGE_SIZE, idx in *.
  assert (forall m a y v, y < a \/ a + 8 <= y -> store64 m a v y = m y) as Hst.
  { clear. intros m a y v H. Transparent store. unfold store. Opaque store.
    repeat zcase; simpl; try done; lia. }
  apply Hst. lia.
Qed.

(** Every frame number is the number of the page it addresses. *)
Lemma pte_page_addr e : PTE_ADDR e = LOW_ADDR_IMM + pte_page e * PAGE_SIZE.
Proof.
  unfold pte_page, PPN, PAGE_SHIFT, PAGE_SIZE, LOW_ADDR_IMM.
  rewrite Z.shiftr_div_pow2, PTE_ADDR_eq by done. change (2 ^ 12) with 4096.
  set (x := _ mod _).
  replace (x * 4096 - 2147483648) with ((x - 524288) * 4096) by lia.
  rewrite Z.div_mul by lia. lia.
Qed.

Lemma P2KADDR_pte e : in_dram (pte_page e) -> P2KADDR (PTE_ADDR e) = page2kva (pte_page e).
Proof. intros H. by rewrite <- P2KADDR_page, pte_page_addr, page2pa_eq. Qed.

Lemma page2ppn_bound p : in_dram p -> 0 <= page2ppn p < 2 ^ 44.
Proof.
  Transparent page2ppn. unfold in_dram, page2ppn. Opaque page2ppn. change (PPN LOW_ADDR_IMM) with 524288. lia.
Qed.

Lemma pte_page_mk p fl : in_dram p -> 0 <= fl < 1024 -> pte_page (mk_pte (page2ppn p) fl) = p.
Proof.
  intros Hp Hfl. unfold pte_page. rewrite PTE_ADDR_mk by (done || by apply page2ppn_bound).
  Transparent page2ppn. unfold page2ppn, PPN, PAGE_SHIFT, LOW_ADDR_IMM. Opaque page2ppn.
  change (Z.shiftr 2147483648 12) with 524288.
  rewrite Z.shiftr_div_pow2 by done. change (2 ^ 12) with 4096.
  replace ((p + 524288) * 4096 - 2147483648) with (p * 4096) by lia. by apply Z.div_mul.
Qed.

(** An entry that points to the table in page [n]. *)
Lemma tbl_entry m t i n :
  in_dram n -> pte m t i = mk_pte (page2ppn n) PTE_V -> tbl m t i = Some n.
Proof.
  intros Hn H. unfold tbl. rewrite H.
  rewrite pte_valid_mk, PTE_IS_NON_LEAF_mk by by apply page2ppn_bound.
  by rewrite pte_page_mk by done.
Qed.

Lemma tbl_invalid m t i : pte_valid (pte m t i) = false -> tbl m t i = None.
Proof. intros H. unfold tbl. by rewrite H. Qed.

Lemma tbl_valid m t i u : tbl m t i = Some u ->
  pte_valid (pte m t i) = true /\ PTE_IS_NON_LEAF (pte m t i) = true /\ u = pte_page (pte m t i).
Proof. unfold tbl. destruct (pte_valid _), (PTE_IS_NON_LEAF _); simpl; naive_solver. Qed.

Lemma tbl_ext m m' t i : pte m' t i = pte m t i -> tbl m' t i = tbl m t i.
Proof. intros H. unfold tbl. by rewrite H. Qed.

Lemma PnX_idx va : idx (P1X va) /\ idx (P2X va) /\ idx (P3X va).
Proof. apply PnX_bound. Qed.
Lemma P1X_idx va : idx (P1X va). Proof. exact (proj1 (PnX_idx va)). Qed.
Lemma P2X_idx va : idx (P2X va). Proof. exact (proj1 (proj2 (PnX_idx va))). Qed.
Lemma P3X_idx va : idx (P3X va). Proof. exact (proj2 (proj2 (PnX_idx va))). Qed.
Create HintDb pt.
#[export] Hint Resolve P1X_idx P2X_idx P3X_idx : pt.

(** ** What writing an entry does to a tree *)

Section tree.
Variable ok : Z -> Prop.
Hypothesis ok_dram : forall t, ok t -> in_dram t.

Lemma pt_ok_mono (ok' : Z -> Prop) m root :
  (forall t, ok t -> ok' t) -> pt_ok ok m root -> pt_ok ok' m root.
Proof.
  intros H [H1 H2 H3 H4 H5]. split; [auto| | |done|done].
  - intros i t Hi Ht. destruct (H2 i t Hi Ht). auto.
  - intros i t j u Hi Hj Ht Hu. destruct (H3 i t j u Hi Hj Ht Hu) as (? & ? & ?). auto.
Qed.

Lemma not_ok_not_table m root x : pt_ok ok m root -> ~ ok x -> not_table m root x.
Proof.
  intros [H1 H2 H3 _ _] Hx. split_and!.
  - by intros ->.
  - intros i Hi Ht. apply Hx. exact (proj1 (H2 _ _ Hi Ht)).
  - intros i t j Hi Hj Ht Hu. apply Hx. exact (proj1 (H3 _ _ _ _ Hi Hj Ht Hu)).
Qed.

(** The same entries in every page that may be a table. *)
Lemma tables_same m m' root :
  (forall t i, ok t -> idx i -> pte m' t i = pte m t i) -> pt_ok ok m root ->
  pt_ok ok m' root /\
  (forall i, idx i -> tbl m' root i = tbl m root i) /\
  (forall i j t, idx i -> idx j -> tbl m root i = Some t -> tbl m' t j = tbl m t j) /\
  (forall i j k, idx i -> idx j -> idx k -> leaf m' root i j k = leaf m root i j k).
Proof.
  intros Heq [H1 H2 H3 H4 H5].
  assert (forall i, idx i -> tbl m' root i = tbl m root i) as E1
    by (intros; apply tbl_ext; auto).
  assert (forall i j t, idx i -> idx j -> tbl m root i = Some t -> tbl m' t j = tbl m t j) as E2.
  { intros i j t Hi Hj Ht. apply tbl_ext, Heq; [|done]. by destruct (H2 _ _ Hi Ht). }
  split_and!; [|done|done|].
  - split; [done| | | |].
    + intros i t Hi. rewrite E1 by done. eauto.
    + intros i t j u Hi Hj. rewrite E1 by done. intros Ht. rewrite (E2 i) by done. intros Hu.
      destruct (H3 _ _ _ _ Hi Hj Ht Hu) as (? & ? & Hno). split_and!; [done..|].
      intros i' Hi'. rewrite E1 by done. by apply Hno.
    + intros i i' t Hi Hi'. rewrite !E1 by done. eauto.
    + intros i t j i' t' j' u Hi Hj Hi' Hj'. rewrite !E1 by done. intros Ht.
      rewrite (E2 i) by done. intros Hu Ht'. rewrite (E2 i') by done. eauto.
  - intros i j k Hi Hj Hk. unfold leaf. rewrite Heq by done.
    destruct (pte_valid (pte m root i)) eqn:V1; [|done].
    destruct (PTE_IS_NON_LEAF (pte m root i)) eqn:N1; [|done]. simpl.
    assert (tbl m root i = Some (pte_page (pte m root i))) as Ht
      by (unfold tbl; by rewrite V1, N1).
    destruct (H2 _ _ Hi Ht) as [Hok _]. rewrite Heq by done.
    destruct (pte_valid (pte m _ j)) eqn:V2; [|done].
    destruct (PTE_IS_NON_LEAF (pte m _ j)) eqn:N2; [|done]. simpl.
    rewrite Heq; [done| |done].
    eapply (H3 i _ j); [done..| |]; [exact Ht|]. unfold tbl. by rewrite V2, N2.
Qed.

(** Writing a third-level entry. *)
Lemma set_leaf m root i0 j0 k0 t0 u0 v :
  idx i0 -> idx j0 -> idx k0 -> 0 <= v < 2 ^ 64 ->
  pt_ok ok m root -> tbl m root i0 = Some t0 -> tbl m t0 j0 = Some u0 ->
  let m' := store64 m (ent (page2kva u0) k0) v in
  pt_ok ok m' root /\
  tbl m' root i0 = Some t0 /\ tbl m' t0 j0 = Some u0 /\
  (forall x, not_table m root x -> not_table m' root x) /\
  leaf m' root i0 j0 k0 = (if pte_valid v then Some v else None) /\
  (forall i j k, idx i -> idx j -> idx k -> (i, j, k) <> (i0, j0, k0) ->
     leaf m' root i j k = leaf m root i j k).
Proof.
  intros Hi0 Hj0 Hk0 Hv [H1 H2 H3 H4 H5] Ht0 Hu0 m'.
  destruct (H3 _ _ _ _ Hi0 Hj0 Ht0 Hu0) as (Hok & Hur & Hul).
  assert (forall t i, ok t -> idx i -> t <> u0 -> pte m' t i = pte m t i) as Heq.
  { intros t i Ht Hi Hne. unfold m'. apply pte_store_ne; auto. }
  assert (forall i, idx i -> pte m' root i = pte m root i) as R1 by auto.
  assert (forall i j t, idx i -> idx j -> tbl m root i = Some t -> pte m' t j = pte m t j) as R2.
  { intros i j t Hi Hj Ht. destruct (H2 _ _ Hi Ht). apply Heq; [done..|].
    intros ->. by apply (Hul i). }
  assert (forall i, idx i -> tbl m' root i = tbl m root i) as E1
    by (intros; apply tbl_ext; auto).
  assert (forall i j t, idx i -> idx j -> tbl m root i = Some t -> tbl m' t j = tbl m t j) as E2
    by (intros i j t Hi Hj Ht; apply tbl_ext; by apply (R2 i)).
  split_and!.
  - split; [done| | | |].
    + intros i t Hi. rewrite E1 by done. eauto.
    + intros i t j u Hi Hj. rewrite E1 by done. intros Ht. rewrite (E2 i) by done. intros Hu.
      destruct (H3 _ _ _ _ Hi Hj Ht Hu) as (? & ? & Hno). split_and!; [done..|].
      intros i' Hi'. rewrite E1 by done. by apply Hno.
    + intros i i' t Hi Hi'. rewrite !E1 by done. eauto.
    + intros i t j i' t' j' u Hi Hj Hi' Hj'. rewrite !E1 by done. intros Ht.
      rewrite (E2 i) by done. intros Hu Ht'. rewrite (E2 i') by done. eauto.
  - by rewrite E1.
  - by rewrite (E2 i0).
  - intros x (? & Hx2 & Hx3). split_and!; [done| |].
    + intros i Hi. rewrite E1 by done. auto.
    + intros i t j Hi Hj. rewrite E1 by done. intros Ht. rewrite (E2 i) by done. exact (Hx3 _ _ _ Hi Hj Ht).
  - unfold leaf. rewrite R1 by done.
    apply tbl_valid in Ht0 as T0. destruct T0 as (V1 & N1 & <-). rewrite V1, N1. simpl.
    rewrite (R2 i0) by done.
    apply tbl_valid in Hu0 as U0. destruct U0 as (V2 & N2 & <-). rewrite V2, N2. simpl.
    unfold m'. rewrite pte_store_eq by done. by destruct (pte_valid v).
  - intros i j k Hi Hj Hk Hne. unfold leaf. rewrite R1 by done.
    destruct (pte_valid (pte m root i)) eqn:V1; [|done].
    destruct (PTE_IS_NON_LEAF (pte m root i)) eqn:N1; [|done]. simpl.
    assert (tbl m root i = Some (pte_page (pte m root i))) as Ht
      by (unfold tbl; by rewrite V1, N1).
    rewrite (R2 i) by done.
    destruct (pte_valid (pte m _ j)) eqn:V2; [|done].
    destruct (PTE_IS_NON_LEAF (pte m _ j)) eqn:N2; [|done]. simpl.
    assert (tbl m (pte_page (pte m root i)) j = Some (pte_page (pte m (pte_page (pte m root i)) j)))
      as Hu by (unfold tbl; by rewrite V2, N2).
    unfold m'. rewrite pte_store_ne; [done| | |done|done|].
    + by apply ok_dram.
    + apply ok_dram. eapply (H3 i _ j); eauto.
    + destruct (decide (k0 = k)) as [->|]; [left|by right]. intros Hu0'.
      rewrite <- Hu0' in Hu. destruct (H5 _ _ _ _ _ _ _ Hi0 Hj0 Hi Hj Ht0 Hu0 Ht Hu) as [-> ->].
      done.
Qed.
Lemma leaf_unmapped2 m root i j k t :
  tbl m root i = Some t -> pte_valid (pte m t j) = false -> leaf m root i j k = None.
Proof.
  intros (V & N & ->)%tbl_valid V2. unfold leaf. by rewrite V, N, V2.
Qed.

Lemma leaf_unmapped3 m root i j k t u :
  tbl m root i = Some t -> tbl m t j = Some u -> pte_valid (pte m u k) = false ->
  leaf m root i j k = None.
Proof.
  intros (V & N & ->)%tbl_valid (V2 & N2 & ->)%tbl_valid V3.
  unfold leaf. by rewrite V, N, V2, N2, V3.
Qed.

(** The leaf found below equal entries. *)
Lemma leaf_ext m m' root i j k :
  pte m' root i = pte m root i ->
  (forall t, tbl m root i = Some t -> pte m' t j = pte m t j /\
     forall u, tbl m t j = Some u -> pte m' u k = pte m u k) ->
  leaf m' root i j k = leaf m root i j k.
Proof.
  intros E1 E2. unfold leaf. rewrite E1.
  destruct (pte_valid (pte m root i)) eqn:V1; [|done].
  destruct (PTE_IS_NON_LEAF (pte m root i)) eqn:N1; [|done]. simpl.
  destruct (E2 (pte_page (pte m root i))) as [E3 E4].
  { unfold tbl. by rewrite V1, N1. }
  rewrite E3. destruct (pte_valid (pte m _ j)) eqn:V2; [|done].
  destruct (PTE_IS_NON_LEAF (pte m _ j)) eqn:N2; [|done]. simpl.
  rewrite E4; [done|]. unfold tbl. by rewrite V2, N2.
Qed.

(** Hanging an empty third-level table [n] on a second-level entry. *)
Lemma graft_l3 m root i0 j0 t0 n :
  idx i0 -> idx j0 -> pt_ok ok m root -> tbl m root i0 = Some t0 ->
  pte_valid (pte m t0 j0) = false -> ok n -> not_table m root n ->
  (forall k, idx k -> pte m n k = 0) ->
  let m' := store64 m (ent (page2kva t0) j0) (mk_pte (page2ppn n) PTE_V) in
  pt_ok ok m' root /\ tbl m' root i0 = Some t0 /\ tbl m' t0 j0 = Some n /\
  (forall x, x <> n -> not_table m root x -> not_table m' root x) /\
  (forall i j k, idx i -> idx j -> idx k -> leaf m' root i j k = leaf m root i j k) /\
  (forall va, nohuge m root va -> nohuge m' root va).
Proof.
  intros Hi0 Hj0 [H1 H2 H3 H4 H5] Ht0 Hinv Hn (Hnr & Hn2 & Hn3) Hz m'.
  destruct (H2 _ _ Hi0 Ht0) as [Hokt0 Ht0r].
  assert (forall t i, ok t -> idx i -> t <> t0 \/ i <> j0 -> pte m' t i = pte m t i) as Heq.
  { intros t i Ht Hi Hne. unfold m'. apply pte_store_ne; auto. intuition. }
  assert (tbl m' t0 j0 = Some n) as Enew.
  { apply tbl_entry; [by apply ok_dram|]. apply pte_store_eq, mk_pte_bound; [|done].
    by apply page2ppn_bound, ok_dram. }
  assert (forall i, idx i -> tbl m' root i = tbl m root i) as E1.
  { intros. apply tbl_ext, Heq; auto. }
  assert (forall i j t u, idx i -> idx j -> tbl m root i = Some t -> tbl m' t j = Some u ->
    (t = t0 /\ j = j0 /\ u = n) \/ (u <> n /\ tbl m t j = Some u)) as E2.
  { intros i j t u Hi Hj Ht Hu. destruct (H2 _ _ Hi Ht).
    destruct (decide (t = t0 /\ j = j0)) as [[-> ->]|Hne]; [left; split_and!; congruence|right].
    assert (tbl m t j = Some u) as Hu'.
    { rewrite <- Hu. symmetry. apply tbl_ext, Heq; [done..|]. destruct (decide (t = t0)); naive_solver. }
    split; [|done]. intros ->. exact (Hn3 _ _ _ Hi Hj Ht Hu'). }
  split_and!; [|by rewrite E1|done| | |].
  - split; [done| | | |].
    + intros i t Hi. rewrite E1 by done. eauto.
    + intros i t j u Hi Hj. rewrite E1 by done. intros Ht Hu.
      destruct (E2 _ _ _ _ Hi Hj Ht Hu) as [(-> & -> & ->)|[_ Hu']].
      * split_and!; [done..|]. intros. rewrite E1 by done. eauto.
      * destruct (H3 _ _ _ _ Hi Hj Ht Hu') as (? & ? & Hno). split_and!; [done..|].
        intros i' Hi'. rewrite E1 by done. eauto.
    + intros i i' t Hi Hi'. rewrite !E1 by done. eauto.
    + intros i t j i' t' j' u Hi Hj Hi' Hj'. rewrite !E1 by done. intros Ht Hu Ht' Hu'.
      destruct (E2 _ _ _ _ Hi Hj Ht Hu) as [(-> & -> & ->)|[? Hu2]],
        (E2 _ _ _ _ Hi' Hj' Ht' Hu') as [(-> & -> & ?)|[? Hu2']]; try done; eauto.
  - intros x Hx (Hxr & Hx2 & Hx3). split_and!; [done| |].
    + intros i Hi. rewrite E1 by done. auto.
    + intros i t j Hi Hj. rewrite E1 by done. intros Ht Hu.
      destruct (E2 _ _ _ _ Hi Hj Ht Hu) as [(_ & _ & ?)|[_ ?]]; [done|]. by apply (Hx3 i t j).
  - intros i j k Hi Hj Hk.
    destruct (decide (tbl m root i = Some t0 /\ j = j0)) as [[Ht ->]|Hne].
    + assert (pte m' n k = 0) as Hk0.
      { rewrite Heq; [by apply Hz|done|done|]. left. intros ->. by apply (Hn2 i0). }
      rewrite (leaf_unmapped2 m root i j0 k t0) by done.
      apply (leaf_unmapped3 m' root i j0 k t0 n); [by rewrite E1|done|by rewrite Hk0].
    + apply leaf_ext; [by apply Heq; auto|]. intros t Ht. destruct (H2 _ _ Hi Ht). split.
      * apply Heq; [done..|]. destruct (decide (t = t0)); naive_solver.
      * intros u Hu. destruct (H3 _ _ _ _ Hi Hj Ht Hu) as (? & ? & Hno).
        apply Heq; [done..|]. left. intros ->. by apply (Hno i0).
  - intros va [N1 N2]. pose proof (P1X_idx va) as Hi. split; [rewrite Heq by auto; done|].
    intros t. rewrite E1 by done. intros Ht. destruct (H2 _ _ Hi Ht).
    destruct (decide (t = t0 /\ P2X va = j0)) as [[-> ->]|Hne].
    + intros _. unfold m'. rewrite pte_store_eq by (apply mk_pte_bound; [by apply page2ppn_bound, ok_dram|done]).
      by rewrite PTE_IS_NON_LEAF_mk by by apply page2ppn_bound, ok_dram.
    + rewrite Heq; [by apply N2|done|auto with pt|]. destruct (decide (t = t0)); naive_solver.
Qed.

(** Hanging an empty second-level table [n] on a root entry. *)
Lemma graft_l2 m root i0 n :
  idx i0 -> pt_ok ok m root -> pte_valid (pte m root i0) = false -> ok n ->
  not_table m root n -> (forall k, idx k -> pte m n k = 0) ->
  let m' := store64 m (ent (page2kva root) i0) (mk_pte (page2ppn n) PTE_V) in
  pt_ok ok m' root /\ tbl m' root i0 = Some n /\
  (forall j, idx j -> pte m' n j = 0) /\
  (forall x, x <> n -> not_table m root x -> not_table m' root x) /\
  (forall i j k, idx i -> idx j -> idx k -> leaf m' root i j k = leaf m root i j k) /\
  (forall va, nohuge m root va -> nohuge m' root va).
Proof.
  intros Hi0 [H1 H2 H3 H4 H5] Hinv Hn (Hnr & Hn2 & Hn3) Hz m'.
  assert (forall t i, ok t -> idx i -> t <> root \/ i <> i0 -> pte m' t i = pte m t i) as Heq.
  { intros t i Ht Hi Hne. unfold m'. apply pte_store_ne; auto. intuition. }
  assert (tbl m' root i0 = Some n) as Enew.
  { apply tbl_entry; [by apply ok_dram|]. apply pte_store_eq, mk_pte_bound; [|done].
    by apply page2ppn_bound, ok_dram. }
  assert (forall j, idx j -> pte m' n j = 0) as Hz' by (intros; rewrite Heq; auto).
  assert (forall i t, idx i -> tbl m' root i = Some t ->
    (i = i0 /\ t = n) \/ (i <> i0 /\ t <> n /\ tbl m root i = Some t)) as E1.
  { intros i t Hi Ht. destruct (decide (i = i0)) as [->|Hne]; [left; split; congruence|right].
    assert (tbl m root i = Some t) as Ht'.
    { rewrite <- Ht. symmetry. apply tbl_ext, Heq; auto. }
    split_and!; [done| |done]. intros ->. exact (Hn2 _ Hi Ht'). }
  assert (forall j, idx j -> tbl m' n j = None) as En.
  { intros. apply tbl_invalid. by rewrite Hz'. }
  assert (forall i j t, idx i -> idx j -> tbl m root i = Some t -> tbl m' t j = tbl m t j) as E2.
  { intros i j t Hi Hj Ht. destruct (H2 _ _ Hi Ht). apply tbl_ext, Heq; auto. }
  assert (forall i t j u, idx i -> idx j -> tbl m' root i = Some t -> tbl m' t j = Some u ->
    i <> i0 /\ t <> n /\ tbl m root i = Some t /\ tbl m t j = Some u) as E3.
  { intros i t j u Hi Hj Ht Hu. destruct (E1 _ _ Hi Ht) as [[-> ->]|(? & ? & Ht')].
    - by rewrite En in Hu.
    - rewrite (E2 i) in Hu by done. done. }
  split_and!; [|done|done| | |].
  - split; [done| | | |].
    + intros i t Hi Ht. destruct (E1 _ _ Hi Ht) as [[-> ->]|(? & ? & ?)]; eauto.
    + intros i t j u Hi Hj Ht Hu. destruct (E3 _ _ _ _ Hi Hj Ht Hu) as (? & ? & Ht' & Hu').
      destruct (H3 _ _ _ _ Hi Hj Ht' Hu') as (? & ? & Hno). split_and!; [done..|].
      intros i' Hi' Hu2. destruct (E1 _ _ Hi' Hu2) as [[-> ->]|(? & ? & ?)].
      * exact (Hn3 _ _ _ Hi Hj Ht' Hu').
      * by apply (Hno i').
    + intros i i' t Hi Hi' Ht Ht'.
      destruct (E1 _ _ Hi Ht) as [[-> ->]|(? & ? & ?)], (E1 _ _ Hi' Ht') as [[-> ?]|(? & ? & ?)];
        try done; eauto.
    + intros i t j i' t' j' u Hi Hj Hi' Hj' Ht Hu Ht' Hu'.
      destruct (E3 _ _ _ _ Hi Hj Ht Hu) as (? & ? & ? & ?).
      destruct (E3 _ _ _ _ Hi' Hj' Ht' Hu') as (? & ? & ? & ?). eauto.
  - intros x Hx (Hxr & Hx2 & Hx3). split_and!; [done| |].
    + intros i Hi Ht. destruct (E1 _ _ Hi Ht) as [[-> ->]|(? & ? & ?)]; [done|]. by apply (Hx2 i).
    + intros i t j Hi Hj Ht Hu. destruct (E3 _ _ _ _ Hi Hj Ht Hu) as (? & ? & ? & ?). by apply (Hx3 i t j).
  - intros i j k Hi Hj Hk. destruct (decide (i = i0)) as [->|Hne].
    + rewrite (leaf_unmapped2 m' root i0 j k n) by (done || by rewrite Hz').
      unfold leaf. by rewrite Hinv.
    + apply leaf_ext; [by apply Heq; auto|]. intros t Ht. destruct (H2 _ _ Hi Ht).
      split; [apply Heq; auto|]. intros u Hu.
      destruct (H3 _ _ _ _ Hi Hj Ht Hu) as (? & ? & Hno). apply Heq; auto.
  - intros va [N1 N2]. pose proof (P1X_idx va) as Hi. split.
    + destruct (decide (P1X va = i0)) as [->|Hne]; [|rewrite Heq by auto; done].
      intros _. by destruct (tbl_valid _ _ _ _ Enew) as (_ & ? & _).
    + intros t Ht. destruct (E1 _ _ Hi Ht) as [[_ ->]|(_ & _ & Ht')].
      * by rewrite Hz' by auto with pt.
      * destruct (H2 _ _ Hi Ht'). rewrite Heq by auto with pt. by apply N2.
Qed.
End tree.

(** ** The walk *)

Fixpoint ref_one (fresh : list Z) (r : Z -> Z) : Z -> Z :=
  match fresh with [] => r | p :: f => ref_one f (<[p := 1]> r) end.

(** What a walk may change: it takes [fresh] off the free list for tables,
    and leaves the mapping and every page that is no table alone. *)
Record walk_post (s s' : pmap) (root va : Z) (fresh l l' : list Z) : Prop := {
  wp_split : l = fresh ++ l';
  wp_few : (length fresh <= 2)%nat;
  wp_wf : pm_wf s' l';
  wp_ok : pt_ok (allocated (npage s') l') (mem s') root;
  wp_boot : same_boot s s';
  wp_tlb : tlb s' = tlb s;
  wp_ref : pp_ref s' = ref_one fresh (pp_ref s);
  wp_leaf : forall i j k, idx i -> idx j -> idx k -> leaf (mem s') root i j k = leaf (mem s) root i j k;
  wp_nohuge : nohuge (mem s') root va;
  wp_keep : forall va', nohuge (mem s) root va' -> nohuge (mem s') root va';
  wp_tables : forall x, x ∉ fresh -> not_table (mem s) root x -> not_table (mem s') root x;
  wp_frame : forall x, allocated (npage s) l x -> not_table (mem s) root x ->
    page_eq (mem s) (mem s') x
}.

Lemma wf_dram s l t : pm_wf s l -> allocated (npage s) l t -> in_dram t.
Proof. intros Hwf [Ht _]. pose proof (wf_npage _ _ Hwf). unfold in_dram. lia. Qed.

Lemma l3_nohuge m root va t u :
  tbl m root (P1X va) = Some t -> tbl m t (P2X va) = Some u -> nohuge m root va.
Proof.
  intros Ht Hu. pose proof (tbl_valid _ _ _ _ Ht) as (? & ? & ?). split; [done|].
  intros t' Ht' _. assert (t' = t) as -> by congruence. by apply tbl_valid in Hu as (? & ? & ?).
Qed.

(** Allocating a page disturbs no table and yields an empty one. *)
Lemma page_alloc_tree s p l root :
  pm_wf s (p :: l) -> pt_ok (allocated (npage s) (p :: l)) (mem s) root ->
  exists s', page_alloc s = Ret (inr p) s' /\
    pm_wf s' l /\ pt_ok (allocated (npage s') l) (mem s') root /\
    not_table (mem s') root p /\ allocated (npage s') l p /\ pp_ref s p = 0 /\
    (forall k, idx k -> pte (mem s') p k = 0) /\
    pp_ref s' = pp_ref s /\ tlb s' = tlb s /\ same_boot s s' /\
    (forall i j k, idx i -> idx j -> idx k -> leaf (mem s') root i j k = leaf (mem s) root i j k) /\
    (forall x, in_dram x -> x <> p -> page_eq (mem s) (mem s') x) /\
    (forall x, not_table (mem s) root x -> not_table (mem s') root x) /\
    (forall va, nohuge (mem s) root va -> nohuge (mem s') root va).
Proof.
  intros Hwf Hok. destruct (page_alloc_some _ _ _ Hwf) as (s' & E & Hwf' & Em & Er & Et & Eb).
  exists s'. split; [done|].
  assert (0 <= p < npage s /\ pp_ref s p = 0) as [Hp Hp0] by (apply (wf_in _ _ Hwf); set_solver).
  assert (p ∉ l) as Hpl.
  { pose proof (list_rep_nodup _ _ (wf_free _ _ Hwf)) as Hnd. by apply NoDup_cons in Hnd as [? _]. }
  pose proof (wf_npage _ _ Hwf) as Hn.
  assert (in_dram p) as Hpd by (unfold in_dram; lia).
  assert (forall x, in_dram x -> x <> p -> page_eq (mem s) (mem s') x) as Hpe.
  { intros x Hx Hne. rewrite Em. by apply fill_page_eq. }
  assert (forall t i, allocated (npage s) (p :: l) t -> idx i -> pte (mem s') t i = pte (mem s) t i) as Heq.
  { intros t i Ht Hi. apply page_eq_pte; [done|]. apply Hpe; [exact (wf_dram _ _ _ Hwf Ht)|].
    destruct Ht. set_solver. }
  destruct (tables_same (allocated (npage s) (p :: l)) _ _ _ Heq Hok) as (Hok' & E1 & E2 & El).
  assert (forall x, not_table (mem s) root x -> not_table (mem s') root x) as Hnt.
  { intros x (? & Hx2 & Hx3). split_and!; [done| |].
    - intros i Hi. rewrite E1 by done. auto.
    - intros i t j Hi Hj. rewrite E1 by done. intros Ht. rewrite (E2 i) by done. exact (Hx3 _ _ _ Hi Hj Ht). }
  destruct Eb as (Ebn & Eb).
  split_and!; try done.
  - rewrite Ebn. eapply pt_ok_mono; [|exact Hok']. unfold allocated. set_solver.
  - apply Hnt. eapply not_ok_not_table; [done|]. intros [_ ?]. set_solver.
  - by rewrite Ebn.
  - intros k Hk. rewrite Em. by apply pte_fill_eq.
  - intros va [N1 N2]. split; [rewrite Heq by (auto with pt || exact (ok_root _ _ _ Hok)); done|].
    intros t. rewrite E1 by auto with pt. intros Ht.
    destruct (ok_l2 _ _ _ Hok _ _ (P1X_idx va) Ht) as [Hokt _]. rewrite Heq by auto with pt. by apply N2.
Qed.

Lemma ref_inc_one s p : pp_ref s p = 0 -> pp_ref (pp_ref_inc p s) = <[p := 1]> (pp_ref s).
Proof. intros H. simpl. by rewrite H. Qed.

(** Writing a table entry keeps the allocator's invariant. *)
Lemma pm_wf_mem s l m : pm_wf s l -> pm_wf (set_mem m s) l.
Proof. intros [? ? ? ?]. by split. Qed.

Lemma walk_missing_l2 s l root va :
  pm_wf s l -> pt_ok (allocated (npage s) l) (mem s) root ->
  pte_valid (pte (mem s) root (P1X va)) = false ->
  exists r s' fresh l', pgdir_walk (page2kva root) va 1 s = Ret r s' /\
    walk_post s s' root va fresh l l' /\
    ((r = (- E_NO_MEM, None) /\ fresh = [] /\ (length l < 2)%nat) \/
     exists t u, tbl (mem s') root (P1X va) = Some t /\ tbl (mem s') t (P2X va) = Some u /\
       u ∈ fresh /\ r = (0, Some (ent (page2kva u) (P3X va)))).
Proof.
  intros Hwf Hok Hinv. pose proof (P1X_idx va) as Hi. pose proof (P2X_idx va) as Hj.
  assert (forall m, pte_valid (pte m root (P1X va)) = false -> nohuge m root va) as Hnh.
  { intros m Hm. split; [congruence|]. intros t Ht. by rewrite tbl_invalid in Ht. }
  unfold pgdir_walk, read_pte. rewrite bind_get. fold (pte (mem s) root (P1X va)).
  rewrite Hinv. simpl.
  destruct l as [|p2 l].
  { rewrite (bind_ret _ _ _ _ _ (page_alloc_none s Hwf)).
    eexists _, s, [], []. split; [done|]. split; [|left; simpl; auto].
    split; auto; [reflexivity|]. intros. apply page_eq_refl. }
  destruct (page_alloc_tree _ _ _ _ Hwf Hok) as
    (s1 & E1 & Hwf1 & Hok1 & Hnt1 & Hal1 & Hr1 & Hz1 & Er1 & Et1 & Eb1 & El1 & Hp1 & Hm1 & Hk1).
  rewrite (bind_ret _ _ _ _ _ E1).
  assert (pte_valid (pte (mem s1) root (P1X va)) = false) as Hinv1.
  { erewrite page_eq_pte; [done|done|]. apply Hp1.
    - exact (wf_dram _ _ _ Hwf (ok_root _ _ _ Hok)).
    - destruct Hnt1; congruence. }
  assert (forall x, allocated (npage s) (p2 :: l) x -> page_eq (mem s) (mem s1) x) as Hfr1.
  { intros x Hx. apply Hp1; [exact (wf_dram _ _ _ Hwf Hx)|]. destruct Hx. set_solver. }
  destruct Eb1 as (Ebn & Eb1).
  destruct l as [|p3 l].
  - rewrite (bind_ret _ _ _ _ _ (page_alloc_none s1 Hwf1)).
    destruct (page_free_ok s1 [] p2) as (s2 & E2 & Hwf2 & Em2 & Er2 & Et2 & Eb2);
      [done|by destruct Hal1|by destruct Hal1|by rewrite Er1|].
    rewrite (bind_ret _ _ _ _ _ E2). destruct Eb2 as (Ebn2 & Eb2).
    eexists _, s2, [], [p2]. split; [done|]. split; [|left; simpl; auto].
    split; [done|simpl; lia|done| | |congruence|simpl; congruence| | | | |].
    + rewrite Em2, Ebn2, Ebn. destruct (tables_same (allocated (npage s) [p2]) (mem s) (mem s1) root)
        as [H _]; [|done|done].
      intros t i Ht Hti. apply page_eq_pte; auto.
    + split; [congruence|]. intuition congruence.
    + rewrite Em2. auto.
    + rewrite Em2. auto.
    + rewrite Em2. auto.
    + rewrite Em2. auto.
    + intros x Hx _. rewrite Em2. auto.
  - destruct (page_alloc_tree _ _ _ _ Hwf1 Hok1) as
      (s2 & E2 & Hwf2 & Hok2 & Hnt2 & Hal2 & Hr2 & Hz2 & Er2 & Et2 & Eb2 & El2 & Hp2 & Hm2 & Hk2).
    rewrite (bind_ret _ _ _ _ _ E2). rewrite !bind_modify. unfold write_pte.
    rewrite !bind_modify. simpl. destruct Eb2 as (Ebn2 & Eb2).
    assert (p2 <> p3) as H23 by (destruct Hal1; set_solver).
    pose proof (wf_dram _ _ _ Hwf1 Hal1) as Hd2.
    pose proof (wf_dram _ _ _ Hwf2 Hal2) as Hd3.
    assert (allocated (npage s2) l p2) as Hal1'.
    { rewrite Ebn2. destruct Hal1. split; [done|]. set_solver. }
    assert (forall t, allocated (npage s2) l t -> in_dram t) as Hdr by (intros t Ht; exact (wf_dram _ _ _ Hwf2 Ht)).
    assert (forall k, idx k -> pte (mem s2) p2 k = 0) as Hz1'.
    { intros k Hk. erewrite page_eq_pte; [by apply Hz1|done|by apply Hp2]. }
    assert (pte_valid (pte (mem s2) root (P1X va)) = false) as Hinv2.
    { erewrite page_eq_pte; [done|done|]. apply Hp2; [|by destruct Hnt2; congruence].
      exact (wf_dram _ _ _ Hwf (ok_root _ _ _ Hok)). }
    destruct (graft_l2 _ Hdr (mem s2) root (P1X va) p2) as (Gok & Gt & Gz & Gnt & Gl & Gk);
      [done..|by apply Hm2|done|].
    rewrite P2KADDR_page by done.
    set (m1 := store64 (mem s2) (ent (page2kva root) (P1X va)) (mk_pte (page2ppn p2) PTE_V)) in *.
    assert (forall k, idx k -> pte m1 p3 k = 0) as Hz3.
    { intros k Hk. unfold m1. rewrite pte_store_ne; [by apply Hz2| |done|done|done|].
      - apply Hdr, (ok_root _ _ _ Hok2).
      - left. destruct Hnt2; congruence. }
    destruct (graft_l3 _ Hdr m1 root (P1X va) (P2X va) p2 p3) as (Gok' & Gt1 & Gt2 & Gnt' & Gl' & Gk');
      [done|done|done|done|by rewrite Gz|done|by apply Gnt|done|].
    rewrite P2KADDR_page by done.
    eexists _, _, [p2; p3], l. split; [done|]. split.
    2: { right. exists p2, p3. split_and!; [done|done|set_solver|done]. }
    assert (pp_ref s2 p2 = 0) as H20 by by rewrite Er2, Er1.
    assert (pp_ref s2 p3 = 0) as H30 by by rewrite Er2.
    split; try (done || simpl; lia).
    + do 2 apply pm_wf_mem. apply pm_wf_ref_set; [|by destruct Hal2].
      apply pm_wf_ref_set; [done|]. by destruct Hal1'.
    + simpl. unfold same_boot in *. simpl. intuition congruence.
    + simpl. congruence.
    + simpl. rewrite fn_lookup_insert_ne by done. rewrite H20, H30, Er2, Er1. done.
    + simpl. intros i j k Hi' Hj' Hk'. rewrite Gl', Gl, El2, El1 by done. done.
    + simpl. by eapply l3_nohuge.
    + simpl. intros va' Hva'. by apply Gk', Gk, Hk2, Hk1.
    + simpl. intros x Hx Hntx. apply Gnt'; [set_solver|]. apply Gnt; [set_solver|]. by apply Hm2, Hm1.
    + simpl. intros x Hx Hntx.
      pose proof (wf_dram _ _ _ Hwf Hx) as Hxd.
      assert (allocated (npage s1) (p3 :: l) x) as Hx1.
      { rewrite Ebn. destruct Hx. split; [done|]. set_solver. }
      eapply page_eq_trans; [by apply Hfr1|]. eapply page_eq_trans; [apply Hp2|].
      * done.
      * destruct Hx1. set_solver.
      * eapply page_eq_trans; apply store_page_eq; try done.
        -- by apply Hdr, (ok_root _ _ _ Hok2).
        -- destruct Hntx; congruence.
        -- destruct Hx. set_solver.
Qed.

Lemma walk_spec s l root va c :
  pm_wf s l -> pt_ok (allocated (npage s) l) (mem s) root -> nohuge (mem s) root va ->
  exists r s' fresh l', pgdir_walk (page2kva root) va c s = Ret r s' /\
    walk_post s s' root va fresh l l' /\
    ((r = (0, None) /\ c = 0 /\ s' = s /\ tbl (mem s) root (P1X va) = None) \/
     (r = (- E_NO_MEM, None) /\ fresh = [] /\ (length l < 2)%nat /\ (c = 0 -> s' = s)) \/
     exists t u, tbl (mem s') root (P1X va) = Some t /\ tbl (mem s') t (P2X va) = Some u /\
       (u ∈ fresh \/ tbl (mem s) root (P1X va) = Some t /\ tbl (mem s) t (P2X va) = Some u) /\
       r = (0, Some (ent (page2kva u) (P3X va)))).
Proof.
  intros Hwf Hok Hnh. pose proof (P1X_idx va) as Hi. pose proof (P2X_idx va) as Hj.
  assert (walk_post s s root va [] l l) as Hrefl.
  { split; auto; [reflexivity|]. intros. apply page_eq_refl. }
  destruct (pte_valid (pte (mem s) root (P1X va))) eqn:V1; last first.
  { destruct (decide (c = 0)) as [->|Hc].
    - eexists _, s, [], l. split; [|split; [auto|left; split_and!; try done]].
      + unfold pgdir_walk, read_pte. rewrite bind_get. fold (pte (mem s) root (P1X va)).
        by rewrite V1.
      + by apply tbl_invalid.
    - destruct (walk_missing_l2 s l root va Hwf Hok V1) as (r & s' & fresh & l' & E & Hp & Hr).
      exists r, s', fresh, l'. split; [|split; [done|right; naive_solver]].
      rewrite <- E. unfold pgdir_walk, read_pte. rewrite !bind_get.
      fold (pte (mem s) root (P1X va)). rewrite V1. simpl.
      by destruct (Z.eqb_spec c 0). }
  destruct Hnh as [N1 N2]. specialize (N1 V1).
  assert (tbl (mem s) root (P1X va) = Some (pte_page (pte (mem s) root (P1X va)))) as Ht
    by (unfold tbl; by rewrite V1, N1).
  set (t := pte_page _) in *. specialize (N2 t Ht).
  destruct (ok_l2 _ _ _ Hok _ _ Hi Ht) as [Hokt Htr].
  pose proof (wf_dram _ _ _ Hwf Hokt) as Htd.
  assert (pgdir_walk (page2kva root) va c s =
    (if negb (pte_valid (pte (mem s) t (P2X va))) then
       r ← page_alloc;
       match r with
       | inl ret => mret (ret, None)
       | inr new =>
           modify (pp_ref_inc new) ;;
           write_pte (ent (page2kva t) (P2X va)) (mk_pte (page2ppn new) PTE_V) ;;
           mret (0, Some (ent (P2KADDR (page2pa new)) (P3X va)))
       end
     else mret (0, Some (ent (P2KADDR (PTE_ADDR (pte (mem s) t (P2X va)))) (P3X va)))) s) as ->.
  { unfold pgdir_walk, read_pte. rewrite bind_get. fold (pte (mem s) root (P1X va)).
    rewrite V1, N1. simpl. rewrite bind_get. rewrite P2KADDR_pte by done. fold t.
    fold (pte (mem s) t (P2X va)). destruct (pte_valid (pte (mem s) t (P2X va))); [|done].
    by rewrite N2. }
  destruct (pte_valid (pte (mem s) t (P2X va))) eqn:V2; simpl.
  - assert (tbl (mem s) t (P2X va) = Some (pte_page (pte (mem s) t (P2X va)))) as Hu
      by (unfold tbl; by rewrite V2, N2).
    eexists _, s, [], l. split; [done|]. split; [auto|]. right; right.
    eexists t, _. split_and!; [done|done|by right|].
    rewrite P2KADDR_pte; [done|]. eapply (wf_dram _ _ _ Hwf).
    by destruct (ok_l3 _ _ _ Hok _ _ _ _ Hi Hj Ht Hu).
  - destruct l as [|n l].
    { rewrite (bind_ret _ _ _ _ _ (page_alloc_none s Hwf)).
      eexists _, s, [], []. split; [done|]. split; [auto|]. right; left. simpl.
      split_and!; try done. lia. }
    destruct (page_alloc_tree _ _ _ _ Hwf Hok) as
      (s1 & E1 & Hwf1 & Hok1 & Hnt1 & Hal1 & Hr1 & Hz1 & Er1 & Et1 & Eb1 & El1 & Hp1 & Hm1 & Hk1).
    rewrite (bind_ret _ _ _ _ _ E1), bind_modify. unfold write_pte. rewrite bind_modify.
    assert (forall x, allocated (npage s) (n :: l) x -> page_eq (mem s) (mem s1) x) as Hfr1.
    { intros x Hx. apply Hp1; [exact (wf_dram _ _ _ Hwf Hx)|]. destruct Hx. set_solver. }
    assert (tbl (mem s1) root (P1X va) = Some t) as Ht1.
    { rewrite <- Ht. apply tbl_ext, page_eq_pte; [done|]. apply Hfr1, (ok_root _ _ _ Hok). }
    assert (pte_valid (pte (mem s1) t (P2X va)) = false) as V2'.
    { erewrite page_eq_pte; [exact V2|done|]. by apply Hfr1. }
    assert (forall t, allocated (npage s1) l t -> in_dram t) as Hdr
      by (intros x Hx; exact (wf_dram _ _ _ Hwf1 Hx)).
    destruct (graft_l3 _ Hdr (mem s1) root (P1X va) (P2X va) t n) as (Gok & Gt1 & Gt2 & Gnt & Gl & Gk);
      [done..|].
    eexists _, _, [n], l. split; [done|]. split.
    2: { right; right. exists t, n. rewrite P2KADDR_page by by apply Hdr.
      split_and!; [done|done|left; set_solver|done]. }
    assert (pp_ref s1 n = 0) as Hn0 by by rewrite Er1.
    split; try (done || simpl; lia).
    + apply pm_wf_mem. apply pm_wf_ref_set; [done|]. by destruct Hal1.
    + simpl. rewrite Hn0, Er1. done.
    + simpl. intros i j k Hi' Hj' Hk'. rewrite Gl, El1 by done. done.
    + simpl. by eapply l3_nohuge.
    + simpl. intros va' Hva'. by apply Gk, Hk1.
    + simpl. intros x Hx Hntx. apply Gnt; [set_solver|]. by apply Hm1.
    + simpl. intros x Hx Hntx. eapply page_eq_trans; [by apply Hfr1|].
      apply store_page_eq; [done|exact (wf_dram _ _ _ Hwf Hx)|done|].
      intros ->. by apply (proj1 (proj2 Hntx) (P1X va)).
Qed.

(** ** Walks to an existing third-level table *)

Lemma walk_l3 s l root va c t u :
  pm_wf s l -> pt_ok (allocated (npage s) l) (mem s) root ->
  tbl (mem s) root (P1X va) = Some t -> tbl (mem s) t (P2X va) = Some u ->
  pgdir_walk (page2kva root) va c s = Ret (0, Some (ent (page2kva u) (P3X va))) s.
Proof.
  intros Hwf Hok Ht Hu.
  destruct (ok_l2 _ _ _ Hok _ _ (P1X_idx va) Ht) as [Hokt _].
  destruct (ok_l3 _ _ _ Hok _ _ _ _ (P1X_idx va) (P2X_idx va) Ht Hu) as [Hoku _].
  pose proof (wf_dram _ _ _ Hwf Hokt). pose proof (wf_dram _ _ _ Hwf Hoku).
  apply tbl_valid in Ht as (V1 & N1 & ->). apply tbl_valid in Hu as (V2 & N2 & ->).
  unfold pgdir_walk, read_pte. rewrite bind_get. fold (pte (mem s) root (P1X va)).
  rewrite V1, N1. simpl. rewrite bind_get, P2KADDR_pte by done.
  fold (pte (mem s) (pte_page (pte (mem s) root (P1X va))) (P2X va)).
  rewrite V2, N2. simpl. by rewrite P2KADDR_pte.
Qed.

Lemma leaf_l3 m root i j k t u :
  tbl m root i = Some t -> tbl m t j = Some u ->
  leaf m root i j k = if pte_valid (pte m u k) then Some (pte m u k) else None.
Proof.
  intros (V1 & N1 & ->)%tbl_valid (V2 & N2 & ->)%tbl_valid.
  unfold leaf. rewrite V1, N1, V2, N2. simpl. apply Bool.if_negb.
Qed.

(** A mapped page that no huge page covers has a third-level entry. *)
Lemma leaf_pte_l3 m root va e :
  nohuge m root va -> leaf_pte m root va = Some e ->
  exists t u, tbl m root (P1X va) = Some t /\ tbl m t (P2X va) = Some u /\
    pte m u (P3X va) = e /\ pte_valid e = true.
Proof.
  intros [N1 N2] He. unfold leaf_pte, leaf in He.
  destruct (pte_valid (pte m root (P1X va))) eqn:V1; [|done]. rewrite N1 in He by done. simpl in He.
  assert (tbl m root (P1X va) = Some (pte_page (pte m root (P1X va)))) as Ht
    by (unfold tbl; by rewrite V1, N1).
  destruct (pte_valid (pte m _ (P2X va))) eqn:V2; [|done]. rewrite N2 in He by done. simpl in He.
  eexists _, _. split; [done|]. split; [unfold tbl; by rewrite V2, (N2 _ Ht V2)|].
  destruct (pte_valid (pte m _ (P3X va))) eqn:V3; [|done]. by simplify_eq/=.
Qed.

(** [va2pa] reads the abstract mapping. *)
Lemma va2pa_l3 s l root va t u :
  pm_wf s l -> pt_ok (allocated (npage s) l) (mem s) root ->
  tbl (mem s) root (P1X va) = Some t -> tbl (mem s) t (P2X va) = Some u ->
  va2pa (mem s) (page2kva root) va =
    match leaf_pte (mem s) root va with
    | Some e => Z.lor (PTE_ADDR e) (Z.land va (GENMASK 11 0))
    | None => 2 ^ 64 - 1
    end.
Proof.
  intros Hwf Hok Ht Hu.
  destruct (ok_l2 _ _ _ Hok _ _ (P1X_idx va) Ht) as [Hokt _].
  destruct (ok_l3 _ _ _ Hok _ _ _ _ (P1X_idx va) (P2X_idx va) Ht Hu) as [Hoku _].
  pose proof (wf_dram _ _ _ Hwf Hokt). pose proof (wf_dram _ _ _ Hwf Hoku).
  unfold leaf_pte. rewrite (leaf_l3 _ _ _ _ _ _ _ Ht Hu).
  apply tbl_valid in Ht as (V1 & N1 & ->). apply tbl_valid in Hu as (V2 & N2 & ->).
  unfold va2pa. fold (pte (mem s) root (P1X va)). rewrite V1, N1. simpl.
  rewrite P2KADDR_pte by done.
  fold (pte (mem s) (pte_page (pte (mem s) root (P1X va))) (P2X va)).
  rewrite V2, N2. simpl. rewrite P2KADDR_pte by done.
  fold (pte (mem s) (pte_page (pte (mem s) (pte_page (pte (mem s) root (P1X va))) (P2X va))) (P3X va)).
  match goal with |- context [negb ?b] => by destruct b end.
Qed.

(** An address that is not mapped is not inside a huge page. *)
Lemma leaf_none_nohuge m root va : leaf_pte m root va = None -> nohuge m root va.
Proof.
  unfold leaf_pte, leaf, nohuge. intros H.
  destruct (pte_valid (pte m root (P1X va))) eqn:V1; simpl in H; [|split; [done|]].
  - destruct (PTE_IS_NON_LEAF (pte m root (P1X va))) eqn:N1; simpl in H; [|done].
    split; [done|]. intros t (_ & _ & ->)%tbl_valid Hv. rewrite Hv in H. simpl in H.
    by destruct (PTE_IS_NON_LEAF (pte m _ (P2X va))).
  - intros t Ht. rewrite tbl_invalid in Ht by done. done.
Qed.
