(* ===== verification/PageMap.v ===== *)
(** kern/pmap.c: what the page-mapping operations [page_lookup],
    [page_remove] and [page_insert] do to the mapping that a page table stands
    for, to the reference counts and to the TLB. *)
From S2P Require Import Prelude Queue Mem Mmu Pmap PageTable.

(** The mapping [root] holds, in a well-formed kernel state with free list [l]. *)
Record as_wf (s : pmap) (l : list Z) (root : Z) : Prop := {
  as_pm : pm_wf s l;
  as_pt : pt_ok (allocated (npage s) l) (mem s) root
}.

(** The page mapped at [va] is a referenced user page. *)
Definition mapped_ok (s : pmap) (root va : Z) : Prop :=
  forall e, leaf_pte (mem s) root va = Some e ->
    0 <= pte_page e < npage s /\ 0 < pp_ref s (pte_page e) /\
    not_table (mem s) root (pte_page e).

(** Nothing but the mapping of the page that holds [va] differs. *)
Definition others_same (m m' : memory) (root va : Z) : Prop :=
  forall va', VPN va' <> VPN va -> leaf_pte m' root va' = leaf_pte m root va'.

Lemma as_wf_tlb s l root x : as_wf s l root -> as_wf (set_tlb x s) l root.
Proof. intros [[? ? ? ?] ?]. split; [by split|done]. Qed.

Lemma pt_ok_exclude ok m root p :
  pt_ok ok m root -> not_table m root p -> pt_ok (fun t => ok t /\ t <> p) m root.
Proof.
  intros [H1 H2 H3 H4 H5] (N1 & N2 & N3). split; [by split| | |done|done].
  - intros i t Hi Ht. destruct (H2 _ _ Hi Ht). split_and!; [done| |done].
    intros ->. exact (N2 _ Hi Ht).
  - intros i t j u Hi Hj Ht Hu. destruct (H3 _ _ _ _ Hi Hj Ht Hu) as (? & ? & ?).
    split_and!; [done| |done|done]. intros ->. exact (N3 _ _ _ Hi Hj Ht Hu).
Qed.

Lemma others_same_of m m' root va :
  (forall i j k, idx i -> idx j -> idx k -> (i, j, k) <> (P1X va, P2X va, P3X va) ->
     leaf m' root i j k = leaf m root i j k) -> others_same m m' root va.
Proof.
  intros H va' Hne. apply H; eauto with pt. intros [= E1 E2 E3]. by apply Hne, VPN_indices.
Qed.

Lemma walk_others m m' root va :
  (forall i j k, idx i -> idx j -> idx k -> leaf m' root i j k = leaf m root i j k) ->
  leaf_pte m' root va = leaf_pte m root va /\ others_same m m' root va.
Proof. intros H. split; [apply H; eauto with pt|]. apply others_same_of. auto. Qed.

(** The third-level table that maps [va]. *)
Definition l3_of (m : memory) (root va u : Z) : Prop :=
  exists t, tbl m root (P1X va) = Some t /\ tbl m t (P2X va) = Some u.

Lemma l3_dram s l root va u : as_wf s l root -> l3_of (mem s) root va u ->
  in_dram u /\ allocated (npage s) l u /\ ~ not_table (mem s) root u.
Proof.
  intros [Hwf Hok] (t & Ht & Hu).
  destruct (ok_l3 _ _ _ Hok _ _ _ _ (P1X_idx va) (P2X_idx va) Ht Hu) as [Hoku _].
  split_and!; [exact (wf_dram _ _ _ Hwf Hoku)|done|].
  intros (_ & _ & N3). exact (N3 _ _ _ (P1X_idx va) (P2X_idx va) Ht Hu).
Qed.

(** Writing the leaf entry of [va]. *)
Lemma write_leaf s l root va u v :
  as_wf s l root -> l3_of (mem s) root va u -> 0 <= v < 2 ^ 64 ->
  let s' := mem_store64 (ent (page2kva u) (P3X va)) v s in
  as_wf s' l root /\ l3_of (mem s') root va u /\
  leaf_pte (mem s') root va = (if pte_valid v then Some v else None) /\
  others_same (mem s) (mem s') root va /\
  (forall x, allocated (npage s) l x -> not_table (mem s) root x -> page_eq (mem s) (mem s') x) /\
  (forall x, not_table (mem s) root x -> not_table (mem s') root x).
Proof.
  intros [Hwf Hok] Hl3 Hv s'.
  destruct (l3_dram _ _ _ _ _ (Build_as_wf _ _ _ Hwf Hok) Hl3) as (Hud & _ & Hnt).
  destruct Hl3 as (t & Ht & Hu).
  destruct (set_leaf (allocated (npage s) l)) with (m := mem s) (root := root) (i0 := P1X va)
    (j0 := P2X va) (k0 := P3X va) (t0 := t) (u0 := u) (v := v)
    as (Gok & Gt & Gu & Gn & Gl & Go); eauto with pt.
  { intros x Hx. exact (wf_dram _ _ _ Hwf Hx). }
  split_and!; [|by exists t|done|by apply others_same_of| |exact Gn].
  - split; [by apply pm_wf_mem|done].
  - intros x Hx Hntx. apply store_page_eq; eauto with pt.
    + exact (wf_dram _ _ _ Hwf Hx).
    + intros ->. done.
Qed.

Lemma read_leaf s root va u :
  l3_of (mem s) root va u ->
  leaf_pte (mem s) root va =
    (if pte_valid (pte (mem s) u (P3X va)) then Some (pte (mem s) u (P3X va)) else None).
Proof. intros (t & Ht & Hu). by apply (leaf_l3 _ _ _ _ _ t). Qed.

Lemma mapped_l3 m root va e :
  nohuge m root va -> leaf_pte m root va = Some e ->
  exists u, l3_of m root va u /\ pte m u (P3X va) = e /\ pte_valid e = true.
Proof.
  intros Hn He. destruct (leaf_pte_l3 _ _ _ _ Hn He) as (t & u & Ht & Hu & E & V).
  exists u. split; [by exists t|done].
Qed.

Lemma walk_l3_of s l root va c u :
  as_wf s l root -> l3_of (mem s) root va u ->
  pgdir_walk (page2kva root) va c s = Ret (0, Some (ent (page2kva u) (P3X va))) s.
Proof. intros [Hwf Hok] (t & Ht & Hu). by eapply walk_l3. Qed.

Lemma pa2page_pte s e : 0 <= pte_page e < npage s -> npage s <= 2 ^ 26 ->
  pa2page (PTE_ADDR e) s = Ret (pte_page e) s.
Proof.
  intros He Hn. rewrite pte_page_addr, <- page2pa_eq by lia. by apply pa2page_page2pa.
Qed.

(** ** page_lookup *)

Lemma page_lookup_mapped s l root va e :
  as_wf s l root -> nohuge (mem s) root va -> leaf_pte (mem s) root va = Some e ->
  0 <= pte_page e < npage s ->
  exists u, l3_of (mem s) root va u /\
    page_lookup (page2kva root) va s = Ret (Some (pte_page e, ent (page2kva u) (P3X va))) s.
Proof.
  intros Has Hnh He Hp. destruct (mapped_l3 _ _ _ _ Hnh He) as (u & Hu & Ee & V).
  exists u. split; [done|]. unfold page_lookup. mrun (walk_l3_of _ _ _ _ 0 _ Has Hu).
  unfold read_pte. rewrite bind_get. fold (pte (mem s) u (P3X va)). rewrite Ee, V. simpl.
  pose proof (wf_npage _ _ (as_pm _ _ _ Has)).
  mrun (pa2page_pte s e Hp ltac:(lia)). done.
Qed.

(** What a walk that does not create leaves: nothing, or tables. *)
Lemma page_lookup_unmapped s l root va :
  as_wf s l root -> nohuge (mem s) root va -> leaf_pte (mem s) root va = None ->
  exists s' fresh l', page_lookup (page2kva root) va s = Ret None s' /\
    walk_post s s' root va fresh l l'.
Proof.
  intros [Hwf Hok] Hnh Hl.
  destruct (walk_spec s l root va 0 Hwf Hok Hnh) as (r & s' & fresh & l' & E & Hp & Hr).
  exists s', fresh, l'. split; [|done]. unfold page_lookup. mrun E.
  destruct Hr as [(-> & _)|[(-> & _)|(t & u & Ht & Hu & _ & ->)]]; [done..|].
  assert (leaf_pte (mem s') root va = None) as Hl'
    by (rewrite <- Hl; apply (wp_leaf _ _ _ _ _ _ _ Hp); eauto with pt).
  unfold read_pte. rewrite bind_get. fold (pte (mem s') u (P3X va)).
  rewrite (read_leaf _ _ _ u) in Hl' by by exists t.
  by destruct (pte_valid (pte (mem s') u (P3X va))).
Qed.

(** ** page_remove *)

Definition free_after (s : pmap) (p : Z) (l : list Z) : list Z :=
  if decide (pp_ref s p = 1) then p :: l else l.

Lemma page_remove_mapped s l root asid va e :
  as_wf s l root -> nohuge (mem s) root va -> leaf_pte (mem s) root va = Some e ->
  mapped_ok s root va ->
  exists s' u, page_remove (page2kva root) asid va s = Ret tt s' /\
    as_wf s' (free_after s (pte_page e) l) root /\
    l3_of (mem s) root va u /\ l3_of (mem s') root va u /\
    leaf_pte (mem s') root va = None /\ others_same (mem s) (mem s') root va /\
    pp_ref s' = <[pte_page e := pp_ref s (pte_page e) - 1]> (pp_ref s) /\
    tlb s' = TlbInvalidate (u16 asid) (u16 va) :: tlb s /\ same_boot s s' /\
    (forall x, allocated (npage s) l x -> not_table (mem s) root x -> page_eq (mem s) (mem s') x) /\
    (forall x, not_table (mem s) root x -> not_table (mem s') root x).
Proof.
  intros Has Hnh He Hm. destruct (Hm e He) as (Hp & Hr & Hnt).
  destruct (page_lookup_mapped _ _ _ _ _ Has Hnh He Hp) as (u & Hu & E).
  destruct Has as [Hwf Hok].
  destruct (page_decref_ok _ _ _ Hwf Hp Hr) as (s1 & E1 & Hwf1 & Em & Er & Et & Eb).
  assert (as_wf s1 (free_after s (pte_page e) l) root) as Has1.
  { split; [done|]. rewrite Em. destruct Eb as [-> _].
    eapply pt_ok_mono; [|eapply pt_ok_exclude; [exact Hok|exact Hnt]].
    intros t [[Ht Htl] Hne]. split; [done|]. unfold free_after. case_decide; [|done]. set_solver. }
  destruct (write_leaf s1 _ root va u 0 Has1) as (Has2 & Hu2 & Hl2 & Ho2 & Hf2 & Hn2); [by rewrite Em|lia|].
  unfold page_remove. mrun E. mrun E1. unfold write_pte. rewrite bind_modify.
  unfold tlb_invalidate, modify. eexists _, u. split; [done|].
  split_and!; try done.
  - by apply as_wf_tlb.
  - simpl. rewrite <- Em. exact Ho2.
  - simpl. by rewrite Et.
  - simpl. intros x Hx Hntx. rewrite <- Em.
    destruct (decide (x = pte_page e)) as [->|Hne].
    + simpl. destruct (l3_dram _ _ _ _ _ (Build_as_wf _ _ _ Hwf Hok) Hu) as (Hud & _ & Hnu).
      apply store_page_eq; eauto with pt; [exact (wf_dram _ _ _ Hwf Hx)|]. by intros ->.
    + apply Hf2; [|by rewrite Em]. destruct Eb as [-> _]. destruct Hx as [Hx Hxl].
      split; [done|]. unfold free_after. case_decide; [|done]. set_solver.
  - simpl. rewrite <- Em. exact Hn2.
Qed.

Lemma page_remove_unmapped s l root asid va :
  as_wf s l root -> nohuge (mem s) root va -> leaf_pte (mem s) root va = None ->
  exists s' fresh l', page_remove (page2kva root) asid va s = Ret tt s' /\
    walk_post s s' root va fresh l l'.
Proof.
  intros Has Hnh Hl.
  destruct (page_lookup_unmapped _ _ _ _ Has Hnh Hl) as (s' & fresh & l' & E & Hp).
  exists s', fresh, l'. split; [|done]. unfold page_remove. by mrun E.
Qed.

(** ** page_insert *)

(** The tail of [page_insert], which maps [pp] after the old mapping is gone. *)
Definition insert_tail (pgdir pp va perm : Z) : M pmap Z :=
  '(ret, pte) ← pgdir_walk pgdir va 1;
  if negb (ret =? 0) then mret ret
  else
    match pte with
    | None => panic
    | Some pte =>
        write_pte pte (mk_pte (page2ppn pp) (Z.lor perm PTE_V)) ;;
        modify (pp_ref_inc pp) ;;
        mret 0
    end.

Definition new_pte (pp perm : Z) : Z := mk_pte (page2ppn pp) (Z.lor perm PTE_V).

Lemma new_pte_ok pp perm : in_dram pp -> 0 <= perm < 1024 ->
  0 <= new_pte pp perm < 2 ^ 64 /\ pte_valid (new_pte pp perm) = true /\
  pte_page (new_pte pp perm) = pp.
Proof.
  intros Hp Hperm. pose proof (page2ppn_bound pp Hp). pose proof (flags_V_bound perm Hperm).
  unfold new_pte. split; [by apply mk_pte_bound|split; [|by apply pte_page_mk]].
  rewrite pte_valid_mk by done. apply pte_valid_lor_V.
Qed.

Lemma ref_inc_nowrap s p : 0 <= pp_ref s p < 2 ^ 16 - 1 ->
  pp_ref (pp_ref_inc p s) = <[p := pp_ref s p + 1]> (pp_ref s).
Proof. intros H. simpl. unfold u16. by rewrite Z.mod_small by lia. Qed.

Lemma as_wf_ref s l root p v : as_wf s l root -> p ∉ l -> as_wf (pp_ref_set p v s) l root.
Proof. intros [Hwf Hok] Hp. split; [by apply pm_wf_ref_set|done]. Qed.

(** Mapping [pp] where a third-level table exists. *)
Lemma insert_tail_l3 s l root pp va perm u :
  as_wf s l root -> l3_of (mem s) root va u -> allocated (npage s) l pp ->
  pp_ref s pp < 2 ^ 16 - 1 -> 0 <= perm < 1024 ->
  exists s', insert_tail (page2kva root) pp va perm s = Ret 0 s' /\
    as_wf s' l root /\ l3_of (mem s') root va u /\
    leaf_pte (mem s') root va = Some (new_pte pp perm) /\
    others_same (mem s) (mem s') root va /\
    pp_ref s' = <[pp := pp_ref s pp + 1]> (pp_ref s) /\
    tlb s' = tlb s /\ same_boot s s' /\
    (forall x, allocated (npage s) l x -> not_table (mem s) root x -> page_eq (mem s) (mem s') x) /\
    (forall x, not_table (mem s) root x -> not_table (mem s') root x).
Proof.
  intros Has Hu Hpp Hr Hperm.
  pose proof (wf_dram _ _ _ (as_pm _ _ _ Has) Hpp) as Hd.
  pose proof (wf_ref _ _ (as_pm _ _ _ Has) pp) as Hb.
  destruct (new_pte_ok pp perm Hd Hperm) as (Hv & Hval & _).
  destruct (write_leaf s l root va u (new_pte pp perm) Has Hu Hv) as (Has1 & Hu1 & Hl1 & Ho1 & Hf1 & Hn1).
  unfold insert_tail. mrun (walk_l3_of _ _ _ _ 1 _ Has Hu). simpl.
  unfold write_pte. rewrite bind_modify, bind_modify. eexists. split; [done|].
  rewrite Hval in Hl1. split_and!; try done.
  - apply as_wf_ref; [done|]. by destruct Hpp.
  - by rewrite ref_inc_nowrap by (simpl; lia).
Qed.

(** The effect of a successful insertion on the reference counts, when the
    walk took the pages [fresh] for tables. *)
Definition insert_refs (s : pmap) (root pp va : Z) (fresh : list Z) : Z -> Z :=
  match leaf_pte (mem s) root va with
  | Some e =>
      if decide (pte_page e = pp) then pp_ref s
      else <[pp := pp_ref s pp + 1]> (<[pte_page e := pp_ref s (pte_page e) - 1]> (pp_ref s))
  | None => <[pp := pp_ref s pp + 1]> (ref_one fresh (pp_ref s))
  end.

Definition insert_free (s : pmap) (root pp va : Z) (l : list Z) : list Z :=
  match leaf_pte (mem s) root va with
  | Some e => if decide (pte_page e = pp) then l else free_after s (pte_page e) l
  | None => l
  end.

(** What [page_insert] leaves when it returns 0. *)
Record inserted (s s' : pmap) (root asid pp va perm : Z) (l : list Z) : Prop := {
  ins_wf : exists fresh l', insert_free s root pp va l = fresh ++ l' /\ as_wf s' l' root /\
    pp_ref s' = insert_refs s root pp va fresh /\
    (leaf_pte (mem s) root va <> None -> fresh = []);
  ins_nohuge : nohuge (mem s') root va;
  ins_leaf : leaf_pte (mem s') root va = Some (new_pte pp perm);
  ins_others : others_same (mem s) (mem s') root va;
  ins_tlb : exists ops, tlb s' = TlbInvalidate (u16 asid) (u16 va) :: ops ++ tlb s;
  ins_boot : same_boot s s';
  ins_tables : forall x, allocated (npage s) l x -> not_table (mem s) root x ->
    not_table (mem s') root x;
  ins_frame : forall x, allocated (npage s) l x -> not_table (mem s) root x ->
    page_eq (mem s) (mem s') x
}.

(** What it leaves when no page is left for a table. *)
Record insert_failed (s s' : pmap) (root asid va : Z) (l : list Z) : Prop := {
  insf_short : (length l < 2)%nat;
  insf_unmapped : leaf_pte (mem s) root va = None;
  insf_wf : as_wf s' l root;
  insf_leaf : forall va', leaf_pte (mem s') root va' = leaf_pte (mem s) root va';
  insf_ref : pp_ref s' = pp_ref s;
  insf_tables : forall x, not_table (mem s) root x -> not_table (mem s') root x;
  insf_frame : forall x, allocated (npage s) l x -> not_table (mem s) root x ->
    page_eq (mem s) (mem s') x
}.

Lemma l3_nohuge_of m root va u : l3_of m root va u -> nohuge m root va.
Proof. intros (t & ? & ?). by eapply l3_nohuge. Qed.

(** The page already mapped there: only the flags change. *)
Lemma insert_same s l root asid pp va perm e :
  as_wf s l root -> nohuge (mem s) root va -> leaf_pte (mem s) root va = Some e ->
  mapped_ok s root va -> pte_page e = pp -> 0 <= perm < 1024 ->
  exists s', page_insert (page2kva root) asid pp va perm s = Ret 0 s' /\
    inserted s s' root asid pp va perm l.
Proof.
  intros Has Hnh He Hm <- Hperm. destruct (Hm e He) as (Hp & Hr & Hnt).
  destruct (mapped_l3 _ _ _ _ Hnh He) as (u & Hu & Ee & V).
  pose proof (wf_npage _ _ (as_pm _ _ _ Has)) as Hn.
  assert (in_dram (pte_page e)) as Hd by (unfold in_dram; lia).
  destruct (new_pte_ok (pte_page e) perm Hd Hperm) as (Hv & Hval & _).
  set (s1 := set_tlb (TlbInvalidate (u16 asid) (u16 va) :: tlb s) s).
  destruct (write_leaf s1 l root va u (new_pte (pte_page e) perm) (as_wf_tlb _ _ _ _ Has) Hu Hv)
    as (Has1 & Hu1 & Hl1 & Ho1 & Hf1 & Hn1).
  unfold page_insert. mrun (walk_l3_of _ _ _ _ 0 _ Has Hu). unfold read_pte.
  rewrite bind_assoc, bind_get. fold (pte (mem s) u (P3X va)). rewrite Ee, V.
  rewrite bind_assoc. mrun (pa2page_pte s e Hp ltac:(lia)). rewrite Z.eqb_refl. simpl.
  unfold tlb_invalidate, write_pte. rewrite bind_assoc, bind_modify, bind_assoc, bind_modify, bind_mret.
  eexists. split; [done|]. rewrite Hval in Hl1. split; try done.
  - exists [], l. unfold insert_free, insert_refs. rewrite He, !decide_True by done. split_and!; done.
  - by eapply l3_nohuge_of.
  - by exists [].
  - intros x _. apply Hn1.
Qed.

(** Another page mapped there: it is unmapped first. *)
Lemma insert_replace s l root asid pp va perm e :
  as_wf s l root -> nohuge (mem s) root va -> leaf_pte (mem s) root va = Some e ->
  mapped_ok s root va -> pte_page e <> pp -> allocated (npage s) l pp ->
  pp_ref s pp < 2 ^ 16 - 1 -> 0 <= perm < 1024 ->
  exists s', page_insert (page2kva root) asid pp va perm s = Ret 0 s' /\
    inserted s s' root asid pp va perm l.
Proof.
  intros Has Hnh He Hm Hne Hpp Href Hperm. destruct (Hm e He) as (Hp & Hr & Hnt).
  destruct (mapped_l3 _ _ _ _ Hnh He) as (u & Hu & Ee & V).
  pose proof (wf_npage _ _ (as_pm _ _ _ Has)) as Hn.
  destruct (page_remove_mapped s l root asid va e Has Hnh He Hm)
    as (s1 & u' & E1 & Has1 & Hu' & Hu1 & Hl1 & Ho1 & Hr1 & Ht1 & Hb1 & Hf1 & Hn1).
  set (s2 := set_tlb (TlbInvalidate (u16 asid) (u16 va) :: tlb s1) s1).
  assert (allocated (npage s2) (free_after s (pte_page e) l) pp) as Hpp2.
  { simpl. destruct Hb1 as [-> _]. destruct Hpp as [? ?]. split; [done|].
    unfold free_after. case_decide; [|done]. set_solver. }
  destruct (insert_tail_l3 s2 _ root pp va perm u' (as_wf_tlb _ _ _ _ Has1) Hu1 Hpp2)
    as (s3 & E3 & Has3 & Hu3 & Hl3 & Ho3 & Hr3 & Ht3 & Hb3 & Hf3 & Hn3); [|done|].
  { simpl. rewrite Hr1, fn_lookup_insert_ne by done. done. }
  exists s3. split.
  { unfold page_insert. mrun (walk_l3_of _ _ _ _ 0 _ Has Hu). unfold read_pte.
    rewrite bind_assoc, bind_get. fold (pte (mem s) u (P3X va)). rewrite Ee, V.
    rewrite bind_assoc. mrun (pa2page_pte s e Hp ltac:(lia)).
    destruct (Z.eqb_spec (pte_page e) pp); [done|]. simpl. rewrite bind_assoc. mrun E1.
    rewrite bind_mret. unfold tlb_invalidate. rewrite bind_modify. exact E3. }
  split; try done.
  - exists [], (free_after s (pte_page e) l). unfold insert_free, insert_refs.
    rewrite He, !decide_False by done. split_and!; try done.
    rewrite Hr3. simpl. rewrite Hr1. by rewrite fn_lookup_insert_ne.
  - by eapply l3_nohuge_of.
  - intros va' Hv'. rewrite (Ho3 va') by done. simpl. by apply Ho1.
  - exists [TlbInvalidate (u16 asid) (u16 va)]. rewrite Ht3. simpl. by rewrite Ht1.
  - etransitivity; [exact Hb1|exact Hb3].
  - intros x _ Hx. by apply Hn3, Hn1.
  - intros x Hx Hntx. eapply page_eq_trans; [by apply Hf1|].
    destruct (l3_dram _ _ _ _ _ Has1 Hu1) as (Hud & _ & Hnu).
    destruct (l3_dram _ _ _ _ _ Has Hu') as (_ & _ & Hnu').
    clear Hf3. revert E3. unfold insert_tail.
    mrun (walk_l3_of _ _ _ _ 1 _ (as_wf_tlb _ _ _ (TlbInvalidate (u16 asid) (u16 va) :: tlb s1) Has1) Hu1).
    simpl. unfold write_pte. rewrite bind_modify, bind_modify. intros [= <-]. simpl.
    apply store_page_eq; eauto with pt; [exact (wf_dram _ _ _ (as_pm _ _ _ Has) Hx)|]. by intros ->.
Qed.

Lemma walk_post_as s s' root va fresh l l' :
  walk_post s s' root va fresh l l' -> as_wf s' l' root.
Proof. intros H. split; [exact (wp_wf _ _ _ _ _ _ _ H)|exact (wp_ok _ _ _ _ _ _ _ H)]. Qed.

Lemma ref_one_notin fresh p : forall r, p ∉ fresh -> ref_one fresh r p = r p.
Proof.
  induction fresh as [|q f IH]; intros r Hp; simpl; [done|].
  rewrite IH by set_solver. apply fn_lookup_insert_ne. set_solver.
Qed.

(** The entry address a successful walk returns. *)
Lemma insert_found s s1 l l1 root asid pp va perm fresh u :
  as_wf s l root -> leaf_pte (mem s) root va = None -> walk_post s s1 root va fresh l l1 ->
  l3_of (mem s1) root va u -> allocated (npage s) l pp -> not_table (mem s) root pp ->
  pp_ref s pp < 2 ^ 16 - 1 -> 0 <= perm < 1024 ->
  (forall x, allocated (npage s) l x -> not_table (mem s) root x -> x <> u) ->
  exists s', insert_tail (page2kva root) pp va perm
      (set_tlb (TlbInvalidate (u16 asid) (u16 va) :: tlb s1) s1) = Ret 0 s' /\
    inserted s s' root asid pp va perm l.
Proof.
  intros Has Hl Hp Hu Hpp Hntp Href Hperm Hxu.
  set (s2 := set_tlb _ s1).
  pose proof (walk_post_as _ _ _ _ _ _ _ Hp) as Has1.
  pose proof (wp_split _ _ _ _ _ _ _ Hp) as Hs. destruct (wp_boot _ _ _ _ _ _ _ Hp) as (Hbn & Hb).
  assert (pp ∉ fresh) as Hpf by (destruct Hpp; set_solver).
  assert (pp_ref s2 = ref_one fresh (pp_ref s)) as Hr2 by exact (wp_ref _ _ _ _ _ _ _ Hp).
  destruct (insert_tail_l3 s2 l1 root pp va perm u (as_wf_tlb _ _ _ _ Has1) Hu)
    as (s3 & E3 & Has3 & Hu3 & Hl3 & Ho3 & Hr3 & Ht3 & Hb3 & Hf3 & Hn3); [| |done|].
  { simpl. rewrite Hbn. destruct Hpp. split; [done|]. set_solver. }
  { rewrite Hr2, ref_one_notin by done. done. }
  destruct (walk_others (mem s) (mem s1) root va (wp_leaf _ _ _ _ _ _ _ Hp)) as [Hlv Ho].
  exists s3. split; [done|]. split; try done.
  - exists fresh, l1. unfold insert_free, insert_refs. rewrite Hl. split_and!; try done.
    rewrite Hr3, Hr2, ref_one_notin by done. done.
  - by eapply l3_nohuge_of.
  - intros va' Hv'. rewrite (Ho3 va') by done. simpl. by apply Ho.
  - exists []. rewrite Ht3. simpl. by rewrite (wp_tlb _ _ _ _ _ _ _ Hp).
  - etransitivity; [split; [exact Hbn|exact Hb]|exact Hb3].
  - intros x [_ Hx] Hntx. apply Hn3, (wp_tables _ _ _ _ _ _ _ Hp); [set_solver|done].
  - intros x Hx Hntx. eapply page_eq_trans; [by apply (wp_frame _ _ _ _ _ _ _ Hp)|].
    destruct (l3_dram _ _ _ _ _ Has1 Hu) as (Hud & _ & _).
    clear Hf3. revert E3. unfold insert_tail.
    mrun (walk_l3_of _ _ _ _ 1 _ (as_wf_tlb _ _ _ (TlbInvalidate (u16 asid) (u16 va) :: tlb s1) Has1) Hu).
    simpl. unfold write_pte. rewrite bind_modify, bind_modify. intros [= <-]. simpl.
    apply store_page_eq; eauto with pt; [exact (wf_dram _ _ _ (as_pm _ _ _ Has) Hx)|].
    intros ->. by apply (Hxu x).
Qed.

(** Nothing mapped there: tables are created as needed. *)
Lemma insert_new s l root asid pp va perm :
  as_wf s l root -> nohuge (mem s) root va -> leaf_pte (mem s) root va = None ->
  allocated (npage s) l pp -> not_table (mem s) root pp ->
  pp_ref s pp < 2 ^ 16 - 1 -> 0 <= perm < 1024 ->
  exists r s', page_insert (page2kva root) asid pp va perm s = Ret r s' /\
    (r = 0 /\ inserted s s' root asid pp va perm l \/
     r = - E_NO_MEM /\ insert_failed s s' root asid va l).
Proof.
  intros Has Hnh Hl Hpp Hntp Href Hperm.
  set (inv := TlbInvalidate (u16 asid) (u16 va)).
  assert (forall s1 l1 fresh u t,
    walk_post s s1 root va fresh l l1 -> tbl (mem s1) root (P1X va) = Some t ->
    tbl (mem s1) t (P2X va) = Some u ->
    (u ∈ fresh \/ tbl (mem s) root (P1X va) = Some t /\ tbl (mem s) t (P2X va) = Some u) ->
    exists s', insert_tail (page2kva root) pp va perm (set_tlb (inv :: tlb s1) s1) = Ret 0 s' /\
      inserted s s' root asid pp va perm l) as Hfound.
  { intros s1 l1 fresh u t Hp Ht Hu Hor. eapply insert_found; eauto; [by exists t|].
    intros x [_ Hxl] (_ & _ & N3) ->. destruct Hor as [Hin|[Ht0 Hu0]].
    - apply Hxl. rewrite (wp_split _ _ _ _ _ _ _ Hp). set_solver.
    - exact (N3 _ _ _ (P1X_idx va) (P2X_idx va) Ht0 Hu0). }
  assert (forall r, pgdir_walk (page2kva root) va 0 s = Ret (r, None) s ->
    page_insert (page2kva root) asid pp va perm s =
      insert_tail (page2kva root) pp va perm (set_tlb (inv :: tlb s) s)) as Hpi.
  { intros r E. unfold page_insert. mrun E. rewrite bind_mret. unfold tlb_invalidate.
    by rewrite bind_modify. }
  destruct Has as [Hwf Hok].
  destruct (walk_spec s l root va 0 Hwf Hok Hnh) as (r & s1 & fresh & l1 & E & Hp & Hr).
  assert (forall r, pgdir_walk (page2kva root) va 0 s = Ret (r, None) s ->
    exists r s', page_insert (page2kva root) asid pp va perm s = Ret r s' /\
    (r = 0 /\ inserted s s' root asid pp va perm l \/
     r = - E_NO_MEM /\ insert_failed s s' root asid va l)) as Hmiss.
  { intros r0 E0. rewrite (Hpi _ E0).
    set (s0 := set_tlb (inv :: tlb s) s).
    destruct (as_wf_tlb _ _ _ (inv :: tlb s) (Build_as_wf _ _ _ Hwf Hok)) as [Hwf0 Hok0].
    destruct (walk_spec s0 l root va 1 Hwf0 Hok0 Hnh) as (r2 & s2 & f2 & l2 & E2 & Hp2 & Hr2).
    destruct Hr2 as [(_ & ? & _)|[(-> & -> & Hlen & _)|(t & u & Ht & Hu & Hor & ->)]]; [done| |].
    - exists (- E_NO_MEM), s2. split.
      { unfold insert_tail. fold s0. by mrun E2. }
      right. split; [done|]. pose proof (wp_split _ _ _ _ _ _ _ Hp2) as Hs. simpl in Hs. subst l2.
      destruct (walk_others _ _ root va (wp_leaf _ _ _ _ _ _ _ Hp2)) as [Hlv Ho].
      split; try done.
      + by apply walk_post_as in Hp2.
      + intros va'. destruct (decide (VPN va' = VPN va)) as [Hv|Hv]; [|by rewrite Ho].
        apply VPN_indices in Hv as (V1 & V2 & V3). unfold leaf_pte. rewrite V1, V2, V3. exact Hlv.
      + exact (wp_ref _ _ _ _ _ _ _ Hp2).
      + intros x. apply (wp_tables _ _ _ _ _ _ _ Hp2). set_solver.
      + exact (wp_frame _ _ _ _ _ _ _ Hp2).
    - assert (walk_post s (set_tlb (tlb s) s2) root va f2 l l2) as Hp2'.
      { destruct Hp2 as [? ? [? ? ? ?] ? ? ? ? ? ? ? ?]. split; try done. }
      pose proof (Hfound _ _ _ _ _ Hp2' Ht Hu Hor) as (s' & E' & Hi). simpl in E'.
      exists 0, s'. split; [|by left]. rewrite <- E'.
      assert (s2 = set_tlb (inv :: tlb s) (set_tlb (tlb s) s2)) as Hs2.
      { pose proof (wp_tlb _ _ _ _ _ _ _ Hp2) as Ht2. simpl in Ht2.
        destruct s2; simpl in *. by rewrite Ht2. }
      unfold insert_tail. fold s0. mrun E2. simpl.
      rewrite Hs2. by mrun (walk_l3_of _ _ _ _ 1 _
        (as_wf_tlb _ _ _ (inv :: tlb s) (walk_post_as _ _ _ _ _ _ _ Hp2')) (ex_intro _ t (conj Ht Hu))). }
  destruct Hr as [(-> & _ & -> & _)|[(-> & _ & _ & Hs1)|(t & u & Ht & Hu & Hor & ->)]].
  - by eapply Hmiss.
  - rewrite Hs1 in E by done. by eapply Hmiss.
  - destruct (Hfound _ _ _ _ _ Hp Ht Hu Hor) as (s' & E' & Hi). exists 0, s'. split; [|by left].
    rewrite <- E'. unfold page_insert. mrun E. unfold read_pte. rewrite bind_assoc, bind_get.
    fold (pte (mem s1) u (P3X va)).
    assert (leaf_pte (mem s1) root va = None) as Hl1
      by (rewrite <- Hl; apply (wp_leaf _ _ _ _ _ _ _ Hp); eauto with pt).
    rewrite (read_leaf _ _ _ u) in Hl1 by by exists t.
    destruct (pte_valid (pte (mem s1) u (P3X va))); [done|].
    rewrite bind_mret. unfold tlb_invalidate. by rewrite bind_modify.
Qed.

(** All three cases together. *)
Lemma page_insert_ok s l root asid pp va perm :
  as_wf s l root -> nohuge (mem s) root va -> mapped_ok s root va ->
  allocated (npage s) l pp -> not_table (mem s) root pp ->
  pp_ref s pp < 2 ^ 16 - 1 -> 0 <= perm < 1024 ->
  exists r s', page_insert (page2kva root) asid pp va perm s = Ret r s' /\
    (r = 0 /\ inserted s s' root asid pp va perm l \/
     r = - E_NO_MEM /\ insert_failed s s' root asid va l).
Proof.
  intros Has Hnh Hm Hpp Hnt Href Hperm.
  destruct (leaf_pte (mem s) root va) as [e|] eqn:He; [|by eapply insert_new].
  exists 0. destruct (decide (pte_page e = pp)) as [Hp|Hp].
  - destruct (insert_same s l root asid pp va perm e) as (s' & ? & ?); eauto.
  - destruct (insert_replace s l root asid pp va perm e) as (s' & ? & ?); eauto.
Qed.

(** A lookup of any address in a page just inserted. *)
Lemma inserted_lookup s s' root asid pp va perm l va' :
  inserted s s' root asid pp va perm l -> 0 <= pp < npage s -> npage s <= 2 ^ 26 ->
  0 <= perm < 1024 -> VPN va' = VPN va ->
  exists a, page_lookup (page2kva root) va' s' = Ret (Some (pp, a)) s' /\
    load64 (mem s') a = new_pte pp perm.
Proof.
  intros Hi Hpp Hn Hperm Hv. destruct (ins_wf _ _ _ _ _ _ _ _ Hi) as (fresh & l' & _ & Has & _).
  destruct (ins_boot _ _ _ _ _ _ _ _ Hi) as [Hbn _].
  destruct (new_pte_ok pp perm ltac:(unfold in_dram; lia) Hperm) as (_ & _ & Hpg).
  apply VPN_indices in Hv as (V1 & V2 & V3).
  assert (leaf_pte (mem s') root va' = Some (new_pte pp perm)) as Hl.
  { unfold leaf_pte. rewrite V1, V2, V3. exact (ins_leaf _ _ _ _ _ _ _ _ Hi). }
  assert (nohuge (mem s') root va') as Hnh.
  { pose proof (ins_nohuge _ _ _ _ _ _ _ _ Hi) as Hh. unfold nohuge in *. by rewrite V1, V2. }
  destruct (page_lookup_mapped _ _ _ _ _ Has Hnh Hl) as (u & Hu & E).
  { rewrite Hpg, Hbn. done. }
  rewrite Hpg in E. eexists. split; [exact E|].
  rewrite (read_leaf _ _ _ _ Hu) in Hl. fold (pte (mem s') u (P3X va')).
  destruct (pte_valid _); congruence.
Qed.

(** [va2pa] translates through the mapping. *)
Lemma va2pa_mapped s l root va e :
  as_wf s l root -> nohuge (mem s) root va -> leaf_pte (mem s) root va = Some e ->
  va2pa (mem s) (page2kva root) va = PTE_ADDR e + va mod PAGE_SIZE.
Proof.
  intros [Hwf Hok] Hnh He. destruct (mapped_l3 _ _ _ _ Hnh He) as (u & (t & Ht & Hu) & _ & _).
  rewrite (va2pa_l3 s l root va t u Hwf Hok Ht Hu), He.
  rewrite (land_ones' va 12), PTE_ADDR_eq by done.
  change 4096 with (2 ^ 12). change PAGE_SIZE with (2 ^ 12).
  rewrite <- Z.shiftl_mul_pow2 by done. rewrite lor_shiftl.
  - by rewrite Z.shiftl_mul_pow2.
  - done.
  - apply Z.mod_pos_bound. lia.
Qed.

(** ** Other pages and other address spaces *)

(** Writing a page that is no table. *)
Lemma frame_as s m' l root p :
  as_wf s l root -> not_table (mem s) root p ->
  (forall x, in_dram x -> x <> p -> page_eq (mem s) m' x) ->
  as_wf (set_mem m' s) l root /\
  (forall va, leaf_pte m' root va = leaf_pte (mem s) root va) /\
  (forall x, not_table (mem s) root x -> not_table m' root x) /\
  (forall va, nohuge (mem s) root va -> nohuge m' root va).
Proof.
  intros [Hwf Hok] Hnt Hpe.
  assert (forall t i, allocated (npage s) l t /\ t <> p -> idx i -> pte m' t i = pte (mem s) t i) as Heq.
  { intros t i [Ht Hne] Hi. apply page_eq_pte; [done|]. apply Hpe; [exact (wf_dram _ _ _ Hwf Ht)|done]. }
  destruct (tables_same _ _ _ _ Heq (pt_ok_exclude _ _ _ _ Hok Hnt)) as (Hok' & E1 & E2 & El).
  split_and!.
  - split; [by apply pm_wf_mem|]. eapply pt_ok_mono; [|exact Hok']. by intros t [? _].
  - intros va. apply El; eauto with pt.
  - intros x (? & Hx2 & Hx3). split_and!; [done| |].
    + intros i Hi. rewrite E1 by done. auto.
    + intros i t j Hi Hj. rewrite E1 by done. intros Ht. rewrite (E2 i) by done. exact (Hx3 _ _ _ Hi Hj Ht).
  - intros va [H1 H2]. destruct (pt_ok_exclude _ _ _ _ Hok Hnt) as [Hr Hl2 _ _ _].
    split; [rewrite Heq by eauto with pt; done|].
    intros t. rewrite E1 by eauto with pt. intros Ht.
    destruct (Hl2 _ _ (P1X_idx va) Ht) as [Hokt _]. rewrite (Heq t) by eauto with pt. by apply H2.
Qed.

(** The state after the allocation of page [p]. *)
Record fresh_page (s s1 : pmap) (p : Z) (l : list Z) (root va : Z) : Prop := {
  fp_as : as_wf s1 l root;
  fp_alloc : allocated (npage s1) l p;
  fp_not_table : not_table (mem s1) root p;
  fp_ref0 : pp_ref s1 p = 0;
  fp_leaf : forall va', leaf_pte (mem s1) root va' = leaf_pte (mem s) root va';
  fp_nohuge : nohuge (mem s1) root va;
  fp_mapped : mapped_ok s1 root va;
  fp_others : forall x, in_dram x -> x <> p -> page_eq (mem s) (mem s1) x;
  fp_refs : pp_ref s1 = pp_ref s;
  fp_boot : same_boot s s1;
  fp_tlb : tlb s1 = tlb s;
  fp_tables : forall x, not_table (mem s) root x -> not_table (mem s1) root x
}.

Lemma page_alloc_fresh s p l root va :
  as_wf s (p :: l) root -> nohuge (mem s) root va -> mapped_ok s root va ->
  exists s1, page_alloc s = Ret (inr p) s1 /\ fresh_page s s1 p l root va /\
    forall o, 0 <= o < PAGE_SIZE -> mem s1 (page2kva p + o) = 0.
Proof.
  intros Has Hnh Hm. destruct (page_alloc_some _ _ _ (as_pm _ _ _ Has)) as (s1 & E & Hwf1 & Em & Er & Et & Eb).
  pose proof (as_pm _ _ _ Has) as Hwf. pose proof (wf_npage _ _ Hwf) as Hn.
  assert (0 <= p < npage s /\ pp_ref s p = 0) as [Hp Hp0] by (apply (wf_in _ _ Hwf); set_solver).
  assert (in_dram p) as Hpd by (unfold in_dram; lia).
  assert (not_table (mem s) root p) as Hnt.
  { eapply not_ok_not_table; [exact (as_pt _ _ _ Has)|]. intros [_ H]. set_solver. }
  assert (forall x, in_dram x -> x <> p -> page_eq (mem s) (mem s1) x) as Hpe.
  { intros x Hx Hne. rewrite Em. by apply fill_page_eq. }
  destruct (frame_as s (mem s1) (p :: l) root p Has Hnt Hpe) as (Has1 & Hl & Hnt1 & Hnh1).
  assert (allocated (npage s1) l p) as Hal.
  { split; [by rewrite (proj1 Eb)|]. pose proof (list_rep_nodup _ _ (wf_free _ _ Hwf)) as Hnd.
    by apply NoDup_cons in Hnd as [? _]. }
  exists s1. split; [done|]. split.
  2: { intros o Ho. rewrite Em. unfold fill. repeat zcase; done || lia. }
  split; try done.
  - split; [done|]. eapply pt_ok_mono; [|exact (as_pt _ _ _ Has1)].
    intros t [Ht Hf]. split; [rewrite (proj1 Eb); done|set_solver].
  - by apply Hnt1.
  - by rewrite Er.
  - by apply Hnh1.
  - intros e. rewrite Hl. intros He. destruct (Hm e He) as (? & ? & ?).
    rewrite (proj1 Eb), Er. auto.
Qed.

(** Writing the new page before it is mapped. *)
Lemma fresh_page_write s s1 m' p l root va :
  fresh_page s s1 p l root va ->
  (forall x, in_dram x -> x <> p -> page_eq (mem s1) m' x) ->
  fresh_page s (set_mem m' s1) p l root va.
Proof.
  intros [Has Hal Hnt H0 Hl Hnh Hm Ho Hr Hb Ht Htb] Hpe.
  destruct (frame_as _ _ _ _ _ Has Hnt Hpe) as (Has1 & Hl1 & Hnt1 & Hnh1).
  split; try done.
  - by apply Hnt1.
  - intros va'. simpl. by rewrite Hl1.
  - by apply Hnh1.
  - intros e. simpl. rewrite Hl1. intros He. destruct (Hm e He) as (? & ? & ?). auto.
  - intros x Hx Hne. eapply page_eq_trans; eauto.
  - intros x Hx. by apply Hnt1, Htb.
Qed.

(** Mapping the new page, from the state [s1] in which it has its contents: it
    is private to this address space. *)
Record private_page (s s1 s' : pmap) (root va p perm : Z) (l : list Z) : Prop := {
  pv_leaf : leaf_pte (mem s') root va = Some (new_pte p perm);
  pv_others : others_same (mem s) (mem s') root va;
  pv_ref : pp_ref s' p = 1;
  pv_page : page_eq (mem s1) (mem s') p;
  pv_old : forall e, leaf_pte (mem s) root va = Some e ->
    pte_page e <> p /\ pp_ref s' (pte_page e) = pp_ref s (pte_page e) - 1;
  pv_frame : forall x, allocated (npage s) (p :: l) x -> not_table (mem s) root x ->
    page_eq (mem s) (mem s') x
}.

Lemma fresh_insert s s1 p l root asid va perm :
  fresh_page s s1 p l root va -> 0 <= perm < 1024 ->
  exists r s', page_insert (page2kva root) asid p va perm s1 = Ret r s' /\
    (r = 0 /\ private_page s s1 s' root va p perm l \/
     r = - E_NO_MEM /\ (length l < 2)%nat /\ leaf_pte (mem s) root va = None /\
       forall va', leaf_pte (mem s') root va' = leaf_pte (mem s) root va').
Proof.
  intros [Has Hal Hnt H0 Hl Hnh Hm Ho Hr Hb Ht Htb] Hperm.
  destruct (page_insert_ok s1 l root asid p va perm) as (r & s' & E & Hor); try done; [lia|].
  exists r, s'. split; [done|]. destruct Hor as [[-> [Hw _ Hlf Hot _ _ _ Hfr]]|[-> [Hs Hu _ Hlf _ _ _]]].
  - left. split; [done|]. split; [done| | |by apply Hfr| |].
    + intros va' Hne. rewrite Hot by done. apply Hl.
    + destruct Hw as (fresh & l' & _ & _ & -> & _). unfold insert_refs.
      destruct (leaf_pte (mem s1) root va) as [e|] eqn:He.
      * rewrite decide_False; [by rewrite fn_lookup_insert, H0|].
        intros <-. destruct (Hm _ He) as (_ & Hpos & _). lia.
      * by rewrite fn_lookup_insert, H0.
    + intros e. rewrite <- Hl. intros He. destruct (Hm _ He) as (_ & Hpos & _).
      assert (pte_page e <> p) as Hne by (intros Heq; rewrite Heq in Hpos; lia). split; [done|].
      destruct Hw as (fresh & l' & _ & _ & -> & _). unfold insert_refs.
      rewrite He, decide_False, fn_lookup_insert_ne, fn_lookup_insert, Hr by congruence. done.
    + intros x [Hx Hxl] Hnx. apply (page_eq_trans _ (mem s1)).
      * apply Ho; [|set_solver]. unfold in_dram.
        pose proof (wf_npage _ _ (as_pm _ _ _ Has)). rewrite (proj1 Hb) in *. lia.
      * apply Hfr; [split; [rewrite (proj1 Hb); done|set_solver]|by apply Htb].
  - right. rewrite <- Hl. split_and!; [done..|]. intros va'. by rewrite Hlf, Hl.
Qed.

(** The tables that translate [va] for [root2] are none of [root]'s. *)
Definition path_apart (s : pmap) (l : list Z) (root root2 va : Z) : Prop :=
  let ok x := allocated (npage s) l x /\ not_table (mem s) root x in
  ok root2 /\ forall t, tbl (mem s) root2 (P1X va) = Some t ->
    ok t /\ forall u, tbl (mem s) t (P2X va) = Some u -> ok u.

Lemma apart_leaf s s' l root root2 va :
  (forall x, allocated (npage s) l x -> not_table (mem s) root x -> page_eq (mem s) (mem s') x) ->
  path_apart s l root root2 va -> leaf_pte (mem s') root2 va = leaf_pte (mem s) root2 va.
Proof.
  intros Hf [[Hr1 Hr2] Hp]. apply leaf_ext.
  - apply page_eq_pte; [eauto with pt|auto].
  - intros t Ht. destruct (Hp t Ht) as [[Ht1 Ht2] Hu]. split.
    + apply page_eq_pte; [eauto with pt|auto].
    + intros u Hu'. destruct (Hu u Hu'). apply page_eq_pte; [eauto with pt|auto].
Qed.

(** ** A concrete address space

    Pages 0, 1 and 2 are the tables of an address space that maps page 3 at
    address 0; pages 4, 5 and 6 are free and page 7 is allocated. *)
Definition demo_mem1 : memory :=
  store64 (fun _ => 0) (ent (page2kva 0) 0) (mk_pte (page2ppn 1) PTE_V).
Definition demo_mem2 : memory :=
  store64 demo_mem1 (ent (page2kva 1) 0) (mk_pte (page2ppn 2) PTE_V).
Definition demo_mem : memory :=
  store64 demo_mem2 (ent (page2kva 2) 0) (new_pte 3 PTE_RW).
Definition demo_free : lst :=
  LIST_INSERT_HEAD 4 (LIST_INSERT_HEAD 5 (LIST_INSERT_HEAD 6 (Lst None (fun _ => lnk0)))).
Definition demo : pmap :=
  Pmap 0x80000000 16 0 0 demo_free
    (fun p => if (0 <=? p) && (p <=? 3) then 1 else 0) demo_mem [].

Lemma pte_zero t i : pte (fun _ => 0) t i = 0.
Proof. apply load_zero. Qed.

Lemma tbl_zero t i : tbl (fun _ => 0) t i = None.
Proof. apply tbl_invalid. by rewrite pte_zero. Qed.

Lemma not_table_zero root x : x <> root -> not_table (fun _ => 0) root x.
Proof. intros H. split; [done|]. split; intros; by rewrite tbl_zero in *. Qed.

Lemma pt_ok_zero (ok : Z -> Prop) root : ok root -> pt_ok ok (fun _ => 0) root.
Proof. intros H. split; [done|..]; intros *; rewrite tbl_zero; done. Qed.

Lemma demo_pt : pt_ok (fun t => t = 0 \/ t = 1 \/ t = 2) demo_mem 0.
Proof.
  assert (forall t, t = 0 \/ t = 1 \/ t = 2 -> in_dram t) as Hd by (unfold in_dram; lia).
  assert (idx 0) as I0 by (unfold idx; lia).
  assert (pte_valid 0 = false) as Hv0 by reflexivity.
  destruct (graft_l2 _ Hd (fun _ => 0) 0 0 1 I0) as (H1 & T1 & Z1 & N1 & _).
  { apply pt_ok_zero. lia. } { by rewrite pte_zero. } { lia. }
  { by apply not_table_zero. } { intros. apply pte_zero. }
  fold demo_mem1 in *.
  destruct (graft_l3 _ Hd demo_mem1 0 0 0 1 2 I0 I0 H1 T1) as (H2 & T2 & T2' & _).
  { by rewrite Z1. } { lia. } { by apply N1, not_table_zero. }
  { intros k Hk. unfold demo_mem1.
    rewrite (pte_store_ne _ 0 0 _ 2 k); [apply pte_zero|apply Hd; lia|apply Hd; lia|exact I0|exact Hk|].
    left. lia. }
  fold demo_mem2 in *.
  assert (0 <= new_pte 3 PTE_RW < 2 ^ 64) as Hv.
  { refine (proj1 (new_pte_ok 3 PTE_RW _ _)); [unfold in_dram; lia|split; [done|by vm_compute]]. }
  exact (proj1 (set_leaf _ Hd demo_mem2 0 0 0 0 1 2 (new_pte 3 PTE_RW) I0 I0 I0 Hv H2 T2 T2')).
Qed.

Lemma demo_list : list_rep demo_free [4; 5; 6].
Proof.
  unfold demo_free. repeat apply list_rep_insert_head; try set_solver by lia.
  apply (list_rep_init (Lst None (fun _ => lnk0))).
Qed.

Lemma demo_as : as_wf demo [4; 5; 6] 0.
Proof.
  split; [split|].
  - apply demo_list.
  - intros p Hp. rewrite !elem_of_cons, elem_of_nil in Hp.
    destruct Hp as [->|[->|[->|[]]]]; split; done.
  - done.
  - intros p. simpl. destruct (_ && _); lia.
  - eapply pt_ok_mono; [|apply demo_pt]. intros t Ht. simpl in Ht. split; [simpl; lia|].
    rewrite !elem_of_cons, elem_of_nil. lia.
Qed.

Lemma demo_not_table p : ~ (p = 0 \/ p = 1 \/ p = 2) -> not_table demo_mem 0 p.
Proof. intros Hp. eapply not_ok_not_table; [apply demo_pt|done]. Qed.

Lemma demo_allocated p : p = 3 \/ p = 7 -> allocated (npage demo) [4; 5; 6] p.
Proof. intros Hp. split; [simpl; lia|]. rewrite !elem_of_cons, elem_of_nil. lia. Qed.

Lemma demo_leaf : leaf_pte demo_mem 0 0 = Some (new_pte 3 PTE_RW).
Proof. by vm_compute. Qed.

Lemma demo_nohuge va : P1X va = 0 -> nohuge demo_mem 0 va.
Proof.
  intros E. unfold nohuge. rewrite E. split; [by vm_compute|].
  intros t Ht. assert (tbl demo_mem 0 0 = Some 1) as E1 by by vm_compute.
  assert (t = 1) as -> by congruence. intros Hv.
  destruct (decide (P2X va = 0)) as [E2|E2]; [by rewrite E2; vm_compute|].
  exfalso. assert (pte demo_mem 1 (P2X va) = 0) as E0.
  { pose proof (P2X_idx va) as Hi. assert (idx 0) as I0 by (unfold idx; lia).
    unfold demo_mem, demo_mem2, demo_mem1.
    rewrite (pte_store_ne _ 2 0 _ 1), (pte_store_ne _ 1 0 _ 1), (pte_store_ne _ 0 0 _ 1);
      [apply pte_zero|..]; first [exact I0|exact Hi|unfold in_dram; lia|lia]. }
  rewrite E0 in Hv. discriminate Hv.
Qed.

Lemma demo_mapped va : P1X va = 0 -> P2X va = 0 -> P3X va = 0 -> mapped_ok demo 0 va.
Proof.
  intros E1 E2 E3 e He. unfold leaf_pte in He. rewrite E1, E2, E3 in He.
  assert (e = new_pte 3 PTE_RW) as ->.
  { pose proof demo_leaf as Hl. unfold leaf_pte in Hl.
    change (P1X 0) with 0 in Hl. change (P2X 0) with 0 in Hl. change (P3X 0) with 0 in Hl.
    simpl in He. congruence. }
  destruct (new_pte_ok 3 PTE_RW) as (_ & _ & ->); [unfold in_dram; lia|split; [done|by vm_compute]|].
  split; [simpl; lia|]. split; [done|]. apply demo_not_table. lia.
Qed.

(** ** The properties *)



(** After a successful [page_insert], [page_lookup] of any address in the
    page finds [pp] with the entry's flags, and [va2pa] gives the physical
    address of the byte within [pp]. *)
Theorem page_insert_translates s l root asid pp va perm s' va' :
  as_wf s l root -> nohuge (mem s) root va -> mapped_ok s root va ->
  allocated (npage s) l pp -> not_table (mem s) root pp ->
  pp_ref s pp < 2 ^ 16 - 1 -> 0 <= perm < 1024 ->
  page_insert (page2kva root) asid pp va perm s = Ret 0 s' -> VPN va' = VPN va ->
  (exists a, page_lookup (page2kva root) va' s' = Ret (Some (pp, a)) s' /\
     PTE_FLAGS (load64 (mem s') a) = Z.lor perm PTE_V) /\
  va2pa (mem s') (page2kva root) va' = page2pa pp + va' mod PAGE_SIZE.
Proof.
  intros Has Hnh Hm Hpp Hnt Href Hperm E Hv.
  destruct (page_insert_ok s l root asid pp va perm Has Hnh Hm Hpp Hnt Href Hperm)
    as (r & s2 & E2 & Hor). rewrite E in E2. injection E2 as <- <-.
  destruct Hor as [[_ Hi]|[? _]]; [|done].
  pose proof (wf_dram _ _ _ (as_pm _ _ _ Has) Hpp) as Hd.
  pose proof (wf_npage _ _ (as_pm _ _ _ Has)). destruct Hpp as [Hpp _].
  destruct (inserted_lookup _ _ _ _ _ _ _ _ va' Hi Hpp) as (a & El & Ea); [lia|done|done|].
  pose proof (page2ppn_bound pp Hd) as Hb. pose proof (flags_V_bound perm Hperm) as Hf.
  split. { exists a. split; [done|]. rewrite Ea. by apply PTE_FLAGS_mk. }
  destruct (ins_wf _ _ _ _ _ _ _ _ Hi) as (fresh & l' & _ & Has' & _).
  apply VPN_indices in Hv as (V1 & V2 & V3).
  rewrite (va2pa_mapped s' l' root va' (new_pte pp perm)); [|done| |].
  - f_equal. rewrite pte_page_addr, page2pa_eq by done.
    by destruct (new_pte_ok pp perm Hd Hperm) as (_ & _ & ->).
  - pose proof (ins_nohuge _ _ _ _ _ _ _ _ Hi) as Hh. unfold nohuge in *. by rewrite V1, V2.
  - unfold leaf_pte. rewrite V1, V2, V3. exact (ins_leaf _ _ _ _ _ _ _ _ Hi).
Qed.

(** The state in which page 3, mapped at address 0, is unmapped. *)
Record removed (s s' : pmap) (root asid va p : Z) (l : list Z) : Prop := {
  rem_wf : as_wf s' (free_after s p l) root;
  rem_leaf : leaf_pte (mem s') root va = None;
  rem_others : others_same (mem s) (mem s') root va;
  rem_ref : pp_ref s' = <[p := pp_ref s p - 1]> (pp_ref s);
  rem_tlb : tlb s' = TlbInvalidate (u16 asid) (u16 va) :: tlb s;
  rem_frame : forall x, allocated (npage s) l x -> not_table (mem s) root x ->
    page_eq (mem s) (mem s') x
}.

(** C2: [page_remove] of a mapped address removes exactly that mapping, drops
    one reference to its page, puts the page on the free list when that was
    the last one, and invalidates the translation (of the address truncated to
    16 bits, as the prototype of [tlb_invalidate] has it). *)
Theorem page_remove_correct s l root asid va e :
  as_wf s l root -> nohuge (mem s) root va -> mapped_ok s root va ->
  leaf_pte (mem s) root va = Some e ->
  exists s', page_remove (page2kva root) asid va s = Ret tt s' /\
    removed s s' root asid va (pte_page e) l.
Proof.
  intros Has Hnh Hm He.
  destruct (page_remove_mapped s l root asid va e Has Hnh He Hm)
    as (s' & u & E & ? & _ & _ & ? & ? & ? & ? & _ & ? & _).
  exists s'. split; [done|]. by split.
Qed.

Lemma page_remove_correct_witness :
  exists s', page_remove (page2kva 0) 1 0 demo = Ret tt s' /\
    removed demo s' 0 1 0 (pte_page (new_pte 3 PTE_RW)) [4; 5; 6].
Proof.
  apply (page_remove_correct demo [4; 5; 6] 0 1 0 (new_pte 3 PTE_RW)).
  - apply demo_as.
  - by apply demo_nohuge.
  - by apply demo_mapped.
  - apply demo_leaf.
Defined.

Lemma page_insert_translates_witness :
  exists s', page_insert (page2kva 0) 1 7 0 PTE_RO demo = Ret 0 s' /\
    (exists a, page_lookup (page2kva 0) 0xabc s' = Ret (Some (7, a)) s' /\
       PTE_FLAGS (load64 (mem s') a) = Z.lor PTE_RO PTE_V) /\
    va2pa (mem s') (page2kva 0) 0xabc = page2pa 7 + 0xabc mod PAGE_SIZE.
Proof.
  destruct (insert_replace demo [4; 5; 6] 0 1 7 0 PTE_RO (new_pte 3 PTE_RW)) as (s' & E & _).
  - apply demo_as.
  - by apply demo_nohuge.
  - apply demo_leaf.
  - by apply demo_mapped.
  - by vm_compute.
  - by apply demo_allocated; right.
  - done.
  - done.
  - exists s'. split; [exact E|].
    apply (page_insert_translates demo [4; 5; 6] 0 1 7 0 PTE_RO s' 0xabc).
    + apply demo_as.
    + by apply demo_nohuge.
    + by apply demo_mapped.
    + by apply demo_allocated; right.
    + apply demo_not_table. lia.
    + vm_compute. reflexivity.
    + split; vm_compute; [discriminate|reflexivity].
    + exact E.
    + vm_compute. reflexivity.
Defined.

(** C2: a walk, creating or not, returns the address of the entry of [va] in a
    third-level table, or reports that there is none; it takes pages off the
    free list only for new tables, whose reference count it sets to one, and
    it changes no mapping and no page that is not a table. *)
Theorem pgdir_walk_correct s l root va create :
  as_wf s l root -> nohuge (mem s) root va ->
  exists r s' fresh l', pgdir_walk (page2kva root) va create s = Ret r s' /\
    walk_post s s' root va fresh l l' /\
    (r = (0, None) /\ create = 0 /\ s' = s \/
     r = (- E_NO_MEM, None) /\ fresh = [] /\ (length l < 2)%nat \/
     exists u, r = (0, Some (ent (page2kva u) (P3X va))) /\ l3_of (mem s') root va u).
Proof.
  intros [Hwf Hok] Hnh.
  destruct (walk_spec s l root va create Hwf Hok Hnh) as (r & s' & fresh & l' & E & Hp & Hr).
  exists r, s', fresh, l'. split_and!; [done..|].
  destruct Hr as [(? & ? & ? & _)|[(? & ? & ? & _)|(t & u & ? & ? & _ & ?)]]; [auto..|].
  right; right. exists u. split; [done|]. by exists t.
Qed.

Lemma pgdir_walk_correct_witness :
  exists r s' fresh l', pgdir_walk (page2kva 0) 0x40000000 1 demo = Ret r s' /\
    walk_post demo s' 0 0x40000000 fresh [4; 5; 6] l' /\
    (r = (0, None) /\ 1 = 0 /\ s' = demo \/
     r = (- E_NO_MEM, None) /\ fresh = [] /\ (length [4; 5; 6] < 2)%nat \/
     exists u, r = (0, Some (ent (page2kva u) (P3X 0x40000000))) /\ l3_of (mem s') 0 0x40000000 u).
Proof.
  apply (pgdir_walk_correct demo [4; 5; 6] 0 0x40000000 1).
  - apply demo_as.
  - split.
    + intros Hv. exfalso. revert Hv. by vm_compute.
    + intros t Ht. exfalso. revert Ht. by vm_compute.
Defined.

(** A walk with [create == 0] is not read-only: below a present
    second-level table it allocates the missing third-level table. *)
Theorem pgdir_walk_create0_allocates :
  LIST_FIRST (page_free_list demo) = Some 4 /\
  (fun '(r, s') => (r, LIST_FIRST (page_free_list s'))) <$>
    returned (pgdir_walk (page2kva 0) P2MAP 0 demo) =
  Some ((0, Some (ent (page2kva 4) (P3X P2MAP))), Some 5).
Proof. split; vm_compute; reflexivity. Qed.


