(* ===== verification/Kmalloc.v ===== *)
(** kern/kmalloc.c: the kernel heap.

    A [struct MBlock *] is its address; the header fields are functions of it,
    and its link is in the links of [mblock_list].  [heap_rep] relates a heap
    to its list of blocks; [abs_alloc] and [abs_free] are first-fit allocation
    and coalescing on such lists, and the refinement lemmas show that
    [kmalloc] and [kfree] implement them. *)
From S2P Require Import Prelude Queue Mmu.

Record heap := Heap {
  mblock_list : lst;
  mb_size : Z -> Z;
  mb_ptr : Z -> Z;
  mb_free : Z -> Z;
  total_requested_bytes : Z;
  total_free_bytes : Z
}.

Definition set_mblock_list x h := Heap x (mb_size h) (mb_ptr h) (mb_free h) (total_requested_bytes h) (total_free_bytes h).
Definition set_mb_size x h := Heap (mblock_list h) x (mb_ptr h) (mb_free h) (total_requested_bytes h) (total_free_bytes h).
Definition set_mb_ptr x h := Heap (mblock_list h) (mb_size h) x (mb_free h) (total_requested_bytes h) (total_free_bytes h).
Definition set_mb_free x h := Heap (mblock_list h) (mb_size h) (mb_ptr h) x (total_requested_bytes h) (total_free_bytes h).
Definition set_requested x h := Heap (mblock_list h) (mb_size h) (mb_ptr h) (mb_free h) x (total_free_bytes h).
Definition set_freed x h := Heap (mblock_list h) (mb_size h) (mb_ptr h) (mb_free h) (total_requested_bytes h) x.

(** [sizeof(struct MBlock)]: the link, [size], [ptr], [free] and [padding]. *)
Definition MBLOCK_SIZE : Z := 40.

(** [b->size = v], [b->ptr = v], [b->free = v] *)
Definition put_size (b v : Z) : M heap unit := modify (fun h => set_mb_size (<[b := v]> (mb_size h)) h).
Definition put_ptr (b v : Z) : M heap unit := modify (fun h => set_mb_ptr (<[b := v]> (mb_ptr h)) h).
Definition put_free (b v : Z) : M heap unit := modify (fun h => set_mb_free (<[b := v]> (mb_free h)) h).

Definition list_op (f : lst -> option lst) : M heap unit :=
  q ← get mblock_list;
  match f q with
  | Some q' => modify (set_mblock_list q')
  | None => panic
  end.

(** The block list part of [kmalloc_init]; the second-level table it hangs
    into the boot page directory is a matter of [page_alloc]. *)
Definition kmalloc_init_list : M heap unit :=
  modify (fun h => set_mblock_list (LIST_INIT (mblock_list h)) h) ;;
  let heap_begin := KMALLOC_BEGIN_VA in
  put_size heap_begin (KMALLOC_HEAP_SIZE - MBLOCK_SIZE) ;;
  put_ptr heap_begin (heap_begin + MBLOCK_SIZE) ;;
  put_free heap_begin 1 ;;
  modify (fun h => set_mblock_list (LIST_INSERT_HEAD heap_begin (mblock_list h)) h).

(** The body of the search loop at [cur_block]; [fuel] bounds the number of
    blocks visited. *)
Fixpoint kmalloc_scan (fuel : nat) (cur : option Z) (size : Z) : M heap (option Z) :=
  match fuel, cur with
  | S fuel, Some cur_block =>
      free ← get (fun h => mb_free h cur_block);
      sz ← get (fun h => mb_size h cur_block);
      nx ← get (fun h => LIST_NEXT (mblock_list h) cur_block);
      if free =? 0 then kmalloc_scan fuel nx size
      else if size <=? sz then
        let remain_size := sz - size in
        (if remain_size <? MBLOCK_SIZE + 8 then
           put_size cur_block (size + remain_size) ;;
           put_free cur_block 0
         else
           let next_node := u64 (cur_block + MBLOCK_SIZE + size) in
           put_size next_node (remain_size - MBLOCK_SIZE) ;;
           put_ptr next_node (next_node + MBLOCK_SIZE) ;;
           put_free next_node 1 ;;
           put_free cur_block 0 ;;
           put_size cur_block size ;;
           modify (fun h => set_mblock_list (LIST_INSERT_AFTER cur_block next_node (mblock_list h)) h)) ;;
        p ← get (fun h => mb_ptr h cur_block);
        mret (Some p)
      else kmalloc_scan fuel nx size
  | _, _ => mret None
  end.

Definition kmalloc (fuel : nat) (size : Z) : M heap (option Z) :=
  modify (fun h => set_requested (u64 (total_requested_bytes h + size)) h) ;;
  let size := ROUND size 8 in
  first ← get (fun h => LIST_FIRST (mblock_list h));
  kmalloc_scan fuel first size.

(** [MBLOCK_PREV]: [le_prev] read as a block; [mb_link] is at offset 0. *)
Definition MBLOCK_PREV (p : lptr) : option Z :=
  match p with PNext x => Some x | _ => None end.

Definition kfree (ptr_addr : Z) : M heap unit :=
  if (ptr_addr <? KMALLOC_BEGIN_VA + MBLOCK_SIZE) || (KMALLOC_END_VA <? ptr_addr) then panic
  else
    let cur_node := ptr_addr - MBLOCK_SIZE in
    p ← get (fun h => mb_ptr h cur_node);
    if negb (p =? cur_node + MBLOCK_SIZE) then panic
    else
      modify (fun h => set_freed (u64 (total_free_bytes h + mb_size h cur_node)) h) ;;
      next_node ← get (fun h => LIST_NEXT (mblock_list h) cur_node);
      first ← get (fun h => LIST_FIRST (mblock_list h));
      prev_node ← get (fun h =>
        if bool_decide (first = Some cur_node) then None
        else MBLOCK_PREV (prv (l_lnk (mblock_list h) cur_node)));
      match next_node with
      | Some next_node =>
          f ← get (fun h => mb_free h next_node);
          if f =? 1 then
            modify (fun h => set_mb_size (<[cur_node := u64 (mb_size h cur_node +
              (mb_size h next_node + MBLOCK_SIZE))]> (mb_size h)) h) ;;
            list_op (LIST_REMOVE next_node)
          else mret tt
      | None => mret tt
      end ;;
      match prev_node with
      | Some prev_node =>
          f ← get (fun h => mb_free h prev_node);
          if f =? 1 then
            modify (fun h => set_mb_size (<[prev_node := u64 (mb_size h prev_node +
              (mb_size h cur_node + MBLOCK_SIZE))]> (mb_size h)) h) ;;
            list_op (LIST_REMOVE cur_node)
          else mret tt
      | None => mret tt
      end ;;
      put_free cur_node 1.

(** The sums that [allocation_summarize] prints: blocks, bytes in use with the
    headers, bytes free. *)
Definition allocation_summarize (fuel : nat) : M heap (Z * Z * Z) :=
  blocks ← get (fun h => foreach fuel (l_lnk (mblock_list h)) (LIST_FIRST (mblock_list h)));
  get (fun h => foldl (fun '(n, allocated, remain) b =>
    let allocated := allocated + MBLOCK_SIZE in
    if mb_free h b =? 0 then (n + 1, allocated + mb_size h b, remain)
    else (n + 1, allocated, remain + mb_size h b)) (0, 0, 0) blocks).

(** ** The abstract heap: a list of blocks *)

Record blk := Blk { b_addr : Z; b_size : Z; b_free : bool }.

Definition blk_end (b : blk) : Z := b_addr b + MBLOCK_SIZE + b_size b.

(** First fit.  A remainder too small for a header and eight bytes stays with
    the block. *)
Fixpoint abs_alloc (size : Z) (l : list blk) : option (Z * list blk) :=
  match l with
  | [] => None
  | b :: l =>
      if b_free b && (size <=? b_size b) then
        let p := b_addr b + MBLOCK_SIZE in
        if b_size b - size <? MBLOCK_SIZE + 8 then
          Some (p, Blk (b_addr b) (b_size b) false :: l)
        else
          Some (p, Blk (b_addr b) size false ::
                   Blk (p + size) (b_size b - size - MBLOCK_SIZE) true :: l)
      else
        '(p, l') ← abs_alloc size l; Some (p, b :: l')
  end.

(** Joining a freed block with a free neighbour on its right. *)
Definition join (b : blk) (l : list blk) : list blk :=
  match l with
  | c :: l' =>
      if b_free c then Blk (b_addr b) (b_size b + (b_size c + MBLOCK_SIZE)) true :: l'
      else Blk (b_addr b) (b_size b) true :: l
  | [] => [Blk (b_addr b) (b_size b) true]
  end.

(** Freeing the block at address [x]. *)
Fixpoint abs_free (x : Z) (l : list blk) : list blk :=
  match l with
  | [] => []
  | b :: l' =>
      if b_addr b =? x then join b l'
      else
        match l' with
        | c :: l'' =>
            if (b_addr c =? x) && b_free b then join b (join c l'')
            else b :: abs_free x l'
        | [] => [b]
        end
  end.

(** The blocks tile the heap from [a] on, and no two free ones are adjacent. *)
Fixpoint tiles (a : Z) (l : list blk) : Prop :=
  match l with
  | [] => a = KMALLOC_END_VA
  | b :: l' => b_addr b = a /\ 0 <= b_size b /\ b_size b mod 8 = 0 /\ tiles (blk_end b) l'
  end.

Fixpoint coalesced (l : list blk) : Prop :=
  match l with
  | b :: l' =>
      match l' with
      | c :: _ => b_free b && b_free c = false /\ coalesced l'
      | [] => True
      end
  | [] => True
  end.

Definition heap_ok (l : list blk) : Prop := tiles KMALLOC_BEGIN_VA l /\ coalesced l.

Definition hdr_ok (h : heap) (b : blk) : Prop :=
  mb_size h (b_addr b) = b_size b /\ mb_ptr h (b_addr b) = b_addr b + MBLOCK_SIZE /\
  mb_free h (b_addr b) = if b_free b then 1 else 0.

Definition heap_rep (h : heap) (l : list blk) : Prop :=
  list_rep (mblock_list h) (map b_addr l) /\ Forall (hdr_ok h) l.

(** ** Lemmas: the tiling *)

Lemma tiles_app l1 l2 : forall a, tiles a (l1 ++ l2) ->
  exists m, tiles m l2 /\ a <= m /\ (forall b, b ∈ l1 -> a <= b_addr b /\ blk_end b <= m) /\
    (forall l2', tiles m l2' -> tiles a (l1 ++ l2')).
Proof.
  induction l1 as [|b l1 IH]; intros a H; simpl in *.
  - exists a. split_and!; [done|lia| |done]. intros b Hb%elem_of_nil. done.
  - destruct H as (<- & Hs & Hm & H). destruct (IH _ H) as (m & H2 & Hle & Hin & Hre).
    assert (b_addr b < blk_end b) by (unfold blk_end, MBLOCK_SIZE; lia).
    exists m. split_and!; [done|lia| |].
    + intros c [->|Hc]%elem_of_cons; [lia|]. destruct (Hin c Hc). lia.
    + intros l2' H2'. split_and!; auto.
Qed.

Lemma tiles_end l : forall a, tiles a l -> a <= KMALLOC_END_VA /\
  forall b, b ∈ l -> a <= b_addr b /\ blk_end b <= KMALLOC_END_VA /\ 0 <= b_size b.
Proof.
  induction l as [|b l IH]; intros a H; simpl in H.
  - split; [lia|]. intros b Hb%elem_of_nil. done.
  - destruct H as (<- & Hs & Hm & H). destruct (IH _ H) as [Hle Hin].
    assert (b_addr b < blk_end b) by (unfold blk_end, MBLOCK_SIZE; lia).
    split; [lia|]. intros c [->|Hc]%elem_of_cons; [lia|]. destruct (Hin c Hc). lia.
Qed.

(** An address strictly inside a block is no block's address. *)
Lemma tiles_fresh a l1 b l2 y : tiles a (l1 ++ b :: l2) ->
  b_addr b < y < blk_end b -> y ∉ map b_addr (l1 ++ b :: l2).
Proof.
  intros H Hy Hin. destruct (tiles_app _ _ _ H) as (m & (<- & Hs & _ & H2) & Hle & H1 & _).
  apply list_elem_of_In, in_map_iff in Hin as (c & <- & Hc%list_elem_of_In).
  rewrite elem_of_app, elem_of_cons in Hc. destruct Hc as [Hc|[->|Hc]].
  - destruct (H1 c Hc) as [? ?].
    assert (0 <= b_size c). { destruct (tiles_end _ _ H) as [_ Hi]. apply (Hi c). set_solver. }
    unfold blk_end, MBLOCK_SIZE in *. lia.
  - lia.
  - destruct (tiles_end _ _ H2) as [_ Hi]. destruct (Hi c Hc) as (? & _). lia.
Qed.

Lemma coalesced_app l1 l2 : coalesced (l1 ++ l2) -> coalesced l1 /\ coalesced l2.
Proof.
  induction l1 as [|b [|c l1] IH]; simpl; [done| |].
  - destruct l2; naive_solver.
  - simpl in IH. naive_solver.
Qed.

(** ** Lemmas: headers *)

Lemma hdr_frame h h' l :
  (forall x, x ∈ map b_addr l -> mb_size h' x = mb_size h x /\ mb_ptr h' x = mb_ptr h x /\
     mb_free h' x = mb_free h x) ->
  Forall (hdr_ok h) l -> Forall (hdr_ok h') l.
Proof.
  intros Hx. rewrite !Forall_forall. intros H b Hb. destruct (Hx (b_addr b)) as (E1 & E2 & E3).
  { apply list_elem_of_In, in_map, list_elem_of_In, Hb. }
  unfold hdr_ok. rewrite E1, E2, E3. by apply H.
Qed.

Lemma list_rep_next q l1 x l2 : list_rep q (l1 ++ x :: l2) -> LIST_NEXT q x = head l2.
Proof.
  intros [_ (u & _ & _ & _ & H2)%lseg_app]. by apply lseg_hd in H2.
Qed.

Lemma list_rep_prev q l1 x l2 : list_rep q (l1 ++ x :: l2) ->
  prv (l_lnk q x) = last_ptr PHead l1.
Proof. by intros [_ (u & _ & _ & Hp & _)%lseg_app]. Qed.

(** ** [kmalloc] implements first fit *)

Definition same_counters (h h' : heap) : Prop :=
  total_requested_bytes h' = total_requested_bytes h /\ total_free_bytes h' = total_free_bytes h.

Lemma KMALLOC_values : KMALLOC_BEGIN_VA = 18446743801515999232 /\ KMALLOC_END_VA = 18446743802589741056.
Proof. by vm_compute. Qed.

(** Taking the whole block. *)
Lemma scan_take h l1 b l2 : heap_rep h (l1 ++ b :: l2) ->
  heap_rep (set_mb_free (<[b_addr b := 0]> (mb_free h))
             (set_mb_size (<[b_addr b := b_size b]> (mb_size h)) h))
           (l1 ++ Blk (b_addr b) (b_size b) false :: l2).
Proof.
  intros [Hl Hh]. rewrite map_app in Hl. split; [by rewrite map_app|].
  pose proof (list_rep_nodup _ _ Hl) as Hnd. simpl in Hnd. apply NoDup_mid in Hnd as (Hn1 & Hn2 & _).
  apply Forall_app in Hh as [Hh1 Hh2]. inversion Hh2 as [|? ? Hb Hh3]; subst.
  destruct Hb as (Hb1 & Hb2 & Hb3).
  apply Forall_app. split; [|constructor].
  - eapply hdr_frame; [|exact Hh1]. intros x Hx. simpl. by rewrite !fn_lookup_insert_ne by congruence.
  - unfold hdr_ok. simpl. by rewrite !fn_lookup_insert.
  - eapply hdr_frame; [|exact Hh3]. intros x Hx. simpl. by rewrite !fn_lookup_insert_ne by congruence.
Qed.

(** Splitting it. *)
Lemma scan_split h l1 b l2 size y r : heap_rep h (l1 ++ b :: l2) ->
  y ∉ map b_addr (l1 ++ b :: l2) -> 
  heap_rep (set_mblock_list (LIST_INSERT_AFTER (b_addr b) y (mblock_list h))
    (set_mb_size (<[b_addr b := size]> (<[y := r]> (mb_size h)))
    (set_mb_free (<[b_addr b := 0]> (<[y := 1]> (mb_free h)))
    (set_mb_ptr (<[y := y + MBLOCK_SIZE]> (mb_ptr h)) h))))
    (l1 ++ Blk (b_addr b) size false :: Blk y r true :: l2).
Proof.
  intros [Hl Hh] Hy. rewrite map_app in Hl, Hy. simpl in Hl, Hy. split.
  { rewrite map_app. simpl. by apply list_rep_insert_after. }
  pose proof (list_rep_nodup _ _ Hl) as Hnd. apply NoDup_mid in Hnd as (Hn1 & Hn2 & _).
  rewrite elem_of_app, elem_of_cons in Hy.
  assert (y <> b_addr b /\ y ∉ map b_addr l1 /\ y ∉ map b_addr l2) as (Hyb & Hy1 & Hy2) by naive_solver.
  apply Forall_app in Hh as [Hh1 Hh2]. inversion Hh2 as [|? ? Hb Hh3]; subst.
  destruct Hb as (Hb1 & Hb2 & Hb3).
  apply Forall_app. split; [|constructor; [|constructor]].
  - eapply hdr_frame; [|exact Hh1]. intros x Hx. simpl. by rewrite !fn_lookup_insert_ne by congruence.
  - unfold hdr_ok. fnsimpl. done.
  - unfold hdr_ok. fnsimpl. done.
  - eapply hdr_frame; [|exact Hh3]. intros x Hx. simpl. by rewrite !fn_lookup_insert_ne by congruence.
Qed.

Lemma kmalloc_scan_ok size l2 : forall fuel l1 h,
  heap_rep h (l1 ++ l2) -> heap_ok (l1 ++ l2) -> (length l2 <= fuel)%nat -> 0 <= size ->
  match abs_alloc size l2 with
  | None => kmalloc_scan fuel (head (map b_addr l2)) size h = Ret None h
  | Some (p, l2') => exists h', kmalloc_scan fuel (head (map b_addr l2)) size h = Ret (Some p) h' /\
      heap_rep h' (l1 ++ l2') /\ same_counters h h'
  end.
Proof.
  induction l2 as [|b l2 IH]; intros fuel l1 h Hr Hok Hf Hsz.
  { simpl. by destruct fuel. }
  destruct fuel as [|fuel]; [simpl in Hf; lia|]. simpl in Hf.
  pose proof Hr as [Hl Hh]. rewrite map_app in Hl. simpl in Hl.
  apply Forall_app in Hh as [_ Hh]. apply Forall_cons_iff in Hh as [(Hb1 & Hb2 & Hb3) _].
  simpl kmalloc_scan. rewrite !bind_get, (list_rep_next _ _ _ _ Hl), Hb1, Hb3.
  assert (forall r, match abs_alloc size l2 with
    | None => kmalloc_scan fuel (head (map b_addr l2)) size h = Ret None h
    | Some (p, l2') => exists h', kmalloc_scan fuel (head (map b_addr l2)) size h = Ret (Some p) h' /\
      heap_rep h' (l1 ++ b :: l2') /\ same_counters h h'
    end -> r = ('(p, l') ← abs_alloc size l2; Some (p, b :: l')) ->
    match r with
    | None => kmalloc_scan fuel (head (map b_addr l2)) size h = Ret None h
    | Some (p, l2') => exists h', kmalloc_scan fuel (head (map b_addr l2)) size h = Ret (Some p) h' /\
      heap_rep h' (l1 ++ l2') /\ same_counters h h'
    end) as Hnext.
  { intros r H ->. destruct (abs_alloc size l2) as [[p l2']|]; done. }
  specialize (IH fuel (l1 ++ [b]) h). rewrite <- !app_assoc in IH. simpl in IH.
  specialize (IH Hr Hok ltac:(lia) Hsz).
  assert (match abs_alloc size l2 with
    | None => kmalloc_scan fuel (head (map b_addr l2)) size h = Ret None h
    | Some (p, l2') => exists h', kmalloc_scan fuel (head (map b_addr l2)) size h = Ret (Some p) h' /\
      heap_rep h' (l1 ++ b :: l2') /\ same_counters h h'
    end) as IH'.
  { destruct (abs_alloc size l2) as [[p l2']|]; [|done].
    by rewrite <- app_assoc in IH. }
  simpl abs_alloc. destruct (b_free b) eqn:Hfb; simpl; [|by apply Hnext].
  destruct (Z.leb_spec size (b_size b)) as [Hle|Hle]; [|by apply Hnext].
  destruct (Z.ltb_spec (b_size b - size) (MBLOCK_SIZE + 8)) as [Hrem|Hrem].
  - unfold put_size, put_free. rewrite bind_assoc, !bind_modify, bind_get. simpl. rewrite Hb2.
    eexists. split; [done|]. split; [|done].
    replace (size + (b_size b - size)) with (b_size b) by lia. by apply scan_take.
  - destruct (tiles_end _ _ (proj1 Hok)) as [_ He].
    destruct (He b) as (Hb4 & Hb5 & _); [set_solver|].
    unfold blk_end, MBLOCK_SIZE in Hb5, Hrem. destruct KMALLOC_values as [E1 E2]. rewrite E1 in Hb4. rewrite E2 in Hb5.
    assert (u64 (b_addr b + MBLOCK_SIZE + size) = b_addr b + MBLOCK_SIZE + size) as ->.
    { apply Z.mod_small. unfold MBLOCK_SIZE. lia. }
    set (y := b_addr b + MBLOCK_SIZE + size).
    assert (y ∉ map b_addr (l1 ++ b :: l2)) as Hy.
    { eapply tiles_fresh; [exact (proj1 Hok)|]. unfold y, blk_end, MBLOCK_SIZE. lia. }
    unfold put_size, put_free, put_ptr. repeat first [rewrite bind_assoc | rewrite bind_modify].
    rewrite bind_get. simpl.
    assert (y <> b_addr b) as Hyb by (unfold y, MBLOCK_SIZE; lia).
    rewrite fn_lookup_insert_ne by done. rewrite Hb2.
    eexists. split; [done|]. split; [|done]. by apply scan_split.
Qed.

(** ** Lemmas: first fit on lists *)

Definition used (l : list blk) : list (Z * Z) :=
  map (fun b => (b_addr b + MBLOCK_SIZE, b_size b)) (filter (fun b => b_free b = false) l).

Lemma used_app l1 l2 : used (l1 ++ l2) = used l1 ++ used l2.
Proof. unfold used. by rewrite filter_app, map_app. Qed.

Lemma used_cons b l : used (b :: l) =
  if b_free b then used l else (b_addr b + MBLOCK_SIZE, b_size b) :: used l.
Proof. unfold used. rewrite filter_cons. by destruct (b_free b); case_decide. Qed.

(** The blocks that replace the block [b] that was chosen. *)
Definition split_blk (size : Z) (b : blk) : list blk :=
  if b_size b - size <? MBLOCK_SIZE + 8 then [Blk (b_addr b) (b_size b) false]
  else [Blk (b_addr b) size false;
        Blk (b_addr b + MBLOCK_SIZE + size) (b_size b - size - MBLOCK_SIZE) true].

Lemma abs_alloc_some size l p l' : abs_alloc size l = Some (p, l') ->
  exists l1 b l2, l = l1 ++ b :: l2 /\ l' = l1 ++ split_blk size b ++ l2 /\
    b_free b = true /\ size <= b_size b /\ p = b_addr b + MBLOCK_SIZE /\
    (forall c, c ∈ l1 -> b_free c = true -> b_size c < size).
Proof.
  revert p l'. induction l as [|b l IH]; intros p l'; simpl; [done|].
  destruct (b_free b) eqn:Hf; simpl.
  - destruct (Z.leb_spec size (b_size b)) as [Hle|Hlt].
    + intros H. exists [], b, l. simpl. assert (p = b_addr b + MBLOCK_SIZE /\ l' = split_blk size b ++ l) as [-> ->].
      { unfold split_blk. destruct (_ <? _); by injection H. }
      split_and!; try done. intros c Hc%elem_of_nil. done.
    + destruct (abs_alloc size l) as [[p1 l1]|] eqn:E; simpl; [|done]. intros [= <- <-].
      destruct (IH _ _ eq_refl) as (m1 & c & m2 & -> & -> & ? & ? & ? & Hm).
      exists (b :: m1), c, m2. split_and!; try done. intros d [->|Hd]%elem_of_cons ?; auto.
  - destruct (abs_alloc size l) as [[p1 l1]|] eqn:E; simpl; [|done]. intros [= <- <-].
    destruct (IH _ _ eq_refl) as (m1 & c & m2 & -> & -> & ? & ? & ? & Hm).
    exists (b :: m1), c, m2. split_and!; try done. intros d [->|Hd]%elem_of_cons ?; [congruence|auto].
Qed.

Lemma abs_alloc_none size l : abs_alloc size l = None ->
  forall b, b ∈ l -> b_free b = true -> b_size b < size.
Proof.
  induction l as [|b l IH]; simpl; [intros _ b Hb%elem_of_nil; done|].
  destruct (b_free b) eqn:Hf; simpl.
  - destruct (Z.leb_spec size (b_size b)) as [Hle|Hlt]; [by destruct (_ <? _)|].
    destruct (abs_alloc size l) as [[p1 l1]|]; [done|].
    intros _ c [->|Hc]%elem_of_cons ?; auto.
  - destruct (abs_alloc size l) as [[p1 l1]|]; [done|].
    intros _ c [->|Hc]%elem_of_cons ?; [congruence|auto].
Qed.

Lemma coalesced_mid l1 b l2 : coalesced (l1 ++ b :: l2) <->
  coalesced (l1 ++ [b]) /\ coalesced (b :: l2).
Proof.
  induction l1 as [|c [|d l1] IH]; simpl; [naive_solver| |].
  - destruct l2; naive_solver.
  - simpl in IH. rewrite IH. naive_solver.
Qed.

(** Only the flags matter for [coalesced]. *)
Lemma coalesced_used l1 b b' : coalesced (l1 ++ [b]) -> b_free b' = false -> coalesced (l1 ++ [b']).
Proof.
  intros H Hb. induction l1 as [|c [|d l1] IH]; simpl in *; [done| |].
  - rewrite Hb, andb_false_r. done.
  - destruct H as [H1 H2]. split; [done|]. by apply IH.
Qed.

Lemma split_ok size b l1 l2 : heap_ok (l1 ++ b :: l2) -> b_free b = true ->
  0 <= size <= b_size b -> size mod 8 = 0 -> heap_ok (l1 ++ split_blk size b ++ l2).
Proof.
  intros [Ht Hc] Hf Hsz Hm. destruct (tiles_app _ _ _ Ht) as (m & (<- & Hs & Hm2 & H2) & _ & _ & Hre).
  apply coalesced_mid in Hc as [Hc1 Hc2]. unfold split_blk, blk_end, MBLOCK_SIZE in *.
  destruct (Z.ltb_spec (b_size b - size) (40 + 8)); simpl.
  - split; [apply Hre; simpl; by split_and!|].
    apply coalesced_mid. split; [by apply (coalesced_used _ b)|].
    destruct l2; simpl in *; [done|]. naive_solver.
  - split.
    + apply Hre. simpl. unfold blk_end, MBLOCK_SIZE. simpl. split_and!; try done; try lia.
      * replace (b_size b - size - 40) with (b_size b - size + (-5) * 8) by lia.
        rewrite Z.mod_add, Zminus_mod, Hm, Hm2 by lia. done.
      * by replace (b_addr b + 40 + size + 40 + (b_size b - size - 40)) with (b_addr b + 40 + b_size b) by lia.
    + apply coalesced_mid. split; [by apply (coalesced_used _ b)|]. simpl. split; [done|].
      destruct l2 as [|c l2]; [done|]. simpl in Hc2. rewrite Hf in Hc2. exact Hc2.
Qed.

Lemma ROUND8 x : 0 <= x <= 2 ^ 64 - 8 -> ROUND x 8 = (x + 7) / 8 * 8.
Proof. intros Hx. rewrite (ROUND_pow2 3) by lia. by replace (x + 2 ^ 3 - 1) with (x + 7) by lia. Qed.

(** ** [kfree] implements coalescing *)

Definition join1 (b c : blk) (free : bool) : blk :=
  Blk (b_addr b) (b_size b + (b_size c + MBLOCK_SIZE)) free.

(** Merging the block [c] into its left neighbour [b]. *)
Lemma merge_ok h l1 b c l2 : heap_rep h (l1 ++ b :: c :: l2) ->
  exists q', LIST_REMOVE (b_addr c) (mblock_list h) = Some q' /\
    heap_rep (set_mblock_list q' (set_mb_size
      (<[b_addr b := b_size b + (b_size c + MBLOCK_SIZE)]> (mb_size h)) h))
      (l1 ++ join1 b c (b_free b) :: l2).
Proof.
  intros [Hl Hh]. rewrite map_app in Hl. simpl in Hl.
  pose proof (list_rep_nodup _ _ Hl) as Hnd. apply NoDup_mid in Hnd as (Hn1 & Hn2 & _).
  rewrite elem_of_cons in Hn2.
  destruct (list_rep_remove (mblock_list h) (map b_addr l1 ++ [b_addr b]) (map b_addr l2) (b_addr c))
    as (q' & E & Hq'); [by rewrite <- app_assoc|].
  exists q'. split; [done|]. split.
  { rewrite map_app. simpl. by rewrite <- app_assoc in Hq'. }
  apply Forall_app in Hh as [Hh1 Hh2]. rewrite !Forall_cons_iff in Hh2.
  destruct Hh2 as ((Hb1 & Hb2 & Hb3) & _ & Hh3).
  apply Forall_app. split; [|constructor].
  - eapply hdr_frame; [|exact Hh1]. intros x Hx. simpl. by rewrite fn_lookup_insert_ne by congruence.
  - unfold hdr_ok. fnsimpl. done.
  - eapply hdr_frame; [|exact Hh3]. intros x Hx. simpl.
    rewrite fn_lookup_insert_ne; [done|]. intros <-. naive_solver.
Qed.

Lemma put_free_in h l1 b l2 : heap_rep h (l1 ++ b :: l2) ->
  heap_rep (set_mb_free (<[b_addr b := 1]> (mb_free h)) h) (l1 ++ Blk (b_addr b) (b_size b) true :: l2).
Proof.
  intros [Hl Hh]. rewrite map_app in Hl. split; [by rewrite map_app|].
  pose proof (list_rep_nodup _ _ Hl) as Hnd. simpl in Hnd. apply NoDup_mid in Hnd as (Hn1 & Hn2 & _).
  apply Forall_app in Hh as [Hh1 Hh2]. apply Forall_cons_iff in Hh2 as [(Hb1 & Hb2 & Hb3) Hh3].
  apply Forall_app. split; [|constructor].
  - eapply hdr_frame; [|exact Hh1]. intros x Hx. simpl. by rewrite fn_lookup_insert_ne by congruence.
  - unfold hdr_ok. fnsimpl. done.
  - eapply hdr_frame; [|exact Hh3]. intros x Hx. simpl. by rewrite fn_lookup_insert_ne by congruence.
Qed.

Lemma put_free_out h l x : heap_rep h l -> x ∉ map b_addr l ->
  heap_rep (set_mb_free (<[x := 1]> (mb_free h)) h) l.
Proof.
  intros [Hl Hh] Hx. split; [done|]. eapply hdr_frame; [|exact Hh]. intros y Hy. simpl.
  by rewrite fn_lookup_insert_ne by congruence.
Qed.

(** Which neighbours of [b] are merged, in list form. *)
Definition free_right (b : blk) (l2 : list blk) : blk * list blk :=
  match l2 with
  | c :: l2' => if b_free c then (join1 b c (b_free b), l2') else (b, l2)
  | [] => (b, [])
  end.

Lemma join_free_right b l2 :
  join b l2 = Blk (b_addr b) (b_size (fst (free_right b l2))) true :: snd (free_right b l2).
Proof. destruct l2 as [|c l2]; [done|]. simpl. by destruct (b_free c). Qed.

Lemma free_right_addr b l2 : b_addr (fst (free_right b l2)) = b_addr b /\
  b_free (fst (free_right b l2)) = b_free b.
Proof. destruct l2 as [|c l2]; [done|]. simpl. by destruct (b_free c). Qed.

Lemma tiles_join a l1 b c l2 f : tiles a (l1 ++ b :: c :: l2) -> tiles a (l1 ++ join1 b c f :: l2).
Proof.
  intros H. destruct (tiles_app _ _ _ H) as (m & H2 & _ & _ & Hre). apply Hre.
  simpl in *. unfold blk_end, MBLOCK_SIZE in *. destruct H2 as (<- & ? & Hm & Hc & ? & Hm2 & H2).
  simpl. split_and!; [done|lia| |].
  - replace (b_size b + (b_size c + 40)) with (b_size b + b_size c + 5 * 8) by lia.
    by rewrite Z.mod_add, Z.add_mod, Hm, Hm2 by lia.
  - unfold blk_end, MBLOCK_SIZE. simpl. replace (b_addr b + 40 + (b_size b + (b_size c + 40))) with (b_addr c + 40 + b_size c) by lia. done.
Qed.

Lemma tiles_free a l1 b l2 f : tiles a (l1 ++ b :: l2) ->
  tiles a (l1 ++ Blk (b_addr b) (b_size b) f :: l2).
Proof.
  intros H. destruct (tiles_app _ _ _ H) as (m & H2 & _ & _ & Hre). by apply Hre.
Qed.

Lemma tiles_free_right a l1 b l2 : tiles a (l1 ++ b :: l2) ->
  tiles a (l1 ++ fst (free_right b l2) :: snd (free_right b l2)).
Proof.
  intros H. destruct l2 as [|c l2]; [done|]. simpl. destruct (b_free c); [by apply tiles_join|done].
Qed.

Lemma abs_free_head b l2 : abs_free (b_addr b) (b :: l2) = join b l2.
Proof. simpl. by rewrite Z.eqb_refl. Qed.

Lemma abs_free_cons x b c l : abs_free x (b :: c :: l) =
  if b_addr b =? x then join b (c :: l)
  else if (b_addr c =? x) && b_free b then join b (join c l)
  else b :: abs_free x (c :: l).
Proof. done. Qed.

Lemma abs_free_mid l1 a b l2 : b_addr b ∉ map b_addr (l1 ++ [a]) ->
  abs_free (b_addr b) (l1 ++ a :: b :: l2) =
    l1 ++ (if b_free a then join a (join b l2) else a :: join b l2).
Proof.
  induction l1 as [|c l1 IH]; intros Hn; simpl in Hn; rewrite elem_of_cons in Hn.
  - simpl app. rewrite abs_free_cons. destruct (Z.eqb_spec (b_addr a) (b_addr b)); [naive_solver|].
    rewrite Z.eqb_refl, abs_free_head. by destruct (b_free a).
  - assert (exists d m, l1 ++ a :: b :: l2 = d :: m /\ b_addr d <> b_addr b) as (d & m & E1 & Hd).
    { destruct l1 as [|d l1]; simpl; eexists _, _; (split; [done|]); simpl in Hn;
        rewrite elem_of_cons in Hn; naive_solver. }
    simpl app. rewrite E1, abs_free_cons, <- E1.
    destruct (Z.eqb_spec (b_addr c) (b_addr b)) as [E|E]; [naive_solver|].
    destruct (Z.eqb_spec (b_addr d) (b_addr b)); [done|]. simpl. rewrite IH; [done|naive_solver].
Qed.

Lemma kfree_ok h l1 b l2 : heap_rep h (l1 ++ b :: l2) -> heap_ok (l1 ++ b :: l2) ->
  b_free b = false ->
  exists h', kfree (b_addr b + MBLOCK_SIZE) h = Ret tt h' /\
    heap_rep h' (abs_free (b_addr b) (l1 ++ b :: l2)) /\
    total_free_bytes h' = u64 (total_free_bytes h + b_size b).
Proof.
  intros Hr [Ht Hc] Hf. destruct (tiles_end _ _ Ht) as [_ He].
  assert (forall c, c ∈ l1 ++ b :: l2 -> 0 <= b_size c /\ KMALLOC_BEGIN_VA <= b_addr c /\
    b_addr c + 40 + b_size c <= KMALLOC_END_VA) as Hin.
  { intros c Hcin. destruct (He c Hcin) as (? & H2 & ?). unfold blk_end, MBLOCK_SIZE in H2. lia. }
  destruct KMALLOC_values as [V1 V2].
  destruct (Hin b) as (Hb1 & Hb2 & Hb3); [set_solver|].
  pose proof Hr as [Hl Hh]. rewrite map_app in Hl. simpl in Hl.
  pose proof (list_rep_nodup _ _ Hl) as Hnd. apply NoDup_mid in Hnd as (Hn1 & Hn2 & _).
  apply Forall_app in Hh as [Hh1 Hh2]. apply Forall_cons_iff in Hh2 as [(Hs & Hp & Hfr) Hh3].
  unfold kfree.
  assert ((b_addr b + MBLOCK_SIZE <? KMALLOC_BEGIN_VA + MBLOCK_SIZE) ||
          (KMALLOC_END_VA <? b_addr b + MBLOCK_SIZE) = false) as ->
    by (apply orb_false_iff; split; apply Z.ltb_ge; unfold MBLOCK_SIZE; lia).
  replace (b_addr b + MBLOCK_SIZE - MBLOCK_SIZE) with (b_addr b) by lia.
  rewrite bind_get, Hp, Z.eqb_refl. change (negb true) with false. cbv iota.
  rewrite bind_modify, !bind_get. 
  set (h0 := set_freed _ h).
  assert (heap_rep h0 (l1 ++ b :: l2)) as Hr0 by exact Hr.
  change (mblock_list h0) with (mblock_list h).
  rewrite (list_rep_next _ _ _ _ Hl), (list_rep_first _ _ Hl), (list_rep_prev _ _ _ _ Hl).
  (* the right neighbour *)
  destruct (free_right_addr b l2) as [Ea Ef].
  assert (exists h1, (match head (map b_addr l2) with
      | Some next_node =>
          f ← get (fun h => mb_free h next_node);
          if f =? 1 then
            modify (fun h => set_mb_size (<[b_addr b := u64 (mb_size h (b_addr b) +
              (mb_size h next_node + MBLOCK_SIZE))]> (mb_size h)) h) ;;
            list_op (LIST_REMOVE next_node)
          else mret tt
      | None => mret tt
      end : M heap unit) h0 = Ret tt h1 /\
      heap_rep h1 (l1 ++ fst (free_right b l2) :: snd (free_right b l2)) /\
      total_free_bytes h1 = total_free_bytes h0) as (h1 & E1 & Hr1 & Ht1).
  { destruct l2 as [|c l2]; [by exists h0|]. simpl. rewrite bind_get.
    apply Forall_cons_iff in Hh3 as [(Hcs & Hcp & Hcf) _].
    change (mb_free h0) with (mb_free h). rewrite Hcf.
    destruct (b_free c) eqn:Hfc; simpl; [|by exists h0].
    destruct (merge_ok h0 l1 b c l2 Hr0) as (q' & Eq & Hm).
    destruct (Hin c) as (? & ? & ?); [set_solver|].
    rewrite bind_modify. unfold list_op. rewrite bind_get.
    change (mblock_list (set_mb_size _ h0)) with (mblock_list h0). rewrite Eq.
    eexists. split; [reflexivity|]. split; [|done].
    change (mb_size h0) with (mb_size h) in *. rewrite Hs, Hcs.
    assert (b_addr b + 40 + b_size b <= b_addr c).
    { destruct (tiles_app _ _ _ Ht) as (m & (<- & _ & _ & H2) & _ & _). simpl in H2.
      destruct H2 as [H2 _]. unfold blk_end, MBLOCK_SIZE in H2. lia. }
    unfold u64. rewrite Z.mod_small by (unfold MBLOCK_SIZE; lia). exact Hm. }
  rewrite (bind_ret _ _ _ _ _ E1). set (b1 := fst (free_right b l2)) in *.
  set (l2' := snd (free_right b l2)) in *.
  assert (total_free_bytes h1 = u64 (total_free_bytes h + b_size b)) as Ht1'.
  { rewrite Ht1. simpl. by rewrite Hs. }
  (* the left neighbour *)
  destruct l1 as [|a l1 _] using rev_ind.
  - simpl. rewrite bool_decide_true by done. rewrite bind_mret. unfold put_free.
    eexists. split; [reflexivity|]. split; [|done]. rewrite Z.eqb_refl, join_free_right.
    fold b1 l2'. rewrite <- Ea. exact (put_free_in h1 [] b1 l2' Hr1).
  - assert (head (map b_addr (l1 ++ [a]) ++ b_addr b :: map b_addr l2) <> Some (b_addr b)) as Hne.
    { intros Hh. apply Hn1. destruct (l1 ++ [a]) as [|d m] eqn:E; [by destruct l1|].
      simpl in *. injection Hh as <-. set_solver. }
    rewrite map_app in Hne, Hn1 |- *. simpl map in Hne, Hn1 |- *.
    rewrite bool_decide_false by exact Hne. rewrite last_ptr_snoc. simpl MBLOCK_PREV. cbv iota.
    rewrite <- app_assoc in Hr1 |- *. simpl in Hr1 |- *.
    pose proof Hr1 as [_ Hh1']. apply Forall_app in Hh1' as [_ Hh1'].
    rewrite !Forall_cons_iff in Hh1'. destruct Hh1' as ((Has & Hap & Haf) & (Hbs & _ & _) & _).
    rewrite bind_assoc, bind_get, Haf.
    rewrite abs_free_mid by by rewrite map_app.
    destruct (b_free a) eqn:Hfa; simpl.
    + destruct (merge_ok h1 l1 a b1 l2' Hr1) as (q' & Eq & Hm). rewrite Ea in Eq.
      repeat first [rewrite bind_assoc | rewrite bind_modify].
      unfold list_op. repeat first [rewrite bind_assoc | rewrite bind_get].
      change (mblock_list (set_mb_size _ h1)) with (mblock_list h1). rewrite Eq. rewrite bind_modify. unfold put_free.
      eexists. split; [reflexivity|]. split; [|done].
      rewrite (join_free_right b l2). fold b1 l2'. simpl.
      rewrite Has, <- Ea, Hbs.
      apply tiles_free_right in Ht. fold b1 l2' in Ht. rewrite <- app_assoc in Ht. simpl in Ht.
      destruct (tiles_end _ _ Ht) as [_ He1].
      destruct (He1 a) as (Ha1 & Ha2 & Ha3); [set_solver|].
      destruct (He1 b1) as (Hd1 & Hd2 & Hd3); [set_solver|].
      destruct (tiles_app _ _ _ Ht) as (m & (Hm1 & _ & _ & Hm2 & _) & _ & _).
      unfold blk_end, MBLOCK_SIZE in Ha2, Hd2, Hm2.
      unfold u64. rewrite Z.mod_small by (unfold MBLOCK_SIZE; lia).
      unfold join1 in Hm. rewrite Hfa in Hm. refine (put_free_out _ _ (b_addr b1) Hm _).
      rewrite map_app. simpl. rewrite elem_of_app, elem_of_cons, Ea.
      rewrite elem_of_app, list_elem_of_singleton in Hn1.
      intros [Hx|[Hx|Hx]]; [naive_solver|naive_solver|].
      apply Hn2. unfold l2' in Hx. destruct l2 as [|c l2]; [done|]. simpl in Hx |- *.
      destruct (b_free c); [rewrite elem_of_cons; by right|done].
    + rewrite bind_mret. unfold put_free. eexists. split; [reflexivity|]. split; [|done].
      rewrite join_free_right. fold b1 l2'. rewrite <- Ea.
      pose proof (put_free_in h1 (l1 ++ [a]) b1 l2') as Hp2. rewrite <- !app_assoc in Hp2. by apply Hp2.
Qed.

(** ** Lemmas: coalescing on lists *)

Lemma tiles_notin a l1 b l2 : tiles a (l1 ++ b :: l2) -> b_addr b ∉ map b_addr l1.
Proof.
  intros H Hin. destruct (tiles_app _ _ _ H) as (m & (<- & _) & _ & H1 & _).
  destruct (tiles_end _ _ H) as [_ He].
  apply list_elem_of_In, in_map_iff in Hin as (c & E & Hc%list_elem_of_In).
  destruct (H1 c Hc) as [_ H2]. destruct (He c) as (_ & _ & Hs); [set_solver|].
  unfold blk_end, MBLOCK_SIZE in H2. lia.
Qed.

Lemma coalesced_flag l1 b b' : b_free b' = b_free b -> coalesced (l1 ++ [b]) -> coalesced (l1 ++ [b']).
Proof.
  intros Hb H. induction l1 as [|c [|d l1] IH]; simpl in *; [done|by rewrite Hb|].
  destruct H as [H1 H2]. split; [done|]. by apply IH.
Qed.

Lemma join_coalesced b l2 : coalesced (b :: l2) -> coalesced (join b l2).
Proof.
  destruct l2 as [|c l2]; simpl; [done|]. intros [Hbc Hc].
  destruct (b_free c) eqn:Hf; simpl.
  - destruct l2 as [|d l2]; [done|]. by destruct Hc as [Hd ?].
  - by rewrite Hf.
Qed.

Lemma join_tiles a l1 b l2 : tiles a (l1 ++ b :: l2) -> tiles a (l1 ++ join b l2).
Proof.
  intros H. destruct l2 as [|c l2]; simpl; [by apply tiles_free|].
  destruct (b_free c); [|by apply tiles_free]. by apply (tiles_join _ _ _ _ _ true) in H.
Qed.

Lemma join_shape b l2 : exists J r, join b l2 = J :: r /\ b_free J = true.
Proof.
  destruct l2 as [|c l2]; simpl; [by eexists _, _|]. destruct (b_free c); by eexists _, _.
Qed.

Lemma used_join b l2 : used (join b l2) = used l2.
Proof.
  destruct l2 as [|c l2]; [done|]. simpl. destruct (b_free c) eqn:Hf; rewrite !used_cons; simpl;
    by rewrite Hf.
Qed.

Lemma abs_free_ok l1 b l2 : heap_ok (l1 ++ b :: l2) ->
  heap_ok (abs_free (b_addr b) (l1 ++ b :: l2)) /\
  used (abs_free (b_addr b) (l1 ++ b :: l2)) = used l1 ++ used l2.
Proof.
  intros [Ht Hc]. pose proof (tiles_notin _ _ _ _ Ht) as Hn.
  apply coalesced_mid in Hc as [Hc1 Hc2].
  destruct l1 as [|a l1 _] using rev_ind.
  - simpl app. rewrite abs_free_head, used_join. split; [|done].
    split; [by apply (join_tiles _ [])|by apply join_coalesced].
  - rewrite <- app_assoc in *. simpl in Ht, Hc1 |- *. rewrite abs_free_mid by done.
    pose proof (join_coalesced _ _ Hc2) as Hj.
    assert (tiles KMALLOC_BEGIN_VA (l1 ++ a :: join b l2)) as Htj.
    { pose proof (join_tiles KMALLOC_BEGIN_VA (l1 ++ [a]) b l2) as H. rewrite <- !app_assoc in H. by apply H. }
    destruct (coalesced_app (l1 ++ [a]) [b]) as [Hca _]; [by rewrite <- app_assoc|].
    destruct (join_shape b l2) as (J & r & EJ & HJ).
    destruct (b_free a) eqn:Hfa.
    + rewrite !used_app, !used_join, used_cons, Hfa. split; [|by rewrite app_nil_r].
      split; [by apply join_tiles|]. rewrite EJ in Hj |- *. simpl. rewrite HJ.
      apply coalesced_mid. split; [by apply (coalesced_flag _ a)|].
      simpl in Hj. destruct r as [|d r]; [done|]. simpl in Hj |- *. by rewrite HJ in Hj.
    + rewrite !used_app, !used_cons, used_join, Hfa. split; [|by rewrite <- app_assoc].
      split; [done|]. apply coalesced_mid. split; [done|]. rewrite EJ in Hj |- *. simpl. by rewrite Hfa.
Qed.

(** Payloads are aligned. *)
Lemma tiles_aligned l1 b l2 : forall a, a mod 8 = 0 -> tiles a (l1 ++ b :: l2) ->
  (b_addr b + MBLOCK_SIZE) mod 8 = 0.
Proof.
  induction l1 as [|c l1 IH]; intros a Ha; simpl.
  - intros (<- & _). unfold MBLOCK_SIZE. by rewrite <- Z.add_mod_idemp_l, Ha by lia.
  - intros (<- & _ & Hc & Ht). eapply IH; [|exact Ht]. unfold blk_end, MBLOCK_SIZE.
    rewrite Z.add_mod, Hc, <- (Z.add_mod_idemp_l (b_addr c)), Ha by lia. done.
Qed.

Lemma abs_alloc_ok size l p l' : heap_ok l -> 0 <= size -> size mod 8 = 0 ->
  abs_alloc size l = Some (p, l') ->
  heap_ok l' /\ exists sz, size <= sz /\ used l' ≡ₚ (p, sz) :: used l /\ p mod 8 = 0.
Proof.
  intros Hok Hs Hm Ha. destruct (abs_alloc_some _ _ _ _ Ha) as (l1 & b & l2 & -> & -> & Hf & Hle & -> & _).
  split; [by apply split_ok|].
  exists (if b_size b - size <? MBLOCK_SIZE + 8 then b_size b else size).
  split; [by destruct (_ <? _)|]. split.
  - rewrite !used_app, used_cons, Hf. unfold split_blk.
    destruct (_ <? _); rewrite !used_cons; simpl; symmetry; apply Permutation_middle.
  - eapply tiles_aligned; [|exact (proj1 Hok)]. reflexivity.
Qed.

Lemma round8_bounds x : 0 <= x -> 0 <= (x + 7) / 8 * 8 /\ x <= (x + 7) / 8 * 8.
Proof. intros Hx. pose proof (Z.div_mod (x + 7) 8). pose proof (Z.mod_pos_bound (x + 7) 8). lia. Qed.

(** Two payloads in use never overlap, with each other or with a header, and
    lie in the heap. *)
Lemma used_disjoint l1 b l2 c l3 : heap_ok (l1 ++ b :: l2 ++ c :: l3) ->
  blk_end b <= b_addr c /\ KMALLOC_BEGIN_VA <= b_addr b /\ blk_end c <= KMALLOC_END_VA.
Proof.
  intros [Ht _]. destruct (tiles_end _ _ Ht) as [_ He].
  destruct (He b) as [? _]; [set_solver|]. destruct (He c) as (_ & ? & _); [set_solver|].
  split; [|done]. change (l1 ++ b :: l2 ++ c :: l3) with (l1 ++ (b :: l2) ++ c :: l3) in Ht.
  rewrite app_assoc in Ht. destruct (tiles_app _ _ _ Ht) as (m & (<- & _) & _ & Hin & _).
  apply Hin. set_solver.
Qed.

(** Allocating and freeing again restores the blocks. *)
Lemma alloc_free_id size l p l' : heap_ok l -> abs_alloc size l = Some (p, l') -> 0 <= size ->
  abs_free (p - MBLOCK_SIZE) l' = l.
Proof.
  intros [Ht Hc] Ha Hs. destruct (abs_alloc_some _ _ _ _ Ha) as (l1 & b & l2 & -> & -> & Hf & Hle & -> & _).
  replace (b_addr b + MBLOCK_SIZE - MBLOCK_SIZE) with (b_addr b) by lia.
  pose proof (tiles_notin _ _ _ _ Ht) as Hn. apply coalesced_mid in Hc as [Hc1 Hc2].
  assert (join (Blk (b_addr b) (b_size b) false) l2 = b :: l2) as Hj.
  { destruct b as [a sz f]. simpl in *. subst f. destruct l2 as [|c l2]; [done|]. simpl in Hc2.
    destruct Hc2 as [Hcf _]. simpl. by rewrite Hcf. }
  assert (forall d r, split_blk size b ++ l2 = d :: r -> b_addr d = b_addr b /\ join d r = b :: l2) as Hd.
  { intros d r. unfold split_blk. destruct (_ <? _); simpl; intros [= <- <-]; [done|].
    split; [done|]. simpl. destruct b as [a sz f]. simpl in *. subst f. do 2 f_equal. lia. }
  assert (exists d r, split_blk size b ++ l2 = d :: r) as (d & r & Edr).
  { unfold split_blk. destruct (_ <? _); by eexists _, _. }
  destruct (Hd _ _ Edr) as [Had Hjd]. rewrite Edr, <- Had.
  destruct l1 as [|a l1 _] using rev_ind.
  - simpl app. by rewrite abs_free_head.
  - rewrite <- app_assoc in *. simpl in Hc1 |- *. rewrite abs_free_mid by (rewrite Had; done).
    assert (b_free a = false) as ->.
    { destruct (coalesced_app l1 [a; b] Hc1) as [_ [H _]]. rewrite Hf, andb_true_r in H. done. }
    rewrite Hjd. by rewrite <- app_assoc.
Qed.

(** ** The properties *)

(** C9: [kmalloc] implements first fit.  On a heap that represents blocks
    which tile the heap area, it returns the payload of the first free block
    that is large enough, eight-byte aligned and at least as large as asked
    for, adding exactly that payload to the ones in use; NULL is returned, and
    no block changes, exactly when no free block is large enough. *)
Theorem kmalloc_correct fuel size h l :
  heap_rep h l -> heap_ok l -> (length l <= fuel)%nat -> 0 <= size <= 2 ^ 64 - 8 ->
  let n := (size + 7) / 8 * 8 in
  exists r h', kmalloc fuel size h = Ret r h' /\
    match r with
    | None => heap_rep h' l /\ forall b, b ∈ l -> b_free b = true -> b_size b < n
    | Some p => exists l' sz, abs_alloc n l = Some (p, l') /\ heap_rep h' l' /\ heap_ok l' /\
        size <= sz /\ p mod 8 = 0 /\ used l' ≡ₚ (p, sz) :: used l
    end.
Proof.
  intros Hr Hok Hf Hs n. unfold kmalloc. rewrite bind_modify, bind_get.
  set (h0 := set_requested _ h). assert (heap_rep h0 l) as Hr0 by exact Hr.
  rewrite ROUND8 by done. fold n. rewrite (list_rep_first _ _ (proj1 Hr0)).
  destruct (round8_bounds size (proj1 Hs)) as [Hn0 Hn1]. fold n in Hn0, Hn1.
  pose proof (kmalloc_scan_ok n l fuel [] h0 Hr0 Hok Hf ltac:(lia)) as H1.
  destruct (abs_alloc n l) as [[p l']|] eqn:Ha.
  - destruct H1 as (h' & E & Hr' & _).
    destruct (abs_alloc_ok n l p l' Hok ltac:(lia)) as (Hok' & sz & Hsz & Hu & Hp);
      [unfold n; apply Z.mod_mul; lia|done|].
    exists (Some p), h'. split; [exact E|]. exists l', sz. split_and!; try done. lia.
  - exists None, h0. split; [exact H1|]. split; [done|]. by apply abs_alloc_none.
Qed.

(** The heap after [kmalloc_init]. *)
Definition blk0 : blk := Blk KMALLOC_BEGIN_VA (KMALLOC_HEAP_SIZE - MBLOCK_SIZE) true.
Definition heap0 : heap :=
  Heap (LIST_INSERT_HEAD KMALLOC_BEGIN_VA (Lst None (fun _ => lnk0)))
    (fun _ => KMALLOC_HEAP_SIZE - MBLOCK_SIZE) (fun _ => KMALLOC_BEGIN_VA + MBLOCK_SIZE) (fun _ => 1) 0 0.

Lemma heap0_rep : heap_rep heap0 [blk0].
Proof.
  split.
  - apply list_rep_insert_head; [apply (list_rep_init (Lst None (fun _ => lnk0)))|set_solver].
  - constructor; [|constructor]. split_and!; reflexivity.
Qed.

Lemma heap0_ok : heap_ok [blk0].
Proof. split; [|done]. simpl. split_and!; try reflexivity. vm_compute. discriminate. Qed.

Lemma kmalloc_correct_witness :
  exists r h', kmalloc 1 100 heap0 = Ret r h' /\
    match r with
    | None => heap_rep h' [blk0] /\ forall b, b ∈ [blk0] -> b_free b = true -> b_size b < 104
    | Some p => exists l' sz, abs_alloc 104 [blk0] = Some (p, l') /\ heap_rep h' l' /\ heap_ok l' /\
        100 <= sz /\ p mod 8 = 0 /\ used l' ≡ₚ (p, sz) :: used [blk0]
    end.
Proof.
  apply (kmalloc_correct 1 100 heap0 [blk0]).
  - exact heap0_rep.
  - exact heap0_ok.
  - simpl. lia.
  - lia.
Defined.

(** C10: [kfree] of a payload in use removes exactly that payload, joins the
    block with its free neighbours, and keeps the blocks tiling the heap with
    no two free ones adjacent. *)
Theorem kfree_correct h l1 b l2 :
  heap_rep h (l1 ++ b :: l2) -> heap_ok (l1 ++ b :: l2) -> b_free b = false ->
  exists h' l', kfree (b_addr b + MBLOCK_SIZE) h = Ret tt h' /\ heap_rep h' l' /\ heap_ok l' /\
    used l' = used l1 ++ used l2 /\
    total_free_bytes h' = u64 (total_free_bytes h + b_size b).
Proof.
  intros Hr Hok Hf. destruct (kfree_ok h l1 b l2 Hr Hok Hf) as (h' & E & Hr' & Ht).
  destruct (abs_free_ok l1 b l2 Hok) as [Hok' Hu].
  exists h', (abs_free (b_addr b) (l1 ++ b :: l2)). by split_and!.
Qed.

Definition heap1 : heap := set_mb_free (fun _ => 0) heap0.
Lemma kfree_correct_witness :
  exists h' l', kfree (KMALLOC_BEGIN_VA + MBLOCK_SIZE) heap1 = Ret tt h' /\ heap_rep h' l' /\ heap_ok l' /\
    used l' = [] /\ total_free_bytes h' = u64 (0 + (KMALLOC_HEAP_SIZE - MBLOCK_SIZE)).
Proof.
  apply (kfree_correct heap1 [] (Blk KMALLOC_BEGIN_VA (KMALLOC_HEAP_SIZE - MBLOCK_SIZE) false) []).
  - split.
    + apply list_rep_insert_head; [apply (list_rep_init (Lst None (fun _ => lnk0)))|set_solver].
    + constructor; [|constructor]. split_and!; reflexivity.
  - split; [|done]. simpl. split_and!; try reflexivity. vm_compute. discriminate.
  - reflexivity.
Defined.

(** Freeing what was just allocated restores the heap to the same blocks,
    so repeated allocation and release does not fragment it. *)
Theorem kmalloc_kfree_roundtrip fuel size h l p h1 :
  heap_rep h l -> heap_ok l -> (length l <= fuel)%nat -> 0 <= size <= 2 ^ 64 - 8 ->
  kmalloc fuel size h = Ret (Some p) h1 ->
  exists h2, kfree p h1 = Ret tt h2 /\ heap_rep h2 l.
Proof.
  intros Hr Hok Hf Hs. unfold kmalloc. rewrite bind_modify, bind_get.
  set (h0 := set_requested _ h). assert (heap_rep h0 l) as Hr0 by exact Hr.
  rewrite ROUND8 by done. set (n := (size + 7) / 8 * 8). rewrite (list_rep_first _ _ (proj1 Hr0)).
  destruct (round8_bounds size (proj1 Hs)) as [Hn0 Hn1]. fold n in Hn0, Hn1.
  pose proof (kmalloc_scan_ok n l fuel [] h0 Hr0 Hok Hf ltac:(lia)) as H1.
  destruct (abs_alloc n l) as [[p' l']|] eqn:Ha; [|rewrite H1; done].
  destruct H1 as (h' & E & Hr' & _). rewrite E. intros [= -> ->].
  destruct (abs_alloc_ok n l p l' Hok ltac:(lia)) as (Hok' & _); [unfold n; apply Z.mod_mul; lia|done|].
  pose proof (alloc_free_id n l p l' Hok Ha ltac:(lia)) as Hid.
  destruct (abs_alloc_some _ _ _ _ Ha) as (l1 & b & l2 & _ & El' & _ & _ & Ep & _).
  assert (exists c r, l' = l1 ++ c :: r /\ b_addr c = b_addr b /\ b_free c = false) as (c & r & Ec & Hca & Hcf).
  { rewrite El'. unfold split_blk. destruct (_ <? _); by eexists _, _. }
  rewrite Ec in *. destruct (kfree_ok h1 l1 c r Hr' Hok' Hcf) as (h2 & E2 & Hr2 & _).
  exists h2. rewrite Ep, <- Hca. split; [done|].
  rewrite Ep in Hid. replace (b_addr b + MBLOCK_SIZE - MBLOCK_SIZE) with (b_addr c) in Hid by lia.
  by rewrite Hid in Hr2.
Qed.

Definition heap2 : heap := match kmalloc 1 100 heap0 with Ret _ h => h | _ => heap0 end.
Lemma heap2_eq : kmalloc 1 100 heap0 = Ret (Some (KMALLOC_BEGIN_VA + MBLOCK_SIZE)) heap2.
Proof. vm_compute. reflexivity. Qed.

Lemma kmalloc_kfree_roundtrip_witness :
  exists h2, kfree (KMALLOC_BEGIN_VA + MBLOCK_SIZE) heap2 = Ret tt h2 /\ heap_rep h2 [blk0].
Proof.
  apply (kmalloc_kfree_roundtrip 1 100 heap0 [blk0] (KMALLOC_BEGIN_VA + MBLOCK_SIZE) heap2).
  - exact heap0_rep.
  - exact heap0_ok.
  - simpl. lia.
  - lia.
  - exact heap2_eq.
Defined.
