(* ===== verification/Elf.v ===== *)
(** lib/elfloader.c: the ELF header check and the loader of one segment.

    [elf_load_seg] is generic in the callback [map_page] and in the state [S]
    it works on, as the C function is in its function pointer and [data]. *)
From S2P Require Import Prelude Mem Mmu.

(** The fields of [Elf64_Ehdr] and [Elf64_Phdr] (include/elf.h) the code reads,
    with their layout in memory. *)
Record Elf64_Ehdr := Ehdr { e_type : Z; e_entry : Z; e_phoff : Z; e_phentsize : Z; e_phnum : Z }.
Record Elf64_Phdr := Phdr {
  p_type : Z; p_flags : Z; p_offset : Z; p_vaddr : Z; p_filesz : Z; p_memsz : Z
}.

Definition sizeof_Ehdr : Z := 64.
Definition PT_LOAD : Z := 1.
Definition PF_X : Z := 1.
Definition PF_W : Z := 2.

Definition read_ehdr (m : memory) (a : Z) : Elf64_Ehdr :=
  Ehdr (load 2 m (a + 16)) (load64 m (a + 24)) (load64 m (a + 32))
       (load 2 m (a + 54)) (load 2 m (a + 56)).
Definition read_phdr (m : memory) (a : Z) : Elf64_Phdr :=
  Phdr (load32 m a) (load32 m (a + 4)) (load64 m (a + 8)) (load64 m (a + 16))
       (load64 m (a + 32)) (load64 m (a + 40)).

(** The header at [binary], or NULL. *)
Definition elf_from (m : memory) (binary size : Z) : option Z :=
  if (sizeof_Ehdr <=? size) && (load8 m binary =? 0x7f) &&
     (load8 m (binary + 1) =? 69) && (load8 m (binary + 2) =? 76) &&
     (load8 m (binary + 3) =? 70) && (e_type (read_ehdr m binary) =? 2)
  then Some binary else None.

Section loader.
Context {S : Type}.
(** [map_page va offset perm src len], with [src] NULL for zero pages. *)
Variable map_page : Z -> Z -> Z -> option Z -> Z -> M S Z.

(** [for (; i < bin_size; i += PAGE_SIZE)] *)
Fixpoint load_file (n : nat) (va bin perm bin_size i : Z) : M S (option Z * Z) :=
  match n with
  | O => mret (None, i)
  | Datatypes.S n =>
      if i <? bin_size then
        r ← map_page (u64 (va + i)) 0 perm (Some (u64 (bin + i))) (Z.min (bin_size - i) PAGE_SIZE);
        if negb (r =? 0) then mret (Some r, i)
        else load_file n va bin perm bin_size (u64 (i + PAGE_SIZE))
      else mret (None, i)
  end.

(** [while (i < sgsize)] *)
Fixpoint load_zero_pages (n : nat) (va perm sgsize i : Z) : M S Z :=
  match n with
  | O => mret 0
  | Datatypes.S n =>
      if i <? sgsize then
        r ← map_page (u64 (va + i)) 0 perm None (Z.min (sgsize - i) PAGE_SIZE);
        if negb (r =? 0) then mret r
        else load_zero_pages n va perm sgsize (u64 (i + PAGE_SIZE))
      else mret 0
  end.

(** The iterations that [size] bytes can take. *)
Definition seg_fuel (size : Z) : nat := Z.to_nat (size / PAGE_SIZE + 1).

Definition seg_perm (p_flags : Z) : Z :=
  let perm := Z.lor PTE_V (Z.lor PTE_R PTE_USER) in
  let perm := if negb (Z.land p_flags PF_W =? 0) then Z.lor perm PTE_W else perm in
  if negb (Z.land p_flags PF_X =? 0) then Z.lor perm PTE_X else perm.

Definition elf_load_seg (ph : Elf64_Phdr) (bin : Z) : M S Z :=
  let va := p_vaddr ph in
  let bin_size := p_filesz ph in
  let sgsize := p_memsz ph in
  let perm := seg_perm (p_flags ph) in
  let offset := va - ROUNDDOWN va PAGE_SIZE in
  r ← (if negb (offset =? 0) then
         map_page va offset perm (Some bin) (Z.min bin_size (PAGE_SIZE - offset))
       else mret 0);
  if negb (r =? 0) then mret r
  else
    let i := if offset =? 0 then 0 else PAGE_SIZE - offset in
    '(r, i) ← load_file (seg_fuel bin_size) va bin perm bin_size i;
    match r with
    | Some r => mret r
    | None => load_zero_pages (seg_fuel sgsize) va perm sgsize i
    end.
End loader.
