(* ===== verification/Kernel.v ===== *)
(** The state of the kernel: trap frames (include/trap.h), environments
    (include/env.h) and the globals of kern/env.c, kern/sched.c, kern/traps.c,
    kern/env_interrupt.c and the devices, on top of the memory state of
    kern/pmap.c.

    An [struct Env *] is the index of the environment in [envs]; the links of
    [env_free_list] and [env_sched_list] hold the two link fields.  The trap
    frame that the exception entry saves below [KSTACKTOP] is [ktf].  Device
    accesses are recorded in [io], latest first; what a device register reads
    as is the function [mmio_read] of the accesses before. *)
From S2P Require Import Prelude Queue Mem Mmu Pmap PageTable Kmalloc.

Definition LOG2NENV : Z := 10.
Definition NENV : Z := Z.shiftl 1 LOG2NENV.
Definition ENVX (envid : Z) : Z := Z.land envid (NENV - 1).
Definition ENV_FREE : Z := 0.
Definition ENV_RUNNABLE : Z := 1.
Definition ENV_NOT_RUNNABLE : Z := 2.

(** Accesses to device registers: mapped address, width in bytes, value. *)
Inductive io_op := IoRead (va len : Z) | IoWrite (va len v : Z).

(** include/device.h.  The list of ranges of a device is a linked list that is
    only ever extended at its head. *)
Record DeviceMMIORange := MMIORange { mmio_pa : Z; mmio_len : Z; mapped_va : Z }.
Record Device := MkDevice {
  device_type : list Z;
  device_id : Z;
  mmio_range_list : list DeviceMMIORange;
  device_data : Z;
  device_data_len : Z
}.

(** The functions that are registered as interrupt handlers. *)
Inductive plic_handler := HandleEnvInterrupt.
Inductive irq_handler := HandlePlicInterrupt.

(** [struct Trapframe] *)
Record trapframe := Trapframe {
  regs : Z -> Z;
  sstatus : Z;
  badvaddr : Z;
  scause : Z;
  sepc : Z;
  sip : Z;
  sie : Z
}.

Definition set_regs (x : Z -> Z) (t : trapframe) : trapframe :=
  Trapframe x (sstatus t) (badvaddr t) (scause t) (sepc t) (sip t) (sie t).
Definition set_sstatus (x : Z) (t : trapframe) : trapframe :=
  Trapframe (regs t) x (badvaddr t) (scause t) (sepc t) (sip t) (sie t).
Definition set_badvaddr (x : Z) (t : trapframe) : trapframe :=
  Trapframe (regs t) (sstatus t) x (scause t) (sepc t) (sip t) (sie t).
Definition set_scause (x : Z) (t : trapframe) : trapframe :=
  Trapframe (regs t) (sstatus t) (badvaddr t) x (sepc t) (sip t) (sie t).
Definition set_sepc (x : Z) (t : trapframe) : trapframe :=
  Trapframe (regs t) (sstatus t) (badvaddr t) (scause t) x (sip t) (sie t).
Definition set_sip (x : Z) (t : trapframe) : trapframe :=
  Trapframe (regs t) (sstatus t) (badvaddr t) (scause t) (sepc t) x (sie t).
Definition set_sie (x : Z) (t : trapframe) : trapframe :=
  Trapframe (regs t) (sstatus t) (badvaddr t) (scause t) (sepc t) (sip t) x.

(** [struct Env]; the two link fields are in the queues. *)
Record Env := MkEnv {
  env_tf : trapframe;
  env_id : Z;
  env_asid : Z;
  env_parent_id : Z;
  env_status : Z;
  env_pgdir : Z;
  env_pri : Z;
  env_in_syscall : Z;
  handler_function_va : Z;
  env_ipc_value : Z;
  env_ipc_from : Z;
  env_ipc_recving : Z;
  env_ipc_dstva : Z;
  env_ipc_perm : Z;
  env_ipc_recv_from : Z;
  env_user_tlb_mod_entry : Z;
  env_runs : Z;
  env_name : list Z
}.

Definition set_env_tf (x : trapframe) (e : Env) : Env :=
  MkEnv x (env_id e) (env_asid e) (env_parent_id e) (env_status e) (env_pgdir e) (env_pri e) (env_in_syscall e) (handler_function_va e) (env_ipc_value e) (env_ipc_from e) (env_ipc_recving e) (env_ipc_dstva e) (env_ipc_perm e) (env_ipc_recv_from e) (env_user_tlb_mod_entry e) (env_runs e) (env_name e).
Definition set_env_id (x : Z) (e : Env) : Env :=
  MkEnv (env_tf e) x (env_asid e) (env_parent_id e) (env_status e) (env_pgdir e) (env_pri e) (env_in_syscall e) (handler_function_va e) (env_ipc_value e) (env_ipc_from e) (env_ipc_recving e) (env_ipc_dstva e) (env_ipc_perm e) (env_ipc_recv_from e) (env_user_tlb_mod_entry e) (env_runs e) (env_name e).
Definition set_env_asid (x : Z) (e : Env) : Env :=
  MkEnv (env_tf e) (env_id e) x (env_parent_id e) (env_status e) (env_pgdir e) (env_pri e) (env_in_syscall e) (handler_function_va e) (env_ipc_value e) (env_ipc_from e) (env_ipc_recving e) (env_ipc_dstva e) (env_ipc_perm e) (env_ipc_recv_from e) (env_user_tlb_mod_entry e) (env_runs e) (env_name e).
Definition set_env_parent_id (x : Z) (e : Env) : Env :=
  MkEnv (env_tf e) (env_id e) (env_asid e) x (env_status e) (env_pgdir e) (env_pri e) (env_in_syscall e) (handler_function_va e) (env_ipc_value e) (env_ipc_from e) (env_ipc_recving e) (env_ipc_dstva e) (env_ipc_perm e) (env_ipc_recv_from e) (env_user_tlb_mod_entry e) (env_runs e) (env_name e).
Definition set_env_status (x : Z) (e : Env) : Env :=
  MkEnv (env_tf e) (env_id e) (env_asid e) (env_parent_id e) x (env_pgdir e) (env_pri e) (env_in_syscall e) (handler_function_va e) (env_ipc_value e) (env_ipc_from e) (env_ipc_recving e) (env_ipc_dstva e) (env_ipc_perm e) (env_ipc_recv_from e) (env_user_tlb_mod_entry e) (env_runs e) (env_name e).
Definition set_env_pgdir (x : Z) (e : Env) : Env :=
  MkEnv (env_tf e) (env_id e) (env_asid e) (env_parent_id e) (env_status e) x (env_pri e) (env_in_syscall e) (handler_function_va e) (env_ipc_value e) (env_ipc_from e) (env_ipc_recving e) (env_ipc_dstva e) (env_ipc_perm e) (env_ipc_recv_from e) (env_user_tlb_mod_entry e) (env_runs e) (env_name e).
Definition set_env_pri (x : Z) (e : Env) : Env :=
  MkEnv (env_tf e) (env_id e) (env_asid e) (env_parent_id e) (env_status e) (env_pgdir e) x (env_in_syscall e) (handler_function_va e) (env_ipc_value e) (env_ipc_from e) (env_ipc_recving e) (env_ipc_dstva e) (env_ipc_perm e) (env_ipc_recv_from e) (env_user_tlb_mod_entry e) (env_runs e) (env_name e).
Definition set_env_in_syscall (x : Z) (e : Env) : Env :=
  MkEnv (env_tf e) (env_id e) (env_asid e) (env_parent_id e) (env_status e) (env_pgdir e) (env_pri e) x (handler_function_va e) (env_ipc_value e) (env_ipc_from e) (env_ipc_recving e) (env_ipc_dstva e) (env_ipc_perm e) (env_ipc_recv_from e) (env_user_tlb_mod_entry e) (env_runs e) (env_name e).
Definition set_handler_function_va (x : Z) (e : Env) : Env :=
  MkEnv (env_tf e) (env_id e) (env_asid e) (env_parent_id e) (env_status e) (env_pgdir e) (env_pri e) (env_in_syscall e) x (env_ipc_value e) (env_ipc_from e) (env_ipc_recving e) (env_ipc_dstva e) (env_ipc_perm e) (env_ipc_recv_from e) (env_user_tlb_mod_entry e) (env_runs e) (env_name e).
Definition set_env_ipc_value (x : Z) (e : Env) : Env :=
  MkEnv (env_tf e) (env_id e) (env_asid e) (env_parent_id e) (env_status e) (env_pgdir e) (env_pri e) (env_in_syscall e) (handler_function_va e) x (env_ipc_from e) (env_ipc_recving e) (env_ipc_dstva e) (env_ipc_perm e) (env_ipc_recv_from e) (env_user_tlb_mod_entry e) (env_runs e) (env_name e).
Definition set_env_ipc_from (x : Z) (e : Env) : Env :=
  MkEnv (env_tf e) (env_id e) (env_asid e) (env_parent_id e) (env_status e) (env_pgdir e) (env_pri e) (env_in_syscall e) (handler_function_va e) (env_ipc_value e) x (env_ipc_recving e) (env_ipc_dstva e) (env_ipc_perm e) (env_ipc_recv_from e) (env_user_tlb_mod_entry e) (env_runs e) (env_name e).
Definition set_env_ipc_recving (x : Z) (e : Env) : Env :=
  MkEnv (env_tf e) (env_id e) (env_asid e) (env_parent_id e) (env_status e) (env_pgdir e) (env_pri e) (env_in_syscall e) (handler_function_va e) (env_ipc_value e) (env_ipc_from e) x (env_ipc_dstva e) (env_ipc_perm e) (env_ipc_recv_from e) (env_user_tlb_mod_entry e) (env_runs e) (env_name e).
Definition set_env_ipc_dstva (x : Z) (e : Env) : Env :=
  MkEnv (env_tf e) (env_id e) (env_asid e) (env_parent_id e) (env_status e) (env_pgdir e) (env_pri e) (env_in_syscall e) (handler_function_va e) (env_ipc_value e) (env_ipc_from e) (env_ipc_recving e) x (env_ipc_perm e) (env_ipc_recv_from e) (env_user_tlb_mod_entry e) (env_runs e) (env_name e).
Definition set_env_ipc_perm (x : Z) (e : Env) : Env :=
  MkEnv (env_tf e) (env_id e) (env_asid e) (env_parent_id e) (env_status e) (env_pgdir e) (env_pri e) (env_in_syscall e) (handler_function_va e) (env_ipc_value e) (env_ipc_from e) (env_ipc_recving e) (env_ipc_dstva e) x (env_ipc_recv_from e) (env_user_tlb_mod_entry e) (env_runs e) (env_name e).
Definition set_env_ipc_recv_from (x : Z) (e : Env) : Env :=
  MkEnv (env_tf e) (env_id e) (env_asid e) (env_parent_id e) (env_status e) (env_pgdir e) (env_pri e) (env_in_syscall e) (handler_function_va e) (env_ipc_value e) (env_ipc_from e) (env_ipc_recving e) (env_ipc_dstva e) (env_ipc_perm e) x (env_user_tlb_mod_entry e) (env_runs e) (env_name e).
Definition set_env_user_tlb_mod_entry (x : Z) (e : Env) : Env :=
  MkEnv (env_tf e) (env_id e) (env_asid e) (env_parent_id e) (env_status e) (env_pgdir e) (env_pri e) (env_in_syscall e) (handler_function_va e) (env_ipc_value e) (env_ipc_from e) (env_ipc_recving e) (env_ipc_dstva e) (env_ipc_perm e) (env_ipc_recv_from e) x (env_runs e) (env_name e).
Definition set_env_runs (x : Z) (e : Env) : Env :=
  MkEnv (env_tf e) (env_id e) (env_asid e) (env_parent_id e) (env_status e) (env_pgdir e) (env_pri e) (env_in_syscall e) (handler_function_va e) (env_ipc_value e) (env_ipc_from e) (env_ipc_recving e) (env_ipc_dstva e) (env_ipc_perm e) (env_ipc_recv_from e) (env_user_tlb_mod_entry e) x (env_name e).
Definition set_env_name (x : list Z) (e : Env) : Env :=
  MkEnv (env_tf e) (env_id e) (env_asid e) (env_parent_id e) (env_status e) (env_pgdir e) (env_pri e) (env_in_syscall e) (handler_function_va e) (env_ipc_value e) (env_ipc_from e) (env_ipc_recving e) (env_ipc_dstva e) (env_ipc_perm e) (env_ipc_recv_from e) (env_user_tlb_mod_entry e) (env_runs e) x.

(** The kernel's globals.  [mmio_read] is the hardware's; the fields after it are
    link-time addresses. *)
Record kernel := Kernel {
  pm : pmap;
  envs : Z -> Env;
  curenv : option Z;
  env_free_list : lst;
  env_sched_list : tailq;
  base_pgdir : Z;
  cur_pgdir : Z;
  asid_bitmap : Z -> Z;
  mkenvid_i : Z;
  sched_count : Z;
  ktf : trapframe;
  interrupt_code_to_envid : Z -> Z;
  kheap : heap;
  kmmap_bmap : Z -> Z;
  devices : list Device;
  devices_capacity : Z;
  devices_array : Z;
  global_device_id : Z;
  plic_device : option Device;
  plic_base_pa : Z;
  plic_interrupt_count : Z;
  interrupt_handler : Z -> option plic_handler;
  interrupt_handler_map : Z -> option irq_handler;
  sie_csr : Z;
  io : list io_op;
  mmio_read : list io_op -> Z -> Z -> Z;
  kernel_boot_pgdir : Z;
  envs_addr : Z;
  kernel_end : Z;
  user_buffer_start : Z;
  user_buffer_end : Z
}.

Definition set_pm (x : pmap) (k : kernel) : kernel :=
  Kernel x (envs k) (curenv k) (env_free_list k) (env_sched_list k) (base_pgdir k) (cur_pgdir k) (asid_bitmap k) (mkenvid_i k) (sched_count k) (ktf k) (interrupt_code_to_envid k) (kheap k) (kmmap_bmap k) (devices k) (devices_capacity k) (devices_array k) (global_device_id k) (plic_device k) (plic_base_pa k) (plic_interrupt_count k) (interrupt_handler k) (interrupt_handler_map k) (sie_csr k) (io k) (mmio_read k) (kernel_boot_pgdir k) (envs_addr k) (kernel_end k) (user_buffer_start k) (user_buffer_end k).
Definition set_envs (x : Z -> Env) (k : kernel) : kernel :=
  Kernel (pm k) x (curenv k) (env_free_list k) (env_sched_list k) (base_pgdir k) (cur_pgdir k) (asid_bitmap k) (mkenvid_i k) (sched_count k) (ktf k) (interrupt_code_to_envid k) (kheap k) (kmmap_bmap k) (devices k) (devices_capacity k) (devices_array k) (global_device_id k) (plic_device k) (plic_base_pa k) (plic_interrupt_count k) (interrupt_handler k) (interrupt_handler_map k) (sie_csr k) (io k) (mmio_read k) (kernel_boot_pgdir k) (envs_addr k) (kernel_end k) (user_buffer_start k) (user_buffer_end k).
Definition set_curenv (x : option Z) (k : kernel) : kernel :=
  Kernel (pm k) (envs k) x (env_free_list k) (env_sched_list k) (base_pgdir k) (cur_pgdir k) (asid_bitmap k) (mkenvid_i k) (sched_count k) (ktf k) (interrupt_code_to_envid k) (kheap k) (kmmap_bmap k) (devices k) (devices_capacity k) (devices_array k) (global_device_id k) (plic_device k) (plic_base_pa k) (plic_interrupt_count k) (interrupt_handler k) (interrupt_handler_map k) (sie_csr k) (io k) (mmio_read k) (kernel_boot_pgdir k) (envs_addr k) (kernel_end k) (user_buffer_start k) (user_buffer_end k).
Definition set_env_free_list (x : lst) (k : kernel) : kernel :=
  Kernel (pm k) (envs k) (curenv k) x (env_sched_list k) (base_pgdir k) (cur_pgdir k) (asid_bitmap k) (mkenvid_i k) (sched_count k) (ktf k) (interrupt_code_to_envid k) (kheap k) (kmmap_bmap k) (devices k) (devices_capacity k) (devices_array k) (global_device_id k) (plic_device k) (plic_base_pa k) (plic_interrupt_count k) (interrupt_handler k) (interrupt_handler_map k) (sie_csr k) (io k) (mmio_read k) (kernel_boot_pgdir k) (envs_addr k) (kernel_end k) (user_buffer_start k) (user_buffer_end k).
Definition set_env_sched_list (x : tailq) (k : kernel) : kernel :=
  Kernel (pm k) (envs k) (curenv k) (env_free_list k) x (base_pgdir k) (cur_pgdir k) (asid_bitmap k) (mkenvid_i k) (sched_count k) (ktf k) (interrupt_code_to_envid k) (kheap k) (kmmap_bmap k) (devices k) (devices_capacity k) (devices_array k) (global_device_id k) (plic_device k) (plic_base_pa k) (plic_interrupt_count k) (interrupt_handler k) (interrupt_handler_map k) (sie_csr k) (io k) (mmio_read k) (kernel_boot_pgdir k) (envs_addr k) (kernel_end k) (user_buffer_start k) (user_buffer_end k).
Definition set_base_pgdir (x : Z) (k : kernel) : kernel :=
  Kernel (pm k) (envs k) (curenv k) (env_free_list k) (env_sched_list k) x (cur_pgdir k) (asid_bitmap k) (mkenvid_i k) (sched_count k) (ktf k) (interrupt_code_to_envid k) (kheap k) (kmmap_bmap k) (devices k) (devices_capacity k) (devices_array k) (global_device_id k) (plic_device k) (plic_base_pa k) (plic_interrupt_count k) (interrupt_handler k) (interrupt_handler_map k) (sie_csr k) (io k) (mmio_read k) (kernel_boot_pgdir k) (envs_addr k) (kernel_end k) (user_buffer_start k) (user_buffer_end k).
Definition set_cur_pgdir (x : Z) (k : kernel) : kernel :=
  Kernel (pm k) (envs k) (curenv k) (env_free_list k) (env_sched_list k) (base_pgdir k) x (asid_bitmap k) (mkenvid_i k) (sched_count k) (ktf k) (interrupt_code_to_envid k) (kheap k) (kmmap_bmap k) (devices k) (devices_capacity k) (devices_array k) (global_device_id k) (plic_device k) (plic_base_pa k) (plic_interrupt_count k) (interrupt_handler k) (interrupt_handler_map k) (sie_csr k) (io k) (mmio_read k) (kernel_boot_pgdir k) (envs_addr k) (kernel_end k) (user_buffer_start k) (user_buffer_end k).
Definition set_asid_bitmap (x : Z -> Z) (k : kernel) : kernel :=
  Kernel (pm k) (envs k) (curenv k) (env_free_list k) (env_sched_list k) (base_pgdir k) (cur_pgdir k) x (mkenvid_i k) (sched_count k) (ktf k) (interrupt_code_to_envid k) (kheap k) (kmmap_bmap k) (devices k) (devices_capacity k) (devices_array k) (global_device_id k) (plic_device k) (plic_base_pa k) (plic_interrupt_count k) (interrupt_handler k) (interrupt_handler_map k) (sie_csr k) (io k) (mmio_read k) (kernel_boot_pgdir k) (envs_addr k) (kernel_end k) (user_buffer_start k) (user_buffer_end k).
Definition set_mkenvid_i (x : Z) (k : kernel) : kernel :=
  Kernel (pm k) (envs k) (curenv k) (env_free_list k) (env_sched_list k) (base_pgdir k) (cur_pgdir k) (asid_bitmap k) x (sched_count k) (ktf k) (interrupt_code_to_envid k) (kheap k) (kmmap_bmap k) (devices k) (devices_capacity k) (devices_array k) (global_device_id k) (plic_device k) (plic_base_pa k) (plic_interrupt_count k) (interrupt_handler k) (interrupt_handler_map k) (sie_csr k) (io k) (mmio_read k) (kernel_boot_pgdir k) (envs_addr k) (kernel_end k) (user_buffer_start k) (user_buffer_end k).
Definition set_sched_count (x : Z) (k : kernel) : kernel :=
  Kernel (pm k) (envs k) (curenv k) (env_free_list k) (env_sched_list k) (base_pgdir k) (cur_pgdir k) (asid_bitmap k) (mkenvid_i k) x (ktf k) (interrupt_code_to_envid k) (kheap k) (kmmap_bmap k) (devices k) (devices_capacity k) (devices_array k) (global_device_id k) (plic_device k) (plic_base_pa k) (plic_interrupt_count k) (interrupt_handler k) (interrupt_handler_map k) (sie_csr k) (io k) (mmio_read k) (kernel_boot_pgdir k) (envs_addr k) (kernel_end k) (user_buffer_start k) (user_buffer_end k).
Definition set_ktf (x : trapframe) (k : kernel) : kernel :=
  Kernel (pm k) (envs k) (curenv k) (env_free_list k) (env_sched_list k) (base_pgdir k) (cur_pgdir k) (asid_bitmap k) (mkenvid_i k) (sched_count k) x (interrupt_code_to_envid k) (kheap k) (kmmap_bmap k) (devices k) (devices_capacity k) (devices_array k) (global_device_id k) (plic_device k) (plic_base_pa k) (plic_interrupt_count k) (interrupt_handler k) (interrupt_handler_map k) (sie_csr k) (io k) (mmio_read k) (kernel_boot_pgdir k) (envs_addr k) (kernel_end k) (user_buffer_start k) (user_buffer_end k).
Definition set_interrupt_code_to_envid (x : Z -> Z) (k : kernel) : kernel :=
  Kernel (pm k) (envs k) (curenv k) (env_free_list k) (env_sched_list k) (base_pgdir k) (cur_pgdir k) (asid_bitmap k) (mkenvid_i k) (sched_count k) (ktf k) x (kheap k) (kmmap_bmap k) (devices k) (devices_capacity k) (devices_array k) (global_device_id k) (plic_device k) (plic_base_pa k) (plic_interrupt_count k) (interrupt_handler k) (interrupt_handler_map k) (sie_csr k) (io k) (mmio_read k) (kernel_boot_pgdir k) (envs_addr k) (kernel_end k) (user_buffer_start k) (user_buffer_end k).
Definition set_kheap (x : heap) (k : kernel) : kernel :=
  Kernel (pm k) (envs k) (curenv k) (env_free_list k) (env_sched_list k) (base_pgdir k) (cur_pgdir k) (asid_bitmap k) (mkenvid_i k) (sched_count k) (ktf k) (interrupt_code_to_envid k) x (kmmap_bmap k) (devices k) (devices_capacity k) (devices_array k) (global_device_id k) (plic_device k) (plic_base_pa k) (plic_interrupt_count k) (interrupt_handler k) (interrupt_handler_map k) (sie_csr k) (io k) (mmio_read k) (kernel_boot_pgdir k) (envs_addr k) (kernel_end k) (user_buffer_start k) (user_buffer_end k).
Definition set_kmmap_bmap (x : Z -> Z) (k : kernel) : kernel :=
  Kernel (pm k) (envs k) (curenv k) (env_free_list k) (env_sched_list k) (base_pgdir k) (cur_pgdir k) (asid_bitmap k) (mkenvid_i k) (sched_count k) (ktf k) (interrupt_code_to_envid k) (kheap k) x (devices k) (devices_capacity k) (devices_array k) (global_device_id k) (plic_device k) (plic_base_pa k) (plic_interrupt_count k) (interrupt_handler k) (interrupt_handler_map k) (sie_csr k) (io k) (mmio_read k) (kernel_boot_pgdir k) (envs_addr k) (kernel_end k) (user_buffer_start k) (user_buffer_end k).
Definition set_devices (x : list Device) (k : kernel) : kernel :=
  Kernel (pm k) (envs k) (curenv k) (env_free_list k) (env_sched_list k) (base_pgdir k) (cur_pgdir k) (asid_bitmap k) (mkenvid_i k) (sched_count k) (ktf k) (interrupt_code_to_envid k) (kheap k) (kmmap_bmap k) x (devices_capacity k) (devices_array k) (global_device_id k) (plic_device k) (plic_base_pa k) (plic_interrupt_count k) (interrupt_handler k) (interrupt_handler_map k) (sie_csr k) (io k) (mmio_read k) (kernel_boot_pgdir k) (envs_addr k) (kernel_end k) (user_buffer_start k) (user_buffer_end k).
Definition set_devices_capacity (x : Z) (k : kernel) : kernel :=
  Kernel (pm k) (envs k) (curenv k) (env_free_list k) (env_sched_list k) (base_pgdir k) (cur_pgdir k) (asid_bitmap k) (mkenvid_i k) (sched_count k) (ktf k) (interrupt_code_to_envid k) (kheap k) (kmmap_bmap k) (devices k) x (devices_array k) (global_device_id k) (plic_device k) (plic_base_pa k) (plic_interrupt_count k) (interrupt_handler k) (interrupt_handler_map k) (sie_csr k) (io k) (mmio_read k) (kernel_boot_pgdir k) (envs_addr k) (kernel_end k) (user_buffer_start k) (user_buffer_end k).
Definition set_devices_array (x : Z) (k : kernel) : kernel :=
  Kernel (pm k) (envs k) (curenv k) (env_free_list k) (env_sched_list k) (base_pgdir k) (cur_pgdir k) (asid_bitmap k) (mkenvid_i k) (sched_count k) (ktf k) (interrupt_code_to_envid k) (kheap k) (kmmap_bmap k) (devices k) (devices_capacity k) x (global_device_id k) (plic_device k) (plic_base_pa k) (plic_interrupt_count k) (interrupt_handler k) (interrupt_handler_map k) (sie_csr k) (io k) (mmio_read k) (kernel_boot_pgdir k) (envs_addr k) (kernel_end k) (user_buffer_start k) (user_buffer_end k).
Definition set_global_device_id (x : Z) (k : kernel) : kernel :=
  Kernel (pm k) (envs k) (curenv k) (env_free_list k) (env_sched_list k) (base_pgdir k) (cur_pgdir k) (asid_bitmap k) (mkenvid_i k) (sched_count k) (ktf k) (interrupt_code_to_envid k) (kheap k) (kmmap_bmap k) (devices k) (devices_capacity k) (devices_array k) x (plic_device k) (plic_base_pa k) (plic_interrupt_count k) (interrupt_handler k) (interrupt_handler_map k) (sie_csr k) (io k) (mmio_read k) (kernel_boot_pgdir k) (envs_addr k) (kernel_end k) (user_buffer_start k) (user_buffer_end k).
Definition set_plic_device (x : option Device) (k : kernel) : kernel :=
  Kernel (pm k) (envs k) (curenv k) (env_free_list k) (env_sched_list k) (base_pgdir k) (cur_pgdir k) (asid_bitmap k) (mkenvid_i k) (sched_count k) (ktf k) (interrupt_code_to_envid k) (kheap k) (kmmap_bmap k) (devices k) (devices_capacity k) (devices_array k) (global_device_id k) x (plic_base_pa k) (plic_interrupt_count k) (interrupt_handler k) (interrupt_handler_map k) (sie_csr k) (io k) (mmio_read k) (kernel_boot_pgdir k) (envs_addr k) (kernel_end k) (user_buffer_start k) (user_buffer_end k).
Definition set_plic_base_pa (x : Z) (k : kernel) : kernel :=
  Kernel (pm k) (envs k) (curenv k) (env_free_list k) (env_sched_list k) (base_pgdir k) (cur_pgdir k) (asid_bitmap k) (mkenvid_i k) (sched_count k) (ktf k) (interrupt_code_to_envid k) (kheap k) (kmmap_bmap k) (devices k) (devices_capacity k) (devices_array k) (global_device_id k) (plic_device k) x (plic_interrupt_count k) (interrupt_handler k) (interrupt_handler_map k) (sie_csr k) (io k) (mmio_read k) (kernel_boot_pgdir k) (envs_addr k) (kernel_end k) (user_buffer_start k) (user_buffer_end k).
Definition set_plic_interrupt_count (x : Z) (k : kernel) : kernel :=
  Kernel (pm k) (envs k) (curenv k) (env_free_list k) (env_sched_list k) (base_pgdir k) (cur_pgdir k) (asid_bitmap k) (mkenvid_i k) (sched_count k) (ktf k) (interrupt_code_to_envid k) (kheap k) (kmmap_bmap k) (devices k) (devices_capacity k) (devices_array k) (global_device_id k) (plic_device k) (plic_base_pa k) x (interrupt_handler k) (interrupt_handler_map k) (sie_csr k) (io k) (mmio_read k) (kernel_boot_pgdir k) (envs_addr k) (kernel_end k) (user_buffer_start k) (user_buffer_end k).
Definition set_interrupt_handler (x : Z -> option plic_handler) (k : kernel) : kernel :=
  Kernel (pm k) (envs k) (curenv k) (env_free_list k) (env_sched_list k) (base_pgdir k) (cur_pgdir k) (asid_bitmap k) (mkenvid_i k) (sched_count k) (ktf k) (interrupt_code_to_envid k) (kheap k) (kmmap_bmap k) (devices k) (devices_capacity k) (devices_array k) (global_device_id k) (plic_device k) (plic_base_pa k) (plic_interrupt_count k) x (interrupt_handler_map k) (sie_csr k) (io k) (mmio_read k) (kernel_boot_pgdir k) (envs_addr k) (kernel_end k) (user_buffer_start k) (user_buffer_end k).
Definition set_interrupt_handler_map (x : Z -> option irq_handler) (k : kernel) : kernel :=
  Kernel (pm k) (envs k) (curenv k) (env_free_list k) (env_sched_list k) (base_pgdir k) (cur_pgdir k) (asid_bitmap k) (mkenvid_i k) (sched_count k) (ktf k) (interrupt_code_to_envid k) (kheap k) (kmmap_bmap k) (devices k) (devices_capacity k) (devices_array k) (global_device_id k) (plic_device k) (plic_base_pa k) (plic_interrupt_count k) (interrupt_handler k) x (sie_csr k) (io k) (mmio_read k) (kernel_boot_pgdir k) (envs_addr k) (kernel_end k) (user_buffer_start k) (user_buffer_end k).
Definition set_sie_csr (x : Z) (k : kernel) : kernel :=
  Kernel (pm k) (envs k) (curenv k) (env_free_list k) (env_sched_list k) (base_pgdir k) (cur_pgdir k) (asid_bitmap k) (mkenvid_i k) (sched_count k) (ktf k) (interrupt_code_to_envid k) (kheap k) (kmmap_bmap k) (devices k) (devices_capacity k) (devices_array k) (global_device_id k) (plic_device k) (plic_base_pa k) (plic_interrupt_count k) (interrupt_handler k) (interrupt_handler_map k) x (io k) (mmio_read k) (kernel_boot_pgdir k) (envs_addr k) (kernel_end k) (user_buffer_start k) (user_buffer_end k).
Definition set_io (x : list io_op) (k : kernel) : kernel :=
  Kernel (pm k) (envs k) (curenv k) (env_free_list k) (env_sched_list k) (base_pgdir k) (cur_pgdir k) (asid_bitmap k) (mkenvid_i k) (sched_count k) (ktf k) (interrupt_code_to_envid k) (kheap k) (kmmap_bmap k) (devices k) (devices_capacity k) (devices_array k) (global_device_id k) (plic_device k) (plic_base_pa k) (plic_interrupt_count k) (interrupt_handler k) (interrupt_handler_map k) (sie_csr k) x (mmio_read k) (kernel_boot_pgdir k) (envs_addr k) (kernel_end k) (user_buffer_start k) (user_buffer_end k).
Definition set_mmio_read (x : list io_op -> Z -> Z -> Z) (k : kernel) : kernel :=
  Kernel (pm k) (envs k) (curenv k) (env_free_list k) (env_sched_list k) (base_pgdir k) (cur_pgdir k) (asid_bitmap k) (mkenvid_i k) (sched_count k) (ktf k) (interrupt_code_to_envid k) (kheap k) (kmmap_bmap k) (devices k) (devices_capacity k) (devices_array k) (global_device_id k) (plic_device k) (plic_base_pa k) (plic_interrupt_count k) (interrupt_handler k) (interrupt_handler_map k) (sie_csr k) (io k) x (kernel_boot_pgdir k) (envs_addr k) (kernel_end k) (user_buffer_start k) (user_buffer_end k).
Definition set_kernel_boot_pgdir (x : Z) (k : kernel) : kernel :=
  Kernel (pm k) (envs k) (curenv k) (env_free_list k) (env_sched_list k) (base_pgdir k) (cur_pgdir k) (asid_bitmap k) (mkenvid_i k) (sched_count k) (ktf k) (interrupt_code_to_envid k) (kheap k) (kmmap_bmap k) (devices k) (devices_capacity k) (devices_array k) (global_device_id k) (plic_device k) (plic_base_pa k) (plic_interrupt_count k) (interrupt_handler k) (interrupt_handler_map k) (sie_csr k) (io k) (mmio_read k) x (envs_addr k) (kernel_end k) (user_buffer_start k) (user_buffer_end k).
Definition set_envs_addr (x : Z) (k : kernel) : kernel :=
  Kernel (pm k) (envs k) (curenv k) (env_free_list k) (env_sched_list k) (base_pgdir k) (cur_pgdir k) (asid_bitmap k) (mkenvid_i k) (sched_count k) (ktf k) (interrupt_code_to_envid k) (kheap k) (kmmap_bmap k) (devices k) (devices_capacity k) (devices_array k) (global_device_id k) (plic_device k) (plic_base_pa k) (plic_interrupt_count k) (interrupt_handler k) (interrupt_handler_map k) (sie_csr k) (io k) (mmio_read k) (kernel_boot_pgdir k) x (kernel_end k) (user_buffer_start k) (user_buffer_end k).
Definition set_kernel_end (x : Z) (k : kernel) : kernel :=
  Kernel (pm k) (envs k) (curenv k) (env_free_list k) (env_sched_list k) (base_pgdir k) (cur_pgdir k) (asid_bitmap k) (mkenvid_i k) (sched_count k) (ktf k) (interrupt_code_to_envid k) (kheap k) (kmmap_bmap k) (devices k) (devices_capacity k) (devices_array k) (global_device_id k) (plic_device k) (plic_base_pa k) (plic_interrupt_count k) (interrupt_handler k) (interrupt_handler_map k) (sie_csr k) (io k) (mmio_read k) (kernel_boot_pgdir k) (envs_addr k) x (user_buffer_start k) (user_buffer_end k).
Definition set_user_buffer_start (x : Z) (k : kernel) : kernel :=
  Kernel (pm k) (envs k) (curenv k) (env_free_list k) (env_sched_list k) (base_pgdir k) (cur_pgdir k) (asid_bitmap k) (mkenvid_i k) (sched_count k) (ktf k) (interrupt_code_to_envid k) (kheap k) (kmmap_bmap k) (devices k) (devices_capacity k) (devices_array k) (global_device_id k) (plic_device k) (plic_base_pa k) (plic_interrupt_count k) (interrupt_handler k) (interrupt_handler_map k) (sie_csr k) (io k) (mmio_read k) (kernel_boot_pgdir k) (envs_addr k) (kernel_end k) x (user_buffer_end k).
Definition set_user_buffer_end (x : Z) (k : kernel) : kernel :=
  Kernel (pm k) (envs k) (curenv k) (env_free_list k) (env_sched_list k) (base_pgdir k) (cur_pgdir k) (asid_bitmap k) (mkenvid_i k) (sched_count k) (ktf k) (interrupt_code_to_envid k) (kheap k) (kmmap_bmap k) (devices k) (devices_capacity k) (devices_array k) (global_device_id k) (plic_device k) (plic_base_pa k) (plic_interrupt_count k) (interrupt_handler k) (interrupt_handler_map k) (sie_csr k) (io k) (mmio_read k) (kernel_boot_pgdir k) (envs_addr k) (kernel_end k) (user_buffer_start k) x.

(** [sizeof] of the structures, by the layout rules of the RISC-V ABI. *)
Definition sizeof_Trapframe : Z := 304.
Definition sizeof_Env : Z := 456.

(** [e->field = v], written as a function on the environment. *)
Definition upd_env (e : Z) (f : Env -> Env) : M kernel unit :=
  modify (fun k => set_envs (<[e := f (envs k e)]> (envs k)) k).
Definition env_get {A} (e : Z) (f : Env -> A) : M kernel A := get (fun k => f (envs k e)).

(** A memory operation of kern/pmap.c on the kernel's memory. *)
Definition inpm {A} (m : M pmap A) : M kernel A := zoom pm set_pm m.

(** A dereference of a pointer that may be NULL: the page fault it raises in
    the kernel ends in [panic]. *)
Definition deref (p : option Z) : M kernel Z :=
  match p with Some e => mret e | None => panic end.

(** A queue operation that stores through a pointer of the queue. *)
Definition sched_op (f : tailq -> option tailq) : M kernel unit :=
  q ← get env_sched_list;
  match f q with
  | Some q' => modify (set_env_sched_list q')
  | None => panic
  end.
Definition free_op (f : lst -> option lst) : M kernel unit :=
  q ← get env_free_list;
  match f q with
  | Some q' => modify (set_env_free_list q')
  | None => panic
  end.

Definition set_reg (i v : Z) (t : trapframe) : trapframe := set_regs (<[i := u64 v]> (regs t)) t.
Definition upd_tf (f : trapframe -> trapframe) (e : Env) : Env := set_env_tf (f (env_tf e)) e.
Definition tf0 : trapframe := Trapframe (fun _ => 0) 0 0 0 0 0 0.

(** ** Updates of one environment

    [env_upd k k' e v]: [k'] is [k] with environment [e] set to [v]. *)
Record env_upd (k k' : kernel) (e : Z) (v : Env) : Prop := {
  eu_eq : k' = set_envs (envs k') k;
  eu_env : envs k' e = v;
  eu_others : forall e', e' <> e -> envs k' e' = envs k e'
}.

Lemma env_upd_refl k e : env_upd k k e (envs k e).
Proof. split; [by destruct k|done|done]. Qed.

(** One assignment to a field of [e], after others. *)
Lemma upd_step {B} k0 k e v f (m : unit -> M kernel B) :
  env_upd k0 k e v ->
  exists k', (upd_env e f ≫= m) k = m tt k' /\ env_upd k0 k' e (f v).
Proof.
  intros [He Hv Ho]. eexists. split; [reflexivity|]. split.
  - rewrite He. done.
  - simpl. by rewrite fn_lookup_insert, Hv.
  - intros e' Hne. simpl. rewrite fn_lookup_insert_ne by done. auto.
Qed.

Lemma env_get_bind {A B} e (f : Env -> A) (m : A -> M kernel B) k :
  (env_get e f ≫= m) k = m (f (envs k e)) k.
Proof. done. Qed.

(** Run the assignments to one environment at the head of the program; [H]
    relates the state before them to the current one. *)
Ltac ustep H :=
  let k' := fresh "k'" in let E := fresh "E" in let H' := fresh "H" in
  match goal with
  | |- context [(upd_env ?e ?f ≫= ?m) ?k] =>
      destruct (upd_step _ k e _ f m H) as (k' & E & H'); rewrite E; clear E H; rename H' into H
  end.

(** ** Operations on the memory state *)

Lemma bind_inpm {A B} (m : M pmap A) (f : A -> M kernel B) k a s :
  m (pm k) = Ret a s -> (inpm m ≫= f) k = f a (set_pm s k).
Proof. intros H. apply bind_ret. unfold inpm. by apply zoom_ret. Qed.

Lemma bind_inpm_panic {A B} (m : M pmap A) (f : A -> M kernel B) k s :
  m (pm k) = Panic s -> (inpm m ≫= f) k = Panic (set_pm s k).
Proof. intros H. apply bind_panic. unfold inpm. by apply zoom_panic. Qed.

Lemma set_pm_same k : set_pm (pm k) k = k.
Proof. by destruct k. Qed.

Lemma bind_inpm_get {A B} (g : pmap -> A) (f : A -> M kernel B) k :
  (inpm (get g) ≫= f) k = f (g (pm k)) k.
Proof. rewrite (bind_inpm (get g) f k (g (pm k)) (pm k) eq_refl). by rewrite set_pm_same. Qed.

Lemma bind_inpm_modify {B} g (f : unit -> M kernel B) k :
  (inpm (modify g) ≫= f) k = f tt (set_pm (g (pm k)) k).
Proof. done. Qed.
