(* ===== verification/Env.v ===== *)
(** kern/env.c: address-space identifiers, environment identifiers, and the
    life cycle of environments up to scheduling. *)
From S2P Require Import Prelude Queue Mem Mmu Pmap PageTable PageMap Kmalloc Elf Kernel.

(** ** Address-space identifiers *)

Definition set_asid_word (index v : Z) : M kernel unit :=
  modify (fun k => set_asid_bitmap (<[index := v]> (asid_bitmap k)) k).

(** [inl r]: the error code; [inr asid]: 0, with [asid] stored. *)
Definition asid_alloc : M kernel (Z + Z) :=
  r ← mfor_ret (Z.to_nat NASID) 0 (fun i =>
    let index := Z.shiftr i 5 in
    let inner := Z.land i 31 in
    w ← get (fun k => asid_bitmap k index);
    if Z.land w (Z.shiftl 1 inner) =? 0 then
      set_asid_word index (Z.lor w (Z.shiftl 1 inner)) ;;
      mret (Some i)
    else mret None);
  match r with
  | Some i => mret (inr i)
  | None => mret (inl (- E_NO_FREE_ENV))
  end.

Definition asid_free (asid : Z) : M kernel unit :=
  let index := Z.shiftr asid 5 in
  let inner := Z.land asid 31 in
  w ← get (fun k => asid_bitmap k index);
  set_asid_word index (Z.land w (2 ^ 32 - 1 - Z.shiftl 1 inner)).

(** ** Environment identifiers *)

Definition mkenvid (e : Z) : M kernel Z :=
  modify (fun k => set_mkenvid_i (u32 (mkenvid_i k + 1)) k) ;;
  i ← get mkenvid_i;
  mret (Z.lor (u32 (Z.shiftl i (1 + LOG2NENV))) e).

(** The returned code and, when it is 0, the value stored in [*penv]. *)
Definition envid2env (envid : Z) (checkperm : bool) : M kernel (Z * option Z) :=
  if envid =? 0 then c ← get curenv; mret (0, c)
  else
    let e := ENVX envid in
    st ← env_get e env_status;
    id ← env_get e env_id;
    if (st =? ENV_FREE) || negb (id =? envid) then mret (- E_BAD_ENV, None)
    else if checkperm then
      c ← get curenv;
      match c with
      | None => panic
      | Some c =>
          parent ← env_get e env_parent_id;
          cid ← env_get c env_id;
          if negb (e =? c) && negb (parent =? cid) then mret (- E_BAD_ENV, None)
          else mret (0, Some e)
      end
    else mret (0, Some e).

(** ** Boot *)

(** The counter [i] is a [u_int]: the loop ends for sizes below 2^32. *)
Definition map_segment (pgdir asid pa va size perm : Z) : M pmap unit :=
  assert (pa mod PAGE_SIZE =? 0) ;;
  assert (va mod PAGE_SIZE =? 0) ;;
  assert (size mod PAGE_SIZE =? 0) ;;
  mfor (Z.to_nat (size / PAGE_SIZE)) 0 (fun n =>
    let i := n * PAGE_SIZE in
    let current_pa := u64 (pa + i) in
    let current_va := u64 (va + i) in
    current_pp ← pa2page current_pa;
    _ ← page_insert pgdir asid current_pp current_va perm;
    mret tt).

Definition mem_copy (dst src n : Z) : M pmap unit :=
  modify (fun s => set_mem (copy (mem s) dst src n) s).

Definition env_init : M kernel unit :=
  modify (fun k => set_env_free_list (LIST_INIT (env_free_list k)) k) ;;
  modify (fun k => set_env_sched_list (TAILQ_INIT (env_sched_list k)) k) ;;
  mfor (Z.to_nat NENV) 0 (fun i =>
    let idx := NENV - i - 1 in
    upd_env idx (set_env_status ENV_FREE) ;;
    modify (fun k => set_env_free_list (LIST_INSERT_HEAD idx (env_free_list k)) k)) ;;
  r ← inpm page_alloc;
  match r with
  | inl _ => panic
  | inr p =>
      inpm (modify (pp_ref_inc p)) ;;
      let base := page2kva p in
      modify (set_base_pgdir base) ;;
      kbp ← get kernel_boot_pgdir;
      inpm (mem_copy (ent base (P1X HIGH_ADDR_IMM)) (ent kbp (P1X HIGH_ADDR_IMM))
                     (0x1FF - P1X HIGH_ADDR_IMM + 1)) ;;
      pgs ← get (fun k => pages (pm k));
      n ← get (fun k => npage (pm k));
      ea ← get envs_addr;
      inpm (map_segment base 0 (PADDR pgs) UPAGES (ROUND (n * sizeof_Page) PAGE_SIZE)
              (Z.lor PTE_USER (Z.lor PTE_RO PTE_GLOBAL))) ;;
      inpm (map_segment base 0 (PADDR ea) UENVS (ROUND (NENV * sizeof_Env) PAGE_SIZE)
              (Z.lor PTE_USER (Z.lor PTE_RO PTE_GLOBAL)))
  end.

(** ** Creation *)

Definition env_setup_vm (e : Z) : M kernel Z :=
  r ← inpm page_alloc;
  match r with
  | inl r => mret r
  | inr p =>
      inpm (modify (pp_ref_inc p)) ;;
      upd_env e (set_env_pgdir (page2kva p)) ;;
      pgdir ← env_get e env_pgdir;
      base ← get base_pgdir;
      kbp ← get kernel_boot_pgdir;
      inpm (mem_copy (ent pgdir (P1X UTOP)) (ent base (P1X UTOP)) (8 * (P1X UVPT - P1X UTOP))) ;;
      inpm (mem_copy (ent pgdir (P1X HIGH_ADDR_IMM)) (ent kbp (P1X HIGH_ADDR_IMM))
                     (0x1FF - P1X HIGH_ADDR_IMM + 1)) ;;
      mret 0
  end.

Definition SSTATUS_SPIE : Z := GENMASK 5 5.
Definition SIE_STIE : Z := GENMASK 5 5.
Definition SIE_SEIE : Z := GENMASK 9 9.

(** The returned code and, when it is 0, the environment stored in [*new]. *)
Definition env_alloc (parent_id : Z) : M kernel (Z * option Z) :=
  q ← get env_free_list;
  match LIST_FIRST q with
  | None => mret (- E_NO_FREE_ENV, None)
  | Some e =>
      r ← env_setup_vm e;
      if negb (r =? 0) then mret (r, None)
      else
        upd_env e (set_env_user_tlb_mod_entry 0) ;;
        upd_env e (set_env_runs 0) ;;
        id ← mkenvid e;
        upd_env e (set_env_id id) ;;
        r ← asid_alloc;
        match r with
        | inl r => mret (r, None)
        | inr asid =>
            upd_env e (set_env_asid asid) ;;
            upd_env e (set_env_parent_id parent_id) ;;
            upd_env e (set_env_in_syscall 0) ;;
            upd_env e (set_handler_function_va 0) ;;
            upd_env e (set_env_ipc_recv_from 0) ;;
            upd_env e (upd_tf (set_sstatus SSTATUS_SPIE)) ;;
            upd_env e (upd_tf (set_sie (Z.lor SIE_STIE SIE_SEIE))) ;;
            upd_env e (upd_tf (set_reg 2 (USTACKTOP - 4 - 8))) ;;
            free_op (LIST_REMOVE e) ;;
            mret (0, Some e)
        end
  end.

Definition load_icode_mapper (e va offset perm : Z) (src : option Z) (len : Z) : M kernel Z :=
  r ← inpm page_alloc;
  match r with
  | inl r => mret r
  | inr p =>
      match src with
      | Some src => inpm (mem_copy (page2kva p + offset) src len)
      | None => mret tt
      end ;;
      pgdir ← env_get e env_pgdir;
      asid ← env_get e env_asid;
      inpm (page_insert pgdir asid p va perm)
  end.

Definition load_icode (e binary size : Z) : M kernel unit :=
  m ← get (fun k => mem (pm k));
  match elf_from m binary size with
  | None => panic
  | Some ehdr =>
      let h := read_ehdr m ehdr in
      mfor (Z.to_nat (e_phnum h)) 0 (fun i =>
        let ph_off := u64 (e_phoff h + i * e_phentsize h) in
        ph ← get (fun k => read_phdr (mem (pm k)) (u64 (binary + ph_off)));
        if p_type ph =? PT_LOAD then
          r ← elf_load_seg (load_icode_mapper e) ph (u64 (binary + p_offset ph));
          panic_on r
        else mret tt) ;;
      upd_env e (upd_tf (set_sepc (e_entry h)))
  end.

(** [strcpy] into [env_name]: the name fits its [MAXENVNAME] bytes. *)
Definition env_create (name : list Z) (binary size priority : Z) : M kernel (option Z) :=
  '(r, e) ← env_alloc 0;
  if r <? 0 then mret None
  else
    e ← deref e;
    upd_env e (set_env_pri priority) ;;
    upd_env e (set_env_status ENV_RUNNABLE) ;;
    upd_env e (set_env_name name) ;;
    load_icode e binary size ;;
    modify (fun k => set_env_sched_list (TAILQ_INSERT_HEAD e (env_sched_list k)) k) ;;
    mret (Some e).

(** ** Destruction *)

(** The third-level table at [p3], whose entries map [va] upwards. *)
Definition free_p3 (e p3 p1no p2no : Z) : M kernel unit :=
  mfor (Z.to_nat (P3X (2 ^ 64 - 1) + 1)) 0 (fun p3no =>
    p3e ← inpm (read_pte (ent p3 p3no));
    if negb (pte_valid p3e) then mret tt
    else
      pgdir ← env_get e env_pgdir;
      asid ← env_get e env_asid;
      inpm (page_remove pgdir asid
        (Z.lor (Z.lor (Z.shiftl p1no P1SHIFT) (Z.shiftl p2no P2SHIFT)) (Z.shiftl p3no P3SHIFT)))).

Definition free_p2 (e p2 p1no : Z) : M kernel unit :=
  mfor (Z.to_nat (P2X (2 ^ 64 - 1) + 1)) 0 (fun p2no =>
    let p2_entry := ent p2 p2no in
    p2e ← inpm (read_pte p2_entry);
    if negb (pte_valid p2e) then mret tt
    else if negb (PTE_IS_NON_LEAF p2e) then panic
    else
      let p2pa := PTE_ADDR p2e in
      free_p3 e (P2KADDR p2pa) p1no p2no ;;
      inpm (write_pte p2_entry 0) ;;
      inpm (pp ← pa2page p2pa; page_decref pp)).

Definition env_free (e : Z) : M kernel unit :=
  mfor (Z.to_nat (P1X UTOP)) 0 (fun p1no =>
    pgdir ← env_get e env_pgdir;
    let p1_entry := ent pgdir p1no in
    p1e ← inpm (read_pte p1_entry);
    if negb (pte_valid p1e) then mret tt
    else if negb (PTE_IS_NON_LEAF p1e) then panic
    else
      let p1pa := PTE_ADDR p1e in
      free_p2 e (P2KADDR p1pa) p1no ;;
      inpm (write_pte p1_entry 0) ;;
      inpm (pp ← pa2page p1pa; page_decref pp)) ;;
  pgdir ← env_get e env_pgdir;
  inpm (pp ← pa2page (PADDR pgdir); page_decref pp) ;;
  asid ← env_get e env_asid;
  asid_free asid ;;
  inpm (tlb_flush_asid asid) ;;
  upd_env e (set_env_status ENV_FREE) ;;
  modify (fun k => set_env_free_list (LIST_INSERT_HEAD e (env_free_list k)) k) ;;
  sched_op (TAILQ_REMOVE e).

(** ** Running *)

(** [env_pop_tf] restores the registers from [env_tf], installs the ASID and the
    page table in [satp] and returns to user mode: the run ends in [Resume]. *)
Definition env_run {A} (e : Z) : M kernel A :=
  st ← env_get e env_status;
  assert (st =? ENV_RUNNABLE) ;;
  c ← get curenv;
  match c with
  | Some c => t ← get ktf; upd_env c (set_env_tf t)
  | None => mret tt
  end ;;
  modify (set_curenv (Some e)) ;;
  upd_env e (fun v => set_env_runs (u64 (env_runs v + 1)) v) ;;
  pgdir ← env_get e env_pgdir;
  modify (set_cur_pgdir pgdir) ;;
  resume e.

(** ** Kernel mappings (kern/pmap.c) *)

Definition kmap (va pa len perm : Z) : M kernel unit :=
  kbp ← get kernel_boot_pgdir;
  inpm (map_mem kbp va pa len perm) ;;
  mfor (Z.to_nat NENV) 0 (fun i =>
    st ← env_get i env_status;
    if negb (st =? ENV_FREE) then
      pgdir ← env_get i env_pgdir;
      inpm (map_mem pgdir va pa len perm)
    else mret tt).

Definition kunmap (va len : Z) : M kernel unit :=
  kbp ← get kernel_boot_pgdir;
  inpm (unmap_mem kbp va len) ;;
  mfor (Z.to_nat NENV) 0 (fun i =>
    st ← env_get i env_status;
    if negb (st =? ENV_FREE) then
      pgdir ← env_get i env_pgdir;
      inpm (unmap_mem pgdir va len)
    else mret tt).

(** ** Lemmas: address-space identifiers *)

Definition asid_used (k : kernel) (i : Z) : bool :=
  Z.testbit (asid_bitmap k (Z.shiftr i 5)) (Z.land i 31).

Definition asid_wf (k : kernel) : Prop := forall w, 0 <= asid_bitmap k w < 2 ^ 32.

Lemma asid_index i : 0 <= i -> Z.shiftr i 5 = i / 32 /\ Z.land i 31 = i mod 32.
Proof. intros Hi. split; [by apply Z.shiftr_div_pow2|by apply (land_ones' i 5)]. Qed.

Definition asid_mark (i : Z) (k : kernel) : kernel :=
  set_asid_bitmap (<[Z.shiftr i 5 := Z.lor (asid_bitmap k (Z.shiftr i 5)) (Z.shiftl 1 (Z.land i 31))]>
    (asid_bitmap k)) k.

Lemma asid_mark_used i j k : 0 <= i -> 0 <= j ->
  asid_used (asid_mark i k) j = (i =? j) || asid_used k j.
Proof.
  intros Hi Hj. unfold asid_used, asid_mark. simpl.
  destruct (asid_index i Hi) as [-> ->], (asid_index j Hj) as [-> ->].
  pose proof (Z.mod_pos_bound i 32 ltac:(lia)). pose proof (Z.mod_pos_bound j 32 ltac:(lia)).
  destruct (decide (i / 32 = j / 32)) as [E|E].
  - rewrite E, fn_lookup_insert, set_bit_spec by lia. f_equal. by apply mod_eqb.
  - rewrite fn_lookup_insert_ne by done. destruct (Z.eqb_spec i j); [congruence|done].
Qed.

Lemma asid_mark_wf i k : 0 <= i -> asid_wf k -> asid_wf (asid_mark i k).
Proof.
  intros Hi Hk w. unfold asid_mark. simpl. destruct (asid_index i Hi) as [-> ->].
  destruct (decide (i / 32 = w)) as [<-|]; [|by rewrite fn_lookup_insert_ne].
  rewrite fn_lookup_insert. apply lor_bound; [done|apply Hk|].
  rewrite Z.shiftl_1_l. split; [by apply Z.pow_nonneg|]. apply Z.pow_lt_mono_r; try lia.
  exact (proj2 (Z.mod_pos_bound i 32 ltac:(lia))).
Qed.

(** The search loop of [asid_alloc] finds the least free identifier. *)
Lemma asid_search k n : forall lo, 0 <= lo ->
  (exists i, lo <= i < lo + Z.of_nat n /\ asid_used k i = false /\
     (forall j, lo <= j < i -> asid_used k j = true) /\
     mfor_ret n lo (fun i =>
       w ← get (fun k => asid_bitmap k (Z.shiftr i 5));
       if Z.land w (Z.shiftl 1 (Z.land i 31)) =? 0 then
         set_asid_word (Z.shiftr i 5) (Z.lor w (Z.shiftl 1 (Z.land i 31))) ;;
         mret (Some i)
       else mret None) k = Ret (Some i) (asid_mark i k)) \/
  ((forall j, lo <= j < lo + Z.of_nat n -> asid_used k j = true) /\
     mfor_ret n lo (fun i =>
       w ← get (fun k => asid_bitmap k (Z.shiftr i 5));
       if Z.land w (Z.shiftl 1 (Z.land i 31)) =? 0 then
         set_asid_word (Z.shiftr i 5) (Z.lor w (Z.shiftl 1 (Z.land i 31))) ;;
         mret (Some i)
       else mret None) k = Ret None k).
Proof.
  induction n as [|n IH]; intros lo Hlo; [right; split; [lia|done]|].
  simpl mfor_ret. rewrite !bind_assoc, !bind_get.
  pose proof (asid_index lo Hlo) as [_ Hm]. pose proof (Z.mod_pos_bound lo 32 ltac:(lia)).
  rewrite land_bit by lia. fold (asid_used k lo).
  destruct (asid_used k lo) eqn:E; simpl.
  - rewrite bind_mret. destruct (IH (lo + 1)) as [(i & Hi & Hu & Hl & Hr)|[Hl Hr]]; [lia|left|right].
    + exists i. split_and!; [lia|lia|done| |done].
      intros j Hj. destruct (decide (j = lo)) as [->|]; [done|]. apply Hl. lia.
    + split; [|done]. intros j Hj. destruct (decide (j = lo)) as [->|]; [done|]. apply Hl. lia.
  - left. exists lo. split_and!; [lia|lia|done|lia|done].
Qed.

Lemma asid_alloc_ok k :
  (exists i, 0 <= i < NASID /\ asid_used k i = false /\
     (forall j, 0 <= j < i -> asid_used k j = true) /\
     asid_alloc k = Ret (inr i) (asid_mark i k)) \/
  ((forall j, 0 <= j < NASID -> asid_used k j = true) /\
     asid_alloc k = Ret (inl (- E_NO_FREE_ENV)) k).
Proof.
  unfold asid_alloc. cbv zeta. destruct (asid_search k (Z.to_nat NASID) 0) as [(i & Hi & Hu & Hl & Hr)|[Hl Hr]];
    [lia|left|right].
  - exists i. mrun Hr. done.
  - mrun Hr. done.
Qed.

Lemma asid_free_ok k i : asid_wf k -> 0 <= i < NASID ->
  exists k', asid_free i k = Ret tt k' /\ asid_wf k' /\
    (forall j, 0 <= j -> asid_used k' j = negb (i =? j) && asid_used k j).
Proof.
  intros Hwf Hi. eexists. split; [done|].
  destruct (asid_index i) as [E1 E2]; [lia|]. rewrite E1, E2.
  pose proof (Z.mod_pos_bound i 32 ltac:(lia)). split.
  - intros w. simpl. destruct (decide (i / 32 = w)) as [<-|]; [|by rewrite fn_lookup_insert_ne].
    rewrite fn_lookup_insert. by apply land_bound.
  - intros j Hj. unfold asid_used. simpl. destruct (asid_index j Hj) as [-> ->].
    pose proof (Z.mod_pos_bound j 32 ltac:(lia)).
    destruct (decide (i / 32 = j / 32)) as [E|E].
    + rewrite E, fn_lookup_insert. rewrite (clear_bit_spec _ 32) by (apply Hwf || lia). by rewrite mod_eqb.
    + rewrite fn_lookup_insert_ne by done. destruct (Z.eqb_spec i j); [congruence|done].
Qed.

(** ** Lemmas: environment identifiers *)

Definition envid_of (i e : Z) : Z := (i mod 2 ^ 21) * 2048 + e.

Lemma mkenvid_eq e k : 0 <= e < NENV ->
  mkenvid e k = Ret (envid_of (u32 (mkenvid_i k + 1)) e) (set_mkenvid_i (u32 (mkenvid_i k + 1)) k).
Proof.
  intros He. unfold mkenvid. rewrite bind_modify, bind_get. simpl mkenvid_i.
  set (i := u32 (mkenvid_i k + 1)). change (1 + LOG2NENV) with 11.
  assert (u32 (Z.shiftl i 11) = Z.shiftl (i mod 2 ^ 21) 11) as ->.
  { unfold u32. rewrite !Z.shiftl_mul_pow2 by done. change (2 ^ 32) with (2 ^ 21 * 2 ^ 11).
    by rewrite Z.mul_mod_distr_r. }
  rewrite lor_shiftl; [done|done|]. change NENV with 1024 in He. lia.
Qed.

Lemma ENVX_eq id : ENVX id = id mod 1024.
Proof. by apply (land_ones' id 10). Qed.

Lemma ENVX_of i e : 0 <= e < NENV -> ENVX (envid_of i e) = e.
Proof.
  intros He. rewrite ENVX_eq. change NENV with 1024 in He. unfold envid_of.
  replace (i mod 2 ^ 21 * 2048 + e) with (e + (i mod 2 ^ 21 * 2) * 1024) by lia.
  rewrite Z.mod_add by lia. apply Z.mod_small. lia.
Qed.

Lemma envid_of_inj i i' e e' : 0 <= e < NENV -> 0 <= e' < NENV ->
  envid_of i e = envid_of i' e' -> i mod 2 ^ 21 = i' mod 2 ^ 21 /\ e = e'.
Proof. change NENV with 1024. unfold envid_of. lia. Qed.

(** The environments that are in use carry an identifier that leads back to
    them. *)
Definition envs_ok (k : kernel) : Prop :=
  forall e, 0 <= e < NENV -> env_status (envs k e) <> ENV_FREE ->
    ENVX (env_id (envs k e)) = e /\ env_id (envs k e) <> 0.

(** The permission check of [envid2env]. *)
Definition may_access (k : kernel) (c e : Z) : Prop :=
  e = c \/ env_parent_id (envs k e) = env_id (envs k c).

#[global] Instance may_access_dec k c e : Decision (may_access k c e).
Proof. unfold may_access. apply _. Defined.

Definition envid_target (k : kernel) (envid : Z) : option Z :=
  let e := ENVX envid in
  if decide (env_status (envs k e) <> ENV_FREE /\ env_id (envs k e) = envid) then Some e else None.

Lemma envid2env_eq envid check k : envid <> 0 ->
  envid2env envid check k =
    match envid_target k envid with
    | None => Ret (- E_BAD_ENV, None) k
    | Some e =>
        if check then
          match curenv k with
          | None => Panic k
          | Some c => Ret (if decide (may_access k c e) then (0, Some e) else (- E_BAD_ENV, None)) k
          end
        else Ret (0, Some e) k
    end.
Proof.
  intros H0. unfold envid2env, envid_target, env_get.
  destruct (Z.eqb_spec envid 0); [done|]. rewrite !bind_get.
  destruct (Z.eqb_spec (env_status (envs k (ENVX envid))) ENV_FREE); simpl.
  { rewrite decide_False by naive_solver. done. }
  destruct (Z.eqb_spec (env_id (envs k (ENVX envid))) envid); simpl; last first.
  { rewrite decide_False by naive_solver. done. }
  rewrite decide_True by done. destruct check; [|done].
  rewrite bind_get. destruct (curenv k) as [c|]; [|done]. rewrite !bind_get.
  destruct (Z.eqb_spec (ENVX envid) c); simpl.
  { rewrite decide_True by (by left). done. }
  destruct (Z.eqb_spec (env_parent_id (envs k (ENVX envid))) (env_id (envs k c))); simpl.
  - rewrite decide_True by (by right). done.
  - rewrite decide_False by (unfold may_access; naive_solver). done.
Qed.

Lemma envid_target_self k e : envs_ok k -> 0 <= e < NENV ->
  env_status (envs k e) <> ENV_FREE -> envid_target k (env_id (envs k e)) = Some e.
Proof.
  intros Hk He Hs. destruct (Hk e He Hs) as [Hx _]. unfold envid_target. rewrite Hx.
  by rewrite decide_True.
Qed.

(** ** Lemmas: creation *)

(** The entries of a new page directory: empty below [UTOP], the kernel's
    read-only windows above it, and the part of the boot directory that
    [env_setup_vm] copies. *)
Definition boot_copied : Z := (0x1FF - P1X HIGH_ADDR_IMM + 1) / 8.

Record new_pgdir (m m' : memory) (base kbp p : Z) : Prop := {
  np_user : forall i, 0 <= i < P1X UTOP -> pte m' p i = 0;
  np_window : forall i, P1X UTOP <= i < P1X UVPT -> pte m' p i = load64 m (ent base i);
  np_boot : forall i, P1X HIGH_ADDR_IMM <= i < P1X HIGH_ADDR_IMM + boot_copied ->
    pte m' p i = load64 m (ent kbp i);
  np_rest : forall x, in_dram x -> x <> p -> page_eq m m' x
}.

(** A page directory lies in a page of main memory other than [p]. *)
Definition dir_page (a p : Z) : Prop := exists b, a = page2kva b /\ in_dram b /\ b <> p.

Lemma P1X_values : P1X UTOP = 249 /\ P1X UVPT = 251 /\ P1X HIGH_ADDR_IMM = 256 /\ boot_copied = 32.
Proof. by vm_compute. Qed.

Lemma copy_page_eq m p x o n src : in_dram p -> in_dram x -> x <> p -> 0 <= o -> o + n <= PAGE_SIZE ->
  page_eq m (copy m (page2kva p + o) src n) x.
Proof.
  intros Hp Hx Hne Ho Hn y Hy. rewrite !page2kva_eq by done. unfold copy.
  unfold PAGE_SIZE, in_dram in *. repeat zcase; simpl; try done; lia.
Qed.

Lemma setup_vm_mem m base kbp p : in_dram p -> dir_page base p -> dir_page kbp p ->
  let m1 := fill m (page2kva p) PAGE_SIZE 0 in
  let m2 := copy m1 (ent (page2kva p) (P1X UTOP)) (ent base (P1X UTOP)) (8 * (P1X UVPT - P1X UTOP)) in
  let m3 := copy m2 (ent (page2kva p) (P1X HIGH_ADDR_IMM)) (ent kbp (P1X HIGH_ADDR_IMM))
              (0x1FF - P1X HIGH_ADDR_IMM + 1) in
  new_pgdir m m3 base kbp p.
Proof.
  intros Hp (b & -> & Hb & Hbp) (kb & -> & Hkb & Hkbp) m1 m2 m3.
  destruct P1X_values as (E1 & E2 & E3 & E4).
  assert (forall x, in_dram x -> x <> p -> page_eq m m1 x) as F1 by (intros; by apply fill_page_eq).
  assert (forall x, in_dram x -> x <> p -> page_eq m m2 x) as F2.
  { intros x Hx Hne. eapply page_eq_trans; [by apply F1|]. unfold m2. rewrite E1, E2.
    apply copy_page_eq; try done; unfold PAGE_SIZE; lia. }
  assert (forall x, in_dram x -> x <> p -> page_eq m m3 x) as F3.
  { intros x Hx Hne. eapply page_eq_trans; [by apply F2|]. unfold m3. rewrite E3.
    apply copy_page_eq; try done; unfold PAGE_SIZE; lia. }
  split; [| | |done]; intros i Hi; unfold pte.
  - unfold m3, m2. rewrite E1, E2, E3 in *. rewrite !load_copy_other.
    + apply pte_fill_eq. unfold idx. lia.
    + unfold disjoint_range, ent. lia.
    + unfold disjoint_range, ent. lia.
  - unfold m3, m2. rewrite E1, E2, E3 in *. rewrite load_copy_other, load_copy_in.
    + replace (ent (page2kva b) 249 + (ent (page2kva p) i - ent (page2kva p) 249))
        with (ent (page2kva b) i) by (unfold ent; lia).
      apply page_eq_pte; [unfold idx; lia|]. by apply F1.
    + unfold ent. lia.
    + unfold ent. lia.
    + unfold disjoint_range, ent. lia.
  - unfold m3. rewrite E3, E4 in *. rewrite load_copy_in.
    + replace (ent (page2kva kb) 256 + (ent (page2kva p) i - ent (page2kva p) 256))
        with (ent (page2kva kb) i) by (unfold ent; lia).
      apply page_eq_pte; [unfold idx; lia|]. by apply F2.
    + unfold ent. lia.
    + unfold ent. lia.
Qed.

(** What [env_setup_vm] does when a page is free. *)
Lemma env_setup_vm_ok e k p l :
  pm_wf (pm k) (p :: l) -> dir_page (base_pgdir k) p -> dir_page (kernel_boot_pgdir k) p ->
  exists s, env_setup_vm e k = Ret 0 (set_pm s (set_envs
      (<[e := set_env_pgdir (page2kva p) (envs k e)]> (envs k)) k)) /\
    pm_wf s l /\ new_pgdir (mem (pm k)) (mem s) (base_pgdir k) (kernel_boot_pgdir k) p /\
    pp_ref s = <[p := 1]> (pp_ref (pm k)) /\ tlb s = tlb (pm k) /\ same_boot (pm k) s.
Proof.
  intros Hwf Hb Hk. destruct (page_alloc_some _ _ _ Hwf) as (s1 & E & Hwf1 & Em & Er & Et & Eb).
  pose proof (wf_in _ _ Hwf p ltac:(set_solver)) as [Hp Hp0].
  pose proof (wf_npage _ _ Hwf) as Hn.
  pose proof (list_rep_nodup _ _ (wf_free _ _ Hwf)) as [Hpl _]%NoDup_cons.
  unfold env_setup_vm, inpm, upd_env, env_get, mem_copy.
  mrun (zoom_ret pm set_pm _ k _ _ E).
  unfold zoom. cbn -[copy ent P1X page2kva pp_ref_inc HIGH_ADDR_IMM UTOP UVPT].
  unfold mbind, M_bind, modify, get, mret, M_ret.
  cbn -[copy ent P1X page2kva HIGH_ADDR_IMM UTOP UVPT Z.add Z.sub Z.mul u16].
  rewrite fn_lookup_insert. cbn -[copy ent P1X page2kva HIGH_ADDR_IMM UTOP UVPT Z.add Z.sub Z.mul u16].
  eexists. split; [reflexivity|].
  assert (pp_ref_inc p s1 = pp_ref_set p 1 s1) as -> by (unfold pp_ref_inc; by rewrite Er, Hp0).
  split; [|split; [|split_and!]].
  - do 2 apply pm_wf_mem. by apply pm_wf_ref_set.
  - simpl mem. rewrite Em. apply setup_vm_mem; [unfold in_dram; lia|done|done].
  - simpl. by rewrite Er.
  - done.
  - done.
Qed.

(** The fields that [env_alloc] sets; [env_ipc_recving], [env_status] and
    [env_pri] keep the values of the slot's last use. *)
Definition alloced_env (pgdir id asid parent : Z) (v : Env) : Env :=
  upd_tf (set_reg 2 (USTACKTOP - 4 - 8)) (upd_tf (set_sie (Z.lor SIE_STIE SIE_SEIE))
    (upd_tf (set_sstatus SSTATUS_SPIE) (set_env_ipc_recv_from 0 (set_handler_function_va 0
      (set_env_in_syscall 0 (set_env_parent_id parent (set_env_asid asid (set_env_id id
        (set_env_runs 0 (set_env_user_tlb_mod_entry 0 (set_env_pgdir pgdir v))))))))))).

(** The state after a successful [env_alloc] of slot [e]. *)
Record env_alloced (k k' : kernel) (parent e p asid : Z) (fl l : list Z) : Prop := {
  ea_env : envs k' e = alloced_env (page2kva p) (envid_of (u32 (mkenvid_i k + 1)) e) asid parent (envs k e);
  ea_others : forall e', e' <> e -> envs k' e' = envs k e';
  ea_counter : mkenvid_i k' = u32 (mkenvid_i k + 1);
  ea_asid : 0 <= asid < NASID /\ asid_used k asid = false /\
    (forall j, 0 <= j -> asid_used k' j = (asid =? j) || asid_used k j);
  ea_list : list_rep (env_free_list k') fl;
  ea_wf : pm_wf (pm k') l;
  ea_dir : new_pgdir (mem (pm k)) (mem (pm k')) (base_pgdir k) (kernel_boot_pgdir k) p;
  ea_ref : pp_ref (pm k') = <[p := 1]> (pp_ref (pm k));
  ea_sched : env_sched_list k' = env_sched_list k /\ curenv k' = curenv k
}.

(** The state after it failed for want of an address-space identifier: the
    slot is still free, but the page directory has been allocated. *)
Record env_alloc_leaked (k k' : kernel) (e p : Z) (fl l : list Z) : Prop := {
  el_list : list_rep (env_free_list k') (e :: fl);
  el_wf : pm_wf (pm k') l;
  el_ref : pp_ref (pm k') = <[p := 1]> (pp_ref (pm k));
  el_status : env_status (envs k' e) = env_status (envs k e);
  el_others : forall e', e' <> e -> envs k' e' = envs k e'
}.

Lemma env_alloc_no_env parent k : list_rep (env_free_list k) [] ->
  env_alloc parent k = Ret (- E_NO_FREE_ENV, None) k.
Proof.
  intros Hl. unfold env_alloc. rewrite bind_get. by rewrite (list_rep_first _ _ Hl).
Qed.

Lemma env_alloc_no_mem parent k e fl : list_rep (env_free_list k) (e :: fl) ->
  pm_wf (pm k) [] -> env_alloc parent k = Ret (- E_NO_MEM, None) k.
Proof.
  intros Hl Hwf. unfold env_alloc. rewrite bind_get, (list_rep_first _ _ Hl). simpl.
  assert (env_setup_vm e k = Ret (- E_NO_MEM) k) as E; [|by mrun E].
  unfold env_setup_vm, inpm. mrun (zoom_ret pm set_pm _ k _ _ (page_alloc_none _ Hwf)).
  by destruct k.
Qed.

Lemma env_alloc_ok parent k e fl p l :
  list_rep (env_free_list k) (e :: fl) -> 0 <= e < NENV -> pm_wf (pm k) (p :: l) ->
  dir_page (base_pgdir k) p -> dir_page (kernel_boot_pgdir k) p ->
  exists r k', env_alloc parent k = Ret r k' /\
    ((exists asid, r = (0, Some e) /\ env_alloced k k' parent e p asid fl l) \/
     (r = (- E_NO_FREE_ENV, None) /\ (forall j, 0 <= j < NASID -> asid_used k j = true) /\
      env_alloc_leaked k k' e p fl l)).
Proof.
  intros Hl He Hwf Hb Hk.
  destruct (env_setup_vm_ok e k p l Hwf Hb Hk) as (s & Es & Hwf' & Hdir & Hr & Ht & Hbt).
  unfold env_alloc. rewrite bind_get.
  assert (LIST_FIRST (env_free_list k) = Some e) as -> by apply (list_rep_first _ _ Hl).
  mrun Es. change (negb (0 =? 0)) with false. cbv iota.
  set (k0 := set_pm s (set_envs _ k)).
  assert (env_upd (set_pm s k) k0 e (set_env_pgdir (page2kva p) (envs k e))) as Hu.
  { split; [done|by simpl; rewrite fn_lookup_insert|]. intros. simpl. by rewrite fn_lookup_insert_ne. }
  clearbody k0. do 2 ustep Hu. rewrite (bind_ret _ _ _ _ _ (mkenvid_eq e _ He)).
  destruct Hu as [Hk0 Hv Ho]. set (k2 := k'0) in *. clearbody k2. clear k' k'0.
  set (i := u32 (mkenvid_i k2 + 1)).
  assert (i = u32 (mkenvid_i k + 1)) as Hi by (unfold i; by rewrite Hk0).
  assert (env_upd (set_mkenvid_i i (set_pm s k)) (set_mkenvid_i i k2) e (envs k2 e)) as Hu.
  { split; [by rewrite Hk0 at 1|done|]. intros. simpl. by rewrite Ho. }
  rewrite Hv in Hu. ustep Hu.
  set (k3 := k') in *. clearbody k3. clear k'. set (kb := set_mkenvid_i i (set_pm s k)) in *.
  assert (forall j, asid_used k3 j = asid_used k j) as Hasid
    by (intros j; unfold asid_used; by rewrite (eu_eq _ _ _ _ Hu)).
  assert (env_free_list k3 = env_free_list k /\ pm k3 = s) as [Hfl Hpm]
    by by rewrite (eu_eq _ _ _ _ Hu).
  destruct (asid_alloc_ok k3) as [(asid & Ha & Hused & _ & E3)|[Hused E3]]; mrun E3.
  - assert (env_upd (asid_mark asid kb) (asid_mark asid k3) e (envs k3 e)) as Hu'.
    { destruct Hu as [Hq _ Ho']. split; [by rewrite Hq|done|exact Ho']. }
    rewrite (eu_env _ _ _ _ Hu) in Hu'. clear Hu.
    assert (forall j, 0 <= j -> asid_used (asid_mark asid kb) j = (asid =? j) || asid_used k j) as Hmark.
    { intros j Hj. refine (asid_mark_used asid j kb _ Hj). lia. }
    set (ka := asid_mark asid kb) in *.
    assert (env_free_list ka = env_free_list k /\ pm ka = s /\ mkenvid_i ka = i /\
      env_sched_list ka = env_sched_list k /\ curenv ka = curenv k /\ envs ka = envs k) as Hka by done.
    clearbody ka. do 8 ustep Hu'.
    set (k4 := k'6) in *. clearbody k4. clear k' k'0 k'1 k'2 k'3 k'4 k'5 k'6.
    destruct Hka as (F1 & F2 & F3 & F4 & F5 & F6). destruct Hu' as [Hq4 Hv4 Ho4].
    unfold free_op. rewrite bind_assoc, bind_get.
    destruct (list_rep_pop _ _ _ Hl) as (q' & Hq & Hq').
    assert (env_free_list k4 = env_free_list k) as -> by by rewrite Hq4, <- F1.
    rewrite Hq, bind_modify. eexists _, _. split; [reflexivity|]. left. exists asid. split; [done|].
    assert (pm k4 = s) as Hpm4 by by rewrite Hq4, <- F2.
    split; try exact Hq'; simpl.
    + rewrite Hv4, <- Hi. reflexivity.
    + intros e' Hne. by rewrite Ho4, F6.
    + by rewrite Hq4, <- Hi.
    + split_and!; [lia|lia|by rewrite <- Hasid|]. intros j Hj. rewrite <- Hmark by done.
      by rewrite Hq4.
    + by rewrite Hpm4.
    + by rewrite Hpm4.
    + by rewrite Hpm4.
    + by rewrite Hq4.
  - eexists _, _. split; [reflexivity|]. right. split; [done|].
    split; [intros; rewrite <- Hasid; auto|]. split; rewrite ?Hpm; try done.
    + by rewrite Hfl.
    + by rewrite (eu_env _ _ _ _ Hu).
    + intros e' Hne. by rewrite (eu_others _ _ _ _ Hu).
Qed.

(** ** A concrete kernel

    Environments 0 and 1 are free, page 8 is the boot directory and page 9 the
    base directory. *)
Definition env0 : Env := MkEnv tf0 0 0 0 ENV_FREE 0 0 0 0 0 0 0 0 0 0 0 0 [].
Definition kdemo : kernel :=
  Kernel demo (fun _ => env0) None
    (LIST_INSERT_HEAD 0 (LIST_INSERT_HEAD 1 (Lst None (fun _ => lnk0)))) tailq0
    (page2kva 9) 0 (fun _ => 0) 0 0 tf0 (fun _ => 0)
    heap0 (fun _ => 0) [] 0 0 0 None 0 0 (fun _ => None) (fun _ => None) 0 [] (fun _ _ _ => 0)
    (page2kva 8) 0 (BASE_ADDR_IMM + 0x100000) 0 0.

Lemma kdemo_free : list_rep (env_free_list kdemo) [0; 1].
Proof.
  simpl. repeat apply list_rep_insert_head; try set_solver by lia.
  apply (list_rep_init (Lst None (fun _ => lnk0))).
Qed.

(** ** The properties *)

(** Address-space identifiers: [asid_alloc] returns the least identifier
    that is not in use and marks exactly it, failing only when all of them are
    in use; [asid_free] releases exactly its argument. *)
Theorem asid_correct k :
  asid_wf k ->
  ((exists i k', asid_alloc k = Ret (inr i) k' /\ 0 <= i < NASID /\ asid_used k i = false /\
      (forall j, 0 <= j < i -> asid_used k j = true) /\ asid_wf k' /\
      forall j, 0 <= j -> asid_used k' j = (i =? j) || asid_used k j) \/
   (asid_alloc k = Ret (inl (- E_NO_FREE_ENV)) k /\
    forall j, 0 <= j < NASID -> asid_used k j = true)) /\
  (forall i, 0 <= i < NASID -> exists k', asid_free i k = Ret tt k' /\ asid_wf k' /\
     forall j, 0 <= j -> asid_used k' j = negb (i =? j) && asid_used k j).
Proof.
  intros Hwf. split.
  - destruct (asid_alloc_ok k) as [(i & Hi & Hu & Hl & E)|[Hu E]]; [left|by right].
    exists i, (asid_mark i k). split_and!; try done; try lia.
    + apply asid_mark_wf; [lia|done].
    + intros j Hj. apply asid_mark_used; lia.
  - intros i. by apply asid_free_ok.
Qed.

Lemma asid_correct_witness :
  asid_wf kdemo /\ exists k', asid_free 5 kdemo = Ret tt k' /\ asid_wf k' /\
     forall j, 0 <= j -> asid_used k' j = negb (5 =? j) && asid_used kdemo j.
Proof.
  assert (asid_wf kdemo) as Hwf by (intros w; simpl; lia).
  split; [exact Hwf|]. apply (asid_correct kdemo Hwf). unfold NASID. lia.
Defined.

(** Environment identifiers: [mkenvid] of slot [e] leads back to [e]
    through [ENVX], and the identifiers of any two calls less than 2^21 calls
    apart differ, whatever the slots. *)
Theorem mkenvid_correct k e e' k' n :
  0 <= e < NENV -> 0 <= e' < NENV -> 0 < n < 2 ^ 21 ->
  mkenvid_i k' = u32 (mkenvid_i k + n) ->
  exists id id', mkenvid e k = Ret id (set_mkenvid_i (u32 (mkenvid_i k + 1)) k) /\
    mkenvid e' k' = Ret id' (set_mkenvid_i (u32 (mkenvid_i k' + 1)) k') /\
    ENVX id = e /\ ENVX id' = e' /\ id <> id'.
Proof.
  intros He He' Hn Hk. do 2 eexists. split; [by apply mkenvid_eq|]. split; [by apply mkenvid_eq|].
  rewrite !ENVX_of by done. split_and!; [done..|].
  intros [H _]%envid_of_inj; [|done|done]. revert H. rewrite Hk. unfold u32.
  rewrite !(mod_mod_pow2 _ 21 32) by lia. rewrite <- (Z.add_mod_idemp_l ((_ + n) mod _)) by lia.
  rewrite !(mod_mod_pow2 _ 21 32) by lia. rewrite Z.add_mod_idemp_l by lia. intros H.
  assert ((n mod 2 ^ 21) = 0) as H0.
  { replace n with ((mkenvid_i k + n + 1) - (mkenvid_i k + 1)) by lia.
    rewrite Zminus_mod, <- H, Z.sub_diag. done. }
  rewrite Z.mod_small in H0; lia.
Qed.

Lemma mkenvid_correct_witness :
  exists id id', mkenvid 7 kdemo = Ret id (set_mkenvid_i 1 kdemo) /\
    mkenvid 7 (set_mkenvid_i 1 kdemo) = Ret id' (set_mkenvid_i 2 (set_mkenvid_i 1 kdemo)) /\
    ENVX id = 7 /\ ENVX id' = 7 /\ id <> id'.
Proof.
  apply (mkenvid_correct kdemo 7 7 (set_mkenvid_i 1 kdemo) 1).
  - split; vm_compute; [discriminate|reflexivity].
  - split; vm_compute; [discriminate|reflexivity].
  - lia.
  - reflexivity.
Defined.

(** C12: [envid2env] on every branch: identifier 0 is the caller; any other
    identifier resolves to the slot in use that carries it, provided the caller
    is the target or its parent when permission is checked; everything else is
    [-E_BAD_ENV]; checking without a current environment panics.  When the
    identifiers of the environments in use lead back to their slots, each of
    them is found. *)
Theorem envid2env_correct k :
  (forall check, envid2env 0 check k = Ret (0, curenv k) k) /\
  (forall envid check, envid <> 0 ->
     envid2env envid check k =
       match envid_target k envid with
       | None => Ret (- E_BAD_ENV, None) k
       | Some e =>
           if check then
             match curenv k with
             | None => Panic k
             | Some c => Ret (if decide (may_access k c e) then (0, Some e) else (- E_BAD_ENV, None)) k
             end
           else Ret (0, Some e) k
       end) /\
  (envs_ok k -> forall e, 0 <= e < NENV -> env_status (envs k e) <> ENV_FREE ->
     envid2env (env_id (envs k e)) false k = Ret (0, Some e) k).
Proof.
  split_and!; [done| |].
  - intros envid check. apply envid2env_eq.
  - intros Hk e He Hs. rewrite envid2env_eq by by apply Hk. by rewrite envid_target_self.
Qed.

Lemma envid2env_correct_witness :
  let k := set_envs (<[1 := set_env_id 2049 (set_env_status ENV_RUNNABLE env0)]> (fun _ => env0)) kdemo in
  envid2env 2049 false k = Ret (0, Some 1) k.
Proof.
  intros k. destruct (envid2env_correct k) as (_ & _ & H). apply (H) with (e := 1).
  - intros e He. simpl. destruct (decide (1 = e)) as [<-|Hne].
    + intros _. rewrite fn_lookup_insert. split; [reflexivity|discriminate].
    + rewrite fn_lookup_insert_ne by exact Hne. intros Hs. by destruct Hs.
  - split; vm_compute; [discriminate|reflexivity].
  - discriminate.
Defined.


