(* ===== verification/Sched.v ===== *)
(** kern/sched.c: the scheduler, and [env_destroy] of kern/env.c, which ends
    in it.  [do_clock] of kern/traps.c is the timer interrupt. *)
From S2P Require Import Prelude Queue Mem Mmu Pmap PageTable PageMap Elf Kernel Env.

Definition schedule {A} (yield : bool) : M kernel A :=
  e ← get curenv;
  count ← get sched_count;
  runnable ← get (fun k =>
    match e with Some e => env_status (envs k e) =? ENV_RUNNABLE | None => false end);
  if yield || (count =? 0) || negb (runnable : bool) then
    match e with
    | Some e =>
        if (runnable : bool) then sched_op (TAILQ_REMOVE e) ;; sched_op (TAILQ_INSERT_TAIL e)
        else mret tt
    | None => mret tt
    end ;;
    q ← get env_sched_list;
    match TAILQ_FIRST q with
    | None => panic
    | Some nextenv =>
        pri ← env_get nextenv env_pri;
        modify (set_sched_count (i32 pri)) ;;
        modify (fun k => set_sched_count (i32 (sched_count k - 1)) k) ;;
        env_run nextenv
    end
  else
    modify (fun k => set_sched_count (i32 (sched_count k - 1)) k) ;;
    c ← deref e;
    env_run c.

Definition do_clock {A} : M kernel A := schedule false.

Definition env_destroy (e : Z) : M kernel unit :=
  env_free e ;;
  c ← get curenv;
  if bool_decide (c = Some e) then
    modify (set_curenv None) ;;
    schedule true
  else mret tt.

(** ** The queue holds the runnable environments *)

Record sched_inv (k : kernel) (l : list Z) : Prop := {
  si_rep : tailq_rep (env_sched_list k) l;
  si_run : forall e, e ∈ l <-> 0 <= e < NENV /\ env_status (envs k e) = ENV_RUNNABLE;
  si_cur : forall c, curenv k = Some c -> 0 <= c < NENV
}.

Definition cur_runnable (k : kernel) : option Z :=
  match curenv k with
  | Some c => if decide (env_status (envs k c) = ENV_RUNNABLE) then Some c else None
  | None => None
  end.

(** The queue once the current environment has been moved to its end. *)
Definition next_queue (k : kernel) (l : list Z) : list Z :=
  match cur_runnable k with Some c => lremove c l ++ [c] | None => l end.

(** The scheduler switches when asked to, when the time slice is used up, and
    when the current environment cannot run. *)
Definition switches (yield : bool) (k : kernel) : bool :=
  yield || (sched_count k =? 0) || bool_decide (cur_runnable k = None).

(** An environment but for its trap frame, which is what saving it changes. *)
Definition kept (v : Env) : Env := set_env_tf tf0 v.

(** What running [e] does to the state. *)
Record ran (k k' : kernel) (e count : Z) : Prop := {
  rn_cur : curenv k' = Some e;
  rn_count : sched_count k' = count;
  rn_status : forall x, env_status (envs k' x) = env_status (envs k x) /\
    env_pri (envs k' x) = env_pri (envs k x);
  rn_runs : env_runs (envs k' e) = u64 (env_runs (envs k e) + 1);
  rn_saved : forall c, curenv k = Some c -> env_tf (envs k' c) = ktf k;
  rn_kept : forall x, kept (set_env_runs 0 (envs k' x)) = kept (set_env_runs 0 (envs k x));
  rn_pgdir : cur_pgdir k' = env_pgdir (envs k e);
  rn_pm : pm k' = pm k
}.

Lemma cur_runnable_in k l c : sched_inv k l -> cur_runnable k = Some c ->
  curenv k = Some c /\ c ∈ l /\ env_status (envs k c) = ENV_RUNNABLE.
Proof.
  intros Hi. unfold cur_runnable. destruct (curenv k) as [c'|] eqn:E; [|done].
  case_decide; [|done]. intros [= ->]. split_and!; [done| |done].
  apply (si_run _ _ Hi). split; [by apply (si_cur _ _ Hi)|done].
Qed.

Lemma elem_of_next_queue k l x : sched_inv k l -> x ∈ next_queue k l <-> x ∈ l.
Proof.
  intros Hi. unfold next_queue. destruct (cur_runnable k) as [c|] eqn:E; [|done].
  destruct (cur_runnable_in _ _ _ Hi E) as (_ & Hc & _).
  rewrite elem_of_app, elem_of_lremove, list_elem_of_singleton.
  destruct (decide (x = c)) as [->|]; naive_solver.
Qed.

(** Moving the current environment to the end of the queue. *)
Lemma requeue_ok k l c : tailq_rep (env_sched_list k) l -> c ∈ l ->
  exists q', (sched_op (TAILQ_REMOVE c) ;; sched_op (TAILQ_INSERT_TAIL c)) k =
      Ret tt (set_env_sched_list q' k) /\ tailq_rep q' (lremove c l ++ [c]).
Proof.
  intros Hq Hc. destruct (tailq_rep_remove_elem _ _ _ Hq Hc) as (q1 & E1 & H1).
  destruct (tailq_rep_insert_tail q1 (lremove c l) c H1) as (q2 & E2 & H2).
  { rewrite elem_of_lremove. naive_solver. }
  exists q2. split; [|done]. unfold sched_op. rewrite bind_assoc, bind_get, E1, bind_modify, bind_get.
  simpl. by rewrite E2.
Qed.

Lemma save_tf_ok k : exists k',
  (match curenv k with
   | Some c => t ← get ktf; upd_env c (set_env_tf t)
   | None => mret tt
   end : M kernel unit) k = Ret tt k' /\
  k' = set_envs (envs k') k /\ (forall x, kept (envs k' x) = kept (envs k x)) /\
  (forall c, curenv k = Some c -> env_tf (envs k' c) = ktf k).
Proof.
  destruct (curenv k) as [c|] eqn:Hc.
  - eexists. split; [reflexivity|]. split; [done|]. split.
    + intros x. simpl. destruct (decide (c = x)) as [->|];
        [by rewrite fn_lookup_insert|by rewrite fn_lookup_insert_ne].
    + intros c' [= ->]. simpl. by rewrite fn_lookup_insert.
  - exists k. split; [done|]. split; [by destruct k|done].
Qed.

Lemma env_run_ok {A} k e : env_status (envs k e) = ENV_RUNNABLE ->
  exists k', env_run (A := A) e k = Resume e k' /\ ran k k' e (sched_count k) /\
    env_sched_list k' = env_sched_list k.
Proof.
  intros He. unfold env_run. rewrite env_get_bind, He. change (assert _) with (mret (M := M kernel) tt).
  rewrite bind_mret, bind_get.
  destruct (save_tf_ok k) as (k1 & E1 & Hk1 & Hkept & Htf). rewrite (bind_ret _ _ _ _ _ E1).
  rewrite bind_modify. unfold upd_env, env_get. rewrite bind_modify, bind_get, bind_modify.
  eexists. split; [reflexivity|].
  assert (forall x, env_status (envs k1 x) = env_status (envs k x) /\
    env_pri (envs k1 x) = env_pri (envs k x) /\ env_runs (envs k1 x) = env_runs (envs k x) /\
    env_pgdir (envs k1 x) = env_pgdir (envs k x)) as Hx.
  { intros x. specialize (Hkept x). split_and!;
      [exact (f_equal env_status Hkept)|exact (f_equal env_pri Hkept)|exact (f_equal env_runs Hkept)
      |exact (f_equal env_pgdir Hkept)]. }
  split; [|by rewrite Hk1]. split.
  - done.
  - by rewrite Hk1.
  - intros x. destruct (Hx x) as (? & ? & _). simpl.
    destruct (decide (e = x)) as [->|]; [by rewrite fn_lookup_insert|by rewrite fn_lookup_insert_ne].
  - simpl. rewrite fn_lookup_insert. destruct (Hx e) as (_ & _ & <- & _). done.
  - intros c Hc. simpl. rewrite <- (Htf c Hc).
    destruct (decide (e = c)) as [->|]; [by rewrite fn_lookup_insert|by rewrite fn_lookup_insert_ne].
  - intros x. simpl. pose proof (f_equal (set_env_runs 0) (Hkept x)) as H.
    destruct (decide (e = x)) as [->|]; [rewrite fn_lookup_insert; exact H|by rewrite fn_lookup_insert_ne].
  - simpl. rewrite fn_lookup_insert. destruct (Hx e) as (_ & _ & _ & <-). done.
  - by rewrite Hk1.
Qed.

Lemma sched_inv_ran k k' e n l l' : sched_inv k l -> ran k k' e n -> 0 <= e < NENV ->
  tailq_rep (env_sched_list k') l' -> (forall x, x ∈ l' <-> x ∈ l) -> sched_inv k' l'.
Proof.
  intros Hi Hr He Hq Hl. split; [done| |].
  - intros x. rewrite Hl, (si_run _ _ Hi). destruct (rn_status _ _ _ _ Hr x) as [-> _]. done.
  - intros c. rewrite (rn_cur _ _ _ _ Hr). by intros [= <-].
Qed.

(** ** What [schedule] does *)

Lemma schedule_switch {A} yield k l e rest :
  sched_inv k l -> switches yield k = true -> next_queue k l = e :: rest ->
  exists k', schedule (A := A) yield k = Resume e k' /\
    ran k k' e (i32 (i32 (env_pri (envs k e)) - 1)) /\ sched_inv k' (e :: rest).
Proof.
  intros Hi Hs Hn.
  assert (e ∈ l) as Hel by (apply (elem_of_next_queue k l e Hi); rewrite Hn; set_solver).
  apply (si_run _ _ Hi) in Hel as [He Hst].
  set (run := match curenv k with Some e => env_status (envs k e) =? ENV_RUNNABLE | None => false end).
  assert (run = bool_decide (cur_runnable k <> None)) as Hrun.
  { unfold run, cur_runnable. destruct (curenv k) as [c|]; [|done].
    destruct (Z.eqb_spec (env_status (envs k c)) ENV_RUNNABLE) as [E|E]; case_decide; done. }
  assert (exists q', (match curenv k with
      | Some e => if (run : bool) then sched_op (TAILQ_REMOVE e) ;; sched_op (TAILQ_INSERT_TAIL e)
                  else mret tt
      | None => mret tt
      end : M kernel unit) k = Ret tt (set_env_sched_list q' k) /\ tailq_rep q' (e :: rest))
    as (q' & E & Hq').
  { rewrite <- Hn. unfold next_queue. destruct (cur_runnable k) as [c|] eqn:Ec.
    - destruct (cur_runnable_in _ _ _ Hi Ec) as (-> & Hc & _). rewrite Hrun. simpl.
      apply requeue_ok; [apply (si_rep _ _ Hi)|done].
    - exists (env_sched_list k). split; [|apply (si_rep _ _ Hi)]. rewrite Hrun. simpl.
      destruct (curenv k); by destruct k. }
  unfold schedule. rewrite !bind_get. fold run.
  assert (yield || (sched_count k =? 0) || negb run = true) as ->.
  { rewrite <- Hs. unfold switches. f_equal. rewrite Hrun. by destruct (cur_runnable k). }
  rewrite (bind_ret _ _ _ _ _ E), bind_get.
  assert (TAILQ_FIRST (env_sched_list (set_env_sched_list q' k)) = Some e) as ->
    by exact (tailq_rep_first _ _ Hq').
  rewrite env_get_bind, !bind_modify. simpl.
  set (k1 := set_sched_count _ _).
  destruct (env_run_ok (A := A) k1 e) as (k' & E' & Hr & Hql); [done|].
  exists k'. split; [exact E'|].
  assert (ran k k' e (i32 (i32 (env_pri (envs k e)) - 1))) as Hr' by (destruct Hr; by split).
  split; [done|]. eapply sched_inv_ran; [exact Hi|exact Hr'|done| |].
  - rewrite Hql. exact Hq'.
  - intros x. rewrite <- Hn. by apply elem_of_next_queue.
Qed.

Lemma schedule_empty {A} yield k :
  sched_inv k [] -> schedule (A := A) yield k = Panic k.
Proof.
  intros Hi. assert (cur_runnable k = None) as Hc.
  { destruct (cur_runnable k) as [c|] eqn:Ec; [|done].
    destruct (cur_runnable_in _ _ _ Hi Ec) as (_ & Hc & _). by apply elem_of_nil in Hc. }
  unfold schedule. rewrite !bind_get.
  assert ((match curenv k with Some e => env_status (envs k e) =? ENV_RUNNABLE | None => false end) = false)
    as ->.
  { unfold cur_runnable in Hc. destruct (curenv k) as [c|]; [|done].
    destruct (Z.eqb_spec (env_status (envs k c)) ENV_RUNNABLE); [|done]. by rewrite decide_True in Hc. }
  rewrite orb_true_r.
  assert ((match curenv k with Some _ => mret tt | None => mret tt end : M kernel unit) k = Ret tt k) as E
    by by destruct (curenv k).
  rewrite (bind_ret _ _ _ _ _ E), bind_get.
  by rewrite (tailq_rep_first _ _ (si_rep _ _ Hi)).
Qed.

Lemma schedule_stay {A} yield k l :
  sched_inv k l -> switches yield k = false ->
  exists c k', cur_runnable k = Some c /\ schedule (A := A) yield k = Resume c k' /\
    ran k k' c (i32 (sched_count k - 1)) /\ sched_inv k' l.
Proof.
  intros Hi Hs. unfold switches in Hs. destruct (cur_runnable k) as [c|] eqn:Ec.
  2: { simpl in Hs. by rewrite orb_true_r in Hs. }
  destruct (cur_runnable_in _ _ _ Hi Ec) as (Hc & Hcl & Hst).
  simpl in Hs. rewrite orb_false_r in Hs.
  exists c. unfold schedule. rewrite !bind_get, Hc, Hst. simpl. rewrite orb_false_r, Hs.
  rewrite bind_modify. unfold deref. rewrite bind_mret.
  set (k1 := set_sched_count _ _).
  destruct (env_run_ok (A := A) k1 c) as (k' & E' & Hr & Hql); [done|].
  exists k'. split; [done|]. split; [exact E'|].
  assert (ran k k' c (i32 (sched_count k - 1))) as Hr' by (destruct Hr; by split).
  split; [done|]. eapply sched_inv_ran; [exact Hi|exact Hr'|by apply (si_cur _ _ Hi)| |done].
  rewrite Hql. exact (si_rep _ _ Hi).
Qed.

(** ** Blocking and waking

    An environment that stops being runnable leaves the queue; one that becomes
    runnable joins it at its end. *)
Lemma sched_inv_env k k' e v l l' q :
  sched_inv k l -> env_upd k k' e v -> tailq_rep q l' ->
  (forall x, x ∈ l' <-> (if decide (x = e) then 0 <= e < NENV /\ env_status v = ENV_RUNNABLE else x ∈ l)) ->
  sched_inv (set_env_sched_list q k') l'.
Proof.
  intros Hi [He Hv Ho] Hq Hl. split; [done| |].
  - intros x. rewrite Hl. simpl. destruct (decide (x = e)) as [->|Hne]; [by rewrite Hv|].
    rewrite (Ho x Hne). apply (si_run _ _ Hi).
  - intros c. simpl. rewrite He. simpl. apply (si_cur _ _ Hi).
Qed.

Lemma wake_ok {B} k k' e v l (m : unit -> M kernel B) :
  sched_inv k l -> env_upd k k' e v -> 0 <= e < NENV -> e ∉ l -> env_status v = ENV_RUNNABLE ->
  exists q, (sched_op (TAILQ_INSERT_TAIL e) ≫= m) k' = m tt (set_env_sched_list q k') /\
    sched_inv (set_env_sched_list q k') (l ++ [e]).
Proof.
  intros Hi Hu He Hel Hv. pose proof Hu as [Hk _ _].
  destruct (tailq_rep_insert_tail _ _ e (si_rep _ _ Hi) Hel) as (q & E & Hq).
  exists q. split.
  - unfold sched_op. rewrite bind_assoc, bind_get.
    assert (env_sched_list k' = env_sched_list k) as -> by by rewrite Hk.
    by rewrite E, bind_modify.
  - eapply sched_inv_env; [done..|]. intros x. rewrite elem_of_app, list_elem_of_singleton.
    destruct (decide (x = e)); naive_solver.
Qed.

Lemma block_ok {B} k k' e v l (m : unit -> M kernel B) :
  sched_inv k l -> env_upd k k' e v -> e ∈ l -> env_status v <> ENV_RUNNABLE ->
  exists q, (sched_op (TAILQ_REMOVE e) ≫= m) k' = m tt (set_env_sched_list q k') /\
    sched_inv (set_env_sched_list q k') (lremove e l).
Proof.
  intros Hi Hu Hel Hv. pose proof Hu as [Hk _ _].
  destruct (tailq_rep_remove_elem _ _ _ (si_rep _ _ Hi) Hel) as (q & E & Hq).
  exists q. split.
  - unfold sched_op. rewrite bind_assoc, bind_get.
    assert (env_sched_list k' = env_sched_list k) as -> by by rewrite Hk.
    by rewrite E, bind_modify.
  - eapply sched_inv_env; [done..|]. intros x. rewrite elem_of_lremove.
    destruct (decide (x = e)); naive_solver.
Qed.

(** ** Time slices

    The environments that run when the timer fires at the trap frames [tfs]. *)
Fixpoint run_ticks (tfs : list trapframe) (k : kernel) : option (list Z * kernel) :=
  match tfs with
  | [] => Some ([], k)
  | t :: tfs =>
      match do_clock (A := unit) (set_ktf t k) with
      | Resume e k' => '(es, k'') ← run_ticks tfs k'; Some (e :: es, k'')
      | _ => None
      end
  end.

Definition same_env (k k' : kernel) : Prop :=
  forall x, env_status (envs k' x) = env_status (envs k x) /\ env_pri (envs k' x) = env_pri (envs k x).

Lemma same_env_trans k1 k2 k3 : same_env k1 k2 -> same_env k2 k3 -> same_env k1 k3.
Proof. intros H1 H2 x. destruct (H1 x), (H2 x). split; congruence. Qed.

Lemma sched_inv_ktf k l t : sched_inv k l -> sched_inv (set_ktf t k) l.
Proof. intros [H1 H2 H3]. by split. Qed.

(** The current environment keeps the processor while its count lasts. *)
Lemma ticks_stay l e n : forall tfs k,
  length tfs = n -> sched_inv k l -> cur_runnable k = Some e -> sched_count k = Z.of_nat n ->
  Z.of_nat n < 2 ^ 31 ->
  exists k', run_ticks tfs k = Some (repeat e n, k') /\ sched_inv k' l /\
    cur_runnable k' = Some e /\ sched_count k' = 0 /\ same_env k k'.
Proof.
  induction n as [|n IH]; intros tfs k Hlen Hi Hc Hn Hb.
  { destruct tfs; [|done]. exists k. by split_and!. }
  destruct tfs as [|t tfs]; [done|]. injection Hlen as Hlen. simpl run_ticks.
  apply (sched_inv_ktf _ _ t) in Hi.
  destruct (schedule_stay (A := unit) false (set_ktf t k) l Hi) as (c & k1 & Hc1 & E & Hr & Hi1).
  { unfold switches. change (cur_runnable (set_ktf t k)) with (cur_runnable k). rewrite Hc.
    simpl. rewrite Hn. by destruct (Z.eqb_spec (Z.of_nat (S n)) 0); [lia|]. }
  change (cur_runnable (set_ktf t k)) with (cur_runnable k) in Hc1.
  assert (c = e) as -> by congruence.
  assert (same_env k k1) as Hs1 by exact (rn_status _ _ _ _ Hr).
  destruct (cur_runnable_in _ _ _ Hi Hc) as (_ & _ & Hst). simpl in Hst.
  destruct (IH tfs k1) as (k2 & E2 & Hi2 & Hc2 & Hn2 & Hs2); try done.
  - unfold cur_runnable. rewrite (rn_cur _ _ _ _ Hr). rewrite decide_True; [done|].
    destruct (Hs1 e) as [-> _]. done.
  - rewrite (rn_count _ _ _ _ Hr). simpl sched_count. rewrite Hn, i32_small by lia. lia.
  - lia.
  - exists k2. unfold do_clock. rewrite E, E2. split; [done|].
    split_and!; try done. by eapply same_env_trans.
Qed.

(** One full slice. *)
Lemma slice_ok tfs k l e rest :
  sched_inv k l -> switches false k = true -> next_queue k l = e :: rest ->
  0 < env_pri (envs k e) < 2 ^ 31 -> length tfs = Z.to_nat (env_pri (envs k e)) ->
  exists k', run_ticks tfs k = Some (repeat e (Z.to_nat (env_pri (envs k e))), k') /\
    sched_inv k' (e :: rest) /\ switches false k' = true /\
    next_queue k' (e :: rest) = rest ++ [e] /\ same_env k k'.
Proof.
  intros Hi Hs Hn Hp Hlen. destruct (Z.to_nat (env_pri (envs k e))) as [|n] eqn:En; [lia|].
  destruct tfs as [|t tfs]; [done|]. injection Hlen as Hlen.
  apply (sched_inv_ktf _ _ t) in Hi.
  destruct (schedule_switch (A := unit) false (set_ktf t k) l e rest Hi Hs Hn) as (k1 & E & Hr & Hi1).
  assert (same_env k k1) as Hs1 by exact (rn_status _ _ _ _ Hr).
  assert (env_status (envs k e) = ENV_RUNNABLE) as Hst.
  { apply (si_run _ _ Hi). apply (elem_of_next_queue (set_ktf t k) l e Hi).
    change (next_queue (set_ktf t k) l) with (next_queue k l). rewrite Hn. set_solver. }
  assert (sched_count k1 = Z.of_nat n) as Hc1.
  { rewrite (rn_count _ _ _ _ Hr). simpl. rewrite (i32_small (env_pri _)) by lia.
    rewrite i32_small; lia. }
  assert (cur_runnable k1 = Some e) as Hcur.
  { unfold cur_runnable. rewrite (rn_cur _ _ _ _ Hr), decide_True; [done|].
    destruct (Hs1 e) as [-> _]. done. }
  destruct (ticks_stay (e :: rest) e n tfs k1) as (k2 & E2 & Hi2 & Hc2 & Hn2 & Hs2); try done; [lia|].
  exists k2. simpl run_ticks. unfold do_clock. rewrite E, E2. split; [done|]. split; [done|].
  split; [unfold switches; by rewrite Hn2, Z.eqb_refl|]. split; [|by eapply same_env_trans].
  unfold next_queue. rewrite Hc2. f_equal. apply (lremove_mid e [] rest); [set_solver|].
  pose proof (tailq_rep_nodup _ _ (si_rep _ _ Hi2)) as [? _]%NoDup_cons. done.
Qed.

Definition slices (k : kernel) (l : list Z) : list Z :=
  concat (map (fun e => repeat e (Z.to_nat (env_pri (envs k e)))) l).

Lemma run_ticks_app t1 : forall t2 k es1 k1, run_ticks t1 k = Some (es1, k1) ->
  run_ticks (t1 ++ t2) k = '(es2, k2) ← run_ticks t2 k1; Some (es1 ++ es2, k2).
Proof.
  induction t1 as [|t t1 IH]; intros t2 k es1 k1 H; simpl in *.
  - injection H as <- <-. by destruct (run_ticks t2 k) as [[? ?]|].
  - destruct (do_clock (set_ktf t k)) as [| |e k']; try done.
    destruct (run_ticks t1 k') as [[es k2]|] eqn:E; [|done]. simpl in H. injection H as <- <-.
    rewrite (IH t2 _ _ _ E). by destruct (run_ticks t2 k2) as [[? ?]|].
Qed.

Lemma slices_same k k' l : same_env k k' -> slices k' l = slices k l.
Proof.
  intros H. unfold slices. f_equal. apply map_ext. intros e. by destruct (H e) as [_ ->].
Qed.

Lemma rounds_ok todo : forall done k l tfs,
  sched_inv k l -> switches false k = true -> next_queue k l = todo ++ done ->
  (forall e, e ∈ l -> 0 < env_pri (envs k e) < 2 ^ 31) -> length tfs = length (slices k todo) ->
  exists k' l', run_ticks tfs k = Some (slices k todo, k') /\ sched_inv k' l' /\
    switches false k' = true /\ next_queue k' l' = done ++ todo /\ same_env k k'.
Proof.
  induction todo as [|e todo IH]; intros dn k l tfs Hi Hs Hn Hp Hlen.
  { destruct tfs; [|done]. exists k, l. rewrite app_nil_r. by split_and!. }
  assert (slices k (e :: todo) = repeat e (Z.to_nat (env_pri (envs k e))) ++ slices k todo) as Hsl by done.
  rewrite Hsl, length_app, repeat_length in Hlen.
  set (n := Z.to_nat (env_pri (envs k e))) in *.
  assert (e ∈ l) as Hel by (apply (elem_of_next_queue k l e Hi); rewrite Hn; set_solver).
  destruct (slice_ok (take n tfs) k l e (todo ++ dn) Hi Hs Hn) as (k1 & E1 & Hi1 & Hs1 & Hn1 & Hsame);
    [by apply Hp|rewrite length_take; lia|].
  destruct (IH (dn ++ [e]) k1 (e :: todo ++ dn) (drop n tfs) Hi1 Hs1)
    as (k2 & l2 & E2 & Hi2 & Hs2 & Hn2 & Hsame2).
  - by rewrite Hn1, <- app_assoc.
  - intros x Hx. destruct (Hsame x) as [_ ->]. apply Hp.
    apply (elem_of_next_queue k l x Hi). by rewrite Hn.
  - rewrite length_drop, (slices_same k k1) by done. lia.
  - exists k2, l2. split_and!; [|done|done| |by eapply same_env_trans].
    + rewrite <- (take_drop n tfs), (run_ticks_app _ _ _ _ _ E1), E2. simpl.
      by rewrite (slices_same k k1), Hsl by done.
    + by rewrite Hn2, <- app_assoc.
Qed.

(** ** A concrete schedule

    Environments 0 and 1 are runnable, with priorities 2 and 1. *)
Definition ksched : kernel :=
  set_env_sched_list (TAILQ_INSERT_HEAD 0 (TAILQ_INSERT_HEAD 1 tailq0))
    (set_envs (<[0 := set_env_pri 2 (set_env_status ENV_RUNNABLE env0)]>
      (<[1 := set_env_pri 1 (set_env_status ENV_RUNNABLE env0)]> (fun _ => env0))) kdemo).

Lemma ksched_inv : sched_inv ksched [0; 1].
Proof.
  split.
  - apply tailq_rep_insert_head; [|set_solver by lia].
    apply (tailq_rep_insert_head tailq0 [] 1); [apply (tailq_rep_init tailq0)|set_solver].
  - intros e. rewrite !elem_of_cons, elem_of_nil. simpl.
    destruct (decide (0 = e)) as [<-|H0].
    { rewrite fn_lookup_insert. split; [|by left]. intros _. by split. }
    rewrite fn_lookup_insert_ne by done. destruct (decide (1 = e)) as [<-|H1].
    { rewrite fn_lookup_insert. split; [|by right; left]. intros _. by split. }
    rewrite fn_lookup_insert_ne by done. split; [intros [?|[?|[]]]; congruence|].
    intros [_ H]. discriminate H.
  - intros c H. discriminate H.
Qed.

(** ** The properties *)

(** C6: [schedule] on every branch.  The queue always holds exactly the
    runnable environments; a yield, a used-up slice or a current environment
    that cannot run switches to the head of the queue, after the current one
    has been moved to its end, with a new slice of its priority; otherwise the
    current one continues and its slice shrinks; the trap frame of the
    environment that was running is saved.  With nothing runnable it panics. *)
Theorem schedule_correct yield k l :
  sched_inv k l ->
  match (if switches yield k then next_queue k l else l) with
  | [] => schedule (A := unit) yield k = Panic k
  | q =>
      exists e k', schedule (A := unit) yield k = Resume e k' /\ sched_inv k' q /\
        if switches yield k then head q = Some e /\ ran k k' e (i32 (i32 (env_pri (envs k e)) - 1))
        else cur_runnable k = Some e /\ ran k k' e (i32 (sched_count k - 1))
  end.
Proof.
  intros Hi. destruct (switches yield k) eqn:Hs.
  - destruct (next_queue k l) as [|e rest] eqn:Hn.
    + assert (l = []) as ->; [|by apply schedule_empty].
      destruct l as [|x l]; [done|]. exfalso.
      assert (x ∈ next_queue k (x :: l)) as Hx by (apply elem_of_next_queue; [done|set_solver]).
      rewrite Hn in Hx. by apply elem_of_nil in Hx.
    + destruct (schedule_switch (A := unit) yield k l e rest Hi Hs Hn) as (k' & E & Hr & Hi').
      exists e, k'. by split_and!.
  - destruct (schedule_stay (A := unit) yield k l Hi Hs) as (c & k' & Hc & E & Hr & Hi').
    destruct (cur_runnable_in _ _ _ Hi Hc) as (_ & Hcl & _).
    destruct l as [|x l]; [by apply elem_of_nil in Hcl|]. exists c, k'. by split_and!.
Qed.

Lemma schedule_correct_witness :
  exists e k', schedule (A := unit) true ksched = Resume e k' /\ sched_inv k' [0; 1] /\
    head [0; 1] = Some e /\ ran ksched k' e (i32 (i32 (env_pri (envs ksched e)) - 1)).
Proof. exact (schedule_correct true ksched [0; 1] ksched_inv). Defined.

(** C7: fairness.  While the set of runnable environments and their positive
    priorities stay, timer interrupts run the environments of the queue in
    turn, each for as many consecutive ticks as its priority, and after that
    round the queue is in the same order again: no environment starves. *)
Theorem schedule_round_robin k l tfs :
  sched_inv k l -> switches false k = true ->
  (forall e, e ∈ l -> 0 < env_pri (envs k e) < 2 ^ 31) ->
  length tfs = length (slices k (next_queue k l)) ->
  exists k' l', run_ticks tfs k = Some (slices k (next_queue k l), k') /\ sched_inv k' l' /\
    switches false k' = true /\ next_queue k' l' = next_queue k l /\ same_env k k'.
Proof.
  intros Hi Hs Hp Hlen.
  destruct (rounds_ok (next_queue k l) [] k l tfs) as (k' & l' & H); try done.
  - by rewrite app_nil_r.
  - exists k', l'. exact H.
Qed.

Lemma schedule_round_robin_witness :
  exists k' l', run_ticks [tf0; tf0; tf0] ksched = Some ([0; 0; 1], k') /\ sched_inv k' l' /\
    switches false k' = true /\ next_queue k' l' = [0; 1] /\ same_env ksched k'.
Proof.
  apply (schedule_round_robin ksched [0; 1] [tf0; tf0; tf0]).
  - exact ksched_inv.
  - reflexivity.
  - intros e. rewrite !elem_of_cons, elem_of_nil. intros [->|[->|[]]]; split; reflexivity.
  - reflexivity.
Defined.
