(* ===== verification/Device.v ===== *)
(** kern/kmmap.c and kern/device.c: the kernel's window for device memory, the
    table of devices and the accesses to their registers.

    Block searches in the heap are bounded by [fuel], as in Kmalloc.v. *)
From S2P Require Import Prelude Queue Mem Mmu Pmap PageTable PageMap Kmalloc Elf Kernel Env.

(** ** Device memory mappings *)

Definition KMMAP_COUNT : Z := KMMAP_SIZE / PAGE_SIZE.

(** The inner loop: are the words from [i] on all zero?  It does not stop at
    the end of the array. *)
Fixpoint bmap_free (n : nat) (b : Z -> Z) (j : Z) : bool :=
  match n with
  | O => true
  | S n => if negb (b j =? 0) then false else bmap_free n b (j + 1)
  end.

Definition kmmap_find (page_count : Z) : M kernel (option Z) :=
  mfor_ret (Z.to_nat KMMAP_COUNT) 0 (fun i =>
    b ← get kmmap_bmap;
    if b i =? 0 then
      if bmap_free (Z.to_nat page_count) b i then mret (Some i) else mret None
    else mret None).

Definition kmmap_alloc (pa size perm : Z) : M kernel (option Z) :=
  if negb (size mod PAGE_SIZE =? 0) then panic
  else
    let page_count := size / PAGE_SIZE in
    found ← kmmap_find page_count;
    match found with
    | None => mret None
    | Some vpn_offset =>
        mfor (Z.to_nat page_count) vpn_offset (fun i =>
          modify (fun k => set_kmmap_bmap (<[i := u64 (vpn_offset + page_count - i)]> (kmmap_bmap k)) k)) ;;
        let begin_va := u64 (u64 (Z.shiftl vpn_offset PAGE_SHIFT) + KMMAP_BEGIN_VA) in
        kmap begin_va pa size perm ;;
        mret (Some begin_va)
    end.

Definition kmmap_free (va : Z) : M kernel unit :=
  if (va <? KMMAP_BEGIN_VA) || (KMMAP_END_VA <=? va) then panic
  else if negb (va mod PAGE_SIZE =? 0) then panic
  else
    let vpn_offset := u64 (VPN va - VPN KMMAP_BEGIN_VA) in
    page_count ← get (fun k => kmmap_bmap k vpn_offset);
    if page_count =? 0 then mret tt
    else
      kunmap va (u64 (page_count * PAGE_SIZE)) ;;
      mfor (Z.to_nat page_count) vpn_offset (fun i =>
        modify (fun k => set_kmmap_bmap (<[i := 0]> (kmmap_bmap k)) k)).

(** ** The device table *)

Definition DEVICE_TYPE_LEN : Z := 32.
Definition DEVICE_ARRAY_RESIZE_FACTOR : Z := 2.
Definition sizeof_Device : Z := 64.
Definition sizeof_DeviceMMIORange : Z := 32.

Definition inheap {A} (m : M heap A) : M kernel A := zoom kheap set_kheap m.

Definition get_next_device_id : M kernel Z :=
  id ← get global_device_id;
  modify (set_global_device_id (u64 (id + 1))) ;;
  mret id.

(** The slot of the new device.  Growing copies the array, so the entries keep
    their indices. *)
Definition add_device (fuel : nat) (dtype : list Z) (data len : Z) : M kernel Z :=
  n ← get (fun k => Z.of_nat (length (devices k)));
  cap ← get devices_capacity;
  (if cap <=? n then
     let cap := if cap =? 0 then DEVICE_ARRAY_RESIZE_FACTOR else cap * DEVICE_ARRAY_RESIZE_FACTOR in
     modify (set_devices_capacity cap) ;;
     new_array ← inheap (kmalloc fuel (cap * sizeof_Device));
     match new_array with
     | None => panic
     | Some a =>
         old ← get devices_array;
         (if negb (old =? 0) then inheap (kfree old) else mret tt) ;;
         modify (set_devices_array a)
     end
   else mret tt) ;;
  id ← get_next_device_id;
  modify (fun k => set_devices (devices k ++ [MkDevice dtype id [] data len]) k) ;;
  mret n.

Definition upd_device (i : Z) (f : Device -> Device) : M kernel unit :=
  modify (fun k => set_devices (alter f (Z.to_nat i) (devices k)) k).

Definition add_mmio_range (fuel : nat) (target pa len : Z) : M kernel unit :=
  range ← inheap (kmalloc fuel sizeof_DeviceMMIORange);
  _ ← deref range;
  va ← kmmap_alloc pa (ROUND len PAGE_SIZE) (Z.lor PTE_V (Z.lor PTE_RW PTE_GLOBAL));
  match va with
  | None => panic
  | Some va =>
      upd_device target (fun d =>
        MkDevice (device_type d) (device_id d) (MMIORange pa len va :: mmio_range_list d)
          (device_data d) (device_data_len d))
  end.

(** [strcmp(device_type, t) == 0] on the strings. *)
Definition of_type (t : list Z) (d : Device) : bool := bool_decide (device_type d = t).

Fixpoint find_devices (max_count : nat) (t : list Z) (l : list Device) : list Device :=
  match max_count, l with
  | S n, d :: l' => if of_type t d then d :: find_devices n t l' else find_devices max_count t l'
  | _, _ => []
  end.

(** The devices stored in [out_devices]; their number is the result. *)
Definition find_device_by_type (t : list Z) (max_count : Z) : M kernel (list Device) :=
  get (fun k => find_devices (Z.to_nat max_count) t (devices k)).

Definition get_device_count (t : list Z) : M kernel Z :=
  get (fun k => Z.of_nat (length (filter (fun d => device_type d = t) (devices k)))).

Fixpoint nth_of_type (t : list Z) (idx count : Z) (l : list Device) : option Device :=
  match l with
  | [] => None
  | d :: l' =>
      if of_type t d then
        if count =? idx then Some d else nth_of_type t idx (count + 1) l'
      else nth_of_type t idx count l'
  end.

(** ** Register accesses *)

Fixpoint range_lookup (l : list DeviceMMIORange) (pa : Z) : option Z :=
  match l with
  | [] => None
  | r :: l' =>
      if (mmio_pa r <=? pa) && (pa <? u64 (mmio_pa r + mmio_len r)) then
        Some (u64 (mapped_va r + (pa - mmio_pa r)))
      else range_lookup l' pa
  end.

Definition get_mapped_pa (d : Device) (pa : Z) : M kernel Z :=
  match range_lookup (mmio_range_list d) pa with
  | None => panic
  | Some va => mret va
  end.

(** [ioread8] to [ioread64] and [iowrite8] to [iowrite64]: accesses of [len]
    bytes. *)
Definition ioread (len : Z) (d : Device) (paddr : Z) : M kernel Z :=
  va ← get_mapped_pa d paddr;
  v ← get (fun k => mmio_read k (io k) va len mod 2 ^ (8 * len));
  modify (fun k => set_io (IoRead va len :: io k) k) ;;
  mret v.

Definition iowrite (len : Z) (d : Device) (data paddr : Z) : M kernel unit :=
  va ← get_mapped_pa d paddr;
  modify (fun k => set_io (IoWrite va len (data mod 2 ^ (8 * len)) :: io k) k).

Definition ioread32 := ioread 4.
Definition iowrite32 := iowrite 4.
