(* ===== verification/Kmmap.v ===== *)
(** kern/kmmap.c and kern/pmap.c: what [map_mem], [unmap_mem] and the kernel's
    window for device memory do to the kernel's page table.

    The window is used while the kernel starts, before there is an environment:
    [window_ok] is its invariant then.  The word of the first page of an
    allocation holds the number of its pages, the next one a number less by
    one, and so on ([bmap_rep]). *)
From S2P Require Import Prelude Queue Mem Mmu Pmap PageTable PageMap Kmalloc Elf Kernel Env Device.

(** ** Changes to the pages of a set *)

(** [s'] is [s] after changes to the mappings of the pages in [D]; [fresh]
    became tables. *)
Record mem_post (D : Z -> Prop) (s s' : pmap) (root : Z) (fresh l l' : list Z) : Prop := {
  mp_split : l = fresh ++ l';
  mp_as : as_wf s' l' root;
  mp_boot : same_boot s s';
  mp_ref : pp_ref s' = ref_one fresh (pp_ref s);
  mp_leaf : forall va, ~ D (VPN va) -> leaf_pte (mem s') root va = leaf_pte (mem s) root va;
  mp_nohuge : forall va, nohuge (mem s) root va -> nohuge (mem s') root va;
  mp_tables : forall x, x ∉ fresh -> not_table (mem s) root x -> not_table (mem s') root x;
  mp_frame : forall x, allocated (npage s) l x -> not_table (mem s) root x -> page_eq (mem s) (mem s') x
}.

Lemma mem_post_refl D s root l : as_wf s l root -> mem_post D s s root [] l l.
Proof. intros H. by split. Qed.

Lemma ref_one_app f1 f2 : forall r, ref_one (f1 ++ f2) r = ref_one f2 (ref_one f1 r).
Proof. induction f1 as [|p f1 IH]; intros r; simpl; auto. Qed.

Lemma mem_post_trans (D1 D2 D : Z -> Prop) s1 s2 s3 root f1 f2 l1 l2 l3 :
  mem_post D1 s1 s2 root f1 l1 l2 -> mem_post D2 s2 s3 root f2 l2 l3 ->
  (forall x, D1 x \/ D2 x -> D x) -> mem_post D s1 s3 root (f1 ++ f2) l1 l3.
Proof.
  intros [E1 A1 B1 R1 L1 H1 T1 F1] [E2 A2 B2 R2 L2 H2 T2 F2] HD.
  split.
  - by rewrite E1, E2, app_assoc.
  - done.
  - by etransitivity.
  - by rewrite R2, R1, ref_one_app.
  - intros va Hva. rewrite L2, L1 by naive_solver. done.
  - auto.
  - intros x Hx Hn. rewrite not_elem_of_app in Hx. apply T2, T1; naive_solver.
  - intros x [Hx Hxl] Hn. assert (x ∉ f1) by set_solver.
    eapply page_eq_trans; [by apply F1|]. apply F2; [|by apply T1].
    split; [by rewrite (proj1 B1)|set_solver].
Qed.

Lemma walk_mem_post s s' root va fresh l l' : walk_post s s' root va fresh l l' -> mem_post (fun _ => False) s s' root fresh l l'.
Proof.
  intros Hp. pose proof (walk_post_as _ _ _ _ _ _ _ Hp). destruct Hp as [? _ ? ? ? ? ? Hl ? ? ? ?].
  split; try done. intros va' _. by apply Hl; auto with pt.
Qed.

Lemma write_leaf_post s l root va u v : as_wf s l root -> l3_of (mem s) root va u -> 0 <= v < 2 ^ 64 ->
  let s' := mem_store64 (ent (page2kva u) (P3X va)) v s in
  mem_post (eq (VPN va)) s s' root [] l l /\ leaf_pte (mem s') root va = (if pte_valid v then Some v else None).
Proof.
  intros Has Hu Hv s'. destruct (write_leaf s l root va u v Has Hu Hv) as (A & _ & L & O & F & N).
  split; [|done]. split; [done|done|done|done| | |auto|done].
  - intros va' Hne. apply O. congruence.
  - destruct (l3_dram _ _ _ _ _ Has Hu) as (Hud & Hua & _). destruct Has as [Hwf Hok].
    destruct Hu as (t & Ht & Hu). intros va' [N1 N2].
    destruct (ok_l3 _ _ _ Hok _ _ _ _ (P1X_idx va) (P2X_idx va) Ht Hu) as (_ & Hur & Hul).
    assert (forall x i, allocated (npage s) l x -> idx i -> x <> u -> pte (mem s') x i = pte (mem s) x i) as Heq.
    { intros x i Hx Hi Hne. apply pte_store_ne; auto with pt. exact (wf_dram _ _ _ Hwf Hx). }
    pose proof (ok_root _ _ _ Hok) as Hr.
    unfold nohuge, tbl. rewrite !(Heq root) by auto with pt. split; [done|]. intros t' Ht'.
    destruct (ok_l2 _ _ _ Hok _ _ (P1X_idx va') Ht') as [Ht'a _].
    rewrite Heq; [by apply N2|done|auto with pt|]. intros ->. exact (Hul _ (P1X_idx va') Ht').
Qed.

(** ** One page *)

(** The body of the loop of [map_mem]. *)
Lemma map_page s l root va v : as_wf s l root -> nohuge (mem s) root va -> 0 <= v < 2 ^ 64 -> (2 <= length l)%nat ->
  exists s' fresh l', ('(_, pte) ← pgdir_walk (page2kva root) va 1;
      match pte with None => panic | Some pte => write_pte pte v end) s = Ret tt s' /\
    mem_post (eq (VPN va)) s s' root fresh l l' /\ (length fresh <= 2)%nat /\
    leaf_pte (mem s') root va = (if pte_valid v then Some v else None).
Proof.
  intros [Hwf Hok] Hnh Hv Hl. destruct (walk_spec s l root va 1 Hwf Hok Hnh) as (r & s1 & fresh & l1 & E & Hp & Hr).
  pose proof (walk_post_as _ _ _ _ _ _ _ Hp) as Has1.
  destruct Hr as [(_ & ? & _)|[(_ & -> & ? & _)|(t & u & Ht & Hu & _ & ->)]]; [done|lia|].
  destruct (write_leaf_post s1 l1 root va u v Has1) as [Hw Hlf]; [by exists t|done|].
  eexists _, fresh, l1. mrun E. split; [reflexivity|]. split_and!; [| |done].
  - rewrite <- (app_nil_r fresh). eapply mem_post_trans; [by eapply walk_mem_post|exact Hw|]. intros x [[]|?]; done.
  - exact (wp_few _ _ _ _ _ _ _ Hp).
Qed.

(** ** map_mem and unmap_mem *)

Definition page_va (va i : Z) : Z := u64 (va + i * PAGE_SIZE).

(** The virtual pages of [n] pages from [va] on. *)
Definition vpns (va n x : Z) : Prop := exists i, 0 <= i < n /\ x = VPN (page_va va i).

Lemma page_va_vpn va i : VPN (page_va va i) = (va / 4096 + i) mod 2 ^ 27.
Proof.
  rewrite VPN_eq. unfold page_va, u64, PAGE_SIZE. change (2 ^ 64) with (2 ^ 25 * (2 ^ 27 * 2 ^ 12)).
  Z.div_mod_to_equations. lia.
Qed.

(** Fewer than [2^27] pages have different numbers. *)
Lemma page_va_inj va i j : 0 <= i < 2 ^ 27 -> 0 <= j < 2 ^ 27 -> VPN (page_va va i) = VPN (page_va va j) -> i = j.
Proof. rewrite !page_va_vpn. intros. Z.div_mod_to_equations. lia. Qed.

Section map.
Variables (root va n : Z) (Hn : 0 <= n <= 2 ^ 27).

(** The first [i] pages are as [f] says, after changes to these pages only;
    each page took at most [c] pages for tables. *)
Record pages_set (f : Z -> option Z) (c : Z) (s : pmap) (l : list Z) (i : Z) (s' : pmap) (l' : list Z) : Prop := {
  ps_post : exists fresh, mem_post (vpns va n) s s' root fresh l l' /\ Z.of_nat (length fresh) <= c * i;
  ps_done : forall j, 0 <= j < i -> leaf_pte (mem s') root (page_va va j) = f j;
  ps_todo : forall j, i <= j < n -> leaf_pte (mem s') root (page_va va j) = leaf_pte (mem s) root (page_va va j)
}.

Lemma pages_set_step f c s l i s1 l1 s2 l2 fresh : 0 <= i < n -> pages_set f c s l i s1 l1 ->
  mem_post (eq (VPN (page_va va i))) s1 s2 root fresh l1 l2 -> Z.of_nat (length fresh) <= c ->
  leaf_pte (mem s2) root (page_va va i) = f i -> pages_set f c s l (i + 1) s2 l2.
Proof.
  intros Hi [(fr & Hp & Hc) Hd Ht] Hp2 Hc2 Hf. split.
  - exists (fr ++ fresh). split; [|rewrite length_app; lia]. eapply mem_post_trans; [done..|].
    intros x [?|<-]; [done|by exists i].
  - intros j Hj. destruct (Z.eq_dec j i) as [->|]; [done|]. rewrite <- Hd by lia. apply (mp_leaf _ _ _ _ _ _ _ Hp2).
    intros Heq%page_va_inj; lia.
  - intros j Hj. rewrite <- Ht by lia. apply (mp_leaf _ _ _ _ _ _ _ Hp2). intros Heq%page_va_inj; lia.
Qed.

(** A loop that sets one page after the other. *)
Lemma pages_loop f c (body : Z -> M pmap unit) s l : as_wf s l root -> 0 <= c -> c * n <= Z.of_nat (length l) ->
  (forall i s1 l1, 0 <= i < n -> as_wf s1 l1 root -> c <= Z.of_nat (length l1) ->
     leaf_pte (mem s1) root (page_va va i) = leaf_pte (mem s) root (page_va va i) ->
     (nohuge (mem s) root (page_va va i) -> nohuge (mem s1) root (page_va va i)) ->
     exists s2 fresh l2, body i s1 = Ret tt s2 /\ mem_post (eq (VPN (page_va va i))) s1 s2 root fresh l1 l2 /\
       Z.of_nat (length fresh) <= c /\ leaf_pte (mem s2) root (page_va va i) = f i) ->
  exists s' l', mfor (Z.to_nat n) 0 body s = Ret tt s' /\ pages_set f c s l n s' l'.
Proof.
  intros Has Hc Hl Hb.
  destruct (mfor_inv (fun i s1 => exists l1, pages_set f c s l i s1 l1) body (Z.to_nat n) 0 s) as (s' & E & l' & H).
  - exists l. split; [exists []; split; [by apply mem_post_refl|simpl; lia]|lia|done].
  - intros j s1 Hj (l1 & H1). pose proof H1 as [(fr & Hp & Hfr) Hd Ht].
    pose proof (mp_split _ _ _ _ _ _ _ Hp) as Hsp. apply (f_equal length) in Hsp. rewrite length_app in Hsp.
    assert (c * (j + 1) <= c * n) by (apply Z.mul_le_mono_nonneg_l; lia).
    destruct (Hb j s1 l1) as (s2 & fresh & l2 & E2 & Hp2 & Hc2 & Hf); [lia|exact (mp_as _ _ _ _ _ _ _ Hp)|lia| | |].
    + apply Ht. lia.
    + apply (mp_nohuge _ _ _ _ _ _ _ Hp).
    + exists s2. split; [done|]. exists l2. eapply pages_set_step; [|done..]. lia.
  - exists s', l'. split; [done|]. by replace (0 + Z.of_nat (Z.to_nat n)) with n in H by lia.
Qed.
End map.

(** The entry for page [i] of a device's memory at [pa]. *)
Definition dev_pte (pa perm i : Z) : Z := mk_pte (PPN (u64 (pa + i * PAGE_SIZE))) perm.

Lemma dev_pte_ok pa perm i : 0 <= pa + i * PAGE_SIZE < 2 ^ 56 -> 0 <= perm < 1024 -> pte_valid perm = true ->
  0 <= dev_pte pa perm i < 2 ^ 64 /\ pte_valid (dev_pte pa perm i) = true.
Proof.
  intros Ha Hp Hv. assert (0 <= PPN (u64 (pa + i * PAGE_SIZE)) < 2 ^ 44).
  { unfold PPN, PAGE_SHIFT, u64. rewrite Z.shiftr_div_pow2, Z.mod_small by lia.
    split; [apply Z.div_pos; lia|apply Z.div_lt_upper_bound; lia]. }
  split; [by apply mk_pte_bound|]. unfold dev_pte. by rewrite pte_valid_mk.
Qed.

Lemma ROUND_page_count n : 0 <= n <= 2 ^ 27 -> ROUND (n * PAGE_SIZE) PAGE_SIZE / PAGE_SIZE = n.
Proof.
  intros Hn. unfold PAGE_SIZE. rewrite (ROUND_pow2 12) by lia. change (2 ^ 12) with 4096. Z.div_mod_to_equations. lia.
Qed.

(** [map_mem] maps [n] unmapped pages. *)
Lemma map_mem_ok root va pa n perm s l : as_wf s l root -> 0 <= n <= 2 ^ 27 -> va mod PAGE_SIZE = 0 -> pa mod PAGE_SIZE = 0 ->
  0 <= pa -> pa + n * PAGE_SIZE <= 2 ^ 56 ->
  0 <= perm < 1024 -> pte_valid perm = true -> 2 * n <= Z.of_nat (length l) ->
  (forall i, 0 <= i < n -> leaf_pte (mem s) root (page_va va i) = None) ->
  exists s' l', map_mem (page2kva root) va pa (n * PAGE_SIZE) perm s = Ret tt s' /\
    pages_set root va n (fun i => Some (dev_pte pa perm i)) 2 s l n s' l'.
Proof.
  intros Has Hn Hva Hpa Hpa0 Hpa1 Hp Hv Hl Hnone. unfold map_mem. rewrite Hva, Hpa, ROUND_page_count by done. cbn [negb Z.eqb].
  edestruct (pages_loop root va n Hn (fun i => Some (dev_pte pa perm i)) 2) as (s1 & l1 & E & H); [exact Has|lia|done| |].
  2: { mrun E. eexists _, l1. split; [reflexivity|]. destruct H as [(fr & [] & Hc) Hd Ht]. split; [|done..].
       exists fr. split; [split; try done|done]. by apply as_wf_tlb. }
  cbv beta. intros i s1 l1 Hi Has1 Hl1 Heq _. rewrite Hnone in Heq by done.
  destruct (dev_pte_ok pa perm i) as [Hb Hv']; [unfold PAGE_SIZE in *; lia|done|done|].
  destruct (map_page s1 l1 root (page_va va i) (dev_pte pa perm i)) as (s2 & fr & l2 & E2 & Hp2 & Hc & Hlf);
    [done|by apply leaf_none_nohuge|done|lia|]. rewrite Hv' in Hlf. exists s2, fr, l2. split_and!; [exact E2|done|lia|done].
Qed.

(** [unmap_mem] unmaps [n] mapped pages. *)
Lemma unmap_mem_ok root va n s l : as_wf s l root -> 0 <= n <= 2 ^ 27 -> va mod PAGE_SIZE = 0 ->
  (forall i, 0 <= i < n -> leaf_pte (mem s) root (page_va va i) <> None /\ nohuge (mem s) root (page_va va i)) ->
  exists s' l', unmap_mem (page2kva root) va (n * PAGE_SIZE) s = Ret tt s' /\
    pages_set root va n (fun _ => None) 0 s l n s' l'.
Proof.
  intros Has Hn Hva Hsome. unfold unmap_mem. rewrite Hva, ROUND_page_count by done. cbn [negb Z.eqb].
  edestruct (pages_loop root va n Hn (fun _ => None) 0) as (s1 & l1 & E & H); [exact Has|lia|lia| |].
  2: { mrun E. eexists _, l1. split; [reflexivity|]. destruct H as [(fr & [] & Hc) Hd Ht]. split; [|done..].
       exists fr. split; [split; try done|done]. by apply as_wf_tlb. }
  cbv beta. intros i s1 l1 Hi Has1 _ Heq Hnh. destruct (Hsome i Hi) as [Hs Hh].
  destruct (leaf_pte (mem s1) root (page_va va i)) as [e|] eqn:He; [|by rewrite <- Heq in Hs].
  destruct (mapped_l3 _ _ _ _ (Hnh Hh) He) as (u & Hu & _).
  destruct (write_leaf_post s1 l1 root (page_va va i) u 0 Has1 Hu) as [Hp Hlf]; [lia|].
  eexists _, [], l1. change (u64 (va + i * PAGE_SIZE)) with (page_va va i). mrun (walk_l3_of _ _ _ _ 0 _ Has1 Hu). split_and!; [reflexivity|exact Hp|simpl; lia|done].
Qed.

(** ** The window's allocations *)

(** [w_cnt] pages of the window from page [w_off] on, mapped to [w_pa]. *)
Record window := MkWin { w_off : Z; w_cnt : Z; w_pa : Z; w_perm : Z }.

Definition covers (w : window) (i : Z) : Prop := w_off w <= i < w_off w + w_cnt w.
Definition covered (ws : list window) (i : Z) : Prop := Exists (fun w => covers w i) ws.

#[export] Instance covers_dec w i : Decision (covers w i).
Proof. unfold covers. apply _. Defined.
#[export] Instance covered_dec ws i : Decision (covered ws i).
Proof. unfold covered. apply _. Defined.

(** The allocations in [ws] do not overlap, and the words say where they end. *)
Fixpoint apart (ws : list window) : Prop :=
  match ws with
  | [] => True
  | w :: ws => (forall i, covers w i -> ~ covered ws i) /\ apart ws
  end.

Record bmap_rep (b : Z -> Z) (ws : list window) : Prop := {
  br_range : Forall (fun w => 0 <= w_off w /\ 0 < w_cnt w /\ w_off w + w_cnt w <= KMMAP_COUNT) ws;
  br_apart : apart ws;
  br_used : forall w i, w ∈ ws -> covers w i -> b i = w_off w + w_cnt w - i;
  br_free : forall i, 0 <= i < KMMAP_COUNT -> ~ covered ws i -> b i = 0
}.

(** [n] pages from [i] on are free; there has to be a page even for none. *)
Definition fits (ws : list window) (n i : Z) : Prop :=
  0 <= i /\ i + Z.max n 1 <= KMMAP_COUNT /\ forall j, i <= j < i + Z.max n 1 -> ~ covered ws j.

(** The first place for [n] pages. *)
Definition first_fit (ws : list window) (n i : Z) : Prop := fits ws n i /\ forall j, fits ws n j -> i <= j.

Lemma bmap_zero b ws i : bmap_rep b ws -> 0 <= i < KMMAP_COUNT -> b i = 0 <-> ~ covered ws i.
Proof.
  intros [_ _ Hu Hf] Hi. split; [|by apply Hf]. intros H0 (w & Hw & Hc)%Exists_exists.
  rewrite (Hu w i Hw Hc) in H0. unfold covers in Hc. lia.
Qed.

Lemma bmap_free_iff b n : forall j, bmap_free n b j = true <-> forall i, j <= i < j + Z.of_nat n -> b i = 0.
Proof.
  induction n as [|n IH]; intros j; cbn [bmap_free].
  - split; [|done]. intros _ i Hi. lia.
  - destruct (Z.eqb_spec (b j) 0) as [H0|H0]; cbn [negb].
    + rewrite IH. split; intros H i Hi; [|apply H; lia].
      destruct (Z.eq_dec i j) as [->|]; [done|]. apply H. lia.
    + split; [done|]. intros H. exfalso. apply H0, H. lia.
Qed.

(** What the search tests at page [i]. *)
Definition free_at (b : Z -> Z) (n i : Z) : bool := (b i =? 0) && bmap_free (Z.to_nat n) b i.

Lemma free_at_iff b n i : 0 <= n -> free_at b n i = true <-> forall j, i <= j < i + Z.max n 1 -> b j = 0.
Proof.
  intros Hn. unfold free_at. rewrite andb_true_iff, Z.eqb_eq, bmap_free_iff. split.
  - intros [H0 H] j Hj. destruct (Z.eq_dec j i) as [->|]; [done|]. apply H. lia.
  - intros H. split; [apply H; lia|]. intros j Hj. apply H. lia.
Qed.

Lemma kmmap_find_eq n k i : 0 <= i < KMMAP_COUNT ->
  free_at (kmmap_bmap k) n i = true -> (forall j, 0 <= j < i -> free_at (kmmap_bmap k) n j = false) ->
  kmmap_find n k = Ret (Some i) k.
Proof.
  intros Hi Ht Hf. unfold kmmap_find. eapply (mfor_ret_some _ (Z.to_nat i)); [lia| |].
  - intros j Hj. rewrite bind_get. specialize (Hf j ltac:(lia)). unfold free_at in Hf.
    destruct (kmmap_bmap k j =? 0); [|done]. simpl in Hf. by rewrite Hf.
  - rewrite bind_get. replace (0 + Z.of_nat (Z.to_nat i)) with i by lia. unfold free_at in Ht.
    apply andb_true_iff in Ht as [-> ->]. done.
Qed.

(** The search is first fit when there is room. *)
Lemma kmmap_find_ok k ws n j : bmap_rep (kmmap_bmap k) ws -> 0 <= n -> fits ws n j ->
  exists i, kmmap_find n k = Ret (Some i) k /\ first_fit ws n i.
Proof.
  intros Hb Hn Hj. set (b := kmmap_bmap k) in *.
  assert (forall i, i <= j -> 0 <= i -> free_at b n i = true <-> fits ws n i) as Heq.
  { intros i Hij Hi. rewrite free_at_iff by done. destruct Hj as (H0 & H1 & _). unfold fits. split.
    - intros H. split_and!; [done|lia|]. intros x Hx. apply (bmap_zero b ws x Hb); [lia|by apply H].
    - intros (_ & _ & H) x Hx. apply (bmap_zero b ws x Hb); [lia|by apply H]. }
  pose proof Hj as (Hj0 & Hj1 & _).
  destruct (first_index (free_at b n) 0 (Z.to_nat (j + 1))) as [(i & Hi & Ht & Hf)|Hf].
  - rewrite Z.add_0_l in *. exists (Z.of_nat i). split; [apply kmmap_find_eq; [lia|done|exact Hf]|].
    split; [apply Heq; (done || lia)|]. intros x Hx. pose proof Hx as (Hx0 & _).
    destruct (Z.le_gt_cases (Z.of_nat i) x) as [|Hlt]; [done|].
    pose proof (Hf x ltac:(lia)) as Hfx. by rewrite (proj2 (Heq x ltac:(lia) Hx0) Hx) in Hfx.
  - specialize (Hf j ltac:(lia)). by rewrite (proj2 (Heq j ltac:(lia) Hj0) Hj) in Hf.
Qed.

(** A loop that assigns words of the array. *)
Lemma set_bmap_ok off n g k : 0 <= n ->
  exists b, mfor (Z.to_nat n) off (fun i => modify (fun k => set_kmmap_bmap (<[i := g i]> (kmmap_bmap k)) k)) k =
      Ret tt (set_kmmap_bmap b k) /\
    forall i, b i = if decide (off <= i < off + n) then g i else kmmap_bmap k i.
Proof.
  intros Hn. destruct (mfor_inv (fun m k' => exists b, k' = set_kmmap_bmap b k /\
      forall i, b i = if decide (off <= i < m) then g i else kmmap_bmap k i)
    (fun i => modify (fun k => set_kmmap_bmap (<[i := g i]> (kmmap_bmap k)) k)) (Z.to_nat n) off k)
    as (k' & E & b & -> & Hb).
  - exists (kmmap_bmap k). split; [by destruct k|]. intros i. rewrite decide_False by lia. done.
  - intros j s Hj (b & -> & Hb). eexists. split; [reflexivity|]. eexists. split; [reflexivity|].
    intros i. cbn [kmmap_bmap set_kmmap_bmap]. destruct (Z.eq_dec i j) as [->|Hne].
    + by rewrite fn_lookup_insert, decide_True by lia.
    + rewrite fn_lookup_insert_ne by done. rewrite Hb. repeat case_decide; done || lia.
  - exists b. split; [exact E|]. intros i. rewrite Hb. by replace (off + Z.of_nat (Z.to_nat n)) with (off + n) by lia.
Qed.

(** Adding and removing an allocation. *)
Definition add_win (w : window) (ws : list window) : list window := if w_cnt w =? 0 then ws else w :: ws.

Lemma covered_cons w ws i : covered (w :: ws) i <-> covers w i \/ covered ws i.
Proof. apply Exists_cons. Qed.

Lemma covered_add w ws i : 0 <= w_cnt w -> covered (add_win w ws) i <-> covers w i \/ covered ws i.
Proof.
  intros Hw. unfold add_win. destruct (Z.eqb_spec (w_cnt w) 0); [|apply covered_cons].
  split; [by right|]. intros [H|H]; [unfold covers in H; lia|done].
Qed.

Lemma bmap_rep_add b b' w ws : bmap_rep b ws -> 0 <= w_cnt w -> fits ws (w_cnt w) (w_off w) ->
  (forall i, b' i = if decide (covers w i) then w_off w + w_cnt w - i else b i) -> bmap_rep b' (add_win w ws).
Proof.
  intros [Hr Ha Hu Hf] Hw (H0 & H1 & Hfree) Hb'.
  assert (forall i, covers w i -> ~ covered ws i) as Hd by (intros i Hi; apply Hfree; unfold covers in Hi; lia).
  split.
  - unfold add_win. destruct (Z.eqb_spec (w_cnt w) 0); [done|]. constructor; [lia|done].
  - unfold add_win. by destruct (w_cnt w =? 0).
  - intros w' i Hin Hc. rewrite Hb'. unfold add_win in Hin.
    assert (w' = w \/ w' ∈ ws) as [->|Hw'] by (destruct (w_cnt w =? 0); set_solver).
    + by rewrite decide_True.
    + rewrite decide_False; [by apply Hu|]. intros Hc'. apply (Hd i Hc'), Exists_exists. by exists w'.
  - intros i Hi. rewrite covered_add by done. intros Hn. rewrite Hb', decide_False by tauto. apply Hf; tauto.
Qed.

Lemma apart_mid ws1 w ws2 : apart (ws1 ++ w :: ws2) ->
  apart (ws1 ++ ws2) /\ forall i, covers w i -> ~ covered (ws1 ++ ws2) i.
Proof.
  induction ws1 as [|v ws1 IH]; intros [Hv Ha]; simpl; [done|]. destruct (IH Ha) as [IHa IHw].
  unfold covered in *. split; [split; [|done]|].
  - intros i Hi Hc. apply (Hv i Hi). rewrite Exists_app, Exists_cons. rewrite Exists_app in Hc. tauto.
  - intros i Hi. rewrite Exists_cons. intros [Hc|Hc]; [|by apply (IHw i)].
    apply (Hv i Hc). rewrite Exists_app, Exists_cons. tauto.
Qed.

Lemma covered_mid ws1 w ws2 i : covered (ws1 ++ w :: ws2) i <-> covers w i \/ covered (ws1 ++ ws2) i.
Proof. unfold covered. rewrite !Exists_app, Exists_cons. tauto. Qed.

Lemma bmap_rep_remove b b' ws1 w ws2 : bmap_rep b (ws1 ++ w :: ws2) ->
  (forall i, b' i = if decide (covers w i) then 0 else b i) -> bmap_rep b' (ws1 ++ ws2).
Proof.
  intros [Hr Ha Hu Hf] Hb'. destruct (apart_mid _ _ _ Ha) as [Ha' Hd]. split.
  - rewrite Forall_app, Forall_cons in Hr. rewrite Forall_app. tauto.
  - done.
  - intros w' i Hin Hc. rewrite Hb', decide_False; [apply Hu; [set_solver|done]|].
    intros Hw. apply (Hd i Hw), Exists_exists. by exists w'.
  - intros i Hi Hn. rewrite Hb'. case_decide; [done|]. apply Hf; [done|]. rewrite covered_mid. tauto.
Qed.

(** ** The window *)

(** The address of page [i] of the window. *)
Definition kva (i : Z) : Z := KMMAP_BEGIN_VA + i * PAGE_SIZE.

Lemma KMMAP_values : KMMAP_BEGIN_VA = 18446743802589741056 /\ KMMAP_END_VA = KMMAP_BEGIN_VA + KMMAP_COUNT * PAGE_SIZE /\
  KMMAP_COUNT = 262144.
Proof. done. Qed.

Lemma page_va_kva off i : 0 <= off + i < KMMAP_COUNT -> page_va (kva off) i = kva (off + i).
Proof.
  destruct KMMAP_values as (E1 & _ & E2). unfold page_va, kva, u64, PAGE_SIZE. rewrite E1, E2. intros H.
  rewrite Z.mod_small; lia.
Qed.

Lemma kva_aligned i : kva i mod PAGE_SIZE = 0.
Proof. unfold kva. by rewrite Z.mod_add. Qed.

Lemma VPN_kva i : 0 <= i < KMMAP_COUNT -> VPN (kva i) = VPN KMMAP_BEGIN_VA + i.
Proof.
  destruct KMMAP_values as (E1 & _ & E2). rewrite !VPN_eq. unfold kva, PAGE_SIZE. rewrite E1, E2. intros H.
  change (2 ^ 12) with 4096. rewrite Z.div_add by done. change (18446743802589741056 / 4096) with 4503599561179136.
  change (2 ^ 27) with 134217728. Z.div_mod_to_equations. lia.
Qed.

Section window.
Variable root : Z.

(** The invariant of the window while there is no environment: the mappings
    of the kernel's table in the window are those of the allocations [ws]. *)
Record window_ok (k : kernel) (l : list Z) (ws : list window) : Prop := {
  wo_as : as_wf (pm k) l root;
  wo_root : kernel_boot_pgdir k = page2kva root;
  wo_envs : forall i, 0 <= i < NENV -> env_status (envs k i) = ENV_FREE;
  wo_bmap : bmap_rep (kmmap_bmap k) ws;
  wo_mapped : forall w i, w ∈ ws -> 0 <= i < w_cnt w ->
    leaf_pte (mem (pm k)) root (kva (w_off w + i)) = Some (dev_pte (w_pa w) (w_perm w) i);
  wo_free : forall i, 0 <= i < KMMAP_COUNT -> ~ covered ws i -> leaf_pte (mem (pm k)) root (kva i) = None;
  wo_nohuge : forall i, 0 <= i < KMMAP_COUNT -> nohuge (mem (pm k)) root (kva i)
}.

(** Without environments only the kernel's table changes. *)
Lemma boot_loop k f : (forall i, 0 <= i < NENV -> env_status (envs k i) = ENV_FREE) ->
  mfor (Z.to_nat NENV) 0 (fun i =>
    st ← env_get i env_status;
    if negb (st =? ENV_FREE) then pgdir ← env_get i env_pgdir; inpm (f pgdir) else mret tt) k = Ret tt k.
Proof.
  intros He. destruct (mfor_inv (fun _ k' => k' = k) (fun i => st ← env_get i env_status;
    if negb (st =? ENV_FREE) then pgdir ← env_get i env_pgdir; inpm (f pgdir) else mret tt) (Z.to_nat NENV) 0 k)
    as (k' & E & ->); [done| |exact E].
  intros j s Hj ->. exists k. split; [|done]. rewrite env_get_bind, He by (change NENV with 1024 in *; lia). done.
Qed.

Lemma kmap_boot k va pa len perm s : (forall i, 0 <= i < NENV -> env_status (envs k i) = ENV_FREE) ->
  map_mem (kernel_boot_pgdir k) va pa len perm (pm k) = Ret tt s -> kmap va pa len perm k = Ret tt (set_pm s k).
Proof. intros He E. unfold kmap. rewrite bind_get, (bind_inpm _ _ _ _ _ E). by apply boot_loop. Qed.

Lemma kunmap_boot k va len s : (forall i, 0 <= i < NENV -> env_status (envs k i) = ENV_FREE) ->
  unmap_mem (kernel_boot_pgdir k) va len (pm k) = Ret tt s -> kunmap va len k = Ret tt (set_pm s k).
Proof. intros He E. unfold kunmap. rewrite bind_get, (bind_inpm _ _ _ _ _ E). by apply boot_loop. Qed.

(** What an operation on the window leaves of the kernel's state, and of the
    memory: it changes mappings of the window only. *)
Definition window_step (k k' : kernel) (l l' : list Z) : Prop :=
  k' = set_pm (pm k') (set_kmmap_bmap (kmmap_bmap k') k) /\
  exists fresh, mem_post (vpns KMMAP_BEGIN_VA KMMAP_COUNT) (pm k) (pm k') root fresh l l'.

Lemma vpns_window off n x : 0 <= off -> off + n <= KMMAP_COUNT -> vpns (kva off) n x -> vpns KMMAP_BEGIN_VA KMMAP_COUNT x.
Proof.
  intros H0 H1 (i & Hi & ->). exists (off + i). split; [lia|]. rewrite page_va_kva by lia.
  change KMMAP_BEGIN_VA with (kva 0). by rewrite page_va_kva by lia.
Qed.

(** A page of the window outside the pages changed. *)
Lemma mem_post_window off n s s' fresh l l' i : mem_post (vpns (kva off) n) s s' root fresh l l' ->
  0 <= off -> off + n <= KMMAP_COUNT -> 0 <= i < KMMAP_COUNT -> ~ (off <= i < off + n) ->
  leaf_pte (mem s') root (kva i) = leaf_pte (mem s) root (kva i).
Proof.
  intros Hp H0 H1 Hi Hne. apply (mp_leaf _ _ _ _ _ _ _ Hp). intros (j & Hj & E). apply Hne.
  rewrite page_va_kva, !VPN_kva in E by lia. lia.
Qed.

Lemma covers_range ws b w i : bmap_rep b ws -> w ∈ ws -> covers w i -> 0 <= i < KMMAP_COUNT.
Proof.
  intros Hb Hw Hc. destruct (proj1 (Forall_forall _ _) (br_range _ _ Hb) w Hw) as (? & ? & ?). unfold covers in Hc. lia.
Qed.

(** What a change of the pages from [off] on and of the words amounts to. *)
Lemma window_change k b s l l' fresh ws ws' off n : window_ok k l ws ->
  mem_post (vpns (kva off) n) (pm k) s root fresh l l' -> 0 <= off -> off + n <= KMMAP_COUNT -> bmap_rep b ws' ->
  (forall w i, w ∈ ws' -> 0 <= i < w_cnt w ->
     leaf_pte (mem s) root (kva (w_off w + i)) = Some (dev_pte (w_pa w) (w_perm w) i) \/
     w ∈ ws /\ ~ off <= w_off w + i < off + n) ->
  (forall i, 0 <= i < KMMAP_COUNT -> ~ covered ws' i ->
     leaf_pte (mem s) root (kva i) = None \/ ~ covered ws i /\ ~ off <= i < off + n) ->
  let k' := set_pm s (set_kmmap_bmap b k) in window_ok k' l' ws' /\ window_step k k' l l'.
Proof.
  intros [Has Hr He Hb Hm Hf Hh] Hp Ho Hn Hb' Hm' Hf' k'.
  assert (forall i, 0 <= i < KMMAP_COUNT -> ~ off <= i < off + n ->
    leaf_pte (mem s) root (kva i) = leaf_pte (mem (pm k)) root (kva i)) as Hother.
  { intros i Hi Hne. by eapply mem_post_window. }
  pose proof (mp_as _ _ _ _ _ _ _ Hp) as Has'. split; [split; try done|split; [done|]].
  - intros w i Hw Hi. destruct (Hm' w i Hw Hi) as [?|[Hw0 Hne]]; [done|].
    assert (covers w (w_off w + i)) as Hc by (unfold covers; lia).
    change (pm k') with s. rewrite Hother; [by apply Hm|exact (covers_range _ _ _ _ Hb Hw0 Hc)|done].
  - intros i Hi Hc. destruct (Hf' i Hi Hc) as [?|[Hc0 Hne]]; [done|].
    change (pm k') with s. rewrite Hother by done. by apply Hf.
  - intros i Hi. by apply (mp_nohuge _ _ _ _ _ _ _ Hp), Hh.
  - exists fresh. rewrite <- (app_nil_r fresh). eapply mem_post_trans; [exact Hp|exact (mem_post_refl (fun _ => False) _ _ _ Has')|].
    intros x [Hx|[]]. by eapply vpns_window.
Qed.

Lemma kmmap_alloc_ok k l ws n pa perm j : window_ok k l ws -> 0 <= n -> fits ws n j -> 2 * n <= Z.of_nat (length l) ->
  pa mod PAGE_SIZE = 0 -> 0 <= pa -> pa + n * PAGE_SIZE <= 2 ^ 56 -> 0 <= perm < 1024 -> pte_valid perm = true ->
  exists off k' l', kmmap_alloc pa (n * PAGE_SIZE) perm k = Ret (Some (kva off)) k' /\ first_fit ws n off /\
    window_ok k' l' (add_win (MkWin off n pa perm) ws) /\ window_step k k' l l' /\
    (length l <= length l' + 2 * Z.to_nat n)%nat.
Proof.
  intros Hok Hn Hj Hl Hpa Hpa0 Hpa1 Hp Hv. pose proof Hok as [Has Hr He Hb Hm Hf Hh]. destruct KMMAP_values as (E1 & _ & E2).
  destruct (kmmap_find_ok k ws n j Hb Hn Hj) as (off & Ef & Hfit & Hmin). exists off.
  pose proof Hfit as (Ho & Hon & Hfree).
  destruct (set_bmap_ok off n (fun i => u64 (off + n - i)) k Hn) as (b & Eb & Hbi).
  destruct (map_mem_ok root (kva off) pa n perm (pm k) l) as (s & l' & Es & [(fresh & Hs & Hc) Hd _]);
    try (done || lia || apply kva_aligned).
  { intros i Hi. rewrite page_va_kva by lia. apply Hf; [lia|]. apply Hfree. lia. }
  assert (kmap (kva off) pa (n * PAGE_SIZE) perm (set_kmmap_bmap b k) = Ret tt (set_pm s (set_kmmap_bmap b k))) as Ek.
  { apply kmap_boot; [done|]. simpl. by rewrite Hr. }
  exists (set_pm s (set_kmmap_bmap b k)), l'. split; [|split; [done|]].
  - unfold kmmap_alloc. rewrite Z.mod_mul, Z.div_mul by done. cbn [negb Z.eqb]. mrun Ef. mrun Eb.
    replace (u64 _) with (kva off); [by mrun Ek|].
    unfold kva, u64, PAGE_SIZE, PAGE_SHIFT. rewrite Z.shiftl_mul_pow2, E1 by done. change (2 ^ 12) with 4096.
    rewrite (Z.mod_small (off * 4096)), Z.mod_small; lia.
  - pose proof (mp_split _ _ _ _ _ _ _ Hs) as El. apply (f_equal length) in El. rewrite length_app in El.
    destruct (window_change k b s l l' fresh ws (add_win (MkWin off n pa perm) ws) off n) as [H1 H2];
      [done|done|lia|lia| | | |split_and!; [done..|lia]].
    + apply (bmap_rep_add (kmmap_bmap k)); [done..|]. intros i. rewrite Hbi. unfold covers. simpl.
      repeat case_decide; try done. unfold u64. rewrite Z.mod_small; lia.
    + intros w i Hw Hi. unfold add_win in Hw. simpl in Hw.
      assert (w = MkWin off n pa perm \/ w ∈ ws) as [->|Hw'] by (destruct (n =? 0); set_solver).
      * left. simpl in *. rewrite <- page_va_kva by lia. by apply Hd.
      * right. split; [done|]. intros Hx. apply (Hfree (w_off w + i)); [lia|].
        apply Exists_exists. exists w. unfold covers. split; [done|lia].
    + intros i Hi. rewrite covered_add by done. unfold covers. simpl. intros Hnc. right. tauto.
Qed.

Lemma kmmap_free_ok k l ws1 w ws2 : window_ok k l (ws1 ++ w :: ws2) ->
  exists k', kmmap_free (kva (w_off w)) k = Ret tt k' /\ window_ok k' l (ws1 ++ ws2) /\ window_step k k' l l.
Proof.
  intros Hok. pose proof Hok as [Has Hr He Hb Hm Hf Hh]. destruct KMMAP_values as (E1 & E2 & E3).
  assert (w ∈ ws1 ++ w :: ws2) as Hin by set_solver.
  destruct (proj1 (Forall_forall _ _) (br_range _ _ Hb) w Hin) as (Ho & Hc & Hoc).
  set (off := w_off w) in *. set (n := w_cnt w) in *.
  assert (kmmap_bmap k off = n) as Hbo by (rewrite (br_used _ _ Hb w off Hin); unfold covers; fold off n; lia).
  destruct (unmap_mem_ok root (kva off) n (pm k) l) as (s & l' & Es & [(fresh & Hs & Hfl) Hd _]);
    try (done || lia || apply kva_aligned).
  { intros i Hi. rewrite page_va_kva by lia. unfold off at 1. rewrite (Hm w i Hin Hi). split; [done|]. apply Hh. lia. }
  assert (fresh = []) as -> by (destruct fresh; simpl in *; [done|lia]).
  pose proof (mp_split _ _ _ _ _ _ _ Hs) as Hl. simpl in Hl. subst l'.
  assert (kunmap (kva off) (n * PAGE_SIZE) k = Ret tt (set_pm s k)) as Ek by (apply kunmap_boot; [done|by rewrite Hr]).
  destruct (set_bmap_ok off n (fun _ => 0) (set_pm s k)) as (b & Eb & Hbi); [lia|].
  exists (set_pm s (set_kmmap_bmap b k)). split.
  - unfold kmmap_free. rewrite kva_aligned.
    replace (kva off <? _) with false by (symmetry; apply Z.ltb_ge; unfold kva, PAGE_SIZE; lia).
    replace (KMMAP_END_VA <=? kva off) with false by (symmetry; apply Z.leb_gt; unfold kva, PAGE_SIZE in *; lia).
    cbn [orb negb Z.eqb]. rewrite VPN_kva by lia.
    replace (u64 (_ + off - _)) with off by (unfold u64; rewrite Z.mod_small; lia). cbv zeta. rewrite bind_get, Hbo.
    destruct (Z.eqb_spec n 0); [lia|].
    replace (u64 (n * PAGE_SIZE)) with (n * PAGE_SIZE) by (unfold u64, PAGE_SIZE; rewrite Z.mod_small; lia).
    mrun Ek. exact Eb.
  - destruct (apart_mid _ _ _ (br_apart _ _ Hb)) as [_ Ha]. eapply window_change; [exact Hok|exact Hs|lia|lia| | |].
    + eapply bmap_rep_remove; [exact Hb|]. intros i. rewrite Hbi. done.
    + intros w' i Hw' Hi. right. split; [set_solver|]. intros Hx. apply (Ha _ Hx), Exists_exists. exists w'.
      unfold covers. split; [done|lia].
    + intros i Hi Hnc. destruct (decide (covers w i)) as [Hx|Hx].
      * left. unfold covers in Hx. fold off n in Hx. replace i with (off + (i - off)) by lia.
        rewrite <- page_va_kva by lia. apply Hd. lia.
      * right. split; [rewrite covered_mid; tauto|exact Hx].
Qed.
End window.

(** ** Errors *)

Lemma kmmap_free_bad va k : va < KMMAP_BEGIN_VA \/ KMMAP_END_VA <= va \/ va mod PAGE_SIZE <> 0 -> kmmap_free va k = Panic k.
Proof.
  intros H. unfold kmmap_free.
  destruct (Z.ltb_spec va KMMAP_BEGIN_VA), (Z.leb_spec KMMAP_END_VA va); try done. cbn [orb].
  destruct (Z.eqb_spec (va mod PAGE_SIZE) 0); [lia|done].
Qed.

Lemma kmmap_free_none root k l ws i : window_ok root k l ws -> 0 <= i < KMMAP_COUNT -> ~ covered ws i ->
  kmmap_free (kva i) k = Ret tt k.
Proof.
  intros Hok Hi Hc. destruct KMMAP_values as (E1 & E2 & E3). unfold kmmap_free. rewrite kva_aligned.
  replace (kva i <? _) with false by (symmetry; apply Z.ltb_ge; unfold kva, PAGE_SIZE; lia).
  replace (KMMAP_END_VA <=? kva i) with false by (symmetry; apply Z.leb_gt; unfold kva, PAGE_SIZE in *; lia).
  cbn [orb negb Z.eqb]. rewrite VPN_kva by lia.
  replace (u64 (_ + i - _)) with i by (unfold u64; rewrite Z.mod_small; lia). cbv zeta.
  by rewrite bind_get, (br_free _ _ (wo_bmap _ _ _ _ Hok) i Hi Hc).
Qed.

(** The search reads past the end of the array: two pages that start at the
    last page of the window are given out when the word behind it is zero. *)
Lemma kmmap_overrun k : (forall i, 0 <= i < KMMAP_COUNT - 1 -> kmmap_bmap k i <> 0) ->
  kmmap_bmap k (KMMAP_COUNT - 1) = 0 -> kmmap_bmap k KMMAP_COUNT = 0 ->
  kmmap_find 2 k = Ret (Some (KMMAP_COUNT - 1)) k /\ KMMAP_END_VA <= kva (KMMAP_COUNT - 1) + PAGE_SIZE.
Proof.
  intros Hu H1 H2. split; [|done]. destruct KMMAP_values as (_ & _ & E). apply kmmap_find_eq; [lia| |].
  - apply free_at_iff; [lia|]. intros j Hj.
    assert (j = KMMAP_COUNT - 1 \/ j = KMMAP_COUNT) as [-> | ->] by lia; done.
  - intros j Hj. unfold free_at. destruct (Z.eqb_spec (kmmap_bmap k j) 0) as [H0|]; [|done].
    exfalso. apply (Hu j); [lia|done].
Qed.

(** ** The property *)


(** The first kernel: an empty window. *)
Definition kboot : kernel := set_kernel_boot_pgdir (page2kva 0) kdemo.

Lemma kboot_pte i : 0 <= i < KMMAP_COUNT -> pte demo_mem 0 (P1X (kva i)) = 0.
Proof.
  intros Hi. destruct KMMAP_values as (E1 & _ & E2).
  assert (P1X (kva i) <> 0) as H0.
  { rewrite P1X_eq. unfold kva, PAGE_SIZE. rewrite E1. change (2 ^ 30) with 1073741824. Z.div_mod_to_equations. lia. }
  pose proof (P1X_idx (kva i)) as Hx. assert (idx 0) as I0 by (unfold idx; lia).
  unfold demo_mem, demo_mem2, demo_mem1.
  rewrite (pte_store_ne _ 2 0 _ 0), (pte_store_ne _ 1 0 _ 0), (pte_store_ne _ 0 0 _ 0);
    [apply pte_zero|..]; first [exact I0|exact Hx|unfold in_dram; lia|by left|by right; apply not_eq_sym].
Qed.

Lemma kboot_window : window_ok 0 kboot [4; 5; 6] [].
Proof.
  assert (forall i, 0 <= i < KMMAP_COUNT -> leaf_pte demo_mem 0 (kva i) = None) as Hl.
  { intros i Hi. unfold leaf_pte, leaf. by rewrite kboot_pte. }
  split; [exact demo_as|reflexivity|by intros i _| | | |].
  - split; [constructor|done| |done]. intros w i Hw. by apply not_elem_of_nil in Hw.
  - intros w i Hw. by apply not_elem_of_nil in Hw.
  - intros i Hi _. by apply Hl.
  - intros i Hi. by apply leaf_none_nohuge, Hl.
Qed.

Lemma kboot_fits j n : 0 <= j -> j + Z.max n 1 <= KMMAP_COUNT -> fits [] n j.
Proof. intros H0 H1. split_and!; [done..|]. intros i _ H. by inversion H. Qed.

