(* ===== verification/Userspace.v ===== *)
(** kern/tlbex.c, kern/userspace.c and kern/fork.c: allocation on first touch,
    access to user memory, the window on a process's own page tables, and the
    duplication of an address space with copy on write. *)
From S2P Require Import Prelude Queue Mem Mmu Pmap PageTable PageMap Kmalloc Elf Kernel Env.

(** ** Allocation on a page fault *)

Definition passive_alloc (va pgdir asid : Z) : M pmap unit :=
  if va <? UTEMP then panic
  else if (USTACKTOP <=? va) && (va <? USTACKTOP + PAGE_SIZE) then panic
  else if (UENVS <=? va) && (va <? UPAGES) then panic
  else if (UPAGES <=? va) && (va <? UVPT) then panic
  else if (UVPT <=? va) && (va <? ULIM) then panic
  else if ULIM <=? va then panic
  else
    r ← page_alloc;
    match r with
    | inl _ => panic
    | inr p =>
        r ← page_insert pgdir (u16 asid) p va
              (Z.lor (if UTOP <=? va then PTE_RO else PTE_RW) PTE_USER);
        panic_on r
    end.

Definition kernel_passive_alloc (va : Z) : M kernel unit :=
  if (va <? KMALLOC_BEGIN_VA) || (KMALLOC_END_VA <=? va) then panic
  else
    kbp ← get kernel_boot_pgdir;
    inpm (r ← page_alloc;
          match r with
          | inl _ => panic
          | inr p =>
              r ← page_insert kbp 0 p va (Z.lor PTE_RW PTE_GLOBAL);
              panic_on r
          end).

(** ** Access to user memory

    Addresses of the upper half are the kernel's direct map.  Any other address
    is translated by the active page table [cur_pgdir], with the right [fl]
    ([PTE_R] or [PTE_W]) required; the fault of a failed access is raised in
    the kernel, where it ends in [panic]. *)
Definition mmu_translate (fl va : Z) : M kernel Z :=
  if HIGH_ADDR_IMM <=? va then mret va
  else
    pgdir ← get cur_pgdir;
    m ← get (fun k => mem (pm k));
    match leaf_pte m (PPN (PADDR pgdir - LOW_ADDR_IMM)) va with
    | Some e =>
        if Z.land e fl =? 0 then panic
        else mret (u64 (P2KADDR (PTE_ADDR e) + va mod PAGE_SIZE))
    | None => panic
    end.

Definition user_load8 (va : Z) : M kernel Z :=
  a ← mmu_translate PTE_R va;
  get (fun k => load8 (mem (pm k)) a).
Definition user_store8 (va v : Z) : M kernel unit :=
  a ← mmu_translate PTE_W va;
  inpm (modify (fun s => set_mem (store8 (mem s) a v) s)).

Fixpoint user_load (n : nat) (va : Z) : M kernel (list Z) :=
  match n with
  | O => mret []
  | S n => b ← user_load8 va; bs ← user_load n (u64 (va + 1)); mret (b :: bs)
  end.
Fixpoint user_store (va : Z) (l : list Z) : M kernel unit :=
  match l with
  | [] => mret tt
  | b :: bs => user_store8 va b ;; user_store (u64 (va + 1)) bs
  end.

(** [copy_user_space] with a kernel object as the destination: the bytes read.
    The lookup of the kernel object finds the kernel's own mapping. *)
Definition copy_from_user (src : Z) (len : nat) : M kernel (list Z) :=
  c ← get curenv;
  match c with
  | None => panic
  | Some c =>
      pgdir ← env_get c env_pgdir;
      src_pte ← inpm (page_lookup pgdir src);
      match src_pte with
      | None => panic
      | Some _ => user_load len src
      end
  end.

(** [copy_user_space] with a kernel object as the source. *)
Definition copy_to_user (bytes : list Z) (dst : Z) : M kernel unit :=
  c ← get curenv;
  match c with
  | None => panic
  | Some c =>
      pgdir ← env_get c env_pgdir;
      asid ← env_get c env_asid;
      dst_pte ← inpm (page_lookup pgdir dst);
      match dst_pte with
      | None => if ULIM <=? dst then panic else inpm (passive_alloc dst pgdir asid)
      | Some _ => mret tt
      end ;;
      user_store dst bytes
  end.

(** [set_page_table] installs the table in [satp]; the accesses that follow use
    it. *)
Definition set_page_table (asid p1 : Z) : M kernel unit :=
  modify (set_cur_pgdir p1) ;;
  inpm tlb_flush_all.

(** [copy_user_space_to_env] with a kernel object as the source.  The variable
    [cur_pgdir] of the code keeps its value; the switch of [satp] is undone. *)
Definition copy_to_env (e : Z) (bytes : list Z) (dst : Z) : M kernel unit :=
  c ← get curenv;
  c_asid ← get (fun k => match c with Some c => env_asid (envs k c) | None => 0 end);
  c_pgdir ← get cur_pgdir;
  pgdir ← env_get e env_pgdir;
  asid ← env_get e env_asid;
  set_page_table asid pgdir ;;
  dst_pte ← inpm (page_lookup pgdir dst);
  match dst_pte with
  | None => if ULIM <=? dst then panic else inpm (passive_alloc dst pgdir asid)
  | Some _ => mret tt
  end ;;
  user_store dst bytes ;;
  set_page_table c_asid c_pgdir.

(** ** The window on the page tables *)

Definition map_user_vpt (e : Z) : M kernel unit :=
  p1 ← env_get e env_pgdir;
  asid ← env_get e env_asid;
  let uvpt_p1_begin_va := UVPT + Z.shiftr UVPT 9 + Z.shiftr UVPT 18 in
  let uvpt_p2_begin_va := UVPT + Z.shiftr UVPT 9 in
  let ro := Z.lor PTE_RO PTE_USER in
  inpm (
    pp ← pa2page (PADDR p1);
    _ ← page_insert p1 asid pp uvpt_p1_begin_va ro;
    mfor (Z.to_nat (P1X USTACKTOP + 1)) 0 (fun p1x =>
      p1_entry ← read_pte (ent p1 p1x);
      if pte_valid p1_entry then
        let va := uvpt_p2_begin_va + p1x * PAGE_SIZE in
        if va =? uvpt_p1_begin_va then mret tt
        else pp ← pa2page (PTE_ADDR p1_entry); _ ← page_insert p1 asid pp va ro; mret tt
      else mret tt) ;;
    mfor (Z.to_nat (P1X USTACKTOP + 1)) 0 (fun p1x =>
      p1_entry ← read_pte (ent p1 p1x);
      if pte_valid p1_entry then
        let p2_base_addr := P2KADDR (PTE_ADDR p1_entry) in
        mfor 512 0 (fun p2x =>
          p2_entry ← read_pte (ent p2_base_addr p2x);
          if pte_valid p2_entry then
            let va := (p1x * 512 + p2x) * PAGE_SIZE + UVPT in
            if (uvpt_p2_begin_va <=? va) && (va <? uvpt_p2_begin_va + 2 * 1024 * 1024) then mret tt
            else pp ← pa2page (PTE_ADDR p2_entry); _ ← page_insert p1 asid pp va ro; mret tt
          else mret tt)
      else mret tt)).

Definition unmap_user_vpt (e : Z) : M kernel unit :=
  p1 ← env_get e env_pgdir;
  asid ← env_get e env_asid;
  let p1x := P1X UVPT in
  inpm (
    p1_entry ← read_pte (ent p1 p1x);
    let p2_base_addr := P2KADDR (PTE_ADDR p1_entry) in
    mfor 512 0 (fun p2x =>
      p2_entry ← read_pte (ent p2_base_addr p2x);
      if pte_valid p2_entry then
        let p3_base_addr := P2KADDR (PTE_ADDR p2_entry) in
        mfor 512 0 (fun p3x =>
          p3_entry ← read_pte (ent p3_base_addr p3x);
          let vpn := Z.lor (Z.lor (Z.shiftl p1x 18) (Z.shiftl p2x 9)) p3x in
          if pte_valid p3_entry then page_remove p1 asid (u64 (Z.shiftl vpn 12)) else mret tt)
      else mret tt)).

(** ** Fork *)

(** The permissions a page has in both address spaces after a fork. *)
Definition fork_perm (perm : Z) : Z :=
  if negb (Z.land perm PTE_LIBRARY =? 0) then perm
  else if negb (Z.land perm PTE_W =? 0) then Z.lor (Z.ldiff perm PTE_W) PTE_COW
  else perm.

Definition duppage (entry child_pgdir child_asid vpn : Z) : M pmap unit :=
  e ← read_pte entry;
  let new_perm := fork_perm (PTE_FLAGS e) in
  pp ← pa2page (PTE_ADDR e);
  r ← page_insert child_pgdir child_asid pp (u64 (Z.shiftl vpn 12)) new_perm;
  if r <? 0 then panic
  else
    e ← read_pte entry;
    write_pte entry (Z.ldiff e (GENMASK 9 0)) ;;
    e ← read_pte entry;
    write_pte entry (Z.lor e new_perm).

Definition c_or (a b : Z) : Z := if (a =? 0) && (b =? 0) then 0 else 1.

Definition dup_p3 (p3 p1x p2x child_pgdir child_asid : Z) : M pmap unit :=
  mfor_break 512 0 (fun p3x =>
    let current_vpn := Z.lor (Z.lor (u32 (Z.shiftl p1x 18)) (u32 (Z.shiftl p2x 9))) p3x in
    if VPN USTACKTOP <=? current_vpn then mret false
    else
      e3 ← read_pte (ent p3 p3x);
      (if pte_valid e3 then duppage (ent p3 p3x) child_pgdir child_asid current_vpn
       else mret tt) ;;
      mret true).

(** The test of the second loop uses a logical or. *)
Definition dup_p2 (p2 p1x child_pgdir child_asid : Z) : M pmap unit :=
  mfor_break 512 0 (fun p2x =>
    let current_vpn := c_or (u32 (Z.shiftl p1x 18)) (u32 (Z.shiftl p2x 9)) in
    if VPN USTACKTOP <=? current_vpn then mret false
    else
      e2 ← read_pte (ent p2 p2x);
      (if pte_valid e2 then dup_p3 (P2KADDR (PTE_ADDR e2)) p1x p2x child_pgdir child_asid
       else mret tt) ;;
      mret true).

Definition dup_userspace (parent_pgdir child_pgdir child_asid : Z) : M pmap unit :=
  mfor (Z.to_nat (P1X USTACKTOP + 1)) 0 (fun p1x =>
    e1 ← read_pte (ent parent_pgdir p1x);
    if pte_valid e1 then dup_p2 (P2KADDR (PTE_ADDR e1)) p1x child_pgdir child_asid
    else mret tt).

(** ** Access to one page

    What the loads and stores of one page of the running environment do. *)
Record user_page (k : kernel) (root va e : Z) (l : list Z) : Prop := {
  up_as : as_wf (pm k) l root;
  up_cur : cur_pgdir k = page2kva root;
  up_low : 0 <= va < USTACKTOP + P1MAP;
  up_leaf : leaf_pte (mem (pm k)) root va = Some e;
  up_nohuge : nohuge (mem (pm k)) root va;
  up_range : 0 <= pte_page e < npage (pm k);
  up_data : not_table (mem (pm k)) root (pte_page e)
}.

Lemma PADDR_page root : in_dram root -> PPN (PADDR (page2kva root) - LOW_ADDR_IMM) = root.
Proof.
  intros Hr. rewrite page2kva_eq by done. unfold in_dram, PADDR, PPN, PAGE_SHIFT, HIGH_ADDR_OFFSET,
    HIGH_ADDR_IMM, LOW_ADDR_IMM, PAGE_SIZE, u64 in *.
  rewrite Z.mod_small by lia. rewrite Z.shiftr_div_pow2 by done.
  replace (_ - _) with (root * 2 ^ 12) by lia. apply Z.div_mul. lia.
Qed.

Lemma page_offset va n : va mod PAGE_SIZE + n < PAGE_SIZE -> 0 <= n -> 0 <= va ->
  VPN (va + n) = VPN va /\ (va + n) mod PAGE_SIZE = va mod PAGE_SIZE + n.
Proof.
  unfold PAGE_SIZE. intros H Hn Hva. pose proof (Z.div_mod va 4096 ltac:(lia)) as Hd.
  pose proof (Z.mod_pos_bound va 4096 ltac:(lia)) as Hb.
  assert (va + n = va / 4096 * 4096 + (va mod 4096 + n)) as E by lia. split.
  - rewrite !VPN_eq. f_equal. change (2 ^ 12) with 4096. rewrite E at 1.
    rewrite Z.div_add_l, (Z.div_small (_ + n)) by lia. lia.
  - rewrite E at 1. rewrite Z.add_comm, Z.mod_add by lia. apply Z.mod_small. lia.
Qed.

Lemma user_page_same k root va va' e l : user_page k root va e l -> VPN va' = VPN va ->
  0 <= va' < USTACKTOP + P1MAP -> user_page k root va' e l.
Proof.
  intros [Has Hc Hl He Hn Hr Hd] (V1 & V2 & V3)%VPN_indices Hva. split; try done.
  - unfold leaf_pte in *. by rewrite V1, V2, V3.
  - unfold nohuge in *. by rewrite V1, V2.
Qed.

Lemma user_page_next k root va e l : user_page k root va e l -> va mod PAGE_SIZE + 1 < PAGE_SIZE ->
  user_page k root (u64 (va + 1)) e l /\ (u64 (va + 1)) mod PAGE_SIZE = va mod PAGE_SIZE + 1 /\
  VPN (u64 (va + 1)) = VPN va.
Proof.
  intros Hup H. pose proof (up_low _ _ _ _ _ Hup) as Hl.
  assert (va + 1 < USTACKTOP + P1MAP /\ u64 (va + 1) = va + 1) as [Hlow ->].
  { change (USTACKTOP + P1MAP) with (65535998 * 4096) in *. unfold u64. change PAGE_SIZE with 4096 in H.
    pose proof (Z.div_mod va 4096 ltac:(lia)). split; [|apply Z.mod_small; lia].
    assert (va / 4096 < 65535998) by (apply Z.div_lt_upper_bound; lia). lia. }
  destruct (page_offset va 1) as [Hv Ho]; [lia|lia|lia|]. split; [|done].
  apply (user_page_same _ _ va); [done..|lia].
Qed.

Lemma mmu_translate_ok fl k root va e l : user_page k root va e l -> Z.land e fl <> 0 ->
  mmu_translate fl va k = Ret (page2kva (pte_page e) + va mod PAGE_SIZE) k.
Proof.
  intros [Has Hc Hl He Hn Hr Hd] Hfl. pose proof (wf_npage _ _ (as_pm _ _ _ Has)) as Hnp.
  unfold mmu_translate. change (USTACKTOP + P1MAP) with 268435447808 in Hl.
  change HIGH_ADDR_IMM with 18446743798831644672.
  destruct (Z.leb_spec 18446743798831644672 va); [lia|]. rewrite !bind_get, Hc.
  rewrite PADDR_page, He by exact (wf_dram _ _ _ (as_pm _ _ _ Has) (ok_root _ _ _ (as_pt _ _ _ Has))).
  destruct (Z.eqb_spec (Z.land e fl) 0); [done|].
  assert (in_dram (pte_page e)) as Hp by (unfold in_dram; lia).
  rewrite P2KADDR_pte by done. unfold mret, M_ret. f_equal. unfold u64. apply Z.mod_small.
  rewrite page2kva_eq by done. unfold in_dram, HIGH_ADDR_IMM, PAGE_SIZE in *.
  pose proof (Z.mod_pos_bound va 4096 ltac:(lia)). lia.
Qed.

(** A store into the page keeps it usable. *)
Lemma user_page_write k root va e l m' : user_page k root va e l ->
  (forall x, in_dram x -> x <> pte_page e -> page_eq (mem (pm k)) m' x) ->
  user_page (set_pm (set_mem m' (pm k)) k) root va e l.
Proof.
  intros [Has Hc Hl He Hn Hr Hd] Hpe.
  destruct (frame_as _ _ _ _ _ Has Hd Hpe) as (Has' & Hle & Hnt & Hnh).
  split; try done; simpl.
  - by rewrite Hle.
  - by apply Hnh.
  - by apply Hnt.
Qed.

(** The bytes [bs] written from offset [o] of page [p] on. *)
Definition put_bytes (m : memory) (a : Z) (bs : list Z) : memory := fun x =>
  if (a <=? x) && (x <? a + Z.of_nat (length bs)) then nth (Z.to_nat (x - a)) bs 0 else m x.

Lemma user_store_ok bs : forall k root va e l,
  user_page k root va e l -> Z.land e PTE_W <> 0 -> Forall (fun b => 0 <= b < 256) bs ->
  va mod PAGE_SIZE + Z.of_nat (length bs) <= PAGE_SIZE ->
  exists m', user_store va bs k = Ret tt (set_pm (set_mem m' (pm k)) k) /\
    user_page (set_pm (set_mem m' (pm k)) k) root va e l /\
    meq m' (put_bytes (mem (pm k)) (page2kva (pte_page e) + va mod PAGE_SIZE) bs).
Proof.
  induction bs as [|b bs IH]; intros k root va e l Hup Hw Hbs Hlen.
  - exists (mem (pm k)).
    assert (set_pm (set_mem (mem (pm k)) (pm k)) k = k) as -> by by destruct k as [[]].
    split; [done|]. split; [done|]. intros x. unfold put_bytes. cbn [length]. repeat zcase; simpl; done || lia.
  - inversion Hbs as [|? ? Hb Hbs']; subst. cbn [length] in Hlen.
    pose proof (Z.mod_pos_bound va PAGE_SIZE ltac:(unfold PAGE_SIZE; lia)) as Hmb.
    set (a := page2kva (pte_page e) + va mod PAGE_SIZE).
    set (m1 := store8 (mem (pm k)) a b).
    assert (forall x, m1 x = if x =? a then b else mem (pm k) x) as Hm1.
    { intros x. unfold m1. Transparent store. unfold store. Opaque store.
      destruct (Z.eqb_spec x a) as [->|Hne].
      - rewrite Z.leb_refl. destruct (Z.ltb_spec a (a + Z.of_nat 1)); [|lia]. simpl.
        rewrite Z.sub_diag. simpl. rewrite Z.div_1_r. by apply Z.mod_small.
      - repeat zcase; simpl; done || lia. }
    pose proof (wf_npage _ _ (as_pm _ _ _ (up_as _ _ _ _ _ Hup))) as Hnp.
    pose proof (up_range _ _ _ _ _ Hup) as Hr.
    assert (forall x, in_dram x -> x <> pte_page e -> page_eq (mem (pm k)) m1 x) as Hpe.
    { intros x Hx Hne o Ho. rewrite Hm1. destruct (Z.eqb_spec (page2kva x + o) a) as [Heq|]; [|done].
      exfalso. unfold a in Heq. rewrite !page2kva_eq in Heq by (unfold in_dram in *; lia).
      unfold in_dram, PAGE_SIZE in *. lia. }
    pose proof (user_page_write _ _ _ _ _ _ Hup Hpe) as Hup1.
    cbn [user_store]. unfold user_store8. rewrite bind_assoc.
    mrun (mmu_translate_ok PTE_W _ _ _ _ _ Hup Hw). fold a. rewrite bind_inpm_modify. fold m1.
    destruct bs as [|b2 bs].
    + exists m1. split; [done|]. split; [done|]. intros x. rewrite Hm1. unfold put_bytes.
      fold a. cbn [length]. destruct (Z.eqb_spec x a) as [->|Hne].
      * rewrite Z.leb_refl, Z.sub_diag. destruct (Z.ltb_spec a (a + Z.of_nat 1)); [done|lia].
      * repeat zcase; simpl; done || lia.
    + destruct (user_page_next _ _ _ _ _ Hup1) as (Hup2 & Ho2 & Hv2); [simpl in Hlen; lia|].
      destruct (IH _ _ _ _ _ Hup2 Hw Hbs') as (m' & E & Hup' & Hm'); [rewrite Ho2; lia|].
      exists m'. rewrite E. split; [done|]. split.
      * apply (user_page_same _ _ _ va _ _ Hup'); [done|exact (up_low _ _ _ _ _ Hup)].
      * intros x. rewrite Hm'. rewrite Ho2. simpl mem. unfold put_bytes. fold a.
        replace (page2kva (pte_page e) + (va mod PAGE_SIZE + 1)) with (a + 1) by (unfold a; lia).
        rewrite Hm1. cbn [length]. destruct (Z.eqb_spec x a) as [->|Hne].
        -- rewrite Z.leb_refl, Z.sub_diag. destruct (Z.leb_spec (a + 1) a); [lia|].
           destruct (Z.ltb_spec a (a + Z.of_nat (S (S (length bs))))); [done|lia].
        -- repeat zcase; simpl; try done; try lia.
           replace (Z.to_nat (x - a)) with (S (Z.to_nat (x - (a + 1)))) by lia. done.
Qed.

Lemma user_load_ok n : forall k root va e l,
  user_page k root va e l -> Z.land e PTE_R <> 0 ->
  va mod PAGE_SIZE + Z.of_nat n <= PAGE_SIZE ->
  user_load n va k = Ret (map (fun i => u8 (mem (pm k)
    (page2kva (pte_page e) + va mod PAGE_SIZE + Z.of_nat i))) (seq 0 n)) k.
Proof.
  induction n as [|n IH]; intros k root va e l Hup Hr Hlen; [done|].
  cbn [user_load]. unfold user_load8. rewrite bind_assoc.
  mrun (mmu_translate_ok PTE_R _ _ _ _ _ Hup Hr). rewrite bind_get.
  assert (forall a, load8 (mem (pm k)) a = u8 (mem (pm k) a)) as Hl
    by (intros a; change (u8 (mem (pm k) a) + 256 * 0 = u8 (mem (pm k) a)); lia).
  destruct n as [|n].
  - cbn [user_load]. rewrite bind_mret. rewrite Hl. unfold mret, M_ret. simpl. by rewrite Z.add_0_r.
  - destruct (user_page_next _ _ _ _ _ Hup) as (Hup2 & Ho2 & _); [lia|].
    mrun (IH _ _ _ _ _ Hup2 Hr ltac:(rewrite Ho2; lia)). rewrite Hl, Ho2.
    change (seq 0 (S (S n))) with (O :: seq 1 (S n)). rewrite <- seq_shift, map_cons, map_map.
    unfold mret, M_ret. do 2 f_equal; [by rewrite Z.add_0_r|].
    apply map_ext. intros i. do 2 f_equal. lia.
Qed.

Lemma mmu_translate_fault fl k root va e l : user_page k root va e l -> Z.land e fl = 0 ->
  mmu_translate fl va k = Panic k.
Proof.
  intros [Has Hc Hl He Hn Hr Hd] Hfl. unfold mmu_translate. change (USTACKTOP + P1MAP) with 268435447808 in Hl.
  change HIGH_ADDR_IMM with 18446743798831644672.
  destruct (Z.leb_spec 18446743798831644672 va); [lia|]. rewrite !bind_get, Hc.
  rewrite PADDR_page, He by exact (wf_dram _ _ _ (as_pm _ _ _ Has) (ok_root _ _ _ (as_pt _ _ _ Has))).
  by rewrite Hfl.
Qed.

(** The address space of the running environment is active. *)
Record running (k : kernel) (c root : Z) : Prop := {
  rg_cur : curenv k = Some c;
  rg_pgdir : env_pgdir (envs k c) = page2kva root
}.

Lemma copy_to_user_ok bs k c root va e l :
  running k c root -> user_page k root va e l -> Z.land e PTE_W <> 0 ->
  Forall (fun b => 0 <= b < 256) bs -> va mod PAGE_SIZE + Z.of_nat (length bs) <= PAGE_SIZE ->
  exists m', copy_to_user bs va k = Ret tt (set_pm (set_mem m' (pm k)) k) /\
    user_page (set_pm (set_mem m' (pm k)) k) root va e l /\
    meq m' (put_bytes (mem (pm k)) (page2kva (pte_page e) + va mod PAGE_SIZE) bs).
Proof.
  intros [Hc Hp] Hup Hw Hbs Hlen. unfold copy_to_user. rewrite bind_get, Hc, !env_get_bind, Hp.
  destruct (page_lookup_mapped _ _ _ _ _ (up_as _ _ _ _ _ Hup) (up_nohuge _ _ _ _ _ Hup)
    (up_leaf _ _ _ _ _ Hup) (up_range _ _ _ _ _ Hup)) as (u & _ & E).
  rewrite (bind_inpm _ _ _ _ _ E), set_pm_same. rewrite bind_mret.
  by apply user_store_ok.
Qed.

Lemma copy_to_user_fault b bs k c root va e l :
  running k c root -> user_page k root va e l -> Z.land e PTE_W = 0 ->
  copy_to_user (b :: bs) va k = Panic k.
Proof.
  intros [Hc Hp] Hup Hw. unfold copy_to_user. rewrite bind_get, Hc, !env_get_bind, Hp.
  destruct (page_lookup_mapped _ _ _ _ _ (up_as _ _ _ _ _ Hup) (up_nohuge _ _ _ _ _ Hup)
    (up_leaf _ _ _ _ _ Hup) (up_range _ _ _ _ _ Hup)) as (u & _ & E).
  rewrite (bind_inpm _ _ _ _ _ E), set_pm_same. rewrite bind_mret. cbn [user_store].
  apply bind_panic. unfold user_store8. apply bind_panic. by eapply mmu_translate_fault.
Qed.

Lemma copy_from_user_ok n k c root va e l :
  running k c root -> user_page k root va e l -> Z.land e PTE_R <> 0 ->
  va mod PAGE_SIZE + Z.of_nat n <= PAGE_SIZE ->
  copy_from_user va n k = Ret (map (fun i => u8 (mem (pm k)
    (page2kva (pte_page e) + va mod PAGE_SIZE + Z.of_nat i))) (seq 0 n)) k.
Proof.
  intros [Hc Hp] Hup Hr Hlen. unfold copy_from_user. rewrite bind_get, Hc, !env_get_bind, Hp.
  destruct (page_lookup_mapped _ _ _ _ _ (up_as _ _ _ _ _ Hup) (up_nohuge _ _ _ _ _ Hup)
    (up_leaf _ _ _ _ _ Hup) (up_range _ _ _ _ _ Hup)) as (u & _ & E).
  rewrite (bind_inpm _ _ _ _ _ E), set_pm_same. by eapply user_load_ok.
Qed.

(** Reading back what [put_bytes] wrote. *)
Lemma put_bytes_read m m' a bs : meq m' (put_bytes m a bs) -> Forall (fun b => 0 <= b < 256) bs ->
  map (fun i => u8 (m' (a + Z.of_nat i))) (seq 0 (length bs)) = bs.
Proof.
  intros Hm Hbs. apply list_eq. intros i. rewrite list_lookup_fmap.
  destruct (bs !! i) as [b|] eqn:Hb.
  - apply lookup_lt_Some in Hb as Hi. rewrite lookup_seq_lt by done. simpl. rewrite Hm. unfold put_bytes.
    rewrite (proj2 (Z.leb_le _ _)), (proj2 (Z.ltb_lt _ _)) by lia. simpl.
    replace (Z.to_nat (a + Z.of_nat i - a)) with i by lia.
    rewrite <- (nth_lookup_Some _ _ 0 _ Hb) in Hb |- *. 
    rewrite Forall_lookup in Hbs. f_equal. apply Z.mod_small. by eapply Hbs.
  - apply lookup_ge_None in Hb. by rewrite lookup_seq_ge.
Qed.

(** ** The properties *)

(** The addresses at which a touched page is given memory: user addresses but
    for the page that guards the stack. *)
Definition lazy_va (va : Z) : bool :=
  (UTEMP <=? va) && (va <? UTOP) && negb ((USTACKTOP <=? va) && (va <? USTACKTOP + PAGE_SIZE)).

Lemma lazy_va_spec va : lazy_va va = true <->
  4186112 <= va < 267361714176 /\ ~ (267361705984 <= va < 267361710080).
Proof.
  unfold lazy_va. rewrite !andb_true_iff, negb_true_iff, andb_false_iff, Z.leb_le, Z.ltb_lt,
    Z.leb_gt, Z.ltb_ge.
  change UTEMP with 4186112. change UTOP with 267361714176. change USTACKTOP with 267361705984.
  change PAGE_SIZE with 4096. lia.
Qed.

(** The chain of tests of [passive_alloc]. *)
Lemma passive_alloc_eq va pgdir asid s :
  passive_alloc va pgdir asid s =
    if lazy_va va then
      (r ← page_alloc;
       match r with
       | inl _ => panic
       | inr p => r ← page_insert pgdir (u16 asid) p va (Z.lor PTE_RW PTE_USER); panic_on r
       end) s
    else Panic s.
Proof.
  pose proof (lazy_va_spec va) as H. unfold passive_alloc.
  change UTEMP with 4186112. change UTOP with 267361714176. change USTACKTOP with 267361705984.
  change UENVS with 267361714176. change UPAGES with 268435456000. change PAGE_SIZE with 4096.
  change UVPT with 269509197824. change ULIM with 270582939648.
  destruct (lazy_va va).
  - destruct H as [H _]. specialize (H eq_refl). repeat (zcase; try lia; simpl); done.
  - assert (~ (4186112 <= va < 267361714176 /\ ~ (267361705984 <= va < 267361710080))) as Hn
      by (by intros ?%H).
    clear H. repeat (zcase; try lia; simpl); done.
Qed.

(** Memory on first touch.  A touch of an unmapped user address maps one
    new page of zeros there, writable and referenced once, and nothing else
    changes; outside the user's area and in the guard page below the exception
    stack it panics, and so it does when memory runs out.  The read-only
    branch of the code is never taken. *)
Theorem passive_alloc_correct va root asid s l :
  as_wf s l root -> leaf_pte (mem s) root va = None ->
  match lazy_va va, l with
  | true, p :: l' =>
      (exists s1 s', passive_alloc va (page2kva root) asid s = Ret tt s' /\
         private_page s s1 s' root va p (Z.lor PTE_RW PTE_USER) l' /\
         forall o, 0 <= o < PAGE_SIZE -> mem s' (page2kva p + o) = 0) \/
      (exists s', passive_alloc va (page2kva root) asid s = Panic s' /\ (length l' < 2)%nat)
  | _, _ => passive_alloc va (page2kva root) asid s = Panic s
  end.
Proof.
  intros Has Hl. pose proof (leaf_none_nohuge _ _ _ Hl) as Hnh. rewrite passive_alloc_eq. destruct (lazy_va va); [|done]. destruct l as [|p l'].
  { by mrun (page_alloc_none s (as_pm _ _ _ Has)). }
  destruct (page_alloc_fresh s p l' root va Has Hnh) as (s1 & E1 & Hf & Hz).
  { intros e. by rewrite Hl. }
  destruct (fresh_insert s s1 p l' root (u16 asid) va (Z.lor PTE_RW PTE_USER) Hf) as (r & s' & E & Hor).
  { split; [done|by vm_compute]. }
  mrun E1. mrun E. destruct Hor as [[-> Hp]|[-> (Hs & _)]].
  - left. exists s1, s'. split_and!; [done..|]. intros o Ho.
    rewrite (pv_page _ _ _ _ _ _ _ _ Hp) by done. by apply Hz.
  - right. by exists s'.
Qed.

Lemma passive_alloc_correct_witness :
  lazy_va 0x400000 = true /\
  ((exists s1 s', passive_alloc 0x400000 (page2kva 0) 1 demo = Ret tt s' /\
      private_page demo s1 s' 0 0x400000 4 (Z.lor PTE_RW PTE_USER) [5; 6] /\
      forall o, 0 <= o < PAGE_SIZE -> mem s' (page2kva 4 + o) = 0) \/
   (exists s', passive_alloc 0x400000 (page2kva 0) 1 demo = Panic s' /\ (length [5; 6] < 2)%nat)).
Proof.
  split; [reflexivity|].
  apply (passive_alloc_correct 0x400000 0 1 demo [4; 5; 6]).
  - apply demo_as.
  - vm_compute. reflexivity.
Defined.
