(* ===== verification/Fork.v ===== *)
(** kern/fork.c: the duplication of an address space gives the child the
    parent's pages, with copy on write on both sides. *)
From S2P Require Import Prelude Queue Mem Mmu Pmap PageTable PageMap Kmalloc Elf Kernel Env Userspace.

(** ** Flags *)

(** The assignments [*entry &= ~GENMASK(9, 0); *entry |= f]. *)
Definition with_flags (e f : Z) : Z := Z.lor (Z.ldiff e (GENMASK 9 0)) f.

Lemma with_flags_eq e f : 0 <= f < 1024 -> with_flags e f = e / 1024 * 1024 + f.
Proof.
  intros Hf. unfold with_flags. change (GENMASK 9 0) with (Z.ones 10).
  rewrite Z.ldiff_ones_r, lor_shiftl, (Z.shiftr_div_pow2 e 10) by (done || lia). done.
Qed.

Lemma with_flags_bound e f : 0 <= e < 2 ^ 64 -> 0 <= f < 1024 -> 0 <= with_flags e f < 2 ^ 64.
Proof.
  intros He Hf. rewrite with_flags_eq by done. pose proof (Z.mul_div_le e 1024 ltac:(lia)).
  assert (0 <= e / 1024 < 2 ^ 54); [|lia].
  split; [apply Z.div_pos; lia|apply Z.div_lt_upper_bound; lia].
Qed.

Lemma PTE_FLAGS_with e f : 0 <= f < 1024 -> PTE_FLAGS (with_flags e f) = f.
Proof.
  intros Hf. unfold PTE_FLAGS. rewrite (land_ones' _ 10), with_flags_eq by done.
  change (2 ^ 10) with 1024. rewrite Z.add_comm, Z.mod_add by lia. apply Z.mod_small. lia.
Qed.

Lemma pte_page_with e f : 0 <= f < 1024 -> pte_page (with_flags e f) = pte_page e.
Proof.
  intros Hf. unfold pte_page. rewrite !PTE_ADDR_eq, with_flags_eq by done.
  by rewrite Z.div_add_l, (Z.div_small f), Z.add_0_r by lia.
Qed.

Lemma PTE_FLAGS_bound e : 0 <= PTE_FLAGS e < 1024.
Proof. unfold PTE_FLAGS. rewrite (land_ones' _ 10) by done. apply Z.mod_pos_bound. lia. Qed.

Lemma fork_perm_bound f : 0 <= f < 1024 -> 0 <= fork_perm f < 1024.
Proof.
  intros Hf. unfold fork_perm. destruct (_ =? 0); [|done]. destruct (_ =? 0); [done|]. simpl.
  apply (lor_bound _ _ 10); [lia| |by vm_compute]. rewrite Z.ldiff_land. by apply (land_bound _ _ 10).
Qed.

(** A child never gets a right to write a page that both can see, except to
    library pages. *)
Lemma fork_perm_not_writable f : 0 <= f ->
  Z.land f PTE_LIBRARY = 0 -> Z.land (fork_perm f) PTE_W = 0.
Proof.
  intros Hf HL. unfold fork_perm. rewrite HL. simpl.
  destruct (Z.eqb_spec (Z.land f PTE_W) 0) as [|Hw]; simpl; [done|].
  rewrite Z.land_lor_distr_l. replace (Z.land PTE_COW PTE_W) with 0 by reflexivity.
  rewrite Z.lor_0_r. apply Z.bits_inj'. intros n Hn.
  rewrite Z.land_spec, Z.ldiff_spec, Z.bits_0. by destruct (Z.testbit f n), (Z.testbit PTE_W n).
Qed.

(** ** One page *)

(** Pages that are in use and are no tables of the child. *)
Definition own (s : pmap) (l : list Z) (croot x : Z) : Prop :=
  allocated (npage s) l x /\ not_table (mem s) croot x.

Definition vpn (i j k : Z) : Z := (i * 512 + j) * 512 + k.

Lemma vpn_inj i j k i' j' k' : idx j -> idx k -> idx j' -> idx k' ->
  vpn i j k = vpn i' j' k' -> i = i' /\ j = j' /\ k = k'.
Proof. unfold vpn, idx. lia. Qed.

Lemma vpn_va i j k : idx i -> idx j -> idx k ->
  let va := u64 (Z.shiftl (vpn i j k) 12) in P1X va = i /\ P2X va = j /\ P3X va = k.
Proof.
  unfold idx, vpn, u64. intros Hi Hj Hk. rewrite Z.shiftl_mul_pow2 by done.
  rewrite (Z.mod_small (_ * _)) by lia. rewrite P1X_eq, P2X_eq, P3X_eq.
  change (2 ^ 30) with (2 ^ 12 * 512 * 512). change (2 ^ 21) with (2 ^ 12 * 512).
  rewrite <- !Z.div_div, Z.div_mul, !Z.div_add_l, (Z.div_small k) by lia.
  rewrite Z.add_0_r, Z.div_add_l, (Z.div_small j), Z.add_0_r by lia.
  rewrite !(Z.add_comm (_ * 512)), !Z.mod_add, !Z.mod_small by lia. done.
Qed.

Record dup_step (s s' : pmap) (l l' : list Z) (croot u i j k e : Z) : Prop := {
  ds_as : as_wf s' l' croot;
  ds_np : npage s' = npage s;
  ds_leaf : forall i' j' k', idx i' -> idx j' -> idx k' -> leaf (mem s') croot i' j' k' =
    if decide ((i', j', k') = (i, j, k)) then Some (new_pte (pte_page e) (fork_perm (PTE_FLAGS e)))
    else leaf (mem s) croot i' j' k';
  ds_entry : forall k', idx k' -> pte (mem s') u k' =
    if decide (k' = k) then with_flags e (fork_perm (PTE_FLAGS e)) else pte (mem s) u k';
  ds_frame : forall x, own s l croot x -> x <> u -> page_eq (mem s) (mem s') x;
  ds_own : forall x, own s l croot x -> own s' l' croot x;
  ds_ref : forall x, own s l croot x -> pp_ref s' x =
    if decide (x = pte_page e) then pp_ref s x + 1 else pp_ref s x
}.

(** Memory ran out: fewer pages than a new path of tables needs are left. *)
Definition out_of_memory (croot : Z) (s : pmap) : Prop :=
  exists l, as_wf s l croot /\ (length l < 2)%nat.

Lemma duppage_ok s l croot casid u i j k :
  let e := pte (mem s) u k in
  idx i -> idx j -> idx k -> as_wf s l croot -> leaf (mem s) croot i j k = None ->
  own s l croot u -> pte_valid e = true -> own s l croot (pte_page e) ->
  pp_ref s (pte_page e) < 2 ^ 16 - 1 ->
  runs (duppage (ent (page2kva u) k) (page2kva croot) casid (vpn i j k) s)
    (fun _ s' => exists l', dup_step s s' l l' croot u i j k e) (out_of_memory croot).
Proof.
  intros e Hi Hj Hk Has Hl [Hua Hun] He [Hpa Hpn] Href.
  pose proof (wf_npage _ _ (as_pm _ _ _ Has)) as Hn.
  destruct (vpn_va i j k Hi Hj Hk) as (V1 & V2 & V3). set (va := u64 _) in *.
  assert (leaf_pte (mem s) croot va = None) as Hlva by (unfold leaf_pte; by rewrite V1, V2, V3).
  pose proof (fork_perm_bound _ (PTE_FLAGS_bound e)) as Hperm. set (f := fork_perm (PTE_FLAGS e)) in *.
  assert (0 <= e < 2 ^ 64) as Heb by apply load64_bound.
  unfold duppage, read_pte. rewrite bind_get. fold (pte (mem s) u k). fold e. fold f.
  mrun (pa2page_pte s e (proj1 Hpa) ltac:(lia)). fold va.
  destruct (page_insert_ok s l croot casid (pte_page e) va f) as (r & s1 & E & Hor); try done.
  { by apply leaf_none_nohuge. } { intros e'. by rewrite Hlva. }
  mrun E. destruct Hor as [[-> Hi1]|[-> Hf]]; simpl.
  2: { exists l. split; [exact (insf_wf _ _ _ _ _ _ Hf)|exact (insf_short _ _ _ _ _ _ Hf)]. }
  fold (pte (mem s1) u k).
  assert (forall x, own s l croot x -> page_eq (mem s) (mem s1) x) as Hfr
    by (intros x [? ?]; by apply (ins_frame _ _ _ _ _ _ _ _ Hi1)).
  assert (pte (mem s1) u k = e) as He1 by (by apply page_eq_pte; [|apply Hfr]).
  rewrite He1. set (w := Z.ldiff e (GENMASK 9 0)).
  assert (0 <= w < 2 ^ 64) as Hw.
  { unfold w. rewrite Z.ldiff_land. by apply (land_bound _ _ 64). }
  rewrite load64_store64_same by done. fold (with_flags e f).
  set (s2 := mem_store64 _ _ _).
  destruct (ins_wf _ _ _ _ _ _ _ _ Hi1) as (fresh & l' & Hfree & Has1 & Hr1 & _).
  unfold insert_free in Hfree. rewrite Hlva in Hfree. subst l.
  destruct (ins_boot _ _ _ _ _ _ _ _ Hi1) as [Hnp _].
  pose proof (wf_dram _ _ _ (as_pm _ _ _ Has) Hua) as Hud.
  assert (not_table (mem s1) croot u) as Hun1 by by apply (ins_tables _ _ _ _ _ _ _ _ Hi1).
  assert (forall x, in_dram x -> x <> u -> page_eq (mem s1) (mem s2) x) as Hp2.
  { intros x Hx Hne. eapply page_eq_trans; by apply store_page_eq. }
  destruct (frame_as s1 (mem s2) l' croot u Has1 Hun1 Hp2) as (Has2 & Hl2 & Hn2 & _).
  exists l'. split; try done.
  - intros i' j' k' Hi' Hj' Hk'. destruct (vpn_va i' j' k' Hi' Hj' Hk') as (W1 & W2 & W3).
    specialize (Hl2 (u64 (Z.shiftl (vpn i' j' k') 12))). unfold leaf_pte in Hl2.
    rewrite W1, W2, W3 in Hl2. rewrite Hl2. destruct (decide ((i', j', k') = (i, j, k))) as [[= -> -> ->]|Hne].
    + pose proof (ins_leaf _ _ _ _ _ _ _ _ Hi1) as H. unfold leaf_pte in H. by rewrite V1, V2, V3 in H.
    + pose proof (ins_others _ _ _ _ _ _ _ _ Hi1 (u64 (Z.shiftl (vpn i' j' k') 12))) as H.
      unfold leaf_pte in H. rewrite W1, W2, W3 in H. apply H. rewrite VPN_indices, V1, V2, V3, W1, W2, W3.
      intros (-> & -> & ->). done.
  - intros k' Hk'. unfold s2. simpl. destruct (decide (k' = k)) as [->|Hne].
    + apply pte_store_eq, with_flags_bound; done.
    + rewrite !pte_store_ne; try done; [|by right|by right]. apply page_eq_pte; [done|]. by apply Hfr.
  - intros x Hx Hne. eapply page_eq_trans; [by apply Hfr|]. apply Hp2; [|done].
    exact (wf_dram _ _ _ (as_pm _ _ _ Has) (proj1 Hx)).
  - intros x [[Hx Hxl] Hxn]. split.
    + split; [simpl; by rewrite Hnp|set_solver].
    + apply Hn2. by apply (ins_tables _ _ _ _ _ _ _ _ Hi1).
  - intros x [[Hx Hxl] Hxn]. simpl. rewrite Hr1. unfold insert_refs. rewrite Hlva.
    destruct (decide (x = pte_page e)) as [->|Hne].
    + by rewrite fn_lookup_insert.
    + rewrite fn_lookup_insert_ne by done. apply ref_one_notin. set_solver.
Qed.

(** ** The whole address space *)

Definition UP1 : Z := P1X USTACKTOP + 1.
Definition uidx (i : Z) : Prop := 0 <= i < UP1.

Lemma UP1_eq : UP1 = 249.
Proof. by vm_compute. Qed.

Lemma uidx_idx i : uidx i -> idx i.
Proof. unfold uidx, idx. rewrite UP1_eq. lia. Qed.

(** [u] is the third-level table of [root] for the user indices [i], [j]. *)
Definition l3_at (m : memory) (root i j u : Z) : Prop :=
  uidx i /\ idx j /\ exists t, tbl m root i = Some t /\ tbl m t j = Some u.

(** The user part of the parent's page table is a tree of pages that the child
    does not use as tables; every page is mapped once. *)
Record parent_ok (s : pmap) (l : list Z) (proot croot : Z) : Prop := {
  po_root : own s l croot proot;
  po_l2 : forall i t, uidx i -> tbl (mem s) proot i = Some t -> own s l croot t;
  po_l3 : forall i j u, l3_at (mem s) proot i j u -> own s l croot u /\ u <> proot /\
    forall i', uidx i' -> tbl (mem s) proot i' <> Some u;
  po_inj : forall i j u i' j', l3_at (mem s) proot i j u -> l3_at (mem s) proot i' j' u -> i = i' /\ j = j';
  po_nohuge : forall i j, uidx i -> idx j ->
    (pte_valid (pte (mem s) proot i) = true -> PTE_IS_NON_LEAF (pte (mem s) proot i) = true) /\
    (forall t, tbl (mem s) proot i = Some t -> pte_valid (pte (mem s) t j) = true ->
       PTE_IS_NON_LEAF (pte (mem s) t j) = true);
  po_page : forall i j k u, l3_at (mem s) proot i j u -> idx k -> pte_valid (pte (mem s) u k) = true ->
    let p := pte_page (pte (mem s) u k) in
    own s l croot p /\ pp_ref s p < 2 ^ 16 - 1 /\
    forall i' j', ~ l3_at (mem s) proot i' j' p;
  po_once : forall i j k u i' j' k' u', l3_at (mem s) proot i j u -> idx k ->
    pte_valid (pte (mem s) u k) = true ->
    l3_at (mem s) proot i' j' u' -> idx k' -> pte_valid (pte (mem s) u' k') = true ->
    pte_page (pte (mem s) u k) = pte_page (pte (mem s) u' k') -> (i, j, k) = (i', j', k')
}.

(** The pages below [v] have been duplicated; none at or above the stack top
    ever is. *)
Definition dup_done (v x : Z) : bool := (x <? v) && (x <? VPN USTACKTOP).

Definition child_entry (e : Z) : Z := new_pte (pte_page e) (fork_perm (PTE_FLAGS e)).
Definition parent_entry (e : Z) : Z := with_flags e (fork_perm (PTE_FLAGS e)).

(** The state of the duplication before page [v]. *)
Record dup_inv (s0 : pmap) (l0 : list Z) (proot croot v : Z) (s : pmap) (l : list Z) : Prop := {
  di_as : as_wf s l croot;
  di_own : forall x, own s0 l0 croot x -> own s l croot x;
  di_frame : forall x, own s0 l0 croot x -> (forall i j, ~ l3_at (mem s0) proot i j x) ->
    page_eq (mem s0) (mem s) x;
  di_l3 : forall i j k u, l3_at (mem s0) proot i j u -> idx k -> pte (mem s) u k =
    let e := pte (mem s0) u k in
    if dup_done v (vpn i j k) && pte_valid e then parent_entry e else e;
  di_child : forall i j k, uidx i -> idx j -> idx k -> leaf (mem s) croot i j k =
    if dup_done v (vpn i j k) then option_map child_entry (leaf (mem s0) proot i j k) else None;
  di_ref : forall i j k u, l3_at (mem s0) proot i j u -> idx k ->
    pte_valid (pte (mem s0) u k) = true ->
    let p := pte_page (pte (mem s0) u k) in
    pp_ref s p = pp_ref s0 p + if dup_done v (vpn i j k) then 1 else 0
}.

Section dup.
Context (s0 : pmap) (l0 : list Z) (proot croot casid : Z).
Hypothesis Hpar : parent_ok s0 l0 proot croot.
Hypothesis Hempty : forall i j k, uidx i -> idx j -> idx k -> leaf (mem s0) croot i j k = None.

Let inv v s := exists l, dup_inv s0 l0 proot croot v s l.

Lemma inv_eq v v' s :
  (forall i j k, uidx i -> idx j -> idx k -> dup_done v (vpn i j k) = dup_done v' (vpn i j k)) ->
  inv v s -> inv v' s.
Proof.
  intros Heq [l [? ? ? H1 H2 H3]]. exists l. split; try done.
  - intros i j k u Hu Hk. rewrite <- Heq by (done || apply Hu). by apply H1.
  - intros i j k Hi Hj Hk. rewrite <- Heq by done. by apply H2.
  - intros i j k u Hu Hk. rewrite <- Heq by (done || apply Hu). by apply H3.
Qed.

(** Pages that the parent does not map need no work. *)
Lemma inv_skip v v' s : v <= v' ->
  (forall i j k, uidx i -> idx j -> idx k -> v <= vpn i j k < v' -> leaf (mem s0) proot i j k = None) ->
  inv v s -> inv v' s.
Proof.
  intros Hv Hnone [l [? ? ? H1 H2 H3]]. exists l.
  assert (forall x, dup_done v x = dup_done v' x \/ dup_done v x = false /\ v <= x < v') as Hd.
  { intros x. unfold dup_done. repeat zcase; simpl; auto; lia. }
  assert (forall i j k u, l3_at (mem s0) proot i j u -> idx k -> v <= vpn i j k < v' ->
    pte_valid (pte (mem s0) u k) = false) as Hinv.
  { intros i j k u (Hi & Hj & t & Ht & Hu) Hk Hx. specialize (Hnone i j k Hi Hj Hk Hx).
    rewrite (leaf_l3 _ _ _ _ _ _ _ Ht Hu) in Hnone. by destruct (pte_valid _). }
  split; try done.
  - intros i j k u Hu Hk. rewrite (H1 i j) by done. simpl.
    destruct (Hd (vpn i j k)) as [->|[-> Hx]]; [done|]. by rewrite (Hinv _ _ _ _ Hu Hk Hx), !andb_false_r.
  - intros i j k Hi Hj Hk. rewrite H2 by done.
    destruct (Hd (vpn i j k)) as [->|[-> Hx]]; [done|]. rewrite Hnone by done. by destruct (dup_done _ _).
  - intros i j k u Hu Hk He. simpl. rewrite (H3 i j k u) by done.
    destruct (Hd (vpn i j k)) as [->|[-> Hx]]; [done|]. by rewrite (Hinv _ _ _ _ Hu Hk Hx) in He.
Qed.

(** One page that the parent maps. *)
Lemma dup_page_ok i j k u s : l3_at (mem s0) proot i j u -> idx k ->
  vpn i j k < VPN USTACKTOP -> pte_valid (pte (mem s0) u k) = true ->
  inv (vpn i j k) s ->
  runs (duppage (ent (page2kva u) k) (page2kva croot) casid (vpn i j k) s)
    (fun _ => inv (vpn i j k + 1)) (out_of_memory croot).
Proof.
  intros Hu Hk Hx He [l [Has Hown Hfr H1 H2 H3]].
  destruct (po_l3 _ _ _ _ Hpar _ _ _ Hu) as (Huo & _).
  destruct (po_page _ _ _ _ Hpar _ _ _ _ Hu Hk He) as (Hpo & Href & _).
  pose proof Hu as (Hi & Hj & t & Ht & Htu).
  assert (forall v, dup_done v v = false) as Hdd by (intros v; unfold dup_done; by rewrite Z.ltb_irrefl).
  assert (pte (mem s) u k = pte (mem s0) u k) as Ee by (rewrite (H1 i j) by done; simpl; by rewrite Hdd).
  assert (forall x, dup_done (vpn i j k + 1) x = if decide (x = vpn i j k) then true else dup_done (vpn i j k) x) as Hd1.
  { intros x. unfold dup_done. case_decide as Hc; [subst x|]; repeat zcase; simpl; done || lia. }
  pose proof (duppage_ok s l croot casid u i j k) as Hdp. cbv zeta in Hdp. rewrite Ee in Hdp.
  eapply runs_mono; [apply Hdp|]; clear Hdp; auto using uidx_idx.
  { rewrite H2 by done. by rewrite Hdd. }
  { rewrite (H3 i j) by done. rewrite Hdd. lia. }
  intros _ s' [l' [Das Dnp Dl De Df Do Dr]]. exists l'. split; auto.
  - intros x Hxo Hxl. eapply page_eq_trans; [by apply Hfr|]. apply Df; [by apply Hown|].
    intros ->. by apply (Hxl i j).
  - intros i' j' k' u' Hu' Hk'. pose proof Hu' as (Hi' & Hj' & _). simpl. rewrite Hd1.
    destruct (decide (u' = u)) as [->|Hne].
    + destruct (po_inj _ _ _ _ Hpar _ _ _ _ _ Hu Hu') as [<- <-]. rewrite De by done.
      destruct (decide (k' = k)) as [->|Hk2]; [by rewrite decide_True, He|].
      rewrite decide_False; [by apply (H1 i j)|]. intros (_ & _ & ?)%vpn_inj; done.
    + destruct (po_l3 _ _ _ _ Hpar _ _ _ Hu') as (Huo' & _).
      rewrite (page_eq_pte (mem s)), (H1 i' j') by (done || apply Df; auto).
      rewrite decide_False; [done|]. intros (-> & -> & ->)%vpn_inj; try done.
      destruct Hu' as (_ & _ & t' & Ht' & Hu'). apply Hne. congruence.
  - intros i' j' k' Hi' Hj' Hk'. rewrite Dl, Hd1 by auto using uidx_idx.
    destruct (decide ((i', j', k') = (i, j, k))) as [[= -> -> ->]|Hne].
    + rewrite decide_True by done. by rewrite (leaf_l3 _ _ _ _ _ _ _ Ht Htu), He.
    + rewrite decide_False; [by apply H2|]. intros (-> & -> & ->)%vpn_inj; done.
  - intros i' j' k' u' Hu' Hk' He'. pose proof Hu' as (Hi' & Hj' & _). simpl.
    destruct (po_page _ _ _ _ Hpar _ _ _ _ Hu' Hk' He') as (Hpo' & _).
    rewrite Dr by by apply Hown. rewrite (H3 i' j' k' u') by done. rewrite Hd1.
    destruct (decide (pte_page (pte (mem s0) u' k') = pte_page (pte (mem s0) u k))) as [Heq|Hne].
    + pose proof (po_once _ _ _ _ Hpar _ _ _ _ _ _ _ _ Hu' Hk' He' Hu Hk He Heq) as [= -> -> ->].
      rewrite decide_True, Hdd by done. lia.
    + rewrite decide_False; [done|]. intros (-> & -> & ->)%vpn_inj; try done.
      destruct Hu' as (_ & _ & t' & Ht' & Hu'). assert (u' = u) as -> by congruence. done.
Qed.

Lemma cur_vpn_eq i j k : uidx i -> idx j -> idx k ->
  Z.lor (Z.lor (u32 (Z.shiftl i 18)) (u32 (Z.shiftl j 9))) k = vpn i j k.
Proof.
  intros Hi Hj Hk. apply uidx_idx in Hi as Hi'. unfold idx, vpn, u32 in *.
  rewrite (Z.shiftl_mul_pow2 i), (Z.shiftl_mul_pow2 j) by done.
  rewrite !Z.mod_small by lia. rewrite <- (Z.shiftl_mul_pow2 i), lor_shiftl by lia.
  replace (i * 2 ^ 18 + j * 2 ^ 9) with (Z.shiftl (i * 512 + j) 9) by (rewrite Z.shiftl_mul_pow2; lia).
  rewrite lor_shiftl by lia. done.
Qed.

Lemma inv_same_l3 i j k u v s : l3_at (mem s0) proot i j u -> idx k -> vpn i j k = v ->
  inv v s -> pte (mem s) u k = pte (mem s0) u k.
Proof.
  intros Hu Hk <- [l H]. rewrite (di_l3 _ _ _ _ _ _ _ H i j) by done. simpl.
  unfold dup_done. by rewrite Z.ltb_irrefl.
Qed.

Lemma inv_same x i v s : own s0 l0 croot x -> (forall i j, ~ l3_at (mem s0) proot i j x) -> idx i ->
  inv v s -> pte (mem s) x i = pte (mem s0) x i.
Proof. intros Hx Hn Hi [l H]. apply page_eq_pte; [done|]. by apply (di_frame _ _ _ _ _ _ _ H). Qed.

Lemma own_P2KADDR e v s : own s0 l0 croot (pte_page e) -> inv v s ->
  P2KADDR (PTE_ADDR e) = page2kva (pte_page e).
Proof.
  intros Ho [l H]. apply P2KADDR_pte. destruct (di_own _ _ _ _ _ _ _ H _ Ho) as [Hal _].
  exact (wf_dram _ _ _ (as_pm _ _ _ (di_as _ _ _ _ _ _ _ H)) Hal).
Qed.

Lemma dup_p3_ok i j u s : l3_at (mem s0) proot i j u -> inv (vpn i j 0) s ->
  runs (dup_p3 (page2kva u) i j (page2kva croot) casid s)
    (fun _ => inv (vpn i (j + 1) 0)) (out_of_memory croot).
Proof.
  intros Hu Hinv0. pose proof Hu as (Hi & Hj & t & Ht & Htu). unfold dup_p3.
  apply (mfor_break_runs (fun k => inv (vpn i j k))); [exact Hinv0| |].
  - intros k s' Hk Hinv. assert (idx k) as Hk' by (unfold idx; lia).
    rewrite cur_vpn_eq by done. destruct (Z.leb_spec (VPN USTACKTOP) (vpn i j k)) as [Hge|Hlt].
    { simpl. eapply inv_eq; [|exact Hinv]. intros i' j' k' _ _ _. unfold dup_done.
      assert (vpn i j k <= vpn i (j + 1) 0) by (unfold vpn, idx in *; lia).
      repeat zcase; simpl; done || lia. }
    unfold read_pte. rewrite bind_get. fold (pte (mem s') u k).
    rewrite (inv_same_l3 i j k u _ s' Hu Hk' eq_refl Hinv).
    replace (vpn i j (k + 1)) with (vpn i j k + 1) by (unfold vpn; lia).
    destruct (pte_valid (pte (mem s0) u k)) eqn:He.
    + eapply runs_bind; [by apply dup_page_ok|]. intros a s2 H2. exact H2.
    + rewrite bind_mret. simpl. eapply inv_skip; [| |exact Hinv]; [lia|].
      intros i' j' k' Hi' Hj' Hk2 Hx. assert (vpn i' j' k' = vpn i j k) as Heq by lia.
      apply vpn_inj in Heq as (-> & -> & ->); try done.
      by rewrite (leaf_l3 _ _ _ _ _ _ _ Ht Htu), He.
  - intros s'. by replace (vpn i (j + 1) 0) with (vpn i j (0 + Z.of_nat 512)) by (unfold vpn; lia).
Qed.

Lemma dup_p2_ok i t s : uidx i -> tbl (mem s0) proot i = Some t -> inv (vpn i 0 0) s ->
  runs (dup_p2 (page2kva t) i (page2kva croot) casid s)
    (fun _ => inv (vpn (i + 1) 0 0)) (out_of_memory croot).
Proof.
  intros Hi Ht Hinv0. unfold dup_p2.
  apply (mfor_break_runs (fun j => inv (vpn i j 0))); [exact Hinv0| |].
  - intros j s' Hj Hinv. assert (idx j) as Hj' by (unfold idx; lia).
    assert (VPN USTACKTOP <=? c_or (u32 (Z.shiftl i 18)) (u32 (Z.shiftl j 9)) = false) as ->.
    { unfold c_or. change (VPN USTACKTOP) with 65273854. by destruct (_ && _). }
    unfold read_pte. rewrite bind_get. fold (pte (mem s') t j).
    rewrite (inv_same t j (vpn i j 0) s' (po_l2 _ _ _ _ Hpar _ _ Hi Ht)); [|..|exact Hinv]; [|..|done].
    2: { intros i' j' Hl. destruct (po_l3 _ _ _ _ Hpar _ _ _ Hl) as (_ & _ & Hno). by apply (Hno i). }
    destruct (po_nohuge _ _ _ _ Hpar i j Hi Hj') as [_ Hnl].
    destruct (pte_valid (pte (mem s0) t j)) eqn:He.
    + assert (l3_at (mem s0) proot i j (pte_page (pte (mem s0) t j))) as Hu.
      { split_and!; [done..|]. exists t. split; [done|]. unfold tbl. by rewrite He, (Hnl t Ht He). }
      destruct (po_l3 _ _ _ _ Hpar _ _ _ Hu) as (Huo & _).
      rewrite (own_P2KADDR _ (vpn i j 0) s' Huo Hinv). eapply runs_bind; [by apply dup_p3_ok|].
      intros a s2 H2. exact H2.
    + rewrite bind_mret. simpl. eapply inv_skip; [| |exact Hinv]; [unfold vpn; lia|].
      intros i' j' k' Hi' Hj2 Hk2 Hx.
      assert (i' = i /\ j' = j) as [-> ->] by (unfold vpn, idx in *; lia).
      by apply (leaf_unmapped2 _ _ _ _ _ t).
  - intros s'. by replace (vpn (i + 1) 0 0) with (vpn i (0 + Z.of_nat 512) 0) by (unfold vpn; lia).
Qed.

Lemma dup_userspace_ok l : as_wf s0 l croot -> l = l0 ->
  runs (dup_userspace (page2kva proot) (page2kva croot) casid s0)
    (fun _ => inv (vpn UP1 0 0)) (out_of_memory croot).
Proof.
  intros Has ->. unfold dup_userspace. fold UP1.
  replace (vpn UP1 0 0) with (vpn (0 + Z.of_nat (Z.to_nat UP1)) 0 0) by (f_equal; rewrite UP1_eq; done).
  apply (mfor_runs (fun i => inv (vpn i 0 0))).
  - exists l0. assert (forall i j k, uidx i -> idx j -> idx k -> dup_done (vpn 0 0 0) (vpn i j k) = false) as Hd.
    { intros i j k Hi Hj Hk. unfold dup_done, vpn, uidx, idx in *. zcase; [lia|done]. }
    split; try done.
    + intros i j k u (Hi & Hj & _) Hk. by rewrite Hd.
    + intros i j k Hi Hj Hk. rewrite Hd by done. by apply Hempty.
    + intros i j k u (Hi & Hj & _) Hk _. simpl. rewrite Hd by done. lia.
  - intros i s Hi Hinv. rewrite UP1_eq in Hi. assert (uidx i) as Hi' by (unfold uidx; rewrite UP1_eq; lia).
    unfold read_pte. rewrite bind_get. fold (pte (mem s) proot i).
    rewrite (inv_same proot i (vpn i 0 0) s (po_root _ _ _ _ Hpar)); [|..|exact Hinv]; [|..|by apply uidx_idx].
    2: { intros i' j' Hl. by destruct (po_l3 _ _ _ _ Hpar _ _ _ Hl) as (_ & ? & _). }
    destruct (po_nohuge _ _ _ _ Hpar i 0 Hi') as [Hnl _]; [unfold idx; lia|].
    destruct (pte_valid (pte (mem s0) proot i)) eqn:He.
    + assert (tbl (mem s0) proot i = Some (pte_page (pte (mem s0) proot i))) as Ht
        by (unfold tbl; by rewrite He, (Hnl eq_refl)).
      rewrite (own_P2KADDR _ (vpn i 0 0) s (po_l2 _ _ _ _ Hpar _ _ Hi' Ht) Hinv). by apply dup_p2_ok.
    + simpl. eapply inv_skip; [| |exact Hinv]; [unfold vpn; lia|].
      intros i' j' k' Hi2 Hj2 Hk2 Hx. assert (i' = i) as -> by (unfold vpn, idx in *; lia).
      unfold leaf. by rewrite He.
Qed.

Lemma parent_entry_valid e : pte_valid (parent_entry e) = pte_valid e.
Proof.
  assert (forall x, Z.land x PTE_V = x mod 2) as Hl by (intros x; by apply (land_ones' x 1)).
  assert (forall x y, x mod 2 = y mod 2 -> pte_valid x = pte_valid y) as Hv
    by (intros x y H; unfold pte_valid; by rewrite !Hl, H).
  apply Hv. unfold parent_entry. pose proof (PTE_FLAGS_bound e) as Hb.
  rewrite with_flags_eq by by apply fork_perm_bound.
  replace (e / 1024 * 1024) with (e / 1024 * 512 * 2) by lia. rewrite Z.add_comm, Z.mod_add by lia.
  transitivity (PTE_FLAGS e mod 2).
  - rewrite <- !(Z.bit0_mod). f_equal. unfold fork_perm.
    destruct (_ =? 0); [|done]. destruct (_ =? 0); [done|]. cbn [negb].
    rewrite Z.lor_spec, Z.ldiff_spec. change (Z.testbit PTE_W 0) with false.
    change (Z.testbit PTE_COW 0) with false. by rewrite orb_false_r, andb_true_r.
  - unfold PTE_FLAGS. rewrite (land_ones' _ 10) by done. by apply (mod_mod_pow2 e 1 10).
Qed.

Lemma inv_parent i j k v s : uidx i -> idx j -> idx k -> inv v s ->
  leaf (mem s) proot i j k =
    if dup_done v (vpn i j k) then option_map parent_entry (leaf (mem s0) proot i j k)
    else leaf (mem s0) proot i j k.
Proof.
  intros Hi Hj Hk Hinv. apply uidx_idx in Hi as Hi0.
  assert (pte (mem s) proot i = pte (mem s0) proot i) as E1.
  { apply (inv_same proot i v s (po_root _ _ _ _ Hpar)); [|done|done].
    intros i' j' Hl. by destruct (po_l3 _ _ _ _ Hpar _ _ _ Hl) as (_ & ? & _). }
  assert (forall t, tbl (mem s0) proot i = Some t -> pte (mem s) t j = pte (mem s0) t j) as E2.
  { intros t Ht. apply (inv_same t j v s (po_l2 _ _ _ _ Hpar _ _ Hi Ht)); [|done|done].
    intros i' j' Hl. destruct (po_l3 _ _ _ _ Hpar _ _ _ Hl) as (_ & _ & Hno). by apply (Hno i). }
  destruct (po_nohuge _ _ _ _ Hpar i j Hi Hj) as [N1 N2].
  assert (tbl (mem s) proot i = tbl (mem s0) proot i) as T1 by by apply tbl_ext.
  destruct (tbl (mem s0) proot i) as [t|] eqn:Ht.
  - assert (tbl (mem s) t j = tbl (mem s0) t j) as T2 by by apply tbl_ext, E2.
    destruct (tbl (mem s0) t j) as [u|] eqn:Hu.
    + rewrite !(leaf_l3 _ _ _ _ _ t u) by done. destruct Hinv as [l H].
      rewrite (di_l3 _ _ _ _ _ _ _ H i j) by (first [done|split_and!; [done..|by exists t]]). simpl.
      destruct (dup_done _ _); [|done]. destruct (pte_valid (pte (mem s0) u k)) eqn:He; simpl.
      * by rewrite parent_entry_valid, He.
      * by rewrite He.
    + assert (pte_valid (pte (mem s0) t j) = false) as He.
      { destruct (pte_valid (pte (mem s0) t j)) eqn:He; [|done].
        unfold tbl in Hu. by rewrite He, (N2 t eq_refl He) in Hu. }
      rewrite !(leaf_unmapped2 _ _ _ _ _ t) by (done || by rewrite E2). by destruct (dup_done _ _).
  - assert (pte_valid (pte (mem s0) proot i) = false) as He.
    { destruct (pte_valid (pte (mem s0) proot i)) eqn:He; [|done].
      unfold tbl in Ht. by rewrite He, (N1 eq_refl) in Ht. }
    unfold leaf. rewrite E1, He. by destruct (dup_done _ _).
Qed.
End dup.

(** Below the stack top, the child maps what the parent maps. *)
Record forked (s s' : pmap) (proot croot : Z) : Prop := {
  fk_child : forall va, 0 <= va < USTACKTOP ->
    leaf_pte (mem s') croot va = option_map child_entry (leaf_pte (mem s) proot va);
  fk_parent : forall va, 0 <= va < USTACKTOP ->
    leaf_pte (mem s') proot va = option_map parent_entry (leaf_pte (mem s) proot va);
  fk_page : forall va e, 0 <= va < USTACKTOP -> leaf_pte (mem s) proot va = Some e ->
    page_eq (mem s) (mem s') (pte_page e) /\ pp_ref s' (pte_page e) = pp_ref s (pte_page e) + 1
}.

Lemma user_va va : 0 <= va < USTACKTOP ->
  uidx (P1X va) /\ dup_done (vpn UP1 0 0) (vpn (P1X va) (P2X va) (P3X va)) = true.
Proof.
  intros Hva. pose proof (PnX_bound va) as Hb.
  assert (vpn (P1X va) (P2X va) (P3X va) < VPN USTACKTOP) as Hlt.
  { unfold vpn. rewrite <- VPN_split, VPN_eq. change (VPN USTACKTOP) with 65273854.
    change USTACKTOP with (65273854 * 2 ^ 12) in Hva. rewrite Z.mod_small.
    - apply Z.div_lt_upper_bound; lia.
    - split; [apply Z.div_pos; lia|]. apply Z.div_lt_upper_bound; lia. }
  change (VPN USTACKTOP) with 65273854 in *. unfold uidx, dup_done. rewrite UP1_eq.
  change (VPN USTACKTOP) with 65273854. unfold vpn in *. split; [lia|]. repeat zcase; simpl; done || lia.
Qed.

Lemma mapped_user s l proot croot va e : parent_ok s l proot croot -> 0 <= va < USTACKTOP ->
  leaf_pte (mem s) proot va = Some e ->
  exists u, l3_at (mem s) proot (P1X va) (P2X va) u /\ pte (mem s) u (P3X va) = e /\ pte_valid e = true.
Proof.
  intros Hp Hva He. destruct (user_va va Hva) as [Hi _].
  destruct (leaf_pte_l3 (mem s) proot va e) as (t & u & Ht & Hu & Hue & V); [|done|].
  - apply (po_nohuge _ _ _ _ Hp _ _ Hi (P2X_idx va)).
  - exists u. split; [|done]. split; [done|]. split; [exact (P2X_idx va)|by exists t].
Qed.

(** ** A concrete fork

    The address space of [demo] forked into an empty one whose directory is
    page 7. *)
Lemma demo_pte t i : in_dram t -> idx i -> pte demo_mem t i =
  if decide (t = 0 /\ i = 0) then mk_pte (page2ppn 1) PTE_V
  else if decide (t = 1 /\ i = 0) then mk_pte (page2ppn 2) PTE_V
  else if decide (t = 2 /\ i = 0) then new_pte 3 PTE_RW else 0.
Proof.
  intros Ht Hi. assert (idx 0) as I0 by (unfold idx; lia).
  assert (forall n, 0 <= n < 8 -> in_dram n) as Hd by (unfold in_dram; lia).
  unfold demo_mem, demo_mem2, demo_mem1.
  destruct (decide (t = 2 /\ i = 0)) as [[-> ->]|H2].
  { rewrite !decide_False by lia. apply pte_store_eq. split; vm_compute; [discriminate|reflexivity]. }
  rewrite (pte_store_ne _ 2 0) by (first [done|by apply Hd|lia]).
  destruct (decide (t = 1 /\ i = 0)) as [[-> ->]|H1].
  { rewrite decide_False by lia. apply pte_store_eq. split; vm_compute; [discriminate|reflexivity]. }
  rewrite (pte_store_ne _ 1 0) by (first [done|by apply Hd|lia]).
  destruct (decide (t = 0 /\ i = 0)) as [[-> ->]|H0]; [apply pte_store_eq; split; vm_compute; [discriminate|reflexivity]|].
  rewrite (pte_store_ne _ 0 0) by (first [done|by apply Hd|lia]). apply pte_zero.
Qed.

Lemma demo_pte_valid t i : in_dram t -> idx i -> pte_valid (pte demo_mem t i) = true ->
  0 <= t < 3 /\ i = 0.
Proof. intros Ht Hi. rewrite demo_pte by done. repeat case_decide; try lia. done. Qed.

Lemma demo_l3_at i j u : l3_at demo_mem 0 i j u -> i = 0 /\ j = 0 /\ u = 2.
Proof.
  intros (Hi & Hj & t & Ht & Hu). apply uidx_idx in Hi.
  assert (in_dram 0 /\ in_dram 1) as [D0 D1] by (unfold in_dram; lia).
  pose proof (tbl_valid _ _ _ _ Ht) as (V1 & _ & Et). apply demo_pte_valid in V1 as [_ ->]; [|done..].
  assert (t = 1) as -> by (rewrite Et; vm_compute; reflexivity).
  pose proof (tbl_valid _ _ _ _ Hu) as (V2 & _ & Eu). apply demo_pte_valid in V2 as [_ ->]; [|done..].
  split_and!; [done..|]. rewrite Eu. vm_compute. reflexivity.
Qed.

Lemma demo_tbl7 i : idx i -> tbl demo_mem 7 i = None.
Proof.
  intros Hi. apply tbl_invalid. rewrite demo_pte by (done || unfold in_dram; lia).
  by rewrite !decide_False by lia.
Qed.

Lemma demo_child : as_wf demo [4; 5; 6] 7.
Proof.
  split; [exact (as_pm _ _ _ demo_as)|].
  split; [by apply demo_allocated; right|..]; intros *; intros; by rewrite demo_tbl7 in *.
Qed.

Lemma demo_own x : 0 <= x <= 3 -> own demo [4; 5; 6] 7 x.
Proof.
  intros Hx. split; [split; [simpl; lia|rewrite !elem_of_cons, elem_of_nil; lia]|].
  split_and!; [lia|..]; intros *; intros; by rewrite demo_tbl7 in *.
Qed.

Lemma demo_parent : parent_ok demo [4; 5; 6] 0 7.
Proof.
  assert (forall n, 0 <= n < 8 -> in_dram n) as Hd by (unfold in_dram; lia).
  assert (forall k, idx k -> pte_valid (pte demo_mem 2 k) = true -> k = 0) as Hk2.
  { intros k Hk Hv. by apply demo_pte_valid in Hv as [_ ?]; [|apply Hd|]. }
  assert (forall i t, idx i -> tbl demo_mem 0 i = Some t -> i = 0 /\ t = 1) as Ht0.
  { intros i t Hi Ht. pose proof (tbl_valid _ _ _ _ Ht) as (V & _ & ->).
    apply demo_pte_valid in V as [_ ->]; [|by apply Hd|done]. split; [done|]. vm_compute. reflexivity. }
  split.
  - by apply demo_own.
  - intros i t Hi Ht. apply Ht0 in Ht as [_ ->]; [by apply demo_own|by apply uidx_idx].
  - intros i j u (-> & -> & ->)%demo_l3_at. split_and!; [by apply demo_own|done|].
    intros i' Hi' Ht. apply Ht0 in Ht as [_ ?]; [done|by apply uidx_idx].
  - intros i j u i' j' (-> & -> & ->)%demo_l3_at (-> & -> & _)%demo_l3_at. done.
  - intros i j Hi Hj. apply uidx_idx in Hi. split.
    + intros (_ & ->)%demo_pte_valid; [by vm_compute|by apply Hd|done].
    + intros t Ht. apply Ht0 in Ht as [-> ->]; [|done].
      intros (_ & ->)%demo_pte_valid; [by vm_compute|by apply Hd|done].
  - intros i j k u (-> & -> & ->)%demo_l3_at Hk Hv. apply Hk2 in Hv as ->; [|done].
    assert (pte_page (pte (mem demo) 2 0) = 3) as -> by (vm_compute; reflexivity).
    simpl. split_and!; [by apply demo_own|vm_compute; reflexivity|].
    by intros i' j' (_ & _ & ?)%demo_l3_at.
  - intros i j k u i' j' k' u' (-> & -> & ->)%demo_l3_at Hk Hv (-> & -> & ->)%demo_l3_at Hk' Hv' _.
    apply Hk2 in Hv as ->; [|done]. by apply Hk2 in Hv' as ->.
Qed.

(** ** The property *)

(** C12: [fork] shares memory.  Below the stack top, the child maps the pages
    that the parent maps, with the same rights except that a page which was
    writable and is not a library page is copy-on-write in both; every page
    shared keeps its contents and gains one reference.  The only other outcome
    is the [panic] when no page is left for the child's tables. *)
Theorem dup_userspace_correct s l proot croot casid :
  as_wf s l croot -> parent_ok s l proot croot ->
  (forall i j k, uidx i -> idx j -> idx k -> leaf (mem s) croot i j k = None) ->
  runs (dup_userspace (page2kva proot) (page2kva croot) casid s)
    (fun _ s' => (exists l', as_wf s' l' croot) /\ forked s s' proot croot)
    (out_of_memory croot).
Proof.
  intros Has Hp He. eapply runs_mono; [by apply (dup_userspace_ok s l proot croot casid Hp He l)|].
  intros a s' Hinv. pose proof Hinv as [l' H].
  split; [exists l'; exact (di_as _ _ _ _ _ _ _ H)|]. split.
  - intros va Hva. destruct (user_va va Hva) as [Hi Hd]. unfold leaf_pte.
    rewrite (di_child _ _ _ _ _ _ _ H) by eauto with pt. by rewrite Hd.
  - intros va Hva. destruct (user_va va Hva) as [Hi Hd]. unfold leaf_pte.
    rewrite (inv_parent s l proot croot Hp _ _ _ (vpn UP1 0 0)) by eauto with pt. by rewrite Hd.
  - intros va e Hva Hl. destruct (user_va va Hva) as [Hi Hd].
    destruct (mapped_user s l proot croot va e Hp Hva Hl) as (u & Hu & <- & V).
    pose proof (P3X_idx va) as Hk.
    destruct (po_page _ _ _ _ Hp _ _ _ _ Hu Hk V) as (Ho & _ & Hno). split.
    + by apply (di_frame _ _ _ _ _ _ _ H).
    + rewrite (di_ref _ _ _ _ _ _ _ H _ _ _ _ Hu Hk V). by rewrite Hd.
Qed.

Lemma dup_userspace_correct_witness :
  leaf_pte (mem demo) 0 0 = Some (new_pte 3 PTE_RW) /\
  runs (dup_userspace (page2kva 0) (page2kva 7) 1 demo)
    (fun _ s' => (exists l', as_wf s' l' 7) /\ forked demo s' 0 7) (out_of_memory 7).
Proof.
  split; [apply demo_leaf|]. apply (dup_userspace_correct demo [4; 5; 6] 0 7 1).
  - apply demo_child.
  - apply demo_parent.
  - intros i j k Hi Hj Hk. unfold leaf. change (mem demo) with demo_mem.
    rewrite (demo_pte 7 i) by (first [by apply uidx_idx|unfold in_dram; lia]).
    by rewrite !decide_False by lia.
Defined.
