(* ===== verification/Plic.v ===== *)
(** kern/plic.c, kern/interrupt.c, kern/env_interrupt.c and kern/traps.c: the
    interrupt controller, interrupts delivered to user environments, page
    faults and copy on write.

    The trap frame a handler works on is [ktf]; where a handler gets a trap
    frame it only reads, the frame is an argument. *)
From S2P Require Import Prelude Queue Mem Mmu Pmap PageTable PageMap Kmalloc Elf Kernel Env Sched.
From S2P Require Import Device Userspace.

(** ** The interrupt controller *)

Definition PLIC_INTERRUPT_SOURCE_PRIORIY_OFFSET : Z := 0x000000.
Definition PLIC_INTERRUPT_ENABLE_CONTEXT_1_OFFSET : Z := 0x002080.
Definition PLIC_PRIORITY_THRESHOLD_CONTEXT_1_OFFSET : Z := 0x201000.
Definition PLIC_CLAIM_CONTEXT_1_OFFSET : Z := 0x201004.

(** [if (plic_device == NULL) panic] *)
Definition plic : M kernel Device :=
  d ← get plic_device;
  match d with Some d => mret d | None => panic end.

Definition plic_check (interrupt_code : Z) : M kernel unit :=
  n ← get plic_interrupt_count;
  if n <=? interrupt_code then panic else mret tt.

Definition plic_get_prority_threshold : M kernel Z :=
  d ← plic; base ← get plic_base_pa;
  ioread32 d (u64 (base + PLIC_PRIORITY_THRESHOLD_CONTEXT_1_OFFSET)).

Definition plic_set_prority_threshold (threshold : Z) : M kernel unit :=
  d ← plic; base ← get plic_base_pa;
  iowrite32 d threshold (u64 (base + PLIC_PRIORITY_THRESHOLD_CONTEXT_1_OFFSET)).

Definition plic_get_interrupt_code : M kernel Z :=
  d ← plic; base ← get plic_base_pa;
  ioread32 d (u64 (base + PLIC_CLAIM_CONTEXT_1_OFFSET)).

Definition plic_mark_finish (interrupt_code : Z) : M kernel unit :=
  d ← plic;
  plic_check interrupt_code ;;
  base ← get plic_base_pa;
  iowrite32 d interrupt_code (u64 (base + PLIC_CLAIM_CONTEXT_1_OFFSET)).

Definition plic_set_prority (interrupt_code prority : Z) : M kernel unit :=
  d ← plic;
  plic_check interrupt_code ;;
  base ← get plic_base_pa;
  iowrite32 d prority
    (u64 (base + PLIC_INTERRUPT_SOURCE_PRIORIY_OFFSET + u32 (interrupt_code * 4))).

Definition plic_enable_interrupt (interrupt_code prority : Z) (handler : plic_handler) : M kernel unit :=
  d ← plic;
  plic_check interrupt_code ;;
  modify (fun k => set_interrupt_handler (<[interrupt_code := Some handler]> (interrupt_handler k)) k) ;;
  let byte_offset := interrupt_code / 32 in
  let offset := interrupt_code mod 32 in
  base ← get plic_base_pa;
  let enable_register_va := u64 (base + PLIC_INTERRUPT_ENABLE_CONTEXT_1_OFFSET + byte_offset) in
  previous ← ioread32 d enable_register_va;
  iowrite32 d (Z.lor previous (Z.shiftl 1 offset)) enable_register_va ;;
  plic_set_prority interrupt_code prority.

Definition plic_get_interrupt_count : M kernel Z :=
  _ ← plic; get plic_interrupt_count.

(** ** kern/interrupt.c *)

Definition register_interrupt_handler (interrupt_code : Z) (h : irq_handler) : M kernel unit :=
  if 64 <=? interrupt_code then panic
  else modify (fun k =>
    set_interrupt_handler_map (<[interrupt_code := Some h]> (interrupt_handler_map k)) k).

Definition enable_interrupt (interrupt_code : Z) : M kernel unit :=
  modify (fun k => set_sie_csr (Z.lor (sie_csr k) interrupt_code) k).
Definition disable_interrupt (interrupt_code : Z) : M kernel unit :=
  modify (fun k => set_sie_csr (Z.ldiff (sie_csr k) interrupt_code) k).

(** ** Interrupts of user environments *)

Definition MAX_INTERRUPT : Z := 1024.

Definition register_env_interrupt (interrupt_code e handler_va : Z) : M kernel unit :=
  if MAX_INTERRUPT <=? interrupt_code then panic
  else if (handler_va <? UTEMP) || (USTACKTOP <=? handler_va) then panic
  else
    upd_env e (set_handler_function_va handler_va) ;;
    id ← env_get e env_id;
    modify (fun k =>
      set_interrupt_code_to_envid (<[interrupt_code := id]> (interrupt_code_to_envid k)) k).

(** A trap frame as the 38 words it occupies, and back. *)
Definition tf_words (t : trapframe) : list Z :=
  map (fun i => regs t (Z.of_nat i)) (seq 0 32) ++
  [sstatus t; badvaddr t; scause t; sepc t; sip t; sie t].
Definition words_tf (w : list Z) : trapframe :=
  let f i := nth i w 0 in
  Trapframe (fun i => if (0 <=? i) && (i <? 32) then f (Z.to_nat i) else 0)
    (f 32%nat) (f 33%nat) (f 34%nat) (f 35%nat) (f 36%nat) (f 37%nat).

Definition word_bytes (w : Z) : list Z := map (fun i => (w / 256 ^ Z.of_nat i) mod 256) (seq 0 8).
Definition tf_bytes (t : trapframe) : list Z := concat (map word_bytes (tf_words t)).

Definition bytes_word (l : list Z) : Z := foldr (fun b acc => b + 256 * acc) 0 l.
Fixpoint bytes_words (n : nat) (l : list Z) : list Z :=
  match n with
  | O => []
  | S n => bytes_word (take 8 l) :: bytes_words n (drop 8 l)
  end.
Definition bytes_tf (l : list Z) : trapframe := words_tf (bytes_words 38 l).

(** The place for the saved frame: below the exception stack's top, or below
    the frame of the interrupt that is being handled. *)
Definition irq_sp (user_sp : Z) : Z :=
  if (USTACKTOP <=? user_sp) && (user_sp <? UXSTACKTOP) then u64 (user_sp - sizeof_Trapframe)
  else UXSTACKTOP - sizeof_Trapframe.

Definition handle_env_interrupt (interrupt_code : Z) : M kernel unit :=
  if MAX_INTERRUPT <=? interrupt_code then panic
  else
    id ← get (fun k => interrupt_code_to_envid k interrupt_code);
    if id =? 0 then mret tt
    else
      '(ret, e) ← envid2env id false;
      if negb (ret =? 0) then mret tt
      else
        e ← deref e;
        plic_set_prority interrupt_code 0 ;;
        c ← get curenv;
        if bool_decide (c = Some e) then
          tf ← get ktf;
          let user_sp := irq_sp (regs tf 2) in
          copy_to_user (tf_bytes tf) user_sp ;;
          modify (fun k => set_ktf (set_reg 2 user_sp (ktf k)) k) ;;
          handler ← env_get e handler_function_va;
          modify (fun k => set_ktf (set_sepc handler (ktf k)) k) ;;
          plic_mark_finish interrupt_code
        else
          st ← env_get e env_status;
          (if st =? ENV_NOT_RUNNABLE then
             sys ← env_get e env_in_syscall;
             (if sys =? 1 then
                upd_env e (set_env_in_syscall 0) ;;
                upd_env e (set_env_ipc_recving 0) ;;
                upd_env e (upd_tf (set_reg 10 (- E_INTR)))
              else mret tt) ;;
             upd_env e (set_env_status ENV_RUNNABLE) ;;
             modify (fun k => set_env_sched_list (TAILQ_INSERT_HEAD e (env_sched_list k)) k)
           else mret tt) ;;
          sp ← env_get e (fun v => regs (env_tf v) 2);
          let user_sp := irq_sp sp in
          t ← get ktf;
          upd_env e (upd_tf (set_sie (sie t))) ;;
          upd_env e (upd_tf (set_sip (sip t))) ;;
          etf ← env_get e env_tf;
          copy_to_env e (tf_bytes etf) user_sp ;;
          upd_env e (upd_tf (set_reg 2 user_sp)) ;;
          handler ← env_get e handler_function_va;
          upd_env e (upd_tf (set_sepc handler)) ;;
          plic_mark_finish interrupt_code ;;
          env_run e.

Definition ret_env_interrupt : M kernel Z :=
  c ← get curenv;
  match c with
  | None => panic
  | Some c =>
      user_sp ← get (fun k => regs (ktf k) 2);
      if (UXSTACKTOP <=? user_sp) || (user_sp <? USTACKTOP) then mret (- E_INVAL)
      else
        bytes ← copy_from_user user_sp (Z.to_nat sizeof_Trapframe);
        modify (set_ktf (bytes_tf bytes)) ;;
        id ← env_get c env_id;
        target ← mfor_ret (Z.to_nat MAX_INTERRUPT) 0 (fun i =>
          v ← get (fun k => interrupt_code_to_envid k i);
          if v =? id then mret (Some i) else mret None);
        (if negb (default 0 target =? 0) then plic_set_prority (default 0 target) 1 else mret tt) ;;
        mret 0
  end.

Definition handle_plic_interrupt : M kernel unit :=
  _ ← plic;
  interrupt_code ← plic_get_interrupt_code;
  plic_check interrupt_code ;;
  h ← get (fun k => interrupt_handler k interrupt_code);
  match h with
  | Some HandleEnvInterrupt => handle_env_interrupt interrupt_code
  | None => mret tt
  end.

(** ** Traps (kern/traps.c) *)

(** Both branches of [do_reserved] panic. *)
Definition do_reserved {A} : M kernel A := panic.
Definition do_kernel_exception {A} : M kernel A := panic.

Definition do_interrupt : M kernel unit :=
  cause ← get (fun k => scause (ktf k));
  let interrupt_code := Z.ldiff cause (2 ^ 63) in
  if 64 <=? interrupt_code then do_reserved
  else
    h ← get (fun k => interrupt_handler_map k interrupt_code);
    match h with
    | None => do_reserved
    | Some HandlePlicInterrupt => handle_plic_interrupt
    end.

Definition do_cow (tf : trapframe) : M kernel unit :=
  c ← get curenv;
  c ← deref c;
  pgdir ← env_get c env_pgdir;
  asid ← env_get c env_asid;
  r ← inpm (page_lookup pgdir (badvaddr tf));
  match r with
  | None => panic
  | Some (_, pte) =>
      e ← inpm (read_pte pte);
      let perm := Z.lor (Z.ldiff (PTE_FLAGS e) PTE_COW) PTE_W in
      new ← inpm page_alloc;
      match new with
      | inl _ => panic
      | inr new_page =>
          e ← inpm (read_pte pte);
          inpm (mem_copy (page2kva new_page) (P2KADDR (PTE_ADDR e)) PAGE_SIZE) ;;
          _ ← inpm (page_insert pgdir asid new_page (badvaddr tf) perm);
          mret tt
      end
  end.

Definition do_page_fault (tf : trapframe) : M kernel unit :=
  kend ← get kernel_end;
  if (BASE_ADDR_IMM <=? sepc tf) && (sepc tf <? kend) then
    if (KMALLOC_BEGIN_VA <=? badvaddr tf) && (badvaddr tf <? KMALLOC_END_VA) then
      kernel_passive_alloc (badvaddr tf)
    else do_kernel_exception
  else
    c ← get curenv;
    match c with
    | None => panic
    | Some c =>
        pgdir ← env_get c env_pgdir;
        id ← env_get c env_id;
        r ← inpm (page_lookup pgdir (badvaddr tf));
        match r with
        | None => inpm (passive_alloc (badvaddr tf) pgdir (u16 id))
        | Some (_, pte) =>
            e ← inpm (read_pte pte);
            if negb (Z.land e PTE_COW =? 0) then do_cow tf else panic
        end
    end.

(** ** Lemmas: saved trap frames *)

Lemma bytes_word_bytes w : 0 <= w < 2 ^ 64 -> bytes_word (word_bytes w) = w.
Proof.
  intros Hw. unfold word_bytes, bytes_word. cbn [seq map foldr].
  change (Z.of_nat 0) with 0. change (Z.of_nat 1) with 1. change (Z.of_nat 2) with (1 + 1).
  change (Z.of_nat 3) with (1 + 1 + 1). change (Z.of_nat 4) with (1 + 1 + 1 + 1).
  change (Z.of_nat 5) with (1 + 1 + 1 + 1 + 1). change (Z.of_nat 6) with (1 + 1 + 1 + 1 + 1 + 1).
  change (Z.of_nat 7) with (1 + 1 + 1 + 1 + 1 + 1 + 1).
  rewrite !Z.pow_add_r, Z.pow_1_r, Z.pow_0_r, Z.div_1_r, <- !Z.div_div by lia.
  assert (forall x y, y = x / 256 -> x mod 256 + 256 * y = x) as Hd.
  { intros x y ->. pose proof (Z.div_mod x 256 ltac:(lia)). lia. }
  do 7 (apply Hd). rewrite Z.mul_0_r, Z.add_0_r. apply Z.mod_small.
  split; [repeat apply Z.div_pos; lia|]. repeat (apply Z.div_lt_upper_bound; [lia|]). lia.
Qed.

Lemma word_bytes_length w : length (word_bytes w) = 8%nat.
Proof. done. Qed.

Lemma word_bytes_range w : Forall (fun b => 0 <= b < 256) (word_bytes w).
Proof.
  unfold word_bytes. apply Forall_map, Forall_true. intros i. apply Z.mod_pos_bound. lia.
Qed.

Lemma bytes_words_concat l : Forall (fun w => 0 <= w < 2 ^ 64) l ->
  bytes_words (length l) (concat (map word_bytes l)) = l.
Proof.
  induction 1 as [|w l Hw Hl IH]; [done|]. cbn [length bytes_words map concat].
  rewrite take_app_length', drop_app_length' by done. by rewrite bytes_word_bytes, IH.
Qed.

Definition word64 (x : Z) : Prop := 0 <= x < 2 ^ 64.
Definition tf_valid (t : trapframe) : Prop :=
  (forall i, word64 (regs t i)) /\ word64 (sstatus t) /\ word64 (badvaddr t) /\ word64 (scause t) /\
  word64 (sepc t) /\ word64 (sip t) /\ word64 (sie t).

(** The same 32 registers and control registers. *)
Definition tf_eq (t t' : trapframe) : Prop :=
  (forall i, 0 <= i < 32 -> regs t i = regs t' i) /\ sstatus t = sstatus t' /\
  badvaddr t = badvaddr t' /\ scause t = scause t' /\ sepc t = sepc t' /\ sip t = sip t' /\ sie t = sie t'.

Lemma tf_words_valid t : tf_valid t -> Forall (fun w => 0 <= w < 2 ^ 64) (tf_words t).
Proof.
  intros (Hr & H). unfold tf_words. apply Forall_app. split.
  - apply Forall_map, Forall_true. intros i. apply Hr.
  - repeat constructor; apply H.
Qed.

Lemma tf_roundtrip t : tf_valid t -> tf_eq (bytes_tf (tf_bytes t)) t.
Proof.
  intros Hv. unfold bytes_tf, tf_bytes.
  change 38%nat with (length (tf_words t)). rewrite bytes_words_concat by by apply tf_words_valid.
  split; [|done]. intros i Hi. unfold words_tf. cbn [regs].
  rewrite (proj2 (Z.leb_le _ _)), (proj2 (Z.ltb_lt _ _)) by lia. cbn [andb].
  unfold tf_words. rewrite app_nth1 by (rewrite length_map, length_seq; lia).
  rewrite (nth_indep _ 0 (regs t (Z.of_nat 0))) by (rewrite length_map, length_seq; lia).
  rewrite (map_nth (fun i => regs t (Z.of_nat i))), seq_nth by lia. f_equal. lia.
Qed.

Lemma tf_bytes_length t : length (tf_bytes t) = 304%nat.
Proof. done. Qed.

Lemma tf_bytes_range t : Forall (fun b => 0 <= b < 256) (tf_bytes t).
Proof.
  unfold tf_bytes. generalize (tf_words t). induction l as [|w l IH]; [constructor|].
  apply Forall_app. split; [apply word_bytes_range|exact IH].
Qed.

(** ** Lemmas: delivery of an interrupt *)

(** The registers of the interrupt controller that the handlers access are
    mapped. *)
Record plic_ready (k : kernel) (d : Device) : Prop := {
  pr_device : plic_device k = Some d;
  pr_priority : forall c, 0 <= c < plic_interrupt_count k -> is_Some (range_lookup (mmio_range_list d)
    (u64 (plic_base_pa k + PLIC_INTERRUPT_SOURCE_PRIORIY_OFFSET + u32 (c * 4))));
  pr_claim : is_Some (range_lookup (mmio_range_list d) (u64 (plic_base_pa k + PLIC_CLAIM_CONTEXT_1_OFFSET)))
}.

Lemma plic_set_prority_ok k d c p : plic_ready k d -> 0 <= c < plic_interrupt_count k ->
  exists ops, plic_set_prority c p k = Ret tt (set_io ops k).
Proof.
  intros [Hd Hp _] Hc. destruct (Hp c Hc) as [va Hva]. unfold plic_set_prority, plic, plic_check.
  rewrite bind_assoc, bind_get, Hd, bind_mret, bind_assoc, bind_get.
  destruct (Z.leb_spec (plic_interrupt_count k) c); [lia|]. rewrite bind_mret, bind_get.
  unfold iowrite32, iowrite, get_mapped_pa. rewrite Hva, bind_mret. by eexists.
Qed.

Lemma plic_mark_finish_ok k d c : plic_ready k d -> 0 <= c < plic_interrupt_count k ->
  exists ops, plic_mark_finish c k = Ret tt (set_io ops k).
Proof.
  intros [Hd _ [va Hva]] Hc. unfold plic_mark_finish, plic, plic_check.
  rewrite bind_assoc, bind_get, Hd, bind_mret, bind_assoc, bind_get.
  destruct (Z.leb_spec (plic_interrupt_count k) c); [lia|]. rewrite bind_mret, bind_get.
  unfold iowrite32, iowrite, get_mapped_pa. rewrite Hva, bind_mret. by eexists.
Qed.

(** The search for the interrupt of an environment. *)
Lemma find_interrupt n : forall i k id, exists r,
  mfor_ret n i (fun i =>
    v ← get (fun k => interrupt_code_to_envid k i);
    if v =? id then mret (Some i) else mret None) k = Ret r k /\
  match r with
  | Some j => i <= j < i + Z.of_nat n /\ interrupt_code_to_envid k j = id /\
      forall x, i <= x < j -> interrupt_code_to_envid k x <> id
  | None => forall x, i <= x < i + Z.of_nat n -> interrupt_code_to_envid k x <> id
  end.
Proof.
  induction n as [|n IH]; intros i k id; simpl.
  - exists None. split; [done|]. lia.
  - rewrite bind_assoc, bind_get. destruct (Z.eqb_spec (interrupt_code_to_envid k i) id) as [E|E].
    + exists (Some i). split; [done|]. split_and!; [lia|lia|done|lia].
    + rewrite bind_mret. destruct (IH (i + 1) k id) as (r & -> & Hr). exists r. split; [done|].
      destruct r as [j|].
      * destruct Hr as (? & ? & Hx). split_and!; [lia|lia|done|]. intros x Hxj.
        destruct (decide (x = i)) as [->|]; [done|]. apply Hx. lia.
      * intros x Hx. destruct (decide (x = i)) as [->|]; [done|]. apply Hr. lia.
Qed.

(** What the handler of interrupt [code] sees when it starts. *)
Record irq_delivered (k k' : kernel) (c root sp e : Z) (l : list Z) : Prop := {
  iq_page : user_page k' root sp e l;
  iq_run : running k' c root;
  iq_saved : forall i, (i < 304)%nat ->
    mem (pm k') (page2kva (pte_page e) + sp mod PAGE_SIZE + Z.of_nat i) = nth i (tf_bytes (ktf k)) 0;
  iq_sp : regs (ktf k') 2 = sp;
  iq_regs : forall i, i <> 2 -> regs (ktf k') i = regs (ktf k) i;
  iq_sepc : sepc (ktf k') = handler_function_va (envs k c);
  iq_kept : envs k' = envs k /\ interrupt_code_to_envid k' = interrupt_code_to_envid k /\
    plic_device k' = plic_device k /\ plic_base_pa k' = plic_base_pa k /\
    plic_interrupt_count k' = plic_interrupt_count k
}.

Lemma handle_env_interrupt_ok k d c root code e l :
  let sp := irq_sp (regs (ktf k) 2) in
  running k c root -> plic_ready k d -> 0 <= code < MAX_INTERRUPT -> code < plic_interrupt_count k ->
  interrupt_code_to_envid k code <> 0 -> envid_target k (interrupt_code_to_envid k code) = Some c ->
  user_page k root sp e l -> Z.land e PTE_W <> 0 -> sp mod PAGE_SIZE + 304 <= PAGE_SIZE ->
  exists k', handle_env_interrupt code k = Ret tt k' /\ irq_delivered k k' c root sp e l.
Proof.
  intros sp Hrun Hpl Hcode Hcnt Hid Hta Hup Hw Hfit. unfold handle_env_interrupt.
  destruct (Z.leb_spec MAX_INTERRUPT code); [lia|]. rewrite bind_get.
  destruct (Z.eqb_spec (interrupt_code_to_envid k code) 0); [done|].
  rewrite (bind_ret _ _ k (0, Some c) k) by (by rewrite envid2env_eq, Hta).
  change (negb (0 =? 0)) with false. cbv iota.
  rewrite (bind_ret (deref (Some c)) _ k c k eq_refl).
  destruct (plic_set_prority_ok k d code 0 Hpl) as (ops & E1); [lia|].
  rewrite (bind_ret _ _ _ _ _ E1). set (k1 := set_io ops k).
  assert (running k1 c root) as Hrun1 by (destruct Hrun; split; assumption).
  assert (user_page k1 root sp e l) as Hup1 by (destruct Hup; split; assumption).
  rewrite bind_get, (rg_cur _ _ _ Hrun1), bool_decide_eq_true_2, bind_get by done.
  change (irq_sp (regs (ktf k1) 2)) with sp.
  destruct (copy_to_user_ok (tf_bytes (ktf k1)) k1 c root sp e l Hrun1 Hup1 Hw (tf_bytes_range _))
    as (m' & E2 & Hup2 & Hm').
  { rewrite tf_bytes_length. lia. }
  rewrite (bind_ret _ _ _ _ _ E2), bind_modify, env_get_bind, bind_modify.
  set (k3 := set_ktf (set_sepc _ _) _).
  destruct (plic_mark_finish_ok k3 d code) as (ops2 & E3); [destruct Hpl; split; assumption|simpl; lia|].
  exists (set_io ops2 k3). split; [exact E3|]. split; try done.
  - destruct Hup2; split; assumption.
  - destruct Hrun1; split; assumption.
  - intros i Hi. simpl mem. rewrite Hm'. unfold put_bytes. rewrite tf_bytes_length.
    rewrite (proj2 (Z.leb_le _ _)), (proj2 (Z.ltb_lt _ _)) by lia. cbn [andb].
    f_equal. lia.
  - simpl. unfold set_reg. simpl. rewrite fn_lookup_insert. unfold u64. apply Z.mod_small.
    pose proof (up_low _ _ _ _ _ Hup) as H2. change (USTACKTOP + P1MAP) with 268435447808 in H2. lia.
  - intros i Hi. simpl. by rewrite fn_lookup_insert_ne.
Qed.

Lemma ret_env_interrupt_ok k d c root sp e l t code :
  running k c root -> plic_ready k d -> user_page k root sp e l -> Z.land e PTE_R <> 0 ->
  regs (ktf k) 2 = sp -> USTACKTOP <= sp < UXSTACKTOP -> sp mod PAGE_SIZE + 304 <= PAGE_SIZE ->
  tf_valid t ->
  (forall i, (i < 304)%nat ->
     mem (pm k) (page2kva (pte_page e) + sp mod PAGE_SIZE + Z.of_nat i) = nth i (tf_bytes t) 0) ->
  0 <= code < MAX_INTERRUPT -> code < plic_interrupt_count k ->
  interrupt_code_to_envid k code = env_id (envs k c) ->
  exists k', ret_env_interrupt k = Ret 0 k' /\ tf_eq (ktf k') t /\ pm k' = pm k /\ envs k' = envs k.
Proof.
  intros Hrun Hpl Hup Hr Hsp Hspr Hfit Ht Hm Hcode Hcnt Hid. unfold ret_env_interrupt.
  rewrite bind_get, (rg_cur _ _ _ Hrun), bind_get, Hsp.
  rewrite (proj2 (Z.leb_gt _ _)), (proj2 (Z.ltb_ge _ _)) by lia. cbn [orb].
  change (Z.to_nat sizeof_Trapframe) with 304%nat.
  rewrite (bind_ret _ _ _ _ _ (copy_from_user_ok 304 k c root sp e l Hrun Hup Hr Hfit)).
  assert (map (fun i => u8 (mem (pm k) (page2kva (pte_page e) + sp mod PAGE_SIZE + Z.of_nat i))) (seq 0 304)
    = tf_bytes t) as ->.
  { apply (nth_ext _ _ 0 0); [done|]. rewrite length_map, length_seq. intros i Hi.
    rewrite (nth_indep _ 0 (u8 (mem (pm k) (page2kva (pte_page e) + sp mod PAGE_SIZE + Z.of_nat 0))))
      by (rewrite length_map, length_seq; lia).
    rewrite (map_nth (fun i => u8 (mem (pm k) (page2kva (pte_page e) + sp mod PAGE_SIZE + Z.of_nat i)))).
    rewrite seq_nth, Hm by lia. cbn [Nat.add]. apply Z.mod_small.
    eapply (Forall_nth (fun b => 0 <= b < 256)); [apply tf_bytes_range|by rewrite tf_bytes_length]. }
  rewrite bind_modify, env_get_bind. set (k1 := set_ktf _ k).
  destruct (find_interrupt (Z.to_nat MAX_INTERRUPT) 0 k1 (env_id (envs k1 c))) as (r & E & Hr2).
  rewrite (bind_ret _ _ _ _ _ E).
  destruct r as [j|]; [|exfalso; by apply (Hr2 code); [unfold MAX_INTERRUPT in *; lia|]].
  destruct Hr2 as (Hj & Hje & Hjmin). change (default 0 (Some j)) with j.
  assert (j <= code) as Hjc.
  { destruct (Z.le_gt_cases j code); [done|]. exfalso. apply (Hjmin code); [lia|done]. }
  destruct (Z.eqb_spec j 0); cbn [negb]; cbv iota.
  - rewrite bind_mret. eexists. split; [done|]. split; [by apply tf_roundtrip|done].
  - destruct (plic_set_prority_ok k1 d j 1) as (ops & E2); [destruct Hpl; split; assumption|simpl; lia|].
    rewrite (bind_ret _ _ _ _ _ E2). eexists. split; [done|]. split; [by apply tf_roundtrip|done].
Qed.

(** ** Lemmas: copy on write *)

(** The rights of the private copy. *)
Definition cow_perm (e : Z) : Z := Z.lor (Z.ldiff (PTE_FLAGS e) PTE_COW) PTE_W.

Lemma cow_perm_bound e : 0 <= cow_perm e < 1024.
Proof.
  unfold cow_perm. apply (lor_bound _ _ 10); [lia| |by vm_compute].
  rewrite Z.ldiff_land. apply (land_bound _ _ 10); [lia|].
  unfold PTE_FLAGS. rewrite (land_ones' _ 10) by done. by apply Z.mod_pos_bound.
Qed.

Lemma copy_page_in m p q : in_dram p -> in_dram q -> p <> q ->
  (forall o, 0 <= o < PAGE_SIZE ->
     copy m (page2kva p) (page2kva q) PAGE_SIZE (page2kva p + o) = m (page2kva q + o)) /\
  (forall x, in_dram x -> x <> p -> page_eq m (copy m (page2kva p) (page2kva q) PAGE_SIZE) x).
Proof.
  unfold in_dram, page_eq, copy. intros Hp Hq Hne. split.
  - intros o Ho. repeat zcase; simpl; try lia. f_equal. lia.
  - intros x Hx Hxp o Ho. rewrite (page2kva_eq x), (page2kva_eq p), (page2kva_eq q) by done.
    unfold PAGE_SIZE in *. repeat zcase; simpl; done || lia.
Qed.

(** The private copy that replaces a shared page. *)
Record cow_copied (s s' : pmap) (root va e p : Z) : Prop := {
  cc_leaf : leaf_pte (mem s') root va = Some (new_pte p (cow_perm e));
  cc_others : others_same (mem s) (mem s') root va;
  cc_contents : forall o, 0 <= o < PAGE_SIZE ->
    mem s' (page2kva p + o) = mem s (page2kva (pte_page e) + o);
  cc_old : page_eq (mem s) (mem s') (pte_page e);
  cc_refs : pp_ref s' p = 1 /\ pp_ref s' (pte_page e) = pp_ref s (pte_page e) - 1 /\ pte_page e <> p
}.

Lemma do_cow_ok tf k c root l e :
  curenv k = Some c -> env_pgdir (envs k c) = page2kva root ->
  as_wf (pm k) l root -> nohuge (mem (pm k)) root (badvaddr tf) ->
  mapped_ok (pm k) root (badvaddr tf) -> leaf_pte (mem (pm k)) root (badvaddr tf) = Some e ->
  match l with
  | [] => do_cow tf k = Panic k
  | p :: _ => exists s', do_cow tf k = Ret tt (set_pm s' k) /\ cow_copied (pm k) s' root (badvaddr tf) e p
  end.
Proof.
  intros Hc Hpd Has Hnh Hm He. set (va := badvaddr tf) in *.
  destruct (Hm e He) as (Hp & Href & Hnt). pose proof (wf_npage _ _ (as_pm _ _ _ Has)) as Hn.
  destruct (page_lookup_mapped _ _ _ _ _ Has Hnh He Hp) as (u & Hu & E).
  assert (forall s1, (forall x, in_dram x -> page_eq (mem (pm k)) (mem s1) x \/ ~ allocated (npage (pm k)) l x) ->
    load64 (mem s1) (ent (page2kva u) (P3X va)) = e) as Hread.
  { intros s1 Hs1. destruct (l3_dram _ _ _ _ _ Has Hu) as (Hud & Hua & _).
    fold (pte (mem s1) u (P3X va)). rewrite (page_eq_pte (mem (pm k))); [|eauto with pt|].
    - pose proof (read_leaf _ _ _ _ Hu) as Hl. rewrite He in Hl. destruct (pte_valid _); congruence.
    - destruct (Hs1 u Hud); [done|by exfalso]. }
  unfold do_cow. rewrite bind_get, Hc. unfold deref. rewrite bind_mret, !env_get_bind, Hpd. fold va.
  rewrite (bind_inpm _ _ _ _ _ E), set_pm_same. unfold read_pte.
  rewrite bind_inpm_get.
  rewrite Hread by (intros x _; by left). fold (cow_perm e).
  destruct l as [|p l'].
  { rewrite (bind_inpm _ _ _ _ _ (page_alloc_none _ (as_pm _ _ _ Has))), set_pm_same. done. }
  destruct (page_alloc_fresh _ p l' root va Has Hnh Hm) as (s1 & E1 & Hf & _).
  assert (in_dram p) as Hpd2.
  { apply (wf_dram s1 l'); [exact (as_pm _ _ _ (fp_as _ _ _ _ _ _ Hf))|exact (fp_alloc _ _ _ _ _ _ Hf)]. }
  assert (pte_page e <> p) as Hne.
  { intros Heq. pose proof (fp_ref0 _ _ _ _ _ _ Hf) as H0. rewrite (fp_refs _ _ _ _ _ _ Hf) in H0.
    rewrite Heq in Href. lia. }
  assert (in_dram (pte_page e)) as Hed by (unfold in_dram; lia).
  rewrite (bind_inpm _ _ _ _ _ E1).
  rewrite bind_inpm_get.
  replace (load64 (mem (pm (set_pm s1 k))) (ent (page2kva u) (P3X va))) with e.
  2: { symmetry. apply (Hread s1). intros x Hx. destruct (decide (x = p)) as [->|Hxp].
       - right. intros [_ H]. set_solver.
       - left. by apply (fp_others _ _ _ _ _ _ Hf). }
  simpl pm. rewrite P2KADDR_pte by done. unfold mem_copy.
  rewrite bind_inpm_modify. simpl pm.
  destruct (copy_page_in (mem s1) p (pte_page e) Hpd2 Hed (not_eq_sym Hne)) as [Hin Hout].
  set (m2 := copy _ _ _ _) in *.
  pose proof (fresh_page_write _ _ _ _ _ _ _ Hf Hout) as Hf2.
  destruct (fresh_insert _ _ p l' root (env_asid (envs k c)) va (cow_perm e) Hf2 (cow_perm_bound e))
    as (r & s' & E2 & Hor).
  exists s'. split; [by rewrite (bind_inpm _ _ (set_pm (set_mem m2 s1) (set_pm s1 k)) _ _ E2)|].
  destruct Hor as [[_ [Pl Po Pr Pp Pold Pf]]|(_ & _ & Hnone & _)]; [|congruence].
  split; try done.
  - intros o Ho. rewrite Pp by done. simpl. rewrite Hin by done.
    by rewrite (fp_others _ _ _ _ _ _ Hf (pte_page e) Hed Hne).
  - apply Pf; [|done]. split; [done|]. intros Hin'. apply (wf_in _ _ (as_pm _ _ _ Has)) in Hin' as [_ H]. lia.
  - destruct (Pold e He). done.
Qed.

(** Page 3 mapped copy-on-write at address 0, in the address space of
    environment 0, which is running. *)
Lemma demo_cow : exists s, as_wf s [4; 5; 6] 0 /\ nohuge (mem s) 0 0 /\ mapped_ok s 0 0 /\
  leaf_pte (mem s) 0 0 = Some (new_pte 3 (Z.lor PTE_RO PTE_COW)).
Proof.
  destruct (insert_same demo [4; 5; 6] 0 1 3 0 (Z.lor PTE_RO PTE_COW) (new_pte 3 PTE_RW)) as (s & _ & Hi).
  - apply demo_as.
  - by apply demo_nohuge.
  - apply demo_leaf.
  - by apply demo_mapped.
  - vm_compute. reflexivity.
  - split; vm_compute; [discriminate|reflexivity].
  - destruct Hi as [Hw Hn Hl _ _ Hb Ht _]. exists s.
    destruct Hw as (fresh & l' & Hf & Has & Hr & Hfr). simpl mem in Hfr, Ht.
    rewrite Hfr in Hf by by rewrite demo_leaf.
    unfold insert_free, insert_refs in Hf, Hr. simpl mem in Hf, Hr. rewrite demo_leaf in Hf, Hr.
    assert (pte_page (new_pte 3 PTE_RW) = 3) as Hp3 by (vm_compute; reflexivity).
    rewrite decide_True in Hf by exact Hp3. rewrite decide_True in Hr by exact Hp3.
    simpl in Hf. subst l'. split_and!; try done.
    intros e. rewrite Hl. intros [= <-].
    assert (pte_page (new_pte 3 (Z.lor PTE_RO PTE_COW)) = 3) as -> by (vm_compute; reflexivity).
    rewrite (proj1 Hb), Hr. split; [simpl; lia|]. split; [done|].
    apply Ht; [by apply demo_allocated; left|apply demo_not_table; lia].
Qed.

Definition kcow (s : pmap) : kernel :=
  set_pm s (set_envs (<[0 := set_env_pgdir (page2kva 0) env0]> (envs kdemo)) (set_curenv (Some 0) kdemo)).

(** Page 7 mapped below the exception stack's top in the address space of
    environment 0, which handles interrupt 5. *)
Definition demo_plic : Device := MkDevice [] 0 [MMIORange 0xc000000 0x600000 KMMAP_BEGIN_VA] 0 0.
Definition kirq (s : pmap) : kernel :=
  set_plic_device (Some demo_plic) (set_plic_base_pa 0xc000000 (set_plic_interrupt_count 10
    (set_interrupt_code_to_envid (<[5 := 2048]> (fun _ => 0))
      (set_cur_pgdir (page2kva 0) (set_curenv (Some 0) (set_pm s
        (set_envs (<[0 := set_env_id 2048 (set_env_status ENV_RUNNABLE
           (set_handler_function_va 0x400000 (set_env_pgdir (page2kva 0) env0)))]> (envs kdemo)) kdemo))))))).

Lemma demo_stack : exists s e l, user_page (kirq s) 0 (UXSTACKTOP - 304) e l /\
  Z.land e PTE_W <> 0 /\ Z.land e PTE_R <> 0.
Proof.
  set (va := UXSTACKTOP - 304). set (e := new_pte 7 (Z.lor PTE_RW PTE_USER)).
  destruct (page_insert_ok demo [4; 5; 6] 0 1 7 va (Z.lor PTE_RW PTE_USER)) as (r & s & _ & Hor).
  - apply demo_as.
  - apply leaf_none_nohuge. vm_compute. reflexivity.
  - intros x Hx. exfalso. revert Hx. vm_compute. discriminate.
  - by apply demo_allocated; right.
  - apply demo_not_table. lia.
  - done.
  - split; vm_compute; [discriminate|reflexivity].
  - destruct Hor as [[_ Hi]|[_ Hf]].
    2: { pose proof (insf_short _ _ _ _ _ _ Hf) as H. simpl in H. lia. }
    destruct Hi as [Hw Hn Hl _ _ Hb Ht _]. destruct Hw as (fresh & l' & _ & Has & _).
    exists s, e, l'. split; [|split; vm_compute; discriminate].
    assert (pte_page e = 7) as Hp by (vm_compute; reflexivity).
    split; try done.
    + rewrite Hp. simpl. rewrite (proj1 Hb). simpl. lia.
    + rewrite Hp. apply Ht; [by apply demo_allocated; right|apply demo_not_table; lia].
Qed.

(** ** The properties *)

(** C13: copy on write.  A write of a user environment to a page that is mapped
    copy-on-write gets a private, writable copy with the same contents: the
    copy is referenced once, the old page keeps its contents and loses one
    reference, and no other address changes.  A fault on any other mapped page
    panics, and so does the absence of a free page. *)
Theorem do_page_fault_cow tf k c root l e :
  ~ (BASE_ADDR_IMM <= sepc tf < kernel_end k) ->
  curenv k = Some c -> env_pgdir (envs k c) = page2kva root ->
  as_wf (pm k) l root -> nohuge (mem (pm k)) root (badvaddr tf) ->
  mapped_ok (pm k) root (badvaddr tf) -> leaf_pte (mem (pm k)) root (badvaddr tf) = Some e ->
  match Z.land e PTE_COW =? 0, l with
  | false, p :: _ =>
      exists s', do_page_fault tf k = Ret tt (set_pm s' k) /\ cow_copied (pm k) s' root (badvaddr tf) e p
  | _, _ => do_page_fault tf k = Panic k
  end.
Proof.
  intros Hu Hc Hpd Has Hnh Hm He. pose proof (do_cow_ok tf k c root l e Hc Hpd Has Hnh Hm He) as Hcow.
  assert (do_page_fault tf k = if Z.land e PTE_COW =? 0 then Panic k else do_cow tf k) as ->.
  { destruct (Hm e He) as (Hp & _). destruct (page_lookup_mapped _ _ _ _ _ Has Hnh He Hp) as (u & Hl & E).
    unfold do_page_fault. rewrite bind_get.
    assert ((BASE_ADDR_IMM <=? sepc tf) && (sepc tf <? kernel_end k) = false) as ->
      by (repeat zcase; simpl; done || lia).
    rewrite bind_get, Hc, !env_get_bind, Hpd, (bind_inpm _ _ _ _ _ E), set_pm_same.
    unfold read_pte. rewrite bind_inpm_get. fold (pte (mem (pm k)) u (P3X (badvaddr tf))).
    pose proof (read_leaf _ _ _ _ Hl) as Hr. rewrite He in Hr.
    assert (pte (mem (pm k)) u (P3X (badvaddr tf)) = e) as -> by (destruct (pte_valid _); congruence).
    by destruct (Z.land e PTE_COW =? 0). }
  destruct (Z.land e PTE_COW =? 0); [by destruct l|]. exact Hcow.
Qed.

Lemma do_page_fault_cow_witness :
  exists s s', do_page_fault tf0 (kcow s) = Ret tt (set_pm s' (kcow s)) /\
    cow_copied s s' 0 0 (new_pte 3 (Z.lor PTE_RO PTE_COW)) 4.
Proof.
  destruct demo_cow as (s & Has & Hn & Hm & Hl). exists s.
  apply (do_page_fault_cow tf0 (kcow s) 0 0 [4; 5; 6] (new_pte 3 (Z.lor PTE_RO PTE_COW))).
  - intros [H _]. revert H. vm_compute. intros H. by apply H.
  - reflexivity.
  - reflexivity.
  - exact Has.
  - exact Hn.
  - exact Hm.
  - exact Hl.
Defined.

(** C14: interrupts are transparent.  Delivering an interrupt to the running
    environment saves its whole trap frame below its stack pointer and starts
    the handler with no other register changed; when the handler returns with
    its stack pointer restored, whatever it left in the other registers,
    [sys_interrupt_return] resumes the environment with exactly the
    interrupted registers. *)
Theorem interrupt_roundtrip k d c root code e l :
  let sp := irq_sp (regs (ktf k) 2) in
  running k c root -> plic_ready k d -> 0 <= code < MAX_INTERRUPT -> code < plic_interrupt_count k ->
  interrupt_code_to_envid k code = env_id (envs k c) -> env_id (envs k c) <> 0 ->
  envid_target k (env_id (envs k c)) = Some c ->
  user_page k root sp e l -> Z.land e PTE_W <> 0 -> Z.land e PTE_R <> 0 ->
  USTACKTOP <= sp -> sp mod PAGE_SIZE + 304 <= PAGE_SIZE -> tf_valid (ktf k) ->
  exists k1, handle_env_interrupt code k = Ret tt k1 /\ irq_delivered k k1 c root sp e l /\
    forall t, regs t 2 = sp ->
      exists k2, ret_env_interrupt (set_ktf t k1) = Ret 0 k2 /\ tf_eq (ktf k2) (ktf k).
Proof.
  intros sp Hrun Hpl Hcode Hcnt Hid Hid0 Hta Hup Hw Hr Hsp Hfit Ht.
  destruct (handle_env_interrupt_ok k d c root code e l) as (k1 & E & Hdel);
    rewrite ?Hid; try done.
  exists k1. split; [done|]. split; [done|]. intros t Htsp.
  destruct Hdel as [Hup1 Hrun1 Hsaved _ _ _ (He & Hi & Hd & Hb & Hn)].
  destruct (ret_env_interrupt_ok (set_ktf t k1) d c root sp e l (ktf k) code) as (k2 & E2 & Heq & _);
    try done.
  - destruct Hrun1; split; assumption.
  - destruct Hpl as [P1 P2 P3]. split; simpl; [congruence|rewrite Hb, Hn; exact P2|rewrite Hb; exact P3].
  - destruct Hup1; split; assumption.
  - split; [done|]. unfold sp, irq_sp. change UXSTACKTOP with 267361714176. change USTACKTOP with 267361705984.
    unfold sizeof_Trapframe, u64. repeat zcase; simpl; [rewrite Z.mod_small; lia|lia..].
  - simpl. by rewrite Hn.
  - simpl. by rewrite Hi, He.
  - by exists k2.
Qed.

Lemma interrupt_roundtrip_witness :
  exists s k1, handle_env_interrupt 5 (kirq s) = Ret tt k1 /\
    exists k2, ret_env_interrupt (set_ktf (set_reg 2 (UXSTACKTOP - 304) tf0) k1) = Ret 0 k2 /\
      tf_eq (ktf k2) (ktf (kirq s)).
Proof.
  destruct demo_stack as (s & e & l & Hup & Hw & Hr). exists s.
  destruct (interrupt_roundtrip (kirq s) demo_plic 0 0 5 e l) as (k1 & E & _ & H).
  - split; reflexivity.
  - split; [reflexivity| |vm_compute; eexists; reflexivity].
    intros c Hc. assert (c = 0 \/ c = 1 \/ c = 2 \/ c = 3 \/ c = 4 \/ c = 5 \/ c = 6 \/ c = 7 \/ c = 8 \/ c = 9)
      as Hcs by (simpl in Hc; lia).
    repeat destruct Hcs as [->|Hcs]; try subst c; vm_compute; eexists; reflexivity.
  - split; reflexivity || (vm_compute; discriminate).
  - reflexivity.
  - reflexivity.
  - discriminate.
  - reflexivity.
  - exact Hup.
  - exact Hw.
  - exact Hr.
  - vm_compute. discriminate.
  - vm_compute. discriminate.
  - split; [|split_and!]; try (intros i); split; reflexivity || (vm_compute; discriminate).
  - exists k1. split; [exact E|]. apply H. reflexivity.
Defined.
