(* ===== verification/Syscall.v ===== *)
(** kern/syscall_all.c: the system calls and their dispatcher. *)
From S2P Require Import Prelude Queue Mem Mmu Pmap PageTable PageMap Kmalloc Elf Kernel Env Sched.
From S2P Require Import Device Userspace Plic.

(** ** Address checks *)

Definition is_illegal_va (va : Z) : bool := (va <? UTEMP) || (UTOP <=? va).

Definition is_illegal_va_range (va len : Z) : bool :=
  if len =? 0 then false
  else (u64 (va + len) <? va) || (va <? UTEMP) || (UTOP <? u64 (va + len)).

(** [perm &= GENMASK(9, 0); perm = perm & ~PTE_V; perm = perm | PTE_USER] *)
Definition user_perm (perm : Z) : Z :=
  Z.lor (Z.ldiff (Z.land perm (GENMASK 9 0)) PTE_V) PTE_USER.

(** [env->env_pgdir] and [env->env_asid] of an environment just resolved. *)
Definition with_env {A} (e : option Z) (f : Z -> Z -> Z -> M kernel A) : M kernel A :=
  e ← deref e;
  pgdir ← env_get e env_pgdir;
  asid ← env_get e env_asid;
  f e pgdir asid.

(** ** The calls *)

(** Console output leaves no trace in the modelled state. *)
Definition sys_putchar (c : Z) : M kernel Z := mret 0.

Definition sys_print_cons (s num : Z) : M kernel Z :=
  if (UTOP <? u64 (s + num)) || (UTOP <=? s) || (u64 (s + num) <? s) then mret (- E_INVAL)
  else
    lo ← get user_buffer_start;
    hi ← get user_buffer_end;
    if u64 (hi - lo) <=? num then mret (- E_INVAL)
    else
      bytes ← copy_from_user s (Z.to_nat num);
      inpm (mfor (length bytes) 0 (fun i =>
        modify (fun st => set_mem (store8 (mem st) (lo + i) (nth (Z.to_nat i) bytes 0)) st))) ;;
      mret 0.

Definition sys_getenvid : M kernel Z :=
  c ← get curenv;
  c ← deref c;
  env_get c env_id.

Definition sys_yield : M kernel Z :=
  c ← get curenv;
  c ← deref c;
  upd_env c (set_env_in_syscall 0) ;;
  schedule true.

Definition sys_env_destroy (envid : Z) : M kernel Z :=
  '(r, e) ← envid2env envid true;
  if negb (r =? 0) then mret r
  else
    e ← deref e;
    env_destroy e ;;
    mret 0.

Definition sys_set_tlb_mod_entry (envid func : Z) : M kernel Z :=
  '(r, e) ← envid2env envid true;
  if negb (r =? 0) then mret r
  else
    e ← deref e;
    upd_env e (set_env_user_tlb_mod_entry func) ;;
    mret 0.

Definition sys_mem_alloc (envid va perm : Z) : M kernel Z :=
  if is_illegal_va va then mret (- E_INVAL)
  else
    '(r, e) ← envid2env envid true;
    if negb (r =? 0) then mret (- E_BAD_ENV)
    else
      p ← inpm page_alloc;
      match p with
      | inl r => mret r
      | inr pp => with_env e (fun _ pgdir asid => inpm (page_insert pgdir asid pp va (user_perm perm)))
      end.

Definition sys_mem_map (srcid srcva dstid dstva perm : Z) : M kernel Z :=
  if is_illegal_va srcva || is_illegal_va dstva then mret (- E_INVAL)
  else
    '(r, srcenv) ← envid2env srcid true;
    if negb (r =? 0) then mret (- E_BAD_ENV)
    else
      '(r, dstenv) ← envid2env dstid true;
      if negb (r =? 0) then mret (- E_BAD_ENV)
      else
        pp ← with_env srcenv (fun _ pgdir _ => inpm (page_lookup pgdir srcva));
        match pp with
        | None => mret (- E_INVAL)
        | Some (pp, _) =>
            with_env dstenv (fun _ pgdir asid =>
              inpm (page_insert pgdir asid pp dstva (user_perm perm)))
        end.

Definition sys_mem_unmap (envid va : Z) : M kernel Z :=
  if is_illegal_va va then mret (- E_INVAL)
  else
    '(r, e) ← envid2env envid true;
    if negb (r =? 0) then mret (- E_BAD_ENV)
    else
      with_env e (fun _ pgdir asid => inpm (page_remove pgdir asid va)) ;;
      mret 0.

Definition sys_exofork : M kernel Z :=
  c ← get curenv;
  match c with
  | None => panic
  | Some c =>
      parent_id ← env_get c env_id;
      '(r, e) ← env_alloc parent_id;
      if negb (r =? 0) then mret r
      else
        e ← deref e;
        parent_tf ← get ktf;
        upd_env e (set_env_tf parent_tf) ;;
        upd_env e (upd_tf (set_reg 10 0)) ;;
        upd_env e (set_env_in_syscall 0) ;;
        cpgdir ← env_get c env_pgdir;
        epgdir ← env_get e env_pgdir;
        easid ← env_get e env_asid;
        inpm (dup_userspace cpgdir epgdir easid) ;;
        upd_env e (set_env_status ENV_RUNNABLE) ;;
        pri ← env_get c env_pri;
        upd_env e (set_env_pri pri) ;;
        modify (fun k => set_env_sched_list (TAILQ_INSERT_HEAD e (env_sched_list k)) k) ;;
        id ← env_get e env_id;
        mret (i32 id)
  end.

Definition sys_set_env_status (envid status : Z) : M kernel Z :=
  if negb (status =? ENV_RUNNABLE) && negb (status =? ENV_NOT_RUNNABLE) then mret (- E_INVAL)
  else
    '(r, e) ← envid2env envid true;
    if negb (r =? 0) then mret r
    else
      e ← deref e;
      pre_status ← env_get e env_status;
      (if (pre_status =? ENV_NOT_RUNNABLE) && (status =? ENV_NOT_RUNNABLE) then mret tt
       else if (pre_status =? ENV_NOT_RUNNABLE) && (status =? ENV_RUNNABLE) then
         sched_op (TAILQ_INSERT_TAIL e)
       else if (pre_status =? ENV_RUNNABLE) && (status =? ENV_NOT_RUNNABLE) then
         sched_op (TAILQ_REMOVE e)
       else mret tt) ;;
      upd_env e (set_env_status status) ;;
      c ← get curenv;
      if bool_decide (c = Some e) then schedule true else mret 0.

Definition sys_set_trapframe (envid tf : Z) : M kernel Z :=
  if is_illegal_va_range tf sizeof_Trapframe then mret (- E_INVAL)
  else
    bytes ← copy_from_user tf (Z.to_nat sizeof_Trapframe);
    let t := bytes_tf bytes in
    '(r, e) ← envid2env envid true;
    if negb (r =? 0) then mret r
    else
      e ← deref e;
      c ← get curenv;
      if bool_decide (c = Some e) then
        modify (set_ktf t) ;;
        mret (i32 (regs t 10))
      else
        upd_env e (set_env_tf t) ;;
        mret 0.

(** Every branch of [sys_panic] ends in [panic]. *)
Definition sys_panic (msg : Z) : M kernel Z := panic.

(** [dstva] is a [uint32_t] parameter. *)
Definition sys_ipc_recv (dstva from : Z) : M kernel Z :=
  let dstva := u32 dstva in
  let from := u32 from in
  if negb (dstva =? 0) && is_illegal_va dstva then mret (- E_INVAL)
  else
    c ← get curenv;
    c ← deref c;
    upd_env c (set_env_ipc_recving 1) ;;
    upd_env c (set_env_ipc_dstva dstva) ;;
    upd_env c (set_env_ipc_recv_from from) ;;
    upd_env c (set_env_status ENV_NOT_RUNNABLE) ;;
    sched_op (TAILQ_REMOVE c) ;;
    modify (fun k => set_ktf (set_reg 10 0 (ktf k)) k) ;;
    schedule true.

Definition sys_ipc_try_send (envid value srcva perm : Z) : M kernel Z :=
  if negb (srcva =? 0) && is_illegal_va srcva then mret (- E_INVAL)
  else
    '(r, e) ← envid2env envid false;
    if negb (r =? 0) then mret (- E_BAD_ENV)
    else
      e ← deref e;
      recving ← env_get e env_ipc_recving;
      if recving =? 0 then mret (- E_IPC_NOT_RECV)
      else
        recv_from ← env_get e env_ipc_recv_from;
        c ← get curenv;
        c ← deref c;
        cid ← env_get c env_id;
        if negb (recv_from =? 0) && negb (recv_from =? cid) then mret (- E_IPC_NOT_RECV)
        else
          let perm := Z.lor (Z.land perm (GENMASK 9 0)) PTE_USER in
          upd_env e (set_env_ipc_value value) ;;
          upd_env e (set_env_ipc_from cid) ;;
          upd_env e (set_env_ipc_perm perm) ;;
          upd_env e (set_env_ipc_recving 0) ;;
          upd_env e (set_env_status ENV_RUNNABLE) ;;
          upd_env e (set_env_in_syscall 0) ;;
          sched_op (TAILQ_INSERT_TAIL e) ;;
          if negb (srcva =? 0) then
            pgdir ← env_get c env_pgdir;
            p ← inpm (page_lookup pgdir srcva);
            match p with
            | None => mret (- E_INVAL)
            | Some (p, _) =>
                epgdir ← env_get e env_pgdir;
                easid ← env_get e env_asid;
                dstva ← env_get e env_ipc_dstva;
                r ← inpm (page_insert epgdir easid p dstva perm);
                if negb (r =? 0) then mret r else mret 0
            end
          else mret 0.

(** ** Devices *)

Fixpoint in_ranges (l : list DeviceMMIORange) (pa : Z) : bool :=
  match l with
  | [] => false
  | r :: l' => ((mmio_pa r <=? pa) && (pa <? u64 (mmio_pa r + mmio_len r))) || in_ranges l' pa
  end.

(** The device whose range holds [pa], when the range is legal. *)
Definition is_illegal_device_pa_range (pa len : Z) : M kernel (option Device) :=
  if u64 (pa + len) <? pa then mret None
  else get (fun k => List.find (fun d => in_ranges (mmio_range_list d) pa) (devices k)).

Definition legal_len (len : Z) : bool := (len =? 1) || (len =? 2) || (len =? 4) || (len =? 8).

(** The branch for eight bytes repeats the test for four, so it is never taken. *)
Definition sys_write_dev (va pa len : Z) : M kernel Z :=
  if negb (legal_len len) then mret (- E_INVAL)
  else if is_illegal_va_range va len then mret (- E_INVAL)
  else
    d ← is_illegal_device_pa_range pa len;
    match d with
    | None => mret (- E_INVAL)
    | Some d =>
        (if len =? 1 then bytes ← copy_from_user va 1; iowrite 1 d (bytes_word bytes) pa
         else if len =? 2 then bytes ← copy_from_user va 2; iowrite 2 d (bytes_word bytes) pa
         else if len =? 4 then bytes ← copy_from_user va 4; iowrite 4 d (bytes_word bytes) pa
         else if len =? 4 then bytes ← copy_from_user va 8; iowrite 8 d (bytes_word bytes) pa
         else panic) ;;
        mret 0
    end.

Definition sys_read_dev (va pa len : Z) : M kernel Z :=
  if negb (legal_len len) then mret (- E_INVAL)
  else if is_illegal_va_range va len then mret (- E_INVAL)
  else
    d ← is_illegal_device_pa_range pa len;
    match d with
    | None => mret (- E_INVAL)
    | Some d =>
        (if len =? 1 then v ← ioread 1 d pa; copy_to_user (take 1 (word_bytes v)) va
         else if len =? 2 then v ← ioread 2 d pa; copy_to_user (take 2 (word_bytes v)) va
         else if len =? 4 then v ← ioread 4 d pa; copy_to_user (take 4 (word_bytes v)) va
         else if len =? 8 then v ← ioread 8 d pa; copy_to_user (word_bytes v) va
         else panic) ;;
        mret 0
    end.

Definition sys_map_user_vpt : M kernel Z :=
  c ← get curenv;
  match c with None => panic | Some c => map_user_vpt c ;; mret 0 end.

Definition sys_unmap_user_vpt : M kernel Z :=
  c ← get curenv;
  match c with None => panic | Some c => unmap_user_vpt c ;; mret 0 end.

(** ** Sleeping and interrupts *)

Definition sys_sleep : M kernel Z :=
  c ← get curenv;
  match c with
  | None => panic
  | Some c =>
      upd_env c (set_env_status ENV_NOT_RUNNABLE) ;;
      sched_op (TAILQ_REMOVE c) ;;
      upd_env c (upd_tf (set_reg 10 0)) ;;
      schedule true
  end.

Definition sys_set_interrupt_handler (interrupt_code handler_va : Z) : M kernel Z :=
  c ← get curenv;
  match c with
  | None => panic
  | Some c =>
      interrupt_count ← plic_get_interrupt_count;
      if interrupt_count <=? interrupt_code then mret (- E_INVAL)
      else if (handler_va <? UTEMP) || (USTACKTOP <=? handler_va) then mret (- E_INVAL)
      else
        register_env_interrupt interrupt_code c handler_va ;;
        plic_enable_interrupt interrupt_code 1 HandleEnvInterrupt ;;
        mret 0
  end.

Definition sys_interrupt_return : M kernel Z :=
  c ← get curenv;
  match c with
  | None => panic
  | Some _ =>
      _ ← ret_env_interrupt;
      get (fun k => regs (ktf k) 10)
  end.

(** ** Queries *)

(** The name in a buffer of [DEVICE_TYPE_LEN] bytes, cut at the first NUL. *)
Fixpoint c_str (l : list Z) : list Z :=
  match l with
  | [] => []
  | b :: l' => if b =? 0 then [] else b :: c_str l'
  end.

Definition sys_get_device_count (dtype : Z) : M kernel Z :=
  c ← get curenv;
  match c with
  | None => panic
  | Some _ =>
      bytes ← copy_from_user dtype (Z.to_nat DEVICE_TYPE_LEN);
      n ← get_device_count (c_str (take 31 bytes));
      mret (i32 n)
  end.

Definition sys_get_physical_address (va : Z) : M kernel Z :=
  c ← get curenv;
  match c with
  | None => panic
  | Some c =>
      pgdir ← env_get c env_pgdir;
      pa ← get (fun k => va2pa (mem (pm k)) pgdir va);
      mret (if pa =? 2 ^ 64 - 1 then 0 else pa)
  end.

Definition sys_is_dirty (va : Z) : M kernel Z :=
  c ← get curenv;
  match c with
  | None => panic
  | Some c =>
      pgdir ← env_get c env_pgdir;
      r ← inpm (page_lookup pgdir va);
      match r with
      | Some (_, pte) =>
          e ← inpm (read_pte pte);
          mret (if negb (Z.land e PTE_DIRTY =? 0) then 1 else 0)
      | None => mret 0
      end
  end.

Definition sys_pageref (va : Z) : M kernel Z :=
  c ← get curenv;
  match c with
  | None => panic
  | Some c =>
      pgdir ← env_get c env_pgdir;
      r ← inpm (page_lookup pgdir va);
      match r with
      | Some (page, _) => get (fun k => pp_ref (pm k) page)
      | None => mret 0
      end
  end.

(** ** Structures handed to user space

    A structure that the kernel builds on its stack or heap and copies out
    starts with what that memory held before: [old].  [put_str] is [strcpy]. *)
Definition put_str (m : memory) (a : Z) (s : list Z) : memory := fun x =>
  if (a <=? x) && (x <? a + Z.of_nat (length s)) then nth (Z.to_nat (x - a)) s 0
  else if x =? a + Z.of_nat (length s) then 0 else m x.

(** [n] bytes of the memory from [a] on. *)
Definition mem_bytes (m : memory) (a n : Z) : list Z :=
  map (fun i => load8 m (a + Z.of_nat i)) (seq 0 (Z.to_nat n)).

Definition sizeof_UserDevice : Z := 568.

Fixpoint put_ranges (m : memory) (i : Z) (l : list DeviceMMIORange) : memory :=
  match l with
  | [] => m
  | r :: l' =>
      put_ranges (store64 (store64 m (40 + 16 * i) (mmio_pa r)) (48 + 16 * i) (mmio_len r)) (i + 1) l'
  end.

(** [struct UserDevice]: type at 0, id at 32, ranges from 40, their number at
    552 and the length of the data at 560. *)
Definition user_device (old : memory) (d : Device) (data_len : Z) : memory :=
  let m := put_str old 0 (device_type d) in
  let m := store64 m 32 (device_id d) in
  let m := put_ranges m 0 (mmio_range_list d) in
  let m := store64 m 552 (Z.of_nat (length (mmio_range_list d))) in
  store64 m 560 data_len.

Definition user_find_device_by_type (old : memory) (t : list Z) (idx max_data_len out_device
    out_device_data : Z) : M kernel Z :=
  requested ← get (fun k => nth_of_type t idx 0 (devices k));
  match requested with
  | None => mret (- E_NO_DEV)
  | Some d =>
      let data_len := if device_data_len d <? max_data_len then device_data_len d else max_data_len in
      copy_to_user (mem_bytes (user_device old d data_len) 0 sizeof_UserDevice) out_device ;;
      data ← get (fun k => mem_bytes (mem (pm k)) (device_data d) data_len);
      copy_to_user data out_device_data ;;
      mret 0
  end.

Definition sys_get_device (old : memory) (dtype idx max_data_len out_device out_device_data : Z) : M kernel Z :=
  c ← get curenv;
  match c with
  | None => panic
  | Some _ =>
      if is_illegal_va_range out_device sizeof_UserDevice
         || is_illegal_va_range out_device_data max_data_len then mret (- E_INVAL)
      else
        bytes ← copy_from_user dtype (Z.to_nat DEVICE_TYPE_LEN);
        user_find_device_by_type old (c_str (take 31 bytes)) idx max_data_len out_device out_device_data
  end.

(** [struct Process]: name at 0, then id, parent, priority, runs and status. *)
Definition sizeof_Process : Z := 64.

Definition put_process (m : memory) (a : Z) (v : Env) : memory :=
  let m := store32 m (a + 32) (env_id v) in
  let m := store32 m (a + 36) (env_parent_id v) in
  let m := store32 m (a + 40) (env_pri v) in
  let m := store32 m (a + 56) (env_status v) in
  let m := store64 m (a + 48) (env_runs v) in
  put_str m a (env_name v).

(** The entries are written whatever the length of the buffer is. *)
Fixpoint put_processes (m : memory) (buffer count : Z) (l : list Env) : memory * Z :=
  match l with
  | [] => (m, count)
  | v :: l' =>
      if env_status v =? ENV_FREE then put_processes m buffer count l'
      else put_processes (put_process m (buffer + count * sizeof_Process) v) buffer (count + 1) l'
  end.

Definition sys_get_process_list (fuel : nat) (max_len out_process_list : Z) : M kernel Z :=
  c ← get curenv;
  match c with
  | None => panic
  | Some _ =>
      if max_len <? 0 then mret (- E_INVAL)
      else if is_illegal_va_range out_process_list (max_len * sizeof_Process) then mret (- E_INVAL)
      else
        let max_process_count := if max_len <? NENV then max_len else NENV in
        buffer ← inheap (kmalloc fuel (max_process_count * sizeof_Process));
        match buffer with
        | None => panic
        | Some buffer =>
            l ← get (fun k => map (fun i => envs k (Z.of_nat i)) (seq 0 (Z.to_nat NENV)));
            m ← get (fun k => mem (pm k));
            let '(m, count) := put_processes m buffer 0 l in
            inpm (modify (set_mem m)) ;;
            copy_to_user (mem_bytes m buffer (count * sizeof_Process)) out_process_list ;;
            inheap (kfree buffer) ;;
            mret count
        end
  end.

(** The debug console of the SBI firmware: the error code of the [n]th call
    and the [int] that the buffer holds after it. *)
Fixpoint sys_cgetc (console : nat -> Z * Z) (n fuel : nat) : M kernel Z :=
  match fuel with
  | O => panic
  | S fuel =>
      let '(error, ch) := console n in
      if error =? 0 then mret ch else sys_cgetc console (S n) fuel
  end.

(** ** The dispatcher *)

Definition MAX_SYSNO : Z := 28.

Section dispatch.
(** Block searches of the heap, the firmware's console and a bound on the number
    of times it is polled (beyond it the wait counts as a [panic]), and what the
    kernel's stack holds. *)
Context (fuel : nat) (console : nat -> Z * Z) (polls : nat) (stack : memory).

(** [syscall_table[sysno](arg1, ..., arg5)], every argument converted to the
    type of its parameter and the result read as an [int].  What a [void]
    function leaves in [a0] is 0 here. *)
Definition syscall_table (sysno arg1 arg2 arg3 arg4 arg5 : Z) : M kernel Z :=
  match sysno with
  | 0 => sys_putchar (i32 arg1)
  | 1 => sys_print_cons arg1 arg2
  | 2 => id ← sys_getenvid; mret (i32 id)
  | 3 => sys_yield
  | 4 => sys_env_destroy (u32 arg1)
  | 5 => sys_mem_alloc (u32 arg1) arg2 (u32 arg3)
  | 6 => sys_mem_map (u32 arg1) arg2 (u32 arg3) arg4 (u32 arg5)
  | 7 => sys_mem_unmap (u32 arg1) arg2
  | 8 => sys_exofork
  | 9 => sys_set_env_status (u32 arg1) (u32 arg2)
  | 10 => sys_set_trapframe (u32 arg1) arg2
  | 11 => sys_panic arg1
  | 12 => sys_ipc_try_send (u32 arg1) arg2 arg3 (u32 arg4)
  | 13 => sys_ipc_recv (u32 arg1) (u32 arg2)
  | 14 => sys_cgetc console 0 polls
  | 15 => sys_write_dev arg1 arg2 arg3
  | 16 => sys_read_dev arg1 arg2 arg3
  | 17 => sys_map_user_vpt
  | 18 => sys_unmap_user_vpt
  | 19 => sys_sleep
  | 20 => sys_set_interrupt_handler (u32 arg1) arg2
  | 21 => sys_interrupt_return
  | 22 => sys_get_device_count arg1
  | 23 => sys_get_device stack arg1 arg2 arg3 arg4 arg5
  | 24 => sys_get_process_list fuel (i32 arg1) arg2
  | 25 => sys_get_physical_address arg1
  | 26 => sys_is_dirty arg1
  | 27 => sys_pageref arg1
  | _ => panic
  end.

Definition do_syscall : M kernel unit :=
  tf ← get ktf;
  let sysno := i32 (regs tf 10) in
  if (sysno <? 0) || (MAX_SYSNO <=? sysno) then
    modify (fun k => set_ktf (set_reg 10 (- E_NO_SYS) (ktf k)) k)
  else
    c ← get curenv;
    match c with
    | None => panic
    | Some c =>
        upd_env c (set_env_in_syscall 1) ;;
        modify (fun k => set_ktf (set_sepc (u64 (sepc (ktf k) + 4)) (ktf k)) k) ;;
        a ← get (fun k i => regs (ktf k) i);
        ret ← syscall_table sysno (a 11) (a 12) (a 13) (a 14) (a 15);
        c ← get curenv;
        c ← deref c;
        upd_env c (set_env_in_syscall 0) ;;
        modify (fun k => set_ktf (set_reg 10 ret (ktf k)) k)
    end.
End dispatch.

(** ** Lemmas *)

Lemma envid2env_0 k c check : curenv k = Some c -> envid2env 0 check k = Ret (0, Some c) k.
Proof. intros Hc. unfold envid2env. simpl. by rewrite bind_get, Hc. Qed.

Lemma with_env_eq {A} e (f : Z -> Z -> Z -> M kernel A) k :
  with_env (Some e) f k = f e (env_pgdir (envs k e)) (env_asid (envs k e)) k.
Proof. reflexivity. Qed.

Lemma env_upd_one k e f : env_upd k (set_envs (<[e := f (envs k e)]> (envs k)) k) e (f (envs k e)).
Proof.
  split; [done|apply fn_lookup_insert|]. intros x Hx. simpl. by apply fn_lookup_insert_ne.
Qed.

(** The queue after [e] has been given [status]. *)
Definition status_queue (l : list Z) (e status : Z) : list Z :=
  if status =? ENV_RUNNABLE then if decide (e ∈ l) then l else l ++ [e] else lremove e l.

Lemma lremove_out e l : e ∉ l -> lremove e l = l.
Proof. apply lremove_notin. Qed.

Lemma set_env_status_ok k l envid status e :
  sched_inv k l -> status = ENV_RUNNABLE \/ status = ENV_NOT_RUNNABLE ->
  envid2env envid true k = Ret (0, Some e) k -> 0 <= e < NENV ->
  env_status (envs k e) = ENV_RUNNABLE \/ env_status (envs k e) = ENV_NOT_RUNNABLE ->
  exists q, let k' := set_env_sched_list q
      (set_envs (<[e := set_env_status status (envs k e)]> (envs k)) k) in
    sched_inv k' (status_queue l e status) /\
    sys_set_env_status envid status k =
      (if bool_decide (curenv k = Some e) then schedule true k' else Ret 0 k').
Proof.
  intros Hi Hst Hid He Hpre.
  set (k1 := set_envs _ k). pose proof (env_upd_one k e (set_env_status status)) as Hu. fold k1 in Hu.
  assert (forall q l', tailq_rep q l' ->
    (forall x, x ∈ l' <-> (if decide (x = e) then 0 <= e < NENV /\ status = ENV_RUNNABLE else x ∈ l)) ->
    l' = status_queue l e status -> forall op : M kernel unit,
    op k = Ret tt (set_env_sched_list q k) ->
    sched_inv (set_env_sched_list q k1) (status_queue l e status) /\
    (op ;; upd_env e (set_env_status status) ;; c ← get curenv;
      if bool_decide (c = Some e) then schedule true else mret 0) k =
    (if bool_decide (curenv k = Some e) then schedule true (set_env_sched_list q k1)
     else Ret 0 (set_env_sched_list q k1))) as Hmain.
  { intros q l' Hq Hl <- op E. split; [by eapply sched_inv_env|]. rewrite (bind_ret _ _ _ _ _ E).
    unfold upd_env. rewrite bind_modify, bind_get. simpl curenv. by destruct (bool_decide _). }
  assert (e ∈ l <-> env_status (envs k e) = ENV_RUNNABLE) as Hel.
  { rewrite (si_run _ _ Hi e). naive_solver. }
  unfold sys_set_env_status.
  destruct (negb (status =? ENV_RUNNABLE) && negb (status =? ENV_NOT_RUNNABLE)) eqn:Ek.
  { destruct Hst as [-> | ->]; discriminate. }
  rewrite (bind_ret _ _ _ _ _ Hid). change (negb (0 =? 0)) with false. cbv iota.
  rewrite (bind_ret (deref (Some e)) _ k e k eq_refl), env_get_bind.
  unfold status_queue in Hmain |- *. unfold ENV_RUNNABLE, ENV_NOT_RUNNABLE in *.
  assert (env_sched_list k = env_sched_list k /\ set_env_sched_list (env_sched_list k) k = k) as [_ Hsame]
    by (split; [done|by destruct k]).
  destruct Hpre as [Hpre|Hpre], Hst as [-> | ->]; rewrite Hpre in *; cbn [Z.eqb Pos.eqb andb] in *.
  - exists (env_sched_list k). apply (Hmain _ l); [exact (si_rep _ _ Hi)| |by rewrite decide_True by naive_solver|by rewrite Hsame].
    intros x. destruct (decide (x = e)); naive_solver.
  - destruct (tailq_rep_remove_elem _ _ e (si_rep _ _ Hi)) as (q & E & Hq); [naive_solver|].
    exists q. apply (Hmain _ (lremove e l)); [done| |done|].
    + intros x. rewrite elem_of_lremove. destruct (decide (x = e)); naive_solver.
    + unfold sched_op. by rewrite bind_get, E.
  - destruct (tailq_rep_insert_tail _ _ e (si_rep _ _ Hi)) as (q & E & Hq); [naive_solver|].
    exists q. apply (Hmain _ (l ++ [e])); [done| |by rewrite decide_False by naive_solver|].
    + intros x. rewrite elem_of_app, list_elem_of_singleton. destruct (decide (x = e)); naive_solver.
    + unfold sched_op. by rewrite bind_get, E.
  - exists (env_sched_list k). rewrite lremove_out in * by naive_solver.
    apply (Hmain _ l); [exact (si_rep _ _ Hi)| |done|by rewrite Hsame].
    intros x. destruct (decide (x = e)); naive_solver.
Qed.

(** ** Lemmas: messages *)

(** The sender [c] may deliver to [e]. *)
Definition ipc_ready (k : kernel) (c e : Z) : Prop :=
  env_ipc_recving (envs k e) <> 0 /\
  (env_ipc_recv_from (envs k e) = 0 \/ env_ipc_recv_from (envs k e) = env_id (envs k c)).

#[global] Instance ipc_ready_dec k c e : Decision (ipc_ready k c e).
Proof. unfold ipc_ready. apply _. Defined.

(** [perm &= GENMASK(9, 0); perm |= PTE_USER] *)
Definition ipc_perm (perm : Z) : Z := Z.lor (Z.land perm (GENMASK 9 0)) PTE_USER.

(** The receiver when the message is there. *)
Definition ipc_deliver (from value perm : Z) (v : Env) : Env :=
  set_env_in_syscall 0 (set_env_status ENV_RUNNABLE (set_env_ipc_recving 0
    (set_env_ipc_perm (ipc_perm perm) (set_env_ipc_from from (set_env_ipc_value value v))))).

(** The page transfer that follows. *)
Definition ipc_page (c e srcva perm : Z) : M kernel Z :=
  pgdir ← env_get c env_pgdir;
  p ← inpm (page_lookup pgdir srcva);
  match p with
  | None => mret (- E_INVAL)
  | Some (p, _) =>
      epgdir ← env_get e env_pgdir;
      easid ← env_get e env_asid;
      dstva ← env_get e env_ipc_dstva;
      r ← inpm (page_insert epgdir easid p dstva (ipc_perm perm));
      if negb (r =? 0) then mret r else mret 0
  end.

(** The state after the message is there: its queue, and one environment. *)
Record ipc_sent (k k' : kernel) (l : list Z) (c e value perm : Z) : Prop := {
  is_inv : sched_inv k' (l ++ [e]);
  is_env : envs k' e = ipc_deliver (env_id (envs k c)) value perm (envs k e);
  is_others : forall x, x <> e -> envs k' x = envs k x;
  is_rest : k' = set_env_sched_list (env_sched_list k') (set_envs (envs k') k)
}.

Lemma ipc_try_send_ok k l c e envid value srcva perm :
  sched_inv k l -> curenv k = Some c -> envid2env envid false k = Ret (0, Some e) k ->
  0 <= e < NENV -> (ipc_ready k c e -> e ∉ l) -> srcva = 0 \/ is_illegal_va srcva = false ->
  if decide (ipc_ready k c e) then
    exists k', ipc_sent k k' l c e value perm /\
      sys_ipc_try_send envid value srcva perm k =
        if srcva =? 0 then Ret 0 k' else ipc_page c e srcva perm k'
  else sys_ipc_try_send envid value srcva perm k = Ret (- E_IPC_NOT_RECV) k.
Proof.
  intros Hi Hc Hid He Hel Hva. unfold sys_ipc_try_send.
  assert (negb (srcva =? 0) && is_illegal_va srcva = false) as ->.
  { destruct Hva as [-> | ->]; [done|apply andb_false_r]. }
  rewrite (bind_ret _ _ _ _ _ Hid). change (negb (0 =? 0)) with false. cbv iota.
  rewrite (bind_ret (deref (Some e)) _ k e k eq_refl), env_get_bind.
  destruct (decide (ipc_ready k c e)) as [[Hr Hf]|Hn].
  - specialize (Hel (conj Hr Hf)). destruct (Z.eqb_spec (env_ipc_recving (envs k e)) 0); [done|].
    rewrite env_get_bind, bind_get, Hc, (bind_ret (deref (Some c)) _ k c k eq_refl), env_get_bind.
    assert (negb (env_ipc_recv_from (envs k e) =? 0) &&
      negb (env_ipc_recv_from (envs k e) =? env_id (envs k c)) = false) as ->.
    { destruct Hf as [-> | ->]; [done|]. rewrite Z.eqb_refl. apply andb_false_r. }
    fold (ipc_perm perm). cbv zeta.
    pose proof (env_upd_refl k e) as Hu. do 6 ustep Hu.
    match type of Hu with env_upd _ ?k2 _ ?v =>
      change v with (ipc_deliver (env_id (envs k c)) value perm (envs k e)) in Hu;
      match goal with |- context [(sched_op (TAILQ_INSERT_TAIL e) ≫= ?m) k2] =>
        destruct (wake_ok k k2 e _ l m Hi Hu He Hel eq_refl) as (q & E & Hi') end end.
    rewrite E. clear E. eexists. split; [split; [exact Hi'|exact (eu_env _ _ _ _ Hu)| |]|].
    + intros x Hx. exact (eu_others _ _ _ _ Hu x Hx).
    + simpl. by rewrite (eu_eq _ _ _ _ Hu) at 1.
    + by destruct (srcva =? 0).
  - destruct (Z.eqb_spec (env_ipc_recving (envs k e)) 0); [done|].
    rewrite env_get_bind, bind_get, Hc, (bind_ret (deref (Some c)) _ k c k eq_refl), env_get_bind.
    destruct (Z.eqb_spec (env_ipc_recv_from (envs k e)) 0); [exfalso; apply Hn; split; auto|].
    destruct (Z.eqb_spec (env_ipc_recv_from (envs k e)) (env_id (envs k c)));
      [exfalso; apply Hn; split; auto|]. done.
Qed.

Definition recv_env (dstva from : Z) (v : Env) : Env :=
  set_env_status ENV_NOT_RUNNABLE (set_env_ipc_recv_from from (set_env_ipc_dstva dstva
    (set_env_ipc_recving 1 v))).

Lemma ipc_recv_ok k l c dstva from :
  sched_inv k l -> curenv k = Some c -> c ∈ l ->
  u32 dstva = 0 \/ is_illegal_va (u32 dstva) = false ->
  exists k', sys_ipc_recv dstva from k = schedule true k' /\ sched_inv k' (lremove c l) /\
    envs k' c = recv_env (u32 dstva) (u32 from) (envs k c) /\
    (forall x, x <> c -> envs k' x = envs k x) /\ curenv k' = Some c /\
    ktf k' = set_reg 10 0 (ktf k).
Proof.
  intros Hi Hc Hcl Hva. unfold sys_ipc_recv.
  assert (negb (u32 dstva =? 0) && is_illegal_va (u32 dstva) = false) as ->.
  { destruct Hva as [-> | ->]; [done|apply andb_false_r]. }
  rewrite bind_get, Hc, (bind_ret (deref (Some c)) _ k c k eq_refl).
  pose proof (env_upd_refl k c) as Hu. do 4 ustep Hu.
  match type of Hu with env_upd _ ?k2 _ ?v =>
    change v with (recv_env (u32 dstva) (u32 from) (envs k c)) in Hu;
    match goal with |- context [(sched_op (TAILQ_REMOVE c) ≫= ?m) k2] =>
      destruct (block_ok k k2 c _ l m Hi Hu Hcl ltac:(discriminate)) as (q & E & Hi') end end.
  rewrite E, bind_modify. clear E. eexists. split; [done|].
  pose proof (eu_eq _ _ _ _ Hu) as Hk. split_and!.
  - destruct Hi' as [H1 H2 H3]. by split.
  - exact (eu_env _ _ _ _ Hu).
  - intros x Hx. exact (eu_others _ _ _ _ Hu x Hx).
  - simpl. by rewrite Hk.
  - simpl. by rewrite Hk.
Qed.

Lemma kept_runs (v v' : Env) {B} (f : Env -> B) :
  (forall w, f (kept (set_env_runs 0 w)) = f w) ->
  kept (set_env_runs 0 v) = kept (set_env_runs 0 v') -> f v = f v'.
Proof. intros Hf H. by rewrite <- (Hf v), <- (Hf v'), H. Qed.

(** ** A concrete state

    Environments 0 (running) and 1 of [ksched], with identifiers. *)
Definition kipc : kernel :=
  set_curenv (Some 0) (set_envs (<[0 := set_env_id 2048 (envs ksched 0)]>
    (<[1 := set_env_id 4097 (envs ksched 1)]> (envs ksched))) ksched).

Lemma kipc_status e : env_status (envs kipc e) = env_status (envs ksched e).
Proof.
  unfold kipc. simpl envs. destruct (decide (0 = e)) as [<-|H0]; [by rewrite fn_lookup_insert|].
  rewrite fn_lookup_insert_ne by done.
  destruct (decide (1 = e)) as [<-|H1]; [by rewrite fn_lookup_insert|by rewrite fn_lookup_insert_ne].
Qed.

Lemma kipc_inv : sched_inv kipc [0; 1].
Proof.
  destruct ksched_inv as [H1 H2 H3]. split; [exact H1| |].
  - intros e. rewrite kipc_status. apply H2.
  - intros c [= <-]. split; vm_compute; [discriminate|reflexivity].
Qed.

(** The same state where environment 2, a child of environment 0, waits for a
    message. *)
Definition kwait : kernel :=
  set_envs (<[2 := set_env_parent_id 2048 (set_env_id 6146 (set_env_ipc_recving 1
    (set_env_status ENV_NOT_RUNNABLE env0)))]> (envs kipc)) kipc.

Lemma kwait_inv : sched_inv kwait [0; 1].
Proof.
  destruct kipc_inv as [H1 H2 H3]. split; [exact H1| |exact H3].
  intros e. rewrite H2. destruct (decide (2 = e)) as [<-|Hne].
  - split; intros [_ H]; vm_compute in H; discriminate H.
  - assert (envs kwait e = envs kipc e) as -> by (exact (fn_lookup_insert_ne _ _ _ _ Hne)). done.
Qed.

(** Environment 0 maps page 7 at 0x400000; the directory of its child,
    environment 1, is the empty page 8. *)
Definition kshare (s : pmap) : kernel :=
  set_pm s (set_curenv (Some 0) (set_envs (<[0 := set_env_id 2048 (set_env_pgdir (page2kva 0) env0)]>
    (<[1 := set_env_parent_id 2048 (set_env_id 4097 (set_env_status ENV_NOT_RUNNABLE
       (set_env_pgdir (page2kva 8) env0)))]> (envs kdemo))) kdemo)).

Lemma demo_tbl8 i : idx i -> pte demo_mem 8 i = 0.
Proof.
  intros Hi. assert (idx 0) as I0 by (unfold idx; lia). unfold demo_mem, demo_mem2, demo_mem1.
  rewrite (pte_store_ne _ 2 0 _ 8), (pte_store_ne _ 1 0 _ 8), (pte_store_ne _ 0 0 _ 8);
    [apply pte_zero|..]; first [exact I0|exact Hi|unfold in_dram; lia|lia].
Qed.

Lemma demo_share : exists s l e, as_wf s l 0 /\ nohuge (mem s) 0 0x400000 /\
  leaf_pte (mem s) 0 0x400000 = Some e /\ as_wf s l 8 /\ leaf_pte (mem s) 8 0x500000 = None /\
  allocated (npage s) l (pte_page e) /\ not_table (mem s) 8 (pte_page e) /\
  pp_ref s (pte_page e) < 2 ^ 16 - 1 /\ path_apart s l 8 0 0x400000.
Proof.
  set (e := new_pte 7 (Z.lor PTE_RW PTE_USER)).
  assert (pte_page e = 7) as Hp by (vm_compute; reflexivity).
  assert (leaf_pte demo_mem 0 0x400000 = None) as Hnone by (vm_compute; reflexivity).
  destruct (page_insert_ok demo [4; 5; 6] 0 1 7 0x400000 (Z.lor PTE_RW PTE_USER)) as (r & s & _ & Hor).
  - apply demo_as.
  - by apply leaf_none_nohuge.
  - intros x Hx. change (mem demo) with demo_mem in Hx. by rewrite Hnone in Hx.
  - by apply demo_allocated; right.
  - apply demo_not_table. lia.
  - done.
  - split; vm_compute; [discriminate|reflexivity].
  - destruct Hor as [[_ Hi]|[_ Hf]].
    2: { pose proof (insf_short _ _ _ _ _ _ Hf) as H. simpl in H. lia. }
    destruct Hi as [Hw Hn Hl _ _ Hb Ht Hfr]. destruct Hw as (fresh & l' & Hfl & Has & Href & _).
    unfold insert_free, insert_refs in Hfl, Href. simpl mem in Hfl, Href. rewrite Hnone in Hfl, Href.
    assert (forall x, allocated (npage s) [4; 5; 6] x -> allocated (npage s) l' x) as Hal.
    { intros x [Hx Hxl]. split; [exact Hx|]. intros Hin. apply Hxl. rewrite Hfl. apply elem_of_app. by right. }
    assert (npage s = 16) as Hnp by (destruct Hb as [Hb _]; rewrite Hb; reflexivity).
    assert (forall i, idx i -> pte (mem s) 8 i = 0) as H8.
    { intros i Hi. rewrite (page_eq_pte demo_mem); [by apply demo_tbl8|done|]. apply Hfr.
      - split; [simpl; lia|]. rewrite !elem_of_cons, elem_of_nil. lia.
      - apply demo_not_table. lia. }
    assert (forall i, idx i -> tbl (mem s) 8 i = None) as T8.
    { intros i Hi. apply tbl_invalid. by rewrite H8. }
    assert (forall x, x <> 8 -> not_table (mem s) 8 x) as N8.
    { intros x Hx. split; [done|]. split; intros *; intros; by rewrite T8 in *. }
    assert (forall x, allocated (npage s) l' x /\ not_table (mem s) 0 8 ->
      x = 0 \/ (exists i, idx i /\ tbl (mem s) 0 i = Some x) \/
        (exists i t j, idx i /\ idx j /\ tbl (mem s) 0 i = Some t /\ tbl (mem s) t j = Some x) -> x <> 8) as Hn8.
    { intros x [_ (N1 & N2 & N3)] Hx ->. destruct Hx as [?|[(i & ? & ?)|(i & t & j & ? & ? & ? & ?)]]; [done| |].
      - by apply (N2 i).
      - by apply (N3 i t j). }
    assert (not_table (mem s) 0 8) as N08.
    { apply Ht; [|apply demo_not_table; lia]. split; [simpl; lia|]. rewrite !elem_of_cons, elem_of_nil. lia. }
    exists s, l', e. rewrite Hp. split; [exact Has|]. split; [exact Hn|]. split; [exact Hl|].
    assert (forall x, 7 <= x < 9 -> allocated (npage s) l' x) as Hal8.
    { intros x Hx. apply Hal. split; [lia|]. rewrite !elem_of_cons, elem_of_nil. lia. }
    split; [split; [exact (as_pm _ _ _ Has)|]; split|].
    + apply Hal8. lia.
    + intros i t Hi Hti. by rewrite T8 in Hti.
    + intros i t j u Hi Hj Hti. by rewrite T8 in Hti.
    + intros i i' t Hi Hi' Hti. by rewrite T8 in Hti.
    + intros i t j i' t' j' u Hi Hj Hi' Hj' Hti. by rewrite T8 in Hti.
    + split; [unfold leaf_pte, leaf; by rewrite H8 by eauto with pt|].
      split; [apply Hal8; lia|]. split; [apply N8; lia|].
      split; [rewrite Href, fn_lookup_insert; reflexivity|].
      destruct (as_pt _ _ _ Has) as [R1 R2 R3 _ _]. split; [split; [exact R1|apply N8; lia]|].
      intros t Htt. destruct (R2 _ _ (P1X_idx _) Htt) as [R2a _]. split.
      * split; [exact R2a|]. apply N8, (Hn8 t); [by split|]. right; left. exists (P1X 0x400000). split; [apply P1X_idx|exact Htt].
      * intros u Hu. destruct (R3 _ _ _ _ (P1X_idx _) (P2X_idx _) Htt Hu) as [R3a _].
        split; [exact R3a|]. apply N8, (Hn8 u); [by split|]. right; right.
        exists (P1X 0x400000), t, (P2X 0x400000). split; [apply P1X_idx|]. split; [apply P2X_idx|]. by split.
Qed.

(** ** The properties *)

(** C15: message passing.  When an environment waits for a message and the
    environment that runs next sends one to it, the send succeeds at once, the
    receiver has the value, the sender's identifier and a result of 0, joins
    the end of the scheduling queue, and accepts no second message until it
    waits again. *)
Theorem ipc_rendezvous k l c x rest from value perm :
  sched_inv k l -> curenv k = Some c -> c ∈ l -> lremove c l = x :: rest ->
  ENVX (env_id (envs k c)) = c -> env_id (envs k c) <> 0 ->
  u32 from = 0 \/ u32 from = env_id (envs k x) ->
  exists k1 k2, sys_ipc_recv 0 from k = Resume x k1 /\
    sys_ipc_try_send (env_id (envs k c)) value 0 perm k1 = Ret 0 k2 /\
    sched_inv k2 ((x :: rest) ++ [c]) /\
    env_ipc_value (envs k2 c) = value /\ env_ipc_from (envs k2 c) = env_id (envs k x) /\
    env_status (envs k2 c) = ENV_RUNNABLE /\ regs (env_tf (envs k2 c)) 10 = 0 /\
    forall value' perm',
      sys_ipc_try_send (env_id (envs k c)) value' 0 perm' k2 = Ret (- E_IPC_NOT_RECV) k2.
Proof.
  intros Hi Hc Hcl Hrest Hidx Hid0 Hfrom.
  assert (0 <= c < NENV) as Hcn by by apply (si_cur _ _ Hi).
  assert (x <> c) as Hxc.
  { intros ->. assert (c ∈ lremove c l) as H by (rewrite Hrest; set_solver).
    apply elem_of_lremove in H as [_ H]. done. }
  destruct (ipc_recv_ok k l c 0 from Hi Hc Hcl) as (k0 & E0 & Hi0 & Hec & Heo & Hc0 & Htf); [by left|].
  rewrite Hrest in Hi0.
  assert (cur_runnable k0 = None) as Hcr.
  { unfold cur_runnable. rewrite Hc0, Hec. by rewrite decide_False. }
  destruct (schedule_switch (A := Z) true k0 (x :: rest) x rest Hi0) as (k1 & E1 & Hr & Hi1);
    [done|by unfold next_queue; rewrite Hcr|].
  assert (forall y {B} (f : Env -> B), (forall w, f (kept (set_env_runs 0 w)) = f w) ->
    f (envs k1 y) = f (envs k0 y)) as Hk by (intros y B f Hf; by apply (kept_runs _ _ f Hf), (rn_kept _ _ _ _ Hr)).
  assert (env_id (envs k1 x) = env_id (envs k x)) as Hidx1 by (rewrite (Hk x _ env_id), Heo; done).
  assert (env_id (envs k1 c) = env_id (envs k c)) as Hidc1 by (rewrite (Hk c _ env_id), Hec; done).
  assert (c ∉ x :: rest) as Hcn1.
  { rewrite <- Hrest, elem_of_lremove. naive_solver. }
  assert (envid2env (env_id (envs k c)) false k1 = Ret (0, Some c) k1) as Hid1.
  { rewrite envid2env_eq by done. unfold envid_target.
    rewrite Hidx, decide_True; [done|]. split; [|done].
    rewrite (Hk c _ env_status), Hec by done. done. }
  pose proof (ipc_try_send_ok k1 (x :: rest) x c (env_id (envs k c)) value 0 perm Hi1
    (rn_cur _ _ _ _ Hr) Hid1 Hcn (fun _ => Hcn1) (or_introl eq_refl)) as Hs.
  rewrite decide_True in Hs.
  2: { split; [rewrite (Hk c _ env_ipc_recving), Hec; done|].
       rewrite Hidx1, (Hk c _ env_ipc_recv_from), Hec by done. simpl. tauto. }
  destruct Hs as (k2 & [Hi2 Hec2 Heo2 Hrest2] & E2).
  exists k1, k2. rewrite E0. split_and!; try done.
  - by rewrite Hec2.
  - rewrite Hec2. simpl. done.
  - by rewrite Hec2.
  - rewrite Hec2. simpl. rewrite (rn_saved _ _ _ _ Hr c Hc0), Htf. unfold set_reg. simpl.
    by rewrite fn_lookup_insert.
  - intros value' perm'. assert (curenv k2 = Some x) as Hc2.
    { rewrite Hrest2. simpl. exact (rn_cur _ _ _ _ Hr). }
    assert (envid2env (env_id (envs k c)) false k2 = Ret (0, Some c) k2) as Hid2.
    { rewrite envid2env_eq by done. unfold envid_target.
      rewrite Hidx, Hec2, decide_True; [done|]. by split. }
    assert (~ ipc_ready k2 x c) as Hnr by (intros [H _]; rewrite Hec2 in H; done).
    pose proof (ipc_try_send_ok k2 _ x c (env_id (envs k c)) value' 0 perm' Hi2 Hc2 Hid2 Hcn
      (fun H => match Hnr H with end) (or_introl eq_refl)) as Hs.
    by rewrite decide_False in Hs.
Qed.

Lemma ipc_rendezvous_witness :
  exists k1 k2, sys_ipc_recv 0 0 kipc = Resume 1 k1 /\
    sys_ipc_try_send 2048 42 0 0 k1 = Ret 0 k2 /\
    sched_inv k2 ([1] ++ [0]) /\
    env_ipc_value (envs k2 0) = 42 /\ env_ipc_from (envs k2 0) = 4097 /\
    env_status (envs k2 0) = ENV_RUNNABLE /\ regs (env_tf (envs k2 0)) 10 = 0 /\
    forall value' perm', sys_ipc_try_send 2048 value' 0 perm' k2 = Ret (- E_IPC_NOT_RECV) k2.
Proof.
  apply (ipc_rendezvous kipc [0; 1] 0 1 [] 0 42 0).
  - exact kipc_inv.
  - reflexivity.
  - by left.
  - reflexivity.
  - reflexivity.
  - discriminate.
  - by left.
Defined.



(** A message to a receiver that runs.  [sys_set_env_status] makes an
    environment that waits for a message runnable and leaves it waiting; the
    next message puts it on the scheduling queue a second time, after which its
    link points to itself and no list of environments describes the queue. *)
Theorem ipc_double_enqueue k l c e value perm :
  sched_inv k l -> curenv k = Some c -> e <> c -> 0 <= e < NENV -> may_access k c e ->
  env_status (envs k e) = ENV_NOT_RUNNABLE -> ipc_ready k c e ->
  ENVX (env_id (envs k e)) = e -> env_id (envs k e) <> 0 ->
  exists k1 k2, sys_set_env_status (env_id (envs k e)) ENV_RUNNABLE k = Ret 0 k1 /\
    sched_inv k1 (l ++ [e]) /\
    sys_ipc_try_send (env_id (envs k e)) value 0 perm k1 = Ret 0 k2 /\
    TAILQ_NEXT (env_sched_list k2) e = Some e /\ forall l', ~ sched_inv k2 l'.
Proof.
  intros Hi Hc Hec He Hacc Hst [Hrecv Hfrom] Hidx Hid0.
  assert (envid_target k (env_id (envs k e)) = Some e) as Ht.
  { unfold envid_target. by rewrite Hidx, decide_True by (by rewrite Hst). }
  assert (e ∉ l) as Hel by (rewrite (si_run _ _ Hi e), Hst; naive_solver).
  destruct (set_env_status_ok k l (env_id (envs k e)) ENV_RUNNABLE e Hi) as (q & Hi1 & E1); auto.
  { rewrite envid2env_eq, Ht, Hc by done. by rewrite decide_True. }
  rewrite Hc, bool_decide_eq_false_2 in E1 by congruence.
  unfold status_queue in Hi1. simpl Z.eqb in Hi1. rewrite decide_False in Hi1 by done.
  set (k1 := set_env_sched_list _ _) in *. cbv iota in Hi1.
  assert (envs k1 e = set_env_status ENV_RUNNABLE (envs k e)) as Hee by apply fn_lookup_insert.
  assert (env_id (envs k1 c) = env_id (envs k c)) as Hcc by (simpl; by rewrite fn_lookup_insert_ne).
  exists k1. unfold sys_ipc_try_send. change (negb (0 =? 0) && is_illegal_va 0) with false. cbv iota.
  rewrite (bind_ret _ _ k1 (0, Some e) k1).
  2: { rewrite envid2env_eq by done. unfold envid_target. by rewrite Hidx, Hee, decide_True. }
  change (negb (0 =? 0)) with false. cbv iota.
  rewrite (bind_ret (deref (Some e)) _ k1 e k1 eq_refl), env_get_bind, Hee.
  change (env_ipc_recving (set_env_status ENV_RUNNABLE (envs k e))) with (env_ipc_recving (envs k e)).
  destruct (Z.eqb_spec (env_ipc_recving (envs k e)) 0); [done|].
  rewrite env_get_bind, bind_get. change (curenv k1) with (curenv k).
  rewrite Hc, (bind_ret (deref (Some c)) _ k1 c k1 eq_refl), env_get_bind.
  rewrite Hee, Hcc.
  change (env_ipc_recv_from (set_env_status ENV_RUNNABLE (envs k e))) with (env_ipc_recv_from (envs k e)).
  assert (negb (env_ipc_recv_from (envs k e) =? 0) &&
    negb (env_ipc_recv_from (envs k e) =? env_id (envs k c)) = false) as ->.
  { destruct Hfrom as [-> | ->]; [done|]. rewrite Z.eqb_refl. apply andb_false_r. }
  fold (ipc_perm perm). cbv zeta. pose proof (env_upd_refl k1 e) as Hu. do 6 ustep Hu.
  destruct (tailq_insert_last_again _ _ _ (si_rep _ _ Hi1)) as (q2 & Eq & Hnext).
  unfold sched_op. rewrite bind_assoc, bind_get.
  match type of Hu with env_upd _ ?k2 _ _ =>
    assert (env_sched_list k2 = env_sched_list k1) as -> by (by rewrite (eu_eq _ _ _ _ Hu));
    exists (set_env_sched_list q2 k2) end.
  rewrite Eq, bind_modify. split_and!; try done.
  intros l' [Hq Hrun _]. apply (tailq_rep_next_ne _ _ e Hq); [|exact Hnext].
  apply Hrun. split; [done|]. simpl. by rewrite (eu_env _ _ _ _ Hu).
Qed.

Lemma ipc_double_enqueue_witness :
  exists k1 k2, sys_set_env_status 6146 ENV_RUNNABLE kwait = Ret 0 k1 /\ sched_inv k1 [0; 1; 2] /\
    sys_ipc_try_send 6146 42 0 0 k1 = Ret 0 k2 /\
    TAILQ_NEXT (env_sched_list k2) 2 = Some 2 /\ forall l', ~ sched_inv k2 l'.
Proof.
  apply (ipc_double_enqueue kwait [0; 1] 0 2 42 0).
  - exact kwait_inv.
  - reflexivity.
  - discriminate.
  - split; [discriminate|reflexivity].
  - by right.
  - reflexivity.
  - split; [discriminate|by left].
  - reflexivity.
  - discriminate.
Defined.

(** C26: [sys_set_env_status] keeps the scheduler's queue the list of the
    runnable environments: a target that becomes runnable joins its end, one
    that stops leaves it, one whose status stays keeps its place; a caller that
    changes itself goes through the scheduler, and an illegal status or an
    identifier that does not resolve changes nothing. *)
Theorem sys_set_env_status_correct k l envid status :
  sched_inv k l ->
  (status <> ENV_RUNNABLE -> status <> ENV_NOT_RUNNABLE ->
     sys_set_env_status envid status k = Ret (- E_INVAL) k) /\
  (status = ENV_RUNNABLE \/ status = ENV_NOT_RUNNABLE ->
     (forall r, r <> 0 -> envid2env envid true k = Ret (r, None) k ->
        sys_set_env_status envid status k = Ret r k) /\
     (forall e, envid2env envid true k = Ret (0, Some e) k -> 0 <= e < NENV ->
        env_status (envs k e) = ENV_RUNNABLE \/ env_status (envs k e) = ENV_NOT_RUNNABLE ->
        exists k', sched_inv k' (status_queue l e status) /\
          env_status (envs k' e) = status /\ (forall x, x <> e -> envs k' x = envs k x) /\
          sys_set_env_status envid status k =
            if bool_decide (curenv k = Some e) then schedule true k' else Ret 0 k')).
Proof.
  intros Hi. split.
  - intros H1 H2. unfold sys_set_env_status. unfold ENV_RUNNABLE, ENV_NOT_RUNNABLE in *.
    destruct (Z.eqb_spec status 1), (Z.eqb_spec status 2); done.
  - intros Hst. split.
    + intros r Hr E. unfold sys_set_env_status.
      destruct (negb (status =? ENV_RUNNABLE) && negb (status =? ENV_NOT_RUNNABLE)) eqn:Ek.
      { destruct Hst as [-> | ->]; discriminate. }
      rewrite (bind_ret _ _ _ _ _ E). by destruct (Z.eqb_spec r 0).
    + intros e E He Hpre. destruct (set_env_status_ok k l envid status e Hi Hst E He Hpre) as (q & Hi' & E').
      eexists. split; [exact Hi'|]. split; [simpl; by rewrite fn_lookup_insert|].
      split; [|exact E']. intros x Hx. simpl. by rewrite fn_lookup_insert_ne.
Qed.

Lemma sys_set_env_status_correct_witness :
  exists k', sched_inv k' [0; 1; 2] /\ env_status (envs k' 2) = ENV_RUNNABLE /\
    (forall x, x <> 2 -> envs k' x = envs kwait x) /\
    sys_set_env_status 6146 ENV_RUNNABLE kwait = Ret 0 k'.
Proof.
  destruct (sys_set_env_status_correct kwait [0; 1] 6146 ENV_RUNNABLE kwait_inv) as [_ H].
  destruct (H (or_introl eq_refl)) as [_ H2].
  exact (H2 2 eq_refl ltac:(split; [discriminate|reflexivity]) (or_intror eq_refl)).
Defined.

(** Shared memory.  [sys_mem_map] makes the page of the source address
    visible at the target address with the rights asked for: both translate to
    the same page afterwards, its contents stay, and every other address of
    the target keeps its translation.  Without memory for tables it returns
    [-E_NO_MEM] and no translation changes; an illegal address is refused. *)
Theorem sys_mem_map_shares k fl srcid srcva dstid dstva perm s d sroot droot e :
  envid2env srcid true k = Ret (0, Some s) k -> envid2env dstid true k = Ret (0, Some d) k ->
  env_pgdir (envs k s) = page2kva sroot -> env_pgdir (envs k d) = page2kva droot ->
  as_wf (pm k) fl sroot -> nohuge (mem (pm k)) sroot srcva ->
  leaf_pte (mem (pm k)) sroot srcva = Some e ->
  as_wf (pm k) fl droot -> nohuge (mem (pm k)) droot dstva -> mapped_ok (pm k) droot dstva ->
  allocated (npage (pm k)) fl (pte_page e) -> not_table (mem (pm k)) droot (pte_page e) ->
  pp_ref (pm k) (pte_page e) < 2 ^ 16 - 1 -> path_apart (pm k) fl droot sroot srcva ->
  if is_illegal_va srcva || is_illegal_va dstva then
    sys_mem_map srcid srcva dstid dstva perm k = Ret (- E_INVAL) k
  else
    exists r p, sys_mem_map srcid srcva dstid dstva perm k = Ret r (set_pm p k) /\
      leaf_pte (mem p) sroot srcva = Some e /\
      (r = 0 /\ leaf_pte (mem p) droot dstva = Some (new_pte (pte_page e) (user_perm perm)) /\
         others_same (mem (pm k)) (mem p) droot dstva /\
         page_eq (mem (pm k)) (mem p) (pte_page e) \/
       r = - E_NO_MEM /\ forall va, leaf_pte (mem p) droot va = leaf_pte (mem (pm k)) droot va).
Proof.
  intros Hs Hd Hsp Hdp Hsas Hsn He Hdas Hdn Hdm Hal Hnt Href Hap. unfold sys_mem_map.
  destruct (is_illegal_va srcva || is_illegal_va dstva); [done|].
  rewrite (bind_ret _ _ _ _ _ Hs). change (negb (0 =? 0)) with false. cbv iota.
  rewrite (bind_ret _ _ _ _ _ Hd). change (negb (0 =? 0)) with false. cbv iota.
  destruct (page_lookup_mapped _ _ _ _ _ Hsas Hsn He (proj1 Hal)) as (u & _ & E).
  assert (0 <= user_perm perm < 1024) as Hperm.
  { unfold user_perm. apply (lor_bound _ _ 10); [lia| |by vm_compute].
    rewrite Z.ldiff_land. apply (land_bound _ _ 10); [lia|].
    rewrite (land_ones' perm 10) by done. by apply Z.mod_pos_bound. }
  destruct (page_insert_ok (pm k) fl droot (env_asid (envs k d)) (pte_page e) dstva (user_perm perm)
    Hdas Hdn Hdm Hal Hnt Href Hperm) as (r & p & E2 & Hor).
  exists r, p. split.
  { rewrite (bind_ret _ _ k (Some (pte_page e, ent (page2kva u) (P3X srcva))) k).
    2: { rewrite with_env_eq, Hsp. unfold inpm. by rewrite (zoom_ret _ _ _ _ _ _ E), set_pm_same. }
    rewrite with_env_eq, Hdp. unfold inpm. by rewrite (zoom_ret _ _ _ _ _ _ E2). }
  split.
  - rewrite <- He. eapply apart_leaf; [|exact Hap]. by destruct Hor as [[_ []]|[_ []]].
  - destruct Hor as [[-> Hi]|[-> Hf]]; [left|right].
    + split_and!; [done|exact (ins_leaf _ _ _ _ _ _ _ _ Hi)|exact (ins_others _ _ _ _ _ _ _ _ Hi)|].
      by apply (ins_frame _ _ _ _ _ _ _ _ Hi).
    + split; [done|]. exact (insf_leaf _ _ _ _ _ _ Hf).
Qed.

Lemma sys_mem_map_shares_witness :
  exists s e, leaf_pte (mem s) 0 0x400000 = Some e /\
    exists r p, sys_mem_map 0 0x400000 4097 0x500000 PTE_R (kshare s) = Ret r (set_pm p (kshare s)) /\
      leaf_pte (mem p) 0 0x400000 = Some e /\
      (r = 0 /\ leaf_pte (mem p) 8 0x500000 = Some (new_pte (pte_page e) (user_perm PTE_R)) /\
         others_same (mem s) (mem p) 8 0x500000 /\ page_eq (mem s) (mem p) (pte_page e) \/
       r = - E_NO_MEM /\ forall va, leaf_pte (mem p) 8 va = leaf_pte (mem s) 8 va).
Proof.
  destruct demo_share as (s & l & e & H1 & H2 & H3 & H4 & H5 & H6 & H7 & H8 & H9).
  exists s, e. split; [exact H3|].
  apply (sys_mem_map_shares (kshare s) l 0 0x400000 4097 0x500000 PTE_R 0 1 0 8 e).
  - reflexivity.
  - reflexivity.
  - reflexivity.
  - reflexivity.
  - exact H1.
  - exact H2.
  - exact H3.
  - exact H4.
  - exact (leaf_none_nohuge _ _ _ H5).
  - intros x Hx. unfold kshare in Hx. simpl pm in Hx. rewrite H5 in Hx. discriminate Hx.
  - exact H6.
  - exact H7.
  - exact H8.
  - exact H9.
Defined.

(** The dispatcher.  An unknown number yields [-E_NO_SYS] without moving
    past the instruction, so the environment traps there again, for ever; for
    a known one the program counter moves past the instruction, and a call that
    returns puts its result in [a0] and marks the environment as outside of
    the kernel. *)
Theorem do_syscall_correct fuel console polls stack k c :
  curenv k = Some c ->
  let sysno := i32 (regs (ktf k) 10) in
  let run := do_syscall fuel console polls stack in
  if (sysno <? 0) || (MAX_SYSNO <=? sysno) then
    exists k', run k = Ret tt k' /\ regs (ktf k') 10 = 2 ^ 64 - E_NO_SYS /\
      sepc (ktf k') = sepc (ktf k) /\ exists k'', run k' = Ret tt k'' /\ tf_eq (ktf k'') (ktf k')
  else
    exists k0, sepc (ktf k0) = u64 (sepc (ktf k) + 4) /\ env_in_syscall (envs k0 c) = 1 /\
      (forall i, regs (ktf k0) i = regs (ktf k) i) /\
      forall ret k1,
        syscall_table fuel console polls stack sysno (regs (ktf k) 11) (regs (ktf k) 12)
          (regs (ktf k) 13) (regs (ktf k) 14) (regs (ktf k) 15) k0 = Ret ret k1 ->
        curenv k1 = Some c ->
        exists k', run k = Ret tt k' /\ regs (ktf k') 10 = u64 ret /\
          sepc (ktf k') = sepc (ktf k1) /\ env_in_syscall (envs k' c) = 0.
Proof.
  intros Hc sysno run.
  assert (forall k, (i32 (regs (ktf k) 10) <? 0) || (MAX_SYSNO <=? i32 (regs (ktf k) 10)) = true ->
    run k = Ret tt (set_ktf (set_reg 10 (- E_NO_SYS) (ktf k)) k)) as Hun.
  { intros x Hx. unfold run, do_syscall. rewrite bind_get. cbv zeta. by rewrite Hx. }
  destruct ((sysno <? 0) || (MAX_SYSNO <=? sysno)) eqn:Hs.
  - eexists. split; [by apply Hun|]. split; [simpl; by rewrite fn_lookup_insert|]. split; [done|].
    eexists. split; [apply Hun; reflexivity|].
    split; [|done]. intros i _. simpl. destruct (decide (10 = i)) as [<-|Hne].
    + by rewrite !fn_lookup_insert.
    + by rewrite !fn_lookup_insert_ne.
  - eexists (set_ktf (set_sepc (u64 (sepc (ktf k) + 4)) (ktf k)) (set_envs (<[c := set_env_in_syscall 1 (envs k c)]> (envs k)) k)).
    split; [reflexivity|]. split; [simpl; by rewrite fn_lookup_insert|]. split; [done|].
    intros ret k1 E Hc1. unfold run, do_syscall. rewrite bind_get. cbv zeta. fold sysno. rewrite Hs.
    rewrite bind_get, Hc. unfold upd_env. rewrite !bind_modify, bind_get. simpl regs.
    rewrite (bind_ret _ _ _ _ _ E), bind_get, Hc1, (bind_ret (deref (Some c)) _ k1 c k1 eq_refl), bind_modify.
    eexists. split; [reflexivity|]. simpl. rewrite !fn_lookup_insert. done.
Qed.

Lemma do_syscall_correct_witness :
  exists k', do_syscall 1 (fun _ => (0, 0)) 1 (fun _ => 0) (set_ktf (set_reg 10 28 tf0) kipc) = Ret tt k' /\
    regs (ktf k') 10 = 2 ^ 64 - E_NO_SYS /\ sepc (ktf k') = 0 /\
    exists k'', do_syscall 1 (fun _ => (0, 0)) 1 (fun _ => 0) k' = Ret tt k'' /\ tf_eq (ktf k'') (ktf k').
Proof.
  exact (do_syscall_correct 1 (fun _ => (0, 0)) 1 (fun _ => 0) (set_ktf (set_reg 10 28 tf0) kipc) 0 eq_refl).
Defined.
