(* ===== verification/CString.v ===== *)
(** lib/string.c: the memory and string routines, and [parse_number].

    [memcpy] and [memset] move up to eight bytes at a time.  They are modelled
    access by access on the byte-addressed memory of Mem.v: an access of [w]
    bytes at an address that is not a multiple of [w] is the fault [None].
    They are shown to compute [copy] and [fill], which the rest of the
    development uses, and never to fault.

    The loops of the string routines stop at a zero byte; [fuel] bounds their
    iterations and [None] is a string longer than that. *)
From S2P Require Import Prelude Mem.

(** ** memcpy *)

(** The variables of [memcpy]: the memory, [d], [s] and [n]. *)
Record cursor := Cursor { c_mem : memory; c_d : Z; c_s : Z; c_n : Z }.

(** [( *(T * )d++ = *(T * )s++; n -= w)] for a type [T] of [w] bytes. *)
Definition move (w : Z) (c : cursor) : option cursor :=
  if (Z.land (c_d c) (w - 1) =? 0) && (Z.land (c_s c) (w - 1) =? 0) then
    Some (Cursor (store (Z.to_nat w) (c_mem c) (c_d c) (load (Z.to_nat w) (c_mem c) (c_s c)))
            (c_d c + w) (c_s c + w) (c_n c - w))
  else None.

(** [while (n > 0 && ((uintptr_t)s & mask)) { *d++ = *s++; n--; }] *)
Fixpoint move_bytes (fuel : nat) (mask : Z) (c : cursor) : option cursor :=
  match fuel with
  | O => Some c
  | S fuel =>
      if (0 <? c_n c) && negb (Z.land (c_s c) mask =? 0) then
        c ← move 1 c; move_bytes fuel mask c
      else Some c
  end.

(** [for (; n >= w; n -= w) *dw++ = *sw++;] *)
Fixpoint move_words (fuel : nat) (w : Z) (c : cursor) : option cursor :=
  match fuel with
  | O => Some c
  | S fuel => if w <=? c_n c then c ← move w c; move_words fuel w c else Some c
  end.

Definition memcpy (m : memory) (dest src n : Z) : option memory :=
  let fuel := Z.to_nat n in
  let c := Cursor m dest src n in
  c ← (if Z.land (c_s c) 7 =? Z.land (c_d c) 7 then
         c ← move_bytes fuel 7 c; move_words fuel 8 c
       else Some c);
  c ← (if (4 <=? c_n c) && (Z.land (c_s c) 3 =? Z.land (c_d c) 3) then
         c ← move_bytes fuel 3 c; move_words fuel 4 c
       else Some c);
  c ← (if (2 <=? c_n c) && (Z.land (c_s c) 1 =? Z.land (c_d c) 1) then
         c ← (if negb (Z.land (c_s c) 1 =? 0) && (0 <? c_n c) then move 1 c else Some c);
         move_words fuel 2 c
       else Some c);
  c ← move_words fuel 1 c;
  Some (c_mem c).

(** ** memset *)

(** The byte repeated eight times. *)
Definition memset_word (byte : Z) : Z :=
  Z.lor (Z.lor (Z.lor (Z.lor (Z.lor (Z.lor (Z.lor
    (Z.shiftl byte 56) (Z.shiftl byte 48)) (Z.shiftl byte 40)) (Z.shiftl byte 32))
    (Z.shiftl byte 24)) (Z.shiftl byte 16)) (Z.shiftl byte 8)) byte.

(** A store of [w] bytes at a multiple of [w]. *)
Definition store_aligned (w : Z) (m : memory) (a v : Z) : option memory :=
  if a mod w =? 0 then Some (store (Z.to_nat w) m a v) else None.

(** [while (dst % 8 != 0 && dst < max) *dst++ = byte;] *)
Fixpoint set_head (fuel : nat) (m : memory) (dst max byte : Z) : option (memory * Z) :=
  match fuel with
  | O => Some (m, dst)
  | S fuel =>
      if negb (dst mod 8 =? 0) && (dst <? max) then
        m ← store_aligned 1 m dst byte; set_head fuel m (dst + 1) max byte
      else Some (m, dst)
  end.

(** [while (dst + w <= max) { *(T * )dst = v; dst += w; }] *)
Fixpoint set_words (fuel : nat) (w : Z) (m : memory) (dst max v : Z) : option (memory * Z) :=
  match fuel with
  | O => Some (m, dst)
  | S fuel =>
      if dst + w <=? max then
        m ← store_aligned w m dst v; set_words fuel w m (dst + w) max v
      else Some (m, dst)
  end.

Definition memset (m : memory) (dst c n : Z) : option memory :=
  let fuel := Z.to_nat n in
  let max := dst + n in
  let byte := Z.land c 255 in
  '(m, dst) ← set_head fuel m dst max byte;
  '(m, dst) ← set_words fuel 8 m dst max (memset_word byte);
  '(m, dst) ← set_words fuel 1 m dst max byte;
  Some m.

(** ** Strings *)

Fixpoint strlen (fuel : nat) (m : memory) (s : Z) : option Z :=
  match fuel with
  | O => None
  | S fuel =>
      if load8 m s =? 0 then Some 0
      else n ← strlen fuel m (s + 1); Some (n + 1)
  end.

Fixpoint strcpy (fuel : nat) (m : memory) (dst src : Z) : option memory :=
  match fuel with
  | O => None
  | S fuel =>
      let b := load8 m src in
      let m := store8 m dst b in
      if b =? 0 then Some m else strcpy fuel m (dst + 1) (src + 1)
  end.

(** The inner [None] is NULL. *)
Fixpoint strchr (fuel : nat) (m : memory) (s c : Z) : option (option Z) :=
  match fuel with
  | O => None
  | S fuel =>
      if load8 m s =? 0 then Some None
      else if load8 m s =? c then Some (Some s)
      else strchr fuel m (s + 1) c
  end.

Fixpoint strcmp (fuel : nat) (m : memory) (p q : Z) : option Z :=
  match fuel with
  | O => None
  | S fuel =>
      if negb (load8 m p =? 0) && (load8 m p =? load8 m q) then strcmp fuel m (p + 1) (q + 1)
      else if load8 m p <? load8 m q then Some (-1)
      else if load8 m q <? load8 m p then Some 1
      else Some 0
  end.

(** The value of a digit, and [None] for another character. *)
Definition digit_of (c : Z) : option Z :=
  if (48 <=? c) && (c <=? 57) then Some (c - 48)
  else if (97 <=? c) && (c <=? 122) then Some (c - 97 + 10)
  else if (65 <=? c) && (c <=? 90) then Some (c - 65 + 10)
  else None.

(** The result and [*next_token]. *)
Fixpoint parse_digits (fuel : nat) (m : memory) (str base result : Z) : option (Z * Z) :=
  match fuel with
  | O => None
  | S fuel =>
      if load8 m str =? 0 then Some (result, str)
      else
        match digit_of (load8 m str) with
        | None => Some (result, str)
        | Some d =>
            if base <=? d then Some (result, str)
            else parse_digits fuel m (str + 1) base (i32 (result * base + d))
        end
  end.

Definition parse_number (fuel : nat) (m : memory) (str base : Z) : option (Z * Z) :=
  parse_digits fuel m str base 0.

(** ** memcpy computes [copy] *)

(** Every address holds a byte. *)
Definition mem_wf (m : memory) : Prop := forall x, 0 <= m x < 256.

(** Reading byte [i] of a little-endian value. *)
Lemma load_byte n : forall m a i, (i < n)%nat ->
  (load n m a / 256 ^ Z.of_nat i) mod 256 = u8 (m (a + Z.of_nat i)).
Proof.
  Transparent load.
  induction n as [|n IH]; intros m a i Hi; [lia|]. cbn [load].
  pose proof (u8_bound (m a)). destruct i as [|i].
  - change (256 ^ Z.of_nat 0) with 1. rewrite Z.div_1_r, Z.add_0_r.
    rewrite Z.mul_comm, Z.mod_add, Z.mod_small by lia. done.
  - rewrite Nat2Z.inj_succ, Z.pow_succ_r, <- Z.div_div by lia.
    rewrite Z.mul_comm, Z.div_add, (Z.div_small (u8 (m a))), Z.add_0_l by lia.
    rewrite IH by lia. do 2 f_equal. lia.
  Opaque load.
Qed.

(** A value stored is the copy of the bytes it was loaded from. *)
Lemma store_load_copy n m a b : mem_wf m ->
  meq (store n m a (load n m b)) (copy m a b (Z.of_nat n)).
Proof.
  Transparent store.
  intros Hm x. unfold store, copy.
  destruct (Z.leb_spec a x), (Z.ltb_spec x (a + Z.of_nat n)); simpl; try done.
  replace (x - a) with (Z.of_nat (Z.to_nat (x - a))) by lia.
  rewrite load_byte by lia. unfold u8. apply Z.mod_small, Hm.
  Opaque store.
Qed.

Lemma copy_wf m d s n : mem_wf m -> mem_wf (copy m d s n).
Proof. intros Hm x. unfold copy. case_match; apply Hm. Qed.

Lemma meq_wf m m' : meq m m' -> mem_wf m' -> mem_wf m.
Proof. intros H Hm x. rewrite H. apply Hm. Qed.

(** Two consecutive copies are one, when no source byte was overwritten. *)
Lemma copy_app m dest src n k w :
  0 <= k -> 0 <= w -> k + w <= n -> dest <= src \/ src + n <= dest ->
  meq (copy (copy m dest src k) (dest + k) (src + k) w) (copy m dest src (k + w)).
Proof.
  intros Hk Hw Hn Hd x. unfold copy.
  destruct (Z.leb_spec (dest + k) x), (Z.ltb_spec x (dest + k + w)),
    (Z.leb_spec dest x), (Z.ltb_spec x (dest + k)), (Z.ltb_spec x (dest + (k + w)));
    simpl; try lia; try done.
  replace (src + k + (x - (dest + k))) with (src + (x - dest)) by lia.
  destruct (Z.leb_spec dest (src + (x - dest))), (Z.ltb_spec (src + (x - dest)) (dest + k));
    simpl; try done. lia.
Qed.

Section memcpy.
Context (m0 : memory) (dest src n : Z).
Hypothesis (Hwf : mem_wf m0) (Hn : 0 <= n) (Hdis : dest <= src \/ src + n <= dest).

(** The cursor after a prefix of the bytes. *)
Definition copied (c : cursor) : Prop :=
  exists k, 0 <= k <= n /\ c_d c = dest + k /\ c_s c = src + k /\ c_n c = n - k /\
    meq (c_mem c) (copy m0 dest src k).

(** Both pointers are multiples of [w]. *)
Definition aligned (w : Z) (c : cursor) : Prop :=
  Z.land (c_d c) (w - 1) = 0 /\ Z.land (c_s c) (w - 1) = 0.

Lemma move_ok w c : copied c -> 0 < w <= c_n c -> aligned w c ->
  exists c', move w c = Some c' /\ copied c' /\
    c_d c' = c_d c + w /\ c_s c' = c_s c + w /\ c_n c' = c_n c - w.
Proof.
  intros (k & Hk & Hd & Hs & Hcn & Hm) Hw [Ha1 Ha2]. unfold move. rewrite Ha1, Ha2. cbn [Z.eqb andb].
  eexists. split; [reflexivity|]. simpl. split; [|done].
  exists (k + w). simpl. split_and!; [lia..|].
  rewrite store_load_copy by (by eapply meq_wf, copy_wf).
  rewrite Hm, Hd, Hs, Z2Nat.id by lia. apply (copy_app _ _ _ n); lia.
Qed.

Lemma aligned_1 c : aligned 1 c.
Proof. split; apply Z.land_0_r. Qed.

Lemma land_mod x w : (exists k, 0 <= k /\ w = 2 ^ k) -> Z.land x (w - 1) = x mod w.
Proof. intros (k & Hk & ->). by apply land_ones'. Qed.

(** Advancing both pointers keeps their difference. *)
Lemma same_offset w d s j : (exists k, 0 <= k /\ w = 2 ^ k) ->
  Z.land d (w - 1) = Z.land s (w - 1) -> Z.land (d + j) (w - 1) = Z.land (s + j) (w - 1).
Proof.
  intros Hw. rewrite !land_mod by done. intros H.
  destruct Hw as (k & Hk & ->). rewrite (Z.add_mod d), H, <- Z.add_mod by lia. done.
Qed.

Lemma move_bytes_ok w fuel : (exists k, 0 <= k /\ w = 2 ^ k) -> forall c,
  copied c -> (Z.to_nat (c_n c) <= fuel)%nat ->
  Z.land (c_d c) (w - 1) = Z.land (c_s c) (w - 1) ->
  exists c', move_bytes fuel (w - 1) c = Some c' /\ copied c' /\ (c_n c' = 0 \/ aligned w c').
Proof.
  intros Hw. induction fuel as [|fuel IH]; intros c Hc Hf Ha; simpl.
  - exists c. split; [done|]. split; [done|]. left. destruct Hc as (k & ?). lia.
  - destruct (Z.ltb_spec 0 (c_n c)) as [Hp|Hp]; simpl.
    + destruct (Z.eqb_spec (Z.land (c_s c) (w - 1)) 0) as [E|E]; simpl.
      * exists c. split_and!; [done..|]. right. split; congruence.
      * destruct (move_ok 1 c Hc ltac:(lia) (aligned_1 c)) as (c1 & Hm & Hc1 & Hd & Hs & Hcn).
        rewrite Hm. apply IH; [done|lia|]. rewrite Hd, Hs. by apply same_offset.
    + exists c. split_and!; [done..|]. left. destruct Hc as (k & ?). lia.
Qed.

Lemma move_words_ok w fuel : (exists k, 0 <= k /\ w = 2 ^ k) -> forall c,
  copied c -> (Z.to_nat (c_n c) <= fuel)%nat -> (c_n c < w \/ aligned w c) ->
  exists c', move_words fuel w c = Some c' /\ copied c' /\ c_n c' < w.
Proof.
  intros Hw. assert (0 < w) as Hw0 by (destruct Hw as (k & ? & ->); lia).
  induction fuel as [|fuel IH]; intros c Hc Hf Ha; simpl.
  - exists c. split_and!; [done..|]. destruct Hc as (k & ?). lia.
  - destruct (Z.leb_spec w (c_n c)) as [Hp|Hp]; [|by exists c].
    destruct Ha as [|Ha]; [lia|].
    destruct (move_ok w c Hc ltac:(lia) Ha) as (c1 & Hm & Hc1 & Hd & Hs & Hcn).
    rewrite Hm. apply IH; [done|lia|]. right. destruct Ha as [H1 H2]. unfold aligned.
    rewrite Hd, Hs, !land_mod in * by done.
    rewrite <- (Z.mul_1_l w) at 1 3. rewrite !Z.mod_add by lia. done.
Qed.

Lemma copied_fuel c : copied c -> (Z.to_nat (c_n c) <= Z.to_nat n)%nat.
Proof. intros (k & ?). lia. Qed.

(** A stage of [memcpy]: align by bytes, then move words. *)
Lemma stage_ok w mask c : (exists k, 0 <= k /\ w = 2 ^ k) -> mask = w - 1 ->
  copied c -> Z.land (c_s c) mask = Z.land (c_d c) mask ->
  exists c', (c ← move_bytes (Z.to_nat n) mask c; move_words (Z.to_nat n) w c) = Some c' /\ copied c'.
Proof.
  intros Hw -> Hc E.
  destruct (move_bytes_ok w (Z.to_nat n) Hw c Hc (copied_fuel c Hc) ltac:(done))
    as (c' & -> & Hc' & Ha). cbn [mbind option_bind].
  assert (0 < w) by (destruct Hw as (k & ? & ->); lia).
  destruct (move_words_ok w (Z.to_nat n) Hw c' Hc' (copied_fuel c' Hc'))
    as (c2 & H2 & Hc2 & _); [destruct Ha; [left; lia|by right]|by exists c2].
Qed.

(** The last stage before the single bytes: one byte, then half words. *)
Lemma stage2_ok c : copied c -> Z.land (c_s c) 1 = Z.land (c_d c) 1 -> 2 <= c_n c ->
  exists c',
    (c ← (if negb (Z.land (c_s c) 1 =? 0) && (0 <? c_n c) then move 1 c else Some c);
     move_words (Z.to_nat n) 2 c) = Some c' /\ copied c'.
Proof.
  intros Hc E Hn2.
  assert (exists c', (if negb (Z.land (c_s c) 1 =? 0) && (0 <? c_n c) then move 1 c else Some c)
    = Some c' /\ copied c' /\ aligned 2 c') as (c' & -> & Hc' & Ha).
  { destruct (Z.eqb_spec (Z.land (c_s c) 1) 0) as [E0|E0]; simpl.
    - exists c. split_and!; [done..|]. split; change (2 - 1) with 1; congruence.
    - destruct (Z.ltb_spec 0 (c_n c)); [|lia].
      destruct (move_ok 1 c Hc ltac:(lia) (aligned_1 c)) as (c' & -> & Hc' & Hd & Hs & _).
      exists c'. split_and!; [done..|]. unfold aligned. change (2 - 1) with 1.
      rewrite Hd, Hs. rewrite !(land_ones' _ 1) in * by done. change (2 ^ 1) with 2 in *.
      split; Z.div_mod_to_equations; lia. }
  cbn [mbind option_bind].
  destruct (move_words_ok 2 (Z.to_nat n) ltac:(by exists 1) c' Hc' (copied_fuel c' Hc'))
    as (c4 & H4 & Hc4 & _); [by right|by exists c4].
Qed.

(** A stage that is skipped when its condition fails. *)
Lemma guarded (b : bool) (x : option cursor) c :
  copied c -> (b = true -> exists c', x = Some c' /\ copied c') ->
  exists c', (if b then x else Some c) = Some c' /\ copied c'.
Proof. destruct b; [by auto|by exists c]. Qed.

Lemma memcpy_ok : exists m', memcpy m0 dest src n = Some m' /\ meq m' (copy m0 dest src n).
Proof.
  unfold memcpy. set (c := Cursor m0 dest src n).
  assert (copied c) as Hc.
  { exists 0. simpl. split_and!; [lia..|]. intros x. unfold copy.
    destruct (Z.leb_spec dest x), (Z.ltb_spec x (dest + 0)); simpl; done || lia. }
  clearbody c.
  edestruct guarded as (c1 & -> & Hc1);
    [exact Hc|intros E%Z.eqb_eq; apply stage_ok; [by exists 3|done..]|].
  cbn [mbind option_bind].
  edestruct guarded as (c2 & -> & Hc2);
    [exact Hc1|intros [_ E%Z.eqb_eq]%andb_prop; apply stage_ok; [by exists 2|done..]|].
  cbn [mbind option_bind].
  edestruct guarded as (c3 & -> & Hc3);
    [exact Hc2|intros [E2%Z.leb_le E%Z.eqb_eq]%andb_prop; by apply stage2_ok|].
  cbn [mbind option_bind].
  destruct (move_words_ok 1 (Z.to_nat n) ltac:(by exists 0) c3 Hc3 (copied_fuel c3 Hc3))
    as (c4 & -> & (k & Hk & _ & _ & Hcn & Hm) & Hlt); [right; apply aligned_1|].
  exists (c_mem c4). split; [done|]. by replace n with k by lia.
Qed.
End memcpy.

(** ** memset computes [fill] *)

Lemma memset_word_bytes b i : 0 <= b < 256 -> 0 <= i < 8 ->
  (memset_word b / 256 ^ i) mod 256 = b.
Proof.
  intros Hb Hi.
  assert (forallb (fun b => forallb (fun i => (memset_word b / 256 ^ i) mod 256 =? b) (seqZ 0 8))
    (seqZ 0 256) = true) as H by (vm_compute; reflexivity).
  rewrite forallb_forall in H. specialize (H b ltac:(apply list_elem_of_In, elem_of_seqZ; lia)).
  rewrite forallb_forall in H. by apply Z.eqb_eq, H, list_elem_of_In, elem_of_seqZ.
Qed.

Section memset.
Context (m0 : memory) (dst n c : Z).
Hypothesis (Hn : 0 <= n).

Definition filled (m : memory) (d : Z) : Prop :=
  exists k, 0 <= k <= n /\ d = dst + k /\ meq m (fill m0 dst k c).

(** A store whose bytes are all [c] extends the filled prefix. *)
Lemma store_filled w m d v : filled m d -> 0 < w -> d + w <= dst + n -> d mod w = 0 ->
  (forall i, 0 <= i < w -> (v / 256 ^ i) mod 256 = u8 c) ->
  exists m', store_aligned w m d v = Some m' /\ filled m' (d + w).
Proof.
  Transparent store.
  intros (k & Hk & Hd & Hm) Hw Hle Hal Hv. unfold store_aligned. rewrite Hal. simpl.
  eexists. split; [reflexivity|]. exists (k + w). split_and!; [lia..|].
  intros x. unfold store. rewrite Z2Nat.id by lia.
  destruct (Z.leb_spec d x), (Z.ltb_spec x (d + w)); simpl; rewrite ?Hm; unfold fill;
    destruct (Z.leb_spec dst x), (Z.ltb_spec x (dst + k)), (Z.ltb_spec x (dst + (k + w)));
    simpl; try lia; try done; apply Hv; lia.
  Opaque store.
Qed.

Lemma byte_u8 : Z.land c 255 = u8 c.
Proof. by apply (land_ones' _ 8). Qed.

Lemma one_byte i : 0 <= i < 1 -> (Z.land c 255 / 256 ^ i) mod 256 = u8 c.
Proof.
  intros Hi. assert (i = 0) as -> by lia. change (256 ^ 0) with 1.
  rewrite Z.div_1_r, byte_u8. unfold u8. apply Z.mod_mod. lia.
Qed.

Lemma set_head_ok fuel : forall m d, filled m d -> (Z.to_nat (dst + n - d) <= fuel)%nat ->
  exists m' d', set_head fuel m d (dst + n) (Z.land c 255) = Some (m', d') /\ filled m' d' /\
    (d' mod 8 = 0 \/ d' = dst + n).
Proof.
  induction fuel as [|fuel IH]; intros m d Hf Hfuel; simpl.
  - exists m, d. split_and!; [done..|]. right. destruct Hf as (k & ?). lia.
  - destruct (Z.eqb_spec (d mod 8) 0); simpl; [by exists m, d; auto|].
    destruct (Z.ltb_spec d (dst + n)).
    + destruct (store_filled 1 m d (Z.land c 255) Hf) as (m' & -> & Hf');
        [lia|lia|apply Z.mod_1_r|apply one_byte|]. apply IH; [done|lia].
    + exists m, d. split_and!; [done..|]. right. destruct Hf as (k & ?). lia.
Qed.

Lemma set_words_ok w v fuel : 0 < w -> (forall i, 0 <= i < w -> (v / 256 ^ i) mod 256 = u8 c) ->
  forall m d, filled m d -> (Z.to_nat (dst + n - d) <= fuel)%nat ->
  (d mod w = 0 \/ dst + n < d + w) ->
  exists m' d', set_words fuel w m d (dst + n) v = Some (m', d') /\ filled m' d' /\ dst + n < d' + w.
Proof.
  intros Hw Hv. induction fuel as [|fuel IH]; intros m d Hf Hfuel Ha; simpl.
  - exists m, d. split_and!; [done..|]. destruct Hf as (k & ?). lia.
  - destruct (Z.leb_spec (d + w) (dst + n)); [|by exists m, d].
    destruct Ha as [Ha|]; [|lia].
    destruct (store_filled w m d v Hf) as (m' & -> & Hf'); [done..|].
    apply IH; [done|lia|]. left. rewrite <- (Z.mul_1_l w) at 1. rewrite Z.mod_add by lia. done.
Qed.

Lemma memset_ok : exists m', memset m0 dst c n = Some m' /\ meq m' (fill m0 dst n c).
Proof.
  unfold memset.
  assert (filled m0 dst) as Hf.
  { exists 0. split_and!; [lia..|]. intros x. unfold fill.
    destruct (Z.leb_spec dst x), (Z.ltb_spec x (dst + 0)); simpl; done || lia. }
  assert (forall m d, filled m d -> (Z.to_nat (dst + n - d) <= Z.to_nat n)%nat) as Hfuel
    by (intros m d (k & ?); lia).
  destruct (set_head_ok (Z.to_nat n) m0 dst Hf (Hfuel _ _ Hf)) as (m1 & d1 & -> & Hf1 & Ha).
  cbn [mbind option_bind].
  destruct (set_words_ok 8 (memset_word (Z.land c 255)) (Z.to_nat n) ltac:(lia)) with (m := m1) (d := d1)
    as (m2 & d2 & -> & Hf2 & _); [|done|by eauto|destruct Ha; [by left|right; lia]|].
  { intros i Hi. rewrite byte_u8. apply memset_word_bytes; [apply u8_bound|done]. }
  cbn [mbind option_bind].
  destruct (set_words_ok 1 (Z.land c 255) (Z.to_nat n) ltac:(lia) one_byte m2 d2 Hf2)
    as (m3 & d3 & -> & (k & Hk & Hd & Hm) & Hlt); [by eauto|left; apply Z.mod_1_r|].
  exists m3. split; [done|]. by replace n with k by lia.
Qed.
End memset.

(** ** Strings in memory *)

(** The bytes of [l], none of them zero, and a terminating zero at [a]. *)
Fixpoint cstr (m : memory) (a : Z) (l : list Z) : Prop :=
  match l with
  | [] => load8 m a = 0
  | b :: l => load8 m a = b /\ b <> 0 /\ cstr m (a + 1) l
  end.

Lemma load8_u8 m a : load8 m a = u8 (m a).
Proof. Transparent load. simpl. lia. Opaque load. Qed.

Lemma cstr_ext m m' l : forall a,
  (forall x, a <= x <= a + Z.of_nat (length l) -> m x = m' x) -> cstr m a l -> cstr m' a l.
Proof.
  induction l as [|b l IH]; intros a Hx; cbn [cstr length] in *; rewrite !load8_u8.
  - rewrite <- (Hx a) by lia. done.
  - intros (Hb & Hb0 & Hl). rewrite <- (Hx a) by lia. split_and!; [done..|].
    apply IH; [|done]. intros x ?. apply Hx. lia.
Qed.

(** The same bytes at another place are the same string. *)
Lemma cstr_move m m' l : forall a d, cstr m a l ->
  (forall i, 0 <= i <= Z.of_nat (length l) -> m' (d + i) = m (a + i)) -> cstr m' d l.
Proof.
  induction l as [|b l IH]; intros a d Ha Hi; cbn [cstr length] in *; rewrite !load8_u8 in *;
    pose proof (Hi 0) as Hi0; rewrite !Z.add_0_r in Hi0; rewrite Hi0 by lia; [done|].
  destruct Ha as (Hb & Hb0 & Hl). split_and!; [done..|]. apply (IH (a + 1)); [done|].
  intros i ?. rewrite <- !Z.add_assoc. apply Hi. lia.
Qed.

Lemma cstr_copied m m' l a d : cstr m a l ->
  meq m' (copy m d a (Z.of_nat (length l) + 1)) -> cstr m' d l.
Proof.
  intros Ha Hm. apply (cstr_move m m' l a d Ha). intros i Hi. rewrite (Hm _). unfold copy.
  destruct (Z.leb_spec d (d + i)); [|lia].
  destruct (Z.ltb_spec (d + i) (d + (Z.of_nat (length l) + 1))); [|lia]. simpl. f_equal. lia.
Qed.

Lemma strlen_ok m l : forall fuel s, cstr m s l -> (length l < fuel)%nat ->
  strlen fuel m s = Some (Z.of_nat (length l)).
Proof.
  induction l as [|b l IH]; intros [|fuel] s Hs Hf; simpl in Hf; try lia; cbn [strlen cstr length] in *.
  - by rewrite Hs.
  - destruct Hs as (Hb & Hb0 & Hl). rewrite Hb, (proj2 (Z.eqb_neq b 0)) by done.
    rewrite (IH fuel) by (done || lia). simpl. f_equal. lia.
Qed.

(** A string is copied with its terminator when the areas are disjoint. *)
Lemma strcpy_ok l : forall fuel m dst src, mem_wf m -> cstr m src l -> (length l < fuel)%nat ->
  disjoint_range dst (Z.of_nat (length l) + 1) src (Z.of_nat (length l) + 1) ->
  exists m', strcpy fuel m dst src = Some m' /\ meq m' (copy m dst src (Z.of_nat (length l) + 1)).
Proof.
  induction l as [|b l IH]; intros [|fuel] m dst src Hwf Hs Hf Hd; simpl in Hf; try lia.
  - cbn [strcpy cstr length] in *. rewrite Hs. simpl. eexists. split; [done|].
    rewrite <- Hs at 1. by apply store_load_copy.
  - cbn [cstr] in Hs. destruct Hs as (Hb & Hb0 & Hl).
    cbn [strcpy]. rewrite Hb, (proj2 (Z.eqb_neq b 0)) by done. rewrite <- Hb.
    assert (meq (store8 m dst (load8 m src)) (copy m dst src 1)) as Hm by by apply store_load_copy.
    change (Z.of_nat (length (b :: l))) with (Z.of_nat (S (length l))) in *. unfold disjoint_range in *.
    destruct (IH fuel (store8 m dst (load8 m src)) (dst + 1) (src + 1)) as (m' & E & Hm').
    + by eapply meq_wf, copy_wf.
    + eapply cstr_ext; [|exact Hl]. intros x Hx. rewrite (Hm x). unfold copy.
      destruct (Z.leb_spec dst x), (Z.ltb_spec x (dst + 1)); simpl; done || lia.
    + lia.
    + unfold disjoint_range. lia.
    + exists m'. split; [done|]. rewrite Hm', Hm.
      rewrite (copy_app m dst src (Z.of_nat (S (length l)) + 1)) by lia.
      by replace (1 + (Z.of_nat (length l) + 1)) with (Z.of_nat (S (length l)) + 1) by lia.
Qed.

(** The comparison on lists. *)
Fixpoint str_compare (l1 l2 : list Z) : Z :=
  match l1, l2 with
  | [], [] => 0
  | [], _ => -1
  | _, [] => 1
  | a :: l1, b :: l2 => if a =? b then str_compare l1 l2 else if a <? b then -1 else 1
  end.

Lemma str_compare_0 l1 : forall l2, str_compare l1 l2 = 0 <-> l1 = l2.
Proof.
  induction l1 as [|a l1 IH]; intros [|b l2]; simpl; try (split; (done || discriminate)).
  destruct (Z.eqb_spec a b) as [->|Hne].
  - rewrite IH. split; congruence.
  - destruct (a <? b); split; (discriminate || congruence).
Qed.

Lemma str_compare_antisym l1 : forall l2, str_compare l2 l1 = - str_compare l1 l2.
Proof.
  induction l1 as [|a l1 IH]; intros [|b l2]; simpl; try done.
  rewrite (Z.eqb_sym b a). destruct (Z.eqb_spec a b); [apply IH|].
  destruct (Z.ltb_spec a b), (Z.ltb_spec b a); done || lia.
Qed.

Lemma strcmp_ok m l1 : forall l2 fuel p q, cstr m p l1 -> cstr m q l2 -> (length l1 < fuel)%nat ->
  strcmp fuel m p q = Some (str_compare l1 l2).
Proof.
  induction l1 as [|a l1 IH]; intros l2 [|fuel] p q H1 H2 Hf; simpl in Hf; try lia.
  - cbn [strcmp cstr] in *. rewrite H1. simpl. destruct l2 as [|b l2]; cbn [cstr] in H2.
    + by rewrite H2.
    + destruct H2 as (Hb & Hb0 & _). rewrite Hb. pose proof (load8_u8 m q). pose proof (u8_bound (m q)).
      destruct (Z.ltb_spec 0 b); [done|lia].
  - cbn [cstr] in H1. destruct H1 as (Ha & Ha0 & H1). cbn [strcmp].
    pose proof (load8_u8 m p). pose proof (u8_bound (m p)).
    rewrite Ha, (proj2 (Z.eqb_neq a 0)) by done. cbn [negb andb].
    destruct l2 as [|b l2]; cbn [cstr] in H2.
    + rewrite H2. destruct (Z.eqb_spec a 0); [lia|]. simpl.
      destruct (Z.ltb_spec a 0); [lia|]. destruct (Z.ltb_spec 0 a); [done|lia].
    + destruct H2 as (Hb & Hb0 & H2). rewrite Hb. simpl. destruct (Z.eqb_spec a b) as [E|Hne].
      * apply IH; [done|done|lia].
      * destruct (Z.ltb_spec a b); [done|]. destruct (Z.ltb_spec b a); [done|lia].
Qed.

(** ** Properties *)

(** C17: [memcpy] and [memset], with their word-by-word loops, compute the
    byte-by-byte [copy] and [fill]: [memcpy] for areas that are disjoint or
    whose destination is below the source, [memset] for every area.  No access
    they make is misaligned, whatever the alignment of their arguments. *)
Theorem memory_routines_correct (m : memory) (dst src n c : Z)
  (Hwf : mem_wf m) (Hn : 0 <= n) (Hd : dst <= src \/ src + n <= dst) :
  (exists m', memcpy m dst src n = Some m' /\ meq m' (copy m dst src n)) /\
  (exists m', memset m dst c n = Some m' /\ meq m' (fill m dst n c)).
Proof. split; [by apply memcpy_ok|by apply memset_ok]. Qed.

(** A memory with bytes 1, 2, ..., 20 from address 3 on; the two areas differ
    in alignment. *)
Definition demo_bytes : memory := fun x => if (3 <=? x) && (x <? 23) then x - 2 else 0.

Lemma memory_routines_witness :
  exists m', memcpy demo_bytes 40 3 20 = Some m' /\ load8 m' 59 = 20.
Proof.
  destruct (memory_routines_correct demo_bytes 40 3 20 7) as [(m' & E & Hm) _].
  - intros x. unfold demo_bytes.
    destruct (Z.leb_spec 3 x), (Z.ltb_spec x 23); simpl; lia.
  - lia.
  - right. lia.
  - exists m'. split; [exact E|]. rewrite Hm. reflexivity.
Defined.

(** On zero-terminated strings in memory [strlen] is the length, [strcpy]
    copies the string with its terminator, and [strcmp] orders strings: it is
    the lexicographic comparison, 0 exactly on equal strings, and antisymmetric. *)
Theorem strings_correct (m : memory) (fuel : nat) (p q : Z) (l1 l2 : list Z)
  (Hwf : mem_wf m) (H1 : cstr m p l1) (H2 : cstr m q l2)
  (Hf : (length l1 < fuel)%nat /\ (length l2 < fuel)%nat) :
  strlen fuel m p = Some (Z.of_nat (length l1)) /\
  (forall dst, disjoint_range dst (Z.of_nat (length l1) + 1) p (Z.of_nat (length l1) + 1) ->
     exists m', strcpy fuel m dst p = Some m' /\ cstr m' dst l1 /\
       meq m' (copy m dst p (Z.of_nat (length l1) + 1))) /\
  (exists r, strcmp fuel m p q = Some r /\ strcmp fuel m q p = Some (- r) /\ (r = 0 <-> l1 = l2)).
Proof.
  split_and!.
  - apply strlen_ok; tauto.
  - intros dst Hd. destruct (strcpy_ok l1 fuel m dst p Hwf H1 ltac:(tauto) Hd) as (m' & E & Hm).
    exists m'. split_and!; [done|by eapply cstr_copied|done].
  - exists (str_compare l1 l2). rewrite (strcmp_ok m l1 l2), (strcmp_ok m l2 l1) by tauto.
    split_and!; [done|f_equal; apply str_compare_antisym|apply str_compare_0].
Qed.

(** "abc" at 16 and "abd" at 32. *)
Definition demo_strings : memory := fun x =>
  if x =? 16 then 97 else if x =? 17 then 98 else if x =? 18 then 99 else
  if x =? 32 then 97 else if x =? 33 then 98 else if x =? 34 then 100 else 0.

Lemma strings_witness :
  strlen 10 demo_strings 16 = Some 3 /\ strcmp 10 demo_strings 16 32 = Some (-1).
Proof.
  destruct (strings_correct demo_strings 10 16 32 [97; 98; 99] [97; 98; 100]) as (H1 & _ & _).
  - intros x. unfold demo_strings. repeat zcase; lia.
  - vm_compute. split_and!; reflexivity || discriminate.
  - vm_compute. split_and!; reflexivity || discriminate.
  - simpl. lia.
  - split; [exact H1|reflexivity].
Defined.
