(* ===== verification/Print.v ===== *)
(** lib/print.c: formatted output.

    The format and its string arguments are read from the memory [m]; the
    callback [out] receives chunks of bytes, as in the C code, and works on any
    state [S].  The variadic arguments are a list of 64-bit values, and reading
    past its end or writing outside the buffer of [print_num] is undefined
    behaviour, modelled by [panic].  [num_text] is the reference for the text of
    a number. *)
From S2P Require Import Prelude Mem CString.

(** ** print_num *)

(** [buf[i] = c] *)
Definition put_buf (i c : Z) (buf : list Z) : option (list Z) :=
  if (0 <=? i) && (i <? Z.of_nat (length buf)) then Some (<[Z.to_nat i := c]> buf) else None.

Definition digit_char (tmp upcase : Z) : Z :=
  if tmp <=? 9 then 48 + tmp
  else if negb (upcase =? 0) then 65 + tmp - 10
  else 97 + tmp - 10.

(** The [do ... while (u != 0)] loop; the result is the buffer and [p - buf]. *)
Fixpoint put_digits (fuel : nat) (u base upcase : Z) (buf : list Z) (p : Z) : option (list Z * Z) :=
  match fuel with
  | O => None
  | S fuel =>
      buf ← put_buf p (digit_char (u mod base) upcase) buf;
      if u / base =? 0 then Some (buf, p + 1)
      else put_digits fuel (u / base) base upcase buf (p + 1)
  end.

(** [for (; i < n more; i++) buf[i] = padc;] *)
Fixpoint put_pad (n : nat) (i padc : Z) (buf : list Z) : option (list Z) :=
  match n with
  | O => Some buf
  | S n => buf ← put_buf i padc buf; put_pad n (i + 1) padc buf
  end.

(** [while (end > begin)] swapping. *)
Fixpoint reverse_buf (fuel : nat) (begin end_ : Z) (buf : list Z) : option (list Z) :=
  match fuel with
  | O => None
  | S fuel =>
      if begin <? end_ then
        a ← buf !! Z.to_nat begin;
        b ← buf !! Z.to_nat end_;
        buf ← put_buf begin b buf;
        buf ← put_buf end_ a buf;
        reverse_buf fuel (begin + 1) (end_ - 1) buf
      else Some buf
  end.

(** The bytes passed to [out]; [buf] is the uninitialised array. *)
Definition num_buffer (buf : list Z) (u base neg_flag length ladjust padc upcase : Z) :
    option (list Z) :=
  '(buf, p) ← put_digits 64 u base upcase buf 0;
  '(buf, p) ← (if negb (neg_flag =? 0) then b ← put_buf p 45 buf; Some (b, p + 1)
               else Some (buf, p));
  let actualLength := p in
  let length := if length <? actualLength then actualLength else length in
  let padc := if negb (ladjust =? 0) then 32 else padc in
  buf ← (if negb (neg_flag =? 0) && (ladjust =? 0) && (padc =? 48) then
           buf ← put_pad (Z.to_nat (length - 1 - (actualLength - 1))) (actualLength - 1) padc buf;
           put_buf (length - 1) 45 buf
         else put_pad (Z.to_nat (length - actualLength)) actualLength padc buf);
  let end_ := if negb (ladjust =? 0) then actualLength - 1 else length - 1 in
  buf ← reverse_buf (Z.to_nat length) 0 (i32 end_) buf;
  Some (take (Z.to_nat length) buf).

Section print.
Context {S : Type}.
Variable out : list Z -> M S unit.
Variable m : memory.

Definition print_num (buf : list Z) (u base neg_flag length ladjust padc upcase : Z) : M S unit :=
  match num_buffer buf u base neg_flag length ladjust padc upcase with
  | Some text => out text
  | None => panic
  end.

Definition print_char (c length ladjust : Z) : M S unit :=
  let length := if length <? 1 then 1 else length in
  if negb (ladjust =? 0) then
    out [c] ;; mfor (Z.to_nat (length - 1)) 1 (fun _ => out [32])
  else
    mfor (Z.to_nat (length - 1)) 0 (fun _ => out [32]) ;; out [c].

(** The bytes at [a]. *)
Fixpoint bytes_at (n : nat) (a : Z) : list Z :=
  match n with O => [] | Datatypes.S n => load8 m a :: bytes_at n (a + 1) end.

Definition print_str (fuel : nat) (s length ladjust : Z) : M S unit :=
  match strlen fuel m s with
  | None => panic
  | Some len =>
      let length := if length <? len then len else length in
      if negb (ladjust =? 0) then
        out (bytes_at (Z.to_nat len) s) ;;
        mfor (Z.to_nat (length - len)) len (fun _ => out [32])
      else
        mfor (Z.to_nat (length - len)) 0 (fun _ => out [32]) ;;
        out (bytes_at (Z.to_nat len) s)
  end.

(** [while ( *fmt != '%' && *fmt != '\0') fmt++;] *)
Fixpoint skip_plain (fuel : nat) (fmt : Z) : option Z :=
  match fuel with
  | O => None
  | Datatypes.S fuel =>
      if negb (load8 m fmt =? 37) && negb (load8 m fmt =? 0) then skip_plain fuel (fmt + 1)
      else Some fmt
  end.

(** [num] of an integer conversion: [va_arg] as [long], or narrowed to [int]. *)
Definition num_arg (long_flag : bool) (a : Z) : Z :=
  if long_flag then (if u64 a <? 2 ^ 63 then u64 a else u64 a - 2 ^ 64) else i32 a.

(** One conversion at [fmt], past the flags; the remaining arguments. *)
Definition convert (fuel : nat) (buf : list Z) (fmt width ladjust padc : Z) (long_flag : bool)
    (ap : list Z) : M S (Z * list Z) :=
  let num base upcase :=
    match ap with
    | a :: ap =>
        print_num buf (u64 (num_arg long_flag a)) base 0 width ladjust padc upcase ;;
        mret (fmt, ap)
    | [] => panic
    end in
  let c := load8 m fmt in
  if c =? 98 then num 2 0
  else if (c =? 100) || (c =? 68) then
    match ap with
    | a :: ap =>
        let n := num_arg long_flag a in
        (if n <? 0 then print_num buf (u64 (- n)) 10 1 width ladjust padc 0
         else print_num buf (u64 n) 10 0 width ladjust padc 0) ;;
        mret (fmt, ap)
    | [] => panic
    end
  else if (c =? 111) || (c =? 79) then num 8 0
  else if (c =? 117) || (c =? 85) then num 10 0
  else if c =? 120 then num 16 0
  else if c =? 88 then num 16 1
  else if c =? 99 then
    match ap with
    | a :: ap => print_char (u8 a) (i32 width) ladjust ;; mret (fmt, ap)
    | [] => panic
    end
  else if c =? 115 then
    match ap with
    | a :: ap => print_str fuel (u64 a) width ladjust ;; mret (fmt, ap)
    | [] => panic
    end
  else if c =? 0 then mret (fmt - 1, ap)
  else out [c] ;; mret (fmt, ap).

(** The array of [print_num] is as long as [width] asks for; [garbage] is what
    it holds at first. *)
Variable garbage : Z -> list Z.

Fixpoint vprintfmt (fuel : nat) (fmt : Z) (ap : list Z) : M S unit :=
  match fuel with
  | O => panic
  | Datatypes.S fuel' =>
      match skip_plain fuel fmt with
      | None => panic
      | Some fmt' =>
          out (bytes_at (Z.to_nat (fmt' - fmt)) fmt) ;;
          if load8 m fmt' =? 0 then mret tt
          else
            let fmt := fmt' + 1 in
            let ladjust := if load8 m fmt =? 45 then 1 else 0 in
            let padc := if load8 m fmt =? 48 then 48 else 32 in
            let fmt := if (load8 m fmt =? 45) || (load8 m fmt =? 48) then fmt + 1 else fmt in
            match parse_number fuel m fmt 10 with
            | None => panic
            | Some (w, fmt) =>
                let width := u64 w in
                let long_flag := load8 m fmt =? 108 in
                let fmt := if long_flag then fmt + 1 else fmt in
                '(fmt, ap) ← convert fuel (garbage width) fmt width ladjust padc long_flag ap;
                vprintfmt fuel' (fmt + 1) ap
            end
      end
  end.
End print.

(** ** The text of a number *)

(** The digits of [u], least significant first. *)
Fixpoint digits (fuel : nat) (u base : Z) : list Z :=
  match fuel with
  | O => []
  | S fuel => u mod base :: if u / base =? 0 then [] else digits fuel (u / base) base
  end.

Definition digit_text (u base upcase : Z) : list Z :=
  rev (map (fun d => digit_char d upcase) (digits 64 u base)).

Definition num_text (u base neg_flag width ladjust padc upcase : Z) : list Z :=
  let ds := digit_text u base upcase in
  let sign := if negb (neg_flag =? 0) then [45] else [] in
  let pad := Z.to_nat (width - Z.of_nat (length sign + length ds)) in
  if negb (ladjust =? 0) then sign ++ ds ++ replicate pad 32
  else if padc =? 48 then sign ++ replicate pad 48 ++ ds
  else replicate pad padc ++ sign ++ ds.

Lemma digits_length fuel : forall u base, (length (digits fuel u base) <= fuel)%nat.
Proof.
  induction fuel as [|fuel IH]; intros u base; simpl; [done|].
  destruct (u / base =? 0); simpl; [lia|]. specialize (IH (u / base) base). lia.
Qed.

(** Writing at the end of the part [pre] of the buffer that is in use. *)
Lemma put_buf_app pre rest c i : i = Z.of_nat (length pre) -> (0 < length rest)%nat ->
  put_buf i c (pre ++ rest) = Some ((pre ++ [c]) ++ drop 1 rest).
Proof.
  intros -> Hr. destruct rest as [|x rest]; [simpl in Hr; lia|]. unfold put_buf.
  rewrite length_app. cbn [length]. destruct (Z.leb_spec 0 (Z.of_nat (length pre))); [|lia].
  destruct (Z.ltb_spec (Z.of_nat (length pre)) (Z.of_nat (length pre + S (length rest)))); [|lia].
  simpl. rewrite Nat2Z.id. f_equal. rewrite insert_app_r_alt, Nat.sub_diag by lia.
  rewrite <- app_assoc. done.
Qed.

Lemma put_digits_ok base upcase fuel : 2 <= base -> forall u pre rest p,
  (0 < fuel)%nat -> 0 <= u < 2 ^ Z.of_nat fuel -> (length (digits fuel u base) <= length rest)%nat ->
  p = Z.of_nat (length pre) ->
  put_digits fuel u base upcase (pre ++ rest) p =
    Some (pre ++ map (fun d => digit_char d upcase) (digits fuel u base) ++
            drop (length (digits fuel u base)) rest,
          p + Z.of_nat (length (digits fuel u base))).
Proof.
  intros Hb. induction fuel as [|fuel IH]; intros u pre rest p Hf Hu Hr ->; [lia|].
  cbn [put_digits digits] in *. rewrite put_buf_app; [|done|cbn [length] in Hr; lia].
  cbn [mbind option_bind]. destruct (Z.eqb_spec (u / base) 0) as [E|E].
  - cbn [map length app]. by rewrite <- app_assoc.
  - assert (0 <= u / base < 2 ^ Z.of_nat fuel) as Hu'.
    { split; [apply Z.div_pos; lia|]. apply Z.div_lt_upper_bound; [lia|].
      rewrite Nat2Z.inj_succ, Z.pow_succ_r in Hu by lia. nia. }
    cbn [length] in Hr. rewrite (IH (u / base) (pre ++ [digit_char (u mod base) upcase])).
    + cbn [map length]. rewrite <- app_assoc, drop_drop, Nat.add_1_l, Nat2Z.inj_succ.
      f_equal. f_equal. lia.
    + destruct fuel; [simpl in Hu'; lia|lia].
    + done.
    + rewrite length_drop. lia.
    + rewrite length_app. simpl. lia.
Qed.

Lemma put_pad_ok c n : forall pre rest i, i = Z.of_nat (length pre) -> (n <= length rest)%nat ->
  put_pad n i c (pre ++ rest) = Some ((pre ++ replicate n c) ++ drop n rest).
Proof.
  induction n as [|n IH]; intros pre rest i -> Hr; simpl.
  - by rewrite app_nil_r.
  - rewrite put_buf_app by (done || lia). cbn [mbind option_bind].
    rewrite IH; [|rewrite length_app; simpl; lia|rewrite length_drop; lia].
    rewrite drop_drop, <- !app_assoc. done.
Qed.

Lemma reverse_buf_ok fuel : forall a mid b begin end_,
  (length mid < 2 * fuel)%nat -> begin = Z.of_nat (length a) ->
  end_ = begin + Z.of_nat (length mid) - 1 ->
  reverse_buf fuel begin end_ (a ++ mid ++ b) = Some (a ++ rev mid ++ b).
Proof.
  induction fuel as [|fuel IH]; intros a mid b begin end_ Hf -> ->; [lia|]. cbn [reverse_buf].
  destruct mid as [|x mid]; [cbn [length]; zcase; [lia|done]|].
  destruct mid as [|y mid _] using rev_ind.
  { cbn [app length]. zcase; [lia|done]. }
  cbn [length] in *. rewrite length_app in *. cbn [length] in *.
  replace (Z.of_nat (length a) + Z.of_nat (S (length mid + 1)) - 1) with (Z.of_nat (length (a ++ x :: mid)))
    by (rewrite length_app; simpl; lia).
  replace (a ++ (x :: mid ++ [y]) ++ b) with ((a ++ x :: mid) ++ y :: b)
    by (rewrite <- !app_assoc; simpl; by rewrite <- app_assoc).
  destruct (Z.ltb_spec (Z.of_nat (length a)) (Z.of_nat (length (a ++ x :: mid))));
    [|rewrite length_app in *; simpl in *; lia].
  rewrite !Nat2Z.id, (list_lookup_middle (a ++ x :: mid) b y) by done.
  rewrite <- app_assoc. cbn [app]. rewrite (list_lookup_middle a (mid ++ y :: b) x) by done.
  cbn [mbind option_bind].
  rewrite put_buf_app by (simpl; done || lia). cbn [mbind option_bind drop]; rewrite drop_0.
  replace ((a ++ [y]) ++ mid ++ y :: b) with ((a ++ [y] ++ mid) ++ y :: b) by (by rewrite <- !app_assoc).
  rewrite put_buf_app by (rewrite ?length_app; simpl; lia). cbn [mbind option_bind drop]; rewrite drop_0.
  replace (((a ++ [y] ++ mid) ++ [x]) ++ b) with ((a ++ [y]) ++ mid ++ (x :: b)) by (by rewrite <- !app_assoc).
  rewrite IH; [|lia|rewrite length_app; simpl; lia|rewrite !length_app; simpl; lia].
  cbn [rev]. rewrite rev_app_distr. simpl. by rewrite <- !app_assoc.
Qed.

Lemma digits_pos fuel u base : (0 < length (digits (S fuel) u base))%nat.
Proof. cbn [digits length]. lia. Qed.

#[local] Opaque digits.

(** The end of [print_num]: the part [a] is reversed, [b] is left as it is. *)
Lemma finish_ok a b rest L : Z.of_nat (length a + length b) = L -> L <= 2 ^ 31 ->
  (0 < length a)%nat ->
  (buf ← reverse_buf (Z.to_nat L) 0 (i32 (Z.of_nat (length a) - 1)) (a ++ b ++ rest);
   Some (take (Z.to_nat L) buf)) = Some (rev a ++ b).
Proof.
  intros HL HL2 Ha. rewrite i32_small by lia.
  rewrite (reverse_buf_ok _ [] a (b ++ rest)) by (simpl; lia).
  cbn [mbind option_bind app]. rewrite app_assoc, take_app_length'; [done|].
  rewrite length_app, length_rev. lia.
Qed.

Lemma rev_replicate {A} n (x : A) : rev (replicate n x) = replicate n x.
Proof.
  induction n as [|n IH]; [done|]. simpl. rewrite IH.
  change [x] with (replicate 1 x). by rewrite <- replicate_add, Nat.add_comm.
Qed.

Lemma num_buffer_ok buf u base neg_flag width ladjust padc upcase :
  2 <= base -> 0 <= u < 2 ^ 64 -> 0 <= width < 2 ^ 31 ->
  Z.of_nat (length buf) = width + 70 ->
  num_buffer buf u base neg_flag width ladjust padc upcase =
    Some (num_text u base neg_flag width ladjust padc upcase).
Proof.
  intros Hb Hu Hw Hlen. unfold num_buffer, num_text, digit_text.
  pose proof (digits_length 64 u base) as Hd. pose proof (digits_pos 63 u base) as Hd0.
  pose proof (put_digits_ok base upcase 64 Hb u [] buf 0 ltac:(lia) Hu ltac:(lia) eq_refl) as Hp.
  cbn [app] in Hp. rewrite Hp. clear Hp. cbn [mbind option_bind].
  rewrite <- (length_map (fun d => digit_char d upcase)) in Hd, Hd0 |- *.
  set (ds := map (fun d => digit_char d upcase) (digits 64 u base)) in *. clearbody ds.
  rewrite (length_rev ds), Z.add_0_l.
  set (r1 := drop (length ds) buf).
  assert (Z.of_nat (length r1) = width + 70 - Z.of_nat (length ds)) as Hr1
    by (unfold r1; rewrite length_drop; lia). clearbody r1.
  set (sign := if negb (neg_flag =? 0) then [45] else []).
  assert (length sign <= 1)%nat as Hs by (unfold sign; case_match; simpl; lia).
  assert ((if negb (neg_flag =? 0)
           then b ← put_buf (Z.of_nat (length ds)) 45 (ds ++ r1); Some (b, Z.of_nat (length ds) + 1)
           else Some (ds ++ r1, Z.of_nat (length ds)))
          = Some ((ds ++ sign) ++ drop (length sign) r1, Z.of_nat (length (ds ++ sign)))) as ->.
  { unfold sign. destruct (neg_flag =? 0); cbn [negb]; rewrite ?app_nil_r; [done|].
    rewrite put_buf_app by lia. rewrite length_app. cbn [mbind option_bind length]. do 2 f_equal. lia. }
  cbn [mbind option_bind].
  set (L := if width <? _ then _ else width).
  assert (L = Z.max width (Z.of_nat (length (ds ++ sign)))) as HL
    by (unfold L; destruct (Z.ltb_spec width (Z.of_nat (length (ds ++ sign)))); lia).
  clearbody L. set (k := Z.to_nat (L - Z.of_nat (length (ds ++ sign)))).
  assert (Z.to_nat (width - Z.of_nat (length sign + length ds)) = k) as ->
    by (unfold k; rewrite length_app in *; lia).
  assert (L = Z.of_nat (length (ds ++ sign) + k)) as HLk by (unfold k; lia).
  assert (L <= 2 ^ 31) as HL2 by (rewrite length_app in HL; lia).
  assert (rev sign = sign) as Hrs by (unfold sign; by case_match).
  destruct (Z.eqb_spec ladjust 0) as [El|El]; cbn [negb].
  - rewrite andb_true_r.
    assert ((if negb (neg_flag =? 0) && (padc =? 48) then
               buf ← put_pad (Z.to_nat (L - 1 - (Z.of_nat (length (ds ++ sign)) - 1)))
                       (Z.of_nat (length (ds ++ sign)) - 1) padc ((ds ++ sign) ++ drop (length sign) r1);
               put_buf (L - 1) 45 buf
             else put_pad k (Z.of_nat (length (ds ++ sign))) padc ((ds ++ sign) ++ drop (length sign) r1))
            = Some ((if padc =? 48 then ds ++ replicate k 48 ++ sign else ds ++ sign ++ replicate k padc)
                    ++ drop (length sign + k) r1)) as ->.
    { rewrite length_app in *. unfold sign in *. destruct (neg_flag =? 0); cbn [negb andb length] in *.
      - rewrite !app_nil_r, put_pad_ok by (simpl; rewrite ?length_drop; lia).
        rewrite drop_drop. case_match; [|done]. by assert (padc = 48) as -> by lia.
      - destruct (Z.eqb_spec padc 48) as [->|].
        + rewrite <- app_assoc, put_pad_ok; [|lia|rewrite length_app, length_drop; simpl; lia].
          replace (Z.to_nat (L - 1 - (Z.of_nat (length ds + 1) - 1))) with k by lia.
          cbn [mbind option_bind].
          rewrite put_buf_app; [|rewrite length_app, length_replicate; lia|
            rewrite length_drop, length_app, length_drop; simpl; lia].
          rewrite drop_drop. change ([45] ++ drop 1 r1) with (45 :: drop 1 r1).
          rewrite Nat.add_1_r. cbn [drop]. by rewrite drop_drop, <- !app_assoc.
        + rewrite put_pad_ok by (rewrite ?length_app, ?length_drop; simpl; lia).
          by rewrite drop_drop, <- !app_assoc. }
    cbn [mbind option_bind]. set (a := if padc =? 48 then _ else _).
    assert (Z.of_nat (length a) = L) as Ha.
    { rewrite HLk. unfold a. rewrite length_app. case_match; rewrite !length_app, length_replicate; lia. }
    pose proof (finish_ok a [] (drop (length sign + k) r1) L ltac:(simpl; lia) HL2) as Hf.
    rewrite Ha in Hf. cbn [app] in Hf. rewrite Hf, app_nil_r by (rewrite length_app in HL; lia). unfold a.
    case_match; by rewrite !rev_app_distr, rev_replicate, Hrs, <- ?app_assoc.
  - rewrite andb_false_r. cbn [andb].
    rewrite put_pad_ok by (rewrite ?length_drop; lia). cbn [mbind option_bind].
    rewrite <- (app_assoc (ds ++ sign)), finish_ok;
      [|rewrite length_replicate; lia|done|rewrite length_app; lia].
    by rewrite rev_app_distr, Hrs, app_assoc.
Qed.

(** ** Reading a printed number back *)

Lemma digit_of_char d upcase : 0 <= d < 36 -> digit_of (digit_char d upcase) = Some d.
Proof.
  intros Hd. unfold digit_of, digit_char.
  destruct (Z.leb_spec d 9); [|destruct (upcase =? 0); cbn [negb]];
    repeat (zcase; cbn [andb]); try lia; f_equal; lia.
Qed.

Lemma digit_char_pos d upcase : 0 <= d < 36 -> digit_char d upcase <> 0.
Proof. intros Hd. unfold digit_char. repeat case_match; lia. Qed.

Lemma i32_mod x y : x mod 2 ^ 32 = y mod 2 ^ 32 -> i32 x = i32 y.
Proof. unfold i32. by intros ->. Qed.

Lemma i32_eq x : i32 x mod 2 ^ 32 = x mod 2 ^ 32.
Proof.
  unfold i32. cbv zeta. destruct (_ <? _); [by apply Z.mod_mod|].
  replace (x mod 2 ^ 32 - 2 ^ 32) with (x mod 2 ^ 32 + (-1) * 2 ^ 32) by lia.
  rewrite Z.mod_add by lia. by apply Z.mod_mod.
Qed.

Lemma i32_step r b d : i32 (i32 r * b + d) = i32 (r * b + d).
Proof.
  apply i32_mod. rewrite Z.add_mod, Z.mul_mod, i32_eq, <- Z.mul_mod, <- Z.add_mod by lia. done.
Qed.

(** The loop of [parse_number] over digits below the base. *)
Lemma parse_digits_ok m base upcase ds : base <= 36 -> forall fuel a r,
  Forall (fun d => 0 <= d < base) ds -> (length ds < fuel)%nat ->
  cstr m a (map (fun d => digit_char d upcase) ds) ->
  parse_digits fuel m a base r =
    Some (fold_left (fun r d => i32 (r * base + d)) ds r, a + Z.of_nat (length ds)).
Proof.
  intros Hb. induction ds as [|d ds IH]; intros [|fuel] a r Hds Hf Hm; simpl in Hf; try lia;
    cbn [parse_digits cstr map length fold_left] in *.
  - rewrite Hm. simpl. do 2 f_equal. lia.
  - apply Forall_cons_1 in Hds as [Hd Hds]. destruct Hm as (-> & Hne & Hm).
    rewrite (proj2 (Z.eqb_neq _ 0)) by done. rewrite digit_of_char by lia.
    destruct (Z.leb_spec base d); [lia|]. rewrite IH by (done || lia). do 2 f_equal. lia.
Qed.

Lemma digits_bound base : 0 < base -> forall fuel u,
  Forall (fun d => 0 <= d < base) (digits fuel u base).
Proof.
  Transparent digits.
  intros Hb. induction fuel as [|fuel IH]; intros u; cbn [digits]; constructor.
  - by apply Z.mod_pos_bound.
  - destruct (u / base =? 0); [constructor|apply IH].
  Opaque digits.
Qed.

Lemma fold_digits base : 2 <= base -> forall fuel u, (0 < fuel)%nat -> 0 <= u < 2 ^ Z.of_nat fuel ->
  fold_left (fun r d => i32 (r * base + d)) (rev (digits fuel u base)) 0 = i32 u.
Proof.
  Transparent digits.
  intros Hb. induction fuel as [|fuel IH]; intros u Hf Hu; [lia|]. cbn [digits rev].
  rewrite fold_left_app. cbn [fold_left].
  assert (fold_left (fun r d => i32 (r * base + d))
            (rev (if u / base =? 0 then [] else digits fuel (u / base) base)) 0 = i32 (u / base)) as ->.
  { destruct (Z.eqb_spec (u / base) 0) as [->|E]; [done|].
    assert (0 <= u / base < 2 ^ Z.of_nat fuel) as Hu'.
    { split; [apply Z.div_pos; lia|]. apply Z.div_lt_upper_bound; [lia|].
      rewrite Nat2Z.inj_succ, Z.pow_succ_r in Hu by lia. nia. }
    apply IH; [|done]. destruct fuel; [simpl in Hu'; lia|lia]. }
  rewrite i32_step. f_equal. rewrite (Z.div_mod u base) at 3 by lia. lia.
  Opaque digits.
Qed.

Lemma fold_zeros base n : fold_left (fun r d => i32 (r * base + d)) (replicate n 0) 0 = 0.
Proof. induction n as [|n IH]; [done|]. exact IH. Qed.

(** A zero-padded number is digits all the way. *)
Lemma num_text_digits u base width upcase :
  num_text u base 0 width 0 48 upcase =
    map (fun d => digit_char d upcase)
      (replicate (Z.to_nat (width - Z.of_nat (length (digits 64 u base)))) 0 ++ rev (digits 64 u base)).
Proof.
  unfold num_text, digit_text. cbn [Z.eqb negb app length]. change (48 =? 48) with true. cbv iota.
  rewrite map_app, map_rev, length_rev, length_map, Nat.add_0_l. f_equal.
  generalize (Z.to_nat (width - Z.of_nat (length (digits 64 u base)))). intros n.
  induction n as [|n IH]; [done|]. simpl. by rewrite IH.
Qed.

(** ** Properties *)

(** C27: [print_num] stays inside its buffer of [length + 70] bytes and prints
    the reference text, whatever the buffer held: the digits with the sign,
    padded to the width on the right, with zeros after the sign, or on the
    left. *)
Theorem print_num_correct {S} (out : list Z -> M S unit) (buf : list Z)
  (u base neg_flag width ladjust padc upcase : Z) (s : S)
  (Hb : 2 <= base <= 16) (Hu : 0 <= u < 2 ^ 64) (Hw : 0 <= width < 2 ^ 31)
  (Hlen : Z.of_nat (length buf) = width + 70) :
  print_num out buf u base neg_flag width ladjust padc upcase s =
    out (num_text u base neg_flag width ladjust padc upcase) s /\
  Z.of_nat (length (num_text u base neg_flag width ladjust padc upcase)) =
    Z.max width (Z.of_nat (length (digit_text u base upcase)) + if neg_flag =? 0 then 0 else 1).
Proof.
  split.
  - unfold print_num. by rewrite num_buffer_ok by lia.
  - unfold num_text. set (ds := digit_text u base upcase). clearbody ds.
    destruct (neg_flag =? 0), (ladjust =? 0), (padc =? 48); cbn [negb];
      rewrite !length_app, length_replicate; cbn [length]; lia.
Qed.

(** The console of the witnesses: the bytes printed. *)
Definition console (l : list Z) : M (list Z) unit := modify (fun s => s ++ l).

(** [printk("%05d", -42)] prints "-0042". *)
Lemma print_num_witness :
  print_num console (replicate 75 7) 42 10 1 5 0 48 0 [] = Ret tt [45; 48; 48; 52; 50].
Proof.
  destruct (print_num_correct console (replicate 75 7) 42 10 1 5 0 48 0 []) as [H _].
  1-4: simpl; lia.
  rewrite H. reflexivity.
Defined.

(** C18: what [print_num] prints, with any zero padding, [parse_number] reads
    back: it stops at the end of the text with the number as a C [int]. *)
Theorem print_parse_roundtrip (m : memory) (s u base width upcase : Z) (buf text : list Z) (fuel : nat)
  (Hb : 2 <= base <= 36) (Hu : 0 <= u < 2 ^ 64) (Hw : 0 <= width < 2 ^ 31)
  (Hlen : Z.of_nat (length buf) = width + 70)
  (Htext : num_buffer buf u base 0 width 0 48 upcase = Some text)
  (Hs : cstr m s text) (Hf : (length text < fuel)%nat) :
  parse_number fuel m s base = Some (i32 u, s + Z.of_nat (length text)).
Proof.
  rewrite num_buffer_ok in Htext by lia. injection Htext as <-.
  rewrite num_text_digits in *. unfold parse_number.
  rewrite length_map in *.
  erewrite (parse_digits_ok m base upcase); [|lia| |exact Hf|exact Hs].
  - rewrite fold_left_app, fold_zeros, fold_digits by lia. done.
  - apply Forall_app. split; [apply Forall_replicate; lia|].
    apply Forall_rev, digits_bound. lia.
Qed.

(** "0007b" at address 64. *)
Definition demo_text : memory := fun x =>
  if x =? 64 then 48 else if x =? 65 then 48 else if x =? 66 then 48 else
  if x =? 67 then 55 else if x =? 68 then 98 else 0.

Lemma print_parse_witness : parse_number 9 demo_text 64 16 = Some (123, 69).
Proof.
  apply (print_parse_roundtrip demo_text 64 123 16 5 0 (replicate 75 1) [48; 48; 48; 55; 98] 9).
  1-4: simpl; lia.
  - vm_compute. reflexivity.
  - vm_compute. split_and!; reflexivity || discriminate.
  - simpl. lia.
Defined.

(** [%x] of an [unsigned int] with its top bit set prints sixteen digits: the
    argument is narrowed to [int] and then sign-extended. *)
Lemma vprintfmt_x_sign_extends :
  let fmt : memory := fun x => if x =? 0 then 37 else if x =? 1 then 120 else 0 in
  vprintfmt console fmt (fun w => replicate (Z.to_nat (w + 70)) 0) 5 0 [0x80000000] [] =
    Ret tt (replicate 8 102 ++ [56] ++ replicate 7 48).
Proof. vm_compute. reflexivity. Qed.
