(* ===== verification/Proc.v ===== *)
(** A user process as its own code sees it: the interface between the kernel
    and the user-level servers.

    The state is the process's memory, which pages are mapped, their dirty
    bits, and the answers the kernel will give to its next requests for memory.
    [HasProc] says that a server's state contains such a process; the memory
    accesses and the system calls on a process's own address space are defined
    for every such state.  An access to a page that is not mapped makes the
    kernel map a zero page ([Userspace.passive_alloc]), and a store sets the
    dirty bit, as a RISC-V processor that updates these bits does. *)
From S2P Require Import Prelude Mem Mmu.

Record proc := Proc {
  u_mem : memory;
  u_map : Z -> bool;
  u_dirty : Z -> bool;
  u_grants : nat -> bool
}.

Definition set_u_mem x p := Proc x (u_map p) (u_dirty p) (u_grants p).
Definition set_u_map x p := Proc (u_mem p) x (u_dirty p) (u_grants p).
Definition set_u_dirty x p := Proc (u_mem p) (u_map p) x (u_grants p).
Definition set_u_grants x p := Proc (u_mem p) (u_map p) (u_dirty p) x.

(** The page of an address. *)
Definition upage (va : Z) : Z := va / PAGE_SIZE.

(** The addresses [is_illegal_va] of kern/syscall_all.c rejects. *)
Definition uva_illegal (va : Z) : bool := (va <? UTEMP) || (UTOP <=? va).

(** The page at [va] becomes a fresh zero page. *)
Definition map_zero (va : Z) (p : proc) : proc :=
  Proc (fill (u_mem p) (upage va * PAGE_SIZE) PAGE_SIZE 0) (<[upage va := true]> (u_map p))
       (<[upage va := false]> (u_dirty p)) (u_grants p).

Definition next_grant (p : proc) : proc := set_u_grants (fun n => u_grants p (S n)) p.

(** [w] bytes written at [va], inside one page. *)
Definition put_mem (m : memory) (va : Z) (p : proc) : proc :=
  Proc m (u_map p) (<[upage va := true]> (u_dirty p)) (u_grants p).

Class HasProc (S : Type) := {
  proc_of : S -> proc;
  with_proc : proc -> S -> S;
  proc_of_with p s : proc_of (with_proc p s) = p;
  with_proc_with p q s : with_proc p (with_proc q s) = with_proc p s;
  with_proc_of s : with_proc (proc_of s) s = s
}.

Section ops.
Context {S : Type} `{HasProc S}.

Definition upd_proc (f : proc -> proc) : M S unit := modify (fun s => with_proc (f (proc_of s)) s).

Definition is_mapped (va : Z) (s : S) : bool := u_map (proc_of s) (upage va).

(** An access to [va]: the page is mapped, or the kernel maps one. *)
Definition touch (va : Z) : M S unit :=
  mapped ← get (is_mapped va);
  if (mapped : bool) then mret tt
  else if uva_illegal va then panic
  else
    g ← get (fun s => u_grants (proc_of s) 0);
    upd_proc next_grant ;;
    if (g : bool) then upd_proc (map_zero va) else panic.

Definition uload (n : nat) (va : Z) : M S Z :=
  touch va ;; get (fun s => load n (u_mem (proc_of s)) va).

Definition ustore (n : nat) (va v : Z) : M S unit :=
  touch va ;; upd_proc (fun p => put_mem (store n (u_mem p) va v) va p).

(** [memcpy] of [n] bytes inside one page. *)
Definition ucopy (dst src n : Z) : M S unit :=
  touch dst ;; touch src ;; upd_proc (fun p => put_mem (copy (u_mem p) dst src n) dst p).

Definition syscall_mem_alloc (va : Z) : M S Z :=
  if uva_illegal va then mret (- E_INVAL)
  else
    g ← get (fun s => u_grants (proc_of s) 0);
    upd_proc next_grant ;;
    if (g : bool) then upd_proc (map_zero va) ;; mret 0 else mret (- E_NO_MEM).

(** [syscall_mem_map(0, va, 0, va, perm | PTE_DIRTY)] *)
Definition syscall_mem_map_dirty (va : Z) : M S Z :=
  if uva_illegal va then mret (- E_INVAL)
  else
    mapped ← get (is_mapped va);
    if (mapped : bool) then
      upd_proc (fun p => set_u_dirty (<[upage va := true]> (u_dirty p)) p) ;; mret 0
    else mret (- E_INVAL).

Definition syscall_mem_unmap (va : Z) : M S Z :=
  if uva_illegal va then mret (- E_INVAL)
  else upd_proc (fun p => set_u_map (<[upage va := false]> (u_map p)) p) ;; mret 0.

Definition syscall_is_dirty (va : Z) : M S bool :=
  get (fun s => u_map (proc_of s) (upage va) && u_dirty (proc_of s) (upage va)).

(** ** Steps on mapped pages *)

Lemma touch_ok va s : is_mapped va s = true -> touch va s = Ret tt s.
Proof. intros Hm. unfold touch. rewrite bind_get, Hm. done. Qed.

Lemma uload_ok n va s : is_mapped va s = true ->
  uload n va s = Ret (load n (u_mem (proc_of s)) va) s.
Proof. intros Hm. unfold uload. rewrite (bind_ret _ _ _ _ _ (touch_ok va s Hm)). done. Qed.

Lemma ustore_ok n va v s : is_mapped va s = true ->
  ustore n va v s =
    Ret tt (with_proc (put_mem (store n (u_mem (proc_of s)) va v) va (proc_of s)) s).
Proof. intros Hm. unfold ustore. rewrite (bind_ret _ _ _ _ _ (touch_ok va s Hm)). done. Qed.

Lemma ucopy_ok dst src n s : is_mapped dst s = true -> is_mapped src s = true ->
  ucopy dst src n s =
    Ret tt (with_proc (put_mem (copy (u_mem (proc_of s)) dst src n) dst (proc_of s)) s).
Proof.
  intros Hd Hs. unfold ucopy.
  rewrite (bind_ret _ _ _ _ _ (touch_ok dst s Hd)), (bind_ret _ _ _ _ _ (touch_ok src s Hs)). done.
Qed.

(** A request for memory at a legal address, by the kernel's answer. *)
Lemma syscall_mem_alloc_ok va s : uva_illegal va = false ->
  syscall_mem_alloc va s =
    (let s' := with_proc (next_grant (proc_of s)) s in
     if u_grants (proc_of s) 0 then Ret 0 (with_proc (map_zero va (next_grant (proc_of s))) s)
     else Ret (- E_NO_MEM) s').
Proof.
  intros Hl. unfold syscall_mem_alloc. rewrite Hl, bind_get.
  unfold upd_proc. rewrite bind_modify.
  destruct (u_grants (proc_of s) 0); [|done].
  rewrite bind_modify, proc_of_with, with_proc_with. done.
Qed.

Lemma syscall_mem_unmap_ok va s : uva_illegal va = false ->
  syscall_mem_unmap va s =
    Ret 0 (with_proc (set_u_map (<[upage va := false]> (u_map (proc_of s))) (proc_of s)) s).
Proof. intros Hl. unfold syscall_mem_unmap. rewrite Hl. done. Qed.
End ops.

(** A page-aligned address and an offset inside the page. *)
Lemma upage_offset b i : b mod PAGE_SIZE = 0 -> 0 <= i < PAGE_SIZE -> upage (b + i) = upage b.
Proof.
  unfold upage, PAGE_SIZE. intros Hb Hi. rewrite (Z.div_mod b 4096) at 1 by lia. rewrite Hb.
  replace (4096 * (b / 4096) + 0 + i) with (i + b / 4096 * 4096) by lia.
  rewrite Z.div_add, Z.div_small by lia. lia.
Qed.

(** ** The operations give control back *)

Lemma calm_touch {S} `{HasProc S} va : calm (touch va).
Proof. unfold touch, upd_proc. calm. Qed.
#[export] Hint Resolve calm_touch : calm.
Lemma calm_uload {S} `{HasProc S} n va : calm (uload n va).
Proof. unfold uload. calm. Qed.
Lemma calm_ustore {S} `{HasProc S} n va v : calm (ustore n va v).
Proof. unfold ustore, upd_proc. calm. Qed.
Lemma calm_ucopy {S} `{HasProc S} a b n : calm (ucopy a b n).
Proof. unfold ucopy, upd_proc. calm. Qed.
#[export] Hint Resolve calm_uload calm_ustore calm_ucopy : calm.
Lemma calm_alloc {S} `{HasProc S} va : calm (syscall_mem_alloc va).
Proof. unfold syscall_mem_alloc, upd_proc. calm. Qed.
Lemma calm_dirty {S} `{HasProc S} va : calm (syscall_mem_map_dirty va).
Proof. unfold syscall_mem_map_dirty, upd_proc. calm. Qed.
Lemma calm_unmap {S} `{HasProc S} va : calm (syscall_mem_unmap va).
Proof. unfold syscall_mem_unmap, upd_proc. calm. Qed.
#[export] Hint Resolve calm_alloc calm_dirty calm_unmap : calm.
