(* ===== verification/FsBlock.v ===== *)
(** fs/fs.c and fs/block.c, the block layer of the file server: the block cache
    in the server's address space, the free-block bitmap and the start of the
    server.

    The disk is a memory of bytes, sector [n] at [512 * n].  The request that
    user/lib/virtio.c sends to the disk driver for one sector is modelled by
    its effect, [virtio_read_sector] and [virtio_write_sector]. *)
From S2P Require Import Prelude Mem Mmu Proc.

Record fs := Fs { f_proc : proc; disk : memory; super : Z; bitmap : Z }.

Definition set_disk x s := Fs (f_proc s) x (super s) (bitmap s).
Definition set_super x s := Fs (f_proc s) (disk s) x (bitmap s).
Definition set_bitmap x s := Fs (f_proc s) (disk s) (super s) x.
Definition set_f_proc x s := Fs x (disk s) (super s) (bitmap s).

#[export] Program Instance fs_proc : HasProc fs := {| proc_of := f_proc; with_proc := set_f_proc |}.
Next Obligation. done. Qed.
Next Obligation. done. Qed.
Next Obligation. by destruct s. Qed.

Definition SECT_SIZE : Z := 512.
Definition BLOCK_SIZE : Z := 4096.
Definition SECT2BLK : Z := BLOCK_SIZE / SECT_SIZE.
Definition BLOCK_SIZE_BIT : Z := BLOCK_SIZE * 8.
Definition DISKMAP : Z := 0x10000000.
Definition DISKMAX : Z := 0x40000000.
Definition FS_MAGIC : Z := 0x68286097.

(** One sector of the disk, to or from [buf]. *)
Definition virtio_read_sector (sector buf : Z) : M fs unit :=
  touch buf ;;
  modify (fun s => with_proc (put_mem (fun x =>
    if (buf <=? x) && (x <? buf + SECT_SIZE) then disk s (sector * SECT_SIZE + (x - buf))
    else u_mem (f_proc s) x) buf (f_proc s)) s).

Definition virtio_write_sector (sector buf : Z) : M fs unit :=
  touch buf ;;
  modify (fun s => set_disk (fun x =>
    if (sector * SECT_SIZE <=? x) && (x <? sector * SECT_SIZE + SECT_SIZE)
    then u_mem (f_proc s) (buf + (x - sector * SECT_SIZE)) else disk s x) s).

(** [for (cur = secno; cur < secno + nsecs; cur++)], with 32-bit sums. *)
Definition sector_read (secno dst nsecs : Z) : M fs unit :=
  mfor (Z.to_nat (u32 (secno + nsecs) - secno)) secno (fun cur =>
    virtio_read_sector cur (dst + (cur - secno) * SECT_SIZE)).

Definition sector_write (secno src nsecs : Z) : M fs unit :=
  mfor (Z.to_nat (u32 (secno + nsecs) - secno)) secno (fun cur =>
    virtio_write_sector cur (src + (cur - secno) * SECT_SIZE)).

Definition disk_addr (blockno : Z) : Z := u32 (DISKMAP + blockno * BLOCK_SIZE).

Definition va_is_mapped (va : Z) : M fs bool := get (is_mapped va).

Definition block_is_mapped (blockno : Z) : M fs (option Z) :=
  let va := disk_addr blockno in
  m ← va_is_mapped va;
  mret (if (m : bool) then Some va else None).

Definition va_is_dirty (va : Z) : M fs bool := syscall_is_dirty va.
Definition block_is_dirty (blockno : Z) : M fs bool := va_is_dirty (disk_addr blockno).

Definition dirty_block (blockno : Z) : M fs Z :=
  let va := disk_addr blockno in
  m ← va_is_mapped va;
  if negb (m : bool) then mret (- E_NOT_FOUND)
  else
    d ← va_is_dirty va;
    if (d : bool) then mret 0 else syscall_mem_map_dirty va.

Definition write_block (blockno : Z) : M fs unit :=
  m ← block_is_mapped blockno;
  match m with
  | None => panic
  | Some _ => sector_write (u32 (blockno * SECT2BLK)) (disk_addr blockno) SECT2BLK
  end.

(** [super->s_nblocks] *)
Definition s_nblocks : M fs Z := p ← get super; uload 4 (p + 4).

(** [bitmap[i]] *)
Definition bitmap_word (i : Z) : M fs Z := b ← get bitmap; uload 4 (b + 4 * i).
Definition put_bitmap_word (i v : Z) : M fs unit := b ← get bitmap; ustore 4 (b + 4 * i) v.

Definition block_is_free (blockno : Z) : M fs bool :=
  p ← get super;
  if p =? 0 then mret false
  else
    n ← s_nblocks;
    if n <=? blockno then mret false
    else
      w ← bitmap_word (blockno / 32);
      mret (negb (Z.land w (Z.shiftl 1 (blockno mod 32)) =? 0)).

(** The result code, [*blk] and [*isnew]; the outputs are set when it is 0. *)
Definition read_block (blockno : Z) : M fs (Z * Z * bool) :=
  p ← get super;
  (if negb (p =? 0) then n ← s_nblocks; if n <=? blockno then panic else mret tt else mret tt) ;;
  b ← get bitmap;
  (if negb (b =? 0) then f ← block_is_free blockno; if (f : bool) then panic else mret tt
   else mret tt) ;;
  let va := disk_addr blockno in
  m ← block_is_mapped blockno;
  match m with
  | Some _ => mret (0, va, false)
  | None =>
      r ← syscall_mem_alloc va;
      if negb (r =? 0) then mret (r, va, true)
      else
        sector_read (u32 (blockno * SECT2BLK)) va SECT2BLK ;;
        mret (0, va, true)
  end.

Definition map_block (blockno : Z) : M fs Z :=
  m ← block_is_mapped blockno;
  match m with
  | Some _ => mret 0
  | None => syscall_mem_alloc (disk_addr blockno)
  end.

Definition unmap_block (blockno : Z) : M fs unit :=
  va ← block_is_mapped blockno;
  f ← block_is_free blockno;
  d ← (if (f : bool) then mret false else block_is_dirty blockno);
  (if negb f && (d : bool) then write_block blockno else mret tt) ;;
  match va with
  | Some va => syscall_mem_unmap va ;; mret tt
  | None => mret tt
  end ;;
  m ← block_is_mapped blockno;
  assert (bool_decide (m = None)).

Definition free_block (blockno : Z) : M fs unit :=
  p ← get super;
  if p =? 0 then panic
  else
    n ← s_nblocks;
    if (blockno =? 0) || (n <=? blockno) then mret tt
    else
      w ← bitmap_word (blockno / 32);
      put_bitmap_word (blockno / 32) (Z.lor w (Z.shiftl 1 (blockno mod 32))).

(** The body of the loop of [alloc_block_num]. *)
Definition alloc_try (blockno : Z) : M fs (option Z) :=
  w ← bitmap_word (blockno / 32);
  if negb (Z.land w (Z.shiftl 1 (blockno mod 32)) =? 0) then
    put_bitmap_word (blockno / 32) (Z.land w (2 ^ 32 - 1 - Z.shiftl 1 (blockno mod 32))) ;;
    write_block (blockno / BLOCK_SIZE_BIT + 2) ;;
    mret (Some blockno)
  else mret None.

Definition alloc_block_num : M fs Z :=
  n ← s_nblocks;
  r ← mfor_ret (Z.to_nat (n - 3)) 3 alloc_try;
  mret (match r with Some bno => bno | None => - E_NO_DISK end).

Definition alloc_block : M fs Z :=
  bno ← alloc_block_num;
  if bno <? 0 then mret bno
  else
    r ← map_block bno;
    if r <? 0 then free_block bno ;; mret r else mret bno.

Definition read_super : M fs unit :=
  '(r, blk, _) ← read_block 1;
  if r <? 0 then panic
  else
    modify (set_super blk) ;;
    magic ← uload 4 blk;
    if negb (magic =? FS_MAGIC) then panic
    else
      n ← s_nblocks;
      if DISKMAX / BLOCK_SIZE <? n then panic else mret tt.

Definition read_bitmap : M fs unit :=
  n ← s_nblocks;
  let nbitmap := n / BLOCK_SIZE_BIT + 1 in
  mfor (Z.to_nat nbitmap) 0 (fun i => read_block (i + 2) ;; mret tt) ;;
  modify (set_bitmap (disk_addr 2)) ;;
  f ← block_is_free 0; assert (negb f) ;;
  f ← block_is_free 1; assert (negb f) ;;
  mfor (Z.to_nat nbitmap) 0 (fun i => f ← block_is_free (i + 2); assert (negb f)).

(** "OOPS!\n" and its terminator. *)
Definition oops : list Z := [79; 79; 80; 83; 33; 10; 0].

(** [strcpy(a, l)] and [strcmp(a, l) == 0] for a literal [l] with its terminator. *)
Fixpoint put_str (a : Z) (l : list Z) : M fs unit :=
  match l with [] => mret tt | b :: l => ustore 1 a b ;; put_str (a + 1) l end.

Fixpoint same_str (a : Z) (l : list Z) : M fs bool :=
  match l with
  | [] => mret true
  | b :: l => c ← uload 1 a; if c =? b then same_str (a + 1) l else mret false
  end.

(** [panic_on(read_block(blockno, 0, 0))] *)
Definition must_read (blockno : Z) : M fs unit := '(r, _, _) ← read_block blockno; panic_on r.

Definition check_write_block : M fs unit :=
  modify (set_super 0) ;;
  must_read 0 ;;
  ucopy (disk_addr 0) (disk_addr 1) BLOCK_SIZE ;;
  put_str (disk_addr 1) oops ;;
  write_block 1 ;;
  m ← block_is_mapped 1; assert (bool_decide (m <> None)) ;;
  r ← syscall_mem_unmap (disk_addr 1); panic_on r ;;
  m ← block_is_mapped 1; assert (bool_decide (m = None)) ;;
  must_read 1 ;;
  e ← same_str (disk_addr 1) oops; assert e ;;
  ucopy (disk_addr 1) (disk_addr 0) BLOCK_SIZE ;;
  write_block 1 ;;
  modify (set_super (disk_addr 1)).

Definition fs_init : M fs unit := read_super ;; check_write_block ;; read_bitmap.

Definition fs_sync : M fs unit :=
  n ← s_nblocks;
  mfor (Z.to_nat n) 0 (fun i =>
    d ← block_is_dirty i;
    if (d : bool) then write_block i else mret tt).

(** ** Addresses of blocks *)

(** The block numbers of the largest disk and its bitmap. *)
Definition blk_ok (b : Z) : Prop := 0 <= b <= DISKMAX / BLOCK_SIZE + 16.

Lemma disk_addr_eq b : blk_ok b -> disk_addr b = DISKMAP + b * BLOCK_SIZE.
Proof.
  intros Hb. unfold disk_addr, u32. apply Z.mod_small. unfold blk_ok in Hb.
  change (DISKMAX / BLOCK_SIZE) with 262144 in Hb. unfold DISKMAP, BLOCK_SIZE. lia.
Qed.

Lemma upage_disk b i : blk_ok b -> 0 <= i < BLOCK_SIZE -> upage (disk_addr b + i) = 65536 + b.
Proof.
  intros Hb Hi. rewrite disk_addr_eq by done. unfold upage, DISKMAP, BLOCK_SIZE, PAGE_SIZE in *.
  replace (0x10000000 + b * 4096 + i) with (i + (65536 + b) * 4096) by lia.
  rewrite Z.div_add, Z.div_small by lia. lia.
Qed.

Lemma upage_disk0 b : blk_ok b -> upage (disk_addr b) = 65536 + b.
Proof. intros Hb. rewrite <- (upage_disk b 0), Z.add_0_r by (done || unfold BLOCK_SIZE; lia). done. Qed.

Lemma disk_addr_legal b : blk_ok b -> uva_illegal (disk_addr b) = false.
Proof.
  intros Hb. rewrite disk_addr_eq by done. unfold blk_ok in Hb.
  change (DISKMAX / BLOCK_SIZE) with 262144 in Hb. unfold uva_illegal.
  change UTEMP with 4186112. change UTOP with 267361714176. unfold DISKMAP, BLOCK_SIZE.
  apply orb_false_intro; [apply Z.ltb_ge|apply Z.leb_gt]; lia.
Qed.

Definition cached (b : Z) (s : fs) : bool := u_map (f_proc s) (65536 + b).

Lemma is_mapped_disk b i s : blk_ok b -> 0 <= i < BLOCK_SIZE -> is_mapped (disk_addr b + i) s = cached b s.
Proof. intros. unfold is_mapped. by rewrite upage_disk. Qed.

Lemma is_mapped_disk0 b s : blk_ok b -> is_mapped (disk_addr b) s = cached b s.
Proof. intros. unfold is_mapped. by rewrite upage_disk0. Qed.

Lemma block_is_mapped_ok b s : blk_ok b ->
  block_is_mapped b s = Ret (if cached b s then Some (disk_addr b) else None) s.
Proof. intros Hb. unfold block_is_mapped, va_is_mapped. rewrite bind_get, is_mapped_disk0 by done. done. Qed.

(** ** Whole blocks to and from the disk *)

(** The blocks of the disk and of the cache. *)
Definition disk_byte (s : fs) (b i : Z) : Z := disk s (b * BLOCK_SIZE + i).
Definition cache_byte (s : fs) (b i : Z) : Z := u_mem (f_proc s) (disk_addr b + i).

Lemma sectors b : blk_ok b ->
  u32 (b * SECT2BLK) = 8 * b /\ Z.to_nat (u32 (8 * b + SECT2BLK) - 8 * b) = 8%nat.
Proof.
  intros Hb. unfold blk_ok in Hb. change (DISKMAX / BLOCK_SIZE) with 262144 in Hb.
  change SECT2BLK with 8. unfold u32. rewrite !Z.mod_small by lia. lia.
Qed.

Lemma write_block_ok b s : blk_ok b -> cached b s = true ->
  exists d, write_block b s = Ret tt (set_disk d s) /\
    forall x, d x = if (b * BLOCK_SIZE <=? x) && (x <? b * BLOCK_SIZE + BLOCK_SIZE)
                    then cache_byte s b (x - b * BLOCK_SIZE) else disk s x.
Proof.
  intros Hb Hc. unfold write_block.
  rewrite (bind_ret _ _ _ _ _ (block_is_mapped_ok b s Hb)), Hc. cbv iota.
  destruct (sectors b Hb) as [H1 H2]. unfold sector_write. rewrite H1, H2.
  destruct (mfor_inv (fun j s' => exists d, s' = set_disk d s /\
      forall x, d x = if (b * BLOCK_SIZE <=? x) && (x <? j * 512)
                      then cache_byte s b (x - b * BLOCK_SIZE) else disk s x)
    (fun cur => virtio_write_sector cur (disk_addr b + (cur - 8 * b) * SECT_SIZE)) 8 (8 * b) s)
    as (s' & E & d & -> & Hd).
  - exists (disk s). split; [by destruct s|]. intros x. unfold BLOCK_SIZE.
    destruct (Z.leb_spec (b * 4096) x), (Z.ltb_spec x (8 * b * 512)); simpl; done || lia.
  - intros j s' Hj (d & -> & Hd). unfold virtio_write_sector.
    assert (touch (disk_addr b + (j - 8 * b) * SECT_SIZE) (set_disk d s) = Ret tt (set_disk d s)) as Ht.
    { apply touch_ok. rewrite is_mapped_disk by (done || unfold SECT_SIZE, BLOCK_SIZE; lia). exact Hc. }
    rewrite (bind_ret _ _ _ _ _ Ht). eexists. split; [reflexivity|].
    eexists. split; [reflexivity|]. intros x. cbn [disk set_disk f_proc]. rewrite Hd.
    unfold cache_byte, SECT_SIZE, BLOCK_SIZE.
    destruct (Z.leb_spec (j * 512) x), (Z.ltb_spec x (j * 512 + 512)), (Z.leb_spec (b * 4096) x),
      (Z.ltb_spec x (j * 512)), (Z.ltb_spec x ((j + 1) * 512)); simpl; try lia; try done.
    f_equal. lia.
  - exists d. split; [exact E|]. intros x. rewrite Hd.
    by replace ((8 * b + Z.of_nat 8) * 512) with (b * BLOCK_SIZE + BLOCK_SIZE)
      by (unfold BLOCK_SIZE; lia).
Qed.

(** The state after block [b] was filled from the disk. *)
Definition block_read (b : Z) (s s' : fs) : Prop :=
  disk s' = disk s /\ super s' = super s /\ bitmap s' = bitmap s /\
  u_map (f_proc s') = u_map (f_proc s) /\ u_grants (f_proc s') = u_grants (f_proc s) /\
  (forall p, p <> 65536 + b -> u_dirty (f_proc s') p = u_dirty (f_proc s) p) /\
  (forall x, u_mem (f_proc s') x =
     if (disk_addr b <=? x) && (x <? disk_addr b + BLOCK_SIZE)
     then disk_byte s b (x - disk_addr b) else u_mem (f_proc s) x).

Lemma sector_read_ok b s : blk_ok b -> cached b s = true ->
  exists s', sector_read (u32 (b * SECT2BLK)) (disk_addr b) SECT2BLK s = Ret tt s' /\ block_read b s s'.
Proof.
  intros Hb Hc. destruct (sectors b Hb) as [H1 H2]. unfold sector_read. rewrite H1, H2.
  destruct (mfor_inv (fun j s' =>
      disk s' = disk s /\ super s' = super s /\ bitmap s' = bitmap s /\
      u_map (f_proc s') = u_map (f_proc s) /\ u_grants (f_proc s') = u_grants (f_proc s) /\
      (forall p, p <> 65536 + b -> u_dirty (f_proc s') p = u_dirty (f_proc s) p) /\
      (forall x, u_mem (f_proc s') x =
         if (disk_addr b <=? x) && (x <? disk_addr b + (j - 8 * b) * 512)
         then disk_byte s b (x - disk_addr b) else u_mem (f_proc s) x))
    (fun cur => virtio_read_sector cur (disk_addr b + (cur - 8 * b) * SECT_SIZE)) 8 (8 * b) s)
    as (s' & E & HI).
  - split_and!; try done. intros x.
    destruct (Z.leb_spec (disk_addr b) x), (Z.ltb_spec x (disk_addr b + (8 * b - 8 * b) * 512)); simpl; done || lia.
  - intros j s' Hj (Hd & Hs & Hbm & Hm & Hg & Hdt & Hx). unfold virtio_read_sector.
    assert (0 <= (j - 8 * b) * SECT_SIZE < BLOCK_SIZE) as Hj' by (unfold SECT_SIZE, BLOCK_SIZE; lia).
    assert (touch (disk_addr b + (j - 8 * b) * SECT_SIZE) s' = Ret tt s') as Ht.
    { apply touch_ok. rewrite is_mapped_disk by done. unfold cached. by rewrite Hm. }
    rewrite (bind_ret _ _ _ _ _ Ht). eexists. split; [reflexivity|].
    split_and!; try done; cbn.
    + intros p Hp. rewrite upage_disk by done. rewrite fn_lookup_insert_ne by congruence. auto.
    + intros x. rewrite Hx, Hd. unfold disk_byte, SECT_SIZE, BLOCK_SIZE.
      set (a := disk_addr b).
      destruct (Z.leb_spec (a + (j - 8 * b) * 512) x), (Z.ltb_spec x (a + (j - 8 * b) * 512 + 512)),
        (Z.leb_spec a x), (Z.ltb_spec x (a + (j - 8 * b) * 512)), (Z.ltb_spec x (a + (j + 1 - 8 * b) * 512));
        simpl; try lia; try done. f_equal. lia.
  - exists s'. split; [exact E|]. unfold block_read.
    by replace ((8 * b + Z.of_nat 8 - 8 * b) * 512) with BLOCK_SIZE in HI by (unfold BLOCK_SIZE; lia).
Qed.

(** ** The free-block bitmap *)

(** The bitmap's block for block [b]. *)
Definition bitmap_block (b : Z) : Z := b / BLOCK_SIZE_BIT + 2.

(** The server after its start: the superblock and the bitmap are cached. *)
Record fs_ok (n : Z) (s : fs) : Prop := {
  ok_super : super s = disk_addr 1;
  ok_bitmap : bitmap s = disk_addr 2;
  ok_nblocks : load 4 (u_mem (f_proc s)) (disk_addr 1 + 4) = n;
  ok_size : 0 <= n <= DISKMAX / BLOCK_SIZE;
  ok_super_cached : cached 1 s = true;
  ok_bitmap_cached : forall b, 0 <= b < n -> cached (bitmap_block b) s = true
}.

(** The bit of block [b] in the cached bitmap. *)
Definition word_of (s : fs) (i : Z) : Z := load 4 (u_mem (f_proc s)) (disk_addr 2 + 4 * i).
Definition marked_free (s : fs) (b : Z) : bool := Z.testbit (word_of s (b / 32)) (b mod 32).

Lemma blk_ok_bound n b : 0 <= n <= DISKMAX / BLOCK_SIZE -> 0 <= b < n -> blk_ok b.
Proof. unfold blk_ok. lia. Qed.

Lemma bitmap_block_ok n b : 0 <= n <= DISKMAX / BLOCK_SIZE -> 0 <= b < n -> blk_ok (bitmap_block b).
Proof.
  intros Hn Hb. unfold blk_ok, bitmap_block, BLOCK_SIZE_BIT, BLOCK_SIZE in *.
  change (DISKMAX / 4096) with 262144 in *. change (4096 * 8) with 32768.
  assert (0 <= b / 32768 < 9); [|lia].
  split; [apply Z.div_pos; lia|apply Z.div_lt_upper_bound; lia].
Qed.

(** The place of a bitmap word inside its block. *)
Lemma bitmap_addr b : 0 <= b -> blk_ok (bitmap_block b) ->
  exists i, 0 <= i <= BLOCK_SIZE - 4 /\ disk_addr 2 + 4 * (b / 32) = disk_addr (bitmap_block b) + i.
Proof.
  intros Hb Hk. rewrite (disk_addr_eq (bitmap_block b)) by done.
  rewrite (disk_addr_eq 2) by (unfold blk_ok; split; [lia|by vm_compute]).
  exists (4 * (b / 32) - b / 32768 * 4096). unfold bitmap_block, BLOCK_SIZE_BIT, BLOCK_SIZE.
  change (4096 * 8) with 32768.
  pose proof (Z.div_mod b 32 ltac:(lia)). pose proof (Z.mod_pos_bound b 32 ltac:(lia)).
  pose proof (Z.div_mod b 32768 ltac:(lia)). pose proof (Z.mod_pos_bound b 32768 ltac:(lia)).
  lia.
Qed.

Section ok.
Context (n : Z) (s : fs).
Hypothesis (Hok : fs_ok n s).

Lemma bitmap_word_mapped b : 0 <= b < n -> is_mapped (disk_addr 2 + 4 * (b / 32)) s = true.
Proof.
  intros Hb. destruct Hok. pose proof (bitmap_block_ok n b ok_size0 Hb) as Hk.
  destruct (bitmap_addr b ltac:(lia) Hk) as (i & Hi & ->).
  rewrite is_mapped_disk by (done || lia). auto.
Qed.

Lemma super_mapped i : 0 <= i < BLOCK_SIZE -> is_mapped (disk_addr 1 + i) s = true.
Proof.
  intros Hi. rewrite is_mapped_disk; [apply Hok| |done].
  unfold blk_ok. split; [lia|by vm_compute].
Qed.

Lemma s_nblocks_ok : s_nblocks s = Ret n s.
Proof.
  unfold s_nblocks. rewrite bind_get, (ok_super _ _ Hok).
  rewrite uload_ok by (apply super_mapped; unfold BLOCK_SIZE; lia).
  change (proc_of s) with (f_proc s). by rewrite (ok_nblocks _ _ Hok).
Qed.

Lemma bitmap_word_ok b : 0 <= b < n -> bitmap_word (b / 32) s = Ret (word_of s (b / 32)) s.
Proof.
  intros Hb. unfold bitmap_word. rewrite bind_get, (ok_bitmap _ _ Hok).
  by rewrite uload_ok by by apply bitmap_word_mapped.
Qed.

Lemma bit_test b : 0 <= b ->
  negb (Z.land (word_of s (b / 32)) (Z.shiftl 1 (b mod 32)) =? 0) = marked_free s b.
Proof.
  intros Hb. rewrite land_bit by (apply Z.mod_pos_bound; lia). by rewrite negb_involutive.
Qed.

Lemma block_is_free_ok b : 0 <= b -> block_is_free b s = Ret ((b <? n) && marked_free s b) s.
Proof.
  intros Hb. unfold block_is_free. rewrite bind_get, (ok_super _ _ Hok).
  destruct (Z.eqb_spec (disk_addr 1) 0) as [E|_]; [vm_compute in E; discriminate|].
  rewrite (bind_ret _ _ _ _ _ s_nblocks_ok).
  destruct (Z.leb_spec n b), (Z.ltb_spec b n); try lia; [done|].
  rewrite (bind_ret _ _ _ _ _ (bitmap_word_ok b ltac:(lia))), bit_test by done. done.
Qed.
End ok.

(** Writing the word of block [b] in the bitmap. *)
Definition set_word (b v : Z) (s : fs) : fs :=
  set_f_proc (put_mem (store 4 (u_mem (f_proc s)) (disk_addr 2 + 4 * (b / 32)) v)
                (disk_addr 2 + 4 * (b / 32)) (f_proc s)) s.

Lemma put_bitmap_word_ok n s b v : fs_ok n s -> 0 <= b < n ->
  put_bitmap_word (b / 32) v s = Ret tt (set_word b v s).
Proof.
  intros Hok Hb. unfold put_bitmap_word. rewrite bind_get, (ok_bitmap _ _ Hok).
  by rewrite ustore_ok by by eapply bitmap_word_mapped.
Qed.

(** Bitmap words do not reach into the superblock, and different words are apart. *)
Lemma set_word_ok n s b v : fs_ok n s -> 0 <= b < n -> fs_ok n (set_word b v s).
Proof.
  intros [H1 H2 H3 H4 H5 H6] Hb. split; try done. cbn. rewrite load_store_other; [done|].
  unfold disjoint_range. pose proof (Z.div_pos b 32).
  rewrite !disk_addr_eq by (unfold blk_ok; split; [lia|by vm_compute]).
  unfold DISKMAP, BLOCK_SIZE. lia.
Qed.

Lemma word_set_word s b v i : 0 <= v < 2 ^ 32 ->
  word_of (set_word b v s) i = if i =? b / 32 then v else word_of s i.
Proof.
  intros Hv. unfold word_of, set_word. cbn. destruct (Z.eqb_spec i (b / 32)) as [->|Hne].
  - by apply load32_store32_same.
  - apply load_store_other. unfold disjoint_range. lia.
Qed.

Lemma word_bound s i : 0 <= word_of s i < 2 ^ 32.
Proof. apply load32_bound. Qed.

Lemma same_bit x b : 0 <= x -> 0 <= b -> x / 32 = b / 32 -> (b mod 32 =? x mod 32) = (x =? b).
Proof. intros Hx Hb E. rewrite Z.eqb_sym. by apply mod_eqb. Qed.

Definition clear_bit (s : fs) (b : Z) : fs :=
  set_word b (Z.land (word_of s (b / 32)) (2 ^ 32 - 1 - Z.shiftl 1 (b mod 32))) s.
Definition set_bit (s : fs) (b : Z) : fs :=
  set_word b (Z.lor (word_of s (b / 32)) (Z.shiftl 1 (b mod 32))) s.

Lemma bit_index b : 0 <= b mod 32 < 32.
Proof. apply Z.mod_pos_bound. lia. Qed.

Lemma marked_clear s b x : 0 <= b -> 0 <= x ->
  marked_free (clear_bit s b) x = negb (x =? b) && marked_free s x.
Proof.
  intros Hb Hx. unfold marked_free, clear_bit.
  pose proof (bit_index b). pose proof (bit_index x). pose proof (word_bound s (b / 32)).
  rewrite word_set_word by (apply land_bound; lia).
  destruct (Z.eqb_spec (x / 32) (b / 32)) as [E|E].
  - rewrite clear_bit_spec, same_bit, <- E by lia. done.
  - destruct (Z.eqb_spec x b) as [->|]; done.
Qed.

Lemma marked_set s b x : 0 <= b -> 0 <= x ->
  marked_free (set_bit s b) x = (x =? b) || marked_free s x.
Proof.
  intros Hb Hx. unfold marked_free, set_bit.
  pose proof (bit_index b). pose proof (bit_index x). pose proof (word_bound s (b / 32)).
  rewrite word_set_word.
  2: { apply lor_bound; [lia|lia|]. rewrite Z.shiftl_1_l. split; [lia|]. apply Z.pow_lt_mono_r; lia. }
  destruct (Z.eqb_spec (x / 32) (b / 32)) as [E|E].
  - rewrite set_bit_spec, same_bit, <- E by lia. done.
  - destruct (Z.eqb_spec x b) as [->|]; done.
Qed.

(** ** Allocating and freeing blocks *)

(** The state after bitmap block of [b] was written back, in state [s]. *)
Definition bitmap_saved (b : Z) (s s' : fs) : Prop :=
  exists d, s' = set_disk d s /\
    forall x, d x = if (bitmap_block b * BLOCK_SIZE <=? x) && (x <? bitmap_block b * BLOCK_SIZE + BLOCK_SIZE)
                    then cache_byte s (bitmap_block b) (x - bitmap_block b * BLOCK_SIZE) else disk s x.

Lemma fs_ok_set_disk n s d : fs_ok n s -> fs_ok n (set_disk d s).
Proof. intros []. by split. Qed.

Lemma marked_set_disk d s b : marked_free (set_disk d s) b = marked_free s b.
Proof. done. Qed.

Lemma alloc_block_num_ok n s : fs_ok n s ->
  (exists b s', 3 <= b < n /\ marked_free s b = true /\
     (forall x, 3 <= x < b -> marked_free s x = false) /\
     alloc_block_num s = Ret b s' /\ bitmap_saved b (clear_bit s b) s') \/
  ((forall b, 3 <= b < n -> marked_free s b = false) /\ alloc_block_num s = Ret (- E_NO_DISK) s).
Proof.
  intros Hok. pose proof (ok_size _ _ Hok) as Hn.
  unfold alloc_block_num. rewrite (bind_ret _ _ _ _ _ (s_nblocks_ok _ _ Hok)).
  assert (forall b, 3 <= b < n -> marked_free s b = false -> alloc_try b s = Ret None s) as Hnone.
  { intros b Hb Hm. unfold alloc_try.
    rewrite (bind_ret _ _ _ _ _ (bitmap_word_ok _ _ Hok b ltac:(lia))), bit_test, Hm by lia. done. }
  destruct (first_index (marked_free s) 3 (Z.to_nat (n - 3))) as [(k & Hk & Hm & Hlt)|Hall].
  - left. set (b := 3 + Z.of_nat k) in *. assert (3 <= b < n) as Hb by lia.
    assert (fs_ok n (clear_bit s b)) as Hok' by (apply set_word_ok; [done|lia]).
    destruct (write_block_ok (bitmap_block b) (clear_bit s b)) as (d & Hw & Hd).
    { eapply bitmap_block_ok; [apply Hn|lia]. }
    { apply Hok'. lia. }
    exists b, (set_disk d (clear_bit s b)). split_and!; [lia|lia|done| | |by exists d].
    { intros x Hx. apply Hlt. lia. }
    assert (alloc_try b s = Ret (Some b) (set_disk d (clear_bit s b))) as Hbody.
    { unfold alloc_try. rewrite (bind_ret _ _ _ _ _ (bitmap_word_ok _ _ Hok b ltac:(lia))), bit_test, Hm by lia.
      rewrite (bind_ret _ _ _ _ _ (put_bitmap_word_ok n s b _ Hok ltac:(lia))).
      change (set_word b _ s) with (clear_bit s b). fold (bitmap_block b).
      by rewrite (bind_ret _ _ _ _ _ Hw). }
    unfold b in Hbody. rewrite (bind_ret _ _ _ _ _ (mfor_ret_some alloc_try k _ 3 s _ _ Hk
      ltac:(intros j Hj; apply Hnone; [lia|by apply Hlt]) Hbody)). done.
  - right. split; [intros b Hb; apply Hall; lia|].
    rewrite (bind_ret _ _ _ _ _ (mfor_ret_none alloc_try (Z.to_nat (n - 3)) 3 s
      ltac:(intros j Hj; apply Hnone; [lia|by apply Hall]))). done.
Qed.

Lemma free_block_ok n s b : fs_ok n s -> 0 <= b ->
  free_block b s = Ret tt (if (b =? 0) || (n <=? b) then s else set_bit s b).
Proof.
  intros Hok Hb. unfold free_block. rewrite bind_get, (ok_super _ _ Hok).
  destruct (Z.eqb_spec (disk_addr 1) 0) as [E|_]; [vm_compute in E; discriminate|].
  rewrite (bind_ret _ _ _ _ _ (s_nblocks_ok _ _ Hok)).
  destruct (Z.eqb_spec b 0), (Z.leb_spec n b); simpl; try done.
  rewrite (bind_ret _ _ _ _ _ (bitmap_word_ok _ _ Hok b ltac:(lia))).
  by rewrite (put_bitmap_word_ok n s b _ Hok ltac:(lia)).
Qed.

(** [map_block] on a block that is not cached asks the kernel for a zero page. *)
Lemma map_block_ok s b : blk_ok b ->
  map_block b s =
    if cached b s then Ret 0 s
    else let p := next_grant (f_proc s) in
      if u_grants (f_proc s) 0 then Ret 0 (set_f_proc (map_zero (disk_addr b) p) s)
      else Ret (- E_NO_MEM) (set_f_proc p s).
Proof.
  intros Hb. unfold map_block. rewrite (bind_ret _ _ _ _ _ (block_is_mapped_ok b s Hb)).
  destruct (cached b s); [done|]. rewrite syscall_mem_alloc_ok by by apply disk_addr_legal. done.
Qed.

(** A page for a block that is not cached leaves the cached blocks alone. *)
Definition map_block_page (b : Z) (s : fs) : fs :=
  set_f_proc (map_zero (disk_addr b) (next_grant (f_proc s))) s.

Lemma disk_page b : blk_ok b -> upage (disk_addr b) * PAGE_SIZE = disk_addr b.
Proof.
  intros Hb. rewrite upage_disk0, disk_addr_eq by done. unfold DISKMAP, BLOCK_SIZE, PAGE_SIZE. lia.
Qed.

Lemma cached_map_page b c s : blk_ok b -> cached c (map_block_page b s) = (c =? b) || cached c s.
Proof.
  intros Hb. unfold cached, map_block_page. cbn. rewrite upage_disk0 by done.
  destruct (Z.eqb_spec c b) as [->|]; [by rewrite fn_lookup_insert|].
  by rewrite fn_lookup_insert_ne by lia.
Qed.

Lemma cache_byte_map_page b c i s : blk_ok b -> blk_ok c -> 0 <= i < BLOCK_SIZE ->
  cache_byte (map_block_page b s) c i = if c =? b then 0 else cache_byte s c i.
Proof.
  intros Hb Hc Hi. unfold cache_byte, map_block_page. cbn. rewrite disk_page by done. unfold fill.
  rewrite !disk_addr_eq by done. unfold BLOCK_SIZE, PAGE_SIZE in *.
  destruct (Z.leb_spec (DISKMAP + b * 4096) (DISKMAP + c * 4096 + i)),
    (Z.ltb_spec (DISKMAP + c * 4096 + i) (DISKMAP + b * 4096 + 4096)), (Z.eqb_spec c b); simpl; lia || done.
Qed.

(** Loads inside a block see its cached bytes. *)
Lemma load_cache_ext k s s' c i :
  0 <= i -> i + Z.of_nat k <= BLOCK_SIZE ->
  (forall j, 0 <= j < BLOCK_SIZE -> cache_byte s' c j = cache_byte s c j) ->
  load k (u_mem (f_proc s')) (disk_addr c + i) = load k (u_mem (f_proc s)) (disk_addr c + i).
Proof.
  intros Hi Hk Hc. apply load_ext. intros x Hx.
  specialize (Hc (x - disk_addr c) ltac:(lia)). unfold cache_byte in Hc.
  by replace (disk_addr c + (x - disk_addr c)) with x in Hc by lia.
Qed.

Lemma blk_ok_1 : blk_ok 1.
Proof. unfold blk_ok. split; [lia|by vm_compute]. Qed.

(** The cache of the superblock and of the bitmap determines [fs_ok] and the marks. *)
Lemma fs_ok_frame n s s' : fs_ok n s -> super s' = super s -> bitmap s' = bitmap s ->
  (forall c, cached c s = true -> cached c s' = true) ->
  (forall j, 0 <= j < BLOCK_SIZE -> cache_byte s' 1 j = cache_byte s 1 j) -> fs_ok n s'.
Proof.
  intros [H1 H2 H3 H4 H5 H6] Hs Hb Hc Hj. split; try congruence; auto.
  rewrite <- H3. apply load_cache_ext; [lia|by vm_compute|done].
Qed.

Lemma marked_frame n s s' x : fs_ok n s -> 0 <= x < n ->
  (forall j, 0 <= j < BLOCK_SIZE -> cache_byte s' (bitmap_block x) j = cache_byte s (bitmap_block x) j) ->
  marked_free s' x = marked_free s x.
Proof.
  intros Hok Hx Hj. unfold marked_free, word_of.
  pose proof (bitmap_block_ok n x (ok_size _ _ Hok) Hx) as Hk.
  destruct (bitmap_addr x ltac:(lia) Hk) as (i & Hi & ->).
  by rewrite (load_cache_ext 4 s s') by (done || lia).
Qed.

Lemma map_page_ok n s b : fs_ok n s -> blk_ok b -> cached b s = false ->
  fs_ok n (map_block_page b s) /\
  (forall x, 0 <= x < n -> marked_free (map_block_page b s) x = marked_free s x).
Proof.
  intros Hok Hb Hc.
  assert (forall c, blk_ok c -> cached c s = true -> forall j, 0 <= j < BLOCK_SIZE ->
    cache_byte (map_block_page b s) c j = cache_byte s c j) as Hf.
  { intros c Hcok Hcc j Hj. rewrite cache_byte_map_page by done.
    destruct (Z.eqb_spec c b); [congruence|done]. }
  split.
  - eapply fs_ok_frame; [done..| |apply Hf; [apply blk_ok_1|apply Hok]].
    intros c Hcc. by rewrite cached_map_page, Hcc, orb_true_r.
  - intros x Hx. eapply marked_frame; [done..|].
    apply Hf; [by eapply bitmap_block_ok; [apply Hok|]|by apply Hok].
Qed.

(** The bitmap's block changes, the other cached bytes do not. *)
Lemma cache_byte_set_word s b v c i : blk_ok c -> blk_ok (bitmap_block b) -> 0 <= b ->
  0 <= i < BLOCK_SIZE -> c <> bitmap_block b ->
  cache_byte (set_word b v s) c i = cache_byte s c i.
Proof.
  intros Hc Hb Hb0 Hi Hne. unfold cache_byte, set_word. cbn. Transparent store. unfold store. Opaque store.
  destruct (bitmap_addr b Hb0 Hb) as (j & Hj & ->).
  rewrite !disk_addr_eq by done. change (Z.of_nat 4) with 4. unfold BLOCK_SIZE in *.
  destruct (Z.leb_spec (DISKMAP + bitmap_block b * 4096 + j) (DISKMAP + c * 4096 + i)),
    (Z.ltb_spec (DISKMAP + c * 4096 + i) (DISKMAP + bitmap_block b * 4096 + j + 4)); simpl; lia || done.
Qed.

Lemma alloc_block_ok n s : fs_ok n s ->
  (exists b d, 3 <= b < n /\ marked_free s b = true /\
     (forall x, 3 <= x < b -> marked_free s x = false) /\
     bitmap_saved b (clear_bit s b) (set_disk d (clear_bit s b)) /\
     alloc_block s =
       let s2 := set_disk d (clear_bit s b) in
       if cached b s then Ret b s2
       else if u_grants (f_proc s) 0 then Ret b (map_block_page b s2)
       else Ret (- E_NO_MEM) (set_bit (set_f_proc (next_grant (f_proc s2)) s2) b)) \/
  ((forall b, 3 <= b < n -> marked_free s b = false) /\ alloc_block s = Ret (- E_NO_DISK) s).
Proof.
  intros Hok. unfold alloc_block.
  destruct (alloc_block_num_ok n s Hok) as [(b & s' & Hb & Hm & Hlt & E & Hsv)|[Hall E]].
  2: { right. split; [done|]. by rewrite (bind_ret _ _ _ _ _ E). }
  left. destruct Hsv as (d & -> & Hd). exists b, d. split_and!; [lia|lia|done|done|by exists d|].
  rewrite (bind_ret _ _ _ _ _ E). destruct (Z.ltb_spec b 0); [lia|].
  assert (blk_ok b) as Hbk by (eapply blk_ok_bound; [apply Hok|lia]).
  set (s2 := set_disk d (clear_bit s b)).
  unfold mbind at 1, M_bind at 1. rewrite map_block_ok by done.
  change (cached b s2) with (cached b s). change (u_grants (f_proc s2)) with (u_grants (f_proc s)).
  cbv zeta. destruct (cached b s); [done|]. destruct (u_grants (f_proc s) 0); [done|].
  change (- E_NO_MEM <? 0) with true. cbv iota.
  assert (fs_ok n (set_f_proc (next_grant (f_proc s2)) s2)) as Hok2.
  { apply (fs_ok_frame n s2); [|done..]. apply fs_ok_set_disk, set_word_ok; [done|lia]. }
  rewrite (bind_ret _ _ _ _ _ (free_block_ok n _ b Hok2 ltac:(lia))).
  destruct (Z.eqb_spec b 0), (Z.leb_spec n b); [lia..|]. done.
Qed.

(** What an allocation leaves alone: blocks already cached, except the block
    of the bitmap it changes. *)
Definition cache_kept (b : Z) (s s' : fs) : Prop :=
  forall c i, blk_ok c -> cached c s = true -> c <> bitmap_block b -> 0 <= i < BLOCK_SIZE ->
    cache_byte s' c i = cache_byte s c i.

(** The outcomes of an allocation in terms of blocks, marks and the cache. *)
Definition allocated (n b : Z) (s s' : fs) : Prop :=
  fs_ok n s' /\ cached b s' = true /\
  (forall x, 0 <= x < n -> marked_free s' x = negb (x =? b) && marked_free s x) /\
  (forall c, cached c s' = (c =? b) || cached c s) /\
  cache_kept b s s' /\
  (cached b s = false -> forall i, 0 <= i < BLOCK_SIZE -> cache_byte s' b i = 0) /\
  (forall c i, 0 <= i < BLOCK_SIZE -> disk_byte s' c i =
     if c =? bitmap_block b then cache_byte s' c i else disk_byte s c i).

Lemma disk_byte_saved b s d : blk_ok (bitmap_block b) ->
  (forall x, d x = if (bitmap_block b * BLOCK_SIZE <=? x) && (x <? bitmap_block b * BLOCK_SIZE + BLOCK_SIZE)
                   then cache_byte s (bitmap_block b) (x - bitmap_block b * BLOCK_SIZE) else disk s x) ->
  forall c i, 0 <= i < BLOCK_SIZE -> disk_byte (set_disk d s) c i =
    if c =? bitmap_block b then cache_byte s c i else disk_byte s c i.
Proof.
  intros Hk Hd c i Hi. unfold disk_byte. cbn [disk set_disk]. rewrite Hd. unfold BLOCK_SIZE in *.
  destruct (Z.leb_spec (bitmap_block b * 4096) (c * 4096 + i)),
    (Z.ltb_spec (c * 4096 + i) (bitmap_block b * 4096 + 4096)), (Z.eqb_spec c (bitmap_block b));
    simpl; try lia; try done. subst c. f_equal. lia.
Qed.

Lemma saved_allocated n b s d : fs_ok n s -> 3 <= b < n ->
  bitmap_saved b (clear_bit s b) (set_disk d (clear_bit s b)) ->
  let s2 := set_disk d (clear_bit s b) in
  fs_ok n s2 /\ (forall x, 0 <= x < n -> marked_free s2 x = negb (x =? b) && marked_free s x) /\
  cache_kept b s s2 /\
  (forall c i, 0 <= i < BLOCK_SIZE -> disk_byte s2 c i =
     if c =? bitmap_block b then cache_byte s2 c i else disk_byte s c i).
Proof.
  intros Hok Hb (d' & E & Hd) s2. injection E as <-.
  assert (blk_ok (bitmap_block b)) as Hk by (eapply bitmap_block_ok; [apply Hok|lia]).
  split_and!.
  - apply fs_ok_set_disk, set_word_ok; [done|lia].
  - intros x Hx. unfold s2. rewrite marked_set_disk. apply marked_clear; lia.
  - intros c i Hc Hcc Hne Hi. unfold s2. change (cache_byte (set_disk d ?z)) with (cache_byte z).
    apply cache_byte_set_word; done || lia.
  - intros c i Hi. unfold s2. by rewrite (disk_byte_saved b (clear_bit s b) d Hk Hd).
Qed.

Lemma alloc_cached n b s d : fs_ok n s -> 3 <= b < n -> cached b s = true ->
  bitmap_saved b (clear_bit s b) (set_disk d (clear_bit s b)) ->
  allocated n b s (set_disk d (clear_bit s b)).
Proof.
  intros Hok Hb Hc Hsv. destruct (saved_allocated n b s d Hok Hb Hsv) as (H1 & H2 & H3 & H4).
  split_and!; try done.
  - intros c. change (cached c (set_disk d (clear_bit s b))) with (cached c s).
    destruct (Z.eqb_spec c b) as [->|]; [by rewrite Hc|done].
  - intros Hc'. congruence.
Qed.

Lemma alloc_mapped n b s d : fs_ok n s -> 3 <= b < n -> cached b s = false ->
  bitmap_saved b (clear_bit s b) (set_disk d (clear_bit s b)) ->
  allocated n b s (map_block_page b (set_disk d (clear_bit s b))).
Proof.
  intros Hok Hb Hc Hsv. destruct (saved_allocated n b s d Hok Hb Hsv) as (H1 & H2 & H3 & H4).
  set (s2 := set_disk d (clear_bit s b)) in *.
  assert (blk_ok b) as Hbk by (eapply blk_ok_bound; [apply Hok|lia]).
  assert (blk_ok (bitmap_block b)) as Hk by (eapply bitmap_block_ok; [apply Hok|lia]).
  assert (cached (bitmap_block b) s = true) as Hbc by (apply Hok; lia).
  destruct (map_page_ok n s2 b H1 Hbk Hc) as [Hok' Hm].
  split_and!.
  - done.
  - by rewrite cached_map_page, Z.eqb_refl.
  - intros x Hx. by rewrite Hm, H2.
  - intros c. by rewrite cached_map_page.
  - intros c i Hcok Hcc Hne Hi. rewrite cache_byte_map_page by done.
    destruct (Z.eqb_spec c b) as [->|]; [congruence|]. by apply H3.
  - intros _ i Hi. by rewrite cache_byte_map_page, Z.eqb_refl.
  - intros c i Hi. change (disk_byte (map_block_page b s2)) with (disk_byte s2). rewrite H4 by done.
    destruct (Z.eqb_spec c (bitmap_block b)) as [->|]; [|done].
    rewrite cache_byte_map_page by done. destruct (Z.eqb_spec (bitmap_block b) b); [congruence|done].
Qed.

(** Freeing the block just allocated restores the marks. *)
Lemma free_after_alloc n b s s' : fs_ok n s' -> 3 <= b < n -> marked_free s b = true ->
  (forall x, 0 <= x < n -> marked_free s' x = negb (x =? b) && marked_free s x) ->
  exists s'', free_block b s' = Ret tt s'' /\ fs_ok n s'' /\
    forall x, 0 <= x < n -> marked_free s'' x = marked_free s x.
Proof.
  intros Hok Hb Hm Hx. rewrite (free_block_ok n s' b Hok) by lia.
  destruct (Z.eqb_spec b 0), (Z.leb_spec n b); [lia..|]. cbn [orb].
  exists (set_bit s' b). split_and!; [done|apply set_word_ok; [done|lia]|].
  intros x Hxn. rewrite marked_set, Hx by lia.
  destruct (Z.eqb_spec x b) as [->|]; [by rewrite Hm|done].
Qed.

(** The failed allocation: the kernel has no page for the block. *)
Lemma alloc_refused n b s d : fs_ok n s -> 3 <= b < n -> marked_free s b = true ->
  bitmap_saved b (clear_bit s b) (set_disk d (clear_bit s b)) ->
  let s2 := set_disk d (clear_bit s b) in
  let s' := set_bit (set_f_proc (next_grant (f_proc s2)) s2) b in
  fs_ok n s' /\ (forall x, 0 <= x < n -> marked_free s' x = marked_free s x).
Proof.
  intros Hok Hb Hm Hsv s2 s'. destruct (saved_allocated n b s d Hok Hb Hsv) as (H1 & H2 & _).
  assert (fs_ok n (set_f_proc (next_grant (f_proc s2)) s2)) as Hok2
    by by apply (fs_ok_frame n s2).
  split; [apply set_word_ok; [done|lia]|].
  intros x Hx. unfold s'. rewrite marked_set by lia.
  change (marked_free (set_f_proc (next_grant (f_proc s2)) s2) x) with (marked_free s2 x).
  rewrite H2 by done. destruct (Z.eqb_spec x b) as [->|]; [by rewrite Hm|done].
Qed.

(** ** Reading, evicting and writing back *)

Lemma read_block_guards n s b : fs_ok n s -> 0 <= b ->
  read_block b s =
    if (n <=? b) || marked_free s b then Panic s
    else if cached b s then Ret (0, disk_addr b, false) s
    else
      (r ← syscall_mem_alloc (disk_addr b);
       if negb (r =? 0) then mret (r, disk_addr b, true)
       else sector_read (u32 (b * SECT2BLK)) (disk_addr b) SECT2BLK ;; mret (0, disk_addr b, true)) s.
Proof.
  intros Hok Hb. unfold read_block. rewrite bind_get, (ok_super _ _ Hok).
  destruct (Z.eqb_spec (disk_addr 1) 0) as [E|_]; [vm_compute in E; discriminate|].
  destruct (Z.leb_spec n b) as [Hn|Hn]; cbn [orb].
  { apply bind_panic. cbn [negb]. rewrite (bind_ret _ _ _ _ _ (s_nblocks_ok _ _ Hok)).
    by destruct (Z.leb_spec n b); [|lia]. }
  erewrite bind_ret; [|cbn [negb]; rewrite (bind_ret _ _ _ _ _ (s_nblocks_ok _ _ Hok));
    destruct (Z.leb_spec n b); [lia|reflexivity]].
  rewrite bind_get, (ok_bitmap _ _ Hok).
  destruct (Z.eqb_spec (disk_addr 2) 0) as [E|_]; [vm_compute in E; discriminate|]. cbn [negb].
  pose proof (block_is_free_ok n s Hok b Hb) as Hf.
  replace (b <? n) with true in Hf by (symmetry; apply Z.ltb_lt; lia). cbn [andb] in Hf.
  destruct (marked_free s b).
  { apply bind_panic. by rewrite (bind_ret _ _ _ _ _ Hf). }
  erewrite bind_ret; [|rewrite (bind_ret _ _ _ _ _ Hf); reflexivity].
  assert (blk_ok b) as Hbk by (eapply blk_ok_bound; [apply Hok|lia]).
  rewrite (bind_ret _ _ _ _ _ (block_is_mapped_ok b s Hbk)). by destruct (cached b s).
Qed.

(** Block [b] entered the cache with the bytes of the disk, in a state [s]
    where it was not cached. *)
Definition fetched (b : Z) (s s' : fs) : Prop :=
  disk s' = disk s /\ super s' = super s /\ bitmap s' = bitmap s /\ cached b s' = true /\
  (forall c, cached c s' = (c =? b) || cached c s) /\
  (forall c i, blk_ok c -> 0 <= i < BLOCK_SIZE ->
     cache_byte s' c i = if c =? b then disk_byte s b i else cache_byte s c i).

Lemma fetch_ok s b : blk_ok b -> cached b s = false -> u_grants (f_proc s) 0 = true ->
  exists s',
    (r ← syscall_mem_alloc (disk_addr b);
     if negb (r =? 0) then mret (r, disk_addr b, true)
     else sector_read (u32 (b * SECT2BLK)) (disk_addr b) SECT2BLK ;; mret (0, disk_addr b, true)) s
      = Ret (0, disk_addr b, true) s' /\ fetched b s s'.
Proof.
  intros Hb Hc Hg. unfold mbind at 1, M_bind at 1.
  rewrite syscall_mem_alloc_ok by by apply disk_addr_legal.
  cbv zeta. change (proc_of s) with (f_proc s). rewrite Hg.
  change (with_proc (map_zero (disk_addr b) (next_grant (f_proc s))) s) with (map_block_page b s).
  change (negb (0 =? 0)) with false. cbv iota.
  destruct (sector_read_ok b (map_block_page b s) Hb) as (s' & E & H1 & H2 & H3 & H4 & H5 & H6 & H7).
  { by rewrite cached_map_page, Z.eqb_refl. }
  rewrite (bind_ret _ _ _ _ _ E). exists s'. split; [done|].
  assert (forall c, cached c s' = (c =? b) || cached c s) as Hcc.
  { intros c. unfold cached at 1. rewrite H4. fold (cached c (map_block_page b s)). by apply cached_map_page. }
  split_and!; [exact H1|exact H2|exact H3|by rewrite Hcc, Z.eqb_refl|exact Hcc|].
  - intros c i Hcb Hi. unfold cache_byte at 1. rewrite H7.
    pose proof (cache_byte_map_page b c i s Hb Hcb Hi) as Hm. unfold cache_byte at 1 in Hm. rewrite Hm.
    rewrite !disk_addr_eq by done. unfold BLOCK_SIZE in *.
    destruct (Z.leb_spec (DISKMAP + b * 4096) (DISKMAP + c * 4096 + i)),
      (Z.ltb_spec (DISKMAP + c * 4096 + i) (DISKMAP + b * 4096 + 4096)), (Z.eqb_spec c b);
      simpl; try lia; try done. subst c. unfold disk_byte. cbn. f_equal. lia.
Qed.

(** The page the kernel granted for it. *)
Lemma fetch_grants s b r s' : blk_ok b -> u_grants (f_proc s) 0 = true ->
  (r ← syscall_mem_alloc (disk_addr b);
   if negb (r =? 0) then mret (r, disk_addr b, true)
   else sector_read (u32 (b * SECT2BLK)) (disk_addr b) SECT2BLK ;; mret (0, disk_addr b, true)) s = Ret r s' ->
  u_grants (f_proc s') = fun k => u_grants (f_proc s) (S k).
Proof.
  intros Hb Hg Ef. unfold mbind at 1, M_bind at 1 in Ef.
  rewrite syscall_mem_alloc_ok in Ef by by apply disk_addr_legal.
  cbv zeta in Ef. change (proc_of s) with (f_proc s) in Ef. rewrite Hg in Ef.
  change (with_proc (map_zero (disk_addr b) (next_grant (f_proc s))) s) with (map_block_page b s) in Ef.
  change (negb (0 =? 0)) with false in Ef. cbv iota in Ef.
  destruct (sector_read_ok b (map_block_page b s) Hb) as (s1 & E1 & _ & _ & _ & _ & H5 & _).
  { by rewrite cached_map_page, Z.eqb_refl. }
  rewrite (bind_ret _ _ _ _ _ E1) in Ef. injection Ef as _ <-. by rewrite H5.
Qed.

Lemma fetched_ok n s s' b : fs_ok n s -> blk_ok b -> cached b s = false -> fetched b s s' ->
  fs_ok n s' /\ (forall x, 0 <= x < n -> marked_free s' x = marked_free s x).
Proof.
  intros Hok Hb Hc (H1 & H2 & H3 & H4 & H5 & H6). split.
  - eapply fs_ok_frame; [done..| |].
    + intros c Hcc. by rewrite H5, Hcc, orb_true_r.
    + intros j Hj. rewrite H6 by (done || apply blk_ok_1).
      destruct (Z.eqb_spec 1 b) as [<-|]; [rewrite (ok_super_cached _ _ Hok) in Hc; discriminate|done].
  - intros x Hx. eapply marked_frame; [done..|]. intros j Hj.
    rewrite H6 by (done || by eapply bitmap_block_ok; [apply Hok|]).
    destruct (Z.eqb_spec (bitmap_block x) b) as [<-|]; [|done].
    rewrite (ok_bitmap_cached _ _ Hok) in Hc by done. discriminate.
Qed.

Definition dirty (b : Z) (s : fs) : bool := cached b s && u_dirty (f_proc s) (65536 + b).

Lemma block_is_dirty_ok b s : blk_ok b -> block_is_dirty b s = Ret (dirty b s) s.
Proof.
  intros Hb. unfold block_is_dirty, va_is_dirty, syscall_is_dirty, get. by rewrite upage_disk0.
Qed.

Lemma disk_byte_blit b s d : blk_ok b ->
  (forall x, d x = if (b * BLOCK_SIZE <=? x) && (x <? b * BLOCK_SIZE + BLOCK_SIZE)
                   then cache_byte s b (x - b * BLOCK_SIZE) else disk s x) ->
  forall c i, 0 <= i < BLOCK_SIZE -> disk_byte (set_disk d s) c i =
    if c =? b then cache_byte s b i else disk_byte s c i.
Proof.
  intros Hk Hd c i Hi. unfold disk_byte. cbn [disk set_disk]. rewrite Hd. unfold BLOCK_SIZE in *.
  destruct (Z.leb_spec (b * 4096) (c * 4096 + i)),
    (Z.ltb_spec (c * 4096 + i) (b * 4096 + 4096)), (Z.eqb_spec c b); simpl; try lia; try done.
  subst c. f_equal. lia.
Qed.

(** [write_block] in terms of the blocks of the disk. *)
Lemma write_block_bytes b s : blk_ok b -> cached b s = true ->
  exists d, write_block b s = Ret tt (set_disk d s) /\
    forall c i, 0 <= i < BLOCK_SIZE -> disk_byte (set_disk d s) c i =
      if c =? b then cache_byte s b i else disk_byte s c i.
Proof.
  intros Hb Hc. destruct (write_block_ok b s Hb Hc) as (d & E & Hd).
  exists d. split; [done|by apply disk_byte_blit].
Qed.

(** Block [b] is no longer mapped. *)
Definition unmapped (b : Z) (s : fs) : fs :=
  set_f_proc (set_u_map (<[65536 + b := false]> (u_map (f_proc s))) (f_proc s)) s.

Lemma cached_unmapped b c s : cached c (unmapped b s) = negb (c =? b) && cached c s.
Proof.
  unfold cached, unmapped. cbn. destruct (Z.eqb_spec c b) as [->|]; [by rewrite fn_lookup_insert|].
  by rewrite fn_lookup_insert_ne by lia.
Qed.

Lemma unmap_block_ok n s b : fs_ok n s -> 0 <= b < n -> marked_free s b = false -> cached b s = true ->
  exists d, unmap_block b s = Ret tt (unmapped b (set_disk d s)) /\
    forall c i, 0 <= i < BLOCK_SIZE -> disk_byte (set_disk d s) c i =
      if (c =? b) && dirty b s then cache_byte s b i else disk_byte s c i.
Proof.
  intros Hok Hb Hm Hc. assert (blk_ok b) as Hbk by (eapply blk_ok_bound; [apply Hok|lia]).
  unfold unmap_block. rewrite (bind_ret _ _ _ _ _ (block_is_mapped_ok b s Hbk)), Hc.
  rewrite (bind_ret _ _ _ _ _ (block_is_free_ok n s Hok b ltac:(lia))), Hm, andb_false_r.
  rewrite (bind_ret _ _ _ _ _ (block_is_dirty_ok b s Hbk)). cbn [negb andb].
  assert (exists d, (if dirty b s then write_block b else mret tt) s = Ret tt (set_disk d s) /\
    forall c i, 0 <= i < BLOCK_SIZE -> disk_byte (set_disk d s) c i =
      if (c =? b) && dirty b s then cache_byte s b i else disk_byte s c i) as (d & E & Hd).
  { destruct (dirty b s).
    - destruct (write_block_bytes b s Hbk Hc) as (d & E & Hd). exists d. split; [done|].
      intros c i Hi. rewrite Hd, andb_true_r by done. done.
    - exists (disk s). split; [by destruct s|]. intros c i Hi. by rewrite andb_false_r. }
  exists d. split; [|done]. rewrite (bind_ret _ _ _ _ _ E).
  assert ((syscall_mem_unmap (disk_addr b) ;; mret tt) (set_disk d s) =
          Ret tt (unmapped b (set_disk d s))) as Hu.
  { rewrite (bind_ret _ _ _ _ _ (syscall_mem_unmap_ok (disk_addr b) (set_disk d s) (disk_addr_legal b Hbk))).
    unfold unmapped, mret, M_ret. by rewrite upage_disk0. }
  rewrite (bind_ret _ _ _ _ _ Hu).
  rewrite (bind_ret _ _ _ _ _ (block_is_mapped_ok b _ Hbk)), cached_unmapped, Z.eqb_refl. done.
Qed.

(** [fs_sync] over the blocks from 0 on. *)
Lemma sync_loop n s : 0 <= n <= DISKMAX / BLOCK_SIZE ->
  exists s', mfor (Z.to_nat n) 0 (fun i =>
      d ← block_is_dirty i; if (d : bool) then write_block i else mret tt) s = Ret tt s' /\
    f_proc s' = f_proc s /\ super s' = super s /\ bitmap s' = bitmap s /\
    forall c i, 0 <= i < BLOCK_SIZE -> disk_byte s' c i =
      if (0 <=? c) && (c <? n) && dirty c s then cache_byte s c i else disk_byte s c i.
Proof.
  intros Hn.
  destruct (mfor_inv (fun j s' => f_proc s' = f_proc s /\ super s' = super s /\ bitmap s' = bitmap s /\
      forall c i, 0 <= i < BLOCK_SIZE -> disk_byte s' c i =
        if (0 <=? c) && (c <? j) && dirty c s then cache_byte s c i else disk_byte s c i)
    (fun i => d ← block_is_dirty i; if (d : bool) then write_block i else mret tt) (Z.to_nat n) 0 s)
    as (s' & E & HI).
  - split_and!; try done. intros c i Hi. by destruct (Z.leb_spec 0 c), (Z.ltb_spec c 0); try lia.
  - intros j s' Hj (Hp & Hs & Hb & Hd). assert (blk_ok j) as Hjk by (unfold blk_ok; lia).
    rewrite (bind_ret _ _ _ _ _ (block_is_dirty_ok j s' Hjk)).
    assert (dirty j s' = dirty j s) as -> by (unfold dirty, cached; by rewrite Hp).
    destruct (dirty j s) eqn:Ed.
    + destruct (write_block_bytes j s' Hjk) as (d & E & Hw).
      { unfold dirty in Ed. apply andb_prop in Ed as [Ed _]. unfold cached in *. by rewrite Hp. }
      exists (set_disk d s'). split; [done|]. split_and!; try done.
      intros c i Hi. rewrite Hw, Hd by done. unfold cache_byte. rewrite Hp.
      destruct (Z.eqb_spec c j) as [->|].
      * rewrite Ed. destruct (Z.leb_spec 0 j), (Z.ltb_spec j (j + 1)); try lia. done.
      * destruct (Z.ltb_spec c j), (Z.ltb_spec c (j + 1)); try lia; done.
    + exists s'. split; [done|]. split_and!; try done. intros c i Hi. rewrite Hd by done.
      destruct (Z.leb_spec 0 c), (Z.ltb_spec c j), (Z.ltb_spec c (j + 1)); try lia; try done.
      assert (c = j) as -> by lia. by rewrite Ed.
  - exists s'. split; [done|]. rewrite Z.add_0_l, Z2Nat.id in HI by lia. done.
Qed.


(** A disk of 40 blocks whose blocks 5 and 36 are free. *)
Definition demo_fs : fs :=
  Fs (Proc (fun x => if x =? disk_addr 1 + 4 then 40 else
                     if x =? disk_addr 2 then 32 else if x =? disk_addr 2 + 4 then 16 else 0)
       (fun p => (p =? 65537) || (p =? 65538)) (fun _ => false) (fun _ => true))
    (fun _ => 7) (disk_addr 1) (disk_addr 2).

Lemma demo_fs_ok : fs_ok 40 demo_fs.
Proof.
  constructor.
  - reflexivity.
  - reflexivity.
  - vm_compute. reflexivity.
  - split; [lia|vm_compute; discriminate].
  - vm_compute. reflexivity.
  - intros b Hb. unfold bitmap_block, BLOCK_SIZE_BIT. rewrite Z.div_small by (unfold BLOCK_SIZE; lia).
    vm_compute. reflexivity.
Qed.

Lemma demo_fs_marks :
  marked_free demo_fs 3 = false /\ marked_free demo_fs 4 = false /\ marked_free demo_fs 5 = true.
Proof. vm_compute. split_and!; reflexivity. Qed.


(** C30: [read_block] on every branch: a block past the end of the disk or
    marked free panics; a cached block is returned as it is; any other block
    gets a page with the bytes of the disk, which changes no other cached byte,
    no mark and nothing on the disk, or is -E_NO_MEM when the kernel has no
    page. *)
Theorem read_block_correct (n : Z) (s : fs) (b : Z) (Hok : fs_ok n s) (Hb : 0 <= b) :
  (n <= b \/ marked_free s b = true -> read_block b s = Panic s) /\
  (b < n -> marked_free s b = false ->
    (cached b s = true -> read_block b s = Ret (0, disk_addr b, false) s) /\
    (cached b s = false -> u_grants (f_proc s) 0 = true ->
       exists s', read_block b s = Ret (0, disk_addr b, true) s' /\ fetched b s s' /\ fs_ok n s' /\
         forall x, 0 <= x < n -> marked_free s' x = marked_free s x) /\
    (cached b s = false -> u_grants (f_proc s) 0 = false ->
       exists s', read_block b s = Ret (- E_NO_MEM, disk_addr b, true) s' /\
         u_mem (f_proc s') = u_mem (f_proc s) /\ u_map (f_proc s') = u_map (f_proc s) /\ disk s' = disk s)).
Proof.
  pose proof (read_block_guards n s b Hok Hb) as E. split.
  - intros H. rewrite E. destruct H as [H| ->]; [|by rewrite orb_true_r].
    by rewrite (proj2 (Z.leb_le n b)).
  - intros Hn Hm. rewrite Hm, orb_false_r, (proj2 (Z.leb_gt n b)) in E by lia.
    assert (blk_ok b) as Hbk by (eapply blk_ok_bound; [apply Hok|lia]). split_and!.
    + intros Hc. by rewrite E, Hc.
    + intros Hc Hg. rewrite Hc in E. destruct (fetch_ok s b Hbk Hc Hg) as (s' & Ef & Hf).
      exists s'. split; [by rewrite E|]. split; [done|]. by apply (fetched_ok n s s' b).
    + intros Hc Hg. rewrite Hc in E. eexists. split.
      * rewrite E. unfold mbind at 1, M_bind at 1.
        rewrite syscall_mem_alloc_ok by by apply disk_addr_legal. cbv zeta.
        change (proc_of s) with (f_proc s). rewrite Hg. reflexivity.
      * split_and!; reflexivity.
Qed.

Lemma read_block_witness :
  read_block 40 demo_fs = Panic demo_fs /\ read_block 5 demo_fs = Panic demo_fs.
Proof.
  split.
  - apply (read_block_correct 40 demo_fs 40 demo_fs_ok); [lia|left; lia].
  - apply (read_block_correct 40 demo_fs 5 demo_fs_ok); [lia|right; exact (proj2 (proj2 demo_fs_marks))].
Defined.


(** The demo disk with block 7 cached and written to. *)
Definition demo_dirty : fs :=
  Fs (Proc (fun x => if x =? disk_addr 7 then 99 else u_mem (f_proc demo_fs) x)
       (fun p => (p =? 65543) || u_map (f_proc demo_fs) p) (fun p => p =? 65543) (fun _ => true))
    (disk demo_fs) (super demo_fs) (bitmap demo_fs).

Lemma demo_dirty_ok : fs_ok 40 demo_dirty.
Proof.
  constructor.
  - reflexivity.
  - reflexivity.
  - vm_compute. reflexivity.
  - split; [lia|vm_compute; discriminate].
  - vm_compute. reflexivity.
  - intros b Hb. unfold bitmap_block, BLOCK_SIZE_BIT. rewrite Z.div_small by (unfold BLOCK_SIZE; lia).
    vm_compute. reflexivity.
Qed.


(** [check_write_block] parks the superblock in the cached page of block 0,
    which becomes dirty, so the first [fs_sync] after the start overwrites the
    boot block of the disk with the superblock. *)
Definition boot_fs : fs :=
  Fs (Proc (fun _ => 0) (fun _ => false) (fun _ => false) (fun _ => true))
    (fun x => if x =? 0 then 0x13 else
              if x =? 4096 then 0x97 else if x =? 4097 then 0x60 else
              if x =? 4098 then 0x28 else if x =? 4099 then 0x68 else if x =? 4100 then 40 else 0)
    0 0.

Lemma fs_sync_overwrites_boot_block :
  disk_byte boot_fs 0 0 = 0x13 /\
  exists s, (fs_init ;; fs_sync) boot_fs = Ret tt s /\ disk_byte s 0 0 = 0x97.
Proof.
  split; [reflexivity|].
  assert (match (fs_init ;; fs_sync) boot_fs with
          | Ret _ s => disk_byte s 0 0 =? 0x97 | _ => false end = true) as H
    by (vm_compute; reflexivity).
  destruct ((fs_init ;; fs_sync) boot_fs) as [[] s|s|e s]; [|discriminate..].
  exists s. split; [done|]. by apply Z.eqb_eq.
Qed.
