(* ===== verification/FsFile.v ===== *)
(** fs/fs.c, the file layer of the file server: the blocks of a file, directories,
    paths and the operations on files.

    A [struct File *] is its address in the block cache.  Paths and names are
    byte lists without the terminating zero, a [char *] into a path being the
    rest of the list. *)
From S2P Require Import Prelude Mem Mmu Proc FsBlock.

Definition NDIRECT : Z := 10.
Definition NINDIRECT : Z := BLOCK_SIZE / 4.
Definition MAXNAMELEN : Z := 128.
Definition FILE_STRUCT_SIZE : Z := 256.
Definition FILE2BLK : Z := BLOCK_SIZE / FILE_STRUCT_SIZE.
Definition FTYPE_REG : Z := 0.
Definition FTYPE_DIR : Z := 1.

(** The packed layout of [struct File]. *)
Definition off_size : Z := 128.
Definition off_type : Z := 132.
Definition off_direct : Z := 136.
Definition off_indirect : Z := 176.
Definition off_dir : Z := 180.

Definition f_size (f : Z) : M fs Z := uload 4 (f + off_size).
Definition f_type (f : Z) : M fs Z := uload 4 (f + off_type).
Definition f_indirect (f : Z) : M fs Z := uload 4 (f + off_indirect).
Definition f_dir (f : Z) : M fs Z := uload 8 (f + off_dir).
Definition put_f_size (f v : Z) : M fs unit := ustore 4 (f + off_size) v.
Definition put_f_indirect (f v : Z) : M fs unit := ustore 4 (f + off_indirect) v.
Definition put_f_dir (f v : Z) : M fs unit := ustore 8 (f + off_dir) v.

(** ** The blocks of a file *)

(** The allocation of the indirect block when there is none. *)
Definition make_indirect (f alloc : Z) : M fs Z :=
  ind ← f_indirect f;
  if ind =? 0 then
    if alloc =? 0 then mret (- E_NOT_FOUND)
    else
      r ← alloc_block;
      if r <? 0 then mret r else put_f_indirect f r ;; mret 0
  else mret 0.

(** The result code and the slot of block [filebno]. *)
Definition file_block_walk (f filebno alloc : Z) : M fs (Z * Z) :=
  if filebno <? NDIRECT then mret (0, f + off_direct + 4 * filebno)
  else if filebno <? NINDIRECT then
    r ← make_indirect f alloc;
    if r <? 0 then mret (r, 0)
    else
      ind ← f_indirect f;
      '(r, blk, _) ← read_block ind;
      if r <? 0 then mret (r, 0) else mret (0, blk + 4 * filebno)
  else mret (- E_INVAL, 0).

(** The result code and [*diskbno]. *)
Definition file_map_block (f filebno alloc : Z) : M fs (Z * Z) :=
  '(r, ptr) ← file_block_walk f filebno alloc;
  if r <? 0 then mret (r, 0)
  else
    bno ← uload 4 ptr;
    r ← (if bno =? 0 then
           if alloc =? 0 then mret (- E_NOT_FOUND)
           else
             r ← alloc_block;
             if r <? 0 then mret r else ustore 4 ptr r ;; mret 0
         else mret 0);
    if r <? 0 then mret (r, 0)
    else bno ← uload 4 ptr; mret (0, bno).

Definition file_clear_block (f filebno : Z) : M fs Z :=
  '(r, ptr) ← file_block_walk f filebno 0;
  if r <? 0 then mret r
  else
    bno ← uload 4 ptr;
    if negb (bno =? 0) then free_block bno ;; ustore 4 ptr 0 ;; mret 0 else mret 0.

(** The result code and [*blk]. *)
Definition file_get_block (f filebno : Z) : M fs (Z * Z) :=
  '(r, diskbno) ← file_map_block f filebno 1;
  if r <? 0 then mret (r, 0)
  else
    '(r, blk, _) ← read_block diskbno;
    if r <? 0 then mret (r, 0) else mret (0, blk).

Definition file_dirty (f offset : Z) : M fs Z :=
  '(r, diskbno) ← file_map_block f (offset / BLOCK_SIZE) 0;
  if r <? 0 then mret r else dirty_block diskbno.

(** ** Directories *)

(** [strcmp] of the string at [a] with [name] is 0. *)
Fixpoint name_eq (a : Z) (name : list Z) : M fs bool :=
  match name with
  | [] => b ← uload 1 a; mret (b =? 0)
  | c :: name => b ← uload 1 a; if b =? c then name_eq (a + 1) name else mret false
  end.

(** The search of one block of a directory, whose files start at [files]. *)
Definition dir_scan (dir files : Z) (name : list Z) : M fs (option Z) :=
  mfor_ret (Z.to_nat FILE2BLK) 0 (fun j =>
    let f := files + j * FILE_STRUCT_SIZE in
    c ← uload 1 f;
    if c =? 0 then mret None
    else
      e ← name_eq f name;
      if (e : bool) then put_f_dir f dir ;; mret (Some f) else mret None).

(** The result code and [*file]. *)
Definition dir_lookup (dir : Z) (name : list Z) : M fs (Z * Z) :=
  size ← f_size dir;
  let nblock := size / BLOCK_SIZE in
  r ← mfor_ret (Z.to_nat nblock) 0 (fun i =>
    '(r, blk) ← file_get_block dir i;
    if negb (r =? 0) then mret (Some (r, 0))
    else
      f ← dir_scan dir blk name;
      mret (match f with Some f => Some (0, f) | None => None end));
  mret (match r with Some r => r | None => (- E_NOT_FOUND, 0) end).

Definition dir_alloc_file (dir : Z) : M fs (Z * Z) :=
  size ← f_size dir;
  let nblock := size / BLOCK_SIZE in
  r ← mfor_ret (Z.to_nat nblock) 0 (fun i =>
    '(r, blk) ← file_get_block dir i;
    if r <? 0 then mret (Some (r, 0))
    else
      mfor_ret (Z.to_nat FILE2BLK) 0 (fun j =>
        c ← uload 1 (blk + j * FILE_STRUCT_SIZE);
        mret (if c =? 0 then Some (0, blk + j * FILE_STRUCT_SIZE) else None)));
  match r with
  | Some r => mret r
  | None =>
      size ← f_size dir;
      put_f_size dir (u32 (size + BLOCK_SIZE)) ;;
      '(r, blk) ← file_get_block dir nblock;
      if r <? 0 then mret (r, 0) else mret (0, blk)
  end.

(** ** Paths *)

Fixpoint skip_slash (p : list Z) : list Z :=
  match p with
  | c :: p' => if c =? 47 then skip_slash p' else p
  | [] => []
  end.

(** The name at the start of a path, and what follows it. *)
Fixpoint path_elem (p : list Z) : list Z * list Z :=
  match p with
  | c :: p' => if c =? 47 then ([], p) else let '(name, rest) := path_elem p' in (c :: name, rest)
  | [] => ([], [])
  end.

(** The result code, [*pdir], [*pfile] and [lastelem] when it was set. *)
Record walk := Walk { w_r : Z; w_dir : Z; w_file : Z; w_last : option (list Z) }.

Fixpoint walk_loop (fuel : nat) (path : list Z) (dir file : Z) : M fs walk :=
  match fuel, path with
  | S fuel, _ :: _ =>
      let dir := file in
      let '(name, path) := path_elem path in
      if MAXNAMELEN <=? Z.of_nat (length name) then mret (Walk (- E_BAD_PATH) 0 0 None)
      else
        let path := skip_slash path in
        t ← f_type dir;
        if negb (t =? FTYPE_DIR) then mret (Walk (- E_NOT_FOUND) 0 0 None)
        else
          '(r, file) ← dir_lookup dir name;
          if r <? 0 then
            if (r =? - E_NOT_FOUND) && bool_decide (path = []) then mret (Walk r dir 0 (Some name))
            else mret (Walk r 0 0 None)
          else walk_loop fuel path dir file
  | _, _ => mret (Walk 0 dir file None)
  end.

(** [&super->s_root] *)
Definition s_root : M fs Z := p ← get super; mret (p + 8).

Definition walk_path (path : list Z) : M fs walk :=
  let path := skip_slash path in
  root ← s_root;
  walk_loop (length path) path 0 root.

(** ** Operations on files *)

Definition file_open (path : list Z) : M fs (Z * Z) :=
  w ← walk_path path; mret (w_r w, w_file w).

Definition file_create (path : list Z) : M fs (Z * Z) :=
  w ← walk_path path;
  if w_r w =? 0 then mret (- E_FILE_EXISTS, 0)
  else if negb (w_r w =? - E_NOT_FOUND) || (w_dir w =? 0) then mret (w_r w, 0)
  else
    '(r, f) ← dir_alloc_file (w_dir w);
    if r <? 0 then mret (w_r w, 0)
    else
      put_str f (default [] (w_last w) ++ [0]) ;;
      mret (0, f).

(** [ROUND(size, BLOCK_SIZE) / BLOCK_SIZE], kept in 32 bits. *)
Definition size_blocks (size : Z) : Z := u32 (ROUND size BLOCK_SIZE / BLOCK_SIZE).

(** [for (bno = from; bno < to; bno++) panic_on(file_clear_block(f, bno));] *)
Definition clear_blocks (f from to : Z) : M fs unit :=
  mfor (Z.to_nat (to - from)) from (fun bno => r ← file_clear_block f bno; panic_on r).

Definition file_truncate (f newsize : Z) : M fs unit :=
  size ← f_size f;
  let old_nblocks := size_blocks size in
  let new_nblocks := if newsize =? 0 then 0 else size_blocks newsize in
  (if new_nblocks <=? NDIRECT then
     clear_blocks f new_nblocks old_nblocks ;;
     ind ← f_indirect f;
     if negb (ind =? 0) then free_block ind ;; put_f_indirect f 0 else mret tt
   else clear_blocks f new_nblocks old_nblocks) ;;
  put_f_size f newsize.

Definition file_flush (f : Z) : M fs unit :=
  size ← f_size f;
  mfor (Z.to_nat (size_blocks size)) 0 (fun bno =>
    '(r, diskbno) ← file_map_block f bno 0;
    if r <? 0 then mret tt
    else
      d ← block_is_dirty diskbno;
      if (d : bool) then write_block diskbno else mret tt).

Definition flush_dir (f : Z) : M fs unit :=
  d ← f_dir f;
  if negb (d =? 0) then file_flush d else mret tt.

Definition file_set_size (f newsize : Z) : M fs Z :=
  size ← f_size f;
  (if newsize <? size then file_truncate f newsize else mret tt) ;;
  put_f_size f newsize ;;
  flush_dir f ;;
  mret 0.

Definition file_close (f : Z) : M fs unit :=
  file_flush f ;;
  d ← f_dir f;
  if negb (d =? 0) then
    size ← f_size d;
    let nblock := size / BLOCK_SIZE in
    mfor_break (Z.to_nat nblock) 0 (fun i =>
      '(r, diskbno) ← file_map_block d i 0;
      if r <? 0 then mret false
      else
        '(r, files, _) ← read_block diskbno;
        if r <? 0 then mret false
        else if (files <=? f) && (f <? files + BLOCK_SIZE) then dirty_block diskbno ;; mret false
        else mret true) ;;
    file_flush d
  else mret tt.

Definition file_remove (path : list Z) : M fs Z :=
  w ← walk_path path;
  if w_r w <? 0 then mret (w_r w)
  else
    let f := w_file w in
    file_truncate f 0 ;;
    ustore 1 f 0 ;;
    file_flush f ;;
    flush_dir f ;;
    mret 0.

(** ** Contents: the cached bytes of a block, or those of the disk *)

Definition lbyte (s : fs) (c i : Z) : Z := if cached c s then cache_byte s c i else disk_byte s c i.
Definition lword (s : fs) (c o : Z) : Z := load 4 (lbyte s c) o.

Lemma load_shift k m a : forall o, load k (fun x => m (a + x)) o = load k m (a + o).
Proof.
  Transparent load.
  induction k as [|k IH]; intros o; cbn [load]; [done|]. rewrite IH. do 3 f_equal. lia.
  Opaque load.
Qed.

Lemma lword_cached s c o : cached c s = true ->
  load 4 (u_mem (f_proc s)) (disk_addr c + o) = lword s c o.
Proof.
  intros Hc. unfold lword. rewrite <- load_shift. apply load_ext. intros x _.
  unfold lbyte. by rewrite Hc.
Qed.

Lemma lword_ext s s' c o : 0 <= o -> o + 4 <= BLOCK_SIZE ->
  (forall i, 0 <= i < BLOCK_SIZE -> lbyte s' c i = lbyte s c i) -> lword s' c o = lword s c o.
Proof. intros Ho Ho' H. apply load_ext. intros x Hx. apply H. lia. Qed.

Lemma lword_bound s c o : 0 <= lword s c o < 2 ^ 32.
Proof. apply load32_bound. Qed.

(** Steps on a word of a cached block. *)
Lemma uload_block s c o : blk_ok c -> cached c s = true -> 0 <= o -> o + 4 <= BLOCK_SIZE ->
  uload 4 (disk_addr c + o) s = Ret (lword s c o) s.
Proof.
  intros Hb Hc Ho Ho'. rewrite uload_ok by (rewrite is_mapped_disk by (done || lia); done).
  change (proc_of s) with (f_proc s). by rewrite lword_cached.
Qed.

Definition set_lword (c o v : Z) (s : fs) : fs :=
  set_f_proc (put_mem (store 4 (u_mem (f_proc s)) (disk_addr c + o) v) (disk_addr c + o) (f_proc s)) s.

Lemma ustore_block s c o v : blk_ok c -> cached c s = true -> 0 <= o -> o + 4 <= BLOCK_SIZE ->
  ustore 4 (disk_addr c + o) v s = Ret tt (set_lword c o v s).
Proof.
  intros Hb Hc Ho Ho'. by rewrite ustore_ok by (rewrite is_mapped_disk by (done || lia); done).
Qed.

Lemma lbyte_set_lword s c o v d i : blk_ok c -> blk_ok d -> cached c s = true ->
  0 <= o -> o + 4 <= BLOCK_SIZE -> 0 <= i < BLOCK_SIZE -> d <> c \/ i < o \/ o + 4 <= i ->
  lbyte (set_lword c o v s) d i = lbyte s d i.
Proof.
  intros Hc Hd Hcc Ho Ho' Hi Hne. unfold lbyte. change (cached d (set_lword c o v s)) with (cached d s).
  change (disk_byte (set_lword c o v s)) with (disk_byte s). destruct (cached d s); [|done].
  unfold cache_byte, set_lword. cbn. Transparent store. unfold store. Opaque store.
  rewrite !disk_addr_eq by done. change (Z.of_nat 4) with 4. unfold BLOCK_SIZE in *.
  destruct (Z.leb_spec (DISKMAP + c * 4096 + o) (DISKMAP + d * 4096 + i)),
    (Z.ltb_spec (DISKMAP + d * 4096 + i) (DISKMAP + c * 4096 + o + 4)); simpl; try done. lia.
Qed.

Lemma lword_set_lword s c o v : cached c s = true -> 0 <= v < 2 ^ 32 ->
  lword (set_lword c o v s) c o = v.
Proof.
  intros Hc Hv. rewrite <- lword_cached by done. unfold set_lword. cbn.
  by apply load32_store32_same.
Qed.

Lemma lword_set_other s c o v d o' : blk_ok c -> blk_ok d -> cached c s = true ->
  0 <= o -> o + 4 <= BLOCK_SIZE -> 0 <= o' -> o' + 4 <= BLOCK_SIZE ->
  d <> c \/ o' + 4 <= o \/ o + 4 <= o' ->
  lword (set_lword c o v s) d o' = lword s d o'.
Proof.
  intros. apply load_ext. intros x Hx. apply lbyte_set_lword; done || lia.
Qed.

(** [fs_ok] and the marks depend on the contents of two kinds of blocks. *)
Lemma cached_lbyte s s' c i : cached c s = true -> cached c s' = true ->
  lbyte s' c i = lbyte s c i -> cache_byte s' c i = cache_byte s c i.
Proof. unfold lbyte. by intros -> ->. Qed.

Lemma set_lword_ok n s c o v : fs_ok n s -> blk_ok c -> cached c s = true ->
  0 <= o -> o + 4 <= BLOCK_SIZE -> c <> 1 \/ 8 <= o -> (forall x, 0 <= x < n -> c <> bitmap_block x) ->
  fs_ok n (set_lword c o v s) /\
  (forall x, 0 <= x < n -> marked_free (set_lword c o v s) x = marked_free s x).
Proof.
  intros Hok Hc Hcc Ho Ho' H1 Hb. split.
  - destruct Hok as [E1 E2 E3 E4 E5 E6]. split; try done.
    rewrite lword_cached, lword_set_other by (try apply blk_ok_1; (done || lia)).
    by rewrite <- lword_cached.
  - intros x Hx. eapply marked_frame; [done..|]. intros j Hj.
    apply cached_lbyte; [by apply Hok|by apply Hok|].
    apply lbyte_set_lword; try done; [by eapply bitmap_block_ok; [apply Hok|]|].
    left. by apply not_eq_sym, Hb.
Qed.

(** ** Reading and allocating blocks, in terms of contents *)

(** The kernel never refuses a page. *)
Definition pages (s : fs) : Prop := forall k, u_grants (f_proc s) k = true.

(** No page of a free block is left in the cache. *)
Definition no_stale (n : Z) (s : fs) : Prop :=
  forall b, 0 <= b < n -> marked_free s b = true -> cached b s = false.

Record fs_good (n : Z) (s : fs) : Prop := {
  good_ok : fs_ok n s;
  good_pages : pages s;
  good_stale : no_stale n s
}.

(** A block in use that the bitmap does not live in. *)
Record data_block (n : Z) (s : fs) (c : Z) : Prop := {
  db_range : 0 <= c < n;
  db_used : marked_free s c = false;
  db_bitmap : forall x, 0 <= x < n -> c <> bitmap_block x
}.

Lemma data_blk_ok n s c : fs_ok n s -> data_block n s c -> blk_ok c.
Proof. intros Hok []. eapply blk_ok_bound; [apply Hok|done]. Qed.

(** Same contents and marks, with at least the cached blocks of before. *)
Record same_contents (n : Z) (s s' : fs) : Prop := {
  sc_good : fs_good n s';
  sc_cached : forall c, cached c s = true -> cached c s' = true;
  sc_bytes : forall c i, blk_ok c -> 0 <= i < BLOCK_SIZE -> lbyte s' c i = lbyte s c i;
  sc_marks : forall x, 0 <= x < n -> marked_free s' x = marked_free s x
}.

Lemma same_contents_refl n s : fs_good n s -> same_contents n s s.
Proof. by split. Qed.

Lemma same_contents_word n s s' c o : same_contents n s s' -> blk_ok c -> 0 <= o -> o + 4 <= BLOCK_SIZE ->
  lword s' c o = lword s c o.
Proof. intros H Hc Ho Ho'. apply lword_ext; [done..|]. intros. by apply H. Qed.

Lemma grants_step s p : pages s -> u_grants p = (fun k => u_grants (f_proc s) (S k)) \/ u_grants p = u_grants (f_proc s) ->
  forall k, u_grants p k = true.
Proof. intros Hp [-> | ->] k; apply Hp. Qed.

Lemma read_block_good n s b : fs_good n s -> data_block n s b ->
  exists s' new, read_block b s = Ret (0, disk_addr b, new) s' /\
    cached b s' = true /\ same_contents n s s'.
Proof.
  intros [Hok Hp Hst] Hd. pose proof (data_blk_ok _ _ _ Hok Hd) as Hbk. destruct Hd as [Hb Hm Hbb].
  pose proof (read_block_guards n s b Hok ltac:(lia)) as E.
  rewrite Hm, orb_false_r, (proj2 (Z.leb_gt n b)) in E by lia.
  destruct (cached b s) eqn:Hc.
  { exists s, false. split_and!; [done..|]. by apply same_contents_refl. }
  destruct (fetch_ok s b Hbk Hc (Hp 0%nat)) as (s' & Ef & Hf).
  destruct (fetched_ok n s s' b Hok Hbk Hc Hf) as [Hok' Hm'].
  pose proof (fetch_grants s b _ s' Hbk (Hp 0%nat) Ef) as Hg.
  destruct Hf as (F1 & F2 & F3 & F4 & F5 & F6).
  exists s', true. split_and!; [by rewrite E|done|]. split.
  - split; [done| |].
    + intros k. rewrite Hg. apply Hp.
    + intros x Hx. rewrite Hm' by done. intros Hmx. rewrite F5, (Hst x Hx Hmx), orb_false_r.
      apply Z.eqb_neq. intros ->. congruence.
  - intros c Hcc. by rewrite F5, Hcc, orb_true_r.
  - intros c i Hcb Hi. unfold lbyte. rewrite F5. destruct (Z.eqb_spec c b) as [->|Hne]; cbn [orb].
    + rewrite Hc, F6, Z.eqb_refl by done. done.
    + destruct (cached c s); [|unfold disk_byte; by rewrite F1].
      rewrite F6 by done. destruct (Z.eqb_spec c b); [congruence|done].
  - done.
Qed.

(** A block was allocated: it is zero, and only it and the bitmap changed. *)
Record took (n b : Z) (s s' : fs) : Prop := {
  tk_range : 3 <= b < n;
  tk_free : marked_free s b = true;
  tk_good : fs_good n s';
  tk_cached : forall c, cached c s' = (c =? b) || cached c s;
  tk_zero : forall i, 0 <= i < BLOCK_SIZE -> lbyte s' b i = 0;
  tk_bytes : forall c i, blk_ok c -> c <> b -> (forall x, 0 <= x < n -> c <> bitmap_block x) ->
    0 <= i < BLOCK_SIZE -> lbyte s' c i = lbyte s c i;
  tk_marks : forall x, 0 <= x < n -> marked_free s' x = negb (x =? b) && marked_free s x
}.

Lemma alloc_block_good n s : fs_good n s ->
  (exists b s', alloc_block s = Ret b s' /\ took n b s s') \/
  ((forall b, 3 <= b < n -> marked_free s b = false) /\ alloc_block s = Ret (- E_NO_DISK) s).
Proof.
  intros [Hok Hp Hst].
  destruct (alloc_block_ok n s Hok) as [(b & d & Hb & Hm & Hlt & Hsv & E)|H]; [left|by right].
  assert (cached b s = false) as Hc by (apply Hst; [lia|done]).
  cbv zeta in E. rewrite Hc, (Hp 0%nat) in E.
  destruct (alloc_mapped n b s d Hok Hb Hc Hsv) as (A1 & A2 & A3 & A4 & A5 & A6 & A7).
  exists b, (map_block_page b (set_disk d (clear_bit s b))). split; [done|].
  assert (blk_ok b) as Hbk by (eapply blk_ok_bound; [apply Hok|lia]).
  split; try done.
  - split; [done| |].
    + intros k. apply (Hp (S k)).
    + intros x Hx. rewrite A3, A4 by done. intros [Hne Hmx]%andb_prop.
      rewrite (Hst x Hx Hmx), orb_false_r. by apply negb_true_iff in Hne.
  - intros i Hi. unfold lbyte. rewrite A4, Z.eqb_refl. cbn [orb]. by apply A6.
  - intros c i Hcb Hne Hnb Hi. unfold lbyte. rewrite A4. destruct (Z.eqb_spec c b); [congruence|].
    cbn [orb]. specialize (Hnb b ltac:(lia)). destruct (cached c s) eqn:Hcc.
    + by apply A5.
    + rewrite A7 by done. destruct (Z.eqb_spec c (bitmap_block b)); [congruence|done].
Qed.

(** ** The block map of a file *)

(** The file structure at offset [fo] of block [fb]. *)
Definition ind_of (s : fs) (fb fo : Z) : Z := lword s fb (fo + off_indirect).

Record file_ok (n : Z) (s : fs) (fb fo : Z) : Prop := {
  fo_range : 0 <= fo /\ fo + FILE_STRUCT_SIZE <= BLOCK_SIZE /\ (fb <> 1 \/ 8 <= fo);
  fo_block : data_block n s fb;
  fo_cached : cached fb s = true;
  fo_ind : ind_of s fb fo = 0 \/
    (3 <= ind_of s fb fo /\ data_block n s (ind_of s fb fo) /\ ind_of s fb fo <> fb)
}.

(** The disk block of block [j] of the file, 0 when there is none. *)
Definition slot (s : fs) (fb fo j : Z) : Z :=
  if j <? NDIRECT then lword s fb (fo + off_direct + 4 * j)
  else if ind_of s fb fo =? 0 then 0 else lword s (ind_of s fb fo) (4 * j).

(** Where that number is kept, once the indirect block exists. *)
Definition slot_block (s : fs) (fb fo j : Z) : Z := if j <? NDIRECT then fb else ind_of s fb fo.
Definition slot_off (fo j : Z) : Z := if j <? NDIRECT then fo + off_direct + 4 * j else 4 * j.

Lemma data_block_marks n s s' c :
  (forall x, 0 <= x < n -> marked_free s' x = marked_free s x) -> data_block n s c -> data_block n s' c.
Proof. intros Hm [H1 H2 H3]. split; [done|by rewrite Hm|done]. Qed.

Ltac offs := unfold off_size, off_type, off_direct, off_indirect, off_dir, NDIRECT, NINDIRECT,
  FILE_STRUCT_SIZE in *; change (BLOCK_SIZE / 4) with 1024 in *; change BLOCK_SIZE with 4096 in *.

Section file.
Context (n fb fo : Z).

Lemma file_same s s' : file_ok n s fb fo -> fs_ok n s -> same_contents n s s' ->
  file_ok n s' fb fo /\ ind_of s' fb fo = ind_of s fb fo /\
  (forall j, 0 <= j < NINDIRECT -> slot s' fb fo j = slot s fb fo j).
Proof.
  intros [Hr Hb Hc Hi] Hok Hs. pose proof (data_blk_ok _ _ _ Hok Hb) as Hbk.
  assert (ind_of s' fb fo = ind_of s fb fo) as Hind
    by (apply (same_contents_word n); [done..|offs; lia|offs; lia]).
  split_and!; [|done|].
  - split; [done|by eapply data_block_marks; [apply Hs|]|by apply Hs|].
    rewrite Hind. destruct Hi as [|(H1 & H2 & H3)]; [by left|right].
    split_and!; [done|by eapply data_block_marks; [apply Hs|]|done].
  - intros j Hj. unfold slot. rewrite Hind. destruct (Z.ltb_spec j NDIRECT).
    + apply (same_contents_word n); [done..|offs; lia|offs; lia].
    + destruct (Z.eqb_spec (ind_of s fb fo) 0); [done|]. destruct Hi as [|(H1 & H2 & H3)]; [done|].
      apply (same_contents_word n); [done|by eapply data_blk_ok|offs; lia|offs; lia].
Qed.

(** A block number is in the file's structure or its indirect block. *)
Lemma slot_eq s j : j < NDIRECT \/ ind_of s fb fo <> 0 ->
  slot s fb fo j = lword s (slot_block s fb fo j) (slot_off fo j).
Proof.
  intros Hd. unfold slot, slot_block, slot_off. destruct (Z.ltb_spec j NDIRECT); [done|].
  destruct (Z.eqb_spec (ind_of s fb fo) 0); [destruct Hd; [lia|done]|done].
Qed.

Lemma slot_none s j : ~ (j < NDIRECT \/ ind_of s fb fo <> 0) -> slot s fb fo j = 0.
Proof.
  intros Hd. unfold slot. destruct (Z.ltb_spec j NDIRECT); [exfalso; apply Hd; by left|].
  destruct (Z.eqb_spec (ind_of s fb fo) 0); [done|exfalso; apply Hd; by right].
Qed.

Lemma slot_in_block s j : file_ok n s fb fo -> 0 <= j < NINDIRECT -> (j < NDIRECT \/ ind_of s fb fo <> 0) ->
  let c := slot_block s fb fo j in let o := slot_off fo j in
  data_block n s c /\ 0 <= o /\ o + 4 <= BLOCK_SIZE /\ (c <> 1 \/ 8 <= o).
Proof.
  intros [Hr Hb Hc Hi] Hj Hd c o. unfold c, o, slot_block, slot_off.
  destruct (Z.ltb_spec j NDIRECT).
  - split_and!; [done|offs; lia|offs; lia|offs; lia].
  - destruct Hd as [|Hne]; [lia|]. destruct Hi as [|(H1 & H2 & H3)]; [done|].
    split_and!; [done|offs; lia|offs; lia|left; lia].
Qed.

(** The places of two block numbers, and of the indirect block's, are apart. *)
Lemma slots_apart s i j : file_ok n s fb fo -> i <> j -> 0 <= i -> 0 <= j ->
  (i < NDIRECT \/ ind_of s fb fo <> 0) -> (j < NDIRECT \/ ind_of s fb fo <> 0) ->
  slot_block s fb fo i <> slot_block s fb fo j \/
  slot_off fo i + 4 <= slot_off fo j \/ slot_off fo j + 4 <= slot_off fo i.
Proof.
  intros Hf Hne Hi Hj Hdi Hdj. unfold slot_block, slot_off.
  destruct (fo_ind _ _ _ _ Hf) as [H0|(_ & _ & H0)];
    destruct (Z.ltb_spec i NDIRECT), (Z.ltb_spec j NDIRECT);
    try (right; offs; lia); try (left; congruence); exfalso; (destruct Hdi, Hdj; (done || lia)).
Qed.

Lemma ind_apart s j : file_ok n s fb fo -> 0 <= j -> (j < NDIRECT \/ ind_of s fb fo <> 0) ->
  fb <> slot_block s fb fo j \/ fo + off_indirect + 4 <= slot_off fo j \/
  slot_off fo j + 4 <= fo + off_indirect.
Proof.
  intros Hf Hj Hdj. unfold slot_block, slot_off.
  destruct (Z.ltb_spec j NDIRECT); [right; offs; lia|].
  destruct (fo_ind _ _ _ _ Hf) as [H0|(_ & _ & H0)]; [destruct Hdj; [lia|done]|by left; apply not_eq_sym].
Qed.

Lemma set_slot s j v : fs_good n s -> file_ok n s fb fo -> 0 <= j < NINDIRECT ->
  (j < NDIRECT \/ ind_of s fb fo <> 0) -> cached (slot_block s fb fo j) s = true -> 0 <= v < 2 ^ 32 ->
  let s' := set_lword (slot_block s fb fo j) (slot_off fo j) v s in
  fs_good n s' /\ file_ok n s' fb fo /\ ind_of s' fb fo = ind_of s fb fo /\
  (forall x, 0 <= x < n -> marked_free s' x = marked_free s x) /\
  (forall i, 0 <= i < NINDIRECT -> slot s' fb fo i = if i =? j then v else slot s fb fo i).
Proof.
  intros [Hok Hp Hst] Hf Hj Hd Hc Hv s'.
  destruct (slot_in_block s j Hf Hj Hd) as (Hdb & Ho1 & Ho2 & Ho3).
  pose proof (data_blk_ok _ _ _ Hok Hdb) as Hck.
  pose proof (data_blk_ok _ _ _ Hok (fo_block _ _ _ _ Hf)) as Hfk.
  destruct (set_lword_ok n s (slot_block s fb fo j) (slot_off fo j) v Hok Hck Hc Ho1 Ho2 Ho3 (db_bitmap _ _ _ Hdb))
    as [Hok' Hm]. fold s' in Hok', Hm.
  assert (ind_of s' fb fo = ind_of s fb fo) as Hind.
  { pose proof (fo_range _ _ _ _ Hf). pose proof (ind_apart s j Hf ltac:(lia) Hd).
    apply lword_set_other; try done; offs; lia. }
  split_and!; [split; [done|done|]|..].
  - intros x Hx. rewrite Hm by done. by apply Hst.
  - destruct Hf as [Hr Hb Hcf Hi]. split; [done|by eapply data_block_marks|done|]. rewrite Hind.
    destruct Hi as [|(H1 & H2 & H3)]; [by left|right]. split_and!; [done|by eapply data_block_marks|done].
  - done.
  - done.
  - intros i Hi. assert (forall k, slot_block s' fb fo k = slot_block s fb fo k) as Hsb
      by (intros k; unfold slot_block; by rewrite Hind).
    destruct (decide (i < NDIRECT \/ ind_of s fb fo <> 0)) as [Hdi|Hdi].
    + rewrite slot_eq, Hsb by by rewrite Hind. destruct (Z.eqb_spec i j) as [->|Hne].
      * by apply lword_set_lword.
      * rewrite slot_eq by done. destruct (slot_in_block s i Hf Hi Hdi) as (Hdbi & Hi1 & Hi2 & _).
        apply lword_set_other; try done; [exact (data_blk_ok _ _ _ Hok Hdbi)|].
        apply slots_apart; done || lia.
    + rewrite !slot_none by (rewrite ?Hind; done).
      destruct (Z.eqb_spec i j) as [->|]; [done|done].
Qed.

Lemma took_data b s s' c : took n b s s' -> data_block n s c -> data_block n s' c /\ c <> b.
Proof.
  intros [H1 H2 H3 H4 H5 H6 H7] [D1 D2 D3]. split.
  - split; [done|rewrite H7, D2 by done; by rewrite andb_false_r|done].
  - intros ->. congruence.
Qed.

Lemma took_word b s s' c o : fs_ok n s -> took n b s s' -> data_block n s c -> 0 <= o -> o + 4 <= BLOCK_SIZE ->
  lword s' c o = lword s c o.
Proof.
  intros Hok Ht Hd Ho Ho'. pose proof (proj2 (took_data b s s' c Ht Hd)).
  apply lword_ext; [done..|]. intros i Hi. apply Ht; [by eapply data_blk_ok|done|apply Hd|done].
Qed.

(** An allocation does not disturb a file. *)
Lemma file_took b s s' : file_ok n s fb fo -> fs_ok n s -> took n b s s' ->
  file_ok n s' fb fo /\ ind_of s' fb fo = ind_of s fb fo /\
  (forall j, 0 <= j < NINDIRECT -> slot s' fb fo j = slot s fb fo j).
Proof.
  intros Hf Hok Ht. destruct (Hf) as [Hr Hb Hc Hi].
  assert (ind_of s' fb fo = ind_of s fb fo) as Hind
    by (apply (took_word b); [done..|offs; lia|offs; lia]).
  split_and!; [|done|].
  - split; [done|by eapply took_data| |].
    + rewrite (tk_cached _ _ _ _ Ht). by rewrite Hc, orb_true_r.
    + rewrite Hind. destruct Hi as [|(H1 & H2 & H3)]; [by left|right].
      split_and!; [done|by eapply took_data|done].
  - intros j Hj. destruct (decide (j < NDIRECT \/ ind_of s fb fo <> 0)) as [Hd|Hd].
    + rewrite !slot_eq by (rewrite ?Hind; done).
      assert (slot_block s' fb fo j = slot_block s fb fo j) as -> by (unfold slot_block; by rewrite Hind).
      destruct (slot_in_block s j Hf Hj Hd) as (Hdb & Ho1 & Ho2 & _).
      by apply (took_word b).
    + by rewrite !slot_none by (rewrite ?Hind; done).
Qed.

(** The file's structure in the cache, word by word. *)
Lemma load_file_word s o : file_ok n s fb fo -> fs_ok n s -> 0 <= o -> o + 4 <= FILE_STRUCT_SIZE ->
  uload 4 (disk_addr fb + fo + o) s = Ret (lword s fb (fo + o)) s.
Proof.
  intros [Hr Hb Hc Hi] Hok Ho Ho'. rewrite <- Z.add_assoc.
  apply uload_block; [by eapply data_blk_ok|done|lia|lia].
Qed.

(** The new indirect block: it is free of block numbers. *)
Lemma new_indirect b s s' : fs_good n s -> file_ok n s fb fo -> ind_of s fb fo = 0 -> took n b s s' ->
  exists s2, put_f_indirect (disk_addr fb + fo) b s' = Ret tt s2 /\ fs_good n s2 /\ file_ok n s2 fb fo /\
    ind_of s2 fb fo = b /\ cached b s2 = true /\
    (forall j, 0 <= j < NINDIRECT -> slot s2 fb fo j = slot s fb fo j) /\
    (forall x, 0 <= x < n -> marked_free s2 x = negb (x =? b) && marked_free s x).
Proof.
  intros [Hok Hp Hst] Hf Hi0 Ht. destruct (file_took b s s' Hf Hok Ht) as (Hf' & Hind & Hslots).
  pose proof (tk_range _ _ _ _ Ht) as Hb. pose proof (tk_good _ _ _ _ Ht) as [Hok' Hp' Hst'].
  pose proof (data_blk_ok _ _ _ Hok' (fo_block _ _ _ _ Hf')) as Hfk.
  destruct (Hf') as [Hr Hdb Hc Hi].
  assert (data_block n s' b) as Hbd.
  { split; [lia|rewrite (tk_marks _ _ _ _ Ht), Z.eqb_refl by lia; done|].
    intros x Hx E. subst b. pose proof (tk_free _ _ _ _ Ht) as Hfr.
    pose proof (good_stale n s (Build_fs_good _ _ Hok Hp Hst) (bitmap_block x) ltac:(lia) Hfr) as Hcf.
    rewrite (ok_bitmap_cached _ _ Hok) in Hcf by done. discriminate. }
  pose proof (data_blk_ok _ _ _ Hok' Hbd) as Hbk.
  assert (fb <> b) as Hfb by (apply (took_data b s s' fb Ht), Hf).
  assert (cached b s' = true) as Hcb by (by rewrite (tk_cached _ _ _ _ Ht), Z.eqb_refl).
  unfold put_f_indirect. rewrite <- Z.add_assoc, ustore_block by (done || offs; lia).
  set (s2 := set_lword fb (fo + off_indirect) b s').
  destruct (set_lword_ok n s' fb (fo + off_indirect) b Hok' Hfk Hc ltac:(offs; lia) ltac:(offs; lia)
    ltac:(offs; lia) (db_bitmap _ _ _ Hdb)) as [Hok2 Hm2]. fold s2 in Hok2, Hm2.
  assert (ind_of s2 fb fo = b) as Hind2.
  { apply lword_set_lword; [done|]. pose proof (ok_size _ _ Hok) as Hn.
    change (DISKMAX / BLOCK_SIZE) with 262144 in Hn. lia. }
  exists s2. split_and!; [done|split; [done|done|]|..]; try done.
  - intros x Hx. rewrite Hm2 by done. by apply Hst'.
  - split; [done|by eapply data_block_marks|done|]. rewrite Hind2. right.
    split_and!; [lia|by eapply data_block_marks|by apply not_eq_sym].
  - intros j Hj. rewrite <- Hslots by done. destruct (decide (j < NDIRECT)) as [Hd|Hd].
    + rewrite !slot_eq by by left. unfold slot_block, slot_off.
      destruct (Z.ltb_spec j NDIRECT); [|lia]. apply lword_set_other; try done; offs; lia.
    + rewrite slot_eq by (right; lia). rewrite slot_none by (rewrite Hind; lia).
      unfold slot_block, slot_off. destruct (Z.ltb_spec j NDIRECT); [lia|]. rewrite Hind2.
      unfold s2. rewrite lword_set_other by (try done; offs; lia).
      transitivity (load 4 (fun _ => 0) (4 * j)); [|apply load_zero].
      apply load_ext. intros x Hx. apply (tk_zero _ _ _ _ Ht). offs; lia.
  - intros x Hx. by rewrite Hm2, (tk_marks _ _ _ _ Ht).
Qed.

(** The file keeps its block numbers, in a state where no new block is free. *)
Record file_kept (s s' : fs) : Prop := {
  fk_good : fs_good n s';
  fk_file : file_ok n s' fb fo;
  fk_slots : forall j, 0 <= j < NINDIRECT -> slot s' fb fo j = slot s fb fo j;
  fk_marks : forall x, 0 <= x < n -> marked_free s' x = true -> marked_free s x = true
}.

Lemma file_kept_refl s : fs_good n s -> file_ok n s fb fo -> file_kept s s.
Proof. by split. Qed.

(** The indirect block exists, or is made when [alloc] asks for it. *)
Lemma indirect_ok s alloc : fs_good n s -> file_ok n s fb fo -> (ind_of s fb fo <> 0 \/ alloc <> 0) ->
  (exists s2, make_indirect (disk_addr fb + fo) alloc s = Ret 0 s2 /\ file_kept s s2 /\ ind_of s2 fb fo <> 0) \/
  ((forall b, 3 <= b < n -> marked_free s b = false) /\ ind_of s fb fo = 0 /\
   make_indirect (disk_addr fb + fo) alloc s = Ret (- E_NO_DISK) s).
Proof.
  intros Hg Hf Hd. unfold make_indirect, f_indirect.
  rewrite (bind_ret _ _ _ _ _ (load_file_word s off_indirect Hf (good_ok _ _ Hg)
    ltac:(offs; lia) ltac:(offs; lia))). fold (ind_of s fb fo).
  destruct (Z.eqb_spec (ind_of s fb fo) 0) as [E0|E0].
  2: { left. exists s. split_and!; [done|by apply file_kept_refl|done]. }
  rewrite (proj2 (Z.eqb_neq alloc 0)) by (destruct Hd; done).
  destruct (alloc_block_good n s Hg) as [(b & s' & E & Ht)|[Hall E]].
  - left. destruct (new_indirect b s s' Hg Hf E0 Ht) as (s2 & Ep & G2 & F2 & I2 & _ & S2 & M2).
    pose proof (tk_range _ _ _ _ Ht). exists s2. rewrite (bind_ret _ _ _ _ _ E).
    destruct (Z.ltb_spec b 0); [lia|]. rewrite (bind_ret _ _ _ _ _ Ep).
    split_and!; [done| |lia]. split; [done..|]. intros x Hx. rewrite M2 by done. by intros [_ ?]%andb_prop.
  - right. split_and!; [done|done|]. by rewrite (bind_ret _ _ _ _ _ E).
Qed.

Lemma walk_ok s j alloc : fs_good n s -> file_ok n s fb fo -> 0 <= j < NINDIRECT ->
  (j < NDIRECT \/ ind_of s fb fo <> 0 \/ alloc <> 0) ->
  (exists s2, file_block_walk (disk_addr fb + fo) j alloc s =
       Ret (0, disk_addr (slot_block s2 fb fo j) + slot_off fo j) s2 /\
     file_kept s s2 /\ (j < NDIRECT \/ ind_of s2 fb fo <> 0) /\
     cached (slot_block s2 fb fo j) s2 = true) \/
  ((forall b, 3 <= b < n -> marked_free s b = false) /\ ~ (j < NDIRECT \/ ind_of s fb fo <> 0) /\
     file_block_walk (disk_addr fb + fo) j alloc s = Ret (- E_NO_DISK, 0) s).
Proof.
  intros Hg Hf Hj Hd. unfold file_block_walk. destruct (Z.ltb_spec j NDIRECT) as [Hdir|Hdir].
  { left. exists s. unfold slot_block, slot_off. destruct (Z.ltb_spec j NDIRECT); [|lia].
    split_and!; [|by apply file_kept_refl|by left|apply Hf].
    unfold mret, M_ret. do 2 f_equal. lia. }
  destruct (Z.ltb_spec j NINDIRECT); [|lia].
  destruct (indirect_ok s alloc Hg Hf) as [(s1 & E & Hk & Hi)|(Hall & Hi & E)]; [destruct Hd; [lia|done]| |].
  - left. rewrite (bind_ret _ _ _ _ _ E). change (0 <? 0) with false. cbv iota. unfold f_indirect.
    rewrite (bind_ret _ _ _ _ _ (load_file_word s1 off_indirect (fk_file _ _ Hk) (good_ok _ _ (fk_good _ _ Hk))
      ltac:(offs; lia) ltac:(offs; lia))). fold (ind_of s1 fb fo).
    destruct (fo_ind _ _ _ _ (fk_file _ _ Hk)) as [|(H3 & Hdb & Hne)]; [done|].
    destruct (read_block_good n s1 (ind_of s1 fb fo) (fk_good _ _ Hk) Hdb) as (s2 & new & Er & Hc2 & Hsc).
    destruct (file_same s1 s2 (fk_file _ _ Hk) (good_ok _ _ (fk_good _ _ Hk)) Hsc) as (Hf2 & Hi2 & Hs2).
    exists s2. rewrite (bind_ret _ _ _ _ _ Er). change (0 <? 0) with false. cbv iota.
    unfold slot_block, slot_off. destruct (Z.ltb_spec j NDIRECT); [lia|].
    split_and!; [by rewrite Hi2| |right; by rewrite Hi2|by rewrite Hi2].
    split; [apply Hsc|done| |].
    + intros i Hi'. by rewrite Hs2, (fk_slots _ _ Hk).
    + intros x Hx. rewrite (sc_marks _ _ _ Hsc) by done. by apply Hk.
  - right. split_and!; [done|lia|]. by rewrite (bind_ret _ _ _ _ _ E).
Qed.

(** The walk when there is nothing to walk to. *)
Lemma walk_none s j : fs_good n s -> file_ok n s fb fo -> 0 <= j ->
  ~ (j < NDIRECT \/ ind_of s fb fo <> 0) ->
  file_block_walk (disk_addr fb + fo) j 0 s =
    Ret (if j <? NINDIRECT then - E_NOT_FOUND else - E_INVAL, 0) s.
Proof.
  intros Hg Hf Hj Hd. unfold file_block_walk. destruct (Z.ltb_spec j NDIRECT); [exfalso; apply Hd; by left|].
  destruct (Z.ltb_spec j NINDIRECT); [|done]. unfold make_indirect, f_indirect.
  assert (ind_of s fb fo = 0) as E by (destruct (Z.eq_dec (ind_of s fb fo) 0); [done|exfalso; apply Hd; by right]).
  rewrite bind_assoc, (bind_ret _ _ _ _ _ (load_file_word s off_indirect Hf (good_ok _ _ Hg)
    ltac:(offs; lia) ltac:(offs; lia))). fold (ind_of s fb fo). by rewrite E.
Qed.

(** The slot, once found. *)
Lemma load_slot s j : fs_good n s -> file_ok n s fb fo -> 0 <= j < NINDIRECT ->
  (j < NDIRECT \/ ind_of s fb fo <> 0) -> cached (slot_block s fb fo j) s = true ->
  uload 4 (disk_addr (slot_block s fb fo j) + slot_off fo j) s = Ret (slot s fb fo j) s.
Proof.
  intros Hg Hf Hj Hd Hc. destruct (slot_in_block s j Hf Hj Hd) as (Hdb & Ho1 & Ho2 & _).
  rewrite slot_eq by done. apply uload_block; [|done..].
  exact (data_blk_ok _ _ _ (good_ok _ _ Hg) Hdb).
Qed.

Lemma store_slot s j v : fs_good n s -> file_ok n s fb fo -> 0 <= j < NINDIRECT ->
  (j < NDIRECT \/ ind_of s fb fo <> 0) -> cached (slot_block s fb fo j) s = true ->
  ustore 4 (disk_addr (slot_block s fb fo j) + slot_off fo j) v s =
    Ret tt (set_lword (slot_block s fb fo j) (slot_off fo j) v s).
Proof.
  intros Hg Hf Hj Hd Hc. destruct (slot_in_block s j Hf Hj Hd) as (Hdb & Ho1 & Ho2 & _).
  apply ustore_block; [|done..]. exact (data_blk_ok _ _ _ (good_ok _ _ Hg) Hdb).
Qed.

(** A new block in the slot. *)
Lemma fill_slot b s s' j : fs_good n s -> file_ok n s fb fo -> 0 <= j < NINDIRECT ->
  (j < NDIRECT \/ ind_of s fb fo <> 0) -> cached (slot_block s fb fo j) s = true -> took n b s s' ->
  exists s2, ustore 4 (disk_addr (slot_block s fb fo j) + slot_off fo j) b s' = Ret tt s2 /\
    fs_good n s2 /\ file_ok n s2 fb fo /\
    (forall i, 0 <= i < NINDIRECT -> slot s2 fb fo i = if i =? j then b else slot s fb fo i) /\
    (forall x, 0 <= x < n -> marked_free s2 x = negb (x =? b) && marked_free s x) /\
    uload 4 (disk_addr (slot_block s fb fo j) + slot_off fo j) s2 = Ret b s2.
Proof.
  intros Hg Hf Hj Hd Hc Ht.
  destruct (file_took b s s' Hf (good_ok _ _ Hg) Ht) as (Hf' & Hind & Hslots).
  pose proof (tk_good _ _ _ _ Ht) as Hg'. pose proof (tk_range _ _ _ _ Ht) as Hb.
  assert (slot_block s' fb fo j = slot_block s fb fo j) as Hsb by (unfold slot_block; by rewrite Hind).
  assert (cached (slot_block s' fb fo j) s' = true) as Hc'
    by (by rewrite Hsb, (tk_cached _ _ _ _ Ht), Hc, orb_true_r).
  assert (j < NDIRECT \/ ind_of s' fb fo <> 0) as Hd' by by rewrite Hind.
  assert (0 <= b < 2 ^ 32) as Hb32.
  { pose proof (ok_size _ _ (good_ok _ _ Hg)) as Hn. change (DISKMAX / BLOCK_SIZE) with 262144 in Hn. lia. }
  destruct (set_slot s' j b Hg' Hf' Hj Hd' Hc' Hb32) as (Hg2 & Hf2 & Hi2 & Hm2 & Hs2).
  rewrite <- Hsb, store_slot by done.
  set (s2 := set_lword (slot_block s' fb fo j) (slot_off fo j) b s') in *.
  assert (slot_block s2 fb fo j = slot_block s' fb fo j) as E by (unfold slot_block; by rewrite Hi2).
  exists s2. split_and!; [done|done|done| | |].
  - intros i Hi. rewrite Hs2 by done. by rewrite Hslots.
  - intros x Hx. by rewrite Hm2, (tk_marks _ _ _ _ Ht).
  - rewrite <- E, load_slot; [|done|done|done|by rewrite Hi2|by rewrite E].
    by rewrite Hs2, Z.eqb_refl by done.
Qed.

(** The outcome of mapping a block of the file. *)
Definition mapped_to (s : fs) (j : Z) (o : outcome fs (Z * Z)) : Prop :=
  (exists s', o = Ret (0, slot s fb fo j) s' /\ slot s fb fo j <> 0 /\ file_kept s s') \/
  (exists b s', o = Ret (0, b) s' /\ slot s fb fo j = 0 /\ 3 <= b < n /\ marked_free s b = true /\
     fs_good n s' /\ file_ok n s' fb fo /\
     (forall i, 0 <= i < NINDIRECT -> slot s' fb fo i = if i =? j then b else slot s fb fo i) /\
     (forall x, 0 <= x < n -> marked_free s' x = true -> x <> b /\ marked_free s x = true)) \/
  (exists s', o = Ret (- E_NO_DISK, 0) s' /\ slot s fb fo j = 0 /\ file_kept s s' /\
     (forall b, 3 <= b < n -> marked_free s' b = false)).

Lemma map_block_alloc_ok s j : fs_good n s -> file_ok n s fb fo -> 0 <= j < NINDIRECT ->
  mapped_to s j (file_map_block (disk_addr fb + fo) j 1 s).
Proof.
  intros Hg Hf Hj. unfold file_map_block.
  destruct (walk_ok s j 1 Hg Hf Hj ltac:(right; right; done)) as [(s2 & E & [G2 F2 S2 M2] & D2 & C2)|(Hall & H0 & E)].
  2: { rewrite (bind_ret _ _ _ _ _ E). right; right. exists s.
       split_and!; [done|by apply slot_none|by apply file_kept_refl|done]. }
  rewrite (bind_ret _ _ _ _ _ E). change (0 <? 0) with false. cbv iota.
  rewrite (bind_ret _ _ _ _ _ (load_slot s2 j G2 F2 Hj D2 C2)).
  rewrite S2 by done. destruct (Z.eqb_spec (slot s fb fo j) 0) as [E0|E0].
  - change (1 =? 0) with false. cbv iota.
    destruct (alloc_block_good n s2 G2) as [(b & s3 & Ea & Ht)|[Hall Ea]].
    + destruct (fill_slot b s2 s3 j G2 F2 Hj D2 C2 Ht) as (s4 & Es & G4 & F4 & S4 & M4 & L4).
      pose proof (tk_range _ _ _ _ Ht) as Hb. right; left. exists b, s4.
      rewrite bind_assoc, (bind_ret _ _ _ _ _ Ea). destruct (Z.ltb_spec b 0); [lia|].
      rewrite bind_assoc, (bind_ret _ _ _ _ _ Es). cbv beta. rewrite bind_mret.
      change (0 <? 0) with false. cbv iota. rewrite (bind_ret _ _ _ _ _ L4).
      split_and!; [done|done|lia|lia|apply M2; [lia|apply Ht]|done|done| |].
      * intros i Hi. rewrite S4 by done. by rewrite S2.
      * intros x Hx. rewrite M4 by done. intros [Hne Hm]%andb_prop. split; [|by apply M2].
        apply negb_true_iff, Z.eqb_neq in Hne. done.
    + right; right. exists s2. rewrite bind_assoc, (bind_ret _ _ _ _ _ Ea).
      split_and!; [done|done|by split|done].
  - left. exists s2. rewrite bind_mret. change (0 <? 0) with false. cbv iota.
    rewrite (bind_ret _ _ _ _ _ (load_slot s2 j G2 F2 Hj D2 C2)), S2 by done.
    split_and!; [done|done|by split].
Qed.

Lemma map_block_find_ok s j : fs_good n s -> file_ok n s fb fo -> 0 <= j < NINDIRECT ->
  exists s', file_kept s s' /\ file_map_block (disk_addr fb + fo) j 0 s =
    Ret (if slot s fb fo j =? 0 then (- E_NOT_FOUND, 0) else (0, slot s fb fo j)) s'.
Proof.
  intros Hg Hf Hj. unfold file_map_block.
  destruct (decide (j < NDIRECT \/ ind_of s fb fo <> 0)) as [Hd|Hd].
  - destruct (walk_ok s j 0 Hg Hf Hj ltac:(tauto)) as [(s2 & E & [G2 F2 S2 M2] & D2 & C2)|(_ & H0 & _)]; [|done].
    exists s2. split; [done|]. rewrite (bind_ret _ _ _ _ _ E). change (0 <? 0) with false. cbv iota.
    rewrite (bind_ret _ _ _ _ _ (load_slot s2 j G2 F2 Hj D2 C2)), S2 by done.
    destruct (Z.eqb_spec (slot s fb fo j) 0); [done|].
    rewrite bind_mret. change (0 <? 0) with false. cbv iota.
    by rewrite (bind_ret _ _ _ _ _ (load_slot s2 j G2 F2 Hj D2 C2)), S2 by done.
  - exists s. split; [by apply file_kept_refl|].
    rewrite (bind_ret _ _ _ _ _ (walk_none s j Hg Hf ltac:(lia) Hd)), slot_none by done.
    by destruct (Z.ltb_spec j NINDIRECT); [|lia].
Qed.
End file.

(** ** Paths are lists of names *)

(** The names of a path: the non-empty parts between slashes. *)
Definition split_path (p : list Z) : list (list Z) :=
  foldr (fun c acc => if c =? 47 then [] :: acc
                      else match acc with h :: t => (c :: h) :: t | [] => [[c]] end) [[]] p.

Definition components (p : list Z) : list (list Z) := filter (fun name => name <> []) (split_path p).

(** The reference walk: one directory lookup per name. *)
Fixpoint resolve (names : list (list Z)) (dir file : Z) : M fs walk :=
  match names with
  | [] => mret (Walk 0 dir file None)
  | name :: names =>
      if MAXNAMELEN <=? Z.of_nat (length name) then mret (Walk (- E_BAD_PATH) 0 0 None)
      else
        t ← f_type file;
        if negb (t =? FTYPE_DIR) then mret (Walk (- E_NOT_FOUND) 0 0 None)
        else
          '(r, next) ← dir_lookup file name;
          if r <? 0 then
            mret (if (r =? - E_NOT_FOUND) && bool_decide (names = []) then Walk r file 0 (Some name)
                  else Walk r 0 0 None)
          else resolve names file next
  end.

Lemma split_path_ne p : exists h t, split_path p = h :: t.
Proof.
  induction p as [|c p (h & t & E)]; [by exists [], []|]. simpl. rewrite E.
  destruct (c =? 47); eauto.
Qed.

(** The first name of a path and the rest. *)
Lemma split_path_elem p : let '(name, rest) := path_elem p in
  exists t, split_path p = name :: t /\ (rest = [] \/ exists q, rest = 47 :: q) /\
    filter (fun x => x <> []) t = components rest /\ (length name + length rest = length p)%nat.
Proof.
  induction p as [|c p IH]; [by exists []; auto|]. cbn [path_elem].
  destruct (Z.eqb_spec c 47) as [->|Hc].
  - exists (split_path p). split_and!; [done|right; by exists p| |done].
    unfold components. cbn [split_path foldr]. change (47 =? 47) with true. cbv iota.
    fold (split_path p). by rewrite filter_cons_False by auto.
  - destruct (path_elem p) as [name rest]. destruct IH as (t & E & Hr & Hf & Hl).
    exists t. split_and!; [|done|done|simpl; lia].
    cbn [split_path foldr]. fold (split_path p). rewrite (proj2 (Z.eqb_neq c 47)), E by done. done.
Qed.

Lemma components_skip p : components (skip_slash p) = components p.
Proof.
  induction p as [|c p IH]; [done|]. cbn [skip_slash].
  destruct (Z.eqb_spec c 47) as [->|]; [|done]. rewrite IH. unfold components.
  cbn [split_path foldr]. change (47 =? 47) with true. cbv iota. fold (split_path p).
  by rewrite filter_cons_False by auto.
Qed.

Lemma skip_slash_length p : (length (skip_slash p) <= length p)%nat.
Proof. induction p as [|c p IH]; simpl; [done|]. destruct (c =? 47); simpl; lia. Qed.

(** A path after its slashes is empty or starts with a name. *)
Lemma skip_slash_head p : skip_slash p = [] \/
  exists c q, skip_slash p = c :: q /\ c <> 47.
Proof.
  induction p as [|c p IH]; simpl; [by left|].
  destruct (Z.eqb_spec c 47); [done|right; by exists c, p].
Qed.

Lemma components_nil p : (forall c q, p = c :: q -> c <> 47) -> components p = [] -> p = [].
Proof.
  intros Hp. destruct p as [|c q]; [done|]. specialize (Hp c q eq_refl). unfold components.
  cbn [split_path foldr]. fold (split_path q). rewrite (proj2 (Z.eqb_neq c 47)) by done.
  destruct (split_path_ne q) as (h & t & ->). by rewrite filter_cons_True by done.
Qed.

Lemma walk_loop_resolve fuel : forall path dir file s, (length path <= fuel)%nat ->
  (forall c q, path = c :: q -> c <> 47) ->
  walk_loop fuel path dir file s = resolve (components path) dir file s.
Proof.
  induction fuel as [|fuel IH]; intros [|c path] dir file s Hl Hp; simpl in Hl; try lia; try done.
  cbn [walk_loop]. pose proof (split_path_elem (c :: path)) as Hs. cbn [path_elem] in *.
  specialize (Hp c path eq_refl). rewrite (proj2 (Z.eqb_neq c 47)) in * by done.
  destruct (path_elem path) as [name rest]. destruct Hs as (t & E & Hr & Hf & Hlen).
  unfold components at 1. rewrite E, filter_cons_True, Hf by done. cbn [resolve].
  destruct (MAXNAMELEN <=? Z.of_nat (length (c :: name))); [done|].
  unfold mbind at 1 3, M_bind at 1 3. destruct (f_type file s) as [ty s1|s1|e s1]; [|done..].
  destruct (negb (ty =? FTYPE_DIR)); [done|].
  unfold mbind at 1 2, M_bind at 1 2. destruct (dir_lookup file (c :: name) s1) as [[r next] s2|s2|e s2]; [|done..].
  assert (forall c q, skip_slash rest = c :: q -> c <> 47) as Hsk.
  { intros c' q Eq. destruct (skip_slash_head rest) as [E0|(c2 & q2 & E2 & Hne)]; [congruence|].
    rewrite E2 in Eq. by injection Eq as -> _. }
  destruct (r <? 0).
  - destruct (r =? - E_NOT_FOUND); cbn [andb]; [|done].
    assert (bool_decide (skip_slash rest = []) = bool_decide (components rest = [])) as ->; [|by case_match].
    apply bool_decide_ext. rewrite <- components_skip. split; [by intros ->|by apply components_nil].
  - rewrite <- components_skip. apply IH; [|done].
    pose proof (skip_slash_length rest). simpl in Hlen. lia.
Qed.

Lemma walk_path_resolve path s : walk_path path s = (root ← s_root; resolve (components path) 0 root) s.
Proof.
  unfold walk_path. unfold mbind at 1 2, M_bind at 1 2. destruct (s_root s) as [root s1|s1|e s1]; [|done..].
  rewrite <- components_skip. apply walk_loop_resolve; [done|]. intros c q E.
  destruct (skip_slash_head path) as [E0|(c2 & q2 & E2 & Hne)]; [congruence|].
  rewrite E2 in E. by injection E as -> _.
Qed.

(** ** Directories are lists of entries *)

(** The string at [a] is [name]; an entry with an empty name is free. *)
Fixpoint name_is (m : memory) (a : Z) (name : list Z) : bool :=
  match name with
  | [] => load8 m a =? 0
  | c :: name => (load8 m a =? c) && name_is m (a + 1) name
  end.

Definition entry_is (s : fs) (name : list Z) (f : Z) : bool :=
  negb (load8 (u_mem (f_proc s)) f =? 0) && name_is (u_mem (f_proc s)) f name.

Definition block_entries (b : Z) : list Z :=
  map (fun j => disk_addr b + j * FILE_STRUCT_SIZE) (seqZ 0 FILE2BLK).

(** The state after [f->f_dir = dir]. *)
Definition with_dir (f dir : Z) (s : fs) : fs :=
  set_f_proc (put_mem (store 8 (u_mem (f_proc s)) (f + off_dir) dir) (f + off_dir) (f_proc s)) s.

Lemma name_eq_ok s b name : forall o, blk_ok b -> cached b s = true -> 0 <= o ->
  o + Z.of_nat (length name) < BLOCK_SIZE ->
  name_eq (disk_addr b + o) name s = Ret (name_is (u_mem (f_proc s)) (disk_addr b + o) name) s.
Proof.
  induction name as [|c name IH]; intros o Hb Hc Ho Hl; cbn [name_eq name_is length] in *;
    (erewrite bind_ret; [|apply uload_ok; rewrite is_mapped_disk by (done || lia); done]);
    change (proc_of s) with (f_proc s); [done|].
  destruct (load8 (u_mem (f_proc s)) (disk_addr b + o) =? c); [|done].
  rewrite <- Z.add_assoc. apply IH; [done|done|lia|lia].
Qed.

(** One entry of a cached block. *)
Lemma entry_ok s b j : blk_ok b -> cached b s = true -> 0 <= j < FILE2BLK ->
  forall o, 0 <= o < FILE_STRUCT_SIZE ->
    is_mapped (disk_addr b + j * FILE_STRUCT_SIZE + o) s = true.
Proof.
  intros Hb Hc Hj o Ho. rewrite <- Z.add_assoc, is_mapped_disk; [done|done|].
  unfold FILE2BLK, FILE_STRUCT_SIZE, BLOCK_SIZE in *. change (4096 / 256) with 16 in Hj. lia.
Qed.

Lemma dir_scan_ok s dir b name : blk_ok b -> cached b s = true -> Z.of_nat (length name) < MAXNAMELEN ->
  dir_scan dir (disk_addr b) name s =
    match find (entry_is s name) (block_entries b) with
    | Some f => Ret (Some f) (with_dir f dir s)
    | None => Ret None s
    end.
Proof.
  intros Hb Hc Hl. unfold dir_scan, block_entries.
  assert (forall k i, 0 <= i -> i + Z.of_nat k <= FILE2BLK ->
    mfor_ret k i (fun j =>
      let f := disk_addr b + j * FILE_STRUCT_SIZE in
      c ← uload 1 f;
      if c =? 0 then mret None
      else
        e ← name_eq f name;
        if (e : bool) then put_f_dir f dir ;; mret (Some f) else mret None) s =
    match find (entry_is s name) (map (fun j => disk_addr b + j * FILE_STRUCT_SIZE) (seqZ i (Z.of_nat k))) with
    | Some f => Ret (Some f) (with_dir f dir s)
    | None => Ret None s
    end) as H.
  { induction k as [|k IH]; intros i Hi Hk; [done|]. cbn [mfor_ret].
    rewrite seqZ_cons by lia. cbn [map find].
    replace (Z.pred (Z.of_nat (S k))) with (Z.of_nat k) by lia.
    set (f := disk_addr b + i * FILE_STRUCT_SIZE).
    pose proof (entry_ok s b i Hb Hc ltac:(lia)) as Hm. fold f in Hm.
    pose proof (Hm 0 ltac:(done)) as Hm0. rewrite Z.add_0_r in Hm0.
    unfold mbind at 1, M_bind at 1. rewrite bind_assoc || idtac.
    rewrite (bind_ret _ _ _ _ _ (uload_ok 1 f s Hm0)). change (proc_of s) with (f_proc s).
    unfold entry_is at 1. destruct (load8 (u_mem (f_proc s)) f =? 0) eqn:E0; cbn [negb andb].
    - apply IH; lia.
    - assert (name_eq f name s = Ret (name_is (u_mem (f_proc s)) f name) s) as Hn.
      { apply name_eq_ok; [done|done| |]; unfold FILE2BLK, FILE_STRUCT_SIZE, BLOCK_SIZE, MAXNAMELEN in *;
          change (4096 / 256) with 16 in *; lia. }
      rewrite (bind_ret _ _ _ _ _ Hn). destruct (name_is (u_mem (f_proc s)) f name); [|apply IH; lia].
      unfold put_f_dir. rewrite (bind_ret _ _ _ _ _ (ustore_ok 8 (f + off_dir) dir s (Hm off_dir ltac:(done)))).
      done. }
  apply (H (Z.to_nat FILE2BLK) 0); [lia|vm_compute; discriminate].
Qed.

(** A directory of at most ten blocks, all cached. *)
Record dir_ok (n : Z) (s : fs) (fb fo : Z) (bs : list Z) : Prop := {
  do_range : 0 <= fo /\ fo + FILE_STRUCT_SIZE <= BLOCK_SIZE;
  do_block : blk_ok fb;
  do_cached : cached fb s = true;
  do_size : lword s fb (fo + off_size) = BLOCK_SIZE * Z.of_nat (length bs);
  do_direct : Z.of_nat (length bs) <= NDIRECT;
  do_slots : forall i b, bs !! i = Some b ->
    lword s fb (fo + off_direct + 4 * Z.of_nat i) = b /\ 0 < b < n /\
    marked_free s b = false /\ cached b s = true
}.

Section dir.
Context (n : Z) (s : fs) (fb fo : Z) (bs : list Z).
Hypothesis (Hok : fs_ok n s) (Hdir : dir_ok n s fb fo bs).

Lemma dir_word o : 0 <= o -> o + 4 <= FILE_STRUCT_SIZE ->
  uload 4 (disk_addr fb + fo + o) s = Ret (lword s fb (fo + o)) s.
Proof.
  intros Ho Ho'. rewrite <- Z.add_assoc. apply uload_block; [apply Hdir|apply Hdir|..]; destruct Hdir; lia.
Qed.

Lemma dir_get_block i b : bs !! i = Some b ->
  file_get_block (disk_addr fb + fo) (Z.of_nat i) s = Ret (0, disk_addr b) s.
Proof.
  intros Hi. destruct (do_slots _ _ _ _ _ Hdir i b Hi) as (Hw & Hb & Hm & Hc).
  pose proof (lookup_lt_Some _ _ _ Hi). pose proof (do_direct _ _ _ _ _ Hdir).
  assert (uload 4 (disk_addr fb + fo + off_direct + 4 * Z.of_nat i) s = Ret b s) as Hl.
  { rewrite <- Z.add_assoc, dir_word by (offs; lia). by rewrite Z.add_assoc, Hw. }
  assert (file_map_block (disk_addr fb + fo) (Z.of_nat i) 1 s = Ret (0, b) s) as Hmap.
  { unfold file_map_block, file_block_walk. destruct (Z.ltb_spec (Z.of_nat i) NDIRECT); [|lia].
    rewrite bind_mret. change (0 <? 0) with false. cbv iota. rewrite (bind_ret _ _ _ _ _ Hl).
    rewrite (proj2 (Z.eqb_neq b 0)) by lia. rewrite bind_mret. change (0 <? 0) with false. cbv iota.
    by rewrite (bind_ret _ _ _ _ _ Hl). }
  unfold file_get_block. rewrite (bind_ret _ _ _ _ _ Hmap). change (0 <? 0) with false. cbv iota.
  assert (read_block b s = Ret (0, disk_addr b, false) s) as Hr.
  { rewrite (read_block_guards n s b Hok) by lia.
    by rewrite Hm, orb_false_r, (proj2 (Z.leb_gt n b)), Hc by lia. }
  by rewrite (bind_ret _ _ _ _ _ Hr).
Qed.

Lemma find_app {A} (p : A -> bool) l1 l2 :
  find p (l1 ++ l2) = match find p l1 with Some x => Some x | None => find p l2 end.
Proof. induction l1 as [|x l1 IH]; [done|]. simpl. destruct (p x); [done|apply IH]. Qed.

Lemma dir_lookup_ok name : Z.of_nat (length name) < MAXNAMELEN ->
  dir_lookup (disk_addr fb + fo) name s =
    match find (entry_is s name) (concat (map block_entries bs)) with
    | Some f => Ret (0, f) (with_dir f (disk_addr fb + fo) s)
    | None => Ret (- E_NOT_FOUND, 0) s
    end.
Proof.
  intros Hl. unfold dir_lookup, f_size. rewrite (bind_ret _ _ _ _ _ (dir_word off_size ltac:(done) ltac:(done))).
  rewrite (do_size _ _ _ _ _ Hdir), Z.mul_comm, Z.div_mul, Nat2Z.id by done.
  set (body := fun i => '(r, blk) ← file_get_block (disk_addr fb + fo) i; _).
  assert (forall k i, (i + k = length bs)%nat ->
    mfor_ret k (Z.of_nat i) body s =
      match find (entry_is s name) (concat (map block_entries (drop i bs))) with
      | Some f => Ret (Some (0, f)) (with_dir f (disk_addr fb + fo) s)
      | None => Ret None s
      end) as H.
  { induction k as [|k IH]; intros i Hi; cbn [mfor_ret].
    - by rewrite drop_ge by lia.
    - destruct (lookup_lt_is_Some_2 bs i ltac:(lia)) as (b & Hb).
      rewrite (drop_S _ _ _ Hb). cbn [map concat]. rewrite find_app.
      destruct (do_slots _ _ _ _ _ Hdir i b Hb) as (_ & Hbn & _ & Hbc).
      assert (blk_ok b) as Hbk by (eapply blk_ok_bound; [apply Hok|lia]).
      assert (body (Z.of_nat i) s = match find (entry_is s name) (block_entries b) with
        | Some f => Ret (Some (0, f)) (with_dir f (disk_addr fb + fo) s) | None => Ret None s end) as Hbody.
      { unfold body. rewrite (bind_ret _ _ _ _ _ (dir_get_block i b Hb)).
        change (negb (0 =? 0)) with false. cbv iota.
        unfold mbind, M_bind. rewrite dir_scan_ok by done. by destruct (find _ _). }
      unfold mbind at 1, M_bind at 1. rewrite Hbody.
      destruct (find (entry_is s name) (block_entries b)); [done|].
      replace (Z.of_nat i + 1) with (Z.of_nat (S i)) by lia. apply IH. lia. }
  specialize (H (length bs) 0%nat eq_refl). change (Z.of_nat 0) with 0 in H. rewrite drop_0 in H.
  unfold mbind at 1, M_bind at 1. rewrite H.
  by destruct (find (entry_is s name) (concat (map block_entries bs))).
Qed.
End dir.

(** ** Properties *)

(** The block map of a file.  For a consistent file system whose free
    blocks are not cached, [file_map_block] finds the disk block of every file
    block below 1024, direct or through the indirect block.  With [alloc] a
    missing block is taken from the free blocks, with a new indirect block
    where one is needed, and all other block numbers of the file stay; without
    [alloc] it is -E_NOT_FOUND.  A full disk is -E_NO_DISK, and a block number
    past the largest file -E_INVAL. *)
Theorem file_map_block_correct (n : Z) (s : fs) (fb fo j : Z)
  (Hg : fs_good n s) (Hf : file_ok n s fb fo) (Hj : 0 <= j) :
  (NINDIRECT <= j -> forall alloc,
     file_map_block (disk_addr fb + fo) j alloc s = Ret (- E_INVAL, 0) s) /\
  (j < NINDIRECT ->
     mapped_to n fb fo s j (file_map_block (disk_addr fb + fo) j 1 s) /\
     exists s', file_kept n fb fo s s' /\ file_map_block (disk_addr fb + fo) j 0 s =
       Ret (if slot s fb fo j =? 0 then (- E_NOT_FOUND, 0) else (0, slot s fb fo j)) s').
Proof.
  split.
  - intros Hn alloc. unfold file_map_block, file_block_walk.
    destruct (Z.ltb_spec j NDIRECT); [offs; lia|]. by destruct (Z.ltb_spec j NINDIRECT); [lia|].
  - intros Hn. split; [by apply map_block_alloc_ok|by apply map_block_find_ok].
Qed.

Lemma demo_good : fs_good 40 demo_fs.
Proof.
  constructor; [exact demo_fs_ok|intros k; reflexivity|].
  intros b Hb Hm. unfold cached. cbn. destruct (Z.eqb_spec (65536 + b) 65537) as [E|E].
  { assert (b = 1) as -> by lia. vm_compute in Hm. discriminate Hm. }
  destruct (Z.eqb_spec (65536 + b) 65538) as [E2|E2]; [|reflexivity].
  assert (b = 2) as -> by lia. vm_compute in Hm. discriminate Hm.
Qed.

(** The root directory of the demo disk, at offset 8 of the superblock. *)
Lemma demo_root_ok : file_ok 40 demo_fs 1 8.
Proof.
  constructor.
  - split_and!; vm_compute; [discriminate|discriminate|right; discriminate].
  - constructor; [lia|vm_compute; reflexivity|].
    intros x Hx. unfold bitmap_block, BLOCK_SIZE_BIT. rewrite Z.div_small by (unfold BLOCK_SIZE; lia).
    vm_compute. discriminate.
  - vm_compute. reflexivity.
  - left. vm_compute. reflexivity.
Qed.

(** Its block 10 needs the indirect block, for which block 5 is taken, and block 36. *)
Lemma file_map_block_witness :
  (exists s', file_map_block (disk_addr 1 + 8) 10 1 demo_fs = Ret (0, 36) s') /\
  file_map_block (disk_addr 1 + 8) 1024 1 demo_fs = Ret (- E_INVAL, 0) demo_fs.
Proof.
  split.
  - destruct (file_map_block_correct 40 demo_fs 1 8 10 demo_good demo_root_ok ltac:(lia)) as [_ H].
    destruct (H ltac:(vm_compute; reflexivity)) as [H1 _]. clear H.
    assert (match file_map_block (disk_addr 1 + 8) 10 1 demo_fs with
            | Ret (0, b) _ => b =? 36 | _ => false end = true) as Hv by (vm_compute; reflexivity).
    destruct H1 as [(s' & E & _)|[(b & s' & E & _)|(s' & E & _)]]; rewrite E in Hv.
    + apply Z.eqb_eq in Hv. rewrite Hv in E. exists s'. exact E.
    + apply Z.eqb_eq in Hv. rewrite Hv in E. exists s'. exact E.
    + discriminate Hv.
  - apply (file_map_block_correct 40 demo_fs 1 8 1024 demo_good demo_root_ok); [lia|].
    vm_compute. discriminate.
Defined.

(** C21: a path is the list of its non-empty names, whatever the number of
    slashes: [walk_path] is one [dir_lookup] per name from the root, with the
    errors of a name of 128 bytes or more, of a component that is not a
    directory and of a missing name, the last of which returns the directory
    for the new file.  In a directory of up to ten cached blocks [dir_lookup]
    finds the first entry with the name and records its directory, and is
    -E_NOT_FOUND, changing nothing, when there is none. *)
Theorem walk_path_correct (n : Z) (s : fs) (path : list Z) :
  walk_path path s = (root ← s_root; resolve (components path) 0 root) s /\
  (forall fb fo bs name, fs_ok n s -> dir_ok n s fb fo bs -> Z.of_nat (length name) < MAXNAMELEN ->
     dir_lookup (disk_addr fb + fo) name s =
       match find (entry_is s name) (concat (map block_entries bs)) with
       | Some f => Ret (0, f) (with_dir f (disk_addr fb + fo) s)
       | None => Ret (- E_NOT_FOUND, 0) s
       end).
Proof.
  split.
  - apply walk_path_resolve.
  - intros. by apply (dir_lookup_ok n).
Qed.

(** The root directory of this disk has one block, number 7, and in it the
    entry "ab". *)
Definition dir_fs : fs :=
  Fs (Proc (fun x => if x =? disk_addr 1 + 8 + off_size + 1 then 16 else
                     if x =? disk_addr 1 + 8 + off_type then 1 else
                     if x =? disk_addr 1 + 8 + off_direct then 7 else
                     if x =? disk_addr 7 + 512 then 97 else if x =? disk_addr 7 + 513 then 98 else
                     u_mem (f_proc demo_fs) x)
       (fun p => (p =? 65543) || u_map (f_proc demo_fs) p) (fun _ => false) (fun _ => true))
    (disk demo_fs) (super demo_fs) (bitmap demo_fs).

Lemma dir_fs_ok : fs_ok 40 dir_fs /\ dir_ok 40 dir_fs 1 8 [7].
Proof.
  split; constructor.
  - reflexivity.
  - reflexivity.
  - vm_compute. reflexivity.
  - split; [lia|vm_compute; discriminate].
  - vm_compute. reflexivity.
  - intros b Hb. unfold bitmap_block, BLOCK_SIZE_BIT. rewrite Z.div_small by (unfold BLOCK_SIZE; lia).
    vm_compute. reflexivity.
  - split; vm_compute; discriminate.
  - exact blk_ok_1.
  - vm_compute. reflexivity.
  - vm_compute. reflexivity.
  - vm_compute. discriminate.
  - intros [|i] b Hi; [|by destruct i]. injection Hi as <-. vm_compute. split_and!; reflexivity.
Qed.

(** "//ab" and "ab/" lead to the same file. *)
Lemma walk_path_witness :
  (exists s, file_open [47; 47; 97; 98] dir_fs = Ret (0, disk_addr 7 + 512) s) /\
  exists s, dir_lookup (disk_addr 1 + 8) [97; 98] dir_fs = Ret (0, disk_addr 7 + 512) s.
Proof.
  assert (exists s, dir_lookup (disk_addr 1 + 8) [97; 98] dir_fs = Ret (0, disk_addr 7 + 512) s) as H.
  { destruct (walk_path_correct 40 dir_fs []) as [_ H].
    rewrite (H 1 8 [7] [97; 98] (proj1 dir_fs_ok) (proj2 dir_fs_ok)) by (vm_compute; reflexivity).
    replace (find (entry_is dir_fs [97; 98]) (concat (map block_entries [7])))
      with (Some (disk_addr 7 + 512)) by (vm_compute; reflexivity).
    eexists. reflexivity. }
  split; [|exact H]. destruct H as (s & H). exists s. unfold file_open.
  destruct (walk_path_correct 40 dir_fs [47; 47; 97; 98]) as [E _].
  assert (walk_path [47; 47; 97; 98] dir_fs =
    Ret (Walk 0 (disk_addr 1 + 8) (disk_addr 7 + 512) None) s) as Hw.
  { rewrite E. change (components [47; 47; 97; 98]) with [[97; 98]].
    unfold s_root. rewrite bind_assoc, bind_get, bind_mret. cbn [resolve].
    change (super dir_fs + 8) with (disk_addr 1 + 8).
    assert (f_type (disk_addr 1 + 8) dir_fs = Ret 1 dir_fs) as Ht.
    { unfold f_type. rewrite (dir_word 40 dir_fs 1 8 [7] (proj2 dir_fs_ok) off_type);
        [|vm_compute; discriminate..]. f_equal. }
    change (MAXNAMELEN <=? Z.of_nat (length [97; 98])) with false. cbv iota.
    rewrite (bind_ret _ _ _ _ _ Ht). change (negb (1 =? FTYPE_DIR)) with false. cbv iota.
    rewrite (bind_ret _ _ _ _ _ H). reflexivity. }
  rewrite (bind_ret _ _ _ _ _ Hw). reflexivity.
Defined.

(** ** Two defects *)

(** Two files in block 7: the first has one block, number 4, whose word 10
    (bytes 40-43, written by a client) is 1. *)
Definition stale_fs : fs :=
  Fs (Proc (fun x => if x =? disk_addr 7 + off_size + 1 then 16 else
                     if x =? disk_addr 7 + off_direct then 4 else
                     if x =? disk_addr 4 + 40 then 1 else u_mem (f_proc demo_fs) x)
       (fun p => (p =? 65543) || (p =? 65540) || u_map (f_proc demo_fs) p) (fun _ => false) (fun _ => true))
    (disk demo_fs) (super demo_fs) (bitmap demo_fs).

(** [free_block] leaves the page of a freed block cached, and [map_block] does
    not clear it, so that a block that was data becomes an indirect block with
    the old data as block numbers: block 10 of the second file is the
    superblock. *)
Lemma stale_indirect_block :
  exists s, (file_truncate (disk_addr 7) 0 ;; file_get_block (disk_addr 7 + 256) 10) stale_fs =
    Ret (0, disk_addr 1) s.
Proof.
  assert (match (file_truncate (disk_addr 7) 0 ;; file_get_block (disk_addr 7 + 256) 10) stale_fs with
          | Ret (0, b) _ => b =? disk_addr 1 | _ => false end = true) as H by (vm_compute; reflexivity).
  destruct ((file_truncate (disk_addr 7) 0 ;; file_get_block (disk_addr 7 + 256) 10) stale_fs)
    as [[[] b] s|s|e s]; try discriminate H.
  exists s. by apply Z.eqb_eq in H as ->.
Qed.

(** A file grown to eleven blocks without an indirect block: [file_set_size]
    back to zero panics, since [file_clear_block] of block 10 is -E_NOT_FOUND. *)
Lemma file_set_size_panics :
  (exists s, file_set_size (disk_addr 7) 45056 stale_fs = Ret 0 s) /\
  exists s, (file_set_size (disk_addr 7) 45056 ;; file_set_size (disk_addr 7) 0) stale_fs = Panic s.
Proof.
  split.
  - assert (match file_set_size (disk_addr 7) 45056 stale_fs with Ret 0 _ => true | _ => false end = true)
      as H by (vm_compute; reflexivity).
    destruct (file_set_size (disk_addr 7) 45056 stale_fs) as [[] s|s|e s]; try discriminate H.
    by exists s.
  - assert (match (file_set_size (disk_addr 7) 45056 ;; file_set_size (disk_addr 7) 0) stale_fs with
            | Panic _ => true | _ => false end = true) as H by (vm_compute; reflexivity).
    destruct ((file_set_size (disk_addr 7) 45056 ;; file_set_size (disk_addr 7) 0) stale_fs)
      as [a s|s|e s]; try discriminate H.
    by exists s.
Qed.
