(* ===== verification/Alloc.v ===== *)
(** The interface between the kernel heap and the code that builds data in it.

    [Allocator] states what a client relies on: an allocation for which there
    is room succeeds with an address that is not in use.  [kmalloc_allocator]
    discharges it for [kmalloc] (Kmalloc.v), for any bound [fuel] on the number
    of blocks that is not below what the heap can hold.  [kmalloc_init] gives
    the first heap, and the page-table entry below which its pages appear. *)
From S2P Require Import Prelude Queue Mem Mmu Pmap PageTable Kmalloc.

(** [alloc_inv h L R]: the blocks in use are exactly those at the addresses in
    [L], and one free block has at least [R] bytes. *)
Class Allocator (A : Type) := {
  alloc : Z -> M A (option Z);
  free : Z -> M A unit;
  alloc_inv : A -> (Z -> Prop) -> Z -> Prop;
  alloc_spec : forall h L R size, 0 <= size < 2 ^ 63 -> 0 <= R -> alloc_inv h L (R + (size + 56)) ->
    exists p h', alloc size h = Ret (Some p) h' /\ p <> 0 /\ ~ L p /\
      alloc_inv h' (fun q => q = p \/ L q) R;
  free_spec : forall h L R p, alloc_inv h L R -> L p ->
    exists h', free p h = Ret tt h' /\ alloc_inv h' (fun q => L q /\ q <> p) R;
  alloc_inv_ext : forall h (L L' : Z -> Prop) R, (forall q, L q <-> L' q) -> alloc_inv h L R -> alloc_inv h L' R;
  alloc_inv_le : forall h L R R', R' <= R -> alloc_inv h L R -> alloc_inv h L R'
}.

(** ** kmalloc *)

Lemma tiles_length l : forall a, tiles a l -> a + MBLOCK_SIZE * Z.of_nat (length l) <= KMALLOC_END_VA.
Proof.
  induction l as [|b l IH]; intros a H; simpl in *; [lia|].
  destruct H as (<- & Hs & _ & H). specialize (IH _ H). unfold blk_end in IH. lia.
Qed.

Lemma heap_blocks l : heap_ok l -> Z.of_nat (length l) <= KMALLOC_HEAP_SIZE / MBLOCK_SIZE.
Proof.
  intros [H _]. apply tiles_length in H. apply Z.div_le_lower_bound; [done|].
  unfold KMALLOC_HEAP_SIZE. lia.
Qed.

Lemma tiles_nodup l2 l1 : forall a, tiles a (l1 ++ l2) -> NoDup (map b_addr l1).
Proof.
  induction l1 as [|c l1 IH]; intros a H; simpl in *; constructor.
  - destruct H as (<- & Hs & _ & H). intros Hin.
    destruct (tiles_app _ _ _ H) as (m & _ & _ & Hi & _).
    apply list_elem_of_In, in_map_iff in Hin as (d & Hd & Hin%list_elem_of_In).
    destruct (Hi d Hin). unfold blk_end, MBLOCK_SIZE in *. lia.
  - destruct H as (_ & _ & _ & H). by eapply IH.
Qed.

Lemma used_addrs_nodup l : heap_ok l -> NoDup (map fst (used l)).
Proof.
  intros [H _]. rewrite <- (app_nil_r l) in H. pose proof (tiles_nodup [] l _ H) as Hn. unfold used. rewrite map_map. simpl.
  clear H. induction l as [|b l IH]; [constructor|]. simpl in Hn. apply NoDup_cons in Hn as [Hb Hn].
  rewrite filter_cons. case_decide; [|by apply IH]. simpl. constructor; [|by apply IH].
  intros Hin. apply Hb. apply list_elem_of_In, in_map_iff in Hin as (c & Hc & Hin%list_elem_of_In).
  apply list_elem_of_filter in Hin as [_ Hin].
  assert (b_addr b = b_addr c) as -> by lia. apply list_elem_of_In, in_map, list_elem_of_In, Hin.
Qed.

Section kmalloc.
Context (fuel : nat) (Hfuel : KMALLOC_HEAP_SIZE / MBLOCK_SIZE <= Z.of_nat fuel).

Definition kmalloc_inv (h : heap) (L : Z -> Prop) (R : Z) : Prop :=
  exists l, heap_rep h l /\ heap_ok l /\ (forall q, L q <-> q ∈ map fst (used l)) /\
    exists b, b ∈ l /\ b_free b = true /\ R <= b_size b.

(** The room left by first fit: another block, or the rest of the one taken. *)
Lemma room_left size R l p l' : abs_alloc size l = Some (p, l') -> 0 <= R -> 0 <= size ->
  (exists b, b ∈ l /\ b_free b = true /\ R + size + MBLOCK_SIZE + 8 <= b_size b) ->
  exists b, b ∈ l' /\ b_free b = true /\ R <= b_size b.
Proof.
  intros Ha HR Hs (b & Hb & Hf & Hr).
  destruct (abs_alloc_some _ _ _ _ Ha) as (l1 & c & l2 & -> & -> & _).
  apply elem_of_app in Hb as [Hb|[->|Hb]%elem_of_cons].
  - exists b. split_and!; [set_solver|done|unfold MBLOCK_SIZE in *; lia].
  - unfold split_blk. destruct (Z.ltb_spec (b_size c - size) (MBLOCK_SIZE + 8)); [lia|].
    eexists. split_and!; [apply elem_of_app; right; apply elem_of_app; left; right; left|done|simpl].
    unfold MBLOCK_SIZE in *. lia.
  - exists b. split_and!; [set_solver|done|unfold MBLOCK_SIZE in *; lia].
Qed.

Lemma kmalloc_spec h L R size : 0 <= size < 2 ^ 63 -> 0 <= R -> kmalloc_inv h L (R + (size + 56)) ->
  exists p h', kmalloc fuel size h = Ret (Some p) h' /\ p <> 0 /\ ~ L p /\
    kmalloc_inv h' (fun q => q = p \/ L q) R.
Proof.
  intros Hs HR (l & Hr & Hok & HL & b & Hb & Hf & Hroom).
  pose proof (heap_blocks l Hok) as Hlen.
  unfold kmalloc. rewrite bind_modify, bind_get.
  set (h0 := set_requested _ h). assert (heap_rep h0 l) as Hr0 by exact Hr.
  rewrite ROUND8 by lia. rewrite (list_rep_first _ _ (proj1 Hr0)).
  set (n := (size + 7) / 8 * 8). destruct (round8_bounds size (proj1 Hs)) as [Hn0 Hn1]. fold n in Hn0, Hn1.
  assert (n <= size + 7) as Hn2 by (unfold n; pose proof (Z.div_mod (size + 7) 8 ltac:(lia));
    pose proof (Z.mod_pos_bound (size + 7) 8 ltac:(lia)); lia).
  pose proof (kmalloc_scan_ok n l fuel [] h0 Hr0 Hok ltac:(lia) ltac:(lia)) as H1.
  destruct (abs_alloc n l) as [[p l']|] eqn:Ha.
  2: { pose proof (abs_alloc_none n l Ha b Hb Hf). lia. }
  destruct H1 as (h' & E & Hr' & _).
  destruct (abs_alloc_ok n l p l' Hok ltac:(lia)) as (Hok' & sz & Hsz & Hu & Hp);
    [unfold n; apply Z.mod_mul; lia|done|].
  assert (map fst (used l') ≡ₚ p :: map fst (used l)) as Hu'.
  { apply (Permutation_map fst) in Hu. exact Hu. }
  exists p, h'. split; [exact E|]. split_and!.
  - destruct (abs_alloc_some _ _ _ _ Ha) as (l1 & c & l2 & -> & _ & _ & _ & -> & _).
    destruct (tiles_end _ _ (proj1 Hok)) as [_ Hi]. destruct (Hi c ltac:(set_solver)) as (Hc & _).
    destruct KMALLOC_values as [HB _]. rewrite HB in Hc. unfold MBLOCK_SIZE. lia.
  - rewrite HL. intros Hin. pose proof (used_addrs_nodup l' Hok') as Hnd.
    rewrite Hu' in Hnd. by apply NoDup_cons in Hnd as [? _].
  - exists l'. split_and!; [exact Hr'|done| |].
    + intros q. rewrite Hu', elem_of_cons, HL. done.
    + eapply room_left; [done|done|lia|]. exists b. unfold MBLOCK_SIZE. split_and!; [done..|lia].
Qed.

(** Freeing a block leaves the room there was. *)
Lemma join_room b l d : 0 <= b_size b -> Forall (fun c => 0 <= b_size c) l ->
  d ∈ b :: l -> b_free d = true -> exists d', d' ∈ join b l /\ b_free d' = true /\ b_size d <= b_size d'.
Proof.
  intros Hb Hl Hd Hf. destruct l as [|c l]; simpl.
  - apply list_elem_of_singleton in Hd as ->. eexists. split; [left|done].
  - apply Forall_cons in Hl as [Hc Hl]. destruct (b_free c) eqn:Ec.
    + apply elem_of_cons in Hd as [->|[->|Hd]%elem_of_cons].
      * eexists. split; [left|]. simpl. unfold MBLOCK_SIZE. split; [done|lia].
      * eexists. split; [left|]. simpl. unfold MBLOCK_SIZE. split; [done|lia].
      * exists d. split; [by right|done].
    + apply elem_of_cons in Hd as [->|Hd].
      * eexists. split; [left|]. done.
      * exists d. split; [by right|done].
Qed.

Lemma abs_free_room x l : Forall (fun c => 0 <= b_size c) l -> forall d, d ∈ l -> b_free d = true ->
  exists d', d' ∈ abs_free x l /\ b_free d' = true /\ b_size d <= b_size d'.
Proof.
  induction l as [|b l IH]; intros Hl d Hd Hf; [by apply not_elem_of_nil in Hd|].
  apply Forall_cons in Hl as [Hb Hl]. cbn [abs_free]. destruct (b_addr b =? x); [by apply join_room|].
  destruct l as [|c l]; [by exists d|]. destruct ((b_addr c =? x) && b_free b).
  - apply Forall_cons in Hl as [Hc Hl].
    assert (Forall (fun c => 0 <= b_size c) (join c l)) as Hj.
    { destruct l as [|e l]; simpl; [by constructor|]. apply Forall_cons in Hl as [He Hl].
      destruct (b_free e); [|by repeat constructor]. constructor; [simpl; unfold MBLOCK_SIZE; lia|done]. }
    apply elem_of_cons in Hd as [->|Hd].
    + apply join_room; [done..|by left|done].
    + destruct (join_room c l d Hc Hl Hd Hf) as (d1 & Hd1 & Hf1 & Hs1).
      destruct (join_room b (join c l) d1 Hb Hj) as (d2 & Hd2 & Hf2 & Hs2); [by right|done|].
      exists d2. split_and!; [done..|lia].
  - apply elem_of_cons in Hd as [->|Hd].
    + exists b. split; [left|done].
    + destruct (IH Hl d Hd Hf) as (d' & Hd' & H'). exists d'. split; [by right|done].
Qed.

Lemma kfree_spec h L R p : kmalloc_inv h L R -> L p ->
  exists h', kfree p h = Ret tt h' /\ kmalloc_inv h' (fun q => L q /\ q <> p) R.
Proof.
  intros (l & Hr & Hok & HL & d & Hd & Hf & Hroom) Hp. apply HL in Hp as Hin. unfold used in Hin.
  apply list_elem_of_In, in_map_iff in Hin as ([p' sz] & Hp' & Hin). simpl in Hp'. subst p'.
  apply in_map_iff in Hin as (b & [= Hb Hsz] & Hin%list_elem_of_In).
  apply list_elem_of_filter in Hin as [Hbf Hin]. apply list_elem_of_split in Hin as (l1 & l2 & ->).
  pose proof (used_addrs_nodup _ Hok) as Hnd.
  assert (b_free b = false) as Hbf' by (by destruct (b_free b)).
  destruct (kfree_ok h l1 b l2 Hr Hok Hbf') as (h' & E & Hr' & _). rewrite Hb in E.
  destruct (abs_free_ok l1 b l2 Hok) as [Hok' Hu]. exists h'. split; [done|].
  eexists. split_and!; [exact Hr'|done| |].
  - intros q. rewrite HL, Hu. revert Hnd. rewrite used_app, used_cons, Hbf', !map_app. cbn [map app].
    rewrite Hb. cbn [fst]. intros Hnd. apply NoDup_app in Hnd as (_ & Hn1 & Hnd). apply NoDup_cons in Hnd as [Hn2 _].
    rewrite !elem_of_app, elem_of_cons. split.
    + intros [[Hq|[Hq|Hq]] Hne]; [by left|done|by right].
    + intros [Hq|Hq]; (split; [tauto|]); intros ->; [|done]. apply (Hn1 _ Hq). left.
  - destruct (abs_free_room (b_addr b) (l1 ++ b :: l2)) with (d := d) as (d' & H1 & H2 & H3); try done.
    + apply Forall_forall. intros c Hc. by apply (tiles_end _ _ (proj1 Hok)).
    + exists d'. split_and!; [done..|lia].
Qed.

#[export] Instance kmalloc_allocator : Allocator heap.
Proof.
  refine {| alloc := kmalloc fuel; free := kfree; alloc_inv := kmalloc_inv |}.
  - intros h L R size Hs HR H. by apply kmalloc_spec.
  - intros h L R p Hi HL. by apply kfree_spec.
  - intros h L L' R HL (l & H1 & H2 & H3 & H4). exists l. split_and!; [done..| |done].
    intros q. by rewrite <- HL.
  - intros h L R R' HR (l & H1 & H2 & H3 & b & Hb & Hf & Hs). exists l.
    split_and!; [done..|]. exists b. split_and!; [done..|lia].
Defined.
End kmalloc.

(** ** kmalloc_init

    The page allocator and the heap.  The headers are written through the new
    mapping, whose pages the kernel allocates on their first access. *)
Record kstate := KState { ks_pmap : pmap; ks_heap : heap }.

Definition kmalloc_init (kernel_boot_pgdir : Z) : M kstate unit :=
  r ← zoom ks_pmap (fun p k => KState p (ks_heap k)) page_alloc;
  match r with
  | inl _ => panic
  | inr p2page =>
      zoom ks_pmap (fun p k => KState p (ks_heap k))
        (modify (pp_ref_inc p2page) ;;
         write_pte (ent kernel_boot_pgdir (P1X KMALLOC_BEGIN_VA))
           (Z.lor (u64 (Z.shiftl (page2ppn p2page) 10)) PTE_V)) ;;
      zoom ks_heap (fun h k => KState (ks_pmap k) h) kmalloc_init_list
  end.

Lemma kmalloc_init_list_ok h : exists h', kmalloc_init_list h = Ret tt h' /\ heap_rep h' [blk0].
Proof.
  unfold kmalloc_init_list, put_size, put_ptr, put_free. rewrite !bind_modify. eexists. split; [reflexivity|]. split.
  - apply list_rep_insert_head; [apply (list_rep_init (mblock_list h))|set_solver].
  - constructor; [|constructor]. split_and!; simpl; by rewrite fn_lookup_insert.
Qed.

(** The heap that results is empty: one free block that fills it. *)
Lemma kmalloc_init_ok pgdir k p l : pm_wf (ks_pmap k) (p :: l) ->
  exists k', kmalloc_init pgdir k = Ret tt k' /\ pp_ref (ks_pmap k') p = u16 (pp_ref (ks_pmap k) p + 1) /\
    load64 (mem (ks_pmap k')) (ent pgdir (P1X KMALLOC_BEGIN_VA)) = Z.lor (u64 (Z.shiftl (page2ppn p) 10)) PTE_V /\
    kmalloc_inv (ks_heap k') (fun _ => False) (KMALLOC_HEAP_SIZE - MBLOCK_SIZE).
Proof.
  intros Hwf. destruct (page_alloc_some _ _ _ Hwf) as (s' & E & _ & _ & Hr & _).
  destruct (kmalloc_init_list_ok (ks_heap k)) as (h' & Eh & Hh).
  unfold kmalloc_init. rewrite (bind_ret _ _ _ _ _ (zoom_ret ks_pmap (fun p k => KState p (ks_heap k)) _ _ _ _ E)).
  eexists. split; [|split_and!].
  - erewrite bind_ret by reflexivity.
    exact (zoom_ret ks_heap (fun h k => KState (ks_pmap k) h) _ (KState _ (ks_heap k)) _ _ Eh).
  - simpl. rewrite fn_lookup_insert. by rewrite Hr.
  - simpl. apply load64_store64_same. apply (lor_bound _ _ 64); [done|apply Z.mod_pos_bound; done|done].
  - simpl. exists [blk0]. split_and!; [done|exact heap0_ok|..].
    + intros q. split; [done|]. apply not_elem_of_nil.
    + exists blk0. split_and!; [left|done..].
Qed.
