(* ===== verification/Endian.v ===== *)
(** kern/endian.c: byte order.

    A word is compared with the list of its bytes, most significant first
    ([of_bytes]); masks and shifts by whole bytes act on the list. *)
From S2P Require Import Prelude Mmu.

(** ** Byte order *)

Definition swap_uint32 (val : Z) : Z :=
  let val := Z.lor (Z.land (u32 (Z.shiftl val 8)) 0xFF00FF00) (Z.land (Z.shiftr val 8) 0xFF00FF) in
  Z.lor (u32 (Z.shiftl val 16)) (Z.shiftr val 16).

Definition swap_uint64 (val : Z) : Z :=
  let val := Z.lor (Z.land (u64 (Z.shiftl val 8)) 0xFF00FF00FF00FF00)
                   (Z.land (Z.shiftr val 8) 0x00FF00FF00FF00FF) in
  let val := Z.lor (Z.land (u64 (Z.shiftl val 16)) 0xFFFF0000FFFF0000)
                   (Z.land (Z.shiftr val 16) 0x0000FFFF0000FFFF) in
  Z.lor (u64 (Z.shiftl val 32)) (Z.shiftr val 32).

Definition be32toh := swap_uint32.
Definition be64toh := swap_uint64.

(** ** Words by bytes *)

Lemma land_split k h l mh ml : 0 <= k -> 0 <= l < 2 ^ k -> 0 <= ml < 2 ^ k ->
  Z.land (h * 2 ^ k + l) (mh * 2 ^ k + ml) = Z.land h mh * 2 ^ k + Z.land l ml.
Proof.
  intros Hk Hl Hm. rewrite <- !lor_shiftl by (done || apply land_bound; lia).
  rewrite Z.land_lor_distr_l, !Z.land_lor_distr_r, Z.shiftl_land.
  rewrite (land_shiftl_low h k ml), (Z.land_comm l (Z.shiftl mh k)), (land_shiftl_low mh k l) by done.
  by rewrite Z.lor_0_r, Z.lor_0_l.
Qed.

Lemma lor_split k h l mh ml : 0 <= k -> 0 <= l < 2 ^ k -> 0 <= ml < 2 ^ k ->
  Z.lor (h * 2 ^ k + l) (mh * 2 ^ k + ml) = Z.lor h mh * 2 ^ k + Z.lor l ml.
Proof.
  intros Hk Hl Hm. rewrite <- !lor_shiftl by (done || apply Mmu.lor_bound; lia).
  rewrite Z.shiftl_lor, <- !Z.lor_assoc. f_equal. rewrite !Z.lor_assoc. f_equal. apply Z.lor_comm.
Qed.

(** A word by its bytes, most significant first. *)
Definition of_bytes (l : list Z) : Z := fold_left (fun x b => x * 2 ^ 8 + b) l 0.

Notation is_byte b := (0 <= b < 2 ^ 8).

Lemma of_bytes_snoc l b : of_bytes (l ++ [b]) = of_bytes l * 2 ^ 8 + b.
Proof. unfold of_bytes. by rewrite fold_left_app. Qed.

Lemma of_bytes_bound l : Forall (fun b => is_byte b) l -> 0 <= of_bytes l < 2 ^ (8 * Z.of_nat (length l)).
Proof.
  induction l as [|b l IH] using rev_ind; intros Hl; [done|].
  apply Forall_app in Hl as [Hl Hb%Forall_inv]. specialize (IH Hl).
  rewrite of_bytes_snoc, length_app, Nat2Z.inj_add, Z.mul_add_distr_l, Z.pow_add_r by lia.
  change (2 ^ (8 * Z.of_nat (length [b]))) with (2 ^ 8). nia.
Qed.

(** Masks and unions byte by byte. *)
Lemma land_bytes l : forall k, length k = length l ->
  Forall (fun b => is_byte b) l -> Forall (fun b => is_byte b) k ->
  Z.land (of_bytes l) (of_bytes k) = of_bytes (zip_with Z.land l k).
Proof.
  induction l as [|b l IH] using rev_ind; intros k Hlen Hl Hk.
  { by destruct k. }
  destruct k as [|c k _] using rev_ind; [rewrite length_app in Hlen; simpl in Hlen; lia|].
  apply Forall_app in Hl as [Hl Hb%Forall_inv]. apply Forall_app in Hk as [Hk Hc%Forall_inv].
  rewrite !length_app in Hlen. simpl in Hlen.
  rewrite zip_with_app by lia. simpl. rewrite !of_bytes_snoc, land_split, IH by (done || lia). done.
Qed.

Lemma lor_bytes l : forall k, length k = length l ->
  Forall (fun b => is_byte b) l -> Forall (fun b => is_byte b) k ->
  Z.lor (of_bytes l) (of_bytes k) = of_bytes (zip_with Z.lor l k).
Proof.
  induction l as [|b l IH] using rev_ind; intros k Hlen Hl Hk.
  { by destruct k. }
  destruct k as [|c k _] using rev_ind; [rewrite length_app in Hlen; simpl in Hlen; lia|].
  apply Forall_app in Hl as [Hl Hb%Forall_inv]. apply Forall_app in Hk as [Hk Hc%Forall_inv].
  rewrite !length_app in Hlen. simpl in Hlen.
  rewrite zip_with_app by lia. simpl. rewrite !of_bytes_snoc, lor_split, IH by (done || lia). done.
Qed.

Lemma of_bytes_app l k : of_bytes (l ++ k) = of_bytes l * 2 ^ (8 * Z.of_nat (length k)) + of_bytes k.
Proof.
  induction k as [|b k IH] using rev_ind.
  { rewrite app_nil_r. simpl. change (of_bytes []) with 0. lia. }
  rewrite app_assoc, !of_bytes_snoc, IH, length_app, Nat2Z.inj_add, Z.mul_add_distr_l, Z.pow_add_r by lia.
  change (2 ^ (8 * Z.of_nat (length [b]))) with (2 ^ 8). lia.
Qed.

(** Shifting out the first bytes, and the last ones. *)
Lemma shl_bytes l k w : Forall (fun b => is_byte b) k -> w = 8 * Z.of_nat (length k) ->
  forall z, Forall (fun b => b = 0) z ->
  Z.shiftl (of_bytes (l ++ k)) (8 * Z.of_nat (length z)) mod 2 ^ (w + 8 * Z.of_nat (length z)) = of_bytes (k ++ z).
Proof.
  intros Hk -> z Hz.
  assert (of_bytes z = 0) as Hz0.
  { clear -Hz. induction z as [|b z IH] using rev_ind; [done|].
    apply Forall_app in Hz as [Hz Hb%Forall_inv]. rewrite of_bytes_snoc, IH, Hb by done. done. }
  rewrite Z.shiftl_mul_pow2, !of_bytes_app, Hz0, Z.add_0_r by lia.
  pose proof (of_bytes_bound k Hk).
  rewrite Z.mul_add_distr_r, <- Z.mul_assoc, <- Z.pow_add_r by lia.
  rewrite Z.add_comm, Z.mod_add by lia. apply Z.mod_small. rewrite Z.pow_add_r by lia. nia.
Qed.

Lemma shr_bytes l k : Forall (fun b => is_byte b) k ->
  Z.shiftr (of_bytes (l ++ k)) (8 * Z.of_nat (length k)) = of_bytes l.
Proof.
  intros Hk. pose proof (of_bytes_bound k Hk). rewrite Z.shiftr_div_pow2, of_bytes_app by lia.
  rewrite Z.div_add_l, Z.div_small by lia. lia.
Qed.

Lemma of_bytes_0 l : of_bytes (0 :: l) = of_bytes l.
Proof. done. Qed.

Lemma land_255 b : is_byte b -> Z.land b 255 = b.
Proof. intros Hb. rewrite (land_ones' _ 8) by done. by apply Z.mod_small. Qed.

Ltac bytes_ok := repeat (apply Forall_cons; split; [try lia|]); try apply Forall_nil; done.
Ltac zips := cbn [zip_with app]; rewrite ?Z.land_0_r, ?Z.lor_0_r, ?Z.lor_0_l, ?land_255 by lia.

Lemma swap_uint32_bytes b3 b2 b1 b0 : is_byte b3 -> is_byte b2 -> is_byte b1 -> is_byte b0 ->
  swap_uint32 (of_bytes [b3; b2; b1; b0]) = of_bytes [b0; b1; b2; b3].
Proof.
  intros H3 H2 H1 H0. unfold swap_uint32, u32.
  pose proof (shl_bytes [b3] [b2; b1; b0] 24 ltac:(bytes_ok) eq_refl [0] ltac:(bytes_ok)) as E1.
  pose proof (shr_bytes [b3; b2; b1] [b0] ltac:(bytes_ok)) as E2.
  change (of_bytes [b3; b2; b1]) with (of_bytes [0; b3; b2; b1]) in E2.
  cbn [app length] in E1, E2. change (8 * Z.of_nat 1) with 8 in E1, E2. change (24 + 8) with 32 in E1.
  rewrite E1, E2. clear E1 E2.
  change 0xFF00FF00 with (of_bytes [255; 0; 255; 0]). change 0xFF00FF with (of_bytes [0; 255; 0; 255]).
  rewrite !land_bytes by (done || bytes_ok). zips. rewrite lor_bytes by (done || bytes_ok). zips.
  pose proof (shl_bytes [b2; b3] [b0; b1] 16 ltac:(bytes_ok) eq_refl [0; 0] ltac:(bytes_ok)) as E1.
  pose proof (shr_bytes [b2; b3] [b0; b1] ltac:(bytes_ok)) as E2.
  change (of_bytes [b2; b3]) with (of_bytes [0; 0; b2; b3]) in E2.
  cbn [app length] in E1, E2. change (8 * Z.of_nat 2) with 16 in E1, E2. change (16 + 16) with 32 in E1.
  rewrite E1, E2. rewrite lor_bytes by (done || bytes_ok). by zips.
Qed.

Lemma swap_uint64_bytes b7 b6 b5 b4 b3 b2 b1 b0 :
  Forall (fun b => is_byte b) [b7; b6; b5; b4; b3; b2; b1; b0] ->
  swap_uint64 (of_bytes [b7; b6; b5; b4; b3; b2; b1; b0]) = of_bytes [b0; b1; b2; b3; b4; b5; b6; b7].
Proof.
  rewrite !Forall_cons. intros (H7 & H6 & H5 & H4 & H3 & H2 & H1 & H0 & _). unfold swap_uint64, u64.
  pose proof (shl_bytes [b7] [b6; b5; b4; b3; b2; b1; b0] 56 ltac:(bytes_ok) eq_refl [0] ltac:(bytes_ok)) as E1.
  pose proof (shr_bytes [b7; b6; b5; b4; b3; b2; b1] [b0] ltac:(bytes_ok)) as E2.
  change (of_bytes [b7; b6; b5; b4; b3; b2; b1]) with (of_bytes [0; b7; b6; b5; b4; b3; b2; b1]) in E2.
  cbn [app length] in E1, E2. change (8 * Z.of_nat 1) with 8 in E1, E2. change (56 + 8) with 64 in E1.
  rewrite E1, E2. clear E1 E2.
  change 0xFF00FF00FF00FF00 with (of_bytes [255; 0; 255; 0; 255; 0; 255; 0]).
  change 0x00FF00FF00FF00FF with (of_bytes [0; 255; 0; 255; 0; 255; 0; 255]).
  rewrite !land_bytes by (done || bytes_ok). zips. rewrite lor_bytes by (done || bytes_ok). zips.
  pose proof (shl_bytes [b6; b7] [b4; b5; b2; b3; b0; b1] 48 ltac:(bytes_ok) eq_refl [0; 0] ltac:(bytes_ok)) as E1.
  pose proof (shr_bytes [b6; b7; b4; b5; b2; b3] [b0; b1] ltac:(bytes_ok)) as E2.
  change (of_bytes [b6; b7; b4; b5; b2; b3]) with (of_bytes [0; 0; b6; b7; b4; b5; b2; b3]) in E2.
  cbn [app length] in E1, E2. change (8 * Z.of_nat 2) with 16 in E1, E2. change (48 + 16) with 64 in E1.
  rewrite E1, E2. clear E1 E2.
  change 0xFFFF0000FFFF0000 with (of_bytes [255; 255; 0; 0; 255; 255; 0; 0]).
  change 0x0000FFFF0000FFFF with (of_bytes [0; 0; 255; 255; 0; 0; 255; 255]).
  rewrite !land_bytes by (done || bytes_ok). zips. rewrite lor_bytes by (done || bytes_ok). zips.
  pose proof (shl_bytes [b4; b5; b6; b7] [b0; b1; b2; b3] 32 ltac:(bytes_ok) eq_refl [0; 0; 0; 0] ltac:(bytes_ok)) as E1.
  pose proof (shr_bytes [b4; b5; b6; b7] [b0; b1; b2; b3] ltac:(bytes_ok)) as E2.
  change (of_bytes [b4; b5; b6; b7]) with (of_bytes [0; 0; 0; 0; b4; b5; b6; b7]) in E2.
  cbn [app length] in E1, E2. change (8 * Z.of_nat 4) with 32 in E1, E2. change (32 + 32) with 64 in E1.
  rewrite E1, E2. rewrite lor_bytes by (done || bytes_ok). by zips.
Qed.
