(* ===== verification/DeviceTree.v ===== *)
(** kern/device_tree.c: the device tree.

    [parse_tree] reads the flattened tree at [begin] in the memory [m] and
    builds nodes and properties in the heap; a node or a property is the record
    of its fields at its address.  The heap is any [Allocator]: the theorems
    rely on the interface of Alloc.v only.  Names and values are byte lists,
    with the address of the copy the code allocates for them.

    Reads and writes outside the arrays of the code are undefined and modelled
    by [panic].  [fuel] bounds the tokens read, the strings and the lists
    followed. *)
From S2P Require Import Prelude Mem Mmu Endian Alloc.

(** ** Data *)

Definition FDT_MAGIC : Z := 0xd00dfeed.
Definition FDT_BEGIN_NODE : Z := 1.
Definition FDT_END_NODE : Z := 2.
Definition FDT_PROP : Z := 3.
Definition FDT_NOP : Z := 4.
Definition FDT_END : Z := 9.
Definition NAME_BUFFER_LEN : Z := 32.
Definition ITER_MAX_QUEUE_LEN : Z := 64.
Definition MAX_STACK_DEPTH : Z := 64.
Definition sizeof_device_node : Z := 40.
Definition sizeof_property : Z := 32.

(** [struct device_node] and [struct property]; addresses are 0 for NULL. *)
Record device_node := MkNode {
  name_ptr : Z; name : list Z; parent : Z; child : Z; sibling : Z; properties : Z
}.
Record property := MkProp {
  p_name_ptr : Z; p_name : list Z; p_length : Z; p_value_ptr : Z; p_value : list Z; p_next : Z
}.

Record dt (A : Type) := Dt { dt_heap : A; nodes : Z -> device_node; props : Z -> property }.
Arguments Dt {A}. Arguments dt_heap {A}. Arguments nodes {A}. Arguments props {A}.

Section dt.
Context {A : Type} `{Allocator A}.

Definition in_heap {B} (o : M A B) : M (dt A) B :=
  zoom dt_heap (fun h s => Dt h (nodes s) (props s)) o.

(** [p->field = ...] *)
Definition put_node (p : Z) (f : device_node -> device_node) : M (dt A) unit :=
  modify (fun s => Dt (dt_heap s) (<[p := f (nodes s p)]> (nodes s)) (props s)).
Definition put_prop (p : Z) (f : property -> property) : M (dt A) unit :=
  modify (fun s => Dt (dt_heap s) (nodes s) (<[p := f (props s p)]> (props s))).

(** [kmalloc] whose failure the caller answers with [panic]. *)
Definition kmalloc_or_panic (size : Z) : M (dt A) Z :=
  r ← in_heap (alloc size);
  match r with Some p => mret p | None => panic end.

Definition create_device_node (nm : list Z) : M (dt A) Z :=
  node ← kmalloc_or_panic sizeof_device_node;
  name_field ← kmalloc_or_panic (Z.of_nat (length nm) + 1);
  put_node node (fun _ => MkNode name_field nm 0 0 0 0) ;;
  mret node.

Definition device_node_insert_child (par ch : Z) : M (dt A) unit :=
  put_node ch (fun n => MkNode (name_ptr n) (name n) par (child n) (sibling n) (properties n)) ;;
  first ← get (fun s => child (nodes s par));
  put_node ch (fun n => MkNode (name_ptr n) (name n) (parent n) (child n) first (properties n)) ;;
  put_node par (fun n => MkNode (name_ptr n) (name n) (parent n) ch (sibling n) (properties n)).

Definition device_node_insert_propertiy (node : Z) (nm : list Z) (len : Z) (value : list Z) :
    M (dt A) unit :=
  new_property ← kmalloc_or_panic sizeof_property;
  name_field ← kmalloc_or_panic (Z.of_nat (length nm) + 1);
  value_field ← kmalloc_or_panic len;
  next ← get (fun s => properties (nodes s node));
  put_prop new_property (fun _ => MkProp name_field nm len value_field value next) ;;
  put_node node (fun n =>
    MkNode (name_ptr n) (name n) (parent n) (child n) (sibling n) new_property).

(** [get_property]: [strcmp] with [property_name] along the list. *)
Fixpoint get_property_from (fuel : nat) (p : Z) (property_name : list Z) : M (dt A) (option Z) :=
  match fuel with
  | O => panic
  | S fuel =>
      if p =? 0 then mret None
      else
        pr ← get (fun s => props s p);
        if bool_decide (p_name pr = property_name) then mret (Some p)
        else get_property_from fuel (p_next pr) property_name
  end.

Definition get_property (fuel : nat) (node : Z) (property_name : list Z) : M (dt A) (option Z) :=
  p ← get (fun s => properties (nodes s node));
  get_property_from fuel p property_name.

(** ** Release *)

Definition free_property (p : Z) : M (dt A) unit :=
  pr ← get (fun s => props s p);
  in_heap (free (p_name_ptr pr)) ;;
  in_heap (free (p_value_ptr pr)) ;;
  in_heap (free p).

Fixpoint free_properties (fuel : nat) (current_property : Z) : M (dt A) unit :=
  match fuel with
  | O => panic
  | S fuel =>
      if current_property =? 0 then mret tt
      else
        next_property ← get (fun s => p_next (props s current_property));
        free_property current_property ;;
        free_properties fuel next_property
  end.

Definition free_device_node (fuel : nat) (node : Z) : M (dt A) unit :=
  p ← get (fun s => properties (nodes s node));
  free_properties fuel p ;;
  n ← get (fun s => nodes s node);
  in_heap (free (name_ptr n)) ;;
  in_heap (free node).

(** [_free_device_tree_node] and, with [siblings], its loop over the children
    from [node] on. *)
Fixpoint free_device_tree_node (fuel : nat) (siblings : bool) (node : Z) : M (dt A) unit :=
  match fuel with
  | O => panic
  | S fuel =>
      if siblings then
        if node =? 0 then mret tt
        else
          next_child ← get (fun s => sibling (nodes s node));
          free_device_tree_node fuel false node ;;
          free_device_tree_node fuel true next_child
      else
        c ← get (fun s => child (nodes s node));
        free_device_tree_node fuel true c ;;
        free_device_node fuel node
  end.

Definition free_device_tree (fuel : nat) (root : Z) : M (dt A) unit :=
  if root =? 0 then mret tt else free_device_tree_node fuel false root.

(** ** Searches

    The queue of both searches; [front] is incremented without a bound. *)
Record queue := MkQueue { node_queue : Z -> Z; queue_count : Z; front : Z; rear : Z }.

Definition queue0 (root : Z) : queue := MkQueue (<[0 := root]> (fun _ => 0)) 1 0 0.

Definition dequeue (q : queue) : M (dt A) (Z * queue) :=
  if front q <? ITER_MAX_QUEUE_LEN then
    mret (node_queue q (front q), MkQueue (node_queue q) (queue_count q - 1) (front q + 1) (rear q))
  else panic.

(** The children from [current_child] on; [None] on overflow. *)
Fixpoint enqueue_children (fuel : nat) (current_child : Z) (q : queue) : M (dt A) (option queue) :=
  match fuel with
  | O => panic
  | S fuel =>
      if current_child =? 0 then mret (Some q)
      else if ITER_MAX_QUEUE_LEN <=? queue_count q then mret None
      else
        let rear := (rear q + 1) mod ITER_MAX_QUEUE_LEN in
        next ← get (fun s => sibling (nodes s current_child));
        enqueue_children fuel next
          (MkQueue (<[rear := current_child]> (node_queue q)) (queue_count q + 1) (front q) rear)
  end.

(** The part of a node's name that names its type: up to the end or to ['@']. *)
Fixpoint is_type_equal (haystack needle : list Z) : bool :=
  match haystack, needle with
  | a :: haystack', b :: needle' => if a =? b then is_type_equal haystack' needle' else false
  | a :: _, [] => a =? 64
  | [], _ :: _ => false
  | [], [] => true
  end.

(** [output] holds the nodes found so far. *)
Fixpoint find_by_type_loop (fuel : nat) (type : list Z) (max_count : Z) (q : queue) (output : list Z) :
    M (dt A) (list Z) :=
  match fuel with
  | O => panic
  | S fuel' =>
      if negb (0 <? queue_count q) then mret output
      else
        '(current_node, q) ← dequeue q;
        n ← get (fun s => nodes s current_node);
        let hit := is_type_equal (name n) type in
        if hit && negb (Z.of_nat (length output) <? max_count) then mret output
        else
          let output := if hit then output ++ [current_node] else output in
          r ← enqueue_children fuel (child n) q;
          match r with
          | Some q => find_by_type_loop fuel' type max_count q output
          | None => mret output
          end
  end.

Definition find_by_type (fuel : nat) (root : Z) (type : list Z) (max_count : Z) : M (dt A) (list Z) :=
  if root =? 0 then mret [] else find_by_type_loop fuel type max_count (queue0 root) [].

(** The value compared is read at the property itself, whose first field is
    the pointer to its name. *)
Fixpoint find_by_handle_id_loop (fuel : nat) (phandle : list Z) (handle_id_le : Z) (q : queue) :
    M (dt A) Z :=
  match fuel with
  | O => panic
  | S fuel' =>
      if negb (0 <? queue_count q) then mret 0
      else
        '(current_node, q) ← dequeue q;
        property_value ← get_property fuel current_node phandle;
        hit ← match property_value with
              | Some p => get (fun s => be32toh (u32 (p_name_ptr (props s p))) =? handle_id_le)
              | None => mret false
              end;
        if (hit : bool) then mret current_node
        else
          c ← get (fun s => child (nodes s current_node));
          r ← enqueue_children fuel c q;
          match r with
          | Some q => find_by_handle_id_loop fuel' phandle handle_id_le q
          | None => mret 0
          end
  end.

(** "phandle" *)
Definition str_phandle : list Z := [112; 104; 97; 110; 100; 108; 101].

Definition find_by_handle_id (fuel : nat) (root handle_id_le : Z) : M (dt A) Z :=
  if root =? 0 then mret 0 else find_by_handle_id_loop fuel str_phandle handle_id_le (queue0 root).

(** ** Properties *)

(** A 32-bit and a 64-bit load at offset [i] of a value. *)
Definition value32 (v : list Z) (i : Z) : M (dt A) Z :=
  match take 4 (drop (Z.to_nat i) v) with
  | [b0; b1; b2; b3] => mret (of_bytes [b3; b2; b1; b0])
  | _ => panic
  end.
Definition value64 (v : list Z) (i : Z) : M (dt A) Z :=
  match take 8 (drop (Z.to_nat i) v) with
  | [b0; b1; b2; b3; b4; b5; b6; b7] => mret (of_bytes [b7; b6; b5; b4; b3; b2; b1; b0])
  | _ => panic
  end.

(** The walk over the ancestors: the last one that has the property counts. *)
Fixpoint cells_loop (fuel : nat) (property_name : list Z) (node count : Z) : M (dt A) Z :=
  match fuel with
  | O => panic
  | S fuel' =>
      if node =? 0 then mret count
      else
        count_property ← get_property fuel node property_name;
        count ← match count_property with
                | Some p => v ← get (fun s => p_value (props s p)); c ← value32 v 0; mret (be32toh c)
                | None => mret count
                end;
        next ← get (fun s => parent (nodes s node));
        cells_loop fuel' property_name next count
  end.

Definition cells_count (fuel : nat) (property_name : list Z) (node : Z) : M (dt A) Z :=
  par ← get (fun s => parent (nodes s node));
  if par =? 0 then panic
  else
    count ← cells_loop fuel property_name par 0;
    if count =? 0 then panic else mret count.

(** "#address-cells", "#size-cells" and "reg" *)
Definition str_address_cells : list Z := [35; 97; 100; 100; 114; 101; 115; 115; 45; 99; 101; 108; 108; 115].
Definition str_size_cells : list Z := [35; 115; 105; 122; 101; 45; 99; 101; 108; 108; 115].
Definition str_reg : list Z := [114; 101; 103].

Definition get_address_cells_count (fuel : nat) (node : Z) : M (dt A) Z := cells_count fuel str_address_cells node.
Definition get_size_cells_count (fuel : nat) (node : Z) : M (dt A) Z := cells_count fuel str_size_cells node.

(** A remainder by zero is undefined. *)
Definition umod32 (a b : Z) : M (dt A) Z := if b =? 0 then panic else mret (a mod b).

Definition get_reg_list_len (fuel : nat) (node : Z) : M (dt A) Z :=
  reg_property ← get_property fuel node str_reg;
  match reg_property with
  | None => mret 0
  | Some reg_property =>
      address_cells_count ← get_address_cells_count fuel node;
      size_cells_count ← get_size_cells_count fuel node;
      length ← get (fun s => p_length (props s reg_property));
      let cells := u32 (address_cells_count + size_cells_count) in
      r ← umod32 length cells;
      mret (if negb (r =? 0) then 0 else length / cells)
  end.

(** The result, with what is stored to [*address] and [*size] if anything is,
    once the property and the cell counts are known. *)
Definition reg_item (pr : property) (address_cells_count size_cells_count idx : Z) :
    M (dt A) (Z * option Z * option Z) :=
  let cells := u32 (address_cells_count + size_cells_count) in
  r ← umod32 (p_length pr) cells;
  if negb (r =? 0) then mret (1, None, None)
  else
    let skip_byte_count := u32 (idx * cells) in
    if p_length pr <=? skip_byte_count then mret (1, None, None)
    else
      '(address, ptr) ←
        (if address_cells_count =? 1 then
           x ← value32 (p_value pr) skip_byte_count; mret (Some (be32toh x), skip_byte_count + 4)
         else if address_cells_count =? 2 then
           x ← value64 (p_value pr) skip_byte_count; mret (Some (be64toh x), skip_byte_count + 8)
         else mret (None, skip_byte_count));
      size ←
        (if size_cells_count =? 1 then
           x ← value32 (p_value pr) ptr; mret (Some (be32toh x))
         else if size_cells_count =? 2 then
           x ← value64 (p_value pr) ptr; mret (Some (be64toh x))
         else mret None);
      mret (0, address, size).

Definition get_reg_item (fuel : nat) (node idx : Z) : M (dt A) (Z * option Z * option Z) :=
  reg_property ← get_property fuel node str_reg;
  match reg_property with
  | None => mret (1, None, None)
  | Some reg_property =>
      address_cells_count ← get_address_cells_count fuel node;
      size_cells_count ← get_size_cells_count fuel node;
      pr ← get (fun s => props s reg_property);
      reg_item pr address_cells_count size_cells_count idx
  end.

(** The strings of a list of [total_length] bytes, the last one up to its
    terminator; a string that runs past the end of the value is undefined. *)
Fixpoint string_at (v : list Z) : option (list Z * list Z) :=
  match v with
  | [] => None
  | b :: v => if b =? 0 then Some ([], v) else '(l, r) ← string_at v; Some (b :: l, r)
  end.

Fixpoint contains_string (fuel : nat) (stringlist : list Z) (target : list Z) : M (dt A) bool :=
  match fuel with
  | O => panic
  | S fuel =>
      match stringlist with
      | [] => mret false
      | _ =>
          match string_at stringlist with
          | None => panic
          | Some (l, rest) => if bool_decide (l = target) then mret true else contains_string fuel rest target
          end
      end
  end.

(** What [print_stringlist] passes to [printk], one string after the other. *)
Fixpoint print_stringlist (fuel : nat) (stringlist : list Z) : M (dt A) (list (list Z)) :=
  match fuel with
  | O => panic
  | S fuel =>
      match stringlist with
      | [] => mret []
      | _ =>
          match string_at stringlist with
          | None => panic
          | Some (l, rest) => ls ← print_stringlist fuel rest; mret (l :: ls)
          end
      end
  end.

(** ** The parser *)

Variable m : memory.

(** The string at [a], without its terminator. *)
Fixpoint read_str (fuel : nat) (a : Z) : option (list Z) :=
  match fuel with
  | O => None
  | S fuel => if load8 m a =? 0 then Some [] else l ← read_str fuel (a + 1); Some (load8 m a :: l)
  end.

Definition get_str (fuel : nat) (a : Z) : M (dt A) (list Z) :=
  match read_str fuel a with Some l => mret l | None => panic end.

Definition be32 (a : Z) : Z := be32toh (load32 m a).

(** The reserved-memory entries, up to the one of two zeros. *)
Fixpoint skip_reserved (fuel : nat) (a : Z) : M (dt A) unit :=
  match fuel with
  | O => panic
  | S fuel =>
      if (load64 m a =? 0) && (load64 m (a + 8) =? 0) then mret tt else skip_reserved fuel (a + 16)
  end.

(** The locals of the token loop: [node_stack], [node_stack_top] and the root. *)
Record pstate := PState { node_stack : Z -> Z; node_stack_top : Z; root : Z }.

(** [node_stack[i]] *)
Definition stack_get (st : pstate) (i : Z) : M (dt A) Z :=
  if (0 <=? i) && (i <? MAX_STACK_DEPTH) then mret (node_stack st i) else panic.

(** [case FDT_BEGIN_NODE]: the name is at [ptr]; [None] is [goto finish]. *)
Definition begin_node (fuel : nat) (ptr : Z) (st : pstate) : M (dt A) (option (Z * pstate)) :=
  nm ← get_str fuel ptr;
  let current_ptr := ptr + Z.of_nat (length nm) in
  (if NAME_BUFFER_LEN <? Z.of_nat (length nm) + 1 then panic else mret tt) ;;
  parent_node ← (if 0 <? node_stack_top st then stack_get st (node_stack_top st - 1) else mret 0);
  if MAX_STACK_DEPTH <=? node_stack_top st then mret None
  else
    current_node ← create_device_node nm;
    (if negb (parent_node =? 0) then device_node_insert_child parent_node current_node else mret tt) ;;
    mret (Some (ROUND current_ptr 4,
      PState (<[node_stack_top st := current_node]> (node_stack st)) (node_stack_top st + 1)
        (if root st =? 0 then current_node else root st))).

(** [case FDT_PROP]: the header is at [ptr]. *)
Definition prop_node (fuel : nat) (string_ptr ptr : Z) (st : pstate) : M (dt A) (option (Z * pstate)) :=
  let prop_len := be32 ptr in
  let prop_name := string_ptr + be32 (ptr + 4) in
  if node_stack_top st =? 0 then mret None
  else
    device_node ← stack_get st (node_stack_top st - 1);
    let current_ptr := ptr + 8 in
    nm ← get_str fuel prop_name;
    device_node_insert_propertiy device_node nm prop_len
      (map (fun i => load8 m (current_ptr + i)) (seqZ 0 prop_len)) ;;
    mret (Some (ROUND (current_ptr + prop_len) 4, st)).

Fixpoint parse_loop (fuel : nat) (string_ptr ptr : Z) (st : pstate) : M (dt A) Z :=
  match fuel with
  | O => panic
  | S fuel' =>
      let current_token := be32 ptr in
      let ptr := ptr + 4 in
      if current_token =? 0 then parse_loop fuel' string_ptr ptr st
      else if current_token =? FDT_BEGIN_NODE then
        r ← begin_node fuel ptr st;
        match r with
        | Some (ptr, st) => parse_loop fuel' string_ptr ptr st
        | None => mret (root st)
        end
      else if current_token =? FDT_END_NODE then
        parse_loop fuel' string_ptr ptr (PState (node_stack st) (u64 (node_stack_top st - 1)) (root st))
      else if current_token =? FDT_PROP then
        r ← prop_node fuel string_ptr ptr st;
        match r with
        | Some (ptr, st) => parse_loop fuel' string_ptr ptr st
        | None => mret (root st)
        end
      else if current_token =? FDT_NOP then parse_loop fuel' string_ptr ptr st
      else mret (root st)
  end.

(** The root of the tree, 0 for NULL. *)
Definition parse_tree (fuel : nat) (begin : Z) : M (dt A) Z :=
  if negb (be32 begin =? FDT_MAGIC) then mret 0
  else
    skip_reserved fuel (begin + be32 (begin + 16)) ;;
    parse_loop fuel (begin + be32 (begin + 12)) (begin + be32 (begin + 8))
      (PState (fun _ => 0) 0 0).
End dt.

(** Runs the steps that are not calls. *)
Ltac msteps :=
  repeat (cbv beta; first [rewrite bind_assoc | rewrite bind_get | rewrite bind_modify | rewrite bind_mret]).
