(* ===== verification/DtParse.v ===== *)
(** The device-tree parser against the encoding of a reference tree.

    [tree] and [enc_tree] are the reference: a tree and its encoding in the
    format of the blob.  [node_rep] relates a node in the heap to a tree,
    [inv] the stack of the parser to its open nodes, and [goes] describes the
    token loop step by step. *)
From S2P Require Import Prelude Mem Mmu CString Endian Alloc Kmalloc DeviceTree.

(** A big-endian word in memory. *)
Lemma be32_bytes m a b3 b2 b1 b0 :
  m a = b3 -> m (a + 1) = b2 -> m (a + 2) = b1 -> m (a + 3) = b0 ->
  is_byte b3 -> is_byte b2 -> is_byte b1 -> is_byte b0 -> be32 m a = of_bytes [b3; b2; b1; b0].
Proof.
  Transparent load.
  intros E3 E2 E1 E0 H3 H2 H1 H0. unfold be32, be32toh.
  replace (load32 m a) with (of_bytes [b0; b1; b2; b3]); [by apply swap_uint32_bytes|].
  cbn [load]. replace (a + 1 + 1) with (a + 2) by lia. replace (a + 2 + 1) with (a + 3) by lia.
  rewrite E3, E2, E1, E0. unfold u8. rewrite !Z.mod_small by lia. unfold of_bytes. cbn [fold_left]. lia.
  Opaque load.
Qed.

(** ** Reference trees and their encoding *)

Inductive tree : Type := Tree (nm : list Z) (ps : list (list Z * list Z)) (ks : list tree).

Lemma tree_ind' (P : tree -> Prop) :
  (forall nm ps ks, Forall P ks -> P (Tree nm ps ks)) -> forall t, P t.
Proof.
  intros HP. fix IH 1. intros [nm ps ks]. apply HP.
  induction ks as [|k ks IHks]; constructor; [apply IH|exact IHks].
Qed.

(** The code inserts at the head of its lists, so it reverses them. *)
Fixpoint mirror (t : tree) : tree :=
  match t with Tree nm ps ks => Tree nm (rev ps) (rev (map mirror ks)) end.

(** A big-endian 32-bit word. *)
Definition be_enc (v : Z) : list Z := [v / 2 ^ 24 mod 256; v / 2 ^ 16 mod 256; v / 2 ^ 8 mod 256; v mod 256].

(** Padding to a multiple of four bytes. *)
Definition pad4 (l : list Z) : list Z := l ++ replicate (Z.to_nat ((- Z.of_nat (length l)) mod 4)) 0.

Definition enc_begin (nm : list Z) : list Z := be_enc FDT_BEGIN_NODE ++ pad4 (nm ++ [0]).

Section encode.
(** The offset of a property's name in the strings block. *)
Variable off : list Z -> Z.

Definition enc_prop (p : list Z * list Z) : list Z :=
  be_enc FDT_PROP ++ be_enc (Z.of_nat (length p.2)) ++ be_enc (off p.1) ++ pad4 p.2.

Fixpoint enc_tree (t : tree) : list Z :=
  match t with
  | Tree nm ps ks =>
      enc_begin nm ++ concat (map enc_prop ps) ++
      concat (map enc_tree ks) ++ be_enc FDT_END_NODE
  end.
End encode.

(** The memory the parser takes for a tree. *)
Definition node_cost (nm : list Z) : Z := sizeof_device_node + 56 + (Z.of_nat (length nm) + 1 + 56).
Definition prop_cost (p : list Z * list Z) : Z :=
  (sizeof_property + 56) + (Z.of_nat (length p.1) + 1 + 56) + (Z.of_nat (length p.2) + 56).
Definition sum (l : list Z) : Z := fold_right Z.add 0 l.
Fixpoint tree_cost (t : tree) : Z :=
  match t with
  | Tree nm ps ks =>
      node_cost nm + sum (map prop_cost ps) +
      sum (map tree_cost ks)
  end.

Fixpoint depth (t : tree) : nat :=
  match t with Tree _ _ ks => S (fold_right Nat.max O (map depth ks)) end.

(** What a blob may hold: names of non-zero bytes, node names that fit the
    parser's buffer, and properties that satisfy [P]. *)
Definition str_ok (l : list Z) : Prop := Forall (fun b => is_byte b /\ b <> 0) l.
Definition prop_ok (p : list Z * list Z) : Prop :=
  str_ok p.1 /\ Z.of_nat (length p.1) < 2 ^ 32 /\
  Forall (fun b => is_byte b) p.2 /\ Z.of_nat (length p.2) < 2 ^ 32.
Fixpoint tree_ok (P : list Z * list Z -> Prop) (t : tree) : Prop :=
  match t with
  | Tree nm ps ks =>
      str_ok nm /\ Z.of_nat (length nm) < NAME_BUFFER_LEN /\ Forall P ps /\
      fold_right (fun k Q => tree_ok P k /\ Q) True ks
  end.

Lemma tree_ok_kids P ks : fold_right (fun k Q => tree_ok P k /\ Q) True ks <-> Forall (tree_ok P) ks.
Proof. induction ks as [|k ks IH]; simpl; [by split|]. by rewrite Forall_cons, IH. Qed.

(** ** Trees in the heap *)

Section rep.
Context {A : Type}.

Section kids.
Variables (R : Z -> tree -> Prop) (nxt : Z -> Z).
Fixpoint kids_rep (q : Z) (ks : list tree) : Prop :=
  match ks with [] => q = 0 | k :: ks => R q k /\ kids_rep (nxt q) ks end.
End kids.

(** [C] holds the addresses the representation may use. *)
Fixpoint props_rep (C : Z -> Prop) (s : dt A) (p : Z) (ps : list (list Z * list Z)) : Prop :=
  match ps with
  | [] => p = 0
  | (nm, v) :: ps =>
      p <> 0 /\ C p /\ p_name (props s p) = nm /\ p_value (props s p) = v /\
      p_length (props s p) = Z.of_nat (length v) /\ props_rep C s (p_next (props s p)) ps
  end.

Definition sib (s : dt A) (q : Z) : Z := sibling (nodes s q).

Fixpoint node_rep (C : Z -> Prop) (s : dt A) (par p : Z) (t : tree) : Prop :=
  match t with
  | Tree nm ps ks =>
      p <> 0 /\ C p /\ name (nodes s p) = nm /\ parent (nodes s p) = par /\
      props_rep C s (properties (nodes s p)) ps /\
      kids_rep (node_rep C s p) (sib s) (child (nodes s p)) ks
  end.

(** Two states that agree on [C]. *)
Definition agree (C : Z -> Prop) (s s' : dt A) : Prop :=
  forall q, C q -> nodes s' q = nodes s q /\ props s' q = props s q.

Lemma props_rep_frame (C C' : Z -> Prop) s s' : (forall q, C q -> C' q) -> agree C s s' ->
  forall ps p, props_rep C s p ps -> props_rep C' s' p ps.
Proof.
  intros HC Ha. induction ps as [|[nm v] ps IH]; intros p; simpl; [done|].
  intros (H1 & H2 & H3 & H4 & H5 & H6). destruct (Ha p H2) as [_ ->]. split_and!; auto.
Qed.

Lemma node_rep_in C s par p t : node_rep C s par p t -> p <> 0 /\ C p.
Proof. destruct t. simpl. tauto. Qed.

Lemma node_rep_frame (C C' : Z -> Prop) s s' : (forall q, C q -> C' q) -> agree C s s' ->
  forall t par p, node_rep C s par p t -> node_rep C' s' par p t.
Proof.
  intros HC Ha. induction t as [nm ps ks IH] using tree_ind'. intros par p. cbn [node_rep].
  intros (H1 & H2 & H3 & H4 & H5 & H6). destruct (Ha p H2) as [-> _].
  split_and!; try done; [auto|by eapply props_rep_frame|].
  revert H6. generalize (child (nodes s p)) as q.
  induction IH as [|k ks Hk Hks IHks]; intros q; simpl; [done|].
  intros [Hq Hr]. split; [by apply Hk|]. apply node_rep_in in Hq as [_ Hq].
  assert (sib s' q = sib s q) as -> by (unfold sib; by rewrite (proj1 (Ha q Hq))). by apply IHks.
Qed.

Lemma kids_rep_frame (C C' : Z -> Prop) s s' par : (forall q, C q -> C' q) -> agree C s s' ->
  forall ks q, kids_rep (node_rep C s par) (sib s) q ks -> kids_rep (node_rep C' s' par) (sib s') q ks.
Proof.
  intros HC Ha. induction ks as [|k ks IH]; intros q; simpl; [done|].
  intros [Hq Hr]. split; [by eapply node_rep_frame|]. apply node_rep_in in Hq as [_ Hq].
  assert (sib s' q = sib s q) as -> by (unfold sib; by rewrite (proj1 (Ha q Hq))). by apply IH.
Qed.
End rep.

(** ** The open nodes of the parser *)

Record frame := Frame { f_addr : Z; f_name : list Z; f_props : list (list Z * list Z); f_kids : list tree }.
Definition frame_tree (f : frame) : tree := Tree (f_name f) (f_props f) (f_kids f).
Definition addrs (fs : list frame) : list Z := map f_addr fs.
Definition top_addr (fs : list frame) : Z := match fs with f :: _ => f_addr f | [] => 0 end.

Section inv.
Context {A : Type} `{Allocator A}.

(** The frames from the top; [hole] is the open child of the first one. *)
Fixpoint stack_rep (C : Z -> Prop) (s : dt A) (hole : option Z) (fs : list frame) : Prop :=
  match fs with
  | [] => True
  | f :: fs =>
      let a := f_addr f in
      a <> 0 /\ name (nodes s a) = f_name f /\ parent (nodes s a) = top_addr fs /\
      props_rep C s (properties (nodes s a)) (f_props f) /\
      match hole with
      | None => kids_rep (node_rep C s a) (sib s) (child (nodes s a)) (f_kids f)
      | Some c => child (nodes s a) = c /\ kids_rep (node_rep C s a) (sib s) (sib s c) (f_kids f)
      end /\
      stack_rep C s (Some a) fs
  end.

(** Addresses in use that belong to no open node. *)
Definition closed (L : Z -> Prop) (fs : list frame) (q : Z) : Prop := L q /\ q ∉ addrs fs.

Record inv (L : Z -> Prop) (R : Z) (s : dt A) (st : pstate) (fs : list frame) : Prop := {
  inv_heap : alloc_inv (dt_heap s) L R;
  inv_live : forall a, a ∈ addrs fs -> L a;
  inv_nodup : NoDup (addrs fs);
  inv_stack : stack_rep (closed L fs) s None fs;
  inv_top : node_stack_top st = Z.of_nat (length fs);
  inv_array : forall i f, fs !! i = Some f -> node_stack st (Z.of_nat (length fs) - 1 - Z.of_nat i) = f_addr f
}.

Lemma stack_rep_frame (C C' : Z -> Prop) s s' : (forall q, C q -> C' q) -> agree C s s' ->
  forall fs hole, (forall a, a ∈ addrs fs -> nodes s' a = nodes s a) ->
  (forall c, hole = Some c -> sib s' c = sib s c) ->
  stack_rep C s hole fs -> stack_rep C' s' hole fs.
Proof.
  intros HC Ha. induction fs as [|f fs IH]; intros hole Hn Hh; [done|]. cbn [stack_rep].
  intros (H1 & H2 & H3 & H4 & H5 & H6).
  rewrite (Hn (f_addr f)) by (simpl; set_solver).
  split_and!; try done; [by eapply props_rep_frame| |].
  - destruct hole as [c|]; [|by eapply kids_rep_frame].
    destruct H5 as [H5 H7]. split; [done|]. rewrite Hh by done. by eapply kids_rep_frame.
  - apply IH; [|intros c [= <-]; unfold sib; by rewrite Hn by (simpl; set_solver)|done].
    intros a Hin. apply Hn. simpl. set_solver.
Qed.

Lemma kmalloc_ok s L R size : 0 <= size < 2 ^ 63 -> 0 <= R -> alloc_inv (dt_heap s) L (R + (size + 56)) ->
  exists p h, kmalloc_or_panic size s = Ret p (Dt h (nodes s) (props s)) /\ p <> 0 /\ ~ L p /\
    alloc_inv h (fun q => q = p \/ L q) R.
Proof.
  intros Hs HR Hi. destruct (alloc_spec _ _ _ _ Hs HR Hi) as (p & h & E & Hp & HL & Hi').
  exists p, h. split_and!; try done. unfold kmalloc_or_panic.
  assert (in_heap (alloc size) s = Ret (Some p) (Dt h (nodes s) (props s))) as E' by exact (zoom_ret dt_heap (fun h s => Dt h (nodes s) (props s)) _ _ _ _ E).
  by mrun E'.
Qed.

(** A new node, not yet linked. *)
Lemma create_node_ok s L R nm : Z.of_nat (length nm) < 2 ^ 32 -> 0 <= R ->
  alloc_inv (dt_heap s) L (R + (sizeof_device_node + 56 + (Z.of_nat (length nm) + 1 + 56))) ->
  exists p np h (L' : Z -> Prop),
    create_device_node nm s = Ret p (Dt h (<[p := MkNode np nm 0 0 0 0]> (nodes s)) (props s)) /\
    p <> 0 /\ ~ L p /\ (forall q, L q -> L' q) /\ L' p /\ alloc_inv h L' R.
Proof.
  intros Hl HR Hi. unfold create_device_node.
  destruct (kmalloc_ok s L (R + (Z.of_nat (length nm) + 1 + 56)) sizeof_device_node) as (p & h1 & E1 & Hp & HL & Hi1).
  { done. } { lia. }
  { eapply alloc_inv_le; [|exact Hi]. lia. }
  destruct (kmalloc_ok (Dt h1 (nodes s) (props s)) (fun q => q = p \/ L q) R (Z.of_nat (length nm) + 1))
    as (np & h2 & E2 & _ & _ & Hi2); [lia|done|exact Hi1|].
  exists p, np, h2, (fun q => q = np \/ q = p \/ L q). rewrite (bind_ret _ _ _ _ _ E1).
  rewrite (bind_ret _ _ _ _ _ E2). split_and!; try done; tauto.
Qed.

Lemma closed_new L L' fs f : (forall q, L q -> L' q) -> ~ L (f_addr f) ->
  forall q, closed L fs q -> closed L' (f :: fs) q.
Proof. intros HL Hn q [H1 H2]. split; [auto|]. simpl. rewrite elem_of_cons. intros [->|]; done. Qed.

Lemma insert_child_ok (s : dt A) a p : a <> p ->
  exists s', device_node_insert_child a p s = Ret tt s' /\ dt_heap s' = dt_heap s /\ props s' = props s /\
    nodes s' p = MkNode (name_ptr (nodes s p)) (name (nodes s p)) a (child (nodes s p)) (child (nodes s a))
                   (properties (nodes s p)) /\
    nodes s' a = MkNode (name_ptr (nodes s a)) (name (nodes s a)) (parent (nodes s a)) p (sibling (nodes s a))
                   (properties (nodes s a)) /\
    forall q, q <> p -> q <> a -> nodes s' q = nodes s q.
Proof.
  intros Hne. unfold device_node_insert_child, put_node. msteps. unfold modify. simpl.
  eexists. split; [reflexivity|]. simpl.
  rewrite !fn_lookup_insert, !(fn_lookup_insert_ne _ p a), !(fn_lookup_insert_ne _ a p), !fn_lookup_insert by done.
  split_and!; try done. intros q Hq Hq'. by rewrite !fn_lookup_insert_ne by done.
Qed.

(** Linking the new node [p] below the top frame. *)
Lemma link_rep (C C' : Z -> Prop) (s s' : dt A) p f fs :
  stack_rep C s None (f :: fs) -> (forall q, C q -> C' q) -> ~ C p -> ~ C (f_addr f) ->
  p ∉ addrs (f :: fs) -> NoDup (addrs (f :: fs)) -> props s' = props s ->
  (forall q, q <> p -> q <> f_addr f -> nodes s' q = nodes s q) ->
  name (nodes s' (f_addr f)) = name (nodes s (f_addr f)) ->
  parent (nodes s' (f_addr f)) = parent (nodes s (f_addr f)) ->
  properties (nodes s' (f_addr f)) = properties (nodes s (f_addr f)) ->
  child (nodes s' (f_addr f)) = p -> sib s' p = child (nodes s (f_addr f)) ->
  sib s' (f_addr f) = sib s (f_addr f) ->
  stack_rep C' s' (Some p) (f :: fs).
Proof.
  intros (S0 & S1 & S2 & S3 & S4 & S5) HC Hp Hf Hpf Hnd Hps Hn E1 E2 E3 E4 E5 E6.
  apply NoDup_cons in Hnd as [Hff _].
  assert (agree C s s') as Ha.
  { intros q Hq. split; [apply Hn; by intros ->|by rewrite Hps]. }
  cbn [stack_rep]. rewrite E1, E2, E3, E4, E5. split_and!; try done.
  - by eapply props_rep_frame.
  - by eapply kids_rep_frame.
  - assert (forall a, a ∈ addrs fs -> nodes s' a = nodes s a) as Hfs.
    { intros a Ha'. apply Hn; intros ->; [apply Hpf; simpl; set_solver|done]. }
    eapply stack_rep_frame; [exact HC|exact Ha|exact Hfs| |exact S5].
    by intros c [= <-].
Qed.

(** A new node on the stack, its child, parent and property fields set. *)
Lemma push_inv L L' R s s' st fs p nm R0 : inv L R0 s st fs -> alloc_inv (dt_heap s') L' R ->
  p <> 0 -> ~ L p -> (forall q, L q -> L' q) -> L' p ->
  nodes s' p = MkNode (name_ptr (nodes s' p)) nm (top_addr fs) 0 (sib s' p) 0 ->
  stack_rep (closed L' (Frame p nm [] [] :: fs)) s' (Some p) fs ->
  inv L' R s' (PState (<[node_stack_top st := p]> (node_stack st)) (node_stack_top st + 1)
                 (if root st =? 0 then p else root st)) (Frame p nm [] [] :: fs).
Proof.
  intros [I1 I2 I3 I4 I5 I6] Hi Hp HL HL' HLp Hn Hs. split; [done|..].
  - intros a Ha. simpl in Ha. apply elem_of_cons in Ha as [->|Ha]; [done|auto].
  - simpl. constructor; [|done]. intros Hin. by apply HL, I2.
  - cbn [stack_rep f_addr f_name f_props f_kids]. rewrite Hn. by split_and!.
  - simpl. rewrite I5. lia.
  - intros i f Hf. cbn [node_stack length]. rewrite I5. destruct i as [|i]; simpl in Hf.
    + injection Hf as <-. replace (Z.of_nat (S (length fs)) - 1 - Z.of_nat 0) with (Z.of_nat (length fs)) by lia.
      by rewrite fn_lookup_insert.
    + pose proof (lookup_lt_Some _ _ _ Hf). rewrite fn_lookup_insert_ne by lia.
      replace (Z.of_nat (S (length fs)) - 1 - Z.of_nat (S i)) with (Z.of_nat (length fs) - 1 - Z.of_nat i) by lia.
      by apply I6.
Qed.

(** Opening a node: its frame on top of the others. *)
Lemma open_node L R s st fs nm : inv L (R + node_cost nm) s st fs ->
  Z.of_nat (length nm) < 2 ^ 32 -> 0 <= R ->
  exists p s1 s' L',
    create_device_node nm s = Ret p s1 /\
    (if negb (top_addr fs =? 0) then device_node_insert_child (top_addr fs) p else mret tt) s1 = Ret tt s' /\
    p <> 0 /\
    inv L' R s' (PState (<[node_stack_top st := p]> (node_stack st)) (node_stack_top st + 1)
                   (if root st =? 0 then p else root st)) (Frame p nm [] [] :: fs).
Proof.
  intros I Hl HR. destruct (create_node_ok s L R nm Hl HR (inv_heap _ _ _ _ _ I))
    as (p & np & h & L' & E & Hp & HL & HL' & HLp & Hi).
  set (s1 := Dt h (<[p := MkNode np nm 0 0 0 0]> (nodes s)) (props s)) in *.
  assert (forall a, a ∈ addrs fs -> a <> p) as Hne by (intros a Ha ->; by apply HL, (inv_live _ _ _ _ _ I)).
  assert (nodes s1 p = MkNode np nm 0 0 0 0) as Hs1p by (unfold s1; simpl; by rewrite fn_lookup_insert).
  destruct fs as [|f fs].
  { exists p, s1, s1, L'. split_and!; try done. eapply push_inv; try done. unfold sib. by rewrite Hs1p. }
  pose proof (inv_stack _ _ _ _ _ I) as Hst. cbn [top_addr]. pose proof Hst as (Hf0 & _).
  assert (f_addr f <> p) as Hfp by (apply Hne; simpl; set_solver).
  destruct (insert_child_ok s1 _ _ Hfp) as (s2 & E2 & H1 & H2 & Hnp & Hnf & Hn).
  assert (forall q, q <> p -> nodes s1 q = nodes s q) as Hs1.
  { intros q Hq. unfold s1. simpl. by rewrite fn_lookup_insert_ne. }
  rewrite (Hs1 _ Hfp) in Hnf, Hnp. rewrite Hs1p in Hnp.
  exists p, s1, s2, L'. rewrite (proj2 (Z.eqb_neq (f_addr f) 0)) by done.
  split_and!; [done|done|done|]. eapply push_inv; try done; [by rewrite H1|unfold sib; by rewrite Hnp|].
  eapply (link_rep (closed L (f :: fs)) _ s); [exact Hst|exact (closed_new L L' _ (Frame p nm [] []) HL' HL)|..];
    unfold sib; rewrite ?Hnp, ?Hnf; try done.
  - intros [Hin _]. done.
  - intros [_ Hin]. apply Hin. simpl. set_solver.
  - intros Hin. by apply (Hne p).
  - by eapply inv_nodup.
  - intros q Hq Hq'. by rewrite Hn, Hs1.
Qed.

(** A property of the innermost open node. *)
Lemma add_prop L R s st f fs nm v :
  inv L (R + prop_cost (nm, v)) s st (f :: fs) -> 0 <= R ->
  Z.of_nat (length nm) < 2 ^ 32 -> Z.of_nat (length v) < 2 ^ 32 ->
  exists s' L',
    device_node_insert_propertiy (f_addr f) nm (Z.of_nat (length v)) v s = Ret tt s' /\
    inv L' R s' st (Frame (f_addr f) (f_name f) ((nm, v) :: f_props f) (f_kids f) :: fs).
Proof.
  intros [I1 I2 I3 I4 I5 I6] HR Hnm Hv. unfold prop_cost in I1. simpl in I1.
  unfold device_node_insert_propertiy.
  destruct (kmalloc_ok s L (R + (Z.of_nat (length v) + 56) + (Z.of_nat (length nm) + 1 + 56)) sizeof_property)
    as (p & h1 & E1 & Hp & HL & Hi1); [done|lia|eapply alloc_inv_le; [|exact I1]; lia|].
  destruct (kmalloc_ok (Dt h1 (nodes s) (props s)) (fun q => q = p \/ L q) (R + (Z.of_nat (length v) + 56))
    (Z.of_nat (length nm) + 1)) as (np & h2 & E2 & _ & _ & Hi2); [lia|lia|exact Hi1|].
  destruct (kmalloc_ok (Dt h2 (nodes s) (props s)) (fun q => q = np \/ q = p \/ L q) R (Z.of_nat (length v)))
    as (vp & h3 & E3 & _ & _ & Hi3); [lia|lia|exact Hi2|].
  mrun E1. mrun E2. mrun E3. unfold put_prop, put_node. msteps. unfold modify. cbn [nodes props dt_heap].
  set (L' := fun q => q = vp \/ q = np \/ q = p \/ L q) in *.
  eexists _, L'. split; [reflexivity|].
  set (g := Frame (f_addr f) (f_name f) ((nm, v) :: f_props f) (f_kids f)).
  assert (addrs (g :: fs) = addrs (f :: fs)) as Hg by done.
  assert (forall a, a ∈ addrs (f :: fs) -> a <> p) as Hne by (intros a Ha ->; by apply HL, I2).
  set (s' := Dt _ _ _).
  assert (forall q, closed L (f :: fs) q -> closed L' (g :: fs) q) as Hcl.
  { intros q [H1 H2]. split; [right; right; by right|by rewrite Hg]. }
  assert (agree (closed L (f :: fs)) s s') as Ha.
  { intros q [H1 H2]. unfold s'. simpl in *. rewrite !fn_lookup_insert_ne; [done|set_solver|set_solver]. }
  pose proof I4 as (S0 & S1 & S2 & S3 & S4 & S5).
  apply NoDup_cons in I3 as Hnd. destruct Hnd as [Hff _].
  assert (nodes s' (f_addr f) = MkNode (name_ptr (nodes s (f_addr f))) (name (nodes s (f_addr f)))
    (parent (nodes s (f_addr f))) (child (nodes s (f_addr f))) (sibling (nodes s (f_addr f))) p) as Hnf.
  { unfold s'. simpl. by rewrite fn_lookup_insert. }
  split; try done.
  - intros a Ha'. rewrite Hg in Ha'. right. right. right. by apply I2.
  - cbn [stack_rep]. change (f_addr g) with (f_addr f). rewrite Hnf. cbn [name parent properties child].
    split_and!; try done.
    + assert (props s' p = MkProp np nm (Z.of_nat (length v)) vp v (properties (nodes s (f_addr f)))) as Hpp.
      { unfold s'. simpl. by rewrite fn_lookup_insert. }
      cbn [f_props g props_rep]. rewrite Hpp. simpl. split_and!; try done; [|by eapply props_rep_frame].
      split; [right; right; by left|]. intros Hin. by apply (Hne p).
    + by eapply kids_rep_frame.
    + eapply stack_rep_frame; [exact Hcl|exact Ha|..|exact S5].
      * intros a Ha'. unfold s'. simpl. rewrite fn_lookup_insert_ne; [done|]. by intros <-.
      * intros c [= <-]. unfold sib. by rewrite Hnf.
  - intros i x Hx. cbn [length] in *. destruct i as [|i]; [|by apply (I6 (S i))].
    injection Hx as <-. by apply (I6 O f).
Qed.

(** Closing a node makes it the first child of the next one. *)
Lemma close_node L R s st f g fs : inv L R s st (f :: g :: fs) ->
  inv L R s (PState (node_stack st) (node_stack_top st - 1) (root st))
    (Frame (f_addr g) (f_name g) (f_props g) (frame_tree f :: f_kids g) :: fs).
Proof.
  intros [I1 I2 I3 I4 I5 I6].
  set (g' := Frame (f_addr g) (f_name g) (f_props g) (frame_tree f :: f_kids g)).
  assert (addrs (g' :: fs) = addrs (g :: fs)) as Hg by done.
  apply NoDup_cons in I3 as [Hf Hnd]. pose proof I4 as (S0 & S1 & S2 & S3 & S4 & T0 & T1 & T2 & T3 & T4 & T5).
  assert (forall q, closed L (f :: g :: fs) q -> closed L (g' :: fs) q) as Hcl.
  { intros q [H1 H2]. split; [done|]. rewrite Hg. simpl in *. set_solver. }
  assert (agree (closed L (f :: g :: fs)) s s) as Ha by done.
  split; try done.
  - intros a Hin. apply I2. rewrite Hg in Hin. simpl in *. set_solver.
  - cbn [stack_rep]. change (f_addr g') with (f_addr g). split_and!; try done.
    + by eapply props_rep_frame.
    + destruct T4 as [T4 T6]. rewrite T4. cbn [kids_rep g' f_kids]. split; [|by eapply kids_rep_frame].
      cbn [node_rep frame_tree]. split_and!; try done; [|by eapply props_rep_frame|by eapply kids_rep_frame].
      split; [apply I2; simpl; set_solver|done].
    + eapply stack_rep_frame; [exact Hcl|exact Ha|done|done|exact T5].
  - cbn [node_stack_top length] in *. lia.
  - intros i x Hx. cbn [length node_stack] in *.
    destruct i as [|i].
    + injection Hx as <-. transitivity (f_addr g); [|done]. rewrite <- (I6 1%nat g) by done. f_equal; lia.
    + rewrite <- (I6 (S (S i)) x) by done. f_equal; lia.
Qed.
End inv.

(** ** The blob in memory *)

(** The bytes [l] at [a]. *)
Fixpoint has (m : memory) (a : Z) (l : list Z) : Prop :=
  match l with [] => True | b :: l => m a = b /\ has m (a + 1) l end.

Lemma has_app m l k : forall a, has m a (l ++ k) <-> has m a l /\ has m (a + Z.of_nat (length l)) k.
Proof.
  induction l as [|b l IH]; intros a; cbn [has app length].
  - rewrite Z.add_0_r. tauto.
  - rewrite IH. replace (a + 1 + Z.of_nat (length l)) with (a + Z.of_nat (S (length l))) by lia. tauto.
Qed.

Lemma load8_byte m a b : m a = b -> is_byte b -> load8 m a = b.
Proof. intros <- Hb. rewrite load8_u8. unfold u8. by apply Z.mod_small. Qed.

Lemma read_str_ok m l : forall a fuel, str_ok l -> has m a (l ++ [0]) -> (length l < fuel)%nat ->
  read_str m fuel a = Some l.
Proof.
  induction l as [|b l IH]; intros a [|fuel] Hl Hm Hf; simpl in Hf; try lia; cbn [read_str].
  - destruct Hm as [Hm _]. by rewrite (load8_byte _ _ _ Hm).
  - apply Forall_cons in Hl as [[Hb Hb0] Hl]. destruct Hm as [Hb1 Hm].
    rewrite (load8_byte _ _ _ Hb1 Hb). destruct (Z.eqb_spec b 0); [done|].
    rewrite (IH (a + 1)); [done..|lia].
Qed.

Lemma has_bytes m l : forall a, Forall (fun b => is_byte b) l -> has m a l ->
  map (fun i => load8 m (a + i)) (seqZ 0 (Z.of_nat (length l))) = l.
Proof.
  induction l as [|b l IH]; intros a Hl Hm; [done|]. destruct Hm as [Hb Hm].
  apply Forall_cons in Hl as [Hb' Hl]. rewrite seqZ_cons by (simpl; lia). cbn [map].
  rewrite Z.add_0_r, (load8_byte _ _ _ Hb Hb'). f_equal.
  rewrite <- (IH (a + 1) Hl Hm) at 2. replace (Z.pred (Z.of_nat (length (b :: l)))) with (Z.of_nat (length l)) by (simpl; lia).
  change (Z.succ 0) with (0 + 1). rewrite (Z.add_comm 0 1), <- fmap_add_seqZ, map_map. apply map_ext. intros i. f_equal. lia.
Qed.

Lemma be32_enc m a v : 0 <= v < 2 ^ 32 -> has m a (be_enc v) -> be32 m a = v.
Proof.
  intros Hv (H3 & H2 & H1 & H0 & _).
  replace (a + 1 + 1) with (a + 2) in * by lia. replace (a + 2 + 1) with (a + 3) in * by lia.
  assert (forall x, is_byte (x mod 256)) as Hb by (intros x; apply (Z.mod_pos_bound x 256); lia).
  rewrite (be32_bytes m a _ _ _ _ H3 H2 H1 H0) by apply Hb. unfold of_bytes. cbn [fold_left].
  clear -Hv. Z.div_mod_to_equations. lia.
Qed.

Lemma be_enc_length v : length (be_enc v) = 4%nat.
Proof. done. Qed.

Lemma pad4_length l : Z.of_nat (length (pad4 l)) = (Z.of_nat (length l) + 3) / 4 * 4.
Proof.
  unfold pad4. rewrite length_app, length_replicate. Z.div_mod_to_equations. lia.
Qed.

Lemma has_pad4 m a l : has m a (pad4 l) -> has m a l.
Proof. unfold pad4. rewrite has_app. tauto. Qed.

(** ** The token loop *)

Section tokens.
Context {A : Type} `{Allocator A}.
Variables (m : memory) (string_ptr : Z) (off : list Z -> Z) (F : nat).

(** [n] tokens lead from one configuration to another, for any fuel that
    suffices for the longest name. *)
Definition goes (n : nat) (a : Z) (st : pstate) (s : dt A) (a' : Z) (st' : pstate) (s' : dt A) : Prop :=
  forall fuel, (F <= fuel)%nat ->
    parse_loop m (n + fuel) string_ptr a st s = parse_loop m fuel string_ptr a' st' s'.

Lemma goes_trans n1 n2 a1 st1 s1 a2 st2 s2 a3 st3 s3 :
  goes n1 a1 st1 s1 a2 st2 s2 -> goes n2 a2 st2 s2 a3 st3 s3 -> goes (n1 + n2) a1 st1 s1 a3 st3 s3.
Proof.
  intros H1 H2 fuel Hf. replace (n1 + n2 + fuel)%nat with (n1 + (n2 + fuel))%nat by lia.
  rewrite H1 by lia. by apply H2.
Qed.

Lemma goes_0 a st s : goes 0 a st s a st s.
Proof. by intros fuel _. Qed.

(** Names and values that the blob has at the offset of the property. *)
Definition prop_in (p : list Z * list Z) : Prop :=
  prop_ok p /\ (length p.1 < F)%nat /\ 0 <= off p.1 < 2 ^ 32 /\ has m (string_ptr + off p.1) (p.1 ++ [0]).

Definition aligned (a : Z) : Prop := a mod 4 = 0.

Lemma ROUND4 x : 0 <= x < 2 ^ 63 -> ROUND x 4 = (x + 3) / 4 * 4.
Proof. intros Hx. rewrite (ROUND_pow2 2) by lia. change (2 ^ 2) with 4. f_equal. f_equal. lia. Qed.

Lemma goes_end L R s st f fs a : has m a (be_enc FDT_END_NODE) -> inv L R s st (f :: fs) -> (length fs < 64)%nat ->
  goes 1 a st s (a + 4) (PState (node_stack st) (node_stack_top st - 1) (root st)) s.
Proof.
  intros Hm I Hd fuel _. cbn [Nat.add parse_loop]. rewrite (be32_enc m a FDT_END_NODE) by done.
  change (FDT_END_NODE =? 0) with false. change (FDT_END_NODE =? FDT_BEGIN_NODE) with false.
  change (FDT_END_NODE =? FDT_END_NODE) with true. cbv iota.
  do 2 f_equal. pose proof (inv_top _ _ _ _ _ I) as ->. simpl length. unfold u64. apply Z.mod_small. lia.
Qed.

Lemma goes_prop L R s st f fs a p :
  has m a (enc_prop off p) -> prop_in p -> aligned a -> 0 <= a -> a + Z.of_nat (length (enc_prop off p)) < 2 ^ 63 ->
  0 <= R -> inv L (R + prop_cost p) s st (f :: fs) -> (length fs < 64)%nat ->
  exists s' L', goes 1 a st s (a + Z.of_nat (length (enc_prop off p))) st s' /\
    inv L' R s' st (Frame (f_addr f) (f_name f) (p :: f_props f) (f_kids f) :: fs).
Proof.
  destruct p as [nm v]. intros Hm ((Hs & Hnl & Hv & Hvl) & HF & Ho & Hstr) Ha Ha0 Ha1 HR I Hd. cbn [fst snd] in *.
  destruct (add_prop L R s st f fs nm v I HR Hnl Hvl) as (s' & L' & E & I'). exists s', L'. split; [|done].
  intros fuel Hf. unfold enc_prop in *. cbn [fst snd] in *.
  rewrite !length_app, !be_enc_length, !Nat2Z.inj_add, pad4_length in *.
  rewrite !has_app, !be_enc_length in Hm. change (Z.of_nat 4) with 4 in *. destruct Hm as (Ht & Hl & Hoff & Hval%has_pad4).
  cbn [Nat.add parse_loop]. rewrite (be32_enc m a FDT_PROP) by done.
  change (FDT_PROP =? 0) with false. change (FDT_PROP =? FDT_BEGIN_NODE) with false.
  change (FDT_PROP =? FDT_END_NODE) with false. change (FDT_PROP =? FDT_PROP) with true. cbv iota.
  unfold prop_node. rewrite (be32_enc m (a + 4) (Z.of_nat (length v))), (be32_enc m (a + 4 + 4) (off nm)) by (done || lia).
  pose proof (inv_top _ _ _ _ _ I) as Htop. rewrite Htop. simpl length.
  destruct (Z.eqb_spec (Z.of_nat (S (length fs))) 0); [lia|].
  assert (stack_get st (Z.of_nat (S (length fs)) - 1) s = Ret (f_addr f) s) as Eg.
  { unfold stack_get, MAX_STACK_DEPTH. destruct (Z.leb_spec 0 (Z.of_nat (S (length fs)) - 1)); [|lia].
    destruct (Z.ltb_spec (Z.of_nat (S (length fs)) - 1) 64); [|lia]. cbn [andb].
    rewrite <- (inv_array _ _ _ _ _ I O f) by done. cbn [length]. by rewrite Z.sub_0_r. }
  rewrite bind_assoc, (bind_ret _ _ _ _ _ Eg). unfold get_str.
  rewrite (read_str_ok m nm) by (done || lia). msteps.
  replace (a + 4 + 8) with (a + 4 + 4 + 4) by lia.
  rewrite has_bytes by done. rewrite (bind_ret _ _ _ _ _ E). msteps.
  f_equal. unfold aligned in Ha. rewrite ROUND4; clear - Ha Ha0 Ha1; Z.div_mod_to_equations; lia.
Qed.

Lemma top_get L R s st fs : inv L R s st fs -> (length fs <= 64)%nat ->
  (if 0 <? node_stack_top st then stack_get st (node_stack_top st - 1) else mret 0) s = Ret (top_addr fs) s.
Proof.
  intros I Hd. rewrite (inv_top _ _ _ _ _ I). destruct fs as [|f fs]; [done|]. cbn [length] in *.
  replace (0 <? Z.of_nat (S (length fs))) with true by (symmetry; apply Z.ltb_lt; lia).
  unfold stack_get, MAX_STACK_DEPTH. destruct (Z.leb_spec 0 (Z.of_nat (S (length fs)) - 1)); [|lia].
  destruct (Z.ltb_spec (Z.of_nat (S (length fs)) - 1) 64); [|lia]. cbn [andb top_addr].
  rewrite <- (inv_array _ _ _ _ _ I O f) by done. cbn [length]. by rewrite Z.sub_0_r.
Qed.

(** A name whose terminator starts a word leaves a zero token. *)
Definition begin_tokens (nm : list Z) : nat := if Nat.eqb (length nm mod 4) 0 then 2 else 1.

Lemma goes_begin L R s st fs a nm :
  has m a (enc_begin nm) -> str_ok nm -> Z.of_nat (length nm) < NAME_BUFFER_LEN -> (32 <= F)%nat -> aligned a ->
  0 <= a -> a + Z.of_nat (length (enc_begin nm)) < 2 ^ 63 -> (length fs < 64)%nat ->
  0 <= R -> inv L (R + node_cost nm) s st fs ->
  exists p s' L' st', goes (begin_tokens nm) a st s (a + Z.of_nat (length (enc_begin nm))) st' s' /\
    p <> 0 /\ root st' = (if root st =? 0 then p else root st) /\ inv L' R s' st' (Frame p nm [] [] :: fs).
Proof.
  intros Hm Hs Hl HF Ha Ha0 Ha1 Hd HR I.
  destruct (open_node L R s st fs nm I ltac:(unfold NAME_BUFFER_LEN in Hl; lia) HR)
    as (p & s1 & s' & L' & E1 & E2 & Hp & I').
  exists p, s', L'. eexists. split; [|split_and!; [done| |exact I']; done].
  unfold enc_begin in *. rewrite has_app, be_enc_length in Hm. destruct Hm as [Ht Hn].
  rewrite length_app, be_enc_length, Nat2Z.inj_add, pad4_length, length_app, Nat2Z.inj_add in *.
  change (Z.of_nat 4) with 4 in *. change (Z.of_nat (length [0])) with 1 in *. unfold aligned in Ha.
  set (n := Z.of_nat (length nm)) in *.
  assert (forall fuel, (F <= fuel)%nat -> parse_loop m (1 + fuel) string_ptr a st s =
    parse_loop m fuel string_ptr ((a + 4 + n + 3) / 4 * 4)
      (PState (<[node_stack_top st := p]> (node_stack st)) (node_stack_top st + 1)
                   (if root st =? 0 then p else root st)) s') as Hgo.
  { intros fuel Hf. cbn [Nat.add parse_loop]. rewrite (be32_enc m a FDT_BEGIN_NODE) by done.
    change (FDT_BEGIN_NODE =? 0) with false. change (FDT_BEGIN_NODE =? FDT_BEGIN_NODE) with true. cbv iota.
    unfold begin_node, get_str. unfold NAME_BUFFER_LEN in *.
    rewrite (read_str_ok m nm) by (done || by apply has_pad4 || lia). msteps. fold n.
    destruct (Z.ltb_spec 32 (n + 1)); [lia|]. msteps.
    rewrite (bind_ret _ _ _ _ _ (top_get L _ s st fs I ltac:(lia))). rewrite (inv_top _ _ _ _ _ I).
    unfold MAX_STACK_DEPTH. destruct (Z.leb_spec 64 (Z.of_nat (length fs))); [lia|].
    msteps. mrun E1. msteps. mrun E2. msteps. rewrite ROUND4; [done|]. clear - Ha0 Ha1 Hl. Z.div_mod_to_equations. lia. }
  assert (n mod 4 = Z.of_nat (length nm mod 4)) as Hmod by exact (eq_sym (Nat2Z.inj_mod _ 4)).
  unfold begin_tokens. destruct (Nat.eqb_spec (length nm mod 4) 0) as [E|E].
  - intros fuel Hf. change (2 + fuel)%nat with (1 + S fuel)%nat. rewrite Hgo by lia.
    assert (n mod 4 = 0) as En by (rewrite Hmod, E; done).
    assert ((a + 4 + n + 3) / 4 * 4 = a + 4 + n) as -> by (clear - Ha En; Z.div_mod_to_equations; lia).
    cbn [parse_loop]. rewrite (be32_enc m _ 0).
    + f_equal. clear -En. Z.div_mod_to_equations. lia.
    + done.
    + unfold pad4 in Hn. rewrite <- app_assoc, has_app in Hn. destruct Hn as [_ Hn].
      rewrite length_app in Hn. assert (Z.to_nat (- Z.of_nat (length nm + length [0]) mod 4) = 3%nat) as E3.
      { rewrite Nat2Z.inj_add. change (Z.of_nat (length [0])) with 1. fold n. clear -En.
        Z.div_mod_to_equations. lia. }
      rewrite E3 in Hn. exact Hn.
  - intros fuel Hf. rewrite Hgo by done. f_equal. assert (n mod 4 <> 0) as En by lia.
    clear - Ha En. Z.div_mod_to_equations. lia.
Qed.

(** Encodings are whole words. *)
Lemma aligned_add a b : aligned a -> aligned b -> aligned (a + b).
Proof. unfold aligned. intros Ha Hb. Z.div_mod_to_equations. lia. Qed.

Lemma aligned_begin nm : aligned (Z.of_nat (length (enc_begin nm))).
Proof.
  unfold enc_begin, aligned. rewrite length_app, be_enc_length, Nat2Z.inj_add, pad4_length.
  Z.div_mod_to_equations. lia.
Qed.

Lemma aligned_prop p : aligned (Z.of_nat (length (enc_prop off p))).
Proof.
  unfold enc_prop, aligned. rewrite !length_app, !be_enc_length, !Nat2Z.inj_add, pad4_length.
  Z.div_mod_to_equations. lia.
Qed.

Lemma aligned_concat {B} (enc : B -> list Z) l : Forall (fun x => aligned (Z.of_nat (length (enc x)))) l ->
  aligned (Z.of_nat (length (concat (map enc l)))).
Proof.
  induction 1 as [|x l Hx Hl IH]; [done|]. cbn [map concat]. rewrite length_app, Nat2Z.inj_add.
  by apply aligned_add.
Qed.

Lemma aligned_tree t : aligned (Z.of_nat (length (enc_tree off t))).
Proof.
  induction t as [nm ps ks IH] using tree_ind'. cbn [enc_tree].
  rewrite !length_app, !Nat2Z.inj_add. repeat apply aligned_add; [apply aligned_begin| | |done].
  - apply aligned_concat, Forall_true. intros p. apply aligned_prop.
  - by apply aligned_concat.
Qed.

Lemma sum_nonneg {B} (cost : B -> Z) l : Forall (fun x => 0 <= cost x) l -> 0 <= sum (map cost l).
Proof. unfold sum. induction 1; simpl; lia. Qed.

Lemma prop_cost_nonneg p : 0 <= prop_cost p.
Proof. unfold prop_cost, sizeof_property. lia. Qed.

Lemma tree_cost_nonneg t : 0 <= tree_cost t.
Proof.
  induction t as [nm ps ks IH] using tree_ind'. cbn [tree_cost]. apply sum_nonneg in IH.
  pose proof (sum_nonneg prop_cost ps ltac:(apply Forall_true; apply prop_cost_nonneg)).
  unfold node_cost, sizeof_device_node. lia.
Qed.

Lemma goes_props ps : forall L R s st f fs a,
  has m a (concat (map (enc_prop off) ps)) -> Forall prop_in ps -> aligned a -> 0 <= a ->
  a + Z.of_nat (length (concat (map (enc_prop off) ps))) < 2 ^ 63 ->
  0 <= R -> inv L (R + sum (map prop_cost ps)) s st (f :: fs) -> (length fs < 64)%nat ->
  exists s' L', goes (length ps) a st s (a + Z.of_nat (length (concat (map (enc_prop off) ps)))) st s' /\
    inv L' R s' st (Frame (f_addr f) (f_name f) (rev ps ++ f_props f) (f_kids f) :: fs).
Proof.
  induction ps as [|p ps IH]; intros L R s st f fs a Hm Hp Ha Ha0 Ha1 HR I Hd.
  - exists s, L. cbn [map concat length rev app sum fold_right] in *. rewrite Z.add_0_r in *. split; [apply goes_0|].
    by destruct f.
  - cbn [map concat] in *. rewrite length_app, Nat2Z.inj_add in *. apply has_app in Hm as [Hm Hms].
    apply Forall_cons in Hp as [Hp Hps]. change (sum (prop_cost p :: ?l)) with (prop_cost p + sum l) in I.
    assert (0 <= sum (map prop_cost ps)) by (apply sum_nonneg, Forall_true; apply prop_cost_nonneg).
    destruct (goes_prop L (R + sum (map prop_cost ps)) s st f fs a p) as (s1 & L1 & G1 & I1); try done; try lia.
    { replace (R + sum (map prop_cost ps) + prop_cost p) with (R + (prop_cost p + sum (map prop_cost ps))) by lia. done. }
    destruct (IH L1 R s1 st _ fs _ Hms Hps (aligned_add _ _ Ha (aligned_prop p)) ltac:(lia) ltac:(lia) HR I1 Hd)
      as (s2 & L2 & G2 & I2).
    exists s2, L2. split.
    + rewrite Z.add_assoc. by eapply (goes_trans 1).
    + cbn [f_addr f_name f_props f_kids rev] in *. by rewrite <- app_assoc.
Qed.

Fixpoint tokens (t : tree) : nat :=
  match t with
  | Tree nm ps ks => begin_tokens nm + (length ps + (fold_right Nat.add O (map tokens ks) + 1))
  end.

(** Reading a subtree gives the innermost open node a child. *)
Definition tree_goes (t : tree) : Prop := forall L R s st f fs a,
  has m a (enc_tree off t) -> tree_ok prop_in t -> aligned a -> 0 <= a ->
  a + Z.of_nat (length (enc_tree off t)) < 2 ^ 63 -> (depth t + length fs < 64)%nat -> root st <> 0 ->
  0 <= R -> inv L (R + tree_cost t) s st (f :: fs) ->
  exists s' L' st', goes (tokens t) a st s (a + Z.of_nat (length (enc_tree off t))) st' s' /\
    root st' = root st /\
    inv L' R s' st' (Frame (f_addr f) (f_name f) (f_props f) (mirror t :: f_kids f) :: fs).

Lemma goes_kids ks : Forall tree_goes ks -> forall L R s st f fs a,
  has m a (concat (map (enc_tree off) ks)) -> Forall (tree_ok prop_in) ks -> aligned a -> 0 <= a ->
  a + Z.of_nat (length (concat (map (enc_tree off) ks))) < 2 ^ 63 ->
  (fold_right Nat.max O (map depth ks) + length fs < 64)%nat -> root st <> 0 ->
  0 <= R -> inv L (R + sum (map tree_cost ks)) s st (f :: fs) ->
  exists s' L' st', goes (fold_right Nat.add O (map tokens ks)) a st s
      (a + Z.of_nat (length (concat (map (enc_tree off) ks)))) st' s' /\ root st' = root st /\
    inv L' R s' st' (Frame (f_addr f) (f_name f) (f_props f) (rev (map mirror ks) ++ f_kids f) :: fs).
Proof.
  induction 1 as [|k ks Hk Hks IH]; intros L R s st f fs a Hm Hp Ha Ha0 Ha1 Hd Hr HR I.
  - exists s, L, st. cbn [map concat length rev app sum fold_right] in *. rewrite Z.add_0_r in *.
    split_and!; [apply goes_0|done|]. by destruct f.
  - cbn [map concat fold_right] in *. rewrite length_app, Nat2Z.inj_add in *. apply has_app in Hm as [Hm Hms].
    apply Forall_cons in Hp as [Hp Hps]. change (sum (tree_cost k :: ?l)) with (tree_cost k + sum l) in I.
    assert (0 <= sum (map tree_cost ks)) by (apply sum_nonneg, Forall_true; apply tree_cost_nonneg).
    replace (R + (tree_cost k + sum (map tree_cost ks))) with (R + sum (map tree_cost ks) + tree_cost k) in I by lia.
    destruct (Hk L (R + sum (map tree_cost ks)) s st f fs a Hm Hp Ha Ha0 ltac:(lia) ltac:(lia) Hr ltac:(lia) I)
      as (s1 & L1 & st1 & G1 & R1 & I1).
    destruct (IH L1 R s1 st1 _ fs _ Hms Hps (aligned_add _ _ Ha (aligned_tree k)) ltac:(lia) ltac:(lia) ltac:(lia)
      ltac:(congruence) HR I1) as (s2 & L2 & st2 & G2 & R2 & I2).
    exists s2, L2, st2. split_and!; [|congruence|].
    + rewrite Z.add_assoc. by eapply goes_trans.
    + cbn [f_addr f_name f_props f_kids rev] in *. by rewrite <- app_assoc.
Qed.

(** A node up to its end token: it is open, with all it holds. *)
Lemma goes_body nm ps ks : Forall tree_goes ks -> (32 <= F)%nat -> forall L R s st fs a,
  has m a (enc_tree off (Tree nm ps ks)) -> tree_ok prop_in (Tree nm ps ks) -> aligned a -> 0 <= a ->
  a + Z.of_nat (length (enc_tree off (Tree nm ps ks))) < 2 ^ 63 ->
  (depth (Tree nm ps ks) + length fs <= 64)%nat ->
  0 <= R -> inv L (R + tree_cost (Tree nm ps ks)) s st fs ->
  exists p s' L' st' e, goes (begin_tokens nm + (length ps + fold_right Nat.add O (map tokens ks))) a st s e st' s' /\
    e + 4 = a + Z.of_nat (length (enc_tree off (Tree nm ps ks))) /\ has m e (be_enc FDT_END_NODE) /\
    p <> 0 /\ root st' = (if root st =? 0 then p else root st) /\
    inv L' R s' st' (Frame p nm (rev ps) (rev (map mirror ks)) :: fs).
Proof.
  intros Hks HF L R s st fs a Hm (Hnm & Hl & Hps & Hkp%tree_ok_kids) Ha Ha0 Ha1 Hd HR I.
  cbn [enc_tree tree_cost depth] in *. rewrite !length_app, !Nat2Z.inj_add, be_enc_length in *.
  rewrite !has_app in Hm. destruct Hm as (Hm1 & Hm2 & Hm3 & Hm4).
  assert (0 <= sum (map prop_cost ps)) by (apply sum_nonneg, Forall_true; apply prop_cost_nonneg).
  assert (0 <= sum (map tree_cost ks)) by (apply sum_nonneg, Forall_true; apply tree_cost_nonneg).
  replace (R + (node_cost nm + sum (map prop_cost ps) + sum (map tree_cost ks)))
    with (R + sum (map tree_cost ks) + sum (map prop_cost ps) + node_cost nm) in I by lia.
  destruct (goes_begin L (R + sum (map tree_cost ks) + sum (map prop_cost ps)) s st fs a nm Hm1 Hnm Hl HF Ha Ha0 ltac:(lia) ltac:(lia) ltac:(lia) I)
    as (p & s1 & L1 & st1 & G1 & Hp & R1 & I1).
  assert (root st1 <> 0) as Hr1 by (rewrite R1; destruct (Z.eqb_spec (root st) 0); done).
  pose proof (aligned_add _ _ Ha (aligned_begin nm)) as Ha2.
  destruct (goes_props ps L1 (R + sum (map tree_cost ks)) s1 st1 _ fs _ Hm2 Hps Ha2 ltac:(lia) ltac:(lia) ltac:(lia) I1 ltac:(lia))
    as (s2 & L2 & G2 & I2). cbn [f_addr f_name f_props f_kids] in I2. rewrite app_nil_r in I2.
  assert (aligned (a + Z.of_nat (length (enc_begin nm)) + Z.of_nat (length (concat (map (enc_prop off) ps))))) as Ha3.
  { apply aligned_add; [done|]. apply aligned_concat, Forall_true. intros q. apply aligned_prop. }
  destruct (goes_kids ks Hks L2 R s2 st1 _ fs _ Hm3 Hkp Ha3 ltac:(lia) ltac:(lia) ltac:(lia) Hr1 HR I2)
    as (s3 & L3 & st3 & G3 & R3 & I3). cbn [f_addr f_name f_props f_kids] in I3. rewrite app_nil_r in I3.
  exists p, s3, L3, st3. eexists. split; [|split_and!; [|exact Hm4|done|congruence|exact I3]; lia].
  eapply goes_trans; [exact G1|]. eapply goes_trans; [exact G2|exact G3].
Qed.

Lemma tree_goes_all : (32 <= F)%nat -> forall t, tree_goes t.
Proof.
  intros HF. induction t as [nm ps ks IH] using tree_ind'.
  intros L R s st f fs a Hm Hok Ha Ha0 Ha1 Hd Hr HR I.
  destruct (goes_body nm ps ks IH HF L R s st (f :: fs) a Hm Hok Ha Ha0 Ha1 ltac:(cbn [length]; lia) HR I)
    as (p & s' & L' & st' & e & G & He & Hme & Hp & R1 & I1).
  pose proof (goes_end _ _ _ _ _ _ _ Hme I1) as G2. cbn [length] in G2.
  specialize (G2 ltac:(cbn [depth] in Hd; lia)).
  exists s', L'. eexists. split_and!; [| |exact (close_node _ _ _ _ _ _ _ I1)].
  - cbn [tokens]. rewrite <- He. rewrite !Nat.add_assoc. eapply goes_trans; [|exact G2].
    rewrite <- !Nat.add_assoc. exact G.
  - cbn [root]. rewrite R1. by destruct (Z.eqb_spec (root st) 0).
Qed.
End tokens.

(** ** A blob *)

(** The reserved entries at [a], up to the one of two zeros. *)
Fixpoint reserved (m : memory) (a : Z) (l : list (Z * Z)) : Prop :=
  match l with
  | [] => load64 m a = 0 /\ load64 m (a + 8) = 0
  | e :: l => load64 m a = e.1 /\ load64 m (a + 8) = e.2 /\ e <> (0, 0) /\ reserved m (a + 16) l
  end.

Lemma skip_reserved_ok {A} m l : forall fuel a (s : dt A), reserved m a l -> (length l < fuel)%nat ->
  skip_reserved m fuel a s = Ret tt s.
Proof.
  induction l as [|[x y] l IH]; intros [|fuel] a s Hr Hf; simpl in Hf; try lia; cbn [skip_reserved].
  - destruct Hr as [-> ->]. done.
  - destruct Hr as (-> & -> & He & Hr). cbn [fst snd].
    destruct (Z.eqb_spec x 0) as [->|], (Z.eqb_spec y 0) as [->|]; try done; apply IH; (done || lia).
Qed.

Definition struct_ptr (m : memory) (begin : Z) : Z := begin + be32 m (begin + 8).
Definition string_ptr (m : memory) (begin : Z) : Z := begin + be32 m (begin + 12).

(** A blob at [begin] that holds [t] and the reserved entries [rsv]; names of
    properties are shorter than [F]. *)
Record blob (m : memory) (begin : Z) (off : list Z -> Z) (F : nat) (rsv : list (Z * Z)) (t : tree) : Prop := {
  blob_magic : has m begin (be_enc FDT_MAGIC);
  blob_reserved : reserved m (begin + be32 m (begin + 16)) rsv;
  blob_struct : has m (struct_ptr m begin) (enc_tree off t ++ be_enc FDT_END);
  blob_tree : tree_ok (prop_in m (string_ptr m begin) off F) t;
  blob_aligned : aligned (struct_ptr m begin);
  blob_bounds : 0 <= struct_ptr m begin /\ struct_ptr m begin + Z.of_nat (length (enc_tree off t)) < 2 ^ 63
}.

Lemma parse_tree_ok {A} `{Allocator A} m begin off F rsv t (s : dt A) L fuel :
  blob m begin off F rsv t -> (depth t <= 64)%nat -> alloc_inv (dt_heap s) L (tree_cost t) ->
  (32 <= F)%nat -> (length rsv < fuel)%nat -> (tokens t + F < fuel)%nat ->
  exists p s' L', parse_tree m fuel begin s = Ret p s' /\ node_rep L' s' 0 p (mirror t) /\
    alloc_inv (dt_heap s') L' 0.
Proof.
  intros [B1 B2 B3 B4 B5 [B6 B7]] Hd Hi HF Hrsv Hfuel. destruct t as [nm ps ks].
  unfold parse_tree. rewrite (be32_enc m begin FDT_MAGIC) by done.
  change (negb (FDT_MAGIC =? FDT_MAGIC)) with false. cbv iota.
  rewrite (bind_ret _ _ _ _ _ (skip_reserved_ok m rsv fuel _ s B2 Hrsv)).
  fold (struct_ptr m begin) (string_ptr m begin).
  rewrite has_app in B3. destruct B3 as [B3 Bend]. pose proof (tree_cost_nonneg (Tree nm ps ks)).
  destruct (goes_body m (string_ptr m begin) off F nm ps ks) with (L := L) (R := 0) (s := s)
    (st := PState (fun _ => 0) 0 0) (fs := @nil frame) (a := struct_ptr m begin)
    as (p & s' & L' & st' & e & G & He & Hme & Hp & Hr & I); try done.
  { apply Forall_true. by apply tree_goes_all. }
  { cbn [length]. lia. }
  { split; try done; [set_solver|constructor]. }
  pose proof (goes_end m (string_ptr m begin) F _ _ _ _ _ _ _ Hme I ltac:(cbn [length]; lia)) as G2.
  pose proof (goes_trans _ _ _ _ _ _ _ _ _ _ _ _ _ _ G G2) as G3. rewrite He in G3.
  exists p, s', L'. split_and!.
  - replace fuel with (tokens (Tree nm ps ks) + (fuel - tokens (Tree nm ps ks)))%nat by lia.
    rewrite <- !Nat.add_assoc in G3. change (tokens (Tree nm ps ks)) with
      (begin_tokens nm + (length ps + (fold_right Nat.add O (map tokens ks) + 1)))%nat in *.
    rewrite G3 by lia. destruct (_ - _)%nat as [|k] eqn:E; [lia|]. cbn [parse_loop].
    rewrite (be32_enc m _ FDT_END) by done.
    change (FDT_END =? 0) with false. change (FDT_END =? FDT_BEGIN_NODE) with false.
    change (FDT_END =? FDT_END_NODE) with false. change (FDT_END =? FDT_PROP) with false.
    change (FDT_END =? FDT_NOP) with false. cbv iota. cbn [root]. by rewrite Hr.
  - destruct (inv_stack _ _ _ _ _ I) as (S0 & S1 & S2 & S3 & S4 & _). cbn [f_addr f_name f_props f_kids top_addr] in *.
    assert (forall q, closed L' [Frame p nm (rev ps) (rev (map mirror ks))] q -> L' q) as Hcl by (intros q [? _]; done).
    cbn [mirror node_rep]. split_and!; try done.
    + apply (inv_live _ _ _ _ _ I). simpl. set_solver.
    + by eapply props_rep_frame.
    + by eapply kids_rep_frame.
  - by eapply inv_heap.
Qed.

(** A blob: a root with one property and two children, one of them with a
    name whose terminator starts a word. *)
Definition demo_tree : tree :=
  Tree [] [([97; 98], [1; 2; 3; 4; 5])]
    [Tree [112; 108; 105; 99] [([99], [])] []; Tree [115] [] [Tree [116; 64; 48] [] []]].
Definition demo_off (nm : list Z) : Z := if bool_decide (nm = [99]) then 3 else 0.
Definition demo_begin : Z := 4096.
Definition demo_bytes : list Z :=
  be_enc FDT_MAGIC ++ be_enc 512 ++ be_enc 80 ++ be_enc 72 ++ be_enc 40 ++ concat (replicate 5 (be_enc 0)) ++
  (replicate 8 1 ++ replicate 24 0) ++ [97; 98; 0; 99; 0; 0; 0; 0] ++ enc_tree demo_off demo_tree ++ be_enc FDT_END.
Definition demo_mem : memory := fun a => nth (Z.to_nat (a - demo_begin)) demo_bytes 0.

(** C24: [parse_tree] decodes the flattened format: on a blob that encodes a
    tree of depth at most 64, with room for it in the heap, it builds exactly
    that tree, siblings and properties in reverse order as the code links
    them, with every node and property in a block in use. *)
Theorem parse_tree_roundtrip {A} `{Allocator A} m begin off F rsv t (s : dt A) L fuel :
  blob m begin off F rsv t -> (depth t <= 64)%nat -> alloc_inv (dt_heap s) L (tree_cost t) ->
  (32 <= F)%nat -> (length rsv < fuel)%nat -> (tokens t + F < fuel)%nat ->
  exists root s' L', parse_tree m fuel begin s = Ret root s' /\ node_rep L' s' 0 root (mirror t) /\
    alloc_inv (dt_heap s') L' 0.
Proof. apply parse_tree_ok. Qed.

Lemma demo_blob : blob demo_mem demo_begin demo_off 32 [(0x0101010101010101, 0)] demo_tree.
Proof.
  split.
  - vm_compute. repeat split.
  - vm_compute. repeat split; discriminate.
  - vm_compute. repeat split.
  - cbn [tree_ok demo_tree fold_right]. unfold str_ok, prop_in, prop_ok, str_ok.
    change (string_ptr demo_mem demo_begin) with 4168. rewrite ?Forall_cons, ?Forall_nil. unfold prop_in, prop_ok, str_ok. cbn [fst snd].
    rewrite ?Forall_cons, ?Forall_nil. vm_compute. repeat split; try discriminate; try lia.
  - reflexivity.
  - vm_compute. split; [discriminate|reflexivity].
Qed.

Definition demo_fuel : nat := Z.to_nat (KMALLOC_HEAP_SIZE / MBLOCK_SIZE).
Lemma demo_fuel_ok : KMALLOC_HEAP_SIZE / MBLOCK_SIZE <= Z.of_nat demo_fuel.
Proof. unfold demo_fuel. by rewrite Z2Nat.id. Qed.
#[local] Instance demo_heap : Allocator heap := kmalloc_allocator demo_fuel demo_fuel_ok.

Lemma parse_tree_witness :
  exists root s' L', parse_tree demo_mem 64 demo_begin
      (Dt heap0 (fun _ => MkNode 0 [] 0 0 0 0) (fun _ => MkProp 0 [] 0 0 [] 0)) = Ret root s' /\
    node_rep L' s' 0 root (mirror demo_tree) /\ alloc_inv (dt_heap s') L' 0.
Proof.
  apply (parse_tree_roundtrip demo_mem demo_begin demo_off 32 [(0x0101010101010101, 0)] demo_tree _
    (fun _ => False)).
  - exact demo_blob.
  - vm_compute. lia.
  - exists [blk0]. split_and!; [exact heap0_rep|exact heap0_ok|..].
    + intros q. split; [done|]. intros Hq. by apply not_elem_of_nil in Hq.
    + exists blk0. split_and!; [left|done|vm_compute; discriminate].
  - lia.
  - vm_compute. lia.
  - vm_compute. lia.
Defined.
