(* ===== verification/DtQuery.v ===== *)
(** Searches and property reads of the device tree.

    [level_order] is the reference of the searches: the subtrees in
    breadth-first order, computed on the abstract tree.  The searches of the
    code follow pointers and keep a queue in an array of 64 entries. *)
From S2P Require Import Prelude Mem Mmu Endian Kmalloc Alloc DeviceTree DtParse.

(** ** References *)

Definition plist : Type := list (list Z * list Z).
Definition tree_name (t : tree) : list Z := match t with Tree nm _ _ => nm end.
Definition tree_props (t : tree) : plist := match t with Tree _ ps _ => ps end.

(** A subtree with the properties of its ancestors, the parent's first. *)
Definition place : Type := list plist * tree.
Definition kids (x : place) : list place :=
  match x with (anc, Tree _ ps ks) => map (fun k => (ps :: anc, k)) ks end.

Fixpoint size (t : tree) : nat := match t with Tree _ _ ks => S (list_sum (map size ks)) end.
Definition total (xs : list place) : nat := list_sum (map (fun x => size (snd x)) xs).

Fixpoint bfs (n : nat) (q : list place) : list place :=
  match n, q with
  | S n, x :: q => x :: bfs n (q ++ kids x)
  | _, _ => []
  end.
Definition level_order (t : tree) : list place := bfs (size t) [([], t)].

(** All the places below one, node first. *)
Fixpoint places (anc : list plist) (t : tree) : list place :=
  match t with Tree _ ps ks => (anc, t) :: concat (map (places (ps :: anc)) ks) end.

(** A type name is the whole of a node's name or what stands before ['@']. *)
Definition of_type (type nm : list Z) : Prop := nm = type \/ exists l, nm = type ++ 64 :: l.

Lemma is_type_equal_spec needle : forall haystack, 64 ∉ needle ->
  is_type_equal haystack needle = true <-> of_type needle haystack.
Proof.
  unfold of_type. induction needle as [|b n IH]; intros [|a h] Hn; cbn [is_type_equal app].
  - split; [by left|done].
  - rewrite Z.eqb_eq. split; [intros ->; right; by exists h|]. intros [?|[l [= -> _]]]; done.
  - split; [done|]. intros [?|[l ?]]; done.
  - apply not_elem_of_cons in Hn as [_ Hn]. destruct (Z.eqb_spec a b) as [->|Hab].
    + rewrite (IH h Hn). clear IH. split; intros [H|[l H]].
      * left. by rewrite H.
      * right. exists l. by rewrite H.
      * left. congruence.
      * right. exists l. congruence.
    + split; [done|]. intros [H|[l H]]; congruence.
Qed.

(** Those of a list of places whose node's name has the type. *)
Definition matches (type : list Z) (xs : list place) : list place :=
  filter (fun x => is_type_equal (tree_name (snd x)) type = true) xs.

Lemma size_kids x : size (snd x) = S (total (kids x)).
Proof. destruct x as [anc [nm ps ks]]. unfold total, kids. simpl. by rewrite map_map. Qed.

Lemma total_length xs : (length xs <= total xs)%nat.
Proof.
  unfold total. induction xs as [|x xs IH]; simpl; [done|]. rewrite size_kids. lia.
Qed.

Lemma total_app q ks : total (q ++ ks) = (total q + total ks)%nat.
Proof. unfold total. by rewrite map_app, list_sum_app. Qed.

(** The reference visits every subtree once. *)
Lemma bfs_places n : forall q, (total q <= n)%nat -> bfs n q ≡ₚ concat (map (fun x => places (fst x) (snd x)) q).
Proof.
  induction n as [|n IH]; intros [|x q] Hn; try done; cbn [bfs map concat].
  - pose proof (total_length (x :: q)). simpl in *. lia.
  - change (total (x :: q)) with (size (snd x) + total q)%nat in Hn. rewrite size_kids in Hn.
    rewrite IH by (rewrite total_app; lia). rewrite map_app, concat_app.
    destruct x as [anc [nm ps ks]]. cbn [places kids fst snd]. rewrite map_map. rewrite <- app_comm_cons.
    apply Permutation_skip. by rewrite Permutation_app_comm.
Qed.

Lemma length_bfs n : forall q, (length (bfs n q) <= n)%nat.
Proof. induction n as [|n IH]; intros [|x q]; cbn [bfs length]; try lia. specialize (IH (q ++ kids x)). lia. Qed.

Lemma level_order_places t : level_order t ≡ₚ places [] t.
Proof. unfold level_order. rewrite bfs_places by (unfold total; simpl; lia). simpl. by rewrite app_nil_r. Qed.

(** ** The queue *)

Section search.
Context {A : Type} `{Allocator A}.
Variables (C : Z -> Prop) (s : dt A).

(** The properties of the nodes from [p] up to the root. *)
Fixpoint chain (p : Z) (anc : list plist) : Prop :=
  match anc with
  | [] => p = 0
  | ps :: anc => p <> 0 /\ props_rep C s (properties (nodes s p)) ps /\ chain (parent (nodes s p)) anc
  end.

(** The node at [a] represents a place. *)
Definition at_node (a : Z) (x : place) : Prop :=
  exists par, node_rep C s par a (snd x) /\ chain par (fst x).

(** The queue holds the nodes of [ts], and nothing wrapped around so far. *)
Definition queue_rep (q : queue) (ts : list place) : Prop :=
  exists l, Forall2 at_node l ts /\ queue_count q = Z.of_nat (length l) /\ 0 <= front q /\
    rear q = front q + Z.of_nat (length l) - 1 /\
    forall i a, l !! i = Some a -> node_queue q (front q + Z.of_nat i) = a.

Lemma queue0_rep p t : node_rep C s 0 p t -> queue_rep (queue0 p) [([], t)].
Proof.
  intros Hp. exists [p]. split_and!; try done.
  - constructor; [by exists 0|constructor].
  - intros [|i] a; [|done]. intros [= <-]. reflexivity.
Qed.

Lemma dequeue_ok q t ts : queue_rep q (t :: ts) -> front q < 64 ->
  exists a q', dequeue q s = Ret (a, q') s /\ at_node a t /\ queue_rep q' ts /\ front q' = front q + 1.
Proof.
  intros (l & Hl & Hc & Hf & Hr & Hq) Hlt. apply Forall2_cons_inv_r in Hl as (a & l' & Ha & Hl & ->).
  unfold dequeue. replace (front q <? ITER_MAX_QUEUE_LEN) with true by (symmetry; by apply Z.ltb_lt).
  eexists _, _. split; [reflexivity|]. cbn [length] in *. split_and!; [|exists l'; split_and!|]; simpl; try lia; try done.
  - specialize (Hq O a eq_refl). rewrite Z.add_0_r in Hq. by rewrite Hq.
  - intros i b Hb. rewrite <- (Hq (S i) b Hb). f_equal. lia.
Qed.

Lemma enqueue_children_ok par ps anc ks : chain par (ps :: anc) -> forall fuel c q ts,
  kids_rep (node_rep C s par) (sib s) c ks -> queue_rep q ts -> (length ks < fuel)%nat ->
  front q + Z.of_nat (length ts) + Z.of_nat (length ks) <= 64 ->
  exists q', enqueue_children fuel c q s = Ret (Some q') s /\ queue_rep q' (ts ++ map (fun k => (ps :: anc, k)) ks) /\ front q' = front q.
Proof.
  intros Hch. induction ks as [|k ks IH]; intros [|fuel] c q ts Hk Hq Hf Hb; cbn [length map] in *; try lia; cbn [enqueue_children].
  - simpl in Hk. subst c. exists q. rewrite app_nil_r. done.
  - destruct Hk as [Hk Hks]. pose proof (node_rep_in _ _ _ _ _ Hk) as [Hc0 _].
    destruct (Z.eqb_spec c 0); [done|]. destruct Hq as (l & Hl & Hc & Hf0 & Hr & Hq).
    pose proof (Forall2_length _ _ _ Hl) as Hlen.
    destruct (Z.leb_spec ITER_MAX_QUEUE_LEN (queue_count q)); [unfold ITER_MAX_QUEUE_LEN in *; lia|].
    rewrite bind_get. replace ((rear q + 1) mod ITER_MAX_QUEUE_LEN) with (front q + Z.of_nat (length l)).
    2: { unfold ITER_MAX_QUEUE_LEN. rewrite Z.mod_small; lia. }
    set (q1 := MkQueue _ _ _ _).
    destruct (IH fuel (sib s c) q1 (ts ++ [(ps :: anc, k)])) as (q' & E & Hq' & Hfr); [done| |lia| |].
    + exists (l ++ [c]). split_and!; simpl; rewrite ?length_app; simpl; try lia.
      * apply Forall2_app; [done|]. constructor; [by exists par|constructor].
      * intros i a Ha. destruct (decide (i = length l)) as [->|Hi].
        -- rewrite lookup_app_r, Nat.sub_diag in Ha by done. injection Ha as <-. by rewrite fn_lookup_insert.
        -- assert (i < length l)%nat as Hil.
           { apply lookup_lt_Some in Ha. rewrite length_app in Ha. simpl in Ha. lia. }
           rewrite lookup_app_l in Ha by done. rewrite fn_lookup_insert_ne by lia. by apply Hq.
    + rewrite length_app. simpl. lia.
    + exists q'. rewrite <- app_assoc in Hq'. done.
Qed.

Lemma take_all {B} k (l l' : list B) : (length l = k)%nat -> take k (l ++ l') = l.
Proof. intros <-. by rewrite take_app_length. Qed.

Lemma find_by_type_loop_ok type max n : forall fuel q ts output found,
  (total ts <= n)%nat -> (n < fuel)%nat -> queue_rep q ts -> front q + Z.of_nat (total ts) <= 64 ->
  Forall2 at_node output found -> (length found <= max)%nat ->
  exists out, find_by_type_loop fuel type (Z.of_nat max) q output s = Ret out s /\
    Forall2 at_node out (take max (found ++ matches type (bfs n ts))).
Proof.
  induction n as [|n IH]; intros [|fuel] q ts output found Hn Hf Hq Hb Ho Hm; try lia;
    pose proof (total_length ts) as Htl; destruct ts as [|t ts]; simpl in Htl; try lia; cbn [find_by_type_loop].
  1,2: destruct Hq as ([|] & Hl & -> & _); [|by inversion Hl]; exists output; split; [done|];
    unfold matches; rewrite app_nil_r; by rewrite take_ge.
  change (total (t :: ts)) with (size (snd t) + total ts)%nat in *. rewrite size_kids in *.
  pose proof Hq as (l & Hl & Hc & _). pose proof (Forall2_length _ _ _ Hl) as Hlen. simpl in Hlen.
  destruct (Z.ltb_spec 0 (queue_count q)); [|lia]. cbn [negb].
  destruct (dequeue_ok q t ts Hq ltac:(lia)) as (a & q1 & E1 & [par [Ha Hch]] & Hq1 & Hf1).
  rewrite (bind_ret _ _ _ _ _ E1), bind_get. clear E1.
  destruct t as [anc [nm ps ks]]. cbn [fst snd] in *. pose proof Ha as (Ha0 & _ & -> & Hpar & Hps & Hks). cbn [kids] in *.
  assert (chain a (ps :: anc)) as Hcha by (split_and!; [done|done|by rewrite Hpar]).
  cbn [bfs kids]. unfold matches in *. rewrite filter_cons. cbn [snd tree_name]. pose proof (Forall2_length _ _ _ Ho) as Hlo.
  pose proof (total_length (map (fun k => (ps :: anc, k)) ks)) as Htk. rewrite length_map in Htk. pose proof (total_length ts) as Htt.
  destruct (is_type_equal nm type); cbn [andb].
  - rewrite decide_True by done. destruct (Z.ltb_spec (Z.of_nat (length output)) (Z.of_nat max)); cbn [negb].
    + destruct (enqueue_children_ok a ps anc ks Hcha (S fuel) _ q1 ts Hks Hq1 ltac:(lia) ltac:(lia)) as (q2 & E2 & Hq2 & Hf2).
      rewrite (bind_ret _ _ _ _ _ E2). rewrite (cons_middle (anc, Tree nm ps ks)), (app_assoc found).
      apply IH; [rewrite total_app; lia|lia|done|rewrite total_app; lia| |rewrite length_app; simpl; lia].
      apply Forall2_app; [done|]. constructor; [by exists par|constructor].
    + exists output. split; [done|]. rewrite take_all by lia. done.
  - rewrite decide_False by done.
    destruct (enqueue_children_ok a ps anc ks Hcha (S fuel) _ q1 ts Hks Hq1 ltac:(lia) ltac:(lia)) as (q2 & E2 & Hq2 & Hf2).
    rewrite (bind_ret _ _ _ _ _ E2). apply IH; [rewrite total_app; lia|lia|done|rewrite total_app; lia|done|done].
Qed.
End search.

(** ** Properties of nodes *)

Fixpoint assoc (key : list Z) (ps : list (list Z * list Z)) : option (list Z) :=
  match ps with
  | [] => None
  | (nm, v) :: ps => if bool_decide (nm = key) then Some v else assoc key ps
  end.

(** The big-endian number in the first [4 * cells] bytes of a value. *)
Definition cells_enc (cells v : Z) : list Z :=
  if cells =? 1 then be_enc v else be_enc (v / 2 ^ 32) ++ be_enc (v mod 2 ^ 32).

Ltac mod_bytes := repeat (apply Forall_cons; split; [apply (Z.mod_pos_bound _ 256); lia|]); by apply Forall_nil.

Lemma be_enc_bytes v : Forall (fun b => is_byte b) (be_enc v).
Proof. mod_bytes. Qed.

Lemma of_be_enc v : 0 <= v < 2 ^ 32 -> of_bytes (be_enc v) = v.
Proof. intros Hv. unfold of_bytes, be_enc. cbn [fold_left]. Z.div_mod_to_equations. lia. Qed.

Section reads.
Context {A : Type} `{Allocator A}.
Variables (C : Z -> Prop) (s : dt A).

Lemma get_property_from_ok key ps : forall fuel p, props_rep C s p ps -> (length ps < fuel)%nat ->
  match assoc key ps with
  | None => get_property_from fuel p key s = Ret None s
  | Some v => exists q, get_property_from fuel p key s = Ret (Some q) s /\ p_value (props s q) = v /\
      p_length (props s q) = Z.of_nat (length v)
  end.
Proof.
  induction ps as [|[nm v] ps IH]; intros [|fuel] p Hp Hf; cbn [length] in Hf; try lia; cbn [get_property_from assoc].
  - simpl in Hp. by subst p.
  - destruct Hp as (Hp0 & _ & Hn & Hv & Hl & Hp). destruct (Z.eqb_spec p 0); [done|].
    rewrite bind_get, Hn. destruct (bool_decide (nm = key)).
    + by exists p.
    + apply IH; [done|lia].
Qed.

Lemma value32_ok v i (l r : list Z) x : v = l ++ be_enc x ++ r -> i = Z.of_nat (length l) -> 0 <= x < 2 ^ 32 ->
  exists y, value32 (A := A) v i s = Ret y s /\ be32toh y = x.
Proof.
  intros -> -> Hx. unfold value32. rewrite Nat2Z.id, drop_app_length.
  cbn [be_enc app take]. eexists. split; [reflexivity|]. unfold be32toh.
  pose proof (be_enc_bytes x) as Hb. unfold be_enc in Hb. rewrite !Forall_cons in Hb. destruct Hb as (H3 & H2 & H1 & H0 & _).
  rewrite swap_uint32_bytes by done. by apply of_be_enc.
Qed.

Lemma value64_ok v i (l r : list Z) x : v = l ++ cells_enc 2 x ++ r -> i = Z.of_nat (length l) -> 0 <= x < 2 ^ 64 ->
  exists y, value64 (A := A) v i s = Ret y s /\ be64toh y = x.
Proof.
  intros -> -> Hx. unfold value64. rewrite Nat2Z.id, drop_app_length.
  unfold cells_enc. change (2 =? 1) with false. cbv iota. rewrite <- app_assoc.
  cbn [be_enc app take]. eexists. split; [reflexivity|]. unfold be64toh.
  assert (0 <= x / 2 ^ 32 < 2 ^ 32) as Hxh by (Z.div_mod_to_equations; lia).
  pose proof (of_be_enc _ Hxh) as Eh. pose proof (of_be_enc (x mod 2 ^ 32) (Z.mod_pos_bound x (2 ^ 32) ltac:(lia))) as El.
  unfold be_enc in Eh, El. rewrite swap_uint64_bytes by mod_bytes.
  change (of_bytes [?a; ?b; ?c; ?d; ?e; ?f; ?g; ?h]) with (of_bytes ([a; b; c; d] ++ [e; f; g; h])).
  rewrite of_bytes_app, Eh, El. change (2 ^ (8 * Z.of_nat (length [_; _; _; _]))) with (2 ^ 32).
  rewrite Z.mul_comm. symmetry. by apply Z.div_mod.
Qed.

(** [key] has a 32-bit number where it occurs, and the outermost one is [x]. *)
Fixpoint outermost (key : list Z) (anc : list plist) (dflt x : Z) : Prop :=
  match anc with
  | [] => x = dflt
  | ps :: anc =>
      match assoc key ps with
      | Some v => exists y, v = be_enc y /\ 0 <= y < 2 ^ 32 /\ outermost key anc y x
      | None => outermost key anc dflt x
      end
  end.

Lemma cells_loop_ok key anc : forall fuel p dflt x, chain C s p anc -> outermost key anc dflt x ->
  (length anc < fuel)%nat -> Forall (fun ps => length ps + length anc < fuel)%nat anc ->
  cells_loop fuel key p dflt s = Ret x s.
Proof.
  induction anc as [|ps anc IH]; intros [|fuel] p dflt x Hc Ho Hf Hps; cbn [length] in Hf; try lia; cbn [cells_loop].
  - simpl in Hc, Ho. by subst.
  - destruct Hc as (Hp & Hr & Hc). destruct (Z.eqb_spec p 0); [done|]. cbn [outermost] in Ho.
    apply Forall_cons in Hps as [Hps Hrest]. cbn [length] in Hps.
    assert (Forall (fun ps => length ps + length anc < fuel)%nat anc) as Hrest'.
    { eapply Forall_impl; [exact Hrest|]. cbn [length]. intros; lia. }
    unfold get_property. rewrite bind_assoc, bind_get.
    pose proof (get_property_from_ok key ps (S fuel) _ Hr ltac:(lia)) as Hg.
    destruct (assoc key ps) as [v|].
    + destruct Hg as (q & E & Hv & _). rewrite (bind_ret _ _ _ _ _ E), bind_assoc, bind_get, Hv.
      destruct Ho as (y & -> & Hy & Ho).
      destruct (value32_ok (be_enc y) 0 [] [] y) as (z & Ez & Hz); [by rewrite app_nil_r|done|done|].
      rewrite bind_assoc, (bind_ret _ _ _ _ _ Ez), bind_mret, bind_get, Hz. apply IH; (done || lia).
    + rewrite (bind_ret _ _ _ _ _ Hg), bind_mret, bind_get. apply IH; (done || lia).
Qed.

Lemma cells_count_ok fuel key a anc x : chain C s (parent (nodes s a)) anc -> outermost key anc 0 x -> x <> 0 ->
  (length anc < fuel)%nat -> Forall (fun ps => length ps + length anc < fuel)%nat anc ->
  cells_count fuel key a s = Ret x s.
Proof.
  intros Hc Ho Hx Hf Hps. unfold cells_count. rewrite bind_get.
  assert (parent (nodes s a) <> 0) as Hp.
  { destruct anc; [simpl in Ho; lia|]. by destruct Hc. }
  destruct (Z.eqb_spec (parent (nodes s a)) 0); [done|].
  rewrite (bind_ret _ _ _ _ _ (cells_loop_ok key anc fuel _ 0 x Hc Ho Hf Hps)).
  by destruct (Z.eqb_spec x 0).
Qed.

(** A field of one or two cells. *)
Lemma field_ok cells v (l r : list Z) i x : (cells = 1 \/ cells = 2) -> v = l ++ cells_enc cells x ++ r ->
  i = Z.of_nat (length l) -> 0 <= x < 2 ^ (32 * cells) ->
  if cells =? 1 then exists y, value32 (A := A) v i s = Ret y s /\ be32toh y = x
  else exists y, value64 (A := A) v i s = Ret y s /\ be64toh y = x.
Proof.
  intros [-> | ->] Hv Hi Hx; simpl.
  - by apply (value32_ok v i l r).
  - by apply (value64_ok v i l r).
Qed.

Lemma reg_item_out pr ca cs idx : (ca = 1 \/ ca = 2) -> (cs = 1 \/ cs = 2) ->
  0 <= idx * (ca + cs) < 2 ^ 32 -> p_length pr <= idx * (ca + cs) ->
  reg_item (A := A) pr ca cs idx s = Ret (1, None, None) s.
Proof.
  intros Hca Hcs Hi Hl. unfold reg_item, u32. rewrite (Z.mod_small (ca + cs)) by lia. unfold umod32.
  destruct (Z.eqb_spec (ca + cs) 0); [lia|]. rewrite bind_mret.
  destruct (negb _); [done|]. rewrite Z.mod_small by lia. by destruct (Z.leb_spec (p_length pr) (idx * (ca + cs))); [|lia].
Qed.

Lemma reg_item_ok pr ca cs idx l address size r : (ca = 1 \/ ca = 2) -> (cs = 1 \/ cs = 2) ->
  p_length pr = Z.of_nat (length (p_value pr)) -> p_length pr mod (ca + cs) = 0 ->
  p_value pr = l ++ cells_enc ca address ++ cells_enc cs size ++ r ->
  Z.of_nat (length l) = idx * (ca + cs) -> idx * (ca + cs) < 2 ^ 32 ->
  0 <= address < 2 ^ (32 * ca) -> 0 <= size < 2 ^ (32 * cs) ->
  reg_item (A := A) pr ca cs idx s = Ret (0, Some address, Some size) s.
Proof.
  intros Hca Hcs Hl Hmod Hve Hll Hi Hadr Hsz. unfold reg_item, u32. rewrite (Z.mod_small (ca + cs)) by lia.
  unfold umod32. destruct (Z.eqb_spec (ca + cs) 0); [lia|]. rewrite bind_mret, Hmod. cbn [negb Z.eqb].
  rewrite Z.mod_small by lia. cbv zeta.
  assert (0 < Z.of_nat (length (cells_enc ca address))) by (destruct Hca as [-> | ->]; done).
  pose proof (f_equal length Hve) as Hlen. rewrite !length_app in Hlen.
  destruct (Z.leb_spec (p_length pr) (idx * (ca + cs))); [lia|]. rewrite <- Hll.
  pose proof (field_ok ca _ l (cells_enc cs size ++ r) _ address Hca Hve eq_refl Hadr) as Hx1.
  pose proof (field_ok cs (p_value pr) (l ++ cells_enc ca address) r (Z.of_nat (length l) + 4 * ca) size Hcs) as Hx2.
  rewrite <- app_assoc in Hx2. specialize (Hx2 Hve).
  assert (Z.of_nat (length l) + 4 * ca = Z.of_nat (length (l ++ cells_enc ca address))) as Hpos.
  { rewrite length_app. destruct Hca as [-> | ->]; simpl; lia. }
  specialize (Hx2 Hpos Hsz).
  destruct Hca as [-> | ->]; cbn [Z.eqb Pos.eqb] in *; destruct Hx1 as (x & E1 & <-);
    rewrite bind_assoc, (bind_ret _ _ _ _ _ E1), bind_mret;
    (destruct Hcs as [-> | ->]; cbn [Z.eqb Pos.eqb] in *; destruct Hx2 as (y & E2 & <-);
     rewrite bind_assoc, (bind_ret _ _ _ _ _ E2), !bind_mret; reflexivity).
Qed.

(** What a node's [reg] property depends on: its own properties and the cell
    counts that its ancestors give. *)
Record reg_node (fuel : nat) (a : Z) (v : list Z) (ca cs : Z) : Prop := {
  reg_value : exists ps, props_rep C s (properties (nodes s a)) ps /\ assoc str_reg ps = Some v /\ (length ps < fuel)%nat;
  reg_cells : exists anc, chain C s (parent (nodes s a)) anc /\
    outermost str_address_cells anc 0 ca /\ outermost str_size_cells anc 0 cs /\
    (length anc < fuel)%nat /\ Forall (fun ps => length ps + length anc < fuel)%nat anc;
  reg_address_cells : ca = 1 \/ ca = 2;
  reg_size_cells : cs = 1 \/ cs = 2
}.

Lemma get_reg_item_run fuel a idx v ca cs : reg_node fuel a v ca cs ->
  exists q, p_value (props s q) = v /\ p_length (props s q) = Z.of_nat (length v) /\
    get_reg_item fuel a idx s = reg_item (props s q) ca cs idx s.
Proof.
  intros [(ps & Hp & Hreg & Hf) (anc & Hc & Ha & Hs & Hfl & Hfa) Hca Hcs].
  pose proof (get_property_from_ok str_reg ps fuel _ Hp Hf) as Hg. rewrite Hreg in Hg.
  destruct Hg as (q & E & Hv & Hl). exists q. split_and!; try done.
  unfold get_reg_item, get_property, get_address_cells_count, get_size_cells_count.
  rewrite bind_assoc, bind_get, (bind_ret _ _ _ _ _ E).
  rewrite (bind_ret _ _ _ _ _ (cells_count_ok fuel _ a anc ca Hc Ha ltac:(lia) Hfl Hfa)).
  by rewrite (bind_ret _ _ _ _ _ (cells_count_ok fuel _ a anc cs Hc Hs ltac:(lia) Hfl Hfa)), bind_get.
Qed.
End reads.

(** ** String lists *)

Definition string_list (ls : list (list Z)) : list Z := concat (map (fun l => l ++ [0]) ls).

Lemma string_at_ok l r : 0 ∉ l -> string_at (l ++ 0 :: r) = Some (l, r).
Proof.
  induction l as [|b l IH]; intros Hl; [done|]. apply not_elem_of_cons in Hl as [Hb Hl]. cbn [app string_at].
  destruct (Z.eqb_spec b 0); [congruence|]. by rewrite IH.
Qed.

Section strings.
Context {A : Type} `{Allocator A}.

Lemma contains_string_ok target ls : forall fuel (s : dt A), Forall (fun l => 0 ∉ l) ls -> (length ls < fuel)%nat ->
  contains_string fuel (string_list ls) target s = Ret (bool_decide (target ∈ ls)) s.
Proof.
  unfold string_list. induction ls as [|l ls IH]; intros [|fuel] s Hz Hf; cbn [length] in Hf; try lia;
    cbn [contains_string map concat].
  - by rewrite bool_decide_false by apply not_elem_of_nil.
  - apply Forall_cons in Hz as [Hl Hz]. rewrite <- app_assoc. cbn [app]. rewrite string_at_ok by done.
    assert (exists b x, l ++ 0 :: concat (map (fun l => l ++ [0]) ls) = b :: x) as (b & x & ->).
    { destruct l; by eexists _, _. }
    destruct (decide (l = target)) as [Ht|Ht].
    + rewrite !bool_decide_true by (done || rewrite Ht; left). done.
    + rewrite (bool_decide_false (l = target)), IH by (done || lia). f_equal. apply bool_decide_ext. rewrite elem_of_cons. intuition congruence.
Qed.

Lemma print_stringlist_ok ls : forall fuel (s : dt A), Forall (fun l => 0 ∉ l) ls -> (length ls < fuel)%nat ->
  print_stringlist fuel (string_list ls) s = Ret ls s.
Proof.
  unfold string_list. induction ls as [|l ls IH]; intros [|fuel] s Hz Hf; cbn [length] in Hf; try lia;
    cbn [print_stringlist map concat]; [done|].
  apply Forall_cons in Hz as [Hl Hz]. rewrite <- app_assoc. cbn [app]. rewrite string_at_ok by done.
  assert (exists b x, l ++ 0 :: concat (map (fun l => l ++ [0]) ls) = b :: x) as (b & x & ->).
  { destruct l; by eexists _, _. }
  by rewrite (bind_ret _ _ _ _ _ (IH fuel s Hz ltac:(lia))).
Qed.
End strings.

Lemma find_by_type_ok {A} C (s : dt A) root t type max_count fuel :
  node_rep C s 0 root t -> (size t <= 64)%nat -> (size t < fuel)%nat ->
  exists output, find_by_type fuel root type (Z.of_nat max_count) s = Ret output s /\
    Forall2 (at_node C s) output (take max_count (matches type (level_order t))).
Proof.
  intros Hr Ht Hf. pose proof (node_rep_in _ _ _ _ _ Hr) as [Hroot _]. unfold find_by_type.
  destruct (Z.eqb_spec root 0); [done|].
  apply (find_by_type_loop_ok C s type max_count (size t) fuel (queue0 root) [([], t)] [] []).
  - unfold total. simpl. lia.
  - done.
  - by apply queue0_rep.
  - unfold total. cbn [front queue0 map list_sum fold_right snd]. lia.
  - constructor.
  - cbn [length]. lia.
Qed.

(** ** The properties *)

(** C25: [find_by_type] finds, in a tree of at most 64 nodes, the first
    [max_count] nodes in breadth-first order whose name is the type or starts
    with the type and ['@'].  It leaves the state alone and always returns. *)
Theorem find_by_type_correct {A} `{Allocator A} C (s : dt A) root t type max_count fuel :
  node_rep C s 0 root t -> (size t <= 64)%nat -> (size t < fuel)%nat -> 64 ∉ type ->
  exists output, find_by_type fuel root type (Z.of_nat max_count) s = Ret output s /\
    Forall2 (at_node C s) output (take max_count (matches type (level_order t))) /\
    level_order t ≡ₚ places [] t /\
    forall x, x ∈ matches type (level_order t) <-> x ∈ places [] t /\ of_type type (tree_name (snd x)).
Proof.
  intros Hr Ht Hf Hty. destruct (find_by_type_ok C s root t type max_count fuel Hr Ht Hf) as (output & E & Ho).
  exists output. split_and!; [done|exact Ho|apply level_order_places|].
  intros x. unfold matches. rewrite list_elem_of_filter, level_order_places, is_type_equal_spec by done. tauto.
Qed.

(** C36: [get_reg_item] reads back an address and a size encoded in the cells
    that the outermost ancestors ask for, at byte [idx * (cells)] of the
    property; it fails without storing anything exactly from the end of the
    property on. *)
Theorem get_reg_item_correct {A} `{Allocator A} C (s : dt A) fuel node v ca cs idx :
  reg_node C s fuel node v ca cs -> Z.of_nat (length v) mod (ca + cs) = 0 -> 0 <= idx * (ca + cs) < 2 ^ 32 ->
  (Z.of_nat (length v) <= idx * (ca + cs) -> get_reg_item fuel node idx s = Ret (1, None, None) s) /\
  forall l address size r, v = l ++ cells_enc ca address ++ cells_enc cs size ++ r ->
    Z.of_nat (length l) = idx * (ca + cs) -> 0 <= address < 2 ^ (32 * ca) -> 0 <= size < 2 ^ (32 * cs) ->
    get_reg_item fuel node idx s = Ret (0, Some address, Some size) s.
Proof.
  intros Hn Hmod Hi. pose proof (reg_address_cells _ _ _ _ _ _ _ Hn). pose proof (reg_size_cells _ _ _ _ _ _ _ Hn).
  destruct (get_reg_item_run C s fuel node idx v ca cs Hn) as (q & Hv & Hl & ->). split.
  - intros Hout. apply reg_item_out; (done || lia).
  - intros l address size r Hve Hll Hadr Hsz. eapply reg_item_ok; rewrite ?Hv, ?Hl; (done || lia).
Qed.

(** A root with the cell counts 2 and 1 and two children, the first with a
    register range. *)
#[local] Existing Instance demo_heap.

Definition demo_reg : list Z := cells_enc 2 0x10c000000 ++ cells_enc 1 0x400000.
Definition demo_root_props : list (list Z * list Z) :=
  [(str_address_cells, be_enc 2); (str_size_cells, be_enc 1)].
Definition demo_dt_tree : tree :=
  Tree [] demo_root_props
    [Tree [112; 108; 105; 99; 64; 99] [(str_reg, demo_reg)] []; Tree [112; 108; 105; 99] [] []].

Definition demo_dt : dt Kmalloc.heap := Dt heap0
  (fun a =>
     if a =? 1000 then MkNode 8 [] 0 2000 0 5000
     else if a =? 2000 then MkNode 8 [112; 108; 105; 99; 64; 99] 1000 0 3000 5200
     else MkNode 8 [112; 108; 105; 99] 1000 0 0 0)
  (fun a =>
     if a =? 5000 then MkProp 8 str_address_cells 4 8 (be_enc 2) 5100
     else if a =? 5100 then MkProp 8 str_size_cells 4 8 (be_enc 1) 0
     else MkProp 8 str_reg 12 8 demo_reg 0).

Lemma find_by_type_witness :
  exists output, find_by_type 4 1000 [112; 108; 105; 99] (Z.of_nat 1) demo_dt = Ret output demo_dt /\
    Forall2 (at_node (fun _ => True) demo_dt) output (take 1 (matches [112; 108; 105; 99] (level_order demo_dt_tree))) /\
    level_order demo_dt_tree ≡ₚ places [] demo_dt_tree /\
    forall x, x ∈ matches [112; 108; 105; 99] (level_order demo_dt_tree) <->
      x ∈ places [] demo_dt_tree /\ of_type [112; 108; 105; 99] (tree_name (snd x)).
Proof.
  apply (find_by_type_correct (fun _ => True) demo_dt 1000 demo_dt_tree [112; 108; 105; 99] 1 4).
  - vm_compute. repeat split; discriminate.
  - vm_compute. lia.
  - vm_compute. lia.
  - intros Hin. repeat (apply elem_of_cons in Hin as [Hin|Hin]; [discriminate Hin|]). by apply not_elem_of_nil in Hin.
Defined.

Lemma demo_reg_node : reg_node (fun _ => True) demo_dt 8 2000 demo_reg 2 1.
Proof.
  split.
  - exists [(str_reg, demo_reg)]. vm_compute. repeat split; try discriminate. lia.
  - exists [demo_root_props]. split_and!.
    + vm_compute. repeat split; discriminate.
    + exists 2. split_and!; (reflexivity || lia).
    + exists 1. split_and!; (reflexivity || lia).
    + vm_compute. lia.
    + repeat constructor.
  - by right.
  - by left.
Qed.

Lemma get_reg_item_witness : get_reg_item 8 2000 0 demo_dt = Ret (0, Some 0x10c000000, Some 0x400000) demo_dt.
Proof.
  apply (get_reg_item_correct (fun _ => True) demo_dt 8 2000 demo_reg 2 1 0) with (l := []) (r := []).
  - exact demo_reg_node.
  - reflexivity.
  - vm_compute. split; [discriminate|reflexivity].
  - rewrite app_nil_r. reflexivity.
  - reflexivity.
  - vm_compute. split; [discriminate|reflexivity].
  - vm_compute. split; [discriminate|reflexivity].
Defined.

(** The unit of the index is not an item: item 1 of a property with two of
    them is read from inside the first one. *)
Lemma reg_item_index_unit :
  reg_item (MkProp 8 str_reg 16 8 (cells_enc 1 0x1000 ++ cells_enc 1 0x10 ++ cells_enc 1 0x2000 ++ cells_enc 1 0x20) 0)
    1 1 1 demo_dt = Ret (0, Some 0x10000000, Some 0x100000) demo_dt.
Proof. vm_compute. reflexivity. Qed.

(** A tree of more than 64 nodes: the search reads past its queue. *)
Definition flat_dt : dt Kmalloc.heap := Dt heap0
  (fun a => if a =? 1000 then MkNode 8 [] 0 1 0 0 else MkNode 8 [] 1000 0 (if a =? 64 then 0 else a + 1) 0)
  (fun _ => MkProp 8 [] 0 8 [] 0).
Lemma find_by_type_overrun : find_by_type 200 1000 [1] 1 flat_dt = Panic flat_dt.
Proof. vm_compute. reflexivity. Qed.
