(* ===== verification/Discover.v ===== *)
(** kern/virtio.c, kern/serial.c and kern/plic.c: how the kernel finds its
    devices in the device tree and registers them.

    The state is the device tree ([dt]) whose heap is the kernel; what the
    code copies into a block of the heap for a device is kept by its address
    in [b_data].  Messages are not modelled, but the reads of the string list
    that is printed are. *)
From Stdlib Require Import String Ascii.
From S2P Require Import Prelude Queue Mem Mmu Pmap PageTable PageMap Kmalloc Elf Kernel Env Device Kmmap Plic.
From S2P Require Import Endian Alloc DeviceTree DtParse DtQuery.

(** ** Data *)

(** A C string literal, without its terminator. *)
Fixpoint lit (s : string) : list Z :=
  match s with
  | EmptyString => []
  | String c s => Z.of_nat (nat_of_ascii c) :: lit s
  end.

Record VirtioDeviceData := MkVirtio {
  v_interrupt_id : Z; v_interrupt_parent_id : Z; v_begin_pa : Z; v_len : Z
}.
Record SerialDeviceData := MkSerial {
  s_interrupt_id : Z; s_interrupt_parent_id : Z; s_clock_frequency : Z; s_begin_pa : Z; s_len : Z
}.
Record PlicData := MkPlic {
  p_interrupt_count : Z; p_s_interrupt_code : Z; p_base_pa : Z; p_len : Z
}.

Definition MAX_VIRTIO_COUNT : Z := 64.
Definition sizeof_VirtioDeviceData : Z := 24.
Definition sizeof_SerialDeviceData : Z := 32.
Definition sizeof_PlicData : Z := 32.

Inductive blob_data :=
  | VirtioBlob (d : VirtioDeviceData)
  | SerialBlob (d : SerialDeviceData)
  | PlicBlob (d : PlicData).

Record board := Board { b_kernel : kernel; b_data : Z -> option blob_data }.

(** An operation of the kernel, and [memcpy(p, d, sizeof( *d))]. *)
Definition kern {B} (m : M kernel B) : M (dt board) B :=
  in_heap (zoom b_kernel (fun k b => Board k (b_data b)) m).
Definition put_data (p : Z) (d : blob_data) : M (dt board) unit :=
  in_heap (modify (fun b => Board (b_kernel b) (<[p := Some d]> (b_data b)))).

(** ** Reading a node *)

(** The bytes of a property, and the first big-endian cell of its value. *)
Definition prop_bytes (pr : property) : list Z := take (Z.to_nat (p_length pr)) (p_value pr).
Definition cell (p i : Z) : M (dt board) Z :=
  v ← get (fun s => p_value (props s p));
  x ← value32 v i;
  mret (be32toh x).

(** Does the [compatible] property [p] list [target]?  If not, it is printed. *)
Definition compatible (fuel : nat) (p : Z) (target : list Z) : M (dt board) bool :=
  v ← get (fun s => prop_bytes (props s p));
  ok ← contains_string fuel v target;
  if (ok : bool) then mret true else print_stringlist fuel v ;; mret false.

(** [interrupts_property->length % sizeof(uint32_t) != 0 || length == 0] *)
Definition bad_cells (len : Z) : bool := negb (len mod 4 =? 0) || (len =? 0).

(** The result of [parse_virtio_device] and the data it leaves. *)
Definition parse_virtio_device (fuel : nat) (node : Z) (d : VirtioDeviceData) : M (dt board) (Z * VirtioDeviceData) :=
  compatible_property ← get_property fuel node (lit "compatible");
  match compatible_property with
  | None => mret (1, d)
  | Some compatible_property =>
  ok ← compatible fuel compatible_property (lit "virtio,mmio");
  if negb ok then mret (1, d) else
  interrupts_property ← get_property fuel node (lit "interrupts");
  match interrupts_property with
  | None => mret (1, d)
  | Some interrupts_property =>
  len ← get (fun s => p_length (props s interrupts_property));
  if bad_cells len then mret (1, d) else
  interrupt_id ← cell interrupts_property 0;
  interrupt_parent_property ← get_property fuel node (lit "interrupt-parent");
  match interrupt_parent_property with
  | None => mret (1, d)
  | Some interrupt_parent_property =>
  interrupt_parent_id ← cell interrupt_parent_property 0;
  '(ret, address, size) ← get_reg_item fuel node 0;
  let d := MkVirtio (v_interrupt_id d) (v_interrupt_parent_id d)
             (default (v_begin_pa d) address) (default (v_len d) size) in
  if negb (ret =? 0) then mret (ret, d)
  else mret (0, MkVirtio interrupt_id interrupt_parent_id (v_begin_pa d) (v_len d))
  end end end.

Definition parse_serial_device (fuel : nat) (node : Z) (d : SerialDeviceData) : M (dt board) (Z * SerialDeviceData) :=
  compatible_property ← get_property fuel node (lit "compatible");
  match compatible_property with
  | None => mret (1, d)
  | Some compatible_property =>
  ok ← compatible fuel compatible_property (lit "ns16550a");
  if negb ok then mret (1, d) else
  interrupts_property ← get_property fuel node (lit "interrupts");
  match interrupts_property with
  | None => mret (1, d)
  | Some interrupts_property =>
  len ← get (fun s => p_length (props s interrupts_property));
  if bad_cells len then mret (1, d) else
  interrupt_id ← cell interrupts_property 0;
  interrupt_parent_property ← get_property fuel node (lit "interrupt-parent");
  match interrupt_parent_property with
  | None => mret (1, d)
  | Some interrupt_parent_property =>
  interrupt_parent_id ← cell interrupt_parent_property 0;
  '(ret, address, size) ← get_reg_item fuel node 0;
  let d := MkSerial (s_interrupt_id d) (s_interrupt_parent_id d) (s_clock_frequency d)
             (default (s_begin_pa d) address) (default (s_len d) size) in
  if negb (ret =? 0) then mret (ret, d) else
  let d := MkSerial interrupt_id interrupt_parent_id (s_clock_frequency d) (s_begin_pa d) (s_len d) in
  clock_frequency_property ← get_property fuel node (lit "clock-frequency");
  match clock_frequency_property with
  | None => mret (1, d)
  | Some clock_frequency_property =>
  len ← get (fun s => p_length (props s clock_frequency_property));
  if negb (len =? 4) then mret (1, d) else
  f ← cell clock_frequency_property 0;
  mret (0, MkSerial (s_interrupt_id d) (s_interrupt_parent_id d) f (s_begin_pa d) (s_len d))
  end end end end.

Definition parse_plic_device (fuel : nat) (node : Z) (d : PlicData) : M (dt board) (Z * PlicData) :=
  compatible_property ← get_property fuel node (lit "compatible");
  match compatible_property with
  | None => mret (1, d)
  | Some compatible_property =>
  ok ← compatible fuel compatible_property (lit "sifive,plic-1.0.0");
  if negb ok then mret (1, d) else
  interrupt_count_property ← get_property fuel node (lit "riscv,ndev");
  match interrupt_count_property with
  | None => mret (1, d)
  | Some interrupt_count_property =>
  len ← get (fun s => p_length (props s interrupt_count_property));
  if negb (len =? 4) then mret (1, d) else
  interrupt_count ← cell interrupt_count_property 0;
  '(ret, address, size) ← get_reg_item fuel node 0;
  let d := MkPlic interrupt_count (p_s_interrupt_code d)
             (default (p_base_pa d) address) (default (p_len d) size) in
  if negb (ret =? 0) then mret (ret, d) else
  interrupt_extended_property ← get_property fuel node (lit "interrupts-extended");
  match interrupt_extended_property with
  | None => mret (1, d)
  | Some interrupt_extended_property =>
  len ← get (fun s => p_length (props s interrupt_extended_property));
  if negb ((len =? 16) || (len =? 8)) then mret (1, d) else
  code ← cell interrupt_extended_property (if len =? 16 then 12 else 4);
  let d := MkPlic (p_interrupt_count d) code (p_base_pa d) (p_len d) in
  if 64 <=? code then mret (1, d) else mret (0, d)
  end end end.

(** ** Registering a device *)

(** The copy of the data, the entry of the table and its memory; the result is
    the slot. *)
Definition register_device (fuel : nat) (dtype : list Z) (d : blob_data) (size : Z) : M (dt board) Z :=
  cloned ← kern (inheap (kmalloc fuel size));
  cloned ← kern (deref cloned);
  put_data cloned d ;;
  kern (add_device fuel dtype cloned size).

Definition register_virtio_device (fuel : nat) (d : VirtioDeviceData) : M (dt board) unit :=
  temp_slot ← register_device fuel (lit "virtio_mmio") (VirtioBlob d) sizeof_VirtioDeviceData;
  kern (add_mmio_range fuel temp_slot (v_begin_pa d) (v_len d)).

Definition register_serial_device (fuel : nat) (d : SerialDeviceData) : M (dt board) unit :=
  temp_slot ← register_device fuel (lit "serial") (SerialBlob d) sizeof_SerialDeviceData;
  kern (add_mmio_range fuel temp_slot (s_begin_pa d) (s_len d)).

(** The address of the new [plic_device] matters only when it is NULL. *)
Definition register_plic_device (fuel : nat) (d : PlicData) : M (dt board) unit :=
  temp_slot ← register_device fuel (lit "plic") (PlicBlob d) sizeof_PlicData;
  p ← kern (inheap (kmalloc fuel sizeof_Device));
  kern (add_mmio_range fuel temp_slot (p_base_pa d) (p_len d)) ;;
  _ ← kern (deref p);
  slot ← kern (get (fun k => devices k !! Z.to_nat temp_slot));
  kern (modify (set_plic_device slot)).

(** ** The three searches; [root] is the global [device_tree] *)

Definition virtio0 : VirtioDeviceData := MkVirtio 0 0 0 0.
Definition serial0 : SerialDeviceData := MkSerial 0 0 0 0 0.
Definition plic0 : PlicData := MkPlic 0 0 0 0.

(** The loop over the nodes found; the result of the parser is not looked at. *)
Fixpoint virtio_loop (fuel : nat) (virtio_node_list : list Z) : M (dt board) unit :=
  match virtio_node_list with
  | [] => mret tt
  | current_node :: l =>
      '(_, device_data) ← parse_virtio_device fuel current_node virtio0;
      register_virtio_device fuel device_data ;;
      virtio_loop fuel l
  end.

Definition virtio_init (fuel : nat) (root : Z) : M (dt board) unit :=
  virtio_node_list ← find_by_type fuel root (lit "virtio_mmio") MAX_VIRTIO_COUNT;
  virtio_loop fuel virtio_node_list.

Definition serial_init (fuel : nat) (root : Z) : M (dt board) unit :=
  serial_node ← find_by_type fuel root (lit "serial") 1;
  match serial_node with
  | [] => mret tt
  | serial_node :: _ =>
      '(_, device_data) ← parse_serial_device fuel serial_node serial0;
      register_serial_device fuel device_data
  end.

(** [memset(interrupt_handler, 0, ...)] of a block that may be NULL. *)
Definition new_handlers (fuel : nat) (count : Z) : M kernel unit :=
  a ← inheap (kmalloc fuel (8 * count));
  match a with
  | None => if count =? 0 then mret tt else panic
  | Some _ => modify (set_interrupt_handler (fun _ => None))
  end.

Definition plic_init (fuel : nat) (root : Z) : M (dt board) unit :=
  plic_node_list ← find_by_type fuel root (lit "plic") 1;
  match plic_node_list with
  | [] => mret tt
  | node :: _ =>
      '(_, plic_data) ← parse_plic_device fuel node plic0;
      register_plic_device fuel plic_data ;;
      kern (modify (set_plic_base_pa (p_base_pa plic_data)) ;;
            modify (set_plic_interrupt_count (p_interrupt_count plic_data)) ;;
            new_handlers fuel (p_interrupt_count plic_data) ;;
            register_interrupt_handler (p_s_interrupt_code plic_data) HandlePlicInterrupt ;;
            enable_interrupt (p_s_interrupt_code plic_data) ;;
            plic_set_prority_threshold 0)
  end.

(** The part of [riscv64_init] that registers the devices. *)
Definition init_devices (fuel : nat) (root : Z) : M (dt board) unit :=
  plic_init fuel root ;;
  virtio_init fuel root ;;
  serial_init fuel root.

(** ** What a node has to say *)

(** The conditions are on the abstract tree; [fuel] bounds the lists walked. *)
Definition prop_of (x : place) (key : string) : option (list Z) := assoc (lit key) (tree_props (snd x)).

Definition small (fuel : nat) (x : place) : Prop :=
  (length (tree_props (snd x)) < fuel)%nat /\ (length (fst x) < fuel)%nat /\
  Forall (fun ps => length ps + length (fst x) < fuel)%nat (fst x).

Definition compat_spec (fuel : nat) (x : place) (target : string) : Prop :=
  exists ls, prop_of x "compatible" = Some (string_list ls) /\ Forall (fun l => 0 ∉ l) ls /\
    (length ls < fuel)%nat /\ lit target ∈ ls.

(** The first cell of a property is [v]. *)
Definition cell_spec (x : place) (key : string) (v : Z) : Prop :=
  exists r, prop_of x key = Some (be_enc v ++ r) /\ 0 <= v < 2 ^ 32.

(** The first entry of [reg]. *)
Definition reg_spec (x : place) (address size : Z) : Prop :=
  exists ca cs r, assoc str_reg (tree_props (snd x)) = Some (cells_enc ca address ++ cells_enc cs size ++ r) /\
    outermost str_address_cells (fst x) 0 ca /\ outermost str_size_cells (fst x) 0 cs /\
    (ca = 1 \/ ca = 2) /\ (cs = 1 \/ cs = 2) /\ 0 <= address < 2 ^ (32 * ca) /\ 0 <= size < 2 ^ (32 * cs) /\
    Z.of_nat (length (cells_enc ca address ++ cells_enc cs size ++ r)) mod (ca + cs) = 0.

Definition interrupts_spec (x : place) (v : Z) : Prop :=
  exists r, prop_of x "interrupts" = Some (be_enc v ++ r) /\ 0 <= v < 2 ^ 32 /\ Z.of_nat (length r) mod 4 = 0.

Definition virtio_spec (fuel : nat) (x : place) (d : VirtioDeviceData) : Prop :=
  small fuel x /\ compat_spec fuel x "virtio,mmio" /\ interrupts_spec x (v_interrupt_id d) /\
  cell_spec x "interrupt-parent" (v_interrupt_parent_id d) /\ reg_spec x (v_begin_pa d) (v_len d).

Definition serial_spec (fuel : nat) (x : place) (d : SerialDeviceData) : Prop :=
  small fuel x /\ compat_spec fuel x "ns16550a" /\ interrupts_spec x (s_interrupt_id d) /\
  cell_spec x "interrupt-parent" (s_interrupt_parent_id d) /\ reg_spec x (s_begin_pa d) (s_len d) /\
  prop_of x "clock-frequency" = Some (be_enc (s_clock_frequency d)) /\ 0 <= s_clock_frequency d < 2 ^ 32.

Definition plic_spec (fuel : nat) (x : place) (d : PlicData) : Prop :=
  small fuel x /\ compat_spec fuel x "sifive,plic-1.0.0" /\
  prop_of x "riscv,ndev" = Some (be_enc (p_interrupt_count d)) /\ 0 <= p_interrupt_count d < 2 ^ 32 /\
  reg_spec x (p_base_pa d) (p_len d) /\ 0 <= p_s_interrupt_code d < 64 /\
  (exists pre, prop_of x "interrupts-extended" = Some (pre ++ be_enc (p_s_interrupt_code d)) /\
     (length pre = 4 \/ length pre = 12)%nat).

(** ** The parsers *)

Section parse.
Variables (C : Z -> Prop) (s : dt board) (fuel : nat) (a : Z) (x : place).
Hypotheses (Hat : at_node C s a x) (Hsmall : small fuel x).

Lemma place_prop key : match assoc key (tree_props (snd x)) with
  | None => get_property fuel a key s = Ret None s
  | Some v => exists q, get_property fuel a key s = Ret (Some q) s /\ p_value (props s q) = v /\
      p_length (props s q) = Z.of_nat (length v)
  end.
Proof.
  destruct Hat as (par & Hn & _). destruct Hsmall as [Hf _]. destruct x as [anc [nm ps ks]]. cbn [snd tree_props] in *.
  destruct Hn as (_ & _ & _ & _ & Hps & _). unfold get_property.
  pose proof (get_property_from_ok C s key ps fuel _ Hps Hf) as H. rewrite bind_get. exact H.
Qed.

Lemma place_some key v : assoc key (tree_props (snd x)) = Some v ->
  exists q, get_property fuel a key s = Ret (Some q) s /\ p_value (props s q) = v /\
    p_length (props s q) = Z.of_nat (length v).
Proof. intros E. pose proof (place_prop key) as H. by rewrite E in H. Qed.

Lemma cell_ok q v l i r n : p_value (props s q) = v -> v = l ++ be_enc n ++ r -> i = Z.of_nat (length l) ->
  0 <= n < 2 ^ 32 -> cell q i s = Ret n s.
Proof.
  intros Hv -> -> Hn. unfold cell. rewrite bind_get, Hv.
  destruct (value32_ok s (l ++ be_enc n ++ r) _ l r n eq_refl eq_refl Hn) as (y & E & Hy).
  rewrite (bind_ret _ _ _ _ _ E). by rewrite Hy.
Qed.

Lemma compatible_ok q ls target : p_value (props s q) = string_list ls ->
  p_length (props s q) = Z.of_nat (length (string_list ls)) -> Forall (fun l => 0 ∉ l) ls -> (length ls < fuel)%nat ->
  compatible fuel q target s = Ret (bool_decide (target ∈ ls)) s.
Proof.
  intros Hv Hl Hz Hf. unfold compatible, prop_bytes. rewrite bind_get, Hv, Hl, Nat2Z.id, firstn_all.
  rewrite (bind_ret _ _ _ _ _ (contains_string_ok target ls fuel s Hz Hf)).
  destruct (bool_decide_reflect (target ∈ ls)); [done|]. by rewrite (bind_ret _ _ _ _ _ (print_stringlist_ok ls fuel s Hz Hf)).
Qed.

Lemma compat_run target : compat_spec fuel x target ->
  exists q, get_property fuel a (lit "compatible") s = Ret (Some q) s /\ compatible fuel q (lit target) s = Ret true s.
Proof.
  intros (ls & Hp & Hz & Hf & Hin). destruct (place_some _ _ Hp) as (q & E & Hv & Hl). exists q. split; [done|].
  rewrite (compatible_ok q ls) by done. by rewrite bool_decide_true.
Qed.

Lemma reg_run address size : reg_spec x address size ->
  get_reg_item fuel a 0 s = Ret (0, Some address, Some size) s.
Proof.
  intros (ca & cs & r & Hp & Ha & Hs & Hca & Hcs & Hra & Hrs & Hmod). destruct Hat as (par & Hn & Hch).
  destruct Hsmall as (Hf & Hf1 & Hf2). destruct x as [anc [nm ps ks]]. cbn [fst snd tree_props] in *.
  destruct Hn as (_ & _ & _ & Hpar & Hps & _).
  destruct (get_reg_item_run C s fuel a 0 (cells_enc ca address ++ cells_enc cs size ++ r) ca cs) as (q & Hv & Hl & ->).
  { split; [by exists ps| |done|done]. rewrite Hpar. by exists anc. }
  eapply reg_item_ok with (l := []) (r := r); rewrite ?Hv, ?Hl; done.
Qed.

Lemma interrupts_run v : interrupts_spec x v ->
  exists q, get_property fuel a (lit "interrupts") s = Ret (Some q) s /\
    bad_cells (p_length (props s q)) = false /\ cell q 0 s = Ret v s.
Proof.
  intros (r & Hp & Hv & Hm). destruct (place_some _ _ Hp) as (q & E & Hvq & Hl). exists q. split_and!; [done| |].
  - rewrite Hl, length_app, Nat2Z.inj_add. change (Z.of_nat (length (be_enc v))) with 4. unfold bad_cells.
    destruct (Z.eqb_spec ((4 + Z.of_nat (length r)) mod 4) 0), (Z.eqb_spec (4 + Z.of_nat (length r)) 0); try done;
      exfalso; Z.div_mod_to_equations; lia.
  - by apply (cell_ok q _ [] 0 r v Hvq).
Qed.

Lemma cell_run key v : cell_spec x key v ->
  exists q, get_property fuel a (lit key) s = Ret (Some q) s /\ cell q 0 s = Ret v s.
Proof.
  intros (r & Hp & Hv). destruct (place_some _ _ Hp) as (q & E & Hvq & Hl). exists q. split; [done|].
  by apply (cell_ok q _ [] 0 r v Hvq).
Qed.

Lemma parse_virtio_ok d0 d : virtio_spec fuel x d -> parse_virtio_device fuel a d0 s = Ret (0, d) s.
Proof.
  intros (_ & Hc & Hi & Hp & Hr). unfold parse_virtio_device.
  destruct (compat_run _ Hc) as (q & E & E1). mrun E. mrun E1. cbn [negb].
  destruct (interrupts_run _ Hi) as (q2 & E2 & Hb & E3). mrun E2. rewrite bind_get, Hb. mrun E3.
  destruct (cell_run _ _ Hp) as (q4 & E4 & E5). mrun E4. mrun E5.
  mrun (reg_run _ _ Hr). by destruct d.
Qed.

Lemma parse_serial_ok d0 d : serial_spec fuel x d -> parse_serial_device fuel a d0 s = Ret (0, d) s.
Proof.
  intros (_ & Hc & Hi & Hp & Hr & Hf & Hfb). unfold parse_serial_device.
  destruct (compat_run _ Hc) as (q & E & E1). mrun E. mrun E1. cbn [negb].
  destruct (interrupts_run _ Hi) as (q2 & E2 & Hb & E3). mrun E2. rewrite bind_get, Hb. mrun E3.
  destruct (cell_run _ _ Hp) as (q4 & E4 & E5). mrun E4. mrun E5.
  mrun (reg_run _ _ Hr). cbn [negb Z.eqb]. destruct (place_some _ _ Hf) as (q6 & E6 & Hv & Hl). mrun E6.
  rewrite bind_get, Hl. change (negb (Z.of_nat (length (be_enc (s_clock_frequency d))) =? 4)) with false. cbv iota.
  mrun (cell_ok q6 _ [] 0 [] (s_clock_frequency d) Hv (eq_sym (app_nil_r _)) eq_refl Hfb). by destruct d.
Qed.

Lemma parse_plic_ok d0 d : plic_spec fuel x d -> parse_plic_device fuel a d0 s = Ret (0, d) s.
Proof.
  intros (_ & Hc & Hn & Hnb & Hr & Hcb & pre & Hx & Hpre). unfold parse_plic_device.
  destruct (compat_run _ Hc) as (q & E & E1). mrun E. mrun E1. cbn [negb].
  destruct (place_some _ _ Hn) as (q2 & E2 & Hv2 & Hl2). mrun E2.
  rewrite bind_get, Hl2. change (negb (Z.of_nat (length (be_enc (p_interrupt_count d))) =? 4)) with false. cbv iota.
  mrun (cell_ok q2 _ [] 0 [] (p_interrupt_count d) Hv2 (eq_sym (app_nil_r _)) eq_refl Hnb).
  mrun (reg_run _ _ Hr). cbn [negb Z.eqb]. destruct (place_some _ _ Hx) as (q3 & E3 & Hv3 & Hl3). mrun E3.
  rewrite length_app in Hl3. change (length (be_enc _)) with 4%nat in Hl3. rewrite bind_get, Hl3.
  assert (forall i, i = Z.of_nat (length pre) -> cell q3 i s = Ret (p_s_interrupt_code d) s) as Hcell.
  { intros i ->. apply (cell_ok q3 _ pre _ [] (p_s_interrupt_code d) Hv3); [by rewrite app_nil_r|done|lia]. }
  destruct Hpre as [Hpre|Hpre]; rewrite Hpre in *;
    [change (Z.of_nat (4 + 4)) with 8; pose proof (Hcell 4 eq_refl) as E4|
     change (Z.of_nat (12 + 4)) with 16; pose proof (Hcell 12 eq_refl) as E4];
    cbn [Z.eqb Pos.eqb negb orb]; mrun E4; (destruct (Z.leb_spec 64 (p_s_interrupt_code d)); [lia|]); by destruct d.
Qed.
End parse.

(** ** The table of devices *)

(** The parts of the kernel that finding devices changes. *)
Definition same_rest (k k' : kernel) : Prop :=
  k' = set_pm (pm k') (set_kmmap_bmap (kmmap_bmap k') (set_kheap (kheap k') (set_devices (devices k')
    (set_devices_capacity (devices_capacity k') (set_devices_array (devices_array k')
      (set_global_device_id (global_device_id k') k)))))).

#[export] Instance same_rest_preorder : PreOrder same_rest.
Proof.
  split; unfold same_rest; [by intros []|]. intros k1 k2 k3 H1 H2. rewrite H1 in H2. exact H2.
Qed.

(** [L]: the blocks of the heap in use. *)
Record table_ok (k : kernel) (L : Z -> Prop) : Prop := {
  to_room : Z.of_nat (length (devices k)) <= devices_capacity k;
  to_array : devices_array k = 0 \/ L (devices_array k);
  to_data : forall d, d ∈ devices k -> L (device_data d) /\ device_data d <> devices_array k
}.

Lemma kmalloc_inv_le h L R R' : R' <= R -> kmalloc_inv h L R -> kmalloc_inv h L R'.
Proof. intros HR (l & H1 & H2 & H3 & b & Hb & Hf & Hs). exists l. split_and!; [done..|]. exists b. split_and!; [done..|lia]. Qed.

(** The most an entry of a table of [n] devices costs. *)
Definition entry_cost (n : Z) : Z := 128 * n + 128 + 56.

Section boot.
Variables (fuel : nat) (Hfuel : KMALLOC_HEAP_SIZE / MBLOCK_SIZE <= Z.of_nat fuel).

Lemma inheap_kmalloc k L R size : 0 <= size < 2 ^ 63 -> 0 <= R -> kmalloc_inv (kheap k) L (R + (size + 56)) ->
  exists p h, inheap (kmalloc fuel size) k = Ret (Some p) (set_kheap h k) /\ p <> 0 /\ ~ L p /\
    kmalloc_inv h (fun q => q = p \/ L q) R.
Proof.
  intros Hs HR Hi. destruct (kmalloc_spec fuel Hfuel _ L R size Hs HR Hi) as (p & h & E & Hp & HL & Hi').
  exists p, h. split; [|done]. unfold inheap. by rewrite (zoom_ret kheap set_kheap _ _ _ _ E).
Qed.

Lemma inheap_kfree k L R p : kmalloc_inv (kheap k) L R -> L p ->
  exists h, inheap (kfree p) k = Ret tt (set_kheap h k) /\ kmalloc_inv h (fun q => L q /\ q <> p) R.
Proof.
  intros Hi HL. destruct (kfree_spec fuel (kheap k) L R p Hi HL) as (h & E & Hi'). exists h. split; [|done].
  unfold inheap. by rewrite (zoom_ret kheap set_kheap _ _ _ _ E).
Qed.

(** The growth of the array. *)
Definition grow (n cap : Z) : M kernel unit :=
  if cap <=? n then
    let cap := if cap =? 0 then DEVICE_ARRAY_RESIZE_FACTOR else cap * DEVICE_ARRAY_RESIZE_FACTOR in
    modify (set_devices_capacity cap) ;;
    new_array ← inheap (kmalloc fuel (cap * sizeof_Device));
    match new_array with
    | None => panic
    | Some a =>
        old ← get devices_array;
        (if negb (old =? 0) then inheap (kfree old) else mret tt) ;;
        modify (set_devices_array a)
    end
  else mret tt.

Lemma grow_ok k L R : table_ok k L -> 0 <= R -> Z.of_nat (length (devices k)) < 2 ^ 32 ->
  kmalloc_inv (kheap k) L (R + entry_cost (Z.of_nat (length (devices k)))) ->
  exists k' L', grow (Z.of_nat (length (devices k))) (devices_capacity k) k = Ret tt k' /\
    kmalloc_inv (kheap k') L' R /\ table_ok k' L' /\ Z.of_nat (length (devices k)) < devices_capacity k' /\
    (forall q, L q -> q <> devices_array k -> L' q /\ q <> devices_array k') /\
    k' = set_devices_array (devices_array k') (set_kheap (kheap k') (set_devices_capacity (devices_capacity k') k)).
Proof.
  intros [Hroom Harr Hdata] HR Hn Hi. unfold entry_cost in Hi. set (n := Z.of_nat (length (devices k))) in *. unfold grow.
  destruct (Z.leb_spec (devices_capacity k) n) as [Hc|Hc].
  2: { exists k, L. split_and!; [done|by eapply kmalloc_inv_le; [|exact Hi]; lia|done|done| |by destruct k].
       intros q Hq Hne. done. }
  set (cap := if devices_capacity k =? 0 then _ else _).
  assert (n < cap <= 2 * n + 2) as Hcap.
  { unfold cap, DEVICE_ARRAY_RESIZE_FACTOR. destruct (Z.eqb_spec (devices_capacity k) 0); lia. }
  rewrite bind_modify.
  destruct (inheap_kmalloc (set_devices_capacity cap k) L R (cap * sizeof_Device)) as (p & h & E & Hp & HLp & Hh).
  { unfold sizeof_Device. lia. } { done. }
  { eapply kmalloc_inv_le; [|exact Hi]. unfold sizeof_Device. lia. }
  mrun E. rewrite bind_get. cbn [devices_array set_kheap set_devices_capacity].
  destruct (Z.eqb_spec (devices_array k) 0) as [H0|H0]; cbn [negb].
  - eexists _, _. split; [reflexivity|]. split_and!; [exact Hh| |simpl; lia| |done].
    + split; [simpl; fold n; lia|right; by left|]. intros d Hd. destruct (Hdata d Hd) as [Hd1 Hd2]. split; [by right|].
      simpl. congruence.
    + intros q Hq _. split; [by right|]. intros ->. done.
  - destruct Harr as [?|Harr]; [done|].
    destruct (inheap_kfree (set_kheap h (set_devices_capacity cap k)) _ R (devices_array k) Hh) as (h2 & E2 & Hh2); [by right|].
    mrun E2. eexists _, _. split; [reflexivity|]. split_and!; [exact Hh2| |simpl; lia| |done].
    + split; [simpl; fold n; lia|right; simpl; split; [by left|intros ->; done]|]. intros d Hd. destruct (Hdata d Hd) as [Hd1 Hd2].
      split; [split; [by right|done]|]. simpl. congruence.
    + intros q Hq Hne. split; [split; [by right|done]|]. simpl. intros ->. done.
Qed.

Lemma add_device_ok k L R dtype data len : table_ok k L -> 0 <= R -> Z.of_nat (length (devices k)) < 2 ^ 32 ->
  L data -> data <> devices_array k ->
  kmalloc_inv (kheap k) L (R + entry_cost (Z.of_nat (length (devices k)))) ->
  exists k' L', add_device fuel dtype data len k = Ret (Z.of_nat (length (devices k))) k' /\
    kmalloc_inv (kheap k') L' R /\ table_ok k' L' /\ (forall q, L q -> q <> devices_array k -> L' q /\ q <> devices_array k') /\
    devices k' = devices k ++ [MkDevice dtype (global_device_id k) [] data len] /\
    global_device_id k' = u64 (global_device_id k + 1) /\
    k' = set_devices (devices k') (set_global_device_id (global_device_id k') (set_devices_array (devices_array k')
           (set_kheap (kheap k') (set_devices_capacity (devices_capacity k') k)))).
Proof.
  intros Ht HR Hn HL Hne Hi. destruct (grow_ok k L R Ht HR Hn Hi) as (k1 & L1 & E & Hi1 & Ht1 & Hlt & HL1 & Hk1).
  destruct (HL1 data HL Hne) as [HLd Hd].
  unfold add_device. rewrite !bind_get. fold (grow (Z.of_nat (length (devices k))) (devices_capacity k)). mrun E.
  eexists _, L1. unfold get_next_device_id. rewrite bind_assoc, bind_get, bind_assoc, bind_modify, bind_mret, bind_modify.
  assert (devices k1 = devices k) as Ed by by rewrite Hk1.
  assert (global_device_id k1 = global_device_id k) as Eg by by rewrite Hk1.
  split; [reflexivity|]. cbn [kheap set_devices set_global_device_id devices devices_capacity devices_array global_device_id].
  rewrite Ed, Eg. destruct Ht1 as [R1 A1 D1]. rewrite Ed in D1. split_and!; try done.
  - split; [|exact A1|].
    + simpl. rewrite ?Ed, length_app. simpl. lia.
    + intros d Hd'. simpl in Hd'. rewrite ?Ed in Hd'. apply elem_of_app in Hd' as [Hd'|Hd'%list_elem_of_singleton]; [by apply D1|by subst d].
  - rewrite Hk1. done.
Qed.

(** ** Registration *)

(** The pages of [len] bytes, and what their mapping needs. *)
Definition pages (len : Z) : Z := (len + 4095) / 4096.
Definition range_ok (pa len : Z) : Prop :=
  pa mod PAGE_SIZE = 0 /\ 0 <= pa /\ pa + pages len * PAGE_SIZE <= 2 ^ 56 /\ 0 <= len < 2 ^ 56.
Definition dev_perm : Z := Z.lor PTE_V (Z.lor PTE_RW PTE_GLOBAL).

Lemma pages_bounds len : 0 <= len -> 0 <= pages len /\ pages len * 4096 < len + 4096 /\ len <= pages len * 4096.
Proof. unfold pages. intros. Z.div_mod_to_equations. lia. Qed.

Lemma ROUND_len len : 0 <= len < 2 ^ 56 -> ROUND len PAGE_SIZE = pages len * PAGE_SIZE.
Proof. intros H. unfold PAGE_SIZE, pages. rewrite (ROUND_pow2 12) by lia. change (2 ^ 12) with 4096. by replace (len + 4096 - 1) with (len + 4095) by lia. Qed.

Variable root : Z.

(** While the kernel starts: the window is used below page [m], the heap's
    blocks in use are [L], and one free block has [R] bytes. *)
Record boot_inv (k : kernel) (l : list Z) (ws : list window) (m : Z) (L : Z -> Prop) (R : Z) : Prop := {
  bi_window : window_ok root k l ws;
  bi_top : Forall (fun w => w_off w + w_cnt w <= m) ws;
  bi_m : 0 <= m;
  bi_heap : kmalloc_inv (kheap k) L R;
  bi_table : table_ok k L
}.

Lemma window_ok_ext k k' l ws : pm k' = pm k -> kernel_boot_pgdir k' = kernel_boot_pgdir k -> envs k' = envs k ->
  kmmap_bmap k' = kmmap_bmap k -> window_ok root k l ws -> window_ok root k' l ws.
Proof. intros E1 E2 E3 E4 []. split; rewrite ?E1, ?E2, ?E3, ?E4; done. Qed.

Lemma top_fits ws m n : Forall (fun w => w_off w + w_cnt w <= m) ws -> 0 <= m -> m + Z.max n 1 <= KMMAP_COUNT -> fits ws n m.
Proof.
  intros Ht H0 H1. split_and!; [done..|]. intros j Hj (w & Hw & Hc)%Exists_exists.
  pose proof (proj1 (Forall_forall _ _) Ht w Hw) as Hwm. simpl in Hwm. unfold covers in Hc. lia.
Qed.

(** The range is in the list of the device, mapped at an address of the window. *)
Definition mapped_at (ws : list window) (pa len va : Z) : Prop :=
  exists off, va = kva off /\ (pages len = 0 \/ MkWin off (pages len) pa dev_perm ∈ ws).

Definition with_range (r : DeviceMMIORange) (d : Device) : Device :=
  MkDevice (device_type d) (device_id d) (r :: mmio_range_list d) (device_data d) (device_data_len d).

Lemma kva_pos off : 0 <= off -> kva off <> 0.
Proof. destruct KMMAP_values as (E & _). unfold kva, PAGE_SIZE. rewrite E. lia. Qed.

Lemma add_mmio_range_ok k l ws m L R pre d pa len : boot_inv k l ws m L (R + 88) -> 0 <= R -> devices k = pre ++ [d] ->
  range_ok pa len -> m + Z.max (pages len) 1 <= KMMAP_COUNT -> 2 * pages len <= Z.of_nat (length l) ->
  exists va k' l' ws' L', add_mmio_range fuel (Z.of_nat (length pre)) pa len k = Ret tt k' /\
    boot_inv k' l' ws' (m + pages len) L' R /\ (length l <= length l' + 2 * Z.to_nat (pages len))%nat /\
    (forall w, w ∈ ws -> w ∈ ws') /\ (forall q, L q -> L' q) /\ mapped_at ws' pa len va /\ devices_array k' = devices_array k /\
    devices k' = pre ++ [with_range (MMIORange pa len va) d] /\ global_device_id k' = global_device_id k /\ same_rest k k'.
Proof.
  intros [Hw Ht Hm Hh [T1 T2 T3]] HR Hd (Hpa & Hpa0 & Hpa1 & Hlen) Hroom Hl. destruct (pages_bounds len (proj1 Hlen)) as [Hp0 _].
  destruct (inheap_kmalloc k L R sizeof_DeviceMMIORange) as (p & h & E & Hp & HLp & Hh'); [done|done|exact Hh|].
  set (k1 := set_kheap h k) in *.
  assert (window_ok root k1 l ws) as Hw1 by by eapply window_ok_ext; [..|exact Hw].
  destruct (kmmap_alloc_ok root k1 l ws (pages len) pa dev_perm m Hw1 Hp0 (top_fits _ _ _ Ht Hm Hroom) Hl Hpa Hpa0 Hpa1)
    as (off & k2 & l' & E2 & [(Ho0 & _) Hmin] & Hw2 & [Hk2 _] & Hll); [done|done|].
  pose proof (Hmin m (top_fits _ _ _ Ht Hm Hroom)) as Hom.
  exists (kva off). unfold add_mmio_range. mrun E. mrun (eq_refl : deref (Some p) k1 = Ret p k1). rewrite ROUND_len by done.
  fold dev_perm. mrun E2. unfold upd_device.
  assert (devices k2 = pre ++ [d]) as Hd2 by by rewrite Hk2.
  eexists _, l', _, _. split; [reflexivity|]. split_and!; [split| | | | | | | |].
  - eapply window_ok_ext; [..|exact Hw2]; done.
  - unfold add_win. cbn [w_cnt]. assert (Forall (fun w => w_off w + w_cnt w <= m + pages len) ws) as HF
      by (eapply Forall_impl; [exact Ht|cbn beta; intros; lia]).
    destruct (_ =? 0); [done|]. constructor; [simpl; lia|done].
  - lia.
  - cbn [kheap set_devices]. rewrite Hk2. exact Hh'.
  - assert (devices_array k2 = devices_array k /\ devices_capacity k2 = devices_capacity k) as [Ea Ec] by by rewrite Hk2.
    split; cbn [devices devices_array devices_capacity set_devices]; rewrite ?Ea, ?Ec.
    + by rewrite length_alter, Hd2, <- Hd.
    + destruct T2; [by left|right; by right].
    + rewrite Hd2, Nat2Z.id, alter_app_r_alt, Nat.sub_diag by lia. cbn [alter list_alter]. intros e He.
      assert (exists e0, e0 ∈ devices k /\ device_data e = device_data e0) as (e0 & He0 & ->).
      { apply elem_of_app in He as [He|He%list_elem_of_singleton]; rewrite Hd; [exists e; set_solver|]. exists d. subst e. set_solver. }
      destruct (T3 e0 He0). split; [by right|done].
  - done.
  - intros w Hin. unfold add_win. destruct (_ =? 0); [done|by right].
  - intros q Hq. by right.
  - exists off. split; [done|]. unfold add_win. cbn [w_cnt]. destruct (Z.eqb_spec (pages len) 0); [by left|right; by left].
  - cbn [devices_array set_devices]. by rewrite Hk2.
  - cbn [devices set_devices]. by rewrite Hd2, Nat2Z.id, alter_app_r_alt, Nat.sub_diag by lia.
  - cbn [global_device_id set_devices]. by rewrite Hk2.
  - transitivity k2; [unfold same_rest; rewrite Hk2; by destruct k|]. by destruct k2.
Qed.

Lemma kern_ret {B} (o : M kernel B) k dat N P b k' : o k = Ret b k' ->
  kern o (Dt (Board k dat) N P) = Ret b (Dt (Board k' dat) N P).
Proof.
  intros E. unfold kern, in_heap. erewrite zoom_ret; [reflexivity|]. cbn [dt_heap].
  by erewrite zoom_ret by exact E.
Qed.

Definition register_cost (n size : Z) : Z := size + 56 + entry_cost n.

Lemma register_device_ok k dat N P l ws m L R dtype d size :
  boot_inv k l ws m L (R + register_cost (Z.of_nat (length (devices k))) size) -> 0 <= R -> 0 <= size < 2 ^ 62 ->
  Z.of_nat (length (devices k)) < 2 ^ 32 ->
  exists p k' L', register_device fuel dtype d size (Dt (Board k dat) N P) =
      Ret (Z.of_nat (length (devices k))) (Dt (Board k' (<[p := Some d]> dat)) N P) /\
    boot_inv k' l ws m L' R /\ devices k' = devices k ++ [MkDevice dtype (global_device_id k) [] p size] /\
    (forall e, e ∈ devices k -> device_data e <> p) /\ global_device_id k' = u64 (global_device_id k + 1) /\ same_rest k k'.
Proof.
  intros [Hw Ht Hm Hh Htab] HR Hs Hn. unfold register_cost in Hh.
  assert (0 <= entry_cost (Z.of_nat (length (devices k)))) as Hc by (unfold entry_cost; lia).
  destruct (inheap_kmalloc k L (R + entry_cost (Z.of_nat (length (devices k)))) size) as (p & h & E & Hp & HLp & Hh');
    [lia|lia|by replace (_ + (size + 56)) with (R + (size + 56 + entry_cost (Z.of_nat (length (devices k))))) by lia|].
  set (k1 := set_kheap h k) in *. pose proof Htab as [T1 T2 T3].
  assert (forall e, e ∈ devices k -> device_data e <> p) as Hfresh by (intros e He Hep; destruct (T3 e He); by subst p).
  assert (table_ok k1 (fun q => q = p \/ L q)) as Htab1.
  { split; [exact T1|destruct T2; [by left|right; by right]|]. intros e He. destruct (T3 e He). split; [by right|done]. }
  destruct (add_device_ok k1 (fun q => q = p \/ L q) R dtype p size Htab1 HR Hn) as
    (k2 & L2 & E2 & Hh2 & Htab2 & _ & Hd2 & Hg2 & Hk2); [by left| |exact Hh'|].
  { intros Hpa. destruct T2 as [T2|T2]; simpl in Hpa; congruence. }
  exists p, k2, L2. unfold register_device. mrun (kern_ret _ _ dat N P _ _ E).
  mrun (kern_ret _ _ dat N P _ _ (eq_refl : deref (Some p) k1 = Ret p k1)).
  unfold put_data, in_heap. erewrite bind_ret by reflexivity. split_and!; [exact (kern_ret _ _ _ N P _ _ E2)| |done..|].
  - split; [|done|done|done|done]. eapply (window_ok_ext k); [..|done]; by rewrite Hk2.
  - unfold same_rest. rewrite Hk2. by destruct k.
Qed.

(** What the table says of a registered device. *)
Definition registered (ws : list window) (dat : Z -> option blob_data) (dtype : list Z) (d : blob_data) (size pa len : Z)
    (e : Device) : Prop :=
  device_type e = dtype /\ device_data_len e = size /\ dat (device_data e) = Some d /\
  exists va, mmio_range_list e = [MMIORange pa len va] /\ mapped_at ws pa len va.

(** Earlier registrations stay: the window only grows, and data is only stored
    in blocks that no device in [k] has. *)
Definition extends (k : kernel) (ws : list window) (dat : Z -> option blob_data) (ws' : list window)
    (dat' : Z -> option blob_data) : Prop :=
  (forall w, w ∈ ws -> w ∈ ws') /\ forall e, e ∈ devices k -> dat' (device_data e) = dat (device_data e).

Lemma registered_extends k ws dat ws' dat' dtype d size pa len e : e ∈ devices k -> extends k ws dat ws' dat' ->
  registered ws dat dtype d size pa len e -> registered ws' dat' dtype d size pa len e.
Proof.
  intros He [Hw Hd] (H1 & H2 & H3 & va & H4 & off & H5 & H6). split_and!; [done|done|by rewrite Hd|].
  exists va. split; [done|]. exists off. split; [done|]. destruct H6; [by left|right; auto].
Qed.

(** A registration: entry, data and mapping. *)
Lemma register_ok k dat N P l ws m L R dtype d size pa len :
  boot_inv k l ws m L (R + 88 + register_cost (Z.of_nat (length (devices k))) size) -> 0 <= R -> 0 <= size < 2 ^ 62 ->
  Z.of_nat (length (devices k)) < 2 ^ 32 -> range_ok pa len -> m + Z.max (pages len) 1 <= KMMAP_COUNT ->
  2 * pages len <= Z.of_nat (length l) ->
  exists k' dat' l' ws' L' e,
    (slot ← register_device fuel dtype d size; kern (add_mmio_range fuel slot pa len)) (Dt (Board k dat) N P) =
      Ret tt (Dt (Board k' dat') N P) /\
    boot_inv k' l' ws' (m + pages len) L' R /\ (length l <= length l' + 2 * Z.to_nat (pages len))%nat /\
    devices k' = devices k ++ [e] /\ registered ws' dat' dtype d size pa len e /\ device_id e = global_device_id k /\
    global_device_id k' = u64 (global_device_id k + 1) /\ extends k ws dat ws' dat' /\ same_rest k k'.
Proof.
  intros Hb HR Hs Hn Hr Hm Hl.
  destruct (register_device_ok k dat N P l ws m L (R + 88) dtype d size Hb ltac:(lia) Hs Hn)
    as (p & k1 & L1 & E1 & Hb1 & Hd1 & Hfresh & Hg1 & Hk1).
  destruct (add_mmio_range_ok k1 l ws m L1 R (devices k) _ pa len Hb1 HR Hd1 Hr Hm Hl)
    as (va & k2 & l' & ws' & L' & E2 & Hb2 & Hll & Hws & _ & Hmap & _ & Hd2 & Hg2 & Hk2).
  eexists k2, _, l', ws', L', _. mrun E1. split_and!; [exact (kern_ret _ _ _ N P _ _ E2)|exact Hb2|done|exact Hd2| |done| | |].
  - split_and!; [done|done|by rewrite fn_lookup_insert|]. by exists va.
  - by rewrite Hg2.
  - split; [done|]. intros e He. rewrite fn_lookup_insert_ne; [done|]. intros ->. by apply (Hfresh e).
  - by etransitivity.
Qed.

(** ** The searches *)

Lemma props_rep_heap {A} C (h h' : A) N P ps : forall p, props_rep C (Dt h N P) p ps -> props_rep C (Dt h' N P) p ps.
Proof. intros p. by apply props_rep_frame. Qed.

Lemma at_node_heap {A} C (h h' : A) N P a x : at_node C (Dt h N P) a x -> at_node C (Dt h' N P) a x.
Proof.
  intros (par & Hn & Hc). exists par. split; [eapply node_rep_frame; [| |exact Hn]; done|].
  revert par Hc Hn. generalize (fst x) as anc. clear. intros anc par Hc _. revert par Hc.
  induction anc as [|ps anc IH]; intros par; cbn [chain]; [done|].
  intros (H0 & Hp & Hc). split_and!; [done|by eapply props_rep_heap|by apply IH].
Qed.

Variables (C : Z -> Prop) (N : Z -> device_node) (P : Z -> property).
Notation st k dat := (Dt (Board k dat) N P).

(** What the virtio devices need: pages of the window and blocks of the heap. *)
Definition device_cost (n size : Z) : Z := 88 + register_cost n size.

Lemma register_cost_mono n n' size : n <= n' -> register_cost n size <= register_cost n' size.
Proof. unfold register_cost, entry_cost. lia. Qed.

Definition virtio_registered ws dat (d : VirtioDeviceData) : Device -> Prop :=
  registered ws dat (lit "virtio_mmio") (VirtioBlob d) sizeof_VirtioDeviceData (v_begin_pa d) (v_len d).

Definition ids_from (g : Z) (es : list Device) : Prop :=
  forall i e, es !! i = Some e -> device_id e = u64 (g + Z.of_nat i).

Lemma virtio_loop_ok pg ds : forall xs addrs k dat l ws m L R T,
  Forall2 (at_node C (st k dat)) addrs xs -> Forall2 (virtio_spec fuel) xs ds ->
  Forall (fun d => range_ok (v_begin_pa d) (v_len d) /\ pages (v_len d) <= pg) ds ->
  boot_inv k l ws m L (R + Z.of_nat (length ds) * device_cost T sizeof_VirtioDeviceData) ->
  0 <= R -> 0 <= global_device_id k < 2 ^ 64 -> Z.of_nat (length (devices k) + length ds) <= T -> T < 2 ^ 32 ->
  m + Z.of_nat (length ds) * pg + 1 <= KMMAP_COUNT -> 2 * (Z.of_nat (length ds) * pg) <= Z.of_nat (length l) ->
  exists k' dat' l' ws' m' L' es,
    virtio_loop fuel addrs (st k dat) = Ret tt (st k' dat') /\ boot_inv k' l' ws' m' L' R /\
    m' <= m + Z.of_nat (length ds) * pg /\ Z.of_nat (length l) <= Z.of_nat (length l') + 2 * (Z.of_nat (length ds) * pg) /\
    devices k' = devices k ++ es /\ Forall2 (virtio_registered ws' dat') ds es /\ ids_from (global_device_id k) es /\
    extends k ws dat ws' dat' /\ same_rest k k' /\ global_device_id k' = u64 (global_device_id k + Z.of_nat (length ds)).
Proof.
  induction ds as [|d ds IH]; intros xs addrs k dat l ws m L R T Ha Hx Hd Hb HR Hg HT HT32 Hm Hl.
  - apply Forall2_nil_inv_r in Hx as ->. apply Forall2_nil_inv_r in Ha as ->.
    exists k, dat, l, ws, m, L, []. cbn [length] in *. rewrite Z.add_0_r in Hb.
    split_and!; [done|done|lia|lia|by rewrite app_nil_r|constructor|by intros i e|done|reflexivity|].
    unfold u64. by rewrite Z.add_0_r, Z.mod_small.
  - apply Forall2_cons_inv_r in Hx as (x & xs' & Hxd & Hx & ->). apply Forall2_cons_inv_r in Ha as (a & addrs' & Hax & Ha & ->).
    apply Forall_cons in Hd as [[Hr Hp] Hd]. cbn [length] in *.
    destruct (pages_bounds (v_len d)) as [Hp0 _]; [by destruct Hr as (_ & _ & _ & ? & _)|].
    set (n := Z.of_nat (length ds)) in *. replace (Z.of_nat (S (length ds))) with (1 + n) in * by lia.
    set (R1 := R + n * device_cost T sizeof_VirtioDeviceData) in *.
    assert (0 <= R1) as HR1.
    { apply Z.add_nonneg_nonneg; [done|]. apply Z.mul_nonneg_nonneg; [lia|].
      unfold device_cost, register_cost, entry_cost, sizeof_VirtioDeviceData. lia. }
    destruct (register_ok k dat N P l ws m L R1 (lit "virtio_mmio") (VirtioBlob d) sizeof_VirtioDeviceData (v_begin_pa d) (v_len d))
      as (k1 & dat1 & l1 & ws1 & L1 & e & E1 & Hb1 & Hl1 & Hd1 & Hreg & Hid & Hg1 & Hex & Hk1).
    { destruct Hb as [B1 B2 B3 B4 B5]. split; [done..| |done]. eapply kmalloc_inv_le; [|exact B4]. unfold R1, device_cost.
      pose proof (register_cost_mono (Z.of_nat (length (devices k))) T sizeof_VirtioDeviceData ltac:(lia)). lia. }
    { done. } { done. } { lia. } { done. } { nia. } { nia. }
    destruct (IH xs' addrs' k1 dat1 l1 ws1 (m + pages (v_len d)) L1 R T) as
      (k2 & dat2 & l2 & ws2 & m2 & L2 & es & E2 & Hb2 & Hm2 & Hl2 & Hd2 & Hreg2 & Hid2 & Hex2 & Hk2 & Hg2); try done.
    { eapply Forall2_impl; [exact Ha|]. intros. by eapply at_node_heap. }
    { rewrite Hg1. apply Z.mod_pos_bound. done. }
    { rewrite Hd1, length_app. simpl. lia. }
    { fold n. nia. } { fold n. nia. }
    fold n in Hm2, Hl2, Hg2. exists k2, dat2, l2, ws2, m2, L2, (e :: es). cbn [virtio_loop].
    mrun (parse_virtio_ok C (st k dat) fuel a x Hax (proj1 Hxd) virtio0 d Hxd).
    unfold register_virtio_device. rewrite (bind_ret _ _ _ _ _ E1).
    split_and!; [exact E2|exact Hb2|nia|nia|by rewrite Hd2, Hd1, <- app_assoc| | | |by etransitivity|].
    + constructor; [|done]. eapply registered_extends; [|exact Hex2|exact Hreg]. rewrite Hd1. set_solver.
    + intros [|i] e' He'; [injection He' as <-; rewrite Hid; unfold u64; rewrite Z.add_0_r, Z.mod_small; done|].
      rewrite (Hid2 i e' He'), Hg1. unfold u64. rewrite Zplus_mod_idemp_l. f_equal. lia.
    + destruct Hex as [X1 X2], Hex2 as [Y1 Y2]. split; [auto|]. intros e' He'. rewrite Y2, X2; [done|done|]. rewrite Hd1. set_solver.
    + rewrite Hg2, Hg1. unfold u64. rewrite Zplus_mod_idemp_l. f_equal. lia.
Qed.

(** ** The interrupt controller *)

Lemma boot_inv_ext k k' l ws m L R : pm k' = pm k -> kernel_boot_pgdir k' = kernel_boot_pgdir k -> envs k' = envs k ->
  kmmap_bmap k' = kmmap_bmap k -> kheap k' = kheap k -> devices k' = devices k ->
  devices_capacity k' = devices_capacity k -> devices_array k' = devices_array k ->
  boot_inv k l ws m L R -> boot_inv k' l ws m L R.
Proof.
  intros E1 E2 E3 E4 E5 E6 E7 E8 [B1 B2 B3 B4 [T1 T2 T3]]. split; [by eapply window_ok_ext|done|done|by rewrite E5|].
  split; rewrite ?E6, ?E7, ?E8; done.
Qed.

Lemma boot_inv_kmalloc k l ws m L R size : 0 <= size < 2 ^ 63 -> 0 <= R -> boot_inv k l ws m L (R + (size + 56)) ->
  exists p h, inheap (kmalloc fuel size) k = Ret (Some p) (set_kheap h k) /\
    boot_inv (set_kheap h k) l ws m (fun q => q = p \/ L q) R.
Proof.
  intros Hs HR [B1 B2 B3 B4 [T1 T2 T3]].
  destruct (inheap_kmalloc k L R size Hs HR B4) as (p & h & E & Hp & HLp & Hh). exists p, h. split; [done|].
  split; [by eapply window_ok_ext; [..|exact B1]|done|done|done|].
  split; [done|destruct T2; [by left|right; by right]|]. intros e He. destruct (T3 e He). split; [by right|done].
Qed.

Definition plic_cost (n count : Z) : Z := 8 * count + 56 + (sizeof_Device + 56) + 88 + register_cost n sizeof_PlicData.

Lemma register_plic_ok k dat l ws m L R d :
  boot_inv k l ws m L (R + 88 + (sizeof_Device + 56) + register_cost (Z.of_nat (length (devices k))) sizeof_PlicData) -> 0 <= R ->
  Z.of_nat (length (devices k)) < 2 ^ 32 -> range_ok (p_base_pa d) (p_len d) ->
  m + Z.max (pages (p_len d)) 1 <= KMMAP_COUNT -> 2 * pages (p_len d) <= Z.of_nat (length l) ->
  exists k' dat' l' ws' L' e, register_plic_device fuel d (st k dat) = Ret tt (st (set_plic_device (Some e) k') dat') /\
    boot_inv k' l' ws' (m + pages (p_len d)) L' R /\
    (length l <= length l' + 2 * Z.to_nat (pages (p_len d)))%nat /\ devices k' = devices k ++ [e] /\
    registered ws' dat' (lit "plic") (PlicBlob d) sizeof_PlicData (p_base_pa d) (p_len d) e /\
    device_id e = global_device_id k /\ global_device_id k' = u64 (global_device_id k + 1) /\
    extends k ws dat ws' dat' /\ same_rest k k'.
Proof.
  intros Hb HR Hn Hr Hm Hl.
  destruct (register_device_ok k dat N P l ws m L (R + 88 + (sizeof_Device + 56)) (lit "plic") (PlicBlob d) sizeof_PlicData Hb)
    as (p & k1 & L1 & E1 & Hb1 & Hd1 & Hfresh & Hg1 & Hk1); [unfold sizeof_Device; lia|done|done|].
  destruct (boot_inv_kmalloc k1 l ws m L1 (R + 88) sizeof_Device) as (q & h & Eq & Hb2); [done|lia|done|].
  set (k2 := set_kheap h k1) in *.
  destruct (add_mmio_range_ok k2 l ws m _ R (devices k) _ (p_base_pa d) (p_len d) Hb2 HR Hd1 Hr Hm Hl)
    as (va & k3 & l' & ws' & L' & E3 & Hb3 & Hll & Hws & _ & Hmap & _ & Hd3 & Hg3 & Hk3).
  set (e := with_range _ _) in Hd3. exists k3, (<[p := Some (PlicBlob d)]> dat), l', ws', L', e.
  assert (devices k3 !! Z.to_nat (Z.of_nat (length (devices k))) = Some e) as Hslot.
  { by rewrite Hd3, Nat2Z.id, lookup_app_r, Nat.sub_diag by done. }
  split.
  - unfold register_plic_device. mrun E1. mrun (kern_ret _ _ (<[p := Some (PlicBlob d)]> dat) N P _ _ Eq).
    mrun (kern_ret _ _ (<[p := Some (PlicBlob d)]> dat) N P _ _ E3).
    mrun (kern_ret _ _ (<[p := Some (PlicBlob d)]> dat) N P _ _ (eq_refl : deref (Some q) k3 = Ret q k3)).
    mrun (kern_ret _ _ (<[p := Some (PlicBlob d)]> dat) N P _ _
      (eq_refl : get (fun k' => devices k' !! Z.to_nat (Z.of_nat (length (devices k)))) k3 = _)).
    rewrite Hslot. by apply kern_ret.
  - split_and!; [exact Hb3|done|exact Hd3| |done| | |].
    + split_and!; [done|done|by rewrite fn_lookup_insert|]. by exists va.
    + rewrite Hg3. exact Hg1.
    + split; [done|]. intros e' He. rewrite fn_lookup_insert_ne; [done|]. intros ->. by apply (Hfresh e').
    + transitivity k2; [|done]. etransitivity; [exact Hk1|]. unfold same_rest. by destruct k1.
Qed.

(** What the kernel knows of the controller, whose registers are at [va]. *)
Record plic_ready (k k' : kernel) (d : PlicData) (e : Device) (va : Z) : Prop := {
  pr_device : plic_device k' = Some e;
  pr_range : mmio_range_list e = [MMIORange (p_base_pa d) (p_len d) va];
  pr_base : plic_base_pa k' = p_base_pa d;
  pr_count : plic_interrupt_count k' = p_interrupt_count d;
  pr_handlers : forall i, interrupt_handler k' i = None;
  pr_map : interrupt_handler_map k' = <[p_s_interrupt_code d := Some HandlePlicInterrupt]> (interrupt_handler_map k);
  pr_sie : sie_csr k' = Z.lor (sie_csr k) (p_s_interrupt_code d);
  pr_io : io k' = IoWrite (u64 (va + PLIC_PRIORITY_THRESHOLD_CONTEXT_1_OFFSET)) 4 0 :: io k
}.

Lemma range_lookup_in pa len va off : 0 <= pa -> 0 <= off < len -> pa + len < 2 ^ 64 ->
  range_lookup [MMIORange pa len va] (u64 (pa + off)) = Some (u64 (va + off)).
Proof.
  intros Hpa Hoff Hle. unfold range_lookup, u64. cbn [mmio_pa mmio_len mapped_va].
  rewrite !(Z.mod_small (pa + _)) by lia. destruct (Z.leb_spec pa (pa + off)), (Z.ltb_spec (pa + off) (pa + len)); try lia.
  simpl. do 2 f_equal. lia.
Qed.

Lemma pages_le len : 0 <= len -> len <= pages len * PAGE_SIZE.
Proof. intros H. destruct (pages_bounds len H) as (_ & _ & ?). unfold PAGE_SIZE. lia. Qed.

Lemma threshold_ok k d e va : plic_device k = Some e -> plic_base_pa k = p_base_pa d ->
  mmio_range_list e = [MMIORange (p_base_pa d) (p_len d) va] -> range_ok (p_base_pa d) (p_len d) ->
  PLIC_PRIORITY_THRESHOLD_CONTEXT_1_OFFSET < p_len d ->
  plic_set_prority_threshold 0 k =
    Ret tt (set_io (IoWrite (u64 (va + PLIC_PRIORITY_THRESHOLD_CONTEXT_1_OFFSET)) 4 0 :: io k) k).
Proof.
  intros Hd Hb He (_ & H0 & H1 & H2) Hlen. unfold plic_set_prority_threshold, plic, iowrite32, iowrite, get_mapped_pa.
  pose proof (pages_le (p_len d) (proj1 H2)). rewrite bind_assoc, bind_get, Hd, bind_mret, bind_get, Hb, He.
  rewrite range_lookup_in; [by rewrite bind_mret|done|unfold PLIC_PRIORITY_THRESHOLD_CONTEXT_1_OFFSET in *; lia|lia].
Qed.

Lemma plic_init_ok k dat l ws m L R r t x rest d : node_rep C (st k dat) 0 r t -> (size t <= 64)%nat -> (size t < fuel)%nat ->
  matches (lit "plic") (level_order t) = x :: rest -> plic_spec fuel x d ->
  boot_inv k l ws m L (R + plic_cost (Z.of_nat (length (devices k))) (p_interrupt_count d)) -> 0 <= R ->
  Z.of_nat (length (devices k)) < 2 ^ 32 -> range_ok (p_base_pa d) (p_len d) ->
  PLIC_PRIORITY_THRESHOLD_CONTEXT_1_OFFSET < p_len d ->
  m + Z.max (pages (p_len d)) 1 <= KMMAP_COUNT -> 2 * pages (p_len d) <= Z.of_nat (length l) ->
  exists k' dat' l' ws' L' e va, plic_init fuel r (st k dat) = Ret tt (st k' dat') /\
    boot_inv k' l' ws' (m + pages (p_len d)) L' R /\
    (length l <= length l' + 2 * Z.to_nat (pages (p_len d)))%nat /\ devices k' = devices k ++ [e] /\
    registered ws' dat' (lit "plic") (PlicBlob d) sizeof_PlicData (p_base_pa d) (p_len d) e /\
    device_id e = global_device_id k /\ global_device_id k' = u64 (global_device_id k + 1) /\
    extends k ws dat ws' dat' /\ plic_ready k k' d e va.
Proof.
  intros Hn Ht Hf Hx Hd Hb HR Hk Hr Hlen Hm Hl.
  destruct (find_by_type_ok C _ r t (lit "plic") 1 fuel Hn Ht Hf) as (out & E & Ho). rewrite Hx in Ho. cbn [take] in Ho.
  apply Forall2_cons_inv_r in Ho as (a & nil & Ha & Hnil & ->). apply Forall2_nil_inv_r in Hnil as ->.
  pose proof Hd as (_ & _ & _ & Hc & _ & Hcode & _).
  destruct (register_plic_ok k dat l ws m L (R + (8 * p_interrupt_count d + 56)) d) as
    (k1 & dat1 & l1 & ws1 & L1 & e & E1 & Hb1 & Hl1 & Hd1 & Hreg & Hid & Hg & Hex & Hk1); try (done || lia).
  { unfold plic_cost in Hb. by replace (R + (8 * p_interrupt_count d + 56) + 88 + (sizeof_Device + 56) + _)
      with (R + (8 * p_interrupt_count d + 56 + (sizeof_Device + 56) + 88 +
        register_cost (Z.of_nat (length (devices k))) sizeof_PlicData)) by lia. }
  set (k2 := set_plic_interrupt_count (p_interrupt_count d) (set_plic_base_pa (p_base_pa d) (set_plic_device (Some e) k1))).
  destruct (boot_inv_kmalloc k2 l1 ws1 (m + pages (p_len d)) L1 R (8 * p_interrupt_count d)) as (q & h & Eq & Hb2); [lia|done| |].
  { by eapply boot_inv_ext; [..|exact Hb1]. }
  pose proof Hreg as (_ & _ & _ & va & Hva & _).
  set (k3 := set_sie_csr (Z.lor (sie_csr k2) (p_s_interrupt_code d))
    (set_interrupt_handler_map (<[p_s_interrupt_code d := Some HandlePlicInterrupt]> (interrupt_handler_map k2))
      (set_interrupt_handler (fun _ => None) (set_kheap h k2)))).
  pose proof (threshold_ok k3 d e va eq_refl eq_refl Hva Hr Hlen) as E3.
  eexists _, dat1, l1, ws1, _, e, va. split_and!; [| |exact Hl1| |exact Hreg|done| |done|].
  - unfold plic_init. change 1 with (Z.of_nat 1). mrun E. mrun (parse_plic_ok C _ fuel a x Ha (proj1 Hd) plic0 d Hd). mrun E1.
    apply kern_ret. rewrite !bind_modify. fold k2. unfold new_handlers. rewrite bind_assoc. mrun Eq. rewrite bind_modify.
    unfold register_interrupt_handler. destruct (Z.leb_spec 64 (p_s_interrupt_code d)); [lia|].
    rewrite bind_modify. unfold enable_interrupt. rewrite bind_modify. fold k3. exact E3.
  - eapply boot_inv_ext; [..|exact Hb2]; done.
  - simpl. exact Hd1.
  - simpl. exact Hg.
  - split; try done; simpl; rewrite Hk1; done.
Qed.

(** ** Virtio devices and the serial port *)

Lemma virtio_init_ok k dat l ws m L R T r t ds pg : node_rep C (st k dat) 0 r t -> (size t <= 64)%nat -> (size t < fuel)%nat ->
  Forall2 (virtio_spec fuel) (matches (lit "virtio_mmio") (level_order t)) ds ->
  Forall (fun d => range_ok (v_begin_pa d) (v_len d) /\ pages (v_len d) <= pg) ds ->
  boot_inv k l ws m L (R + Z.of_nat (length ds) * device_cost T sizeof_VirtioDeviceData) ->
  0 <= R -> 0 <= global_device_id k < 2 ^ 64 -> Z.of_nat (length (devices k) + length ds) <= T -> T < 2 ^ 32 ->
  m + Z.of_nat (length ds) * pg + 1 <= KMMAP_COUNT -> 2 * (Z.of_nat (length ds) * pg) <= Z.of_nat (length l) ->
  exists k' dat' l' ws' m' L' es,
    virtio_init fuel r (st k dat) = Ret tt (st k' dat') /\ boot_inv k' l' ws' m' L' R /\
    m' <= m + Z.of_nat (length ds) * pg /\ Z.of_nat (length l) <= Z.of_nat (length l') + 2 * (Z.of_nat (length ds) * pg) /\
    devices k' = devices k ++ es /\ Forall2 (virtio_registered ws' dat') ds es /\ ids_from (global_device_id k) es /\
    extends k ws dat ws' dat' /\ same_rest k k' /\ global_device_id k' = u64 (global_device_id k + Z.of_nat (length ds)).
Proof.
  intros Hn Ht Hf Hx Hd Hb HR Hg HT HT32 Hm Hl.
  destruct (find_by_type_ok C _ r t (lit "virtio_mmio") 64 fuel Hn Ht Hf) as (out & E & Ho).
  assert (length (matches (lit "virtio_mmio") (level_order t)) <= 64)%nat as Hle.
  { etransitivity; [apply length_filter|]. etransitivity; [|exact Ht]. unfold level_order. apply length_bfs. }
  rewrite take_ge in Ho by exact Hle. unfold virtio_init. change MAX_VIRTIO_COUNT with (Z.of_nat 64).
  destruct (virtio_loop_ok pg ds _ out k dat l ws m L R T Ho Hx Hd Hb HR Hg HT HT32 Hm Hl) as
    (k' & dat' & l' & ws' & m' & L' & es & E2 & H).
  exists k', dat', l', ws', m', L', es. mrun E. split; [exact E2|exact H].
Qed.

Lemma serial_init_ok k dat l ws m L R r t x rest d : node_rep C (st k dat) 0 r t -> (size t <= 64)%nat -> (size t < fuel)%nat ->
  matches (lit "serial") (level_order t) = x :: rest -> serial_spec fuel x d ->
  boot_inv k l ws m L (R + device_cost (Z.of_nat (length (devices k))) sizeof_SerialDeviceData) -> 0 <= R ->
  Z.of_nat (length (devices k)) < 2 ^ 32 -> range_ok (s_begin_pa d) (s_len d) ->
  m + Z.max (pages (s_len d)) 1 <= KMMAP_COUNT -> 2 * pages (s_len d) <= Z.of_nat (length l) ->
  exists k' dat' l' ws' L' e, serial_init fuel r (st k dat) = Ret tt (st k' dat') /\
    boot_inv k' l' ws' (m + pages (s_len d)) L' R /\ devices k' = devices k ++ [e] /\
    registered ws' dat' (lit "serial") (SerialBlob d) sizeof_SerialDeviceData (s_begin_pa d) (s_len d) e /\
    device_id e = global_device_id k /\ extends k ws dat ws' dat' /\ same_rest k k'.
Proof.
  intros Hn Ht Hf Hx Hd Hb HR Hk Hr Hm Hl.
  destruct (find_by_type_ok C _ r t (lit "serial") 1 fuel Hn Ht Hf) as (out & E & Ho). rewrite Hx in Ho. cbn [take] in Ho.
  apply Forall2_cons_inv_r in Ho as (a & nil & Ha & Hnil & ->). apply Forall2_nil_inv_r in Hnil as ->.
  destruct (register_ok k dat N P l ws m L R (lit "serial") (SerialBlob d) sizeof_SerialDeviceData (s_begin_pa d) (s_len d)) as
    (k' & dat' & l' & ws' & L' & e & E1 & Hb1 & _ & Hd1 & Hreg & Hid & _ & Hex & Hk1); try (done || lia).
  { unfold device_cost in Hb. by rewrite <- Z.add_assoc. }
  exists k', dat', l', ws', L', e. split; [|done]. unfold serial_init. change 1 with (Z.of_nat 1). mrun E.
  mrun (parse_serial_ok C _ fuel a x Ha (proj1 Hd) serial0 d Hd). exact E1.
Qed.

(** ** The device's memory *)

(** Byte [o] of the device is at [va + o]. *)
Definition accessible (k : kernel) (pa len va : Z) : Prop :=
  forall o, 0 <= o < len -> leaf_pte (mem (pm k)) root (va + o) = Some (mk_pte (PPN (pa + o)) dev_perm).

Lemma leaf_pte_vpn m va va' : VPN va = VPN va' -> leaf_pte m root va = leaf_pte m root va'.
Proof. intros (E1 & E2 & E3)%VPN_indices. unfold leaf_pte. by rewrite E1, E2, E3. Qed.

Lemma mapped_accessible k l ws pa len va : window_ok root k l ws -> range_ok pa len -> mapped_at ws pa len va ->
  accessible k pa len va.
Proof.
  intros Hw (Hpa & H0 & H1 & Hlen) (off & -> & Hin) o Ho. destruct (pages_bounds len (proj1 Hlen)) as (P0 & P1 & P2).
  destruct Hin as [Hin|Hin]; [lia|]. set (i := o / 4096).
  assert (0 <= i < pages len) as Hi by (unfold i; split; [apply Z.div_pos|apply Z.div_lt_upper_bound]; lia).
  pose proof (wo_mapped _ _ _ _ Hw _ i Hin Hi) as Hm. cbn [w_off w_pa w_perm] in Hm.
  destruct (proj1 (Forall_forall _ _) (br_range _ _ (wo_bmap _ _ _ _ Hw)) _ Hin) as (Q0 & _ & Q1). cbn [w_off w_cnt] in Q0, Q1.
  assert (kva off + o = kva (off + i) + o mod 4096) as ->.
  { unfold kva, PAGE_SIZE, i. pose proof (Z.div_mod o 4096 ltac:(lia)). lia. }
  rewrite (leaf_pte_vpn _ (kva (off + i) + o mod 4096) (kva (off + i))), Hm.
  - unfold dev_pte, u64. rewrite Z.mod_small by (unfold PAGE_SIZE in *; lia). do 2 f_equal. unfold PPN, PAGE_SHIFT.
    rewrite !Z.shiftr_div_pow2 by done. change (2 ^ 12) with 4096. unfold PAGE_SIZE in *. unfold i. Z.div_mod_to_equations. lia.
  - rewrite !VPN_eq. unfold kva, PAGE_SIZE. destruct KMMAP_values as (-> & _ & _). change (2 ^ 12) with 4096.
    f_equal. Z.div_mod_to_equations. lia.
Qed.

(** ** All of them *)

(** The tree [t] describes the controller [dp], the virtio devices [ds] and the
    serial port [dser]; [pg] bounds the pages of a virtio device. *)
Record tree_devices (t : tree) (dp : PlicData) (ds : list VirtioDeviceData) (dser : SerialDeviceData) (pg : Z) : Prop := {
  td_size : (size t <= 64)%nat;
  td_plic : exists x rest, matches (lit "plic") (level_order t) = x :: rest /\ plic_spec fuel x dp;
  td_virtio : Forall2 (virtio_spec fuel) (matches (lit "virtio_mmio") (level_order t)) ds;
  td_serial : exists x rest, matches (lit "serial") (level_order t) = x :: rest /\ serial_spec fuel x dser;
  td_plic_range : range_ok (p_base_pa dp) (p_len dp) /\ PLIC_PRIORITY_THRESHOLD_CONTEXT_1_OFFSET < p_len dp;
  td_virtio_range : Forall (fun d => range_ok (v_begin_pa d) (v_len d) /\ pages (v_len d) <= pg) ds;
  td_serial_range : range_ok (s_begin_pa dser) (s_len dser)
}.

(** The pages and the heap they need in a table of [n] devices. *)
Definition pages_needed (dp : PlicData) (ds : list VirtioDeviceData) (dser : SerialDeviceData) (pg : Z) : Z :=
  pages (p_len dp) + Z.of_nat (length ds) * pg + pages (s_len dser).
Definition heap_needed (n : Z) (dp : PlicData) (ds : list VirtioDeviceData) : Z :=
  let T := n + Z.of_nat (length ds) + 2 in
  plic_cost n (p_interrupt_count dp) +
  (Z.of_nat (length ds) * device_cost T sizeof_VirtioDeviceData + device_cost T sizeof_SerialDeviceData).

(** What the kernel knows of a device. *)
Definition described (k : kernel) (dat : Z -> option blob_data) (dtype : list Z) (d : blob_data) (size pa len : Z)
    (e : Device) : Prop :=
  device_type e = dtype /\ device_data_len e = size /\ dat (device_data e) = Some d /\
  exists va, mmio_range_list e = [MMIORange pa len va] /\ accessible k pa len va.

Lemma registered_described k l ws dat dtype d size pa len e : window_ok root k l ws -> range_ok pa len ->
  registered ws dat dtype d size pa len e -> described k dat dtype d size pa len e.
Proof.
  intros Hw Hr (H1 & H2 & H3 & va & H4 & H5). split_and!; [done..|]. exists va. split; [done|]. by eapply mapped_accessible.
Qed.

Lemma plic_ready_rest k0 k k' d e va : same_rest k k' -> plic_ready k0 k d e va -> plic_ready k0 k' d e va.
Proof. intros Hk []. split; try rewrite Hk; assumption. Qed.

Lemma extends_trans k k' ws dat ws1 dat1 ws2 dat2 es : devices k' = devices k ++ es ->
  extends k ws dat ws1 dat1 -> extends k' ws1 dat1 ws2 dat2 -> extends k ws dat ws2 dat2.
Proof. intros Hd [X1 X2] [Y1 Y2]. split; [auto|]. intros e He. rewrite Y2, X2; [done..|]. rewrite Hd. set_solver. Qed.

Lemma Forall2_impl_r {X Y} (Q Q' : X -> Y -> Prop) xs ys : (forall x y, y ∈ ys -> Q x y -> Q' x y) ->
  Forall2 Q xs ys -> Forall2 Q' xs ys.
Proof.
  intros H HF. induction HF; constructor; [apply H; [by left|done]|]. apply IHHF. intros u v Hv. apply H. by right.
Qed.

Lemma device_cost_mono n n' size : n <= n' -> device_cost n size <= device_cost n' size.
Proof. intros H. unfold device_cost. pose proof (register_cost_mono n n' size H). lia. Qed.

Lemma boot_inv_le k l ws m L R R' : R' <= R -> boot_inv k l ws m L R -> boot_inv k l ws m L R'.
Proof. intros HR []. split; try done. by eapply kmalloc_inv_le. Qed.

Lemma ids_cons g e es : 0 <= g < 2 ^ 64 -> device_id e = g -> ids_from (u64 (g + 1)) es -> ids_from g (e :: es).
Proof.
  intros Hg He Hes [|i] e' H; [injection H as <-; unfold u64; rewrite Z.add_0_r, Z.mod_small; done|].
  rewrite (Hes i e' H). unfold u64. rewrite Zplus_mod_idemp_l. f_equal. lia.
Qed.

Lemma ids_snoc g e es : ids_from g es -> device_id e = u64 (g + Z.of_nat (length es)) -> ids_from g (es ++ [e]).
Proof.
  intros Hes He i e' H. apply lookup_app_Some in H as [H|[Hi H]]; [by apply Hes|].
  assert (i = length es) as -> by (apply lookup_lt_Some in H; simpl in H; lia).
  rewrite Nat.sub_diag in H. by injection H as <-.
Qed.

Lemma init_devices_ok k dat l ws m L R r t dp ds dser pg : node_rep C (st k dat) 0 r t -> (size t < fuel)%nat ->
  tree_devices t dp ds dser pg -> 0 <= pg ->
  boot_inv k l ws m L (R + heap_needed (Z.of_nat (length (devices k))) dp ds) ->
  0 <= R -> 0 <= global_device_id k < 2 ^ 64 -> Z.of_nat (length (devices k) + length ds) + 2 < 2 ^ 32 ->
  m + pages_needed dp ds dser pg + 1 <= KMMAP_COUNT -> 2 * pages_needed dp ds dser pg <= Z.of_nat (length l) ->
  exists k' dat' l' ws' m' L' ep es eser va, init_devices fuel r (st k dat) = Ret tt (st k' dat') /\
    boot_inv k' l' ws' m' L' R /\ devices k' = devices k ++ ep :: es ++ [eser] /\
    registered ws' dat' (lit "plic") (PlicBlob dp) sizeof_PlicData (p_base_pa dp) (p_len dp) ep /\
    Forall2 (virtio_registered ws' dat') ds es /\
    registered ws' dat' (lit "serial") (SerialBlob dser) sizeof_SerialDeviceData (s_begin_pa dser) (s_len dser) eser /\
    ids_from (global_device_id k) (ep :: es ++ [eser]) /\ extends k ws dat ws' dat' /\ plic_ready k k' dp ep va.
Proof.
  intros Hn Hf [Hsz (xp & restp & Hxp & Hp) Hv (xs & rests & Hxs & Hser) [Hpr Hpl] Hvr Hsr] Hpg Hb HR Hg Hcnt Hm Hl.
  unfold pages_needed, heap_needed in *. set (n := Z.of_nat (length (devices k))) in *. set (T := n + Z.of_nat (length ds) + 2) in *.
  destruct (pages_bounds (p_len dp)) as [Pp _]; [by destruct Hpr as (_ & _ & _ & ? & _)|].
  destruct (pages_bounds (s_len dser)) as [Ps _]; [by destruct Hsr as (_ & _ & _ & ? & _)|].
  set (D := Z.of_nat (length ds)) in *. assert (0 <= D * pg) by (apply Z.mul_nonneg_nonneg; lia).
  assert (0 <= device_cost T sizeof_SerialDeviceData) as HcS by (unfold device_cost, register_cost, entry_cost, sizeof_SerialDeviceData; lia).
  assert (0 <= D * device_cost T sizeof_VirtioDeviceData) as HcV.
  { apply Z.mul_nonneg_nonneg; [lia|]. unfold device_cost, register_cost, entry_cost, sizeof_VirtioDeviceData. lia. }
  destruct (plic_init_ok k dat l ws m L (R + device_cost T sizeof_SerialDeviceData + D * device_cost T sizeof_VirtioDeviceData)
    r t xp restp dp Hn Hsz Hf Hxp Hp) as
    (k1 & dat1 & l1 & ws1 & L1 & ep & va & E1 & Hb1 & Hl1 & Hd1 & Hreg1 & Hid1 & Hg1 & Hex1 & Hready); try (done || lia).
  { eapply boot_inv_le; [|exact Hb]. fold n. lia. }
  assert (Z.of_nat (length (devices k1)) = n + 1) as Hn1 by (rewrite Hd1, length_app; simpl; lia).
  destruct (virtio_init_ok k1 dat1 l1 ws1 (m + pages (p_len dp)) L1 (R + device_cost T sizeof_SerialDeviceData) T r t ds pg) as
    (k2 & dat2 & l2 & ws2 & m2 & L2 & es & E2 & Hb2 & Hm2 & Hl2 & Hd2 & Hreg2 & Hid2 & Hex2 & Hk2 & Hg2); try (done || lia).
  { eapply node_rep_frame; [| |exact Hn]; done. } { rewrite Hg1. by apply Z.mod_pos_bound. }
  pose proof (Forall2_length _ _ _ Hreg2) as Hes.
  assert (Z.of_nat (length (devices k2)) = n + 1 + D) as Hn2 by (rewrite Hd2, length_app; lia).
  destruct (serial_init_ok k2 dat2 l2 ws2 m2 L2 R r t xs rests dser) as
    (k3 & dat3 & l3 & ws3 & L3 & eser & E3 & Hb3 & Hd3 & Hreg3 & Hid3 & Hex3 & Hk3); try (done || lia).
  { eapply node_rep_frame; [| |exact Hn]; done. }
  { eapply boot_inv_le; [|exact Hb2]. pose proof (device_cost_mono (Z.of_nat (length (devices k2))) T sizeof_SerialDeviceData ltac:(lia)). lia. }
  pose proof (extends_trans k1 k2 _ _ _ _ _ _ es Hd2 Hex2 Hex3) as Hex13.
  exists k3, dat3, l3, ws3, (m2 + pages (s_len dser)), L3, ep, es, eser, va. unfold init_devices. mrun E1. mrun E2.
  split_and!; [exact E3|exact Hb3|by rewrite Hd3, Hd2, Hd1, <- !app_assoc| | |exact Hreg3| |by eapply extends_trans|].
  - eapply registered_extends; [|exact Hex13|exact Hreg1]. rewrite Hd1. set_solver.
  - eapply Forall2_impl_r; [|exact Hreg2]. intros d e He. apply registered_extends with (k := k2); [|done]. rewrite Hd2. set_solver.
  - apply ids_cons; [done|done|]. rewrite <- Hg1. apply ids_snoc; [done|]. rewrite Hid3, Hg2. by rewrite Hes.
  - by do 2 (eapply plic_ready_rest; [eassumption|]).
Qed.
End boot.

(** A node without a [compatible] property: the parser says so, but the device
    is registered all the same, with no memory at physical address 0. *)
Lemma unparsed_virtio_ignored fuel C s a x l : at_node C s a x -> small fuel x -> prop_of x "compatible" = None ->
  parse_virtio_device fuel a virtio0 s = Ret (1, virtio0) s /\
  virtio_loop fuel (a :: l) s = (register_virtio_device fuel virtio0 ;; virtio_loop fuel l) s.
Proof.
  intros Ha Hx Hp. pose proof (place_prop C s fuel a x Ha Hx (lit "compatible")) as H.
  unfold prop_of in Hp. rewrite Hp in H.
  assert (parse_virtio_device fuel a virtio0 s = Ret (1, virtio0) s) as E by (unfold parse_virtio_device; by mrun H).
  split; [done|]. cbn [virtio_loop]. by mrun E.
Qed.

(** ** The property *)

(** C40: Device discovery.  From a device tree of at most 64 nodes in the heap
    that describes the interrupt controller, any number of virtio devices and
    the serial port, the kernel's start registers exactly these devices, in the
    tree's breadth-first order, behind those already in the table: each with
    its type, consecutive ids, a copy of the data its node states (interrupt
    numbers, clock, address and length), and its registers mapped, byte by
    byte, at an address of the kernel.  Data of earlier devices stays.  The
    controller is the one in use, with no handler, its interrupt routed to
    [handle_plic_interrupt] and its threshold register set to 0.  Nothing
    panics as long as pages, heap and window suffice. *)
Theorem devices_discovered fuel root C k dat N P l ws m L R r t dp ds dser pg :
  KMALLOC_HEAP_SIZE / MBLOCK_SIZE <= Z.of_nat fuel ->
  node_rep C (Dt (Board k dat) N P) 0 r t -> (size t < fuel)%nat -> tree_devices fuel t dp ds dser pg -> 0 <= pg ->
  boot_inv root k l ws m L (R + heap_needed (Z.of_nat (length (devices k))) dp ds) ->
  0 <= R -> 0 <= global_device_id k < 2 ^ 64 -> Z.of_nat (length (devices k) + length ds) + 2 < 2 ^ 32 ->
  m + pages_needed dp ds dser pg + 1 <= KMMAP_COUNT -> 2 * pages_needed dp ds dser pg <= Z.of_nat (length l) ->
  exists k' dat' ep es eser va, init_devices fuel r (Dt (Board k dat) N P) = Ret tt (Dt (Board k' dat') N P) /\
    devices k' = devices k ++ ep :: es ++ [eser] /\
    described root k' dat' (lit "plic") (PlicBlob dp) sizeof_PlicData (p_base_pa dp) (p_len dp) ep /\
    Forall2 (fun d => described root k' dat' (lit "virtio_mmio") (VirtioBlob d) sizeof_VirtioDeviceData (v_begin_pa d) (v_len d)) ds es /\
    described root k' dat' (lit "serial") (SerialBlob dser) sizeof_SerialDeviceData (s_begin_pa dser) (s_len dser) eser /\
    ids_from (global_device_id k) (ep :: es ++ [eser]) /\
    (forall e, e ∈ devices k -> dat' (device_data e) = dat (device_data e)) /\ plic_ready k k' dp ep va.
Proof.
  intros Hfuel Hn Hf Ht Hpg Hb HR Hg Hcnt Hm Hl.
  destruct (init_devices_ok fuel Hfuel root C N P k dat l ws m L R r t dp ds dser pg Hn Hf Ht Hpg Hb HR Hg Hcnt Hm Hl)
    as (k' & dat' & l' & ws' & m' & L' & ep & es & eser & va & E & Hb' & Hd & Hp & Hv & Hs & Hid & [_ Hex] & Hr).
  pose proof (bi_window _ _ _ _ _ _ _ Hb') as Hw.
  exists k', dat', ep, es, eser, va. split_and!; [done|done| | | |done|done|done].
  - eapply (registered_described fuel root C N P); [done|exact (proj1 (td_plic_range _ _ _ _ _ _ Ht))|done].
  - pose proof (td_virtio_range _ _ _ _ _ _ Ht) as Hvr. clear -fuel root C N P Hv Hvr Hw. induction Hv as [|d e ds es Hde Hv IH]; [constructor|].
    apply Forall_cons in Hvr as [[Hr _] Hvr]. constructor; [by eapply (registered_described fuel root C N P)|by apply IH].
  - eapply (registered_described fuel root C N P); [done|exact (td_serial_range _ _ _ _ _ _ Ht)|done].
Qed.

(** ** A machine

    The tree of a machine with a controller, a disk and a serial port; the
    kernel's first table is empty, page 0 is its root and 4000 pages are free. *)
Definition board_reg (pa len : Z) : list Z * list Z := (str_reg, cells_enc 2 pa ++ cells_enc 2 len).
Definition board_str (key s : string) : list Z * list Z := (lit key, string_list [lit s]).
Definition board_cell (key : string) (v : Z) : list Z * list Z := (lit key, be_enc v).

Definition plic_props : plist :=
  [board_str "compatible" "sifive,plic-1.0.0"; board_cell "riscv,ndev" 96; board_reg 0xc000000 0x600000;
   (lit "interrupts-extended", be_enc 3 ++ be_enc 11 ++ be_enc 3 ++ be_enc 9)].
Definition virtio_props : plist :=
  [board_str "compatible" "virtio,mmio"; board_cell "interrupts" 1; board_cell "interrupt-parent" 3;
   board_reg 0x10001000 0x1000].
Definition serial_props : plist :=
  [board_str "compatible" "ns16550a"; board_cell "interrupts" 10; board_cell "interrupt-parent" 3;
   board_cell "clock-frequency" 3686400; board_reg 0x10000000 0x100].
Definition board_root : plist := [(str_address_cells, be_enc 2); (str_size_cells, be_enc 2)].
Definition board_tree : tree :=
  Tree [] board_root [Tree (lit "plic@c000000") plic_props []; Tree (lit "virtio_mmio@10001000") virtio_props [];
    Tree (lit "serial@10000000") serial_props []].

Definition board_plic : PlicData := MkPlic 96 9 0xc000000 0x600000.
Definition board_virtio : VirtioDeviceData := MkVirtio 1 3 0x10001000 0x1000.
Definition board_serial : SerialDeviceData := MkSerial 10 3 3686400 0x10000000 0x100.

(** The property lists as linked records: list [i] is at [100 * i]. *)
Definition board_props (a : Z) : property :=
  let l := nth (Z.to_nat (a / 100)) [[]; board_root; plic_props; virtio_props; serial_props] [] in
  let j := Z.to_nat (a mod 100 - 1) in
  let '(nm, v) := nth j l ([], []) in
  MkProp 8 nm (Z.of_nat (length v)) 8 v (if (S j <? length l)%nat then a + 1 else 0).
Definition board_nodes (a : Z) : device_node :=
  if a =? 1 then MkNode 8 [] 0 2 0 101
  else if a =? 2 then MkNode 8 (lit "plic@c000000") 1 0 3 201
  else if a =? 3 then MkNode 8 (lit "virtio_mmio@10001000") 1 0 4 301
  else MkNode 8 (lit "serial@10000000") 1 0 0 401.

Definition board_free : lst := foldr LIST_INSERT_HEAD (Lst None (fun _ => lnk0)) (seqZ 1 4000).
Definition board_pm : pmap := Pmap 0x80000000 8192 0 0 board_free (fun _ => 0) (fun _ => 0) [].
Definition board_kernel : kernel := set_pm board_pm kboot.

Lemma board_free_rep : list_rep board_free (seqZ 1 4000).
Proof.
  assert (forall l, NoDup l -> list_rep (foldr LIST_INSERT_HEAD (Lst None (fun _ => lnk0)) l) l) as H.
  { induction l as [|p l IH]; intros Hl; simpl; [apply (list_rep_init (Lst None (fun _ => lnk0)))|].
    apply NoDup_cons in Hl as [Hp Hl]. apply list_rep_insert_head; [by apply IH|done]. }
  apply H, NoDup_seqZ.
Qed.

Lemma board_window : window_ok 0 board_kernel (seqZ 1 4000) [].
Proof.
  assert (forall va, leaf_pte (fun _ => 0) 0 va = None) as Hl by (intros va; unfold leaf_pte, leaf; by rewrite pte_zero).
  split; [|reflexivity|by intros i _| | | |].
  - split; [split|].
    + exact board_free_rep.
    + intros p Hp%elem_of_seqZ. split; [simpl; lia|done].
    + done.
    + intros p. simpl. lia.
    + apply pt_ok_zero. split; [simpl; lia|]. intros Hp%elem_of_seqZ. lia.
  - split; [constructor|done| |done]. intros w i Hw. by apply not_elem_of_nil in Hw.
  - intros w i Hw. by apply not_elem_of_nil in Hw.
  - intros i _ _. apply Hl.
  - intros i _. apply leaf_none_nohuge, Hl.
Qed.

Definition board_fuel : nat := Z.to_nat (KMALLOC_HEAP_SIZE / MBLOCK_SIZE).
Lemma board_fuel_eq : Z.of_nat board_fuel = 26843545.
Proof. unfold board_fuel. by rewrite Z2Nat.id. Qed.

Lemma board_boot : boot_inv 0 board_kernel (seqZ 1 4000) [] 0 (fun _ => False) (0 + heap_needed 0 board_plic [board_virtio]).
Proof.
  split; [exact board_window|constructor|done| |].
  - exists [blk0]. split_and!; [exact heap0_rep|exact heap0_ok|..].
    + intros q. split; [done|]. intros Hq. by apply not_elem_of_nil in Hq.
    + exists blk0. split_and!; [left|done|vm_compute; discriminate].
  - split; [done|by left|]. intros d Hd. by apply not_elem_of_nil in Hd.
Qed.

Lemma lit_nonzero s : forallb (fun b => negb (b =? 0)) (lit s) = true -> 0 ∉ lit s.
Proof.
  intros H Hin. apply list_elem_of_In in Hin. rewrite forallb_forall in H. by apply H in Hin.
Qed.

Lemma board_compat fuel anc nm ps ks s : (2 <= fuel)%nat -> assoc (lit "compatible") ps = Some (string_list [lit s]) ->
  forallb (fun b => negb (b =? 0)) (lit s) = true -> compat_spec fuel (anc, Tree nm ps ks) s.
Proof.
  intros Hf Hp Hz. exists [lit s]. split_and!; [exact Hp|by apply Forall_singleton, lit_nonzero|simpl; lia|left].
Qed.

Lemma board_reg_spec nm ps ks pa len : assoc str_reg ps = Some (cells_enc 2 pa ++ cells_enc 2 len) ->
  0 <= pa < 2 ^ 64 -> 0 <= len < 2 ^ 64 -> reg_spec ([board_root], Tree nm ps ks) pa len.
Proof.
  intros Hp Hpa Hlen. exists 2, 2, []. rewrite app_nil_r. split_and!; try (done || by right || lia).
  - exists 2. split_and!; (reflexivity || lia).
  - exists 2. split_and!; (reflexivity || lia).
Qed.

Lemma board_small fuel nm ps ks : (length ps < 30)%nat -> (30 <= fuel)%nat -> small fuel ([board_root], Tree nm ps ks).
Proof. intros H1 H2. split_and!; simpl; [lia|lia|]. constructor; [simpl; lia|constructor]. Qed.

Lemma board_tree_devices fuel : (30 <= fuel)%nat ->
  tree_devices fuel board_tree board_plic [board_virtio] board_serial 1.
Proof.
  intros Hf. split.
  - vm_compute. lia.
  - eexists ([board_root], _), _. split; [vm_compute; reflexivity|].
    split; [apply board_small; [vm_compute; lia|done]|]. split_and!; try done.
    + by apply board_compat; [lia|..].
    + by apply board_reg_spec.
    + exists (be_enc 3 ++ be_enc 11 ++ be_enc 3). split; [reflexivity|by right].
  - apply Forall2_cons. split; [|constructor].
    split; [apply board_small; [vm_compute; lia|done]|]. split_and!; try done.
    + by apply board_compat; [lia|..].
    + exists []. split_and!; done.
    + exists []. split_and!; done.
    + by apply board_reg_spec.
  - eexists ([board_root], _), _. split; [vm_compute; reflexivity|].
    split; [apply board_small; [vm_compute; lia|done]|]. split_and!; try done.
    + by apply board_compat; [lia|..].
    + exists []. split_and!; done.
    + exists []. split_and!; done.
    + by apply board_reg_spec.
  - split; [|done]. split_and!; done.
  - constructor; [|constructor]. split; [|done]. split_and!; done.
  - split_and!; done.
Qed.

Lemma board_rep (h : board) : node_rep (fun _ => True) (Dt h board_nodes board_props) 0 1 board_tree.
Proof. vm_compute. repeat split; discriminate. Qed.

Lemma devices_discovered_witness : exists k' dat' ep es eser va,
  init_devices board_fuel 1 (Dt (Board board_kernel (fun _ => None)) board_nodes board_props) =
    Ret tt (Dt (Board k' dat') board_nodes board_props) /\
  devices k' = [] ++ ep :: es ++ [eser] /\
  described 0 k' dat' (lit "plic") (PlicBlob board_plic) sizeof_PlicData 0xc000000 0x600000 ep /\
  Forall2 (fun d => described 0 k' dat' (lit "virtio_mmio") (VirtioBlob d) sizeof_VirtioDeviceData (v_begin_pa d) (v_len d)) [board_virtio] es /\
  described 0 k' dat' (lit "serial") (SerialBlob board_serial) sizeof_SerialDeviceData 0x10000000 0x100 eser /\
  ids_from 0 (ep :: es ++ [eser]) /\
  (forall e, e ∈ [] -> dat' (device_data e) = None) /\ plic_ready board_kernel k' board_plic ep va.
Proof.
  pose proof board_fuel_eq as Hf.
  apply (devices_discovered board_fuel 0 (fun _ => True) board_kernel (fun _ => None) board_nodes board_props (seqZ 1 4000) [] 0
    (fun _ => False) 0 1 board_tree board_plic [board_virtio] board_serial 1).
  - unfold board_fuel. by rewrite Z2Nat.id.
  - apply board_rep.
  - change (size board_tree) with 4%nat. lia.
  - apply board_tree_devices. lia.
  - lia.
  - exact board_boot.
  - lia.
  - split; [done|reflexivity].
  - reflexivity.
  - vm_compute. discriminate.
  - rewrite length_seqZ. vm_compute. discriminate.
Defined.
