(* ===== verification/Pipe.v ===== *)
(** user/lib/pipe.c: a pipe shared by a reading and a writing process.

    The two processes run the loops of [pipe_read] and [pipe_write] one shared
    access at a time, in any order; [reader_step] and [writer_step] are those
    loops cut at their accesses to the shared page, and [check_step] cuts
    [_pipe_is_closed].  A condition that reads one counter of its own and one
    of the other side is a single step: nobody else writes its own counter.

    Other processes open and close the pipe at any time, so the reference
    counts change freely, and so does [env_runs], the number of times a process
    was scheduled.  [sys_put] and [sys_got] record the bytes that went in and
    out; the code does not read them. *)
From stdpp Require Import relations.
From S2P Require Import Prelude.
#[local] Open Scope Z_scope.

Definition PIPE_SIZE : Z := 32.

(** [struct Pipe], and what [pageref] and [env->env_runs] return. *)
Record shared := Shared {
  p_rpos : Z; p_wpos : Z; p_buf : Z -> Z;
  rfd_refs : Z; wfd_refs : Z; pipe_refs : Z;
  reader_runs : Z; writer_runs : Z
}.

Definition set_rpos x s := Shared x (p_wpos s) (p_buf s) (rfd_refs s) (wfd_refs s) (pipe_refs s) (reader_runs s) (writer_runs s).
Definition set_wpos x s := Shared (p_rpos s) x (p_buf s) (rfd_refs s) (wfd_refs s) (pipe_refs s) (reader_runs s) (writer_runs s).
Definition set_buf x s := Shared (p_rpos s) (p_wpos s) x (rfd_refs s) (wfd_refs s) (pipe_refs s) (reader_runs s) (writer_runs s).
Definition set_refs r w p s := Shared (p_rpos s) (p_wpos s) (p_buf s) r w p (reader_runs s) (writer_runs s).
Definition set_runs r w s := Shared (p_rpos s) (p_wpos s) (p_buf s) (rfd_refs s) (wfd_refs s) (pipe_refs s) r w.

(** ** _pipe_is_closed *)

Inductive check :=
  | CRuns0
  | CFd (before : Z)
  | CPipe (before fd_ref : Z)
  | CRuns (before fd_ref pipe_ref : Z).

(** One access; [inr] is the result. *)
Definition check_step (runs fd_refs pipe_refs : Z) (c : check) : check + bool :=
  match c with
  | CRuns0 => inl (CFd runs)
  | CFd before => inl (CPipe before fd_refs)
  | CPipe before fd_ref => inl (CRuns before fd_ref pipe_refs)
  | CRuns before fd_ref pipe_ref =>
      if runs =? before then inr (fd_ref =? pipe_ref) else inl (CFd before)
  end.

(** ** pipe_read *)

Inductive rpc :=
  | RTop
  | RTest
  | RGet
  | RInc
  | RWait
  | RClosed (c : check)
  | RYield
  | RRet (r : Z).

(** [i], [n] and the caller's buffer. *)
Record reader := Reader { r_pc : rpc; r_i : Z; r_n : Z; r_vbuf : Z -> Z }.

Definition r_goto (pc : rpc) (t : reader) : reader := Reader pc (r_i t) (r_n t) (r_vbuf t).

Definition reader_step (s : shared) (t : reader) : shared * reader :=
  match r_pc t with
  | RTop => (s, r_goto (if r_i t <? r_n t then RTest else RRet 0) t)
  | RTest =>
      (s, r_goto (if (p_rpos s <? p_wpos s) && (r_i t <? r_n t) then RGet
                  else if r_i t =? r_n t then RRet (i32 (r_i t))
                  else RWait) t)
  | RGet => (s, Reader RInc (r_i t) (r_n t) (<[r_i t := p_buf s (p_rpos s mod PIPE_SIZE)]> (r_vbuf t)))
  | RInc => (set_rpos (u32 (p_rpos s + 1)) s, Reader RTest (u32 (r_i t + 1)) (r_n t) (r_vbuf t))
  | RWait =>
      (s, r_goto (if p_rpos s =? p_wpos s then
                    if 1 <=? r_i t then RRet (i32 (r_i t)) else RClosed CRuns0
                  else RTop) t)
  | RClosed c =>
      (s, match check_step (reader_runs s) (rfd_refs s) (pipe_refs s) c with
          | inl c => r_goto (RClosed c) t
          | inr closed => r_goto (if (closed : bool) then RRet (i32 (r_i t)) else RYield) t
          end)
  | RYield => (s, r_goto RWait t)
  | RRet r => (s, t)
  end.

(** ** pipe_write *)

Inductive wpc :=
  | WTop
  | WTest
  | WPut
  | WInc
  | WWait
  | WClosed (c : check)
  | WYield
  | WRet (r : Z).

(** [i] is an [int], compared with [n] as an unsigned number. *)
Record writer := Writer { w_pc : wpc; w_i : Z; w_n : Z; w_vbuf : Z -> Z }.

Definition w_goto (pc : wpc) (t : writer) : writer := Writer pc (w_i t) (w_n t) (w_vbuf t).

Definition writer_step (s : shared) (t : writer) : shared * writer :=
  match w_pc t with
  | WTop => (s, w_goto (if u32 (w_i t) <? w_n t then WTest else WRet (i32 (w_n t))) t)
  | WTest =>
      (s, w_goto (if (u32 (p_wpos s - p_rpos s) <? PIPE_SIZE) && (u32 (w_i t) <? w_n t) then WPut
                  else if u32 (w_i t) =? w_n t then WRet (w_i t)
                  else WWait) t)
  | WPut => (set_buf (<[p_wpos s mod PIPE_SIZE := w_vbuf t (w_i t)]> (p_buf s)) s, w_goto WInc t)
  | WInc => (set_wpos (u32 (p_wpos s + 1)) s, Writer WTest (i32 (w_i t + 1)) (w_n t) (w_vbuf t))
  | WWait =>
      (s, w_goto (if u32 (p_wpos s - p_rpos s) =? PIPE_SIZE then WClosed CRuns0 else WTop) t)
  | WClosed c =>
      (s, match check_step (writer_runs s) (wfd_refs s) (pipe_refs s) c with
          | inl c => w_goto (WClosed c) t
          | inr closed => w_goto (if (closed : bool) then WRet (w_i t) else WYield) t
          end)
  | WYield => (s, w_goto WWait t)
  | WRet r => (s, t)
  end.

(** ** The system *)

Record sys := Sys { sh : shared; rd : reader; wr : writer; sys_put : list Z; sys_got : list Z }.

(** A process outside of a call is where its last call returned. *)
Inductive step : sys -> sys -> Prop :=
  | step_reader s :
      step s (Sys (reader_step (sh s) (rd s)).1 (reader_step (sh s) (rd s)).2 (wr s) (sys_put s)
        (match r_pc (rd s) with
         | RGet => sys_got s ++ [p_buf (sh s) (p_rpos (sh s) mod PIPE_SIZE)]
         | _ => sys_got s
         end))
  | step_writer s :
      step s (Sys (writer_step (sh s) (wr s)).1 (rd s) (writer_step (sh s) (wr s)).2
        (match w_pc (wr s) with WPut => sys_put s ++ [w_vbuf (wr s) (w_i (wr s))] | _ => sys_put s end)
        (sys_got s))
  | step_read s r n vbuf : r_pc (rd s) = RRet r -> 0 <= n < 2 ^ 31 ->
      step s (Sys (sh s) (Reader RTop 0 n vbuf) (wr s) (sys_put s) (sys_got s))
  | step_write s r n vbuf : w_pc (wr s) = WRet r -> 0 <= n < 2 ^ 31 ->
      step s (Sys (sh s) (rd s) (Writer WTop 0 n vbuf) (sys_put s) (sys_got s))
  | step_refs s r w p : step s (Sys (set_refs r w p (sh s)) (rd s) (wr s) (sys_put s) (sys_got s))
  | step_runs s r w : step s (Sys (set_runs r w (sh s)) (rd s) (wr s) (sys_put s) (sys_got s)).

(** The page of a new pipe is zero. *)
Definition pipe0 : shared := Shared 0 0 (fun _ => 0) 1 1 2 1 1.
Definition sys0 : sys := Sys pipe0 (Reader (RRet 0) 0 0 (fun _ => 0)) (Writer (WRet 0) 0 0 (fun _ => 0)) [] [].

Definition reachable (s : sys) : Prop := rtc step sys0 s.

(** ** The invariant *)

(** A byte is already stored, or already read, while the counter still has to
    be incremented. *)
Definition r_pending (t : reader) : Z := match r_pc t with RInc => 1 | _ => 0 end.
Definition w_pending (t : writer) : Z := match w_pc t with WInc => 1 | _ => 0 end.

Notation len l := (Z.of_nat (length l)).
Notation "l !!! i" := (nth (Z.to_nat i) l 0) (at level 20) : Z_scope.

Record inv (s : sys) : Prop := {
  i_wpos : p_wpos (sh s) = len (sys_put s) - w_pending (wr s);
  i_rpos : p_rpos (sh s) = len (sys_got s) - r_pending (rd s);
  i_order : 0 <= p_rpos (sh s) /\ len (sys_got s) <= p_wpos (sh s);
  i_room : len (sys_put s) <= p_rpos (sh s) + PIPE_SIZE;
  i_prefix : sys_got s `prefix_of` sys_put s;
  i_slots : forall k, p_rpos (sh s) <= k < len (sys_put s) -> p_buf (sh s) (k mod PIPE_SIZE) = sys_put s !!! k;
  i_rget : r_pc (rd s) = RGet -> p_rpos (sh s) < p_wpos (sh s) /\ r_i (rd s) < r_n (rd s);
  i_wput : w_pc (wr s) = WPut -> p_wpos (sh s) < p_rpos (sh s) + PIPE_SIZE /\ w_i (wr s) < w_n (wr s);
  i_read : 0 <= r_i (rd s) /\ r_i (rd s) + r_pending (rd s) <= r_n (rd s) /\ r_n (rd s) < 2 ^ 31 /\
    r_i (rd s) + r_pending (rd s) <= len (sys_got s) /\
    forall j, 0 <= j < r_i (rd s) + r_pending (rd s) ->
      r_vbuf (rd s) j = sys_got s !!! (len (sys_got s) - (r_i (rd s) + r_pending (rd s)) + j);
  i_write : 0 <= w_i (wr s) /\ w_i (wr s) + w_pending (wr s) <= w_n (wr s) /\ w_n (wr s) < 2 ^ 31 /\
    w_i (wr s) + w_pending (wr s) <= len (sys_put s) /\
    forall j, 0 <= j < w_i (wr s) + w_pending (wr s) ->
      w_vbuf (wr s) j = sys_put s !!! (len (sys_put s) - (w_i (wr s) + w_pending (wr s)) + j);
  i_rlive : match r_pc (rd s) with
            | RWait | RClosed _ | RYield => r_i (rd s) < r_n (rd s)
            | RTop => r_i (rd s) < r_n (rd s) \/ r_i (rd s) = 0
            | _ => True
            end;
  i_rret : forall r, r_pc (rd s) = RRet r -> r = r_i (rd s);
  i_wret : forall r, w_pc (wr s) = WRet r -> r = w_i (wr s)
}.

Lemma inv0 : inv sys0.
Proof.
  split; cbn; try done; try lia.
  1,2: split_and!; try lia; intros j Hj; lia.
  all: by intros r [= <-].
Qed.

(** Steps of the reader that leave its data and the shared page alone. *)
Lemma inv_reader_goto s pc : inv s -> r_pending (rd s) = 0 -> pc <> RInc ->
  (pc = RGet -> p_rpos (sh s) < p_wpos (sh s) /\ r_i (rd s) < r_n (rd s)) ->
  match pc with
  | RWait | RClosed _ | RYield => r_i (rd s) < r_n (rd s)
  | RTop => r_i (rd s) < r_n (rd s) \/ r_i (rd s) = 0
  | RRet r => r = r_i (rd s)
  | _ => True
  end -> inv (Sys (sh s) (r_goto pc (rd s)) (wr s) (sys_put s) (sys_got s)).
Proof.
  intros [H1 H2 H3 H4 H5 H6 H7 H8 H9 H10 H11 H12 H13] Hp Hpc Hg Hl.
  assert (r_pending (r_goto pc (rd s)) = 0) as Hp' by (by destruct pc).
  split; cbn [sh rd wr sys_put sys_got]; rewrite ?Hp'; try done.
  - by rewrite Hp in H2.
  - by rewrite Hp in H9.
  - by destruct pc.
  - intros r Hr. cbn [r_pc r_goto r_i] in *. by subst pc.
Qed.

Lemma inv_writer_goto s pc : inv s -> w_pending (wr s) = 0 -> pc <> WInc ->
  (pc = WPut -> p_wpos (sh s) < p_rpos (sh s) + PIPE_SIZE /\ w_i (wr s) < w_n (wr s)) ->
  (forall r, pc = WRet r -> r = w_i (wr s)) ->
  inv (Sys (sh s) (rd s) (w_goto pc (wr s)) (sys_put s) (sys_got s)).
Proof.
  intros [H1 H2 H3 H4 H5 H6 H7 H8 H9 H10 H11 H12 H13] Hp Hpc Hg Hl.
  assert (w_pending (w_goto pc (wr s)) = 0) as Hp' by (by destruct pc).
  split; cbn [sh rd wr sys_put sys_got]; rewrite ?Hp'; try done.
  - by rewrite Hp in H1.
  - by rewrite Hp in H10.
Qed.

Lemma nth_snoc_lt (l : list Z) x k : 0 <= k < len l -> (l ++ [x]) !!! k = l !!! k.
Proof. intros Hk. apply app_nth1. lia. Qed.
Lemma nth_snoc_eq (l : list Z) x k : k = len l -> (l ++ [x]) !!! k = x.
Proof. intros ->. rewrite Nat2Z.id, app_nth2, Nat.sub_diag by lia. done. Qed.

(** Appending to a sequence and to the buffer that holds its last bytes. *)
Lemma window_snoc (l : list Z) x (b : Z -> Z) i : 0 <= i <= len l ->
  (forall j, 0 <= j < i -> b j = l !!! (len l - i + j)) ->
  forall b', b' i = x -> (forall j, j <> i -> b' j = b j) ->
  forall j, 0 <= j < i + 1 -> b' j = (l ++ [x]) !!! (Z.of_nat (length l + 1) - (i + 1) + j).
Proof.
  intros Hi Hb b' Hx Hb' j Hj.
  replace (Z.of_nat (length l + 1) - (i + 1) + j) with (len l - i + j) by lia.
  destruct (Z.eq_dec j i) as [->|Hne].
  - rewrite nth_snoc_eq by lia. done.
  - rewrite nth_snoc_lt by lia. rewrite Hb' by done. apply Hb. lia.
Qed.

Lemma prefix_next (l k : list Z) : l `prefix_of` k -> (length l < length k)%nat ->
  l ++ [k !!! len l] `prefix_of` k.
Proof.
  intros [r ->] Hl. destruct r as [|x r]; [rewrite app_nil_r in Hl; lia|].
  rewrite Nat2Z.id, app_nth2, Nat.sub_diag by lia. cbn [nth]. exists r. by rewrite <- app_assoc.
Qed.

(** The reader takes the byte at [p_rpos]. *)
Lemma inv_rget s : inv s -> r_pc (rd s) = RGet -> len (sys_put s) < 2 ^ 32 ->
  inv (Sys (sh s) (Reader RInc (r_i (rd s)) (r_n (rd s))
              (<[r_i (rd s) := p_buf (sh s) (p_rpos (sh s) mod PIPE_SIZE)]> (r_vbuf (rd s))))
         (wr s) (sys_put s) (sys_got s ++ [p_buf (sh s) (p_rpos (sh s) mod PIPE_SIZE)])).
Proof.
  intros [H1 H2 H3 H4 H5 H6 H7 H8 H9 H10 H11 H12 H13] Hpc Hlen.
  destruct (H7 Hpc) as [Hlt Hin]. unfold r_pending in H2, H9. rewrite Hpc in H2, H9. rewrite Z.add_0_r in H9.
  assert (0 <= w_pending (wr s)) by (unfold w_pending; by destruct (w_pc (wr s))).
  rewrite (H6 (p_rpos (sh s))) by lia. rewrite H2, Z.sub_0_r in *.
  split; cbn [sh rd wr sys_put sys_got r_pc r_i r_n r_vbuf r_pending]; rewrite ?length_app; cbn [length]; try done; try lia.
  - apply prefix_next; [done|lia].
  - by rewrite H2.
  - by rewrite H2.
  - destruct H9 as (Ha & Hb & Hc & Hd & He). split_and!; try lia.
    eapply window_snoc; [lia|exact He|by rewrite fn_lookup_insert|]. intros j Hj. by rewrite fn_lookup_insert_ne.
Qed.

(** The reader has taken it. *)
Lemma inv_rinc s : inv s -> r_pc (rd s) = RInc -> len (sys_put s) < 2 ^ 32 ->
  inv (Sys (set_rpos (u32 (p_rpos (sh s) + 1)) (sh s))
         (Reader RTest (u32 (r_i (rd s) + 1)) (r_n (rd s)) (r_vbuf (rd s))) (wr s) (sys_put s) (sys_got s)).
Proof.
  intros [H1 H2 H3 H4 H5 H6 H7 H8 H9 H10 H11 H12 H13] Hpc Hlen.
  unfold r_pending in H2, H9. rewrite Hpc in H2, H9.
  assert (0 <= w_pending (wr s)) by (unfold w_pending; by destruct (w_pc (wr s))).
  unfold u32. rewrite !Z.mod_small by lia.
  split; cbn [sh rd wr sys_put sys_got r_pc r_i r_n r_vbuf r_pending set_rpos p_rpos p_wpos p_buf]; try done; try lia.
  - intros k Hk. apply H6. lia.
  - intros Hw. destruct (H8 Hw). lia.
  - rewrite !Z.add_0_r. split_and!; try lia; tauto.
Qed.

(** The writer stores a byte at [p_wpos]. *)
Lemma inv_wput s : inv s -> w_pc (wr s) = WPut -> len (sys_put s) < 2 ^ 32 ->
  inv (Sys (set_buf (<[p_wpos (sh s) mod PIPE_SIZE := w_vbuf (wr s) (w_i (wr s))]> (p_buf (sh s))) (sh s)) (rd s)
         (w_goto WInc (wr s)) (sys_put s ++ [w_vbuf (wr s) (w_i (wr s))]) (sys_got s)).
Proof.
  intros [H1 H2 H3 H4 H5 H6 H7 H8 H9 H10 H11 H12 H13] Hpc Hlen.
  destruct (H8 Hpc) as [Hlt Hin]. unfold w_pending in H1, H10. rewrite Hpc in H1, H10. rewrite Z.add_0_r in H10.
  assert (0 <= r_pending (rd s)) by (unfold r_pending; by destruct (r_pc (rd s))).
  rewrite Z.sub_0_r in H1.
  split; cbn [sh rd wr sys_put sys_got w_pc w_i w_n w_vbuf w_pending w_goto set_buf p_rpos p_wpos p_buf];
    rewrite ?length_app; cbn [length]; try done; try lia.
  - by apply prefix_app_r.
  - intros k Hk. destruct (Z.eq_dec k (p_wpos (sh s))) as [->|Hne].
    + rewrite fn_lookup_insert, nth_snoc_eq by lia. done.
    + rewrite fn_lookup_insert_ne, nth_snoc_lt by (try lia; unfold PIPE_SIZE in *; Z.div_mod_to_equations; lia).
      apply H6. lia.
  - destruct H10 as (Ha & Hb & Hc & Hd & He). split_and!; try lia.
    apply (window_snoc (sys_put s) (w_vbuf (wr s) (w_i (wr s))) (w_vbuf (wr s)) (w_i (wr s))); done || lia.
Qed.

Lemma inv_winc s : inv s -> w_pc (wr s) = WInc -> len (sys_put s) < 2 ^ 32 ->
  inv (Sys (set_wpos (u32 (p_wpos (sh s) + 1)) (sh s)) (rd s)
         (Writer WTest (i32 (w_i (wr s) + 1)) (w_n (wr s)) (w_vbuf (wr s))) (sys_put s) (sys_got s)).
Proof.
  intros [H1 H2 H3 H4 H5 H6 H7 H8 H9 H10 H11 H12 H13] Hpc Hlen.
  unfold w_pending in H1, H10. rewrite Hpc in H1, H10.
  assert (0 <= r_pending (rd s)) by (unfold r_pending; by destruct (r_pc (rd s))).
  rewrite i32_small by lia. unfold u32. rewrite Z.mod_small by lia.
  split; cbn [sh rd wr sys_put sys_got w_pc w_i w_n w_vbuf w_pending set_wpos p_rpos p_wpos p_buf]; try done; try lia.
  - intros Hr. destruct (H7 Hr). lia.
  - rewrite !Z.add_0_r. split_and!; try lia; tauto.
Qed.

Lemma reader_step_inv s : inv s -> len (sys_put s) < 2 ^ 32 ->
  inv (Sys (reader_step (sh s) (rd s)).1 (reader_step (sh s) (rd s)).2 (wr s) (sys_put s)
    (match r_pc (rd s) with
     | RGet => sys_got s ++ [p_buf (sh s) (p_rpos (sh s) mod PIPE_SIZE)]
     | _ => sys_got s
     end)).
Proof.
  intros I Hlen. pose proof (i_rlive _ I) as Hlive. pose proof (i_read _ I) as (H0 & H1 & H2 & _).
  assert (r_pc (rd s) <> RInc -> r_pending (rd s) = 0) as Hp by (unfold r_pending; by destruct (r_pc (rd s))).
  unfold reader_step. destruct (r_pc (rd s)) eqn:E; cbn [fst snd].
  - specialize (Hp ltac:(done)). apply inv_reader_goto; try done;
      destruct (Z.ltb_spec (r_i (rd s)) (r_n (rd s))); try done. lia.
  - specialize (Hp ltac:(done)). apply inv_reader_goto; try done;
      destruct (Z.ltb_spec (p_rpos (sh s)) (p_wpos (sh s))), (Z.ltb_spec (r_i (rd s)) (r_n (rd s))),
        (Z.eqb_spec (r_i (rd s)) (r_n (rd s))); cbn [andb]; try done; try lia; rewrite i32_small; lia.
  - by apply inv_rget.
  - by apply inv_rinc.
  - specialize (Hp ltac:(done)). apply inv_reader_goto; try done;
      destruct (p_rpos (sh s) =? p_wpos (sh s)), (1 <=? r_i (rd s)); try done; try lia; rewrite i32_small; lia.
  - specialize (Hp ltac:(done)). destruct (check_step _ _ _ c) as [c'|closed]; apply inv_reader_goto; try done;
      destruct closed; try done. rewrite i32_small; lia.
  - apply inv_reader_goto; try done. by apply Hp.
  - by destruct s.
Qed.

Lemma writer_step_inv s : inv s ->
  len (match w_pc (wr s) with WPut => sys_put s ++ [w_vbuf (wr s) (w_i (wr s))] | _ => sys_put s end) < 2 ^ 32 ->
  inv (Sys (writer_step (sh s) (wr s)).1 (rd s) (writer_step (sh s) (wr s)).2
    (match w_pc (wr s) with WPut => sys_put s ++ [w_vbuf (wr s) (w_i (wr s))] | _ => sys_put s end) (sys_got s)).
Proof.
  intros I Hlen. pose proof (i_write _ I) as (H0 & H1 & H2 & _).
  pose proof (i_order _ I). pose proof (i_room _ I). pose proof (i_wpos _ I) as Hw.
  assert (0 <= r_pending (rd s)) by (unfold r_pending; by destruct (r_pc (rd s))).
  assert (w_pc (wr s) <> WInc -> w_pending (wr s) = 0) as Hp by (unfold w_pending; by destruct (w_pc (wr s))).
  pose proof (i_rpos _ I) as Hr. unfold PIPE_SIZE in *.
  assert (0 <= w_pending (wr s)) by (unfold w_pending; by destruct (w_pc (wr s))).
  assert (u32 (p_wpos (sh s) - p_rpos (sh s)) = p_wpos (sh s) - p_rpos (sh s)) as Hd by (apply Z.mod_small; lia).
  assert (u32 (w_i (wr s)) = w_i (wr s)) as Hi by (apply Z.mod_small; lia).
  unfold writer_step, PIPE_SIZE. rewrite Hd, Hi. destruct (w_pc (wr s)) eqn:E; cbn [fst snd].
  - specialize (Hp ltac:(done)). apply inv_writer_goto; try done; intros;
      destruct (Z.ltb_spec (w_i (wr s)) (w_n (wr s))); try done. injection H6 as <-. rewrite i32_small; lia.
  - specialize (Hp ltac:(done)). apply inv_writer_goto; try done;
      destruct (Z.ltb_spec (p_wpos (sh s) - p_rpos (sh s)) 32), (Z.ltb_spec (w_i (wr s)) (w_n (wr s))),
        (Z.eqb_spec (w_i (wr s)) (w_n (wr s))); cbn [andb]; try done; unfold PIPE_SIZE; try lia; congruence.
  - apply inv_wput; try done. rewrite length_app in Hlen. lia.
  - by apply inv_winc.
  - specialize (Hp ltac:(done)). apply inv_writer_goto; try done; by destruct (_ =? _).
  - specialize (Hp ltac:(done)). destruct (check_step _ _ _ c) as [c'|closed]; apply inv_writer_goto; try done;
      destruct closed; try done. congruence.
  - apply inv_writer_goto; try done. by apply Hp.
  - by destruct s.
Qed.

Lemma inv_shared s s' : inv s -> p_rpos s' = p_rpos (sh s) -> p_wpos s' = p_wpos (sh s) -> p_buf s' = p_buf (sh s) ->
  inv (Sys s' (rd s) (wr s) (sys_put s) (sys_got s)).
Proof. intros [] E1 E2 E3. split; cbn [sh rd wr sys_put sys_got]; rewrite ?E1, ?E2, ?E3; done. Qed.

(** A new call starts with nothing transferred. *)
Lemma inv_read s r n vbuf : inv s -> r_pc (rd s) = RRet r -> 0 <= n < 2 ^ 31 ->
  inv (Sys (sh s) (Reader RTop 0 n vbuf) (wr s) (sys_put s) (sys_got s)).
Proof.
  intros [] E Hn. unfold r_pending in *. rewrite E in *.
  split; cbn [sh rd wr sys_put sys_got r_pc r_i r_n r_vbuf r_pending]; try done; try by right.
  split_and!; try lia.
Qed.

Lemma inv_write s r n vbuf : inv s -> w_pc (wr s) = WRet r -> 0 <= n < 2 ^ 31 ->
  inv (Sys (sh s) (rd s) (Writer WTop 0 n vbuf) (sys_put s) (sys_got s)).
Proof.
  intros [] E Hn. unfold w_pending in *. rewrite E in *.
  split; cbn [sh rd wr sys_put sys_got w_pc w_i w_n w_vbuf w_pending]; try done.
  split_and!; try lia.
Qed.

Lemma step_inv s s' : step s s' -> inv s -> len (sys_put s') < 2 ^ 32 -> inv s'.
Proof.
  intros Hstep I Hlen. destruct Hstep; cbn [sys_put] in Hlen.
  - by apply reader_step_inv.
  - by apply writer_step_inv.
  - by eapply inv_read.
  - by eapply inv_write.
  - by apply inv_shared.
  - by apply inv_shared.
Qed.

Lemma step_put s s' : step s s' -> (length (sys_put s) <= length (sys_put s'))%nat.
Proof. intros Hstep. destruct Hstep; cbn [sys_put]; try lia. destruct (w_pc (wr s)); rewrite ?length_app; lia. Qed.

Lemma reachable_inv s : reachable s -> len (sys_put s) < 2 ^ 32 -> inv s.
Proof.
  revert s. unfold reachable. apply (rtc_ind_r (fun s => len (sys_put s) < 2 ^ 32 -> inv s)).
  - intros _. exact inv0.
  - intros s s' Hr Hs IH Hlen. eapply step_inv; [exact Hs| |done]. apply IH. pose proof (step_put _ _ Hs). lia.
Qed.

(** ** The abstract pipe: a queue of at most 32 bytes *)

Record queue := Queue { q_put : list Z; q_got : list Z; q_bytes : list Z }.

Inductive queue_step : queue -> queue -> Prop :=
  | q_push p g q x : (length q < 32)%nat -> queue_step (Queue p g q) (Queue (p ++ [x]) g (q ++ [x]))
  | q_pop p g q x : queue_step (Queue p g (x :: q)) (Queue p (g ++ [x]) q)
  | q_stutter a : queue_step a a.

Definition abstraction (s : sys) : queue := Queue (sys_put s) (sys_got s) (drop (length (sys_got s)) (sys_put s)).

Lemma inv_queue s : inv s -> sys_put s = sys_got s ++ q_bytes (abstraction s) /\ (length (q_bytes (abstraction s)) <= 32)%nat.
Proof.
  intros I. pose proof (i_prefix _ I) as [q Hq]. cbn [abstraction q_bytes]. rewrite Hq, drop_app_length. split; [done|].
  pose proof (i_room _ I) as Hroom. pose proof (i_rpos _ I). unfold PIPE_SIZE in *.
  assert (0 <= r_pending (rd s)) by (unfold r_pending; by destruct (r_pc (rd s))).
  rewrite Hq, length_app in Hroom. lia.
Qed.

(** Every step is a push, a pop or nothing. *)
Lemma step_simulates s s' : step s s' -> inv s -> queue_step (abstraction s) (abstraction s').
Proof.
  intros Hstep I. destruct (inv_queue s I) as [Hq Hlen]. pose proof (i_prefix _ I) as Hpre. unfold abstraction in *. cbn [q_bytes] in *.
  set (q := drop (length (sys_got s)) (sys_put s)) in *.
  destruct Hstep; cbn [sys_put sys_got]; try apply q_stutter.
  - destruct (r_pc (rd s)) eqn:E; try apply q_stutter.
    destruct (i_rget _ I E) as [Hlt _]. pose proof (i_rpos _ I) as Hr. pose proof (i_wpos _ I) as Hw.
    unfold r_pending in Hr. rewrite E, Z.sub_0_r in Hr.
    assert (0 <= w_pending (wr s)) by (unfold w_pending; by destruct (w_pc (wr s))).
    rewrite (i_slots _ I) by lia. rewrite Hr. fold q. rewrite length_app. cbn [length].
    destruct q as [|x q'] eqn:Eq; [apply (f_equal length) in Hq; rewrite length_app in Hq; simpl in Hq; lia|].
    assert (sys_put s !!! len (sys_got s) = x) as ->.
    { rewrite Hq, Nat2Z.id, app_nth2, Nat.sub_diag by lia. done. }
    assert (drop (length (sys_got s) + 1) (sys_put s) = q') as ->.
    { rewrite Hq, drop_app_ge by lia. replace (length (sys_got s) + 1 - length (sys_got s))%nat with 1%nat by lia. done. }
    apply q_pop.
  - destruct (w_pc (wr s)) eqn:E; try apply q_stutter.
    destruct (i_wput _ I E) as [Hlt _]. pose proof (i_wpos _ I) as Hw. pose proof (i_rpos _ I).
    unfold w_pending in Hw. rewrite E in Hw. unfold PIPE_SIZE in Hlt.
    assert (0 <= r_pending (rd s) <= 1) by (unfold r_pending; by destruct (r_pc (rd s))).
    assert (length (sys_got s) <= length (sys_put s))%nat by (by apply prefix_length).
    rewrite drop_app_le by done. fold q. apply q_push. unfold q. rewrite length_drop. lia.
Qed.

(** ** A process that runs alone *)

Definition reader_run (k : nat) (c : shared * reader) : shared * reader :=
  Nat.iter k (fun c => reader_step c.1 c.2) c.
Definition writer_run (k : nat) (c : shared * writer) : shared * writer :=
  Nat.iter k (fun c => writer_step c.1 c.2) c.

Lemma reader_run_add j k c : reader_run (j + k) c = reader_run k (reader_run j c).
Proof. unfold reader_run. rewrite Nat.add_comm. apply Nat.iter_add. Qed.
Lemma writer_run_add j k c : writer_run (j + k) c = writer_run k (writer_run j c).
Proof. unfold writer_run. rewrite Nat.add_comm. apply Nat.iter_add. Qed.

Lemma r_test_get s i n vbuf : p_rpos s < p_wpos s -> i < n ->
  reader_step s (Reader RTest i n vbuf) = (s, Reader RGet i n vbuf).
Proof.
  intros H1 H2. unfold reader_step, r_goto. cbn [r_pc r_i r_n r_vbuf].
  by rewrite (proj2 (Z.ltb_lt _ _) H1), (proj2 (Z.ltb_lt _ _) H2).
Qed.

Lemma r_test_wait s i n vbuf : p_rpos s = p_wpos s -> i <> n ->
  reader_step s (Reader RTest i n vbuf) = (s, Reader RWait i n vbuf).
Proof.
  intros H1 H2. unfold reader_step, r_goto. cbn [r_pc r_i r_n r_vbuf].
  by rewrite H1, Z.ltb_irrefl, (proj2 (Z.eqb_neq _ _) H2).
Qed.

Lemma w_test_put s i n vbuf : 0 <= p_wpos s - p_rpos s < PIPE_SIZE -> 0 <= i < n -> n < 2 ^ 31 ->
  writer_step s (Writer WTest i n vbuf) = (s, Writer WPut i n vbuf).
Proof.
  unfold PIPE_SIZE. intros H1 H2 H3. unfold writer_step, w_goto, u32, PIPE_SIZE. cbn [w_pc w_i w_n w_vbuf].
  rewrite !Z.mod_small by lia. by rewrite !(proj2 (Z.ltb_lt _ _)) by lia.
Qed.

(** [m] turns of the inner loop of [pipe_read]. *)
Lemma reader_turns n m : forall s i vbuf, 0 <= i -> i + Z.of_nat m <= n -> n < 2 ^ 31 ->
  0 <= p_rpos s -> p_rpos s + Z.of_nat m <= p_wpos s -> p_wpos s < 2 ^ 32 ->
  exists vbuf', reader_run (3 * m) (s, Reader RTest i n vbuf) =
      (set_rpos (p_rpos s + Z.of_nat m) s, Reader RTest (i + Z.of_nat m) n vbuf') /\
    (forall j, i <= j < i + Z.of_nat m -> vbuf' j = p_buf s ((p_rpos s + (j - i)) mod PIPE_SIZE)) /\
    (forall j, j < i -> vbuf' j = vbuf j).
Proof.
  induction m as [|m IH]; intros s i vbuf Hi Hn Hn' Hr Hw Hw'.
  - exists vbuf. rewrite !Z.add_0_r. split_and!; [by destruct s|intros j Hj; lia|done].
  - replace (3 * S m)%nat with (3 + 3 * m)%nat by lia. rewrite reader_run_add.
    assert (reader_run 3 (s, Reader RTest i n vbuf) = (set_rpos (p_rpos s + 1) s,
      Reader RTest (i + 1) n (<[i := p_buf s (p_rpos s mod PIPE_SIZE)]> vbuf))) as ->.
    { change (reader_run 3 ?c) with (let c1 := reader_step c.1 c.2 in let c2 := reader_step c1.1 c1.2 in
        reader_step c2.1 c2.2). cbn [fst snd]. rewrite r_test_get by lia. cbn [fst snd].
      unfold reader_step. cbn [r_pc r_i r_n r_vbuf fst snd]. unfold u32. rewrite !Z.mod_small by lia. done. }
    destruct (IH (set_rpos (p_rpos s + 1) s) (i + 1) (<[i := p_buf s (p_rpos s mod PIPE_SIZE)]> vbuf))
      as (vbuf' & E & H1 & H2); cbn [set_rpos p_rpos p_wpos] in *; try lia.
    exists vbuf'. rewrite E. cbn [set_rpos p_rpos p_wpos p_buf rfd_refs wfd_refs pipe_refs reader_runs writer_runs] in *.
    split_and!.
    + replace (p_rpos s + 1 + Z.of_nat m) with (p_rpos s + Z.of_nat (S m)) by lia.
      by replace (i + 1 + Z.of_nat m) with (i + Z.of_nat (S m)) by lia.
    + intros j Hj. destruct (Z.eq_dec j i) as [->|Hne].
      * rewrite H2, fn_lookup_insert by lia. by rewrite Z.sub_diag, Z.add_0_r.
      * rewrite H1 by lia. do 2 f_equal. lia.
    + intros j Hj. rewrite H2, fn_lookup_insert_ne by lia. done.
Qed.

(** [m] turns of the inner loop of [pipe_write]. *)
Lemma writer_turns n m : forall s i vbuf, 0 <= i -> i + Z.of_nat m <= n -> n < 2 ^ 31 ->
  0 <= p_rpos s <= p_wpos s -> p_wpos s + Z.of_nat m <= p_rpos s + PIPE_SIZE -> p_wpos s + Z.of_nat m < 2 ^ 32 ->
  exists buf', writer_run (3 * m) (s, Writer WTest i n vbuf) =
      (set_wpos (p_wpos s + Z.of_nat m) (set_buf buf' s), Writer WTest (i + Z.of_nat m) n vbuf) /\
    forall j, 0 <= j < Z.of_nat m -> buf' ((p_wpos s + j) mod PIPE_SIZE) = vbuf (i + j).
Proof.
  unfold PIPE_SIZE. induction m as [|m IH] using nat_ind; intros s i vbuf Hi Hn Hn' Hr Hw Hw'.
  - exists (p_buf s). rewrite !Z.add_0_r. split; [by destruct s|]. intros j Hj. lia.
  - replace (3 * S m)%nat with (3 * m + 3)%nat by lia. rewrite writer_run_add.
    destruct (IH s i vbuf) as (buf' & E & H1); try lia. rewrite E. clear E IH.
    set (k := Z.of_nat m) in *. replace (Z.of_nat (S m)) with (k + 1) in * by lia.
    exists (<[(p_wpos s + k) mod 32 := vbuf (i + k)]> buf'). split.
    + change (writer_run 3 ?c) with (let c1 := writer_step c.1 c.2 in let c2 := writer_step c1.1 c1.2 in
        writer_step c2.1 c2.2). cbn [fst snd].
      rewrite w_test_put by (cbn [set_wpos set_buf p_wpos p_rpos]; unfold PIPE_SIZE; lia). cbn [fst snd].
      unfold writer_step, w_goto. cbn [w_pc w_i w_n w_vbuf fst snd]. rewrite i32_small by lia.
      unfold set_buf, set_wpos. cbn [p_rpos p_wpos p_buf rfd_refs wfd_refs pipe_refs reader_runs writer_runs].
      unfold u32. rewrite (Z.mod_small (p_wpos s + k + 1)) by lia. rewrite !Z.add_assoc. done.
    + intros j Hj. destruct (Z.eq_dec j k) as [->|Hne].
      * by rewrite fn_lookup_insert.
      * rewrite fn_lookup_insert_ne by (Z.div_mod_to_equations; lia). apply H1. lia.
Qed.

(** A call that finds bytes, or room, runs to its end without the other side. *)
Lemma read_returns s n vbuf : 0 <= p_rpos s < p_wpos s -> p_wpos s <= p_rpos s + PIPE_SIZE -> p_wpos s < 2 ^ 32 ->
  0 < n < 2 ^ 31 -> let m := Z.min n (p_wpos s - p_rpos s) in
  exists k vbuf', (k <= 100)%nat /\
    reader_run k (s, Reader RTop 0 n vbuf) = (set_rpos (p_rpos s + m) s, Reader (RRet m) m n vbuf') /\
    forall j, 0 <= j < m -> vbuf' j = p_buf s ((p_rpos s + j) mod PIPE_SIZE).
Proof.
  intros Hr Hw Hw' Hn m. unfold PIPE_SIZE in *. assert (0 < m <= 32 /\ m <= n) as Hm by lia.
  destruct (reader_turns n (Z.to_nat m) s 0 vbuf) as (vbuf' & E & Hb & _); try lia.
  rewrite !Z2Nat.id, Z.add_0_l in * by lia.
  set (s' := set_rpos (p_rpos s + m) s) in *.
  assert (reader_run 1 (s, Reader RTop 0 n vbuf) = (s, Reader RTest 0 n vbuf)) as E1.
  { change (reader_run 1 ?c) with (reader_step c.1 c.2). unfold reader_step, r_goto. cbn [fst snd r_pc r_i r_n r_vbuf].
    by rewrite (proj2 (Z.ltb_lt _ _)) by lia. }
  assert (forall j, 0 <= j < m -> vbuf' j = p_buf s ((p_rpos s + j) mod 32)) as Hb'.
  { intros j Hj. rewrite Hb by lia. unfold PIPE_SIZE. do 2 f_equal. lia. }
  assert (i32 m = m) as Hi by (apply i32_small; lia).
  destruct (Z.eq_dec m n) as [Hmn|Hmn].
  - exists (1 + (3 * Z.to_nat m + 1))%nat, vbuf'. split_and!; [lia| |done].
    rewrite !reader_run_add, E1, E. change (reader_run 1 ?c) with (reader_step c.1 c.2). unfold reader_step, r_goto. cbn [fst snd r_pc r_i r_n r_vbuf].
    rewrite (proj2 (Z.ltb_ge m n)), andb_false_r, (proj2 (Z.eqb_eq m n)), Hi by lia. done.
  - exists (1 + (3 * Z.to_nat m + 2))%nat, vbuf'. split_and!; [lia| |done].
    rewrite !reader_run_add, E1, E. assert (p_rpos s' = p_wpos s') as Hs' by (unfold s'; simpl; lia).
    change (reader_run 2 ?c) with (let c1 := reader_step c.1 c.2 in reader_step c1.1 c1.2). cbn [fst snd].
    rewrite r_test_wait by (done || lia). cbn [fst snd].
    unfold reader_step, r_goto. cbn [r_pc r_i r_n r_vbuf fst snd].
    rewrite (proj2 (Z.eqb_eq _ _) Hs'), (proj2 (Z.leb_le 1 m)), Hi by lia. done.
Qed.

Lemma write_returns s n vbuf : 0 <= p_rpos s <= p_wpos s -> p_wpos s + n <= p_rpos s + PIPE_SIZE -> p_wpos s + n < 2 ^ 32 ->
  0 < n ->
  exists k buf', (k <= 98)%nat /\
    writer_run k (s, Writer WTop 0 n vbuf) = (set_wpos (p_wpos s + n) (set_buf buf' s), Writer (WRet n) n n vbuf) /\
    forall j, 0 <= j < n -> buf' ((p_wpos s + j) mod PIPE_SIZE) = vbuf j.
Proof.
  unfold PIPE_SIZE. intros Hr Hw Hw' Hn.
  destruct (writer_turns n (Z.to_nat n) s 0 vbuf) as (buf' & E & Hb); unfold PIPE_SIZE; try lia.
  rewrite !Z2Nat.id, Z.add_0_l in * by lia.
  exists (1 + (3 * Z.to_nat n + 1))%nat, buf'. split_and!; [lia| |intros j Hj; by apply Hb].
  assert (writer_run 1 (s, Writer WTop 0 n vbuf) = (s, Writer WTest 0 n vbuf)) as E1.
  { change (writer_run 1 ?c) with (writer_step c.1 c.2). unfold writer_step, w_goto, u32. cbn [fst snd w_pc w_i w_n w_vbuf].
    by rewrite Z.mod_0_l, (proj2 (Z.ltb_lt _ _)) by lia. }
  rewrite !writer_run_add, E1, E. change (writer_run 1 ?c) with (writer_step c.1 c.2). unfold writer_step, w_goto, u32. cbn [fst snd w_pc w_i w_n w_vbuf].
  rewrite (Z.mod_small n) by lia. rewrite (proj2 (Z.ltb_ge n n)), andb_false_r, Z.eqb_refl by lia. done.
Qed.

Lemma window_list (l : list Z) (b : Z -> Z) i : 0 <= i <= len l ->
  (forall j, 0 <= j < i -> b j = l !!! (len l - i + j)) -> exists g, l = g ++ map b (seqZ 0 i).
Proof.
  intros Hi Hb. exists (take (Z.to_nat (len l - i)) l).
  rewrite <- (take_drop (Z.to_nat (len l - i)) l) at 1. f_equal.
  apply (nth_ext _ _ 0 0).
  - rewrite length_drop, length_map, length_seqZ. lia.
  - intros k Hk. rewrite length_drop in Hk.
    change (map b (seqZ 0 i)) with (b <$> seqZ 0 i).
    rewrite (nth_lookup (b <$> _)), list_lookup_fmap, lookup_seqZ_lt by lia. cbn.
    rewrite nth_lookup, lookup_drop, Hb, nth_lookup by lia. do 2 f_equal. lia.
Qed.

(** ** The properties *)

(** C26: the pipe is a bounded queue.  However the accesses of the two
    processes interleave, and whoever else opens or closes the pipe meanwhile,
    every access puts one byte into the queue, takes the first one out, or
    leaves it; the queue holds at most 32 bytes, nothing is lost, repeated or
    reordered, and a call that returns [r] has transferred the first [r] bytes
    of its buffer.  This holds for the first 2^32 bytes. *)
Theorem pipe_refines_queue s : reachable s -> len (sys_put s) < 2 ^ 32 ->
  sys_put s = sys_got s ++ q_bytes (abstraction s) /\ (length (q_bytes (abstraction s)) <= 32)%nat /\
  (forall s', step s s' -> queue_step (abstraction s) (abstraction s')) /\
  (forall r, r_pc (rd s) = RRet r -> 0 <= r <= r_n (rd s) /\
     exists g, sys_got s = g ++ map (r_vbuf (rd s)) (seqZ 0 r)) /\
  (forall r, w_pc (wr s) = WRet r -> 0 <= r <= w_n (wr s) /\
     exists p, sys_put s = p ++ map (w_vbuf (wr s)) (seqZ 0 r)).
Proof.
  intros Hr Hlen. pose proof (reachable_inv s Hr Hlen) as I. destruct (inv_queue s I) as [Hq Hl].
  split_and!; [done|done|intros s' Hs; by apply step_simulates| |].
  - intros r E. pose proof (i_read _ I) as (H0 & H1 & _ & H2 & H3). unfold r_pending in *. rewrite E, Z.add_0_r in *.
    rewrite (i_rret _ I r E). split; [lia|]. apply window_list; [lia|done].
  - intros r E. pose proof (i_write _ I) as (H0 & H1 & _ & H2 & H3). unfold w_pending in *. rewrite E, Z.add_0_r in *.
    rewrite (i_wret _ I r E). split; [lia|]. apply window_list; [lia|done].
Qed.

(** A read that finds bytes in the pipe, and a write for which there is
    room, return after a bounded number of their own steps, whatever the other
    process does not do: the read with as many bytes as asked for, or as there
    are, the write with all of them. *)
Theorem pipe_calls_return s n vbuf : 0 <= p_rpos s <= p_wpos s -> p_wpos s <= p_rpos s + PIPE_SIZE ->
  0 < n -> p_wpos s + n < 2 ^ 31 ->
  (p_rpos s < p_wpos s -> let m := Z.min n (p_wpos s - p_rpos s) in
    exists k vbuf', (k <= 100)%nat /\
      reader_run k (s, Reader RTop 0 n vbuf) = (set_rpos (p_rpos s + m) s, Reader (RRet m) m n vbuf') /\
      forall j, 0 <= j < m -> vbuf' j = p_buf s ((p_rpos s + j) mod PIPE_SIZE)) /\
  (p_wpos s + n <= p_rpos s + PIPE_SIZE ->
    exists k buf', (k <= 100)%nat /\
      writer_run k (s, Writer WTop 0 n vbuf) = (set_wpos (p_wpos s + n) (set_buf buf' s), Writer (WRet n) n n vbuf) /\
      forall j, 0 <= j < n -> buf' ((p_wpos s + j) mod PIPE_SIZE) = vbuf j).
Proof.
  intros Hr Hw Hn Hb. split.
  - intros Hlt. apply read_returns; lia.
  - intros Hroom. destruct (write_returns s n vbuf) as (k & buf' & Hk & H); try lia.
    exists k, buf'. split; [lia|exact H].
Qed.

(** ** Demonstrations *)

Definition do_reader (s : sys) : sys :=
  Sys (reader_step (sh s) (rd s)).1 (reader_step (sh s) (rd s)).2 (wr s) (sys_put s)
    (match r_pc (rd s) with RGet => sys_got s ++ [p_buf (sh s) (p_rpos (sh s) mod PIPE_SIZE)] | _ => sys_got s end).
Definition do_writer (s : sys) : sys :=
  Sys (writer_step (sh s) (wr s)).1 (rd s) (writer_step (sh s) (wr s)).2
    (match w_pc (wr s) with WPut => sys_put s ++ [w_vbuf (wr s) (w_i (wr s))] | _ => sys_put s end) (sys_got s).

(** A run: [true] for a step of the reader. *)
Definition do_steps (l : list bool) (s : sys) : sys := fold_left (fun s b => if (b : bool) then do_reader s else do_writer s) l s.

Lemma do_steps_ok l : forall s, rtc step s (do_steps l s).
Proof.
  induction l as [|b l IH]; intros s; [constructor|]. simpl. eapply rtc_l; [|apply IH].
  destruct b; [apply step_reader|apply step_writer].
Qed.

(** A read of five bytes and a write of two, started. *)
Definition sys1 : sys := Sys pipe0 (Reader RTop 0 5 (fun _ => 0)) (Writer WTop 0 2 (fun j => 7 + j)) [] [].
Lemma sys1_reachable : reachable sys1.
Proof.
  eapply rtc_l; [apply (step_read _ 0 5 (fun _ => 0)); [done|lia]|].
  eapply rtc_l; [apply (step_write _ 0 2 (fun j => 7 + j)); [done|lia]|]. constructor.
Qed.

Definition demo_run : list bool := repeat true 2 ++ repeat false 8 ++ repeat true 11.
Definition sys2 : sys := do_steps demo_run sys1.
Lemma sys2_reachable : reachable sys2.
Proof. unfold reachable. etransitivity; [exact sys1_reachable|apply do_steps_ok]. Qed.

Lemma pipe_refines_queue_witness : r_pc (rd sys2) = RRet 2 /\ exists g, sys_got sys2 = g ++ [7; 8].
Proof.
  split; [vm_compute; reflexivity|].
  destruct (pipe_refines_queue sys2 sys2_reachable) as (_ & _ & _ & H & _).
  - vm_compute. reflexivity.
  - destruct (H 2) as (_ & g & Hg); [vm_compute; reflexivity|]. exists g. rewrite Hg. f_equal.
Defined.

Lemma pipe_calls_return_witness :
  exists k vbuf', (k <= 100)%nat /\
    reader_run k (set_wpos 2 pipe0, Reader RTop 0 5 (fun _ => 9)) =
      (set_rpos 2 (set_wpos 2 pipe0), Reader (RRet 2) 2 5 vbuf') /\
    forall j, 0 <= j < 2 -> vbuf' j = 0.
Proof.
  destruct (pipe_calls_return (set_wpos 2 pipe0) 5 (fun _ => 9)) as [H _]; try (cbn; unfold PIPE_SIZE; lia).
  apply H. cbn. lia.
Defined.

(** The end of a pipe that is not empty: the reader finds it empty, the writer
    puts a byte in and closes it, and the reader, seeing it closed, returns 0. *)
Definition race1 : sys := do_steps (repeat true 3) (Sys pipe0 (Reader RTop 0 5 (fun _ => 0)) (Writer WTop 0 1 (fun _ => 7)) [] []).
Definition race2 : sys := do_steps (repeat false 4) race1.
Definition race3 : sys :=
  do_steps (repeat true 4) (Sys (set_refs 1 0 1 (sh race2)) (rd race2) (wr race2) (sys_put race2) (sys_got race2)).
Lemma read_eof_race : r_pc (rd race3) = RRet 0 /\ q_bytes (abstraction race3) = [7].
Proof. vm_compute. split; reflexivity. Qed.

(** A process that was scheduled anew since it read [env_runs] never leaves
    the loop of [_pipe_is_closed]. *)
Lemma closed_check_livelock s before i n vbuf k : reader_runs s <> before ->
  exists c, reader_run k (s, Reader (RClosed (CFd before)) i n vbuf) = (s, Reader (RClosed c) i n vbuf) /\
    c <> CRuns0 /\ match c with CFd b | CPipe b _ | CRuns b _ _ => b = before | CRuns0 => False end.
Proof.
  intros Hne. induction k as [|k (c & E & Hc & Hb)]; [by exists (CFd before)|].
  replace (S k) with (k + 1)%nat by lia. rewrite reader_run_add, E.
  change (reader_run 1 ?c) with (reader_step c.1 c.2). unfold reader_step, r_goto. cbn [fst snd r_pc r_i r_n r_vbuf].
  destruct c as [|b|b f|b f p]; [done|..]; subst b; cbn [check_step].
  - by eexists.
  - by eexists.
  - destruct (Z.eqb_spec (reader_runs s) before); [done|]. by eexists.
Qed.
