(* ===== verification/FsServ.v ===== *)
(** fs/serv.c: the file server's open-file table and its requests.

    The server's own state is [fs]; the page at [o_ff] of a table entry is
    shared with the client that has the file open.  [shares] counts the
    mappings other processes have of such a page, so that [pageref] of it, when
    the server maps it, is one more; a client that closes its descriptor takes
    one away ([client_unmap]).  [sent] records the replies, latest last;
    a reply with a page adds a mapping.

    The argument page of a request is given by the fields the handlers read. *)
From S2P Require Import Prelude Mem Mmu Proc FsBlock FsFile.

Definition MAXOPEN : Z := 1024.
Definition FILEVA : Z := 0x60000000.
Definition REQVA : Z := 0x0ffff000.
Definition O_CREAT : Z := 0x0100.
Definition O_TRUNC : Z := 0x0200.
(** The device number of files, ['f']. *)
Definition DEV_FILE : Z := 102.

Record Open := MkOpen { o_file : Z; o_fileid : Z; o_mode : Z; o_ff : Z }.

(** [ipc_send(whom, val, srcva, perm)] *)
Record reply := Reply { to_env : Z; value : Z; page : Z; perm : Z }.

Record serv := Serv {
  sv_fs : fs;
  opentab : Z -> Open;
  shares : Z -> Z;
  sent : list reply
}.

Definition set_fs x s := Serv x (opentab s) (shares s) (sent s).
Definition set_opentab x s := Serv (sv_fs s) x (shares s) (sent s).
Definition set_shares x s := Serv (sv_fs s) (opentab s) x (sent s).
Definition set_sent x s := Serv (sv_fs s) (opentab s) (shares s) x.

#[export] Program Instance serv_proc : HasProc serv :=
  {| proc_of s := f_proc (sv_fs s); with_proc p s := set_fs (set_f_proc p (sv_fs s)) s |}.
Next Obligation. done. Qed.
Next Obligation. done. Qed.
Next Obligation. by destruct s as [[]]. Qed.

(** An operation of the file system proper. *)
Definition in_fs {A} (m : M fs A) : M serv A := zoom sv_fs set_fs m.

Definition pageref (va : Z) : M serv Z :=
  get (fun s => if is_mapped va s then 1 + shares s (upage va) else 0).

(** The receiver maps the page of [srcva], when there is one. *)
Definition ipc_send (whom val srcva pm : Z) : M serv unit :=
  modify (fun s =>
    set_sent (sent s ++ [Reply whom val srcva pm])
      (if srcva =? 0 then s else set_shares (<[upage srcva := shares s (upage srcva) + 1]> (shares s)) s)).

(** A client gives up a mapping of the page at [va]. *)
Definition client_unmap (va : Z) (s : serv) : serv :=
  set_shares (<[upage va := shares s (upage va) - 1]> (shares s)) s.

(** A fresh page is the server's own. *)
Definition mem_alloc (va : Z) : M serv Z :=
  r ← syscall_mem_alloc va;
  (if r =? 0 then modify (fun s => set_shares (<[upage va := 0]> (shares s)) s) else mret tt) ;;
  mret r.

(** [memset(va, 0, BLOCK_SIZE)] of one page *)
Definition clear_page (va : Z) : M serv unit :=
  touch va ;; upd_proc (fun p => put_mem (fill (u_mem p) va BLOCK_SIZE 0) va p).

Definition set_o_file (i f : Z) : M serv unit :=
  modify (fun s => let o := opentab s i in
    set_opentab (<[i := MkOpen f (o_fileid o) (o_mode o) (o_ff o)]> (opentab s)) s).
Definition set_o_mode (i m : Z) : M serv unit :=
  modify (fun s => let o := opentab s i in
    set_opentab (<[i := MkOpen (o_file o) (o_fileid o) m (o_ff o)]> (opentab s)) s).

Definition serve_init : M serv unit :=
  mfor (Z.to_nat MAXOPEN) 0 (fun i =>
    modify (fun s => let o := opentab s i in
      set_opentab (<[i := MkOpen (o_file o) i (o_mode o) (FILEVA + i * BLOCK_SIZE)]> (opentab s)) s)).

(** [case 1] of the search: the entry is taken. *)
Definition take_entry (i ff : Z) : M serv (option (Z * Z)) :=
  clear_page ff ;;
  id ← get (fun s => o_fileid (opentab s i));
  mret (Some (id, i)).

Definition try_entry (i : Z) : M serv (option (Z * Z)) :=
  ff ← get (fun s => o_ff (opentab s i));
  n ← pageref ff;
  if n =? 0 then
    r ← mem_alloc ff;
    if r <? 0 then mret (Some (r, 0)) else take_entry i ff
  else if n =? 1 then take_entry i ff
  else mret None.

(** The result code and the entry taken. *)
Definition open_alloc : M serv (Z * Z) :=
  r ← mfor_ret (Z.to_nat MAXOPEN) 0 try_entry;
  mret (default (- E_MAX_OPEN, 0) r).

Definition open_lookup (envid fileid : Z) : M serv (Z * Z) :=
  if MAXOPEN <=? fileid then mret (- E_INVAL, 0)
  else
    ff ← get (fun s => o_ff (opentab s fileid));
    n ← pageref ff;
    if n <=? 1 then mret (- E_INVAL, 0) else mret (0, fileid).

(** The permission of the pages sent: [PTE_V | PTE_RW | PTE_USER | PTE_LIBRARY]. *)
Definition PERM_SHARED : Z := Z.lor (Z.lor (Z.lor PTE_V PTE_RW) PTE_USER) PTE_LIBRARY.

(** A result code as the unsigned value of a message. *)
Definition code (r : Z) : Z := u64 r.

Definition serve_open (envid : Z) (req_path : list Z) (req_omode : Z) : M serv unit :=
  '(r, o) ← open_alloc;
  if r <? 0 then ipc_send envid (code r) 0 0
  else
    r ← (if negb (Z.land req_omode O_CREAT =? 0) then
           '(r, _) ← in_fs (file_create req_path);
           mret (if (r <? 0) && negb (r =? - E_FILE_EXISTS) then r else 0)
         else mret 0);
    if r <? 0 then ipc_send envid (code r) 0 0
    else
      '(r, f) ← in_fs (file_open req_path);
      if r <? 0 then ipc_send envid (code r) 0 0
      else
        set_o_file o f ;;
        (if negb (Z.land req_omode O_TRUNC =? 0) then
           r ← in_fs (file_set_size f 0);
           if r <? 0 then ipc_send envid (code r) 0 0 else mret tt
         else mret tt) ;;
        ff ← get (fun s => o_ff (opentab s o));
        ucopy (ff + 16) f FILE_STRUCT_SIZE ;;
        id ← get (fun s => o_fileid (opentab s o));
        ustore 4 (ff + 12) id ;;
        set_o_mode o req_omode ;;
        ustore 4 (ff + 8) req_omode ;;
        ustore 4 ff DEV_FILE ;;
        ipc_send envid 0 ff PERM_SHARED.

Definition serve_map (envid req_fileid req_offset : Z) : M serv unit :=
  '(r, o) ← open_lookup envid (u32 req_fileid);
  if r <? 0 then ipc_send envid (code r) 0 0
  else
    f ← get (fun s => o_file (opentab s o));
    '(r, blk) ← in_fs (file_get_block f (req_offset / BLOCK_SIZE));
    if r <? 0 then ipc_send envid (code r) 0 0
    else ipc_send envid 0 blk PERM_SHARED.

Definition serve_set_size (envid req_fileid req_size : Z) : M serv unit :=
  '(r, o) ← open_lookup envid (u32 req_fileid);
  if r <? 0 then ipc_send envid (code r) 0 0
  else
    f ← get (fun s => o_file (opentab s o));
    r ← in_fs (file_set_size f req_size);
    if r <? 0 then ipc_send envid (code r) 0 0 else ipc_send envid 0 0 0.

Definition serve_close (envid req_fileid : Z) : M serv unit :=
  '(r, o) ← open_lookup envid (u32 req_fileid);
  if r <? 0 then ipc_send envid (code r) 0 0
  else
    f ← get (fun s => o_file (opentab s o));
    in_fs (file_close f) ;;
    ipc_send envid 0 0 0.

Definition serve_remove (envid : Z) (req_path : list Z) : M serv unit :=
  r ← in_fs (file_remove req_path);
  ipc_send envid (code r) 0 0.

Definition serve_dirty (envid req_fileid req_offset : Z) : M serv unit :=
  '(r, o) ← open_lookup envid (u32 req_fileid);
  if r <? 0 then ipc_send envid (code r) 0 0
  else
    f ← get (fun s => o_file (opentab s o));
    r ← in_fs (file_dirty f req_offset);
    if r <? 0 then ipc_send envid (code r) 0 0 else ipc_send envid 0 0 0.

Definition serve_sync (envid : Z) : M serv unit :=
  in_fs fs_sync ;;
  ipc_send envid 0 0 0.

(** The fields of the argument page under the structures of fsreq.h. *)
Record reqpage := ReqPage { rq_path : list Z; rq_omode : Z; rq_fileid : Z; rq_word : Z }.

Definition FSREQ_OPEN : Z := 0.
Definition FSREQ_MAP : Z := 1.
Definition FSREQ_SET_SIZE : Z := 2.
Definition FSREQ_CLOSE : Z := 3.
Definition FSREQ_DIRTY : Z := 4.
Definition FSREQ_REMOVE : Z := 5.
Definition FSREQ_SYNC : Z := 6.
Definition MAX_FSREQNO : Z := 7.

(** [serve_table[req](whom, REQVA)] *)
Definition serve_table (req whom : Z) (rq : reqpage) : M serv unit :=
  if req =? FSREQ_OPEN then serve_open whom (rq_path rq) (rq_omode rq)
  else if req =? FSREQ_MAP then serve_map whom (rq_fileid rq) (rq_word rq)
  else if req =? FSREQ_SET_SIZE then serve_set_size whom (rq_fileid rq) (rq_word rq)
  else if req =? FSREQ_CLOSE then serve_close whom (rq_fileid rq)
  else if req =? FSREQ_DIRTY then serve_dirty whom (rq_fileid rq) (rq_word rq)
  else if req =? FSREQ_REMOVE then serve_remove whom (rq_path rq)
  else serve_sync whom.

(** What [ipc_recv] delivered: an error, or a message with the permission of
    its page, 0 when it has none. *)
Inductive message :=
  | RecvError (r : Z)
  | Recv (whom req pm : Z) (rq : reqpage).

(** One turn of the loop of [serve]. *)
Definition serve_one (m : message) : M serv unit :=
  match m with
  | RecvError _ => mret tt
  | Recv whom req pm rq =>
      if Z.land pm PTE_V =? 0 then mret tt
      else if MAX_FSREQNO <=? req then r ← syscall_mem_unmap REQVA; panic_on r
      else
        serve_table req whom rq ;;
        r ← syscall_mem_unmap REQVA; panic_on r
  end.

Fixpoint serve (l : list message) : M serv unit :=
  match l with
  | [] => mret tt
  | m :: l => serve_one m ;; serve l
  end.

Definition server_main (l : list message) : M serv unit :=
  serve_init ;; in_fs fs_init ;; serve l.

(** ** The file system gives control back *)

Ltac calm_unfold := unfold block_is_mapped, block_is_dirty, va_is_mapped, va_is_dirty, syscall_is_dirty, s_nblocks,
  bitmap_word, put_bitmap_word, f_size, f_type, f_indirect, f_dir, put_f_size, put_f_indirect, put_f_dir, s_root, assert, panic_on.

Lemma calm_sector_write a b n : calm (sector_write a b n).
Proof. unfold sector_write, virtio_write_sector. calm. Qed.
Lemma calm_sector_read a b n : calm (sector_read a b n).
Proof. unfold sector_read, virtio_read_sector, upd_proc. calm. Qed.
#[export] Hint Resolve calm_sector_write calm_sector_read : calm.
Lemma calm_write_block b : calm (write_block b).
Proof. unfold write_block. calm_unfold. calm. Qed.
Lemma calm_block_is_free b : calm (block_is_free b).
Proof. unfold block_is_free. calm_unfold. calm. Qed.
#[export] Hint Resolve calm_write_block calm_block_is_free : calm.
Lemma calm_read_block b : calm (read_block b).
Proof. unfold read_block. calm_unfold. calm. Qed.
Lemma calm_dirty_block b : calm (dirty_block b).
Proof. unfold dirty_block. calm_unfold. calm. Qed.
Lemma calm_unmap_block b : calm (unmap_block b).
Proof. unfold unmap_block. calm_unfold. calm. Qed.
Lemma calm_free_block b : calm (free_block b).
Proof. unfold free_block. calm_unfold. calm. Qed.
Lemma calm_fs_sync : calm fs_sync.
Proof. unfold fs_sync. calm_unfold. calm. Qed.
#[export] Hint Resolve calm_read_block calm_dirty_block calm_unmap_block calm_free_block calm_fs_sync : calm.
Lemma calm_alloc_block : calm alloc_block.
Proof. unfold alloc_block, alloc_block_num, alloc_try, map_block. calm_unfold. calm. Qed.
#[export] Hint Resolve calm_alloc_block : calm.
Lemma calm_file_block_walk f j a : calm (file_block_walk f j a).
Proof. unfold file_block_walk, make_indirect. calm_unfold. calm. Qed.
#[export] Hint Resolve calm_file_block_walk : calm.
Lemma calm_file_map_block f j a : calm (file_map_block f j a).
Proof. unfold file_map_block. calm_unfold. calm. Qed.
#[export] Hint Resolve calm_file_map_block : calm.
Lemma calm_file_get_block f j : calm (file_get_block f j).
Proof. unfold file_get_block. calm. Qed.
Lemma calm_file_clear_block f j : calm (file_clear_block f j).
Proof. unfold file_clear_block. calm_unfold. calm. Qed.
Lemma calm_file_flush f : calm (file_flush f).
Proof. unfold file_flush. calm_unfold. calm. Qed.
#[export] Hint Resolve calm_file_get_block calm_file_clear_block calm_file_flush : calm.
Lemma calm_name_eq name : forall a, calm (name_eq a name).
Proof. induction name as [|c name IH]; intros a; cbn [name_eq]; calm. Qed.
#[export] Hint Resolve calm_name_eq : calm.
Lemma calm_dir_lookup d name : calm (dir_lookup d name).
Proof. unfold dir_lookup, dir_scan. calm_unfold. calm. Qed.
Lemma calm_dir_alloc_file d : calm (dir_alloc_file d).
Proof. unfold dir_alloc_file. calm_unfold. calm. Qed.
#[export] Hint Resolve calm_dir_lookup calm_dir_alloc_file : calm.
Lemma calm_walk_loop fuel : forall path d f, calm (walk_loop fuel path d f).
Proof. induction fuel as [|fuel IH]; intros [|c path] d f; cbn [walk_loop]; calm_unfold; calm. Qed.
#[export] Hint Resolve calm_walk_loop : calm.
Lemma calm_walk_path path : calm (walk_path path).
Proof. unfold walk_path. calm_unfold. calm. Qed.
#[export] Hint Resolve calm_walk_path : calm.
Lemma calm_put_str l : forall a, calm (put_str a l).
Proof. induction l as [|c l IH]; intros a; cbn [put_str]; calm. Qed.
#[export] Hint Resolve calm_put_str : calm.
Lemma calm_file_open path : calm (file_open path).
Proof. unfold file_open. calm. Qed.
Lemma calm_file_create path : calm (file_create path).
Proof. unfold file_create. calm_unfold. calm. Qed.
Lemma calm_file_truncate f n : calm (file_truncate f n).
Proof. unfold file_truncate, clear_blocks. calm_unfold. calm. Qed.
#[export] Hint Resolve calm_file_open calm_file_create calm_file_truncate : calm.
Lemma calm_file_set_size f n : calm (file_set_size f n).
Proof. unfold file_set_size, flush_dir. calm_unfold. calm. Qed.
Lemma calm_file_close f : calm (file_close f).
Proof. unfold file_close. calm_unfold. calm. Qed.
Lemma calm_file_remove path : calm (file_remove path).
Proof. unfold file_remove, flush_dir. calm_unfold. calm. Qed.
Lemma calm_file_dirty f o : calm (file_dirty f o).
Proof. unfold file_dirty. calm. Qed.
#[export] Hint Resolve calm_file_set_size calm_file_close calm_file_remove calm_file_dirty : calm.

(** ** The open-file table *)

Definition ff_va (i : Z) : Z := FILEVA + i * BLOCK_SIZE.

(** What [pageref] says of an entry's page. *)
Definition refs (s : serv) (i : Z) : Z := if is_mapped (ff_va i) s then 1 + shares s (upage (ff_va i)) else 0.

(** An entry whose page a client shares is in use. *)
Definition in_use (s : serv) (i : Z) : bool := 1 <? refs s i.

(** The table after [serve_init]. *)
Record table_ok (s : serv) : Prop := {
  tab_id : forall i, 0 <= i < MAXOPEN -> o_fileid (opentab s i) = i;
  tab_ff : forall i, 0 <= i < MAXOPEN -> o_ff (opentab s i) = ff_va i;
  tab_shares : forall p, 0 <= shares s p
}.

Lemma serve_init_ok s : (forall p, 0 <= shares s p) ->
  exists s', serve_init s = Ret tt s' /\ table_ok s' /\ sv_fs s' = sv_fs s /\ shares s' = shares s /\ sent s' = sent s.
Proof.
  intros Hs. unfold serve_init.
  destruct (mfor_inv (fun k s' => (forall i, 0 <= i < k -> o_fileid (opentab s' i) = i /\ o_ff (opentab s' i) = ff_va i) /\
    sv_fs s' = sv_fs s /\ shares s' = shares s /\ sent s' = sent s)
    (fun i => modify (fun s => let o := opentab s i in
      set_opentab (<[i := MkOpen (o_file o) i (o_mode o) (FILEVA + i * BLOCK_SIZE)]> (opentab s)) s))
    (Z.to_nat MAXOPEN) 0 s) as (s' & E & Ht & H1 & H2 & H3).
  - split_and!; try done. intros i Hi. lia.
  - intros k s1 Hk (Ht & H1 & H2 & H3). eexists. split; [reflexivity|]. split_and!; try done.
    intros i Hi. simpl. destruct (Z.eq_dec i k) as [->|Hne].
    + by rewrite fn_lookup_insert.
    + rewrite fn_lookup_insert_ne by done. apply Ht. lia.
  - exists s'. split_and!; try done. split.
    + intros i Hi. apply Ht. exact Hi.
    + intros i Hi. apply Ht. exact Hi.
    + intros p. rewrite H2. apply Hs.
Qed.

Lemma ff_page i j : upage (ff_va i) = upage (ff_va j) -> i = j.
Proof.
  unfold upage, ff_va, FILEVA, BLOCK_SIZE, PAGE_SIZE. intros H.
  rewrite !Z.div_add in H by lia. lia.
Qed.

Lemma ff_legal i : 0 <= i < MAXOPEN -> uva_illegal (ff_va i) = false.
Proof.
  unfold MAXOPEN. intros Hi. unfold uva_illegal, ff_va, FILEVA, BLOCK_SIZE.
  destruct (Z.ltb_spec (0x60000000 + i * 4096) UTEMP) as [H|H]; [change UTEMP with 4186112 in H; lia|].
  destruct (Z.leb_spec UTOP (0x60000000 + i * 4096)) as [H'|H']; [change UTOP with 267361714176 in H'; lia|done].
Qed.

(** A page that belongs to the server and holds zeros. *)
Definition fresh_page (va : Z) (s : serv) : Prop :=
  is_mapped va s = true /\ forall o, 0 <= o < BLOCK_SIZE -> u_mem (proc_of s) (va + o) = 0.

(** Everything else of the state is as it was. *)
Record others_kept (i : Z) (s s' : serv) : Prop := {
  kept_tab : opentab s' = opentab s;
  kept_sent : sent s' = sent s;
  kept_shares : forall p, p <> upage (ff_va i) -> shares s' p = shares s p;
  kept_map : forall p, p <> upage (ff_va i) -> u_map (proc_of s') p = u_map (proc_of s) p;
  kept_mem : forall a, upage a <> upage (ff_va i) -> u_mem (proc_of s') a = u_mem (proc_of s) a;
  kept_counts : (forall p, 0 <= shares s p) -> forall p, 0 <= shares s' p;
  kept_disk : disk (sv_fs s') = disk (sv_fs s) /\ super (sv_fs s') = super (sv_fs s) /\ bitmap (sv_fs s') = bitmap (sv_fs s)
}.

Lemma fill_zero m a n o : 0 <= o < n -> fill m a n 0 (a + o) = 0.
Proof.
  intros Ho. unfold fill. destruct (Z.leb_spec a (a + o)); [|lia]. by destruct (Z.ltb_spec (a + o) (a + n)); [|lia].
Qed.

Lemma fill_outside m i n a : 0 <= n <= PAGE_SIZE -> upage a <> upage (ff_va i) -> fill m (ff_va i) n 0 a = m a.
Proof.
  intros Hn Ha. unfold fill. destruct (Z.leb_spec (ff_va i) a), (Z.ltb_spec a (ff_va i + n)); try done.
  destruct Ha. unfold upage, PAGE_SIZE, ff_va, FILEVA, BLOCK_SIZE in *. Z.div_mod_to_equations. lia.
Qed.

Lemma clear_page_ok i s : is_mapped (ff_va i) s = true ->
  exists s', clear_page (ff_va i) s = Ret tt s' /\ fresh_page (ff_va i) s' /\ others_kept i s s' /\
    shares s' = shares s /\ u_map (proc_of s') = u_map (proc_of s).
Proof.
  intros Hm. unfold clear_page. rewrite (bind_ret _ _ _ _ _ (touch_ok _ s Hm)).
  eexists. split; [reflexivity|]. split_and!; try done.
  - split; [exact Hm|]. intros o Ho. by apply fill_zero.
  - split; try done. intros a Ha. by apply fill_outside.
Qed.

Lemma pageref_ok i s : pageref (ff_va i) s = Ret (refs s i) s.
Proof. done. Qed.

Lemma take_entry_ok i s : table_ok s -> 0 <= i < MAXOPEN -> is_mapped (ff_va i) s = true ->
  exists s', take_entry i (ff_va i) s = Ret (Some (i, i)) s' /\ fresh_page (ff_va i) s' /\ others_kept i s s' /\
    shares s' = shares s.
Proof.
  intros Ht Hi Hm. destruct (clear_page_ok i s Hm) as (s' & E & Hf & Hk & Hs & _). exists s'.
  unfold take_entry. rewrite (bind_ret _ _ _ _ _ E), bind_get, (kept_tab _ _ _ Hk), (tab_id _ Ht) by done. done.
Qed.

Lemma others_kept_trans i s1 s2 s3 : others_kept i s1 s2 -> others_kept i s2 s3 -> others_kept i s1 s3.
Proof.
  intros [A1 A2 A3 A4 A5 A6 A7] [B1 B2 B3 B4 B5 B6 B7]. split; try congruence; auto.
  - intros p Hp. by rewrite B3, A3.
  - intros p Hp. by rewrite B4, A4.
  - intros a Ha. by rewrite B5, A5.
  - clear A6 B6. intuition congruence.
Qed.

Lemma mem_alloc_ok i s : table_ok s -> 0 <= i < MAXOPEN ->
  exists s', mem_alloc (ff_va i) s = Ret (if u_grants (proc_of s) 0 then 0 else - E_NO_MEM) s' /\ others_kept i s s' /\
    if u_grants (proc_of s) 0 then is_mapped (ff_va i) s' = true /\ shares s' = <[upage (ff_va i) := 0]> (shares s)
    else u_map (proc_of s') = u_map (proc_of s) /\ shares s' = shares s.
Proof.
  intros Ht Hi. unfold mem_alloc. pose proof (syscall_mem_alloc_ok (ff_va i) s (ff_legal i Hi)) as E. cbv zeta in E.
  destruct (u_grants (proc_of s) 0).
  - rewrite (bind_ret _ _ _ _ _ E). change (0 =? 0) with true. cbv iota. rewrite bind_modify.
    eexists. split; [reflexivity|]. split_and!.
    + split; try done.
      * intros p Hp. simpl. by rewrite fn_lookup_insert_ne.
      * intros p Hp. simpl. by rewrite fn_lookup_insert_ne.
      * intros a Ha. simpl. replace (upage (ff_va i) * PAGE_SIZE) with (ff_va i).
        -- by apply fill_outside.
        -- unfold upage, ff_va, FILEVA, BLOCK_SIZE, PAGE_SIZE. Z.div_mod_to_equations. lia.
      * intros H p. simpl. destruct (decide (p = upage (ff_va i))) as [->|Hne].
        -- by rewrite fn_lookup_insert.
        -- by rewrite fn_lookup_insert_ne.
    + unfold is_mapped. simpl. by rewrite fn_lookup_insert.
    + done.
  - rewrite (bind_ret _ _ _ _ _ E). change (- E_NO_MEM =? 0) with false. cbv iota. rewrite bind_mret. cbv beta.
    eexists. split; [reflexivity|]. by split_and!.
Qed.

(** One turn of the search, by the state of the entry. *)
Lemma try_entry_ok s i : table_ok s -> 0 <= i < MAXOPEN ->
  if in_use s i then try_entry i s = Ret None s
  else if is_mapped (ff_va i) s || u_grants (proc_of s) 0 then
    exists s', try_entry i s = Ret (Some (i, i)) s' /\ fresh_page (ff_va i) s' /\ refs s' i = 1 /\ others_kept i s s'
  else exists s', try_entry i s = Ret (Some (- E_NO_MEM, 0)) s' /\ refs s' i = 0 /\ others_kept i s s'.
Proof.
  intros Ht Hi. pose proof (tab_shares _ Ht (upage (ff_va i))) as H0.
  unfold try_entry. rewrite bind_get, (tab_ff _ Ht i Hi), (bind_ret _ _ _ _ _ (pageref_ok i s)).
  unfold in_use. destruct (is_mapped (ff_va i) s) eqn:Hm.
  - assert (refs s i = 1 + shares s (upage (ff_va i))) as -> by (unfold refs; by rewrite Hm). cbn [orb].
    destruct (Z.ltb_spec 1 (1 + shares s (upage (ff_va i)))).
    + destruct (Z.eqb_spec (1 + shares s (upage (ff_va i))) 0); [lia|].
      by destruct (Z.eqb_spec (1 + shares s (upage (ff_va i))) 1); [lia|].
    + destruct (Z.eqb_spec (1 + shares s (upage (ff_va i))) 0); [lia|].
      destruct (Z.eqb_spec (1 + shares s (upage (ff_va i))) 1); [|lia].
      destruct (take_entry_ok i s Ht Hi Hm) as (s' & E & Hf & Hk & Hs). exists s'. split_and!; try done.
      unfold refs. rewrite (proj1 Hf), Hs. lia.
  - assert (refs s i = 0) as -> by (unfold refs; by rewrite Hm). cbn [orb].
    change (0 =? 0) with true. change (1 <? 0) with false. cbv iota.
    destruct (mem_alloc_ok i s Ht Hi) as (s1 & E & Hk & H1). rewrite (bind_ret _ _ _ _ _ E).
    destruct (u_grants (proc_of s) 0).
    + destruct H1 as [Hm1 Hs1]. change (0 <? 0) with false. cbv iota.
      assert (table_ok s1) as Ht1.
      { split; rewrite ?(kept_tab _ _ _ Hk); try apply Ht. apply (kept_counts _ _ _ Hk), Ht. }
      destruct (take_entry_ok i s1 Ht1 Hi Hm1) as (s' & E' & Hf & Hk' & Hs). exists s'. split_and!; try done.
      * unfold refs. rewrite (proj1 Hf), Hs, Hs1, fn_lookup_insert. lia.
      * by eapply others_kept_trans.
    + destruct H1 as [Hm1 Hs1]. change (- E_NO_MEM <? 0) with true. cbv iota. exists s1. split_and!; try done.
      unfold refs, is_mapped. rewrite Hm1. unfold is_mapped in Hm. by rewrite Hm.
Qed.

(** ** One reply per request

    [U] are the entries in use when the request arrives. *)

Record kept (U : Z -> Prop) (s s' : serv) : Prop := {
  k_tab : forall i, U i -> opentab s' i = opentab s i;
  k_shares : forall i, U i -> shares s (upage (ff_va i)) <= shares s' (upage (ff_va i));
  k_ok : table_ok s -> table_ok s'
}.

#[export] Instance kept_preorder U : PreOrder (kept U).
Proof.
  split; [done|]. intros s1 s2 s3 [A1 A2 A3] [B1 B2 B3]. split; [intros i Hi..|auto]; [by rewrite B1, A1|].
  specialize (A2 i Hi). specialize (B2 i Hi). lia.
Qed.

(** The table and the mapping counts did not change. *)
Lemma kept_same U s s' : opentab s' = opentab s -> shares s' = shares s -> kept U s s'.
Proof.
  intros E1 E2. split; [by rewrite E1|by rewrite E2|]. intros [H1 H2 H3]. by split; rewrite ?E1, ?E2.
Qed.

(** One more mapping of a page. *)
Lemma kept_share U s s' p : opentab s' = opentab s -> shares s' = <[p := shares s p + 1]> (shares s) -> kept U s s'.
Proof.
  intros E1 E2.
  assert (forall q, shares s q <= shares s' q) as Hle.
  { intros q. rewrite E2. destruct (decide (q = p)) as [->|Hne]; [rewrite fn_lookup_insert|rewrite fn_lookup_insert_ne by done]; lia. }
  split; [by rewrite E1|auto|]. intros [H1 H2 H3]. split; rewrite ?E1; try done. intros q. specialize (H3 q). specialize (Hle q). lia.
Qed.

Definition quiet U s s' : Prop := kept U s s' /\ sent s' = sent s.
Definition answered U whom s s' : Prop :=
  kept U s s' /\ exists v pg pm, sent s' = sent s ++ [Reply whom v pg pm].

Lemma quiet_same U s s' : opentab s' = opentab s -> shares s' = shares s -> sent s' = sent s -> quiet U s s'.
Proof. intros. split; [by apply kept_same|done]. Qed.

Lemma quiet_trans U s1 s2 s3 : quiet U s1 s2 -> quiet U s2 s3 -> quiet U s1 s3.
Proof. intros [A1 A2] [B1 B2]. split; [by etransitivity|congruence]. Qed.

Lemma quiet_answered U whom s1 s2 s3 : quiet U s1 s2 -> answered U whom s2 s3 -> answered U whom s1 s3.
Proof.
  intros [A1 A2] (B1 & v & pg & pm & B2). split; [by etransitivity|]. exists v, pg, pm. by rewrite B2, A2.
Qed.

Section once.
Variables (U : Z -> Prop) (whom : Z).

(** The run returns with exactly one reply to [whom], or the server panics. *)
Definition replies (m : M serv unit) : Prop := forall s, runs (m s) (fun _ s' => answered U whom s s') (fun _ => True).

Lemma quiet_then {A} (m : M serv A) (f : A -> M serv unit) :
  (forall s, runs (m s) (fun _ s' => quiet U s s') (fun _ => True)) -> (forall a, replies (f a)) -> replies (m ≫= f).
Proof.
  intros Hm Hf s. eapply runs_bind; [apply Hm|]. intros a s1 Hq. eapply runs_mono; [apply Hf|].
  intros u s2 Ha. exact (quiet_answered _ _ _ _ _ Hq Ha).
Qed.

Lemma quiet_in_fs {A} (m : M fs A) : calm m -> forall s, runs (in_fs m s) (fun _ s' => quiet U s s') (fun _ => True).
Proof.
  intros Hc s. unfold in_fs, zoom, runs. destruct (m (sv_fs s)) as [a f|f|e f] eqn:E; [|done|by apply (Hc (sv_fs s) e f)].
  split; [by apply kept_same|done].
Qed.

Lemma quiet_get {A} (f : serv -> A) s : runs (get f s) (fun _ s' => quiet U s s') (fun _ => True).
Proof. by split. Qed.

Lemma quiet_ret {A} (a : A) s : runs (mret (M := M serv) a s) (fun _ s' => quiet U s s') (fun _ => True).
Proof. by split. Qed.

Lemma quiet_lookup envid id s : runs (open_lookup envid id s) (fun _ s' => quiet U s s') (fun _ => True).
Proof.
  unfold open_lookup. destruct (MAXOPEN <=? id); [by split|]. unfold pageref. rewrite !bind_get.
  by destruct (_ <=? 1).
Qed.

Lemma send_answers v pg pm : replies (ipc_send whom v pg pm).
Proof.
  intros s. unfold ipc_send, modify, runs. split.
  - destruct (pg =? 0); [by apply kept_same|by eapply kept_share].
  - exists v, pg, pm. by destruct (pg =? 0).
Qed.

Lemma if_answers (b : bool) m1 m2 : replies m1 -> replies m2 -> replies (if b then m1 else m2).
Proof. by destruct b. Qed.

Ltac reply :=
  repeat first
    [ apply send_answers
    | apply if_answers
    | apply quiet_then; [intros ?; first [apply quiet_lookup | apply quiet_get | apply quiet_in_fs; calm]|]
    | match goal with |- forall _, replies _ => intros ? end
    | match goal with |- replies (match ?x with _ => _ end) => destruct x end ].

Lemma map_answers id o : replies (serve_map whom id o).
Proof. unfold serve_map. reply. Qed.
Lemma set_size_answers id n : replies (serve_set_size whom id n).
Proof. unfold serve_set_size. reply. Qed.
Lemma close_answers id : replies (serve_close whom id).
Proof. unfold serve_close. reply. Qed.
Lemma remove_answers path : replies (serve_remove whom path).
Proof. unfold serve_remove. reply. Qed.
Lemma dirty_answers id o : replies (serve_dirty whom id o).
Proof. unfold serve_dirty. reply. Qed.
Lemma sync_answers : replies (serve_sync whom).
Proof. unfold serve_sync. reply. Qed.
End once.

(** The search, by the first entry that is free. *)
Lemma open_alloc_ok s i : table_ok s -> 0 <= i < MAXOPEN -> in_use s i = false -> (forall j, 0 <= j < i -> in_use s j = true) ->
  if is_mapped (ff_va i) s || u_grants (proc_of s) 0 then
    exists s', open_alloc s = Ret (i, i) s' /\ fresh_page (ff_va i) s' /\ refs s' i = 1 /\ others_kept i s s'
  else exists s', open_alloc s = Ret (- E_NO_MEM, 0) s' /\ refs s' i = 0 /\ others_kept i s s'.
Proof.
  intros Ht Hi Hfree Hbefore. pose proof (try_entry_ok s i Ht Hi) as Htry. rewrite Hfree in Htry.
  assert (forall r s', try_entry i s = Ret (Some r) s' -> open_alloc s = Ret r s') as Hrun.
  { intros r s' E. unfold open_alloc. rewrite (bind_ret _ _ s (Some r) s'); [reflexivity|].
    apply (mfor_ret_some _ (Z.to_nat i)); [unfold MAXOPEN in *; lia| |].
    - intros j Hj. pose proof (try_entry_ok s j Ht ltac:(lia)) as Hj'. by rewrite Hbefore in Hj' by lia.
    - by replace (0 + Z.of_nat (Z.to_nat i)) with i by lia. }
  destruct (is_mapped (ff_va i) s || u_grants (proc_of s) 0);
    destruct Htry as (s' & E & H); exists s'; (split; [by apply Hrun|done]).
Qed.

Lemma open_alloc_full s : table_ok s -> (forall i, 0 <= i < MAXOPEN -> in_use s i = true) ->
  open_alloc s = Ret (- E_MAX_OPEN, 0) s.
Proof.
  intros Ht Hall. unfold open_alloc. rewrite (bind_ret _ _ s None s); [reflexivity|]. apply mfor_ret_none.
  intros j Hj. pose proof (try_entry_ok s j Ht ltac:(unfold MAXOPEN in *; lia)) as H.
  by rewrite Hall in H by (unfold MAXOPEN in *; lia).
Qed.

Section once_more.
Variables (U : Z -> Prop) (whom : Z).

Lemma quiet_alloc s : table_ok s -> (forall i, U i -> 0 <= i < MAXOPEN /\ in_use s i = true) ->
  runs (open_alloc s) (fun r s' => quiet U s s' /\ (0 <= r.1 -> ~ U r.2)) (fun _ => True).
Proof.
  intros Ht HU.
  assert (forall i s', in_use s i = false -> others_kept i s s' -> quiet U s s') as Hq.
  { intros i s' Hi Hk. split; [|apply Hk]. split.
    - intros j Hj. by rewrite (kept_tab _ _ _ Hk).
    - intros j Hj. rewrite (kept_shares _ _ _ Hk); [done|]. intros E%ff_page. subst j. destruct (HU i Hj) as [_ Hj']. congruence.
    - intros [H1 H2 H3]. split; rewrite ?(kept_tab _ _ _ Hk); try done. by apply (kept_counts _ _ _ Hk). }
  destruct (first_index (fun i => negb (in_use s i)) 0 (Z.to_nat MAXOPEN)) as [(k & Hk & Hfree & Hbefore)|Hall].
  - apply negb_true_iff in Hfree. rewrite Z.add_0_l in *.
    pose proof (open_alloc_ok s (Z.of_nat k) Ht ltac:(unfold MAXOPEN in *; lia) Hfree) as H.
    specialize (H ltac:(intros j Hj; apply negb_false_iff, Hbefore; lia)).
    destruct (_ || _).
    + destruct H as (s' & -> & _ & _ & Hkept). split; [by eapply Hq|]. intros _ Hu. destruct (HU _ Hu) as [_ Hu']. simpl in *. congruence.
    + destruct H as (s' & -> & _ & Hkept). split; [by eapply Hq|]. simpl. unfold E_NO_MEM. lia.
  - rewrite open_alloc_full; [|done|].
    + split; [by apply quiet_same|]. simpl. unfold E_MAX_OPEN. lia.
    + intros i Hi. apply negb_false_iff, Hall. unfold MAXOPEN in *. lia.
Qed.

Lemma quiet_proc (f : proc -> proc) s : quiet U s (with_proc (f (proc_of s)) s).
Proof. by apply quiet_same. Qed.

Lemma quiet_touch va s : runs (touch va s) (fun _ s' => quiet U s s') (fun _ => True).
Proof.
  unfold touch, upd_proc, runs. rewrite bind_get. destruct (is_mapped va s); [by apply quiet_same|].
  destruct (uva_illegal va); [done|]. rewrite bind_get, bind_modify.
  destruct (u_grants (proc_of s) 0); [|done]. by apply quiet_same.
Qed.

Lemma quiet_ustore n va v s : runs (ustore n va v s) (fun _ s' => quiet U s s') (fun _ => True).
Proof.
  unfold ustore. eapply runs_bind; [apply quiet_touch|]. intros u1 s1 Hq. unfold upd_proc, modify, runs.
  eapply quiet_trans; [exact Hq|apply quiet_proc].
Qed.

Lemma quiet_ucopy a b n s : runs (ucopy a b n s) (fun _ s' => quiet U s s') (fun _ => True).
Proof.
  unfold ucopy. eapply runs_bind; [apply quiet_touch|]. intros u1 s1 Hq. eapply runs_bind; [apply quiet_touch|].
  intros u2 s2 Hq2. unfold upd_proc, modify, runs. eapply quiet_trans; [exact Hq|]. eapply quiet_trans; [exact Hq2|apply quiet_proc].
Qed.

Lemma quiet_table i (f : Open -> Open) s : (forall o, o_fileid (f o) = o_fileid o) -> (forall o, o_ff (f o) = o_ff o) ->
  ~ U i -> quiet U s (set_opentab (<[i := f (opentab s i)]> (opentab s)) s).
Proof.
  intros Hid Hff Hi. split; [|done]. split; [|done|].
  - intros j Hj. simpl. rewrite fn_lookup_insert_ne; [done|]. by intros ->.
  - intros [H1 H2 H3]. split; [intros j Hj; simpl..|done]; (destruct (decide (j = i)) as [->|Hne];
      [rewrite fn_lookup_insert, ?Hid, ?Hff; auto|rewrite fn_lookup_insert_ne; auto]).
Qed.

(** [file_set_size] has no error of its own, so truncation does not reply twice. *)
Lemma set_size_zero f n s : runs (in_fs (file_set_size f n) s) (fun r s' => r = 0 /\ quiet U s s') (fun _ => True).
Proof.
  pose proof (quiet_in_fs U (file_set_size f n) (calm_file_set_size f n) s) as H.
  assert (forall s1, runs (file_set_size f n s1) (fun r _ => r = 0) (fun _ => True)) as H0.
  { intros s1. unfold file_set_size.
    assert (forall A (m : M fs A) s, calm m -> runs (m s) (fun _ _ => True) (fun _ => True)) as Hc.
    { intros A m s2 Hm. unfold runs. destruct (m s2) as [a s3|s3|e s3] eqn:E; [done|done|by apply (Hm s2 e s3)]. }
    eapply runs_bind; [apply Hc; calm_unfold; calm|]. intros size s2 _.
    eapply runs_bind; [apply Hc; calm|]. intros _ s3 _.
    eapply runs_bind; [apply Hc; calm_unfold; calm|]. intros _ s4 _.
    eapply runs_bind; [apply Hc; unfold flush_dir; calm_unfold; calm|]. done. }
  specialize (H0 (sv_fs s)). unfold in_fs, zoom, runs in *. by destruct (file_set_size f n (sv_fs s)).
Qed.

Lemma open_answers path omode s : table_ok s -> (forall i, U i -> 0 <= i < MAXOPEN /\ in_use s i = true) ->
  runs (serve_open whom path omode s) (fun _ s' => answered U whom s s') (fun _ => True).
Proof.
  intros Ht HU. unfold serve_open. eapply runs_bind; [by apply quiet_alloc|]. intros [r o] s1 [Hq Ho].
  eapply runs_mono; [|intros u s2 Ha; exact (quiet_answered _ _ _ _ _ Hq Ha)]. cbn [fst snd] in Ho. clear Hq Ht HU s.
  destruct (Z.ltb_spec r 0); [apply send_answers|]. specialize (Ho ltac:(lia)).
  revert s1. refine (quiet_then U whom _ _ _ _).
  { intros s. destruct (negb _); [|apply quiet_ret]. eapply runs_bind; [apply quiet_in_fs; calm|]. intros [r' f] s1 Hq. exact Hq. }
  intros r1. apply if_answers; [apply send_answers|].
  apply quiet_then; [intros s; apply quiet_in_fs; calm|]. intros [r2 f]. apply if_answers; [apply send_answers|].
  apply quiet_then; [intros s; by apply (quiet_table o (fun x => MkOpen f (o_fileid x) (o_mode x) (o_ff x)))|]. intros _.
  apply quiet_then.
  { intros s. destruct (negb _); [|apply quiet_ret]. eapply runs_bind; [apply set_size_zero|]. by intros r3 s1 [-> Hq]. }
  intros _. apply quiet_then; [intros s; apply quiet_get|]. intros ff.
  apply quiet_then; [intros s; apply quiet_ucopy|]. intros _.
  apply quiet_then; [intros s; apply quiet_get|]. intros id.
  apply quiet_then; [intros s; apply quiet_ustore|]. intros _.
  apply quiet_then; [intros s; by apply (quiet_table o (fun x => MkOpen (o_file x) (o_fileid x) omode (o_ff x)))|]. intros _.
  apply quiet_then; [intros s; apply quiet_ustore|]. intros _.
  apply quiet_then; [intros s; apply quiet_ustore|]. intros _. apply send_answers.
Qed.

(** [serve_table] replies once, to the sender, whatever the request. *)
Lemma table_answers req rq s : table_ok s -> (forall i, U i -> 0 <= i < MAXOPEN /\ in_use s i = true) ->
  runs (serve_table req whom rq s) (fun _ s' => answered U whom s s') (fun _ => True).
Proof.
  intros Ht HU. unfold serve_table.
  repeat match goal with |- context [if ?b then _ else _] => destruct b end;
    [by apply open_answers|apply map_answers|apply set_size_answers|apply close_answers|apply dirty_answers
    |apply remove_answers|apply sync_answers].
Qed.
End once_more.

(** ** The loop *)

(** The messages that get a reply. *)
Definition well_formed (m : message) : bool :=
  match m with RecvError _ => false | Recv _ req pm _ => negb (Z.land pm PTE_V =? 0) && (req <? MAX_FSREQNO) end.
Definition sender (m : message) : Z := match m with RecvError _ => 0 | Recv whom _ _ _ => whom end.

Lemma quiet_unmap U s : runs ((r ← syscall_mem_unmap REQVA; panic_on r) s) (fun _ s' => quiet U s s') (fun _ => True).
Proof.
  unfold runs. rewrite (bind_ret _ _ _ _ _ (syscall_mem_unmap_ok REQVA s eq_refl)). by apply quiet_same.
Qed.

Lemma serve_one_ok m s : table_ok s ->
  runs (serve_one m s) (fun _ s' => kept (fun i => 0 <= i < MAXOPEN /\ in_use s i = true) s s' /\
    exists rs, sent s' = sent s ++ rs /\ map to_env rs = if well_formed m then [sender m] else []) (fun _ => True).
Proof.
  intros Ht. set (U := fun i => 0 <= i < MAXOPEN /\ in_use s i = true).
  assert (forall s', quiet U s s' -> kept U s s' /\ exists rs, sent s' = sent s ++ rs /\ map to_env rs = []) as Hq.
  { intros s' [Hk E]. split; [done|]. exists []. by rewrite app_nil_r. }
  destruct m as [r|whom req pm rq]; simpl; [by apply Hq, quiet_same|].
  destruct (Z.land pm PTE_V =? 0); simpl; [by apply Hq, quiet_same|].
  destruct (Z.leb_spec MAX_FSREQNO req), (Z.ltb_spec req MAX_FSREQNO); try lia.
  - eapply runs_mono; [apply quiet_unmap|]. intros u s' H'. exact (Hq s' H').
  - eapply runs_bind; [by apply (table_answers U)|]. intros u s1 (Hk & v & pg & pm' & Es).
    eapply runs_mono; [apply (quiet_unmap U)|]. intros u' s' [Hk' Es']. split; [by etransitivity|].
    eexists. by rewrite Es', Es.
Qed.

Lemma serve_ok l : forall s, table_ok s ->
  runs (serve l s) (fun _ s' => table_ok s' /\
    exists rs, sent s' = sent s ++ rs /\ map to_env rs = map sender (filter (fun m => well_formed m) l)) (fun _ => True).
Proof.
  induction l as [|m l IH]; intros s Ht; cbn [serve].
  - split; [done|]. exists []. by rewrite app_nil_r.
  - eapply runs_bind; [by apply serve_one_ok|]. intros u s1 (Hk & rs & E & Em).
    eapply runs_mono; [apply IH, (k_ok _ _ _ Hk), Ht|]. intros u' s2 (Ht2 & rs2 & E2 & Em2). split; [done|].
    exists (rs ++ rs2). rewrite E2, E, app_assoc, map_app, Em, Em2, filter_cons. split; [done|].
    by destruct (well_formed m).
Qed.

(** ** The properties *)

(** The open-file table.  [open_alloc] takes the first entry that no
    client shares, with a page of zeros of the server's own, and changes
    nothing else; it reports -E_MAX_OPEN exactly when all entries are in use
    and -E_NO_MEM when there is no page for the entry.  [open_lookup] accepts
    exactly the entries in use. *)
Theorem open_table_correct s (Ht : table_ok s) :
  (forall i, 0 <= i < MAXOPEN -> in_use s i = false -> (forall j, 0 <= j < i -> in_use s j = true) ->
     if is_mapped (ff_va i) s || u_grants (proc_of s) 0 then
       exists s', open_alloc s = Ret (i, i) s' /\ fresh_page (ff_va i) s' /\ refs s' i = 1 /\ others_kept i s s'
     else exists s', open_alloc s = Ret (- E_NO_MEM, 0) s' /\ refs s' i = 0 /\ others_kept i s s') /\
  ((forall i, 0 <= i < MAXOPEN -> in_use s i = true) -> open_alloc s = Ret (- E_MAX_OPEN, 0) s) /\
  (forall envid id, 0 <= id -> open_lookup envid id s =
     Ret (if (id <? MAXOPEN) && in_use s id then (0, id) else (- E_INVAL, 0)) s).
Proof.
  split_and!.
  - intros i. by apply open_alloc_ok.
  - by apply open_alloc_full.
  - intros envid id Hid. unfold open_lookup. destruct (Z.leb_spec MAXOPEN id), (Z.ltb_spec id MAXOPEN); try lia; [done|].
    rewrite bind_get, (tab_ff _ Ht), (bind_ret _ _ _ _ _ (pageref_ok id s)) by lia. cbn [andb]. unfold in_use.
    by destruct (Z.leb_spec (refs s id) 1), (Z.ltb_spec 1 (refs s id)); try lia.
Qed.


(** ** Concrete inputs *)

(** The demo disk; entry 0 is open in one client. *)
Definition demo_serv : serv :=
  with_proc (set_u_map (<[upage (ff_va 0) := true]> (u_map (f_proc demo_fs))) (f_proc demo_fs))
    (Serv demo_fs (fun i => MkOpen 0 i 0 (ff_va i)) (fun p => if p =? upage (ff_va 0) then 1 else 0) []).

Lemma demo_table : table_ok demo_serv.
Proof. split; [done..|]. intros p. simpl. by destruct (_ =? _). Qed.

Lemma open_table_correct_witness :
  open_lookup 7 0 demo_serv = Ret (0, 0) demo_serv /\ open_lookup 7 1 demo_serv = Ret (- E_INVAL, 0) demo_serv /\
  exists s', open_alloc demo_serv = Ret (1, 1) s' /\ refs s' 1 = 1.
Proof.
  destruct (open_table_correct demo_serv demo_table) as (Ha & _ & Hl). split_and!.
  - rewrite Hl by lia. reflexivity.
  - rewrite Hl by lia. reflexivity.
  - destruct (Ha 1 ltac:(unfold MAXOPEN; lia) eq_refl) as (s' & E & _ & Hr & _).
    + intros j Hj. replace j with 0 by lia. reflexivity.
    + by exists s'.
Defined.

