(* ===== verification/CharQueue.v ===== *)
(** driver/serial/char_queue.c: the serial driver's ring buffers.

    [enqueue] and [dequeue] are cut where they touch [count], because the
    driver's interrupt handler runs between any two instructions of the main
    thread: [enqueue_slot] and [dequeue_slot] do everything else, and the count
    is read and written back in steps of their own. *)
From S2P Require Import Prelude.

Definition BUFFER_SIZE : Z := 4096.

Record CharQueue := Ring { buffer : Z -> Z; front : Z; rear : Z; count : Z }.

Definition set_count (c : Z) (q : CharQueue) : CharQueue := Ring (buffer q) (front q) (rear q) c.

Definition queue_init (q : CharQueue) : CharQueue := Ring (buffer q) 0 (BUFFER_SIZE - 1) 0.

Definition is_full (q : CharQueue) : bool := count q =? BUFFER_SIZE.
Definition is_empty (q : CharQueue) : bool := count q =? 0.

(** [queue->rear = ...; queue->buffer[queue->rear] = data;] *)
Definition enqueue_slot (data : Z) (q : CharQueue) : CharQueue :=
  let r := u64 (rear q + 1) mod BUFFER_SIZE in
  Ring (<[r := data]> (buffer q)) (front q) r (count q).

Definition enqueue (data : Z) (q : CharQueue) : CharQueue :=
  let q := enqueue_slot data q in set_count (u64 (count q + 1)) q.

(** [data = queue->buffer[queue->front]; queue->front = ...;] *)
Definition dequeue_slot (q : CharQueue) : Z * CharQueue :=
  (buffer q (front q), Ring (buffer q) (u64 (front q + 1) mod BUFFER_SIZE) (rear q) (count q)).

Definition dequeue (q : CharQueue) : Z * CharQueue :=
  let '(data, q) := dequeue_slot q in (data, set_count (u64 (count q - 1)) q).

(** ** The queue of bytes a ring stands for *)

Definition slot (q : CharQueue) (k : Z) : Z := buffer q ((front q + k) mod BUFFER_SIZE).

Definition contents (q : CharQueue) : list Z := map (slot q) (seqZ 0 (count q)).

(** [rear] is the last byte's place. *)
Record ring_ok (q : CharQueue) : Prop := {
  ring_front : 0 <= front q < BUFFER_SIZE;
  ring_count : 0 <= count q <= BUFFER_SIZE;
  ring_rear : rear q = (front q + count q - 1) mod BUFFER_SIZE
}.

Lemma length_contents q : ring_ok q -> Z.of_nat (length (contents q)) = count q.
Proof. intros [_ H _]. unfold contents. rewrite length_map, length_seqZ. lia. Qed.

Lemma ring_eqb q : ring_ok q -> is_empty q = bool_decide (contents q = []) /\
  is_full q = (Z.of_nat (length (contents q)) =? BUFFER_SIZE).
Proof.
  intros H. pose proof (length_contents q H) as E. split.
  - unfold is_empty. destruct (Z.eqb_spec (count q) 0); case_bool_decide as Hc; try done.
    + rewrite <- E in *. by destruct (contents q).
    + rewrite Hc in E. simpl in E. lia.
  - by rewrite E.
Qed.

Lemma queue_init_ok q : ring_ok (queue_init q) /\ contents (queue_init q) = [].
Proof. split; [|done]. split; simpl; unfold BUFFER_SIZE; [lia|lia|reflexivity]. Qed.

(** [rear] before and after a byte is added. *)
Lemma next_rear q : ring_ok q -> u64 (rear q + 1) mod BUFFER_SIZE = (front q + count q) mod BUFFER_SIZE.
Proof.
  intros [Hf Hc Hr]. rewrite Hr. unfold u64.
  rewrite (Z.mod_small (_ + 1)) by (unfold BUFFER_SIZE in *; Z.div_mod_to_equations; lia).
  rewrite Zplus_mod_idemp_l. f_equal. lia.
Qed.

Lemma seqZ_snoc n : 0 <= n -> seqZ 0 (n + 1) = seqZ 0 n ++ [n].
Proof. intros Hn. rewrite seqZ_app by lia. done. Qed.

Lemma ring_enqueue_ok b q : ring_ok q -> is_full q = false ->
  ring_ok (enqueue b q) /\ contents (enqueue b q) = contents q ++ [b].
Proof.
  intros Hok Hn. pose proof Hok as [Hf Hc Hr]. unfold is_full in Hn. apply Z.eqb_neq in Hn.
  unfold enqueue, enqueue_slot. rewrite (next_rear _ Hok). cbn [count set_count].
  assert (u64 (count q + 1) = count q + 1) as -> by (unfold u64, BUFFER_SIZE in *; rewrite Z.mod_small; lia).
  split.
  - split; simpl; [done|lia|]. f_equal. lia.
  - unfold contents. simpl. rewrite seqZ_snoc, map_app by lia. simpl. f_equal.
    + apply map_ext_in. intros k Hk%list_elem_of_In%elem_of_seqZ. unfold slot. simpl. rewrite fn_lookup_insert_ne; [done|].
      unfold BUFFER_SIZE in *. Z.div_mod_to_equations. lia.
    + f_equal. unfold slot. simpl. by rewrite fn_lookup_insert.
Qed.

Lemma ring_dequeue_ok q : ring_ok q -> is_empty q = false -> exists b q',
  dequeue q = (b, q') /\ ring_ok q' /\ contents q = b :: contents q'.
Proof.
  intros Hok Hn. pose proof Hok as [Hf Hc Hr]. unfold is_empty in Hn. apply Z.eqb_neq in Hn.
  eexists _, _. split; [reflexivity|].
  assert (u64 (count q - 1) = count q - 1) as Hu by (unfold u64, BUFFER_SIZE in *; rewrite Z.mod_small; lia).
  assert (u64 (front q + 1) = front q + 1) as Hv by (unfold u64, BUFFER_SIZE in *; rewrite Z.mod_small; lia).
  split.
  - split; simpl; rewrite ?Hu, ?Hv.
    + apply Z.mod_pos_bound. unfold BUFFER_SIZE. lia.
    + lia.
    + rewrite Hr. rewrite <- (Zminus_mod_idemp_l (_ + (count q - 1))), Zplus_mod_idemp_l, Zminus_mod_idemp_l. f_equal. lia.
  - unfold contents. simpl. rewrite Hu, Hv, seqZ_cons by lia. simpl. f_equal.
    + unfold slot. rewrite Z.add_0_r, Z.mod_small by done. done.
    + change (Z.succ 0) with (0 + 1). replace (seqZ (0 + 1) (Z.pred (count q))) with (Z.add 1 <$> seqZ 0 (count q - 1))
        by (rewrite fmap_add_seqZ; f_equal; lia).
      rewrite map_map. apply map_ext. intros k. unfold slot. simpl. rewrite Zplus_mod_idemp_l. do 2 f_equal. lia.
Qed.

(** ** A bounded queue *)

(** What a ring promises: a queue of at most [BUFFER_SIZE] bytes. *)
Inductive op := Put (b : Z) | Take.

(** A client calls [enqueue] when the ring is not full and [dequeue] when it is
    not empty, and otherwise does nothing; the result is the bytes taken. *)
Definition do_op (o : op) (q : CharQueue) : list Z * CharQueue :=
  match o with
  | Put b => ([], if is_full q then q else enqueue b q)
  | Take => if is_empty q then ([], q) else let '(b, q') := dequeue q in ([b], q')
  end.
Fixpoint do_ops (l : list op) (q : CharQueue) : list Z * CharQueue :=
  match l with
  | [] => ([], q)
  | o :: l => let '(r, q) := do_op o q in let '(rs, q) := do_ops l q in (r ++ rs, q)
  end.

Definition spec_op (o : op) (l : list Z) : list Z * list Z :=
  match o with
  | Put b => ([], if Z.of_nat (length l) =? BUFFER_SIZE then l else l ++ [b])
  | Take => match l with [] => ([], []) | b :: l => ([b], l) end
  end.
Fixpoint spec_ops (os : list op) (l : list Z) : list Z * list Z :=
  match os with
  | [] => ([], l)
  | o :: os => let '(r, l) := spec_op o l in let '(rs, l) := spec_ops os l in (r ++ rs, l)
  end.

Lemma do_op_ok o q : ring_ok q ->
  ring_ok (do_op o q).2 /\ ((do_op o q).1, contents (do_op o q).2) = spec_op o (contents q).
Proof.
  intros Hok. destruct (ring_eqb q Hok) as [He Hf]. destruct o as [b|]; [simpl|].
  - rewrite <- Hf. destruct (is_full q) eqn:E; [done|]. simpl. destruct (ring_enqueue_ok b q Hok E) as [H ->]. done.
  - unfold do_op, spec_op. destruct (is_empty q) eqn:E.
    + symmetry in He. apply bool_decide_eq_true in He. simpl. by rewrite He.
    + destruct (ring_dequeue_ok q Hok E) as (b & q' & -> & H & ->). done.
Qed.

(** A new ring behaves as an empty bounded queue under every sequence of
    operations. *)
Theorem ring_refines_queue q os :
  let '(rs, q') := do_ops os (queue_init q) in
  ring_ok q' /\ (rs, contents q') = spec_ops os [].
Proof.
  destruct (queue_init_ok q) as [Hok Hc]. rewrite <- Hc. generalize (queue_init q), Hok. clear q Hok Hc.
  induction os as [|o os IH]; intros q Hok; simpl; [done|].
  pose proof (do_op_ok o q Hok) as [H E]. destruct (do_op o q) as [r q1]. simpl in *. rewrite <- E.
  specialize (IH q1 H). destruct (do_ops os q1) as [rs q2]. destruct IH as [H2 E2]. by rewrite <- E2.
Qed.
