(* ===== verification/Serial.v ===== *)
(** driver/serial/serial.c: the serial driver.

    The driver is one process whose interrupt handler runs between any two
    instructions of its main thread.  [handle_interrupt] and what it calls are
    ordinary functions, since nothing interrupts them; the main thread is a
    machine, [main_step], whose program points are the places where it touches
    a ring or the device.

    The UART is hardware: [Uart] states what a register access does, as regs.h
    describes the registers.  [incoming] are the bytes the line brings from now
    on, [transmitted] those the UART was given to send. *)
From stdpp Require Import relations.
From S2P Require Import Prelude Mem Mmu CharQueue.
#[local] Open Scope Z_scope.

Definition RBR_THR_DLL_OFFSET : Z := 0.
Definition IER_DLM_OFFSET : Z := 1.
Definition IER_ETBEI : Z := 2.
Definition IER_ALL : Z := 15.
Definition IIR_FCR_OFFSET : Z := 2.
Definition IIR_INTP_MASK : Z := 1.
Definition IIR_IID_OFFSET : Z := 1.
Definition IIR_IID_MASK : Z := 7.
Definition IIR_INTP_NO_INTERRUPT_PENDING : Z := 1.
Definition IIR_IID_MODEM_STATUS : Z := 0.
Definition IIR_IID_TRANSMITTER_HOLDING_REGISTER_EMPTY : Z := 1.
Definition IIR_IID_RECEIVED_DATA_AVAILABLE : Z := 2.
Definition IIR_IID_LINE_STATUS : Z := 3.
Definition IIR_IID_CHARACTER_TIMEOUT : Z := 6.
Definition LCR : Z := 3.
Definition LSR : Z := 5.
Definition LSR_DR : Z := 1.
Definition LSR_THRE : Z := 32.
Definition MSR : Z := 6.

(** [syscall_read_dev] and [syscall_write_dev] of one byte at a physical
    address: the result code, the byte read, and the UART afterwards. *)
Class Uart (D : Type) := {
  uart_base : Z;
  dev_read : Z -> D -> Z * Z * D;
  dev_write : Z -> Z -> D -> Z * D;
  incoming : D -> list Z;
  transmitted : D -> list Z;
  (** A received byte is in the buffer register; there is room for one to send. *)
  available : D -> bool;
  ready : D -> bool;
  read_keeps off d : off <> RBR_THR_DLL_OFFSET ->
    incoming (dev_read (uart_base + off) d).2 = incoming d /\
    transmitted (dev_read (uart_base + off) d).2 = transmitted d;
  write_keeps off v d : off <> RBR_THR_DLL_OFFSET ->
    incoming (dev_write (uart_base + off) v d).2 = incoming d /\
    transmitted (dev_write (uart_base + off) v d).2 = transmitted d;
  read_lsr d : let '(ret, v, d') := dev_read (uart_base + LSR) d in
    ret = 0 /\ (Z.land v LSR_DR <> 0 -> available d' = true) /\ (Z.land v LSR_THRE <> 0 -> ready d' = true);
  read_rbr d : available d = true -> exists b l d', incoming d = b :: l /\
    dev_read (uart_base + RBR_THR_DLL_OFFSET) d = (0, b, d') /\ incoming d' = l /\ transmitted d' = transmitted d;
  write_thr v d : ready d = true -> exists d', dev_write (uart_base + RBR_THR_DLL_OFFSET) v d = (0, d') /\
    incoming d' = incoming d /\ transmitted d' = transmitted d ++ [v]
}.

(** The driver's variables and the device. *)
Record drv (D : Type) := Drv { dev : D; base_addr : Z; tx_queue : CharQueue; rx_queue : CharQueue }.
Arguments Drv {D}.
Arguments dev {D}.
Arguments base_addr {D}.
Arguments tx_queue {D}.
Arguments rx_queue {D}.

Section driver.
Context {D : Type} {U : Uart D}.

Definition set_dev (d : D) (s : drv D) : drv D := Drv d (base_addr s) (tx_queue s) (rx_queue s).
Definition set_tx (q : CharQueue) (s : drv D) : drv D := Drv (dev s) (base_addr s) q (rx_queue s).
Definition set_rx (q : CharQueue) (s : drv D) : drv D := Drv (dev s) (base_addr s) (tx_queue s) q.

Definition read_reg (off : Z) : M (drv D) (Z * Z) := fun s =>
  let '(ret, v, d) := dev_read (base_addr s + off) (dev s) in Ret (ret, v) (set_dev d s).
Definition write_reg (off v : Z) : M (drv D) Z := fun s =>
  let '(ret, d) := dev_write (base_addr s + off) v (dev s) in Ret ret (set_dev d s).

(** A local variable after it was read into: a failed access leaves it alone. *)
Definition into (old : Z) (r : Z * Z) : Z := if r.1 <? 0 then old else r.2.

(** ** Interrupts *)

Definition enable_serial_interrupt (mask : Z) : M (drv D) unit :=
  write_reg IER_DLM_OFFSET mask ;; mret tt.

Definition disable_serial_interrupt : M (drv D) unit := write_reg IER_DLM_OFFSET 0 ;; mret tt.

Definition enable_specific_interrupt (flag : Z) : M (drv D) unit :=
  r ← read_reg IER_DLM_OFFSET;
  enable_serial_interrupt (Z.lor (into 0 r) flag).

Definition disable_specific_interrupt (flag : Z) : M (drv D) unit :=
  r ← read_reg IER_DLM_OFFSET;
  enable_serial_interrupt (Z.land (into 0 r) (255 - flag)).

Definition handle_modem_status : M (drv D) unit := read_reg MSR ;; mret tt.

Definition handle_line_status_interrupt : M (drv D) unit := read_reg LSR ;; mret tt.

(** The loops return [false] when the fuel runs out. *)
Fixpoint send_loop (fuel : nat) (lsr : Z) : M (drv D) bool :=
  match fuel with
  | O => mret false
  | Datatypes.S fuel =>
      q ← get tx_queue;
      if is_empty q then mret true
      else
        r ← read_reg LSR;
        let lsr := into lsr r in
        if Z.land lsr LSR_THRE =? 0 then mret true
        else
          let '(data, q) := dequeue q in
          modify (set_tx q) ;;
          write_reg RBR_THR_DLL_OFFSET data ;;
          send_loop fuel lsr
  end.

Definition handle_transmitter_holding_register_empty (fuel : nat) : M (drv D) bool :=
  q ← get tx_queue;
  if is_empty q then disable_specific_interrupt IER_ETBEI ;; mret true
  else
    fin ← send_loop fuel 0;
    q ← get tx_queue;
    (if is_empty q then disable_specific_interrupt IER_ETBEI else mret tt) ;;
    mret fin.

Fixpoint receive_loop (fuel : nat) (lsr : Z) : M (drv D) bool :=
  match fuel with
  | O => mret false
  | Datatypes.S fuel =>
      r ← read_reg LSR;
      let lsr := into lsr r in
      if Z.land lsr LSR_DR =? 0 then mret true
      else
        r ← read_reg RBR_THR_DLL_OFFSET;
        if r.1 <? 0 then mret true
        else
          modify (fun s => if is_full (rx_queue s) then s else set_rx (enqueue r.2 (rx_queue s)) s) ;;
          receive_loop fuel lsr
  end.

Definition handle_received_data (fuel : nat) : M (drv D) bool := receive_loop fuel 0.

Definition interrupt_code (iir : Z) : Z := Z.shiftr (Z.land iir IIR_IID_MASK) IIR_IID_OFFSET.

Definition dispatch (fuel : nat) (code : Z) : M (drv D) bool :=
  if code =? IIR_IID_MODEM_STATUS then handle_modem_status ;; mret true
  else if code =? IIR_IID_TRANSMITTER_HOLDING_REGISTER_EMPTY then handle_transmitter_holding_register_empty fuel
  else if code =? IIR_IID_RECEIVED_DATA_AVAILABLE then handle_received_data fuel
  else if code =? IIR_IID_LINE_STATUS then handle_line_status_interrupt ;; mret true
  else if code =? IIR_IID_CHARACTER_TIMEOUT then handle_received_data fuel
  else mret true.

Fixpoint handle_interrupt (fuel : nat) : M (drv D) bool :=
  match fuel with
  | O => mret false
  | Datatypes.S fuel =>
      r ← read_reg IIR_FCR_OFFSET;
      if r.1 <? 0 then mret true
      else if Z.land r.2 IIR_INTP_MASK =? IIR_INTP_NO_INTERRUPT_PENDING then mret true
      else
        fin ← dispatch fuel (interrupt_code r.2);
        if (fin : bool) then handle_interrupt fuel else mret false
  end.

(** The start of [main]; [begin_pa] is the address the kernel reports for the
    device, 0 when it reports none. *)
Definition serial_init (begin_pa : Z) : M (drv D) unit :=
  modify (fun s => set_rx (queue_init (rx_queue s)) (set_tx (queue_init (tx_queue s)) s)) ;;
  modify (fun s => Drv (dev s) begin_pa (tx_queue s) (rx_queue s)) ;;
  read_reg LSR ;; read_reg LCR ;; read_reg IIR_FCR_OFFSET ;; read_reg MSR ;; read_reg IER_DLM_OFFSET ;;
  read_reg IIR_FCR_OFFSET ;;
  enable_serial_interrupt IER_ALL ;;
  read_reg IER_DLM_OFFSET ;; read_reg IIR_FCR_OFFSET ;; mret tt.

(** ** What the handler does

    The bytes given to the UART are taken from the front of the send ring, and
    the bytes received go to the end of the other, when there is room. *)
Record conserves (s s' : drv D) : Prop := {
  c_base : base_addr s' = base_addr s;
  c_tx : ring_ok (tx_queue s') /\
    transmitted (dev s') ++ contents (tx_queue s') = transmitted (dev s) ++ contents (tx_queue s) /\
    count (tx_queue s') <= count (tx_queue s);
  c_rx : ring_ok (rx_queue s') /\ contents (rx_queue s) `prefix_of` contents (rx_queue s') /\
    sublist (contents (rx_queue s') ++ incoming (dev s')) (contents (rx_queue s) ++ incoming (dev s))
}.

(** The handler's precondition. *)
Definition sane (s : drv D) : Prop :=
  base_addr s = uart_base /\ ring_ok (tx_queue s) /\ ring_ok (rx_queue s).

Lemma conserves_sane s s' : sane s -> conserves s s' -> sane s'.
Proof. intros (H1 & H2 & H3) [E [T _] [R _]]. split_and!; [congruence|done..]. Qed.

Lemma conserves_refl s : sane s -> conserves s s.
Proof. intros (_ & H2 & H3). by split; split_and?. Qed.

Lemma conserves_trans s1 s2 s3 : conserves s1 s2 -> conserves s2 s3 -> conserves s1 s3.
Proof.
  intros [A1 (A2 & A3 & A4) (A5 & A6 & A7)] [B1 (B2 & B3 & B4) (B5 & B6 & B7)]. split.
  - congruence.
  - split_and!; [done|congruence|lia].
  - split_and!; [done|by etransitivity..].
Qed.

(** The device changed, and not what it received or sent. *)
Lemma conserves_dev s d : sane s -> incoming d = incoming (dev s) -> transmitted d = transmitted (dev s) ->
  conserves s (set_dev d s).
Proof. intros (_ & H2 & H3) Hi Ht. split; simpl; rewrite ?Hi, ?Ht; by split_and?. Qed.

(** A run that conserves the bytes, whatever it returns. *)
Definition keeps {A} (m : M (drv D) A) : Prop :=
  forall s, sane s -> exists a s', m s = Ret a s' /\ conserves s s'.

Lemma keeps_ret {A} (a : A) : keeps (mret a).
Proof. intros s Hs. exists a, s. split; [done|by apply conserves_refl]. Qed.

Lemma keeps_bind {A B} (m : M (drv D) A) (f : A -> M (drv D) B) : keeps m -> (forall a, keeps (f a)) -> keeps (m ≫= f).
Proof.
  intros Hm Hf s Hs. destruct (Hm s Hs) as (a & s1 & E & Hc). destruct (Hf a s1 (conserves_sane _ _ Hs Hc)) as (b & s2 & E2 & Hc2).
  exists b, s2. rewrite (bind_ret _ _ _ _ _ E). split; [done|by eapply conserves_trans].
Qed.

Lemma keeps_get {A} (f : drv D -> A) : keeps (get f).
Proof. intros s Hs. exists (f s), s. split; [done|by apply conserves_refl]. Qed.

Lemma keeps_read off : off <> RBR_THR_DLL_OFFSET -> keeps (read_reg off).
Proof.
  intros Ho s Hs. unfold read_reg. rewrite (proj1 Hs). pose proof (read_keeps off (dev s) Ho) as [Hi Ht].
  destruct (dev_read (uart_base + off) (dev s)) as [[ret v] d]. eexists _, _. split; [reflexivity|]. by apply conserves_dev.
Qed.

Lemma keeps_write off v : off <> RBR_THR_DLL_OFFSET -> keeps (write_reg off v).
Proof.
  intros Ho s Hs. unfold write_reg. rewrite (proj1 Hs). pose proof (write_keeps off v (dev s) Ho) as [Hi Ht].
  destruct (dev_write (uart_base + off) v (dev s)) as [ret d]. eexists _, _. split; [reflexivity|]. by apply conserves_dev.
Qed.

Ltac keeps :=
  repeat first
    [ apply keeps_ret | apply keeps_get | apply keeps_read; done | apply keeps_write; done
    | apply keeps_bind; [|intros ?]
    | match goal with |- keeps (match ?x with _ => _ end) => destruct x end ].

Lemma keeps_enable flag : keeps (enable_specific_interrupt flag).
Proof. unfold enable_specific_interrupt, enable_serial_interrupt. keeps. Qed.
Lemma keeps_disable flag : keeps (disable_specific_interrupt flag).
Proof. unfold disable_specific_interrupt, enable_serial_interrupt. keeps. Qed.

(** The sending loop takes bytes from the front until the UART has no room or
    the ring is empty; each turn makes the ring shorter. *)
Lemma send_loop_ok fuel : forall s lsr, sane s ->
  exists fin s', send_loop fuel lsr s = Ret fin s' /\ conserves s s' /\ (count (tx_queue s) < Z.of_nat fuel -> fin = true).
Proof.
  induction fuel as [|fuel IH]; intros s lsr Hs.
  { exists false, s. split_and!; [done|by apply conserves_refl|]. destruct Hs as (_ & [_ H _] & _). lia. }
  cbn [send_loop]. rewrite bind_get. destruct (is_empty (tx_queue s)) eqn:He.
  { exists true, s. split_and!; [done|by apply conserves_refl|done]. }
  destruct (keeps_read LSR ltac:(done) s Hs) as (r & s1 & E & Hc). rewrite (bind_ret _ _ _ _ _ E).
  assert (tx_queue s1 = tx_queue s /\ (Z.land (into lsr r) LSR_THRE <> 0 -> ready (dev s1) = true)) as [Hq Hr].
  { unfold read_reg in E. rewrite (proj1 Hs) in E. pose proof (read_lsr (dev s)) as H.
    destruct (dev_read (uart_base + LSR) (dev s)) as [[ret v] d]. destruct H as (-> & _ & H). simplify_eq. done. }
  cbv zeta. destruct (Z.eqb_spec (Z.land (into lsr r) LSR_THRE) 0) as [|Hz]; [by exists true, s1|].
  pose proof (conserves_sane _ _ Hs Hc) as Hs1. destruct Hs1 as (Hb1 & Ht1 & Hrx1).
  destruct (ring_dequeue_ok (tx_queue s1) Ht1 ltac:(by rewrite Hq)) as (b & q' & Hd & Hok' & Hcont).
  rewrite <- Hq, Hd, bind_modify.
  destruct (write_thr b (dev s1) (Hr Hz)) as (d' & Hw & Hi & Htr).
  assert (write_reg RBR_THR_DLL_OFFSET b (set_tx q' s1) = Ret 0 (set_dev d' (set_tx q' s1))) as Ew.
  { unfold write_reg. cbn [base_addr set_tx dev]. by rewrite Hb1, Hw. }
  rewrite (bind_ret _ _ _ _ _ Ew).
  assert (count q' = count (tx_queue s1) - 1) as Hcnt.
  { pose proof (length_contents _ Ht1) as L1. rewrite Hcont in L1. pose proof (length_contents _ Hok') as L2. simpl in L1. lia. }
  assert (conserves s1 (set_dev d' (set_tx q' s1))) as Hc1.
  { split; simpl; [done| |by rewrite Hi; split_and?].
    rewrite Htr, Hcont, <- app_assoc. split_and!; [done|done|lia]. }
  destruct (IH (set_dev d' (set_tx q' s1)) (into lsr r)) as (fin & s2 & E2 & Hc2 & Hf).
  { eapply conserves_sane; [|exact Hc1]. done. }
  exists fin, s2. split_and!; [exact E2|eapply conserves_trans; [exact Hc|by eapply conserves_trans]|].
  intros Hlt. apply Hf. simpl. lia.
Qed.

(** The receiving loop takes bytes as long as there are any, and drops what
    does not fit. *)
Definition received (s s' : drv D) : Prop :=
  ring_ok (rx_queue s') /\ base_addr s' = base_addr s /\ tx_queue s' = tx_queue s /\
  transmitted (dev s') = transmitted (dev s) /\
  exists taken, incoming (dev s) = taken ++ incoming (dev s') /\
    contents (rx_queue s') = take (Z.to_nat BUFFER_SIZE) (contents (rx_queue s) ++ taken).

Lemma take_contents q : ring_ok q -> take (Z.to_nat BUFFER_SIZE) (contents q) = contents q.
Proof. intros H. apply take_ge. pose proof (length_contents q H). destruct H as [_ H _]. lia. Qed.

Lemma received_refl s s' : sane s -> rx_queue s' = rx_queue s -> base_addr s' = base_addr s -> tx_queue s' = tx_queue s ->
  transmitted (dev s') = transmitted (dev s) -> incoming (dev s') = incoming (dev s) -> received s s'.
Proof.
  intros (_ & _ & H) E1 E2 E3 E4 E5. unfold received. rewrite E1, E2, E3, E4, E5. split_and!; try done.
  exists []. split; [done|]. by rewrite app_nil_r, take_contents.
Qed.

Lemma received_conserves s s' : sane s -> received s s' -> conserves s s'.
Proof.
  intros (_ & H2 & H3) (R1 & R2 & R3 & R4 & taken & R5 & R6). split; [done| |].
  - rewrite R3, R4. by split_and!.
  - rewrite R5, R6. split_and!; [done| |].
    + rewrite take_app, take_contents by done. by apply prefix_app_r.
    + rewrite app_assoc. apply sublist_app; [|done]. apply sublist_take.
Qed.

(** The byte [b] arrived before the bytes [received s1 s'] accounts for. *)
Lemma received_more s s1 s' b : ring_ok (rx_queue s) -> incoming (dev s) = b :: incoming (dev s1) ->
  base_addr s1 = base_addr s -> tx_queue s1 = tx_queue s -> transmitted (dev s1) = transmitted (dev s) ->
  contents (rx_queue s1) = take (Z.to_nat BUFFER_SIZE) (contents (rx_queue s) ++ [b]) ->
  received s1 s' -> received s s'.
Proof.
  intros H Hi E2 E3 E4 Hc (R1 & R2 & R3 & R4 & taken & R5 & R6). unfold received.
  rewrite R2, R3, R4, E2, E3, E4. split_and!; try done. exists (b :: taken). split; [by rewrite Hi, R5|].
  rewrite R6, Hc. change (b :: taken) with ([b] ++ taken). rewrite (app_assoc _ [b]).
  rewrite !(take_app _ taken), take_take, Nat.min_id. f_equal. rewrite length_take. f_equal.
  rewrite length_app. cbn [length]. lia.
Qed.

Lemma receive_loop_ok fuel : forall s lsr, sane s ->
  exists fin s', receive_loop fuel lsr s = Ret fin s' /\ received s s' /\ (Z.of_nat (length (incoming (dev s))) < Z.of_nat fuel -> fin = true).
Proof.
  induction fuel as [|fuel IH]; intros s lsr Hs.
  { exists false, s. split_and!; [done|by apply received_refl|lia]. }
  cbn [receive_loop]. pose proof Hs as (Hb & Htx & Hrx).
  assert (exists r d, read_reg LSR s = Ret r (set_dev d s) /\ incoming d = incoming (dev s) /\ transmitted d = transmitted (dev s) /\
    (Z.land (into lsr r) LSR_DR <> 0 -> available d = true)) as (r & d & E & Hi & Ht & Ha).
  { unfold read_reg. rewrite Hb. pose proof (read_lsr (dev s)) as H. pose proof (read_keeps LSR (dev s) ltac:(done)) as Hk.
    destruct (dev_read (uart_base + LSR) (dev s)) as [[ret v] d]. destruct H as (-> & H & _), Hk. by eexists _, _. }
  rewrite (bind_ret _ _ _ _ _ E). cbv zeta. destruct (Z.eqb_spec (Z.land (into lsr r) LSR_DR) 0) as [|Hz].
  { exists true, (set_dev d s). split_and!; [done|by apply received_refl|done]. }
  destruct (read_rbr d (Ha Hz)) as (b & l & d' & Hin & Hrd & Hi' & Ht').
  assert (read_reg RBR_THR_DLL_OFFSET (set_dev d s) = Ret (0, b) (set_dev d' s)) as E2.
  { unfold read_reg. cbn [base_addr set_dev dev]. by rewrite Hb, Hrd. }
  rewrite (bind_ret _ _ _ _ _ E2). change ((0, b).1 <? 0) with false. cbv iota. rewrite bind_modify. cbn [fst snd].
  set (s1 := if is_full (rx_queue (set_dev d' s)) then set_dev d' s else set_rx (enqueue b (rx_queue (set_dev d' s))) (set_dev d' s)).
  assert (ring_ok (rx_queue s1) /\ dev s1 = d' /\ base_addr s1 = base_addr s /\ tx_queue s1 = tx_queue s /\
    contents (rx_queue s1) = take (Z.to_nat BUFFER_SIZE) (contents (rx_queue s) ++ [b])) as (K1 & K2 & K3 & K4 & K5).
  { subst s1. simpl. pose proof (length_contents _ Hrx) as L. destruct (ring_eqb _ Hrx) as [_ Hf].
    destruct (is_full (rx_queue s)) eqn:Hfull; simpl.
    - split_and!; try done. symmetry in Hf. apply Z.eqb_eq in Hf. rewrite take_app_le by lia. by rewrite take_contents.
    - destruct (ring_enqueue_ok b _ Hrx Hfull) as [H ->]. split_and!; try done. rewrite take_ge; [done|].
      symmetry in Hf. apply Z.eqb_neq in Hf. destruct Hrx as [_ H' _]. rewrite length_app. cbn [length]. lia. }
  destruct (IH s1 (into lsr r)) as (fin & s2 & E3 & Hrec & Hfin).
  { split_and!; [by rewrite K3|by rewrite K4|done]. }
  exists fin, s2. split_and!; [exact E3| |].
  - eapply (received_more s s1); try done; rewrite K2; [by rewrite <- Hi, Hin, Hi'|by rewrite Ht', Ht].
  - intros Hlt. apply Hfin. rewrite K2, Hi'. rewrite <- Hi, Hin in Hlt. cbn [length] in Hlt. lia.
Qed.

Lemma keeps_send fuel lsr : keeps (send_loop fuel lsr).
Proof. intros s Hs. destruct (send_loop_ok fuel s lsr Hs) as (fin & s' & E & H & _). by exists fin, s'. Qed.

Lemma keeps_receive fuel lsr : keeps (receive_loop fuel lsr).
Proof.
  intros s Hs. destruct (receive_loop_ok fuel s lsr Hs) as (fin & s' & E & H & _). exists fin, s'. split; [done|].
  by apply received_conserves.
Qed.

Lemma keeps_dispatch fuel code : keeps (dispatch fuel code).
Proof.
  unfold dispatch, handle_modem_status, handle_line_status_interrupt, handle_received_data, handle_transmitter_holding_register_empty.
  keeps; try apply keeps_disable; try apply keeps_send; apply keeps_receive.
Qed.

Lemma keeps_interrupt fuel : keeps (handle_interrupt fuel).
Proof. induction fuel as [|fuel IH]; cbn [handle_interrupt]; keeps; [apply keeps_dispatch|exact IH]. Qed.
End driver.
