(* ===== verification/SerialSys.v ===== *)
(** driver/serial/serial.c: the main thread of the serial driver and its
    interrupts.

    [main_step] runs the main thread from one access of a ring, the device or
    the request page to the next: the loop of [main], [serve_read],
    [serve_write], [serial_read] and [serial_write].  Between two steps the
    interrupt handler may run ([step_intr]).  With [masked] set it does not run
    while the main thread has a ring's [count] in a register; the code has
    nothing that would prevent it.

    [s_requested] records the bytes of the write requests; the code does not
    read it. *)
From stdpp Require Import relations.
From S2P Require Import Prelude Mem Mmu CharQueue Serial.
#[local] Open Scope Z_scope.

Definition MAX_PAYLOAD_SIZE : Z := 4096 - 8.
Definition SERIALREQ_SUCCESS : Z := 0.
Definition SERIALREQ_INVAL : Z := 1.
Definition SERIALREQ_NO_FUNC : Z := 2.
Definition SERIALREQ_NO_PAYLOAD : Z := 3.
Definition SERIALREQ_READ : Z := 0.
Definition MAX_SERIALREQNO : Z := 2.

(** Where the main thread is.  [i] and [actual] are the loops' counters. *)
Inductive mpc :=
  | MRecv
  | MWrite (i : Z)
  | MFull (i : Z)
  | MFullIer (i : Z)
  | MFullSet (i mask : Z)
  | MSlot (i : Z)
  | MLoad (i : Z)
  | MStore (i c : Z)
  | MLastIer
  | MLastSet (mask : Z)
  | MRead (actual : Z)
  | MTake (actual : Z)
  | MTLoad (actual data : Z)
  | MTStore (actual data c : Z)
  | MBuf (actual data : Z)
  | MUnmap.

(** [ipc_send(rp_to, rp_val, ...)], with the page when it sends one. *)
Record reply := Rep { rp_to : Z; rp_val : Z; rp_page : option (Z -> Z) }.

Record sys (D : Type) := Sys {
  s_drv : drv D; s_pc : mpc;
  s_whom : Z; s_val : Z; s_perm : Z; s_len : Z;
  s_page : Z -> Z;
  s_replies : list reply;
  s_requested : list Z
}.
Arguments Sys {D}.
Arguments s_drv {D}.
Arguments s_pc {D}.
Arguments s_whom {D}.
Arguments s_val {D}.
Arguments s_perm {D}.
Arguments s_len {D}.
Arguments s_page {D}.
Arguments s_replies {D}.
Arguments s_requested {D}.

(** What [ipc_recv] delivered, with the bytes of the page it mapped. *)
Inductive message :=
  | RecvError (r : Z)
  | Recv (whom val perm : Z) (page : Z -> Z).

(** The main thread is in the middle of updating a ring's [count]. *)
Definition in_window (pc : mpc) : bool :=
  match pc with MLoad _ | MStore _ _ | MTLoad _ _ | MTStore _ _ _ => true | _ => false end.

(** The [n] bytes of a page from offset [o]. *)
Definition page_bytes (page : Z -> Z) (o n : Z) : list Z := map page (seqZ o n).

Section main.
Context {D : Type} {U : Uart D}.

Definition goto (pc : mpc) (s : sys D) : sys D :=
  Sys (s_drv s) pc (s_whom s) (s_val s) (s_perm s) (s_len s) (s_page s) (s_replies s) (s_requested s).
Definition set_drv (d : drv D) (s : sys D) : sys D :=
  Sys d (s_pc s) (s_whom s) (s_val s) (s_perm s) (s_len s) (s_page s) (s_replies s) (s_requested s).
Definition set_page (p : Z -> Z) (s : sys D) : sys D :=
  Sys (s_drv s) (s_pc s) (s_whom s) (s_val s) (s_perm s) (s_len s) p (s_replies s) (s_requested s).
Definition set_len (n : Z) (s : sys D) : sys D :=
  Sys (s_drv s) (s_pc s) (s_whom s) (s_val s) (s_perm s) n (s_page s) (s_replies s) (s_requested s).
Definition set_msg (whom val perm : Z) (s : sys D) : sys D :=
  Sys (s_drv s) (s_pc s) whom val perm (s_len s) (s_page s) (s_replies s) (s_requested s).
Definition send (val : Z) (page : option (Z -> Z)) (s : sys D) : sys D :=
  Sys (s_drv s) (s_pc s) (s_whom s) (s_val s) (s_perm s) (s_len s) (s_page s)
    (s_replies s ++ [Rep (s_whom s) val page]) (s_requested s).
Definition request (l : list Z) (s : sys D) : sys D :=
  Sys (s_drv s) (s_pc s) (s_whom s) (s_val s) (s_perm s) (s_len s) (s_page s) (s_replies s) (s_requested s ++ l).

(** A device access of the main thread. *)
Definition exec {A} (m : M (drv D) A) (k : A -> sys D -> sys D) (s : sys D) : sys D :=
  match m (s_drv s) with
  | Ret a d => k a (set_drv d s)
  | Panic d | Resume _ d => set_drv d s
  end.
Definition on_tx (f : CharQueue -> CharQueue) (s : sys D) : sys D := set_drv (set_tx (f (tx_queue (s_drv s))) (s_drv s)) s.
Definition on_rx (f : CharQueue -> CharQueue) (s : sys D) : sys D := set_drv (set_rx (f (rx_queue (s_drv s))) (s_drv s)) s.

(** After [ipc_recv], up to the first access of a ring: the checks of the loop
    and of [serve_read] and [serve_write]. *)
Definition serve (s : sys D) : sys D :=
  if MAX_SERIALREQNO <=? s_val s then goto MUnmap (send (u64 (- SERIALREQ_NO_FUNC)) None s)
  else if Z.land (s_perm s) PTE_V =? 0 then goto MRecv (send (u64 (- SERIALREQ_NO_PAYLOAD)) None s)
  else
    let len := u64 (load 8 (s_page s) 0) in
    if MAX_PAYLOAD_SIZE <? len then goto MUnmap (send (u64 (- SERIALREQ_INVAL)) None s)
    else if s_val s =? SERIALREQ_READ then goto (MRead 0) (set_len len s)
    else goto (MWrite 0) (request (page_bytes (s_page s) 8 len) (set_len len s)).

(** The message variables keep their values when [ipc_recv] fails. *)
Definition receive (m : message) (s : sys D) : sys D :=
  match m with
  | RecvError r => if r =? - E_INTR then s else serve s
  | Recv whom val perm page =>
      serve (set_msg whom val perm (if Z.land perm PTE_V =? 0 then s else set_page page s))
  end.

Definition main_step (s : sys D) : sys D :=
  let tx := tx_queue (s_drv s) in
  let rx := rx_queue (s_drv s) in
  match s_pc s with
  | MRecv => s
  (* serial_write *)
  | MWrite i => goto (if i <? s_len s then MFull i else MLastIer) s
  | MFull i => goto (if is_full tx then MFullIer i else MSlot i) s
  | MFullIer i => exec (read_reg IER_DLM_OFFSET) (fun r => goto (MFullSet i (Z.lor (into 0 r) IER_ETBEI))) s
  | MFullSet i mask => exec (enable_serial_interrupt mask) (fun _ => goto (MFull i)) s
  | MSlot i => goto (MLoad i) (on_tx (enqueue_slot (s_page s (8 + i))) s)
  | MLoad i => goto (MStore i (count tx)) s
  | MStore i c => goto (MWrite (i + 1)) (on_tx (set_count (u64 (c + 1))) s)
  | MLastIer => exec (read_reg IER_DLM_OFFSET) (fun r => goto (MLastSet (Z.lor (into 0 r) IER_ETBEI))) s
  | MLastSet mask => exec (enable_serial_interrupt mask) (fun _ s => goto MUnmap (send SERIALREQ_SUCCESS None s)) s
  (* serial_read *)
  | MRead actual =>
      if is_empty rx || (s_len s <=? actual) then goto MUnmap (send actual (Some (s_page s)) s)
      else goto (MTake actual) s
  | MTake actual => goto (MTLoad actual (dequeue_slot rx).1) (on_rx (fun q => (dequeue_slot q).2) s)
  | MTLoad actual data => goto (MTStore actual data (count rx)) s
  | MTStore actual data c => goto (MBuf actual data) (on_rx (set_count (u64 (c - 1))) s)
  | MBuf actual data => goto (MRead (actual + 1)) (set_page (<[actual := data]> (s_page s)) s)
  (* a page that is touched after it was unmapped is a page of zeros *)
  | MUnmap => goto MRecv (set_page (fun _ => 0) s)
  end.

Inductive step (masked : bool) : sys D -> sys D -> Prop :=
  | step_main s : s_pc s <> MRecv -> step masked s (main_step s)
  | step_recv s m : s_pc s = MRecv -> step masked s (receive m s)
  | step_intr s fuel d : (masked = true -> in_window (s_pc s) = false) ->
      handle_interrupt fuel (s_drv s) = Ret true d -> step masked s (set_drv d s).

(** The driver after its initialisation, on a UART that sent nothing yet. *)
Definition start (d : drv D) : sys D := Sys d MRecv 0 0 0 0 (fun _ => 0) [] [].

(** The bytes a reply delivers: a client copies [rp_val] bytes of the page. *)
Definition reply_bytes (r : reply) : list Z :=
  match rp_page r with Some p => page_bytes p 0 (rp_val r) | None => [] end.
Definition delivered (s : sys D) : list Z := flat_map reply_bytes (s_replies s).

(** ** The invariant

    [tx] and [rx] are the rings as they were before an update that is under
    way. *)
Definition tx_view (s : sys D) (tx : CharQueue) : Prop :=
  let q := tx_queue (s_drv s) in
  match s_pc s with
  | MSlot i => q = tx /\ is_full tx = false
  | MLoad i => q = enqueue_slot (s_page s (8 + i)) tx /\ is_full tx = false
  | MStore i c => q = enqueue_slot (s_page s (8 + i)) tx /\ is_full tx = false /\ c = count tx
  | _ => q = tx
  end.

Definition rx_view (s : sys D) (rx : CharQueue) : Prop :=
  let q := rx_queue (s_drv s) in
  match s_pc s with
  | MTake _ => q = rx /\ is_empty rx = false
  | MTLoad _ data => dequeue_slot rx = (data, q) /\ is_empty rx = false
  | MTStore _ data c => dequeue_slot rx = (data, q) /\ is_empty rx = false /\ c = count rx
  | _ => q = rx
  end.

(** What the current request still has to write. *)
Definition to_write (s : sys D) : list Z :=
  match s_pc s with
  | MWrite i | MFull i | MFullIer i | MFullSet i _ | MSlot i | MLoad i | MStore i _ =>
      page_bytes (s_page s) (8 + i) (s_len s - i)
  | _ => []
  end.

(** What the current request has read so far. *)
Definition was_read (s : sys D) : list Z :=
  match s_pc s with
  | MRead a | MTake a | MTLoad a _ | MTStore a _ _ => page_bytes (s_page s) 0 a
  | MBuf a data => page_bytes (s_page s) 0 a ++ [data]
  | _ => []
  end.

Definition counter_ok (s : sys D) : Prop :=
  match s_pc s with
  | MWrite i => 0 <= i <= s_len s
  | MFull i | MFullIer i | MFullSet i _ | MSlot i | MLoad i | MStore i _ => 0 <= i < s_len s
  | MRead a | MTake a | MTLoad a _ | MTStore a _ _ | MBuf a _ => 0 <= a
  | _ => True
  end.

Record inv_with (input : list Z) (s : sys D) (tx rx : CharQueue) : Prop := {
  i_base : base_addr (s_drv s) = uart_base;
  i_tx : ring_ok tx /\ tx_view s tx;
  i_rx : ring_ok rx /\ rx_view s rx;
  i_sent : s_requested s = transmitted (dev (s_drv s)) ++ contents tx ++ to_write s;
  i_got : sublist (delivered s ++ was_read s ++ contents rx ++ incoming (dev (s_drv s))) input;
  i_counter : counter_ok s
}.

Definition inv (input : list Z) (s : sys D) : Prop := exists tx rx, inv_with input s tx rx.

Lemma page_bytes_cons p o n : 0 < n -> page_bytes p o n = p o :: page_bytes p (o + 1) (n - 1).
Proof. intros H. unfold page_bytes. rewrite seqZ_cons by lia. simpl. do 2 f_equal. Qed.
Lemma page_bytes_nil p o n : n <= 0 -> page_bytes p o n = [].
Proof. intros H. unfold page_bytes. by rewrite seqZ_nil. Qed.
Lemma page_bytes_snoc p n b : 0 <= n -> page_bytes (<[n := b]> p) 0 (n + 1) = page_bytes p 0 n ++ [b].
Proof.
  intros H. unfold page_bytes. rewrite seqZ_snoc, map_app by lia. simpl. rewrite fn_lookup_insert. f_equal.
  apply map_ext_in. intros k Hk%list_elem_of_In%elem_of_seqZ. rewrite fn_lookup_insert_ne by lia. done.
Qed.

(** The handler, or an access to the device, outside an update. *)
Lemma inv_drv input s d : inv input s -> in_window (s_pc s) = false -> conserves (s_drv s) d -> inv input (set_drv d s).
Proof.
  intros (tx & rx & [Hb [Htx Vt] [Hrx Vr] Hs Hg Hc]) Hw [C1 (C2 & C3 & C4) (C5 & C6 & C7)].
  assert (tx_queue (s_drv s) = tx /\ rx_queue (s_drv s) = rx) as [<- <-].
  { unfold tx_view in Vt. unfold rx_view in Vr. destruct (s_pc s); try done; try by destruct Vt; try by destruct Vr. }
  exists (tx_queue d), (rx_queue d). split; simpl.
  - by rewrite C1.
  - split; [done|]. unfold tx_view in *. simpl. destruct (s_pc s); try done. split; [done|].
    destruct Vt as [_ Vt]. unfold is_full in *. apply Z.eqb_neq. apply Z.eqb_neq in Vt. destruct Htx as [_ H _]. lia.
  - split; [done|]. unfold rx_view in *. simpl. destruct (s_pc s); try done. split; [done|].
    destruct Vr as [_ Vr]. unfold is_empty in *. apply Z.eqb_neq. apply Z.eqb_neq in Vr.
    apply prefix_length in C6. pose proof (length_contents _ C5). pose proof (length_contents _ Hrx). destruct Hrx as [_ H1 _]. lia.
  - rewrite Hs, !app_assoc. by rewrite C3.
  - etransitivity; [|exact Hg]. unfold delivered, was_read. simpl. by do 2 (apply sublist_app; [done|]).
  - exact Hc.
Qed.

(** A step that only moves the program point. *)
Lemma inv_goto input s pc tx rx : inv_with input s tx rx -> tx_view (goto pc s) tx -> rx_view (goto pc s) rx ->
  to_write (goto pc s) = to_write s -> was_read (goto pc s) = was_read s -> counter_ok (goto pc s) -> inv input (goto pc s).
Proof.
  intros [Hb [Htx _] [Hrx _] Hs Hg _] Vt Vr Ew Er Hc. exists tx, rx. split; [done|done|done| |  |done].
  - by rewrite Ew.
  - by rewrite Er.
Qed.

Lemma inv_exec {A} (m : M (drv D) A) k input s : inv input s -> in_window (s_pc s) = false -> keeps m ->
  (forall a tx rx d, inv_with input (set_drv d s) tx rx -> inv input (k a (set_drv d s))) -> inv input (exec m k s).
Proof.
  intros Hi Hw Hm Hk. assert (sane (s_drv s)) as Hs.
  { destruct Hi as (tx & rx & [Hb [Htx Vt] [Hrx Vr] _ _ _]). split; [done|]. unfold tx_view in Vt. unfold rx_view in Vr.
    destruct (s_pc s); try done; intuition congruence. }
  unfold exec. destruct (Hm _ Hs) as (a & d & -> & Hc). destruct (inv_drv input s d Hi Hw Hc) as (tx & rx & H). by eapply Hk.
Qed.

(** A reply; a reply with a page delivers what was read. *)
Lemma inv_reply input s v pg pc tx rx : inv_with input s tx rx ->
  tx_queue (s_drv s) = tx -> rx_queue (s_drv s) = rx -> to_write s = [] -> was_read s = reply_bytes (Rep (s_whom s) v pg) ->
  pc = MUnmap \/ pc = MRecv -> inv input (goto pc (send v pg s)).
Proof.
  intros [Hb [Htx _] [Hrx _] Hs Hg _] Et Er Ew Ed Hpc. exists tx, rx.
  assert (to_write (goto pc (send v pg s)) = [] /\ was_read (goto pc (send v pg s)) = []) as [E1 E2] by (by destruct Hpc as [->| ->]).
  split; simpl.
  - done.
  - split; [done|]. by destruct Hpc as [->| ->].
  - split; [done|]. by destruct Hpc as [->| ->].
  - by rewrite E1, Hs, Ew.
  - rewrite E2. unfold delivered in *. simpl. rewrite flat_map_app. cbn [flat_map]. rewrite <- Ed, app_nil_r, <- app_assoc. exact Hg.
  - by destruct Hpc as [->| ->].
Qed.

(** The side conditions of [inv_goto] at the point [E] says. *)
Ltac at_point E :=
  unfold tx_view, rx_view, to_write, was_read, counter_ok in *; simpl in *; rewrite ?E in *; simpl in *; try done; try lia.
Ltac move_on H E :=
  let H' := fresh in pose proof H as H'; destruct H' as [_ [_ ?] [_ ?] _ _ ?]; apply (inv_goto _ _ _ _ _ H); at_point E.

Lemma keeps_enable_serial mask : keeps (enable_serial_interrupt mask).
Proof. apply keeps_bind; [by apply keeps_write|intros ?; apply keeps_ret]. Qed.

Lemma inv_writing input s : inv input s ->
  match s_pc s with MWrite _ | MFull _ | MFullIer _ | MFullSet _ _ | MLastIer | MLastSet _ => True | _ => False end ->
  inv input (main_step s).
Proof.
  intros Hi Hpc. pose proof Hi as (tx & rx & H). unfold main_step.
  destruct (s_pc s) eqn:E; try done; clear Hpc.
  - destruct (Z.ltb_spec i (s_len s)); move_on H E. symmetry. apply page_bytes_nil. lia.
  - destruct (is_full (tx_queue (s_drv s))) eqn:Ef; move_on H E. split; congruence.
  - apply inv_exec; [done|by rewrite E|by apply keeps_read|]. intros a tx' rx' d H'. cbv beta. move_on H' E.
  - apply inv_exec; [done|by rewrite E|apply keeps_enable_serial|]. intros a tx' rx' d H'. cbv beta. move_on H' E.
  - apply inv_exec; [done|by rewrite E|by apply keeps_read|]. intros a tx' rx' d H'. cbv beta. move_on H' E.
  - apply inv_exec; [done|by rewrite E|apply keeps_enable_serial|]. intros a tx' rx' d H'.
    pose proof H' as [_ [_ Vt] [_ Vr] _ _ _]. eapply (inv_reply _ _ _ _ _ _ _ H'); [at_point E..|]. by left.
Qed.

(** [enqueue] in three steps. *)
Lemma inv_put input s : inv input s -> match s_pc s with MSlot _ | MLoad _ | MStore _ _ => True | _ => False end ->
  inv input (main_step s).
Proof.
  intros (tx & rx & H) Hpc. pose proof H as [Hb [Htx Vt] [Hrx Vr] Hs Hg Hc]. unfold main_step.
  destruct (s_pc s) eqn:E; try done; clear Hpc.
  - exists tx, rx. split; simpl; try done; at_point E. destruct Vt as [-> Vt]. done.
  - move_on H E. destruct Vt as [-> Vt]. done.
  - at_point E. destruct Vt as (Eq & Vt & ->). destruct (ring_enqueue_ok (s_page s (8 + i)) tx Htx Vt) as [Hok Hcont].
    exists (enqueue (s_page s (8 + i)) tx), rx. split; simpl; try done; at_point E.
    + split; [done|]. by rewrite Eq.
    + rewrite Hs, Hcont, (page_bytes_cons _ (8 + i)) by lia. rewrite <- app_assoc. simpl. do 4 f_equal; lia.
Qed.

(** [dequeue] in three steps, and the byte's way to the page. *)
Lemma inv_take input s : inv input s -> match s_pc s with MTake _ | MTLoad _ _ | MTStore _ _ _ | MBuf _ _ => True | _ => False end ->
  inv input (main_step s).
Proof.
  intros (tx & rx & H) Hpc. pose proof H as [Hb [Htx Vt] [Hrx Vr] Hs Hg Hc]. unfold main_step.
  destruct (s_pc s) eqn:E; try done; clear Hpc.
  - exists tx, rx. split; simpl; try done; at_point E. destruct Vr as [-> Vr]. done.
  - move_on H E. destruct Vr as [Er Vr]. split_and!; try done. injection Er. by intros <- _.
  - at_point E. destruct Vr as (Er & Vr & ->). destruct (ring_dequeue_ok rx Hrx Vr) as (b & q' & Hd & Hok & Hcont).
    unfold dequeue in Hd. rewrite Er in Hd. injection Hd as <- Hq'.
    assert (count (rx_queue (s_drv s)) = count rx) as Ecnt by (injection Er; by intros <- _). rewrite Ecnt in Hq'.
    exists tx, q'. split; simpl; try done; at_point E.
    + unfold delivered in *. simpl. by rewrite Hcont, <- !app_assoc in *.
  - exists tx, rx. split; simpl; try done; at_point E. by rewrite page_bytes_snoc.
Qed.

Lemma inv_main input s : inv input s -> inv input (main_step s).
Proof.
  intros Hi. pose proof Hi as (tx & rx & H). pose proof H as [Hb [Htx Vt] [Hrx Vr] Hs Hg Hc].
  destruct (s_pc s) eqn:E; try (by apply inv_writing; rewrite ?E); try (by apply inv_put; rewrite ?E);
    try (by apply inv_take; rewrite ?E); unfold main_step; rewrite E.
  - done.
  - destruct (is_empty (rx_queue (s_drv s)) || (s_len s <=? actual)) eqn:Eb.
    + eapply (inv_reply _ _ _ _ _ _ _ H); [at_point E..|by left].
    + apply orb_false_iff in Eb as [Ee _]. move_on H E. split; congruence.
  - exists tx, rx. split; simpl; try done; at_point E.
Qed.

Lemma inv_serve input s : inv input s -> s_pc s = MRecv -> inv input (serve s).
Proof.
  intros (tx & rx & H) E. pose proof H as [Hb [Htx Vt] [Hrx Vr] Hs Hg Hc]. unfold serve.
  destruct (MAX_SERIALREQNO <=? s_val s); [eapply (inv_reply _ _ _ _ _ _ _ H); [at_point E..|by left]|].
  destruct (Z.land (s_perm s) PTE_V =? 0); [eapply (inv_reply _ _ _ _ _ _ _ H); [at_point E..|by right]|].
  cbv zeta. destruct (MAX_PAYLOAD_SIZE <? _); [eapply (inv_reply _ _ _ _ _ _ _ H); [at_point E..|by left]|].
  assert (0 <= u64 (load 8 (s_page s) 0)) by (apply Z.mod_pos_bound; lia).
  destruct (s_val s =? SERIALREQ_READ); exists tx, rx; (split; simpl; try done; at_point E).
  rewrite Hs, app_nil_r, <- app_assoc. by rewrite Z.sub_0_r.
Qed.

Lemma inv_receive input s m : inv input s -> s_pc s = MRecv -> inv input (receive m s).
Proof.
  intros Hi E. destruct m as [r|whom val perm page]; simpl; [destruct (r =? - E_INTR); [done|by apply inv_serve]|].
  destruct Hi as (tx & rx & H). pose proof H as [Hb [Htx Vt] [Hrx Vr] Hs Hg Hc].
  apply inv_serve; [|by destruct (_ =? 0)]. exists tx, rx. destruct (_ =? 0); split; simpl; try done; at_point E.
Qed.

(** Every run, when the updates of [count] are not interrupted. *)
Lemma inv_steps input s s' : rtc (step true) s s' -> inv input s -> inv input s'.
Proof.
  induction 1 as [|s s1 s2 Hstep _ IH]; [done|]. intros Hi. apply IH. destruct Hstep as [s|s m E|s fuel d Hw E].
  - by apply inv_main.
  - by apply inv_receive.
  - apply inv_drv; [done|by apply Hw|]. destruct Hi as (tx & rx & [Hb [Htx Vt] [Hrx Vr] _ _ _]).
    destruct (keeps_interrupt fuel (s_drv s)) as (a & d' & E' & Hc); [|congruence].
    specialize (Hw eq_refl). split; [done|]. unfold tx_view in Vt. unfold rx_view in Vr.
    destruct (s_pc s); try done; intuition congruence.
Qed.

Lemma inv_start d : sane d -> contents (tx_queue d) = [] -> contents (rx_queue d) = [] -> transmitted (dev d) = [] ->
  inv (incoming (dev d)) (start d).
Proof.
  intros (H1 & H2 & H3) E1 E2 E3. exists (tx_queue d), (rx_queue d). split; simpl; try done.
  - by rewrite E1, E3.
  - by rewrite E2.
Qed.

(** A write that fits is answered: the main thread reaches the reply by itself,
    and the ring holds the new bytes. *)
Lemma write_runs n : forall s i, s_pc s = MWrite i -> 0 <= i -> s_len s - i = Z.of_nat n ->
  ring_ok (tx_queue (s_drv s)) -> count (tx_queue (s_drv s)) + Z.of_nat n <= BUFFER_SIZE ->
  exists s', Nat.iter (5 * n) main_step s = s' /\ s_pc s' = MWrite (s_len s) /\
    ring_ok (tx_queue (s_drv s')) /\ rx_queue (s_drv s') = rx_queue (s_drv s) /\ base_addr (s_drv s') = base_addr (s_drv s) /\
    contents (tx_queue (s_drv s')) = contents (tx_queue (s_drv s)) ++ page_bytes (s_page s) (8 + i) (Z.of_nat n) /\
    dev (s_drv s') = dev (s_drv s) /\ s_replies s' = s_replies s /\ s_whom s' = s_whom s /\ s_len s' = s_len s.
Proof.
  induction n as [|n IH]; intros s i E Hi Hn Hok Hc.
  - exists s. rewrite app_nil_r. split_and!; try done. rewrite E. f_equal. lia.
  - assert (5 * Datatypes.S n = 5 * n + 5)%nat as -> by lia. set (k := (5 * n + 5)%nat).
    destruct s as [[d b q rq] pc w v pm len page rs req]. simpl in *. subst pc.
    assert (is_full q = false) as Hf by (unfold is_full; apply Z.eqb_neq; lia).
    set (s := Sys (Drv d b q rq) (MWrite i) w v pm len page rs req).
    set (s1 := Sys (Drv d b (enqueue (page (8 + i)) q) rq) (MWrite (i + 1)) w v pm len page rs req).
    assert (Nat.iter 5 main_step s = s1) as E5.
    { change (Nat.iter 5 main_step s) with (main_step (main_step (main_step (main_step (main_step s))))).
      assert (main_step s = goto (MFull i) s) as -> by (unfold main_step; simpl; destruct (Z.ltb_spec i len); [done|lia]).
      assert (main_step (goto (MFull i) s) = goto (MSlot i) s) as -> by (unfold main_step; simpl; by rewrite Hf).
      reflexivity. }
    destruct (ring_enqueue_ok (page (8 + i)) q Hok Hf) as [Hok' Hcont].
    destruct (IH s1 (i + 1)) as (s' & Es & H1 & H2 & H3 & H4 & H5 & H6 & H7 & H8 & H9); simpl; try done; try lia.
    { pose proof (length_contents _ Hok') as L. rewrite Hcont, length_app in L. pose proof (length_contents _ Hok). simpl in L. lia. }
    exists s'. split_and!; try done.
    + unfold k. rewrite Nat.iter_add. by rewrite E5.
    + rewrite H5. simpl. rewrite Hcont, (page_bytes_cons _ (8 + i)), <- app_assoc by lia. simpl. do 3 f_equal; [lia|]. f_equal; lia.
Qed.
End main.

(** ** A concrete UART

    A 16550 whose transmitter always has room. *)
Record uart := Uart16550 { u_in : list Z; u_out : list Z; u_ier : Z }.

Definition uart_read (pa : Z) (d : uart) : Z * Z * uart :=
  let off := pa - 0x10000000 in
  if off =? RBR_THR_DLL_OFFSET then
    match u_in d with [] => (0, 0, d) | b :: l => (0, b, Uart16550 l (u_out d) (u_ier d)) end
  else if off =? IER_DLM_OFFSET then (0, u_ier d, d)
  else if off =? IIR_FCR_OFFSET then
    (0, if Z.testbit (u_ier d) 0 && negb (bool_decide (u_in d = [])) then 4
        else if Z.testbit (u_ier d) 1 then 2 else 1, d)
  else if off =? LSR then (0, Z.lor LSR_THRE (if bool_decide (u_in d = []) then 0 else LSR_DR), d)
  else (0, 0, d).

Definition uart_write (pa v : Z) (d : uart) : Z * uart :=
  let off := pa - 0x10000000 in
  if off =? RBR_THR_DLL_OFFSET then (0, Uart16550 (u_in d) (u_out d ++ [v]) (u_ier d))
  else if off =? IER_DLM_OFFSET then (0, Uart16550 (u_in d) (u_out d) v)
  else (0, d).

#[export] Program Instance uart_16550 : Uart uart :=
  {| uart_base := 0x10000000; dev_read := uart_read; dev_write := uart_write; incoming := u_in; transmitted := u_out;
     available d := negb (bool_decide (u_in d = [])); ready _ := true |}.
Next Obligation.
  intros off d Ho. unfold uart_read. replace (0x10000000 + off - 0x10000000) with off by lia.
  destruct (Z.eqb_spec off RBR_THR_DLL_OFFSET); [done|]. by repeat destruct (_ =? _).
Qed.
Next Obligation.
  intros off v d Ho. unfold uart_write. replace (0x10000000 + off - 0x10000000) with off by lia.
  destruct (Z.eqb_spec off RBR_THR_DLL_OFFSET); [done|]. by destruct (_ =? _).
Qed.
Next Obligation. intros d. unfold uart_read. simpl. split_and!; [done| |done]. by case_bool_decide. Qed.
Next Obligation. intros [[|b l] o e] H; [done|]. by exists b, l, (Uart16550 l o e). Qed.
Next Obligation. intros v d _. by eexists. Qed.

(** ** Runs as lists of events *)

Inductive event := EMain | EIntr | ERecv (m : message).

Definition do_event (masked : bool) (e : event) (s : sys uart) : option (sys uart) :=
  match e with
  | EMain => match s_pc s with MRecv => None | _ => Some (main_step s) end
  | ERecv m => match s_pc s with MRecv => Some (receive m s) | _ => None end
  | EIntr =>
      if masked && in_window (s_pc s) then None
      else match handle_interrupt 20 (s_drv s) with Ret true d => Some (set_drv d s) | _ => None end
  end.
Fixpoint play (masked : bool) (l : list event) (s : sys uart) : option (sys uart) :=
  match l with
  | [] => Some s
  | e :: l => match do_event masked e s with Some s => play masked l s | None => None end
  end.

Lemma play_ok masked l : forall s s', play masked l s = Some s' -> rtc (step masked) s s'.
Proof.
  induction l as [|e l IH]; intros s s' H; cbn [play] in H; [by simplify_eq|].
  destruct (do_event masked e s) as [s1|] eqn:E; [|done]. eapply rtc_l; [|by apply IH]. destruct e as [| |m]; cbn [do_event] in E.
  - assert (s_pc s <> MRecv /\ main_step s = s1) as [Hn <-] by (destruct (s_pc s); naive_solver). by apply step_main.
  - destruct (masked && in_window (s_pc s)) eqn:Hw; [done|].
    destruct (handle_interrupt 20 (s_drv s)) as [[] d|d|e d] eqn:Eh; try done. injection E as <-.
    eapply step_intr; [|exact Eh]. intros ->. exact Hw.
  - assert (s_pc s = MRecv /\ receive m s = s1) as [Hn <-] by (destruct (s_pc s); naive_solver). by apply step_recv.
Qed.

(** The driver after [serial_init], with two bytes on the line. *)
Definition demo_drv : drv uart :=
  let q := Ring (fun _ => 0) 0 0 0 in
  match serial_init 0x10000000 (Drv (Uart16550 [72; 105] [] 0) 0 q q) with
  | Ret _ d => d
  | Panic d | Resume _ d => d
  end.

Lemma demo_drv_ok : sane demo_drv /\ contents (tx_queue demo_drv) = [] /\ contents (rx_queue demo_drv) = [] /\
  transmitted (dev demo_drv) = [] /\ incoming (dev demo_drv) = [72; 105].
Proof.
  split_and!; try reflexivity. split_and!; try reflexivity; apply queue_init_ok.
Qed.

(** A client's page that asks to write one byte, or to read up to [n]. *)
Definition write_page (b : Z) : Z -> Z := fun o => if o =? 0 then 1 else if o =? 8 then b else 0.
Definition read_page (n : Z) : Z -> Z := fun o => if o =? 0 then n else 0.

(** A write of one byte, its interrupt, and a read. *)
Definition demo_run : list event :=
  [EIntr; ERecv (Recv 5 1 PTE_V (write_page 97))] ++ repeat EMain 9 ++ [EIntr; ERecv (Recv 6 0 PTE_V (read_page 8))] ++
  repeat EMain 12.

(** A write of [a], then a write of [b] whose update of [count] is interrupted
    while the UART is ready to send. *)
Definition race_run : list event :=
  [EIntr; ERecv (Recv 5 1 PTE_V (write_page 97))] ++ repeat EMain 9 ++ [ERecv (Recv 5 1 PTE_V (write_page 98))] ++
  repeat EMain 4 ++ [EIntr] ++ repeat EMain 5 ++ [EIntr].

Definition observe (o : option (sys uart)) : option (mpc * list Z * list Z * list (Z * Z) * list Z) :=
  s ← o; Some (s_pc s, s_requested s, u_out (dev (s_drv s)), map (fun r => (rp_to r, rp_val r)) (s_replies s), delivered s).

(** ** The properties *)

Section properties.
Context {D : Type} {U : Uart D}.

(** C28: the bytes on the wire.  In every run of the driver in which no update of
    [count] is interrupted, the UART was given a prefix of what the clients
    asked to write, the rest is still queued when the driver waits for a
    message, and the replies deliver received bytes in the order of arrival,
    none twice. *)
Theorem serial_conserves (d : drv D) s (Hd : sane d) (Htx : contents (tx_queue d) = []) (Hrx : contents (rx_queue d) = [])
    (Hout : transmitted (dev d) = []) (Hrun : rtc (step true) (start d) s) :
  transmitted (dev (s_drv s)) `prefix_of` s_requested s /\
  (s_pc s = MRecv -> s_requested s = transmitted (dev (s_drv s)) ++ contents (tx_queue (s_drv s))) /\
  sublist (delivered s ++ incoming (dev (s_drv s))) (incoming (dev d)).
Proof.
  destruct (inv_steps _ _ _ Hrun (inv_start d Hd Htx Hrx Hout)) as (tx & rx & [Hb [Hok Vt] _ Hs Hg _]). split_and!.
  - rewrite Hs. by apply prefix_app_r.
  - intros E. unfold tx_view, to_write in *. rewrite E in *. by rewrite Hs, app_nil_r, Vt.
  - etransitivity; [|exact Hg]. apply sublist_app; [done|]. by do 2 apply sublist_inserts_l.
Qed.

(** The driver's operations give control back.  The handler's receiving loop
    ends when the line has no more bytes, having queued what fits; its sending
    loop ends when the ring is empty or the UART has no room; a write that fits
    in the ring is answered after finitely many steps of the main thread alone,
    with its bytes queued. *)
Theorem serial_operations_return (s : drv D) (Hs : sane s) :
  (forall fuel, Z.of_nat (length (incoming (dev s))) < Z.of_nat fuel ->
     exists s', handle_received_data fuel s = Ret true s' /\ received s s') /\
  (forall fuel lsr, BUFFER_SIZE < Z.of_nat fuel -> exists s', send_loop fuel lsr s = Ret true s' /\ conserves s s') /\
  (forall t, s_drv t = s -> s_pc t = MWrite 0 -> 0 <= s_len t -> count (tx_queue s) + s_len t <= BUFFER_SIZE ->
     exists t' : sys D, Nat.iter (5 * Z.to_nat (s_len t) + 3) main_step t = t' /\ s_pc t' = MUnmap /\
       contents (tx_queue (s_drv t')) = contents (tx_queue s) ++ page_bytes (s_page t) 8 (s_len t) /\
       s_replies t' = s_replies t ++ [Rep (s_whom t) SERIALREQ_SUCCESS None]).
Proof.
  split_and!.
  - intros fuel Hf. destruct (receive_loop_ok fuel s 0 Hs) as (fin & s' & E & Hr & Ht). rewrite (Ht Hf) in E. by exists s'.
  - intros fuel lsr Hf. destruct (send_loop_ok fuel s lsr Hs) as (fin & s' & E & Hc & Ht). exists s'.
    destruct Hs as (_ & [_ H _] & _). by rewrite Ht in E by lia.
  - intros t <- E Hl Hc. destruct Hs as (Hb & Htx & Hrx).
    destruct (write_runs (Z.to_nat (s_len t)) t 0 E) as (t1 & Et & H1 & H2 & H3 & H4 & H5 & H6 & H7 & H8 & H9); try done; try lia.
    rewrite Nat.add_comm, Nat.iter_add, Et. clear Et.
    change (Nat.iter 3 main_step t1) with (main_step (main_step (main_step t1))).
    assert (main_step t1 = goto MLastIer t1) as ->.
    { unfold main_step. rewrite H1. destruct (Z.ltb_spec (s_len t) (s_len t1)); [lia|done]. }
    unfold main_step at 2. cbn [s_pc goto]. unfold exec, read_reg. cbn [s_drv goto]. rewrite H4, Hb.
    destruct (dev_read (uart_base + IER_DLM_OFFSET) (dev (s_drv t1))) as [[ret v] d].
    unfold main_step, exec, enable_serial_interrupt, write_reg. simpl. unfold mbind, M_bind. simpl.
    destruct (dev_write _ _ d) as [ret' d']. eexists. split; [reflexivity|]. simpl. split_and!; [done| |by rewrite H7, H8].
    by rewrite H5, Z2Nat.id.
Qed.
End properties.

Lemma serial_conserves_witness : exists s, play true demo_run (start demo_drv) = Some s /\
  transmitted (dev (s_drv s)) `prefix_of` s_requested s /\ transmitted (dev (s_drv s)) = [97] /\ delivered s = [72; 105].
Proof.
  destruct demo_drv_ok as (H1 & H2 & H3 & H4 & _).
  assert (observe (play true demo_run (start demo_drv)) = Some (MRecv, [97], [97], [(5, 0); (6, 2)], [72; 105])) as E
    by (vm_compute; reflexivity).
  destruct (play true demo_run (start demo_drv)) as [s|] eqn:Hp; [|done]. exists s. simpl in E. injection E. intros Ed _ Et _ _.
  split_and!; [done| |done|done]. apply (serial_conserves demo_drv s H1 H2 H3 H4 (play_ok _ _ _ _ Hp)).
Defined.

Lemma serial_operations_return_witness : exists s', handle_received_data 5 demo_drv = Ret true s' /\
  contents (rx_queue s') = [72; 105].
Proof.
  destruct demo_drv_ok as (H1 & _ & H3 & _ & H5).
  destruct (serial_operations_return demo_drv H1) as (H & _).
  destruct (H 5%nat ltac:(rewrite H5; done)) as (s' & E & _). exists s'. split; [done|].
  assert (match handle_received_data 5 demo_drv with Ret _ s => contents (rx_queue s) | _ => [] end = [72; 105]) as Hc
    by (vm_compute; reflexivity). by rewrite E in Hc.
Defined.

(** ** What an interrupt inside an update of [count] does

    The handler dequeues a byte between the load of [count] and the store of
    [enqueue]: the count is one too high, and a byte nobody asked for is sent. *)
Theorem interrupted_count : exists s, rtc (step false) (start demo_drv) s /\
  s_requested s = [97; 98] /\ transmitted (dev (s_drv s)) = [97; 98; 0].
Proof.
  assert (observe (play false race_run (start demo_drv)) = Some (MRecv, [97; 98], [97; 98; 0], [(5, 0); (5, 0)], [])) as E
    by (vm_compute; reflexivity).
  destruct (play false race_run (start demo_drv)) as [s|] eqn:Hp; [|done]. exists s. simpl in E. injection E. intros _ _ Et Er _.
  split_and!; [by apply (play_ok _ race_run)|done|done].
Qed.

(** The mask is applied before the shift, so the code of a character timeout,
    6, is never seen; it arrives as 2, received data. *)
Lemma interrupt_code_range iir : 0 <= interrupt_code iir <= 3.
Proof.
  unfold interrupt_code, IIR_IID_MASK, IIR_IID_OFFSET. change 7 with (Z.ones 3). rewrite Z.land_ones, Z.shiftr_div_pow2 by lia.
  change (2 ^ 1) with 2. change (2 ^ 3) with 8. Z.div_mod_to_equations. lia.
Qed.
