(* ===== verification/Uvm.v ===== *)
(** A user process whose pages are shared, as its own code sees it.

    [Proc] gives a process one flat memory; here a page of the process maps to
    a frame, so that two pages, or two processes, can share one.  A frame's
    name stands for its physical page; [v_ext] counts the mappings of a frame
    in other processes, and [v_next] is the first frame the kernel has not
    handed out.  [v_grants] are the kernel's answers to the next requests that
    may need memory, page tables included.

    The pages are the process's own or shared with [PTE_LIBRARY]; copy-on-write
    pages behave as the process's own. *)
From stdpp Require Import gmap.
From S2P Require Import Prelude Mem Mmu Proc.

Record uvm := Uvm {
  v_pt : gmap Z Z;
  v_mem : Z -> Z -> Z;
  v_ext : Z -> Z;
  v_next : Z;
  v_grants : nat -> bool
}.

Definition set_v_pt x p := Uvm x (v_mem p) (v_ext p) (v_next p) (v_grants p).
Definition set_v_mem x p := Uvm (v_pt p) x (v_ext p) (v_next p) (v_grants p).
Definition set_v_ext x p := Uvm (v_pt p) (v_mem p) x (v_next p) (v_grants p).
Definition set_v_grants x p := Uvm (v_pt p) (v_mem p) (v_ext p) (v_next p) x.

Definition v_next_grant (p : uvm) : uvm := set_v_grants (fun n => v_grants p (S n)) p.

(** The page at [va] becomes a fresh zero frame. *)
Definition v_map_zero (va : Z) (p : uvm) : uvm :=
  Uvm (<[upage va := v_next p]> (v_pt p)) (<[v_next p := fun _ => 0]> (v_mem p)) (v_ext p) (v_next p + 1) (v_grants p).

(** The byte at an address of a frame. *)
Definition frame_byte (p : uvm) (va : Z) : Z :=
  match v_pt p !! upage va with Some f => v_mem p f (va mod PAGE_SIZE) | None => 0 end.

(** [n] bytes at [va], inside one page. *)
Definition v_store (n : nat) (va v : Z) (p : uvm) : uvm :=
  match v_pt p !! upage va with
  | Some f => set_v_mem (<[f := store n (v_mem p f) (va mod PAGE_SIZE) v]> (v_mem p)) p
  | None => p
  end.

(** All mappings of a frame. *)
Definition map_refs (m : gmap Z Z) (f : Z) : Z := Z.of_nat (size (filter (fun kv => kv.2 = f) m)).
Definition frame_refs (p : uvm) (f : Z) : Z := v_ext p f + map_refs (v_pt p) f.

Class HasUvm (S : Type) := {
  uvm_of : S -> uvm;
  with_uvm : uvm -> S -> S;
  uvm_of_with p s : uvm_of (with_uvm p s) = p;
  with_uvm_with p q s : with_uvm p (with_uvm q s) = with_uvm p s;
  with_uvm_of s : with_uvm (uvm_of s) s = s
}.

#[export] Program Instance uvm_uvm : HasUvm uvm := {| uvm_of s := s; with_uvm p _ := p |}.
Solve Obligations with done.

Section ops.
Context {S : Type} `{HasUvm S}.

Definition upd_uvm (f : uvm -> uvm) : M S unit := modify (fun s => with_uvm (f (uvm_of s)) s).

Definition v_mapped (va : Z) (s : S) : bool := bool_decide (is_Some (v_pt (uvm_of s) !! upage va)).

(** The kernel's answer to a request that may need memory. *)
Definition v_grant : M S bool :=
  g ← get (fun s => v_grants (uvm_of s) 0);
  upd_uvm v_next_grant ;;
  mret g.

Definition v_touch (va : Z) : M S unit :=
  mapped ← get (v_mapped va);
  if (mapped : bool) then mret tt
  else if uva_illegal va then panic
  else
    g ← v_grant;
    if (g : bool) then upd_uvm (v_map_zero va) else panic.

(** A load or a store of [n] bytes inside one page. *)
Definition vload (n : nat) (va : Z) : M S Z :=
  v_touch va ;; get (fun s => load n (frame_byte (uvm_of s)) va).
Definition vstore (n : nat) (va v : Z) : M S unit := v_touch va ;; upd_uvm (v_store n va v).

Definition sys_alloc (va : Z) : M S Z :=
  if uva_illegal va then mret (- E_INVAL)
  else
    g ← v_grant;
    if (g : bool) then upd_uvm (v_map_zero va) ;; mret 0 else mret (- E_NO_MEM).

(** [syscall_mem_map(0, src, 0, dst, perm)] *)
Definition sys_map (src dst : Z) : M S Z :=
  if uva_illegal src || uva_illegal dst then mret (- E_INVAL)
  else
    f ← get (fun s => v_pt (uvm_of s) !! upage src);
    match f with
    | None => mret (- E_INVAL)
    | Some f =>
        g ← v_grant;
        if (g : bool) then upd_uvm (fun p => set_v_pt (<[upage dst := f]> (v_pt p)) p) ;; mret 0 else mret (- E_NO_MEM)
    end.

Definition sys_unmap (va : Z) : M S Z :=
  if uva_illegal va then mret (- E_INVAL)
  else upd_uvm (fun p => set_v_pt (delete (upage va) (v_pt p)) p) ;; mret 0.

(** [syscall_get_physical_address(va)] is not 0 *)
Definition sys_has_page (va : Z) : M S bool := get (v_mapped va).

Definition sys_pageref (va : Z) : M S Z :=
  get (fun s => match v_pt (uvm_of s) !! upage va with Some f => frame_refs (uvm_of s) f | None => 0 end).

(** ** Steps *)

Lemma v_touch_ok va s : v_mapped va s = true -> v_touch va s = Ret tt s.
Proof. intros Hm. unfold v_touch. by rewrite bind_get, Hm. Qed.

Lemma vload_ok n va s : v_mapped va s = true -> vload n va s = Ret (load n (frame_byte (uvm_of s)) va) s.
Proof. intros Hm. unfold vload. by rewrite (bind_ret _ _ _ _ _ (v_touch_ok va s Hm)). Qed.

Lemma vstore_ok n va v s : v_mapped va s = true -> vstore n va v s = Ret tt (with_uvm (v_store n va v (uvm_of s)) s).
Proof. intros Hm. unfold vstore. by rewrite (bind_ret _ _ _ _ _ (v_touch_ok va s Hm)). Qed.

Lemma sys_unmap_ok va s : uva_illegal va = false ->
  sys_unmap va s = Ret 0 (with_uvm (set_v_pt (delete (upage va) (v_pt (uvm_of s))) (uvm_of s)) s).
Proof. intros Hl. unfold sys_unmap. by rewrite Hl. Qed.

Lemma v_grant_ok s : v_grant s = Ret (v_grants (uvm_of s) 0) (with_uvm (v_next_grant (uvm_of s)) s).
Proof. done. Qed.

Lemma sys_alloc_ok va s : uva_illegal va = false ->
  sys_alloc va s =
    if v_grants (uvm_of s) 0 then Ret 0 (with_uvm (v_map_zero va (v_next_grant (uvm_of s))) s)
    else Ret (- E_NO_MEM) (with_uvm (v_next_grant (uvm_of s)) s).
Proof.
  intros Hl. unfold sys_alloc. rewrite Hl, (bind_ret _ _ _ _ _ (v_grant_ok s)).
  destruct (v_grants (uvm_of s) 0); [|done]. unfold upd_uvm. by rewrite bind_modify, uvm_of_with, with_uvm_with.
Qed.

Lemma sys_map_ok src dst s f : uva_illegal src = false -> uva_illegal dst = false -> v_pt (uvm_of s) !! upage src = Some f ->
  sys_map src dst s =
    if v_grants (uvm_of s) 0
    then Ret 0 (with_uvm (set_v_pt (<[upage dst := f]> (v_pt (uvm_of s))) (v_next_grant (uvm_of s))) s)
    else Ret (- E_NO_MEM) (with_uvm (v_next_grant (uvm_of s)) s).
Proof.
  intros Hs Hd Hf. unfold sys_map. rewrite Hs, Hd. cbn [orb]. rewrite bind_get, Hf, (bind_ret _ _ _ _ _ (v_grant_ok s)).
  destruct (v_grants (uvm_of s) 0); [|done]. unfold upd_uvm. by rewrite bind_modify, uvm_of_with, with_uvm_with.
Qed.

Lemma sys_map_unmapped src dst s : v_pt (uvm_of s) !! upage src = None -> sys_map src dst s = Ret (- E_INVAL) s.
Proof. intros Hf. unfold sys_map. destruct (_ || _); [done|]. by rewrite bind_get, Hf. Qed.
End ops.

(** ** Frames *)

(** The kernel's next frame is new. *)
Record frames_ok (p : uvm) : Prop := {
  fr_own : forall k f, v_pt p !! k = Some f -> f < v_next p;
  fr_ext : forall f, 0 <= v_ext p f;
  fr_new : forall f, v_next p <= f -> v_ext p f = 0
}.

Lemma frames_ok_grant p : frames_ok p -> frames_ok (v_next_grant p).
Proof. by intros [H1 H2 H3]. Qed.

Lemma frames_ok_zero va p : frames_ok p -> frames_ok (v_map_zero va p).
Proof.
  intros [H1 H2 H3]. split; simpl; [|done|intros f Hf; apply H3; lia].
  intros k f [[_ <-]|[_ Hk]]%lookup_insert_Some; [lia|]. specialize (H1 k f Hk). lia.
Qed.

Lemma frames_ok_map dst f p : frames_ok p -> f < v_next p -> frames_ok (set_v_pt (<[dst := f]> (v_pt p)) p).
Proof.
  intros [H1 H2 H3] Hf. split; simpl; [|done|done]. intros k g [[_ <-]|[_ Hk]]%lookup_insert_Some; [done|by eapply H1].
Qed.

Lemma frames_ok_unmap k p : frames_ok p -> frames_ok (set_v_pt (delete k (v_pt p)) p).
Proof. intros [H1 H2 H3]. split; simpl; [|done|done]. intros k' g [_ Hk]%lookup_delete_Some. by eapply H1. Qed.

(** The mappings of a frame when a page of the process changes. *)
Lemma map_refs_insert m k f g : m !! k = None -> map_refs (<[k := f]> m) g = map_refs m g + (if decide (f = g) then 1 else 0).
Proof.
  intros Hk. unfold map_refs. rewrite map_filter_insert. simpl. destruct (decide (f = g)) as [->|Hne].
  - rewrite map_size_insert_None; [lia|]. rewrite map_lookup_filter_None. by left.
  - rewrite delete_id by done. lia.
Qed.

Lemma map_refs_delete m k f g : m !! k = Some f -> map_refs (delete k m) g = map_refs m g - (if decide (f = g) then 1 else 0).
Proof.
  intros Hk. rewrite <- (insert_delete_id m k f Hk) at 2. rewrite map_refs_insert by apply lookup_delete_eq. lia.
Qed.

Lemma map_refs_fresh m f : (forall k, m !! k <> Some f) -> map_refs m f = 0.
Proof.
  intros H. unfold map_refs. replace (filter (fun kv : Z * Z => kv.2 = f) m) with (empty : gmap Z Z); [done|].
  symmetry. apply map_empty. intros k. apply map_lookup_filter_None. right. intros g Hk E. simpl in E. subst g. by apply (H k).
Qed.

Lemma map_refs_nonneg m f : 0 <= map_refs m f.
Proof. unfold map_refs. lia. Qed.

(** ** Words in a frame *)

#[local] Transparent load store.
Lemma load_same_bytes n : forall (m m' : Z -> Z) a b, (forall x, 0 <= x < Z.of_nat n -> m (a + x) = m' (b + x)) -> load n m a = load n m' b.
Proof.
  induction n as [|n IH]; intros m m' a b H; [done|]. cbn [load]. f_equal.
  - f_equal. specialize (H 0). rewrite !Z.add_0_r in H. apply H. lia.
  - f_equal. apply IH. intros x Hx. replace (a + 1 + x) with (a + (1 + x)) by lia. replace (b + 1 + x) with (b + (1 + x)) by lia.
    apply H. lia.
Qed.
#[local] Opaque load store.

Lemma upage_in_page va x : 0 <= x -> va mod PAGE_SIZE + x < PAGE_SIZE ->
  upage (va + x) = upage va /\ (va + x) mod PAGE_SIZE = va mod PAGE_SIZE + x.
Proof. unfold upage, PAGE_SIZE. intros H1 H2. split; Z.div_mod_to_equations; lia. Qed.

Lemma load_frame n p va f : v_pt p !! upage va = Some f -> va mod PAGE_SIZE + Z.of_nat n <= PAGE_SIZE ->
  load n (frame_byte p) va = load n (v_mem p f) (va mod PAGE_SIZE).
Proof.
  intros Hf Hn. apply load_same_bytes. intros x Hx. unfold frame_byte.
  destruct (upage_in_page va x ltac:(lia) ltac:(lia)) as [-> ->]. by rewrite Hf.
Qed.
