(* ===== verification/Fd.v ===== *)
(** user/lib/fd.c: file descriptors.

    A descriptor is a page of the process: descriptor [i] has its [struct Fd]
    at [INDEX2FD i] and its data in the 4 MB at [INDEX2DATA i].  The page is
    shared with the server that opened it, with children, and with other
    descriptors of the process after [dup]; the table is the process's page
    table.  The functions are written for any table of devices, as the code's
    calls through [struct Dev] are. *)
From stdpp Require Import gmap.
From S2P Require Import Prelude Mem Mmu Proc Uvm.

Definition MAXFD : Z := 32.
Definition FILEBASE : Z := 0x60000000.
Definition PTMAP : Z := 4096.
Definition PDMAP : Z := 4194304.
Definition FDTABLE : Z := FILEBASE - PDMAP.
Definition O_RDONLY : Z := 0.
Definition O_WRONLY : Z := 1.
Definition O_RDWR : Z := 2.
Definition O_ACCMODE : Z := 3.

Definition INDEX2FD (i : Z) : Z := u64 (FDTABLE + i * PTMAP).
Definition INDEX2DATA (i : Z) : Z := u64 (FILEBASE + i * PDMAP).

Definition fd2num (fd : Z) : Z := i32 (u64 (fd - FDTABLE) / PTMAP).
Definition fd2data (fd : Z) : Z := INDEX2DATA (fd2num fd).
Definition num2fd (fd : Z) : Z := i32 (fd * PTMAP + FDTABLE).

(** [struct Dev]; [dev_addr] is where it is. *)
Record Dev (S : Type) := MkDev {
  dev_id : Z;
  dev_addr : Z;
  dev_read : Z -> Z -> Z -> Z -> M S Z;
  dev_write : Z -> Z -> Z -> Z -> M S Z;
  dev_close : Z -> M S Z;
  dev_stat : Z -> Z -> M S Z
}.
Arguments MkDev {S}.
Arguments dev_id {S}.
Arguments dev_addr {S}.
Arguments dev_read {S}.
Arguments dev_write {S}.
Arguments dev_close {S}.
Arguments dev_stat {S}.

Section fd.
Context {S : Type} `{HasUvm S}.
Variable devtab : list (Dev S).

Fixpoint dev_find (id : Z) (l : list (Dev S)) : option (Dev S) :=
  match l with
  | [] => None
  | d :: l => if dev_id d =? id then Some d else dev_find id l
  end.
Definition dev_lookup (id : Z) : option (Dev S) := dev_find (i32 id) devtab.

Definition fd_try (fdno : Z) : M S (option (Z * Z)) :=
  used ← sys_has_page (INDEX2FD fdno);
  mret (if (used : bool) then None else Some (0, INDEX2FD fdno)).

(** The result code and the descriptor. *)
Definition fd_alloc : M S (Z * Z) :=
  r ← mfor_ret (Z.to_nat (MAXFD - 1)) 0 fd_try;
  mret (default (- E_MAX_OPEN, 0) r).

Definition fd_close (fd : Z) : M S unit := r ← sys_unmap fd; panic_on r.

Definition fd_lookup (fdnum : Z) : M S (Z * Z) :=
  if MAXFD <=? fdnum then mret (- E_INVAL, 0)
  else
    used ← sys_has_page (INDEX2FD fdnum);
    mret (if (used : bool) then (0, INDEX2FD fdnum) else (- E_INVAL, 0)).

(** The two lookups [close], [read], [write] and [fstat] begin with. *)
Definition with_dev (fdnum : Z) (k : Z -> Dev S -> M S Z) : M S Z :=
  '(r, fd) ← fd_lookup fdnum;
  if r <? 0 then mret r
  else
    id ← vload 4 fd;
    match dev_lookup id with
    | None => mret (- E_INVAL)
    | Some dev => k fd dev
    end.

Definition close (fdnum : Z) : M S Z :=
  with_dev fdnum (fun fd dev =>
    r ← dev_close dev fd;
    fd_close fd ;;
    mret r).

Definition close_all : M S unit := mfor (Z.to_nat MAXFD) 0 (fun i => close i ;; mret tt).

(** One page of data; the result is an error. *)
Definition dup_page (ova nva i : Z) : M S (option Z) :=
  mapped ← sys_has_page (ova + i * PTMAP);
  if (mapped : bool) then
    r ← sys_map (ova + i * PTMAP) (nva + i * PTMAP);
    mret (if r <? 0 then Some r else None)
  else mret None.

(** [err:] *)
Definition dup_undo (newfd nva r : Z) : M S Z :=
  e ← sys_unmap newfd;
  panic_on e ;;
  mfor (Z.to_nat (PDMAP / PTMAP)) 0 (fun i => e ← sys_unmap (nva + i * PTMAP); panic_on e) ;;
  mret r.

Definition dup (oldfdnum newfdnum : Z) : M S Z :=
  '(r, oldfd) ← fd_lookup oldfdnum;
  if r <? 0 then mret r
  else
    close newfdnum ;;
    let newfd := INDEX2FD newfdnum in
    let ova := fd2data oldfd in
    let nva := fd2data newfd in
    mapped ← sys_has_page ova;
    e ← (if (mapped : bool) then mfor_ret (Z.to_nat (PDMAP / PTMAP)) 0 (dup_page ova nva) else mret None);
    match e with
    | Some r => dup_undo newfd nva r
    | None =>
        r ← sys_map oldfd newfd;
        if r <? 0 then dup_undo newfd nva r else mret newfdnum
    end.

(** [fd->fd_offset += r] *)
Definition advance (fd r : Z) : M S unit :=
  off ← vload 4 (fd + 4);
  vstore 4 (fd + 4) (u32 (off + r)).

Definition read (fdnum buf n : Z) : M S Z :=
  with_dev fdnum (fun fd dev =>
    omode ← vload 4 (fd + 8);
    if Z.land omode O_ACCMODE =? O_WRONLY then mret (- E_INVAL)
    else
      off ← vload 4 (fd + 4);
      r ← dev_read dev fd buf n off;
      if r <? 0 then mret r else advance fd r ;; mret r).

(** The value is [None] when the fuel runs out. *)
Fixpoint readn_loop (fuel : nat) (fdnum buf n tot : Z) : M S (option Z) :=
  match fuel with
  | O => mret None
  | Datatypes.S fuel =>
      if u32 tot <? n then
        m ← read fdnum (buf + tot) (u32 (n - tot));
        if m <? 0 then mret (Some m)
        else if m =? 0 then mret (Some tot)
        else readn_loop fuel fdnum buf n (i32 (tot + m))
      else mret (Some tot)
  end.
Definition readn (fdnum buf n : Z) : M S (option Z) := readn_loop (Datatypes.S (Z.to_nat n)) fdnum buf n 0.

Definition write (fdnum buf n : Z) : M S Z :=
  with_dev fdnum (fun fd dev =>
    omode ← vload 4 (fd + 8);
    if Z.land omode O_ACCMODE =? O_RDONLY then mret (- E_INVAL)
    else
      off ← vload 4 (fd + 4);
      r ← dev_write dev fd buf n off;
      (if 0 <? r then advance fd r else mret tt) ;;
      mret r).

Definition seek (fdnum offset : Z) : M S Z :=
  '(r, fd) ← fd_lookup fdnum;
  if r <? 0 then mret r else vstore 4 (fd + 4) offset ;; mret 0.

(** The fields of [struct Stat]. *)
Definition fstat (fdnum stat : Z) : M S Z :=
  with_dev fdnum (fun fd dev =>
    vstore 1 stat 0 ;;
    vstore 4 (stat + 128) 0 ;;
    vstore 4 (stat + 132) 0 ;;
    vstore 8 (stat + 136) (dev_addr dev) ;;
    dev_stat dev fd stat).
End fd.

(** ** Where a descriptor's pages are *)

Definition fdp (i : Z) : Z := 392192 + i.
Definition datap (i j : Z) : Z := 393216 + i * 1024 + j.

Lemma INDEX2FD_in i : 0 <= i < MAXFD -> INDEX2FD i = FDTABLE + i * PTMAP.
Proof. unfold MAXFD, INDEX2FD, u64, FDTABLE, FILEBASE, PDMAP, PTMAP. intros Hi. apply Z.mod_small. lia. Qed.

Lemma fd_page i : 0 <= i < MAXFD -> upage (INDEX2FD i) = fdp i.
Proof.
  intros Hi. rewrite INDEX2FD_in by done. unfold upage, fdp, FDTABLE, FILEBASE, PDMAP, PTMAP, PAGE_SIZE.
  replace (0x60000000 - 4194304 + i * 4096) with ((392192 + i) * 4096) by lia. by rewrite Z.div_mul.
Qed.

Lemma fd_legal i : 0 <= i < MAXFD -> uva_illegal (INDEX2FD i) = false.
Proof.
  intros Hi. rewrite INDEX2FD_in by done. unfold MAXFD in Hi. unfold uva_illegal, FDTABLE, FILEBASE, PDMAP, PTMAP.
  apply orb_false_iff. split; [apply Z.ltb_ge; change UTEMP with 4186112|apply Z.leb_gt; change UTOP with 267361714176]; lia.
Qed.

Lemma fd2num_in i : 0 <= i < MAXFD -> fd2num (INDEX2FD i) = i.
Proof.
  intros Hi. rewrite INDEX2FD_in by done. unfold MAXFD in Hi. unfold fd2num, u64, FDTABLE, FILEBASE, PDMAP, PTMAP.
  replace (0x60000000 - 4194304 + i * 4096 - (0x60000000 - 4194304)) with (i * 4096) by lia.
  rewrite Z.mod_small, Z.div_mul by lia. apply i32_small. lia.
Qed.

Lemma fd2data_in i : 0 <= i < MAXFD -> fd2data (INDEX2FD i) = FILEBASE + i * PDMAP.
Proof.
  intros Hi. unfold fd2data. rewrite fd2num_in by done. unfold MAXFD in Hi. unfold INDEX2DATA, u64, FILEBASE, PDMAP.
  apply Z.mod_small. lia.
Qed.

Lemma data_page i j : upage (FILEBASE + i * PDMAP + j * PTMAP) = datap i j.
Proof.
  unfold upage, datap, FILEBASE, PDMAP, PTMAP, PAGE_SIZE.
  replace (0x60000000 + i * 4194304 + j * 4096) with ((393216 + i * 1024 + j) * 4096) by lia. by rewrite Z.div_mul.
Qed.

Lemma data_legal i j : 0 <= i < MAXFD -> 0 <= j < 1024 -> uva_illegal (FILEBASE + i * PDMAP + j * PTMAP) = false.
Proof.
  unfold MAXFD, uva_illegal, FILEBASE, PDMAP, PTMAP. intros Hi Hj.
  apply orb_false_iff. split; [apply Z.ltb_ge; change UTEMP with 4186112|apply Z.leb_gt; change UTOP with 267361714176]; lia.
Qed.

(** The fields of a [struct Fd] lie in its page. *)
Lemma fd_field i o : 0 <= i < MAXFD -> 0 <= o < PAGE_SIZE -> upage (INDEX2FD i + o) = fdp i.
Proof.
  intros Hi Ho. rewrite <- fd_page by done. apply upage_offset; [|done]. rewrite INDEX2FD_in by done.
  unfold FDTABLE, FILEBASE, PDMAP, PTMAP, PAGE_SIZE. replace (0x60000000 - 4194304 + i * 4096) with ((392192 + i) * 4096) by lia.
  by rewrite Z.mod_mul.
Qed.

(** ** Lookups *)

Section lookups.
Context {S : Type} `{HasUvm S}.

Definition pt (s : S) : gmap Z Z := v_pt (uvm_of s).

Lemma has_fd s i : 0 <= i < MAXFD -> sys_has_page (INDEX2FD i) s = Ret (bool_decide (is_Some (pt s !! fdp i))) s.
Proof. intros Hi. unfold sys_has_page, get, v_mapped. by rewrite fd_page. Qed.

Lemma fd_alloc_found s i : 0 <= i < MAXFD - 1 -> pt s !! fdp i = None ->
  (forall j, 0 <= j < i -> is_Some (pt s !! fdp j)) -> fd_alloc s = Ret (0, INDEX2FD i) s.
Proof.
  unfold MAXFD. intros Hi Hfree Hused. unfold fd_alloc.
  assert (forall j, 0 <= j < 31 -> fd_try j s = Ret (if bool_decide (is_Some (pt s !! fdp j)) then None else Some (0, INDEX2FD j)) s) as Ht.
  { intros j Hj. unfold fd_try. rewrite (bind_ret _ _ _ _ _ (has_fd s j ltac:(unfold MAXFD; lia))). done. }
  rewrite (bind_ret _ _ s (Some (0, INDEX2FD i)) s); [done|]. apply (mfor_ret_some _ (Z.to_nat i)).
  - unfold MAXFD. lia.
  - intros j Hj. rewrite Ht by lia. rewrite bool_decide_true; [done|]. apply Hused. lia.
  - rewrite Z.add_0_l, Z2Nat.id, Ht by lia. rewrite Hfree. by rewrite bool_decide_false by by intros [].
Qed.

Lemma fd_alloc_full s : (forall j, 0 <= j < MAXFD - 1 -> is_Some (pt s !! fdp j)) -> fd_alloc s = Ret (- E_MAX_OPEN, 0) s.
Proof.
  unfold MAXFD. intros Hused. unfold fd_alloc. rewrite (bind_ret _ _ s None s); [done|]. apply mfor_ret_none.
  unfold MAXFD. intros j Hj. unfold fd_try. rewrite (bind_ret _ _ _ _ _ (has_fd s j ltac:(unfold MAXFD; lia))).
  rewrite bool_decide_true; [done|]. apply Hused. lia.
Qed.

Lemma fd_lookup_ok s i : 0 <= i -> fd_lookup i s =
  Ret (if (i <? MAXFD) && bool_decide (is_Some (pt s !! fdp i)) then (0, INDEX2FD i) else (- E_INVAL, 0)) s.
Proof.
  intros Hi. unfold fd_lookup. destruct (Z.leb_spec MAXFD i), (Z.ltb_spec i MAXFD); try lia; [done|].
  rewrite (bind_ret _ _ _ _ _ (has_fd s i ltac:(lia))). by destruct (bool_decide _).
Qed.

(** A negative number passes the bound and leads below the table. *)
Lemma fd_lookup_negative s : v_mapped (FDTABLE - PTMAP) s = true -> fd_lookup (-1) s = Ret (0, FDTABLE - PTMAP) s.
Proof.
  intros Hm. unfold fd_lookup. change (MAXFD <=? -1) with false. cbv iota. change (INDEX2FD (-1)) with (FDTABLE - PTMAP).
  unfold sys_has_page. by rewrite bind_get, Hm.
Qed.
End lookups.

(** ** dup *)

Section dup.
Context {S : Type} `{HasUvm S}.

(** Nothing but the page table and the kernel's next answers changed. *)
Record remapped (s s' : S) : Prop := {
  rm_rest : s' = with_uvm (uvm_of s') s;
  rm_mem : v_mem (uvm_of s') = v_mem (uvm_of s);
  rm_ext : v_ext (uvm_of s') = v_ext (uvm_of s)
}.

#[export] Instance remapped_preorder : PreOrder remapped.
Proof.
  split.
  - intros s. split; [by rewrite with_uvm_of|done|done].
  - intros s1 s2 s3 [A1 A2 A3] [B1 B2 B3]. split; [|congruence..].
    transitivity (with_uvm (uvm_of s3) s2); [exact B1|]. rewrite A1. by rewrite with_uvm_with.
Qed.

Lemma remapped_with p s : v_mem p = v_mem (uvm_of s) -> v_ext p = v_ext (uvm_of s) -> remapped s (with_uvm p s).
Proof. intros H1 H2. by split; rewrite uvm_of_with. Qed.

(** Mapping and unmapping a page, as seen by the page table. *)
Lemma map_step s src dst f : uva_illegal src = false -> uva_illegal dst = false -> pt s !! upage src = Some f ->
  exists r s', sys_map src dst s = Ret r s' /\ remapped s s' /\
    ((r = 0 /\ pt s' = <[upage dst := f]> (pt s)) \/ (r = - E_NO_MEM /\ pt s' = pt s)).
Proof.
  intros Hs Hd Hf. rewrite (sys_map_ok _ _ _ _ Hs Hd Hf). unfold pt. destruct (v_grants (uvm_of s) 0).
  - eexists _, _. split; [done|]. rewrite uvm_of_with. split; [by apply remapped_with|by left].
  - eexists _, _. split; [done|]. rewrite uvm_of_with. split; [by apply remapped_with|by right].
Qed.

Lemma unmap_step s va : uva_illegal va = false ->
  exists s', sys_unmap va s = Ret 0 s' /\ remapped s s' /\ pt s' = delete (upage va) (pt s).
Proof.
  intros Hl. rewrite (sys_unmap_ok _ _ Hl). eexists. split; [done|]. unfold pt. rewrite uvm_of_with.
  split; [by apply remapped_with|done].
Qed.

Variables (old new : Z).
Hypothesis Hold : 0 <= old < MAXFD.
Hypothesis Hnew : 0 <= new < MAXFD.
Hypothesis Hne : old <> new.

(** The pages of a descriptor's data. *)
Definition data_of (i k : Z) : Prop := exists j, 0 <= j < 1024 /\ k = datap i j.

Lemma datap_old_new i j : 0 <= i < 1024 -> 0 <= j < 1024 -> datap old i <> datap new j.
Proof. unfold datap. intros. nia. Qed.

Lemma fdp_not_data i j k : 0 <= i < MAXFD -> 0 <= j -> 0 <= k -> fdp i <> datap j k.
Proof. unfold fdp, datap, MAXFD. intros. nia. Qed.

(** The state of the copying loop before page [n]. *)
Definition copied (s0 : S) (n : Z) (s : S) : Prop :=
  remapped s0 s /\
  (forall j, 0 <= j < n -> pt s !! datap new j = pt s0 !! datap old j) /\
  (forall k, (forall j, 0 <= j < n -> k <> datap new j) -> pt s !! k = pt s0 !! k).

(** The state of a failed copy. *)
Definition spoiled (s0 : S) (r : Z) (s : S) : Prop :=
  r = - E_NO_MEM /\ remapped s0 s /\ (forall k, ~ data_of new k -> pt s !! k = pt s0 !! k).

Lemma fd_dup_page_ok s0 n s : 0 <= n < 1024 -> pt s0 !! datap new n = None -> copied s0 n s ->
  exists r s', dup_page (FILEBASE + old * PDMAP) (FILEBASE + new * PDMAP) n s = Ret r s' /\
    match r with None => copied s0 (n + 1) s' | Some r => spoiled s0 r s' end.
Proof.
  intros Hn Hfree (Hr & Hc & Hk). unfold dup_page, sys_has_page. rewrite bind_get. unfold v_mapped. fold (pt s).
  rewrite data_page.
  assert (pt s !! datap old n = pt s0 !! datap old n) as Eo by (apply Hk; intros j Hj; apply datap_old_new; lia).
  rewrite Eo. destruct (pt s0 !! datap old n) as [f|] eqn:Ef.
  - rewrite bool_decide_true by eauto. cbv iota.
    destruct (map_step s (FILEBASE + old * PDMAP + n * PTMAP) (FILEBASE + new * PDMAP + n * PTMAP) f) as (r & s' & E & Hr' & Hcase).
    { by apply data_legal. } { by apply data_legal. } { by rewrite data_page. }
    rewrite (bind_ret _ _ _ _ _ E). rewrite data_page in Hcase. destruct Hcase as [[-> Ep]|[-> Ep]].
    + exists None, s'. split; [done|]. split; [by etransitivity|]. rewrite Ep. split.
      * intros j Hj. destruct (decide (j = n)) as [->|Hjn]; [by rewrite lookup_insert_eq, Ef|].
        rewrite lookup_insert_ne by (unfold datap; lia). apply Hc. lia.
      * intros k Hk'. rewrite lookup_insert_ne by (intros <-; by apply (Hk' n); [lia|]). apply Hk. intros j Hj. apply Hk'. lia.
    + exists (Some (- E_NO_MEM)), s'. split; [done|]. split; [done|]. split; [by etransitivity|]. intros k Hd. rewrite Ep.
      apply Hk. intros j Hj ->. apply Hd. exists j. split; [lia|done].
  - rewrite bool_decide_false by by intros []. cbv iota. exists None, s. split; [done|]. split; [done|]. split.
    + intros j Hj. destruct (decide (j = n)) as [->|Hjn]; [|apply Hc; lia].
      rewrite Ef, Hk; [done|]. intros j Hj'. unfold datap. lia.
    + intros k Hk'. apply Hk. intros j Hj. apply Hk'. lia.
Qed.

Lemma dup_undo_ok s0 r s : spoiled s0 r s -> pt s0 !! fdp new = None -> (forall j, 0 <= j < 1024 -> pt s0 !! datap new j = None) ->
  exists s', dup_undo (INDEX2FD new) (FILEBASE + new * PDMAP) r s = Ret r s' /\ remapped s0 s' /\ pt s' = pt s0.
Proof.
  intros (-> & Hr & Hk) Hfd Hdata. unfold dup_undo.
  destruct (unmap_step s (INDEX2FD new) (fd_legal new Hnew)) as (s1 & E1 & Hr1 & Ep1). rewrite (bind_ret _ _ _ _ _ E1).
  rewrite fd_page in Ep1 by done. change (panic_on 0) with (mret (M := M S) tt). rewrite bind_mret.
  destruct (mfor_inv (fun n s' => remapped s0 s' /\ (forall j, 0 <= j < n -> pt s' !! datap new j = None) /\
    forall k, ~ data_of new k -> pt s' !! k = pt s0 !! k)
    (fun i => e ← sys_unmap (FILEBASE + new * PDMAP + i * PTMAP); panic_on e) (Z.to_nat (PDMAP / PTMAP)) 0 s1)
    as (s2 & E2 & Hr2 & Hd2 & Hk2).
  - split; [by etransitivity|]. split; [intros j Hj; lia|]. intros k Hnd. rewrite Ep1. destruct (decide (fdp new = k)) as [<-|Hne'].
    + by rewrite lookup_delete_eq, Hfd.
    + rewrite lookup_delete_ne by done. by apply Hk.
  - intros n s' Hn (Hr' & Hd' & Hk'). change (Z.of_nat (Z.to_nat (PDMAP / PTMAP))) with 1024 in Hn.
    destruct (unmap_step s' _ (data_legal new n Hnew ltac:(lia))) as (s3 & E3 & Hr3 & Ep3). exists s3.
    rewrite (bind_ret _ _ _ _ _ E3). rewrite data_page in Ep3. split; [done|]. split; [by etransitivity|]. rewrite Ep3. split.
    + intros j Hj. destruct (decide (datap new n = datap new j)) as [->|Hnj]; [by rewrite lookup_delete_eq|].
      rewrite lookup_delete_ne by done. apply Hd'. assert (j <> n) by congruence. lia.
    + intros k Hnd. rewrite lookup_delete_ne; [by apply Hk'|]. intros <-. apply Hnd. exists n. split; [lia|done].
  - rewrite (bind_ret _ _ _ _ _ E2). exists s2. split; [done|]. split; [done|]. apply map_eq. intros k.
    change (0 + Z.of_nat (Z.to_nat (PDMAP / PTMAP))) with 1024 in Hd2.
    destruct (decide (393216 + new * 1024 <= k < 393216 + new * 1024 + 1024)) as [Hin|Hout].
    + replace k with (datap new (k - (393216 + new * 1024))) by (unfold datap; lia). rewrite Hd2, Hdata by lia. done.
    + apply Hk2. intros (j & Hj & ->). apply Hout. unfold datap. lia.
Qed.

(** The data of [old] in the place of that of [new]. *)
Definition duplicated (f : Z) (s s' : S) : Prop :=
  pt s' !! fdp new = Some f /\
  (forall j, 0 <= j < 1024 -> pt s' !! datap new j = if bool_decide (is_Some (pt s !! datap old 0)) then pt s !! datap old j else None) /\
  (forall k, k <> fdp new -> ~ data_of new k -> pt s' !! k = pt s !! k).

Lemma close_unused devtab s i : 0 <= i < MAXFD -> pt s !! fdp i = None -> close devtab i s = Ret (- E_INVAL) s.
Proof.
  intros Hi Hn. unfold close, with_dev. rewrite (bind_ret _ _ _ _ _ (fd_lookup_ok s i ltac:(lia))), Hn.
  rewrite bool_decide_false, andb_false_r by by intros []. done.
Qed.

(** The last step of [dup], after the data pages. *)
Lemma dup_fd_ok s0 s f : pt s0 !! fdp old = Some f -> pt s0 !! fdp new = None ->
  (forall j, 0 <= j < 1024 -> pt s0 !! datap new j = None) -> remapped s0 s ->
  (forall k, ~ data_of new k -> pt s !! k = pt s0 !! k) ->
  (forall j, 0 <= j < 1024 -> pt s !! datap new j = if bool_decide (is_Some (pt s0 !! datap old 0)) then pt s0 !! datap old j else None) ->
  exists r s', (r ← sys_map (INDEX2FD old) (INDEX2FD new);
      if r <? 0 then dup_undo (INDEX2FD new) (FILEBASE + new * PDMAP) r else mret new) s = Ret r s' /\ remapped s0 s' /\
    ((r = new /\ duplicated f s0 s') \/ (r = - E_NO_MEM /\ pt s' = pt s0)).
Proof.
  intros Hf Hfree Hdata Hr Hk Hd.
  assert (forall i j, 0 <= i < MAXFD -> 0 <= j < 1024 -> fdp i <> datap new j) as Hfd by (intros; apply fdp_not_data; lia).
  destruct (map_step s (INDEX2FD old) (INDEX2FD new) f) as (r & s1 & E & Hr1 & Hcase); [by apply fd_legal..| |].
  { rewrite fd_page, Hk; [done| |done]. intros (j & Hj & Ej). by apply (Hfd old j). }
  rewrite (bind_ret _ _ _ _ _ E). rewrite fd_page in Hcase by done. destruct Hcase as [[-> Ep]|[-> Ep]].
  - change (0 <? 0) with false. exists new, s1. split; [done|]. split; [by etransitivity|]. left. split; [done|].
    unfold duplicated. rewrite Ep. split_and!.
    + by rewrite lookup_insert_eq.
    + intros j Hj. rewrite lookup_insert_ne by (by apply Hfd). by apply Hd.
    + intros k Hk1 Hk2. rewrite lookup_insert_ne by done. by apply Hk.
  - change (- E_NO_MEM <? 0) with true. cbv iota.
    destruct (dup_undo_ok s0 (- E_NO_MEM) s1) as (s2 & E2 & Hr2 & Ep2); try done.
    { split; [done|]. split; [by etransitivity|]. intros k Hnd. rewrite Ep. by apply Hk. }
    exists (- E_NO_MEM), s2. split; [done|]. split; [done|]. by right.
Qed.

Lemma dup_ok devtab s f : pt s !! fdp old = Some f -> pt s !! fdp new = None ->
  (forall j, 0 <= j < 1024 -> pt s !! datap new j = None) ->
  exists r s', dup devtab old new s = Ret r s' /\ remapped s s' /\
    ((r = new /\ duplicated f s s') \/ (r = - E_NO_MEM /\ pt s' = pt s)).
Proof.
  intros Hf Hfree Hdata. unfold dup. rewrite (bind_ret _ _ _ _ _ (fd_lookup_ok s old ltac:(lia))), Hf.
  rewrite bool_decide_true by eauto. destruct (Z.ltb_spec old MAXFD); [|lia]. cbn [andb]. change (0 <? 0) with false. cbv iota.
  rewrite (bind_ret _ _ _ _ _ (close_unused devtab s new Hnew Hfree)). cbv zeta. rewrite !fd2data_in by done.
  unfold sys_has_page. rewrite bind_get.
  assert (v_mapped (FILEBASE + old * PDMAP) s = bool_decide (is_Some (pt s !! datap old 0))) as ->.
  { rewrite <- data_page. unfold v_mapped. by replace (FILEBASE + old * PDMAP + 0 * PTMAP) with (FILEBASE + old * PDMAP) by lia. }
  destruct (bool_decide (is_Some (pt s !! datap old 0))) eqn:Em.
  - destruct (mfor_ret_inv (copied s) (spoiled s) (dup_page (FILEBASE + old * PDMAP) (FILEBASE + new * PDMAP))
      (Z.to_nat (PDMAP / PTMAP)) 0 s) as (r & s1 & E & H1).
    + split; [done|]. split; [intros j Hj; lia|done].
    + intros j s1 Hj. change (Z.of_nat (Z.to_nat (PDMAP / PTMAP))) with 1024 in Hj. apply fd_dup_page_ok; [lia|]. apply Hdata. lia.
    + rewrite (bind_ret _ _ _ _ _ E). destruct r as [r|].
      * destruct (dup_undo_ok s r s1 H1 Hfree Hdata) as (s2 & E2 & Hr2 & Ep2). exists r, s2. split; [done|]. split; [done|].
        right. destruct H1 as [-> _]. done.
      * change (0 + Z.of_nat (Z.to_nat (PDMAP / PTMAP))) with 1024 in H1. destruct H1 as (Hr & Hc & Hk).
        apply (dup_fd_ok s s1 f); try done.
        -- intros k Hnd. apply Hk. intros j Hj ->. apply Hnd. by exists j.
        -- rewrite Em. exact Hc.
  - rewrite bind_mret. cbv beta iota. apply (dup_fd_ok s s f); try done. rewrite Em. exact Hdata.
Qed.
End dup.

(** Addresses of two pages with one frame. *)
Lemma frame_byte_same p i j o : 0 <= i < MAXFD -> 0 <= j < MAXFD -> 0 <= o < PAGE_SIZE -> v_pt p !! fdp i = v_pt p !! fdp j ->
  frame_byte p (INDEX2FD i + o) = frame_byte p (INDEX2FD j + o).
Proof.
  intros Hi Hj Ho E. unfold frame_byte. rewrite !fd_field, E by done.
  assert (forall k, 0 <= k < MAXFD -> (INDEX2FD k + o) mod PAGE_SIZE = o) as Hm; [|by rewrite !Hm].
  intros k Hk. rewrite INDEX2FD_in by done. unfold FDTABLE, FILEBASE, PDMAP, PTMAP, PAGE_SIZE in *.
  replace (0x60000000 - 4194304 + k * 4096 + o) with (o + (392192 + k) * 4096) by lia. rewrite Z.mod_add by lia.
  apply Z.mod_small. lia.
Qed.

(** ** The fields of a descriptor *)

Section fields.
Context {S : Type} `{HasUvm S}.

(** The field at offset [o] of the descriptor in frame [f]: 0 the device, 4
    the file offset, 8 the mode. *)
Definition fget (s : S) (f o : Z) : Z := load 4 (v_mem (uvm_of s) f) o.
Definition fput (s : S) (f o v : Z) : S :=
  with_uvm (set_v_mem (<[f := store 4 (v_mem (uvm_of s) f) o v]> (v_mem (uvm_of s))) (uvm_of s)) s.

Lemma fput_pt s f o v : pt (fput s f o v) = pt s.
Proof. unfold fput, pt. by rewrite uvm_of_with. Qed.

Lemma fput_mem s f o v : v_mem (uvm_of (fput s f o v)) = <[f := store 4 (v_mem (uvm_of s) f) o v]> (v_mem (uvm_of s)).
Proof. unfold fput. by rewrite uvm_of_with. Qed.

Lemma fget_fput s f o v : 0 <= v < 2 ^ 32 -> fget (fput s f o v) f o = v.
Proof.
  intros Hv. unfold fget, fput. rewrite uvm_of_with. simpl. rewrite fn_lookup_insert. by apply load32_store32_same.
Qed.

Lemma field_mod i o : 0 <= i < MAXFD -> 0 <= o < PAGE_SIZE -> (INDEX2FD i + o) mod PAGE_SIZE = o.
Proof.
  intros Hi Ho. rewrite INDEX2FD_in by done. unfold FDTABLE, FILEBASE, PDMAP, PTMAP, PAGE_SIZE in *.
  replace (0x60000000 - 4194304 + i * 4096 + o) with (o + (392192 + i) * 4096) by lia. rewrite Z.mod_add by lia.
  apply Z.mod_small. lia.
Qed.

Variables (i f : Z).
Hypothesis Hi : 0 <= i < MAXFD.

Lemma field_mapped s o : 0 <= o < PAGE_SIZE -> pt s !! fdp i = Some f -> v_mapped (INDEX2FD i + o) s = true.
Proof. intros Ho Hf. unfold v_mapped. rewrite fd_field by done. apply bool_decide_true. by exists f. Qed.

Lemma vload_field s o : 0 <= o <= PAGE_SIZE - 4 -> pt s !! fdp i = Some f -> vload 4 (INDEX2FD i + o) s = Ret (fget s f o) s.
Proof.
  intros Ho Hf. rewrite vload_ok by (by apply field_mapped; [lia|]). f_equal. unfold fget.
  rewrite (load_frame _ _ _ f), field_mod by (rewrite ?fd_field, ?field_mod; try done; simpl; lia). done.
Qed.

Lemma vstore_field s o v : 0 <= o <= PAGE_SIZE - 4 -> pt s !! fdp i = Some f -> vstore 4 (INDEX2FD i + o) v s = Ret tt (fput s f o v).
Proof.
  intros Ho Hf. rewrite vstore_ok by (by apply field_mapped; [lia|]). f_equal. unfold fput, v_store.
  rewrite fd_field by (try done; lia). unfold pt in Hf. rewrite Hf, field_mod by (try done; lia). done.
Qed.

Lemma lookup_desc s : pt s !! fdp i = Some f -> fd_lookup i s = Ret (0, INDEX2FD i) s.
Proof.
  intros Hf. rewrite fd_lookup_ok, Hf by lia. destruct (Z.ltb_spec i MAXFD); [|lia]. rewrite bool_decide_true by eauto. done.
Qed.

Lemma with_dev_ok devtab k s : pt s !! fdp i = Some f ->
  with_dev devtab i k s =
    match dev_lookup devtab (fget s f 0) with None => Ret (- E_INVAL) s | Some dev => k (INDEX2FD i) dev s end.
Proof.
  intros Hf. unfold with_dev. rewrite (bind_ret _ _ _ _ _ (lookup_desc s Hf)). change (0 <? 0) with false. cbv iota.
  pose proof (vload_field s 0 ltac:(unfold PAGE_SIZE; lia) Hf) as E. rewrite Z.add_0_r in E. rewrite (bind_ret _ _ _ _ _ E).
  by destruct (dev_lookup devtab (fget s f 0)).
Qed.

Lemma advance_ok s r : pt s !! fdp i = Some f -> advance (INDEX2FD i) r s = Ret tt (fput s f 4 (u32 (fget s f 4 + r))).
Proof.
  intros Hf. unfold advance. rewrite (bind_ret _ _ _ _ _ (vload_field s 4 ltac:(unfold PAGE_SIZE; lia) Hf)).
  by rewrite vstore_field by (try done; unfold PAGE_SIZE; lia).
Qed.

Lemma seek_ok s off : pt s !! fdp i = Some f -> seek i off s = Ret 0 (fput s f 4 off).
Proof.
  intros Hf. unfold seek. rewrite (bind_ret _ _ _ _ _ (lookup_desc s Hf)). change (0 <? 0) with false. cbv iota.
  rewrite (bind_ret _ _ _ _ _ (vstore_field s 4 off ltac:(unfold PAGE_SIZE; lia) Hf)). done.
Qed.
End fields.

(** ** readn *)

(** A device whose reads return no more than was asked for. *)
Lemma readn_loop_ok {S} `{HasUvm S} devtab (I : S -> Prop) i buf n fuel :
  (forall s b k, I s -> 0 < k -> exists m s', read devtab i b k s = Ret m s' /\ I s' /\ m <= k) ->
  0 <= n < 2 ^ 31 -> forall s tot, I s -> 0 <= tot <= n -> n - tot < Z.of_nat fuel ->
  exists r s', readn_loop devtab fuel i buf n tot s = Ret (Some r) s' /\ I s' /\ r <= n.
Proof.
  intros Hread Hn. induction fuel as [|fuel IH]; intros s tot Hi Ht Hf; [lia|]. cbn [readn_loop].
  unfold u32 at 1. rewrite Z.mod_small by lia. destruct (Z.ltb_spec tot n); [|exists tot, s; split_and!; [done|done|lia]].
  assert (u32 (n - tot) = n - tot) as -> by (unfold u32; apply Z.mod_small; lia).
  destruct (Hread s (buf + tot) (n - tot) Hi ltac:(lia)) as (m & s1 & E & H1 & Hm). rewrite (bind_ret _ _ _ _ _ E).
  destruct (Z.ltb_spec m 0); [exists m, s1; split_and!; [done|done|lia]|].
  destruct (Z.eqb_spec m 0); [exists tot, s1; split_and!; [done|done|lia]|].
  rewrite i32_small by lia. apply IH; [done|lia|lia].
Qed.

(** ** The properties *)

(** The table of descriptors.  [fd_alloc] gives the first free slot, of the
    first 31, and reports -E_MAX_OPEN when there is none; [fd_lookup] of a
    number that is not negative accepts exactly the descriptors in use. *)
Theorem fd_table_correct {S} `{HasUvm S} (s : S) :
  (forall i, 0 <= i < MAXFD - 1 -> pt s !! fdp i = None -> (forall j, 0 <= j < i -> is_Some (pt s !! fdp j)) ->
     fd_alloc s = Ret (0, INDEX2FD i) s) /\
  ((forall j, 0 <= j < MAXFD - 1 -> is_Some (pt s !! fdp j)) -> fd_alloc s = Ret (- E_MAX_OPEN, 0) s) /\
  (forall i, 0 <= i -> fd_lookup i s =
     Ret (if (i <? MAXFD) && bool_decide (is_Some (pt s !! fdp i)) then (0, INDEX2FD i) else (- E_INVAL, 0)) s).
Proof. split_and!; [by apply fd_alloc_found|by apply fd_alloc_full|by apply fd_lookup_ok]. Qed.

(** C31: duplication of a descriptor into a free slot.  Either the call succeeds:
    the new descriptor and the old one are one page, their data pages are the
    same, so that an offset set through the new one is the offset of the old
    one, and no other page moves; or it reports -E_NO_MEM and the page table
    is as it was before.  No memory is written either way. *)
Theorem dup_correct {S} `{HasUvm S} devtab (s : S) old new f (Hold : 0 <= old < MAXFD) (Hnew : 0 <= new < MAXFD)
    (Hne : old <> new) (Hf : pt s !! fdp old = Some f) (Hfree : pt s !! fdp new = None)
    (Hdata : forall j, 0 <= j < 1024 -> pt s !! datap new j = None) :
  exists r s', dup devtab old new s = Ret r s' /\ remapped s s' /\
    ((r = new /\ duplicated old new f s s' /\
      forall off, 0 <= off < 2 ^ 32 -> exists s2, seek new off s' = Ret 0 s2 /\ vload 4 (INDEX2FD old + 4) s2 = Ret off s2) \/
     (r = - E_NO_MEM /\ pt s' = pt s)).
Proof.
  destruct (dup_ok old new Hold Hnew Hne devtab s f Hf Hfree Hdata) as (r & s' & E & Hr & [[-> Hd]|[-> H1]]).
  - exists new, s'. split; [done|]. split; [done|]. left. split; [done|]. split; [done|]. intros off Hoff.
    destruct Hd as (H1 & _ & H3). exists (fput s' f 4 off). split; [by apply seek_ok|].
    assert (pt (fput s' f 4 off) !! fdp old = Some f) as Hold'.
    { rewrite fput_pt, H3; [done|unfold fdp; lia|]. intros (j & Hj & Ej). revert Ej. apply fdp_not_data; lia. }
    rewrite (vload_field old f Hold (fput s' f 4 off) 4 ltac:(unfold PAGE_SIZE; lia) Hold').
    by rewrite fget_fput.
  - exists (- E_NO_MEM), s'. split; [done|]. split; [done|]. by right.
Qed.

(** Reading and writing through a descriptor, on every branch: an unknown
    device or a mode that forbids the access is -E_INVAL and changes nothing;
    otherwise the device gets the descriptor's offset, and the offset moves by
    what the device transferred when it reports no error. *)
Theorem read_write_correct {S} `{HasUvm S} devtab (s : S) i f buf n (Hi : 0 <= i < MAXFD) (Hf : pt s !! fdp i = Some f) :
  (dev_lookup devtab (fget s f 0) = None ->
     read devtab i buf n s = Ret (- E_INVAL) s /\ write devtab i buf n s = Ret (- E_INVAL) s) /\
  (forall dev, dev_lookup devtab (fget s f 0) = Some dev ->
     let mode := Z.land (fget s f 8) O_ACCMODE in
     (mode = O_WRONLY -> read devtab i buf n s = Ret (- E_INVAL) s) /\
     (mode = O_RDONLY -> write devtab i buf n s = Ret (- E_INVAL) s) /\
     (forall r s1, mode <> O_WRONLY -> dev_read dev (INDEX2FD i) buf n (fget s f 4) s = Ret r s1 -> pt s1 !! fdp i = Some f ->
        read devtab i buf n s = Ret r (if r <? 0 then s1 else fput s1 f 4 (u32 (fget s1 f 4 + r)))) /\
     (forall r s1, mode <> O_RDONLY -> dev_write dev (INDEX2FD i) buf n (fget s f 4) s = Ret r s1 -> pt s1 !! fdp i = Some f ->
        write devtab i buf n s = Ret r (if 0 <? r then fput s1 f 4 (u32 (fget s1 f 4 + r)) else s1))).
Proof.
  unfold read, write. rewrite !(with_dev_ok i f Hi) by done. split; [by intros ->|]. intros dev ->.
  pose proof (vload_field i f Hi s 8 ltac:(unfold PAGE_SIZE; lia) Hf) as E8.
  pose proof (vload_field i f Hi s 4 ltac:(unfold PAGE_SIZE; lia) Hf) as E4.
  rewrite !(bind_ret _ _ _ _ _ E8). cbv zeta. split_and!.
  - by intros ->.
  - by intros ->.
  - intros r s1 Hm E Hf1. apply Z.eqb_neq in Hm. rewrite Hm, (bind_ret _ _ _ _ _ E4), (bind_ret _ _ _ _ _ E).
    destruct (r <? 0); [done|]. by rewrite (bind_ret _ _ _ _ _ (advance_ok i f Hi s1 r Hf1)).
  - intros r s1 Hm E Hf1. apply Z.eqb_neq in Hm. rewrite Hm, (bind_ret _ _ _ _ _ E4), (bind_ret _ _ _ _ _ E).
    destruct (0 <? r); [|done]. by rewrite (bind_ret _ _ _ _ _ (advance_ok i f Hi s1 r Hf1)).
Qed.
