(* ===== verification/PipeFd.v ===== *)
(** user/lib/pipe.c: pipes as descriptors.

    [pipe] makes two descriptors whose data is one page; [pipe_close] and
    [pipe_is_closed] work through the descriptor table of Fd.v.  The transfer
    of bytes is in Pipe.v, whose counters [rfd_refs], [wfd_refs] and
    [pipe_refs] are the [frame_refs] of the three pages here. *)
From stdpp Require Import gmap.
From S2P Require Import Prelude Mem Mmu Proc Uvm Fd.

(** [devpipe.dev_id], ['p'] *)
Definition DEV_PIPE : Z := 112.

Section pipe.
Context {S : Type} `{HasUvm S}.

(** The labels of [pipe]: each undoes one more step. *)
Definition pipe_err1 (fd0 r : Z) : M S (Z * (Z * Z)) := sys_unmap fd0 ;; mret (r, (0, 0)).
Definition pipe_err2 (fd0 fd1 r : Z) : M S (Z * (Z * Z)) := sys_unmap fd1 ;; pipe_err1 fd0 r.
Definition pipe_err3 (fd0 fd1 va r : Z) : M S (Z * (Z * Z)) := sys_unmap va ;; pipe_err2 fd0 fd1 r.

(** The result code and, when it is 0, [pfd]. *)
Definition pipe : M S (Z * (Z * Z)) :=
  '(r, fd0) ← fd_alloc;
  if r <? 0 then mret (r, (0, 0))
  else
    r ← sys_alloc fd0;
    if r <? 0 then mret (r, (0, 0))
    else
      '(r, fd1) ← fd_alloc;
      if r <? 0 then pipe_err1 fd0 r
      else
        r ← sys_alloc fd1;
        if r <? 0 then pipe_err1 fd0 r
        else
          let va := fd2data fd0 in
          r ← sys_alloc va;
          if r <? 0 then pipe_err2 fd0 fd1 r
          else
            r ← sys_map va (fd2data fd1);
            if r <? 0 then pipe_err3 fd0 fd1 va r
            else
              vstore 4 fd0 DEV_PIPE ;;
              vstore 4 (fd0 + 8) O_RDONLY ;;
              vstore 4 fd1 DEV_PIPE ;;
              vstore 4 (fd1 + 8) O_WRONLY ;;
              mret (0, (fd2num fd0, fd2num fd1)).

Definition pipe_close (fd : Z) : M S Z := sys_unmap fd ;; sys_unmap (fd2data fd) ;; mret 0.

(** [_pipe_is_closed] when the process is not scheduled away meanwhile; Pipe.v
    has it step by step. *)
Definition pipe_check (fd p : Z) : M S Z :=
  fd_ref ← sys_pageref fd;
  pipe_ref ← sys_pageref p;
  mret (if fd_ref =? pipe_ref then 1 else 0).

Definition pipe_is_closed (fdnum : Z) : M S Z :=
  '(r, fd) ← fd_lookup fdnum;
  if r <? 0 then mret r else pipe_check fd (fd2data fd).

(** ** Creation *)

(** The state [s'] differs from [s] in its page table, its next frames and the
    contents of frames that were not handed out in [s]. *)
Record grown (s s' : S) : Prop := {
  g_rest : s' = with_uvm (uvm_of s') s;
  g_ext : v_ext (uvm_of s') = v_ext (uvm_of s);
  g_next : v_next (uvm_of s) <= v_next (uvm_of s');
  g_mem : forall f, f < v_next (uvm_of s) -> v_mem (uvm_of s') f = v_mem (uvm_of s) f
}.

#[export] Instance grown_preorder : PreOrder grown.
Proof.
  split.
  - intros s. split; [by rewrite with_uvm_of|done|lia|done].
  - intros s1 s2 s3 [A1 A2 A3 A4] [B1 B2 B3 B4]. split; [|congruence|lia|].
    + transitivity (with_uvm (uvm_of s3) s2); [exact B1|]. rewrite A1. by rewrite with_uvm_with.
    + intros f Hf. rewrite B4 by lia. by apply A4.
Qed.

Lemma remapped_grown s s' : remapped s s' -> v_next (uvm_of s') = v_next (uvm_of s) -> grown s s'.
Proof. intros [A1 A2 A3] Hn. split; [done|done|lia|by rewrite A2]. Qed.

(** A system call that allocates a page, a page table or nothing. *)
Lemma alloc_grown s va : uva_illegal va = false -> exists r s', sys_alloc va s = Ret r s' /\ grown s s' /\
  ((r = 0 /\ pt s' = <[upage va := v_next (uvm_of s)]> (pt s) /\ v_next (uvm_of s') = v_next (uvm_of s) + 1 /\
    v_mem (uvm_of s') (v_next (uvm_of s)) = fun _ => 0) \/
   (r = - E_NO_MEM /\ pt s' = pt s)).
Proof.
  intros Hl. rewrite (sys_alloc_ok _ _ Hl). unfold pt. destruct (v_grants (uvm_of s) 0).
  - eexists _, _. split; [done|]. rewrite !uvm_of_with. split.
    + split; rewrite ?uvm_of_with; simpl; [done|done|lia|]. intros f Hf. by rewrite fn_lookup_insert_ne by lia.
    + left. simpl. by rewrite fn_lookup_insert.
  - eexists _, _. split; [done|]. rewrite !uvm_of_with. split; [by split; rewrite ?uvm_of_with; simpl|by right].
Qed.

Lemma map_grown s src dst f : uva_illegal src = false -> uva_illegal dst = false -> pt s !! upage src = Some f ->
  exists r s', sys_map src dst s = Ret r s' /\ grown s s' /\ v_next (uvm_of s') = v_next (uvm_of s) /\ v_mem (uvm_of s') = v_mem (uvm_of s) /\
    ((r = 0 /\ pt s' = <[upage dst := f]> (pt s)) \/ (r = - E_NO_MEM /\ pt s' = pt s)).
Proof.
  intros H1 H2 Hf. rewrite (sys_map_ok _ _ _ _ H1 H2 Hf). unfold pt. destruct (v_grants (uvm_of s) 0); eexists _, _; (split; [done|]);
    rewrite !uvm_of_with; (split; [by split; rewrite ?uvm_of_with; simpl|]); (split; [done|]); (split; [done|]); [by left|by right].
Qed.

Lemma unmap_grown s va : uva_illegal va = false ->
  exists s', sys_unmap va s = Ret 0 s' /\ grown s s' /\ pt s' = delete (upage va) (pt s).
Proof.
  intros Hl. rewrite (sys_unmap_ok _ _ Hl). eexists. split; [done|]. unfold pt. rewrite !uvm_of_with.
  split; [by split; rewrite ?uvm_of_with; simpl|done].
Qed.

Lemma fput_grown s f o v s0 : grown s0 s -> v_next (uvm_of s0) <= f -> grown s0 (fput s f o v).
Proof.
  intros [A1 A2 A3 A4] Hf. unfold fput. split; rewrite ?uvm_of_with; simpl; [|done|done|].
  - rewrite A1. by rewrite with_uvm_with.
  - intros g Hg. rewrite fn_lookup_insert_ne by lia. by apply A4.
Qed.

(** ** The labels undo what was done *)

Variables (i j : Z).
Hypothesis Hi : 0 <= i < MAXFD.
Hypothesis Hj : 0 <= j < MAXFD.
Hypothesis Hij : i <> j.

Lemma fdp_inj : fdp i <> fdp j.
Proof. unfold fdp. lia. Qed.

Lemma err1_ok s0 s f r : grown s0 s -> pt s0 !! fdp i = None -> pt s = <[fdp i := f]> (pt s0) ->
  exists s', pipe_err1 (INDEX2FD i) r s = Ret (r, (0, 0)) s' /\ grown s0 s' /\ pt s' = pt s0.
Proof.
  intros Hg Hn Hp. destruct (unmap_grown s (INDEX2FD i) (fd_legal i Hi)) as (s' & E & Hg' & Ep). exists s'.
  unfold pipe_err1. rewrite (bind_ret _ _ _ _ _ E). split; [done|]. split; [by etransitivity|].
  rewrite Ep, fd_page, Hp, delete_insert_id by done. done.
Qed.

Lemma err2_ok s0 s f f' r : grown s0 s -> pt s0 !! fdp i = None -> pt s0 !! fdp j = None ->
  pt s = <[fdp j := f']> (<[fdp i := f]> (pt s0)) ->
  exists s', pipe_err2 (INDEX2FD i) (INDEX2FD j) r s = Ret (r, (0, 0)) s' /\ grown s0 s' /\ pt s' = pt s0.
Proof.
  intros Hg Hni Hnj Hp. destruct (unmap_grown s (INDEX2FD j) (fd_legal j Hj)) as (s1 & E & Hg' & Ep).
  unfold pipe_err2. rewrite (bind_ret _ _ _ _ _ E). apply (err1_ok s0 s1 f); [by etransitivity|done|].
  rewrite Ep, fd_page, Hp, delete_insert_id; [done| |done]. by rewrite lookup_insert_ne by apply fdp_inj.
Qed.

Lemma data_page0 k : upage (FILEBASE + k * PDMAP) = datap k 0.
Proof. rewrite <- data_page. f_equal. unfold PTMAP. lia. Qed.

Lemma data_legal0 k : 0 <= k < MAXFD -> uva_illegal (FILEBASE + k * PDMAP) = false.
Proof. intros Hk. rewrite <- (data_legal k 0 Hk ltac:(lia)). f_equal. unfold PTMAP. lia. Qed.

Lemma err3_ok s0 s f f' g r : grown s0 s -> pt s0 !! fdp i = None -> pt s0 !! fdp j = None -> pt s0 !! datap i 0 = None ->
  pt s = <[datap i 0 := g]> (<[fdp j := f']> (<[fdp i := f]> (pt s0))) ->
  exists s', pipe_err3 (INDEX2FD i) (INDEX2FD j) (FILEBASE + i * PDMAP) r s = Ret (r, (0, 0)) s' /\ grown s0 s' /\ pt s' = pt s0.
Proof.
  intros Hg Hni Hnj Hnd Hp. destruct (unmap_grown s _ (data_legal0 i Hi)) as (s1 & E & Hg' & Ep).
  unfold pipe_err3. rewrite (bind_ret _ _ _ _ _ E). apply (err2_ok s0 s1 f f'); [by etransitivity|done|done|].
  rewrite Ep, data_page0, Hp, delete_insert_id; [done|]. by rewrite !lookup_insert_ne by (apply fdp_not_data; lia).
Qed.

(** The pipe that [pipe] makes in [s0]: two descriptors and a page of zeros. *)
Definition pipe_made (s0 s : S) : Prop :=
  let f0 := v_next (uvm_of s0) in
  pt s = <[datap j 0 := f0 + 2]> (<[datap i 0 := f0 + 2]> (<[fdp j := f0 + 1]> (<[fdp i := f0]> (pt s0)))) /\
  (forall f, f = f0 \/ f = f0 + 1 -> fget s f 0 = DEV_PIPE /\ fget s f 4 = 0) /\
  fget s f0 8 = O_RDONLY /\ fget s (f0 + 1) 8 = O_WRONLY /\
  v_mem (uvm_of s) (f0 + 2) = fun _ => 0.

(** The stores at the end of [pipe]. *)
Lemma pipe_stores s0 s f0 : grown s0 s -> v_next (uvm_of s0) <= f0 -> pt s !! fdp i = Some f0 -> pt s !! fdp j = Some (f0 + 1) ->
  (forall f, f0 <= f <= f0 + 2 -> v_mem (uvm_of s) f = fun _ => 0) ->
  exists s', (vstore 4 (INDEX2FD i) DEV_PIPE ;; vstore 4 (INDEX2FD i + 8) O_RDONLY ;;
      vstore 4 (INDEX2FD j) DEV_PIPE ;; vstore 4 (INDEX2FD j + 8) O_WRONLY ;;
      mret (0, (fd2num (INDEX2FD i), fd2num (INDEX2FD j)))) s = Ret (0, (i, j)) s' /\
    grown s0 s' /\ pt s' = pt s /\
    (forall f, f = f0 \/ f = f0 + 1 -> fget s' f 0 = DEV_PIPE /\ fget s' f 4 = 0) /\
    fget s' f0 8 = O_RDONLY /\ fget s' (f0 + 1) 8 = O_WRONLY /\ v_mem (uvm_of s') (f0 + 2) = fun _ => 0.
Proof.
  intros Hg Hn Ei Ej Hz.
  set (s1 := fput s f0 0 DEV_PIPE). set (s2 := fput s1 f0 8 O_RDONLY).
  set (s3 := fput s2 (f0 + 1) 0 DEV_PIPE). set (s4 := fput s3 (f0 + 1) 8 O_WRONLY).
  assert (forall x, INDEX2FD x = INDEX2FD x + 0) as E0 by (intros; lia).
  rewrite (bind_ret _ _ s tt s1)
    by (rewrite E0; apply (vstore_field i f0 Hi); [unfold PAGE_SIZE; lia|done]).
  rewrite (bind_ret _ _ s1 tt s2)
    by (apply (vstore_field i f0 Hi); [unfold PAGE_SIZE; lia|by unfold s1; rewrite !fput_pt]).
  rewrite (bind_ret _ _ s2 tt s3)
    by (rewrite E0; apply (vstore_field j (f0 + 1) Hj); [unfold PAGE_SIZE; lia|by unfold s2, s1; rewrite !fput_pt]).
  rewrite (bind_ret _ _ s3 tt s4)
    by (apply (vstore_field j (f0 + 1) Hj); [unfold PAGE_SIZE; lia|by unfold s3, s2, s1; rewrite !fput_pt]).
  exists s4. rewrite !fd2num_in by done. split; [done|]. split; [by repeat apply fput_grown; try lia|].
  split; [by unfold s4, s3, s2, s1; rewrite !fput_pt|].
  assert (v_mem (uvm_of s4) f0 = store 4 (store 4 (fun _ => 0) 0 DEV_PIPE) 8 O_RDONLY /\
          v_mem (uvm_of s4) (f0 + 1) = store 4 (store 4 (fun _ => 0) 0 DEV_PIPE) 8 O_WRONLY /\
          v_mem (uvm_of s4) (f0 + 2) = fun _ => 0) as (M0 & M1 & M2).
  { unfold s4, s3, s2, s1. rewrite !fput_mem.
    repeat (rewrite fn_lookup_insert || rewrite fn_lookup_insert_ne by lia). rewrite !Hz by lia. done. }
  unfold fget. rewrite M2. split_and!; try done.
  - intros f [-> | ->]; rewrite ?M0, ?M1; (split; [|by rewrite !load_store_other by (unfold disjoint_range; lia); apply load_zero]);
      rewrite load_store_other by (unfold disjoint_range; lia); by apply load32_store32_same.
  - rewrite M0. by apply load32_store32_same.
  - rewrite M1. by apply load32_store32_same.
Qed.

(** The second slot is the next one, the first being taken. *)
Definition next_slots (s : S) : Prop :=
  i < j < MAXFD - 1 /\ pt s !! fdp i = None /\ pt s !! fdp j = None /\
  forall k, 0 <= k < j -> k <> i -> is_Some (pt s !! fdp k).

Lemma fd_alloc_second s f m : next_slots s -> pt m = <[fdp i := f]> (pt s) -> fd_alloc m = Ret (0, INDEX2FD j) m.
Proof.
  intros (Hlt & _ & Hnj & Hused) Hp. apply fd_alloc_found; [lia|by rewrite Hp, lookup_insert_ne by apply fdp_inj|].
  intros k Hk. rewrite Hp. destruct (decide (k = i)) as [->|Hne]; [rewrite lookup_insert_eq; eauto|].
  rewrite lookup_insert_ne by (unfold fdp; lia). apply Hused; [lia|done].
Qed.

(** From the two descriptors on. *)
Lemma pipe_tail s0 s : next_slots s0 -> pt s0 !! datap i 0 = None -> pt s0 !! datap j 0 = None -> grown s0 s ->
  let f0 := v_next (uvm_of s0) in
  v_next (uvm_of s) = f0 + 2 -> pt s = <[fdp j := f0 + 1]> (<[fdp i := f0]> (pt s0)) ->
  (forall f, f0 <= f <= f0 + 1 -> v_mem (uvm_of s) f = fun _ => 0) ->
  exists r fds s', (
    let va := fd2data (INDEX2FD i) in
    r ← sys_alloc va;
    if r <? 0 then pipe_err2 (INDEX2FD i) (INDEX2FD j) r
    else
      r ← sys_map va (fd2data (INDEX2FD j));
      if r <? 0 then pipe_err3 (INDEX2FD i) (INDEX2FD j) va r
      else
        vstore 4 (INDEX2FD i) DEV_PIPE ;; vstore 4 (INDEX2FD i + 8) O_RDONLY ;;
        vstore 4 (INDEX2FD j) DEV_PIPE ;; vstore 4 (INDEX2FD j + 8) O_WRONLY ;;
        mret (0, (fd2num (INDEX2FD i), fd2num (INDEX2FD j)))) s = Ret (r, fds) s' /\ grown s0 s' /\
    ((r = 0 /\ fds = (i, j) /\ pipe_made s0 s') \/ (r = - E_NO_MEM /\ fds = (0, 0) /\ pt s' = pt s0)).
Proof.
  intros (Hlt & Hni & Hnj & _) Hdi Hdj Hg f0 Hnext Hp Hz. cbv zeta. rewrite !fd2data_in by done.
  destruct (alloc_grown s _ (data_legal0 i Hi)) as (r & s1 & E & Hg1 & Hcase). rewrite (bind_ret _ _ _ _ _ E).
  rewrite data_page0, Hnext in Hcase. destruct Hcase as [(-> & Hp1 & Hn1 & Hz1)|[-> Hp1]].
  2:{ change (- E_NO_MEM <? 0) with true. cbv iota.
      destruct (err2_ok s0 s1 f0 (f0 + 1) (- E_NO_MEM)) as (s' & E' & Hg' & Hp'); try done; [by etransitivity|by rewrite Hp1|].
      exists (- E_NO_MEM), (0, 0), s'. split; [done|]. split; [done|]. by right. }
  change (0 <? 0) with false. cbv iota.
  destruct (map_grown s1 (FILEBASE + i * PDMAP) (FILEBASE + j * PDMAP) (f0 + 2)) as (r & s2 & E2 & Hg2 & Hn2 & Hm2 & Hcase).
  { by apply data_legal0. } { by apply data_legal0. } { by rewrite data_page0, Hp1, lookup_insert_eq. }
  rewrite (bind_ret _ _ _ _ _ E2). rewrite data_page0, Hp1, Hp in Hcase. rewrite Hp in Hp1. destruct Hcase as [[-> Hp2]|[-> Hp2]].
  2:{ change (- E_NO_MEM <? 0) with true. cbv iota.
      destruct (err3_ok s0 s2 f0 (f0 + 1) (f0 + 2) (- E_NO_MEM)) as (s' & E' & Hg' & Hp'); try done; [by do 2 (etransitivity; [|done])|].
      exists (- E_NO_MEM), (0, 0), s'. split; [done|]. split; [done|]. by right. }
  change (0 <? 0) with false. cbv iota.
  assert (forall k l, 0 <= k < MAXFD -> 0 <= l < MAXFD -> datap k 0 <> fdp l) as Hdf.
  { intros k l Hk Hl Ek. symmetry in Ek. revert Ek. apply fdp_not_data; lia. }
  destruct (pipe_stores s0 s2 f0) as (s3 & E3 & Hg3 & Hp3 & Hf & Hr & Hw & Hd).
  - by do 2 (etransitivity; [|done]).
  - done.
  - rewrite Hp2, !lookup_insert_ne by (first [by apply Hdf|by apply not_eq_sym, fdp_inj]). by rewrite lookup_insert_eq.
  - rewrite Hp2, !lookup_insert_ne by by apply Hdf. by rewrite lookup_insert_eq.
  - intros f Hf. rewrite Hm2. destruct (decide (f = f0 + 2)) as [->|Hne]; [done|].
    rewrite (g_mem _ _ Hg1) by lia. apply Hz. lia.
  - exists 0, (i, j), s3. split; [exact E3|]. split; [done|]. left. split; [done|]. split; [done|].
    split; [by rewrite Hp3, Hp2|done].
Qed.

Lemma pipe_ok s0 : next_slots s0 -> pt s0 !! datap i 0 = None -> pt s0 !! datap j 0 = None ->
  exists r fds s', pipe s0 = Ret (r, fds) s' /\ grown s0 s' /\
    ((r = 0 /\ fds = (i, j) /\ pipe_made s0 s') \/ (r = - E_NO_MEM /\ fds = (0, 0) /\ pt s' = pt s0)).
Proof.
  intros Hslots Hdi Hdj. pose proof Hslots as (Hlt & Hni & Hnj & Hused).
  assert (fd_alloc s0 = Ret (0, INDEX2FD i) s0) as E0.
  { apply fd_alloc_found; [lia|done|]. intros k Hk. apply Hused; lia. }
  unfold pipe. rewrite (bind_ret _ _ _ _ _ E0). change (0 <? 0) with false. cbv iota.
  destruct (alloc_grown s0 _ (fd_legal i Hi)) as (r & s1 & E & Hg1 & Hcase). rewrite (bind_ret _ _ _ _ _ E).
  rewrite fd_page in Hcase by done. destruct Hcase as [(-> & Hp1 & Hn1 & Hz1)|[-> Hp1]].
  2:{ change (- E_NO_MEM <? 0) with true. exists (- E_NO_MEM), (0, 0), s1. split; [done|]. split; [done|]. by right. }
  change (0 <? 0) with false. cbv iota. rewrite (bind_ret _ _ _ _ _ (fd_alloc_second s0 _ s1 Hslots Hp1)).
  change (0 <? 0) with false. cbv iota.
  destruct (alloc_grown s1 _ (fd_legal j Hj)) as (r & s2 & E2 & Hg2 & Hcase). rewrite (bind_ret _ _ _ _ _ E2).
  rewrite fd_page in Hcase by done. destruct Hcase as [(-> & Hp2 & Hn2 & Hz2)|[-> Hp2]].
  2:{ change (- E_NO_MEM <? 0) with true. cbv iota.
      destruct (err1_ok s0 s2 (v_next (uvm_of s0)) (- E_NO_MEM)) as (s' & E' & Hg' & Hp'); [by etransitivity|done|by rewrite Hp2|].
      exists (- E_NO_MEM), (0, 0), s'. split; [done|]. split; [done|]. by right. }
  change (0 <? 0) with false. cbv iota. apply pipe_tail; try done.
  - by etransitivity.
  - by rewrite Hn2, Hn1, <- Z.add_assoc.
  - by rewrite Hp2, Hp1, Hn1.
  - intros f Hf. destruct (decide (f = v_next (uvm_of s0) + 1)) as [->|Hne]; [by rewrite <- Hn1|].
    rewrite (g_mem _ _ Hg2) by lia. by replace f with (v_next (uvm_of s0)) by lia.
Qed.

(** ** Reference counts *)

Lemma sys_pageref_ok s va f : pt s !! upage va = Some f -> sys_pageref va s = Ret (frame_refs (uvm_of s) f) s.
Proof. intros Hf. unfold sys_pageref, get. unfold pt in Hf. by rewrite Hf. Qed.

Lemma pipe_is_closed_ok s k f g : 0 <= k < MAXFD -> pt s !! fdp k = Some f -> pt s !! datap k 0 = Some g ->
  pipe_is_closed k s = Ret (if frame_refs (uvm_of s) f =? frame_refs (uvm_of s) g then 1 else 0) s.
Proof.
  intros Hk Hf Hg. unfold pipe_is_closed. rewrite (bind_ret _ _ _ _ _ (lookup_desc k f Hk s Hf)). change (0 <? 0) with false.
  cbv iota. unfold pipe_check. rewrite fd2data_in by done.
  rewrite (bind_ret _ _ _ _ _ (sys_pageref_ok s (INDEX2FD k) f ltac:(by rewrite fd_page))).
  rewrite (bind_ret _ _ _ _ _ (sys_pageref_ok s (FILEBASE + k * PDMAP) g ltac:(by rewrite data_page0))). done.
Qed.

Lemma pipe_close_ok s k : 0 <= k < MAXFD ->
  exists s', pipe_close (INDEX2FD k) s = Ret 0 s' /\ grown s s' /\ pt s' = delete (datap k 0) (delete (fdp k) (pt s)).
Proof.
  intros Hk. unfold pipe_close. destruct (unmap_grown s _ (fd_legal k Hk)) as (s1 & E & Hg & Ep). rewrite (bind_ret _ _ _ _ _ E).
  rewrite fd2data_in by done. destruct (unmap_grown s1 _ (data_legal0 k Hk)) as (s2 & E2 & Hg2 & Ep2). rewrite (bind_ret _ _ _ _ _ E2).
  exists s2. split; [done|]. split; [by etransitivity|]. by rewrite Ep2, data_page0, Ep, fd_page.
Qed.

(** [close] of a pipe's descriptor unmaps it twice. *)
Lemma close_pipe devtab dev s k f : 0 <= k < MAXFD -> pt s !! fdp k = Some f -> dev_lookup devtab (fget s f 0) = Some dev ->
  dev_close dev = pipe_close ->
  exists s', close devtab k s = Ret 0 s' /\ grown s s' /\ pt s' = delete (datap k 0) (delete (fdp k) (pt s)).
Proof.
  intros Hk Hf Hdev Hclose. unfold close. rewrite (with_dev_ok k f Hk devtab) by done. rewrite Hdev, Hclose.
  destruct (pipe_close_ok s k Hk) as (s1 & E & Hg & Ep). rewrite (bind_ret _ _ _ _ _ E). unfold fd_close.
  destruct (unmap_grown s1 _ (fd_legal k Hk)) as (s2 & E2 & Hg2 & Ep2).
  rewrite (bind_ret _ _ s1 tt s2) by (by rewrite (bind_ret _ _ _ _ _ E2)). exists s2. split; [done|]. split; [by etransitivity|].
  rewrite Ep2, fd_page, Ep by done. apply delete_id. rewrite lookup_delete_ne; [apply lookup_delete_eq|].
  intros Ek. symmetry in Ek. revert Ek. apply fdp_not_data; lia.
Qed.

(** The mappings of the three frames of a new pipe. *)
Lemma pipe_refs s0 s : frames_ok (uvm_of s0) -> next_slots s0 -> pt s0 !! datap i 0 = None -> pt s0 !! datap j 0 = None ->
  grown s0 s -> pipe_made s0 s ->
  let f0 := v_next (uvm_of s0) in
  frame_refs (uvm_of s) f0 = 1 /\ frame_refs (uvm_of s) (f0 + 1) = 1 /\ frame_refs (uvm_of s) (f0 + 2) = 2.
Proof.
  intros Hok (Hlt & Hni & Hnj & _) Hdi Hdj Hg (Hp & _) f0. unfold pt in Hp. unfold frame_refs. rewrite (g_ext _ _ Hg), Hp.
  assert (forall k, f0 <= k -> v_ext (uvm_of s0) k = 0 /\ map_refs (v_pt (uvm_of s0)) k = 0) as H0.
  { intros k Hk. split; [by apply (fr_new _ Hok)|]. apply map_refs_fresh. intros x Hx. pose proof (fr_own _ Hok x k Hx). unfold f0 in Hk. lia. }
  assert (forall k l, 0 <= k < MAXFD -> 0 <= l < MAXFD -> fdp l <> datap k 0) as Hdf by (intros; apply fdp_not_data; lia).
  assert (datap i 0 <> datap j 0) as Hdd by (unfold datap; lia). unfold pt in *.
  assert (forall k, map_refs (<[datap j 0:=f0 + 2]> (<[datap i 0:=f0 + 2]> (<[fdp j:=f0 + 1]> (<[fdp i:=f0]> (v_pt (uvm_of s0)))))) k =
    map_refs (v_pt (uvm_of s0)) k + (if decide (f0 = k) then 1 else 0) + (if decide (f0 + 1 = k) then 1 else 0) +
    (if decide (f0 + 2 = k) then 1 else 0) + (if decide (f0 + 2 = k) then 1 else 0)) as Hr.
  { intros k. rewrite map_refs_insert by (rewrite !lookup_insert_ne by auto; done).
    rewrite map_refs_insert by (rewrite !lookup_insert_ne by auto; done).
    rewrite map_refs_insert by (rewrite !lookup_insert_ne by (apply fdp_inj); done). by rewrite map_refs_insert. }
  rewrite !Hr. destruct (H0 f0) as [-> ->]; [lia|]. destruct (H0 (f0 + 1)) as [-> ->]; [lia|]. destruct (H0 (f0 + 2)) as [-> ->]; [lia|].
  repeat case_decide; lia.
Qed.

(** After one end is closed the other sees it. *)
Lemma close_seen devtab dev s0 s k l : frames_ok (uvm_of s0) -> next_slots s0 -> pt s0 !! datap i 0 = None -> pt s0 !! datap j 0 = None ->
  grown s0 s -> pipe_made s0 s -> (k = i /\ l = j) \/ (k = j /\ l = i) ->
  dev_lookup devtab DEV_PIPE = Some dev -> dev_close dev = pipe_close ->
  pipe_is_closed k s = Ret 0 s /\ exists s', close devtab l s = Ret 0 s' /\ pipe_is_closed k s' = Ret 1 s'.
Proof.
  intros Hok Hslots Hdi Hdj Hg Hmade Hkl Hdev Hclose.
  destruct (pipe_refs s0 s Hok Hslots Hdi Hdj Hg Hmade) as (R0 & R1 & R2).
  destruct Hmade as (Hp & Hf & _). set (f0 := v_next (uvm_of s0)) in *.
  assert (forall k l, 0 <= k < MAXFD -> 0 <= l < MAXFD -> fdp l <> datap k 0) as Hdf by (intros; apply fdp_not_data; lia).
  assert (forall k l, 0 <= k < MAXFD -> 0 <= l < MAXFD -> datap k 0 <> fdp l) as Hdf' by (intros; by apply not_eq_sym, Hdf).
  assert (datap i 0 <> datap j 0) as Hdd by (unfold datap; lia). pose proof fdp_inj as Hfi.
  assert (pt s !! datap i 0 = Some (f0 + 2) /\ pt s !! datap j 0 = Some (f0 + 2) /\ pt s !! fdp i = Some f0 /\
    pt s !! fdp j = Some (f0 + 1)) as (Pdi & Pdj & Pi & Pj).
  { rewrite Hp. split_and!; repeat (rewrite lookup_insert_eq || rewrite lookup_insert_ne by auto); done. }
  assert (exists fk fl, (fk = f0 \/ fk = f0 + 1) /\ (fl = f0 \/ fl = f0 + 1) /\ fk <> fl /\ pt s !! fdp k = Some fk /\ pt s !! fdp l = Some fl /\
    pt s !! datap k 0 = Some (f0 + 2) /\ pt s !! datap l 0 = Some (f0 + 2) /\ 0 <= k < MAXFD /\ 0 <= l < MAXFD /\ fdp k <> fdp l /\
    datap k 0 <> datap l 0) as (fk & fl & Hfk & Hfl & Hne & Pk & Pl & Pdk & Pdl & Hk & Hl & Nf & Nd).
  { destruct Hkl as [[-> ->]|[-> ->]]; [exists f0, (f0 + 1)|exists (f0 + 1), f0]; split_and!; auto; lia. }
  assert (frame_refs (uvm_of s) fk = 1) as Rk by (by destruct Hfk as [-> | ->]).
  split; [rewrite (pipe_is_closed_ok s k fk (f0 + 2)) by done; by rewrite Rk, R2|].
  destruct (close_pipe devtab dev s l fl Hl Pl) as (s' & E & Hg' & Ep); [by rewrite (proj1 (Hf fl Hfl))|done|].
  exists s'. split; [done|]. rewrite (pipe_is_closed_ok s' k fk (f0 + 2)); [|done|..].
  - assert (forall x, frame_refs (uvm_of s') x = frame_refs (uvm_of s) x - (if decide (fl = x) then 1 else 0) - (if decide (f0 + 2 = x) then 1 else 0)) as Hr.
    { intros x. unfold frame_refs. rewrite (g_ext _ _ Hg'). unfold pt in *. rewrite Ep.
      rewrite (map_refs_delete _ _ (f0 + 2)) by (rewrite lookup_delete_ne by auto; done).
      rewrite (map_refs_delete _ _ fl) by done. lia. }
    rewrite !Hr, Rk, R2. destruct (decide (fl = fk)); [congruence|]. destruct (decide (f0 + 2 = fk)); [lia|].
    destruct (decide (fl = f0 + 2)); [lia|]. by destruct (decide (f0 + 2 = f0 + 2)).
  - rewrite Ep, !lookup_delete_ne by auto. done.
  - rewrite Ep, !lookup_delete_ne by auto. done.
Qed.
End pipe.

(** C32: pipes as descriptors.  [pipe] either makes two descriptors, readable and
    writable, on one page of zeros, whose two ends both see the pipe open until
    the other is closed and closed from then on; or it reports -E_NO_MEM and
    the page table is as it was, so that no page of a half-made pipe is left. *)
Theorem pipe_descriptors_correct {S} `{HasUvm S} (s : S) i j (Hi : 0 <= i < MAXFD) (Hj : 0 <= j < MAXFD) (Hij : i <> j)
    (Hok : frames_ok (uvm_of s)) (Hslots : next_slots i j s) (Hdi : pt s !! datap i 0 = None) (Hdj : pt s !! datap j 0 = None) :
  exists r fds s', pipe s = Ret (r, fds) s' /\ grown s s' /\
    ((r = 0 /\ fds = (i, j) /\ pipe_made i j s s' /\
      forall devtab dev k l, dev_lookup devtab DEV_PIPE = Some dev -> dev_close dev = pipe_close ->
        (k = i /\ l = j) \/ (k = j /\ l = i) ->
        pipe_is_closed k s' = Ret 0 s' /\
        exists s2, close devtab l s' = Ret 0 s2 /\ pipe_is_closed k s2 = Ret 1 s2) \/
     (r = - E_NO_MEM /\ fds = (0, 0) /\ pt s' = pt s)).
Proof.
  destruct (pipe_ok i j Hi Hj Hij s Hslots Hdi Hdj) as (r & fds & s' & E & Hg & Hcase). exists r, fds, s'.
  split; [done|]. split; [done|]. destruct Hcase as [(-> & -> & Hm)|H1]; [left|by right].
  split; [done|]. split; [done|]. split; [done|]. intros devtab dev k l Hdev Hclose Hkl.
  by apply (close_seen i j Hi Hj Hij devtab dev s s').
Qed.

(** ** Concrete inputs *)

(** A process with descriptor 0 open on a file of one page, in frame 5 with its
    data in frame 6, and memory for everything. *)
Definition demo_uvm : uvm :=
  Uvm {[fdp 0 := 5; datap 0 0 := 6]} (fun f o => if (f =? 5) && (o =? 0) then 102 else 0) (fun f => if f =? 5 then 1 else 0) 7 (fun _ => true).

(** A device whose reads give all that is asked for. *)
Definition demo_dev : Dev uvm := MkDev 102 0 (fun _ _ n _ => mret n) (fun _ _ _ _ => mret (- E_INVAL)) (fun _ => mret 0) (fun _ _ => mret 0).
Definition demo_pipe_dev : Dev uvm := MkDev DEV_PIPE 0 (fun _ _ n _ => mret n) (fun _ _ _ _ => mret (- E_INVAL)) pipe_close (fun _ _ => mret 0).

Lemma demo_frames : frames_ok demo_uvm.
Proof.
  split; simpl.
  - intros k f [[_ <-]|[_ [_ <-]%lookup_singleton_Some]]%lookup_insert_Some; lia.
  - intros f. by destruct (f =? 5).
  - intros f Hf. by destruct (Z.eqb_spec f 5); [lia|].
Qed.

Lemma demo_pages k : k <> fdp 0 -> k <> datap 0 0 -> pt demo_uvm !! k = None.
Proof. intros H1 H2. unfold pt. simpl. by rewrite lookup_insert_ne, lookup_singleton_ne by auto. Qed.

Lemma dup_correct_witness : exists s', dup [demo_dev] 0 3 demo_uvm = Ret 3 s' /\ pt s' !! fdp 3 = Some 5 /\ pt s' !! datap 3 0 = Some 6.
Proof.
  destruct (dup_correct [demo_dev] demo_uvm 0 3 5) as (r & s' & E & _ & H);
    [unfold MAXFD; lia|unfold MAXFD; lia|lia|reflexivity|apply demo_pages; unfold fdp, datap; lia| |].
  - intros j Hj. apply demo_pages; unfold fdp, datap; lia.
  - assert (match dup [demo_dev] 0 3 demo_uvm with Ret r _ => r | _ => 0 end = 3) as Er by (vm_compute; reflexivity).
    rewrite E in Er. destruct H as [[_ (H1 & _)]|[H1 _]]; [|unfold E_NO_MEM in H1; lia]. destruct H1 as (H1 & H2 & _).
    exists s'. rewrite <- Er at 2. split; [exact E|]. split; [exact H1|]. rewrite H2 by lia. reflexivity.
Defined.

Lemma read_write_correct_witness : exists s', read [demo_dev] 0 0 9 demo_uvm = Ret 9 s' /\ fget s' 5 4 = 9.
Proof.
  destruct (read_write_correct [demo_dev] demo_uvm 0 5 0 9) as [_ H]; [unfold MAXFD; lia|reflexivity|].
  destruct (H demo_dev) as (_ & _ & Hr & _); [reflexivity|].
  exists (fput demo_uvm 5 4 9). split; [|reflexivity]. apply (Hr 9 demo_uvm); [|reflexivity..]. vm_compute. discriminate.
Defined.

Lemma pipe_descriptors_correct_witness : exists s', pipe demo_uvm = Ret (0, (1, 2)) s' /\ pipe_is_closed 1 s' = Ret 0 s'.
Proof.
  destruct (pipe_descriptors_correct demo_uvm 1 2) as (r & fds & s' & E & _ & H);
    [unfold MAXFD; lia|unfold MAXFD; lia|lia|exact demo_frames| |apply demo_pages; unfold fdp, datap; lia..|].
  - split; [unfold MAXFD; lia|]. split; [apply demo_pages; unfold fdp, datap; lia|]. split; [apply demo_pages; unfold fdp, datap; lia|].
    intros k Hk Hne. replace k with 0 by lia. by eexists.
  - assert (match pipe demo_uvm with Ret (r, fds) _ => (r, fds) | _ => (1, (0, 0)) end = (0, (1, 2))) as Er by (vm_compute; reflexivity).
    rewrite E in Er. injection Er as -> ->. destruct H as [(_ & _ & _ & H)|(H & _)]; [|unfold E_NO_MEM in H; lia].
    exists s'. split; [exact E|]. exact (proj1 (H [demo_pipe_dev] demo_pipe_dev 1 2 eq_refl eq_refl (or_introl (conj eq_refl eq_refl)))).
Defined.
