(* ===== verification/FsIpc.v ===== *)
(** user/lib/fsipc.c: a client's requests to the file server.

    The client is a process with shared pages ([Uvm]).  The server is another
    process: [cl_answers] are its next answers, whatever they are, and
    [cl_calls] records the requests, latest last.  While the server works on a
    request it may write every page the client shares with it; the client's
    own pages stay as they are. *)
From stdpp Require Import gmap.
From S2P Require Import Prelude Mem Mmu Proc FsServ Uvm Fd.
#[local] Open Scope Z_scope.

Definition MAXPATHLEN : Z := 1024.

(** What [ipc_recv] returned and delivered: the value, the frame of the page
    when there is one, the permission.  [an_mem] and [an_ext] are the contents
    of the shared frames and their mappings elsewhere from then on, and
    [an_next] the first frame not handed out. *)
Record answer := Answer {
  an_ret : Z;
  an_val : Z;
  an_page : option Z;
  an_perm : Z;
  an_mem : Z -> Z -> Z;
  an_ext : Z -> Z;
  an_next : Z
}.

(** A request: its type, its page, and where the reply's page goes, 0 if it
    has none. *)
Record call := Call { call_type : Z; call_page : reqpage; call_dst : Z }.

Record client := Client { cl_uvm : uvm; cl_calls : list call; cl_answers : nat -> answer }.

#[export] Program Instance client_uvm : HasUvm client :=
  {| uvm_of := cl_uvm; with_uvm p c := Client p (cl_calls c) (cl_answers c) |}.
Solve Obligations with (by intros; repeat match goal with c : client |- _ => destruct c end).

(** A frame no other process maps. *)
Definition private (p : uvm) (f : Z) : bool := (f <? v_next p) && (v_ext p f =? 0).

Definition deliver (a : answer) (dstva : Z) (p : uvm) : uvm :=
  Uvm (match an_page a with
       | Some f => if dstva =? 0 then v_pt p else <[upage dstva := f]> (v_pt p)
       | None => v_pt p
       end)
      (fun f => if private p f then v_mem p f else an_mem a f)
      (fun f => if private p f then 0 else an_ext a f)
      (an_next a) (v_grants p).

(** The request and the answer, when [ipc_recv] reports no error. *)
Definition asked (c : call) (s : client) : client :=
  Client (deliver (cl_answers s 0) (call_dst c) (cl_uvm s)) (cl_calls s ++ [c]) (fun n => cl_answers s (S n)).

(** The result, and the permission of the page received. *)
Definition fsipc (type : Z) (fsreq : reqpage) (dstva : Z) : M client (Z * Z) :=
  a ← get (fun s => cl_answers s 0);
  if negb (an_ret a =? 0) then panic
  else modify (asked (Call type fsreq dstva)) ;; mret (i32 (an_val a), an_perm a).

(** The request pages; the fields a request does not have are 0. *)
Definition path_page (path : list Z) (omode : Z) : reqpage := ReqPage path omode 0 0.
Definition id_page (fileid word : Z) : reqpage := ReqPage [] 0 fileid word.

Definition strlen (path : list Z) : Z := Z.of_nat (length path).

Definition fsipc_open (path : list Z) (omode fd : Z) : M client Z :=
  if MAXPATHLEN <=? strlen path then mret (- E_BAD_PATH)
  else r ← fsipc FSREQ_OPEN (path_page path omode) fd; mret r.1.

(** The permissions a page of a file may come with. *)
Definition map_perm_ok (perm : Z) : bool := Z.ldiff perm (Z.lor (Z.lor PTE_RW PTE_USER) PTE_LIBRARY) =? PTE_V.

Definition fsipc_map (fileid offset dstva : Z) : M client Z :=
  '(r, perm) ← fsipc FSREQ_MAP (id_page fileid offset) dstva;
  if r <? 0 then mret r else if map_perm_ok perm then mret 0 else panic.

Definition fsipc_set_size (fileid size : Z) : M client Z :=
  r ← fsipc FSREQ_SET_SIZE (id_page fileid size) 0; mret r.1.

Definition fsipc_close (fileid : Z) : M client Z :=
  r ← fsipc FSREQ_CLOSE (id_page fileid 0) 0; mret r.1.

Definition fsipc_dirty (fileid offset : Z) : M client Z :=
  r ← fsipc FSREQ_DIRTY (id_page fileid offset) 0; mret r.1.

Definition fsipc_remove (path : list Z) : M client Z :=
  let len := strlen path in
  if (len =? 0) || (MAXPATHLEN <? len) then mret (- E_BAD_PATH)
  else r ← fsipc FSREQ_REMOVE (path_page path 0) 0; mret r.1.

Definition fsipc_sync : M client Z := r ← fsipc FSREQ_SYNC (ReqPage [] 0 0 0) 0; mret r.1.

(** The message a request is for the server: [ipc_send] gives it the
    permission [PTE_V | PTE_RW | PTE_USER]. *)
Definition call_message (whom : Z) (c : call) : message :=
  Recv whom (call_type c) (Z.lor (Z.lor PTE_V PTE_RW) PTE_USER) (call_page c).

(** ** Steps *)

(** The result of the next request. *)
Definition result (s : client) : Z := i32 (an_val (cl_answers s 0)).

(** The server's answers arrive. *)
Definition answering (s : client) : Prop := forall n, an_ret (cl_answers s n) = 0.

Lemma answering_asked c s : answering s -> answering (asked c s).
Proof. intros H n. apply (H (S n)). Qed.

Lemma fsipc_ok t rq d s : answering s -> fsipc t rq d s = Ret (result s, an_perm (cl_answers s 0)) (asked (Call t rq d) s).
Proof. intros H. unfold fsipc. rewrite bind_get, H. done. Qed.

Lemma fsipc_fst t rq d s : answering s -> (r ← fsipc t rq d; mret r.1) s = Ret (result s) (asked (Call t rq d) s).
Proof. intros H. by rewrite (bind_ret _ _ _ _ _ (fsipc_ok t rq d s H)). Qed.

Lemma fsipc_map_ok id off d s : answering s -> map_perm_ok (an_perm (cl_answers s 0)) = true ->
  fsipc_map id off d s = Ret (if result s <? 0 then result s else 0) (asked (Call FSREQ_MAP (id_page id off) d) s).
Proof.
  intros H Hp. unfold fsipc_map. rewrite (bind_ret _ _ _ _ _ (fsipc_ok _ _ _ s H)), Hp. by destruct (_ <? 0).
Qed.

(** A frame the client shares has the contents the server leaves. *)
Lemma asked_shared c s f : private (cl_uvm s) f = false -> v_mem (cl_uvm (asked c s)) f = an_mem (cl_answers s 0) f.
Proof. intros H. unfold asked, deliver. simpl. by rewrite H. Qed.

Lemma asked_private c s f : private (cl_uvm s) f = true -> v_mem (cl_uvm (asked c s)) f = v_mem (cl_uvm s) f.
Proof. intros H. unfold asked, deliver. simpl. by rewrite H. Qed.

Lemma asked_pt c s : v_pt (cl_uvm (asked c s)) =
  match an_page (cl_answers s 0) with
  | Some f => if call_dst c =? 0 then v_pt (cl_uvm s) else <[upage (call_dst c) := f]> (v_pt (cl_uvm s))
  | None => v_pt (cl_uvm s)
  end.
Proof. done. Qed.

Lemma asked_pt_none c s : call_dst c = 0 -> v_pt (cl_uvm (asked c s)) = v_pt (cl_uvm s).
Proof. intros H. rewrite asked_pt, H. by destruct (an_page _). Qed.

(** ** Every request is answered

    Every request the client library sends has a type of the server's table
    and a page, so that the server's loop replies to it. *)

(** A request of the library. *)
Definition library_call (c : call) : bool := (0 <=? call_type c) && (call_type c <? MAX_FSREQNO).

Lemma library_call_well_formed whom c : library_call c = true -> well_formed (call_message whom c) = true.
Proof.
  unfold library_call, well_formed, call_message. intros [H1 H2]%andb_prop. apply Z.ltb_lt in H2.
  destruct (Z.ltb_spec (call_type c) MAX_FSREQNO); [done|lia].
Qed.
