(* ===== verification/FileClient.v ===== *)
(** user/lib/file.c and [stat] of user/lib/fd.c: files as a client sees them.

    The descriptor of an open file is a page shared with the server, with the
    file's id and a copy of its [struct File]; block [k] of the file is shared
    at page [k] of the descriptor's data.  The client reads and writes the
    file through these pages.

    [vmemcpy] copies byte by byte, which is what [memcpy] computes on areas
    that do not overlap (CString.v). *)
From stdpp Require Import gmap.
From S2P Require Import Prelude Mem Mmu Proc FsServ Uvm Fd FsIpc.
#[local] Open Scope Z_scope.

Definition MAXFILESIZE : Z := 1024 * 4096.
Definition FTYPE_DIR : Z := 1.

Section copy.
Context {S : Type} `{HasUvm S}.

Definition vmemcpy (dst src n : Z) : M S unit :=
  mfor (Z.to_nat n) 0 (fun i => b ← vload 1 (src + i); vstore 1 (dst + i) b).

(** [strcpy]; the code has no bound. *)
Fixpoint vstrcpy (fuel : nat) (dst src : Z) : M S unit :=
  match fuel with
  | O => panic
  | Datatypes.S fuel =>
      b ← vload 1 src;
      vstore 1 dst b ;;
      if b =? 0 then mret tt else vstrcpy fuel (dst + 1) (src + 1)
  end.

(** [for (; i < hi; i += PTMAP)] with a [return] in its body.  The index is of
    the type that [wrap] wraps, and is converted by [conv] to be compared. *)
Fixpoint page_loop (wrap conv : Z -> Z) (fuel : nat) (i hi : Z) (body : Z -> M S (option Z)) : M S (option Z) :=
  match fuel with
  | O => panic
  | Datatypes.S fuel =>
      if conv i <? hi then
        r ← body i;
        match r with
        | Some e => mret (Some e)
        | None => page_loop wrap conv fuel (wrap (i + PTMAP)) hi body
        end
      else mret None
  end.

(** The loops up to [hi] end with this fuel; the loop of [file_close] does not
    end at all when the size is above [2^32 - 4096]. *)
Definition pages_fuel (hi : Z) : nat := Z.to_nat (hi / PTMAP + 2).
End copy.

(** The fields of [struct Filefd]. *)
Definition f_fileid (fd : Z) : M client Z := vload 4 (fd + 12).
Definition f_size (fd : Z) : M client Z := vload 4 (fd + 144).
Definition f_type (fd : Z) : M client Z := vload 4 (fd + 148).

Definition open (path : list Z) (mode : Z) : M client Z :=
  '(r, fd) ← fd_alloc;
  if negb (r =? 0) then mret r
  else
    r ← fsipc_open path mode fd;
    if negb (r =? 0) then mret r
    else
      let va := fd2data fd in
      size ← f_size fd;
      fileid ← f_fileid fd;
      e ← page_loop i32 u32 (pages_fuel size) 0 size (fun i =>
            r ← fsipc_map fileid (u32 i) (va + i);
            mret (if negb (r =? 0) then Some r else None));
      mret (default (fd2num fd) e).

Definition file_close (fd : Z) : M client Z :=
  fileid ← f_fileid fd;
  size ← f_size fd;
  let va := fd2data fd in
  e ← page_loop u32 (fun i => i) (pages_fuel size) 0 size (fun i =>
        r ← fsipc_dirty fileid i;
        mret (if r <? 0 then Some r else None));
  match e with
  | Some r => mret r
  | None =>
      r ← fsipc_close fileid;
      if r <? 0 then mret r
      else if size =? 0 then mret 0
      else
        e ← page_loop u32 (fun i => i) (pages_fuel size) 0 size (fun i =>
              r ← sys_unmap (va + i);
              mret (if r <? 0 then Some r else None));
        mret (default 0 e)
  end.

(** The number of bytes [file_read] copies from a file of [size] bytes. *)
Definition read_count (size n offset : Z) : Z :=
  if size <? u32 (offset + n) then u32 (size - offset) else n.

Definition file_read (fd buf n offset : Z) : M client Z :=
  size ← f_size fd;
  if size <? offset then mret 0
  else
    let n := read_count size n offset in
    vmemcpy buf (fd2data fd + offset) n ;;
    mret (i32 n).

(** The result code and the address. *)
Definition read_map (fdnum offset : Z) : M client (Z * Z) :=
  '(r, fd) ← fd_lookup fdnum;
  if r <? 0 then mret (r, 0)
  else
    id ← vload 4 fd;
    if negb (id =? DEV_FILE) then mret (- E_INVAL, 0)
    else
      let va := fd2data fd + offset in
      if MAXFILESIZE <=? offset then mret (- E_NO_DISK, 0)
      else
        mapped ← sys_has_page va;
        mret (if (mapped : bool) then (0, va) else (- E_NO_DISK, 0)).

(** The pages of the file that [ftruncate] adds and takes away. *)
Definition grow (fileid va oldsize size : Z) : M client (option Z) :=
  page_loop i32 u64 (pages_fuel (ROUND size PTMAP)) (i32 (ROUND oldsize PTMAP)) (ROUND size PTMAP) (fun i =>
    r ← fsipc_map fileid (u32 i) (va + i);
    if r <? 0 then
      r2 ← fsipc_set_size fileid oldsize;
      mret (Some (if r2 <? 0 then r2 else r))
    else mret None).
Definition shrink (va oldsize size : Z) : M client (option Z) :=
  page_loop i32 u64 (pages_fuel (ROUND oldsize PTMAP)) (i32 (ROUND size PTMAP)) (ROUND oldsize PTMAP) (fun i =>
    r ← sys_unmap (va + i);
    if r <? 0 then panic else mret None).

Definition ftruncate (fdnum size : Z) : M client Z :=
  if MAXFILESIZE <? size then mret (- E_NO_DISK)
  else
    '(r, fd) ← fd_lookup fdnum;
    if r <? 0 then mret r
    else
      id ← vload 4 fd;
      if negb (id =? DEV_FILE) then mret (- E_INVAL)
      else
        fileid ← f_fileid fd;
        oldsize ← f_size fd;
        vstore 4 (fd + 144) size ;;
        r ← fsipc_set_size fileid size;
        if r <? 0 then mret r
        else
          let va := fd2data fd in
          e ← grow fileid va oldsize size;
          match e with
          | Some r => mret r
          | None => shrink va oldsize size ;; mret 0
          end.

Definition file_write (fd buf n offset : Z) : M client Z :=
  let tot := u32 (offset + n) in
  if MAXFILESIZE <? tot then mret (- E_NO_DISK)
  else
    size ← f_size fd;
    r ← (if size <? tot then ftruncate (fd2num fd) tot else mret 0);
    if r <? 0 then mret r
    else
      vmemcpy (fd2data fd + offset) buf n ;;
      mret (i32 n).

(** A name of 128 bytes without a terminator is followed by the size and the
    type, whose upper bytes are 0. *)
Definition file_stat (fd st : Z) : M client Z :=
  vstrcpy 256 st (fd + 16) ;;
  size ← f_size fd;
  vstore 4 (st + 128) size ;;
  type ← f_type fd;
  vstore 4 (st + 132) (if type =? FTYPE_DIR then 1 else 0) ;;
  mret 0.

Definition remove (path : list Z) : M client Z := fsipc_remove path.
Definition sync : M client Z := fsipc_sync.

Definition devfile (addr : Z) : Dev client := MkDev DEV_FILE addr file_read file_write file_close file_stat.

Definition stat (devtab : list (Dev client)) (path : list Z) (st : Z) : M client Z :=
  fd ← open path O_RDONLY;
  if fd <? 0 then mret fd
  else
    r ← fstat devtab fd st;
    close devtab fd ;;
    mret r.

(** ** Loops *)

(** The pages of [n] bytes. *)
Definition npages (n : Z) : Z := (n + 4095) / 4096.

(** A wrap or a conversion that leaves small indices alone. *)
Definition small_id (w : Z -> Z) : Prop := forall x, 0 <= x < 2 ^ 31 -> w x = x.

Lemma small_i32 : small_id i32.
Proof. intros x Hx. by apply i32_small. Qed.
Lemma small_u32 : small_id u32.
Proof. intros x Hx. apply Z.mod_small. lia. Qed.
Lemma small_u64 : small_id u64.
Proof. intros x Hx. apply Z.mod_small. lia. Qed.
Lemma small_same : small_id (fun i => i).
Proof. done. Qed.
#[export] Hint Resolve small_i32 small_u32 small_u64 small_same : core.

Lemma mfor_ret_ext {S A} (b1 b2 : Z -> M S (option A)) n : forall i s,
  (forall j s, i <= j < i + Z.of_nat n -> b1 j s = b2 j s) -> mfor_ret n i b1 s = mfor_ret n i b2 s.
Proof.
  induction n as [|n IH]; intros i s Hb; [done|]. simpl. unfold mbind, M_bind. rewrite Hb by lia.
  destruct (b2 i s) as [[a|] s'|s'|e s']; try done. apply IH. intros j s2 Hj. apply Hb. lia.
Qed.

Lemma bind_ext {S A B} (m1 m2 : M S A) (f : A -> M S B) s : m1 s = m2 s -> (m1 ≫= f) s = (m2 ≫= f) s.
Proof. intros E. unfold mbind, M_bind. by rewrite E. Qed.

(** A loop over pages as a counted loop. *)
Lemma page_loop_counted {S} (wrap conv : Z -> Z) lo hi (body : Z -> M S (option Z)) :
  small_id wrap -> small_id conv -> 0 <= lo -> hi <= MAXFILESIZE -> forall fuel j s,
  0 <= j -> lo + j * 4096 <= 2 * MAXFILESIZE -> npages (hi - (lo + j * 4096)) < Z.of_nat fuel -> (0 < fuel)%nat ->
  page_loop wrap conv fuel (lo + j * 4096) hi body s =
    mfor_ret (Z.to_nat (npages (hi - (lo + j * 4096)))) j (fun k => body (lo + k * 4096)) s.
Proof.
  unfold MAXFILESIZE, npages. intros Hw Hc Hlo Hhi. induction fuel as [|fuel IH]; intros j s Hj Hb Hf H0; [lia|].
  cbn [page_loop]. rewrite Hc by lia. destruct (Z.ltb_spec (lo + j * 4096) hi) as [Hlt|Hge].
  - set (n := (hi - (lo + j * 4096) + 4095) / 4096) in *.
    assert ((hi - (lo + (j + 1) * 4096) + 4095) / 4096 = n - 1) as En by (unfold n; Z.div_mod_to_equations; lia).
    assert (1 <= n) by (unfold n; Z.div_mod_to_equations; lia).
    replace (Z.to_nat n) with (Datatypes.S (Z.to_nat (n - 1))) by lia. simpl.
    unfold mbind, M_bind. destruct (body (lo + j * 4096) s) as [[a|] s'|s'|e s']; try done.
    unfold PTMAP. rewrite Hw by lia. replace (lo + j * 4096 + 4096) with (lo + (j + 1) * 4096) by lia.
    rewrite IH by lia. by rewrite En.
  - replace (Z.to_nat ((hi - (lo + j * 4096) + 4095) / 4096)) with 0%nat; [done|].
    assert ((hi - (lo + j * 4096) + 4095) / 4096 <= 0) by (Z.div_mod_to_equations; lia). lia.
Qed.

Lemma page_loop_ok {S} (wrap conv : Z -> Z) lo hi (body : Z -> M S (option Z)) s :
  small_id wrap -> small_id conv -> 0 <= lo <= 2 * MAXFILESIZE -> 0 <= hi <= MAXFILESIZE ->
  page_loop wrap conv (pages_fuel hi) lo hi body s =
    mfor_ret (Z.to_nat (npages (hi - lo))) 0 (fun k => body (lo + k * 4096)) s.
Proof.
  intros Hw Hc Hlo Hhi. replace lo with (lo + 0 * 4096) at 1 2 by lia. assert (0 <= hi / 4096) by (apply Z.div_pos; lia).
  apply page_loop_counted; try done; try lia.
  - unfold npages, pages_fuel, PTMAP. rewrite Z2Nat.id by lia. Z.div_mod_to_equations; lia.
  - unfold pages_fuel, PTMAP. lia.
Qed.

(** A counted loop with known states. *)
Lemma mfor_ret_states {S A} (body : Z -> M S (option A)) (st : nat -> S) n : forall k,
  (forall j, (k <= j < k + n)%nat -> body (Z.of_nat j) (st j) = Ret None (st (Datatypes.S j))) ->
  mfor_ret n (Z.of_nat k) body (st k) = Ret None (st (k + n)%nat).
Proof.
  induction n as [|n IH]; intros k Hb; simpl; [by rewrite Nat.add_0_r|].
  rewrite (bind_ret _ _ _ _ _ (Hb k ltac:(lia))). replace (Z.of_nat k + 1) with (Z.of_nat (Datatypes.S k)) by lia.
  rewrite IH by (intros j Hj; apply Hb; lia). by rewrite Nat.add_succ_r.
Qed.

Lemma mfor_ret_stops {S A} (body : Z -> M S (option A)) (st : nat -> S) m a s' n : forall k,
  (k <= m < k + n)%nat ->
  (forall j, (k <= j < m)%nat -> body (Z.of_nat j) (st j) = Ret None (st (Datatypes.S j))) ->
  body (Z.of_nat m) (st m) = Ret (Some a) s' ->
  mfor_ret n (Z.of_nat k) body (st k) = Ret (Some a) s'.
Proof.
  induction n as [|n IH]; intros k Hm Hb Ha; [lia|]. simpl. destruct (decide (k = m)) as [->|Hne].
  - by rewrite (bind_ret _ _ _ _ _ Ha).
  - rewrite (bind_ret _ _ _ _ _ (Hb k ltac:(lia))). replace (Z.of_nat k + 1) with (Z.of_nat (Datatypes.S k)) by lia.
    apply IH; [lia| |done]. intros j Hj. apply Hb. lia.
Qed.

(** ** Requests one after the other *)

Definition asked_all (l : list call) (s : client) : client := foldl (fun s c => asked c s) s l.

Lemma asked_all_app l1 l2 s : asked_all (l1 ++ l2) s = asked_all l2 (asked_all l1 s).
Proof. unfold asked_all. apply foldl_app. Qed.

Lemma asked_all_calls l : forall s, cl_calls (asked_all l s) = cl_calls s ++ l.
Proof.
  induction l as [|c l IH]; intros s; simpl; [by rewrite app_nil_r|]. rewrite IH. simpl. by rewrite <- app_assoc.
Qed.

Lemma asked_all_answers l : forall s n, cl_answers (asked_all l s) n = cl_answers s (length l + n)%nat.
Proof. induction l as [|c l IH]; intros s n; simpl; [done|]. by rewrite IH. Qed.

Lemma asked_all_answering l s : answering s -> answering (asked_all l s).
Proof. intros H n. by rewrite asked_all_answers. Qed.

(** The requests of the pages [lo .. lo + n) of a file. *)
Definition map_call (fileid va k : Z) : call := Call FSREQ_MAP (id_page fileid (k * 4096)) (va + k * 4096).
Definition map_calls (fileid va lo : Z) (n : nat) : list call := map (fun k => map_call fileid va (lo + Z.of_nat k)) (seq 0 n).
Definition dirty_calls (fileid : Z) (n : nat) : list call := map (fun k => Call FSREQ_DIRTY (id_page fileid (Z.of_nat k * 4096)) 0) (seq 0 n).

Lemma map_calls_S id va lo n : map_calls id va lo (S n) = map_calls id va lo n ++ [map_call id va (lo + Z.of_nat n)].
Proof. unfold map_calls. by rewrite seq_S, map_app. Qed.
Lemma dirty_calls_S id n : dirty_calls id (S n) = dirty_calls id n ++ [Call FSREQ_DIRTY (id_page id (Z.of_nat n * 4096)) 0].
Proof. unfold dirty_calls. by rewrite seq_S, map_app. Qed.
Lemma map_calls_length id va lo n : length (map_calls id va lo n) = n.
Proof. unfold map_calls. by rewrite length_map, length_seq. Qed.
Lemma dirty_calls_length id n : length (dirty_calls id n) = n.
Proof. unfold dirty_calls. by rewrite length_map, length_seq. Qed.

(** The code of the answer [k], and an answer that maps a page. *)
Definition answer_code (s : client) (k : nat) : Z := i32 (an_val (cl_answers s k)).
Definition maps_page (s : client) (k : nat) : Prop :=
  0 <= answer_code s k /\ map_perm_ok (an_perm (cl_answers s k)) = true.

(** The state after the first [k] of the requests for pages. *)
Definition mapped_to (id va lo : Z) (s : client) (k : nat) : client := asked_all (map_calls id va lo k) s.

Lemma mapped_to_S id va lo s k : mapped_to id va lo s (S k) = asked (map_call id va (lo + Z.of_nat k)) (mapped_to id va lo s k).
Proof. unfold mapped_to. by rewrite map_calls_S, asked_all_app. Qed.

Lemma mapped_to_answers id va lo s k n : cl_answers (mapped_to id va lo s k) n = cl_answers s (k + n)%nat.
Proof. unfold mapped_to. by rewrite asked_all_answers, map_calls_length. Qed.

Lemma mapped_to_answering id va lo s k : answering s -> answering (mapped_to id va lo s k).
Proof. apply asked_all_answering. Qed.

Lemma map_request id va lo s k : answering s -> map_perm_ok (an_perm (cl_answers s k)) = true ->
  fsipc_map id ((lo + Z.of_nat k) * 4096) (va + (lo + Z.of_nat k) * 4096) (mapped_to id va lo s k) =
    Ret (if answer_code s k <? 0 then answer_code s k else 0) (mapped_to id va lo s (S k)).
Proof.
  intros H Hp. rewrite mapped_to_S, fsipc_map_ok; [|by apply mapped_to_answering|].
  - unfold result. rewrite mapped_to_answers, Nat.add_0_r. done.
  - by rewrite mapped_to_answers, Nat.add_0_r.
Qed.

Lemma pt_asked c s : pt (asked c s) =
  match an_page (cl_answers s 0) with
  | Some f => if call_dst c =? 0 then pt s else <[upage (call_dst c) := f]> (pt s)
  | None => pt s
  end.
Proof. done. Qed.

(** The frames the answers [0 .. n) to the requests for the pages from [lo] on
    bring. *)
Lemma mapped_to_pt id i lo s n : 0 <= i < MAXFD -> 0 <= lo -> lo + Z.of_nat n <= 1024 ->
  (forall k, lo <= k < lo + Z.of_nat n -> pt (mapped_to id (FILEBASE + i * PDMAP) lo s n) !! datap i k =
     match an_page (cl_answers s (Z.to_nat (k - lo))) with Some g => Some g | None => pt s !! datap i k end) /\
  (forall x, (forall k, lo <= k < lo + Z.of_nat n -> x <> datap i k) ->
     pt (mapped_to id (FILEBASE + i * PDMAP) lo s n) !! x = pt s !! x).
Proof.
  intros Hi Hlo. induction n as [|n IH]; intros Hn; [split; intros; [lia|done]|]. destruct IH as [IH1 IH2]; [lia|].
  set (va := FILEBASE + i * PDMAP) in *.
  assert (forall x, pt (mapped_to id va lo s (S n)) !! x =
    match an_page (cl_answers s n) with
    | Some g => if decide (x = datap i (lo + Z.of_nat n)) then Some g else pt (mapped_to id va lo s n) !! x
    | None => pt (mapped_to id va lo s n) !! x
    end) as E.
  { intros x. rewrite mapped_to_S, pt_asked, mapped_to_answers, Nat.add_0_r. cbn [call_dst map_call].
    unfold va. pose proof (data_page i (lo + Z.of_nat n)) as Ep. unfold PTMAP in Ep. rewrite Ep. destruct (an_page (cl_answers s n)) as [g|]; [|done].
    destruct (Z.eqb_spec (FILEBASE + i * PDMAP + (lo + Z.of_nat n) * 4096) 0); [unfold FILEBASE, PDMAP, MAXFD in *; lia|].
    destruct (decide (x = datap i (lo + Z.of_nat n))) as [->|Hne]; [by rewrite lookup_insert_eq|by rewrite lookup_insert_ne]. }
  split.
  - intros k Hk. rewrite E. destruct (decide (k = lo + Z.of_nat n)) as [->|Hne].
    + replace (Z.to_nat (lo + Z.of_nat n - lo)) with n by lia.
      destruct (an_page _); [by rewrite decide_True|]. apply IH2. intros k' Hk'. unfold datap. lia.
    + rewrite <- IH1 by lia. destruct (an_page (cl_answers s n)); [|done]. rewrite decide_False; [done|]. unfold datap. lia.
  - intros x Hx. rewrite E. rewrite <- IH2 by (intros k Hk; apply Hx; lia). destruct (an_page (cl_answers s n)); [|done].
    rewrite decide_False; [done|]. apply Hx. lia.
Qed.

(** ** open *)

Lemma npages_bounds n : 0 <= n <= MAXFILESIZE -> 0 <= npages n <= 1024.
Proof. unfold npages, MAXFILESIZE. intros Hn. split; [apply Z.div_pos; lia|]. Z.div_mod_to_equations; lia. Qed.

(** The requests for the pages of a file from [lo] on, as the loops of [open]
    and [ftruncate] make them. *)
Lemma map_loop_step id va lo s k stop : answering s -> 0 <= lo -> lo + Z.of_nat k < 1024 -> map_perm_ok (an_perm (cl_answers s k)) = true ->
  (r ← fsipc_map id (u32 ((lo + Z.of_nat k) * 4096)) (va + (lo + Z.of_nat k) * 4096); stop r) (mapped_to id va lo s k) =
    (stop (if answer_code s k <? 0 then answer_code s k else 0) : M client (option Z)) (mapped_to id va lo s (Datatypes.S k)).
Proof.
  intros H Hlo Hk Hp. unfold u32. rewrite Z.mod_small by lia. by rewrite (bind_ret _ _ _ _ _ (map_request id va lo s k H Hp)).
Qed.

Section open.
Variables (path : list Z) (mode i f : Z) (s : client).
Hypothesis Hi : 0 <= i < MAXFD - 1.
Hypothesis Hans : answering s.
Hypothesis Hpath : strlen path < MAXPATHLEN.
Hypothesis Hfree : pt s !! fdp i = None.
Hypothesis Hused : forall j, 0 <= j < i -> is_Some (pt s !! fdp j).

(** The request and the data of the descriptor that comes back. *)
Definition open_call : call := Call FSREQ_OPEN (path_page path mode) (INDEX2FD i).
Definition opened : client := asked open_call s.

Lemma open_refused : result s <> 0 -> open path mode s = Ret (result s) opened.
Proof.
  intros Hr. unfold open. rewrite (bind_ret _ _ _ _ _ (fd_alloc_found s i Hi Hfree Hused)). cbv beta iota.
  change (negb (0 =? 0)) with false. cbv iota. unfold fsipc_open. destruct (Z.leb_spec MAXPATHLEN (strlen path)); [lia|].
  rewrite (bind_ret _ _ _ _ _ (fsipc_fst _ _ _ s Hans)). destruct (Z.eqb_spec (result s) 0); [done|]. done.
Qed.

Hypothesis Hres : result s = 0.
Hypothesis Hpage : an_page (cl_answers s 0) = Some f.
Hypothesis Hshared : private (cl_uvm s) f = false.
Let m := an_mem (cl_answers s 0) f.
Hypothesis Hsize : load 4 m 144 <= MAXFILESIZE.

Lemma opened_pt : pt opened = <[fdp i := f]> (pt s).
Proof.
  unfold MAXFD in *. unfold opened. rewrite pt_asked, Hpage. cbn [call_dst open_call].
  rewrite fd_page by (unfold MAXFD; lia). destruct (Z.eqb_spec (INDEX2FD i) 0) as [E|]; [|done].
  rewrite INDEX2FD_in in E by (unfold MAXFD; lia). unfold FDTABLE, FILEBASE, PDMAP, PTMAP in E. lia.
Qed.

Lemma opened_field o : 0 <= o <= PAGE_SIZE - 4 -> vload 4 (INDEX2FD i + o) opened = Ret (load 4 m o) opened.
Proof.
  unfold MAXFD in *. intros Ho. rewrite (vload_field i f ltac:(unfold MAXFD; lia) opened o Ho).
  - unfold fget, opened. change uvm_of with cl_uvm. by rewrite asked_shared.
  - by rewrite opened_pt, lookup_insert_eq.
Qed.

Lemma open_loop : open path mode s =
  (e ← mfor_ret (Z.to_nat (npages (load 4 m 144))) 0 (fun k =>
         r ← fsipc_map (load 4 m 12) (u32 (0 + k * 4096)) (FILEBASE + i * PDMAP + (0 + k * 4096));
         mret (if negb (r =? 0) then Some r else None));
   mret (default i e)) opened.
Proof.
  unfold MAXFD in *. pose proof (load32_bound m 144).
  unfold open. rewrite (bind_ret _ _ _ _ _ (fd_alloc_found s i Hi Hfree Hused)). cbv beta iota.
  change (negb (0 =? 0)) with false. cbv iota. unfold fsipc_open. destruct (Z.leb_spec MAXPATHLEN (strlen path)); [lia|].
  rewrite (bind_ret _ _ _ _ _ (fsipc_fst _ _ _ s Hans)). fold open_call. fold opened. rewrite Hres.
  change (negb (0 =? 0)) with false. cbv iota zeta. unfold f_size, f_fileid.
  rewrite (bind_ret _ _ _ _ _ (opened_field 144 ltac:(unfold PAGE_SIZE; lia))).
  rewrite (bind_ret _ _ _ _ _ (opened_field 12 ltac:(unfold PAGE_SIZE; lia))).
  rewrite fd2data_in, fd2num_in by (unfold MAXFD; lia). apply bind_ext.
  rewrite page_loop_ok by (try done; unfold MAXFILESIZE in *; lia). by rewrite Z.sub_0_r.
Qed.

Lemma open_maps : (forall k, (k < Z.to_nat (npages (load 4 m 144)))%nat -> maps_page s (S k)) ->
  open path mode s = Ret i (mapped_to (load 4 m 12) (FILEBASE + i * PDMAP) 0 opened (Z.to_nat (npages (load 4 m 144)))).
Proof.
  intros Hmaps. pose proof (load32_bound m 144). pose proof (npages_bounds (load 4 m 144) ltac:(lia)).
  rewrite open_loop. set (va := FILEBASE + i * PDMAP). set (n := Z.to_nat (npages (load 4 m 144))) in *.
  rewrite (bind_ret _ _ opened None (mapped_to (load 4 m 12) va 0 opened n)); [done|].
  apply (mfor_ret_states _ (mapped_to (load 4 m 12) va 0 opened) n 0). intros k Hk. destruct (Hmaps k) as [H1 H2]; [lia|].
  rewrite (map_loop_step (load 4 m 12) va 0 opened k); [|by apply answering_asked|lia|lia|done].
  change (answer_code opened k) with (answer_code s (S k)). destruct (Z.ltb_spec (answer_code s (S k)) 0); [lia|done].
Qed.

Lemma open_map_refused k : (k < Z.to_nat (npages (load 4 m 144)))%nat -> (forall j, (j < k)%nat -> maps_page s (S j)) ->
  answer_code s (S k) < 0 ->
  open path mode s = Ret (answer_code s (S k)) (mapped_to (load 4 m 12) (FILEBASE + i * PDMAP) 0 opened (S k)).
Proof.
  intros Hk Hmaps Hr. pose proof (load32_bound m 144). pose proof (npages_bounds (load 4 m 144) ltac:(lia)).
  rewrite open_loop. set (va := FILEBASE + i * PDMAP). set (n := Z.to_nat (npages (load 4 m 144))) in *.
  rewrite (bind_ret _ _ opened (Some (answer_code s (S k))) (mapped_to (load 4 m 12) va 0 opened (S k))); [done|].
  apply (mfor_ret_stops _ (mapped_to (load 4 m 12) va 0 opened) k _ _ n 0); [lia| |].
  - intros j Hj. destruct (Hmaps j) as [H1 H2]; [lia|].
    rewrite (map_loop_step (load 4 m 12) va 0 opened j); [|by apply answering_asked|lia|lia|done].
    change (answer_code opened j) with (answer_code s (S j)). destruct (Z.ltb_spec (answer_code s (S j)) 0); [lia|done].
  - unfold fsipc_map. rewrite Z.add_0_l.
    (* the code of the answer is looked at before its permission *)
    unfold u32. rewrite Z.mod_small by lia.
    rewrite bind_assoc. rewrite (bind_ret _ _ _ _ _ (fsipc_ok _ _ _ _ (mapped_to_answering _ va 0 opened k (answering_asked _ s Hans)))).
    cbv beta iota. unfold result. rewrite mapped_to_answers, Nat.add_0_r.
    change (i32 (an_val (cl_answers opened k))) with (answer_code s (S k)).
    destruct (Z.ltb_spec (answer_code s (S k)) 0); [|lia]. rewrite bind_mret.
    destruct (Z.eqb_spec (answer_code s (S k)) 0); [lia|]. by rewrite mapped_to_S.
Qed.
End open.

(** ** Unmapping pages of a file *)

Lemma unmap_pages i lo n (stop : Z -> M client (option Z)) s : 0 <= i < MAXFD -> 0 <= lo -> lo + Z.of_nat n <= 1024 ->
  (forall s, stop 0 s = Ret None s) ->
  exists s', mfor_ret n 0 (fun k => r ← sys_unmap (FILEBASE + i * PDMAP + (lo * 4096 + k * 4096)); stop r) s = Ret None s' /\
    remapped s s' /\ forall x, pt s' !! x = if decide (datap i lo <= x < datap i lo + Z.of_nat n) then None else pt s !! x.
Proof.
  intros Hi Hlo Hn Hstop.
  destruct (mfor_ret_inv (fun k s' => remapped s s' /\ forall x, pt s' !! x = if decide (datap i lo <= x < datap i lo + k) then None else pt s !! x)
    (fun _ _ => False) (fun k => r ← sys_unmap (FILEBASE + i * PDMAP + (lo * 4096 + k * 4096)); stop r) n 0 s) as (r & s' & E & H).
  - split; [done|]. intros x. rewrite decide_False; [done|lia].
  - intros k s1 Hk [Hr Hp]. exists None. rewrite <- Z.mul_add_distr_r. fold PTMAP.
    pose proof (data_page i (lo + k)) as Ep. pose proof (sys_unmap_ok _ s1 (data_legal i (lo + k) Hi ltac:(lia))) as Eu. rewrite Ep in Eu.
    eexists. rewrite (bind_ret _ _ _ _ _ Eu), Hstop. split; [done|]. split; [by etransitivity; [|apply remapped_with]|].
    intros x. unfold pt at 1. rewrite uvm_of_with. cbn [v_pt set_v_pt]. destruct (decide (x = datap i (lo + k))) as [->|Hne].
    + rewrite lookup_delete_eq, decide_True; [done|]. unfold datap. lia.
    + rewrite lookup_delete_ne by done. change (v_pt (uvm_of s1) !! x) with (pt s1 !! x). rewrite Hp.
      destruct (decide (datap i lo <= x < datap i lo + k)); [rewrite decide_True by lia; done|].
      rewrite decide_False; [done|]. intros Hx. apply Hne. unfold datap in *. lia.
  - destruct r; [done|]. exists s'. rewrite Z.add_0_l in H. destruct H. done.
Qed.

(** ** file_close *)

Section close.
Variables (i f : Z) (s : client).
Hypothesis Hi : 0 <= i < MAXFD.
Hypothesis Hans : answering s.
Hypothesis Hf : pt s !! fdp i = Some f.
Let id := fget s f 12.
Let size := fget s f 144.
Let n := Z.to_nat (npages size).
Hypothesis Hsize : size <= MAXFILESIZE.

Definition close_call (fileid : Z) : call := Call FSREQ_CLOSE (id_page fileid 0) 0.

Definition dirtied_to (fileid : Z) (s : client) (k : nat) : client := asked_all (dirty_calls fileid k) s.

Lemma dirty_request k : fsipc_dirty id (0 + Z.of_nat k * 4096) (dirtied_to id s k) = Ret (answer_code s k) (dirtied_to id s (S k)).
Proof.
  unfold fsipc_dirty, dirtied_to. rewrite fsipc_fst by by apply asked_all_answering.
  rewrite dirty_calls_S, asked_all_app. unfold result. rewrite asked_all_answers, dirty_calls_length, Nat.add_0_r. done.
Qed.

Lemma close_loop : file_close (INDEX2FD i) s =
  (e ← mfor_ret n 0 (fun k =>
         r ← fsipc_dirty id (0 + k * 4096);
         mret (if r <? 0 then Some r else None));
   match e with
   | Some r => mret r
   | None =>
       r ← fsipc_close id;
       if r <? 0 then mret r
       else if size =? 0 then mret 0
       else
         e ← page_loop u32 (fun i => i) (pages_fuel size) 0 size (fun j =>
               r ← sys_unmap (FILEBASE + i * PDMAP + j);
               mret (if r <? 0 then Some r else None));
         mret (default 0 e)
   end) s.
Proof.
  pose proof (load32_bound (v_mem (uvm_of s) f) 144).
  unfold file_close, f_fileid, f_size.
  rewrite (bind_ret _ _ _ _ _ (vload_field i f Hi s 12 ltac:(unfold PAGE_SIZE; lia) Hf)).
  rewrite (bind_ret _ _ _ _ _ (vload_field i f Hi s 144 ltac:(unfold PAGE_SIZE; lia) Hf)).
  cbv zeta. rewrite fd2data_in by done. fold id. fold size. apply bind_ext.
  rewrite page_loop_ok; [by rewrite Z.sub_0_r|done|done|unfold MAXFILESIZE; lia|unfold size, fget in *; lia].
Qed.

Lemma close_refused k : (k < n)%nat -> (forall j, (j < k)%nat -> 0 <= answer_code s j) -> answer_code s k < 0 ->
  file_close (INDEX2FD i) s = Ret (answer_code s k) (dirtied_to id s (S k)).
Proof.
  intros Hk Hok Hr. rewrite close_loop.
  rewrite (bind_ret _ _ s (Some (answer_code s k)) (dirtied_to id s (S k))); [done|].
  apply (mfor_ret_stops _ (dirtied_to id s) k _ _ n 0); [lia| |].
  - intros j Hj. rewrite (bind_ret _ _ _ _ _ (dirty_request j)). specialize (Hok j ltac:(lia)).
    destruct (Z.ltb_spec (answer_code s j) 0); [lia|done].
  - rewrite (bind_ret _ _ _ _ _ (dirty_request k)). destruct (Z.ltb_spec (answer_code s k) 0); [done|lia].
Qed.

(** The state when all pages are marked and the file is closed. *)
Let closed := asked (close_call id) (dirtied_to id s n).

Lemma close_dirtied : (forall j, (j < n)%nat -> 0 <= answer_code s j) ->
  file_close (INDEX2FD i) s =
    (if answer_code s n <? 0 then mret (answer_code s n)
     else if size =? 0 then mret 0
     else
       e ← page_loop u32 (fun i => i) (pages_fuel size) 0 size (fun j =>
             r ← sys_unmap (FILEBASE + i * PDMAP + j);
             mret (if r <? 0 then Some r else None));
       mret (default 0 e)) closed.
Proof.
  intros Hok. rewrite close_loop. rewrite (bind_ret _ _ s None (dirtied_to id s n)).
  - unfold fsipc_close. rewrite (bind_ret _ _ _ _ _ (fsipc_fst _ _ _ _ (asked_all_answering (dirty_calls id n) s Hans))).
    unfold result. rewrite asked_all_answers, dirty_calls_length, Nat.add_0_r. done.
  - apply (mfor_ret_states _ (dirtied_to id s) n 0). intros j Hj. rewrite (bind_ret _ _ _ _ _ (dirty_request j)).
    specialize (Hok j ltac:(lia)). destruct (Z.ltb_spec (answer_code s j) 0); [lia|done].
Qed.

Lemma close_done : (forall j, (j <= n)%nat -> 0 <= answer_code s j) ->
  exists s', file_close (INDEX2FD i) s = Ret 0 s' /\ remapped closed s' /\
    forall x, pt s' !! x = if decide (datap i 0 <= x < datap i 0 + Z.of_nat n) then None else pt closed !! x.
Proof.
  intros Hok. pose proof (load32_bound (v_mem (uvm_of s) f) 144) as Hb. fold (fget s f 144) in Hb. fold size in Hb.
  pose proof (npages_bounds size ltac:(lia)). rewrite close_dirtied by (intros j Hj; apply Hok; lia).
  specialize (Hok n ltac:(lia)). destruct (Z.ltb_spec (answer_code s n) 0); [lia|].
  destruct (Z.eqb_spec size 0) as [E0|_].
  - exists closed. split; [done|]. split; [done|]. intros x. assert (n = 0%nat) as -> by (unfold n; by rewrite E0).
    rewrite decide_False; [done|lia].
  - rewrite (bind_ext _ _ _ _ (page_loop_ok _ _ 0 size _ closed small_u32 small_same ltac:(unfold MAXFILESIZE; lia) ltac:(lia))).
    rewrite Z.sub_0_r. fold n.
    destruct (unmap_pages i 0 n (fun r => mret (if r <? 0 then Some r else None)) closed Hi ltac:(lia) ltac:(unfold n; lia)) as (s' & E & Hr & Hp); [done|].
    exists s'. split; [|done]. by rewrite (bind_ret _ _ _ _ _ E).
Qed.
End close.

(** ** ftruncate *)

Lemma ROUND_pages n : 0 <= n <= MAXFILESIZE -> ROUND n PTMAP = npages n * 4096.
Proof.
  unfold MAXFILESIZE, PTMAP, npages. intros Hn. change 4096 with (2 ^ 12) at 1. rewrite ROUND_pow2 by lia.
  by replace (n + 2 ^ 12 - 1) with (n + 4095) by lia.
Qed.

Lemma npages_sub a b : npages (a * 4096 - b * 4096) = a - b.
Proof. unfold npages. replace (a * 4096 - b * 4096 + 4095) with (4095 + (a - b) * 4096) by lia. by rewrite Z.div_add by lia. Qed.

Section truncate.
Variables (i f size : Z) (s : client).
Hypothesis Hi : 0 <= i < MAXFD.
Hypothesis Hans : answering s.
Hypothesis Hf : pt s !! fdp i = Some f.
Hypothesis Hdev : fget s f 0 = DEV_FILE.
Let id := fget s f 12.
Let old := fget s f 144.
Let va := FILEBASE + i * PDMAP.
Hypothesis Hold : old <= MAXFILESIZE.
Hypothesis Hsize : 0 <= size <= MAXFILESIZE.

Definition set_size_call (fileid size : Z) : call := Call FSREQ_SET_SIZE (id_page fileid size) 0.

Lemma answering_fput s1 g o v : answering s1 -> answering (fput s1 g o v).
Proof. intros H k. apply (H k). Qed.

(** The descriptor says [size] and the server was asked. *)
Definition resized : client := asked (set_size_call id size) (fput s f 144 size).

Lemma fput_asked_pt : pt resized = pt s.
Proof. unfold resized. rewrite pt_asked. cbn [call_dst set_size_call]. rewrite fput_pt. by destruct (an_page _). Qed.

Lemma ftruncate_start : ftruncate i size s =
  (if answer_code s 0 <? 0 then mret (answer_code s 0)
   else
     e ← grow id va old size;
     match e with
     | Some r => mret r
     | None => shrink va old size ;; mret 0
     end) resized.
Proof.
  unfold ftruncate. destruct (Z.ltb_spec MAXFILESIZE size); [lia|].
  rewrite (bind_ret _ _ _ _ _ (lookup_desc i f Hi s Hf)). change (0 <? 0) with false. cbv iota.
  pose proof (vload_field i f Hi s 0 ltac:(unfold PAGE_SIZE; lia) Hf) as E. rewrite Z.add_0_r in E. rewrite (bind_ret _ _ _ _ _ E), Hdev.
  change (negb (DEV_FILE =? DEV_FILE)) with false. cbv iota. unfold f_fileid, f_size.
  rewrite (bind_ret _ _ _ _ _ (vload_field i f Hi s 12 ltac:(unfold PAGE_SIZE; lia) Hf)).
  rewrite (bind_ret _ _ _ _ _ (vload_field i f Hi s 144 ltac:(unfold PAGE_SIZE; lia) Hf)).
  rewrite (bind_ret _ _ _ _ _ (vstore_field i f Hi s 144 size ltac:(unfold PAGE_SIZE; lia) Hf)).
  unfold fsipc_set_size. rewrite (bind_ret _ _ _ _ _ (fsipc_fst _ _ _ (fput s f 144 size) (answering_fput _ _ _ _ Hans))). rewrite fd2data_in by done. done.
Qed.

Lemma old_nonneg : 0 <= old.
Proof. pose proof (load32_bound (v_mem (uvm_of s) f) 144) as H. unfold old, fget. lia. Qed.

(** The loops as counted loops. *)
Lemma grow_counted s1 : grow id va old size s1 =
  mfor_ret (Z.to_nat (npages size - npages old)) 0 (fun k =>
    r ← fsipc_map id (u32 (npages old * 4096 + k * 4096)) (va + (npages old * 4096 + k * 4096));
    if r <? 0 then
      r2 ← fsipc_set_size id old;
      mret (Some (if r2 <? 0 then r2 else r))
    else mret None) s1.
Proof.
  pose proof old_nonneg as H0. pose proof (npages_bounds old ltac:(lia)). pose proof (npages_bounds size ltac:(lia)).
  unfold grow. rewrite !ROUND_pages by lia. rewrite i32_small by lia.
  rewrite page_loop_ok by (try done; unfold MAXFILESIZE; lia). by rewrite npages_sub.
Qed.

Lemma shrink_counted s1 : shrink va old size s1 =
  mfor_ret (Z.to_nat (npages old - npages size)) 0 (fun k =>
    r ← sys_unmap (va + (npages size * 4096 + k * 4096)); if r <? 0 then panic else mret None) s1.
Proof.
  pose proof old_nonneg as H0. pose proof (npages_bounds old ltac:(lia)). pose proof (npages_bounds size ltac:(lia)).
  unfold shrink. rewrite !ROUND_pages by lia. rewrite i32_small by lia.
  rewrite page_loop_ok by (try done; unfold MAXFILESIZE; lia). by rewrite npages_sub.
Qed.

Lemma resized_answers n : cl_answers resized n = cl_answers s (S n).
Proof. done. Qed.

Let n := Z.to_nat (npages size - npages old).

Lemma grow_step k : (k < n)%nat -> map_perm_ok (an_perm (cl_answers s (S k))) = true -> forall stop,
  (r ← fsipc_map id (u32 (npages old * 4096 + Z.of_nat k * 4096)) (va + (npages old * 4096 + Z.of_nat k * 4096)); stop r)
    (mapped_to id va (npages old) resized k) =
  (stop (if answer_code s (S k) <? 0 then answer_code s (S k) else 0) : M client (option Z)) (mapped_to id va (npages old) resized (S k)).
Proof.
  intros Hk Hp stop. pose proof old_nonneg. pose proof (npages_bounds old ltac:(lia)). pose proof (npages_bounds size ltac:(lia)).
  rewrite <- Z.mul_add_distr_r.
  by rewrite (map_loop_step id va (npages old) resized k stop) by (try (apply answering_asked, answering_fput, Hans); try done; lia).
Qed.

Lemma ftruncate_grown : npages old <= npages size -> 0 <= answer_code s 0 -> (forall k, (k < n)%nat -> maps_page s (S k)) ->
  ftruncate i size s = Ret 0 (mapped_to id va (npages old) resized n).
Proof.
  intros Hle H0 Hmaps. rewrite ftruncate_start. destruct (Z.ltb_spec (answer_code s 0) 0); [lia|].
  rewrite (bind_ret _ _ resized None (mapped_to id va (npages old) resized n)).
  - assert (shrink va old size (mapped_to id va (npages old) resized n) = Ret None (mapped_to id va (npages old) resized n)) as Es.
    { rewrite shrink_counted. by replace (Z.to_nat (npages old - npages size)) with 0%nat by lia. }
    by rewrite (bind_ret _ _ _ _ _ Es).
  - rewrite grow_counted. apply (mfor_ret_states _ (mapped_to id va (npages old) resized) n 0). intros k Hk.
    destruct (Hmaps k ltac:(lia)) as [H1 H2]. rewrite (grow_step k ltac:(lia) H2).
    destruct (Z.ltb_spec (answer_code s (S k)) 0); [lia|done].
Qed.

Lemma ftruncate_refused k : 0 <= answer_code s 0 -> (k < n)%nat -> (forall j, (j < k)%nat -> maps_page s (S j)) ->
  answer_code s (S k) < 0 -> map_perm_ok (an_perm (cl_answers s (S k))) = true ->
  ftruncate i size s =
    Ret (if answer_code s (S (S k)) <? 0 then answer_code s (S (S k)) else answer_code s (S k))
      (asked (set_size_call id old) (mapped_to id va (npages old) resized (S k))).
Proof.
  intros H0 Hk Hmaps Hr Hp. rewrite ftruncate_start. destruct (Z.ltb_spec (answer_code s 0) 0); [lia|].
  set (r := if answer_code s (S (S k)) <? 0 then answer_code s (S (S k)) else answer_code s (S k)).
  set (s' := asked (set_size_call id old) (mapped_to id va (npages old) resized (S k))).
  rewrite (bind_ret _ _ resized (Some r) s'); [done|]. rewrite grow_counted.
  apply (mfor_ret_stops _ (mapped_to id va (npages old) resized) k _ _ n 0); [lia| |].
  - intros j Hj. destruct (Hmaps j ltac:(lia)) as [H1 H2]. rewrite (grow_step j ltac:(lia) H2).
    destruct (Z.ltb_spec (answer_code s (S j)) 0); [lia|done].
  - rewrite (grow_step k Hk Hp). destruct (Z.ltb_spec (answer_code s (S k)) 0); [|lia].
    destruct (Z.ltb_spec (answer_code s (S k)) 0); [|lia]. unfold fsipc_set_size.
    rewrite (bind_ret _ _ _ _ _ (fsipc_fst _ _ _ _ (mapped_to_answering id va (npages old) resized (S k) (answering_asked _ _ (answering_fput _ _ _ _ Hans))))).
    unfold result. rewrite mapped_to_answers, Nat.add_0_r. done.
Qed.

Lemma ftruncate_shrunk : npages size <= npages old -> 0 <= answer_code s 0 ->
  exists s', ftruncate i size s = Ret 0 s' /\ remapped resized s' /\
    forall x, pt s' !! x = if decide (datap i (npages size) <= x < datap i (npages old)) then None else pt s !! x.
Proof.
  intros Hle H0. pose proof old_nonneg. pose proof (npages_bounds old ltac:(lia)). pose proof (npages_bounds size ltac:(lia)).
  rewrite ftruncate_start. destruct (Z.ltb_spec (answer_code s 0) 0); [lia|].
  assert (grow id va old size resized = Ret None resized) as Eg.
  { rewrite grow_counted. by replace (Z.to_nat (npages size - npages old)) with 0%nat by lia. }
  rewrite (bind_ret _ _ _ _ _ Eg).
  destruct (unmap_pages i (npages size) (Z.to_nat (npages old - npages size)) (fun r => if r <? 0 then panic else mret None) resized Hi
    ltac:(lia) ltac:(lia)) as (s' & E & Hr & Hp); [done|].
  assert (shrink va old size resized = Ret None s') as Es by (rewrite shrink_counted; exact E).
  exists s'. rewrite (bind_ret _ _ _ _ _ Es). split; [done|]. split; [done|].
  intros x. rewrite Hp, fput_asked_pt. unfold datap.
  destruct (decide _), (decide _); try done; lia.
Qed.
End truncate.
