(* ===== verification/FileData.v ===== *)
(** The contents of files through descriptors: what [file_read] and
    [file_write] copy, and that every request of the client library is
    answered by the server. *)
From stdpp Require Import gmap.
From S2P Require Import Prelude Mem Mmu Proc FsServ Uvm Fd FsIpc FileClient.
#[local] Open Scope Z_scope.

(** ** Copying *)

Section copying.
Context {S : Type} `{HasUvm S}.

(** The place of an address: its frame and the offset in it. *)
Definition loc (s : S) (va : Z) : option (Z * Z) :=
  match pt s !! upage va with Some f => Some (f, va mod PAGE_SIZE) | None => None end.
Definition byte_at (s : S) (l : Z * Z) : Z := v_mem (uvm_of s) l.1 l.2.
(** The byte the process reads at an address. *)
Definition vbyte (s : S) (va : Z) : Z := u8 (frame_byte (uvm_of s) va).

(** Nothing but memory changed. *)
Definition memory_only (s s' : S) : Prop := s' = with_uvm (set_v_mem (v_mem (uvm_of s')) (uvm_of s)) s.

#[export] Instance memory_only_preorder : PreOrder memory_only.
Proof.
  split.
  - intros s. unfold memory_only. destruct (uvm_of s) as [] eqn:E. unfold set_v_mem. simpl. rewrite <- E. by rewrite with_uvm_of.
  - intros s1 s2 s3 H1 H2. unfold memory_only in *. rewrite H2 at 1. rewrite H1. by rewrite uvm_of_with, with_uvm_with.
Qed.

Lemma memory_only_pt s s' : memory_only s s' -> pt s' = pt s.
Proof. intros E. unfold memory_only in E. unfold pt. rewrite E. by rewrite uvm_of_with. Qed.

Lemma memory_only_loc s s' va : memory_only s s' -> loc s' va = loc s va.
Proof. intros E. unfold loc. by rewrite (memory_only_pt s s' E). Qed.

Lemma vbyte_loc s va l : loc s va = Some l -> vbyte s va = u8 (byte_at s l).
Proof.
  unfold loc, vbyte, frame_byte, byte_at. change (v_pt (uvm_of s)) with (pt s). destruct (pt s !! upage va); [|done]. by intros [= <-].
Qed.

Lemma fput_memory s f o v : memory_only s (fput s f o v).
Proof. unfold memory_only, fput. by rewrite uvm_of_with. Qed.

#[local] Transparent load store.
Lemma vload1 s va l : loc s va = Some l -> vload 1 va s = Ret (u8 (byte_at s l)) s.
Proof.
  intros Hl. rewrite <- (vbyte_loc s va l Hl). rewrite vload_ok.
  - f_equal. unfold vbyte. cbn [load]. lia.
  - unfold v_mapped. apply bool_decide_true. unfold loc, pt in Hl. destruct (_ !! _); [by eexists|done].
Qed.

Lemma vstore1 s va l v : loc s va = Some l ->
  exists s', vstore 1 va v s = Ret tt s' /\ memory_only s s' /\ forall l', byte_at s' l' = if decide (l' = l) then u8 v else byte_at s l'.
Proof.
  intros Hl. unfold loc in Hl. destruct (pt s !! upage va) as [f|] eqn:Hf; [|done]. injection Hl as <-.
  rewrite vstore_ok by (unfold v_mapped; apply bool_decide_true; by exists f). eexists. split; [done|].
  unfold v_store. change (v_pt (uvm_of s)) with (pt s). rewrite Hf. unfold memory_only, byte_at. rewrite uvm_of_with. split; [done|].
  intros [g o]. simpl. destruct (decide (g = f)) as [->|Hne].
  - rewrite fn_lookup_insert. unfold store. destruct (decide ((f, o) = (f, va mod PAGE_SIZE))) as [[= ->]|Hno].
    + destruct (Z.leb_spec (va mod PAGE_SIZE) (va mod PAGE_SIZE)); [|lia].
      destruct (Z.ltb_spec (va mod PAGE_SIZE) (va mod PAGE_SIZE + Z.of_nat 1)); [|lia]. cbn [andb]. rewrite Z.sub_diag, Z.div_1_r. done.
    + destruct (Z.leb_spec (va mod PAGE_SIZE) o), (Z.ltb_spec o (va mod PAGE_SIZE + Z.of_nat 1)); try done.
      exfalso. apply Hno. f_equal. lia.
  - rewrite fn_lookup_insert_ne by done. rewrite decide_False by congruence. done.
Qed.
#[local] Opaque load store.

(** [n] mapped bytes, no two in the same place; and two areas that share no
    place. *)
Definition area (s : S) (va n : Z) : Prop := forall k, 0 <= k < n -> is_Some (loc s (va + k)).
Definition simple (s : S) (va n : Z) : Prop :=
  forall j k, 0 <= j < n -> 0 <= k < n -> loc s (va + j) = loc s (va + k) -> j = k.
Definition apart (s : S) (a b n : Z) : Prop :=
  forall j k, 0 <= j < n -> 0 <= k < n -> loc s (a + j) <> loc s (b + k).

(** What a copy did: the bytes are there, and no other place changed. *)
Record copied (dst src n : Z) (s s' : S) : Prop := {
  cp_only : memory_only s s';
  cp_data : forall k, 0 <= k < n -> vbyte s' (dst + k) = vbyte s (src + k);
  cp_rest : forall l, (forall k, 0 <= k < n -> loc s (dst + k) <> Some l) -> byte_at s' l = byte_at s l
}.

Lemma vmemcpy_ok dst src n s : 0 <= n -> area s dst n -> area s src n -> simple s dst n -> apart s dst src n ->
  exists s', vmemcpy dst src n s = Ret tt s' /\ copied dst src n s s'.
Proof.
  intros Hn Hd Hs Hsimple Hapart. unfold vmemcpy.
  destruct (mfor_inv (fun k s' => copied dst src k s s') (fun i => b ← vload 1 (src + i); vstore 1 (dst + i) b) (Z.to_nat n) 0 s)
    as (s' & E & H1).
  - split; [done|lia|done].
  - intros k s1 Hk [H1 H2 H3]. rewrite Z2Nat.id in Hk by lia.
    destruct (Hd k ltac:(lia)) as [ld Hld], (Hs k ltac:(lia)) as [ls Hls].
    rewrite (bind_ret _ _ _ _ _ (vload1 s1 (src + k) ls ltac:(by rewrite (memory_only_loc s s1)))).
    destruct (vstore1 s1 (dst + k) ld (u8 (byte_at s1 ls)) ltac:(by rewrite (memory_only_loc s s1))) as (s2 & E2 & Ho & Hb).
    exists s2. split; [done|]. split; [by etransitivity| |].
    + intros j Hj. destruct (Hd j ltac:(lia)) as [lj Hlj].
      assert (loc s2 (dst + j) = Some lj) as Hlj2 by (by rewrite (memory_only_loc s1 s2), (memory_only_loc s s1)).
      rewrite (vbyte_loc _ _ _ Hlj2), Hb. destruct (decide (lj = ld)) as [->|Hne].
      * assert (j = k) as -> by (apply Hsimple; [lia|lia|congruence]). rewrite H3.
        -- rewrite (vbyte_loc _ _ _ Hls). unfold u8. by rewrite !Zmod_mod.
        -- intros j Hj'. rewrite <- Hls. apply Hapart; lia.
      * assert (j <> k) by congruence. rewrite <- H2 by lia. symmetry. apply vbyte_loc. by rewrite (memory_only_loc s s1).
    + intros l Hl. rewrite Hb, decide_False by (intros ->; by apply (Hl k ltac:(lia))). apply H3. intros j Hj. apply Hl. lia.
  - exists s'. split; [done|]. by rewrite Z.add_0_l, Z2Nat.id in H1 by lia.
Qed.

(** The fields of a descriptor whose frame the copy does not write. *)
Lemma copied_field dst src n s s' f o : copied dst src n s s' -> (forall k x, 0 <= k < n -> loc s (dst + k) <> Some (f, x)) ->
  fget s' f o = fget s f o.
Proof.
  intros [_ _ H3] Hf. unfold fget. apply load_ext. intros x Hx. apply (H3 (f, x)). intros k Hk. by apply Hf.
Qed.
End copying.

(** ** Reading and writing *)

Section file.
Variables (i f : Z).
Hypothesis Hi : 0 <= i < MAXFD.

(** The data of the descriptor from [offset] on. *)
Definition data_at (i offset : Z) : Z := FILEBASE + i * PDMAP + offset.

Lemma size_field s : pt s !! fdp i = Some f -> f_size (INDEX2FD i) s = Ret (fget s f 144) s.
Proof. intros Hf. apply (vload_field i f Hi s 144 ltac:(unfold PAGE_SIZE; lia) Hf). Qed.

(** The bytes [file_read] copies: those of the request that the file has. *)
Lemma read_count_ok size n offset : 0 <= n -> 0 <= offset <= size -> size < 2 ^ 32 -> offset + n < 2 ^ 32 ->
  read_count size n offset = Z.min n (size - offset).
Proof.
  intros Hn Ho Hs Hb. unfold read_count, u32. rewrite !Z.mod_small by lia. destruct (Z.ltb_spec size (offset + n)); lia.
Qed.

Lemma file_read_ok s buf n offset : pt s !! fdp i = Some f ->
  let c := Z.min n (fget s f 144 - offset) in
  fget s f 144 <= MAXFILESIZE -> 0 <= n -> 0 <= offset <= fget s f 144 -> offset + n < 2 ^ 32 ->
  area s buf c -> area s (data_at i offset) c -> simple s buf c -> apart s buf (data_at i offset) c ->
  exists s', file_read (INDEX2FD i) buf n offset s = Ret c s' /\ copied buf (data_at i offset) c s s'.
Proof.
  intros Hf c Hm Hn Ho Hb A1 A2 A3 A4. unfold MAXFILESIZE in Hm. unfold file_read. rewrite (bind_ret _ _ _ _ _ (size_field s Hf)).
  destruct (Z.ltb_spec (fget s f 144) offset); [lia|]. cbv zeta. rewrite read_count_ok by lia. fold c. rewrite fd2data_in by done.
  destruct (vmemcpy_ok buf (data_at i offset) c s ltac:(lia) A1 A2 A3 A4) as (s' & E & Hc).
  exists s'. rewrite (bind_ret _ _ _ _ _ E). rewrite i32_small by lia. done.
Qed.

(** A write inside the file. *)
Lemma file_write_ok s buf n offset : pt s !! fdp i = Some f -> fget s f 144 <= MAXFILESIZE ->
  0 <= n -> 0 <= offset -> offset + n <= fget s f 144 ->
  area s (data_at i offset) n -> area s buf n -> simple s (data_at i offset) n -> apart s (data_at i offset) buf n ->
  exists s', file_write (INDEX2FD i) buf n offset s = Ret n s' /\ copied (data_at i offset) buf n s s'.
Proof.
  intros Hf Hm Hn Ho Hb A1 A2 A3 A4. unfold MAXFILESIZE in Hm. unfold file_write. cbv zeta. unfold u32. rewrite Z.mod_small by lia.
  unfold MAXFILESIZE. destruct (Z.ltb_spec (1024 * 4096) (offset + n)); [lia|]. rewrite (bind_ret _ _ _ _ _ (size_field s Hf)).
  destruct (Z.ltb_spec (fget s f 144) (offset + n)); [lia|]. rewrite bind_mret. change (0 <? 0) with false. cbv iota.
  rewrite fd2data_in by done.
  destruct (vmemcpy_ok (data_at i offset) buf n s ltac:(lia) A1 A2 A3 A4) as (s' & E & Hc).
  exists s'. rewrite (bind_ret _ _ _ _ _ E). rewrite i32_small by lia. done.
Qed.

(** A write that would pass the end when the server does not let the file
    grow, and one that is too large. *)
Lemma file_write_refused s s' buf n offset r : pt s !! fdp i = Some f -> 0 <= offset + n <= MAXFILESIZE ->
  fget s f 144 < offset + n -> ftruncate i (offset + n) s = Ret r s' -> r < 0 ->
  file_write (INDEX2FD i) buf n offset s = Ret r s'.
Proof.
  unfold MAXFILESIZE. intros Hf Hn Hs E Hr. unfold file_write. cbv zeta. unfold u32. rewrite Z.mod_small by lia.
  unfold MAXFILESIZE. destruct (Z.ltb_spec (1024 * 4096) (offset + n)); [lia|]. rewrite (bind_ret _ _ _ _ _ (size_field s Hf)).
  destruct (Z.ltb_spec (fget s f 144) (offset + n)); [|lia]. rewrite fd2num_in by done. rewrite (bind_ret _ _ _ _ _ E).
  destruct (Z.ltb_spec r 0); [done|lia].
Qed.

(** The sum of the offset and the count wraps: the write is not refused, and
    goes to an address 4 GB past the data of the descriptor. *)
Lemma file_write_wraps s buf : pt s !! fdp i = Some f ->
  file_write (INDEX2FD i) buf 1 (2 ^ 32 - 1) s = (vmemcpy (data_at i (2 ^ 32 - 1)) buf 1 ;; mret 1) s.
Proof.
  intros Hf. unfold file_write. cbv zeta. change (u32 (2 ^ 32 - 1 + 1)) with 0. change (MAXFILESIZE <? 0) with false. cbv iota.
  rewrite (bind_ret _ _ _ _ _ (size_field s Hf)). pose proof (load32_bound (v_mem (uvm_of s) f) 144) as Hl.
  destruct (Z.ltb_spec (fget s f 144) 0); [unfold fget in *; lia|]. rewrite bind_mret. change (0 <? 0) with false. cbv iota.
  by rewrite fd2data_in.
Qed.
End file.

(** ** Through the table of descriptors *)

(** What the theorem below asks of an open file and two buffers: the file is
    open for reading and writing at an offset with [n] bytes to the end, its
    pages and the buffers are mapped, and they do not overlap. *)
Record io_ready (i f n buf buf2 : Z) (s : client) : Prop := {
  io_fd : 0 <= i < MAXFD;
  io_frame : pt s !! fdp i = Some f;
  io_dev : fget s f 0 = DEV_FILE;
  io_mode : Z.land (fget s f 8) O_ACCMODE = O_RDWR;
  io_n : 0 < n;
  io_size : fget s f 4 + n <= fget s f 144;
  io_max : fget s f 144 <= MAXFILESIZE;
  io_data : area s (data_at i (fget s f 4)) n;
  io_buf : area s buf n;
  io_buf2 : area s buf2 n;
  io_sdata : simple s (data_at i (fget s f 4)) n;
  io_sbuf2 : simple s buf2 n;
  io_apart : apart s (data_at i (fget s f 4)) buf n;
  io_apart2 : apart s buf2 (data_at i (fget s f 4)) n;
  io_fdata : forall k x, 0 <= k < n -> loc s (data_at i (fget s f 4) + k) <> Some (f, x);
  io_fbuf2 : forall k x, 0 <= k < n -> loc s (buf2 + k) <> Some (f, x)
}.

Lemma vbyte_fput s f o v va : (forall x, loc s va <> Some (f, x)) -> vbyte (fput (S := client) s f o v) va = vbyte s va.
Proof.
  intros Hl. unfold vbyte, frame_byte. change (v_pt (uvm_of (fput s f o v))) with (pt (fput s f o v)). rewrite fput_pt, fput_mem.
  change (v_pt (uvm_of s)) with (pt s). unfold loc in Hl. destruct (pt s !! upage va) as [g|]; [|done].
  rewrite fn_lookup_insert_ne; [done|]. intros <-. by apply (Hl (va mod PAGE_SIZE)).
Qed.

Lemma fget_fput_other s f v o : o = 0 \/ 8 <= o -> fget (fput (S := client) s f 4 v) f o = fget s f o.
Proof.
  intros Ho. unfold fget. rewrite fput_mem, fn_lookup_insert. apply load_store_other. unfold disjoint_range. lia.
Qed.

Section roundtrip.
Variables (i f n buf buf2 addr : Z) (s : client).
Hypothesis Hio : io_ready i f n buf buf2 s.
Let off := fget s f 4.

(** The state changed in memory only, and the fields of the descriptor are as
    they were. *)
Definition still (s' : client) : Prop := memory_only s s' /\ forall o, 8 <= o -> fget s' f o = fget s f o.

Lemma still_pt s' : still s' -> pt s' !! fdp i = Some f.
Proof. intros [H _]. rewrite (memory_only_pt s s' H). apply Hio. Qed.

Lemma still_copied dst src s' s2 : still s' -> copied dst src n s' s2 -> (forall k x, 0 <= k < n -> loc s (dst + k) <> Some (f, x)) -> still s2.
Proof.
  intros [H1 H2] Hc Hl. split; [etransitivity; [exact H1|apply Hc]|]. intros o Ho. rewrite <- H2 by done.
  apply (copied_field _ _ _ _ _ _ _ Hc). intros k x Hk. rewrite (memory_only_loc s s') by done. by apply Hl.
Qed.

Lemma still_fput s' v : still s' -> still (fput s' f 4 v).
Proof.
  intros [H1 H2]. split; [etransitivity; [exact H1|apply fput_memory]|]. intros o Ho. rewrite fget_fput_other by (by right). by apply H2.
Qed.

Lemma roundtrip_write : exists s1, write [devfile addr] i buf n s = Ret n (fput s1 f 4 (off + n)) /\
  copied (data_at i off) buf n s s1 /\ still s1 /\ fget s1 f 0 = DEV_FILE.
Proof.
  destruct Hio. destruct (file_write_ok i f io_fd0 s buf n off) as (s1 & E & Hc); try done; [lia|unfold off, fget; apply load32_bound|].
  assert (fget s1 f 4 = off) as E4 by (by apply (copied_field _ _ _ _ _ _ _ Hc)).
  assert (still s1) as Hs1 by (apply (still_copied (data_at i off) buf s); [split; [done|done]|done|done]).
  exists s1. split; [|split; [done|split; [done|]]].
  - unfold write. rewrite (with_dev_ok i f io_fd0) by done. rewrite io_dev0. change (dev_lookup [devfile addr] DEV_FILE) with (Some (devfile addr)).
    cbv iota. rewrite (bind_ret _ _ _ _ _ (vload_field i f io_fd0 s 8 ltac:(unfold PAGE_SIZE; lia) io_frame0)), io_mode0.
    change (O_RDWR =? O_RDONLY) with false. cbv iota.
    rewrite (bind_ret _ _ _ _ _ (vload_field i f io_fd0 s 4 ltac:(unfold PAGE_SIZE; lia) io_frame0)). fold off. cbn [dev_write devfile].
    rewrite (bind_ret _ _ _ _ _ E). destruct (Z.ltb_spec 0 n); [|lia].
    rewrite (bind_ret _ _ _ _ _ (advance_ok i f io_fd0 s1 n (still_pt s1 Hs1))), E4. unfold u32, MAXFILESIZE, off in *.
    rewrite Z.mod_small; [done|]. pose proof (load32_bound (v_mem (uvm_of s) f) 4). unfold fget in *. lia.
  - rewrite <- io_dev0. by apply (copied_field _ _ _ _ _ _ _ Hc).
Qed.

Lemma still_area s' va : still s' -> area s va n -> area s' va n.
Proof. intros [H _] Ha k Hk. rewrite (memory_only_loc s s' _ H). by apply Ha. Qed.
Lemma still_simple s' va : still s' -> simple s va n -> simple s' va n.
Proof. intros [H _] Ha j k Hj Hk. rewrite !(memory_only_loc s s' _ H). by apply Ha. Qed.
Lemma still_apart s' a b : still s' -> apart s a b n -> apart s' a b n.
Proof. intros [H _] Ha j k Hj Hk. rewrite !(memory_only_loc s s' _ H). by apply Ha. Qed.

Lemma roundtrip_read s3 : still s3 -> fget s3 f 0 = DEV_FILE -> fget s3 f 4 = off ->
  exists s4, read [devfile addr] i buf2 n s3 = Ret n (fput s4 f 4 (off + n)) /\ copied buf2 (data_at i off) n s3 s4 /\ still s4.
Proof.
  intros Hs3 E0 E4. destruct Hio. pose proof (still_pt s3 Hs3) as Hf3. pose proof (load32_bound (v_mem (uvm_of s) f) 4) as Hoff.
  fold (fget s f 4) in Hoff. fold off in Hoff, io_size0. unfold MAXFILESIZE in io_max0.
  destruct (file_read_ok i f io_fd0 s3 buf2 n off Hf3) as (s4 & E & Hc).
  all: try (rewrite (proj2 Hs3) by lia; replace (Z.min n (fget s f 144 - off)) with n by lia).
  all: try (unfold MAXFILESIZE; rewrite ?(proj2 Hs3) by lia; lia).
  - by apply still_area. 
  - by apply still_area.
  - by apply still_simple.
  - by apply still_apart.
  - rewrite (proj2 Hs3) in E, Hc by lia. replace (Z.min n (fget s f 144 - off)) with n in E, Hc by lia.
    assert (still s4) as Hs4 by (by apply (still_copied buf2 (data_at i off) s3)).
    assert (fget s4 f 4 = off) as E44.
    { rewrite <- E4. apply (copied_field _ _ _ _ _ _ _ Hc). intros k x Hk. rewrite (memory_only_loc s s3 _ (proj1 Hs3)). by apply io_fbuf3. }
    exists s4. split; [|done]. unfold read. rewrite (with_dev_ok i f io_fd0) by done. rewrite E0.
    change (dev_lookup [devfile addr] DEV_FILE) with (Some (devfile addr)). cbv iota.
    rewrite (bind_ret _ _ _ _ _ (vload_field i f io_fd0 s3 8 ltac:(unfold PAGE_SIZE; lia) Hf3)), (proj2 Hs3), io_mode0 by lia.
    change (O_RDWR =? O_WRONLY) with false. cbv iota.
    rewrite (bind_ret _ _ _ _ _ (vload_field i f io_fd0 s3 4 ltac:(unfold PAGE_SIZE; lia) Hf3)), E4. cbn [dev_read devfile].
    rewrite (bind_ret _ _ _ _ _ E). destruct (Z.ltb_spec n 0); [lia|].
    rewrite (bind_ret _ _ _ _ _ (advance_ok i f io_fd0 s4 n (still_pt s4 Hs4))), E44. unfold u32. rewrite Z.mod_small by lia. done.
Qed.
End roundtrip.

(** ** Every request of the library is answered *)

(** The requests added to the record are the library's. *)
Definition logs (s s' : client) : Prop := exists l, cl_calls s' = cl_calls s ++ l /\ Forall (fun c => library_call c = true) l.

#[export] Instance logs_preorder : PreOrder logs.
Proof.
  split.
  - intros s. exists []. by rewrite app_nil_r.
  - intros s1 s2 s3 (l1 & E1 & H1) (l2 & E2 & H2). exists (l1 ++ l2). rewrite E2, E1, app_assoc. split; [done|]. by apply Forall_app_2.
Qed.

(** The operation does nothing else to the record, even if it panics. *)
Definition asks {A} (m : M client A) : Prop := forall s, runs (m s) (fun _ s' => logs s s') (fun s' => logs s s').

Lemma asks_bind {A B} (m : M client A) (k : A -> M client B) : asks m -> (forall a, asks (k a)) -> asks (m ≫= k).
Proof.
  intros Hm Hk s. unfold asks, runs, mbind, M_bind in *. specialize (Hm s). destruct (m s) as [a s1|s1|e s1]; [|done|done].
  specialize (Hk a s1). destruct (k a s1); [by etransitivity|by etransitivity|done].
Qed.
Lemma asks_ret {A} (a : A) : asks (mret a).
Proof. intros s. change (logs s s). reflexivity. Qed.
Lemma asks_panic {A} : asks (A := A) panic.
Proof. intros s. change (logs s s). reflexivity. Qed.
Lemma asks_get {A} (g : client -> A) : asks (get g).
Proof. intros s. change (logs s s). reflexivity. Qed.
Lemma asks_uvm g : asks (upd_uvm g).
Proof. intros s. unfold runs, upd_uvm, modify. exists []. by rewrite app_nil_r. Qed.
Lemma asks_fsipc t rq d : 0 <= t < MAX_FSREQNO -> asks (fsipc t rq d).
Proof.
  intros Ht s. unfold fsipc. rewrite bind_get. destruct (negb _); [by apply asks_panic|]. unfold runs, mbind, M_bind, modify, mret, M_ret, asked. simpl.
  eexists. split; [done|]. constructor; [|done]. unfold library_call. simpl.
  destruct (Z.leb_spec 0 t), (Z.ltb_spec t MAX_FSREQNO); (done || lia).
Qed.
Lemma asks_loop {A} (body : Z -> M client (option A)) n : (forall k, asks (body k)) -> forall k, asks (mfor_ret n k body).
Proof.
  intros Hb. induction n as [|n IH]; intros k; [apply asks_ret|]. simpl. apply asks_bind; [apply Hb|]. intros [a|]; [apply asks_ret|apply IH].
Qed.
Lemma asks_for (body : Z -> M client unit) n : (forall k, asks (body k)) -> forall k, asks (mfor n k body).
Proof.
  intros Hb. induction n as [|n IH]; intros k; [apply asks_ret|]. simpl. apply asks_bind; [apply Hb|]. intros _. apply IH.
Qed.
Lemma asks_pages wrap conv fuel (body : Z -> M client (option Z)) hi : (forall k, asks (body k)) -> forall k, asks (page_loop wrap conv fuel k hi body).
Proof.
  intros Hb. induction fuel as [|fuel IH]; intros k; [apply asks_panic|]. cbn [page_loop]. destruct (_ <? _); [|apply asks_ret].
  apply asks_bind; [apply Hb|]. intros [a|]; [apply asks_ret|apply IH].
Qed.

Create HintDb asks.
#[export] Hint Resolve asks_ret asks_panic asks_get asks_uvm : asks.
Ltac asks1 :=
  lazymatch goal with
  | |- asks (_ ≫= _) => apply asks_bind; [|intros ?]
  | |- asks (mfor_ret _ _ _) => apply asks_loop; intros ?
  | |- asks (mfor _ _ _) => apply asks_for; intros ?
  | |- asks (page_loop _ _ _ _ _ _) => apply asks_pages; intros ?
  | |- asks (fsipc _ _ _) => apply asks_fsipc; unfold MAX_FSREQNO; split; vm_compute; congruence
  | |- asks (match ?x with _ => _ end) => destruct x
  | |- asks (let _ := _ in _) => cbv zeta
  | |- asks _ => solve [auto with asks]
  end.
Ltac asks := intros; repeat asks1.

Lemma asks_panic_on r : asks (panic_on r).
Proof. unfold panic_on. asks. Qed.
Lemma asks_touch va : asks (v_touch (S := client) va).
Proof. unfold v_touch, v_grant. asks. Qed.
#[export] Hint Resolve asks_panic_on asks_touch : asks.
Lemma asks_vload n va : asks (vload (S := client) n va).
Proof. unfold vload. asks. Qed.
Lemma asks_vstore n va v : asks (vstore (S := client) n va v).
Proof. unfold vstore. asks. Qed.
Lemma asks_map a b : asks (sys_map (S := client) a b).
Proof. unfold sys_map, v_grant. asks. Qed.
Lemma asks_unmap a : asks (sys_unmap (S := client) a).
Proof. unfold sys_unmap. asks. Qed.
Lemma asks_has a : asks (sys_has_page (S := client) a).
Proof. unfold sys_has_page. asks. Qed.
#[export] Hint Resolve asks_vload asks_vstore asks_map asks_unmap asks_has : asks.
Lemma asks_fd_alloc : asks (fd_alloc (S := client)).
Proof. unfold fd_alloc, fd_try. asks. Qed.
Lemma asks_fd_lookup i : asks (fd_lookup (S := client) i).
Proof. unfold fd_lookup. asks. Qed.
Lemma asks_copy a b n : asks (vmemcpy (S := client) a b n).
Proof. unfold vmemcpy. asks. Qed.
Lemma asks_strcpy fuel : forall a b, asks (vstrcpy (S := client) fuel a b).
Proof. induction fuel as [|fuel IH]; intros a b; cbn [vstrcpy]; asks. Qed.
#[export] Hint Resolve asks_fd_alloc asks_fd_lookup asks_copy asks_strcpy : asks.
Lemma asks_fsipc_map id o d : asks (fsipc_map id o d).
Proof. unfold fsipc_map. asks. Qed.
Lemma asks_set_size id n : asks (fsipc_set_size id n).
Proof. unfold fsipc_set_size. asks. Qed.
#[export] Hint Resolve asks_fsipc_map asks_set_size : asks.
Lemma asks_open path mode : asks (open path mode).
Proof. unfold open, fsipc_open, f_size, f_fileid. asks. Qed.
Lemma asks_file_close fd : asks (file_close fd).
Proof. unfold file_close, fsipc_dirty, fsipc_close, f_size, f_fileid. asks. Qed.
Lemma asks_file_read fd buf n o : asks (file_read fd buf n o).
Proof. unfold file_read, f_size. asks. Qed.
Lemma asks_ftruncate i n : asks (ftruncate i n).
Proof. unfold ftruncate, grow, shrink, f_size, f_fileid. asks. Qed.
#[export] Hint Resolve asks_open asks_file_close asks_file_read asks_ftruncate : asks.
Lemma asks_file_write fd buf n o : asks (file_write fd buf n o).
Proof. unfold file_write, f_size. asks. Qed.
Lemma asks_file_stat fd st : asks (file_stat fd st).
Proof. unfold file_stat, f_size, f_type. asks. Qed.
#[export] Hint Resolve asks_file_write asks_file_stat : asks.

Section library.
Variable addr : Z.
Notation devtab := [devfile addr].

Lemma asks_with_dev i (k : Z -> Dev client -> M client Z) :
  (forall fd, asks (k fd (devfile addr))) -> asks (with_dev devtab i k).
Proof.
  intros Hk. unfold with_dev. apply asks_bind; [auto with asks|]. intros [r fd]. destruct (r <? 0); [apply asks_ret|].
  apply asks_bind; [auto with asks|]. intros id. unfold dev_lookup. cbn [dev_find]. destruct (_ =? _); [apply Hk|apply asks_ret].
Qed.
Lemma asks_close i : asks (close devtab i).
Proof. unfold close. apply asks_with_dev. intros fd. unfold fd_close. cbn [dev_close devfile]. asks. Qed.
Lemma asks_advance fd r : asks (advance (S := client) fd r).
Proof. unfold advance. asks. Qed.
#[local] Hint Resolve asks_close asks_advance : asks.
Lemma asks_read i buf n : asks (read devtab i buf n).
Proof. unfold read. apply asks_with_dev. intros fd. cbn [dev_read devfile]. asks. Qed.
Lemma asks_write i buf n : asks (write devtab i buf n).
Proof. unfold write. apply asks_with_dev. intros fd. cbn [dev_write devfile]. asks. Qed.
#[local] Hint Resolve asks_read asks_write : asks.
Lemma asks_readn fuel i buf n : forall tot, asks (readn_loop devtab fuel i buf n tot).
Proof. induction fuel as [|fuel IH]; intros tot; cbn [readn_loop]; asks. Qed.
Lemma asks_dup i j : asks (dup devtab i j).
Proof. unfold dup, dup_undo, dup_page. asks. Qed.
Lemma asks_fstat i st : asks (fstat devtab i st).
Proof. unfold fstat. apply asks_with_dev. intros fd. cbn [dev_stat devfile dev_addr]. asks. Qed.
#[local] Hint Resolve asks_readn asks_dup asks_fstat : asks.

(** The calls of the library that concern files. *)
Inductive lib_call :=
  | LOpen (path : list Z) (mode : Z)
  | LClose (i : Z)
  | LRead (i buf n : Z)
  | LReadn (i buf n : Z)
  | LWrite (i buf n : Z)
  | LSeek (i offset : Z)
  | LDup (i j : Z)
  | LFstat (i st : Z)
  | LStat (path : list Z) (st : Z)
  | LReadMap (i offset : Z)
  | LFtruncate (i size : Z)
  | LRemove (path : list Z)
  | LSync
  | LCloseAll.

Definition run_call (c : lib_call) : M client unit :=
  match c with
  | LOpen path mode => open path mode ;; mret tt
  | LClose i => close devtab i ;; mret tt
  | LRead i buf n => read devtab i buf n ;; mret tt
  | LReadn i buf n => readn devtab i buf n ;; mret tt
  | LWrite i buf n => write devtab i buf n ;; mret tt
  | LSeek i offset => seek i offset ;; mret tt
  | LDup i j => dup devtab i j ;; mret tt
  | LFstat i st => fstat devtab i st ;; mret tt
  | LStat path st => stat devtab path st ;; mret tt
  | LReadMap i offset => read_map i offset ;; mret tt
  | LFtruncate i size => ftruncate i size ;; mret tt
  | LRemove path => remove path ;; mret tt
  | LSync => sync ;; mret tt
  | LCloseAll => close_all devtab
  end.

Fixpoint run_calls (l : list lib_call) : M client unit :=
  match l with [] => mret tt | c :: l => run_call c ;; run_calls l end.

Lemma asks_call c : asks (run_call c).
Proof.
  destruct c; unfold run_call, seek, stat, read_map, remove, sync, fsipc_remove, fsipc_sync, close_all, readn; asks.
Qed.

Lemma asks_calls l : asks (run_calls l).
Proof. induction l as [|c l IH]; [apply asks_ret|]. apply asks_bind; [apply asks_call|]. intros _. exact IH. Qed.
End library.

(** The server's side of a record of requests. *)
Definition server_answers (whom : Z) (rq : list call) : Prop :=
  forall sv, table_ok sv -> runs (serve (map (call_message whom) rq) sv) (fun _ sv' =>
    exists rs, sent sv' = sent sv ++ rs /\ map to_env rs = replicate (length rq) whom) (fun _ => True).

Lemma library_calls_answered whom rq : Forall (fun c => library_call c = true) rq -> server_answers whom rq.
Proof.
  intros Hrq sv Ht. eapply runs_mono; [by apply serve_ok|]. intros u sv' (_ & rs & E & Em). exists rs. split; [done|].
  rewrite Em. clear - Hrq. induction Hrq as [|c rq Hc _ IH]; [done|]. cbn [map length replicate].
  rewrite filter_cons_True; [cbn [map]; by rewrite IH|]. by rewrite (library_call_well_formed whom c Hc).
Qed.

(** ** The states the calls end in *)

Lemma opened_pages path mode i f s : 0 <= i < MAXFD - 1 -> an_page (cl_answers s 0) = Some f ->
  forall id n, (n <= 1024)%nat ->
  let s' := mapped_to id (FILEBASE + i * PDMAP) 0 (opened path mode i s) n in
  cl_calls s' = cl_calls s ++ open_call path mode i :: map_calls id (FILEBASE + i * PDMAP) 0 n /\
  pt s' !! fdp i = Some f /\
  (forall k g, (k < n)%nat -> an_page (cl_answers s (S k)) = Some g -> pt s' !! datap i (Z.of_nat k) = Some g) /\
  (forall x, x <> fdp i -> ~ datap i 0 <= x < datap i 1024 -> pt s' !! x = pt s !! x).
Proof.
  intros Hi Hp id n Hn s'. unfold MAXFD in Hi. pose proof (opened_pt path mode i f s Hi Hp) as Ho.
  destruct (mapped_to_pt id i 0 (opened path mode i s) n) as [H1 H2]; [unfold MAXFD; lia|lia|lia|]. split_and!.
  - unfold s', mapped_to. rewrite asked_all_calls. unfold opened, asked. simpl. by rewrite <- app_assoc.
  - unfold s'. rewrite H2, Ho, lookup_insert_eq; [done|]. intros k Hk. apply fdp_not_data; unfold MAXFD; lia.
  - intros k g Hk Eg. unfold s'. rewrite H1 by lia. rewrite Z.sub_0_r, Nat2Z.id.
    change (cl_answers (opened path mode i s) k) with (cl_answers s (S k)). by rewrite Eg.
  - intros x Hx Hd. unfold s'. rewrite H2, Ho, lookup_insert_ne; [done|done|]. intros k Hk ->. apply Hd. unfold datap. lia.
Qed.

Lemma asked_all_pt l : Forall (fun c => call_dst c = 0) l -> forall s, pt (asked_all l s) = pt s.
Proof.
  induction 1 as [|c l Hc _ IH]; intros s; [done|]. simpl. rewrite IH, pt_asked, Hc. by destruct (an_page _).
Qed.

Lemma dirtied_pt id s k : pt (dirtied_to id s k) = pt s.
Proof. apply asked_all_pt. unfold dirty_calls. apply Forall_map, Forall_true. done. Qed.

Lemma closed_pt id s n : pt (asked (close_call id) (dirtied_to id s n)) = pt s.
Proof. rewrite pt_asked. cbn [call_dst close_call]. rewrite dirtied_pt. by destruct (an_page _). Qed.

Lemma closed_calls id s n : cl_calls (asked (close_call id) (dirtied_to id s n)) = cl_calls s ++ dirty_calls id n ++ [close_call id].
Proof. unfold asked, dirtied_to. simpl. by rewrite asked_all_calls, <- app_assoc. Qed.

Lemma dirty_calls_take id k n : (k <= n)%nat -> dirty_calls id k = take k (dirty_calls id n).
Proof. intros Hk. unfold dirty_calls. rewrite firstn_map, take_seq. by replace (k `min` n)%nat with k by lia. Qed.

(** ** The properties *)

(** Opening a file.  Without a free descriptor, or with a path of 1024 bytes
    or more, nothing is asked.  When the server refuses, its code is returned.
    When it answers with a descriptor page, one request per page of the file
    follows; if the server gives every page, the call returns the first free
    descriptor, whose page and data pages are the server's, and no other page
    of the process changed.  If it refuses one, its code is returned and the
    descriptor stays in use. *)
Theorem open_correct (s : client) (path : list Z) (mode : Z) (Hans : answering s) :
  ((forall j, 0 <= j < MAXFD - 1 -> is_Some (pt s !! fdp j)) -> open path mode s = Ret (- E_MAX_OPEN) s) /\
  (forall i, 0 <= i < MAXFD - 1 -> pt s !! fdp i = None -> (forall j, 0 <= j < i -> is_Some (pt s !! fdp j)) ->
    (MAXPATHLEN <= strlen path -> open path mode s = Ret (- E_BAD_PATH) s) /\
    (strlen path < MAXPATHLEN -> result s <> 0 -> open path mode s = Ret (result s) (opened path mode i s)) /\
    (strlen path < MAXPATHLEN -> result s = 0 -> forall f, an_page (cl_answers s 0) = Some f -> private (cl_uvm s) f = false ->
      let id := load 4 (an_mem (cl_answers s 0) f) 12 in
      let size := load 4 (an_mem (cl_answers s 0) f) 144 in
      let n := Z.to_nat (npages size) in
      size <= MAXFILESIZE ->
      ((forall k, (k < n)%nat -> maps_page s (S k)) ->
        exists s', open path mode s = Ret i s' /\
          cl_calls s' = cl_calls s ++ open_call path mode i :: map_calls id (FILEBASE + i * PDMAP) 0 n /\
          pt s' !! fdp i = Some f /\
          (forall k g, (k < n)%nat -> an_page (cl_answers s (S k)) = Some g -> pt s' !! datap i (Z.of_nat k) = Some g) /\
          (forall x, x <> fdp i -> ~ datap i 0 <= x < datap i 1024 -> pt s' !! x = pt s !! x)) /\
      (forall k, (k < n)%nat -> (forall j, (j < k)%nat -> maps_page s (S j)) -> answer_code s (S k) < 0 ->
        exists s', open path mode s = Ret (answer_code s (S k)) s' /\ pt s' !! fdp i = Some f))).
Proof.
  split; [intros Hu; unfold open; by rewrite (bind_ret _ _ _ _ _ (fd_alloc_full s Hu))|].
  intros i Hi Hfree Hused. split_and!.
  - intros Hl. unfold open. rewrite (bind_ret _ _ _ _ _ (fd_alloc_found s i Hi Hfree Hused)). cbv beta iota.
    change (negb (0 =? 0)) with false. cbv iota. unfold fsipc_open. destruct (Z.leb_spec MAXPATHLEN (strlen path)); [done|lia].
  - intros Hl. by apply open_refused.
  - intros Hl Hr f Hp Hs id size n Hm. pose proof (load32_bound (an_mem (cl_answers s 0) f) 144) as Hb. fold size in Hb.
    pose proof (npages_bounds size ltac:(lia)) as Hn. split.
    + intros Hmaps. eexists. split; [by apply (open_maps path mode i f)|].
      by apply (opened_pages path mode i f s Hi Hp id n ltac:(unfold n; lia)).
    + intros k Hk Hmaps Hc. eexists. split; [by apply (open_map_refused path mode i f)|].
      destruct (opened_pages path mode i f s Hi Hp id (S k) ltac:(unfold n in *; lia)) as (_ & H1 & _). exact H1.
Qed.

(** Closing a file.  All pages are marked as dirty, in order, before the
    server is asked to close it; a refusal ends the call with the server's
    code and with all the process's pages still there; otherwise the data
    pages are unmapped, and they only. *)
Theorem file_close_correct (s : client) i f (Hi : 0 <= i < MAXFD) (Hans : answering s) (Hf : pt s !! fdp i = Some f)
    (Hsize : fget s f 144 <= MAXFILESIZE) :
  let id := fget s f 12 in
  let n := Z.to_nat (npages (fget s f 144)) in
  (forall k, (k <= n)%nat -> (forall j, (j < k)%nat -> 0 <= answer_code s j) -> answer_code s k < 0 ->
    exists s', file_close (INDEX2FD i) s = Ret (answer_code s k) s' /\ pt s' = pt s /\
      cl_calls s' = cl_calls s ++ take (S k) (dirty_calls id n ++ [close_call id])) /\
  ((forall j, (j <= n)%nat -> 0 <= answer_code s j) ->
    exists s', file_close (INDEX2FD i) s = Ret 0 s' /\ cl_calls s' = cl_calls s ++ dirty_calls id n ++ [close_call id] /\
      forall x, pt s' !! x = if decide (datap i 0 <= x < datap i 0 + Z.of_nat n) then None else pt s !! x).
Proof.
  intros id n. split.
  - intros k Hk Hok Hr. destruct (decide (k = n)) as [->|Hne].
    + eexists. split; [rewrite (close_dirtied i f s Hi Hans Hf Hsize Hok); fold n; destruct (Z.ltb_spec (answer_code s n) 0); [done|lia]|].
      fold n. split; [apply closed_pt|]. rewrite closed_calls. by rewrite take_ge by (rewrite length_app, dirty_calls_length; simpl; lia).
    + eexists. split; [by apply (close_refused i f s Hi Hans Hf Hsize k); [fold n; lia|..]|]. fold id. split; [apply dirtied_pt|].
      unfold dirtied_to. rewrite asked_all_calls. f_equal. rewrite take_app_le by (rewrite dirty_calls_length; lia).
      by apply dirty_calls_take; lia.
  - intros Hok. destruct (close_done i f s Hi Hans Hf Hsize Hok) as (s' & E & [Hr _ _] & Hp). exists s'. split; [done|]. split.
    + rewrite Hr. apply closed_calls.
    + intros x. rewrite Hp. fold n id. by rewrite closed_pt.
Qed.


(** A refused change of size leaves the new size in the descriptor, unless
    the server itself writes there. *)
Lemma ftruncate_leaves_size (s : client) i f size : 0 <= i < MAXFD -> answering s -> pt s !! fdp i = Some f ->
  fget s f 0 = DEV_FILE -> 0 <= size <= MAXFILESIZE -> answer_code s 0 < 0 ->
  an_mem (cl_answers s 0) f = v_mem (uvm_of (fput s f 144 size)) f ->
  exists s', ftruncate i size s = Ret (answer_code s 0) s' /\ fget s' f 144 = size.
Proof.
  intros Hi Hans Hf Hdev Hs Hc Hmem. exists (resized f size s). split.
  - rewrite (ftruncate_start i f size s Hi Hans Hf Hdev Hs). destruct (Z.ltb_spec (answer_code s 0) 0); [done|lia].
  - rewrite <- (fget_fput s f 144 size) at 2 by (unfold MAXFILESIZE in *; lia). unfold fget. f_equal.
    unfold resized, asked, deliver. change (uvm_of (Client ?p _ _)) with p. cbn [v_mem cl_answers].
    destruct (private _ f); [done|]. exact Hmem.
Qed.

(** C34: what is written through a descriptor is what is read from the same
    offset.  On a descriptor open for both, [n] bytes written, [seek] back, and
    [n] bytes read into another buffer: both calls return [n], the bytes in the
    second buffer are those that were in the first, the offset is [n] further,
    the file's size is the same, and the server is not asked. *)
Theorem file_roundtrip (s : client) i f n buf buf2 addr (Hio : io_ready i f n buf buf2 s) :
  let off := fget s f 4 in
  exists s1 s2 s3, write [devfile addr] i buf n s = Ret n s1 /\ seek i off s1 = Ret 0 s2 /\
    read [devfile addr] i buf2 n s2 = Ret n s3 /\
    (forall k, 0 <= k < n -> vbyte s3 (buf2 + k) = vbyte s (buf + k)) /\
    fget s3 f 4 = off + n /\ fget s3 f 144 = fget s f 144 /\ cl_calls s3 = cl_calls s /\ pt s3 = pt s.
Proof.
  intros off. pose proof (load32_bound (v_mem (uvm_of s) f) 4) as Hoff. fold (fget s f 4) in Hoff. fold off in Hoff.
  pose proof (io_n _ _ _ _ _ _ Hio) as Hn. pose proof (io_max _ _ _ _ _ _ Hio) as Hmax. pose proof (io_size _ _ _ _ _ _ Hio) as Hsz. unfold MAXFILESIZE in Hmax. fold off in Hsz.
  destruct (roundtrip_write i f n buf buf2 addr s Hio) as (s1 & E1 & Hc1 & Hs1 & H0). fold off in E1, Hc1.
  set (t1 := fput s1 f 4 (off + n)) in *. assert (still f s t1) as Ht1 by (by apply still_fput).
  set (t2 := fput t1 f 4 off). assert (still f s t2) as Ht2 by (by apply still_fput).
  destruct (roundtrip_read i f n buf buf2 addr s Hio t2 Ht2) as (s4 & E4 & Hc4 & Hs4).
  { unfold t2, t1. rewrite !fget_fput_other by (by left). done. }
  { unfold t2. apply fget_fput. lia. }
  fold off in E4, Hc4. pose proof (still_fput f s s4 (off + n) Hs4) as Hs3.
  exists t1, t2, (fput s4 f 4 (off + n)). split_and!.
  - done.
  - apply seek_ok; [apply Hio|]. exact (still_pt i f n buf buf2 s Hio t1 Ht1).
  - done.
  - intros k Hk. rewrite vbyte_fput.
    + rewrite (cp_data _ _ _ _ _ Hc4) by done. unfold t2. rewrite vbyte_fput.
      * unfold t1. rewrite vbyte_fput; [by apply (cp_data _ _ _ _ _ Hc1)|].
        intros x. rewrite (memory_only_loc s s1 _ (proj1 Hs1)). by apply Hio.
      * intros x. rewrite (memory_only_loc s t1 _ (proj1 Ht1)). by apply Hio.
    + intros x. rewrite (memory_only_loc s s4 _ (proj1 Hs4)). by apply Hio.
  - apply fget_fput. lia.
  - apply (proj2 Hs3 144). lia.
  - rewrite (proj1 Hs3). done.
  - apply memory_only_pt, Hs3.
Qed.


(** ** Concrete inputs *)

Lemma loc_in_page {S} `{HasUvm S} (s : S) va g n : pt s !! upage va = Some g -> va mod PAGE_SIZE + n <= PAGE_SIZE ->
  forall k, 0 <= k < n -> loc s (va + k) = Some (g, va mod PAGE_SIZE + k).
Proof.
  intros Hg Hn k Hk. unfold loc. destruct (upage_in_page va k ltac:(lia) ltac:(lia)) as [-> ->]. by rewrite Hg.
Qed.

Lemma page_area {S} `{HasUvm S} (s : S) va g n : pt s !! upage va = Some g -> va mod PAGE_SIZE + n <= PAGE_SIZE -> area s va n /\ simple s va n.
Proof.
  intros Hg Hn. pose proof (loc_in_page s va g n Hg Hn) as H0. split.
  - intros k Hk. rewrite H0 by done. by eexists.
  - intros j k Hj Hk. rewrite !H0 by done. intros [=]. lia.
Qed.

Lemma pages_apart {S} `{HasUvm S} (s : S) a b ga gb n : pt s !! upage a = Some ga -> pt s !! upage b = Some gb -> ga <> gb ->
  a mod PAGE_SIZE + n <= PAGE_SIZE -> b mod PAGE_SIZE + n <= PAGE_SIZE -> apart s a b n.
Proof.
  intros Ha Hb Hne Hna Hnb j k Hj Hk. rewrite (loc_in_page s a ga n), (loc_in_page s b gb n) by done. congruence.
Qed.

(** A file of 6000 bytes, open as descriptor 0 at offset 100: the server shares
    frames 5, 6 and 7; frame 8 is a page of the process. *)
Definition demo_ff : Z -> Z :=
  store 4 (store 4 (store 4 (store 4 (store 4 (fun _ => 0) 0 DEV_FILE) 4 100) 8 O_RDWR) 12 3) 144 6000.
Definition demo_frames_mem (f : Z) : Z -> Z := if f =? 5 then demo_ff else fun o => o mod 7.
Definition demo_ext (f : Z) : Z := if (5 <=? f) && (f <=? 7) then 1 else 0.
Definition demo_buf : Z := 0x10000000.
Definition demo_answer (val : Z) (page : option Z) : answer := Answer 0 val page PERM_SHARED demo_frames_mem demo_ext 20.
Definition demo_client (pages : gmap Z Z) (l : list answer) : client :=
  Client (Uvm pages demo_frames_mem demo_ext 20 (fun _ => true)) [] (fun n => nth n l (demo_answer 0 None)).
Definition demo_open_pages : gmap Z Z := {[ fdp 0 := 5; datap 0 0 := 6; datap 0 1 := 7; upage demo_buf := 8 ]}.

Lemma demo_answering pages l : Forall (fun a => an_ret a = 0) l -> answering (demo_client pages l).
Proof.
  intros Hl n. simpl. destruct (nth_in_or_default n l (demo_answer 0 None)) as [Hin| ->]; [|done].
  rewrite Forall_forall in Hl. apply Hl. by apply list_elem_of_In.
Qed.

Definition demo_answers : list answer := [demo_answer 0 (Some 5); demo_answer 0 (Some 6); demo_answer 0 (Some 7)].

Lemma open_correct_witness : exists s', open [97] O_RDWR (demo_client {[ upage demo_buf := 8 ]} demo_answers) = Ret 0 s' /\
  pt s' !! datap 0 1 = Some 7 /\ length (cl_calls s') = 3%nat.
Proof.
  destruct (open_correct (demo_client {[ upage demo_buf := 8 ]} demo_answers) [97] O_RDWR) as [_ H];
    [apply demo_answering; by repeat constructor|].
  destruct (H 0) as (_ & _ & H3); [unfold MAXFD; lia|reflexivity|lia|].
  destruct (H3 ltac:(unfold strlen, MAXPATHLEN; simpl; lia) eq_refl 5 eq_refl eq_refl) as [H4 _]; [vm_compute; discriminate|].
  destruct H4 as (s' & E & Ec & _ & Ep & _).
  - intros k Hk. change (Z.to_nat _) with 2%nat in Hk. destruct k as [|[|k]]; [| |lia]; split; vm_compute; (reflexivity || discriminate).
  - exists s'. split; [exact E|]. split.
    + apply (Ep 1%nat 7); [apply Nat.ltb_lt; vm_compute; reflexivity|reflexivity].
    + rewrite Ec. vm_compute. reflexivity.
Defined.

Lemma file_close_correct_witness : exists s', file_close (INDEX2FD 0) (demo_client demo_open_pages []) = Ret 0 s' /\
  pt s' !! datap 0 1 = None /\ pt s' !! fdp 0 = Some 5.
Proof.
  destruct (file_close_correct (demo_client demo_open_pages []) 0 5) as [_ H];
    [unfold MAXFD; lia|by apply demo_answering|reflexivity|vm_compute; discriminate|].
  destruct H as (s' & E & _ & Hp).
  - intros j Hj. unfold answer_code. simpl. destruct j; simpl; vm_compute; discriminate.
  - exists s'. split; [exact E|]. split; rewrite Hp; vm_compute; reflexivity.
Defined.


Lemma demo_io : io_ready 0 5 5 demo_buf (demo_buf + 2048) (demo_client demo_open_pages []).
Proof.
  set (s := demo_client demo_open_pages []). assert (data_at 0 (fget s 5 4) = FILEBASE + 100) as Ed by (vm_compute; reflexivity).
  assert (pt s !! upage (FILEBASE + 100) = Some 6) as P1 by reflexivity.
  assert (pt s !! upage demo_buf = Some 8) as P2 by reflexivity.
  assert (pt s !! upage (demo_buf + 2048) = Some 8) as P3 by reflexivity.
  assert (forall va, va mod PAGE_SIZE <= 4000 -> va mod PAGE_SIZE + 5 <= PAGE_SIZE) as Hp by (unfold PAGE_SIZE; lia).
  assert ((FILEBASE + 100) mod PAGE_SIZE <= 4000 /\ demo_buf mod PAGE_SIZE <= 4000 /\ (demo_buf + 2048) mod PAGE_SIZE <= 4000) as (M1 & M2 & M3)
    by (vm_compute; split_and!; discriminate).
  apply Hp in M1, M2, M3.
  destruct (page_area s _ _ _ P1 M1), (page_area s _ _ _ P2 M2), (page_area s _ _ _ P3 M3).
  split; rewrite ?Ed; try done.
  - by apply (pages_apart s _ _ 6 8).
  - by apply (pages_apart s _ _ 8 6).
  - intros k x Hk. rewrite (loc_in_page s _ _ _ P1 M1 k Hk). congruence.
  - intros k x Hk. rewrite (loc_in_page s _ _ _ P3 M3 k Hk). congruence.
Qed.

Lemma file_roundtrip_witness : exists s1 s2 s3, write [devfile 0] 0 demo_buf 5 (demo_client demo_open_pages []) = Ret 5 s1 /\
  seek 0 100 s1 = Ret 0 s2 /\ read [devfile 0] 0 (demo_buf + 2048) 5 s2 = Ret 5 s3 /\ vbyte s3 (demo_buf + 2048 + 3) = 3.
Proof.
  destruct (file_roundtrip (demo_client demo_open_pages []) 0 5 5 demo_buf (demo_buf + 2048) 0 demo_io) as (s1 & s2 & s3 & E1 & E2 & E3 & H & _).
  exists s1, s2, s3. split; [exact E1|]. split; [exact E2|]. split; [exact E3|].
  etransitivity; [apply (H 3); lia|]. vm_compute. reflexivity.
Defined.
