(* ===== verification/Virtio.v ===== *)
(** driver/virtio/block.c and virtio.c: the driver of virtio block devices.

    [shared] is the memory the driver and the device share: the queues, the
    request headers, the status bytes and the page of the current request.  The
    arrays are indexed as the code's, flattened: element [i] of the array of
    device [dev] is at [at2 dev i], and the cells of [struct VirtQueueAvail] of
    all devices follow one another, so that an index past the end of one
    device's ring is in the next device's structure, as in memory.  An address
    in a descriptor is given by the object whose physical address it is.

    Registers are read and written through the class [VirtioMmio] of the
    device. *)
From S2P Require Import Prelude Mem Mmu.
#[local] Open Scope Z_scope.

Definition MAX_QUEUE_SIZE : Z := 512.
Definition MAX_BLOCK_DEVICE_COUNT : Z := 8.
Definition SECTOR_SIZE : Z := 512.
Definition REQUEST_SIZE : Z := 16.
Definition VIRTQ_DESC_F_NEXT : Z := 1.
Definition VIRTQ_DESC_F_WRITE : Z := 2.
Definition VIRTIO_BLK_T_IN : Z := 0.
Definition VIRTIO_BLK_T_OUT : Z := 1.
Definition VIRTIO_BLK_F_RO : Z := 5.
Definition VIRTIO_BLK_S_OK : Z := 0.
Definition VIRTIO_BLK_INTERRUPT_STATUS_USED_BUFFER_OFFSET : Z := 0.
Definition BLOCK_DEVICE_ID : Z := 2.
Definition MAX_DEVICE_ID : Z := 64.
Definition MAGIC_VALUE : Z := 0x74726976.

(** Registers and status values (driver.h). *)
Definition VIRTIO_MAGIC_VALUE : Z := 0x000.
Definition VIRTIO_VERSION : Z := 0x004.
Definition VIRTIO_DEVICE_ID : Z := 0x008.
Definition VIRTIO_VENDOR_ID : Z := 0x00c.
Definition VIRTIO_DEVICE_FEATURES : Z := 0x010.
Definition VIRTIO_DEVICE_FEATURES_SEL : Z := 0x014.
Definition VIRTIO_DRIVER_FEATURES : Z := 0x020.
Definition VIRTIO_DRIVER_FEATURES_SEL : Z := 0x024.
Definition VIRTIO_QUEUE_SEL : Z := 0x030.
Definition VIRTIO_QUEUE_SIZE_MAX : Z := 0x034.
Definition VIRTIO_QUEUE_SIZE : Z := 0x038.
Definition VIRTIO_QUEUE_READY : Z := 0x044.
Definition VIRTIO_QUEUE_NOTIFY : Z := 0x050.
Definition VIRTIO_INTERRUPT_STATUS : Z := 0x060.
Definition VIRTIO_INTERRUPT_ACK : Z := 0x064.
Definition VIRTIO_STATUS : Z := 0x070.
Definition VIRTIO_QUEUE_DESC_LOW : Z := 0x080.
Definition VIRTIO_QUEUE_DESC_HIGH : Z := 0x084.
Definition VIRTIO_QUEUE_DRIVER_LOW : Z := 0x090.
Definition VIRTIO_QUEUE_DRIVER_HIGH : Z := 0x094.
Definition VIRTIO_QUEUE_DEVICE_LOW : Z := 0x0a0.
Definition VIRTIO_QUEUE_DEVICE_HIGH : Z := 0x0a4.
Definition VIRTIO_CONFIG : Z := 0x100.
Definition CONFIG_CAPACITY_OFFSET : Z := 0.
Definition VIRTIO_STATUS_RESET : Z := 0.
Definition VIRTIO_STATUS_ACKNOWLEDGE : Z := 1.
Definition VIRTIO_STATUS_DRIVER : Z := 2.
Definition VIRTIO_STATUS_FAILED : Z := 128.
Definition VIRTIO_STATUS_FEATURES_OK : Z := 8.
Definition VIRTIO_STATUS_DRIVER_OK : Z := 4.

(** Requests to the driver (virtioreq.h). *)
Definition VIRTIOREQ_SUCCESS : Z := 0.
Definition VIRTIOREQ_IOERROR : Z := 1.
Definition VIRTIOREQ_NO_FUNC : Z := 2.
Definition VIRTIOREQ_NO_PAYLOAD : Z := 3.
Definition VIRTIOREQ_READ : Z := 0.
Definition VIRTIOREQ_WRITE : Z := 1.
Definition MAX_VIRTIOREQ : Z := 2.

(** ** The shared memory *)

Inductive buffer :=
  | NoBuffer
  | BHeader (k : Z)
  | BStatus (k : Z)
  | BPage (offset : Z).

Record VirtQueueDesc := Desc { d_addr : buffer; d_len : Z; d_flags : Z; d_next : Z }.
Record VirtIOBlockRequest := BlkRequest { rq_type : Z; rq_sector : Z }.

Record shared := Shared {
  desc : Z -> VirtQueueDesc;
  avail : Z -> Z;
  used_idx : Z -> Z;
  used_id : Z -> Z;
  request : Z -> VirtIOBlockRequest;
  status : Z -> Z;
  page : Z -> Z
}.

Definition set_desc x m := Shared x (avail m) (used_idx m) (used_id m) (request m) (status m) (page m).
Definition set_avail x m := Shared (desc m) x (used_idx m) (used_id m) (request m) (status m) (page m).
Definition set_used_idx x m := Shared (desc m) (avail m) x (used_id m) (request m) (status m) (page m).
Definition set_used_id x m := Shared (desc m) (avail m) (used_idx m) x (request m) (status m) (page m).
Definition set_request x m := Shared (desc m) (avail m) (used_idx m) (used_id m) x (status m) (page m).
Definition set_status x m := Shared (desc m) (avail m) (used_idx m) (used_id m) (request m) x (page m).
Definition set_page x m := Shared (desc m) (avail m) (used_idx m) (used_id m) (request m) (status m) x.

Definition at2 (dev i : Z) : Z := dev * MAX_QUEUE_SIZE + i.

(** The u16 cells of [queue_avail_area[dev]]: flags, [idx], [ring]. *)
Definition avail_flags (dev : Z) : Z := dev * (2 + MAX_QUEUE_SIZE).
Definition avail_idx (dev : Z) : Z := dev * (2 + MAX_QUEUE_SIZE) + 1.
Definition avail_ring (dev i : Z) : Z := dev * (2 + MAX_QUEUE_SIZE) + 2 + i.

(** An attempt to send a reply, with the result of the system call. *)
Record reply := Reply { rp_to : Z; rp_val : Z; rp_page : option (Z -> Z); rp_ret : Z }.

(** [syscall_read_dev] and [syscall_write_dev] of four bytes. *)
Class VirtioMmio (D : Type) := {
  dev_read : Z -> D -> Z * Z * D;
  dev_write : Z -> Z -> D -> Z * D
}.

(** The driver's variables.  [mapped] says whether the request page is
    mapped; [sends] are the results of the next [syscall_ipc_try_send]s;
    [m_whom], [m_val] and [m_perm] are the message variables of [main];
    [handler] is the one interrupt handler of a process and [interrupts] the
    interrupts it was registered for. *)
Record vdrv (D : Type) := Drv {
  dv : D;
  sh : shared;
  base_addr : Z -> Z;
  block_device_idx : Z;
  to_virtio : Z -> Z;
  queue_size : Z -> Z;
  occupied : Z -> bool;
  last_seen : Z -> Z;
  in_progress : bool;
  req_whom : Z;
  req_type : Z;
  mapped : bool;
  m_whom : Z;
  m_val : Z;
  m_perm : Z;
  sends : nat -> Z;
  replies : list reply;
  handler : Z;
  interrupts : list (Z * Z)
}.
Arguments Drv {D}.
Arguments dv {D}.
Arguments sh {D}.
Arguments base_addr {D}.
Arguments block_device_idx {D}.
Arguments to_virtio {D}.
Arguments queue_size {D}.
Arguments occupied {D}.
Arguments last_seen {D}.
Arguments in_progress {D}.
Arguments req_whom {D}.
Arguments req_type {D}.
Arguments mapped {D}.
Arguments m_whom {D}.
Arguments m_val {D}.
Arguments m_perm {D}.
Arguments sends {D}.
Arguments replies {D}.
Arguments handler {D}.
Arguments interrupts {D}.

Section setters.
Context {D : Type}.
Definition set_dv x (s : vdrv D) : vdrv D := Drv x (sh s) (base_addr s) (block_device_idx s) (to_virtio s) (queue_size s) (occupied s) (last_seen s) (in_progress s) (req_whom s) (req_type s) (mapped s) (m_whom s) (m_val s) (m_perm s) (sends s) (replies s) (handler s) (interrupts s).
Definition set_sh x (s : vdrv D) : vdrv D := Drv (dv s) x (base_addr s) (block_device_idx s) (to_virtio s) (queue_size s) (occupied s) (last_seen s) (in_progress s) (req_whom s) (req_type s) (mapped s) (m_whom s) (m_val s) (m_perm s) (sends s) (replies s) (handler s) (interrupts s).
Definition set_base_addr x (s : vdrv D) : vdrv D := Drv (dv s) (sh s) x (block_device_idx s) (to_virtio s) (queue_size s) (occupied s) (last_seen s) (in_progress s) (req_whom s) (req_type s) (mapped s) (m_whom s) (m_val s) (m_perm s) (sends s) (replies s) (handler s) (interrupts s).
Definition set_block_device_idx x (s : vdrv D) : vdrv D := Drv (dv s) (sh s) (base_addr s) x (to_virtio s) (queue_size s) (occupied s) (last_seen s) (in_progress s) (req_whom s) (req_type s) (mapped s) (m_whom s) (m_val s) (m_perm s) (sends s) (replies s) (handler s) (interrupts s).
Definition set_to_virtio x (s : vdrv D) : vdrv D := Drv (dv s) (sh s) (base_addr s) (block_device_idx s) x (queue_size s) (occupied s) (last_seen s) (in_progress s) (req_whom s) (req_type s) (mapped s) (m_whom s) (m_val s) (m_perm s) (sends s) (replies s) (handler s) (interrupts s).
Definition set_queue_size x (s : vdrv D) : vdrv D := Drv (dv s) (sh s) (base_addr s) (block_device_idx s) (to_virtio s) x (occupied s) (last_seen s) (in_progress s) (req_whom s) (req_type s) (mapped s) (m_whom s) (m_val s) (m_perm s) (sends s) (replies s) (handler s) (interrupts s).
Definition set_occupied x (s : vdrv D) : vdrv D := Drv (dv s) (sh s) (base_addr s) (block_device_idx s) (to_virtio s) (queue_size s) x (last_seen s) (in_progress s) (req_whom s) (req_type s) (mapped s) (m_whom s) (m_val s) (m_perm s) (sends s) (replies s) (handler s) (interrupts s).
Definition set_last_seen x (s : vdrv D) : vdrv D := Drv (dv s) (sh s) (base_addr s) (block_device_idx s) (to_virtio s) (queue_size s) (occupied s) x (in_progress s) (req_whom s) (req_type s) (mapped s) (m_whom s) (m_val s) (m_perm s) (sends s) (replies s) (handler s) (interrupts s).
Definition set_in_progress x (s : vdrv D) : vdrv D := Drv (dv s) (sh s) (base_addr s) (block_device_idx s) (to_virtio s) (queue_size s) (occupied s) (last_seen s) x (req_whom s) (req_type s) (mapped s) (m_whom s) (m_val s) (m_perm s) (sends s) (replies s) (handler s) (interrupts s).
Definition set_mapped x (s : vdrv D) : vdrv D := Drv (dv s) (sh s) (base_addr s) (block_device_idx s) (to_virtio s) (queue_size s) (occupied s) (last_seen s) (in_progress s) (req_whom s) (req_type s) x (m_whom s) (m_val s) (m_perm s) (sends s) (replies s) (handler s) (interrupts s).
Definition set_handler x (s : vdrv D) : vdrv D := Drv (dv s) (sh s) (base_addr s) (block_device_idx s) (to_virtio s) (queue_size s) (occupied s) (last_seen s) (in_progress s) (req_whom s) (req_type s) (mapped s) (m_whom s) (m_val s) (m_perm s) (sends s) (replies s) x (interrupts s).
Definition set_req whom type (s : vdrv D) : vdrv D := Drv (dv s) (sh s) (base_addr s) (block_device_idx s) (to_virtio s) (queue_size s) (occupied s) (last_seen s) (in_progress s) whom type (mapped s) (m_whom s) (m_val s) (m_perm s) (sends s) (replies s) (handler s) (interrupts s).
Definition set_msg whom val pm (s : vdrv D) : vdrv D := Drv (dv s) (sh s) (base_addr s) (block_device_idx s) (to_virtio s) (queue_size s) (occupied s) (last_seen s) (in_progress s) (req_whom s) (req_type s) (mapped s) whom val pm (sends s) (replies s) (handler s) (interrupts s).
Definition add_reply r (s : vdrv D) : vdrv D := Drv (dv s) (sh s) (base_addr s) (block_device_idx s) (to_virtio s) (queue_size s) (occupied s) (last_seen s) (in_progress s) (req_whom s) (req_type s) (mapped s) (m_whom s) (m_val s) (m_perm s) (sends s) (replies s ++ [r]) (handler s) (interrupts s).
Definition pop_send  (s : vdrv D) : vdrv D := Drv (dv s) (sh s) (base_addr s) (block_device_idx s) (to_virtio s) (queue_size s) (occupied s) (last_seen s) (in_progress s) (req_whom s) (req_type s) (mapped s) (m_whom s) (m_val s) (m_perm s) (fun n => sends s (S n)) (replies s) (handler s) (interrupts s).
Definition add_interrupt code h (s : vdrv D) : vdrv D := Drv (dv s) (sh s) (base_addr s) (block_device_idx s) (to_virtio s) (queue_size s) (occupied s) (last_seen s) (in_progress s) (req_whom s) (req_type s) (mapped s) (m_whom s) (m_val s) (m_perm s) (sends s) (replies s) (handler s) (interrupts s ++ [(code, h)]).
End setters.

(** What [ipc_recv] delivered, with the bytes of the page it mapped. *)
Inductive message :=
  | RecvError (r : Z)
  | Recv (whom val perm : Z) (data : Z -> Z).

Section driver.
Context {D : Type} `{VirtioMmio D}.
Notation M := (Prelude.M (vdrv D)).

Definition on_sh (f : shared -> shared) : M unit := modify (fun s => set_sh (f (sh s)) s).

(** A failed access ends the driver. *)
Definition read_virtio_dev_4b_unwrap (addr : Z) : M Z := fun s =>
  let '(ret, val, d) := dev_read addr (dv s) in
  if ret =? 0 then Ret (u32 val) (set_dv d s) else Panic (set_dv d s).
Definition write_virtio_dev_4b_unwrap (addr val : Z) : M unit := fun s =>
  let '(ret, d) := dev_write addr val (dv s) in
  if ret =? 0 then Ret tt (set_dv d s) else Panic (set_dv d s).

(** ** Descriptors *)

Definition desc_try (dev i : Z) : M (option Z) :=
  used ← get (fun s => occupied s (at2 dev i));
  if (used : bool) then mret None
  else modify (fun s => set_occupied (<[at2 dev i := true]> (occupied s)) s) ;; mret (Some i).

Definition allocate_desc (dev : Z) : M Z :=
  if MAX_BLOCK_DEVICE_COUNT <=? dev then panic
  else
    r ← mfor_ret (Z.to_nat MAX_QUEUE_SIZE) 0 (desc_try dev);
    match r with Some i => mret i | None => panic end.

Definition free_desc (dev desc_id : Z) : M unit :=
  if MAX_BLOCK_DEVICE_COUNT <=? dev then panic
  else if MAX_QUEUE_SIZE <=? desc_id then panic
  else modify (fun s => set_occupied (<[at2 dev desc_id := false]> (occupied s)) s).

Definition init_last_seen_idx (dev : Z) : M unit :=
  modify (fun s => set_last_seen (<[dev := MAX_QUEUE_SIZE]> (last_seen s)) s).

(** ** Initialisation *)

Definition put_status (idx v : Z) : M unit :=
  base ← get (fun s => base_addr s idx);
  write_virtio_dev_4b_unwrap (base + VIRTIO_STATUS) v.
Definition virtio_device_reset (idx : Z) : M unit := put_status idx VIRTIO_STATUS_RESET.
Definition virtio_device_ack (idx : Z) : M unit := put_status idx VIRTIO_STATUS_ACKNOWLEDGE.
Definition virtio_device_driver (idx : Z) : M unit := put_status idx VIRTIO_STATUS_DRIVER.
Definition virtio_device_features_ok (idx : Z) : M unit := put_status idx VIRTIO_STATUS_FEATURES_OK.
Definition virtio_device_failed (idx : Z) : M unit := put_status idx VIRTIO_STATUS_FAILED.

Definition validate_and_ack_feature_first_byte (idx required_mask forbidden_mask : Z) : M bool :=
  base ← get (fun s => base_addr s idx);
  write_virtio_dev_4b_unwrap (base + VIRTIO_DEVICE_FEATURES_SEL) 0 ;;
  device_features ← read_virtio_dev_4b_unwrap (base + VIRTIO_DEVICE_FEATURES);
  let success := (Z.land device_features required_mask =? required_mask) && (Z.land device_features forbidden_mask =? 0) in
  (if success then
     write_virtio_dev_4b_unwrap (base + VIRTIO_DRIVER_FEATURES_SEL) 0 ;;
     write_virtio_dev_4b_unwrap (base + VIRTIO_DRIVER_FEATURES) required_mask ;;
     virtio_device_features_ok idx
   else virtio_device_failed idx) ;;
  mret success.

(** [queue_pa] gives the physical addresses of the three areas of a device. *)
Definition init_block_device (queue_pa : Z -> Z * Z * Z) (idx interrupt_code : Z) : M bool :=
  n ← get block_device_idx;
  if MAX_BLOCK_DEVICE_COUNT <? n then mret false
  else
    virtio_device_driver idx ;;
    base ← get (fun s => base_addr s idx);
    ok ← validate_and_ack_feature_first_byte idx 0 (Z.shiftl 1 VIRTIO_BLK_F_RO);
    if negb ok then mret false
    else
      st ← read_virtio_dev_4b_unwrap (base + VIRTIO_STATUS);
      if negb (st =? VIRTIO_STATUS_FEATURES_OK) then mret false
      else
        read_virtio_dev_4b_unwrap (base + VIRTIO_CONFIG + CONFIG_CAPACITY_OFFSET) ;;
        write_virtio_dev_4b_unwrap (base + VIRTIO_QUEUE_SEL) 0 ;;
        max_queue_size ← read_virtio_dev_4b_unwrap (base + VIRTIO_QUEUE_SIZE_MAX);
        let qs := if max_queue_size <? MAX_QUEUE_SIZE then max_queue_size else MAX_QUEUE_SIZE in
        modify (fun s => set_to_virtio (<[n := idx]> (to_virtio s)) s) ;;
        modify (fun s => set_queue_size (<[n := qs]> (queue_size s)) s) ;;
        on_sh (fun m => set_avail (<[avail_idx n := 0]> (<[avail_flags n := 0]> (avail m))) m) ;;
        on_sh (fun m => set_used_idx (<[n := 0]> (used_idx m)) m) ;;
        write_virtio_dev_4b_unwrap (base + VIRTIO_QUEUE_SIZE) qs ;;
        let '(desc_pa, avail_pa, used_pa) := queue_pa n in
        write_virtio_dev_4b_unwrap (base + VIRTIO_QUEUE_DESC_LOW) (u32 desc_pa) ;;
        write_virtio_dev_4b_unwrap (base + VIRTIO_QUEUE_DESC_HIGH) (u32 (Z.shiftr desc_pa 32)) ;;
        write_virtio_dev_4b_unwrap (base + VIRTIO_QUEUE_DRIVER_LOW) (u32 avail_pa) ;;
        write_virtio_dev_4b_unwrap (base + VIRTIO_QUEUE_DRIVER_HIGH) (u32 (Z.shiftr avail_pa 32)) ;;
        write_virtio_dev_4b_unwrap (base + VIRTIO_QUEUE_DEVICE_LOW) (u32 used_pa) ;;
        write_virtio_dev_4b_unwrap (base + VIRTIO_QUEUE_DEVICE_HIGH) (u32 (Z.shiftr used_pa 32)) ;;
        write_virtio_dev_4b_unwrap (base + VIRTIO_QUEUE_READY) 1 ;;
        write_virtio_dev_4b_unwrap (base + VIRTIO_STATUS) VIRTIO_STATUS_DRIVER_OK ;;
        st ← read_virtio_dev_4b_unwrap (base + VIRTIO_STATUS);
        if negb (st =? VIRTIO_STATUS_DRIVER_OK) then mret false
        else
          (* register_user_interrupt_handler(interrupt_code, handler n) *)
          modify (fun s => add_interrupt interrupt_code n (set_handler n s)) ;;
          modify (set_block_device_idx (n + 1)) ;;
          init_last_seen_idx (n + 1) ;;
          mret true.

(** What [syscall_get_device] returned for a device: the result, the address
    of its registers and its interrupt. *)
Record device_info := DeviceInfo { di_ret : Z; di_begin_pa : Z; di_interrupt : Z }.

Definition virtio_dev_init (queue_pa : Z -> Z * Z * Z) (idx : Z) (di : device_info) : M unit :=
  if di_ret di <? 0 then mret tt
  else
    modify (fun s => set_base_addr (<[idx := di_begin_pa di]> (base_addr s)) s) ;;
    let base := di_begin_pa di in
    magic_value ← read_virtio_dev_4b_unwrap (base + VIRTIO_MAGIC_VALUE);
    read_virtio_dev_4b_unwrap (base + VIRTIO_VERSION) ;;
    device_id ← read_virtio_dev_4b_unwrap (base + VIRTIO_DEVICE_ID);
    read_virtio_dev_4b_unwrap (base + VIRTIO_VENDOR_ID) ;;
    if negb (magic_value =? MAGIC_VALUE) then mret tt
    else
      virtio_device_reset idx ;;
      virtio_device_ack idx ;;
      (* register_driver: block devices have the only driver *)
      if device_id =? BLOCK_DEVICE_ID then init_block_device queue_pa idx (di_interrupt di) ;; mret tt
      else mret tt.

(** The start of [main]. *)
Fixpoint init_devices (queue_pa : Z -> Z * Z * Z) (idx : Z) (l : list device_info) : M unit :=
  match l with
  | [] => mret tt
  | di :: l => virtio_dev_init queue_pa idx di ;; init_devices queue_pa (idx + 1) l
  end.

(** ** Requests *)

Definition put_desc (k : Z) (d : VirtQueueDesc) : M unit := on_sh (fun m => set_desc (<[k := d]> (desc m)) m).

Definition block_cmd (dev type sector : Z) (data : buffer) : M unit :=
  d1 ← allocate_desc dev;
  d2 ← allocate_desc dev;
  d3 ← allocate_desc dev;
  if negb (type =? VIRTIO_BLK_T_IN) && negb (type =? VIRTIO_BLK_T_OUT) then panic
  else
    on_sh (fun m => set_request (<[at2 dev d1 := BlkRequest type sector]> (request m)) m) ;;
    put_desc (at2 dev d1) (Desc (BHeader (at2 dev d1)) REQUEST_SIZE VIRTQ_DESC_F_NEXT d2) ;;
    let data_mode := if type =? VIRTIO_BLK_T_IN then VIRTQ_DESC_F_WRITE else 0 in
    put_desc (at2 dev d2) (Desc data SECTOR_SIZE (Z.lor data_mode VIRTQ_DESC_F_NEXT) d3) ;;
    next ← get (fun s => d_next (desc (sh s) (at2 dev d3)));
    put_desc (at2 dev d3) (Desc (BStatus (at2 dev d3)) 1 VIRTQ_DESC_F_WRITE next) ;;
    on_sh (fun m => set_avail (<[avail_ring dev (avail m (avail_idx dev)) := d1]> (avail m)) m) ;;
    on_sh (fun m => set_avail (<[avail_idx dev := u16 (avail m (avail_idx dev) + 1)]> (avail m)) m) ;;
    base ← get (fun s => base_addr s (to_virtio s dev));
    write_virtio_dev_4b_unwrap (base + VIRTIO_QUEUE_NOTIFY) 0.

(** The checks of a chain; the status byte is only printed. *)
Definition handle_used (dev uidx : Z) : M bool :=
  s ← get (fun s => s);
  let d1 := u16 (used_id (sh s) (at2 dev (uidx mod queue_size s dev))) in
  let e1 := desc (sh s) (at2 dev d1) in
  if Z.land (d_flags e1) VIRTQ_DESC_F_NEXT =? 0 then mret false
  else
    let d2 := d_next e1 in
    let e2 := desc (sh s) (at2 dev d2) in
    if Z.land (d_flags e2) VIRTQ_DESC_F_NEXT =? 0 then mret false
    else
      let d3 := d_next e2 in
      if negb (d_len e1 =? REQUEST_SIZE) then mret false
      else if negb (d_len e2 =? SECTOR_SIZE) then mret false
      else if negb (d_len (desc (sh s) (at2 dev d3)) =? 1) then mret false
      else
        free_desc dev d1 ;;
        free_desc dev d2 ;;
        free_desc dev d3 ;;
        mret true.

(** [for (uint16_t idx = uidx; n more; idx++) success &= handle_used(dev, idx)] *)
Fixpoint used_loop (n : nat) (dev uidx : Z) (success : bool) : M bool :=
  match n with
  | O => mret success
  | S n =>
      b ← handle_used dev uidx;
      used_loop n dev (uidx + 1) (success && b)
  end.

Definition touch_page : M unit :=
  modify (fun s => if mapped s then s else set_mapped true (set_sh (set_page (fun _ => 0) (sh s)) s)).
Definition unmap_page : M unit := modify (set_mapped false).

(** [syscall_ipc_try_send(req_whom, val, page)]; a failure is only printed. *)
Definition try_reply (val : Z) (with_page : bool) : M unit :=
  modify (fun s => pop_send (add_reply (Reply (req_whom s) val (if with_page then Some (page (sh s)) else None) (sends s 0)) s)).

Definition notify_sender (success : bool) : M unit :=
  b ← get in_progress;
  if negb b then panic
  else
    touch_page ;;
    type ← get req_type;
    (if negb success then try_reply (u64 (- VIRTIOREQ_IOERROR)) false
     else if type =? VIRTIO_BLK_T_IN then try_reply VIRTIOREQ_SUCCESS true
     else if type =? VIRTIO_BLK_T_OUT then try_reply VIRTIOREQ_SUCCESS false
     else mret tt) ;;
    modify (set_in_progress false) ;;
    unmap_page.

Definition handle_block_interrupt (dev : Z) : M unit :=
  base ← get (fun s => base_addr s (to_virtio s dev));
  interrupt_status ← read_virtio_dev_4b_unwrap (base + VIRTIO_INTERRUPT_STATUS);
  (if negb (Z.land (Z.shiftr interrupt_status VIRTIO_BLK_INTERRUPT_STATUS_USED_BUFFER_OFFSET) 1 =? 0) then
     current ← get (fun s => used_idx (sh s) dev);
     last ← get (fun s => last_seen s dev);
     qs ← get (fun s => queue_size s dev);
     success ← (if last <=? current then used_loop (Z.to_nat (current - last)) dev last true
                else
                  b ← used_loop (Z.to_nat (qs - last)) dev last true;
                  used_loop (Z.to_nat current) dev 0 b);
     modify (fun s => set_last_seen (<[dev := current]> (last_seen s)) s) ;;
     notify_sender success
   else mret tt) ;;
  write_virtio_dev_4b_unwrap (base + VIRTIO_INTERRUPT_ACK) interrupt_status.

(** The interrupt handler of the process: the one registered last. *)
Definition handle_interrupt : M unit := h ← get handler; handle_block_interrupt h.

(** [ipc_send] sends until the receiver takes it. *)
Definition reply_error (val : Z) : M unit :=
  modify (fun s => add_reply (Reply (m_whom s) val None 0) s).

Definition serve_read : M unit :=
  modify (fun s => set_req (m_whom s) VIRTIO_BLK_T_IN s) ;;
  touch_page ;;
  sector ← get (fun s => load 4 (page (sh s)) 0);
  block_cmd 1 VIRTIO_BLK_T_IN sector (BPage 0).

Definition serve_write : M unit :=
  modify (fun s => set_req (m_whom s) VIRTIO_BLK_T_OUT s) ;;
  touch_page ;;
  sector ← get (fun s => load 4 (page (sh s)) 0);
  block_cmd 1 VIRTIO_BLK_T_OUT sector (BPage 4).

(** The loop of [main] from the message variables on. *)
Definition serve : M unit :=
  s ← get (fun s => s);
  if MAX_VIRTIOREQ <=? m_val s then
    reply_error (u64 (- VIRTIOREQ_NO_FUNC)) ;;
    unmap_page ;;
    modify (set_in_progress false)
  else if Z.land (m_perm s) PTE_V =? 0 then
    reply_error (u64 (- VIRTIOREQ_NO_PAYLOAD)) ;;
    modify (set_in_progress false)
  else if m_val s =? VIRTIOREQ_READ then serve_read else serve_write.

(** One turn of the loop, when no request is in progress.  The message
    variables keep their values when [ipc_recv] fails. *)
Definition main_turn (m : message) : M unit :=
  match m with
  | RecvError r =>
      modify (set_in_progress true) ;;
      modify (set_in_progress false) ;;
      if r =? - E_INTR then mret tt else serve
  | Recv whom val pm data =>
      modify (set_msg whom val pm) ;;
      (if Z.land pm PTE_V =? 0 then mret tt
       else modify (fun s => set_mapped true (set_sh (set_page data (sh s)) s))) ;;
      modify (set_in_progress true) ;;
      serve
  end.
End driver.
