(* ===== verification/VirtioSys.v ===== *)
(** The disk driver, a block device and their clients.

    [BlkDevice] states what the driver relies on of a block device without
    I/O errors: the registers it uses while it serves requests, and what the
    device does with the next chain of its queue (virtio 1.2, sections 2.7 and
    5.2.6).  [vstep] interleaves the turns of the driver's loop, the device and
    the driver's interrupt handler, which may run at any moment between turns.
    The main thread is taken to be undisturbed in a turn: the device has
    nothing to do before the last store of the turn.

    [disk_spec] is the service the driver implements: a disk of sectors,
    requests served in order, one reply each. *)
From stdpp Require Import relations.
From S2P Require Import Prelude Mem Mmu Virtio.
#[local] Open Scope Z_scope.

(** The page after a read of a sector into it, and the disk after a write. *)
Definition read_into (offset sector : Z) (dk page : Z -> Z) : Z -> Z := fun x =>
  if (offset <=? x) && (x <? offset + SECTOR_SIZE) then dk (sector * SECTOR_SIZE + (x - offset)) else page x.
Definition write_from (offset sector : Z) (page dk : Z -> Z) : Z -> Z := fun x =>
  if (sector * SECTOR_SIZE <=? x) && (x <? sector * SECTOR_SIZE + SECTOR_SIZE) then page (offset + (x - sector * SECTOR_SIZE)) else dk x.

(** The device hands back the chain that starts at [head]. *)
Definition finished (dev qs head st : Z) (m : shared) : shared :=
  Shared (desc m) (avail m) (<[dev := u16 (used_idx m dev + 1)]> (used_idx m))
    (<[at2 dev (used_idx m dev mod qs) := head]> (used_id m)) (request m) (<[st := VIRTIO_BLK_S_OK]> (status m)) (page m).

(** The three descriptors of a request. *)
Record chain (dev : Z) (m : shared) (head h off st : Z) (w : bool) : Prop := {
  ch_header : let e := desc m (at2 dev head) in d_addr e = BHeader h /\ d_len e = REQUEST_SIZE /\ Z.land (d_flags e) VIRTQ_DESC_F_NEXT <> 0;
  ch_data : let e := desc m (at2 dev (d_next (desc m (at2 dev head)))) in
    d_addr e = BPage off /\ d_len e = SECTOR_SIZE /\ Z.land (d_flags e) VIRTQ_DESC_F_NEXT <> 0 /\
    (w = true <-> Z.land (d_flags e) VIRTQ_DESC_F_WRITE <> 0);
  ch_status : let e := desc m (at2 dev (d_next (desc m (at2 dev (d_next (desc m (at2 dev head))))))) in
    d_addr e = BStatus st /\ d_len e = 1 /\ Z.land (d_flags e) VIRTQ_DESC_F_WRITE <> 0
}.

Class BlkDevice (D : Type) := {
  blk_mmio :: VirtioMmio D;
  blk_base : Z;
  disk : D -> Z -> Z;
  avail_seen : D -> Z;
  pending : D -> bool;
  (** The device takes the next chain of queue [dev], of size [qs]. *)
  take_chain : Z -> Z -> D -> shared -> D * shared;
  notify_register d : exists d', dev_write (blk_base + VIRTIO_QUEUE_NOTIFY) 0 d = (0, d') /\
    disk d' = disk d /\ avail_seen d' = avail_seen d /\ pending d' = pending d;
  status_register d : exists v d', dev_read (blk_base + VIRTIO_INTERRUPT_STATUS) d = (0, v, d') /\
    disk d' = disk d /\ avail_seen d' = avail_seen d /\ pending d' = pending d /\
    (Z.land (u32 v) 1 <> 0 <-> pending d = true);
  ack_register d v : exists d', dev_write (blk_base + VIRTIO_INTERRUPT_ACK) v d = (0, d') /\
    disk d' = disk d /\ avail_seen d' = avail_seen d /\ (pending d' = true <-> pending d = true /\ Z.land v 1 = 0);
  take_read dev qs d m h off st : let head := avail m (avail_ring dev (avail_seen d mod qs)) in
    avail_seen d <> avail m (avail_idx dev) -> chain dev m head h off st true -> rq_type (request m h) = VIRTIO_BLK_T_IN ->
    exists d', take_chain dev qs d m = (d', finished dev qs head st (set_page (read_into off (rq_sector (request m h)) (disk d) (page m)) m)) /\
      disk d' = disk d /\ avail_seen d' = u16 (avail_seen d + 1) /\ pending d' = true;
  take_write dev qs d m h off st : let head := avail m (avail_ring dev (avail_seen d mod qs)) in
    avail_seen d <> avail m (avail_idx dev) -> chain dev m head h off st false -> rq_type (request m h) = VIRTIO_BLK_T_OUT ->
    exists d', take_chain dev qs d m = (d', finished dev qs head st m) /\
      disk d' = write_from off (rq_sector (request m h)) (page m) (disk d) /\ avail_seen d' = u16 (avail_seen d + 1) /\ pending d' = true
}.

(** ** The system *)

Record vsys (D : Type) := VSys { v_drv : vdrv D; v_log : list message }.
Arguments VSys {D}.
Arguments v_drv {D}.
Arguments v_log {D}.

(** [ipc_recv(0, ..., REQVA, ...)] fails only when it is interrupted. *)
Definition delivered (m : message) : Prop := match m with RecvError r => r = - E_INTR | Recv _ _ _ _ => True end.

Section system.
Context {D : Type} `{BlkDevice D}.

(** The device at work on block device 1, the only one requests go to. *)
Definition device_turn (s : vdrv D) : vdrv D :=
  let '(d, m) := take_chain 1 (queue_size s 1) (dv s) (sh s) in set_dv d (set_sh m s).

Inductive vstep : vsys D -> vsys D -> Prop :=
  | v_main s l m s' : in_progress s = false -> delivered m -> main_turn m s = Ret tt s' -> vstep (VSys s l) (VSys s' (l ++ [m]))
  | v_device s l : avail_seen (dv s) <> avail (sh s) (avail_idx 1) -> vstep (VSys s l) (VSys (device_turn s) l)
  | v_intr s l s' : handle_interrupt s = Ret tt s' -> vstep (VSys s l) (VSys s' l).

(** ** The service *)

(** A reply: to whom, its value, and the sector it carries. *)
Definition answer : Type := Z * Z * option (list Z).

Definition sector_of (dk : Z -> Z) (sector : Z) : list Z := map (fun k => dk (sector * SECTOR_SIZE + k)) (seqZ 0 SECTOR_SIZE).

(** What a message asks for. *)
Inductive ask :=
  | AskNothing
  | AskError (whom val : Z)
  | AskRead (whom sector : Z)
  | AskWrite (whom sector : Z) (data : Z -> Z).

Definition ask_of (m : message) : ask :=
  match m with
  | RecvError _ => AskNothing
  | Recv whom val pm data =>
      if MAX_VIRTIOREQ <=? val then AskError whom (u64 (- VIRTIOREQ_NO_FUNC))
      else if Z.land pm PTE_V =? 0 then AskError whom (u64 (- VIRTIOREQ_NO_PAYLOAD))
      else if val =? VIRTIOREQ_READ then AskRead whom (load 4 data 0)
      else AskWrite whom (load 4 data 0) data
  end.

Definition ask_disk (a : ask) (dk : Z -> Z) : Z -> Z :=
  match a with AskWrite _ sector data => write_from 4 sector data dk | _ => dk end.
Definition ask_answer (a : ask) (dk : Z -> Z) : list answer :=
  match a with
  | AskNothing => []
  | AskError whom val => [(whom, val, None)]
  | AskRead whom sector => [(whom, VIRTIOREQ_SUCCESS, Some (sector_of dk sector))]
  | AskWrite whom _ _ => [(whom, VIRTIOREQ_SUCCESS, None)]
  end.

(** The disk and the replies after the messages [l]. *)
Fixpoint disk_spec (dk : Z -> Z) (l : list message) : (Z -> Z) * list answer :=
  match l with
  | [] => (dk, [])
  | m :: l =>
      let '(dk', out) := disk_spec (ask_disk (ask_of m) dk) l in (dk', ask_answer (ask_of m) dk ++ out)
  end.

(** The requests that go to the device. *)
Definition to_device (m : message) : bool := match ask_of m with AskRead _ _ | AskWrite _ _ _ => true | _ => false end.
Definition requests (l : list message) : Z := Z.of_nat (length (filter (fun m => to_device m) l)).

(** A reply as the client sees it. *)
Definition answer_of (r : reply) : answer :=
  (rp_to r, rp_val r, option_map (fun p => map p (seqZ 0 SECTOR_SIZE)) (rp_page r)).

Lemma disk_spec_snoc l m : forall dk,
  disk_spec dk (l ++ [m]) = let '(dk', out) := disk_spec dk l in (ask_disk (ask_of m) dk', out ++ ask_answer (ask_of m) dk').
Proof.
  induction l as [|m' l IH]; intros dk; simpl; [by rewrite app_nil_r|]. rewrite IH. destruct (disk_spec _ l) as [dk' out].
  by rewrite app_assoc.
Qed.

Lemma requests_snoc l m : requests (l ++ [m]) = requests l + (if to_device m then 1 else 0).
Proof.
  unfold requests. rewrite filter_app, length_app. rewrite filter_cons. destruct (decide _) as [Hd|Hd].
  - apply Is_true_eq_true in Hd. rewrite Hd. simpl. lia.
  - destruct (to_device m); [by destruct Hd|]. simpl. lia.
Qed.

Lemma requests_nonneg l : 0 <= requests l.
Proof. unfold requests. lia. Qed.

(** ** One request *)

Lemma allocate_desc_ok dev i (s : vdrv D) : dev < MAX_BLOCK_DEVICE_COUNT -> 0 <= i < MAX_QUEUE_SIZE ->
  (forall j, 0 <= j < i -> occupied s (at2 dev j) = true) -> occupied s (at2 dev i) = false ->
  allocate_desc dev s = Ret i (set_occupied (<[at2 dev i := true]> (occupied s)) s).
Proof.
  unfold MAX_QUEUE_SIZE. intros Hd Hi Hu Hf. unfold allocate_desc. destruct (Z.leb_spec MAX_BLOCK_DEVICE_COUNT dev); [lia|].
  rewrite (bind_ret _ _ s (Some i) (set_occupied (<[at2 dev i := true]> (occupied s)) s)); [done|].
  apply (mfor_ret_some _ (Z.to_nat i)); [unfold MAX_QUEUE_SIZE; lia| |].
  - intros j Hj. unfold desc_try. rewrite bind_get, Hu by lia. done.
  - rewrite Z.add_0_l, Z2Nat.id by lia. unfold desc_try. rewrite bind_get, Hf. done.
Qed.

(** The shared memory after [block_cmd] of a request in the descriptors 0, 1
    and 2. *)
Definition publish (type sector : Z) (data : buffer) (m : shared) : shared :=
  let mode := if type =? VIRTIO_BLK_T_IN then VIRTQ_DESC_F_WRITE else 0 in
  let m1 := set_request (<[at2 1 0 := BlkRequest type sector]> (request m)) m in
  let m2 := set_desc (<[at2 1 0 := Desc (BHeader (at2 1 0)) REQUEST_SIZE VIRTQ_DESC_F_NEXT 1]> (desc m1)) m1 in
  let m3 := set_desc (<[at2 1 1 := Desc data SECTOR_SIZE (Z.lor mode VIRTQ_DESC_F_NEXT) 2]> (desc m2)) m2 in
  let m4 := set_desc (<[at2 1 2 := Desc (BStatus (at2 1 2)) 1 VIRTQ_DESC_F_WRITE (d_next (desc m3 (at2 1 2)))]> (desc m3)) m3 in
  let m5 := set_avail (<[avail_ring 1 (avail m4 (avail_idx 1)) := 0]> (avail m4)) m4 in
  set_avail (<[avail_idx 1 := u16 (avail m5 (avail_idx 1) + 1)]> (avail m5)) m5.

(** The descriptors a request uses, of those that were free. *)
Definition three_used (o : Z -> bool) : Z -> bool := <[at2 1 2 := true]> (<[at2 1 1 := true]> (<[at2 1 0 := true]> o)).

Lemma block_cmd_ok type sector data (s : vdrv D) : type = VIRTIO_BLK_T_IN \/ type = VIRTIO_BLK_T_OUT ->
  (forall k, 0 <= k < MAX_QUEUE_SIZE -> occupied s (at2 1 k) = false) -> base_addr s (to_virtio s 1) = blk_base ->
  exists d, block_cmd 1 type sector data s =
    Ret tt (set_dv d (set_sh (publish type sector data (sh s)) (set_occupied (three_used (occupied s)) s))) /\
    disk d = disk (dv s) /\ avail_seen d = avail_seen (dv s) /\ pending d = pending (dv s).
Proof.
  intros Ht Hfree Hbase. destruct (notify_register (dv s)) as (d & Ed & Hd). exists d. split; [|done].
  assert (forall a b, a <> b -> at2 1 a <> at2 1 b) as Hne by (unfold at2; lia).
  unfold block_cmd. rewrite (bind_ret _ _ _ _ _ (allocate_desc_ok 1 0 s ltac:(done) ltac:(done) ltac:(lia) (Hfree 0 ltac:(done)))).
  erewrite bind_ret; [|apply (allocate_desc_ok 1 1); [done|done| |]].
  2: { intros j Hj. assert (j = 0) as -> by lia. cbn. by rewrite fn_lookup_insert. }
  2: { cbn. rewrite fn_lookup_insert_ne by (apply Hne; lia). by apply Hfree. }
  erewrite bind_ret; [|apply (allocate_desc_ok 1 2); [done|done| |]].
  2: { intros j Hj. cbn. destruct (decide (j = 1)) as [->|]; [by rewrite fn_lookup_insert|]. assert (j = 0) as -> by lia.
       rewrite fn_lookup_insert_ne by (apply Hne; lia). by rewrite fn_lookup_insert. }
  2: { cbn. rewrite !fn_lookup_insert_ne by (apply Hne; lia). by apply Hfree. }
  assert (negb (type =? VIRTIO_BLK_T_IN) && negb (type =? VIRTIO_BLK_T_OUT) = false) as -> by (by destruct Ht as [->| ->]).
  cbv zeta. unfold put_desc, on_sh. rewrite ?bind_modify, ?bind_get. rewrite !bind_modify, bind_get.
  unfold write_virtio_dev_4b_unwrap.
  match goal with |- context [dev_write ?a 0 ?b] => replace (dev_write a 0 b) with (0, d); [done|] end.
  etransitivity; [symmetry; exact Ed|]. f_equal. by rewrite <- Hbase.
Qed.
(** What stays fixed once the device is set up. *)
Record set_up (s : vdrv D) : Prop := {
  su_base : base_addr s (to_virtio s 1) = blk_base;
  su_handler : handler s = 1;
  su_size : 1 <= queue_size s 1
}.

(** The available ring after [n] requests: every entry is the descriptor 0. *)
Definition ring_zero (n : Z) (m : shared) : Prop :=
  avail m (avail_idx 1) = n /\ forall j, 0 <= j < MAX_QUEUE_SIZE -> avail m (avail_ring 1 j) = 0.

(** The descriptors in use: the first three, or none. *)
Definition in_use (three : bool) (s : vdrv D) : Prop :=
  forall k, 0 <= k < MAX_QUEUE_SIZE -> occupied s (at2 1 k) = three && (k <? 3).

(** No request is in progress; [n] were served. *)
Record idle (dk : Z -> Z) (out : list answer) (n : Z) (s : vdrv D) : Prop := {
  id_set_up : set_up s;
  id_ring : ring_zero n (sh s);
  id_progress : in_progress s = false;
  id_seen : avail_seen (dv s) = n;
  id_used : used_idx (sh s) 1 = n;
  id_last : last_seen s 1 = n;
  id_pending : pending (dv s) = false;
  id_free : in_use false s;
  id_out : map answer_of (replies s) = out;
  id_disk : disk (dv s) = dk
}.

(** The request in progress, as the driver's variables and the chain have it. *)
Definition describes (a : ask) (s : vdrv D) : Prop :=
  d_next (desc (sh s) (at2 1 0)) = 1 /\ d_next (desc (sh s) (at2 1 1)) = 2 /\
  match a with
  | AskRead whom sector => req_whom s = whom /\ req_type s = VIRTIO_BLK_T_IN /\
      chain 1 (sh s) 0 (at2 1 0) 0 (at2 1 2) true /\ request (sh s) (at2 1 0) = BlkRequest VIRTIO_BLK_T_IN sector
  | AskWrite whom sector data => req_whom s = whom /\ req_type s = VIRTIO_BLK_T_OUT /\
      chain 1 (sh s) 0 (at2 1 0) 4 (at2 1 2) false /\ request (sh s) (at2 1 0) = BlkRequest VIRTIO_BLK_T_OUT sector
  | _ => False
  end.

(** The device has not yet taken the request, the [n]th. *)
Record submitted (a : ask) (dk : Z -> Z) (out : list answer) (n : Z) (s : vdrv D) : Prop := {
  sb_set_up : set_up s;
  sb_ring : ring_zero n (sh s);
  sb_count : 1 <= n <= MAX_QUEUE_SIZE;
  sb_progress : in_progress s = true;
  sb_mapped : mapped s = true;
  sb_seen : avail_seen (dv s) = n - 1;
  sb_used : used_idx (sh s) 1 = n - 1;
  sb_last : last_seen s 1 = n - 1;
  sb_pending : pending (dv s) = false;
  sb_use : in_use true s;
  sb_out : map answer_of (replies s) = out;
  sb_disk : disk (dv s) = dk;
  sb_request : describes a s;
  sb_page : match a with AskWrite _ _ data => page (sh s) = data | _ => True end
}.

(** The device has finished with it and raised its interrupt. *)
Record completed (a : ask) (dk : Z -> Z) (out : list answer) (n : Z) (s : vdrv D) : Prop := {
  co_set_up : set_up s;
  co_ring : ring_zero n (sh s);
  co_count : 1 <= n <= MAX_QUEUE_SIZE;
  co_progress : in_progress s = true;
  co_mapped : mapped s = true;
  co_seen : avail_seen (dv s) = n;
  co_used : used_idx (sh s) 1 = n;
  co_last : last_seen s 1 = n - 1;
  co_pending : pending (dv s) = true;
  co_use : in_use true s;
  co_out : map answer_of (replies s) = out;
  co_disk : disk (dv s) = ask_disk a dk;
  co_id : used_id (sh s) (at2 1 ((n - 1) mod queue_size s 1)) = 0;
  co_request : describes a s;
  co_page : match a with AskRead _ sector => map (page (sh s)) (seqZ 0 SECTOR_SIZE) = sector_of dk sector | _ => True end
}.

(** ** The published chain *)

Lemma avail_ring_ne i : 0 <= i -> avail_ring 1 i <> avail_idx 1.
Proof. unfold avail_ring, avail_idx, MAX_QUEUE_SIZE. lia. Qed.

Lemma publish_ring type sector data m n : 0 <= n < MAX_QUEUE_SIZE -> ring_zero n m -> ring_zero (n + 1) (publish type sector data m).
Proof.
  unfold MAX_QUEUE_SIZE. intros Hn [H1 H2]. unfold publish, ring_zero. cbn. rewrite H1. split.
  - rewrite fn_lookup_insert, fn_lookup_insert_ne by (apply avail_ring_ne; lia). rewrite H1. unfold u16. apply Z.mod_small. lia.
  - intros j Hj. rewrite fn_lookup_insert_ne by (apply not_eq_sym, avail_ring_ne; lia).
    destruct (decide (j = n)) as [->|Hne]; [by rewrite fn_lookup_insert|].
    rewrite fn_lookup_insert_ne by (unfold avail_ring; lia). by apply H2.
Qed.

(** The three descriptors, whatever was there. *)
Lemma publish_desc type sector data m :
  let m' := publish type sector data m in
  desc m' (at2 1 0) = Desc (BHeader (at2 1 0)) REQUEST_SIZE VIRTQ_DESC_F_NEXT 1 /\
  desc m' (at2 1 1) = Desc data SECTOR_SIZE (Z.lor (if type =? VIRTIO_BLK_T_IN then VIRTQ_DESC_F_WRITE else 0) VIRTQ_DESC_F_NEXT) 2 /\
  (exists next, desc m' (at2 1 2) = Desc (BStatus (at2 1 2)) 1 VIRTQ_DESC_F_WRITE next) /\
  request m' (at2 1 0) = BlkRequest type sector.
Proof.
  assert (forall a b, a <> b -> at2 1 a <> at2 1 b) as Hne by (unfold at2; lia).
  intros m'. unfold m', publish. cbn [desc request set_desc set_request set_avail].
  repeat first [rewrite fn_lookup_insert | rewrite fn_lookup_insert_ne by (apply Hne; lia)]. split_and!; try done. by eexists.
Qed.

Lemma publish_chain type sector off m : type = VIRTIO_BLK_T_IN \/ type = VIRTIO_BLK_T_OUT ->
  chain 1 (publish type sector (BPage off) m) 0 (at2 1 0) off (at2 1 2) (type =? VIRTIO_BLK_T_IN).
Proof.
  intros Ht. destruct (publish_desc type sector (BPage off) m) as (H0 & H1 & (next & H2) & _).
  split; cbv zeta; rewrite H0; cbn [d_addr d_len d_flags d_next]; [done|rewrite H1|rewrite H1; cbn [d_next]; rewrite H2; done].
  cbn [d_addr d_len d_flags]. by destruct Ht as [->| ->].
Qed.
(** ** A turn of the driver's loop *)

(** Only the message variables, the page, the flag and the replies differ. *)
Lemma idle_keep (s s' : vdrv D) dk out out' n : idle dk out n s ->
  base_addr s' = base_addr s /\ to_virtio s' = to_virtio s /\ handler s' = handler s /\ queue_size s' = queue_size s /\
  avail (sh s') = avail (sh s) /\ used_idx (sh s') = used_idx (sh s) /\ last_seen s' = last_seen s /\ occupied s' = occupied s /\ dv s' = dv s ->
  in_progress s' = false -> map answer_of (replies s') = out' -> idle dk out' n s'.
Proof.
  intros [] (E1 & E2 & E3 & E4 & E5 & E6 & E7 & E8 & E9) Hp Ho. destruct id_set_up0, id_ring0.
  split; [split; congruence|split; [congruence|by rewrite E5]|try congruence..]. intros k Hk. rewrite E8. by apply id_free0.
Qed.

(** [serve_read] and [serve_write] up to the command, from a state where the
    request's page is mapped. *)
Lemma submit_ok type off (s : vdrv D) dk out n a : type = VIRTIO_BLK_T_IN \/ type = VIRTIO_BLK_T_OUT ->
  idle dk out n (set_in_progress false s) -> 0 <= n < MAX_QUEUE_SIZE -> in_progress s = true -> mapped s = true ->
  a = (if type =? VIRTIO_BLK_T_IN then AskRead (m_whom s) (load 4 (page (sh s)) 0) else AskWrite (m_whom s) (load 4 (page (sh s)) 0) (page (sh s))) ->
  off = (if type =? VIRTIO_BLK_T_IN then 0 else 4) ->
  exists s', (modify (fun s => set_req (m_whom s) type s) ;; touch_page ;;
    sector ← get (fun s => load 4 (page (sh s)) 0); block_cmd 1 type sector (BPage off)) s = Ret tt s' /\ submitted a dk out (n + 1) s'.
Proof.
  intros Ht Hidle Hn Hp Hm Ea Eo. destruct Hidle.
  set (sec := load 4 (page (sh s)) 0) in *. set (t := set_req (m_whom s) type s).
  destruct (block_cmd_ok type sec (BPage off) t Ht) as (d & E & Hd1 & Hd2 & Hd3).
  { intros k Hk. apply (id_free0 k Hk). }
  { apply id_set_up0. }
  eexists. split.
  - rewrite bind_modify. fold t. unfold touch_page. rewrite bind_modify.
    replace (mapped t) with true by (symmetry; exact Hm). rewrite bind_get. exact E.
  - destruct (publish_desc type sec (BPage off) (sh s)) as (P0 & P1 & _ & P3).
    pose proof (publish_chain type sec off (sh s) Ht) as Pc. change (sh t) with (sh s). split.
    + split; apply id_set_up0.
    + by apply publish_ring.
    + lia.
    + exact Hp.
    + exact Hm.
    + rewrite Z.add_simpl_r. etransitivity; [exact Hd2|exact id_seen0].
    + rewrite Z.add_simpl_r. exact id_used0.
    + rewrite Z.add_simpl_r. exact id_last0.
    + etransitivity; [exact Hd3|exact id_pending0].
    + intros k Hk. cbn [occupied set_dv set_sh set_occupied]. unfold three_used.
      assert (forall a b, a <> b -> at2 1 a <> at2 1 b) as Hne by (unfold at2; lia).
      destruct (decide (k = 2)) as [->|]; [by rewrite fn_lookup_insert|]. rewrite fn_lookup_insert_ne by (apply Hne; lia).
      destruct (decide (k = 1)) as [->|]; [by rewrite fn_lookup_insert|]. rewrite fn_lookup_insert_ne by (apply Hne; lia).
      destruct (decide (k = 0)) as [->|]; [by rewrite fn_lookup_insert|]. rewrite fn_lookup_insert_ne by (apply Hne; lia).
      destruct (Z.ltb_spec k 3); [lia|]. apply (id_free0 k Hk).
    + exact id_out0.
    + etransitivity; [exact Hd1|exact id_disk0].
    + unfold describes. cbn [sh set_dv set_sh]. rewrite P0, P1. split; [done|]. split; [done|]. subst a off. by destruct Ht as [->| ->].
    + subst a. by destruct Ht as [->| ->].
Qed.

Lemma main_turn_ok m (s : vdrv D) dk out n : idle dk out n s -> delivered m -> (to_device m = true -> n < MAX_QUEUE_SIZE) -> 0 <= n ->
  exists s', main_turn m s = Ret tt s' /\
    if to_device m then submitted (ask_of m) dk out (n + 1) s' else idle (ask_disk (ask_of m) dk) (out ++ ask_answer (ask_of m) dk) n s'.
Proof.
  intros Hidle Hm Hn H0. unfold to_device in *. destruct m as [r|whom val pm data].
  - cbn in Hm. subst r. exists (set_in_progress false (set_in_progress true s)). split; [done|].
    apply (idle_keep s _ dk out _ n Hidle); [done|done|]. cbn. rewrite app_nil_r. by destruct Hidle.
  - unfold main_turn, ask_of in *. rewrite bind_modify. destruct (Z.leb_spec MAX_VIRTIOREQ val) as [Hv|Hv].
    + destruct (Z.land pm PTE_V =? 0).
      all: eexists; split; [repeat (rewrite bind_modify || rewrite bind_mret); unfold serve; rewrite bind_get; cbn [m_val set_msg set_mapped set_sh set_in_progress];
        destruct (Z.leb_spec MAX_VIRTIOREQ val); [reflexivity|lia]|].
      all: apply (idle_keep s _ dk out _ n Hidle); [done|done|]; cbn; rewrite map_app, (id_out _ _ _ _ Hidle); done.
    + destruct (Z.land pm PTE_V =? 0) eqn:Ep.
      * eexists. split; [rewrite bind_mret, bind_modify; unfold serve; rewrite bind_get; cbn [m_val m_perm set_msg set_in_progress];
          destruct (Z.leb_spec MAX_VIRTIOREQ val); [lia|rewrite Ep; reflexivity]|].
        apply (idle_keep s _ dk out _ n Hidle); [done|done|]; cbn; rewrite map_app, (id_out _ _ _ _ Hidle); done.
      * rewrite !bind_modify. unfold serve. rewrite bind_get. cbn [m_val m_perm set_msg set_mapped set_sh set_in_progress].
        destruct (Z.leb_spec MAX_VIRTIOREQ val); [lia|]. rewrite Ep.
        destruct (Z.eqb_spec val VIRTIOREQ_READ) as [->|Hw].
        -- apply (submit_ok VIRTIO_BLK_T_IN 0); try done; [by left|by apply (idle_keep s _ dk out _ n Hidle); [..|by destruct Hidle]|split; [done|by apply Hn]].
        -- apply (submit_ok VIRTIO_BLK_T_OUT 4); try done; [by right|by apply (idle_keep s _ dk out _ n Hidle); [..|by destruct Hidle]|split; [done|by apply Hn]].
Qed.
(** ** The device *)

Lemma chain_same dev m m' head h off st w : desc m' = desc m -> chain dev m head h off st w -> chain dev m' head h off st w.
Proof. intros E [H1 H2 H3]. split; by rewrite E. Qed.

Lemma read_into_sector sector dk page : map (read_into 0 sector dk page) (seqZ 0 SECTOR_SIZE) = sector_of dk sector.
Proof.
  unfold sector_of. apply map_ext_in. intros k Hk. apply list_elem_of_In, elem_of_seqZ in Hk. unfold read_into, SECTOR_SIZE in *.
  destruct (Z.leb_spec 0 k), (Z.ltb_spec k (0 + 512)); try lia. cbn [andb]. f_equal. lia.
Qed.

Lemma device_turn_ok a (s : vdrv D) dk out n : submitted a dk out n s -> completed a dk out n (device_turn s).
Proof.
  intros []. destruct sb_set_up0 as [S1 S2 S3], sb_ring0 as [R1 R2]. unfold MAX_QUEUE_SIZE in *.
  assert (avail (sh s) (avail_ring 1 (avail_seen (dv s) mod queue_size s 1)) = 0) as Hhead.
  { apply R2. rewrite sb_seen0. pose proof (Z.mod_pos_bound (n - 1) (queue_size s 1) ltac:(lia)).
    pose proof (Z.mod_le (n - 1) (queue_size s 1) ltac:(lia) ltac:(lia)). lia. }
  assert (avail_seen (dv s) <> avail (sh s) (avail_idx 1)) as Hnew by lia.
  assert (u16 (n - 1 + 1) = n) as Hn by (unfold u16; rewrite Z.mod_small; lia).
  unfold device_turn. destruct a as [| |whom sector|whom sector data]; try (by destruct sb_request0 as (_ & _ & [])).
  - destruct sb_request0 as (Hn1 & Hn2 & Hw & Hty & Hch & Hreq).
    destruct (take_read 1 (queue_size s 1) (dv s) (sh s) (at2 1 0) 0 (at2 1 2) Hnew) as (d & E & Hd & Hs & Hp).
    { by rewrite Hhead. } { by rewrite Hreq. }
    rewrite E, Hhead, Hreq. split; cbn; try done; try congruence.
    + rewrite fn_lookup_insert. congruence.
    + rewrite sb_used0. by rewrite fn_lookup_insert.
    + split; [done|]. split; [done|]. split; [done|]. split; [done|]. split; [|done]. eapply chain_same; [|exact Hch]. done.
    + rewrite sb_disk0. apply read_into_sector.
  - destruct sb_request0 as (Hn1 & Hn2 & Hw & Hty & Hch & Hreq).
    destruct (take_write 1 (queue_size s 1) (dv s) (sh s) (at2 1 0) 4 (at2 1 2) Hnew) as (d & E & Hd & Hs & Hp).
    { by rewrite Hhead. } { by rewrite Hreq. }
    rewrite E, Hhead. split; cbn; try done; try congruence.
    + rewrite fn_lookup_insert. congruence.
    + rewrite Hd, Hreq, sb_page0, sb_disk0. done.
    + rewrite sb_used0. by rewrite fn_lookup_insert.
    + split; [done|]. split; [done|]. split; [done|]. split; [done|]. split; [|done]. eapply chain_same; [|exact Hch]. done.
Qed.

(** ** The interrupt handler *)

Lemma bit0 v : Z.land (Z.shiftr v VIRTIO_BLK_INTERRUPT_STATUS_USED_BUFFER_OFFSET) 1 = Z.land v 1.
Proof. unfold VIRTIO_BLK_INTERRUPT_STATUS_USED_BUFFER_OFFSET. by rewrite Z.shiftr_0_r. Qed.

(** The device raised nothing: the handler leaves everything alone. *)
Lemma interrupt_quiet (s : vdrv D) : set_up s -> pending (dv s) = false ->
  exists d, handle_interrupt s = Ret tt (set_dv d s) /\
    disk d = disk (dv s) /\ avail_seen d = avail_seen (dv s) /\ pending d = false.
Proof.
  intros [S1 S2 S3] Hp. destruct (status_register (dv s)) as (v & d1 & E1 & A1 & A2 & A3 & A4).
  destruct (ack_register d1 (u32 v)) as (d2 & E2 & B1 & B2 & B3). exists d2.
  assert (Z.land (u32 v) 1 = 0) as Hv by (destruct (Z.eq_dec (Z.land (u32 v) 1) 0) as [|Hne]; [done|apply A4 in Hne; congruence]).
  split; [|split; [congruence|split; [congruence|]]].
  - unfold handle_interrupt. rewrite bind_get, S2. unfold handle_block_interrupt. rewrite bind_get, S1.
    rewrite (bind_ret _ _ s (u32 v) (set_dv d1 s)) by (unfold read_virtio_dev_4b_unwrap; by rewrite E1).
    rewrite bit0, Hv. change (negb (0 =? 0)) with false. cbv iota. rewrite bind_mret.
    unfold write_virtio_dev_4b_unwrap. cbn [dv set_dv]. by rewrite E2.
  - destruct (pending d2); [|done]. destruct B3 as [B3 _]. specialize (B3 eq_refl). destruct B3; congruence.
Qed.

Lemma idle_quiet dk out n (s : vdrv D) d : idle dk out n s -> disk d = disk (dv s) -> avail_seen d = avail_seen (dv s) -> pending d = false ->
  idle dk out n (set_dv d s).
Proof. intros [[] []] E1 E2 E3. by split; cbn; try congruence. Qed.

Lemma submitted_quiet a dk out n (s : vdrv D) d : submitted a dk out n s -> disk d = disk (dv s) -> avail_seen d = avail_seen (dv s) ->
  pending d = false -> submitted a dk out n (set_dv d s).
Proof. intros [[] []] E1 E2 E3. by split; cbn; try congruence. Qed.
(** The chain of descriptors 0, 1 and 2 is accepted and freed. *)
Definition three_free (o : Z -> bool) : Z -> bool := <[at2 1 2 := false]> (<[at2 1 1 := false]> (<[at2 1 0 := false]> o)).

Lemma handle_used_ok (s : vdrv D) uidx h off st w : used_id (sh s) (at2 1 (uidx mod queue_size s 1)) = 0 ->
  d_next (desc (sh s) (at2 1 0)) = 1 -> d_next (desc (sh s) (at2 1 1)) = 2 -> chain 1 (sh s) 0 h off st w ->
  handle_used 1 uidx s = Ret true (set_occupied (three_free (occupied s)) s).
Proof.
  intros Hid N1 N2 [C1 C2 C3]. cbv zeta in *. rewrite N1 in C2, C3. rewrite N2 in C3.
  destruct C1 as (_ & L1 & F1), C2 as (_ & L2 & F2 & _), C3 as (_ & L3 & _).
  apply Z.eqb_neq in F1, F2. apply Z.eqb_eq in L1, L2, L3.
  unfold handle_used. rewrite bind_get. cbv zeta. rewrite Hid. change (u16 0) with 0.
  rewrite F1, N1, F2, N2, L1, L2, L3. cbn [negb]. reflexivity.
Qed.

Lemma three_free_ok (o : Z -> bool) : (forall k, 0 <= k < MAX_QUEUE_SIZE -> o (at2 1 k) = true && (k <? 3)) ->
  forall k, 0 <= k < MAX_QUEUE_SIZE -> three_free o (at2 1 k) = false && (k <? 3).
Proof.
  intros Ho k Hk. assert (forall a b, a <> b -> at2 1 a <> at2 1 b) as Hne by (unfold at2; lia). unfold three_free.
  destruct (decide (k = 2)) as [->|]; [by rewrite fn_lookup_insert|]. rewrite fn_lookup_insert_ne by (apply Hne; lia).
  destruct (decide (k = 1)) as [->|]; [by rewrite fn_lookup_insert|]. rewrite fn_lookup_insert_ne by (apply Hne; lia).
  destruct (decide (k = 0)) as [->|]; [by rewrite fn_lookup_insert|]. rewrite fn_lookup_insert_ne by (apply Hne; lia).
  rewrite Ho by done. destruct (Z.ltb_spec k 3); [lia|done].
Qed.

(** The reply a request in progress gets. *)
Lemma notify_sender_ok a dk (s : vdrv D) : in_progress s = true -> mapped s = true -> describes a s ->
  match a with AskRead _ sector => map (page (sh s)) (seqZ 0 SECTOR_SIZE) = sector_of dk sector | _ => True end ->
  exists r, notify_sender true s = Ret tt (set_mapped false (set_in_progress false (pop_send (add_reply r s)))) /\
    [answer_of r] = ask_answer a dk.
Proof.
  intros Hp Hm (_ & _ & Hd) Hpg. unfold notify_sender. rewrite bind_get, Hp. cbn [negb]. unfold touch_page.
  destruct a as [| |whom sector|whom sector data]; [done|done| |]; destruct Hd as (Hw & Hty & _ & _).
  - exists (Reply whom VIRTIOREQ_SUCCESS (Some (page (sh s))) (sends s 0)). split.
    + rewrite bind_modify, Hm, bind_get, Hty. change (VIRTIO_BLK_T_IN =? VIRTIO_BLK_T_IN) with true. cbv iota.
      unfold try_reply. rewrite !bind_modify, Hw. reflexivity.
    + unfold answer_of. cbn. by rewrite Hpg.
  - exists (Reply whom VIRTIOREQ_SUCCESS None (sends s 0)). split; [|done].
    rewrite bind_modify, Hm, bind_get, Hty. change (VIRTIO_BLK_T_OUT =? VIRTIO_BLK_T_IN) with false.
    change (VIRTIO_BLK_T_OUT =? VIRTIO_BLK_T_OUT) with true. cbv iota. unfold try_reply. rewrite !bind_modify, Hw. reflexivity.
Qed.

Lemma describes_chain a (s : vdrv D) : describes a s -> exists off w, chain 1 (sh s) 0 (at2 1 0) off (at2 1 2) w.
Proof.
  intros (_ & _ & Hd). destruct a as [| |whom sector|whom sector data]; [done|done| |]; destruct Hd as (_ & _ & Hc & _).
  - by exists 0, true.
  - by exists 4, false.
Qed.

Lemma interrupt_done a (s : vdrv D) dk out n : completed a dk out n s ->
  exists s', handle_interrupt s = Ret tt s' /\ idle (ask_disk a dk) (out ++ ask_answer a dk) n s'.
Proof.
  intros [[S1 S2 S3] Hring Hcount Hprog Hmap Hseen Hused Hlast Hpend Huse Hout Hdisk Hid Hreq Hpage].
  destruct (status_register (dv s)) as (v & d1 & E1 & A1 & A2 & A3 & A4).
  destruct (ack_register d1 (u32 v)) as (d2 & E2 & B1 & B2 & B3).
  assert (Z.land (u32 v) 1 <> 0) as Hv by (by apply A4). pose proof (proj2 (Z.eqb_neq _ _) Hv) as Hv'.
  destruct (describes_chain a s Hreq) as (off & w & Hch).
  set (s1 := set_dv d1 s). set (s2 := set_occupied (three_free (occupied s)) s1).
  assert (used_loop (Z.to_nat (n - (n - 1))) 1 (n - 1) true s1 = Ret true s2) as El.
  { replace (Z.to_nat (n - (n - 1))) with 1%nat by lia. cbn [used_loop].
    rewrite (bind_ret _ _ _ _ _ (handle_used_ok s1 (n - 1) (at2 1 0) off (at2 1 2) w Hid (proj1 Hreq) (proj1 (proj2 Hreq)) Hch)). done. }
  set (s3 := set_last_seen (<[1 := n]> (last_seen s2)) s2).
  destruct (notify_sender_ok a dk s3 Hprog Hmap Hreq Hpage) as (r & En & Er).
  set (s4 := set_mapped false (set_in_progress false (pop_send (add_reply r s3)))) in *.
  exists (set_dv d2 s4). split.
  - unfold handle_interrupt. rewrite bind_get, S2. unfold handle_block_interrupt. rewrite bind_get, S1.
    rewrite (bind_ret _ _ s (u32 v) s1) by (unfold read_virtio_dev_4b_unwrap; by rewrite E1).
    rewrite bit0, Hv'. cbn [negb]. rewrite (bind_ret _ _ s1 tt s4).
    + unfold write_virtio_dev_4b_unwrap. change (dv s4) with d1. by rewrite E2.
    + rewrite !bind_get. change (used_idx (sh s1) 1) with (used_idx (sh s) 1). change (last_seen s1 1) with (last_seen s 1).
      rewrite Hused, Hlast. destruct (Z.leb_spec (n - 1) n); [|lia]. rewrite (bind_ret _ _ _ _ _ El), bind_modify. exact En.
  - split.
    + by split.
    + exact Hring.
    + done.
    + cbn. congruence.
    + exact Hused.
    + apply (fn_lookup_insert (last_seen s2) 1 n).
    + cbn. destruct (pending d2); [|done]. destruct B3 as [B3 _]. destruct (B3 eq_refl). contradiction.
    + exact (three_free_ok _ Huse).
    + cbn. rewrite map_app, Hout. by rewrite <- Er.
    + cbn. congruence.
Qed.
(** ** Every reachable state *)

(** Where the system is in its work. *)
Inductive phase (dk0 : Z -> Z) : vsys D -> Prop :=
  | ph_idle s l : idle (disk_spec dk0 l).1 (disk_spec dk0 l).2 (requests l) s -> phase dk0 (VSys s l)
  | ph_submitted s l m : to_device m = true ->
      submitted (ask_of m) (disk_spec dk0 l).1 (disk_spec dk0 l).2 (requests (l ++ [m])) s -> phase dk0 (VSys s (l ++ [m]))
  | ph_completed s l m : to_device m = true ->
      completed (ask_of m) (disk_spec dk0 l).1 (disk_spec dk0 l).2 (requests (l ++ [m])) s -> phase dk0 (VSys s (l ++ [m])).

Lemma idle_snoc dk0 l m n s :
  idle (ask_disk (ask_of m) (disk_spec dk0 l).1) ((disk_spec dk0 l).2 ++ ask_answer (ask_of m) (disk_spec dk0 l).1) n s ->
  n = requests (l ++ [m]) -> phase dk0 (VSys s (l ++ [m])).
Proof.
  intros Hi ->. apply ph_idle. rewrite disk_spec_snoc. by destruct (disk_spec dk0 l) as [dk' out].
Qed.

Lemma phase_main dk0 s l m : phase dk0 (VSys s l) -> in_progress s = false -> delivered m -> requests (l ++ [m]) <= MAX_QUEUE_SIZE ->
  exists s', main_turn m s = Ret tt s' /\ phase dk0 (VSys s' (l ++ [m])).
Proof.
  intros Hph Hp Hm Hn. rewrite requests_snoc in Hn. pose proof (requests_nonneg l). inversion Hph as [s1 l1 Hi|s1 l1 m1 _ Hs|s1 l1 m1 _ Hc]; subst.
  - destruct (main_turn_ok m s _ _ _ Hi Hm) as (s' & E & Hs'); [intros Et; rewrite Et in Hn; lia|done|].
    exists s'. split; [done|]. destruct (to_device m) eqn:Et.
    + apply ph_submitted; [done|]. by rewrite requests_snoc, Et.
    + apply (idle_snoc dk0 l m _ s' Hs'). rewrite requests_snoc, Et. lia.
  - destruct Hs. congruence.
  - destruct Hc. congruence.
Qed.

Lemma phase_interrupt dk0 s l : phase dk0 (VSys s l) -> exists s', handle_interrupt s = Ret tt s' /\ phase dk0 (VSys s' l) /\
  (pending (dv s) = true -> in_progress s' = false).
Proof.
  intros Hph. inversion Hph as [s1 l1 Hi|s1 l1 m1 Ht Hs|s1 l1 m1 Ht Hc]; subst.
  - destruct (interrupt_quiet s (id_set_up _ _ _ _ Hi) (id_pending _ _ _ _ Hi)) as (d & E & H1 & H2 & H3).
    exists (set_dv d s). split; [done|]. split; [by apply ph_idle, idle_quiet|]. intros Hp. destruct Hi. congruence.
  - destruct (interrupt_quiet s (sb_set_up _ _ _ _ _ Hs) (sb_pending _ _ _ _ _ Hs)) as (d & E & H1 & H2 & H3).
    exists (set_dv d s). split; [done|]. split; [by apply ph_submitted, submitted_quiet|]. intros Hp. destruct Hs. congruence.
  - destruct (interrupt_done _ s _ _ _ Hc) as (s' & E & Hi). exists s'. split; [done|]. split; [by apply (idle_snoc dk0 l1 m1 _ s' Hi)|].
    intros _. by destruct Hi.
Qed.

Lemma phase_device dk0 s l : phase dk0 (VSys s l) -> avail_seen (dv s) <> avail (sh s) (avail_idx 1) -> phase dk0 (VSys (device_turn s) l).
Proof.
  intros Hph Hne. inversion Hph as [s1 l1 Hi|s1 l1 m1 Ht Hs|s1 l1 m1 Ht Hc]; subst.
  - destruct Hi as [_ [Hr _] _ Hseen]. congruence.
  - by apply ph_completed, device_turn_ok.
  - destruct Hc as [_ [Hr _] _ _ _ Hseen]. congruence.
Qed.

Lemma requests_grow (x y : vsys D) : vstep x y -> requests (v_log x) <= requests (v_log y).
Proof. intros []; simpl; [|done|done]. rewrite requests_snoc. destruct (to_device m); lia. Qed.

Lemma phase_step dk0 x y : vstep x y -> requests (v_log y) <= MAX_QUEUE_SIZE -> phase dk0 x -> phase dk0 y.
Proof.
  intros [s l m s' Hp Hm E|s l Hne|s l s' E] Hn Hph; simpl in Hn.
  - destruct (phase_main dk0 s l m Hph Hp Hm Hn) as (s2 & E2 & H2). congruence.
  - by apply phase_device.
  - destruct (phase_interrupt dk0 s l Hph) as (s2 & E2 & H2 & _). congruence.
Qed.

Lemma phase_steps dk0 x y : rtc vstep x y -> requests (v_log y) <= MAX_QUEUE_SIZE -> phase dk0 x -> phase dk0 y.
Proof.
  intros Hxy Hn Hph. revert Hn. refine (rtc_ind_r (fun z => requests (v_log z) <= MAX_QUEUE_SIZE -> phase dk0 z) x _ _ y Hxy); [done|].
  intros y1 z _ Hyz IH Hz. apply (phase_step dk0 y1 z Hyz Hz), IH. etransitivity; [by apply requests_grow|done].
Qed.
(** A request in progress: the device's step, if it is still to come, and the
    interrupt. *)
Lemma phase_finishes dk0 s l : phase dk0 (VSys s l) -> in_progress s = true ->
  exists s', rtc vstep (VSys s l) (VSys s' l) /\ idle (disk_spec dk0 l).1 (disk_spec dk0 l).2 (requests l) s'.
Proof.
  assert (forall a l1 m t, a = ask_of m -> completed a (disk_spec dk0 l1).1 (disk_spec dk0 l1).2 (requests (l1 ++ [m])) t ->
    exists s', vstep (VSys t (l1 ++ [m])) (VSys s' (l1 ++ [m])) /\
      idle (disk_spec dk0 (l1 ++ [m])).1 (disk_spec dk0 (l1 ++ [m])).2 (requests (l1 ++ [m])) s') as Hlast.
  { intros a l1 m t -> Hc. destruct (interrupt_done _ t _ _ _ Hc) as (s' & E & Hi). exists s'. split; [by apply v_intr|].
    rewrite disk_spec_snoc. by destruct (disk_spec dk0 l1). }
  intros Hph Hp. inversion Hph as [s1 l1 Hi|s1 l1 m1 Ht Hs|s1 l1 m1 Ht Hc]; subst.
  - destruct Hi. congruence.
  - destruct (Hlast _ l1 m1 (device_turn s) eq_refl (device_turn_ok _ _ _ _ _ Hs)) as (s' & H1 & H2). exists s'. split; [|done].
    eapply rtc_l; [apply v_device|by apply rtc_once]. destruct Hs as [_ [Hr _] _ _ _ Hseen]. lia.
  - destruct (Hlast _ l1 m1 s eq_refl Hc) as (s' & H1 & H2). exists s'. split; [by apply rtc_once|done].
Qed.
End system.
