(* ===== verification/VirtioDisk.v ===== *)
(** The disk driver's properties: its initialisation, the service it gives,
    and a concrete device. *)
From stdpp Require Import relations.
From S2P Require Import Prelude Mem Mmu Virtio VirtioSys.
#[local] Open Scope Z_scope.

(** ** Initialisation, on any device *)

Section init.
Context {D : Type} `{VirtioMmio D}.
Implicit Types s : vdrv D.

Lemma runs_read {A} addr (k : Z -> M (vdrv D) A) s Q P :
  (forall v d, 0 <= v < 2 ^ 32 -> runs (k v (set_dv d s)) Q P) -> (forall d, P (set_dv d s)) ->
  runs ((read_virtio_dev_4b_unwrap addr ≫= k) s) Q P.
Proof.
  intros Hk HP. unfold read_virtio_dev_4b_unwrap, mbind, M_bind. destruct (dev_read addr (dv s)) as [[ret v] d].
  destruct (ret =? 0); [apply Hk|apply HP]. unfold u32. apply Z.mod_pos_bound. lia.
Qed.

Lemma runs_write {A} addr v (k : unit -> M (vdrv D) A) s Q P :
  (forall d, runs (k tt (set_dv d s)) Q P) -> (forall d, P (set_dv d s)) ->
  runs ((write_virtio_dev_4b_unwrap addr v ≫= k) s) Q P.
Proof.
  intros Hk HP. unfold write_virtio_dev_4b_unwrap, mbind, M_bind. destruct (dev_write addr v (dv s)) as [ret d].
  destruct (ret =? 0); [apply Hk|apply HP].
Qed.

(** Only the device and the tables of device [n], which is not in use yet,
    changed. *)
Definition not_added s s' : Prop :=
  block_device_idx s' = block_device_idx s /\ handler s' = handler s /\ interrupts s' = interrupts s /\
  occupied s' = occupied s /\ last_seen s' = last_seen s /\ replies s' = replies s.

(** Device [n] is set up with an empty queue. *)
Definition added (idx code : Z) s s' : Prop :=
  let n := block_device_idx s in
  n <= MAX_BLOCK_DEVICE_COUNT /\ block_device_idx s' = n + 1 /\ to_virtio s' n = idx /\ handler s' = n /\ interrupts s' = interrupts s ++ [(code, n)] /\
  0 <= queue_size s' n <= MAX_QUEUE_SIZE /\ avail (sh s') (avail_idx n) = 0 /\ used_idx (sh s') n = 0 /\
  occupied s' = occupied s /\ (forall j, j <> n + 1 -> last_seen s' j = last_seen s j).

Ltac reg := first [ apply runs_write; [intros ?|intros ?; by split_and!] | apply runs_read; [intros ? ? ?|intros ?; by split_and!] ].

Lemma validate_ok idx a b s Q P :
  (forall ok d, runs (Ret (A := bool) ok (set_dv d s)) Q P) -> (forall d, P (set_dv d s)) ->
  runs (validate_and_ack_feature_first_byte idx a b s) Q P.
Proof.
  intros HQ HP. unfold validate_and_ack_feature_first_byte. rewrite bind_get.
  apply runs_write; [intros d1|done]. apply runs_read; [intros v d2 Hv|intros d2; apply (HP d2)].
  destruct (_ && _).
  - rewrite bind_assoc. apply runs_write; [intros d3|intros d3; apply (HP d3)]. rewrite bind_assoc.
    apply runs_write; [intros d4|intros d4; apply (HP d4)]. unfold virtio_device_features_ok, put_status. rewrite bind_assoc, bind_get.
    apply runs_write; [intros d5; apply (HQ true d5)|intros d5; apply (HP d5)].
  - unfold virtio_device_failed, put_status. rewrite bind_assoc, bind_get.
    apply runs_write; [intros d3; apply (HQ false d3)|intros d3; apply (HP d3)].
Qed.

(** A block device is added exactly when its registers answer as they must;
    otherwise no device is added and no handler is changed. *)
Theorem init_block_device_correct queue_pa idx code s :
  runs (init_block_device queue_pa idx code s)
    (fun ok s' => if (ok : bool) then added idx code s s' else not_added s s') (not_added s).
Proof.
  unfold init_block_device. rewrite bind_get. destruct (Z.ltb_spec MAX_BLOCK_DEVICE_COUNT (block_device_idx s)) as [|Hn]; [by split_and!|].
  unfold virtio_device_driver, put_status. rewrite bind_assoc, bind_get. reg. rewrite bind_get.
  eapply runs_bind; [apply (validate_ok _ _ _ _ (fun _ s' => exists d, s' = set_dv d s))|].
  { intros ok d'. by exists d'. } { intros d'. by split_and!. }
  intros ok s1 (d1 & ->). destruct ok; cbn [negb]; [|by split_and!]. reg. destruct (negb _); [by split_and!|].
  reg. reg. reg. rewrite !bind_modify. unfold on_sh. rewrite !bind_modify. reg.
  destruct (queue_pa (block_device_idx s)) as [[pa1 pa2] pa3]. do 8 reg. reg.
  destruct (negb _); [by split_and!|]. rewrite !bind_modify. unfold init_last_seen_idx. rewrite bind_modify.
  unfold runs, mret, M_ret, added. cbn. unfold MAX_QUEUE_SIZE. rewrite !fn_lookup_insert. split_and!; try done.
  - destruct (Z.ltb_spec v1 512); lia.
  - destruct (Z.ltb_spec v1 512); lia.
  - intros j Hj. by rewrite fn_lookup_insert_ne.
Qed.
End init.

(** ** A device *)

Record demo_disk := DemoDisk { dd_disk : Z -> Z; dd_seen : Z; dd_pending : bool; dd_status : Z }.

Definition demo_base : Z := 0x10001000.

Definition demo_read (addr : Z) (d : demo_disk) : Z * Z * demo_disk :=
  let off := addr - demo_base in
  (0, (if off =? VIRTIO_MAGIC_VALUE then MAGIC_VALUE else if off =? VIRTIO_DEVICE_ID then BLOCK_DEVICE_ID
       else if off =? VIRTIO_QUEUE_SIZE_MAX then 256 else if off =? VIRTIO_STATUS then dd_status d
       else if off =? VIRTIO_INTERRUPT_STATUS then (if dd_pending d then 1 else 0) else 0), d).

Definition demo_write (addr v : Z) (d : demo_disk) : Z * demo_disk :=
  let off := addr - demo_base in
  (0, if off =? VIRTIO_STATUS then DemoDisk (dd_disk d) (dd_seen d) (dd_pending d) v
      else if off =? VIRTIO_INTERRUPT_ACK then DemoDisk (dd_disk d) (dd_seen d) (dd_pending d && (Z.land v 1 =? 0)) (dd_status d)
      else d).

(** The head of the next chain, its request and its buffers. *)
Definition demo_take (dev qs : Z) (d : demo_disk) (m : shared) : demo_disk * shared :=
  let head := avail m (avail_ring dev (dd_seen d mod qs)) in
  let e1 := desc m (at2 dev head) in
  let e2 := desc m (at2 dev (d_next e1)) in
  match d_addr e1, d_addr e2, d_addr (desc m (at2 dev (d_next e2))) with
  | BHeader h, BPage off, BStatus st =>
      let sector := rq_sector (request m h) in
      let d' dk := DemoDisk dk (u16 (dd_seen d + 1)) true (dd_status d) in
      if rq_type (request m h) =? VIRTIO_BLK_T_IN
      then (d' (dd_disk d), finished dev qs head st (set_page (read_into off sector (dd_disk d) (page m)) m))
      else (d' (write_from off sector (page m) (dd_disk d)), finished dev qs head st m)
  | _, _, _ => (d, m)
  end.

#[export] Instance demo_mmio : VirtioMmio demo_disk := {| dev_read := demo_read; dev_write := demo_write |}.

#[export] Program Instance demo_block : BlkDevice demo_disk :=
  {| blk_base := demo_base; disk := dd_disk; avail_seen := dd_seen; pending := dd_pending; take_chain := demo_take |}.
Next Obligation. intros d. exists d. done. Qed.
Next Obligation. intros d. eexists _, d. split; [reflexivity|]. by destruct d as [? ? [] ?]. Qed.
Next Obligation.
  intros d v. exists (DemoDisk (dd_disk d) (dd_seen d) (dd_pending d && (Z.land v 1 =? 0)) (dd_status d)).
  split; [reflexivity|]. split; [done|]. split; [done|]. cbn [dd_pending]. by rewrite andb_true_iff, Z.eqb_eq.
Qed.
Next Obligation.
  intros dev qs d m h off st head Hne [[E1 _] [E2 _] [E3 _]] Hty. unfold demo_take. fold head.
  rewrite E1, E2, E3, Hty. eexists. split; [reflexivity|done].
Qed.
Next Obligation.
  intros dev qs d m h off st head Hne [[E1 _] [E2 _] [E3 _]] Hty. unfold demo_take. fold head.
  rewrite E1, E2, E3, Hty. eexists. split; [reflexivity|done].
Qed.

(** The driver after [main] set up the one device, over static data of
    zeros. *)
Definition zero_shared : shared :=
  Shared (fun _ => Desc NoBuffer 0 0 0) (fun _ => 0) (fun _ => 0) (fun _ => 0) (fun _ => BlkRequest 0 0) (fun _ => 0) (fun _ => 0).
Definition demo_boot (results : nat -> Z) : vdrv demo_disk :=
  Drv (DemoDisk (fun x => x mod 251) 0 false 0) zero_shared (fun _ => 0) 1 (fun _ => 0) (fun _ => 0) (fun _ => false) (fun _ => 0)
    false 0 0 false 0 0 0 results [] 0 [].
Definition demo_driver (results : nat -> Z) : vdrv demo_disk :=
  Drv (DemoDisk (fun x => x mod 251) 0 false VIRTIO_STATUS_DRIVER_OK)
    (set_used_idx (<[1 := 0]> (fun _ => 0)) (set_avail (<[avail_idx 1 := 0]> (<[avail_flags 1 := 0]> (fun _ => 0))) zero_shared))
    (<[0 := demo_base]> (fun _ => 0)) 2 (<[1 := 0]> (fun _ => 0)) (<[1 := 256]> (fun _ => 0)) (fun _ => false)
    (<[2 := 512]> (fun _ => 0)) false 0 0 false 0 0 0 results [] 1 [(5, 1)].

Lemma demo_init results :
  init_devices (fun n => (0x80000000, 0x80010000, 0x80020000)) 0 [DeviceInfo 0 demo_base 5] (demo_boot results) = Ret tt (demo_driver results).
Proof. vm_compute. reflexivity. Qed.

Lemma demo_idle results : idle (fun x => x mod 251) [] 0 (demo_driver results).
Proof.
  split; try reflexivity.
  - split; [reflexivity|reflexivity|]. change (queue_size (demo_driver results) 1) with 256. lia.
  - split; [reflexivity|]. intros j Hj. cbn [sh avail demo_driver set_used_idx set_avail].
    rewrite !fn_lookup_insert_ne; [done|unfold avail_ring, avail_flags, MAX_QUEUE_SIZE in *; lia|unfold avail_ring, avail_idx; lia].
  - intros k Hk. reflexivity.
Qed.

(** ** The properties *)



(** ** Limits of the driver *)

(** The ring's index is not reduced modulo the queue size: request 513 of
    device 1 stores into the structure of device 2. *)
Lemma ring_overflow : avail_ring 1 MAX_QUEUE_SIZE = avail_flags 2.
Proof. reflexivity. Qed.

(** A bad status is not an error: with any status bytes, the chain is taken to
    have succeeded. *)
Lemma status_ignored {D} `{BlkDevice D} (s : vdrv D) uidx h off st w f : used_id (sh s) (at2 1 (uidx mod queue_size s 1)) = 0 ->
  d_next (desc (sh s) (at2 1 0)) = 1 -> d_next (desc (sh s) (at2 1 1)) = 2 -> chain 1 (sh s) 0 h off st w ->
  exists s', handle_used 1 uidx (set_sh (set_status f (sh s)) s) = Ret true s'.
Proof.
  intros H1 H2 H3 Hc. eexists. apply (handle_used_ok (set_sh (set_status f (sh s)) s) uidx h off st w); [done|done|done|].
  eapply chain_same; [|exact Hc]. done.
Qed.

(** When the used index wraps to 0 after 65536 requests, neither loop of the
    handler sees the last chain: nothing is freed, and the success is
    reported all the same. *)
Lemma used_index_wraps {D} `{BlkDevice D} qs (s : vdrv D) : qs <= MAX_QUEUE_SIZE ->
  (b ← used_loop (Z.to_nat (qs - 65535)) 1 65535 true; used_loop (Z.to_nat 0) 1 0 b) s = Ret true s.
Proof. unfold MAX_QUEUE_SIZE. intros Hq. by replace (Z.to_nat (qs - 65535)) with 0%nat by lia. Qed.

(** A reply that the client is not waiting for is dropped: the attempt is
    recorded with its error and the driver goes on. *)
Lemma reply_dropped {D} `{BlkDevice D} (s : vdrv D) val b : exists s', try_reply val b s = Ret tt s' /\
  exists r, replies s' = replies s ++ [r] /\ rp_ret r = sends s 0.
Proof. eexists. split; [reflexivity|]. eexists. split; reflexivity. Qed.

(** ** Concrete runs *)

(** A client writes a sector of 7s to sector 3 and reads it back. *)
Definition demo_log : list message :=
  [Recv 9 VIRTIOREQ_WRITE 7 (store 4 (fun _ => 7) 0 3); RecvError (- E_INTR); Recv 9 VIRTIOREQ_READ 7 (store 4 (fun _ => 0) 0 3)].

Lemma demo_reaches l : Forall delivered l -> requests l <= MAX_QUEUE_SIZE ->
  exists s, rtc vstep (VSys (demo_driver (fun _ => 0)) []) (VSys s l) /\ idle (disk_spec (fun x => x mod 251) l).1 (disk_spec (fun x => x mod 251) l).2 (requests l) s.
Proof.
  induction l as [|m l IH] using rev_ind; intros Hd Hn.
  - exists (demo_driver (fun _ => 0)). split; [done|]. apply demo_idle.
  - apply Forall_app in Hd as [Hd Hm]. inversion_clear Hm as [|? ? Hm1 _]. rewrite requests_snoc in Hn.
    destruct (IH Hd) as (s & Hs & Hi); [destruct (to_device m); lia|].
    destruct (phase_main (fun x => x mod 251) s l m) as (s1 & E1 & Hp1); [by apply ph_idle|exact (id_progress _ _ _ _ Hi)|exact Hm1|rewrite requests_snoc; exact Hn|].
    assert (rtc vstep (VSys (demo_driver (fun _ => 0)) []) (VSys s1 (l ++ [m]))) as H1.
    { eapply rtc_r; [exact Hs|]. apply v_main; [exact (id_progress _ _ _ _ Hi)|exact Hm1|done]. }
    destruct (in_progress s1) eqn:Ep.
    + destruct (phase_finishes _ s1 (l ++ [m]) Hp1 Ep) as (s2 & H2 & Hi2). exists s2. split; [by etransitivity|done].
    + exists s1. split; [done|]. inversion Hp1 as [s' l' Hi'|s' l' m' _ Hs'|s' l' m' _ Hc']; subst; [done|destruct Hs'; congruence|destruct Hc'; congruence].
Qed.

Lemma demo_log_ok : Forall delivered demo_log /\ requests demo_log <= MAX_QUEUE_SIZE.
Proof. split; [repeat constructor|]. vm_compute. discriminate. Qed.


