(* ===== verification/VirtioClient.v ===== *)
(** user/lib/virtio.c: a process asks the disk driver for a sector, and what
    the file server's block layer takes that to do.

    The page at [virtioipcbuf] goes to the driver by reference: the driver and
    the device write the client's page.  [Received] therefore carries the
    contents of that page when [ipc_recv] returns, with its result and the
    value received. *)
From S2P Require Import Prelude Mem Mmu Proc FsBlock Virtio VirtioSys.
#[local] Open Scope Z_scope.

Record received := Received { rv_ret : Z; rv_val : Z; rv_page : Z -> Z }.

(** The client's memory, the page at [virtioipcbuf], the requests it sent and
    what its next calls of [ipc_recv] bring. *)
Record vclient := VClient {
  vc_mem : Z -> Z;
  vc_buf : Z -> Z;
  vc_sent : list (Z * (Z -> Z));
  vc_recv : nat -> received
}.

Definition set_vc_mem x c := VClient x (vc_buf c) (vc_sent c) (vc_recv c).
Definition set_vc_buf x c := VClient (vc_mem c) x (vc_sent c) (vc_recv c).

(** [syscall_ipc_try_send] until the driver takes it; [ipc_send]. *)
Definition send_request (type : Z) : M vclient unit :=
  modify (fun c => VClient (vc_mem c) (vc_buf c) (vc_sent c ++ [(type, vc_buf c)]) (vc_recv c)).

Definition receive_reply : M vclient received :=
  r ← get (fun c => vc_recv c 0);
  modify (fun c => VClient (vc_mem c) (rv_page r) (vc_sent c) (fun n => vc_recv c (S n))) ;;
  mret r.

(** [while (1)]: an interrupted request is sent again.  The value is [false]
    when the fuel runs out. *)
Fixpoint request_loop (fuel : nat) : M vclient bool :=
  match fuel with
  | O => mret false
  | S fuel =>
      send_request VIRTIOREQ_READ ;;
      r ← receive_reply;
      if rv_ret r =? 0 then mret true
      else if rv_ret r =? - E_INTR then request_loop fuel else mret true
  end.

Definition virtio_read_sector (fuel : nat) (sector buf : Z) : M vclient (option Z) :=
  modify (fun c => set_vc_buf (store 4 (vc_buf c) 0 (u32 sector)) c) ;;
  fin ← request_loop fuel;
  if negb fin then mret None
  else
    modify (fun c => set_vc_mem (fun x => if (buf <=? x) && (x <? buf + SECTOR_SIZE) then vc_buf c (x - buf) else vc_mem c x) c) ;;
    mret (Some 0).

Definition virtio_write_sector (sector buf : Z) : M vclient Z :=
  modify (fun c => set_vc_buf (store 4 (vc_buf c) 0 (u32 sector)) c) ;;
  modify (fun c => set_vc_buf (fun x => if (4 <=? x) && (x <? 4 + SECTOR_SIZE) then vc_mem c (buf + (x - 4)) else vc_buf c x) c) ;;
  send_request VIRTIOREQ_WRITE ;;
  r ← receive_reply;
  mret (rv_ret r).

(** The message the driver gets, with the permission the library gives it. *)
Definition to_driver (whom : Z) (q : Z * (Z -> Z)) : message := Recv whom q.1 (Z.lor (Z.lor PTE_V PTE_RW) PTE_USER) q.2.

(** ** Steps *)

Lemma receive_ok c : receive_reply c = Ret (vc_recv c 0) (VClient (vc_mem c) (rv_page (vc_recv c 0)) (vc_sent c) (fun n => vc_recv c (S n))).
Proof. reflexivity. Qed.

(** The request that reads a sector. *)
Definition read_request (sector : Z) (c : vclient) : Z * (Z -> Z) := (VIRTIOREQ_READ, store 4 (vc_buf c) 0 (u32 sector)).

Lemma read_sector_ok fuel sector buf c : rv_ret (vc_recv c 0) = 0 ->
  virtio_read_sector (S fuel) sector buf c = Ret (Some 0)
    (VClient (fun x => if (buf <=? x) && (x <? buf + SECTOR_SIZE) then rv_page (vc_recv c 0) (x - buf) else vc_mem c x)
      (rv_page (vc_recv c 0)) (vc_sent c ++ [read_request sector c]) (fun n => vc_recv c (S n))).
Proof.
  intros Hr. unfold virtio_read_sector. rewrite bind_modify.
  rewrite (bind_ret _ _ _ true (VClient (vc_mem c) (rv_page (vc_recv c 0)) (vc_sent c ++ [read_request sector c]) (fun n => vc_recv c (S n)))); [done|].
  cbn [request_loop]. unfold send_request. rewrite bind_modify, (bind_ret _ _ _ _ _ (receive_ok _)). cbn [vc_recv set_vc_buf]. by rewrite Hr.
Qed.

(** Whatever the driver answered, an error included, the result is 0. *)
Lemma read_reports_success fuel sector buf c : rv_ret (vc_recv c 0) <> - E_INTR ->
  exists c', virtio_read_sector (S fuel) sector buf c = Ret (Some 0) c'.
Proof.
  intros Hr. eexists. unfold virtio_read_sector. rewrite bind_modify.
  rewrite (bind_ret _ _ _ true (VClient (vc_mem c) (rv_page (vc_recv c 0)) (vc_sent c ++ [read_request sector c]) (fun n => vc_recv c (S n)))); [done|].
  cbn [request_loop]. unfold send_request. rewrite bind_modify, (bind_ret _ _ _ _ _ (receive_ok _)). cbn [vc_recv set_vc_buf].
  destruct (_ =? 0); [done|]. by destruct (Z.eqb_spec (rv_ret (vc_recv c 0)) (- E_INTR)).
Qed.

(** A request that is sent again after an interruption takes its sector from
    the page as it is then, which the device may have written over. *)
Lemma retry_sector sector buf c : rv_ret (vc_recv c 0) = - E_INTR -> rv_ret (vc_recv c 1) = 0 ->
  exists c', virtio_read_sector 2 sector buf c = Ret (Some 0) c' /\
    vc_sent c' = vc_sent c ++ [read_request sector c; (VIRTIOREQ_READ, rv_page (vc_recv c 0))].
Proof.
  intros H0 H1. eexists. split.
  - unfold virtio_read_sector. rewrite bind_modify.
    rewrite (bind_ret _ _ _ true (VClient (vc_mem c) (rv_page (vc_recv c 1))
      ((vc_sent c ++ [read_request sector c]) ++ [(VIRTIOREQ_READ, rv_page (vc_recv c 0))]) (fun n => vc_recv c (S (S n))))); [reflexivity|].
    cbn [request_loop]. unfold send_request. rewrite bind_modify, (bind_ret _ _ _ _ _ (receive_ok _)). cbn [vc_recv set_vc_buf]. rewrite H0.
    change (- E_INTR =? 0) with false. change (- E_INTR =? - E_INTR) with true. cbv iota.
    rewrite bind_modify, (bind_ret _ _ _ _ _ (receive_ok _)). cbn [vc_recv]. rewrite H1. reflexivity.
  - cbn. by rewrite <- app_assoc.
Qed.

Lemma sector_of_byte page sector dk k : map page (seqZ 0 SECTOR_SIZE) = sector_of dk sector -> 0 <= k < SECTOR_SIZE ->
  page k = dk (sector * SECTOR_SIZE + k).
Proof.
  intros E Hk. unfold sector_of in E. assert (seqZ 0 SECTOR_SIZE !! Z.to_nat k = Some k) as Hl.
  { apply lookup_seqZ. unfold SECTOR_SIZE in *. lia. }
  pose proof (f_equal (fun l => l !! Z.to_nat k) E) as E'. cbv beta in E'. rewrite !list_lookup_fmap, Hl in E'. by injection E'.
Qed.

(** The sector field of a request. *)
Lemma request_sector m sector : 0 <= sector < 2 ^ 32 -> load 4 (store 4 m 0 (u32 sector)) 0 = sector.
Proof. intros Hs. unfold u32. rewrite Z.mod_small by lia. by apply load32_store32_same. Qed.

(** The data of a write request leaves the sector field alone. *)
Definition write_page (sector buf : Z) (c : vclient) : Z -> Z := fun x =>
  if (4 <=? x) && (x <? 4 + SECTOR_SIZE) then vc_mem c (buf + (x - 4)) else store 4 (vc_buf c) 0 (u32 sector) x.

Lemma write_page_sector sector buf c : 0 <= sector < 2 ^ 32 -> load 4 (write_page sector buf c) 0 = sector.
Proof.
  intros Hs. rewrite <- (request_sector (vc_buf c) sector Hs) at 2. apply load_ext. intros x Hx. unfold write_page.
  destruct (Z.leb_spec 4 x); [lia|done].
Qed.

Lemma write_sector_ok sector buf c : virtio_write_sector sector buf c =
  Ret (rv_ret (vc_recv c 0)) (VClient (vc_mem c) (rv_page (vc_recv c 0)) (vc_sent c ++ [(VIRTIOREQ_WRITE, write_page sector buf c)]) (fun n => vc_recv c (S n))).
Proof. reflexivity. Qed.

(** ** The property *)

(** C38: what the block layer takes a sector request to do is what the client's
    request and the driver's service do.  A read sends one message, which asks
    the driver for that sector; when the reply carries it, the call leaves
    memory as [FsBlock.virtio_read_sector] does.  A write sends one message,
    whose effect on the specification's disk is that of
    [FsBlock.virtio_write_sector] on the block layer's. *)
Theorem sector_requests_mean (c : vclient) (sector buf whom : Z) (f : fs) (Hs : 0 <= sector < 2 ^ 32)
    (Hmem : meq (u_mem (f_proc f)) (vc_mem c)) (Hmap : is_mapped buf f = true) :
  (forall fuel, rv_ret (vc_recv c 0) = 0 -> map (rv_page (vc_recv c 0)) (seqZ 0 SECTOR_SIZE) = sector_of (FsBlock.disk f) sector ->
    exists c' q f', virtio_read_sector (S fuel) sector buf c = Ret (Some 0) c' /\ vc_sent c' = vc_sent c ++ [q] /\
      ask_of (to_driver whom q) = AskRead whom sector /\
      FsBlock.virtio_read_sector sector buf f = Ret tt f' /\ meq (u_mem (f_proc f')) (vc_mem c')) /\
  (exists c' q f', virtio_write_sector sector buf c = Ret (rv_ret (vc_recv c 0)) c' /\ vc_sent c' = vc_sent c ++ [q] /\
    ask_of (to_driver whom q) = AskWrite whom sector q.2 /\
    FsBlock.virtio_write_sector sector buf f = Ret tt f' /\
    meq (FsBlock.disk f') (ask_disk (ask_of (to_driver whom q)) (FsBlock.disk f))).
Proof.
  split.
  - intros fuel Hr Hp. do 3 eexists. split; [by apply read_sector_ok|]. split; [done|]. split.
    + unfold ask_of, to_driver, read_request. cbn [fst snd]. change (MAX_VIRTIOREQ <=? VIRTIOREQ_READ) with false. cbv iota.
      rewrite request_sector by done. reflexivity.
    + unfold FsBlock.virtio_read_sector. rewrite (bind_ret _ _ _ _ _ (touch_ok buf f Hmap)). split; [reflexivity|].
      intros x. cbn. change SECT_SIZE with SECTOR_SIZE.
      destruct (Z.leb_spec buf x), (Z.ltb_spec x (buf + SECTOR_SIZE)); cbn [andb]; try apply Hmem.
      symmetry. apply (sector_of_byte _ sector); [done|lia].
  - do 3 eexists. split; [apply write_sector_ok|]. split; [done|]. assert (ask_of (to_driver whom (VIRTIOREQ_WRITE, write_page sector buf c)) =
      AskWrite whom sector (write_page sector buf c)) as ->.
    { unfold ask_of, to_driver. cbn [fst snd]. change (MAX_VIRTIOREQ <=? VIRTIOREQ_WRITE) with false. cbv iota.
      rewrite write_page_sector by done. reflexivity. }
    split; [done|]. unfold FsBlock.virtio_write_sector. rewrite (bind_ret _ _ _ _ _ (touch_ok buf f Hmap)). split; [reflexivity|].
    intros x. cbn [ask_disk]. unfold write_from, write_page. cbn. change SECT_SIZE with SECTOR_SIZE.
    destruct (Z.leb_spec (sector * SECTOR_SIZE) x), (Z.ltb_spec x (sector * SECTOR_SIZE + SECTOR_SIZE)); cbn [andb]; try done.
    destruct (Z.leb_spec 4 (4 + (x - sector * SECTOR_SIZE))), (Z.ltb_spec (4 + (x - sector * SECTOR_SIZE)) (4 + SECTOR_SIZE)); try lia.
    cbn [andb]. rewrite Hmem. f_equal. lia.
Qed.

Definition demo_fs_sector : fs := Fs (Proc (fun x => x mod 5) (fun _ => true) (fun _ => false) (fun _ => true)) (fun x => x mod 3) 0 0.

Lemma sector_requests_mean_witness : exists c', virtio_write_sector 2 8192 (VClient (fun x => x mod 5) (fun _ => 0) [] (fun _ => Received 0 0 (fun _ => 0))) = Ret 0 c' /\
  map (fun q => ask_disk (ask_of (to_driver 9 q)) (fun x => x mod 3) (1024 + 7)) (vc_sent c') = [4].
Proof.
  destruct (sector_requests_mean (VClient (fun x => x mod 5) (fun _ => 0) [] (fun _ => Received 0 0 (fun _ => 0))) 2 8192 9 demo_fs_sector) as [_ H];
    [lia|intros x; reflexivity|reflexivity|].
  destruct H as (c' & q & f' & E & Eq & _ & Ef & Hm). exists c'. split; [exact E|]. rewrite Eq.
  change (map ?f (vc_sent ?c ++ [q])) with [f q]. apply (f_equal (fun z => [z])). etransitivity; [symmetry; exact (Hm (1024 + 7))|].
  assert (match FsBlock.virtio_write_sector 2 8192 demo_fs_sector with Ret _ f => FsBlock.disk f (1024 + 7) | _ => 0 end = 4) as Er by (vm_compute; reflexivity).
  rewrite Ef in Er. exact Er.
Defined.
