(* ===== verification/FsImage.v ===== *)
(** File trees on a disk: what it means that a [struct File] and the blocks it
    owns hold a file or a directory.  The builder of the image establishes it
    and the file server relies on it. *)
From S2P Require Import Prelude Mem FsBlock FsFile.

(** ** File trees *)

Inductive node : Type :=
  | NFile (nm bytes : list Z)
  | NDir (nm : list Z) (kids : list node).

Lemma node_ind' (P : node -> Prop) :
  (forall nm bytes, P (NFile nm bytes)) ->
  (forall nm kids, Forall P kids -> P (NDir nm kids)) -> forall t, P t.
Proof.
  intros Hf Hd. fix IH 1. intros [nm bytes|nm kids]; [apply Hf|]. apply Hd.
  induction kids as [|k kids IHk]; constructor; [apply IH|exact IHk].
Qed.

Definition node_name (t : node) : list Z := match t with NFile nm _ | NDir nm _ => nm end.

(** ** The blocks of a file or directory *)

Definition blk (x : Z) : Z := x / BLOCK_SIZE.

(** The names a directory can hold. *)
Definition name_ok (nm : list Z) : Prop :=
  nm <> [] /\ Forall (fun c => 0 < c < 256) nm /\ Z.of_nat (length nm) < MAXNAMELEN.

(** The string [nm] is at [a]. *)
Definition name_at (m : memory) (a : Z) (nm : list Z) : Prop :=
  forall i c, (nm ++ [0]) !! i = Some c -> m (a + Z.of_nat i) = c.

(** The file at [a] has the blocks [bs] and the indirect block [ind], 0 when
    it needs none. *)
Record slots (m : memory) (a : Z) (bs : list Z) (ind : Z) : Prop := {
  sl_ind : load 4 m (a + off_indirect) = ind;
  sl_len : Z.of_nat (length bs) <= NINDIRECT;
  sl_has : NDIRECT < Z.of_nat (length bs) <-> ind <> 0;
  sl_slot : forall i b, bs !! i = Some b ->
    load 4 m (if Z.of_nat i <? NDIRECT then a + off_direct + 4 * Z.of_nat i
              else ind * BLOCK_SIZE + 4 * Z.of_nat i) = b
}.

Definition own (bs : list Z) (ind : Z) : list Z := bs ++ (if ind =? 0 then [] else [ind]).

(** The bytes of a file, block after block. *)
Definition content (m : memory) (bs bytes : list Z) : Prop :=
  forall i c, bytes !! i = Some c ->
    exists b, bs !! (i / 4096)%nat = Some b /\ m (b * BLOCK_SIZE + Z.of_nat (i mod 4096)) = c.

(** The address of entry [i] of a directory. *)
Definition place (bs : list Z) (i : nat) : Z :=
  nth (i / 16) bs 0 * BLOCK_SIZE + FILE_STRUCT_SIZE * Z.of_nat (i mod 16).

(** The part of an entry that the disk has a use for; [f_dir] is after it. *)
Definition ENTRY : Z := 180.
Ltac ioffs := unfold ENTRY in *; offs.

Definition blank (m : memory) (a : Z) : Prop := forall j, 0 <= j < ENTRY -> m (a + j) = 0.

(** Blocks for [n] units of [k] to a block. *)
Definition ceil (n k : nat) : nat := ((n + k - 1) / k)%nat.

Inductive holds (m : memory) : Z -> node -> list Z -> Prop :=
  | holds_file a nm bytes bs ind :
      name_ok nm -> name_at m a nm ->
      load 4 m (a + off_size) = Z.of_nat (length bytes) ->
      load 4 m (a + off_type) = FTYPE_REG ->
      slots m a bs ind -> length bs = ceil (length bytes) 4096 -> content m bs bytes ->
      holds m a (NFile nm bytes) (own bs ind)
  | holds_dir a nm kids bs ind us :
      name_ok nm -> name_at m a nm ->
      load 4 m (a + off_size) = BLOCK_SIZE * Z.of_nat (length bs) ->
      load 4 m (a + off_type) = FTYPE_DIR ->
      slots m a bs ind -> length bs = ceil (length kids) 16 ->
      length us = length kids ->
      (forall i k u, kids !! i = Some k -> us !! i = Some u -> holds m (place bs i) k u) ->
      (forall i, (length kids <= i < 16 * length bs)%nat -> blank m (place bs i)) ->
      holds m a (NDir nm kids) (own bs ind ++ concat us).

(** The part of [holds_dir] that is about the entries. *)
Record entries (m : memory) (a : Z) (kids : list node) (bs : list Z) (ind : Z) (us : list (list Z)) : Prop := {
  en_size : load 4 m (a + off_size) = BLOCK_SIZE * Z.of_nat (length bs);
  en_slots : slots m a bs ind;
  en_room : (length kids <= 16 * length bs)%nat;
  en_len : length us = length kids;
  en_kids : forall i k u, kids !! i = Some k -> us !! i = Some u -> holds m (place bs i) k u;
  en_blank : forall i, (length kids <= i < 16 * length bs)%nat -> blank m (place bs i)
}.

Lemma ceil_room n : (n <= 16 * ceil n 16)%nat.
Proof. unfold ceil. pose proof (Nat.div_mod_eq (n + 16 - 1) 16). pose proof (Nat.mod_upper_bound (n + 16 - 1) 16). lia. Qed.

Lemma holds_dir_entries m a nm kids u : holds m a (NDir nm kids) u ->
  name_ok nm /\ name_at m a nm /\ load 4 m (a + off_type) = FTYPE_DIR /\
  exists bs ind us, u = own bs ind ++ concat us /\ length bs = ceil (length kids) 16 /\
    entries m a kids bs ind us.
Proof.
  inversion 1; subst. split_and!; try done. exists bs, ind, us. split_and!; try done.
  split; try done. replace (length bs) with (ceil (length kids) 16) by done. apply ceil_room.
Qed.

Lemma entries_holds m a nm kids bs ind us :
  name_ok nm -> name_at m a nm -> load 4 m (a + off_type) = FTYPE_DIR ->
  length bs = ceil (length kids) 16 -> entries m a kids bs ind us ->
  holds m a (NDir nm kids) (own bs ind ++ concat us).
Proof. intros H1 H2 H3 H4 []. by constructor. Qed.

Lemma holds_name m a t u : holds m a t u -> name_ok (node_name t) /\ name_at m a (node_name t).
Proof. by inversion 1. Qed.

(** The first byte of an entry in use is not zero. *)
Lemma name_at_first m a nm : name_ok nm -> name_at m a nm -> 0 < m a < 256.
Proof.
  intros (Hne & Hf & _) Hn. destruct nm as [|c nm]; [done|].
  specialize (Hn 0%nat c eq_refl). rewrite Z.add_0_r in Hn. rewrite Hn. by inversion Hf.
Qed.

(** ** Frames *)

Lemma load_move k m m' a a' :
  (forall i, 0 <= i < Z.of_nat k -> m' (a' + i) = m (a + i)) -> load k m' a' = load k m a.
Proof.
  intros H. rewrite <- (Z.add_0_r a'), <- (Z.add_0_r a), <- !load_shift. apply load_ext. intros x Hx. apply H. lia.
Qed.

Lemma in_block b o : 0 <= o < BLOCK_SIZE -> blk (b * BLOCK_SIZE + o) = b.
Proof. intros Ho. unfold blk, BLOCK_SIZE in *. rewrite Z.div_add_l, Z.div_small by lia. lia. Qed.

Lemma own_in bs ind b : b ∈ own bs ind <-> b ∈ bs \/ (ind <> 0 /\ b = ind).
Proof.
  unfold own. rewrite elem_of_app. destruct (Z.eqb_spec ind 0); rewrite ?elem_of_nil, ?list_elem_of_singleton; naive_solver.
Qed.

Lemma own_nil : own [] 0 = [].
Proof. done. Qed.

Section move.
Context (m m' : memory) (a a' : Z).
Hypothesis (Hhead : forall i, 0 <= i < ENTRY -> m' (a' + i) = m (a + i)).

Lemma field_move o : 0 <= o -> o + 4 <= ENTRY -> load 4 m' (a' + o) = load 4 m (a + o).
Proof. intros Ho Ho'. apply load_move. intros i Hi. rewrite <- !Z.add_assoc. apply Hhead. lia. Qed.

Lemma name_at_move nm : name_ok nm -> name_at m a nm -> name_at m' a' nm.
Proof.
  intros (_ & _ & Hl) Hn i c Hi. rewrite Hhead; [by apply Hn|].
  apply lookup_lt_Some in Hi. rewrite length_app in Hi. simpl in Hi. unfold MAXNAMELEN, ENTRY in *. lia.
Qed.

Lemma slots_move bs ind : slots m a bs ind -> (forall x, ind <> 0 -> blk x = ind -> m' x = m x) ->
  slots m' a' bs ind.
Proof.
  intros [H1 H2 H3 H4] Hx. split; try done.
  - by rewrite field_move.
  - intros i b Hi. rewrite <- (H4 i b Hi). pose proof (lookup_lt_Some _ _ _ Hi).
    destruct (Z.ltb_spec (Z.of_nat i) NDIRECT) as [Hd|Hd].
    + rewrite <- !Z.add_assoc. apply field_move; ioffs; lia.
    + apply load_ext. intros x Hx'. apply Hx; [apply H3; lia|]. replace x with (ind * BLOCK_SIZE + (x - ind * BLOCK_SIZE)) by lia.
      apply in_block. unfold NINDIRECT in *. change (BLOCK_SIZE / 4) with 1024 in *. change BLOCK_SIZE with 4096 in *. lia.
Qed.
End move.

Lemma content_frame m m' bs bytes : content m bs bytes ->
  (forall x, blk x ∈ bs -> m' x = m x) -> content m' bs bytes.
Proof.
  intros Hc Hx i c Hi. destruct (Hc i c Hi) as (b & Hb & <-). exists b. split; [done|]. apply Hx.
  rewrite in_block; [by eapply list_elem_of_lookup_2|]. pose proof (Nat.mod_upper_bound i 4096). unfold BLOCK_SIZE. lia.
Qed.

Lemma place_nth bs i : (i < 16 * length bs)%nat -> exists b, bs !! (i / 16)%nat = Some b /\
  place bs i = b * BLOCK_SIZE + FILE_STRUCT_SIZE * Z.of_nat (i mod 16).
Proof.
  intros Hi. assert (i / 16 < length bs)%nat as Hl by (apply Nat.Div0.div_lt_upper_bound; lia).
  destruct (lookup_lt_is_Some_2 bs _ Hl) as (b & Hb). exists b. split; [done|].
  unfold place. rewrite (nth_lookup_Some _ _ _ _ Hb). done.
Qed.

Lemma place_offset i : 0 <= FILE_STRUCT_SIZE * Z.of_nat (i mod 16) <= BLOCK_SIZE - FILE_STRUCT_SIZE.
Proof. pose proof (Nat.mod_upper_bound i 16). unfold FILE_STRUCT_SIZE, BLOCK_SIZE. lia. Qed.

Lemma place_blk bs i j : (i < 16 * length bs)%nat -> 0 <= j < FILE_STRUCT_SIZE -> blk (place bs i + j) ∈ bs.
Proof.
  intros Hi Hj. destruct (place_nth bs i Hi) as (b & Hb & ->). pose proof (place_offset i).
  rewrite <- Z.add_assoc, in_block by lia. by eapply list_elem_of_lookup_2.
Qed.

(** An entry and the blocks it owns, elsewhere or later. *)
Lemma holds_move m m' t : forall a a' u, holds m a t u ->
  (forall i, 0 <= i < ENTRY -> m' (a' + i) = m (a + i)) ->
  (forall x, blk x ∈ u -> m' x = m x) -> holds m' a' t u.
Proof.
  induction t as [nm bytes|nm kids IH] using node_ind'; intros a a' u Hh Hhead Hx; inversion Hh; subst.
  - constructor; try done.
    + by apply (name_at_move m m' a a').
    + by rewrite (field_move m m' a a').
    + by rewrite (field_move m m' a a').
    + apply (slots_move m m' a a'); [done..|]. intros x H0 E. apply Hx, own_in. by right.
    + eapply content_frame; [done|]. intros x Hb. apply Hx, own_in. by left.
  - constructor; try done.
    + by apply (name_at_move m m' a a').
    + by rewrite (field_move m m' a a').
    + by rewrite (field_move m m' a a').
    + apply (slots_move m m' a a'); [done..|]. intros x H0 E. apply Hx, elem_of_app. left. apply own_in. by right.
    + intros i k u Hk Hu. pose proof (lookup_lt_Some _ _ _ Hk).
      pose proof (ceil_room (length kids)).
      rewrite Forall_lookup in IH. eapply (IH i k Hk); [eauto| |].
      * intros j Hj. apply Hx, elem_of_app. left. apply own_in. left. apply place_blk; [lia|].
        unfold ENTRY, FILE_STRUCT_SIZE in *. lia.
      * intros x Hb. apply Hx, elem_of_app. right. apply list_elem_of_In, in_concat.
        exists u. split; [apply list_elem_of_In; by eapply list_elem_of_lookup_2|by apply list_elem_of_In].
    + intros i Hi j Hj. rewrite Hx; [unfold blank in *; by eauto|].
      apply elem_of_app. left. apply own_in. left. apply place_blk; [lia|].
      unfold ENTRY, FILE_STRUCT_SIZE in *. lia.
Qed.

Lemma holds_frame m m' a t u : holds m a t u ->
  (forall i, 0 <= i < ENTRY -> m' (a + i) = m (a + i)) ->
  (forall x, blk x ∈ u -> m' x = m x) -> holds m' a t u.
Proof. apply holds_move. Qed.

(** ** A disk image

    The first [n] of the disk's [size] blocks are in use: the super block and
    the bitmap say so, and the root directory, in the super block, holds the
    files and directories [ts] in exactly the blocks from 3 to [n]. *)
Record disk_image (d : memory) (size n : Z) (ts : list node) : Prop := {
  di_range : 3 <= n <= size;
  di_magic : load 4 d BLOCK_SIZE = FS_MAGIC;
  di_nblocks : load 4 d (BLOCK_SIZE + 4) = size;
  di_bitmap : forall b, 0 <= b < BLOCK_SIZE_BIT ->
    Z.testbit (load 4 d (2 * BLOCK_SIZE + 4 * (b / 32))) (b mod 32) = (n <=? b) && (b <? size);
  di_root : exists u, holds d (BLOCK_SIZE + 8) (NDir [47] ts) u /\ u ≡ₚ seqZ 3 (n - 3)
}.
