(* ===== verification/Fsformat.v ===== *)
(** tools/fsformat.c, the program that builds the disk image of the file server
    out of files and directories of the machine it is built on.

    The host's files are a parameter, the functions its system calls compute.
    The program's memory holds the data of the 1024 blocks of the array [disk]
    one after the other, block [b] at [b * 4096], and after them the global
    [super]; the types of the blocks are apart.  A [struct File *] is its
    address.  The program stops at [exit], at a failed assertion, or at an
    access outside an array, which C leaves undefined. *)
From S2P Require Import Prelude Mem Mmu Proc FsBlock FsFile.

(** ** The host *)

(** What the program asks of a file: its kind by [stat], the entries of a
    directory in the order of [readdir], the bytes of a file it can open, and
    whether a file can be created and written. *)
Inductive mode := S_IFDIR | S_IFREG | S_IFOTHER.
Record dirent := Dirent { d_name : list Z; is_dir : bool }.
Record host := Host {
  h_stat : list Z -> option mode;
  h_opendir : list Z -> option (list dirent);
  h_open : list Z -> option (list Z);
  h_creat : list Z -> bool
}.

(** [strrchr(path, '/')], then what follows the slash, or the whole path. *)
Fixpoint after_slash (path : list Z) : option (list Z) :=
  match path with
  | [] => None
  | c :: p =>
      match after_slash p with
      | Some r => Some r
      | None => if c =? 47 then Some p else None
      end
  end.
Definition fname (path : list Z) : list Z := default path (after_slash path).

(** [basename(path)] of <libgen.h>: trailing slashes are cut off the path,
    and the name is what follows the last slash.  The name and the path after
    the call. *)
Definition strip_slashes (path : list Z) : list Z := rev (skip_slash (rev path)).
Definition basename (path : list Z) : list Z * list Z :=
  match path, strip_slashes path with
  | [], _ => ([46], path)
  | _, [] => ([47], path)
  | _, p => (fname p, p)
  end.

(** ** The state *)

Definition NBLOCK : Z := 1024.
(** The global [super], and its root directory. *)
Definition SUPER : Z := NBLOCK * BLOCK_SIZE.
Definition ROOT : Z := SUPER + 8.
Definition sizeof_Super : Z := 8 + FILE_STRUCT_SIZE.

Definition BLOCK_FREE : Z := 0.
Definition BLOCK_BOOT : Z := 1.
Definition BLOCK_BMAP : Z := 2.
Definition BLOCK_SUPER : Z := 3.
Definition BLOCK_DATA : Z := 4.
Definition BLOCK_FILE : Z := 5.
Definition BLOCK_INDEX : Z := 6.

(** How the program ends before [main] returns. *)
Inductive stop := Exit (code : Z) | Abort | Wild | OutOfFuel.

Record img := Img {
  mem : memory; type : Z -> Z; nbitblock : Z; nextbno : Z; stopped : option stop; out : memory }.
Definition set_mem x s := Img x (type s) (nbitblock s) (nextbno s) (stopped s) (out s).
Definition set_type x s := Img (mem s) x (nbitblock s) (nextbno s) (stopped s) (out s).
Definition set_nbitblock x s := Img (mem s) (type s) x (nextbno s) (stopped s) (out s).
Definition set_nextbno x s := Img (mem s) (type s) (nbitblock s) x (stopped s) (out s).
Definition set_stopped x s := Img (mem s) (type s) (nbitblock s) (nextbno s) x (out s).
Definition set_out x s := Img (mem s) (type s) (nbitblock s) (nextbno s) (stopped s) x.

Definition halt {A} (w : stop) : M img A := modify (set_stopped (Some w)) ;; panic.
Definition c_assert (b : bool) : M img unit := if b then mret tt else halt Abort.

Definition ld (k : nat) (a : Z) : M img Z := get (fun s => load k (mem s) a).
Definition st (k : nat) (a v : Z) : M img unit := modify (fun s => set_mem (store k (mem s) a v) s).

(** [disk[b].data] and [disk[b].type = t] *)
Definition in_disk (b : Z) : bool := (0 <=? b) && (b <? NBLOCK).
Definition data (b : Z) : M img Z := if in_disk b then mret (b * BLOCK_SIZE) else halt Wild.
Definition put_type (b t : Z) : M img unit :=
  if in_disk b then modify (fun s => set_type (<[b := t]> (type s)) s) else halt Wild.

(** Bytes copied from outside the array. *)
Definition write_bytes (m : memory) (a : Z) (l : list Z) : memory := fun x =>
  if (a <=? x) && (x <? a + Z.of_nat (length l)) then nth (Z.to_nat (x - a)) l 0 else m x.
Definition put_bytes (a : Z) (l : list Z) : M img unit :=
  modify (fun s => set_mem (write_bytes (mem s) a l) s).

(** [strcpy(f->f_name, name)]; past the end of the array it is undefined. *)
Definition strcpy_name (f : Z) (name : list Z) : M img unit :=
  if Z.of_nat (length name) <? MAXNAMELEN then put_bytes f (name ++ [0]) else halt Wild.
(** [strncpy(dst, src, n)] *)
Definition strncpy (dst : Z) (src : list Z) (n : nat) : M img unit :=
  put_bytes dst (take n src ++ replicate (n - length src) 0).

Fixpoint each {A} (f : A -> M img unit) (l : list A) : M img unit :=
  match l with [] => mret tt | x :: l => f x ;; each f l end.

(** ** Byte order *)

Definition reverse (p : Z) : M img unit :=
  y ← ld 4 p;
  st 1 (p + 3) (Z.land y 0xff) ;;
  st 1 (p + 2) (Z.land (Z.shiftr y 8) 0xff) ;;
  st 1 (p + 1) (Z.land (Z.shiftr y 16) 0xff) ;;
  st 1 p (Z.land (Z.shiftr y 24) 0xff).

(** The fields of a [struct File]. *)
Definition reverse_file (ff : Z) : M img unit :=
  reverse (ff + off_size) ;; reverse (ff + off_type) ;;
  mfor (Z.to_nat NDIRECT) 0 (fun i => reverse (ff + off_direct + 4 * i)) ;;
  reverse (ff + off_indirect).

Definition reverse_block (b : Z) : M img unit :=
  p ← data b;
  t ← get (fun s => type s b);
  if t =? BLOCK_SUPER then reverse p ;; reverse (p + 4) ;; reverse_file (p + 8)
  else if t =? BLOCK_FILE then
    mfor_break (Z.to_nat FILE2BLK) 0 (fun i =>
      let ff := p + i * FILE_STRUCT_SIZE in
      c ← ld 1 ff;
      if c =? 0 then mret false else reverse_file ff ;; mret true)
  else if (t =? BLOCK_INDEX) || (t =? BLOCK_BMAP) then
    mfor (Z.to_nat (BLOCK_SIZE / 4)) 0 (fun i => reverse (p + 4 * i))
  else mret tt.

(** ** The disk *)

Definition memset (a c n : Z) : M img unit := modify (fun s => set_mem (fill (mem s) a n c) s).

Definition init_disk : M img unit :=
  put_type 0 BLOCK_BOOT ;;
  modify (set_nbitblock ((NBLOCK + BLOCK_SIZE_BIT - 1) / BLOCK_SIZE_BIT)) ;;
  n ← get nbitblock;
  modify (set_nextbno (2 + n)) ;;
  mfor (Z.to_nat n) 0 (fun i => put_type (2 + i) BLOCK_BMAP) ;;
  mfor (Z.to_nat n) 0 (fun i => p ← data (2 + i); memset p 0xff BLOCK_SIZE) ;;
  (if negb (NBLOCK =? n * BLOCK_SIZE_BIT) then
     let diff := NBLOCK mod BLOCK_SIZE_BIT / 8 in
     p ← data (2 + (n - 1));
     memset (p + diff) 0 (BLOCK_SIZE - diff)
   else mret tt) ;;
  put_type 1 BLOCK_SUPER ;;
  st 4 SUPER FS_MAGIC ;;
  st 4 (SUPER + 4) NBLOCK ;;
  st 4 (ROOT + off_type) FTYPE_DIR ;;
  strcpy_name ROOT [47].

Definition next_block (t : Z) : M img Z :=
  b ← get nextbno;
  put_type b t ;;
  modify (set_nextbno (u32 (b + 1))) ;;
  mret b.

Definition flush_bitmap : M img unit :=
  n ← get nextbno;
  mfor (Z.to_nat n) 0 (fun i =>
    p ← data (2 + i / BLOCK_SIZE_BIT);
    let a := p + 4 * (i mod BLOCK_SIZE_BIT / 32) in
    w ← ld 4 a;
    st 4 a (Z.land w (2 ^ 32 - 1 - Z.shiftl 1 (i mod 32)))).

Section host.
Context (H : host).
(** Whether CONFIG_REVERSE_ENDIAN is defined; the makefile does not define it. *)
Context (reverse_endian : bool).

Definition finish_fs (name : list Z) : M img unit :=
  p ← data 1;
  modify (fun s => set_mem (copy (mem s) p SUPER sizeof_Super) s) ;;
  mfor 1024 0 (fun i =>
    (if reverse_endian then reverse_block i else mret tt) ;;
    p ← data i;
    c_assert (h_creat H name) ;;
    modify (fun s => set_out (fun x =>
      if (i * BLOCK_SIZE <=? x) && (x <? i * BLOCK_SIZE + BLOCK_SIZE)
      then mem s (p + (x - i * BLOCK_SIZE)) else out s x) s)).

(** ** Files and directories *)

Definition save_block_link (f nblk bno : Z) : M img unit :=
  c_assert (nblk <? NINDIRECT) ;;
  if nblk <? NDIRECT then st 4 (f + off_direct + 4 * nblk) bno
  else
    ind ← ld 4 (f + off_indirect);
    (if ind =? 0 then b ← next_block BLOCK_INDEX; st 4 (f + off_indirect) b else mret tt) ;;
    ind ← ld 4 (f + off_indirect);
    p ← data ind;
    st 4 (p + 4 * nblk) bno.

Definition make_link_block (dirf nblk : Z) : M img Z :=
  bno ← next_block BLOCK_FILE;
  save_block_link dirf nblk bno ;;
  size ← ld 4 (dirf + off_size);
  st 4 (dirf + off_size) (u32 (size + BLOCK_SIZE)) ;;
  mret bno.

(** The number of a directory's block [i]. *)
Definition dir_block (dirf i : Z) : M img Z :=
  if i <? NDIRECT then ld 4 (dirf + off_direct + 4 * i)
  else ind ← ld 4 (dirf + off_indirect); p ← data ind; ld 4 (p + 4 * i).

(** The first unused entry of block [i]. *)
Definition free_entry (dirf i : Z) : M img (option Z) :=
  bno ← dir_block dirf i;
  blk ← data bno;
  mfor_ret (Z.to_nat FILE2BLK) 0 (fun j =>
    c ← ld 1 (blk + j * FILE_STRUCT_SIZE);
    mret (if c =? 0 then Some (blk + j * FILE_STRUCT_SIZE) else None)).

Definition create_file (dirf : Z) : M img Z :=
  size ← ld 4 (dirf + off_size);
  let nblk := size / BLOCK_SIZE in
  r ← mfor_ret (Z.to_nat nblk) 0 (free_entry dirf);
  match r with
  | Some f => mret f
  | None => bno ← make_link_block dirf nblk; data bno
  end.

(** [while ((r = read(fd, disk[nextbno].data, n)) > 0)]; [rest] is what is left
    of the file.  [fuel] is at least its number of blocks. *)
Fixpoint read_loop (fuel : nat) (target iblk : Z) (rest : list Z) : M img unit :=
  match fuel, rest with
  | _, [] => mret tt
  | O, _ => halt OutOfFuel
  | S fuel, _ =>
      b ← get nextbno;
      p ← data b;
      put_bytes p (take (Z.to_nat BLOCK_SIZE) rest) ;;
      b ← next_block BLOCK_DATA;
      save_block_link target iblk b ;;
      read_loop fuel target (iblk + 1) (drop (Z.to_nat BLOCK_SIZE) rest)
  end.

(** [open] that fails leaves a descriptor of which [lseek] and [read] are -1. *)
Definition write_file (dirf : Z) (path : list Z) : M img unit :=
  target ← create_file dirf;
  let fd := h_open H path in
  strcpy_name target (fname path) ;;
  st 4 (target + off_size) (match fd with Some l => u32 (Z.of_nat (length l)) | None => u32 (-1) end) ;;
  st 4 (target + off_type) FTYPE_REG ;;
  match fd with
  | Some l => read_loop (length l) target 0 l
  | None => mret tt
  end.

(** "." and ".." *)
Definition is_dots (name : list Z) : bool := bool_decide (name = [46]) || bool_decide (name = [46; 46]).

Fixpoint write_directory (fuel : nat) (dirf : Z) (path : list Z) : M img unit :=
  match fuel with
  | O => halt OutOfFuel
  | S fuel =>
      match h_opendir H path with
      | None => mret tt
      | Some es =>
          pdir ← create_file dirf;
          let '(base, path) := basename path in
          strncpy pdir base (Z.to_nat (MAXNAMELEN - 1)) ;;
          c ← ld 1 (pdir + (MAXNAMELEN - 1));
          if negb (c =? 0) then halt (Exit 1)
          else
            st 4 (pdir + off_type) FTYPE_DIR ;;
            each (fun e =>
              if is_dots (d_name e) then mret tt
              else
                let buf := path ++ [47] ++ d_name e in
                if is_dir e then write_directory fuel pdir buf else write_file pdir buf) es
      end
  end.

(** The body of the loop of [main] over the arguments. *)
Definition main_arg (fuel : nat) (name : list Z) : M img unit :=
  match h_stat H name with
  | None => halt Abort
  | Some S_IFDIR => write_directory fuel ROOT name
  | Some S_IFREG => write_file ROOT name
  | Some S_IFOTHER => halt (Exit 2)
  end.

(** [image] is argv[1] and [args] are the arguments after it. *)
Definition main (fuel : nat) (image : list Z) (args : list (list Z)) : M img Z :=
  init_disk ;;
  (if bool_decide (args = []) then halt (Exit 1) else mret tt) ;;
  each (main_arg fuel) args ;;
  flush_bitmap ;;
  finish_fs image ;;
  mret 0.
End host.

(** The program's memory when it starts, and the image file before. *)
Definition start (file : memory) : img := Img (fun _ => 0) (fun _ => 0) 0 0 None file.
