(* ===== verification/FsBuild.v ===== *)
(** How tools/fsformat.c builds an image, below the level of paths: taking and
    linking blocks, entries of a directory under construction, the blocks of a
    file.  Blocks are taken in order and no block is shared or lost. *)
From S2P Require Import Prelude Mem FsBlock FsFile FsImage Fsformat.

(** ** The states of the program *)

(** The blocks from [nextbno] on are free and zero. *)
Record ready (s : img) : Prop := {
  rd_next : 3 <= nextbno s <= NBLOCK;
  rd_zero : forall x, nextbno s <= blk x < NBLOCK -> mem s x = 0
}.

(** The fields of an entry that adding to its directory changes. *)
Definition link_field (a x : Z) : Prop :=
  a + off_size <= x < a + off_type \/ a + off_direct <= x < a + ENTRY.

(** [s'] comes after [s] by work on the entry [a], which may change its link
    fields, the blocks [o] it owns and the blocks that were free. *)
Record grew (a : Z) (o : list Z) (s s' : img) : Prop := {
  gr_ready : ready s';
  gr_next : nextbno s <= nextbno s';
  gr_out : out s' = out s;
  gr_mem : forall x, ~ link_field a x -> blk x ∉ o -> ~ (nextbno s <= blk x < nextbno s') ->
    mem s' x = mem s x
}.

Lemma grew_refl a o s : ready s -> grew a o s s.
Proof. by split. Qed.

Lemma grew_trans a o o' s s1 s2 : grew a o s s1 -> grew a o' s1 s2 ->
  (forall b, b ∈ o' -> b ∈ o \/ nextbno s <= b < nextbno s1) -> grew a o s s2.
Proof.
  intros [R1 N1 O1 M1] [R2 N2 O2 M2] Ho. split; [done|lia|congruence|].
  intros x Hf Hb Hn. rewrite M2, M1; try done; [lia| |lia].
  intros Hx. destruct (Ho _ Hx); [done|lia].
Qed.

(** The numbers of the blocks taken between two states. *)
Definition fresh (s s' : img) : list Z := seqZ (nextbno s) (nextbno s' - nextbno s).

Lemma fresh_in s s' b : b ∈ fresh s s' <-> nextbno s <= b < nextbno s'.
Proof. unfold fresh. rewrite elem_of_seqZ. lia. Qed.

Lemma fresh_nil s s' : nextbno s' = nextbno s -> fresh s s' = [].
Proof. unfold fresh. intros ->. by rewrite Z.sub_diag. Qed.

Lemma fresh_trans s s1 s2 : nextbno s <= nextbno s1 -> nextbno s1 <= nextbno s2 ->
  fresh s s2 = fresh s s1 ++ fresh s1 s2.
Proof.
  intros H1 H2. unfold fresh.
  replace (nextbno s2 - nextbno s) with ((nextbno s1 - nextbno s) + (nextbno s2 - nextbno s1)) by lia.
  rewrite seqZ_app by lia. do 2 f_equal; lia.
Qed.

Lemma fresh_one s s' : nextbno s' = nextbno s + 1 -> fresh s s' = [nextbno s].
Proof. unfold fresh. intros ->. replace (nextbno s + 1 - nextbno s) with 1 by lia. done. Qed.

(** ** Taking and linking a block *)

Lemma in_disk_ok b : 0 <= b < NBLOCK -> in_disk b = true.
Proof. intros Hb. unfold in_disk. apply andb_true_intro. split; [apply Z.leb_le|apply Z.ltb_lt]; lia. Qed.

Lemma data_ok b s : 0 <= b < NBLOCK -> data b s = Ret (b * BLOCK_SIZE) s.
Proof. intros Hb. unfold data. by rewrite in_disk_ok. Qed.

Lemma bind_ld {B} k a (f : Z -> M img B) s : (ld k a ≫= f) s = f (load k (mem s) a) s.
Proof. done. Qed.

Lemma bind_st {B} k a v (f : unit -> M img B) s : (st k a v ≫= f) s = f tt (set_mem (store k (mem s) a v) s).
Proof. done. Qed.

Definition taken (t : Z) (s : img) : img :=
  set_nextbno (nextbno s + 1) (set_type (<[nextbno s := t]> (type s)) s).

Lemma next_block_ok t s : 0 <= nextbno s < NBLOCK -> next_block t s = Ret (nextbno s) (taken t s).
Proof.
  intros Hb. unfold next_block, put_type. rewrite bind_get, in_disk_ok by done.
  rewrite !bind_modify. unfold taken, u32. by rewrite Z.mod_small by (unfold NBLOCK in *; lia).
Qed.

(** Where an entry may be: in a block in use, or in [super]. *)
Definition placed (s : img) (a : Z) : Prop :=
  0 <= a /\ a mod BLOCK_SIZE + FILE_STRUCT_SIZE <= BLOCK_SIZE /\ (blk a < nextbno s \/ blk a = NBLOCK).

Lemma placed_blk s a j : placed s a -> 0 <= j < FILE_STRUCT_SIZE -> blk (a + j) = blk a.
Proof.
  intros (Ha & Hm & _) Hj. unfold blk, BLOCK_SIZE, FILE_STRUCT_SIZE in *. Z.div_mod_to_equations. lia.
Qed.

(** The bytes that a store of a block number changes. *)
Lemma store_elsewhere k m a v x : ~ (a <= x < a + Z.of_nat k) -> store k m a v x = m x.
Proof.
  intros Hx. Transparent store. unfold store. Opaque store.
  destruct (Z.leb_spec a x), (Z.ltb_spec x (a + Z.of_nat k)); simpl; try done. lia.
Qed.

(** The block [b] became the next one of the file at [a]. *)
Record linked (s s' : img) (a : Z) (bs : list Z) (ind b ind' : Z) : Prop := {
  lk_slots : slots (mem s') a (bs ++ [b]) ind';
  lk_next : nextbno s' = nextbno s + (if Z.of_nat (length bs) =? NDIRECT then 1 else 0);
  lk_ind : ind' = (if Z.of_nat (length bs) =? NDIRECT then nextbno s else ind);
  lk_ready : ready s';
  lk_out : out s' = out s;
  lk_mem : forall x, ~ (a + off_direct <= x < a + ENTRY) -> (ind' <> 0 -> blk x <> ind') -> mem s' x = mem s x
}.

Section link.
Context (s : img) (a : Z) (bs : list Z) (ind b : Z).
Hypothesis (Hr : ready s) (Hp : placed s a) (Hs : slots (mem s) a bs ind).
Hypothesis (Hb : 0 <= b < 2 ^ 32) (Hlen : Z.of_nat (length bs) < NINDIRECT).

(** The slot is in the entry. *)
Lemma link_direct : Z.of_nat (length bs) < NDIRECT ->
  linked s (set_mem (store 4 (mem s) (a + off_direct + 4 * Z.of_nat (length bs)) b) s) a bs ind b ind.
Proof.
  intros Hd. destruct Hs as [H1 H2 H3 H4]. pose proof (proj2 (Z.eqb_neq (Z.of_nat (length bs)) NDIRECT) ltac:(lia)) as E.
  split; rewrite ?E; try done; [|cbn; lia| |].
  - split; cbn.
    + rewrite load_store_other; [done|]. unfold disjoint_range. ioffs; lia.
    + rewrite length_app. simpl. lia.
    + rewrite length_app. simpl. ioffs; lia.
    + intros i c Hi. apply lookup_snoc_Some in Hi as [[Hl Hi]|[-> ->]].
      * rewrite <- (H4 i c Hi). rewrite (proj2 (Z.ltb_lt (Z.of_nat i) NDIRECT)) by lia.
        apply load_store_other. unfold disjoint_range. lia.
      * rewrite (proj2 (Z.ltb_lt _ _) Hd). by apply load32_store32_same.
  - destruct Hr as [R1 R2]. split; [done|]. cbn. intros x Hx. rewrite store_elsewhere; [by apply R2|].
    intros Hin. destruct Hp as (_ & _ & Hpl).
    pose proof (placed_blk s a (x - a) Hp ltac:(ioffs; lia)) as E2. replace (a + (x - a)) with x in E2 by lia. lia.
  - intros x Hx _. apply store_elsewhere. ioffs; lia.
Qed.

(** The slot is in the indirect block. *)
Lemma link_indirect : NDIRECT < Z.of_nat (length bs) -> 3 <= ind < nextbno s -> blk a <> ind ->
  linked s (set_mem (store 4 (mem s) (ind * BLOCK_SIZE + 4 * Z.of_nat (length bs)) b) s) a bs ind b ind.
Proof.
  intros Hd Hi Hne. destruct Hs as [H1 H2 H3 H4].
  pose proof (proj2 (Z.eqb_neq (Z.of_nat (length bs)) NDIRECT) ltac:(lia)) as E.
  assert (forall x, ind * BLOCK_SIZE + 4 * Z.of_nat (length bs) <= x < ind * BLOCK_SIZE + 4 * Z.of_nat (length bs) + 4 ->
    blk x = ind) as Hin.
  { intros x Hx. replace x with (ind * BLOCK_SIZE + (x - ind * BLOCK_SIZE)) by lia. apply in_block. ioffs; lia. }
  assert (forall j, 0 <= j < FILE_STRUCT_SIZE -> blk (a + j) = blk a) as Hbl by (intros; by apply (placed_blk s)).
  split; rewrite ?E; try done; [|cbn; lia| |].
  - split; cbn.
    + rewrite <- H1 at 2. apply load_ext. intros x Hx. apply store_elsewhere. intros Hx'. apply Hne.
      rewrite <- (Hin x Hx'), <- (Hbl (x - a)) by (ioffs; lia). f_equal. lia.
    + rewrite length_app. simpl. lia.
    + rewrite length_app. simpl. lia.
    + intros i c Hc. apply lookup_snoc_Some in Hc as [[Hl Hc]|[-> ->]].
      * rewrite <- (H4 i c Hc). destruct (Z.ltb_spec (Z.of_nat i) NDIRECT).
        -- apply load_ext. intros x Hx. apply store_elsewhere. intros Hx'. apply Hne.
           rewrite <- (Hin x Hx'), <- (Hbl (x - a)) by (ioffs; lia). f_equal. lia.
        -- apply load_store_other. unfold disjoint_range. lia.
      * rewrite (proj2 (Z.ltb_ge _ _)) by lia. by apply load32_store32_same.
  - destruct Hr as [R1 R2]. split; [done|]. cbn. intros x Hx. rewrite store_elsewhere; [by apply R2|].
    intros Hx'. rewrite (Hin x Hx') in Hx. lia.
  - intros x _ Hx. apply store_elsewhere. intros Hx'. apply Hx; [lia|by apply Hin].
Qed.

(** The indirect block is taken first. *)
Lemma link_new : Z.of_nat (length bs) = NDIRECT -> nextbno s < NBLOCK ->
  let n := nextbno s in
  linked s (set_mem (store 4 (store 4 (mem s) (a + off_indirect) n) (n * BLOCK_SIZE + 4 * Z.of_nat (length bs)) b)
    (taken BLOCK_INDEX s)) a bs ind b n.
Proof.
  intros Hd Hn n. destruct Hs as [H1 H2 H3 H4]. pose proof (rd_next _ Hr) as Hnx.
  pose proof (proj2 (Z.eqb_eq (Z.of_nat (length bs)) NDIRECT) Hd) as E.
  assert (blk a <> n) as Hne by (unfold n; destruct Hp as (_ & _ & [?|?]); lia).
  assert (forall x, n * BLOCK_SIZE + 4 * Z.of_nat (length bs) <= x < n * BLOCK_SIZE + 4 * Z.of_nat (length bs) + 4 ->
    blk x = n) as Hin.
  { intros x Hx. replace x with (n * BLOCK_SIZE + (x - n * BLOCK_SIZE)) by lia. apply in_block. ioffs; lia. }
  assert (forall j, 0 <= j < FILE_STRUCT_SIZE -> blk (a + j) = blk a) as Hbl by (intros; by apply (placed_blk s)).
  assert (forall m x v, a <= x < a + ENTRY -> store 4 m (n * BLOCK_SIZE + 4 * Z.of_nat (length bs)) v x = m x) as Hst.
  { intros m x v Hx. apply store_elsewhere. intros Hx'. apply Hne.
    rewrite <- (Hin x Hx'), <- (Hbl (x - a)) by (ioffs; lia). f_equal. lia. }
  split; rewrite ?E; try done; cbn.
  - split; cbn.
    + transitivity (load 4 (store 4 (mem s) (a + off_indirect) n) (a + off_indirect)).
      * apply load_ext. intros x Hx. apply Hst. ioffs; lia.
      * apply load32_store32_same. unfold n, NBLOCK in *. lia.
    + rewrite length_app. simpl. lia.
    + rewrite length_app. simpl. unfold n. split; intros; lia.
    + intros i c Hc. apply lookup_snoc_Some in Hc as [[Hl Hc]|[-> ->]].
      * rewrite <- (H4 i c Hc). rewrite (proj2 (Z.ltb_lt _ _)) by lia.
        transitivity (load 4 (store 4 (mem s) (a + off_indirect) n) (a + off_direct + 4 * Z.of_nat i)).
        -- apply load_ext. intros x Hx. apply Hst. ioffs; lia.
        -- apply load_store_other. unfold disjoint_range. ioffs; lia.
      * rewrite (proj2 (Z.ltb_ge _ _)) by lia. by apply load32_store32_same.
  - split; cbn; [lia|]. intros x Hx. rewrite !store_elsewhere; [apply (rd_zero _ Hr); lia| |].
    + intros Hx'. replace x with (a + (x - a)) in Hx by lia. rewrite Hbl in Hx by (ioffs; lia).
      destruct Hp as (_ & _ & [?|?]); lia.
    + intros Hx'. rewrite (Hin x Hx') in Hx. unfold n in Hx. lia.
  - intros x Hx Hx2. rewrite !store_elsewhere; [done|ioffs; lia|]. intros Hx'. apply Hx2; [unfold n; lia|by apply Hin].
Qed.

Lemma save_block_link_ok :
  (ind <> 0 -> 3 <= ind < nextbno s /\ blk a <> ind) ->
  (Z.of_nat (length bs) = NDIRECT -> nextbno s < NBLOCK) ->
  exists s' ind', save_block_link a (Z.of_nat (length bs)) b s = Ret tt s' /\ linked s s' a bs ind b ind'.
Proof.
  intros Hi Hn. destruct (Hs) as [H1 H2 H3 H4]. pose proof (rd_next _ Hr).
  unfold save_block_link, c_assert. rewrite (proj2 (Z.ltb_lt _ _) Hlen), bind_mret.
  destruct (Z.ltb_spec (Z.of_nat (length bs)) NDIRECT) as [Hd|Hd].
  { eexists _, _. split; [reflexivity|]. by apply link_direct. }
  rewrite bind_ld, H1. destruct (Z.eqb_spec ind 0) as [E|E].
  - assert (Z.of_nat (length bs) = NDIRECT) as Hl by (destruct H3; lia).
    rewrite bind_assoc, (bind_ret _ _ _ _ _ (next_block_ok BLOCK_INDEX s ltac:(specialize (Hn Hl); lia))).
    cbv beta. rewrite bind_st, bind_ld. cbn [mem set_mem].
    rewrite load32_store32_same by (specialize (Hn Hl); unfold NBLOCK in *; lia).
    rewrite (bind_ret _ _ _ _ _ (data_ok (nextbno s) _ ltac:(specialize (Hn Hl); lia))).
    eexists _, _. split; [reflexivity|]. apply (link_new Hl). by apply Hn.
  - destruct (Hi E) as [Hi1 Hi2]. assert (NDIRECT < Z.of_nat (length bs)) as Hl by by apply H3.
    rewrite bind_mret, bind_ld, H1. rewrite (bind_ret _ _ _ _ _ (data_ok ind _ ltac:(lia))).
    eexists _, _. split; [reflexivity|]. by apply link_indirect.
Qed.
End link.

(** ** Directories under construction *)

(** The blocks of [n] blocks of content and of their indirect block. *)
Definition cost (n : nat) : Z := Z.of_nat n + (if NDIRECT <? Z.of_nat n then 1 else 0).

Lemma cost_S n : cost (S n) = cost n + 1 + (if Z.of_nat n =? NDIRECT then 1 else 0).
Proof.
  unfold cost, NDIRECT.
  destruct (Z.ltb_spec 10 (Z.of_nat (S n))), (Z.ltb_spec 10 (Z.of_nat n)), (Z.eqb_spec (Z.of_nat n) 10); lia.
Qed.

Record at_dir (s : img) (a : Z) (kids : list node) (bs : list Z) (ind : Z) (us : list (list Z)) : Prop := {
  ad_ready : ready s;
  ad_placed : placed s a;
  ad_entries : entries (mem s) a kids bs ind us;
  ad_once : NoDup (own bs ind ++ concat us);
  ad_range : Forall (fun b => 3 <= b < nextbno s) (own bs ind ++ concat us);
  ad_self : blk a ∉ own bs ind ++ concat us
}.

Lemma load8_eq m a : load 1 m a = u8 (m a).
Proof. Transparent load. cbn [load]. lia. Opaque load. Qed.

Lemma in_concat_lookup {A} (us : list (list A)) i u b : us !! i = Some u -> b ∈ u -> b ∈ concat us.
Proof.
  intros Hu Hb. apply list_elem_of_In, in_concat. exists u.
  split; apply list_elem_of_In; [by eapply list_elem_of_lookup_2|done].
Qed.

Lemma kids_frame m m' kids bs us : (length kids <= 16 * length bs)%nat ->
  (forall x, blk x ∈ bs ++ concat us -> m' x = m x) ->
  (forall i k u, kids !! i = Some k -> us !! i = Some u -> holds m (place bs i) k u) ->
  forall i k u, kids !! i = Some k -> us !! i = Some u -> holds m' (place bs i) k u.
Proof.
  intros Hl Hx Hk i k u Hi Hu. pose proof (lookup_lt_Some _ _ _ Hi).
  apply (holds_frame m); [by eauto|..].
  - intros j Hj. apply Hx, elem_of_app. left. apply place_blk; [lia|]. ioffs; lia.
  - intros x Hb. apply Hx, elem_of_app. right. by eapply in_concat_lookup.
Qed.

Lemma place_app bs bs' i : (i < 16 * length bs)%nat -> place (bs ++ bs') i = place bs i.
Proof.
  intros Hi. unfold place. rewrite app_nth1; [done|]. apply Nat.Div0.div_lt_upper_bound. lia.
Qed.

(** Distinct blocks of the disk are fewer than its blocks. *)
Lemma few_blocks (l : list Z) n : NoDup l -> Forall (fun b => 3 <= b < n) l -> 3 <= n -> Z.of_nat (length l) <= n - 3.
Proof.
  intros Hn Hf H. pose proof (submseteq_length l (seqZ 3 (n - 3))) as Hl.
  rewrite length_seqZ in Hl. enough (length l <= Z.to_nat (n - 3))%nat by lia. apply Hl.
  apply NoDup_submseteq; [done|]. intros x Hx. rewrite Forall_forall in Hf. specialize (Hf x Hx).
  apply elem_of_seqZ. lia.
Qed.

Section create.
Context (s : img) (a : Z) (kids : list node) (bs : list Z) (ind : Z) (us : list (list Z)).
Hypothesis (Hd : at_dir s a kids bs ind us).

Lemma dir_few : Z.of_nat (length bs) < NINDIRECT.
Proof.
  destruct Hd as [[Hn _] _ _ Ho Hr _]. pose proof (few_blocks _ _ Ho Hr ltac:(lia)) as H.
  unfold own in H. rewrite !length_app in H. unfold NBLOCK in *. ioffs; lia.
Qed.

Lemma dir_in i b : bs !! i = Some b -> 3 <= b < NBLOCK.
Proof.
  intros Hi. destruct Hd as [[Hn _] _ _ _ Hr _]. rewrite Forall_forall in Hr.
  pose proof (Hr b ltac:(apply elem_of_app; left; apply own_in; left; by eapply list_elem_of_lookup_2)). lia.
Qed.

Lemma dir_block_ok i b : bs !! i = Some b -> dir_block a (Z.of_nat i) s = Ret b s.
Proof.
  intros Hi. pose proof (lookup_lt_Some _ _ _ Hi). destruct (Hd) as [[Hn _] _ He _ Hr _].
  destruct (en_slots _ _ _ _ _ _ He) as [H1 H2 H3 H4]. specialize (H4 i b Hi).
  unfold dir_block. destruct (Z.ltb_spec (Z.of_nat i) NDIRECT); [unfold ld, get; by rewrite H4|].
  rewrite bind_ld, H1. rewrite Forall_forall in Hr.
  assert (3 <= ind < nextbno s) as Hi2.
  { apply Hr, elem_of_app. left. apply own_in. right. split; [apply H3; lia|done]. }
  rewrite (bind_ret _ _ _ _ _ (data_ok ind s ltac:(lia))). unfold ld, get. by rewrite H4.
Qed.

(** The first byte of an entry tells whether it is in use. *)
Lemma entry_used i : (i < 16 * length bs)%nat ->
  (load 1 (mem s) (place bs i) =? 0) = negb (i <? length kids)%nat.
Proof.
  intros Hi. rewrite load8_eq. destruct Hd as [_ _ [E1 E2 E3 E4 E5 E6] _ _ _].
  destruct (Nat.ltb_spec i (length kids)) as [Hl|Hl]; simpl.
  - destruct (lookup_lt_is_Some_2 kids i Hl) as (k & Hk).
    destruct (lookup_lt_is_Some_2 us i ltac:(lia)) as (u & Hu).
    destruct (holds_name _ _ _ _ (E5 i k u Hk Hu)) as [Hn1 Hn2].
    pose proof (name_at_first _ _ _ Hn1 Hn2). apply Z.eqb_neq. unfold u8. rewrite Z.mod_small; lia.
  - apply Z.eqb_eq. pose proof (E6 i ltac:(lia) 0 ltac:(done)) as H0. rewrite Z.add_0_r in H0. by rewrite H0.
Qed.

Lemma place_of i j b : bs !! i = Some b -> 0 <= j < 16 ->
  place bs (16 * i + Z.to_nat j) = b * BLOCK_SIZE + j * FILE_STRUCT_SIZE.
Proof.
  intros Hi Hj. unfold place. replace ((16 * i + Z.to_nat j) / 16)%nat with i by
    (apply Nat.div_unique with (Z.to_nat j); lia).
  rewrite (nth_lookup_Some _ _ _ _ Hi). rewrite Nat.add_comm, Nat.mul_comm, Nat.Div0.mod_add, Nat.mod_small, Z2Nat.id by lia.
  unfold FILE_STRUCT_SIZE. lia.
Qed.

Lemma free_entry_ok i : (i < length bs)%nat ->
  free_entry a (Z.of_nat i) s =
    Ret (if decide (16 * i <= length kids < 16 * i + 16)%nat then Some (place bs (length kids))
         else if decide (length kids < 16 * i)%nat then Some (place bs (16 * i)) else None) s.
Proof.
  intros Hi. destruct (lookup_lt_is_Some_2 bs i Hi) as (b & Hb). pose proof (dir_in i b Hb).
  unfold free_entry. rewrite (bind_ret _ _ _ _ _ (dir_block_ok i b Hb)).
  rewrite (bind_ret _ _ _ _ _ (data_ok b s ltac:(lia))).
  set (body := fun j : Z => _).
  assert (forall j, 0 <= j < 16 -> body j s =
    Ret (if (16 * i + Z.to_nat j <? length kids)%nat then None else Some (place bs (16 * i + Z.to_nat j))) s) as Hbody.
  { intros j Hj. unfold body. rewrite bind_ld, <- (place_of i j b) by done.
    rewrite entry_used by lia. by destruct (_ <? _)%nat. }
  change (Z.to_nat FILE2BLK) with 16%nat.
  destruct (decide (16 * i <= length kids < 16 * i + 16)%nat) as [Hin|Hout].
  - apply (mfor_ret_some _ (length kids - 16 * i)); [lia| |].
    + intros j Hj. rewrite Hbody by lia. destruct (Nat.ltb_spec (16 * i + Z.to_nat j) (length kids)); [done|lia].
    + rewrite Hbody by lia. destruct (Nat.ltb_spec (16 * i + Z.to_nat (0 + Z.of_nat (length kids - 16 * i))) (length kids)); [lia|].
      do 3 f_equal. lia.
  - destruct (decide (length kids < 16 * i)%nat) as [Hlt|Hge].
    + apply (mfor_ret_some _ 0); [lia|intros j Hj; lia|]. rewrite Hbody by lia.
      destruct (Nat.ltb_spec (16 * i + Z.to_nat (0 + Z.of_nat 0)) (length kids)); [lia|]. do 3 f_equal. lia.
    + apply mfor_ret_none. intros j Hj. rewrite Hbody by lia.
      destruct (Nat.ltb_spec (16 * i + Z.to_nat j) (length kids)); [done|lia].
Qed.

(** The search of [create_file]. *)
Lemma free_search : mfor_ret (length bs) 0 (free_entry a) s =
  Ret (if decide (length kids < 16 * length bs)%nat then Some (place bs (length kids)) else None) s.
Proof.
  destruct (decide _) as [Hl|Hl].
  - pose proof (Nat.div_mod_eq (length kids) 16). pose proof (Nat.mod_upper_bound (length kids) 16).
    apply (mfor_ret_some _ (length kids / 16)); [lia| |].
    + intros j Hj. rewrite <- (Z2Nat.id j), free_entry_ok by lia.
      destruct (decide (16 * Z.to_nat j <= _ < _)%nat); [lia|]. by destruct (decide (_ < _)%nat); [lia|].
    + rewrite Z.add_0_l, free_entry_ok by lia. by destruct (decide (_ <= _ < _)%nat); [|lia].
  - apply mfor_ret_none. intros j Hj. rewrite <- (Z2Nat.id j), free_entry_ok by lia.
    pose proof (en_room _ _ _ _ _ _ (ad_entries _ _ _ _ _ _ Hd)).
    destruct (decide (16 * Z.to_nat j <= _ < _)%nat); [lia|]. by destruct (decide (_ < _)%nat); [lia|].
Qed.

Lemma create_scan : create_file a s =
  if decide (length kids < 16 * length bs)%nat then Ret (place bs (length kids)) s
  else (bno ← make_link_block a (Z.of_nat (length bs)); data bno) s.
Proof.
  unfold create_file. rewrite bind_ld, (en_size _ _ _ _ _ _ (ad_entries _ _ _ _ _ _ Hd)).
  rewrite Z.mul_comm, Z.div_mul, Nat2Z.id by done. rewrite (bind_ret _ _ _ _ _ free_search).
  by destruct (decide _).
Qed.
End create.

(** ** A new entry *)

Lemma ready_taken t s : ready s -> nextbno s < NBLOCK -> ready (taken t s).
Proof.
  intros [H1 H2] Hn. split; [cbn; lia|]. intros x Hx. apply H2. cbn in Hx. lia.
Qed.

Lemma placed_later s s' a : placed s a -> nextbno s <= nextbno s' -> placed s' a.
Proof. intros (H1 & H2 & [H3|H3]) Hn; split_and!; (done || lia). Qed.

Lemma store_ready k a v s : ready s -> blk a < nextbno s \/ blk a = NBLOCK ->
  (forall x, a <= x < a + Z.of_nat k -> blk x = blk a) -> ready (set_mem (store k (mem s) a v) s).
Proof.
  intros [H1 H2] Ha Hx. split; [done|]. cbn. intros x Hb. rewrite store_elsewhere; [by apply H2|].
  intros Hin. rewrite (Hx x Hin) in Hb. lia.
Qed.

Lemma slots_store_size m a bs ind v : slots m a bs ind ->
  (forall x, a + off_size <= x < a + off_size + 4 -> ind <> 0 -> blk x <> ind) ->
  slots (store 4 m (a + off_size) v) a bs ind.
Proof.
  intros [H1 H2 H3 H4] Hx. split; try done.
  - rewrite load_store_other; [done|]. unfold disjoint_range. ioffs; lia.
  - intros i b Hi. rewrite <- (H4 i b Hi). pose proof (lookup_lt_Some _ _ _ Hi).
    destruct (Z.ltb_spec (Z.of_nat i) NDIRECT).
    + apply load_store_other. unfold disjoint_range. ioffs; lia.
    + apply load_ext. intros x Hin. apply store_elsewhere. intros Hs. apply (Hx x Hs); [apply H3; lia|].
      replace x with (ind * BLOCK_SIZE + (x - ind * BLOCK_SIZE)) by lia. apply in_block. ioffs; lia.
Qed.

(** Blocks taken between two states are new to the blocks in use before. *)
Lemma used_extend s s' a used used' : used' ≡ₚ used ++ fresh s s' -> placed s a ->
  3 <= nextbno s <= nextbno s' -> nextbno s' <= NBLOCK ->
  NoDup used -> Forall (fun b => 3 <= b < nextbno s) used -> blk a ∉ used ->
  NoDup used' /\ Forall (fun b => 3 <= b < nextbno s') used' /\ blk a ∉ used'.
Proof.
  intros Hp (_ & _ & Ha) Hn Hn' Ho Hr Hs. rewrite Forall_forall in Hr. rewrite Hp. split_and!.
  - apply NoDup_app. split_and!; [done| |apply NoDup_seqZ].
    intros b Hb Hf. apply fresh_in in Hf. specialize (Hr b Hb). lia.
  - apply Forall_app. split; apply Forall_forall; intros b Hb; [specialize (Hr b Hb); lia|].
    apply fresh_in in Hb. lia.
  - intros [Hin|Hin]%elem_of_app; [done|]. apply fresh_in in Hin. lia.
Qed.

(** The next block, already filled, is taken and linked at the end of a file. *)
Section extend.
Context (s : img) (a : Z) (bs : list Z) (ind : Z).
Hypothesis (Hr : ready s) (Hp : placed s a) (Hs : slots (mem s) a bs ind).
Hypothesis (Ho : NoDup (own bs ind)) (Hrg : Forall (fun b => 3 <= b < nextbno s) (own bs ind)).
Hypothesis (Hself : blk a ∉ own bs ind).

Record extends (m : memory) (s1 : img) (ind1 : Z) : Prop := {
  ex_next : nextbno s1 = nextbno s + (cost (S (length bs)) - cost (length bs));
  ex_own : own (bs ++ [nextbno s]) ind1 ≡ₚ own bs ind ++ fresh s s1;
  ex_grew : grew a (own bs ind) s s1;
  ex_slots : slots (mem s1) a (bs ++ [nextbno s]) ind1;
  ex_ind : ind1 <> 0 -> ind1 ∈ own bs ind \/ nextbno s < ind1 < nextbno s1;
  ex_mem : forall x, ~ (a + off_direct <= x < a + ENTRY) -> (ind1 <> 0 -> blk x <> ind1) -> mem s1 x = m x
}.

Lemma own_extend s1 ind1 : nextbno s1 = nextbno s + 1 + (if Z.of_nat (length bs) =? NDIRECT then 1 else 0) ->
  ind1 = (if Z.of_nat (length bs) =? NDIRECT then nextbno s + 1 else ind) ->
  own (bs ++ [nextbno s]) ind1 ≡ₚ own bs ind ++ fresh s s1.
Proof.
  intros Hn Hi. destruct Hs as [_ _ Hh _]. pose proof (rd_next _ Hr). unfold own, fresh. rewrite Hn, Hi.
  destruct (Z.eqb_spec (Z.of_nat (length bs)) NDIRECT) as [E|E].
  - replace (ind =? 0) with true by (symmetry; apply Z.eqb_eq; destruct Hh; lia).
    rewrite (proj2 (Z.eqb_neq (nextbno s + 1) 0)) by lia.
    replace (nextbno s + 1 + 1 - nextbno s) with 2 by lia. change (seqZ (nextbno s) 2) with [nextbno s; 1 + nextbno s].
    by rewrite <- app_assoc, app_nil_r, (Z.add_comm 1).
  - replace (nextbno s + 1 + 0 - nextbno s) with 1 by lia. change (seqZ (nextbno s) 1) with [nextbno s].
    rewrite <- !app_assoc. apply Permutation_app_head, Permutation_app_comm.
Qed.

Hypothesis (Hroom : nextbno s + (cost (S (length bs)) - cost (length bs)) <= NBLOCK).

Lemma extend_few : Z.of_nat (length bs) < NINDIRECT /\ nextbno s < NBLOCK.
Proof.
  pose proof (rd_next _ Hr). pose proof (few_blocks _ _ Ho Hrg ltac:(lia)) as H1. pose proof (cost_S (length bs)) as H2.
  unfold own in H1. rewrite !length_app in H1. unfold NBLOCK in *.
  split; [ioffs; lia|]. destruct (_ =? NDIRECT) in H2; lia.
Qed.

Lemma extend_ok t m (Hm : forall x, blk x <> nextbno s -> m x = mem s x) :
  exists s1 ind1, next_block t (set_mem m s) = Ret (nextbno s) (taken t (set_mem m s)) /\
    save_block_link a (Z.of_nat (length bs)) (nextbno s) (taken t (set_mem m s)) = Ret tt s1 /\
    extends m s1 ind1.
Proof.
  pose proof (cost_S (length bs)) as Hc. destruct extend_few as [Hfew Hlt]. pose proof (rd_next _ Hr) as Hn.
  rewrite Forall_forall in Hrg. set (s0 := taken t (set_mem m s)).
  assert (blk a <> nextbno s) as Hane by (destruct Hp as (_ & _ & [?|?]); lia).
  assert (ready s0) as Hr0.
  { split; [cbn; lia|]. cbn. intros x Hx. rewrite Hm by lia. apply (rd_zero _ Hr). lia. }
  assert (placed s0 a) as Hp0 by (apply (placed_later s); [done|cbn; lia]).
  assert (slots (mem s0) a bs ind) as Hs0.
  { apply (slots_move (mem s) _ a a); [|done|].
    - intros i Hi. apply Hm. rewrite (placed_blk s) by (done || (ioffs; lia)). done.
    - intros x H0 E. apply Hm. specialize (Hrg ind ltac:(apply own_in; by right)). lia. }
  destruct (save_block_link_ok s0 a bs ind (nextbno s) Hr0 Hp0 Hs0 ltac:(unfold NBLOCK in *; lia) Hfew)
    as (s1 & ind1 & El & [L1 L2 L3 L4 L5 L6]).
  { intros Hi. assert (ind ∈ own bs ind) as Hin by (apply own_in; by right).
    pose proof (Hrg _ Hin). split; [cbn; lia|]. by intros <-. }
  { intros E. rewrite (proj2 (Z.eqb_eq _ _) E) in Hc. cbn. lia. }
  change (nextbno s0) with (nextbno s + 1) in L2, L3.
  assert (ind1 <> 0 -> ind1 ∈ own bs ind \/ nextbno s < ind1 < nextbno s1) as Hi1.
  { intros H0. rewrite L2. rewrite L3 in H0 |- *. destruct (_ =? NDIRECT); [right; lia|left]. apply own_in. by right. }
  assert (nextbno s < nextbno s1) as Hmono by (rewrite L2; destruct (_ =? NDIRECT); lia).
  exists s1, ind1. split_and!; [by apply (next_block_ok t (set_mem m s)); cbn; lia|done|].
  split; [lia|by apply own_extend| |done|done|done].
  split; [done|lia|done|]. intros x Hx Hb Hnx. rewrite L6; [|intros Hx'; apply Hx; by right|].
  - apply Hm. intros E. apply Hnx. lia.
  - intros H0 E. rewrite E in Hb, Hnx. destruct (Hi1 H0); [done|lia].
Qed.

(** What the indirect block is apart from. *)
Lemma extends_apart m s1 ind1 : extends m s1 ind1 -> ind1 <> 0 ->
  blk a <> ind1 /\ nextbno s <> ind1 /\ ind1 ∉ bs.
Proof.
  intros [E1 E2 E3 E4 E5 E6] H0. destruct Hp as (_ & _ & Ha). pose proof (rd_next _ (gr_ready _ _ _ _ E3)).
  assert (NoDup (own (bs ++ [nextbno s]) ind1)) as Hnd.
  { rewrite E2. apply NoDup_app. split_and!; [done| |apply NoDup_seqZ]. intros b Hb Hf. apply fresh_in in Hf.
    rewrite Forall_forall in Hrg. specialize (Hrg b Hb). lia. }
  unfold own in Hnd. rewrite (proj2 (Z.eqb_neq _ _) H0) in Hnd. apply NoDup_app in Hnd as (_ & Hnd & _).
  assert (forall b, b ∈ bs ++ [nextbno s] -> b <> ind1) as Hne.
  { intros b Hb ->. apply (Hnd _ Hb). by apply list_elem_of_singleton. }
  split_and!.
  - intros E. destruct (E5 H0); [congruence|lia].
  - apply Hne, elem_of_app. right. by apply list_elem_of_singleton.
  - intros Hin. apply (Hne ind1); [apply elem_of_app; by left|done].
Qed.
End extend.

Section make_link.
Context (s : img) (a : Z) (kids : list node) (bs : list Z) (ind : Z) (us : list (list Z)).
Hypothesis (Hd : at_dir s a kids bs ind us) (Hfull : length kids = (16 * length bs)%nat).
Hypothesis (Hroom : nextbno s + (cost (S (length bs)) - cost (length bs)) <= NBLOCK).

Lemma dir_extend : exists s1 ind1, next_block BLOCK_FILE s = Ret (nextbno s) (taken BLOCK_FILE s) /\
  save_block_link a (Z.of_nat (length bs)) (nextbno s) (taken BLOCK_FILE s) = Ret tt s1 /\
  extends s a bs ind (mem s) s1 ind1.
Proof.
  destruct Hd as [Hr Hp [_ Hs _ _ _ _] Ho Hrg Hself].
  destruct (extend_ok s a bs ind Hr Hp Hs) with (t := BLOCK_FILE) (m := mem s) as (s1 & ind1 & H1 & H2 & H3); try done.
  - by apply NoDup_app in Ho as [? _].
  - by apply Forall_app in Hrg as [? _].
  - intros Hin. apply Hself, elem_of_app. by left.
  - assert (set_mem (mem s) s = s) as E by (by destruct s). rewrite E in H1, H2. by exists s1, ind1.
Qed.

Lemma extend_next : nextbno s < NBLOCK /\ Z.of_nat (length bs) < NINDIRECT.
Proof.
  destruct Hd as [Hr _ _ Ho Hrg _]. apply NoDup_app in Ho as [Ho _]. apply Forall_app in Hrg as [Hrg _].
  destruct (extend_few s bs ind Hr Ho Hrg Hroom). done.
Qed.

(** The new block is zero, and nothing else of the directory changes. *)
Lemma make_link_frame m s1 ind1 x : extends s a bs ind m s1 ind1 -> (forall y, m y = mem s y) ->
  blk x ∈ (bs ++ [nextbno s]) ++ concat us ->
  mem (set_mem (store 4 (mem s1) (a + off_size) (BLOCK_SIZE * Z.of_nat (S (length bs)))) s1) x = mem s x.
Proof.
  intros He Hm Hx. pose proof extend_next as Hex. destruct Hd as [Hr Hp [_ Hs _ _ _ _] Ho Hrg Hself]. pose proof (rd_next _ Hr).
  apply NoDup_app in Ho as (Ho & Ho2 & _). pose proof (proj1 (proj1 (Forall_app _ _ _) Hrg)) as Hrg1.
  rewrite Forall_forall in Hrg.
  assert (blk a ∉ own bs ind) as Hself1 by (intros Hin; apply Hself, elem_of_app; by left).
  assert (blk x <> blk a) as Hne.
  { intros E. rewrite !elem_of_app, list_elem_of_singleton in Hx. destruct Hx as [[Hx|Hx]|Hx].
    - apply Hself1, own_in. left. congruence.
    - destruct Hp as (_ & _ & [?|?]); lia.
    - apply Hself, elem_of_app. right. congruence. }
  assert (forall j, 0 <= j < FILE_STRUCT_SIZE -> x <> a + j) as Hnj.
  { intros j Hj ->. apply Hne. by apply (placed_blk s). }
  cbn. rewrite store_elsewhere by (intros Hin; apply (Hnj (x - a)); ioffs; lia).
  rewrite (ex_mem _ _ _ _ _ _ _ He); [done|intros Hin; apply (Hnj (x - a)); ioffs; lia|].
  intros H0 E. destruct (extends_apart s a bs ind Hp Ho Hrg1 Hself1 m s1 ind1 He H0) as (A1 & A2 & A3).
  rewrite E, !elem_of_app, list_elem_of_singleton in Hx. destruct Hx as [[Hx|Hx]|Hx]; [done|congruence|].
  destruct (ex_ind _ _ _ _ _ _ _ He H0) as [Hin|Hin]; [by apply (Ho2 _ Hin)|].
  specialize (Hrg ind1 ltac:(apply elem_of_app; by right)). lia.
Qed.

(** The state after [make_link_block]. *)
Definition extended (s1 : img) (ind1 : Z) : Prop :=
  nextbno s1 = nextbno s + (cost (S (length bs)) - cost (length bs)) /\
  own (bs ++ [nextbno s]) ind1 ≡ₚ own bs ind ++ fresh s s1 /\
  grew a (own bs ind) s s1 /\ at_dir s1 a kids (bs ++ [nextbno s]) ind1 us.

(** The size field is the last that changes. *)
Lemma size_grew m s1 ind1 v : extends s a bs ind m s1 ind1 ->
  grew a (own bs ind) s (set_mem (store 4 (mem s1) (a + off_size) v) s1).
Proof.
  intros He. pose proof (ad_placed _ _ _ _ _ _ Hd) as Hp. destruct (ex_grew _ _ _ _ _ _ _ He) as [G1 G2 G3 G4].
  split; [|done|done|].
  - apply store_ready; [done| |].
    + rewrite (placed_blk s) by (done || (ioffs; lia)). destruct Hp as (_ & _ & [?|?]); [left; lia|by right].
    + intros x Hx. rewrite (placed_blk s) by (done || (ioffs; lia)). rewrite <- (placed_blk s a (x - a)) by (done || (ioffs; lia)).
      f_equal. lia.
  - intros x Hf Hb Hn. cbn. rewrite store_elsewhere; [by apply G4|]. intros Hx. apply Hf. left. ioffs; lia.
Qed.

Lemma extended_entries s1 ind1 : extends s a bs ind (mem s) s1 ind1 -> (ind1 <> 0 -> blk a <> ind1) ->
  entries (store 4 (mem s1) (a + off_size) (BLOCK_SIZE * Z.of_nat (S (length bs)))) a kids (bs ++ [nextbno s]) ind1 us.
Proof.
  intros He Hi. pose proof (fun x => make_link_frame (mem s) s1 ind1 x He (fun _ => eq_refl)) as Hfr. cbn in Hfr.
  destruct (Hd) as [Hr Hp [E1 E2 E3 E4 E5 E6] _ _ _]. destruct extend_next as [Hlt Hfew]. split.
  - rewrite length_app, load32_store32_same by (ioffs; lia). simpl. lia.
  - apply slots_store_size; [apply He|]. intros x Hx H0 E. apply (Hi H0).
    rewrite <- E, <- (placed_blk s a (x - a)) by (done || (ioffs; lia)). f_equal. lia.
  - rewrite length_app. simpl. lia.
  - done.
  - intros i k u Hk Hu. pose proof (lookup_lt_Some _ _ _ Hk). rewrite place_app by lia.
    apply (kids_frame (mem s) _ kids bs us) with (i := i); try done.
    intros x Hx. apply Hfr. apply elem_of_app. rewrite elem_of_app in Hx |- *. tauto.
  - intros i Hi2 j Hj. rewrite length_app in Hi2. simpl in Hi2.
    assert (blk (place (bs ++ [nextbno s]) i + j) = nextbno s) as E.
    { unfold place. replace (i / 16)%nat with (length bs) by (apply Nat.div_unique with (i - 16 * length bs)%nat; lia).
      rewrite app_nth2, Nat.sub_diag, <- Z.add_assoc by lia. apply in_block.
      pose proof (place_offset i). ioffs; lia. }
    rewrite Hfr; [apply (rd_zero _ Hr); lia|]. rewrite E, !elem_of_app, list_elem_of_singleton. tauto.
Qed.

Lemma make_link_block_ok : exists s1 ind1,
  make_link_block a (Z.of_nat (length bs)) s = Ret (nextbno s) s1 /\ extended s1 ind1.
Proof.
  destruct dir_extend as (s1 & ind1 & H1 & H2 & He). destruct (Hd) as [Hr Hp [E1 Hs _ _ _ _] Ho Hrg Hself].
  pose proof (rd_next _ Hr) as Hn. destruct extend_next as [Hlt Hfew].
  assert (ind1 <> 0 -> blk a <> ind1) as Hi.
  { intros H0. apply (extends_apart s a bs ind) with (m := mem s) (s1 := s1); try done.
    - by apply NoDup_app in Ho as [? _].
    - by apply Forall_app in Hrg as [? _].
    - intros Hin. apply Hself, elem_of_app. by left. }
  set (s2 := set_mem (store 4 (mem s1) (a + off_size) (BLOCK_SIZE * Z.of_nat (S (length bs)))) s1).
  pose proof (size_grew (mem s) s1 ind1 (BLOCK_SIZE * Z.of_nat (S (length bs))) He) as Hg. fold s2 in Hg.
  exists s2, ind1. split.
  - unfold make_link_block. rewrite (bind_ret _ _ _ _ _ H1), (bind_ret _ _ _ _ _ H2), bind_ld, bind_st.
    assert (load 4 (mem s1) (a + off_size) = BLOCK_SIZE * Z.of_nat (length bs)) as ->.
    { rewrite <- E1. apply load_ext. intros x Hx. apply (ex_mem _ _ _ _ _ _ _ He); [ioffs; lia|]. intros H0 Hb.
      apply (Hi H0). rewrite <- Hb, <- (placed_blk s a (x - a)) by (done || (ioffs; lia)). f_equal. lia. }
    unfold u32. rewrite Z.mod_small by (ioffs; lia). unfold s2. do 4 f_equal. lia.
  - destruct (used_extend s s2 a (own bs ind ++ concat us) (own (bs ++ [nextbno s]) ind1 ++ concat us)) as (U1 & U2 & U3);
      try done; [|split; [apply Hn|apply Hg]|apply Hg|].
    { rewrite (ex_own _ _ _ _ _ _ _ He), <- !app_assoc. apply Permutation_app_head, Permutation_app_comm. }
    split_and!; [apply He|apply He|done|]. split; try done; [apply Hg|apply (placed_later s); [done|apply Hg]|].
    by apply extended_entries.
Qed.
End make_link.

(** [create_file] returns an unused entry; the directory has it in a block. *)
Lemma create_file_ok s a kids bs ind us :
  at_dir s a kids bs ind us -> length bs = ceil (length kids) 16 ->
  nextbno s + (cost (ceil (S (length kids)) 16) - cost (length bs)) <= NBLOCK ->
  exists s1 bs1 ind1, create_file a s = Ret (place bs1 (length kids)) s1 /\
    at_dir s1 a kids bs1 ind1 us /\ length bs1 = ceil (S (length kids)) 16 /\
    (length kids < 16 * length bs1)%nat /\
    nextbno s1 = nextbno s + (cost (length bs1) - cost (length bs)) /\
    own bs1 ind1 ≡ₚ own bs ind ++ fresh s s1 /\ grew a (own bs ind) s s1.
Proof.
  intros Hd Hc Hn. pose proof (Nat.div_mod_eq (length kids + 16 - 1) 16). pose proof (Nat.mod_upper_bound (length kids + 16 - 1) 16).
  pose proof (Nat.div_mod_eq (S (length kids) + 16 - 1) 16). pose proof (Nat.mod_upper_bound (S (length kids) + 16 - 1) 16).
  rewrite (create_scan _ _ _ _ _ _ Hd). destruct (decide _) as [Hl|Hl].
  - exists s, bs, ind. assert (length bs = ceil (S (length kids)) 16) as Hc' by (unfold ceil in *; lia).
    split_and!; try done; [lia| |apply grew_refl, Hd]. by rewrite fresh_nil, app_nil_r.
  - assert (length kids = (16 * length bs)%nat) as Hf by (unfold ceil in *; lia).
    assert (ceil (S (length kids)) 16 = S (length bs)) as Hc' by (unfold ceil in *; lia). rewrite Hc' in Hn.
    destruct (make_link_block_ok s a kids bs ind us Hd Hf Hn) as (s1 & ind1 & E & E1 & E2 & E3 & E4).
    exists s1, (bs ++ [nextbno s]), ind1. rewrite (bind_ret _ _ _ _ _ E).
    pose proof (rd_next _ (ad_ready _ _ _ _ _ _ Hd)). pose proof (rd_next _ (gr_ready _ _ _ _ E3)).
    pose proof (cost_S (length bs)) as Hcs.
    rewrite data_ok by (destruct (_ =? NDIRECT) in Hcs; lia). rewrite length_app, Nat.add_1_r.
    split_and!; try done; [|lia]. f_equal.
    unfold place. rewrite Hf, Nat.mul_comm, Nat.div_mul, Nat.Div0.mod_mul, app_nth2, Nat.sub_diag by lia. simpl. lia.
Qed.

(** ** The blocks of a file *)

Lemma write_bytes_in m a l i c : l !! i = Some c -> write_bytes m a l (a + Z.of_nat i) = c.
Proof.
  intros Hi. pose proof (lookup_lt_Some _ _ _ Hi). unfold write_bytes.
  destruct (Z.leb_spec a (a + Z.of_nat i)), (Z.ltb_spec (a + Z.of_nat i) (a + Z.of_nat (length l))); try lia. simpl.
  replace (Z.to_nat (a + Z.of_nat i - a)) with i by lia. by apply nth_lookup_Some.
Qed.

Lemma write_bytes_out m a l x : ~ (a <= x < a + Z.of_nat (length l)) -> write_bytes m a l x = m x.
Proof.
  intros Hx. unfold write_bytes. destruct (Z.leb_spec a x), (Z.ltb_spec x (a + Z.of_nat (length l))); simpl; try done. lia.
Qed.

(** A file under construction: [l] is written. *)
Record at_file (s : img) (a : Z) (bs : list Z) (ind : Z) (l : list Z) : Prop := {
  af_ready : ready s;
  af_placed : placed s a;
  af_slots : slots (mem s) a bs ind;
  af_once : NoDup (own bs ind);
  af_range : Forall (fun b => 3 <= b < nextbno s) (own bs ind);
  af_self : blk a ∉ own bs ind;
  af_content : content (mem s) bs l;
  af_blocks : length bs = ceil (length l) 4096
}.

Lemma ceil_ge n k : (0 < k)%nat -> (n <= k * ceil n k)%nat.
Proof.
  intros Hk. unfold ceil. pose proof (Nat.div_mod_eq (n + k - 1) k). pose proof (Nat.mod_upper_bound (n + k - 1) k). lia.
Qed.

Lemma ceil_mono n n' k : (n <= n')%nat -> (ceil n k <= ceil n' k)%nat.
Proof. intros Hn. unfold ceil. apply Nat.Div0.div_le_mono. lia. Qed.

Lemma cost_mono n n' : (n <= n')%nat -> cost n <= cost n'.
Proof. intros Hn. unfold cost, NDIRECT. destruct (Z.ltb_spec 10 (Z.of_nat n)), (Z.ltb_spec 10 (Z.of_nat n')); lia. Qed.

(** One more block. *)
Lemma ceil_chunk n c : (0 < c <= 4096)%nat -> ceil (4096 * n + c) 4096 = S n.
Proof. intros Hc. unfold ceil. symmetry. apply Nat.div_unique with (c - 1)%nat; lia. Qed.

Lemma content_extend m m' bs b l c : content m bs l -> length l = (4096 * length bs)%nat -> (length c <= 4096)%nat ->
  (forall x, blk x ∈ bs -> m' x = m x) ->
  (forall i v, c !! i = Some v -> m' (b * BLOCK_SIZE + Z.of_nat i) = v) ->
  content m' (bs ++ [b]) (l ++ c).
Proof.
  intros Hl Hn Hc Hold Hnew i v Hi. apply lookup_app_Some in Hi as [Hi|[Hge Hi]].
  - destruct (content_frame _ _ _ _ Hl Hold i v Hi) as (b' & Hb & E). exists b'. split; [|done].
    by apply lookup_app_l_Some.
  - pose proof (lookup_lt_Some _ _ _ Hi). exists b.
    assert (i / 4096 = length bs)%nat as -> by (symmetry; apply Nat.div_unique with (i - length l)%nat; lia).
    assert (i mod 4096 = i - length l)%nat as -> by (symmetry; apply Nat.mod_unique with (length bs); lia).
    split; [|by apply Hnew]. by rewrite lookup_app_r, Nat.sub_diag by done.
Qed.

Lemma at_file_step s a bs ind l c : at_file s a bs ind l ->
  length l = (4096 * length bs)%nat -> (0 < length c <= 4096)%nat ->
  nextbno s + (cost (S (length bs)) - cost (length bs)) <= NBLOCK ->
  exists s1 ind1,
    data (nextbno s) s = Ret (nextbno s * BLOCK_SIZE) s /\
    (forall B (f : Z -> M img B), (put_bytes (nextbno s * BLOCK_SIZE) c ;; b ← next_block BLOCK_DATA;
       save_block_link a (Z.of_nat (length bs)) b ;; f b) s = f (nextbno s) s1) /\
    at_file s1 a (bs ++ [nextbno s]) ind1 (l ++ c) /\
    own (bs ++ [nextbno s]) ind1 ≡ₚ own bs ind ++ fresh s s1 /\ grew a (own bs ind) s s1 /\
    nextbno s1 = nextbno s + (cost (S (length bs)) - cost (length bs)) /\
    load 4 (mem s1) (a + off_size) = load 4 (mem s) (a + off_size).
Proof.
  intros [Hr Hp Hs Ho Hrg Hself Hc Hb] Hl Hlc Hroom. pose proof (rd_next _ Hr).
  destruct (extend_few s bs ind Hr Ho Hrg Hroom) as [Hfew Hlt].
  set (m := write_bytes (mem s) (nextbno s * BLOCK_SIZE) c).
  assert (forall x, blk x <> nextbno s -> m x = mem s x) as Hm.
  { intros x Hx. apply write_bytes_out. intros Hin. apply Hx.
    replace x with (nextbno s * BLOCK_SIZE + (x - nextbno s * BLOCK_SIZE)) by lia. apply in_block. unfold BLOCK_SIZE in *. lia. }
  destruct (extend_ok s a bs ind Hr Hp Hs Ho Hrg Hself Hroom BLOCK_DATA m Hm) as (s1 & ind1 & E1 & E2 & He).
  assert (ind1 <> 0 -> blk a <> ind1 /\ nextbno s <> ind1 /\ ind1 ∉ bs) as Hi
    by (intros; by apply (extends_apart s a bs ind Hp Ho Hrg Hself m s1 ind1)).
  exists s1, ind1. split_and!; [apply data_ok; lia| | |apply He|apply He|apply He|].
  { intros B f. unfold put_bytes. rewrite bind_modify. fold m. by rewrite (bind_ret _ _ _ _ _ E1), (bind_ret _ _ _ _ _ E2). }
  2: { apply load_ext. intros x Hx. assert (blk x = blk a) as E.
    { rewrite <- (placed_blk s a (x - a)) by (done || (ioffs; lia)). f_equal. lia. }
    rewrite (ex_mem _ _ _ _ _ _ _ He), Hm; [done| |ioffs; lia|]; rewrite E; [destruct Hp as (_ & _ & [?|?]); lia|apply Hi]. }
  destruct (used_extend s s1 a (own bs ind) (own (bs ++ [nextbno s]) ind1)) as (U1 & U2 & U3);
    [apply He|done|split; [lia|apply He]|apply He|done..|].
  assert (forall x, blk x <> blk a -> blk x ∈ bs ++ [nextbno s] -> mem s1 x = m x) as Hsame.
  { intros x Hx Hin. apply (ex_mem _ _ _ _ _ _ _ He).
    - intros Hx'. apply Hx. rewrite <- (placed_blk s a (x - a)) by (done || (ioffs; lia)). f_equal. lia.
    - intros H0 E. destruct (Hi H0) as (_ & N1 & N2). rewrite E in Hin.
      apply elem_of_app in Hin as [?|?%list_elem_of_singleton]; congruence. }
  split; [apply He|apply (placed_later s); [done|apply He]|apply He|done|done|done| |].
  - apply (content_extend (mem s)); [done..|lia| |].
    + intros x Hx. assert (blk x <> nextbno s) as Hne.
      { rewrite Forall_forall in Hrg. specialize (Hrg (blk x) ltac:(apply own_in; by left)). lia. }
      rewrite Hsame; [by apply Hm| |apply elem_of_app; by left]. intros E. apply Hself, own_in. left. congruence.
    + intros i v Hi'. pose proof (lookup_lt_Some _ _ _ Hi').
      assert (blk (nextbno s * BLOCK_SIZE + Z.of_nat i) = nextbno s) as E by (apply in_block; unfold BLOCK_SIZE; lia).
      rewrite Hsame; [by apply write_bytes_in|rewrite E; destruct Hp as (_ & _ & [?|?]); lia|].
      rewrite E. apply elem_of_app. right. by apply list_elem_of_singleton.
  - rewrite !length_app, Hl, ceil_chunk by lia. simpl. lia.
Qed.

Lemma BLOCK_nat : Z.to_nat BLOCK_SIZE = 4096%nat.
Proof. unfold BLOCK_SIZE. lia. Qed.

Lemma next_chunk K r l b : l = (K * b)%nat ->
  (r - K = 0 \/ l + Nat.min K r = K * S b)%nat /\ (l + Nat.min K r + (r - K) = l + r)%nat.
Proof. intros ->. lia. Qed.

Lemma read_loop_ok fuel : forall rest s a bs ind l, (length rest <= fuel)%nat ->
  at_file s a bs ind l -> (rest = [] \/ length l = (4096 * length bs)%nat) ->
  nextbno s + (cost (ceil (length l + length rest) 4096) - cost (length bs)) <= NBLOCK ->
  exists s' bs' ind', read_loop fuel a (Z.of_nat (length bs)) rest s = Ret tt s' /\
    at_file s' a bs' ind' (l ++ rest) /\ own bs' ind' ≡ₚ own bs ind ++ fresh s s' /\
    grew a (own bs ind) s s' /\ nextbno s' = nextbno s + (cost (length bs') - cost (length bs)) /\
    load 4 (mem s') (a + off_size) = load 4 (mem s) (a + off_size).
Proof.
  induction fuel as [|fuel IH]; intros rest s a bs ind l Hfuel Hf Hal Hroom.
  all: assert (rest = [] -> exists s' bs' ind', Ret tt s = Ret tt s' /\
    at_file s' a bs' ind' (l ++ rest) /\ own bs' ind' ≡ₚ own bs ind ++ fresh s s' /\
    grew a (own bs ind) s s' /\ nextbno s' = nextbno s + (cost (length bs') - cost (length bs)) /\
    load 4 (mem s') (a + off_size) = load 4 (mem s) (a + off_size)) as Hdone
    by (intros ->; exists s, bs, ind; rewrite app_nil_r, fresh_nil, app_nil_r by done;
        split_and!; [done..|apply grew_refl, Hf|lia|done]).
  { destruct rest; [by apply Hdone|simpl in Hfuel; lia]. }
  destruct (decide (rest = [])) as [E|Hne]; [subst; by apply Hdone|]. clear Hdone.
  destruct Hal as [|Hal]; [done|]. set (c := take (Z.to_nat BLOCK_SIZE) rest). set (rest' := drop (Z.to_nat BLOCK_SIZE) rest).
  assert (l ++ rest = (l ++ c) ++ rest') as Erest by (unfold c, rest'; by rewrite <- app_assoc, take_drop).
  assert (0 < length rest)%nat as Hpos by (destruct rest; [done|simpl; lia]).
  assert (length c = Nat.min 4096 (length rest)) as Hlc by (unfold c; by rewrite length_take, BLOCK_nat).
  assert (length rest' = (length rest - 4096)%nat) as Hlr by (unfold rest'; by rewrite length_drop, BLOCK_nat).
  pose proof (next_chunk 4096 (length rest) (length l) (length bs) Hal) as Hch.
  pose proof (ceil_mono (length l + length c) (length l + length rest) 4096 ltac:(lia)) as Hmono.
  rewrite Hal in Hmono at 1. rewrite ceil_chunk in Hmono by lia.
  destruct (at_file_step s a bs ind l c Hf Hal ltac:(lia)) as (s1 & ind1 & D1 & D2 & Hf1 & Hp1 & Hg1 & Hn1 & Hz1).
  { pose proof (cost_mono _ _ Hmono). lia. }
  destruct (IH rest' s1 a (bs ++ [nextbno s]) ind1 (l ++ c)) as (s2 & bs2 & ind2 & E2 & Hf2 & Hp2 & Hg2 & Hn2 & Hz2); [lia|done| | |].
  { rewrite !length_app, Hlc, Nat.add_1_r. destruct Hch as [[E|E] _]; [left; apply nil_length_inv; congruence|by right]. }
  { rewrite !length_app, Hlc, Hlr, (proj2 Hch), Nat.add_1_r. lia. }
  rewrite length_app, Nat.add_1_r in E2, Hn2. rewrite Nat2Z.inj_succ in E2.
  exists s2, bs2, ind2. split_and!.
  - destruct rest; [done|]. cbn [read_loop]. rewrite bind_get, (bind_ret _ _ _ _ _ D1). fold c rest'.
    rewrite (D2 unit (fun _ => read_loop fuel a (Z.of_nat (length bs) + 1) rest')). exact E2.
  - by rewrite Erest.
  - rewrite Hp2, Hp1, <- app_assoc, <- fresh_trans; [done|apply Hg1|apply Hg2].
  - apply (grew_trans _ _ _ _ _ _ Hg1 Hg2). intros b Hb. rewrite Hp1 in Hb.
    apply elem_of_app in Hb as [?|Hb]; [by left|right; by apply fresh_in].
  - lia.
  - congruence.
Qed.

(** ** A directory gets one more entry *)

Lemma place_apart bs i i' j : NoDup bs -> i <> i' -> (i < 16 * length bs)%nat -> (i' < 16 * length bs)%nat ->
  0 <= j < FILE_STRUCT_SIZE -> ~ (place bs i' <= place bs i + j < place bs i' + FILE_STRUCT_SIZE).
Proof.
  intros Hn Hne Hi Hi' Hj Hin. destruct (place_nth bs i Hi) as (b & Hb & E), (place_nth bs i' Hi') as (b' & Hb' & E').
  pose proof (place_offset i). pose proof (place_offset i').
  pose proof (Nat.div_mod_eq i 16). pose proof (Nat.div_mod_eq i' 16).
  assert (b = b') as ->.
  { rewrite <- (in_block b (place bs i + j - b * BLOCK_SIZE)), <- (in_block b' (place bs i + j - b' * BLOCK_SIZE)) by lia.
    f_equal. lia. }
  pose proof (NoDup_lookup _ _ _ _ Hn Hb Hb'). rewrite E, E' in Hin. unfold FILE_STRUCT_SIZE in *. lia.
Qed.

(** The blocks below a directory, and what it takes to add to it. *)
Definition used (bs : list Z) (ind : Z) (us : list (list Z)) : list Z := own bs ind ++ concat us.
Definition dir_cost (kids : list node) : Z := cost (ceil (length kids) 16).
Definition total (l : list Z) : Z := fold_right Z.add 0 l.
Fixpoint need (t : node) : Z :=
  match t with
  | NFile _ bytes => cost (ceil (length bytes) 4096)
  | NDir _ kids => dir_cost kids + total (map need kids)
  end.
Definition needs (ks : list node) : Z := total (map need ks).

Record filled (s' : img) (a : Z) (kids : list node) (bs : list Z) (ind : Z) (us : list (list Z)) : Prop := {
  fi_dir : at_dir s' a kids bs ind us;
  fi_blocks : length bs = ceil (length kids) 16
}.

(** [ks] were added to a directory that had [kids]. *)
Definition added (a : Z) (kids ks : list node) (bs : list Z) (ind : Z) (us : list (list Z)) (s s' : img) : Prop :=
  exists bs' ind' us', filled s' a (kids ++ ks) bs' ind' us' /\
    nextbno s' = nextbno s + (dir_cost (kids ++ ks) - dir_cost kids) + needs ks /\
    used bs' ind' us' ≡ₚ used bs ind us ++ fresh s s' /\
    (forall b, b ∈ own bs' ind' -> b ∈ own bs ind \/ nextbno s <= b < nextbno s') /\
    grew a (own bs ind) s s'.

Lemma fill_entry s1 s2 a kids bs ind us k u :
  at_dir s1 a kids bs ind us -> (length kids < 16 * length bs)%nat -> ready s2 ->
  nextbno s1 <= nextbno s2 -> out s2 = out s1 ->
  (forall x, ~ (place bs (length kids) <= x < place bs (length kids) + FILE_STRUCT_SIZE) ->
     ~ (nextbno s1 <= blk x < nextbno s2) -> mem s2 x = mem s1 x) ->
  holds (mem s2) (place bs (length kids)) k u -> u ≡ₚ fresh s1 s2 ->
  at_dir s2 a (kids ++ [k]) bs ind (us ++ [u]) /\ used bs ind (us ++ [u]) ≡ₚ used bs ind us ++ fresh s1 s2 /\
  grew a (own bs ind) s1 s2.
Proof.
  intros [Hr Hp [E1 E2 E3 E4 E5 E6] Ho Hrg Hself] Hl Hr2 Hn Hout Hmem Hk Hu.
  set (p := place bs (length kids)) in *. pose proof (rd_next _ Hr). pose proof (rd_next _ Hr2).
  assert (forall x, p <= x < p + FILE_STRUCT_SIZE -> blk x ∈ bs) as Hpb.
  { intros x Hx. replace x with (p + (x - p)) by lia. apply place_blk; [done|lia]. }
  assert (used bs ind (us ++ [u]) ≡ₚ used bs ind us ++ fresh s1 s2) as Hperm.
  { unfold used. rewrite concat_app. cbn. by rewrite app_nil_r, Hu, app_assoc. }
  destruct (used_extend s1 s2 a (used bs ind us) (used bs ind (us ++ [u])) Hperm Hp) as (U1 & U2 & U3); try done; [lia|lia|].
  pose proof Hrg as Hrg'. rewrite Forall_forall in Hrg'.
  assert (forall x, blk x ∈ used bs ind us -> blk x ∉ bs -> mem s2 x = mem s1 x) as Hkeep.
  { intros x Hx Hb. apply Hmem; [intros Hx'; by apply Hb, Hpb|]. specialize (Hrg' _ Hx). lia. }
  assert (forall i, 0 <= i < FILE_STRUCT_SIZE -> mem s2 (a + i) = mem s1 (a + i)) as Hhead.
  { intros i Hi. apply Hmem.
    - intros Hx. apply Hself, elem_of_app. left. apply own_in. left. rewrite <- (placed_blk s1 a i) by done. by apply Hpb.
    - rewrite (placed_blk s1) by done. destruct Hp as (_ & _ & [?|?]); lia. }
  assert (forall i j, i <> length kids -> (i < 16 * length bs)%nat -> 0 <= j < FILE_STRUCT_SIZE ->
    mem s2 (place bs i + j) = mem s1 (place bs i + j)) as Hent.
  { intros i j Hi Hi' Hj. apply Hmem.
    - apply place_apart; try done. apply NoDup_app in Ho as [Ho _]. by apply NoDup_app in Ho as [? _].
    - specialize (Hrg' (blk (place bs i + j)) ltac:(apply elem_of_app; left; apply own_in; left; by apply place_blk)). lia. }
  split_and!; [|done|].
  - split; try done; [apply (placed_later s1); done|].
    split.
    + rewrite <- E1. apply load_move. intros i Hi. rewrite <- !Z.add_assoc. apply Hhead. ioffs; lia.
    + apply (slots_move (mem s1) _ a a); [intros; apply Hhead; ioffs; lia|done|]. intros x Hi0 Hx.
      apply Hkeep; [apply elem_of_app; left; apply own_in; by right|]. intros Hb.
      apply NoDup_app in Ho as [Ho _]. unfold own in Ho. rewrite (proj2 (Z.eqb_neq _ _) Hi0) in Ho.
      apply NoDup_app in Ho as (_ & Ho & _). apply (Ho _ Hb). by apply list_elem_of_singleton.
    + rewrite length_app. simpl. lia.
    + rewrite !length_app. simpl. lia.
    + intros i k' u' Hi Hu'. apply lookup_snoc_Some in Hi as [[Hl' Hi]|[-> <-]].
      * rewrite lookup_app_l in Hu' by lia. apply (holds_frame (mem s1)); [by eauto|..].
        -- intros j Hj. apply Hent; [lia|lia|ioffs; lia].
        -- intros x Hx. assert (blk x ∈ concat us) as Hin by by eapply in_concat_lookup.
           apply Hkeep; [apply elem_of_app; by right|]. intros Hb. apply NoDup_app in Ho as (_ & Ho & _).
           apply (Ho (blk x)); [apply own_in; by left|done].
      * rewrite lookup_app_r, E4, Nat.sub_diag in Hu' by lia. by injection Hu' as <-.
    + intros i Hi j Hj. rewrite length_app in Hi. simpl in Hi. rewrite Hent by (ioffs; lia). by apply E6; [lia|].
  - split; try done. intros x Hf Hx Hnx. apply Hmem; [|done]. intros Hx'. apply Hx, own_in. left. by apply Hpb.
Qed.

Lemma sum_app l l' : total (l ++ l') = total l + total l'.
Proof. unfold total. rewrite foldr_app. induction l as [|x l IH]; simpl; lia. Qed.

Lemma needs_app l l' : needs (l ++ l') = needs l + needs l'.
Proof. unfold needs. by rewrite map_app, sum_app. Qed.

Lemma file_cost n : Z.of_nat n <= 4096 * cost (ceil n 4096).
Proof.
  assert (Z.of_nat (ceil n 4096) <= cost (ceil n 4096)) by (unfold cost; destruct (_ <? _); lia).
  pose proof (ceil_ge n 4096 ltac:(lia)). lia.
Qed.

Lemma cost_nonneg n : 0 <= cost n.
Proof. unfold cost. destruct (_ <? _); lia. Qed.

Lemma dir_cost_mono kids ks : dir_cost kids <= dir_cost (kids ++ ks).
Proof. apply cost_mono, ceil_mono. rewrite length_app. lia. Qed.

Lemma total_nonneg l : Forall (fun x => 0 <= x) l -> 0 <= total l.
Proof. induction 1; simpl; [done|]. unfold total in *. lia. Qed.

Lemma need_nonneg t : 0 <= need t.
Proof.
  induction t as [nm bytes|nm kids IH] using node_ind'; simpl; [apply cost_nonneg|].
  pose proof (cost_nonneg (ceil (length kids) 16)). apply Forall_map in IH. apply total_nonneg in IH. unfold dir_cost. lia.
Qed.

Lemma needs_nonneg ks : 0 <= needs ks.
Proof. apply total_nonneg, Forall_map, Forall_forall. intros. apply need_nonneg. Qed.

Lemma added_nil a kids bs ind us s : filled s a kids bs ind us -> added a kids [] bs ind us s s.
Proof.
  intros Hf. exists bs, ind, us. rewrite app_nil_r, fresh_nil, app_nil_r by done.
  split_and!; [done|unfold needs; simpl; lia|done|by left|]. apply grew_refl, (fi_dir _ _ _ _ _ _ Hf).
Qed.

Lemma added_trans a kids ks ks' bs ind us bs1 ind1 us1 s s1 s2 :
  used bs1 ind1 us1 ≡ₚ used bs ind us ++ fresh s s1 -> nextbno s1 = nextbno s + (dir_cost (kids ++ ks) - dir_cost kids) + needs ks ->
  (forall b, b ∈ own bs1 ind1 -> b ∈ own bs ind \/ nextbno s <= b < nextbno s1) -> grew a (own bs ind) s s1 ->
  added a (kids ++ ks) ks' bs1 ind1 us1 s1 s2 -> added a kids (ks ++ ks') bs ind us s s2.
Proof.
  intros H1 H2 H3 H4 (bs2 & ind2 & us2 & A1 & A2 & A3 & A4 & A5). exists bs2, ind2, us2.
  rewrite app_assoc, needs_app. split_and!; [done|lia| | |by apply (grew_trans _ _ _ _ _ _ H4 A5)].
  - rewrite A3, H1, <- app_assoc, <- fresh_trans; [done|apply H4|apply A5].
  - pose proof (gr_next _ _ _ _ H4). pose proof (gr_next _ _ _ _ A5).
    intros b Hb. destruct (A4 b Hb) as [Hb'|Hb']; [destruct (H3 b Hb'); [by left|right; lia]|right; lia].
Qed.

(** The entry [create_file] gives, once it holds [k]. *)
Lemma entry_added s s1 s2 a kids bs ind us bs1 ind1 k u :
  length bs = ceil (length kids) 16 -> grew a (own bs ind) s s1 -> at_dir s1 a kids bs1 ind1 us ->
  length bs1 = ceil (S (length kids)) 16 -> (length kids < 16 * length bs1)%nat ->
  nextbno s1 = nextbno s + (cost (length bs1) - cost (length bs)) -> own bs1 ind1 ≡ₚ own bs ind ++ fresh s s1 ->
  ready s2 -> out s2 = out s1 -> nextbno s2 = nextbno s1 + need k ->
  (forall x, ~ (place bs1 (length kids) <= x < place bs1 (length kids) + FILE_STRUCT_SIZE) ->
     ~ (nextbno s1 <= blk x < nextbno s2) -> mem s2 x = mem s1 x) ->
  holds (mem s2) (place bs1 (length kids)) k u -> u ≡ₚ fresh s1 s2 ->
  added a kids [k] bs ind us s s2.
Proof.
  intros Hb Hg Hd1 Hb1 Hl Hn Hp Hr Ho Hn2 Hmem Hk Hu. pose proof (need_nonneg k).
  destruct (fill_entry s1 s2 a kids bs1 ind1 us k u Hd1 Hl Hr ltac:(lia) Ho Hmem Hk Hu) as (F1 & F2 & F3).
  exists bs1, ind1, (us ++ [u]). split_and!.
  - split; [done|]. by rewrite length_app, Nat.add_1_r.
  - unfold dir_cost, needs. rewrite length_app, Nat.add_1_r, <- Hb1, <- Hb. simpl. lia.
  - rewrite F2, (fresh_trans s s1 s2) by (apply Hg || apply F3). unfold used. rewrite Hp, <- !app_assoc.
    apply Permutation_app_head. rewrite !app_assoc. apply Permutation_app_tail, Permutation_app_comm.
  - intros b Hin. rewrite Hp in Hin. pose proof (gr_next _ _ _ _ F3).
    apply elem_of_app in Hin as [?|Hin%fresh_in]; [by left|right; lia].
  - apply (grew_trans _ _ _ _ _ _ Hg F3). intros b Hin. rewrite Hp in Hin.
    apply elem_of_app in Hin as [?|Hin%fresh_in]; [by left|by right].
Qed.

(** ** Names *)

Lemma after_slash_none p : Forall (fun c => c <> 47) p -> after_slash p = None.
Proof. induction 1 as [|c p Hc Hp IH]; [done|]. simpl. rewrite IH. by rewrite (proj2 (Z.eqb_neq c 47)). Qed.

Lemma after_slash_app p q : Forall (fun c => c <> 47) q -> after_slash (p ++ 47 :: q) = Some q.
Proof.
  intros Hq. induction p as [|c p IH]; simpl; [by rewrite after_slash_none|]. by rewrite IH.
Qed.

(** The name of a path is what was put after its last slash. *)
Lemma fname_app p q : Forall (fun c => c <> 47) q -> fname (p ++ 47 :: q) = q.
Proof. intros Hq. unfold fname. by rewrite after_slash_app. Qed.

(** A new entry gets its name: the state changes in the name only. *)
Definition named (a : Z) (nm : list Z) (s s' : img) : Prop :=
  type s' = type s /\ nbitblock s' = nbitblock s /\ nextbno s' = nextbno s /\ out s' = out s /\
  (forall x, ~ (a <= x < a + MAXNAMELEN) -> mem s' x = mem s x) /\ name_at (mem s') a nm.

Lemma strcpy_named a nm s : Z.of_nat (length nm) < MAXNAMELEN ->
  exists s', strcpy_name a nm s = Ret tt s' /\ named a nm s s'.
Proof.
  intros Hl. unfold strcpy_name. rewrite (proj2 (Z.ltb_lt _ _) Hl). eexists. split; [reflexivity|].
  split_and!; try done.
  - intros x Hx. apply write_bytes_out. rewrite length_app. simpl. lia.
  - intros i c Hi. by apply write_bytes_in.
Qed.

Lemma strncpy_named a nm s : Z.of_nat (length nm) < MAXNAMELEN -> mem s (a + (MAXNAMELEN - 1)) = 0 ->
  exists s', strncpy a nm (Z.to_nat (MAXNAMELEN - 1)) s = Ret tt s' /\ named a nm s s' /\
    mem s' (a + (MAXNAMELEN - 1)) = 0.
Proof.
  intros Hl Hz. unfold strncpy, MAXNAMELEN in *. change (Z.to_nat (128 - 1)) with 127%nat.
  rewrite take_ge by lia. eexists. split; [reflexivity|].
  assert (length (nm ++ replicate (127 - length nm) 0) = 127%nat) as Hlen by (rewrite length_app, length_replicate; lia).
  assert (write_bytes (mem s) a (nm ++ replicate (127 - length nm) 0) (a + (128 - 1)) = 0) as Hlast.
  { rewrite write_bytes_out; [done|]. rewrite Hlen. lia. }
  split_and!; try done.
  split_and!; try done.
  - intros x Hx. apply write_bytes_out. rewrite Hlen. unfold MAXNAMELEN in *. lia.
  - intros i c Hi. cbn. apply lookup_app_Some in Hi as [Hi|[Hge Hi]].
    + apply write_bytes_in. by apply lookup_app_l_Some.
    + apply list_lookup_singleton_Some in Hi as [Hi <-]. replace i with (length nm) by lia.
      destruct (Nat.eq_dec (length nm) 127%nat) as [E|E].
      * replace (a + Z.of_nat (length nm)) with (a + (128 - 1)) by lia. exact Hlast.
      * apply write_bytes_in. rewrite lookup_app_r, Nat.sub_diag by done. apply lookup_replicate_2. lia.
Qed.
