(* ===== verification/FsTree.v ===== *)
(** The image that tools/fsformat.c builds holds the files it was given: the
    super block, the bitmap, and a tree of directories and files whose blocks
    are apart and are exactly the blocks marked as used. *)
From S2P Require Import Prelude Mem FsBlock FsFile FsImage Fsformat FsBuild.

(** ** The host's files *)

Definition dir_node (t : node) : bool := match t with NFile _ _ => false | NDir _ _ => true end.

Section host.
Context (H : host).

(** The path leads to a file or directory of the host that is [t], and its
    names fit the disk's.  The entries "." and ".." of a directory are not
    among its children. *)
Inductive shows : list Z -> node -> Prop :=
  | shows_file path bytes :
      name_ok (fname path) -> h_open H path = Some bytes -> shows path (NFile (fname path) bytes)
  | shows_dir path es kids :
      let nm := (basename path).1 in let path' := (basename path).2 in
      name_ok nm -> h_opendir H path = Some es ->
      Forall2 (fun e k => is_dir e = dir_node k /\ shows (path' ++ [47] ++ d_name e) k)
        (filter (fun e => is_dots (d_name e) = false) es) kids ->
      shows path (NDir nm kids).

(** The depth of the recursion. *)
Fixpoint height (t : node) : nat :=
  match t with NFile _ _ => O | NDir _ kids => S (fold_right Nat.max O (map height kids)) end.

Lemma height_kid nm kids k : k ∈ kids -> (S (height k) <= height (NDir nm kids))%nat.
Proof.
  intros Hk. simpl. apply le_n_S. induction Hk as [k l|k l l' Hk IH]; simpl; lia.
Qed.

(** Writing [t], a child of the directory at [a]. *)
Definition write_node (fuel : nat) (a : Z) (path : list Z) (t : node) : M img unit :=
  if dir_node t then write_directory H fuel a path else write_file H a path.

Definition writes (f : Z -> M img unit) (ks : list node) : Prop :=
  forall s a kids bs ind us, filled s a kids bs ind us ->
    nextbno s + (dir_cost (kids ++ ks) - dir_cost kids) + needs ks <= NBLOCK ->
    exists s', f a s = Ret tt s' /\ added a kids ks bs ind us s s'.

(** What a store to the header of an entry changes. *)
Lemma header_ready s s' a n : ready s -> placed s a -> nextbno s' = nextbno s -> n <= FILE_STRUCT_SIZE ->
  (forall x, ~ (a <= x < a + n) -> mem s' x = mem s x) -> ready s'.
Proof.
  intros [R1 R2] Hp E Hn Hm. split; [lia|]. intros x Hx. rewrite Hm; [apply R2; lia|]. intros Hin.
  pose proof (placed_blk s a (x - a) Hp ltac:(lia)) as Hb. replace (a + (x - a)) with x in Hb by lia.
  destruct Hp as (_ & _ & [?|?]); lia.
Qed.

Lemma blank_field m a o : blank m a -> 0 <= o -> o + 4 <= ENTRY -> load 4 m (a + o) = 0.
Proof.
  intros Hb Ho Ho'. transitivity (load 4 (fun _ => 0) 0); [|apply load_zero].
  apply load_move. intros i Hi. rewrite <- Z.add_assoc. apply Hb. lia.
Qed.

(** An entry without blocks. *)
Lemma slots_blank m m' a : blank m a -> (forall x, a + off_direct <= x < a + ENTRY -> m' x = m x) -> slots m' a [] 0.
Proof.
  intros Hb Hm. split; [|done|split; [done|done]|done].
  rewrite <- (blank_field m a off_indirect Hb) by done. apply load_ext. intros x Hx. apply Hm. ioffs; lia.
Qed.

(** The entry that [create_file] returns. *)
Lemma new_entry s a kids bs ind us : at_dir s a kids bs ind us -> (length kids < 16 * length bs)%nat ->
  placed s (place bs (length kids)) /\ blank (mem s) (place bs (length kids)) /\
  3 <= blk (place bs (length kids)) < nextbno s.
Proof.
  intros Hd Hl. destruct Hd as [_ _ [_ _ _ _ _ Hb] _ Hr _]. destruct (place_nth bs _ Hl) as (b & Hi & E).
  pose proof (place_offset (length kids)). rewrite Forall_forall in Hr.
  specialize (Hr b ltac:(apply elem_of_app; left; apply own_in; left; by eapply list_elem_of_lookup_2)).
  assert (blk (place bs (length kids)) = b) as Eb by (rewrite E; apply in_block; unfold FILE_STRUCT_SIZE in *; lia).
  split_and!; [|by apply Hb|lia|lia]. unfold placed. rewrite Eb. split_and!; [| |lia].
  - rewrite E. unfold BLOCK_SIZE in *. lia.
  - rewrite E, (Z.add_comm (b * BLOCK_SIZE)), Z.mod_add, Z.mod_small by (unfold FILE_STRUCT_SIZE, BLOCK_SIZE in *; lia). lia.
Qed.

Lemma load4_store_skip m a o o' v : o + 4 <= o' \/ o' + 4 <= o ->
  load 4 (store 4 m (a + o) v) (a + o') = load 4 m (a + o').
Proof. intros Ho. apply load_store_other. unfold disjoint_range. lia. Qed.

(** The header of a file: its name, size and type. *)
Lemma file_header p nm size s : placed s p -> ready s -> blank (mem s) p -> 3 <= blk p -> Z.of_nat (length nm) < MAXNAMELEN -> 0 <= size < 2 ^ 32 ->
  exists s', (strcpy_name p nm ;; st 4 (p + off_size) size ;; st 4 (p + off_type) FTYPE_REG) s = Ret tt s' /\
    at_file s' p [] 0 [] /\ name_at (mem s') p nm /\ load 4 (mem s') (p + off_size) = size /\
    load 4 (mem s') (p + off_type) = FTYPE_REG /\ nextbno s' = nextbno s /\ out s' = out s /\
    (forall x, ~ (p <= x < p + off_direct) -> mem s' x = mem s x).
Proof.
  intros Hp Hr Hb Hblk Hl Hsz. destruct (strcpy_named p nm s Hl) as (s1 & E1 & N1 & N2 & N3 & N4 & N5 & N6).
  rewrite (bind_ret _ _ _ _ _ E1), bind_st. eexists. split; [reflexivity|]. cbn [mem nextbno out set_mem].
  set (m := store 4 (store 4 (mem s1) (p + off_size) size) (p + off_type) FTYPE_REG).
  assert (forall x, ~ (p <= x < p + off_direct) -> m x = mem s x) as Hm.
  { intros x Hx. unfold m. rewrite !store_elsewhere, N5 by (unfold MAXNAMELEN in *; ioffs; lia). done. }
  split_and!; try done.
  - split; cbn; try done; try (by constructor).
    + by apply (header_ready s _ p off_direct).
    + apply (placed_later s); [done|cbn; lia].
    + apply (slots_blank (mem s)); [done|]. intros x Hx. apply Hm. ioffs; lia.
    + by apply not_elem_of_nil.
  - intros i c Hi. pose proof (lookup_lt_Some _ _ _ Hi) as Hlt. rewrite length_app in Hlt. simpl in Hlt.
    unfold m. rewrite !store_elsewhere by (unfold MAXNAMELEN in *; ioffs; lia). by apply N6.
  - unfold m. rewrite load4_store_skip by (ioffs; lia). by apply load32_store32_same.
  - unfold m. by apply load32_store32_same.
Qed.

Lemma write_file_ok path t : shows path t -> dir_node t = false -> writes (fun a => write_file H a path) [t].
Proof.
  intros Hs Ht. inversion Hs as [? bytes Hname Hopen|]; subst; [|done]. clear Hs Ht.
  set (t := NFile (fname path) bytes).
  intros s a kids bs ind us [Hd Hb] Hroom. change (needs [t]) with (need t + 0) in Hroom.
  assert (length (kids ++ [t]) = S (length kids)) as Hk by (rewrite length_app; simpl; lia).
  unfold dir_cost in Hroom. rewrite Hk, <- Hb in Hroom. pose proof (need_nonneg t).
  destruct (create_file_ok s a kids bs ind us Hd Hb ltac:(lia)) as (s1 & bs1 & ind1 & E1 & Hd1 & Hb1 & Hl1 & Hn1 & Hp1 & Hg1).
  set (p := place bs1 (length kids)) in *.
  destruct (new_entry _ _ _ _ _ _ Hd1 Hl1) as (Hpl & Hbl & Hblk). fold p in Hpl, Hbl, Hblk.
  pose proof (rd_next _ (ad_ready _ _ _ _ _ _ Hd)) as Hnx. pose proof (rd_next _ (ad_ready _ _ _ _ _ _ Hd1)) as Hnx1.
  pose proof Hroom as Hsize. change (need t) with (cost (ceil (length bytes) 4096)) in Hsize.
  assert (0 <= Z.of_nat (length bytes) < 2 ^ 32) as Hsz.
  { pose proof (file_cost (length bytes)). rewrite Hb1 in Hn1. unfold NBLOCK in *. lia. }
  destruct (file_header p (fname path) (Z.of_nat (length bytes)) s1 Hpl (ad_ready _ _ _ _ _ _ Hd1) Hbl ltac:(lia)
    ltac:(apply Hname) Hsz) as (s2 & E2 & Hf2 & N1 & N2 & N3 & N4 & N5 & N6).
  destruct (read_loop_ok (length bytes) bytes s2 p [] 0 [] ltac:(lia) Hf2 (or_intror eq_refl))
    as (s3 & bs3 & ind3 & E3 & Hf3 & Hp3 & Hg3 & Hn3 & Hz3).
  { rewrite N4. change (cost (length (@nil Z))) with 0. change (length (@nil Z) + length bytes)%nat with (length bytes).
    rewrite Hb1 in Hn1. lia. }
  change (Z.of_nat (length [])) with 0 in E3. change (cost (length (@nil Z))) with 0 in Hn3. rewrite own_nil in *.
  cbn [app] in Hf3, Hp3. exists s3. split.
  - unfold write_file. rewrite (bind_ret _ _ _ _ _ E1). fold p. rewrite Hopen. cbv zeta.
    unfold u32. rewrite Z.mod_small by done.
    rewrite <- bind_assoc in E2. rewrite <- bind_assoc, <- bind_assoc. rewrite (bind_ret _ _ _ _ _ E2). exact E3.
  - assert (forall x, p <= x < p + off_direct -> ~ link_field p x -> mem s3 x = mem s2 x) as Hkeep.
    { intros x Hx Hf. apply (gr_mem _ _ _ _ Hg3); [done|by apply not_elem_of_nil|].
      pose proof (placed_blk s1 p (x - p) Hpl ltac:(ioffs; lia)) as Hbx. replace (p + (x - p)) with x in Hbx by lia. lia. }
    assert (forall o, 0 <= o < FILE_STRUCT_SIZE -> blk (p + o) = blk p) as Hpb by (intros; by apply (placed_blk s1)).
    destruct Hf3 as [F1 F2 F3 F4 F5 F6 F7 F8]. pose proof (gr_next _ _ _ _ Hg3).
    apply (entry_added s s1 s3 a kids bs ind us bs1 ind1 t (own bs3 ind3)); try done.
    + rewrite (gr_out _ _ _ _ Hg3). done.
    + change (need t) with (cost (ceil (length bytes) 4096)). rewrite <- F8. lia.
    + fold p. intros x Hx Hfr. rewrite (gr_mem _ _ _ _ Hg3), N6; [done|ioffs; lia| |by apply not_elem_of_nil|lia].
      intros Hf. apply Hx. destruct Hf; ioffs; lia.
    + fold p. constructor; try done.
      * intros i c Hi. pose proof (lookup_lt_Some _ _ _ Hi) as Hlt. rewrite length_app in Hlt. simpl in Hlt.
        destruct Hname as (_ & _ & Hname). unfold MAXNAMELEN in *.
        rewrite Hkeep; [by apply N1|ioffs; lia|]. intros [?|?]; ioffs; lia.
      * by rewrite Hz3.
      * rewrite <- N3. apply load_ext. intros x Hx. apply Hkeep; [ioffs; lia|]. intros [?|?]; ioffs; lia.
    + rewrite Hp3. unfold fresh. by rewrite N4.
Qed.

(** ** Directories *)

Lemma writes_ext f g ks : (forall a s, g a s = f a s) -> writes f ks -> writes g ks.
Proof. intros E Hw s a kids bs ind us Hf Hr. rewrite E. by apply Hw. Qed.

Lemma writes_nil : writes (fun _ => mret tt) [].
Proof. intros s a kids bs ind us Hf _. exists s. split; [done|by apply added_nil]. Qed.

Lemma writes_app f g ks ks' : writes f ks -> writes g ks' -> writes (fun a => f a ;; g a) (ks ++ ks').
Proof.
  intros Hf Hg s a kids bs ind us Hfi Hr. rewrite needs_app in Hr.
  pose proof (dir_cost_mono (kids ++ ks) ks') as Hm. rewrite <- app_assoc in Hm. pose proof (needs_nonneg ks').
  destruct (Hf s a kids bs ind us Hfi) as (s1 & E1 & (bs1 & ind1 & us1 & A1 & A2 & A3 & A4 & A5)); [lia|].
  destruct (Hg s1 a (kids ++ ks) bs1 ind1 us1 A1) as (s2 & E2 & A6); [rewrite <- app_assoc; lia|].
  exists s2. split; [by rewrite (bind_ret _ _ _ _ _ E1)|]. by apply (added_trans _ _ _ _ _ _ _ bs1 ind1 us1 s s1).
Qed.

(** Every entry of a list adds its node. *)
Lemma writes_each {A} (f : A -> Z -> M img unit) l ks :
  Forall2 (fun x k => writes (f x) [k]) l ks -> writes (fun a => each (fun x => f x a) l) ks.
Proof.
  induction 1 as [|x k l ks Hx Hl IH]; [apply writes_nil|]. by apply (writes_app _ _ [k] ks).
Qed.

(** Entries that are skipped do not matter. *)
Lemma each_filter {A} (f g : A -> M img unit) (P : A -> Prop) `{forall x, Decision (P x)} l s :
  (forall x s, ~ P x -> f x s = Ret tt s) -> (forall x s, P x -> f x s = g x s) ->
  each f l s = each g (filter P l) s.
Proof.
  intros Hf Hg. revert s. induction l as [|x l IH]; intros s; [done|]. rewrite filter_cons. simpl.
  destruct (decide (P x)) as [Hx|Hx].
  - simpl. unfold mbind, M_bind. rewrite Hg by done. destruct (g x s); [apply IH|done..].
  - by rewrite (bind_ret _ _ _ _ _ (Hf x s Hx)).
Qed.

(** The header of a directory: its name and type. *)
Lemma dir_header p nm s : placed s p -> ready s -> blank (mem s) p -> 3 <= blk p < nextbno s -> Z.of_nat (length nm) < MAXNAMELEN ->
  exists s1 s2, strncpy p nm (Z.to_nat (MAXNAMELEN - 1)) s = Ret tt s1 /\
    load 1 (mem s1) (p + (MAXNAMELEN - 1)) = 0 /\ st 4 (p + off_type) FTYPE_DIR s1 = Ret tt s2 /\
    filled s2 p [] [] 0 [] /\ name_at (mem s2) p nm /\ load 4 (mem s2) (p + off_type) = FTYPE_DIR /\
    nextbno s2 = nextbno s /\ out s2 = out s /\
    (forall x, ~ (p <= x < p + off_direct) -> mem s2 x = mem s x).
Proof.
  intros Hp Hr Hb Hblk Hl.
  destruct (strncpy_named p nm s Hl) as (s1 & E1 & (N1 & N2 & N3 & N4 & N5 & N6) & Hz); [by apply Hb|].
  exists s1. eexists. split_and!; [done|by rewrite load8_eq, Hz|reflexivity|..].
  all: cbn [mem nextbno out set_mem]; set (m := store 4 (mem s1) (p + off_type) FTYPE_DIR).
  all: assert (forall x, ~ (p <= x < p + MAXNAMELEN) -> ~ (p + off_type <= x < p + off_direct) -> m x = mem s x) as Hm
    by (intros x Hx Hx'; unfold m; rewrite store_elsewhere, N5 by (ioffs; lia); done).
  - split; [|done]. split; cbn; try done; try (by constructor).
    + apply (header_ready s _ p off_direct); [done..|]. intros x Hx. apply Hm; unfold MAXNAMELEN; ioffs; lia.
    + apply (placed_later s); [done|cbn; lia].
    + split; try done; [|apply (slots_blank (mem s)); [done|intros x Hx; apply Hm; unfold MAXNAMELEN; ioffs; lia]|simpl; lia].
      change (BLOCK_SIZE * Z.of_nat (length [])) with 0. rewrite <- (blank_field _ p off_size Hb) by done.
      apply load_ext. intros x Hx. apply Hm; unfold MAXNAMELEN; ioffs; lia.
    + by apply not_elem_of_nil.
  - intros i c Hi. pose proof (lookup_lt_Some _ _ _ Hi) as Hlt. rewrite length_app in Hlt. simpl in Hlt.
    unfold m. rewrite store_elsewhere by (unfold MAXNAMELEN in *; ioffs; lia). by apply N6.
  - unfold m. by apply load32_store32_same.
  - done.
  - done.
  - intros x Hx. apply Hm; unfold MAXNAMELEN; ioffs; lia.
Qed.

(** A directory with all its entries is an entry of its parent. *)
Lemma dir_entry_added s s1 s2 s3 a kids bs ind us bs1 ind1 nm ks :
  filled s a kids bs ind us -> at_dir s1 a kids bs1 ind1 us -> length bs1 = ceil (S (length kids)) 16 ->
  (length kids < 16 * length bs1)%nat -> nextbno s1 = nextbno s + (cost (length bs1) - cost (length bs)) ->
  own bs1 ind1 ≡ₚ own bs ind ++ fresh s s1 -> grew a (own bs ind) s s1 ->
  let p := place bs1 (length kids) in
  name_ok nm -> name_at (mem s2) p nm -> load 4 (mem s2) (p + off_type) = FTYPE_DIR ->
  nextbno s2 = nextbno s1 -> out s2 = out s1 ->
  (forall x, ~ (p <= x < p + off_direct) -> mem s2 x = mem s1 x) ->
  added p [] ks [] 0 [] s2 s3 -> added a kids [NDir nm ks] bs ind us s s3.
Proof.
  intros [Hd Hb] Hd1 Hb1 Hl1 Hn1 Hp1 Hg1 p Hname N1 N3 N4 N5 N6 (bs3 & ind3 & us3 & [F1 F2] & A2 & A3 & A4 & A5).
  destruct (new_entry _ _ _ _ _ _ Hd1 Hl1) as (Hpl & Hbl & Hblk). fold p in Hpl, Hbl, Hblk.
  pose proof (gr_next _ _ _ _ A5). cbn [app] in F1, F2, A2. change (used [] 0 []) with (@nil Z) in A3. cbn [app] in A3.
  assert (forall x, p <= x < p + FILE_STRUCT_SIZE -> ~ link_field p x -> mem s3 x = mem s2 x) as Hkeep.
  { intros x Hx Hf. apply (gr_mem _ _ _ _ A5); [done|by apply not_elem_of_nil|].
    pose proof (placed_blk s1 p (x - p) Hpl ltac:(lia)) as Hbx. replace (p + (x - p)) with x in Hbx by lia. lia. }
  apply (entry_added s s1 s3 a kids bs ind us bs1 ind1 (NDir nm ks) (used bs3 ind3 us3)); try done.
  - apply A5.
  - rewrite (gr_out _ _ _ _ A5). done.
  - rewrite A2, N4. change (dir_cost []) with 0. change (need (NDir nm ks)) with (dir_cost ks + needs ks). lia.
  - fold p. intros x Hx Hfr. rewrite (gr_mem _ _ _ _ A5), N6; [done|ioffs; lia| |by apply not_elem_of_nil|lia].
    intros Hf. apply Hx. destruct Hf; ioffs; lia.
  - fold p. apply entries_holds; try done; [| |apply F1].
    + intros i c Hi. pose proof (lookup_lt_Some _ _ _ Hi) as Hlt. rewrite length_app in Hlt. simpl in Hlt.
      destruct Hname as (_ & _ & Hname). unfold MAXNAMELEN in *.
      rewrite Hkeep; [by apply N1|ioffs; lia|]. intros [?|?]; ioffs; lia.
    + rewrite <- N3. apply load_ext. intros x Hx. apply Hkeep; [ioffs; lia|]. intros [?|?]; ioffs; lia.
  - rewrite A3. unfold fresh. by rewrite N4.
Qed.

Lemma write_node_ok t : forall path fuel, shows path t -> (height t <= fuel)%nat ->
  writes (fun a => write_node fuel a path t) [t].
Proof.
  induction t as [nm bytes|nm kids IH] using node_ind'; intros path fuel Hs Hfuel; [by apply write_file_ok|].
  inversion Hs as [|path0 es kids0 nm0 path' Hname Hopen Hkids]; subst.
  destruct fuel as [|fuel]; [simpl in Hfuel; lia|]. unfold write_node. cbn [dir_node].
  set (body := fun (e : dirent) (a : Z) =>
    let buf := path' ++ [47] ++ d_name e in
    if is_dir e then write_directory H fuel a buf else write_file H a buf).
  assert (writes (fun a => each (fun e => body e a) (filter (fun e => is_dots (d_name e) = false) es)) kids) as Hw.
  { apply writes_each. assert (forall k, k ∈ kids -> height k <= fuel)%nat as Hh.
    { intros k Hk. pose proof (height_kid nm0 kids k Hk). lia. }
    clear Hfuel Hs. induction Hkids as [|e k es' kids' [He Hsh] Hrest IHk]; [constructor|].
    inversion_clear IH as [|? ? IHk1 IHks]. constructor.
    - eapply writes_ext; [|apply (IHk1 _ fuel Hsh); apply Hh; by left]. intros a s. unfold body, write_node. by rewrite He.
    - apply IHk; [done|]. intros k' Hk'. apply Hh. by right. }
  intros s a ks bs ind us Hfi Hroom. destruct (Hfi) as [Hd Hb]. change (needs [NDir nm0 kids]) with (need (NDir nm0 kids) + 0) in Hroom.
  unfold dir_cost at 1 2 in Hroom. rewrite length_app, Nat.add_1_r, <- Hb in Hroom.
  change (need (NDir nm0 kids)) with (dir_cost kids + needs kids) in Hroom.
  pose proof (cost_nonneg (ceil (length kids) 16)) as Hc. fold (dir_cost kids) in Hc. pose proof (needs_nonneg kids).
  destruct (create_file_ok s a ks bs ind us Hd Hb ltac:(lia)) as (s1 & bs1 & ind1 & E1 & Hd1 & Hb1 & Hl1 & Hn1 & Hp1 & Hg1).
  destruct (new_entry _ _ _ _ _ _ Hd1 Hl1) as (Hpl & Hbl & Hblk). set (p := place bs1 (length ks)) in *.
  destruct (dir_header p nm0 s1 Hpl (ad_ready _ _ _ _ _ _ Hd1) Hbl Hblk ltac:(apply Hname))
    as (s1' & s2 & E2 & Ez & E3 & Hf2 & N1 & N3 & N4 & N5 & N6).
  destruct (Hw s2 p [] [] 0 [] Hf2) as (s3 & E4 & Ha3).
  { cbn [app]. change (dir_cost []) with 0. rewrite Hb1 in Hn1. lia. }
  exists s3. split.
  - cbn [write_directory]. rewrite Hopen, (bind_ret _ _ _ _ _ E1). fold p.
    destruct (basename path) as [nm1 path1]. cbn [fst snd] in *. subst nm0 path'.
    rewrite (bind_ret _ _ _ _ _ E2), bind_ld, Ez. change (negb (0 =? 0)) with false. cbv iota.
    rewrite (bind_ret _ _ _ _ _ E3), <- E4. apply each_filter.
    + intros e s' He. by destruct (is_dots (d_name e)).
    + intros e s' He. unfold body. by rewrite He.
  - by apply (dir_entry_added s s1 s2 s3 a ks bs ind us bs1 ind1).
Qed.

(** ** The start of the program *)

Lemma load_fill_ff m a n b : a <= b -> b + 4 <= a + n -> load 4 (fill m a n 255) b = 2 ^ 32 - 1.
Proof.
  intros H1 H2. Transparent load. transitivity (load 4 (fun _ => 255) 0); [|done]. Opaque load.
  apply load_move. intros i Hi. unfold fill. destruct (Z.leb_spec a (b + i)), (Z.ltb_spec (b + i) (a + n)); try lia. done.
Qed.

Lemma init_disk_ok file : exists s, init_disk (start file) = Ret tt s /\
  filled s ROOT [] [] 0 [] /\ nextbno s = 3 /\ out s = file /\
  load 4 (mem s) SUPER = FS_MAGIC /\ load 4 (mem s) (SUPER + 4) = NBLOCK /\
  name_at (mem s) ROOT [47] /\ load 4 (mem s) (ROOT + off_type) = FTYPE_DIR /\
  (forall k, 0 <= k < 1024 -> load 4 (mem s) (2 * BLOCK_SIZE + 4 * k) = if k <? 32 then 2 ^ 32 - 1 else 0).
Proof.
  set (m1 := fill (fill (fun _ => 0) (2 * BLOCK_SIZE) BLOCK_SIZE 255) (2 * BLOCK_SIZE + 128) (BLOCK_SIZE - 128) 0).
  set (m2 := store 4 (store 4 (store 4 m1 SUPER FS_MAGIC) (SUPER + 4) NBLOCK) (ROOT + off_type) FTYPE_DIR).
  assert (exists s, init_disk (start file) = Ret tt s /\ nextbno s = 3 /\ out s = file /\
    mem s = write_bytes m2 ROOT [47; 0]) as (s & E & En & Eo & Em) by (eexists; split_and!; reflexivity).
  assert (forall x, x < SUPER -> write_bytes m2 ROOT [47; 0] x = m1 x) as Hlow.
  { intros x Hx. unfold m2. rewrite write_bytes_out, !store_elsewhere; unfold ROOT, off_type in *; simpl; lia. }
  assert (forall x, ROOT + 2 <= x -> ~ (ROOT + off_type <= x < ROOT + off_type + 4) -> write_bytes m2 ROOT [47; 0] x = 0) as Hhigh.
  { intros x Hx Hx'. unfold m2. rewrite write_bytes_out, !store_elsewhere by (unfold ROOT in *; simpl; lia).
    unfold m1, fill, ROOT, SUPER, NBLOCK, BLOCK_SIZE in *.
    destruct (Z.ltb_spec x (2 * 4096 + 4096)), (Z.ltb_spec x (2 * 4096 + 128 + (4096 - 128))); try lia. by rewrite !andb_false_r. }
  assert (forall a, ROOT + 2 <= a -> a + 4 <= ROOT + off_type \/ ROOT + off_type + 4 <= a -> load 4 (mem s) a = 0) as Hzero.
  { intros a Ha Ha'. transitivity (load 4 (fun _ => 0) a); [|apply load_zero]. apply load_ext. intros x Hx. rewrite Em. apply Hhigh; lia. }
  exists s. split_and!; try done.
  - split; [|done]. split; try (by constructor).
    + split; [rewrite En; unfold NBLOCK; lia|]. intros x Hx. rewrite En in Hx. unfold blk, NBLOCK, BLOCK_SIZE in Hx.
      assert (3 * 4096 <= x < 1024 * 4096) by (Z.div_mod_to_equations; lia).
      rewrite Em, Hlow by (unfold SUPER, NBLOCK, BLOCK_SIZE; lia). unfold m1, fill, BLOCK_SIZE.
      destruct (Z.ltb_spec x (2 * 4096 + 4096)), (Z.ltb_spec x (2 * 4096 + 128 + (4096 - 128))); try lia. by rewrite !andb_false_r.
    + split_and!; [done|by vm_compute|by right].
    + split; try done; [by apply Hzero; ioffs; try lia; left| |simpl; lia].
      split; [by apply Hzero; ioffs; try lia; right|done|by split|done].
    + by apply not_elem_of_nil.
  - rewrite Em. transitivity (load 4 m2 SUPER).
    { apply load_ext. intros x Hx. apply write_bytes_out. unfold ROOT. simpl. lia. }
    unfold m2. rewrite !load_store_other by (unfold disjoint_range, ROOT, off_type; lia). by apply load32_store32_same.
  - rewrite Em. transitivity (load 4 m2 (SUPER + 4)).
    { apply load_ext. intros x Hx. apply write_bytes_out. unfold ROOT. simpl. lia. }
    unfold m2. rewrite load_store_other by (unfold disjoint_range, ROOT, off_type; lia). by apply load32_store32_same.
  - intros i c Hi. rewrite Em. by apply write_bytes_in.
  - rewrite Em. transitivity (load 4 m2 (ROOT + off_type)).
    { apply load_ext. intros x Hx. apply write_bytes_out. unfold off_type in *. simpl. lia. }
    unfold m2. by apply load32_store32_same.
  - intros k Hk. rewrite Em. transitivity (load 4 m1 (2 * BLOCK_SIZE + 4 * k)).
    { apply load_ext. intros x Hx. apply Hlow. unfold SUPER, NBLOCK, BLOCK_SIZE in *. lia. }
    unfold m1, BLOCK_SIZE. destruct (Z.ltb_spec k 32).
    + rewrite load_fill_other by (unfold disjoint_range; lia). apply load_fill_ff; lia.
    + apply load_fill_zero; lia.
Qed.

(** ** The bitmap and the super block *)

Definition bit (m : memory) (b : Z) : bool := Z.testbit (load 4 m (2 * BLOCK_SIZE + 4 * (b / 32))) (b mod 32).

Lemma bit_store m b v x : 0 <= b -> 0 <= x -> 0 <= v < 2 ^ 32 ->
  bit (store 4 m (2 * BLOCK_SIZE + 4 * (b / 32)) v) x = if b / 32 =? x / 32 then Z.testbit v (x mod 32) else bit m x.
Proof.
  intros Hb Hx Hv. unfold bit. destruct (Z.eqb_spec (b / 32) (x / 32)) as [->|Hne].
  - by rewrite load32_store32_same.
  - rewrite load_store_other; [done|]. unfold disjoint_range. lia.
Qed.

Lemma flush_bitmap_ok s : 0 <= nextbno s <= NBLOCK -> exists m, flush_bitmap s = Ret tt (set_mem m s) /\
  (forall x, blk x <> 2 -> m x = mem s x) /\
  (forall b, 0 <= b < BLOCK_SIZE_BIT -> bit m b = (nextbno s <=? b) && bit (mem s) b).
Proof.
  intros Hn. unfold flush_bitmap. rewrite bind_get. set (body := fun i : Z => _).
  destruct (mfor_inv (fun i s' => exists m, s' = set_mem m s /\ (forall x, blk x <> 2 -> m x = mem s x) /\
    (forall b, 0 <= b < BLOCK_SIZE_BIT -> bit m b = (i <=? b) && bit (mem s) b)) body (Z.to_nat (nextbno s)) 0 s)
    as (s' & E & m & -> & H1 & H2).
  - exists (mem s). split_and!; [by destruct s|done|]. intros b Hb. by rewrite (proj2 (Z.leb_le 0 b)) by lia.
  - intros i s' Hi (m & -> & H1 & H2). unfold body. unfold NBLOCK in *.
    assert (i / BLOCK_SIZE_BIT = 0 /\ i mod BLOCK_SIZE_BIT = i) as [-> ->]
      by (unfold BLOCK_SIZE_BIT, BLOCK_SIZE; rewrite Z.div_small, Z.mod_small by lia; done).
    rewrite (bind_ret _ _ _ _ _ (data_ok (2 + 0) _ ltac:(unfold NBLOCK; lia))), bind_ld.
    change ((2 + 0) * BLOCK_SIZE) with (2 * BLOCK_SIZE).
    eexists. split; [reflexivity|]. eexists. split; [reflexivity|]. cbn [mem set_mem].
    set (w := load 4 m (2 * BLOCK_SIZE + 4 * (i / 32))). pose proof (load32_bound m (2 * BLOCK_SIZE + 4 * (i / 32))) as Hw. fold w in Hw.
    pose proof (Z.mod_pos_bound i 32 ltac:(lia)).
    split.
    + intros x Hx. rewrite store_elsewhere; [by apply H1|]. intros Hin. apply Hx.
      replace x with (2 * BLOCK_SIZE + (x - 2 * BLOCK_SIZE)) by lia. apply in_block. unfold BLOCK_SIZE in *. Z.div_mod_to_equations. lia.
    + intros b Hb. rewrite bit_store by (try apply land_bound; lia).
      pose proof (Z.mod_pos_bound b 32 ltac:(lia)). destruct (Z.eqb_spec (i / 32) (b / 32)) as [Eq|Eq].
      * rewrite clear_bit_spec by lia. rewrite (mod_eqb i b 32) by done.
        assert (Z.testbit w (b mod 32) = bit m b) as -> by (unfold bit, w; by rewrite Eq). rewrite H2 by done.
        destruct (Z.eqb_spec i b), (Z.leb_spec i b), (Z.leb_spec (i + 1) b); simpl; done || lia.
      * rewrite H2 by done. destruct (Z.leb_spec i b), (Z.leb_spec (i + 1) b); simpl; try done; [|lia].
        assert (i = b) by lia. subst. done.
  - exists m. split_and!; [done|done|]. intros b Hb. rewrite H2 by done. by replace (0 + Z.of_nat (Z.to_nat (nextbno s))) with (nextbno s) by lia.
Qed.

Lemma finish_fs_ok name s : h_creat H name = true ->
  exists s', finish_fs H false name s = Ret tt s' /\
    forall x, out s' x = if (0 <=? x) && (x <? NBLOCK * BLOCK_SIZE) then copy (mem s) BLOCK_SIZE SUPER sizeof_Super x else out s x.
Proof.
  intros Hc. unfold finish_fs. rewrite (bind_ret _ _ _ _ _ (data_ok 1 s ltac:(unfold NBLOCK; lia))), bind_modify.
  change (1 * BLOCK_SIZE) with BLOCK_SIZE. set (m := copy (mem s) BLOCK_SIZE SUPER sizeof_Super). set (body := fun i : Z => _).
  destruct (mfor_inv (fun i s' => mem s' = m /\ forall x, out s' x = if (0 <=? x) && (x <? i * BLOCK_SIZE) then m x else out s x)
    body 1024 0 (set_mem m s)) as (s' & E & Em & Ho).
  - split; [done|]. intros x. change (0 * BLOCK_SIZE) with 0.
    destruct (Z.leb_spec 0 x), (Z.ltb_spec x 0); simpl; try done. lia.
  - intros i s' Hi [Em Ho]. unfold body. rewrite bind_mret.
    rewrite (bind_ret _ _ _ _ _ (data_ok i s' ltac:(unfold NBLOCK; lia))). rewrite Hc. unfold c_assert. rewrite bind_mret.
    eexists. split; [reflexivity|]. split; [done|]. intros x. cbn [out set_out]. rewrite Ho, Em. unfold BLOCK_SIZE in *.
    destruct (Z.leb_spec (i * 4096) x), (Z.ltb_spec x (i * 4096 + 4096)), (Z.leb_spec 0 x), (Z.ltb_spec x (i * 4096)),
      (Z.ltb_spec x ((i + 1) * 4096)); simpl; try lia; try done. f_equal. lia.
  - exists s'. split; [exact E|]. intros x. rewrite Ho. done.
Qed.

(** ** Whole runs *)

(** An argument is a file or directory of the host. *)
Definition argument (path : list Z) (t : node) : Prop :=
  h_stat H path = Some (if dir_node t then S_IFDIR else S_IFREG) /\ shows path t.

(** The arguments before any that stops the program. *)
Lemma args_ok fuel args ts s : Forall2 argument args ts -> Forall (fun t => height t <= fuel)%nat ts ->
  filled s ROOT [] [] 0 [] -> nextbno s + dir_cost ts + needs ts <= NBLOCK ->
  exists s', each (main_arg H fuel) args s = Ret tt s' /\ added ROOT [] ts [] 0 [] s s'.
Proof.
  intros Ha Hh Hf Hr.
  set (body := fun (x : list Z) (a : Z) =>
    match h_stat H x with
    | None => halt Abort
    | Some S_IFDIR => write_directory H fuel a x
    | Some S_IFREG => write_file H a x
    | Some S_IFOTHER => halt (Exit 2)
    end).
  assert (writes (fun a => each (fun x => body x a) args) ts) as Hw.
  { apply writes_each. clear Hr. induction Ha as [|x t args ts [Hst Hsh] Ha IH]; [constructor|].
    inversion_clear Hh. constructor; [|by apply IH].
    eapply writes_ext; [|by apply (write_node_ok t x fuel)]. intros a s'. unfold body, write_node. rewrite Hst.
    by destruct (dir_node t). }
  destruct (Hw s ROOT [] [] 0 [] Hf) as (s' & E & Hadd); [cbn [app]; change (dir_cost []) with 0; lia|].
  by exists s'.
Qed.

(** What is left to do after the arguments. *)
Lemma main_finish image ts s0 s1 : h_creat H image = true ->
  nextbno s0 = 3 -> load 4 (mem s0) SUPER = FS_MAGIC -> load 4 (mem s0) (SUPER + 4) = NBLOCK ->
  name_at (mem s0) ROOT [47] -> load 4 (mem s0) (ROOT + off_type) = FTYPE_DIR ->
  (forall k, 0 <= k < 1024 -> load 4 (mem s0) (2 * BLOCK_SIZE + 4 * k) = if k <? 32 then 2 ^ 32 - 1 else 0) ->
  added ROOT [] ts [] 0 [] s0 s1 ->
  exists s, (flush_bitmap ;; finish_fs H false image ;; mret 0) s1 = Ret 0 s /\
    disk_image (out s) NBLOCK (nextbno s1) ts /\
    (forall x, ~ (0 <= x < NBLOCK * BLOCK_SIZE) -> out s x = out s0 x).
Proof.
  intros Hcr Hn0 M1 M2 M3 M4 M5 (bs & ind & us & [Hd Hb] & A2 & A3 & A4 & A5).
  pose proof (rd_next _ (gr_ready _ _ _ _ A5)) as Hn1. cbn [app] in Hd, Hb, A3. change (used [] 0 []) with (@nil Z) in A3.
  destruct (flush_bitmap_ok s1 ltac:(lia)) as (m & E1 & F1 & F2).
  destruct (finish_fs_ok image (set_mem m s1) Hcr) as (s2 & E2 & Ho). exists s2.
  split; [by rewrite (bind_ret _ _ _ _ _ E1), (bind_ret _ _ _ _ _ E2)|]. cbn [mem out set_mem] in Ho.
  (* the super block and the bitmap before the arguments *)
  assert (forall x, blk x < 3 \/ NBLOCK <= blk x -> ~ link_field ROOT x -> mem s1 x = mem s0 x) as Hkeep.
  { intros x Hx Hf. apply (gr_mem _ _ _ _ A5); [done|by apply not_elem_of_nil|lia]. }
  assert (forall i, 0 <= i < sizeof_Super -> out s2 (BLOCK_SIZE + i) = mem s1 (SUPER + i)) as Hsup.
  { intros i Hi. rewrite Ho. unfold copy, sizeof_Super, FILE_STRUCT_SIZE, BLOCK_SIZE, NBLOCK in *.
    destruct (Z.leb_spec 0 (4096 + i)), (Z.ltb_spec (4096 + i) (1024 * 4096)), (Z.leb_spec 4096 (4096 + i)),
      (Z.ltb_spec (4096 + i) (4096 + (8 + 256))); try lia. simpl.
    rewrite F1; [f_equal; lia|]. unfold blk, SUPER, NBLOCK, BLOCK_SIZE. Z.div_mod_to_equations. lia. }
  assert (forall x, 2 <= blk x < NBLOCK -> out s2 x = m x) as Hdat.
  { intros x Hx. rewrite Ho. unfold copy, sizeof_Super, FILE_STRUCT_SIZE, blk, BLOCK_SIZE, NBLOCK in *.
    assert (8192 <= x < 1024 * 4096) by (Z.div_mod_to_equations; lia).
    destruct (Z.leb_spec 0 x), (Z.ltb_spec x (1024 * 4096)), (Z.ltb_spec x (4096 + (8 + 256))); try lia.
    by rewrite andb_false_r. }
  assert (forall i, 0 <= i < sizeof_Super -> blk (SUPER + i) = NBLOCK) as Hsb.
  { intros i Hi. apply in_block. unfold sizeof_Super, FILE_STRUCT_SIZE, BLOCK_SIZE in *. lia. }
  assert (forall o, 0 <= o -> o + 4 <= sizeof_Super -> load 4 (out s2) (BLOCK_SIZE + o) = load 4 (mem s1) (SUPER + o)) as Hld.
  { intros o Ho1 Ho2. apply load_move. intros i Hi. rewrite <- !Z.add_assoc. apply Hsup. lia. }
  split.
  - split.
    + lia.
    + rewrite <- (Z.add_0_r BLOCK_SIZE), Hld, <- M1 by done. rewrite Z.add_0_r. apply load_ext. intros x Hx.
      apply Hkeep; [right; replace x with (SUPER + (x - SUPER)) by lia; rewrite Hsb by (unfold sizeof_Super, FILE_STRUCT_SIZE; lia); lia|].
      unfold link_field, ROOT. intros [?|?]; ioffs; lia.
    + rewrite Hld, <- M2 by done. apply load_ext. intros x Hx.
      apply Hkeep; [right; replace x with (SUPER + (x - SUPER)) by lia; rewrite Hsb by (unfold sizeof_Super, FILE_STRUCT_SIZE; lia); lia|].
      unfold link_field, ROOT. intros [?|?]; ioffs; lia.
    + intros b Hbb. unfold BLOCK_SIZE_BIT, BLOCK_SIZE in Hbb.
      assert (0 <= b / 32 < 1024 /\ 0 <= b mod 32 < 32) as [Hw Hi] by (Z.div_mod_to_equations; lia).
      assert (forall x, 2 * BLOCK_SIZE + 4 * (b / 32) <= x < 2 * BLOCK_SIZE + 4 * (b / 32) + 4 -> blk x = 2) as Hb2.
      { intros x Hx. replace x with (2 * BLOCK_SIZE + (x - 2 * BLOCK_SIZE)) by lia. apply in_block. unfold BLOCK_SIZE in *. lia. }
      assert (load 4 (out s2) (2 * BLOCK_SIZE + 4 * (b / 32)) = load 4 m (2 * BLOCK_SIZE + 4 * (b / 32))) as ->.
      { apply load_ext. intros x Hx. apply Hdat. rewrite Hb2 by done. unfold NBLOCK. lia. }
      change (bit m b = (nextbno s1 <=? b) && (b <? NBLOCK)). rewrite F2 by done. f_equal. unfold bit.
      assert (load 4 (mem s1) (2 * BLOCK_SIZE + 4 * (b / 32)) = load 4 (mem s0) (2 * BLOCK_SIZE + 4 * (b / 32))) as ->.
      { apply load_ext. intros x Hx. apply Hkeep; [left; rewrite Hb2 by done; lia|].
        unfold link_field, ROOT, SUPER, NBLOCK, BLOCK_SIZE in *. intros [?|?]; ioffs; lia. }
      rewrite M5 by done. unfold NBLOCK. destruct (Z.ltb_spec (b / 32) 32), (Z.ltb_spec b 1024); try (Z.div_mod_to_equations; lia).
      * change (2 ^ 32 - 1) with (Z.ones 32). by apply Z.ones_spec_low.
      * apply Z.bits_0.
    + destruct Hd as [_ _ He _ Hrg _]. rewrite Forall_forall in Hrg. exists (used bs ind us). split.
      * apply (holds_move (mem s1) _ (NDir [47] ts) ROOT).
        -- apply entries_holds; try done.
           ++ split_and!; [done|by constructor|done].
           ++ intros i c Hi. pose proof (lookup_lt_Some _ _ _ Hi). simpl in *. rewrite Hkeep; [by apply M3|right|].
              ** unfold ROOT. rewrite <- Z.add_assoc, Hsb by (unfold sizeof_Super, FILE_STRUCT_SIZE; lia). lia.
              ** intros [?|?]; ioffs; lia.
           ++ rewrite <- M4. apply load_ext. intros x Hx. apply Hkeep; [right|intros [?|?]; ioffs; lia].
              replace x with (SUPER + (x - SUPER)) by lia.
              rewrite Hsb by (unfold sizeof_Super, ROOT in *; ioffs; lia). lia.
        -- intros i Hi. unfold ROOT. rewrite <- !Z.add_assoc. apply Hsup. unfold sizeof_Super. ioffs; lia.
        -- intros x Hx. specialize (Hrg _ Hx). rewrite Hdat, F1 by lia. done.
      * rewrite A3. unfold fresh. by rewrite Hn0.
  - intros x Hx. rewrite Ho. rewrite <- (gr_out _ _ _ _ A5).
    destruct (Z.leb_spec 0 x), (Z.ltb_spec x (NBLOCK * BLOCK_SIZE)); simpl; try done. lia.
Qed.

(** Main, when the arguments are files and directories that fit. *)
Lemma main_ok fuel image args ts file : h_creat H image = true -> args <> [] -> Forall2 argument args ts ->
  Forall (fun t => height t <= fuel)%nat ts -> 3 + dir_cost ts + needs ts <= NBLOCK ->
  exists s, main H false fuel image args (start file) = Ret 0 s /\
    disk_image (out s) NBLOCK (3 + dir_cost ts + needs ts) ts /\
    (forall x, ~ (0 <= x < NBLOCK * BLOCK_SIZE) -> out s x = file x).
Proof.
  intros Hcr Hne Ha Hh Hroom. destruct (init_disk_ok file) as (s0 & E0 & Hf & Hn0 & Ho0 & M1 & M2 & M3 & M4 & M5).
  destruct (args_ok fuel args ts s0 Ha Hh Hf ltac:(lia)) as (s1 & E1 & Hadd).
  destruct (main_finish image ts s0 s1 Hcr Hn0 M1 M2 M3 M4 M5 Hadd) as (s & E & Hi & Hout).
  exists s. split; [|split; [|intros x Hx; rewrite Hout by done; by rewrite Ho0]].
  - unfold main. rewrite (bind_ret _ _ _ _ _ E0). rewrite bool_decide_eq_false_2, bind_mret by done.
    by rewrite (bind_ret _ _ _ _ _ E1).
  - destruct Hadd as (bs & ind & us & _ & A2 & _). cbn [app] in A2. change (dir_cost []) with 0 in A2.
    by replace (3 + dir_cost ts + needs ts) with (nextbno s1) by lia.
Qed.

(** An argument that stops the program. *)
Lemma each_stops {A} (f : A -> M img unit) l x l' s s1 s2 :
  each f l s = Ret tt s1 -> f x s1 = Panic s2 -> each f (l ++ x :: l') s = Panic s2.
Proof.
  revert s. induction l as [|y l IH]; intros s El Ex; simpl in *.
  - injection El as ->. by rewrite (bind_panic _ _ _ _ Ex).
  - unfold mbind, M_bind in El |- *. destruct (f y s) as [[] s'|s'|e s']; [by apply IH|done..].
Qed.

Lemma main_stops fuel image args ts bad rest file w : Forall2 argument args ts ->
  Forall (fun t => height t <= fuel)%nat ts -> 3 + dir_cost ts + needs ts <= NBLOCK ->
  (h_stat H bad = None /\ w = Abort \/ h_stat H bad = Some S_IFOTHER /\ w = Exit 2) ->
  exists s, main H false fuel image (args ++ bad :: rest) (start file) = Panic s /\ stopped s = Some w /\ out s = file.
Proof.
  intros Ha Hh Hroom Hbad. destruct (init_disk_ok file) as (s0 & E0 & Hf & Hn0 & Ho0 & _).
  destruct (args_ok fuel args ts s0 Ha Hh Hf ltac:(lia)) as (s1 & E1 & (bs & ind & us & _ & _ & _ & _ & A5)).
  exists (set_stopped (Some w) s1). split_and!; [|done|rewrite <- Ho0; apply A5].
  unfold main. rewrite (bind_ret _ _ _ _ _ E0). rewrite bool_decide_eq_false_2 by (by destruct args). rewrite bind_mret.
  apply bind_panic. apply (each_stops _ _ _ _ _ s1); [done|]. unfold main_arg.
  destruct Hbad as [[-> ->]|[-> ->]]; done.
Qed.
End host.

(** ** Properties *)

(** ** Where the program does not do what its comments say *)

(** The copy of a directory's name never reaches the last byte of the field,
    so the test of that byte for names that are too long does not fail. *)
Lemma strncpy_last pdir name s : exists s', strncpy pdir name (Z.to_nat (MAXNAMELEN - 1)) s = Ret tt s' /\
  mem s' (pdir + (MAXNAMELEN - 1)) = mem s (pdir + (MAXNAMELEN - 1)).
Proof.
  eexists. split; [reflexivity|]. apply write_bytes_out.
  rewrite length_app, length_take, length_replicate. unfold MAXNAMELEN. lia.
Qed.

(** The block after the last one is taken without a check. *)
Lemma next_block_full t s : nextbno s = NBLOCK -> next_block t s = Panic (set_stopped (Some Wild) s).
Proof. intros E. unfold next_block, put_type. by rewrite bind_get, E. Qed.

(** A file of the host that cannot be opened becomes one of 2^32 - 1 bytes
    without a block. *)
Lemma unreadable_file :
  let H := Host (fun _ => Some S_IFREG) (fun _ => None) (fun _ => None) (fun _ => true) in
  match main H false 0 [105] [[102]] (start (fun _ => 0)) with
  | Ret r s => (r, load 4 (out s) (3 * BLOCK_SIZE + off_size), load 4 (out s) (3 * BLOCK_SIZE + off_direct)) = (0, 2 ^ 32 - 1, 0)
  | _ => False
  end.
Proof. vm_compute. reflexivity. Qed.

(** C22: the image. For files and directories of the host that fit the disk,
    [main] returns 0 and the image file holds a file system: the super block
    has the magic number and the size, the bitmap has a block as free exactly
    when it was not taken, and the root directory holds the arguments, every
    directory with its entries and every file with its bytes, in blocks that
    are all apart and are all the blocks taken.  An argument that does not
    exist or is neither file nor directory ends the program, with nothing
    written; so does the absence of arguments. *)
Theorem image_correct (H : host) (fuel : nat) (image : list Z) (args : list (list Z)) (ts : list node) (file : memory)
  (Hargs : Forall2 (argument H) args ts) (Hheight : Forall (fun t => height t <= fuel)%nat ts)
  (Hroom : 3 + dir_cost ts + needs ts <= NBLOCK) :
  (args <> [] -> h_creat H image = true ->
     exists s, main H false fuel image args (start file) = Ret 0 s /\
       disk_image (out s) NBLOCK (3 + dir_cost ts + needs ts) ts /\
       (forall x, ~ (0 <= x < NBLOCK * BLOCK_SIZE) -> out s x = file x)) /\
  (forall bad rest w, (h_stat H bad = None /\ w = Abort \/ h_stat H bad = Some S_IFOTHER /\ w = Exit 2) ->
     exists s, main H false fuel image (args ++ bad :: rest) (start file) = Panic s /\
       stopped s = Some w /\ out s = file) /\
  (exists s, main H false fuel image [] (start file) = Panic s /\ stopped s = Some (Exit 1) /\ out s = file).
Proof.
  split_and!.
  - intros Hne Hc. by apply main_ok.
  - intros bad rest w Hbad. by apply (main_stops H fuel image args ts).
  - eexists. split_and!; reflexivity.
Qed.

(** A host with the directory "d", which has the file "a", and the file "f"
    of 5000 bytes; no other file exists. *)
Definition demo_host : host := {|
  h_stat := fun p => if bool_decide (p = [100]) then Some S_IFDIR
                     else if bool_decide (p = [102]) then Some S_IFREG else None;
  h_opendir := fun p => if bool_decide (p = [100]) then Some [Dirent [46] true; Dirent [97] false; Dirent [46; 46] true] else None;
  h_open := fun p => if bool_decide (p = [100; 47; 97]) then Some [1; 2; 3]
                     else if bool_decide (p = [102]) then Some (replicate 5000 7) else None;
  h_creat := fun _ => true |}.
Definition demo_trees : list node := [NDir [100] [NFile [97] [1; 2; 3]]; NFile [102] (replicate 5000 7)].

Lemma demo_arguments : Forall2 (argument demo_host) [[100]; [102]] demo_trees.
Proof.
  assert (forall c, 0 < c < 256 -> name_ok [c]) as Hn by (intros c Hc; split_and!; [done|by constructor|done]).
  constructor; [|constructor; [|constructor]].
  - split; [reflexivity|]. apply (shows_dir demo_host [100] [Dirent [46] true; Dirent [97] false; Dirent [46; 46] true]); [by apply Hn|reflexivity|].
    constructor; [|constructor]. split; [reflexivity|]. apply (shows_file demo_host [100; 47; 97]); [by apply Hn|reflexivity].
  - split; [reflexivity|]. apply (shows_file demo_host [102]); [by apply Hn|reflexivity].
Qed.

Lemma image_correct_witness :
  (exists s, main demo_host false 1 [105] [[100]; [102]] (start (fun _ => 0)) = Ret 0 s /\
     disk_image (out s) NBLOCK 8 demo_trees) /\
  (exists s, main demo_host false 1 [105] [[100]; [102]; [120]] (start (fun _ => 0)) = Panic s /\ stopped s = Some Abort).
Proof.
  assert (3 + dir_cost demo_trees + needs demo_trees = 8) as E by (vm_compute; reflexivity).
  destruct (image_correct demo_host 1 [105] [[100]; [102]] demo_trees (fun _ => 0) demo_arguments) as (H1 & H2 & _).
  - constructor; [simpl; lia|constructor; [simpl; lia|constructor]].
  - rewrite E. unfold NBLOCK. lia.
  - split.
    + destruct H1 as (s & H1 & H3 & _); [discriminate|reflexivity|]. rewrite E in H3. exists s. split; assumption.
    + destruct (H2 [120] [] Abort) as (s & H3 & H4 & _); [left; split; reflexivity|]. exists s. split; assumption.
Defined.
