(* ===== verification/FsBoot.v ===== *)
(** The start of the file server (fs.c, [fs_init]) on a disk that holds an
    image: the checks of the super block, of writing and of the bitmap pass,
    and the server sees the files of the image. *)
From S2P Require Import Prelude Mem Proc FsBlock FsFile FsImage.

(** ** The cache and the disk as functions of the block *)

(** [C] says what is cached, [cb] the cached bytes, [db] those of the disk. *)
Record shape (s : fs) (C : Z -> bool) (cb db : Z -> Z -> Z) : Prop := {
  sh_cached : forall c, blk_ok c -> cached c s = C c;
  sh_bytes : forall c i, blk_ok c -> 0 <= i < BLOCK_SIZE -> C c = true -> cache_byte s c i = cb c i;
  sh_disk : forall c i, blk_ok c -> 0 <= i < BLOCK_SIZE -> disk_byte s c i = db c i;
  sh_pages : pages s
}.

Lemma shape_super s C cb db p : shape s C cb db -> shape (set_super p s) C cb db.
Proof. intros [H1 H2 H3 H4]. by split. Qed.

Lemma shape_bitmap s C cb db p : shape s C cb db -> shape (set_bitmap p s) C cb db.
Proof. intros [H1 H2 H3 H4]. by split. Qed.

Lemma shape_fetched s s' C cb db b : shape s C cb db -> C b = false -> fetched b s s' ->
  u_grants (f_proc s') = (fun k => u_grants (f_proc s) (S k)) ->
  shape s' (<[b := true]> C) (<[b := db b]> cb) db.
Proof.
  intros [H1 H2 H3 H4] Hb (F1 & F2 & F3 & F4 & F5 & F6) Hg. split.
  - intros c Hc. rewrite F5, H1 by done. destruct (Z.eqb_spec c b) as [->|]; [by rewrite fn_lookup_insert|].
    by rewrite fn_lookup_insert_ne by done.
  - intros c i Hc Hi. rewrite F6 by done. destruct (Z.eqb_spec c b) as [->|]; [intros _; rewrite fn_lookup_insert; by apply H3|].
    rewrite !fn_lookup_insert_ne by done. by apply H2.
  - intros c i Hc Hi. unfold disk_byte. rewrite F1. by apply H3.
  - intros k. rewrite Hg. apply H4.
Qed.

(** [read_block] before the bitmap is there. *)
Lemma read_start s C cb db b : shape s C cb db -> blk_ok b -> C b = false -> bitmap s = 0 ->
  (super s = 0 \/ exists n, s_nblocks s = Ret n s /\ b < n) ->
  exists s', read_block b s = Ret (0, disk_addr b, true) s' /\ super s' = super s /\ bitmap s' = bitmap s /\
    shape s' (<[b := true]> C) (<[b := db b]> cb) db.
Proof.
  intros Hs Hb Hc Hbm Hsup. assert (cached b s = false) as Hcb by by rewrite (sh_cached _ _ _ _ Hs).
  destruct (fetch_ok s b Hb Hcb (sh_pages _ _ _ _ Hs 0%nat)) as (s' & E & Hf).
  pose proof (fetch_grants s b _ s' Hb (sh_pages _ _ _ _ Hs 0%nat) E) as Hg.
  exists s'. split_and!; [|apply Hf|apply Hf|by apply (shape_fetched s)].
  unfold read_block. rewrite bind_get.
  rewrite (bind_ret _ _ s tt s).
  2: { destruct (Z.eqb_spec (super s) 0) as [|Hne]; [done|]. destruct Hsup as [|(n & En & Hn)]; [done|]. cbn [negb].
       rewrite (bind_ret _ _ _ _ _ En). by destruct (Z.leb_spec n b); [lia|]. }
  rewrite bind_get, Hbm. change (negb (0 =? 0)) with false. cbv iota. rewrite bind_mret. cbv zeta.
  rewrite (bind_ret _ _ _ _ _ (block_is_mapped_ok b s Hb)), Hcb. exact E.
Qed.

Lemma shape_put s C cb db b m va f : shape s C cb db -> blk_ok b ->
  (forall c i, blk_ok c -> 0 <= i < BLOCK_SIZE -> C c = true ->
     m (disk_addr c + i) = if c =? b then f i else cache_byte s c i) ->
  shape (set_f_proc (put_mem m va (f_proc s)) s) C (<[b := f]> cb) db.
Proof.
  intros [H1 H2 H3 H4] Hb Hm. split; [exact H1| |exact H3|exact H4].
  intros c i Hc Hi HC. unfold cache_byte. cbn. rewrite Hm by done. destruct (Z.eqb_spec c b) as [->|].
  - by rewrite fn_lookup_insert.
  - rewrite fn_lookup_insert_ne by done. by apply H2.
Qed.

Lemma copy_start s C cb db d c : shape s C cb db -> blk_ok d -> blk_ok c -> C d = true -> C c = true ->
  exists s', ucopy (disk_addr d) (disk_addr c) BLOCK_SIZE s = Ret tt s' /\ super s' = super s /\ bitmap s' = bitmap s /\
    shape s' C (<[d := cb c]> cb) db.
Proof.
  intros Hs Hd Hc HCd HCc. eexists. split.
  { apply ucopy_ok; rewrite is_mapped_disk0 by done; by rewrite (sh_cached _ _ _ _ Hs). }
  split_and!; [done|done|]. apply (shape_put s C cb db d); [done..|]. intros e i He Hi HCe.
  change (proc_of s) with (f_proc s). unfold copy. rewrite (disk_addr_eq d), (disk_addr_eq e) by done. unfold BLOCK_SIZE in *.
  destruct (Z.leb_spec (DISKMAP + d * 4096) (DISKMAP + e * 4096 + i)),
    (Z.ltb_spec (DISKMAP + e * 4096 + i) (DISKMAP + d * 4096 + 4096)), (Z.eqb_spec e d); simpl; try lia.
  - subst e. rewrite <- (sh_bytes _ _ _ _ Hs c i) by done. unfold cache_byte. f_equal. lia.
  - unfold cache_byte. by rewrite disk_addr_eq.
  - unfold cache_byte. by rewrite disk_addr_eq.
Qed.

(** The bytes [l] over [f] from offset [o] on. *)
Definition over (f : Z -> Z) (o : Z) (l : list Z) (i : Z) : Z :=
  if (o <=? i) && (i <? o + Z.of_nat (length l)) then nth (Z.to_nat (i - o)) l 0 else f i.

Lemma shape_ext s C cb cb' db : shape s C cb db ->
  (forall c i, blk_ok c -> 0 <= i < BLOCK_SIZE -> cb' c i = cb c i) -> shape s C cb' db.
Proof. intros [H1 H2 H3 H4] He. split; try done. intros c i Hc Hi HC. rewrite He by done. by apply H2. Qed.

Lemma put_str_start b l : blk_ok b -> Forall (fun c => 0 <= c < 256) l -> forall s C cb db o,
  shape s C cb db -> C b = true -> 0 <= o -> o + Z.of_nat (length l) <= BLOCK_SIZE ->
  exists s', put_str (disk_addr b + o) l s = Ret tt s' /\ super s' = super s /\ bitmap s' = bitmap s /\
    shape s' C (<[b := over (cb b) o l]> cb) db.
Proof.
  intros Hb Hl. induction Hl as [|v l Hv Hl IH]; intros s C cb db o Hs HC Ho Hlen.
  { exists s. split_and!; try done. apply (shape_ext _ _ cb); [done|]. intros c i Hc Hi.
    destruct (Z.eq_dec c b) as [->|]; [rewrite fn_lookup_insert|by rewrite fn_lookup_insert_ne].
    unfold over. destruct (Z.leb_spec o i), (Z.ltb_spec i (o + Z.of_nat (length (@nil Z)))); simpl in *; try done; lia. }
  simpl length in Hlen. cbn [put_str].
  assert (is_mapped (disk_addr b + o) s = true) as Hm by (rewrite is_mapped_disk by (done || lia); by rewrite (sh_cached _ _ _ _ Hs)).
  rewrite (bind_ret _ _ _ _ _ (ustore_ok 1 (disk_addr b + o) v s Hm)). change (proc_of s) with (f_proc s).
  change (with_proc ?p s) with (set_f_proc p s). rewrite <- Z.add_assoc.
  set (s1 := set_f_proc _ s).
  assert (shape s1 C (<[b := over (cb b) o [v]]> cb) db) as Hs1.
  { apply shape_put; [done..|]. intros c i Hc Hi HCc. Transparent store. unfold store. Opaque store. unfold over. simpl length.
    rewrite !disk_addr_eq by done. unfold BLOCK_SIZE in *. change (Z.of_nat 1) with 1.
    destruct (Z.leb_spec (DISKMAP + b * 4096 + o) (DISKMAP + c * 4096 + i)),
      (Z.ltb_spec (DISKMAP + c * 4096 + i) (DISKMAP + b * 4096 + o + 1)), (Z.eqb_spec c b); simpl; try lia.
    - subst c. assert (i = o) as -> by lia. rewrite Z.leb_refl, (proj2 (Z.ltb_lt o (o + 1))), !Z.sub_diag by lia. simpl.
      rewrite Z.div_1_r. apply Z.mod_small. done.
    - subst c. destruct (Z.leb_spec o i), (Z.ltb_spec i (o + 1)); simpl; try lia. rewrite <- (sh_bytes _ _ _ _ Hs) by done.
      unfold cache_byte. by rewrite disk_addr_eq.
    - unfold cache_byte. by rewrite disk_addr_eq.
    - subst c. destruct (Z.leb_spec o i); simpl; try lia. rewrite <- (sh_bytes _ _ _ _ Hs) by done.
      unfold cache_byte. by rewrite disk_addr_eq.
    - unfold cache_byte. by rewrite disk_addr_eq. }
  destruct (IH s1 C _ db (o + 1) Hs1 HC ltac:(lia) ltac:(lia)) as (s2 & E & E1 & E2 & Hs2).
  exists s2. split_and!; [done|by rewrite E1|by rewrite E2|]. apply (shape_ext _ _ _ _ _ Hs2). intros c i Hc Hi.
  destruct (Z.eq_dec c b) as [->|]; [rewrite !fn_lookup_insert|by rewrite !fn_lookup_insert_ne].
  unfold over. simpl length. change (Z.of_nat 1) with 1.
  destruct (Z.leb_spec o i), (Z.ltb_spec i (o + Z.of_nat (S (length l)))), (Z.leb_spec (o + 1) i),
    (Z.ltb_spec i (o + 1 + Z.of_nat (length l))), (Z.ltb_spec i (o + 1)); simpl; try lia; try done.
  - replace (Z.to_nat (i - o)) with (S (Z.to_nat (i - (o + 1)))) by lia. done.
  - assert (i = o) as -> by lia. by rewrite Z.sub_diag.
Qed.

Lemma same_str_start b l : blk_ok b -> Forall (fun c => 0 <= c < 256) l -> forall s C cb db o,
  shape s C cb db -> C b = true -> 0 <= o -> o + Z.of_nat (length l) <= BLOCK_SIZE ->
  (forall i v, l !! i = Some v -> cb b (o + Z.of_nat i) = v) -> same_str (disk_addr b + o) l s = Ret true s.
Proof.
  intros Hb Hl. induction Hl as [|v l Hv Hl IH]; intros s C cb db o Hs HC Ho Hlen Hc; [done|].
  simpl length in Hlen. cbn [same_str].
  assert (is_mapped (disk_addr b + o) s = true) as Hm by (rewrite is_mapped_disk by (done || lia); by rewrite (sh_cached _ _ _ _ Hs)).
  rewrite (bind_ret _ _ _ _ _ (uload_ok 1 (disk_addr b + o) s Hm)). change (proc_of s) with (f_proc s).
  assert (load 1 (u_mem (f_proc s)) (disk_addr b + o) = v) as ->.
  { Transparent load. cbn [load]. Opaque load. pose proof (sh_bytes _ _ _ _ Hs b o Hb ltac:(lia) HC) as E. unfold cache_byte in E.
    rewrite E. specialize (Hc 0%nat v eq_refl). rewrite Z.add_0_r in Hc. rewrite Hc. unfold u8. rewrite Z.mod_small; lia. }
  rewrite Z.eqb_refl, <- Z.add_assoc. apply (IH s C cb db); [done|done|lia|lia|].
  intros i w Hi. rewrite <- (Hc (S i) w Hi). f_equal. lia.
Qed.

Lemma write_start s C cb db b : shape s C cb db -> blk_ok b -> C b = true ->
  exists s', write_block b s = Ret tt s' /\ super s' = super s /\ bitmap s' = bitmap s /\ shape s' C cb (<[b := cb b]> db).
Proof.
  intros [H1 H2 H3 H4] Hb HC. destruct (write_block_bytes b s Hb) as (d & E & Hd); [by rewrite H1|].
  exists (set_disk d s). split_and!; try done. split; try done. intros c i Hc Hi. rewrite Hd by done.
  destruct (Z.eqb_spec c b) as [->|]; [rewrite fn_lookup_insert; by apply H2|]. rewrite fn_lookup_insert_ne by done. by apply H3.
Qed.

Lemma unmap_start s C cb db b : shape s C cb db -> blk_ok b ->
  exists s', syscall_mem_unmap (disk_addr b) s = Ret 0 s' /\ super s' = super s /\ bitmap s' = bitmap s /\
    shape s' (<[b := false]> C) cb db.
Proof.
  intros [H1 H2 H3 H4] Hb. exists (unmapped b s). split_and!; try done.
  { rewrite syscall_mem_unmap_ok by by apply disk_addr_legal. unfold unmapped. by rewrite upage_disk0. }
  split; try done.
  - intros c Hc. rewrite cached_unmapped, H1 by done. destruct (Z.eqb_spec c b) as [->|]; [by rewrite fn_lookup_insert|].
    by rewrite fn_lookup_insert_ne.
  - intros c i Hc Hi HCc. apply H2; try done. destruct (Z.eq_dec c b) as [->|]; [by rewrite fn_lookup_insert in HCc|].
    by rewrite fn_lookup_insert_ne in HCc.
Qed.

(** ** The start *)

Lemma shape_load s C cb db b o : shape s C cb db -> blk_ok b -> C b = true -> 0 <= o -> o + 4 <= BLOCK_SIZE ->
  load 4 (u_mem (f_proc s)) (disk_addr b + o) = load 4 (cb b) o.
Proof.
  intros [H1 H2 H3 H4] Hb HC Ho Ho'. apply load_move. intros i Hi. rewrite <- Z.add_assoc.
  rewrite <- H2 by (done || lia). done.
Qed.

Lemma shape_uload s C cb db b o : shape s C cb db -> blk_ok b -> C b = true -> 0 <= o -> o + 4 <= BLOCK_SIZE ->
  uload 4 (disk_addr b + o) s = Ret (load 4 (cb b) o) s.
Proof.
  intros Hs Hb HC Ho Ho'. rewrite uload_ok; [by rewrite <- (shape_load s C cb db)|].
  rewrite is_mapped_disk by (done || lia). by rewrite (sh_cached _ _ _ _ Hs).
Qed.

Definition on (l : list Z) (c : Z) : bool := bool_decide (c ∈ l).

Lemma shape_on s C l cb db : shape s C cb db -> (forall c, C c = on l c) -> shape s (on l) cb db.
Proof. intros [H1 H2 H3 H4] He. split; try done; intros; rewrite <- ?He in *; auto. Qed.

Lemma shape_db s C cb db db' : shape s C cb db ->
  (forall c i, blk_ok c -> 0 <= i < BLOCK_SIZE -> db' c i = db c i) -> shape s C cb db'.
Proof. intros [H1 H2 H3 H4] He. split; try done. intros c i Hc Hi. rewrite He by done. by apply H3. Qed.

Lemma over_in f o l i v : l !! i = Some v -> over f o l (o + Z.of_nat i) = v.
Proof.
  intros Hi. pose proof (lookup_lt_Some _ _ _ Hi). unfold over.
  destruct (Z.leb_spec o (o + Z.of_nat i)), (Z.ltb_spec (o + Z.of_nat i) (o + Z.of_nat (length l))); try lia. simpl.
  replace (Z.to_nat (o + Z.of_nat i - o)) with i by lia. by apply nth_lookup_Some.
Qed.

Lemma on_cons b l c : <[b := true]> (on l) c = on (b :: l) c.
Proof.
  unfold on. destruct (Z.eq_dec c b) as [->|Hne].
  - rewrite fn_lookup_insert. symmetry. apply bool_decide_eq_true_2. by left.
  - rewrite fn_lookup_insert_ne by done. apply bool_decide_ext. rewrite elem_of_cons. naive_solver.
Qed.

Section boot.
Context (s0 : fs) (size n : Z) (ts : list node).
Hypothesis (Himg : disk_image (disk s0) size n ts).
Hypothesis (Hsize : size < BLOCK_SIZE_BIT).
Hypothesis (Hcold : forall c, blk_ok c -> cached c s0 = false).
Hypothesis (Hpages : pages s0) (Hsuper : super s0 = 0) (Hbitmap : bitmap s0 = 0).

Notation db := (disk_byte s0).

Lemma blk_ok_small c : 0 <= c < BLOCK_SIZE_BIT -> blk_ok c.
Proof. unfold blk_ok, BLOCK_SIZE_BIT, BLOCK_SIZE. change (DISKMAX / 4096) with 262144. lia. Qed.

Lemma db_load b o : load 4 (db b) o = load 4 (disk s0) (b * BLOCK_SIZE + o).
Proof. apply load_move. intros i Hi. unfold disk_byte. f_equal. lia. Qed.

(** The super block is found and checked. *)
Lemma read_super_ok : exists s1 cb, read_super s0 = Ret tt s1 /\ super s1 = disk_addr 1 /\ bitmap s1 = 0 /\
  shape s1 (on [1]) cb db /\ cb 1 = db 1.
Proof.
  assert (blk_ok 1) as H1 by apply blk_ok_1.
  assert (shape s0 (on []) (fun _ _ => 0) db) as Hs0 by (split; [by apply Hcold|done|done|done]).
  destruct (read_start s0 _ _ _ 1 Hs0 H1 eq_refl Hbitmap (or_introl Hsuper)) as (s1 & E & _ & Eb & Hs1).
  apply (shape_on _ _ [1]) in Hs1; [|apply on_cons]. set (cb := <[1 := db 1]> (fun _ _ => 0)) in Hs1.
  assert (cb 1 = db 1) as Ecb by apply fn_lookup_insert.
  exists (set_super (disk_addr 1) s1), cb. split_and!; [|done|by rewrite <- Hbitmap|by apply shape_super|done].
  unfold read_super. rewrite (bind_ret _ _ _ _ _ E). change (0 <? 0) with false. cbv iota. rewrite bind_modify.
  pose proof (shape_super _ _ _ _ (disk_addr 1) Hs1) as Hs2.
  pose proof (shape_uload _ _ _ _ 1 0 Hs2 H1 eq_refl ltac:(lia) ltac:(done)) as Em. rewrite Z.add_0_r in Em.
  rewrite (bind_ret _ _ _ _ _ Em). rewrite Ecb, db_load, Z.add_0_r, Z.mul_1_l, (di_magic _ _ _ _ Himg).
  change (negb (FS_MAGIC =? FS_MAGIC)) with false. cbv iota.
  assert (s_nblocks (set_super (disk_addr 1) s1) = Ret size (set_super (disk_addr 1) s1)) as En.
  { unfold s_nblocks. rewrite bind_get. cbn [super set_super].
    rewrite (shape_uload _ _ _ _ 1 4 Hs2 H1 eq_refl ltac:(lia) ltac:(done)).
    by rewrite Ecb, db_load, Z.mul_1_l, (di_nblocks _ _ _ _ Himg). }
  rewrite (bind_ret _ _ _ _ _ En). destruct (Z.ltb_spec (DISKMAX / BLOCK_SIZE) size) as [Hlt|]; [|done].
  change (DISKMAX / BLOCK_SIZE) with 262144 in Hlt. unfold BLOCK_SIZE_BIT, BLOCK_SIZE in Hsize. lia.
Qed.

(** Block 1 is written, read back and restored; block 0 stays in the cache
    with the bytes of block 1. *)
Lemma check_write_ok s1 cb1 : bitmap s1 = 0 -> shape s1 (on [1]) cb1 db -> cb1 1 = db 1 ->
  exists s2 cb, check_write_block s1 = Ret tt s2 /\ super s2 = disk_addr 1 /\ bitmap s2 = 0 /\
    shape s2 (on [1; 0]) cb db /\ cb 1 = db 1 /\ cb 0 = db 1.
Proof.
  intros Hb1 Hs1 Hcb1. assert (blk_ok 0) as K0 by by apply blk_ok_small. assert (blk_ok 1) as K1 by apply blk_ok_1.
  assert (Forall (fun c => 0 <= c < 256) oops) as Hoops by (repeat constructor; lia).
  unfold check_write_block. rewrite bind_modify. apply (shape_super _ _ _ _ 0) in Hs1.
  (* block 0 is fetched *)
  destruct (read_start _ _ _ _ 0 Hs1 K0 eq_refl Hb1 (or_introl eq_refl)) as (s2 & E2 & P2 & B2 & Hs2).
  apply (shape_on _ _ [0; 1]) in Hs2; [|apply on_cons].
  assert (must_read 0 (set_super 0 s1) = Ret tt s2) as E2' by (unfold must_read; by rewrite (bind_ret _ _ _ _ _ E2)).
  rewrite (bind_ret _ _ _ _ _ E2').
  cbn in B2, P2.
  (* its page takes the super block *)
  destruct (copy_start _ _ _ _ 0 1 Hs2 K0 K1 eq_refl eq_refl) as (s3 & E3 & P3 & B3 & Hs3).
  rewrite (bind_ret _ _ _ _ _ E3). set (cb3 := <[0 := _]> _) in Hs3.
  assert (cb3 1 = db 1 /\ cb3 0 = db 1) as [C31 C30].
  { unfold cb3. rewrite fn_lookup_insert, !fn_lookup_insert_ne by done. done. }
  (* OOPS *)
  destruct (put_str_start 1 oops K1 Hoops _ _ _ _ 0 Hs3 eq_refl ltac:(lia) ltac:(done)) as (s4 & E4 & P4 & B4 & Hs4).
  rewrite Z.add_0_r in E4. rewrite (bind_ret _ _ _ _ _ E4). set (o := over (cb3 1) 0 oops) in Hs4.
  destruct (write_start _ _ _ _ 1 Hs4 K1 eq_refl) as (s5 & E5 & P5 & B5 & Hs5).
  rewrite (bind_ret _ _ _ _ _ E5), fn_lookup_insert in *.
  rewrite (bind_ret _ _ _ _ _ (block_is_mapped_ok 1 s5 K1)), (sh_cached _ _ _ _ Hs5) by done.
  rewrite (bind_ret _ _ s5 tt s5) by done.
  destruct (unmap_start _ _ _ _ 1 Hs5 K1) as (s6 & E6 & P6 & B6 & Hs6).
  rewrite (bind_ret _ _ _ _ _ E6), (bind_ret _ _ s6 tt s6) by done.
  rewrite (bind_ret _ _ _ _ _ (block_is_mapped_ok 1 s6 K1)), (sh_cached _ _ _ _ Hs6), fn_lookup_insert by done.
  rewrite (bind_ret _ _ s6 tt s6) by done.
  (* the block is read back *)
  set (C6 := <[1 := false]> (on [0; 1])) in Hs6. set (db5 := <[1 := o]> db) in Hs6.
  destruct (read_start _ _ _ _ 1 Hs6 K1 (fn_lookup_insert _ _ _) ltac:(congruence) ltac:(left; congruence)) as (s7 & E7 & P7 & B7 & Hs7).
  apply (shape_on _ _ [1; 0]) in Hs7.
  2: { intros c. unfold C6. destruct (Z.eq_dec c 1) as [->|Hne]; [by rewrite fn_lookup_insert|].
       rewrite !fn_lookup_insert_ne by done. unfold on. apply bool_decide_ext. rewrite !elem_of_cons. naive_solver. }
  assert (must_read 1 s6 = Ret tt s7) as E7' by (unfold must_read; by rewrite (bind_ret _ _ _ _ _ E7)).
  rewrite (bind_ret _ _ _ _ _ E7'). set (cb7 := <[1 := db5 1]> _) in Hs7.
  assert (cb7 1 = o /\ cb7 0 = db 1) as [C71 C70].
  { unfold cb7, db5. rewrite !fn_lookup_insert, !fn_lookup_insert_ne by done. done. }
  assert (same_str (disk_addr 1 + 0) oops s7 = Ret true s7) as E8.
  { apply (same_str_start 1 oops K1 Hoops _ _ _ _ 0 Hs7); [done|lia|done|]. intros i v Hi. rewrite C71. by apply over_in. }
  rewrite Z.add_0_r in E8. rewrite (bind_ret _ _ _ _ _ E8), (bind_ret _ _ s7 tt s7) by done.
  (* and restored *)
  destruct (copy_start _ _ _ _ 1 0 Hs7 K1 K0 eq_refl eq_refl) as (s8 & E9 & P8 & B8 & Hs8).
  rewrite (bind_ret _ _ _ _ _ E9).
  destruct (write_start _ _ _ _ 1 Hs8 K1 eq_refl) as (s9 & E10 & P9 & B9 & Hs9).
  rewrite (bind_ret _ _ _ _ _ E10). rewrite fn_lookup_insert, C70 in Hs9.
  eexists _, (<[1 := db 1]> cb7). split; [reflexivity|]. split_and!; [done|cbn; congruence| |by rewrite fn_lookup_insert|].
  - apply shape_super. apply (shape_db _ _ _ _ _ Hs9). intros c i Hc Hi. unfold db5.
    destruct (Z.eq_dec c 1) as [->|Hne]; [by rewrite fn_lookup_insert|by rewrite !fn_lookup_insert_ne].
  - by rewrite fn_lookup_insert_ne.
Qed.

(** A block of the small bitmap. *)
Lemma bitmap_block_small b : 0 <= b < BLOCK_SIZE_BIT -> bitmap_block b = 2.
Proof. intros Hb. unfold bitmap_block. rewrite Z.div_small by done. done. Qed.

(** The server after its start: the files are those of the image. *)
Record booted (s : fs) : Prop := {
  bo_good : fs_good size s;
  bo_marks : forall b, 0 <= b < size -> marked_free s b = (n <=? b);
  bo_bytes : forall c i, 0 < c < BLOCK_SIZE_BIT -> 0 <= i < BLOCK_SIZE -> lbyte s c i = disk s0 (c * BLOCK_SIZE + i)
}.

Lemma booted_shape s cb : super s = disk_addr 1 -> bitmap s = disk_addr 2 -> shape s (on [2; 1; 0]) cb db ->
  cb 1 = db 1 -> cb 2 = db 2 -> booted s.
Proof.
  intros Es Eb Hs C1 C2. assert (blk_ok 2) as K2 by by apply blk_ok_small. pose proof (di_range _ _ _ _ Himg) as Hn.
  assert (fs_ok size s) as Hok.
  { split; try done.
    - rewrite (shape_load _ _ _ _ 1 4 Hs blk_ok_1 eq_refl) by done. by rewrite C1, db_load, Z.mul_1_l, (di_nblocks _ _ _ _ Himg).
    - unfold BLOCK_SIZE_BIT, BLOCK_SIZE in *. change (DISKMAX / 4096) with 262144. lia.
    - by rewrite (sh_cached _ _ _ _ Hs) by apply blk_ok_1.
    - intros b Hb. rewrite bitmap_block_small by lia. by rewrite (sh_cached _ _ _ _ Hs). }
  assert (forall b, 0 <= b < size -> marked_free s b = (n <=? b)) as Hm.
  { intros b Hb. unfold marked_free, word_of. unfold BLOCK_SIZE_BIT, BLOCK_SIZE in Hsize.
    rewrite (shape_load _ _ _ _ 2 (4 * (b / 32)) Hs K2 eq_refl) by (unfold BLOCK_SIZE; Z.div_mod_to_equations; lia).
    rewrite C2, db_load, (di_bitmap _ _ _ _ Himg) by (unfold BLOCK_SIZE_BIT, BLOCK_SIZE; lia).
    rewrite (proj2 (Z.ltb_lt b size)) by lia. apply andb_true_r. }
  split; [split; [done|apply Hs|]|done|].
  - intros b Hb Hf. rewrite (sh_cached _ _ _ _ Hs) by (apply blk_ok_small; lia). rewrite Hm in Hf by done.
    apply Z.leb_le in Hf. apply bool_decide_eq_false_2. rewrite !elem_of_cons. intros [?|[?|[?|?%elem_of_nil]]]; lia || done.
  - intros c i Hc Hi. assert (blk_ok c) as Kc by (apply blk_ok_small; lia). unfold lbyte. rewrite (sh_cached _ _ _ _ Hs) by done.
    change (disk s0 (c * BLOCK_SIZE + i)) with (db c i).
    destruct (on [2; 1; 0] c) eqn:E; [|by apply (sh_disk _ _ _ _ Hs)]. rewrite (sh_bytes _ _ _ _ Hs) by done.
    apply bool_decide_eq_true in E. rewrite !elem_of_cons in E. destruct E as [->|[->|[->|?%elem_of_nil]]]; [by rewrite C2|by rewrite C1|lia|done].
Qed.

Lemma fs_init_ok : exists s, fs_init s0 = Ret tt s /\ booted s.
Proof.
  destruct read_super_ok as (s1 & cb1 & E1 & P1 & B1 & Hs1 & C1).
  destruct (check_write_ok s1 cb1 B1 Hs1 C1) as (s2 & cb2 & E2 & P2 & B2 & Hs2 & C21 & C20).
  assert (blk_ok 2) as K2 by by apply blk_ok_small. pose proof (di_range _ _ _ _ Himg) as Hn.
  assert (s_nblocks s2 = Ret size s2) as En.
  { unfold s_nblocks. rewrite bind_get, P2, (shape_uload _ _ _ _ 1 4 Hs2 blk_ok_1 eq_refl) by done.
    by rewrite C21, db_load, Z.mul_1_l, (di_nblocks _ _ _ _ Himg). }
  destruct (read_start s2 _ _ _ 2 Hs2 K2 eq_refl B2) as (s3 & E3 & P3 & B3 & Hs3); [right; exists size; split; [done|lia]|].
  apply (shape_on _ _ [2; 1; 0]) in Hs3; [|apply on_cons].
  set (s4 := set_bitmap (disk_addr 2) s3). exists s4.
  assert (booted s4) as Hbt.
  { apply (booted_shape s4 (<[2 := db 2]> cb2)); [by rewrite <- P2|done|by apply shape_bitmap| |by rewrite fn_lookup_insert].
    by rewrite fn_lookup_insert_ne. }
  split; [|done]. unfold fs_init. rewrite (bind_ret _ _ _ _ _ E1), (bind_ret _ _ _ _ _ E2).
  assert (size / BLOCK_SIZE_BIT + 1 = 1) as Eb by (rewrite Z.div_small by lia; done).
  assert (forall b, 0 <= b < 3 -> block_is_free b s4 = Ret false s4) as Hf.
  { intros b Hb. destruct Hbt as [[Hok _ _] Hm _]. rewrite (block_is_free_ok size s4 Hok) by lia.
    rewrite Hm by lia. by rewrite (proj2 (Z.leb_gt n b)), andb_false_r by lia. }
  unfold read_bitmap. rewrite (bind_ret _ _ _ _ _ En), Eb. change (Z.to_nat 1) with 1%nat. cbn [mfor].
  rewrite bind_assoc. change (0 + 2) with 2.
  assert ((read_block 2 ≫= (fun _ => mret tt)) s2 = Ret tt s3) as E4 by by rewrite (bind_ret _ _ _ _ _ E3).
  rewrite (bind_ret _ _ _ _ _ E4), bind_mret, bind_modify. fold s4.
  rewrite (bind_ret _ _ _ _ _ (Hf 0 ltac:(lia))), (bind_ret _ _ s4 tt s4) by done.
  rewrite (bind_ret _ _ _ _ _ (Hf 1 ltac:(lia))), (bind_ret _ _ s4 tt s4) by done.
  by rewrite bind_assoc, (bind_ret _ _ _ _ _ (Hf 2 ltac:(lia))).
Qed.
End boot.
