(* ===== verification/FsLookup.v ===== *)
(** The file server on a disk that holds an image: paths lead to the files and
    directories of the image, and the blocks of a file hold its bytes, through
    any number of lookups.  Together with the builder this is the whole way of
    a file of the host to a client of the server. *)
From S2P Require Import Prelude Mem Proc FsBlock FsFile FsImage Fsformat FsBuild FsTree FsBoot.

(** ** Directories inside a tree *)

Record is_directory (m : memory) (a : Z) (nm : list Z) (kids : list node) (bs : list Z) (ind : Z) (us : list (list Z)) : Prop := {
  dr_ok : name_ok nm;
  dr_name : name_at m a nm;
  dr_type : load 4 m (a + off_type) = FTYPE_DIR;
  dr_blocks : length bs = ceil (length kids) 16;
  dr_entries : entries m a kids bs ind us
}.

Lemma is_directory_holds m a nm kids bs ind us : is_directory m a nm kids bs ind us ->
  holds m a (NDir nm kids) (used bs ind us).
Proof. intros []. by apply entries_holds. Qed.

Lemma holds_directory m a nm kids u : holds m a (NDir nm kids) u ->
  exists bs ind us, u = used bs ind us /\ is_directory m a nm kids bs ind us.
Proof.
  intros (H1 & H2 & H3 & bs & ind & us & -> & H5 & H6)%holds_dir_entries. by exists bs, ind, us.
Qed.

(** The representation is unique. *)
Lemma slots_unique m a bs bs' ind ind' : slots m a bs ind -> slots m a bs' ind' -> length bs = length bs' ->
  bs = bs' /\ ind = ind'.
Proof.
  intros [H1 H2 H3 H4] [H1' _ _ H4'] Hl. assert (ind = ind') as <- by congruence. split; [|done].
  apply list_eq_same_length with (length bs); [done|done|]. intros i x y _ Hx Hy.
  by rewrite <- (H4 i x Hx), <- (H4' i y Hy).
Qed.

Lemma holds_unique m t : forall a u u', holds m a t u -> holds m a t u' -> u = u'.
Proof.
  induction t as [nm bytes|nm kids IH] using node_ind'; intros a u u' H H'.
  - inversion H; inversion H'; subst. destruct (slots_unique m a bs bs0 ind ind0) as [-> ->]; [done|done|congruence|done].
  - apply holds_directory in H as (bs & ind & us & -> & [_ _ _ B1 [_ S1 _ L1 K1 _]]).
    apply holds_directory in H' as (bs' & ind' & us' & -> & [_ _ _ B2 [_ S2 _ L2 K2 _]]).
    destruct (slots_unique m a bs bs' ind ind') as [<- <-]; [done|done|congruence|].
    f_equal. apply list_eq_same_length with (length kids); [done|done|]. intros i x y Hi Hx Hy.
    destruct (lookup_lt_is_Some_2 kids i Hi) as (k & Hk). rewrite Forall_lookup in IH.
    apply (IH i k Hk (place bs i)); [by eapply K1|by eapply K2].
Qed.

Lemma is_directory_unique m a nm kids bs ind us bs' ind' us' :
  is_directory m a nm kids bs ind us -> is_directory m a nm kids bs' ind' us' -> bs = bs' /\ ind = ind' /\ us = us'.
Proof.
  intros [_ _ _ B1 [_ S1 _ L1 K1 _]] [_ _ _ B2 [_ S2 _ L2 K2 _]].
  destruct (slots_unique m a bs bs' ind ind') as [<- <-]; [done|done|congruence|]. split_and!; [done|done|].
  apply list_eq_same_length with (length kids); [done|done|]. intros i x y Hi Hx Hy.
  destruct (lookup_lt_is_Some_2 kids i Hi) as (k & Hk).
  apply (holds_unique m k (place bs i)); [by eapply K1|by eapply K2].
Qed.

(** [sub m a t u a' t' u']: the tree [t] at [a], which owns [u], has inside
    it the tree [t'] at [a'], which owns [u']. *)
Inductive sub (m : memory) : Z -> node -> list Z -> Z -> node -> list Z -> Prop :=
  | sub_refl a t u : holds m a t u -> sub m a t u a t u
  | sub_step a nm kids bs ind us i k u a' t' u' :
      is_directory m a nm kids bs ind us -> kids !! i = Some k -> us !! i = Some u ->
      sub m (place bs i) k u a' t' u' -> sub m a (NDir nm kids) (used bs ind us) a' t' u'.

Lemma sub_holds m a t u a' t' u' : sub m a t u a' t' u' -> holds m a t u /\ holds m a' t' u'.
Proof.
  induction 1 as [|a nm kids bs ind us i k u a' t' u' Hd Hk Hu Hs [IH1 IH2]]; [done|].
  split; [by apply is_directory_holds|done].
Qed.

Lemma sub_snoc m a t u a' nm kids bs ind us i k v : sub m a t u a' (NDir nm kids) (used bs ind us) ->
  is_directory m a' nm kids bs ind us -> kids !! i = Some k -> us !! i = Some v -> sub m a t u (place bs i) k v.
Proof.
  intros Hs Hd Hk Hv. remember (NDir nm kids) as t' eqn:Et. remember (used bs ind us) as u' eqn:Eu.
  induction Hs as [a t u Hh|a nm1 kids1 bs1 ind1 us1 i1 k1 u1 a' t' u' Hd1 Hk1 Hu1 Hs IH]; subst.
  - apply (sub_step m a nm kids bs ind us i k v); try done. apply sub_refl.
    destruct Hd as [_ _ _ _ []]. by eauto.
  - apply (sub_step m a nm1 kids1 bs1 ind1 us1 i1 k1 u1); try done. by apply IH.
Qed.

Lemma concat_once (us : list (list Z)) i u : NoDup (concat us) -> us !! i = Some u -> NoDup u.
Proof.
  revert i. induction us as [|v us IH]; intros i Hn Hi; [done|]. cbn in Hn. apply NoDup_app in Hn as (Hv & _ & Hn).
  destruct i; simpl in Hi; [by injection Hi as <-|by eapply IH].
Qed.

Lemma concat_apart (us : list (list Z)) i j u v b : NoDup (concat us) -> us !! i = Some u -> us !! j = Some v ->
  i <> j -> b ∈ u -> b ∉ v.
Proof.
  revert i j. induction us as [|w us IH]; intros i j Hn Hi Hj Hne Hb; [done|]. cbn in Hn.
  apply NoDup_app in Hn as (_ & Ha & Hn). destruct i as [|i], j as [|j]; simpl in *; [done| | |].
  - injection Hi as ->. intros Hv. apply (Ha b Hb). by eapply in_concat_lookup.
  - injection Hj as ->. intros Hv. apply (Ha b Hv). by eapply in_concat_lookup.
  - apply (IH i j); congruence || done.
Qed.

(** Where a tree is, apart from the blocks it owns. *)
Record apart (a : Z) (u : list Z) : Prop := {
  ap_pos : 0 <= a;
  ap_fit : a mod BLOCK_SIZE + FILE_STRUCT_SIZE <= BLOCK_SIZE;
  ap_once : NoDup u;
  ap_self : blk a ∉ u;
  ap_range : Forall (fun b => 0 < b) u
}.

Lemma blk_in a j : 0 <= a -> a mod BLOCK_SIZE + FILE_STRUCT_SIZE <= BLOCK_SIZE -> 0 <= j < FILE_STRUCT_SIZE -> blk (a + j) = blk a.
Proof. intros Ha Hm Hj. unfold blk, BLOCK_SIZE, FILE_STRUCT_SIZE in *. Z.div_mod_to_equations. lia. Qed.

Lemma used_kid bs ind us i u b : us !! i = Some u -> b ∈ u -> b ∈ used bs ind us.
Proof. intros Hu Hb. apply elem_of_app. right. by eapply in_concat_lookup. Qed.

Lemma used_block bs ind us b : b ∈ bs -> b ∈ used bs ind us.
Proof. intros Hb. apply elem_of_app. left. apply own_in. by left. Qed.

Lemma apart_kid m a nm kids bs ind us i k u : is_directory m a nm kids bs ind us -> apart a (used bs ind us) ->
  kids !! i = Some k -> us !! i = Some u -> apart (place bs i) u /\ blk (place bs i) ∈ bs /\ (i < 16 * length bs)%nat.
Proof.
  intros [_ _ _ _ [_ _ Hr Hl _ _]] [_ _ Ho _ Hp] Hk Hu. pose proof (lookup_lt_Some _ _ _ Hk) as Hi.
  assert (i < 16 * length bs)%nat as Hi' by lia.
  destruct (place_nth bs i Hi') as (b & Hb & E). pose proof (place_offset i) as Hoff.
  assert (blk (place bs i) = b) as Eb by (rewrite E; apply in_block; unfold FILE_STRUCT_SIZE in *; lia).
  assert (b ∈ bs) as Hbin by by eapply list_elem_of_lookup_2.
  rewrite Forall_forall in Hp. specialize (Hp b (used_block bs ind us b Hbin)) as Hb0.
  split; [|by rewrite Eb]. split.
  - rewrite E. unfold BLOCK_SIZE. lia.
  - rewrite E, (Z.add_comm (b * BLOCK_SIZE)), Z.mod_add, Z.mod_small by (unfold FILE_STRUCT_SIZE, BLOCK_SIZE in *; lia). lia.
  - apply NoDup_app in Ho as (_ & _ & Hn). by eapply concat_once.
  - rewrite Eb. intros Hin. apply NoDup_app in Ho as (_ & Ho & _). apply (Ho b); [apply own_in; by left|by eapply in_concat_lookup].
  - apply Forall_forall. intros c Hc. apply Hp. by eapply used_kid.
Qed.

Lemma sub_apart m a t u a' t' u' : sub m a t u a' t' u' -> apart a u ->
  apart a' u' /\ (forall b, b ∈ u' -> b ∈ u) /\ (a' = a /\ u' = u \/ blk a' ∈ u).
Proof.
  induction 1 as [|a nm kids bs ind us i k u a' t' u' Hd Hk Hu Hs IH]; intros Ha; [split_and!; [done|done|by left]|].
  destruct (apart_kid m a nm kids bs ind us i k u Hd Ha Hk Hu) as (Ha1 & Hb1 & _).
  destruct (IH Ha1) as (H1 & H2 & H3). split_and!; [done|intros b Hb; eapply used_kid; eauto|right].
  destruct H3 as [[-> _]|H3]; [by apply used_block|by eapply used_kid].
Qed.

(** ** Frames for trees inside trees *)

Lemma is_directory_move m m' a nm kids bs ind us : is_directory m a nm kids bs ind us ->
  (forall i, 0 <= i < ENTRY -> m' (a + i) = m (a + i)) ->
  (forall i k u, kids !! i = Some k -> us !! i = Some u -> holds m' (place bs i) k u) ->
  (forall i, (length kids <= i < 16 * length bs)%nat -> blank m' (place bs i)) ->
  (forall x, ind <> 0 -> blk x = ind -> m' x = m x) -> is_directory m' a nm kids bs ind us.
Proof.
  intros [H1 H2 H3 H4 [E1 E2 E3 E4 E5 E6]] Hh Hk Hb Hi. split; [done| | |done|].
  - by apply (name_at_move m m' a a).
  - by rewrite (field_move m m' a a).
  - split; try done; [by rewrite (field_move m m' a a)|by apply (slots_move m m' a a)].
Qed.

Lemma sub_move m m' a t u a' t' u' : sub m a t u a' t' u' ->
  (forall i, 0 <= i < ENTRY -> m' (a + i) = m (a + i)) -> (forall x, blk x ∈ u -> m' x = m x) ->
  sub m' a t u a' t' u'.
Proof.
  induction 1 as [a t u Hh|a nm kids bs ind us i k u a' t' u' Hd Hk Hu Hs IH]; intros Hhead Hx.
  { apply sub_refl. by apply (holds_frame m). }
  destruct (Hd) as [_ _ _ _ [_ _ Hr Hl Hkids Hbl]].
  assert (forall i j, (i < 16 * length bs)%nat -> 0 <= j < ENTRY -> m' (place bs i + j) = m (place bs i + j)) as Hent.
  { intros i' j Hi' Hj. apply Hx, used_block, place_blk; [done|]. unfold ENTRY, FILE_STRUCT_SIZE in *. lia. }
  apply (sub_step m' a nm kids bs ind us i k u); [|done|done|].
  - apply (is_directory_move m); try done.
    + intros i0 k0 u0 Hk0 Hu0. pose proof (lookup_lt_Some _ _ _ Hk0). apply (holds_frame m); [by eauto|..].
      * intros j Hj. apply Hent; [lia|done].
      * intros x Hb. apply Hx. by eapply used_kid.
    + intros i0 Hi0 j Hj. rewrite Hent by (lia || done). by apply (Hbl i0).
    + intros x H0 E. apply Hx, elem_of_app. left. apply own_in. by right.
  - pose proof (lookup_lt_Some _ _ _ Hk). apply IH; [intros j Hj; apply Hent; [lia|done]|].
    intros x Hb. apply Hx. by eapply used_kid.
Qed.

(** The bytes of [f_dir] of the entry at [p] changed. *)
Definition redirected (p : Z) (m m' : memory) : Prop :=
  forall x, ~ (p + off_dir <= x < p + FILE_STRUCT_SIZE) -> m' x = m x.

Lemma redirect_head p m m' : redirected p m m' -> forall i, 0 <= i < ENTRY -> m' (p + i) = m (p + i).
Proof. intros Hm i Hi. apply Hm. ioffs; lia. Qed.

Lemma redirect_block p m m' x : redirected p m m' -> 0 <= p -> p mod BLOCK_SIZE + FILE_STRUCT_SIZE <= BLOCK_SIZE ->
  blk x <> blk p -> m' x = m x.
Proof.
  intros Hm Hp Hf Hb. apply Hm. intros Hx. apply Hb. rewrite <- (blk_in p (x - p)) by (done || (ioffs; lia)). f_equal. lia.
Qed.

Section redirect.
Context (m m' : memory) (a : Z) (nm : list Z) (kids : list node) (bs : list Z) (ind : Z) (us : list (list Z)).
Context (i : nat) (k : node) (u : list Z) (p : Z).
Hypothesis (Hd : is_directory m a nm kids bs ind us) (Ha : apart a (used bs ind us)).
Hypothesis (Hk : kids !! i = Some k) (Hu : us !! i = Some u) (Hm : redirected p m m').
Hypothesis (Hp0 : 0 <= p) (Hpf : p mod BLOCK_SIZE + FILE_STRUCT_SIZE <= BLOCK_SIZE).
(** It is entry [i], or in a block below it. *)
Hypothesis (Hp : p = place bs i \/ blk p ∈ u).

Lemma redirect_used : blk p ∈ used bs ind us.
Proof.
  destruct (apart_kid m a nm kids bs ind us i k u Hd Ha Hk Hu) as (_ & Hbk & _).
  destruct Hp as [->|?]; [by apply used_block|by eapply used_kid].
Qed.

(** The other entries and the blocks below them stay. *)
Lemma redirect_entry i0 j : i0 <> i -> (i0 < 16 * length bs)%nat -> 0 <= j < FILE_STRUCT_SIZE ->
  m' (place bs i0 + j) = m (place bs i0 + j).
Proof.
  intros Hne Hi0 Hj. destruct (apart_kid m a nm kids bs ind us i k u Hd Ha Hk Hu) as (_ & _ & Hik).
  destruct Ha as [_ _ Ho _ _]. apply NoDup_app in Ho as (Ho & Hou & _).
  apply Hm. intros Hx. destruct Hp as [E|Hpu].
  - rewrite E in Hx. apply (place_apart bs i0 i j); try done; [by apply NoDup_app in Ho as [? _]|ioffs; lia].
  - apply (Hou (blk (place bs i0 + j))); [apply own_in; left; by apply place_blk|].
    replace (place bs i0 + j) with (p + (place bs i0 + j - p)) by lia. rewrite blk_in by (done || (ioffs; lia)).
    by eapply in_concat_lookup.
Qed.

Lemma redirect_below i0 u0 x : i0 <> i -> us !! i0 = Some u0 -> blk x ∈ u0 -> m' x = m x.
Proof.
  intros Hne Hu0 Hx. destruct (apart_kid m a nm kids bs ind us i k u Hd Ha Hk Hu) as (_ & Hbk & _).
  destruct Ha as [_ _ Ho _ _]. apply NoDup_app in Ho as (_ & Hou & Hc).
  apply (redirect_block p); try done. intros E. rewrite E in Hx. destruct Hp as [Ep|Hpu].
  - rewrite Ep in Hx. apply (Hou (blk (place bs i))); [apply own_in; by left|by eapply in_concat_lookup].
  - by apply (concat_apart us i i0 u u0 (blk p)).
Qed.

Lemma redirect_directory : holds m' (place bs i) k u -> is_directory m' a nm kids bs ind us.
Proof.
  intros Hh. pose proof redirect_used as Hpu. destruct (apart_kid m a nm kids bs ind us i k u Hd Ha Hk Hu) as (_ & Hbk & _).
  pose proof Ha as [A1 A2 A3 A4 A5]. destruct (Hd) as [_ _ _ _ [_ _ Hr Hl Hkids Hbl]].
  apply NoDup_app in A3 as (Ho & Hou & _). pose proof (lookup_lt_Some _ _ _ Hk).
  apply (is_directory_move m); try done.
  - intros j Hj. apply (redirect_block p); try done. rewrite blk_in by (done || (ioffs; lia)). congruence.
  - intros i0 k0 u0 Hk0 Hu0. destruct (Nat.eq_dec i0 i) as [->|Hne]; [congruence|].
    pose proof (lookup_lt_Some _ _ _ Hk0). apply (holds_frame m); [by eauto| |].
    + intros j Hj. apply redirect_entry; [done|lia|ioffs; lia].
    + intros x Hx. by apply (redirect_below i0 u0).
  - intros i0 Hi0 j Hj. rewrite redirect_entry by (lia || (ioffs; lia)). by apply (Hbl i0).
  - intros x H0 E. apply (redirect_block p); try done. rewrite E. intros Ei. destruct Hp as [Ep|Hpu'].
    + rewrite <- Ep, <- Ei in Hbk. unfold own in Ho. rewrite (proj2 (Z.eqb_neq _ _) H0) in Ho. apply NoDup_app in Ho as (_ & Ho & _).
      apply (Ho _ Hbk). by apply list_elem_of_singleton.
    + apply (Hou (blk p)); [apply own_in; right; by rewrite <- Ei|by eapply in_concat_lookup].
Qed.
End redirect.

Lemma redirect_holds m m' a t u p t' u' : sub m a t u p t' u' -> apart a u -> redirected p m m' -> holds m' a t u.
Proof.
  induction 1 as [a t u Hh|a nm kids bs ind us i k u p t' u' Hd Hk Hu Hs IH]; intros Ha Hm.
  - apply (holds_frame m); [done|by apply redirect_head|]. intros x Hx. pose proof Ha as [A1 A2 A3 A4 A5].
    apply (redirect_block a); try done. intros E. congruence.
  - destruct (apart_kid m a nm kids bs ind us i k u Hd Ha Hk Hu) as (Hak & Hbk & Hik).
    destruct (sub_apart _ _ _ _ _ _ _ Hs Hak) as ([P1 P2 _ _ _] & _ & Hp).
    apply is_directory_holds, (redirect_directory m m' a nm kids bs ind us i k u p); try done; [|by apply IH].
    destruct Hp as [[-> _]|?]; [by left|by right].
Qed.

(** Every tree inside stays one. *)
Lemma redirect_sub m m' a t u a2 t2 u2 : sub m a t u a2 t2 u2 -> forall p t' u',
  sub m a t u p t' u' -> apart a u -> redirected p m m' -> sub m' a t u a2 t2 u2.
Proof.
  induction 1 as [a t u Hh|a nm kids bs ind us i k u a2 t2 u2 Hd Hk Hu Hs IH]; intros p t' u' Hp Ha Hm.
  { apply sub_refl. by apply (redirect_holds m m' a t u p t' u'). }
  destruct (apart_kid m a nm kids bs ind us i k u Hd Ha Hk Hu) as (Hak & Hbk & Hik).
  inversion Hp as [|a0 nm0 kids0 bs0 ind0 us0 j k' v p0 t0 u0 Hd0 Hk' Hv Hs' ]; subst.
  - (* the directory itself *)
    pose proof Ha as [A1 A2 A3 A4 A5]. apply (sub_move m); [by apply (sub_step m p nm kids bs ind us i k u)|by apply redirect_head|].
    intros x Hx. apply (redirect_block p); try done. congruence.
  - (* below entry [j] *)
    destruct (is_directory_unique _ _ _ _ _ _ _ _ _ _ Hd Hd0) as (<- & <- & <-).
    destruct (apart_kid m a nm kids bs ind us j k' v Hd Ha Hk' Hv) as (Haj & Hbj & Hij).
    destruct (sub_apart _ _ _ _ _ _ _ Hs' Haj) as ([P1 P2 _ _ _] & _ & Hpj).
    assert (p = place bs j \/ blk p ∈ v) as Hpl by (destruct Hpj as [[-> _]|?]; [by left|by right]).
    apply (sub_step m' a nm kids bs ind us i k u); [|done|done|].
    + apply (redirect_directory m m' a nm kids bs ind us j k' v p); try done.
      by apply (redirect_holds m m' _ _ _ p t' u').
    + destruct (Nat.eq_dec i j) as [->|Hne].
      * assert (k' = k) as -> by congruence. assert (v = u) as -> by congruence. by apply (IH p t' u').
      * apply (sub_move m); [done| |].
        -- intros o Ho. apply (redirect_entry m m' a nm kids bs ind us j k' v p); try done. ioffs; lia.
        -- intros x Hx. by apply (redirect_below m m' a nm kids bs ind us j k' v p Hd Ha Hk' Hv Hm P1 P2 Hpl i u).
Qed.

(** ** The server's view *)

Lemma same_contents_trans k s s1 s2 : same_contents k s s1 -> same_contents k s1 s2 -> same_contents k s s2.
Proof.
  intros [A1 A2 A3 A4] [B1 B2 B3 B4]. split; [done|auto|..].
  - intros c i Hc Hi. by rewrite B3, A3.
  - intros x Hx. by rewrite B4, A4.
Qed.

(** A pointer into the block cache. *)
Definition ptr (a : Z) : Z := disk_addr (blk a) + a mod BLOCK_SIZE.

Section server.
Context (size n : Z) (ts : list node) (u : list Z).

(** The contents of the blocks after the first: cached, or on the disk. *)
Definition contents (s : fs) : memory := fun x =>
  if (0 <? blk x) && (blk x <? size) then lbyte s (blk x) (x mod BLOCK_SIZE) else 0.

Definition root_dir : Z := BLOCK_SIZE + 8.
Definition root : node := NDir [47] ts.

(** The server holds the tree [root]. *)
Record serving (s : fs) : Prop := {
  sv_good : fs_good size s;
  sv_size : size < BLOCK_SIZE_BIT;
  sv_next : 3 <= n <= size;
  sv_marks : forall b, 0 <= b < size -> marked_free s b = (n <=? b);
  sv_root : holds (contents s) root_dir root u;
  sv_used : u ≡ₚ seqZ 3 (n - 3)
}.

(** [f] is a pointer to the tree [t] of the disk. *)
Definition opened (s : fs) (f : Z) (t : node) (a : Z) (v : list Z) : Prop :=
  f = ptr a /\ sub (contents s) root_dir root u a t v /\ cached (blk a) s = true.

Lemma blk_mod x : x = blk x * BLOCK_SIZE + x mod BLOCK_SIZE.
Proof. unfold blk, BLOCK_SIZE. Z.div_mod_to_equations. lia. Qed.

Lemma contents_at s c i : 0 < c < size -> 0 <= i < BLOCK_SIZE -> contents s (c * BLOCK_SIZE + i) = lbyte s c i.
Proof.
  intros Hc Hi. unfold contents. rewrite in_block by done.
  rewrite (proj2 (Z.ltb_lt 0 c)), (proj2 (Z.ltb_lt c size)) by lia. simpl. f_equal.
  rewrite Z.add_comm, Z.mod_add, Z.mod_small by (unfold BLOCK_SIZE in *; lia). done.
Qed.

(** A word of an entry. *)
Lemma contents_word s a o : 0 < blk a < size -> 0 <= a mod BLOCK_SIZE + o -> a mod BLOCK_SIZE + o + 4 <= BLOCK_SIZE ->
  load 4 (contents s) (a + o) = lword s (blk a) (a mod BLOCK_SIZE + o).
Proof.
  intros Ha Ho Ho'. unfold lword. apply load_move. intros i Hi.
  rewrite <- (contents_at s (blk a)) by (done || lia). f_equal. pose proof (blk_mod a). lia.
Qed.

Lemma used_range b : 3 <= n -> u ≡ₚ seqZ 3 (n - 3) -> b ∈ u <-> 3 <= b < n.
Proof. intros Hn ->. rewrite elem_of_seqZ. lia. Qed.

Lemma root_apart : 3 <= n -> u ≡ₚ seqZ 3 (n - 3) -> apart root_dir u.
Proof.
  intros Hn Hu. split; [done|by vm_compute|rewrite Hu; apply NoDup_seqZ| |].
  - rewrite used_range by done. change (blk root_dir) with 1. lia.
  - apply Forall_forall. intros b Hb. apply used_range in Hb; [lia|done..].
Qed.

Section state.
Context (s : fs).
Hypothesis (Hs : serving s).

Lemma serving_blk c : 0 < c < size -> blk_ok c.
Proof. intros Hc. apply blk_ok_small. destruct Hs. lia. Qed.

Lemma serving_data c : 0 < c < n -> c <> 2 -> data_block size s c.
Proof.
  intros Hc H2. destruct Hs as [Hg Hz Hn Hm _ _]. split; [lia| |].
  - rewrite Hm by lia. apply Z.leb_gt. lia.
  - intros x Hx. rewrite bitmap_block_small by lia. done.
Qed.

(** Facts about a tree inside. *)
Lemma sub_facts a t v : sub (contents s) root_dir root u a t v ->
  apart a v /\ (forall b, b ∈ v -> 3 <= b < n) /\ (blk a = 1 /\ 8 <= a mod BLOCK_SIZE \/ 3 <= blk a < n).
Proof.
  destruct Hs as [Hg Hz Hn Hm Hr Hu]. intros Hsub.
  destruct (sub_apart _ _ _ _ _ _ _ Hsub (root_apart ltac:(lia) Hu)) as (H1 & H2 & H3). split_and!; [done|..].
  - intros b Hb. apply used_range; [lia|done|by apply H2].
  - destruct H3 as [[-> _]|H3]; [left; split; [done|by vm_compute]|right; apply used_range; [lia|done..]].
Qed.

Lemma sub_range a t v : sub (contents s) root_dir root u a t v -> 0 < blk a < size /\ data_block size s (blk a).
Proof.
  intros Hsub. destruct (sub_facts a t v Hsub) as (_ & _ & Hb). destruct (Hs) as [Hg Hz Hn _ _ _].
  split; [destruct Hb as [[-> _]|?]; lia|]. apply serving_data; destruct Hb as [[-> _]|?]; lia.
Qed.

(** A block of a file or directory is found through its slot. *)
Lemma map_found a t v bs ind j b alloc : opened s (ptr a) t a v -> slots (contents s) a bs ind ->
  (forall c, c ∈ own bs ind -> 3 <= c < n) -> bs !! j = Some b ->
  exists s', file_map_block (ptr a) (Z.of_nat j) alloc s = Ret (0, b) s' /\ same_contents size s s'.
Proof.
  intros (_ & Hsub & Hcache) [S1 S2 S3 S4] Hown Hj. destruct (sub_facts a t v Hsub) as ([A1 A2 _ _ _] & _ & _).
  destruct (sub_range a t v Hsub) as [Hrange Hdata]. destruct (Hs) as [Hg Hz Hn _ _ _].
  pose proof (serving_blk _ Hrange) as Hka. pose proof (lookup_lt_Some _ _ _ Hj) as Hjl.
  assert (3 <= b < n) as Hbn by (apply Hown, own_in; left; by eapply list_elem_of_lookup_2).
  specialize (S4 j b Hj). unfold file_map_block, file_block_walk.
  assert (forall o, 0 <= o -> o + 4 <= FILE_STRUCT_SIZE -> uload 4 (ptr a + o) s = Ret (load 4 (contents s) (a + o)) s) as Hword.
  { intros o Ho Ho'. unfold ptr. pose proof (Z.mod_pos_bound a BLOCK_SIZE ltac:(done)).
    rewrite contents_word by (done || lia). rewrite <- Z.add_assoc. apply uload_block; (done || lia). }
  destruct (Z.ltb_spec (Z.of_nat j) NDIRECT) as [Hd|Hd].
  - exists s. split; [|by apply same_contents_refl]. rewrite bind_mret. change (0 <? 0) with false. cbv iota.
    rewrite <- Z.add_assoc in S4. rewrite <- Z.add_assoc. pose proof (Hword (off_direct + 4 * Z.of_nat j) ltac:(ioffs; lia) ltac:(ioffs; lia)) as E.
    rewrite S4 in E. rewrite (bind_ret _ _ _ _ _ E). rewrite (proj2 (Z.eqb_neq b 0)) by lia.
    rewrite bind_mret. change (0 <? 0) with false. cbv iota. by rewrite (bind_ret _ _ _ _ _ E).
  - destruct (Z.ltb_spec (Z.of_nat j) NINDIRECT); [|lia].
    assert (ind <> 0) as Hi0 by (apply S3; lia).
    assert (3 <= ind < n) as Hin by (apply Hown, own_in; by right).
    pose proof (Hword off_indirect ltac:(done) ltac:(done)) as E. rewrite S1 in E.
    assert (make_indirect (ptr a) alloc s = Ret 0 s) as Emk.
    { unfold make_indirect, f_indirect. rewrite (bind_ret _ _ _ _ _ E). by rewrite (proj2 (Z.eqb_neq ind 0)). }
    destruct (read_block_good size s ind Hg (serving_data ind ltac:(lia) ltac:(lia))) as (s' & new & Er & Hc & Hsame).
    assert (blk_ok ind) as Hki by (apply serving_blk; lia).
    assert (uload 4 (disk_addr ind + 4 * Z.of_nat j) s' = Ret b s') as El.
    { rewrite uload_block by (done || (ioffs; lia)). f_equal. rewrite (same_contents_word size s) by (done || (ioffs; lia)).
      rewrite <- S4. unfold lword. symmetry. apply load_move. intros i Hi. rewrite <- Z.add_assoc. apply contents_at; [lia|ioffs; lia]. }
    exists s'. split; [|done]. rewrite !bind_assoc, (bind_ret _ _ _ _ _ Emk). change (0 <? 0) with false. cbv iota.
    unfold f_indirect. rewrite !bind_assoc, (bind_ret _ _ _ _ _ E), !bind_assoc, (bind_ret _ _ _ _ _ Er).
    change (0 <? 0) with false. cbv iota. rewrite bind_mret. change (0 <? 0) with false. cbv iota.
    rewrite (bind_ret _ _ _ _ _ El). rewrite (proj2 (Z.eqb_neq b 0)) by lia.
    rewrite bind_mret. change (0 <? 0) with false. cbv iota. by rewrite (bind_ret _ _ _ _ _ El).
Qed.
End state.

(** ** The contents stay *)

Lemma same_contents_mem s s' x : serving s -> same_contents size s s' -> contents s' x = contents s x.
Proof.
  intros Hs Hsame. unfold contents. destruct (Z.ltb_spec 0 (blk x)), (Z.ltb_spec (blk x) size); simpl; try done.
  apply (sc_bytes _ _ _ Hsame); [apply (serving_blk s Hs); lia|]. apply Z.mod_pos_bound. done.
Qed.

Lemma same_serving s s' : serving s -> same_contents size s s' -> serving s' /\
  (forall f t a v, opened s f t a v -> opened s' f t a v).
Proof.
  intros Hs Hsame. pose proof (fun x => same_contents_mem s s' x Hs Hsame) as Hm. destruct (Hs) as [Hg Hz Hn Hmk Hr Hu].
  split.
  - split; try done; [apply Hsame|intros b Hb; rewrite (sc_marks _ _ _ Hsame) by done; by apply Hmk|].
    by apply (holds_frame (contents s)).
  - intros f t a v (-> & Hsub & Hc). split_and!; [done| |by apply (sc_cached _ _ _ Hsame)]. by apply (sub_move (contents s)).
Qed.

(** A file's block enters the cache. *)
Lemma get_found s a t v bs ind j b : serving s -> opened s (ptr a) t a v -> slots (contents s) a bs ind ->
  (forall c, c ∈ own bs ind -> 3 <= c < n) -> bs !! j = Some b ->
  exists s', file_get_block (ptr a) (Z.of_nat j) s = Ret (0, disk_addr b) s' /\ same_contents size s s' /\ cached b s' = true.
Proof.
  intros Hs Ho Hsl Hown Hj. destruct (map_found s Hs a t v bs ind j b 1 Ho Hsl Hown Hj) as (s1 & E1 & H1).
  destruct (same_serving s s1 Hs H1) as [Hs1 _].
  assert (3 <= b < n) as Hb by (apply Hown, own_in; left; by eapply list_elem_of_lookup_2).
  destruct (read_block_good size s1 b (sv_good _ Hs1) (serving_data s1 Hs1 b ltac:(lia) ltac:(lia))) as (s2 & new & E2 & Hc & H2).
  exists s2. split_and!; [|by apply (same_contents_trans size s s1)|done].
  unfold file_get_block. rewrite (bind_ret _ _ _ _ _ E1). change (0 <? 0) with false. cbv iota.
  by rewrite (bind_ret _ _ _ _ _ E2).
Qed.

(** ** One name *)

Lemma name_is_at m nm : forall a name, Forall (fun c => 0 < c < 256) nm -> Forall (fun c => 0 < c < 256) name ->
  name_at m a nm -> name_is m a name = bool_decide (nm = name).
Proof.
  intros a name. revert a nm. induction name as [|c name IH]; intros a nm Hn Hc Ha; cbn [name_is].
  - pose proof (Ha 0%nat) as Z0. destruct nm as [|x nm].
    + specialize (Z0 0 eq_refl). rewrite Z.add_0_r in Z0. by rewrite load8_eq, Z0.
    + specialize (Z0 x eq_refl). rewrite Z.add_0_r in Z0. rewrite load8_eq, Z0. inversion_clear Hn as [|? ? Hx Hn'].
      unfold u8. rewrite Z.mod_small by lia. rewrite (proj2 (Z.eqb_neq x 0)) by lia. done.
  - inversion_clear Hc as [|? ? Hc0 Hc']. pose proof (Ha 0%nat) as Z0. destruct nm as [|x nm].
    + specialize (Z0 0 eq_refl). rewrite Z.add_0_r in Z0. rewrite load8_eq, Z0.
      change (u8 0) with 0. rewrite (proj2 (Z.eqb_neq 0 c)) by lia. done.
    + specialize (Z0 x eq_refl). rewrite Z.add_0_r in Z0. rewrite load8_eq, Z0. inversion_clear Hn as [|? ? Hx Hn'].
      unfold u8. rewrite Z.mod_small by lia. rewrite (IH (a + 1) nm); [|done|done|].
      * destruct (Z.eqb_spec x c) as [->|Hne]; simpl; [|symmetry; apply bool_decide_eq_false_2; congruence].
        apply bool_decide_ext. split; [by intros ->|congruence].
      * intros i y Hi. replace (a + 1 + Z.of_nat i) with (a + Z.of_nat (S i)) by lia. by apply Ha.
Qed.

Lemma find_first {A} (p : A -> bool) (f : Z -> A) k : forall i,
  (exists j, (j < k)%nat /\ p (f (i + Z.of_nat j)) = true /\ (forall x, i <= x < i + Z.of_nat j -> p (f x) = false) /\
     find p (map f (seqZ i (Z.of_nat k))) = Some (f (i + Z.of_nat j))) \/
  ((forall x, i <= x < i + Z.of_nat k -> p (f x) = false) /\ find p (map f (seqZ i (Z.of_nat k))) = None).
Proof.
  induction k as [|k IH]; intros i; [right; split; [intros x Hx; lia|done]|].
  rewrite seqZ_cons by lia. replace (Z.pred (Z.of_nat (S k))) with (Z.of_nat k) by lia. cbn [map find].
  destruct (p (f i)) eqn:E.
  - left. exists 0%nat. rewrite Z.add_0_r. split_and!; [lia|done|intros x Hx; lia|done].
  - destruct (IH (Z.succ i)) as [(j & Hj & Hp & Hx & Hf)|[Hx Hf]].
    + left. exists (S j). replace (i + Z.of_nat (S j)) with (Z.succ i + Z.of_nat j) by lia. split_and!; [lia|done| |done].
      intros x Hi. destruct (Z.eq_dec x i) as [->|]; [done|apply Hx; lia].
    + right. split; [|done]. intros x Hi. destruct (Z.eq_dec x i) as [->|]; [done|apply Hx; lia].
Qed.

Section lookup.
Context (s : fs) (a : Z) (nm : list Z) (kids : list node) (v : list Z) (bs : list Z) (ind : Z) (us : list (list Z)) (name : list Z).
Hypothesis (Hs : serving s) (Ho : opened s (ptr a) (NDir nm kids) a v).
Hypothesis (Hd : is_directory (contents s) a nm kids bs ind us) (Hv : v = used bs ind us).
Hypothesis (Hlen : Z.of_nat (length name) < MAXNAMELEN) (Hname : Forall (fun c => 0 < c < 256) name).

Lemma dir_range b : b ∈ v -> 3 <= b < n.
Proof. destruct Ho as (_ & Hsub & _). by apply (sub_facts s Hs a (NDir nm kids) v). Qed.

Lemma place_ptr i b : bs !! (i / 16)%nat = Some b -> ptr (place bs i) = disk_addr b + Z.of_nat (i mod 16) * FILE_STRUCT_SIZE /\
  blk (place bs i) = b.
Proof.
  intros Hb. unfold ptr, place. rewrite (nth_lookup_Some _ _ _ _ Hb). pose proof (place_offset i) as Hoff.
  rewrite in_block by (unfold FILE_STRUCT_SIZE in *; lia). split; [|done].
  rewrite (Z.add_comm (b * BLOCK_SIZE)), Z.mod_add, Z.mod_small by (unfold FILE_STRUCT_SIZE, BLOCK_SIZE in *; lia). lia.
Qed.

(** The test of one entry, in any later state. *)
Lemma entry_test s1 i b : same_contents size s s1 -> bs !! (i / 16)%nat = Some b -> cached b s1 = true -> (i < 16 * length bs)%nat ->
  entry_is s1 name (ptr (place bs i)) = match kids !! i with Some k => bool_decide (node_name k = name) | None => false end.
Proof.
  intros Hsame Hb Hc Hi. destruct (place_ptr i b Hb) as [Ep Eb].
  assert (3 <= b < n) as Hbn by (apply dir_range; rewrite Hv; apply used_block; by eapply list_elem_of_lookup_2).
  destruct (Hs) as [_ _ Hn _ _ _]. pose proof (place_offset i) as Hoff.
  assert (forall j, 0 <= j < FILE_STRUCT_SIZE -> u_mem (f_proc s1) (ptr (place bs i) + j) = contents s (place bs i + j)) as Hm.
  { intros j Hj. destruct (place_nth bs i Hi) as (b' & Hb' & E). assert (b' = b) as -> by congruence.
    rewrite Ep, E, <- !Z.add_assoc. rewrite contents_at by lia. rewrite <- (sc_bytes _ _ _ Hsame) by (apply (serving_blk s Hs); lia) || lia.
    unfold lbyte. rewrite Hc. unfold cache_byte. f_equal. lia. }
  destruct Hd as [_ _ _ _ [_ _ Hr Hl Hk Hbl]]. unfold entry_is. rewrite load8_eq.
  rewrite <- (Z.add_0_r (ptr (place bs i))) at 1. rewrite Hm, Z.add_0_r by (unfold FILE_STRUCT_SIZE; lia).
  destruct (kids !! i) as [k|] eqn:Ek.
  - destruct (lookup_lt_is_Some_2 us i) as (w & Hw); [apply lookup_lt_Some in Ek; lia|].
    destruct (holds_name _ _ _ _ (Hk i k w Ek Hw)) as [Hn1 Hn2]. pose proof (name_at_first _ _ _ Hn1 Hn2).
    unfold u8. rewrite Z.mod_small by lia. rewrite (proj2 (Z.eqb_neq (contents s (place bs i)) 0)) by lia. cbn [negb andb].
    destruct Hn1 as (_ & Hch & Hlk). apply name_is_at; [done|done|].
    intros j c Hj. rewrite Hm; [by apply Hn2|]. apply lookup_lt_Some in Hj. rewrite length_app in Hj. simpl in Hj.
    unfold MAXNAMELEN, FILE_STRUCT_SIZE in *. lia.
  - apply lookup_ge_None in Ek. pose proof (Hbl i ltac:(lia) 0 ltac:(done)) as H0. rewrite Z.add_0_r in H0. by rewrite H0.
Qed.

(** What a search that goes through the first [i] entries found. *)
Definition absent (i : nat) : Prop := forall j k, (j < i)%nat -> kids !! j = Some k -> node_name k <> name.
Definition hit (r : Z * Z) (s' : fs) : Prop :=
  exists i k w s1, kids !! i = Some k /\ us !! i = Some w /\ node_name k = name /\ absent i /\
    same_contents size s s1 /\ cached (blk (place bs i)) s1 = true /\
    r = (0, ptr (place bs i)) /\ s' = with_dir (ptr (place bs i)) (ptr a) s1.

Lemma scan_ok s1 j b : same_contents size s s1 -> bs !! j = Some b -> cached b s1 = true -> absent (16 * j) ->
  (exists f s2, dir_scan (ptr a) (disk_addr b) name s1 = Ret (Some f) s2 /\ hit (0, f) s2) \/
  (dir_scan (ptr a) (disk_addr b) name s1 = Ret None s1 /\ absent (16 * S j)).
Proof.
  intros Hsame Hb Hc Habs. pose proof (lookup_lt_Some _ _ _ Hb) as Hjl.
  assert (3 <= b < n) as Hbn by (apply dir_range; rewrite Hv; apply used_block; by eapply list_elem_of_lookup_2).
  assert (forall k, (k < 16)%nat -> (16 * j + k) / 16 = j /\ (16 * j + k) mod 16 = k)%nat as Hdm.
  { intros k Hk. split; symmetry; [apply Nat.div_unique with k; lia|apply Nat.mod_unique with j; lia]. }
  set (f := fun i : Z => disk_addr b + i * FILE_STRUCT_SIZE).
  assert (forall k, (k < 16)%nat -> f (0 + Z.of_nat k) = ptr (place bs (16 * j + k)) /\
    entry_is s1 name (f (0 + Z.of_nat k)) = match kids !! (16 * j + k)%nat with Some t => bool_decide (node_name t = name) | None => false end) as Hf.
  { intros k Hk. destruct (Hdm k Hk) as [D1 D2]. destruct (place_ptr (16 * j + k) b) as [E _]; [by rewrite D1|].
    rewrite D2 in E. unfold f. rewrite !Z.add_0_l, <- E. split; [done|]. apply (entry_test s1 _ b); [done|by rewrite D1|done|lia]. }
  assert (blk_ok b) as Hkb by (destruct (Hs); apply (serving_blk s Hs); lia).
  rewrite (dir_scan_ok s1 (ptr a) b name Hkb Hc Hlen). unfold block_entries. change FILE2BLK with (Z.of_nat 16). fold f.
  destruct (find_first (entry_is s1 name) f 16 0) as [(k & Hk & Hp & Hx & Hfind)|[Hx Hfind]]; rewrite Hfind.
  - left. eexists _, _. split; [reflexivity|]. destruct (Hf k Hk) as [E1 E2]. rewrite E2 in Hp.
    destruct (kids !! (16 * j + k)%nat) as [t|] eqn:Et; [|done]. apply bool_decide_eq_true in Hp.
    destruct Hd as [_ _ _ _ [_ _ Hr Hl _ _]]. destruct (lookup_lt_is_Some_2 us (16 * j + k)) as (w & Hw); [apply lookup_lt_Some in Et; lia|].
    exists (16 * j + k)%nat, t, w, s1. rewrite E1. destruct (place_ptr (16 * j + k) b) as [_ Eb]; [by rewrite (proj1 (Hdm k Hk))|].
    split_and!; try done; [|by rewrite Eb].
    intros i t' Hi Ht'. destruct (Nat.lt_ge_cases i (16 * j)); [by apply (Habs i)|].
    specialize (Hx (Z.of_nat (i - 16 * j)) ltac:(lia)). rewrite <- (Z.add_0_l (Z.of_nat _)) in Hx.
    rewrite (proj2 (Hf (i - 16 * j)%nat ltac:(lia))) in Hx. replace (16 * j + (i - 16 * j))%nat with i in Hx by lia.
    rewrite Ht' in Hx. by apply bool_decide_eq_false in Hx.
  - right. split; [done|]. intros i t' Hi Ht'. destruct (Nat.lt_ge_cases i (16 * j)); [by apply (Habs i)|].
    specialize (Hx (Z.of_nat (i - 16 * j)) ltac:(lia)). rewrite <- (Z.add_0_l (Z.of_nat _)) in Hx.
    rewrite (proj2 (Hf (i - 16 * j)%nat ltac:(lia))) in Hx. replace (16 * j + (i - 16 * j))%nat with i in Hx by lia.
    rewrite Ht' in Hx. by apply bool_decide_eq_false in Hx.
Qed.

Lemma lookup_ok :
  (exists r s', dir_lookup (ptr a) name s = Ret r s' /\ hit r s') \/
  (absent (length kids) /\ exists s', dir_lookup (ptr a) name s = Ret (- E_NOT_FOUND, 0) s' /\ same_contents size s s').
Proof.
  destruct (Hd) as [_ _ _ _ [Hsz Hsl Hr Hl Hk Hbl]].
  destruct (sub_range s Hs a _ v ltac:(apply Ho)) as [Hrange Hdata]. pose proof (serving_blk s Hs _ Hrange) as Hka.
  destruct (sub_facts s Hs a _ v ltac:(apply Ho)) as ([A1 A2 _ _ _] & _ & _).
  pose proof (Z.mod_pos_bound a BLOCK_SIZE ltac:(done)) as Hma.
  assert (f_size (ptr a) s = Ret (BLOCK_SIZE * Z.of_nat (length bs)) s) as Esz.
  { unfold f_size, ptr. rewrite <- Z.add_assoc, uload_block by (done || apply Ho || (ioffs; lia)).
    rewrite <- Hsz, contents_word by (done || (ioffs; lia)). done. }
  unfold dir_lookup. rewrite (bind_ret _ _ _ _ _ Esz), Z.mul_comm, Z.div_mul, Nat2Z.id by done.
  set (body := fun i : Z => _).
  destruct (mfor_ret_inv (fun j s' => same_contents size s s' /\ absent (16 * Z.to_nat j)) hit body (length bs) 0 s)
    as ([r|] & s' & E & HI).
  - split; [apply same_contents_refl, Hs|intros j k Hj; lia].
  - intros j s1 Hj [Hsame Habs]. destruct (lookup_lt_is_Some_2 bs (Z.to_nat j)) as (b & Hb); [lia|].
    destruct (same_serving s s1 Hs Hsame) as [Hs1 Hop].
    assert (slots (contents s1) a bs ind) as Hsl1.
    { apply (slots_move (contents s) _ a a); [|done|]; intros; by apply (same_contents_mem s). }
    destruct (get_found s1 a _ v bs ind (Z.to_nat j) b Hs1 (Hop _ _ _ _ Ho) Hsl1) as (s2 & E2 & H2 & Hc); [|done|].
    { intros c Hc. apply dir_range. rewrite Hv. apply elem_of_app. by left. }
    rewrite Z2Nat.id in E2 by lia. pose proof (same_contents_trans size _ _ _ Hsame H2) as H12.
    unfold body. destruct (scan_ok s2 (Z.to_nat j) b H12 Hb Hc Habs) as [(f & s3 & E3 & Hhit)|[E3 Habs']].
    + exists (Some (0, f)), s3. rewrite (bind_ret _ _ _ _ _ E2). change (negb (0 =? 0)) with false. cbv iota.
      by rewrite (bind_ret _ _ _ _ _ E3).
    + exists None, s2. rewrite (bind_ret _ _ _ _ _ E2). change (negb (0 =? 0)) with false. cbv iota.
      rewrite (bind_ret _ _ _ _ _ E3). split_and!; [done|done|]. by replace (Z.to_nat (j + 1)) with (S (Z.to_nat j)) by lia.
  - left. exists r, s'. split; [|done]. by rewrite (bind_ret _ _ _ _ _ E).
  - right. destruct HI as [Hsame Habs]. split; [|exists s'; split; [by rewrite (bind_ret _ _ _ _ _ E)|done]].
    intros j k Hj. apply Habs. rewrite Z.add_0_l, Nat2Z.id. lia.
Qed.
End lookup.

(** ** Recording the directory of an entry *)

Lemma with_dir_ok s p dir : serving s -> 3 <= blk p < n -> 0 <= p -> p mod BLOCK_SIZE + FILE_STRUCT_SIZE <= BLOCK_SIZE ->
  let s' := with_dir (ptr p) dir s in
  fs_good size s' /\ (forall b, 0 <= b < size -> marked_free s' b = marked_free s b) /\
  (forall c, cached c s' = cached c s) /\ redirected p (contents s) (contents s').
Proof.
  intros Hs Hb Hp Hf s'. destruct (Hs) as [[Hok Hpg Hst] Hz Hn Hm _ _].
  pose proof (Z.mod_pos_bound p BLOCK_SIZE ltac:(done)) as Hmp.
  assert (forall c i, blk_ok c -> 0 <= i < BLOCK_SIZE ->
    ~ (c = blk p /\ p mod BLOCK_SIZE + off_dir <= i < p mod BLOCK_SIZE + FILE_STRUCT_SIZE) -> cache_byte s' c i = cache_byte s c i) as Hcb.
  { intros c i Hc Hi Hne. unfold cache_byte, s', with_dir. cbn. apply store_elsewhere. unfold ptr.
    rewrite !disk_addr_eq by (done || apply (serving_blk s Hs); lia). unfold BLOCK_SIZE in *. ioffs; lia. }
  assert (fs_ok size s') as Hok'.
  { apply (fs_ok_frame size s); try done. intros j Hj. apply Hcb; [apply blk_ok_1|done|]. lia. }
  assert (forall b, 0 <= b < size -> marked_free s' b = marked_free s b) as Hm'.
  { intros b Hbb. apply (marked_frame size s); [done..|]. intros j Hj. rewrite bitmap_block_small by lia.
    apply Hcb; [by apply blk_ok_small|done|]. lia. }
  split_and!; [split; [done|done|]|done|done|].
  - intros b Hbb Hmb. apply Hst; [done|]. by rewrite <- Hm'.
  - intros x Hx. unfold contents. destruct (Z.ltb_spec 0 (blk x)), (Z.ltb_spec (blk x) size); simpl; try done.
    unfold lbyte. change (cached (blk x) s') with (cached (blk x) s). change (disk_byte s') with (disk_byte s).
    destruct (cached (blk x) s); [|done]. apply Hcb; [apply (serving_blk s Hs); lia|apply Z.mod_pos_bound; done|].
    intros [E Hi]. apply Hx. pose proof (blk_mod x) as Ex. pose proof (blk_mod p) as Ep. rewrite E in Ex. lia.
Qed.

(** The tree stays, with all the trees inside it. *)
Lemma redirect_serving s p t v dir : serving s -> sub (contents s) root_dir root u p t v -> 3 <= blk p ->
  let s' := with_dir (ptr p) dir s in
  serving s' /\ (forall f t a v, opened s f t a v -> opened s' f t a v).
Proof.
  intros Hs Hsub Hb3 s'. destruct (sub_facts s Hs p t v Hsub) as ([P1 P2 _ _ _] & _ & Hbp). destruct (Hs) as [Hg Hz Hn Hm Hr Hu].
  pose proof (root_apart ltac:(lia) Hu) as Hra.
  destruct (with_dir_ok s p dir Hs ltac:(destruct Hbp; lia) P1 P2) as (G1 & G2 & G3 & G4). split.
  - split; try done; [intros b Hb; rewrite G2 by done; by apply Hm|]. by apply (redirect_holds (contents s) _ _ _ _ p t v).
  - intros f t' a v' (-> & Hsub' & Hc). split_and!; [done| |by rewrite G3].
    by apply (redirect_sub (contents s) _ _ _ _ _ _ _ Hsub' p t v).
Qed.

(** ** Paths *)

(** The tree that a list of names leads to; of equal names the first. *)
Fixpoint find_node (t : node) (names : list (list Z)) : option node :=
  match names with
  | [] => Some t
  | nm :: names =>
      match t with
      | NFile _ _ => None
      | NDir _ kids =>
          match list_find (fun k => node_name k = nm) kids with
          | Some (_, k) => find_node k names
          | None => None
          end
      end
  end.

(** Later states: the tree is served and what was opened stays opened. *)
Definition later (s s' : fs) : Prop := serving s' /\ forall f t a v, opened s f t a v -> opened s' f t a v.

Lemma later_trans s s1 s2 : later s s1 -> later s1 s2 -> later s s2.
Proof. intros [_ H1] [H2 H3]. split; [done|auto]. Qed.

(** One step of a path. *)
Lemma step_ok s a nm kids v name : serving s -> opened s (ptr a) (NDir nm kids) a v ->
  Z.of_nat (length name) < MAXNAMELEN -> Forall (fun c => 0 < c < 256) name ->
  exists r f s', dir_lookup (ptr a) name s = Ret (r, f) s' /\ later s s' /\
    match list_find (fun k => node_name k = name) kids with
    | Some (_, k) => r = 0 /\ exists a' v', f = ptr a' /\ opened s' f k a' v'
    | None => r = - E_NOT_FOUND
    end.
Proof.
  intros Hs Ho Hlen Hname. pose proof Ho as (_ & Hsub & _).
  destruct (holds_directory _ _ _ _ _ (proj2 (sub_holds _ _ _ _ _ _ _ Hsub))) as (bs & ind & us & Hv & Hd).
  destruct (lookup_ok s a nm kids v bs ind us name Hs Ho Hd Hv Hlen Hname)
    as [([r f] & s' & E & i & k & w & s1 & Hk & Hw & Hn & Habs & Hsame & Hc & Hr & ->)|(Habs & s' & E & Hsame)].
  - injection Hr as -> ->. eexists _, _, _. split; [done|].
    destruct (same_serving s s1 Hs Hsame) as [Hs1 Hop].
    assert (sub (contents s1) root_dir root u (place bs i) k w) as Hsub1.
    { apply (sub_move (contents s)); [|intros; by apply (same_contents_mem s)..]. subst v.
      by apply (sub_snoc _ _ _ _ a nm kids bs ind us i). }
    assert (3 <= blk (place bs i)) as H3.
    { destruct (sub_facts s Hs a _ v Hsub) as (_ & Hrange & _). apply Hrange. subst v. apply used_block.
      rewrite <- (Z.add_0_r (place bs i)). apply place_blk; [|done].
      destruct Hd as [_ _ _ _ [_ _ Hroom _ _ _]]. apply lookup_lt_Some in Hk. lia. }
    destruct (redirect_serving s1 (place bs i) k w (ptr a) Hs1 Hsub1 H3) as [Hs2 Hop2].
    split; [split; [done|auto]|].
    assert (list_find (fun k => node_name k = name) kids = Some (i, k)) as ->.
    { apply list_find_Some. split_and!; [done|done|]. intros j y Hy Hj. by apply (Habs j). }
    split; [done|]. exists (place bs i), w. split; [done|]. apply Hop2. by split_and!.
  - exists (- E_NOT_FOUND), 0, s'. split; [done|]. split; [by apply (same_serving s)|].
    assert (list_find (fun k => node_name k = name) kids = None) as ->; [|done].
    apply list_find_None, Forall_lookup. intros j k Hk. apply (Habs j); [by eapply lookup_lt_Some|done].
Qed.

(** Children have names that fit. *)
Lemma kid_name_ok m a t v nm kids i k : sub m root_dir root u a t v -> t = NDir nm kids -> kids !! i = Some k ->
  name_ok (node_name k).
Proof.
  intros Hsub -> Hk. destruct (holds_directory _ _ _ _ _ (proj2 (sub_holds _ _ _ _ _ _ _ Hsub))) as (bs & ind & us & _ & Hd).
  destruct Hd as [_ _ _ _ [_ _ _ Hl Hkids _]]. destruct (lookup_lt_is_Some_2 us i) as (w & Hw); [apply lookup_lt_Some in Hk; lia|].
  by apply (holds_name _ _ _ _ (Hkids i k w Hk Hw)).
Qed.

Lemma entry_type s a t v : serving s -> opened s (ptr a) t a v ->
  f_type (ptr a) s = Ret (match t with NFile _ _ => FTYPE_REG | NDir _ _ => FTYPE_DIR end) s.
Proof.
  intros Hs (_ & Hsub & Hc). destruct (sub_range s Hs a t v Hsub) as [Hrange Hdata].
  destruct (sub_facts s Hs a t v Hsub) as ([A1 A2 _ _ _] & _ & _). pose proof (Z.mod_pos_bound a BLOCK_SIZE ltac:(done)) as Hma.
  pose proof (proj2 (sub_holds _ _ _ _ _ _ _ Hsub)) as Hh. unfold f_type, ptr.
  rewrite <- Z.add_assoc, uload_block by (done || (by apply (serving_blk s Hs)) || (ioffs; lia)).
  rewrite <- contents_word by (done || (ioffs; lia)). f_equal. by inversion Hh.
Qed.

Lemma resolve_ok names : forall s dir a t v, serving s -> opened s (ptr a) t a v ->
  Forall (Forall (fun c => 0 < c < 256)) names ->
  exists w s', resolve names dir (ptr a) s = Ret w s' /\ later s s' /\
    match find_node t names with
    | Some t' => w_r w = 0 /\ exists a' v', opened s' (w_file w) t' a' v'
    | None => w_r w < 0
    end.
Proof.
  induction names as [|name names IH]; intros s dir a t v Hs Ho Hch; cbn [resolve find_node].
  { exists (Walk 0 dir (ptr a) None), s. split; [done|]. split; [by split|]. split; [done|]. by exists a, v. }
  inversion_clear Hch as [|? ? Hn Hns]. destruct (Z.leb_spec MAXNAMELEN (Z.of_nat (length name))) as [Hlong|Hlen].
  { exists (Walk (- E_BAD_PATH) 0 0 None), s. split; [done|]. split; [by split|]. destruct t as [|nm kids]; [done|].
    destruct (list_find _ kids) as [[i k]|] eqn:E; [|done]. apply list_find_Some in E as (Hk & Hnm & _).
    destruct (kid_name_ok _ _ _ _ nm kids i k ltac:(apply Ho) eq_refl Hk) as (_ & _ & Hl). rewrite Hnm in Hl. lia. }
  rewrite (bind_ret _ _ _ _ _ (entry_type s a t v Hs Ho)). destruct t as [nm bytes|nm kids].
  { change (negb (FTYPE_REG =? FTYPE_DIR)) with true. cbv iota. eexists _, s. split; [reflexivity|]. split; [by split|done]. }
  change (negb (FTYPE_DIR =? FTYPE_DIR)) with false. cbv iota.
  destruct (step_ok s a nm kids v name Hs Ho Hlen Hn) as (r & f & s1 & E & Hl1 & Hf). rewrite (bind_ret _ _ _ _ _ E).
  destruct (list_find _ kids) as [[i k]|].
  - destruct Hf as (-> & a' & v' & -> & Ho'). change (0 <? 0) with false. cbv iota.
    destruct (IH s1 (ptr a) a' k v' (proj1 Hl1) Ho' Hns) as (w & s2 & E2 & Hl2 & Hw).
    exists w, s2. split; [done|]. split; [by apply (later_trans s s1)|done].
  - subst r. change (- E_NOT_FOUND <? 0) with true. cbv iota.
    eexists _, s1. split; [reflexivity|]. split; [done|]. by destruct (_ && _).
Qed.

Lemma components_chars (P : Z -> Prop) path : Forall P path -> Forall (Forall P) (components path).
Proof.
  intros Hp. unfold components. apply Forall_forall. intros nm [_ Hin]%list_elem_of_filter. revert nm Hin.
  rewrite <- Forall_forall. induction Hp as [|c p Hc Hp IH]; [by repeat constructor|]. cbn [split_path foldr]. fold (split_path p).
  destruct (c =? 47); [by constructor|]. destruct (split_path p) as [|h t]; [by repeat constructor|].
  inversion_clear IH. by repeat constructor.
Qed.

Lemma open_ok s path : serving s -> Forall (fun c => 0 < c < 256) path ->
  exists r f s', file_open path s = Ret (r, f) s' /\ later s s' /\
    match find_node root (components path) with
    | Some t => r = 0 /\ exists a v, opened s' f t a v
    | None => r < 0
    end.
Proof.
  intros Hs Hp. destruct (Hs) as [[Hok _ _] Hz Hn _ Hr _].
  assert (opened s (ptr root_dir) root root_dir u) as Ho.
  { split_and!; [done|by apply sub_refl|]. apply (ok_super_cached _ _ Hok). }
  destruct (resolve_ok (components path) s 0 root_dir root u Hs Ho (components_chars _ _ Hp)) as (w & s' & E & Hl & Hw).
  exists (w_r w), (w_file w), s'. split_and!; [|done|].
  - unfold file_open. assert (walk_path path s = Ret w s') as Ew; [|by rewrite (bind_ret _ _ _ _ _ Ew)].
    rewrite walk_path_resolve. unfold s_root. rewrite bind_assoc, bind_get, bind_mret, (ok_super _ _ Hok). exact E.
  - destruct (find_node root (components path)) as [t|]; [|done]. destruct Hw as (E0 & a' & v' & Ho'). split; [done|].
    by exists a', v'.
Qed.

(** The bytes of a file, block by block. *)
Lemma read_ok s f nm bytes a v : serving s -> opened s f (NFile nm bytes) a v ->
  f_size f s = Ret (Z.of_nat (length bytes)) s /\
  forall i c, bytes !! i = Some c -> exists b s', file_get_block f (Z.of_nat (i / 4096)) s = Ret (0, disk_addr b) s' /\
    later s s' /\ cached b s' = true /\ cache_byte s' b (Z.of_nat (i mod 4096)) = c.
Proof.
  intros Hs Ho. destruct (Ho) as (-> & Hsub & Hc). destruct (sub_range s Hs a _ v Hsub) as [Hrange Hdata].
  destruct (sub_facts s Hs a _ v Hsub) as ([A1 A2 _ _ _] & Hv & _). pose proof (Z.mod_pos_bound a BLOCK_SIZE ltac:(done)) as Hma.
  pose proof (proj2 (sub_holds _ _ _ _ _ _ _ Hsub)) as Hh. inversion Hh as [a0 nm0 bytes0 bs ind H1 H2 H3 H4 H5 H6 H7|]; subst.
  split.
  - unfold f_size, ptr. rewrite <- Z.add_assoc, uload_block by (done || (by apply (serving_blk s Hs)) || (ioffs; lia)).
    rewrite <- contents_word by (done || (ioffs; lia)). by rewrite H3.
  - intros i c Hi. destruct (H7 i c Hi) as (b & Hb & Hbyte).
    destruct (get_found s a _ _ bs ind (i / 4096) b Hs Ho H5 Hv Hb) as (s' & E & Hsame & Hcb).
    destruct (same_serving s s' Hs Hsame) as [Hs' Hop]. exists b, s'. split_and!; [done|by split|done|].
    assert (3 <= b < n) as Hbn by (apply Hv, own_in; left; by eapply list_elem_of_lookup_2).
    assert (0 <= Z.of_nat (i mod 4096) < BLOCK_SIZE) as Him by (pose proof (Nat.mod_upper_bound i 4096); unfold BLOCK_SIZE; lia).
    rewrite <- Hbyte, <- (same_contents_mem s s') by done. destruct (Hs) as [_ _ Hn _ _ _].
    rewrite contents_at by lia. unfold lbyte. by rewrite Hcb.
Qed.
End server.

(** ** From an image to a server *)

Lemma serving_booted s0 s size n ts : disk_image (disk s0) size n ts -> size < BLOCK_SIZE_BIT -> booted s0 size n s ->
  exists u, serving size n ts u s.
Proof.
  intros [I1 _ _ _ (u & Hh & Hu)] Hz [B1 B2 B3]. exists u. split; try done.
  assert (forall x, 0 < blk x < size -> contents size s x = disk s0 x) as Hm.
  { intros x Hx. pose proof (Z.mod_pos_bound x BLOCK_SIZE ltac:(done)). unfold contents.
    rewrite (proj2 (Z.ltb_lt 0 (blk x))), (proj2 (Z.ltb_lt (blk x) size)) by lia. simpl.
    rewrite B3 by lia. f_equal. symmetry. apply blk_mod. }
  apply (holds_frame (disk s0)); [done| |].
  - intros i Hi. apply Hm. rewrite (blk_in root_dir); [change (blk root_dir) with 1; lia|done|by vm_compute|ioffs; lia].
  - intros x Hx. apply Hm. rewrite Hu in Hx. apply elem_of_seqZ in Hx. lia.
Qed.

(** An image is what the blocks of the disk say. *)
Lemma disk_image_ext d d' size n ts : disk_image d size n ts -> size < BLOCK_SIZE_BIT ->
  (forall x, 0 <= x < size * BLOCK_SIZE -> d' x = d x) -> disk_image d' size n ts.
Proof.
  intros [I1 I2 I3 I4 (u & Hh & Hu)] Hz He. unfold BLOCK_SIZE_BIT in Hz.
  assert (forall a, 0 <= a -> a + 4 <= 3 * BLOCK_SIZE -> load 4 d' a = load 4 d a) as Hl.
  { intros a Ha Ha'. apply load_ext. intros x Hx. apply He. unfold BLOCK_SIZE in *. lia. }
  split; [done|by rewrite Hl|by rewrite Hl| |].
  - intros b Hb. rewrite Hl; [by apply I4|..]; unfold BLOCK_SIZE_BIT, BLOCK_SIZE in *; Z.div_mod_to_equations; lia.
  - exists u. split; [|done]. apply (holds_frame d); [done| |].
    + intros i Hi. apply He. unfold ENTRY, BLOCK_SIZE in *. lia.
    + intros x Hx. apply He. rewrite Hu in Hx. apply elem_of_seqZ in Hx. pose proof (blk_mod x).
      pose proof (Z.mod_pos_bound x BLOCK_SIZE ltac:(done)). unfold BLOCK_SIZE in *. lia.
Qed.

(** ** Properties *)

(** C23: the whole way of the host's files. For files and directories of the
    host that fit the disk, the builder makes an image from which a file server
    with an empty cache starts, and then serves the tree of the arguments: a
    path opens the file or directory its names lead to, of equal names the
    first, and fails when they lead nowhere; the size of an opened file is that
    of the host's file and every byte is found in the cache after asking for
    its block.  Opening and reading keep all this, and keep what was opened. *)
Theorem host_files_served (H : host) (fuel : nat) (image : list Z) (args : list (list Z)) (ts : list node) (file : memory)
  (Hargs : Forall2 (argument H) args ts) (Hheight : Forall (fun t => height t <= fuel)%nat ts)
  (Hroom : 3 + dir_cost ts + needs ts <= NBLOCK) (Hne : args <> []) (Hcreat : h_creat H image = true) :
  let n := 3 + dir_cost ts + needs ts in
  exists s, main H false fuel image args (start file) = Ret 0 s /\
    (forall fs0, (forall x, 0 <= x < NBLOCK * BLOCK_SIZE -> disk fs0 x = out s x) ->
       (forall c, blk_ok c -> cached c fs0 = false) -> pages fs0 -> super fs0 = 0 -> bitmap fs0 = 0 ->
       exists u fs1, fs_init fs0 = Ret tt fs1 /\ serving NBLOCK n ts u fs1) /\
    (forall u fs1, serving NBLOCK n ts u fs1 ->
       (forall path, Forall (fun c => 0 < c < 256) path ->
          exists r f fs2, file_open path fs1 = Ret (r, f) fs2 /\ later NBLOCK n ts u fs1 fs2 /\
            match find_node (NDir [47] ts) (components path) with
            | Some t => r = 0 /\ exists a v, opened NBLOCK ts u fs2 f t a v
            | None => r < 0
            end) /\
       (forall f nm bytes a v, opened NBLOCK ts u fs1 f (NFile nm bytes) a v ->
          f_size f fs1 = Ret (Z.of_nat (length bytes)) fs1 /\
          forall i c, bytes !! i = Some c ->
            exists b fs2, file_get_block f (Z.of_nat (i / 4096)) fs1 = Ret (0, disk_addr b) fs2 /\
              later NBLOCK n ts u fs1 fs2 /\ cached b fs2 = true /\
              cache_byte fs2 b (Z.of_nat (i mod 4096)) = c)).
Proof.
  intros n. destruct (main_ok H fuel image args ts file Hcreat Hne Hargs Hheight Hroom) as (s & E & Himg & _).
  assert (NBLOCK < BLOCK_SIZE_BIT) as Hz by by vm_compute.
  exists s. split_and!; [done| |].
  - intros fs0 Hd Hcold Hp Hs Hb. pose proof (disk_image_ext _ _ _ _ _ Himg Hz Hd) as Hi.
    destruct (fs_init_ok fs0 NBLOCK n ts Hi Hz Hcold Hp Hs Hb) as (fs1 & E1 & Hbt).
    destruct (serving_booted fs0 fs1 NBLOCK n ts Hi Hz Hbt) as (u & Hsv). by exists u, fs1.
  - intros u fs1 Hs. split; [intros path Hp; by apply open_ok|].
    intros f nm bytes a v Ho. by apply (read_ok NBLOCK n ts u fs1 f nm bytes a v).
Qed.

Lemma host_files_served_witness : exists s fs1 f fs2 b fs3,
  main demo_host false 1 [105] [[100]; [102]] (start (fun _ => 0)) = Ret 0 s /\
  fs_init (Fs (Proc (fun _ => 0) (fun _ => false) (fun _ => false) (fun _ => true)) (out s) 0 0) = Ret tt fs1 /\
  file_open [47; 100; 47; 97] fs1 = Ret (0, f) fs2 /\ f_size f fs2 = Ret 3 fs2 /\
  file_get_block f 0 fs2 = Ret (0, disk_addr b) fs3 /\ cache_byte fs3 b 1 = 2.
Proof.
  destruct (host_files_served demo_host 1 [105] [[100]; [102]] demo_trees (fun _ => 0) demo_arguments) as (s & Em & Hb & Hs).
  - constructor; [simpl; lia|constructor; [simpl; lia|constructor]].
  - apply Z.leb_le. vm_compute. reflexivity.
  - discriminate.
  - reflexivity.
  - destruct (Hb (Fs (Proc (fun _ => 0) (fun _ => false) (fun _ => false) (fun _ => true)) (out s) 0 0)) as (u & fs1 & E1 & Hv);
      [reflexivity|reflexivity|intros k; reflexivity|reflexivity|reflexivity|].
    destruct (Hs u fs1 Hv) as [Ho _]. destruct (Ho [47; 100; 47; 97]) as (r & f & fs2 & E2 & [Hv2 _] & Hf).
    { repeat constructor. }
    assert (find_node (NDir [47] demo_trees) (components [47; 100; 47; 97]) = Some (NFile [97] [1; 2; 3])) as E by (vm_compute; reflexivity).
    rewrite E in Hf. destruct Hf as (-> & a & v & Hop).
    destruct (Hs u fs2 Hv2) as [_ Hr]. destruct (Hr f [97] [1; 2; 3] a v Hop) as [Hsz Hby].
    destruct (Hby 1%nat 2) as (b & fs3 & E3 & _ & _ & Hc); [reflexivity|].
    exists s, fs1, f, fs2, b, fs3. split_and!; [exact Em|exact E1|exact E2|exact Hsz|exact E3|exact Hc].
Defined.
