(* ===== verification/Console.v ===== *)
(** user/lib/console.c: the console as a device of the descriptor table.

    [cs_in] is what the next calls of [syscall_cgetc] return, [cs_out] what was
    printed.  [limit] is the size of the kernel's buffer, beyond which the
    kernel refuses to print. *)
From stdpp Require Import gmap.
From S2P Require Import Prelude Mem Mmu Proc Uvm Fd.
#[local] Open Scope Z_scope.

Record console := Console { cs_uvm : uvm; cs_in : nat -> Z; cs_out : list Z }.

#[export] Program Instance console_uvm : HasUvm console :=
  {| uvm_of := cs_uvm; with_uvm p s := Console p (cs_in s) (cs_out s) |}.
Solve Obligations with (intros; by repeat match goal with s : console |- _ => destruct s end).

Definition print_byte (b : Z) : M console unit := modify (fun s => Console (cs_uvm s) (cs_in s) (cs_out s ++ [b])).

Definition syscall_cgetc : M console Z :=
  c ← get (fun s => cs_in s 0%nat);
  modify (fun s => Console (cs_uvm s) (fun n => cs_in s (S n)) (cs_out s)) ;;
  mret c.

Section console.
Context (limit : Z).

Definition syscall_print_cons (s num : Z) : M console Z :=
  if (UTOP <? u64 (s + num)) || (UTOP <=? s) || (u64 (s + num) <? s) then mret (- E_INVAL)
  else if limit <=? num then mret (- E_INVAL)
  else
    mfor (Z.to_nat num) 0 (fun i => b ← vload 1 (s + i); print_byte b) ;;
    mret 0.

(** [while ((c = syscall_cgetc()) == 0) syscall_yield();], [None] when the fuel
    runs out. *)
Fixpoint wait_char (fuel : nat) : M console (option Z) :=
  match fuel with
  | O => mret None
  | S fuel => c ← syscall_cgetc; if c =? 0 then wait_char fuel else mret (Some c)
  end.

(** Beyond [fuel] polls the wait counts as a [panic].  [debugf("%c", c)] prints
    the character. *)
Definition cons_read (fuel : nat) (fd vbuf n offset : Z) : M console Z :=
  if n =? 0 then mret 0
  else
    r ← wait_char fuel;
    match r with
    | None => panic
    | Some c =>
        print_byte (if c =? 13 then 10 else u8 c) ;;
        if c <? 0 then mret c
        else if c =? 4 then mret 0
        else vstore 1 vbuf (u8 c) ;; mret 1
    end.

Definition cons_write (fd buf n offset : Z) : M console Z :=
  r ← syscall_print_cons buf n;
  mret (if r <? 0 then r else i32 n).

Definition cons_close (fd : Z) : M console Z := mret 0.

(** [strcpy(stat->st_name, "<cons>")] *)
Definition cons_name : list Z := [60; 99; 111; 110; 115; 62; 0].
Definition cons_stat (fd stat : Z) : M console Z :=
  mfor (length cons_name) 0 (fun i => vstore 1 (stat + i) (nth (Z.to_nat i) cons_name 0)) ;;
  mret 0.

Definition CONS_ID : Z := 99.
Definition devcons (fuel : nat) (addr : Z) : Dev console :=
  MkDev CONS_ID addr (cons_read fuel) cons_write cons_close cons_stat.

Definition iscons (fdnum : Z) : M console Z :=
  '(r, fd) ← fd_lookup fdnum;
  if r <? 0 then mret r
  else id ← vload 4 fd; mret (if id =? CONS_ID then 1 else 0).

Definition opencons : M console Z :=
  '(r, fd) ← fd_alloc;
  if r <? 0 then mret r
  else
    r ← sys_alloc fd;
    if r <? 0 then mret r
    else
      vstore 4 fd CONS_ID ;;
      vstore 4 (fd + 8) O_RDWR ;;
      mret (fd2num fd).

(** ** Opening *)

Lemma opencons_full s : (forall j, 0 <= j < MAXFD - 1 -> is_Some (pt s !! fdp j)) -> opencons s = Ret (- E_MAX_OPEN) s.
Proof. intros H. unfold opencons. by rewrite (bind_ret _ _ _ _ _ (fd_alloc_full s H)). Qed.

(** The first free descriptor becomes one of the console that can be read and
    written; a refusal of memory is passed on and changes nothing. *)
Lemma opencons_ok s i : 0 <= i < MAXFD - 1 -> pt s !! fdp i = None -> (forall j, 0 <= j < i -> is_Some (pt s !! fdp j)) ->
  if v_grants (cs_uvm s) 0 then
    exists s', opencons s = Ret i s' /\ pt s' = <[fdp i := v_next (cs_uvm s)]> (pt s) /\
      fget s' (v_next (cs_uvm s)) 0 = CONS_ID /\ fget s' (v_next (cs_uvm s)) 8 = O_RDWR /\
      cs_in s' = cs_in s /\ cs_out s' = cs_out s
  else exists s', opencons s = Ret (- E_NO_MEM) s' /\ pt s' = pt s /\ cs_out s' = cs_out s.
Proof.
  intros Hi Hfree Hused. assert (0 <= i < MAXFD) as Hi' by (unfold MAXFD in *; lia).
  unfold opencons. rewrite (bind_ret _ _ _ _ _ (fd_alloc_found s i Hi Hfree Hused)). change (0 <? 0) with false. cbv iota.
  pose proof (sys_alloc_ok (INDEX2FD i) s (fd_legal i Hi')) as Ea. cbn [uvm_of console_uvm] in Ea.
  destruct (v_grants (cs_uvm s) 0) eqn:Eg.
  - rewrite (bind_ret _ _ _ _ _ Ea). change (0 <? 0) with false. cbv iota.
    set (s1 := with_uvm _ s). set (f := v_next (cs_uvm s)).
    assert (pt s1 = <[fdp i := f]> (pt s)) as Ep by (unfold s1, pt; cbn; by rewrite fd_page).
    assert (pt s1 !! fdp i = Some f) as Hf by (by rewrite Ep, lookup_insert_eq).
    pose proof (vstore_field i f Hi' s1 0 CONS_ID ltac:(unfold PAGE_SIZE; lia) Hf) as E1. rewrite Z.add_0_r in E1.
    rewrite (bind_ret _ _ _ _ _ E1).
    rewrite (bind_ret _ _ _ _ _ (vstore_field i f Hi' (fput s1 f 0 CONS_ID) 8 O_RDWR ltac:(unfold PAGE_SIZE; lia) ltac:(by rewrite fput_pt))).
    eexists. rewrite fd2num_in by done. split; [reflexivity|]. split_and!.
    + by rewrite !fput_pt.
    + unfold fget. rewrite fput_mem, fn_lookup_insert, load_store_other by (unfold disjoint_range; lia). by apply fget_fput.
    + by apply fget_fput.
    + done.
    + done.
  - rewrite (bind_ret _ _ _ _ _ Ea). by eexists.
Qed.

(** ** Reading and writing *)

(** The characters before the first that is not 0 are waited for. *)
Lemma wait_char_ok k : forall s c, (forall j, (j < k)%nat -> cs_in s j = 0) -> cs_in s k = c -> c <> 0 ->
  forall fuel, (k < fuel)%nat -> wait_char fuel s = Ret (Some c) (Console (cs_uvm s) (fun n => cs_in s (S k + n)%nat) (cs_out s)).
Proof.
  induction k as [|k IH]; intros s c Hz Hc Hne [|fuel] Hf; try lia; cbn [wait_char].
  - unfold syscall_cgetc. rewrite bind_assoc, bind_get, bind_assoc, bind_modify, bind_mret, Hc. by destruct (Z.eqb_spec c 0).
  - unfold syscall_cgetc. rewrite bind_assoc, bind_get, bind_assoc, bind_modify, bind_mret, (Hz 0%nat) by lia. change (0 =? 0) with true. cbv iota.
    rewrite (IH _ c) with (fuel := fuel); [done|..]; cbn; [|done|done|lia]. intros j Hj. apply Hz. lia.
Qed.

Lemma print_loop n : forall s a i, (forall j, i <= j < i + Z.of_nat n -> v_mapped (a + j) s = true) ->
  mfor n i (fun i => b ← vload 1 (a + i); print_byte b) s =
    Ret tt (Console (cs_uvm s) (cs_in s) (cs_out s ++ map (fun j => load 1 (frame_byte (cs_uvm s)) (a + j)) (seqZ i (Z.of_nat n)))).
Proof.
  induction n as [|n IH]; intros s a i Hm.
  - cbn. rewrite app_nil_r. by destruct s.
  - cbn [mfor]. rewrite bind_assoc, (bind_ret _ _ _ _ _ (vload_ok 1 (a + i) s ltac:(apply Hm; lia))).
    rewrite (bind_ret (print_byte _) _ s tt _ eq_refl), IH by (intros j Hj; apply (Hm j); lia). cbn [cs_uvm cs_in cs_out].
    rewrite (seqZ_cons i) by lia. cbn [map]. rewrite <- app_assoc. cbn [app]. by replace (Z.pred (Z.of_nat (S n))) with (Z.of_nat n) by lia.
Qed.

(** The bytes of a buffer. *)
Definition buffer_bytes (s : console) (buf n : Z) : list Z := map (fun j => load 1 (frame_byte (cs_uvm s)) (buf + j)) (seqZ 0 n).

Lemma cons_write_ok s fd buf n offset : 0 <= buf -> 0 <= n < 2 ^ 31 -> buf + n <= UTOP -> buf < UTOP -> n < limit ->
  (forall j, 0 <= j < n -> v_mapped (buf + j) s = true) ->
  cons_write fd buf n offset s = Ret n (Console (cs_uvm s) (cs_in s) (cs_out s ++ buffer_bytes s buf n)).
Proof.
  intros Hb Hn Hu Hl Hlim Hm. unfold cons_write, syscall_print_cons.
  assert (UTOP < 2 ^ 64) as Htop by by vm_compute.
  assert (u64 (buf + n) = buf + n) as -> by (unfold u64; apply Z.mod_small; lia).
  destruct (Z.ltb_spec UTOP (buf + n)), (Z.leb_spec UTOP buf), (Z.ltb_spec (buf + n) buf), (Z.leb_spec limit n); cbn [orb]; try lia.
  rewrite bind_assoc, (bind_ret _ _ _ _ _ (print_loop (Z.to_nat n) s buf 0 ltac:(intros j Hj; apply Hm; lia))), bind_mret.
  change (0 <? 0) with false. cbv iota. rewrite i32_small, Z2Nat.id by lia. done.
Qed.

(** What the kernel refuses to print is not printed. *)
Lemma cons_write_refused s fd buf n offset : 0 <= n -> limit <= n ->
  cons_write fd buf n offset s = Ret (- E_INVAL) s.
Proof.
  intros Hn Hl. unfold cons_write, syscall_print_cons. destruct (_ || _); [done|]. by destruct (Z.leb_spec limit n); [|lia].
Qed.

Lemma cons_read_ok s fuel fd buf n offset k c : n <> 0 -> (k < fuel)%nat -> (forall j, (j < k)%nat -> cs_in s j = 0) -> cs_in s k = c ->
  0 < c < 256 -> v_mapped buf s = true ->
  let s1 := Console (cs_uvm s) (fun n => cs_in s (S k + n)%nat) (cs_out s ++ [if c =? 13 then 10 else c]) in
  cons_read fuel fd buf n offset s = if c =? 4 then Ret 0 s1 else Ret 1 (with_uvm (v_store 1 buf c (cs_uvm s)) s1).
Proof.
  intros Hn Hf Hz Hc Hr Hm s1. unfold cons_read. destruct (Z.eqb_spec n 0); [done|].
  rewrite (bind_ret _ _ _ _ _ (wait_char_ok k s c Hz Hc ltac:(lia) fuel Hf)).
  assert (u8 c = c) as -> by (unfold u8; apply Z.mod_small; lia). unfold print_byte. rewrite bind_modify. cbn [cs_uvm cs_in cs_out].
  destruct (Z.ltb_spec c 0); [lia|]. fold s1. destruct (c =? 4); [done|].
  assert (v_mapped buf s1 = true) as Hm1 by exact Hm. by rewrite (bind_ret _ _ _ _ _ (vstore_ok 1 buf c s1 Hm1)).
Qed.

(** The console through its descriptor: a write prints the caller's bytes and
    moves the offset, a read waits for a character, echoes it, with a newline
    for a carriage return, and stores it; control-D is the end of the input. *)
Lemma console_descriptor devtab fuel addr s i f buf n (Hi : 0 <= i < MAXFD) (Hf : pt s !! fdp i = Some f)
  (Hdev : dev_lookup devtab (fget s f 0) = Some (devcons fuel addr)) (Hmode : fget s f 8 = O_RDWR)
  (Hm : forall j, 0 <= j < n -> v_mapped (buf + j) s = true) (Hn : 0 < n < 2 ^ 31) :
  (0 <= buf -> buf + n <= UTOP -> n < limit ->
   write devtab i buf n s =
     let s1 := Console (cs_uvm s) (cs_in s) (cs_out s ++ buffer_bytes s buf n) in Ret n (fput s1 f 4 (u32 (fget s f 4 + n)))) /\
  (forall k c, (k < fuel)%nat -> (forall j, (j < k)%nat -> cs_in s j = 0) -> cs_in s k = c -> 0 < c < 256 ->
   let s1 := Console (cs_uvm s) (fun n => cs_in s (S k + n)%nat) (cs_out s ++ [if c =? 13 then 10 else c]) in
   let s2 := if c =? 4 then s1 else with_uvm (v_store 1 buf c (cs_uvm s)) s1 in
   let r := if c =? 4 then 0 else 1 in
   read devtab i buf n s = Ret r (fput s2 f 4 (u32 (fget s2 f 4 + r)))).
Proof.
  destruct (read_write_correct devtab s i f buf n Hi Hf) as [_ H]. destruct (H _ Hdev) as (_ & _ & Hr & Hw). rewrite Hmode in Hr, Hw. split.
  - intros Hb Hu Hl. set (s1 := Console _ _ _). rewrite (Hw n s1); [|done| |done].
    + destruct (Z.ltb_spec 0 n); [done|lia].
    + apply cons_write_ok; try done; lia.
  - intros k c Hk Hz Hc Hcr s1 s2 r.
    assert (v_mapped buf s = true) as Hb by (rewrite <- (Z.add_0_r buf); apply Hm; lia).
    pose proof (cons_read_ok s fuel (INDEX2FD i) buf n (fget s f 4) k c ltac:(lia) Hk Hz Hc Hcr Hb) as E. cbv zeta in E. fold s1 in E.
    assert (pt s2 !! fdp i = Some f) as Hf2.
    { unfold s2. destruct (c =? 4); [done|]. unfold pt. cbn. unfold v_store. by destruct (v_pt (cs_uvm s) !! upage buf). }
    rewrite (Hr r s2); [|done| |done].
    + unfold r. by destruct (c =? 4).
    + etransitivity; [exact E|]. unfold r, s2. by destruct (c =? 4).
Qed.
End console.
