(* ===== verification/ProcList.v ===== *)
(** user/lib/process.c: the list of processes as a user program sees it, over
    the table [sys_get_process_list] of the kernel writes.

    [p_calls] is what the next calls of that system call do to the program's
    memory and return.  [listed] says that an area holds the entries of
    environments; the kernel's buffer is shown to hold those of every
    environment in use, and the searches to be searches of the list. *)
From S2P Require Import Prelude Mem Mmu Kernel Env Syscall CString.
#[local] Open Scope Z_scope.

Record plib := PLib { p_mem : memory; p_calls : nat -> Z -> Z -> memory -> Z * memory }.

Definition set_p_mem x s := PLib x (p_calls s).

Definition syscall_get_process_list (max_len out : Z) : M plib Z :=
  r ← get (fun s => p_calls s 0 max_len out (p_mem s));
  modify (fun s => PLib r.2 (fun n => p_calls s (S n))) ;;
  mret r.1.

(** A string longer than [MAXENVNAME] bytes, and an access of [memcpy] that
    faults, count as a [panic] here. *)
Definition MAXENVNAME : Z := 32.
Definition name_cmp (p q : Z) : M plib Z :=
  r ← get (fun s => strcmp (Z.to_nat MAXENVNAME) (p_mem s) p q);
  match r with Some c => mret c | None => panic end.
Definition copy_process (dst src : Z) : M plib unit :=
  r ← get (fun s => memcpy (p_mem s) dst src sizeof_Process);
  match r with Some m => modify (set_p_mem m) | None => panic end.

Definition INT_MAX : Z := 2 ^ 31 - 1.

Definition get_process_list (max_len out_process_list : Z) : M plib Z :=
  if INT_MAX <? max_len then panic
  else
    ret ← syscall_get_process_list max_len out_process_list;
    if ret <? 0 then panic else mret ret.

Section process.
(** The static array [process_list]. *)
Context (process_list : Z).

(** Entry [i] of the array. *)
Definition nth_process (i : Z) : Z := process_list + i * sizeof_Process.

(** The loop from entry [i] on, with [n] entries left. *)
Fixpoint find_loop (n : nat) (i count max_len out_process_list name : Z) : M plib Z :=
  match n with
  | O => mret count
  | S n =>
      if max_len <=? count then mret count
      else
        c ← name_cmp (nth_process i) name;
        if c =? 0 then
          copy_process (out_process_list + count * sizeof_Process) (nth_process i) ;;
          find_loop n (i + 1) (count + 1) max_len out_process_list name
        else find_loop n (i + 1) count max_len out_process_list name
  end.

Definition find_process_by_name (name max_len out_process_list : Z) : M plib Z :=
  ret ← syscall_get_process_list NENV process_list;
  if ret <? 0 then panic
  else find_loop (Z.to_nat ret) 0 0 max_len out_process_list name.

Definition get_envid (name : Z) : M plib Z :=
  ret ← syscall_get_process_list NENV process_list;
  if ret <? 0 then panic
  else
    r ← mfor_ret (Z.to_nat ret) 0 (fun i =>
      c ← name_cmp (nth_process i) name;
      if c =? 0 then id ← get (fun s => load32 (p_mem s) (nth_process i + 32)); mret (Some id)
      else mret None);
    mret (default 0 r).
End process.

(** ** The table *)

(** What the kernel keeps in an environment. *)
Record env_fits (v : Env) : Prop := {
  ef_id : 0 <= env_id v < 2 ^ 32;
  ef_parent : 0 <= env_parent_id v < 2 ^ 32;
  ef_pri : 0 <= env_pri v < 2 ^ 32;
  ef_status : 0 <= env_status v < 2 ^ 32;
  ef_runs : 0 <= env_runs v < 2 ^ 64;
  ef_name : Z.of_nat (length (env_name v)) < MAXENVNAME;
  ef_chars : Forall (fun c => 0 < c < 256) (env_name v)
}.

(** The entry at [a] is that of [v]. *)
Record entry_of (m : memory) (a : Z) (v : Env) : Prop := {
  en_name : cstr m a (env_name v);
  en_id : load32 m (a + 32) = env_id v;
  en_parent : load32 m (a + 36) = env_parent_id v;
  en_pri : load32 m (a + 40) = env_pri v;
  en_runs : load64 m (a + 48) = env_runs v;
  en_status : load32 m (a + 56) = env_status v
}.

Definition listed (m : memory) (a : Z) (l : list Env) : Prop :=
  forall i v, l !! i = Some v -> env_fits v /\ entry_of m (a + Z.of_nat i * sizeof_Process) v.

Lemma load_moved k : forall m m' a d, (forall i, 0 <= i < Z.of_nat k -> m' (d + i) = m (a + i)) -> load k m' d = load k m a.
Proof.
  Transparent load. induction k as [|k IH]; intros m m' a d H; [done|]. cbn [load].
  pose proof (H 0) as H0. rewrite !Z.add_0_r in H0. rewrite H0 by lia. do 2 f_equal. apply IH. intros i Hi.
  rewrite <- !Z.add_assoc. apply H. lia. Opaque load.
Qed.

Lemma entry_move m m' a d v : env_fits v -> entry_of m a v ->
  (forall i, 0 <= i < sizeof_Process -> m' (d + i) = m (a + i)) -> entry_of m' d v.
Proof.
  intros Hv [H1 H2 H3 H4 H5 H6] H. destruct Hv as [_ _ _ _ _ Hn _]. unfold sizeof_Process, MAXENVNAME in *.
  assert (forall k o, 0 <= o -> o + Z.of_nat k <= 64 -> load k m' (d + o) = load k m (a + o)) as Hl.
  { intros k o Ho Hk. apply load_moved. intros i Hi. rewrite <- !Z.add_assoc. apply H. lia. }
  split; rewrite ?Hl by lia; try done. apply (cstr_move m _ _ a); [done|]. intros i Hi. apply H. lia.
Qed.

Lemma listed_move m m' a d l : listed m a l ->
  (forall i, 0 <= i < Z.of_nat (length l) * sizeof_Process -> m' (d + i) = m (a + i)) -> listed m' d l.
Proof.
  intros Hl H i v Hi. destruct (Hl i v Hi) as [Hv He]. pose proof (lookup_lt_Some _ _ _ Hi). split; [done|].
  apply (entry_move m _ (a + Z.of_nat i * sizeof_Process)); [done|done|]. intros j Hj.
  rewrite <- !Z.add_assoc. apply H. unfold sizeof_Process in *. lia.
Qed.

(** ** What the kernel writes *)

Lemma put_str_cstr m a s : Forall (fun c => 0 < c < 256) s -> cstr (put_str m a s) a s.
Proof.
  intros Hs. assert (forall k, 0 <= k <= Z.of_nat (length s) -> put_str m a s (a + k) = nth (Z.to_nat k) (s ++ [0]) 0) as Hb.
  { intros k Hk. unfold put_str. destruct (Z.leb_spec a (a + k)); [|lia].
    destruct (Z.ltb_spec (a + k) (a + Z.of_nat (length s))); simpl.
    - rewrite app_nth1 by lia. f_equal. lia.
    - destruct (Z.eqb_spec (a + k) (a + Z.of_nat (length s))); [|lia]. rewrite app_nth2 by lia.
      by replace (Z.to_nat k - length s)%nat with 0%nat by lia. }
  revert Hb. generalize (put_str m a s) as m'. revert a. induction Hs as [|c s Hc Hs IH]; intros a m' Hb; cbn [cstr length] in *; rewrite load8_u8.
  - pose proof (Hb 0) as H0. rewrite Z.add_0_r in H0. by rewrite H0.
  - pose proof (Hb 0) as H0. rewrite Z.add_0_r in H0. rewrite H0 by lia. simpl. unfold u8. rewrite Z.mod_small by lia.
    split_and!; [done|lia|]. apply IH. intros k Hk. rewrite <- Z.add_assoc, Hb by lia.
    replace (Z.to_nat (1 + k)) with (S (Z.to_nat k)) by lia. done.
Qed.

Lemma put_str_out m a s x : ~ (a <= x <= a + Z.of_nat (length s)) -> put_str m a s x = m x.
Proof.
  intros H. unfold put_str. destruct (Z.leb_spec a x), (Z.ltb_spec x (a + Z.of_nat (length s))), (Z.eqb_spec x (a + Z.of_nat (length s))); simpl; done || lia.
Qed.

Lemma store_out n m a v x : ~ (a <= x < a + Z.of_nat n) -> store n m a v x = m x.
Proof.
  Transparent store. intros H. unfold store.
  destruct (Z.leb_spec a x), (Z.ltb_spec x (a + Z.of_nat n)); simpl; done || lia.
  Opaque store.
Qed.

Lemma put_process_entry m a v : env_fits v -> entry_of (put_process m a v) a v.
Proof.
  intros [H1 H2 H3 H4 H5 H6 H7]. unfold put_process, MAXENVNAME in *.
  assert (forall k m o, 32 <= o -> load k (put_str m a (env_name v)) (a + o) = load k m (a + o)) as Hs.
  { intros k m' o Ho. apply load_ext. intros x Hx. apply put_str_out. lia. }
  split; rewrite ?Hs by lia; [by apply put_str_cstr|..].
  all: repeat first [rewrite load_store_same; [done|done]|rewrite load_store_other; [|unfold disjoint_range; lia]].
Qed.

Lemma put_process_out m a v x : env_fits v -> ~ (a <= x < a + sizeof_Process) -> put_process m a v x = m x.
Proof.
  intros [_ _ _ _ _ H6 _] H. unfold put_process, sizeof_Process, MAXENVNAME in *.
  rewrite put_str_out, !store_out by lia. done.
Qed.

(** The environments in use. *)
Definition in_use (l : list Env) : list Env := filter (fun v => env_status v <> ENV_FREE) l.

Lemma in_use_cons v l : in_use (v :: l) = if env_status v =? ENV_FREE then in_use l else v :: in_use l.
Proof. unfold in_use. rewrite filter_cons. destruct (Z.eqb_spec (env_status v) ENV_FREE); case_decide; done. Qed.

(** The kernel's buffer holds every environment in use, however many the
    caller asked for. *)
Lemma put_processes_listed l : forall m b count before m' n, Forall env_fits l -> listed m b before ->
  count = Z.of_nat (length before) -> put_processes m b count l = (m', n) ->
  listed m' b (before ++ in_use l) /\ n = Z.of_nat (length (before ++ in_use l)).
Proof.
  induction l as [|v l IH]; intros m b count before m' n Hf Hd -> E; cbn [put_processes] in E.
  - injection E as <- <-. unfold in_use. rewrite filter_nil, app_nil_r. by split.
  - inversion Hf as [|? ? Hv Hl]; subst. rewrite in_use_cons. destruct (Z.eqb_spec (env_status v) ENV_FREE) as [Es|Es]; [by eapply IH|].
    replace (before ++ v :: in_use l) with ((before ++ [v]) ++ in_use l) by (by rewrite <- app_assoc).
    eapply (IH _ b (Z.of_nat (length before) + 1)); [done| |rewrite length_app; cbn [length]; lia|exact E].
    intros i w Hi. apply lookup_app_Some in Hi as [Hi|[Hge Hi]].
    + destruct (Hd i w Hi) as [Hw He]. pose proof (lookup_lt_Some _ _ _ Hi). split; [done|].
      apply (entry_move m _ (b + Z.of_nat i * sizeof_Process)); [done|done|]. intros j Hj. apply put_process_out; [done|].
      unfold sizeof_Process in *. lia.
    + apply list_lookup_singleton_Some in Hi as [Hi <-]. split; [done|].
      replace i with (length before) by lia. by apply put_process_entry.
Qed.

Lemma kernel_table l m b m' n : Forall env_fits l -> put_processes m b 0 l = (m', n) ->
  listed m' b (in_use l) /\ n = Z.of_nat (length (in_use l)).
Proof. intros Hf E. by apply (put_processes_listed l m b 0 [] m' n). Qed.

(** ** The searches *)

(** The environments with a name. *)
Definition named (nm : list Z) (l : list Env) : list Env := filter (fun v => env_name v = nm) l.

Lemma named_cons nm v l : named nm (v :: l) = if str_compare (env_name v) nm =? 0 then v :: named nm l else named nm l.
Proof.
  unfold named. rewrite filter_cons. pose proof (str_compare_0 (env_name v) nm).
  destruct (Z.eqb_spec (str_compare (env_name v) nm) 0); case_decide; tauto || done.
Qed.

Lemma name_cmp_ok s a v name nm : env_fits v -> entry_of (p_mem s) a v -> cstr (p_mem s) name nm ->
  name_cmp a name s = Ret (str_compare (env_name v) nm) s.
Proof.
  intros [_ _ _ _ _ Hn _] [He _ _ _ _ _] Hs. unfold name_cmp. rewrite bind_get, (strcmp_ok _ (env_name v) nm); [done|done|done|].
  unfold MAXENVNAME in *. lia.
Qed.

Lemma listed_cons m a v l : listed m a (v :: l) -> env_fits v /\ entry_of m a v /\ listed m (a + sizeof_Process) l.
Proof.
  intros H. destruct (H 0%nat v eq_refl) as [Hv He]. rewrite Z.add_0_r in He. split_and!; [done|done|].
  intros i w Hi. destruct (H (S i) w Hi) as [Hw He']. split; [done|].
  replace (a + sizeof_Process + Z.of_nat i * sizeof_Process) with (a + Z.of_nat (S i) * sizeof_Process) by (unfold sizeof_Process; lia). done.
Qed.

Section searches.
Context (process_list : Z).

Lemma nth_process_succ i : nth_process process_list i + sizeof_Process = nth_process process_list (i + 1).
Proof. unfold nth_process, sizeof_Process. lia. Qed.

Lemma envid_loop_ok s name nm l : forall i, cstr (p_mem s) name nm -> listed (p_mem s) (nth_process process_list i) l ->
  mfor_ret (length l) i (fun i =>
    c ← name_cmp (nth_process process_list i) name;
    if c =? 0 then id ← get (fun s => load32 (p_mem s) (nth_process process_list i + 32)); mret (Some id)
    else mret None) s = Ret (env_id <$> head (named nm l)) s.
Proof.
  induction l as [|v l IH]; intros i Hs Hl; [done|]. apply listed_cons in Hl as (Hv & He & Hl). rewrite nth_process_succ in Hl.
  cbn [mfor_ret length]. rewrite bind_assoc, (bind_ret _ _ _ _ _ (name_cmp_ok s _ v name nm Hv He Hs)), named_cons.
  destruct (_ =? 0); [|by apply IH]. rewrite bind_assoc, bind_get, bind_mret, (en_id _ _ _ He). done.
Qed.

(** The state after the system call. *)
Definition asked (s : plib) (max_len out : Z) : plib :=
  PLib (p_calls s 0 max_len out (p_mem s)).2 (fun n => p_calls s (S n)).

(** The call wrote the entries of [l] to [out]. *)
Definition answered (s : plib) (max_len out : Z) (l : list Env) : Prop :=
  (p_calls s 0 max_len out (p_mem s)).1 = Z.of_nat (length l) /\ listed (p_mem (asked s max_len out)) out l.

(** [get_envid]: the identifier of the first environment of that name, and 0
    when there is none. *)
Lemma get_envid_ok s l name nm : answered s NENV process_list l -> cstr (p_mem (asked s NENV process_list)) name nm ->
  get_envid process_list name s = Ret (default 0 (env_id <$> head (named nm l))) (asked s NENV process_list).
Proof.
  intros [Hr Hl] Hs. unfold get_envid.
  rewrite (bind_ret _ _ s (Z.of_nat (length l)) (asked s NENV process_list)) by (unfold syscall_get_process_list; rewrite bind_get, bind_modify, <- Hr; done).
  destruct (Z.ltb_spec (Z.of_nat (length l)) 0); [lia|]. rewrite Nat2Z.id.
  rewrite (bind_ret _ _ _ _ _ (envid_loop_ok (asked s NENV process_list) name nm l 0 Hs ltac:(unfold nth_process; by rewrite Z.add_0_r))). done.
Qed.

(** The memory after [find_loop]: entries at [out] and nothing else changed. *)
Lemma find_loop_ok out max_len name nm (Hmax : 0 <= max_len) l : forall s i count res,
  cstr (p_mem s) name nm -> mem_wf (p_mem s) -> listed (p_mem s) (nth_process process_list i) l ->
  listed (p_mem s) out res -> count = Z.of_nat (length res) -> count <= max_len ->
  disjoint_range out (max_len * sizeof_Process) (nth_process process_list i) (Z.of_nat (length l) * sizeof_Process) ->
  disjoint_range out (max_len * sizeof_Process) name (Z.of_nat (length nm) + 1) ->
  exists s', find_loop process_list (length l) i count max_len out name s =
      Ret (Z.of_nat (length (res ++ take (Z.to_nat (max_len - count)) (named nm l)))) s' /\
    listed (p_mem s') out (res ++ take (Z.to_nat (max_len - count)) (named nm l)) /\
    (forall x, ~ (out <= x < out + max_len * sizeof_Process) -> p_mem s' x = p_mem s x).
Proof.
  induction l as [|v l IH]; intros s i count res Hs Hwf Hl Ho -> Hc Hd Hd2.
  { exists s. unfold named. rewrite filter_nil, take_nil, app_nil_r. by split_and!. }
  apply listed_cons in Hl as (Hv & He & Hl). rewrite nth_process_succ in Hl. cbn [find_loop length].
  destruct (Z.leb_spec max_len (Z.of_nat (length res))) as [Hle|Hlt].
  { replace (Z.to_nat (max_len - Z.of_nat (length res))) with 0%nat by lia. exists s. rewrite app_nil_r. by split_and!. }
  rewrite (bind_ret _ _ _ _ _ (name_cmp_ok s _ v name nm Hv He Hs)), named_cons.
  assert (disjoint_range out (max_len * sizeof_Process) (nth_process process_list (i + 1)) (Z.of_nat (length l) * sizeof_Process)) as Hd'.
  { rewrite <- nth_process_succ. unfold disjoint_range, sizeof_Process in *. cbn [length] in Hd. lia. }
  destruct (_ =? 0); [|by apply IH].
  set (a := nth_process process_list i) in *. set (o := out + Z.of_nat (length res) * sizeof_Process).
  assert (o + sizeof_Process <= a \/ a + sizeof_Process <= o) as Hoa.
  { unfold o, disjoint_range, sizeof_Process in *. cbn [length] in Hd. lia. }
  destruct (memcpy_ok (p_mem s) o a sizeof_Process) as (m & Em & Hm); [done|done|unfold sizeof_Process in *; lia|].
  assert (forall x, ~ (o <= x < o + sizeof_Process) -> m x = p_mem s x) as Hout.
  { intros x Hx. rewrite Hm. unfold copy. destruct (Z.leb_spec o x), (Z.ltb_spec x (o + sizeof_Process)); simpl; done || lia. }
  assert (copy_process o a s = Ret tt (set_p_mem m s)) as Ec by (unfold copy_process; by rewrite bind_get, Em).
  rewrite (bind_ret _ _ _ _ _ Ec).
  destruct (IH (set_p_mem m s) (i + 1) (Z.of_nat (length res) + 1) (res ++ [v])) as (s' & E & H1 & H2).
  - apply (cstr_ext (p_mem s)); [|done]. intros x Hx. symmetry. apply Hout. unfold o, disjoint_range, sizeof_Process in *. lia.
  - intros x. cbn. rewrite Hm. by apply copy_wf.
  - apply (listed_move (p_mem s) _ (nth_process process_list (i + 1))); [done|]. intros j Hj. cbn. apply Hout.
    unfold o, disjoint_range, sizeof_Process in *. lia.
  - intros j w Hj. cbn. apply lookup_app_Some in Hj as [Hj|[Hge Hj]].
    + destruct (Ho j w Hj) as [Hw Hew]. pose proof (lookup_lt_Some _ _ _ Hj). split; [done|].
      apply (entry_move (p_mem s) _ (out + Z.of_nat j * sizeof_Process)); [done|done|]. intros k Hk. apply Hout.
      unfold o, sizeof_Process in *. lia.
    + apply list_lookup_singleton_Some in Hj as [Hj <-]. split; [done|]. apply (entry_move (p_mem s) _ a); [done|done|].
      intros k Hk. rewrite Hm. unfold copy. fold o. replace (Z.of_nat j) with (Z.of_nat (length res)) by lia. fold o.
      destruct (Z.leb_spec o (o + k)), (Z.ltb_spec (o + k) (o + sizeof_Process)); simpl; try lia. f_equal. lia.
  - rewrite length_app. cbn [length]. lia.
  - lia.
  - done.
  - done.
  - exists s'. replace (Z.to_nat (max_len - Z.of_nat (length res))) with (S (Z.to_nat (max_len - (Z.of_nat (length res) + 1)))) by lia.
    cbn [take]. rewrite <- app_assoc in E, H1. cbn [app] in E, H1. split_and!; [exact E|exact H1|].
    intros x Hx. rewrite H2 by done. cbn. apply Hout. unfold o, sizeof_Process in *. lia.
Qed.

(** [find_process_by_name]: the first [max_len] environments of that name. *)
Lemma find_process_ok s l name nm max_len out : answered s NENV process_list l ->
  let m := p_mem (asked s NENV process_list) in
  cstr m name nm -> mem_wf m -> 0 <= max_len ->
  disjoint_range out (max_len * sizeof_Process) process_list (Z.of_nat (length l) * sizeof_Process) ->
  disjoint_range out (max_len * sizeof_Process) name (Z.of_nat (length nm) + 1) ->
  let res := take (Z.to_nat max_len) (named nm l) in
  exists s', find_process_by_name process_list name max_len out s = Ret (Z.of_nat (length res)) s' /\
    listed (p_mem s') out res /\ (forall x, ~ (out <= x < out + max_len * sizeof_Process) -> p_mem s' x = m x).
Proof.
  intros [Hr Hl] m Hs Hwf Hmax Hd Hd2. unfold find_process_by_name.
  rewrite (bind_ret _ _ s (Z.of_nat (length l)) (asked s NENV process_list)) by (unfold syscall_get_process_list; rewrite bind_get, bind_modify, <- Hr; done).
  destruct (Z.ltb_spec (Z.of_nat (length l)) 0); [lia|]. rewrite Nat2Z.id.
  destruct (find_loop_ok out max_len name nm Hmax l (asked s NENV process_list) 0 0 []) as (s' & E & H1 & H2); try done.
  - unfold nth_process. by rewrite Z.add_0_r.
  - unfold nth_process. by rewrite Z.add_0_r.
  - exists s'. rewrite Z.sub_0_r in *. by split_and!.
Qed.
End searches.

(** ** The kernel's answer

    What a successful [sys_get_process_list] does: the bytes of the table it
    built at [b] of its own memory [km] go to [out]. *)
Definition user_copy (m km : memory) (out b n : Z) : memory := fun x =>
  if (out <=? x) && (x <? out + n) then load8 km (b + (x - out)) else m x.
Definition kernel_answer (l : list Env) (km : memory) (b : Z) (max_len out : Z) (m : memory) : Z * memory :=
  let '(km, n) := put_processes km b 0 l in (n, user_copy m km out b (n * sizeof_Process)).

Lemma user_copy_wf m km out b n : mem_wf m -> mem_wf (user_copy m km out b n).
Proof. intros Hm x. unfold user_copy. case_match; [|apply Hm]. rewrite load8_u8. apply u8_bound. Qed.

Lemma user_copy_out m km out b n x : ~ (out <= x < out + n) -> user_copy m km out b n x = m x.
Proof. intros H. unfold user_copy. destruct (Z.leb_spec out x), (Z.ltb_spec x (out + n)); simpl; done || lia. Qed.

Lemma load_bytes k : forall m a, load k (fun x => load8 m x) a = load k m a.
Proof.
  Transparent load. induction k as [|k IH]; intros m a; [done|]. cbn [load] in *. rewrite IH. f_equal.
  rewrite Z.mul_0_r, Z.add_0_r. unfold u8. by rewrite Z.mod_mod. Opaque load.
Qed.

Lemma cstr_bytes m l : forall a, cstr m a l -> cstr (fun x => load8 m x) a l.
Proof.
  induction l as [|c l IH]; intros a; cbn [cstr]; rewrite (load_bytes 1); [done|]. intros (H1 & H2 & H3). split_and!; [done|done|by apply IH].
Qed.

Lemma user_copy_listed m km out b l : listed km b l -> listed (user_copy m km out b (Z.of_nat (length l) * sizeof_Process)) out l.
Proof.
  intros Hl. apply (listed_move (fun x => load8 km x) _ b).
  - intros i v Hi. destruct (Hl i v Hi) as [Hv [H1 H2 H3 H4 H5 H6]]. split; [done|].
    split; [by apply cstr_bytes|rewrite load_bytes; done..].
  - intros i Hi. unfold user_copy. destruct (Z.leb_spec out (out + i)), (Z.ltb_spec (out + i) (out + Z.of_nat (length l) * sizeof_Process)); simpl; try lia.
    f_equal. lia.
Qed.

Lemma kernel_answered process_list s l km b : Forall env_fits l -> p_calls s 0%nat = kernel_answer l km b ->
  answered s NENV process_list (in_use l) /\
  (forall x, ~ (process_list <= x < process_list + Z.of_nat (length (in_use l)) * sizeof_Process) ->
     p_mem (asked s NENV process_list) x = p_mem s x) /\
  (mem_wf (p_mem s) -> mem_wf (p_mem (asked s NENV process_list))).
Proof.
  intros Hf Hc. unfold answered, asked. cbn [p_mem]. rewrite Hc. unfold kernel_answer.
  destruct (put_processes km b 0 l) as [km' n] eqn:E. destruct (kernel_table l km b km' n Hf E) as [Hl ->]. cbn [fst snd].
  split_and!; [done|by apply user_copy_listed|intros x Hx; by apply user_copy_out|intros Hm; by apply user_copy_wf].
Qed.

(** C30: names to processes.  When the kernel answers with its environments [l],
    [get_envid] returns the identifier of the first one in use that has the
    name, and 0 when there is none; [find_process_by_name] writes the entries
    of the first [max_len] of them to the caller's array, in order, changes
    nothing else and returns their number. *)
Theorem processes_found (process_list name : Z) (nm : list Z) (l : list Env) (km : memory) (b : Z) (s : plib)
  (Hfit : Forall env_fits l) (Hcall : p_calls s 0%nat = kernel_answer l km b) (Hname : cstr (p_mem s) name nm)
  (Hapart : disjoint_range process_list (NENV * sizeof_Process) name (Z.of_nat (length nm) + 1)) (Hlen : Z.of_nat (length l) <= NENV) :
  let found := named nm (in_use l) in
  (exists s', get_envid process_list name s = Ret (default 0 (env_id <$> head found)) s') /\
  (forall max_len out, mem_wf (p_mem s) -> 0 <= max_len ->
     disjoint_range out (max_len * sizeof_Process) process_list (NENV * sizeof_Process) ->
     disjoint_range out (max_len * sizeof_Process) name (Z.of_nat (length nm) + 1) ->
     let res := take (Z.to_nat max_len) found in
     exists s', find_process_by_name process_list name max_len out s = Ret (Z.of_nat (length res)) s' /\
       listed (p_mem s') out res /\
       (forall x, ~ (out <= x < out + max_len * sizeof_Process) ->
          ~ (process_list <= x < process_list + NENV * sizeof_Process) -> p_mem s' x = p_mem s x)).
Proof.
  intros found. destruct (kernel_answered process_list s l km b Hfit Hcall) as (Ha & Hout & Hwf).
  assert (Z.of_nat (length (in_use l)) <= NENV) as Hin.
  { unfold in_use. pose proof (length_filter (fun v => env_status v <> ENV_FREE) l). lia. }
  assert (cstr (p_mem (asked s NENV process_list)) name nm) as Hn.
  { apply (cstr_ext (p_mem s)); [|done]. intros x Hx. symmetry. apply Hout. unfold disjoint_range, sizeof_Process in *. lia. }
  split; [eexists; by apply get_envid_ok|]. intros max_len out Hm Hmax Hd1 Hd2.
  destruct (find_process_ok process_list s (in_use l) name nm max_len out Ha) as (s' & E & H1 & H2); try done; [by apply Hwf| |].
  - unfold disjoint_range, sizeof_Process in *. lia.
  - exists s'. split_and!; [done|done|]. intros x Hx Hx2. rewrite H2 by done. apply Hout. unfold sizeof_Process in *. lia.
Qed.

(** Three environments, one of them free; the third is called "b". *)
Definition demo_listing : list Env :=
  [set_env_id 1024 (set_env_status ENV_RUNNABLE (set_env_name [97] env0)); set_env_name [98] env0;
   set_env_id 3074 (set_env_status ENV_RUNNABLE (set_env_name [98] env0))].
Definition demo_plib : plib := PLib (fun x => if x =? 100 then 98 else 0) (fun _ => kernel_answer demo_listing (fun _ => 0) 64).

Lemma processes_found_witness :
  (exists s', get_envid 4096 100 demo_plib = Ret 3074 s') /\
  (exists s', find_process_by_name 4096 100 5 131072 demo_plib = Ret 1 s' /\ load32 (p_mem s') (131072 + 32) = 3074).
Proof.
  destruct (processes_found 4096 100 [98] demo_listing (fun _ => 0) 64 demo_plib) as [H1 H2].
  - repeat constructor; discriminate.
  - reflexivity.
  - vm_compute. split_and!; [reflexivity|discriminate|reflexivity].
  - right. vm_compute. discriminate.
  - vm_compute. discriminate.
  - split.
    + destruct H1 as (s' & E). exists s'. exact E.
    + destruct (H2 5 131072) as (s' & E & Hl & _).
      * intros x. unfold demo_plib. cbn. destruct (x =? 100); lia.
      * lia.
      * right. vm_compute. discriminate.
      * right. vm_compute. discriminate.
      * exists s'. split; [exact E|]. destruct (Hl 0%nat (set_env_id 3074 (set_env_status ENV_RUNNABLE (set_env_name [98] env0))) eq_refl) as [_ He].
        exact (en_id _ _ _ He).
Defined.
