(* ===== verification/SerialClient.v ===== *)
(** user/lib/serial.c: a process reads and writes the serial line through the
    driver (SerialSys.v), whose identifier it looks up by name (ProcList.v).

    The page at [serialipcbuf] goes to the driver by reference; the page a
    reply brings is mapped in its place. *)
From S2P Require Import Prelude Mem Mmu Kernel Env Syscall CString ProcList CharQueue Serial SerialSys.
#[local] Open Scope Z_scope.

(** What [ipc_recv] brings: an error, or the value and the page of a reply. *)
Inductive answer :=
  | AnError (r : Z)
  | AnReply (val : Z) (page : option (Z -> Z)).

(** The program, its page [serialipcbuf], [serial_service_envid], the requests
    it sent and what its next calls of [ipc_recv] bring. *)
Record sclient := SClient {
  sc_lib : plib;
  sc_buf : Z -> Z;
  serial_service_envid : Z;
  sc_sent : list (Z * (Z -> Z));
  sc_recv : nat -> answer
}.

Definition set_sc_lib x c := SClient x (sc_buf c) (serial_service_envid c) (sc_sent c) (sc_recv c).
Definition set_sc_buf x c := SClient (sc_lib c) x (serial_service_envid c) (sc_sent c) (sc_recv c).
Definition set_service x c := SClient (sc_lib c) (sc_buf c) x (sc_sent c) (sc_recv c).
Definition set_sc_recv x c := SClient (sc_lib c) (sc_buf c) (serial_service_envid c) (sc_sent c) x.
Definition sc_mem (c : sclient) : memory := p_mem (sc_lib c).
Definition set_sc_mem x c := set_sc_lib (set_p_mem x (sc_lib c)) c.

Definition SERIALREQ_WRITE : Z := 1.

(** [ipc_send(serial_service_envid, type, serialipcbuf, ...)] *)
Definition ask (type : Z) : M sclient unit :=
  modify (fun c => SClient (sc_lib c) (sc_buf c) (serial_service_envid c) (sc_sent c ++ [(type, sc_buf c)]) (sc_recv c)).

(** [ipc_recv(serial_service_envid, ..., &val, dstva, ...)]: the result and
    [val], which was 0; [at_buf] says that [dstva] is [serialipcbuf]. *)
Definition hear (at_buf : bool) : M sclient (Z * Z) :=
  a ← get (fun c => sc_recv c 0%nat);
  modify (fun c => SClient (sc_lib c) (sc_buf c) (serial_service_envid c) (sc_sent c) (fun n => sc_recv c (S n))) ;;
  match a with
  | AnError r => mret (r, 0)
  | AnReply val page =>
      (match page with Some p => if at_buf then modify (set_sc_buf p) else mret tt | None => mret tt end) ;;
      mret (0, val)
  end.

Section client.
(** The static array of process.c, and the string literal "serial". *)
Context (process_list serial_name : Z).

(** [while (serial_service_envid == 0)]; [false] when the fuel runs out. *)
Fixpoint set_serial_service_envid (fuel : nat) : M sclient bool :=
  match fuel with
  | O => mret false
  | S fuel =>
      e ← get serial_service_envid;
      if e =? 0 then
        id ← zoom sc_lib set_sc_lib (get_envid process_list serial_name);
        modify (set_service id) ;;
        set_serial_service_envid fuel
      else mret true
  end.

Definition serial_read (fuel : nat) (buf len : Z) : M sclient (option Z) :=
  found ← set_serial_service_envid fuel;
  if negb found then mret None
  else if MAX_PAYLOAD_SIZE <? len then panic
  else
    modify (fun c => set_sc_buf (store64 (sc_buf c) 0 len) c) ;;
    ask SERIALREQ_READ ;;
    r ← hear true;
    let actual_read := r.2 in
    modify (fun c => set_sc_mem (fun x =>
      if (buf <=? x) && (x <? buf + actual_read) then sc_buf c (x - buf) else sc_mem c x) c) ;;
    mret (Some actual_read).

Definition serial_write (fuel : nat) (buf len : Z) : M sclient (option Z) :=
  found ← set_serial_service_envid fuel;
  if negb found then mret None
  else if MAX_PAYLOAD_SIZE <? len then panic
  else
    modify (fun c => set_sc_buf (store64 (sc_buf c) 0 len) c) ;;
    modify (fun c => set_sc_buf (fun x =>
      if (8 <=? x) && (x <? 8 + len) then sc_mem c (buf + (x - 8)) else sc_buf c x) c) ;;
    ask SERIALREQ_WRITE ;;
    r ← hear false;
    mret (Some r.1).

(** ** Finding the driver *)

Lemma service_known fuel c : serial_service_envid c <> 0 -> set_serial_service_envid (S fuel) c = Ret true c.
Proof. intros H. cbn [set_serial_service_envid]. rewrite bind_get. by destruct (Z.eqb_spec (serial_service_envid c) 0). Qed.

(** When the kernel's answer has an environment called "serial", it is found
    and kept. *)
Lemma service_found fuel c l km b : serial_service_envid c = 0 -> Forall env_fits l ->
  p_calls (sc_lib c) 0%nat = kernel_answer l km b -> cstr (sc_mem c) serial_name [115; 101; 114; 105; 97; 108] ->
  disjoint_range process_list (NENV * sizeof_Process) serial_name 7 -> Z.of_nat (length l) <= NENV ->
  forall v, head (named [115; 101; 114; 105; 97; 108] (in_use l)) = Some v -> env_id v <> 0 ->
  exists c', set_serial_service_envid (S (S fuel)) c = Ret true c' /\ serial_service_envid c' = env_id v /\
    sc_sent c' = sc_sent c /\ sc_recv c' = sc_recv c /\ sc_buf c' = sc_buf c.
Proof.
  intros H0 Hf Hc Hn Hd Hl v Hv Hid. destruct (kernel_answered process_list (sc_lib c) l km b Hf Hc) as (Ha & Hout & _).
  assert (Z.of_nat (length (in_use l)) <= NENV) as Hin.
  { unfold in_use. pose proof (length_filter (fun v => env_status v <> ENV_FREE) l). lia. }
  assert (cstr (p_mem (asked (sc_lib c) NENV process_list)) serial_name [115; 101; 114; 105; 97; 108]) as Hn'.
  { apply (cstr_ext (sc_mem c)); [|done]. intros x Hx. symmetry. apply Hout. cbn [length] in Hx. unfold disjoint_range, sizeof_Process in *. lia. }
  pose proof (get_envid_ok process_list (sc_lib c) (in_use l) serial_name _ Ha Hn') as E. rewrite Hv in E.
  eexists. split.
  - cbn [set_serial_service_envid]. rewrite bind_get, H0. change (0 =? 0) with true. cbv iota.
    rewrite (bind_ret _ _ _ _ _ (zoom_ret sc_lib set_sc_lib _ _ _ _ E)), bind_modify. by apply service_known.
  - by split_and!.
Qed.
End client.

(** ** The driver's side of a request *)

Section driver.
Context {D : Type} {U : Uart D}.
Implicit Types s t : sys D.

(** One byte of [serial_read], when the ring has one. *)
Lemma read_byte s a : s_pc s = MRead a -> a < s_len s -> ring_ok (rx_queue (s_drv s)) -> is_empty (rx_queue (s_drv s)) = false ->
  Nat.iter 5 main_step s =
    goto (MRead (a + 1)) (set_page (<[a := (dequeue (rx_queue (s_drv s))).1]> (s_page s))
      (set_drv (set_rx (dequeue (rx_queue (s_drv s))).2 (s_drv s)) s)).
Proof.
  intros E Ha Hok He. destruct s as [[d b q rq] pc w v pm len page rs req]. simpl in *. subst pc.
  set (s := Sys (Drv d b q rq) (MRead a) w v pm len page rs req).
  change (Nat.iter 5 main_step s) with (main_step (main_step (main_step (main_step (main_step s))))).
  assert (main_step s = goto (MTake a) s) as ->.
  { unfold main_step. simpl. rewrite He. by destruct (Z.leb_spec len a); [lia|]. }
  reflexivity.
Qed.

Lemma read_runs n : forall s a, s_pc s = MRead a -> 0 <= a -> ring_ok (rx_queue (s_drv s)) ->
  Z.of_nat n = Z.min (s_len s - a) (count (rx_queue (s_drv s))) ->
  exists s', Nat.iter (5 * n) main_step s = s' /\ s_pc s' = MRead (a + Z.of_nat n) /\
    ring_ok (rx_queue (s_drv s')) /\ contents (rx_queue (s_drv s)) = take n (contents (rx_queue (s_drv s))) ++ contents (rx_queue (s_drv s')) /\
    page_bytes (s_page s') 0 (a + Z.of_nat n) = page_bytes (s_page s) 0 a ++ take n (contents (rx_queue (s_drv s))) /\
    tx_queue (s_drv s') = tx_queue (s_drv s) /\ s_replies s' = s_replies s /\ s_whom s' = s_whom s /\ s_len s' = s_len s.
Proof.
  induction n as [|n IH]; intros s a E Ha Hok Hn.
  - exists s. rewrite Z.add_0_r, take_0, app_nil_r. by split_and!.
  - assert (is_empty (rx_queue (s_drv s)) = false) as He by (unfold is_empty; apply Z.eqb_neq; lia).
    destruct (ring_dequeue_ok _ Hok He) as (b & q' & Hd & Hok' & Hc).
    assert (5 * S n = 5 * n + 5)%nat as -> by lia. rewrite Nat.iter_add, (read_byte s a E) by (done || lia).
    rewrite Hd. cbn [fst snd].
    set (s1 := goto _ _). destruct (IH s1 (a + 1)) as (s' & Es & H1 & H2 & H3 & H4 & H5 & H6 & H7 & H8); try done; try lia.
    { unfold s1. cbn. pose proof (length_contents _ Hok') as L'. pose proof (length_contents _ Hok) as L. rewrite Hc in L. cbn [length] in L. lia. }
    unfold s1 in H3, H4, H5, H6, H7, H8. cbn [goto set_page set_drv set_rx s_drv s_page rx_queue tx_queue s_replies s_whom s_len] in H3, H4, H5, H6, H7, H8.
    exists s'. replace (a + Z.of_nat (S n)) with (a + 1 + Z.of_nat n) by lia. split_and!; try done.
    + rewrite Hc. cbn [take]. rewrite <- app_comm_cons. by rewrite <- H3.
    + rewrite H4, Hc, page_bytes_snoc by done. cbn [take]. by rewrite <- app_assoc.
Qed.

(** The last two steps: the reply, and the page unmapped. *)
Lemma read_ends s a : s_pc s = MRead a -> is_empty (rx_queue (s_drv s)) || (s_len s <=? a) = true ->
  Nat.iter 2 main_step s = goto MRecv (set_page (fun _ => 0) (send a (Some (s_page s)) s)).
Proof.
  intros E H. destruct s as [[d b q rq] pc w v pm len page rs req]. simpl in *. subst pc.
  unfold main_step at 2. cbn [s_pc s_drv rx_queue s_len]. by rewrite H.
Qed.

(** The message the driver gets of a request, with the library's permission. *)
Definition to_serial (whom : Z) (q : Z * (Z -> Z)) : message := Recv whom q.1 (Z.lor (Z.lor PTE_V PTE_RW) PTE_USER) q.2.

Lemma receive_request t whom type page len : load64 page 0 = len -> len <= MAX_PAYLOAD_SIZE -> type < MAX_SERIALREQNO ->
  receive (to_serial whom (type, page)) t =
    let t := set_len len (set_page page (set_msg whom type (Z.lor (Z.lor PTE_V PTE_RW) PTE_USER) t)) in
    if type =? SERIALREQ_READ then goto (MRead 0) t else goto (MWrite 0) (request (page_bytes page 8 len) t).
Proof.
  intros Hl Hm Ht. pose proof (load64_bound page 0) as Hb. rewrite Hl in Hb. unfold to_serial. cbn [receive fst snd].
  change (Z.land (Z.lor (Z.lor PTE_V PTE_RW) PTE_USER) PTE_V =? 0) with false. cbv iota. unfold serve.
  cbn [set_msg set_page s_val s_perm s_page]. destruct (Z.leb_spec MAX_SERIALREQNO type); [lia|].
  change (Z.land (Z.lor (Z.lor PTE_V PTE_RW) PTE_USER) PTE_V =? 0) with false. cbv iota.
  rewrite Hl. unfold u64. rewrite Z.mod_small by done. destruct (Z.ltb_spec MAX_PAYLOAD_SIZE len); [lia|].
  cbv zeta. by destruct (type =? SERIALREQ_READ).
Qed.

Lemma main_requested s : s_requested (main_step s) = s_requested s.
Proof.
  assert (forall A (m : M (drv D) A) k s, (forall a t, s_requested (k a t) = s_requested t) -> s_requested (exec m k s) = s_requested s) as Hx.
  { intros A m k s1 Hk. unfold exec. destruct (m (s_drv s1)); [by rewrite Hk|done|done]. }
  unfold main_step. destruct (s_pc s); try done; try (by rewrite Hx). by case_match.
Qed.

Lemma requested_kept n s : s_requested (Nat.iter n main_step s) = s_requested s.
Proof. induction n as [|n IH]; [done|]. by rewrite Nat.iter_succ, main_requested. Qed.

(** A request to read is answered with what has arrived, up to its length. *)
Lemma read_served t whom page len : s_pc t = MRecv -> ring_ok (rx_queue (s_drv t)) ->
  load64 page 0 = len -> len <= MAX_PAYLOAD_SIZE ->
  let n := Z.to_nat (Z.min len (count (rx_queue (s_drv t)))) in
  exists k t' p, Nat.iter k main_step (receive (to_serial whom (SERIALREQ_READ, page)) t) = t' /\ s_pc t' = MRecv /\
    s_replies t' = s_replies t ++ [Rep whom (Z.of_nat n) (Some p)] /\
    page_bytes p 0 (Z.of_nat n) = take n (contents (rx_queue (s_drv t))) /\
    contents (rx_queue (s_drv t)) = take n (contents (rx_queue (s_drv t))) ++ contents (rx_queue (s_drv t')) /\
    tx_queue (s_drv t') = tx_queue (s_drv t).
Proof.
  intros E Hok Hlen Hmax n. pose proof (load64_bound page 0) as Hb. rewrite Hlen in Hb.
  pose proof Hok as [Hf Hcnt Hr].
  set (t0 := receive (to_serial whom (SERIALREQ_READ, page)) t).
  assert (s_pc t0 = MRead 0 /\ s_len t0 = len /\ s_whom t0 = whom /\ s_drv t0 = s_drv t /\ s_replies t0 = s_replies t) as (P1 & P2 & P3 & P4 & P5).
  { unfold t0. rewrite (receive_request t whom _ page len) by done. by split_and!. }
  destruct (read_runs n t0 0 P1) as (t1 & E1 & H1 & H2 & H3 & H4 & H5 & H6 & H7 & H8);
    [done|by rewrite P4|rewrite P2, P4, Z.sub_0_r; unfold n; lia|].
  rewrite Z.add_0_l in H1, H4. rewrite P4 in H3, H4, H5. exists (2 + 5 * n)%nat. do 2 eexists. rewrite Nat.iter_add, E1.
  split; [reflexivity|]. rewrite (read_ends t1 _ H1).
  2: { rewrite H8, P2. pose proof (length_contents _ H2) as L2. pose proof (length_contents _ Hok) as L0.
       pose proof (f_equal length H3) as L. rewrite length_app, length_take in L. unfold is_empty. destruct (Z.leb_spec len (Z.of_nat n)); [apply orb_true_r|].
       rewrite orb_false_r. apply Z.eqb_eq. unfold n in *. lia. }
  cbn [goto set_page send s_pc s_replies s_drv]. rewrite H6, H7, P3, P5. by split_and!.
Qed.

(** A request to write that the ring has room for is answered with success, its
    bytes queued or on the wire. *)
Lemma write_served t whom page len : s_pc t = MRecv -> sane (s_drv t) -> load64 page 0 = len -> len <= MAX_PAYLOAD_SIZE ->
  count (tx_queue (s_drv t)) + len <= BUFFER_SIZE ->
  exists k t', Nat.iter k main_step (receive (to_serial whom (SERIALREQ_WRITE, page)) t) = t' /\ s_pc t' = MRecv /\
    s_replies t' = s_replies t ++ [Rep whom SERIALREQ_SUCCESS None] /\
    s_requested t' = s_requested t ++ page_bytes page 8 len /\
    contents (tx_queue (s_drv t')) = contents (tx_queue (s_drv t)) ++ page_bytes page 8 len.
Proof.
  intros E Hs Hlen Hmax Hroom. pose proof (load64_bound page 0) as Hb. rewrite Hlen in Hb.
  set (t0 := receive (to_serial whom (SERIALREQ_WRITE, page)) t).
  assert (s_pc t0 = MWrite 0 /\ s_len t0 = len /\ s_whom t0 = whom /\ s_drv t0 = s_drv t /\ s_replies t0 = s_replies t /\
    s_page t0 = page /\ s_requested t0 = s_requested t ++ page_bytes page 8 len) as (P1 & P2 & P3 & P4 & P5 & P6 & P7).
  { unfold t0. rewrite (receive_request t whom _ page len) by done. by split_and!. }
  destruct (serial_operations_return (s_drv t) Hs) as (_ & _ & H).
  destruct (H t0 P4 P1) as (t1 & E1 & H1 & H2 & H3); [lia|lia|].
  exists (1 + (5 * Z.to_nat (s_len t0) + 3))%nat. eexists. rewrite Nat.iter_add, E1. split; [reflexivity|].
  change (Nat.iter 1 main_step t1) with (main_step t1). unfold main_step. rewrite H1.
  cbn [goto set_page s_pc s_replies s_drv s_requested]. rewrite H3, H2, P5, P3, P2, P6. split_and!; try done.
  by rewrite <- P7, <- E1, requested_kept.
Qed.
End driver.

(** ** The client's side *)

Section calls.
Context (process_list serial_name : Z) (fuel : nat) (buf len : Z) (c : sclient).
Hypothesis (Hknown : serial_service_envid c <> 0) (Hmax : len <= MAX_PAYLOAD_SIZE).

Definition read_request : Z * (Z -> Z) := (SERIALREQ_READ, store64 (sc_buf c) 0 len).
Definition write_request : Z * (Z -> Z) := (SERIALREQ_WRITE, fun x =>
  if (8 <=? x) && (x <? 8 + len) then sc_mem c (buf + (x - 8)) else store64 (sc_buf c) 0 len x).

Lemma serial_read_ok : exists c', serial_read process_list serial_name (S fuel) buf len c =
    Ret (Some (match sc_recv c 0%nat with AnError _ => 0 | AnReply v _ => v end)) c' /\
  sc_sent c' = sc_sent c ++ [read_request] /\
  (forall v p, sc_recv c 0%nat = AnReply v (Some p) ->
     sc_mem c' = (fun x => if (buf <=? x) && (x <? buf + v) then p (x - buf) else sc_mem c x)).
Proof.
  unfold serial_read. rewrite (bind_ret _ _ _ _ _ (service_known process_list serial_name fuel c Hknown)). cbn [negb].
  destruct (Z.ltb_spec MAX_PAYLOAD_SIZE len); [lia|]. rewrite bind_modify. unfold ask. rewrite bind_modify.
  unfold hear. rewrite bind_assoc, bind_get. cbn [set_sc_buf sc_recv]. rewrite bind_assoc, bind_modify.
  destruct (sc_recv c 0%nat) as [r|v [p|]]; eexists; (split; [reflexivity|split; [done|intros ? ? [=]]]). by subst.
Qed.

Lemma serial_write_ok : exists c', serial_write process_list serial_name (S fuel) buf len c =
    Ret (Some (match sc_recv c 0%nat with AnError r => r | AnReply _ _ => 0 end)) c' /\
  sc_sent c' = sc_sent c ++ [write_request] /\ sc_mem c' = sc_mem c.
Proof.
  unfold serial_write. rewrite (bind_ret _ _ _ _ _ (service_known process_list serial_name fuel c Hknown)). cbn [negb].
  destruct (Z.ltb_spec MAX_PAYLOAD_SIZE len); [lia|]. rewrite !bind_modify. unfold ask. rewrite bind_modify.
  unfold hear. rewrite bind_assoc, bind_get. cbn [set_sc_buf sc_recv]. rewrite bind_assoc, bind_modify.
  destruct (sc_recv c 0%nat) as [r|v [p|]]; eexists; by split_and!.
Qed.

Lemma write_request_len : 0 <= len -> load64 write_request.2 0 = len.
Proof.
  intros H. cbn [write_request snd]. rewrite (load_ext 8 _ (store64 (sc_buf c) 0 len)).
  - apply load64_store64_same. unfold MAX_PAYLOAD_SIZE in *. lia.
  - intros x Hx. destruct (Z.leb_spec 8 x); [lia|done].
Qed.

Lemma write_request_bytes : page_bytes write_request.2 8 len = page_bytes (sc_mem c) buf len.
Proof.
  cbn [write_request snd]. unfold page_bytes. apply list_eq. intros i. rewrite !list_lookup_fmap.
  destruct (decide (Z.of_nat i < len)) as [Hi|Hi].
  - rewrite !lookup_seqZ_lt by lia. cbn. f_equal. destruct (Z.leb_spec 8 (8 + Z.of_nat i)), (Z.ltb_spec (8 + Z.of_nat i) (8 + len)); simpl; try lia.
    f_equal. lia.
  - by rewrite !lookup_seqZ_ge by lia.
Qed.
End calls.

(** A payload that is too long ends the program with nothing sent. *)
Lemma too_long process_list serial_name fuel buf len c : serial_service_envid c <> 0 -> MAX_PAYLOAD_SIZE < len ->
  serial_read process_list serial_name (S fuel) buf len c = Panic c /\
  serial_write process_list serial_name (S fuel) buf len c = Panic c.
Proof.
  intros Hk Hl. unfold serial_read, serial_write. rewrite !(bind_ret _ _ _ _ _ (service_known process_list serial_name fuel c Hk)). cbn [negb].
  by destruct (Z.ltb_spec MAX_PAYLOAD_SIZE len); [|lia].
Qed.

(** An error of [ipc_recv], an interruption for one, makes a read of nothing
    out of a request the driver takes bytes from its ring for. *)
Lemma interrupted_read process_list serial_name fuel buf len c r : serial_service_envid c <> 0 -> len <= MAX_PAYLOAD_SIZE ->
  sc_recv c 0%nat = AnError r -> exists c', serial_read process_list serial_name (S fuel) buf len c = Ret (Some 0) c' /\
    sc_sent c' = sc_sent c ++ [read_request len c].
Proof.
  intros Hk Hl Hr. destruct (serial_read_ok process_list serial_name fuel buf len c Hk Hl) as (c' & E & H & _).
  rewrite Hr in E. by exists c'.
Qed.

(** C29: the serial line as a program uses it.  With the driver waiting for a
    message: a [serial_write] the ring has room for queues exactly the bytes of
    the caller's buffer behind those waiting, is answered with success and
    returns 0; a [serial_read] returns as many of the bytes that arrived as fit,
    oldest first, in the caller's buffer, takes just them from the driver's ring
    and changes nothing else; after each the driver waits again.  A length past
    one page's payload stops the program before anything is sent. *)
Theorem serial_calls_mean {D} `{Uart D} (process_list serial_name : Z) (fuel : nat) (buf len whom : Z) (c : sclient) (t : sys D)
  (Hknown : serial_service_envid c <> 0) (Hwait : s_pc t = MRecv) (Hs : sane (s_drv t)) (Hlen : 0 <= len) :
  (len <= MAX_PAYLOAD_SIZE -> count (tx_queue (s_drv t)) + len <= BUFFER_SIZE ->
   exists q k t', Nat.iter k main_step (receive (to_serial whom q) t) = t' /\ s_pc t' = MRecv /\
     s_replies t' = s_replies t ++ [Rep whom SERIALREQ_SUCCESS None] /\
     contents (tx_queue (s_drv t')) = contents (tx_queue (s_drv t)) ++ page_bytes (sc_mem c) buf len /\
     (forall recv, recv 0%nat = AnReply SERIALREQ_SUCCESS None ->
      exists c', serial_write process_list serial_name (S fuel) buf len (set_sc_recv recv c) = Ret (Some 0) c' /\
        sc_sent c' = sc_sent c ++ [q] /\ sc_mem c' = sc_mem c)) /\
  (len <= MAX_PAYLOAD_SIZE ->
   let rx := contents (rx_queue (s_drv t)) in
   let got := take (Z.to_nat len) rx in
   exists q k t' p, Nat.iter k main_step (receive (to_serial whom q) t) = t' /\ s_pc t' = MRecv /\
     s_replies t' = s_replies t ++ [Rep whom (Z.of_nat (length got)) (Some p)] /\
     contents (rx_queue (s_drv t')) = drop (Z.to_nat len) rx /\
     (forall recv, recv 0%nat = AnReply (Z.of_nat (length got)) (Some p) ->
      exists c', serial_read process_list serial_name (S fuel) buf len (set_sc_recv recv c) = Ret (Some (Z.of_nat (length got))) c' /\
        sc_sent c' = sc_sent c ++ [q] /\ page_bytes (sc_mem c') buf (Z.of_nat (length got)) = got /\
        (forall x, ~ (buf <= x < buf + Z.of_nat (length got)) -> sc_mem c' x = sc_mem c x))) /\
  (MAX_PAYLOAD_SIZE < len ->
   serial_read process_list serial_name (S fuel) buf len c = Panic c /\
   serial_write process_list serial_name (S fuel) buf len c = Panic c).
Proof.
  split_and!.
  - intros Hmax Hroom. exists (write_request buf len c).
    destruct (write_served t whom (write_request buf len c).2 len Hwait Hs) as (k & t' & E & H1 & H2 & _ & H3); [by apply write_request_len|done|done|].
    exists k, t'. rewrite (write_request_bytes buf len c) in H3. split_and!; [exact E|done|done|done|].
    intros recv Hr. destruct (serial_write_ok process_list serial_name fuel buf len (set_sc_recv recv c) Hknown Hmax) as (c' & Ec & H4 & H5).
    cbn [set_sc_recv sc_recv] in Ec. rewrite Hr in Ec. by exists c'.
  - intros Hmax rx got. exists (read_request len c). pose proof Hs as (_ & _ & Hok). pose proof (length_contents _ Hok) as Lc.
    destruct (read_served t whom (read_request len c).2 len Hwait Hok) as (k & t' & p & E & H1 & H2 & H3 & H4 & _);
      [cbn; apply load64_store64_same; unfold MAX_PAYLOAD_SIZE in *; lia|done|].
    fold rx in H2, H3, H4. assert (take (Z.to_nat (Z.min len (count (rx_queue (s_drv t))))) rx = got) as Eg.
    { unfold got. rewrite <- Lc, Z2Nat.inj_min, Nat2Z.id by lia. fold rx. by rewrite <- take_take, firstn_all. }
    assert (Z.to_nat (Z.min len (count (rx_queue (s_drv t)))) = length got) as En.
    { unfold got. rewrite length_take. fold rx in Lc. lia. }
    rewrite Eg in H3, H4. rewrite En in H2, H3.
    exists k, t', p. split_and!; [exact E|done|done| |].
    + apply (app_inv_head got). rewrite <- H4. unfold got. by rewrite take_drop.
    + intros recv Hr. destruct (serial_read_ok process_list serial_name fuel buf len (set_sc_recv recv c) Hknown Hmax) as (c' & Ec & Es & Em).
      cbn [set_sc_recv sc_recv] in Ec. rewrite Hr in Ec. specialize (Em _ _ Hr). exists c'. split_and!; [done|done| |].
      * transitivity (page_bytes p 0 (Z.of_nat (length got))); [|done]. rewrite Em. unfold page_bytes. apply list_eq. intros i. rewrite !list_lookup_fmap.
        destruct (decide (Z.of_nat i < Z.of_nat (length got))) as [Hi|Hi]; [|by rewrite !lookup_seqZ_ge by lia].
        rewrite !lookup_seqZ_lt by lia. cbn. f_equal.
        destruct (Z.leb_spec buf (buf + Z.of_nat i)), (Z.ltb_spec (buf + Z.of_nat i) (buf + Z.of_nat (length got))); simpl; try lia. f_equal. lia.
      * intros x Hx. rewrite Em. destruct (Z.leb_spec buf x), (Z.ltb_spec x (buf + Z.of_nat (length got))); simpl; done || lia.
  - by apply too_long.
Qed.

(** A driver with two bytes that arrived, and a client with "a" at 8192. *)
Definition demo_ring : CharQueue := enqueue 105 (enqueue 72 (queue_init (Ring (fun _ => 0) 0 0 0))).
Definition demo_waiting : sys uart :=
  SerialSys.start (Drv (Uart16550 [] [] 0) 0x10000000 (queue_init (Ring (fun _ => 0) 0 0 0)) demo_ring).
Definition demo_sclient : sclient :=
  SClient (PLib (fun x => if x =? 8192 then 97 else 0) (fun _ _ _ m => (0, m))) (fun _ => 0) 2048 [] (fun _ => AnError 0).

Lemma demo_waiting_sane : sane (s_drv demo_waiting).
Proof. split_and!; [reflexivity|split; vm_compute; intuition congruence..]. Qed.

Lemma serial_calls_mean_witness :
  (exists c', serial_write 0 0 1 8192 1 (set_sc_recv (fun _ => AnReply 0 None) demo_sclient) = Ret (Some 0) c' /\ sc_mem c' 8192 = 97) /\
  (exists p c', serial_read 0 0 1 8192 10 (set_sc_recv (fun _ => AnReply 2 (Some p)) demo_sclient) = Ret (Some 2) c' /\
     page_bytes (sc_mem c') 8192 2 = [72; 105]).
Proof.
  split.
  - destruct (serial_calls_mean 0 0 0 8192 1 9 demo_sclient demo_waiting) as [H _];
      [discriminate|reflexivity|exact demo_waiting_sane|lia|].
    destruct H as (q & k & t' & _ & _ & _ & _ & Hc); [vm_compute; discriminate|vm_compute; discriminate|].
    destruct (Hc (fun _ => AnReply 0 None)) as (c' & E & _ & Em); [reflexivity|]. exists c'. split; [exact E|]. rewrite Em. reflexivity.
  - destruct (serial_calls_mean 0 0 0 8192 10 9 demo_sclient demo_waiting) as (_ & H & _);
      [discriminate|reflexivity|exact demo_waiting_sane|lia|].
    assert (take (Z.to_nat 10) (contents (rx_queue (s_drv demo_waiting))) = [72; 105]) as Eg by (vm_compute; reflexivity).
    cbv zeta in H. rewrite Eg in H. destruct H as (q & k & t' & p & _ & _ & _ & _ & Hc); [vm_compute; discriminate|].
    destruct (Hc (fun _ => AnReply 2 (Some p))) as (c' & E & _ & Em & _); [reflexivity|].
    exists p, c'. split; [exact E|exact Em].
Defined.
